(* ===== verification/_CoqProject ===== *)
-Q . S2P
Prelude.v
Sha256.v
Catalog.v
Calendar.v
AvailabilityWindows.v
Decimal.v
Json.v
Schema.v
OrderTerms.v
Constraints.v
Delivery.v
NegotiationSchema.v
RfqSchema.v
Database.v
MarketTransactions.v
Queries.v
Scenario.v
Policy.v
Eligibility.v
TradeViews.v
Events.v
Commands.v
Watchlist.v
Benchmarks.v
Inventory.v
Ledger.v
TradeLedger.v
Admission.v
RequestParty.v
SupportDesk.v
SupportDeskSafety.v
SupportAccess.v
Trades.v
Orders.v
TradeSteps.v
TradesSafety.v
OrdersSafety.v
TradeHits.v
Lifecycle.v
Matching.v
MatchingSpec.v
MatchingSafety.v
PostOnly.v
OrderEntry.v
AutoMatch.v
OrderCreation.v
OrderCreationSafety.v
ListingSteps.v
OrderAmendment.v
OrderAmendmentSafety.v
Invalidation.v
InvalidationSafety.v
OrganizationRejection.v
Negotiations.v
NegotiationsSafety.v
Rfqs.v
RfqsSafety.v
InventoryRoutes.v
InventoryRoutesSafety.v
TradingSystem.v
TradeLiveness.v
