(* ===== verification/Prelude.v ===== *)
(** * Verdaxis backend: verification development

    Verdaxis is an exchange for maritime fuels: companies post bids and asks
    for a fuel at a delivery point and a delivery window, orders match
    automatically or are hit directly, and a trade is confirmed, delivered and
    paid.  This library models the trading core of the backend ([app/services],
    [app/routers], [app/models]) and proves what makes it correct.  Paths below
    are relative to the repository's source tree.

    ** Parts

    Registries and values.  [Catalog]: the closed registries of products,
    delivery points and demo identities ([app/market_catalog.py],
    [app/demo_identities.py]).  [Calendar]: proleptic Gregorian dates, Python's
    [datetime.date].  [AvailabilityWindows]: the delivery windows a slice of
    the book is keyed by ([app/services/availability_windows.py]).  [Decimal]:
    Python's [decimal] at the default context, as far as the services use it.
    [Sha256], [Json]: the digest and the canonical JSON text behind request
    hashes and reviewed terms.

    Rows and session.  [Schema], [NegotiationSchema], [RfqSchema]: the tables'
    rows and enumerations ([app/models]).  [Constraints]: the CHECK and UNIQUE constraints
    ([app/market_constraints.py]).  [Database]: one request's session over the
    tables with flush, commit, rollback, clock and lock trace ([app/database.py]
    and the SQLAlchemy session).  [MarketTransactions]: the bounded retry of a
    route ([market_transactions.py]).  [Queries]: ordered selections.  [Scenario]: a
    concrete market the witnesses evaluate.

    Services.  [Policy]: provenance isolation, party and order admission,
    compatibility of two orders ([provenance.py], [execution_policy.py]).
    [Eligibility]: what is public evidence ([market_data_eligibility.py],
    [market_provenance.py]).  [Events]: notifications, audit, the event outbox
    ([org_notifications.py], [audit_service.py], [market_events.py]).
    [Watchlist]: watchlist events ([watchlist_events.py]).  [Benchmarks]: the
    live volume-weighted price of a slice ([live_benchmarks.py]).  [Inventory]:
    stock reservations ([inventory_reservations.py]).  [Admission]: slice locks,
    admission under lock, the seller's fee ([market_locks.py],
    [market_admission.py], [trade_fees.py]).  [OrderTerms]: the digest of an
    order's reviewed terms ([order_terms.py]).  [Commands]: keys, hashes, stored
    results and replay ([idempotency.py], [command_results.py]).
    [RequestParty]: who a request acts for, under a market support context or
    for itself ([request_party.py], [market_support.py]).  [PostOnly]: the
    assessment that an assisted order rests ([market_support_post_only.py]).
    [Lifecycle]: the expiry sweep ([order_lifecycle.py]).  [Matching]: match on
    insert ([matching_engine.py]).  [AutoMatch]: what a match on insert announces
    ([auto_match_side_effects.py]).  [Invalidation]: cancelling the executable
    work of an organization ([market_invalidation.py]).

    Routes.  [Delivery], [TradeViews], [Trades]: the trade routes
    ([routers/trades.py]): hitting an order, confirming, declining, delivering,
    paying, and what a viewer sees.  [OrderEntry], [OrderCreation],
    [OrderAmendment], [Orders]: placing, amending and cancelling an order
    ([routers/orderbook.py]).  [InventoryRoutes]: recording, editing, deleting and
    publishing stock ([routers/inventory.py]).  [Negotiations]: the price
    conversations ([routers/negotiations.py]).  [Rfqs]: requests for quotation
    ([routers/rfq.py]).  [SupportDesk]: staff capabilities,
    support contexts and the requests that may carry one
    ([routers/market_support.py], [middleware/market_support_scope.py]).
    [OrganizationRejection]: an administrator rejects an organization
    ([routers/auth_simple.py]).

    Specifications and proofs.  [Ledger]: the market invariant [market_ok] that
    ties reserved stock to open orders and pending trades, and no order
    overfilled ([fills_ok]).  [TradeLedger], [TradeSteps]: a trade's lifecycle
    and a hit as abstract moves of the ledger.  [TradesSafety], [TradeHits],
    [OrdersSafety], [OrderCreationSafety], [OrderAmendmentSafety],
    [InventoryRoutesSafety], [InvalidationSafety], [MatchingSpec],
    [MatchingSafety], [NegotiationsSafety], [RfqsSafety], [SupportDeskSafety]: the
    routes refine their steps.
    [SupportAccess]: the desk among all other requests.  [ListingSteps]: what a
    placed and matched order does to the books.  [TradingSystem],
    [TradeLiveness]: sequences of requests.

    ** How the model corresponds to the code

    A service function [f(db, ..)] is a definition of the same name in the
    monad [M World]: it reads and writes the session's [Database], may raise
    ([exn]), and leaves a state behind either way.  The [await]s of one request
    run in order; other requests are excluded by the locks, whose order is
    recorded in [locks].  Where the code mutates an ORM object the model writes
    the row back ([put_order], [put_trade], ..): one row is one object of the
    session.  Quantities, prices and fees are [Numeric(.., 2)] columns and are
    integers of hundredths; intermediate decimal arithmetic is [Decimal].
    Timestamps are microseconds since the epoch; UUIDs are 128-bit naturals.
    A session has two clocks, the readings of [datetime.now] and the time its
    transaction began, which is PostgreSQL's [now()] ([Clocks]); a specification
    that judges a deadline or stamps a row names a time the session has read
    ([observed]) or the beginning of its transaction ([transaction_time]).
    A database constraint is checked at [flush] and raises [IntegrityError].
    Text is ASCII, and the process is taken to run in UTC.

    ** What the theorems show

    Matching executes exactly the greedy plan in price, acceptance, id priority
    ([match_order_implements_plan], [match_order_price_time_priority]), trades
    only between admissible parties ([matched_trades_are_admissible]) and keeps
    the market invariant [market_ok] ([match_order_safe]), except for one leak
    the model exposed ([match_order_expiry_strands_stock]).  Placing, amending
    and cancelling an order, hitting one and each step of a trade refine an
    abstract step: [create_order_implements_listing],
    [update_order_implements_amendment], [cancel_order_implements_withdrawal],
    [create_trade_implements_hit], [confirm_trade_implements_lifecycle] and its
    siblings; so does publishing stock ([publish_implements_listing]), while
    editing it spares what is spoken for ([inventory_edits_spare_commitments]).
    A request is the step, a replay, or a failure that commits
    nothing; what it commits satisfies [market_ok].  Composed, every sequence of
    requests keeps the invariant ([trading_keeps_market_ok]), neither loses nor
    creates stock ([trading_conserves_stock]) and only advances trades
    ([trades_only_advance]), and a pending trade can always be completed
    ([trade_can_be_completed]).  An assisted order that is assessed to rest is
    one matching leaves alone ([post_only_predicts_matching]); an amendment keeps
    its place in the queue only if it offers nothing new
    ([kept_place_admits_nothing_new]).  Negotiations are turn-taking
    conversations of at most ten offers ([negotiations_implement_bargaining],
    [bargaining_keeps_conversations]), which an overdue row blocks for good
    ([overdue_negotiation_blocks_pair]).  Requests for quotation are a board with
    one answer of each supplier, of which nothing is ever accepted
    ([rfqs_implement_board]); an anonymous one does not tell who asks
    ([anonymous_rfq_hides_buyer]), and withdrawing one takes more admission than
    its documentation says ([cancel_rfq_needs_admission]).

    Invalidating an organization cancels its pending trades, withdraws its active
    orders, restores its counterparties and releases exactly what this frees
    ([invalidation_implements_revocation]); the rejection that calls it loses the
    status it assigned ([rejection_loses_status]).

    The support desk keeps a book of grants and open contexts
    ([support_desk_implements_grants]); a context that has ended is never revived
    ([desk_never_revives_contexts]), and a revoked capability ends the assistance
    it allowed, for requests under way as well ([revocation_ends_assistance]).

    The reservation operations implement a two-account ledger
    ([inventory_operations_implement_ledger]); the expiry sweep withdraws
    exactly the due orders and drains a slice
    ([expire_market_slice_orders_withdraws_due],
    [expire_market_slice_orders_drains]).  Benchmarks are the exactly rounded
    volume-weighted average.  Delivery totals are exact and fit their columns.
    SQL clauses agree with the Python policies they mirror.  A command runs once
    per key.  Lemmas beside these show that the tradable windows tile the horizon
    and normalise canonically.

    ** Bounds

    Fan-out of a match and of an expiry sweep is 100 rows, a negotiation has ten
    rounds, as in the code.  There is no fuel: every loop is structural in the
    rows it visits.  No request of the trading system takes a day ([prompt]): a
    published demo listing, which runs for a day, is unexpired when it is
    matched.  The benchmark theorems bound a slice by a million rows so
    that totals stay within the 28 digits of the decimal context.

    ** Not modelled

    Authentication, sessions and KYC intake, forward monitoring and curves, news
    and product analytics, compliance scoring (floating point), AI and e-mail
    services, the websocket and outbox dispatchers, market quarantine, admin and
    seed scripts, migrations, deployment monitors: they do not decide trades.
    Of the modelled services: lock and statement timeouts and the database's own
    serialization failures (the retry around a route is modelled, and used where
    the code itself raises a retryable error; where none is raised it is the
    identity, [retry_transparent]), row timestamps that are
    never branched on, lengths of text columns, foreign keys (where a theorem
    needs one it is a hypothesis, kept by the trading system), the
    [observed_at] entry of order event payloads, and the paged listings.  Two
    requests interleave only where the code releases its locks, between
    transactions. *)

From stdpp Require Export base option list gmap fin_maps strings sorting.
From Stdlib Require Export ZArith Lia.

(** ** Record update

    [r <| f := v |>] is the functional form of the attribute assignment
    [r.f = v].  Each record of the model declares its eta expansion once
    ([Eta]); a field setter is read off that expansion. *)

Class Eta (R : Type) : Type := eta : R → R.

Class Setter {R T : Type} (proj : R → T) : Type :=
  set_field : (T → T) → R → R.

Ltac solve_setter proj :=
  match type of proj with
  | ?R → ?T =>
    let e := constr:(@eta R _) in
    let e' := eval cbv beta delta [eta] in e in
    let e'' := eval hnf in e' in
    match eval pattern proj in e'' with
    | ?s _ => exact (λ (f : T → T), s (λ r, f (proj r)))
    end
  end.

#[export] Hint Extern 1 (Setter ?proj) => solve_setter proj : typeclass_instances.

Declare Scope vx_scope.
Delimit Scope vx_scope with vx.

Notation "r <| f := v |>" := (set_field (proj := f) (λ _, v) r)
  (at level 1, left associativity, f at level 9, v at level 99,
   format "r  <| f  :=  v |>") : vx_scope.
#[global] Open Scope vx_scope.

(** ** Python exceptions

    [HTTPException] carries the status code and the detail.  A detail is a
    literal string, a format string with its arguments (an f-string), or the
    [{"code": .., "message": ..}] dictionary some routes raise, with further
    members or without. *)

Inductive fmt_arg :=
  | AStr (s : string)
  | ADec (hundredths : Z)
  | AInt (z : Z)
  | AUuid (u : N)
  | ANone.

Inductive detail :=
  | Msg (s : string)
  | Fmt (template : string) (args : list fmt_arg)
  | Coded (code message : string)
  | CodedWith (code message : string) (extra : list (string * fmt_arg)).

Inductive exn :=
  | HTTPException (status_code : Z) (d : detail)
  | ValueError (d : detail)
  | RuntimeError (d : detail)
  | OverflowError
  | KeyError
  | InvalidOperation
  | MultipleResultsFound
  | NoResultFound
  | UnboundLocalError
  | TypeError
  | AttributeError
  | IntegrityError (constraint : string)
  | RetryableMarketTransactionError (sqlstate : string).

#[export] Instance fmt_arg_eq_dec : EqDecision fmt_arg.
Proof. solve_decision. Defined.
#[export] Instance detail_eq_dec : EqDecision detail.
Proof. solve_decision. Defined.
#[export] Instance exn_eq_dec : EqDecision exn.
Proof. solve_decision. Defined.

(** ** Pure computations that may raise *)

Inductive res (A : Type) :=
  | Val (a : A)
  | Exc (e : exn).
Arguments Val {A} a.
Arguments Exc {A} e.

#[export] Instance res_ret : MRet res := λ A a, Val a.
#[export] Instance res_bind : MBind res := λ A B k m,
  match m with Val a => k a | Exc e => Exc e end.

Definition is_val {A} (r : res A) : bool :=
  match r with Val _ => true | Exc _ => false end.

(** ** Stateful computations that may raise

    [M S A] is a coroutine over the state [S]: it returns a value or raises,
    and in both cases leaves a state behind. *)

Inductive outcome (S A : Type) :=
  | Ok (a : A) (s : S)
  | Raise (e : exn) (s : S).
Arguments Ok {S A} a s.
Arguments Raise {S A} e s.

Definition M (S A : Type) : Type := S → outcome S A.

#[export] Instance M_ret {S} : MRet (M S) := λ A a s, Ok a s.
#[export] Instance M_bind {S} : MBind (M S) := λ A B k m s,
  match m s with Ok a s' => k a s' | Raise e s' => Raise e s' end.

Definition raise {S A} (e : exn) : M S A := λ s, Raise e s.
Definition gets {S A} (f : S → A) : M S A := λ s, Ok (f s) s.
Definition modify {S} (f : S → S) : M S unit := λ s, Ok tt (f s).
Definition lift {S A} (r : res A) : M S A := λ s,
  match r with Val a => Ok a s | Exc e => Raise e s end.

(** [if cond: raise e] *)
Definition refuse {S} (cond : bool) (e : exn) : M S unit :=
  if cond then raise e else mret tt.

Definition final {S A} (o : outcome S A) : S :=
  match o with Ok _ s | Raise _ s => s end.

Fixpoint iterM {S A} (f : A → M S unit) (l : list A) : M S unit :=
  match l with
  | [] => mret tt
  | x :: l => f x ;; iterM f l
  end.

Fixpoint mapM {S A B} (f : A → M S B) (l : list A) : M S (list B) :=
  match l with
  | [] => mret []
  | x :: l => y ← f x; ys ← mapM f l; mret (y :: ys)
  end.

(** ** A program logic for [M]

    [wp m Q E s]: run from [s], [m] either returns with [Q] or raises with [E]. *)

Definition wp {S A} (m : M S A) (Q : A → S → Prop) (E : exn → S → Prop) (s : S) : Prop :=
  match m s with Ok a s' => Q a s' | Raise e s' => E e s' end.

Create HintDb vx discriminated.

(** From [s], [m] leaves a state [R]-related to [s]. *)
Definition Keeps_at {S A} (R : relation S) (m : M S A) (s : S) : Prop := R s (final (m s)).

Section wp_rules.
Context {S : Type}.
Implicit Types s : S.

Lemma wp_ret {A} (a : A) Q E s : Q a s → wp (mret a) Q E s.
Proof. done. Qed.

Lemma wp_bind {A B} (m : M S A) (k : A → M S B) Q E s :
  wp m (λ a, wp (k a) Q E) E s → wp (m ≫= k) Q E s.
Proof. unfold wp, mbind, M_bind. by destruct (m s). Qed.

Lemma wp_mono {A} (m : M S A) (Q Q' : A → S → Prop) (E E' : exn → S → Prop) s :
  wp m Q E s → (∀ a s', Q a s' → Q' a s') → (∀ e s', E e s' → E' e s') →
  wp m Q' E' s.
Proof. unfold wp. destruct (m s); eauto. Qed.

Lemma wp_and {A} (m : M S A) Q1 Q2 E1 E2 s :
  wp m Q1 E1 s → wp m Q2 E2 s →
  wp m (λ a s', Q1 a s' ∧ Q2 a s') (λ e s', E1 e s' ∧ E2 e s') s.
Proof. unfold wp. destruct (m s); eauto. Qed.

Lemma wp_raise {A} e (Q : A → S → Prop) E s : E e s → wp (raise e) Q E s.
Proof. done. Qed.

Lemma wp_refuse b e Q (E : exn → S → Prop) s :
  (b = true → E e s) → (b = false → Q tt s) → wp (refuse b e) Q E s.
Proof. unfold wp, refuse. destruct b; cbv; eauto. Qed.

Lemma wp_gets {A} (f : S → A) Q E s : Q (f s) s → wp (gets f) Q E s.
Proof. done. Qed.

Lemma wp_modify f Q E s : Q tt (f s) → wp (modify f) Q E s.
Proof. done. Qed.

Lemma wp_lift {A} (r : res A) Q E s :
  (∀ a, r = Val a → Q a s) → (∀ e, r = Exc e → E e s) → wp (lift r) Q E s.
Proof. unfold wp, lift. destruct r; eauto. Qed.

(** A loop keeps what each of its iterations keeps. *)
Lemma wp_iterM {A} (f : A → M S unit) l (I : S → Prop) E s :
  (∀ x s, x ∈ l → I s → wp (f x) (λ _, I) E s) → I s → wp (iterM f l) (λ _, I) E s.
Proof.
  revert s. induction l as [|x l IH]; intros s Hf Hs; [by apply wp_ret|].
  apply wp_bind. eapply wp_mono; [apply Hf; [left|done]| |done].
  intros ? s' Hs'. apply IH; [|done]. intros y s'' Hy. apply Hf. by right.
Qed.

(** A loop that collects results, with what is done so far. *)
Lemma wp_mapM {A B} (f : A → M S B) l (I : list A → list B → S → Prop) E s :
  (∀ l1 x l2 ys s, l = l1 ++ x :: l2 → I l1 ys s →
     wp (f x) (λ y s', I (l1 ++ [x]) (ys ++ [y]) s') E s) →
  I [] [] s → wp (mapM f l) (λ ys s', I l ys s') E s.
Proof.
  intros Hf Hs.
  cut (∀ l2 l1 ys s, l = l1 ++ l2 → I l1 ys s →
    wp (mapM f l2) (λ zs s', I l (ys ++ zs) s') E s).
  { intros H. by apply (H l [] [] s). }
  clear s Hs. induction l2 as [|x l2 IH]; intros l1 ys s Hl HI.
  { apply wp_ret. rewrite app_nil_r in *. by subst. }
  cbn [mapM]. apply wp_bind. eapply wp_mono; [by eapply Hf| |done].
  intros y s' HI'. apply wp_bind.
  eapply wp_mono; [apply (IH (l1 ++ [x]) (ys ++ [y]) s'); [by rewrite <-app_assoc|done]| |done].
  intros zs s'' HI''. cbn beta in HI''. apply wp_ret. rewrite <-app_assoc in HI''. exact HI''.
Qed.

(** What a frame and a computation's own postcondition say together. *)
Lemma wp_keeps {A} (R : relation S) (m : M S A) Q E s :
  Keeps_at R m s → wp m Q E s →
  wp m (λ a s', Q a s' ∧ R s s') (λ e s', E e s' ∧ R s s') s.
Proof. unfold wp, Keeps_at. destruct (m s); eauto. Qed.

(** Running a computation that returned. *)
Lemma wp_ok {A} (m : M S A) Q E s a s' : wp m Q E s → m s = Ok a s' → Q a s'.
Proof. unfold wp. intros H Hm. by rewrite Hm in H. Qed.
Lemma wp_exn {A} (m : M S A) Q E s e s' : wp m Q E s → m s = Raise e s' → E e s'.
Proof. unfold wp. intros H Hm. by rewrite Hm in H. Qed.
End wp_rules.

(** ** Computations that do not raise

    [Succeeds m s]: run from [s], [m] returns.  With a frame ([Keeps]) this
    carries an invariant through a sequence. *)

Definition Succeeds {S A} (m : M S A) (s : S) : Prop := ∃ a s', m s = Ok a s'.

Section succeeds.
Context {S : Type}.
Implicit Types s : S.

Lemma succeeds_ret {A} (a : A) s : Succeeds (mret a) s.
Proof. by eexists _, _. Qed.
Lemma succeeds_gets {A} (f : S → A) s : Succeeds (gets f) s.
Proof. by eexists _, _. Qed.
Lemma succeeds_modify f s : Succeeds (modify f) s.
Proof. by eexists _, _. Qed.
Lemma succeeds_lift {A} (r : res A) s a : r = Val a → Succeeds (lift r) s.
Proof. intros ->. by eexists _, _. Qed.
Lemma succeeds_refuse b e s : b = false → Succeeds (refuse b e) s.
Proof. intros ->. by eexists _, _. Qed.
Lemma succeeds_bind {A B} (m : M S A) (k : A → M S B) s :
  Succeeds m s → (∀ a s', m s = Ok a s' → Succeeds (k a) s') → Succeeds (m ≫= k) s.
Proof.
  intros (a & s' & Hm) Hk. destruct (Hk a s' Hm) as (b & s'' & Hb). exists b, s''.
  unfold mbind, M_bind. by rewrite Hm.
Qed.
Lemma succeeds_iterM {A} (f : A → M S unit) l (I : S → Prop) s :
  (∀ x s, x ∈ l → I s → Succeeds (f x) s) → (∀ x s u s', I s → f x s = Ok u s' → I s') →
  I s → Succeeds (iterM f l) s.
Proof.
  revert s. induction l as [|x l IH]; intros s Hf HI Hs; [apply succeeds_ret|].
  apply succeeds_bind; [apply Hf; [left|done]|]. intros u s' Hrun.
  apply IH; [|done|by eapply HI]. intros y s'' Hy. apply Hf. by right.
Qed.
End succeeds.

(** ** Inversion of a returning run *)

Section inversion.
Context {S : Type}.

Lemma bind_ok {A B} (m : M S A) (k : A → M S B) s b s' :
  (m ≫= k) s = Ok b s' → ∃ a s1, m s = Ok a s1 ∧ k a s1 = Ok b s'.
Proof. unfold mbind, M_bind. destruct (m s); [eauto | done]. Qed.

Lemma bind_run {A B} (m : M S A) (k : A → M S B) s a s1 :
  m s = Ok a s1 → (m ≫= k) s = k a s1.
Proof. unfold mbind, M_bind. by intros ->. Qed.

Lemma bind_assoc {A B C} (m : M S A) (k : A → M S B) (h : B → M S C) s :
  ((m ≫= k) ≫= h) s = (m ≫= λ a, k a ≫= h) s.
Proof. unfold mbind, M_bind. by destruct (m s). Qed.

Lemma bind_raise {A B} (m : M S A) (k : A → M S B) s e s1 :
  m s = Raise e s1 → (m ≫= k) s = Raise e s1.
Proof. unfold mbind, M_bind. by intros ->. Qed.

Lemma mapM_ok_length {A B} (f : A → M S B) l s ys s' : mapM f l s = Ok ys s' → length ys = length l.
Proof.
  revert s ys. induction l as [|x l IH]; intros s ys; [by inversion 1|]. cbn [mapM].
  intros (y & s1 & _ & (zs & s2 & Hzs & H)%bind_ok)%bind_ok. inversion H; subst. cbn. f_equal.
  by eapply IH.
Qed.

Lemma refuse_ok b e (s : S) u s' : refuse b e s = Ok u s' → b = false ∧ s' = s.
Proof. unfold refuse. destruct b; by inversion 1. Qed.

Lemma lift_ok {A} (r : res A) (s : S) a s' : lift r s = Ok a s' → r = Val a ∧ s' = s.
Proof. unfold lift. destruct r; by inversion 1. Qed.
End inversion.

(** Decompose a hypothesis saying that a monadic run returned.  Only the
    binds and the primitive steps are inverted; named operations are left as
    hypotheses for their own lemmas, except those [inv_run_hook] knows. *)
Ltac inv_run_hook H := idtac.
Ltac inv_run H :=
  lazymatch type of H with
  | (mbind _ _) _ = Ok _ _ =>
      let a := fresh "a" in let s := fresh "s" in let H1 := fresh "Hrun" in
      apply bind_ok in H as (a & s & H1 & H); inv_run H1; inv_run H
  | refuse _ _ _ = Ok _ _ =>
      let Hb := fresh "Hguard" in let Hs := fresh "Hs" in
      apply refuse_ok in H as [Hb Hs]; try subst
  | lift _ _ = Ok _ _ =>
      let Hb := fresh "Hlift" in let Hs := fresh "Hs" in
      apply lift_ok in H as [Hb Hs]; try subst
  | mret _ _ = Ok _ _ => inversion H; try subst; clear H
  | gets _ _ = Ok _ _ => inversion H; try subst; clear H
  | modify _ _ = Ok _ _ => inversion H; try subst; clear H
  | raise _ _ = Ok _ _ => discriminate H
  | _ => inv_run_hook H
  end.

(** ** Relational frames

    [Keeps R m]: whether [m] returns or raises, the state it leaves is
    [R]-related to the one it started from.  For a preorder [R] this composes,
    so a handler's frame follows from the frames of its parts. *)

Definition Keeps {S A} (R : relation S) (m : M S A) : Prop :=
  ∀ s, R s (final (m s)).

Create HintDb keeps.

Section keeps.
Context {S : Type} (R : relation S) `{!PreOrder R}.

Lemma keeps_ret {A} (a : A) : Keeps R (mret a : M S A).
Proof. by intros s. Qed.
Lemma keeps_raise {A} e : Keeps R (raise e : M S A).
Proof. by intros s. Qed.
Lemma keeps_gets {A} (f : S → A) : Keeps R (gets f).
Proof. by intros s. Qed.
Lemma keeps_lift {A} (r : res A) : Keeps R (lift r : M S A).
Proof. intros s. unfold lift. by destruct r. Qed.
Lemma keeps_refuse b e : Keeps R (refuse b e : M S unit).
Proof. intros s. unfold refuse. by destruct b. Qed.
Lemma keeps_modify f : (∀ s, R s (f s)) → Keeps R (modify f).
Proof. intros H s. apply H. Qed.
Lemma keeps_bind {A B} (m : M S A) (k : A → M S B) :
  Keeps R m → (∀ a, Keeps R (k a)) → Keeps R (m ≫= k).
Proof.
  intros Hm Hk s. unfold mbind, M_bind. specialize (Hm s).
  destruct (m s) as [a s1|e s1]; [|done]. etrans; [done|]. apply Hk.
Qed.
Lemma keeps_iterM {A} (f : A → M S unit) l :
  (∀ x, Keeps R (f x)) → Keeps R (iterM f l).
Proof.
  intros Hf. induction l; [apply keeps_ret|]. apply keeps_bind; auto.
Qed.
Lemma keeps_mapM {A B} (f : A → M S B) l :
  (∀ x, Keeps R (f x)) → Keeps R (mapM f l).
Proof.
  intros Hf. induction l; [apply keeps_ret|].
  apply keeps_bind; [done|]. intros y. apply keeps_bind; [done|].
  intros ys. apply keeps_ret.
Qed.
(** A framed step first: either it raises, or the run goes on from a related state. *)
Lemma frame_bind {A B} (m : M S A) (k : A → M S B) (P : outcome S B → Prop) s :
  Keeps R m → (∀ e s1, R s s1 → P (Raise e s1)) →
  (∀ a s1, m s = Ok a s1 → R s s1 → P (k a s1)) → P ((m ≫= k) s).
Proof.
  intros Hm He Hk. specialize (Hm s). unfold mbind, M_bind. destruct (m s) eqn:Hrun; eauto.
Qed.
Lemma keeps_ok {A} (m : M S A) s a s' : Keeps R m → m s = Ok a s' → R s s'.
Proof. intros H Hm. specialize (H s). by rewrite Hm in H. Qed.
End keeps.

#[export] Hint Resolve keeps_ret keeps_raise keeps_gets keeps_lift keeps_refuse : keeps.

(** Walk through a monadic term with the frame rules; leaves come from the
    [keeps] database. *)
Ltac keeps_step :=
  match goal with
  | |- Keeps _ (mbind _ _) => apply keeps_bind; [typeclasses eauto| |intros ?]
  | |- Keeps _ (iterM _ _) => apply keeps_iterM; [typeclasses eauto|intros ?]
  | |- Keeps _ (mapM _ _) => apply keeps_mapM; [typeclasses eauto|intros ?]
  | |- Keeps _ (match ?x with _ => _ end) => destruct x
  | |- Keeps _ (let _ := _ in _) => cbv zeta
  | |- Keeps _ _ => solve [eauto 3 with keeps typeclass_instances]
  end.
Ltac keeps := repeat keeps_step.

(** ** Sums over finite maps *)

Definition sum_map {K V} `{Countable K} (f : V → Z) (m : gmap K V) : Z :=
  map_fold (λ _ v acc, f v + acc)%Z 0%Z m.

Section sum_map.
Context {K V : Type} `{Countable K} (f : V → Z).
Implicit Types m : gmap K V.
Local Open Scope Z_scope.

Lemma sum_map_empty : sum_map f (∅ : gmap K V) = 0.
Proof. apply map_fold_empty. Qed.

Lemma sum_map_insert m k v :
  m !! k = None → sum_map f (<[k:=v]> m) = f v + sum_map f m.
Proof.
  intros Hk. unfold sum_map. rewrite map_fold_insert_L; [done| |done].
  intros. lia.
Qed.

Lemma sum_map_delete m k v :
  m !! k = Some v → sum_map f m = f v + sum_map f (delete k m).
Proof.
  intros Hk. rewrite <-(insert_delete_id m k v) at 1 by done.
  apply sum_map_insert, lookup_delete_eq.
Qed.

Lemma sum_map_update m k v v' :
  m !! k = Some v → sum_map f (<[k:=v']> m) = sum_map f m - f v + f v'.
Proof.
  intros Hk. rewrite (sum_map_delete m k v Hk).
  rewrite <-insert_delete_eq, sum_map_insert by apply lookup_delete_eq. lia.
Qed.

Lemma sum_map_nonneg m : (∀ k v, m !! k = Some v → 0 <= f v) → 0 <= sum_map f m.
Proof.
  induction m as [|k v m Hk IH] using map_ind; intros Hf.
  { by rewrite sum_map_empty. }
  rewrite sum_map_insert by done.
  assert (0 <= f v) by (eapply (Hf k); by rewrite lookup_insert_eq).
  assert (0 <= sum_map f m); [|lia].
  apply IH. intros k' v' Hk'. apply (Hf k'). rewrite lookup_insert_ne; [done|].
  intros ->. congruence.
Qed.

Lemma sum_map_le_one m k v :
  (∀ k v, m !! k = Some v → 0 <= f v) → m !! k = Some v → f v <= sum_map f m.
Proof.
  intros Hf Hk. rewrite (sum_map_delete m k v Hk).
  assert (0 <= sum_map f (delete k m)); [|lia].
  apply sum_map_nonneg. intros k' v' [_ ?]%lookup_delete_Some. eauto.
Qed.
End sum_map.

Lemma sum_map_ext {K V} `{Countable K} (f g : V → Z) (m : gmap K V) :
  (∀ k v, m !! k = Some v → f v = g v) → sum_map f m = sum_map g m.
Proof.
  induction m as [|k v m Hk IH] using map_ind; intros H'; [done|].
  rewrite !sum_map_insert by done. rewrite IH.
  - rewrite (H' k v); [done|]. apply lookup_insert_eq.
  - intros k' v' Hk'. apply (H' k'). rewrite lookup_insert_ne; [done|]. intros ->. congruence.
Qed.

Lemma sum_map_zero {K V} `{Countable K} (f : V → Z) (m : gmap K V) :
  (∀ k v, m !! k = Some v → f v = 0%Z) → sum_map f m = 0%Z.
Proof.
  intros H'. rewrite (sum_map_ext f (λ _, 0%Z)) by done. clear H'.
  induction m as [|k v m Hk IH] using map_ind; [done|]. by rewrite sum_map_insert, IH.
Qed.

Lemma sum_map_fmap {K V W} `{Countable K} (f : W → Z) (g : V → W) (m : gmap K V) :
  sum_map f (g <$> m) = sum_map (λ v, f (g v)) m.
Proof.
  induction m as [|k v m Hk IH] using map_ind; [by rewrite fmap_empty|].
  rewrite fmap_insert, !sum_map_insert, IH; [done|done|]. by rewrite lookup_fmap, Hk.
Qed.

Lemma sum_map_plus {K V} `{Countable K} (f g : V → Z) (m : gmap K V) :
  sum_map (λ v, f v + g v)%Z m = (sum_map f m + sum_map g m)%Z.
Proof.
  induction m as [|k v m Hk IH] using map_ind; [done|]. rewrite !sum_map_insert, IH by done. lia.
Qed.

(** The order of two sums. *)
Lemma sum_map_swap {K L V W} `{Countable K, Countable L} (f : V → W → Z) (m : gmap K V) (n : gmap L W) :
  sum_map (λ v, sum_map (f v) n) m = sum_map (λ w, sum_map (λ v, f v w) m) n.
Proof.
  induction m as [|k v m Hk IH] using map_ind.
  - rewrite sum_map_empty. symmetry. apply sum_map_zero. intros. apply sum_map_empty.
  - rewrite sum_map_insert, IH, <-sum_map_plus by done. apply sum_map_ext. intros j w _.
    by rewrite sum_map_insert.
Qed.

(** A sum with one term at most. *)
Lemma sum_map_at {K V} `{Countable K} (f : V → Z) (m : gmap K V) k :
  (∀ j v, m !! j = Some v → j ≠ k → f v = 0%Z) →
  sum_map f m = match m !! k with Some v => f v | None => 0%Z end.
Proof.
  intros H'. destruct (m !! k) as [v|] eqn:Hk.
  - rewrite (sum_map_delete _ m k v Hk), sum_map_zero; [lia|].
    intros j w [Hj Hw]%lookup_delete_Some. by apply (H' j).
  - apply sum_map_zero. intros j w Hw. apply (H' j w Hw). congruence.
Qed.

Definition sum_list {V} (f : V → Z) (l : list V) : Z := foldr (λ v acc, f v + acc)%Z 0%Z l.

Lemma sum_list_permutation {V} (f : V → Z) l l' : l ≡ₚ l' → sum_list f l = sum_list f l'.
Proof. unfold sum_list. induction 1; cbn; lia. Qed.
Lemma sum_list_filter {V} (P : V → bool) (f : V → Z) l :
  sum_list f (filter (λ v, P v = true) l) = sum_list (λ v, if P v then f v else 0%Z) l.
Proof.
  induction l as [|v l IH]; [done|]. rewrite filter_cons. cbn. destruct (P v) eqn:Hv.
  - rewrite decide_True by done. cbn. unfold sum_list in IH. by rewrite IH.
  - rewrite decide_False by done. by rewrite IH.
Qed.
Lemma sum_list_map {V} (f : V → Z) (m : gmap N V) : sum_list f (snd <$> map_to_list m) = sum_map f m.
Proof.
  unfold sum_map, sum_list. rewrite map_fold_foldr. induction (map_to_list m) as [|[k v] l IH]; [done|].
  cbn. by rewrite IH.
Qed.

(** Writing rows back under their own keys. *)
Definition put_all {K V} `{Countable K} (key : V → K) (l : list V) (m : gmap K V) : gmap K V :=
  foldl (λ m x, <[ key x := x ]> m) m l.

Lemma put_all_fmap {K V} `{Countable K} (key : V → K) (f : V → V) (P : V → bool) (l : list V) (m : gmap K V) :
  (∀ k x, m !! k = Some x → key x = k) → (∀ x, key (f x) = key x) →
  (∀ x, x ∈ l ↔ m !! key x = Some x ∧ P x = true) →
  put_all key (f <$> l) m = (λ x, if P x then f x else x) <$> m.
Proof.
  intros Hkey Hf Hl.
  assert (∀ l' k, (∀ x, x ∈ l' → x ∈ l) →
    put_all key (f <$> l') m !! k
    = (λ x, if decide (k ∈ key <$> l') then f x else x) <$> m !! k) as Hput.
  { intros l'. induction l' as [|y l' IH] using rev_ind; intros k Hsub.
    { cbn. destruct (m !! k); [|done]. cbn. by rewrite decide_False by apply not_elem_of_nil. }
    unfold put_all. rewrite !fmap_app, foldl_app. cbn. fold (put_all key (f <$> l') m).
    assert (m !! key y = Some y) as Hy by (apply Hl, Hsub, elem_of_app; right; by left).
    rewrite Hf. destruct (decide (k = key y)) as [->|Hne].
    - rewrite lookup_insert_eq, Hy. cbn. rewrite decide_True; [done|]. apply elem_of_app. right. by left.
    - rewrite lookup_insert_ne by congruence. rewrite IH by (intros x Hx; apply Hsub, elem_of_app; by left).
      destruct (m !! k) as [x|]; [|done]. cbn. f_equal. destruct (decide (k ∈ key <$> l')) as [Hin|Hin].
      + rewrite decide_True; [done|]. apply elem_of_app. by left.
      + rewrite decide_False; [done|]. by intros [?|?%list_elem_of_singleton]%elem_of_app. }
  apply map_eq. intros k. rewrite (Hput l k) by done. rewrite lookup_fmap.
  destruct (m !! k) as [x|] eqn:Hx; [|done]. cbn. f_equal. pose proof (Hkey k x Hx) as <-.
  destruct (P x) eqn:HP.
  - rewrite decide_True; [done|]. apply list_elem_of_fmap_2, Hl. done.
  - rewrite decide_False; [done|]. intros (y & Hk & [Hy HPy]%Hl)%list_elem_of_fmap.
    rewrite <-Hk in Hy. congruence.
Qed.

Lemma if_same {A} (b : bool) (x : A) : (if b then x else x) = x.
Proof. by destruct b. Qed.

(** ** Lists *)

Lemma Forall_filter {A} (P Q : A → Prop) `{∀ x, Decision (Q x)} (l : list A) :
  Forall P l → Forall P (filter Q l).
Proof.
  rewrite !Forall_forall. intros HP x Hx. apply HP. by apply list_elem_of_filter in Hx as [_ ?].
Qed.

Lemma Forall2_elem_r {A B} (R : A → B → Prop) l k y :
  Forall2 R l k → y ∈ k → ∃ x, x ∈ l ∧ R x y.
Proof.
  induction 1 as [|x z l k Hxz _ IH]; [set_solver|].
  intros [->|Hy]%elem_of_cons; [exists x; split; [left|done]|].
  destruct (IH Hy) as (a & ? & ?). exists a. split; [by right|done].
Qed.

Lemma Forall2_elem_l {A B} (R : A → B → Prop) l k x :
  Forall2 R l k → x ∈ l → ∃ y, y ∈ k ∧ R x y.
Proof.
  induction 1 as [|a z l k Haz _ IH]; [set_solver|].
  intros [->|Hy]%elem_of_cons; [exists z; split; [left|done]|].
  destruct (IH Hy) as (b & ? & ?). exists b. split; [by right|done].
Qed.

Lemma StronglySorted_filter {A} (R : relation A) (P : A → Prop) `{∀ x, Decision (P x)} (l : list A) :
  StronglySorted R l → StronglySorted R (filter P l).
Proof.
  induction 1 as [|x l Hl IH Hx]; [constructor|]. rewrite filter_cons.
  case_decide; [constructor; [done|by apply Forall_filter]|done].
Qed.

Lemma StronglySorted_take {A} (R : relation A) (k : nat) (l : list A) :
  StronglySorted R l → StronglySorted R (take k l).
Proof. intros Hl. rewrite <-(take_drop k l) in Hl. by eapply StronglySorted_app_1_l. Qed.

(** ** Python values the components share *)

(** A [uuid.UUID] is its 128-bit integer: [str] prints it in fixed-width
    lower-case hexadecimal, so sorting by [str], PostgreSQL's [ORDER BY] on a
    uuid column and the order on the integers agree. *)
Abbreviation uuid := N (only parsing).

(** A timezone-aware [datetime], as microseconds since the Unix epoch (UTC). *)
Abbreviation datetime := Z (only parsing).

(** [str.strip] and [str.upper], on ASCII text. *)
Definition is_space (c : Ascii.ascii) : bool :=
  let n := Ascii.N_of_ascii c in
  (bool_decide (9 ≤ n ≤ 13) || bool_decide (28 ≤ n ≤ 32))%N.

Definition upper_ascii (c : Ascii.ascii) : Ascii.ascii :=
  let n := Ascii.N_of_ascii c in
  if (bool_decide (97 ≤ n ≤ 122))%N then Ascii.ascii_of_N (n - 32) else c.

#[global] Arguments is_space : simpl never.
#[global] Arguments upper_ascii : simpl never.

(** Stripping the characters a predicate selects, from both ends. *)
Fixpoint lstrip_by (p : Ascii.ascii → bool) (s : string) : string :=
  match s with
  | EmptyString => EmptyString
  | String c s' => if p c then lstrip_by p s' else s
  end.

Fixpoint rstrip_by (p : Ascii.ascii → bool) (s : string) : string :=
  match s with
  | EmptyString => EmptyString
  | String c s' =>
      match rstrip_by p s' with
      | EmptyString => if p c then EmptyString else String c EmptyString
      | r => String c r
      end
  end.

Definition strip_by (p : Ascii.ascii → bool) (s : string) : string :=
  rstrip_by p (lstrip_by p s).

Definition strip : string → string := strip_by is_space.

(** Every character of [s] satisfies [q]. *)
Fixpoint all_chars (q : Ascii.ascii → bool) (s : string) : bool :=
  match s with
  | EmptyString => true
  | String c s => q c && all_chars q s
  end.

Lemma lstrip_by_ext p q s : all_chars (λ c, Bool.eqb (p c) (q c)) s = true → lstrip_by p s = lstrip_by q s.
Proof.
  induction s as [|c s IH]; [done|]. simpl. rewrite andb_true_iff, Bool.eqb_true_iff.
  intros [-> Hs]. by rewrite IH.
Qed.

Lemma rstrip_by_ext p q s : all_chars (λ c, Bool.eqb (p c) (q c)) s = true → rstrip_by p s = rstrip_by q s.
Proof.
  induction s as [|c s IH]; [done|]. simpl. rewrite andb_true_iff, Bool.eqb_true_iff.
  intros [-> Hs]. by rewrite IH.
Qed.

Lemma all_chars_lstrip_by q p s : all_chars q s = true → all_chars q (lstrip_by p s) = true.
Proof.
  induction s as [|c s IH]; [done|]. simpl. intros H. destruct (p c); [|done].
  apply IH. by apply andb_true_iff in H as [_ ?].
Qed.

(** Two predicates that agree on the characters of a text strip it alike. *)
Lemma strip_by_ext p q s :
  all_chars (λ c, Bool.eqb (p c) (q c)) s = true → strip_by p s = strip_by q s.
Proof.
  intros H. unfold strip_by. rewrite (lstrip_by_ext p q s H).
  by apply rstrip_by_ext, all_chars_lstrip_by.
Qed.

Lemma rstrip_by_none p s : all_chars (λ c, negb (p c)) s = true → rstrip_by p s = s.
Proof.
  induction s as [|c s IH]; [done|]. simpl. rewrite andb_true_iff, negb_true_iff.
  intros [Hc Hs]. rewrite IH by done. destruct s; [by rewrite Hc|done].
Qed.

Lemma strip_by_none p s : all_chars (λ c, negb (p c)) s = true → strip_by p s = s.
Proof.
  intros Hs. unfold strip_by. replace (lstrip_by p s) with s; [by apply rstrip_by_none|].
  destruct s as [|c s]; [done|]. simpl in *. by destruct (p c).
Qed.

(** Stripping again, by fewer characters, changes nothing. *)
Lemma rstrip_by_again p q s :
  (∀ c, q c = true → p c = true) → rstrip_by q (rstrip_by p s) = rstrip_by p s.
Proof.
  intros Hqp. induction s as [|c s IH]; [done|]. cbn [rstrip_by].
  destruct (rstrip_by p s) as [|c' r] eqn:Hr.
  - destruct (p c) eqn:Hp; [done|]. cbn. destruct (q c) eqn:Hq; [|done]. apply Hqp in Hq. congruence.
  - cbn [rstrip_by] in *. by rewrite IH.
Qed.

Lemma lstrip_by_head p s : match lstrip_by p s with EmptyString => True | String c _ => p c = false end.
Proof. induction s as [|c s IH]; [done|]. cbn [lstrip_by]. by destruct (p c) eqn:Hp. Qed.

Lemma strip_by_again p q s :
  (∀ c, q c = true → p c = true) → strip_by q (strip_by p s) = strip_by p s.
Proof.
  intros Hqp. unfold strip_by. rewrite <-(rstrip_by_again p q) at 2 by done. f_equal.
  pose proof (lstrip_by_head p s) as Hh. destruct (lstrip_by p s) as [|c r]; [done|].
  cbn [rstrip_by]. rewrite Hh. destruct (q c) eqn:Hq; [apply Hqp in Hq; congruence|].
  destruct (rstrip_by p r); cbn [lstrip_by]; by rewrite Hq.
Qed.

Fixpoint upper (s : string) : string :=
  match s with
  | EmptyString => EmptyString
  | String c s' => String (upper_ascii c) (upper s')
  end.

(** Python truthiness of an optional string: [not (value or "").strip()]. *)
Definition is_blank (s : option string) : bool :=
  bool_decide (strip (default "" s) = "").
