(* ===== verification/Sha256.v ===== *)
(** * SHA-256

    [hashlib.sha256(text).hexdigest()], executable, on a string of bytes: the
    request hashes and the reviewed-terms digest are computed with it.  Words
    are 32-bit, held in [N]. *)

From Stdlib Require Import Ascii.
From S2P Require Import Prelude.
Local Open Scope N_scope.

Definition w32 (x : N) : N := N.land x 0xffffffff.
Definition add32 (x y : N) : N := w32 (x + y).
Definition rotr (x n : N) : N := N.lor (N.shiftr x n) (w32 (N.shiftl x (32 - n))).
Definition not32 (x : N) : N := N.lxor x 0xffffffff.

Definition big_sigma0 (x : N) : N := N.lxor (rotr x 2) (N.lxor (rotr x 13) (rotr x 22)).
Definition big_sigma1 (x : N) : N := N.lxor (rotr x 6) (N.lxor (rotr x 11) (rotr x 25)).
Definition small_sigma0 (x : N) : N := N.lxor (rotr x 7) (N.lxor (rotr x 18) (N.shiftr x 3)).
Definition small_sigma1 (x : N) : N := N.lxor (rotr x 17) (N.lxor (rotr x 19) (N.shiftr x 10)).
Definition choose (x y z : N) : N := N.lxor (N.land x y) (N.land (not32 x) z).
Definition majority (x y z : N) : N := N.lxor (N.land x y) (N.lxor (N.land x z) (N.land y z)).

(** The standard's constants: the first 32 fractional bits of the square and
    cube roots of the first primes. *)
Definition is_prime (n : nat) : bool :=
  Nat.leb 2 n && forallb (λ k, negb (Nat.eqb (Nat.modulo n k) 0)) (seq 2 (n - 2)).
Definition primes : list N := Eval vm_compute in N.of_nat <$> filter (λ n, is_prime n = true) (seq 2 310).

(** The largest [r] with [r ^ 3 <= n] and the given number of bits. *)
Fixpoint cube_root (bits : nat) (n r : N) : N :=
  match bits with
  | O => r
  | S bits =>
      let r' := N.setbit r (N.of_nat bits) in
      cube_root bits n (if r' ^ 3 <=? n then r' else r)
  end.

Definition initial_hash : list N :=
  Eval vm_compute in (λ p, w32 (N.sqrt (N.shiftl p 64))) <$> take 8 primes.
Definition round_constants : list N :=
  Eval vm_compute in (λ p, w32 (cube_root 40 (N.shiftl p 96) 0)) <$> primes.

Example constants_shape :
  (length primes, nth 63 primes 0, nth 0 initial_hash 0, nth 63 round_constants 0)
  = (64%nat, 311, 0x6a09e667, 0xc67178f2).
Proof. reflexivity. Qed.

(** Big-endian words of a byte list. *)
Fixpoint words_of_bytes (l : list N) : list N :=
  match l with
  | a :: b :: c :: d :: l =>
      N.lor (N.shiftl a 24) (N.lor (N.shiftl b 16) (N.lor (N.shiftl c 8) d)) :: words_of_bytes l
  | _ => []
  end.

(** [n] bytes of [x], most significant first. *)
Fixpoint be_bytes (n : nat) (x : N) : list N :=
  match n with
  | O => []
  | S n => be_bytes n (N.shiftr x 8) ++ [N.land x 255]
  end.

Definition padded (message : list N) : list N :=
  let len := N.of_nat (length message) in
  message ++ [0x80] ++ replicate (N.to_nat ((119 - len mod 64) mod 64)) 0 ++ be_bytes 8 (8 * len).

(** The words after the first sixteen, from the last sixteen. *)
Fixpoint schedule (n : nat) (window : list N) : list N :=
  match n with
  | O => []
  | S n =>
      let at' i := nth i window 0 in
      let w := add32 (add32 (small_sigma1 (at' 14%nat)) (at' 9%nat))
                     (add32 (small_sigma0 (at' 1%nat)) (at' 0%nat)) in
      w :: schedule n (tail window ++ [w])
  end.

Definition round (s : list N) (kw : N * N) : list N :=
  match s with
  | [a; b; c; d; e; f; g; h] =>
      let t1 := add32 (add32 h (big_sigma1 e)) (add32 (choose e f g) (add32 kw.1 kw.2)) in
      let t2 := add32 (big_sigma0 a) (majority a b c) in
      [add32 t1 t2; a; b; c; add32 d t1; e; f; g]
  | _ => s
  end.

Definition compress (s block : list N) : list N :=
  zip_with add32 s (foldl round s (zip round_constants (block ++ schedule 48 block))).

Fixpoint blocks (n : nat) (words : list N) (s : list N) : list N :=
  match n with
  | O => s
  | S n => blocks n (drop 16 words) (compress s (take 16 words))
  end.

Definition sha256_words (message : list N) : list N :=
  let words := words_of_bytes (padded message) in
  blocks (Nat.div (length words) 16) words initial_hash.

Definition hex_digit (x : N) : ascii :=
  ascii_of_N (if x <? 10 then 48 + x else 87 + x).

(** The eight hexadecimal digits of a word. *)
Fixpoint hex_digits (n : nat) (x : N) (rest : string) : string :=
  match n with
  | O => rest
  | S n => hex_digits n (N.shiftr x 4) (String (hex_digit (N.land x 15)) rest)
  end.

Fixpoint bytes_of_string (s : string) : list N :=
  match s with
  | EmptyString => []
  | String c s => N_of_ascii c :: bytes_of_string s
  end.

Definition sha256_hexdigest (text : string) : string :=
  foldr (hex_digits 8) "" (sha256_words (bytes_of_string text)).

(** ** Test vectors *)

Example sha256_empty :
  sha256_hexdigest "" = "e3b0c44298fc1c149afbf4c8996fb92427ae41e4649b934ca495991b7852b855".
Proof. vm_compute. reflexivity. Qed.
Example sha256_abc :
  sha256_hexdigest "abc" = "ba7816bf8f01cfea414140de5dae2223b00361a396177a9cb410ff61f20015ad".
Proof. vm_compute. reflexivity. Qed.
Example sha256_two_blocks :
  sha256_hexdigest "abcdbcdecdefdefgefghfghighijhijkijkljklmklmnlmnomnopnopq"
  = "248d6a61d20638b8e5c026930c3e6039a33ce45964ff2167f6ecedd419db06c1".
Proof. vm_compute. reflexivity. Qed.

(** ** A digest is 64 lower-case hexadecimal digits *)

Lemma compress_length s block : length s = 8%nat → length (compress s block) = 8%nat.
Proof.
  intros Hs. unfold compress. rewrite length_zip_with.
  assert (∀ l, length (foldl round s l) = 8%nat) as Hf; [|rewrite Hf, Hs; done].
  intros l. revert s Hs. induction l as [|kw l IH]; intros s Hs; [done|]. cbn. apply IH.
  do 8 (destruct s as [|? s]; [done|]). by destruct s.
Qed.

Lemma blocks_length n words s : length s = 8%nat → length (blocks n words s) = 8%nat.
Proof. revert words s. induction n; intros; cbn; [done|]. by apply IHn, compress_length. Qed.

Lemma sha256_words_length message : length (sha256_words message) = 8%nat.
Proof. by apply blocks_length. Qed.


Lemma hex_digits_length n x rest : String.length (hex_digits n x rest) = (n + String.length rest)%nat.
Proof. revert x rest. induction n; intros; cbn; [done|]. rewrite IHn. cbn. lia. Qed.

Lemma sha256_hexdigest_length text : String.length (sha256_hexdigest text) = 64%nat.
Proof.
  unfold sha256_hexdigest. pose proof (sha256_words_length (bytes_of_string text)) as Hl.
  cut (∀ l, String.length (foldr (hex_digits 8) "" l) = (8 * length l)%nat); [intros ->; lia|].
  clear. induction l as [|x l IH]; [done|]. cbn [foldr]. rewrite hex_digits_length, IH. cbn [length]. lia.
Qed.

Lemma hex_digits_chars q n x rest :
  (∀ y, y < 16 → q (hex_digit y) = true) → all_chars q rest = true → all_chars q (hex_digits n x rest) = true.
Proof.
  intros Hq. revert x rest. induction n as [|n IH]; intros x rest Hr; [done|]. cbn. apply IH.
  cbn. rewrite Hr, andb_true_r. apply Hq.
  change 15 with (N.ones 4). rewrite N.land_ones. by apply N.mod_lt.
Qed.

Lemma sha256_hexdigest_chars q text :
  (∀ y, y < 16 → q (hex_digit y) = true) → all_chars q (sha256_hexdigest text) = true.
Proof.
  intros Hq. unfold sha256_hexdigest. induction (sha256_words _) as [|x l IH]; [done|].
  change (all_chars q (hex_digits 8 x (foldr (hex_digits 8) "" l)) = true). by apply hex_digits_chars.
Qed.

(** A statement about hexadecimal digits is checked on the sixteen of them. *)
Lemma forall_hex (P : N → bool) : forallb P (N.of_nat <$> seq 0 16) = true → ∀ y, y < 16 → P y = true.
Proof.
  rewrite forallb_forall. intros H y Hy. apply H, list_elem_of_In, list_elem_of_fmap.
  exists (N.to_nat y). split; [lia|]. apply elem_of_seq. lia.
Qed.

#[global] Opaque sha256_hexdigest.
