(* ===== verification/Catalog.v ===== *)
(** * The market catalog and the deterministic demo identities

    [app/market_catalog.py], [app/demo_identities.py] and
    [app/services/demo_market.py]: the closed product and delivery-point
    identities every market record refers to, and the synthetic organizations
    the provenance policy names.  The registries ([PRODUCTS_BY_ID], ...) are
    computed from the tuples, as in the code. *)

From S2P Require Import Prelude.

(** ** Products *)

Inductive MarketProduct :=
  | BIO_METHANOL | E_METHANOL | BIO_ETHANOL | SYNTHETIC_ETHANOL | B30 | B100.

#[export] Instance MarketProduct_eq_dec : EqDecision MarketProduct.
Proof. solve_decision. Defined.

(** The enum's [value]. *)
Definition market_product_value (p : MarketProduct) : string :=
  match p with
  | BIO_METHANOL => "BIO_METHANOL"
  | E_METHANOL => "E_METHANOL"
  | BIO_ETHANOL => "BIO_ETHANOL"
  | SYNTHETIC_ETHANOL => "SYNTHETIC_ETHANOL"
  | B30 => "B30"
  | B100 => "B100"
  end.

Definition B30_SPECIFICATION_STANDARD : string := "ISO 8217:2024 RF 380".
Definition B100_SPECIFICATION_STANDARD : string := "ISO 8217:2024 DFA".

(** [min_lot_size] is in hundredths of the unit, like every stored quantity. *)
Record ProductSpec := MkProductSpec {
  ps_id : uuid;
  ps_market_product : MarketProduct;
  ps_name : string;
  ps_fuel_type : string;
  ps_fuel_grade : string;
  ps_unit : string;
  ps_min_lot_size : Z;
  ps_spec_description : string;
}.

Record DeliveryPointSpec := MkDeliveryPointSpec {
  ds_id : uuid;
  ds_name : string;
  ds_region : string;
  ds_timezone : string;
}.

Definition CANONICAL_PRODUCTS : list ProductSpec := [
  MkProductSpec 0x9510c7136e395080add30a7c29657b79 BIO_METHANOL
    "Bio Methanol" "Methanol" "Bio" "MT" 20000
    "Bio-methanol produced from biogenic feedstocks for marine fuel use";
  MkProductSpec 0xf9b20492b44559cdb292a386d913f488 E_METHANOL
    "e-Methanol" "Methanol" "E" "MT" 20000
    "Synthetic methanol produced from renewable hydrogen and captured CO2";
  MkProductSpec 0xc4a688bef7c25edc8f936b34e387609c BIO_ETHANOL
    "Bio Ethanol" "Ethanol" "Bio" "MT" 20000
    "Second-generation bioethanol from waste feedstocks";
  MkProductSpec 0xd186bffb766d59448825989abbdcfc46 SYNTHETIC_ETHANOL
    "Synthetic Ethanol" "Ethanol" "Synthetic" "MT" 20000
    "Synthetic ethanol produced via power-to-liquids or equivalent synthetic pathways";
  MkProductSpec 0xc4cecebc3d2d5840802157a9a11bc673 B30
    "B30" "Biofuel" "B30" "MT" 20000
    "30% FAME by volume blended with 70% VLSFO; finished blend meets ISO 8217:2024 RF 380 with sulphur at most 0.50% by mass";
  MkProductSpec 0x74eb9cb5f0e355f1b82cfe29b7c45bf5 B100
    "B100" "Biofuel" "B100" "MT" 20000
    "100% FAME, excluding HVO; finished fuel meets ISO 8217:2024 DFA with sulphur at most 0.10% by mass"
].

Definition CANONICAL_DELIVERY_POINTS : list DeliveryPointSpec := [
  MkDeliveryPointSpec 0x78281fb3e7265396802e34b01fda21e8 "Dalian" "Asia" "Asia/Shanghai";
  MkDeliveryPointSpec 0x262d36ae6f355785b9e89e221b0f1b78 "Busan" "Asia" "Asia/Seoul";
  MkDeliveryPointSpec 0x633c0593f9b952adabe5a0285f6888d3 "Shanghai" "Asia" "Asia/Shanghai";
  MkDeliveryPointSpec 0x73835e92820e584b8280bb61c63aa28e "Singapore" "Asia" "Asia/Singapore";
  MkDeliveryPointSpec 0x1379d36c1ca955b79c0d5235a0ba1f36 "Rotterdam" "Europe" "Europe/Amsterdam";
  MkDeliveryPointSpec 0xa083db06b05056c2a2743897eac2fdae "Houston" "Americas" "America/Chicago";
  MkDeliveryPointSpec 0x1be2a5cbfc345e888b157f7d0fd6e534 "Los Angeles" "Americas" "America/Los_Angeles";
  MkDeliveryPointSpec 0xa47624444e0b5bc1b647a185047adae5 "Santos" "Americas" "America/Sao_Paulo"
].

Definition PRODUCTS_BY_CODE : gmap string ProductSpec :=
  list_to_map ((λ spec, (market_product_value (ps_market_product spec), spec)) <$> CANONICAL_PRODUCTS).

Definition PRODUCTS_BY_ID : gmap uuid ProductSpec :=
  list_to_map ((λ spec, (ps_id spec, spec)) <$> CANONICAL_PRODUCTS).

Definition PRODUCT_IDS : gmap string uuid := ps_id <$> PRODUCTS_BY_CODE.

Definition product_id_of (code : string) : uuid := default 0%N (PRODUCT_IDS !! code).

Definition BIOFUEL_SPECIFICATION_STANDARDS : gmap uuid string :=
  list_to_map [ (product_id_of "B30", B30_SPECIFICATION_STANDARD);
                (product_id_of "B100", B100_SPECIFICATION_STANDARD) ].

Definition DELIVERY_POINTS_BY_ID : gmap uuid DeliveryPointSpec :=
  list_to_map ((λ spec, (ds_id spec, spec)) <$> CANONICAL_DELIVERY_POINTS).

(** [tuple(PRODUCTS_BY_CODE)]: the keys in insertion order. *)
Definition MARKET_PRODUCT_CODES : list string :=
  (λ spec, market_product_value (ps_market_product spec)) <$> CANONICAL_PRODUCTS.

Definition APPROVED_MARKET_PRODUCTS : list string := MARKET_PRODUCT_CODES.

(** The [for] loop of [derive_market_product]: the first exact label match. *)
Definition derive_market_product (name fuel_type fuel_grade : string) : option MarketProduct :=
  ps_market_product <$>
    head (filter (λ spec, (name, fuel_type, fuel_grade)
                          = (ps_name spec, ps_fuel_type spec, ps_fuel_grade spec))
                 CANONICAL_PRODUCTS).

(** ** Demo identities *)

Definition DEMO_SEED_BUYERS : list (uuid * string) := [
  (0x4da7b28534ee54439406f96b4ed1a251, "Verdaxis Demo Buyer 01");
  (0x0dbce57620265925ab66674d505e98ad, "Verdaxis Demo Buyer 02");
  (0x3cd0bc8a0e925eb89ae33c87a7460a6a, "Verdaxis Demo Buyer 03");
  (0x277491dfcb0d5f2da2cf5746829c6da6, "Verdaxis Demo Buyer 04");
  (0x3b302066d65c5c3e8fcc70b3da3bcafd, "Verdaxis Demo Buyer 05") ]%N.

Definition DEMO_SEED_SUPPLIERS : list (uuid * string * string) := [
  (0x79609f480a3e560ea1e163d90601d84a, "Verdaxis Demo Supplier 01", "MAJOR_TRADER");
  (0x2c4e387ede225adbad889274ba84ebe1, "Verdaxis Demo Supplier 02", "MAJOR_TRADER");
  (0x612953c7567a58b3bc42ee817d2bbe74, "Verdaxis Demo Supplier 03", "TIER_1_PRODUCER");
  (0x93ccda0954b353eeafc0759d3048161f, "Verdaxis Demo Supplier 04", "REGIONAL_SUPPLIER");
  (0x82426590096354869b05f81e97afe6ef, "Verdaxis Demo Supplier 05", "MAJOR_TRADER") ]%N.

Definition DEMO_ACCOUNT_BUYER_ORG_ID : uuid := 0xacc3f20afe9444639029a55e35634eb7.
Definition DEMO_ACCOUNT_SELLER_ORG_ID : uuid := 0xc9c1ccbf66fe4a1bb171fe4f7ddc31a4.
Definition DEMO_ACTIVITY_BUYER_ORG_ID : uuid := 0x7cc771150a9f4ec48c7405aa10050111.
Definition DEMO_ACTIVITY_SELLER_ORG_ID : uuid := 0xd1e43e553fb04b5e9f0b93aa10050222.

Definition CANONICAL_DEMO_ORG_NAMES : gmap uuid string :=
  list_to_map
    (DEMO_SEED_BUYERS
     ++ ((λ x, (x.1.1, x.1.2)) <$> DEMO_SEED_SUPPLIERS)
     ++ [ (DEMO_ACCOUNT_BUYER_ORG_ID, "Verdaxis Demo Buyer 06");
          (DEMO_ACCOUNT_SELLER_ORG_ID, "Verdaxis Demo Supplier 06");
          (DEMO_ACTIVITY_BUYER_ORG_ID, "Verdaxis Demo Buyer Activity");
          (DEMO_ACTIVITY_SELLER_ORG_ID, "Verdaxis Demo Supplier Activity") ]).

Definition DEMO_MARKET_ORG_IDS : gset uuid := dom CANONICAL_DEMO_ORG_NAMES.

Definition DEMO_ACTIVITY_ORG_IDS : gset uuid :=
  {[ DEMO_ACTIVITY_BUYER_ORG_ID; DEMO_ACTIVITY_SELLER_ORG_ID ]}.

(** [UUID(f"9e63f7a1-0000-4000-8000-{number:012d}")]: the last twelve hex
    digits of the UUID spell [number] in decimal, so 11..14 are 0x11..0x14. *)
Definition KNOWN_TEST_ORG_IDS : gset uuid :=
  list_to_set
    ((λ low, (0x9e63f7a1000040008000000000000000 + low)%N)
       <$> [0x1; 0x2; 0x3; 0x4; 0x11; 0x12; 0x13; 0x14]%N).

Definition is_demo_market_organization (organization_id : option uuid) : bool :=
  match organization_id with
  | Some o => bool_decide (o ∈ DEMO_MARKET_ORG_IDS)
  | None => false
  end.

(** ** Well-formedness of the catalog *)

Lemma canonical_product_ids_nodup : NoDup (ps_id <$> CANONICAL_PRODUCTS).
Proof. apply (bool_decide_unpack _). vm_compute. exact I. Qed.

Lemma canonical_product_labels_nodup :
  NoDup ((λ s, (ps_name s, ps_fuel_type s, ps_fuel_grade s)) <$> CANONICAL_PRODUCTS).
Proof. apply (bool_decide_unpack _). vm_compute. exact I. Qed.

Lemma derive_market_product_spec spec :
  spec ∈ CANONICAL_PRODUCTS →
  derive_market_product (ps_name spec) (ps_fuel_type spec) (ps_fuel_grade spec)
  = Some (ps_market_product spec).
Proof.
  intros Hin. cut (Forall (λ s,
    derive_market_product (ps_name s) (ps_fuel_type s) (ps_fuel_grade s)
    = Some (ps_market_product s)) CANONICAL_PRODUCTS).
  { rewrite Forall_forall. auto. }
  apply (bool_decide_unpack _). vm_compute. exact I.
Qed.

Lemma derive_market_product_Some name fuel_type fuel_grade p :
  derive_market_product name fuel_type fuel_grade = Some p →
  ∃ spec, spec ∈ CANONICAL_PRODUCTS ∧ ps_market_product spec = p ∧
    (name, fuel_type, fuel_grade) = (ps_name spec, ps_fuel_type spec, ps_fuel_grade spec).
Proof.
  unfold derive_market_product. rewrite fmap_Some.
  intros (spec & Hh & ->). exists spec.
  destruct (filter _ CANONICAL_PRODUCTS) as [|s l] eqn:Hf; [done|].
  cbn in Hh. inversion Hh; subst s; clear Hh.
  assert (spec ∈ filter (λ spec, (name, fuel_type, fuel_grade)
    = (ps_name spec, ps_fuel_type spec, ps_fuel_grade spec)) CANONICAL_PRODUCTS)
    as (? & ?)%list_elem_of_filter by (rewrite Hf; left); done.
Qed.

Lemma demo_activity_orgs_are_demo : DEMO_ACTIVITY_ORG_IDS ⊆ DEMO_MARKET_ORG_IDS.
Proof. apply (bool_decide_unpack _). vm_compute. exact I. Qed.

Lemma demo_activity_orgs_distinct : DEMO_ACTIVITY_BUYER_ORG_ID ≠ DEMO_ACTIVITY_SELLER_ORG_ID.
Proof. done. Qed.

Lemma demo_and_test_orgs_disjoint : DEMO_MARKET_ORG_IDS ## KNOWN_TEST_ORG_IDS.
Proof. apply (bool_decide_unpack _). vm_compute. exact I. Qed.
