(* ===== verification/Calendar.v ===== *)
(** * The parts of [datetime], [calendar] and [str] formatting the code uses

    Python's proleptic Gregorian [date] (years 1 to 9999), [date.toordinal],
    [calendar.monthrange], [date + timedelta(days=1)], and a UTC [datetime] at
    midnight as microseconds since the Unix epoch.  Decimal printing of
    integers as in [f"{year}"] and [f"{month:02d}"]. *)

From S2P Require Import Prelude.
Local Open Scope Z_scope.

Record date := MkDate { year : Z; month : Z; day : Z }.

#[export] Instance date_eq_dec : EqDecision date.
Proof. solve_decision. Defined.

Definition MINYEAR : Z := 1.
Definition MAXYEAR : Z := 9999.

Definition is_leap (y : Z) : bool :=
  (y mod 4 =? 0) && ((negb (y mod 100 =? 0)) || (y mod 400 =? 0)).

(** [calendar.monthrange(y, m)[1]] *)
Definition days_in_month (y m : Z) : Z :=
  if m =? 2 then (if is_leap y then 29 else 28)
  else if (m =? 4) || (m =? 6) || (m =? 9) || (m =? 11) then 30 else 31.

Definition valid_date (d : date) : bool :=
  (MINYEAR <=? year d) && (year d <=? MAXYEAR)
  && (1 <=? month d) && (month d <=? 12)
  && (1 <=? day d) && (day d <=? days_in_month (year d) (month d)).

(** The [date(y, m, d)] constructor. *)
Definition mk_date (y m d : Z) : res date :=
  let r := MkDate y m d in
  if valid_date r then Val r else Exc (ValueError (Msg "date value is out of range")).

Definition days_before_year (y : Z) : Z :=
  let y1 := y - 1 in y1 * 365 + y1 / 4 - y1 / 100 + y1 / 400.

Definition days_before_month (y m : Z) : Z :=
  nth (Z.to_nat (m - 1)) [0; 31; 59; 90; 120; 151; 181; 212; 243; 273; 304; 334] 0
  + (if (2 <? m) && is_leap y then 1 else 0).

Definition toordinal (d : date) : Z :=
  days_before_year (year d) + days_before_month (year d) (month d) + day d.

(** [d + timedelta(days=1)] *)
Definition next_day (d : date) : res date :=
  if day d <? days_in_month (year d) (month d) then Val (MkDate (year d) (month d) (day d + 1))
  else if month d <? 12 then Val (MkDate (year d) (month d + 1) 1)
  else if year d <? MAXYEAR then Val (MkDate (year d + 1) 1 1)
  else Exc OverflowError.

Definition date_le (a b : date) : Prop := toordinal a <= toordinal b.
Definition date_lt (a b : date) : Prop := toordinal a < toordinal b.

Definition MICROSECONDS_PER_DAY : Z := 86400 * 1000000.
Definition EPOCH_ORDINAL : Z := 719163.

(** [datetime.combine(d, time.min, UTC)] *)
Definition midnight_utc (d : date) : datetime :=
  (toordinal d - EPOCH_ORDINAL) * MICROSECONDS_PER_DAY.

(** [timedelta(hours=h)] *)
Definition hours (h : Z) : Z := h * 3600 * 1000000.

(** ** Decimal printing *)

Definition digit_char (n : Z) : Ascii.ascii := Ascii.ascii_of_N (48 + Z.to_N n).

#[global] Arguments digit_char : simpl never.

Fixpoint show_fuel (fuel : nat) (z : Z) (acc : string) : string :=
  match fuel with
  | O => acc
  | S fuel =>
      let acc' := String (digit_char (z mod 10)) acc in
      if z <? 10 then acc' else show_fuel fuel (z / 10) acc'
  end.

Definition show_nonneg (z : Z) : string := show_fuel (S (Z.to_nat (Z.log2 z))) z "".

(** [f"{z}"] *)
Definition show_Z (z : Z) : string :=
  if z <? 0 then "-" +:+ show_nonneg (- z) else show_nonneg z.

(** [f"{z:02d}"] for a non-negative [z]. *)
Definition show_02d (z : Z) : string :=
  if z <? 10 then "0" +:+ show_nonneg z else show_nonneg z.

(** ** Facts *)

Lemma days_in_month_bounds y m : 28 <= days_in_month y m <= 31.
Proof. unfold days_in_month. repeat case_match; lia. Qed.

Lemma valid_date_spec d :
  valid_date d = true ↔
  MINYEAR <= year d <= MAXYEAR ∧ 1 <= month d <= 12 ∧
  1 <= day d <= days_in_month (year d) (month d).
Proof. unfold valid_date. rewrite !andb_true_iff, !Z.leb_le. tauto. Qed.

Lemma mk_date_Val y m d r :
  mk_date y m d = Val r → r = MkDate y m d ∧ valid_date r = true.
Proof. unfold mk_date. case_match; by inversion 1; subst. Qed.

Lemma days_before_year_succ y :
  days_before_year (y + 1) = days_before_year y + 365 + (if is_leap y then 1 else 0).
Proof.
  unfold days_before_year, is_leap.
  replace (y + 1 - 1) with y by lia.
  destruct (Z.eqb_spec (y mod 4) 0), (Z.eqb_spec (y mod 100) 0), (Z.eqb_spec (y mod 400) 0);
    cbn [negb andb orb]; Z.to_euclidean_division_equations; lia.
Qed.

Lemma month_cases m : 1 <= m <= 12 →
  m = 1 ∨ m = 2 ∨ m = 3 ∨ m = 4 ∨ m = 5 ∨ m = 6 ∨
  m = 7 ∨ m = 8 ∨ m = 9 ∨ m = 10 ∨ m = 11 ∨ m = 12.
Proof. lia. Qed.

Ltac split_month m :=
  let H := fresh "Hmonth" in
  assert (H : 1 <= m <= 12) by lia; apply month_cases in H; destruct_or!; subst m.

Ltac eval_nat :=
  repeat match goal with
  | |- context [Z.to_nat ?z] =>
      let n := eval vm_compute in (Z.to_nat z) in progress change (Z.to_nat z) with n
  end; cbn [nth].

Lemma days_before_month_succ y m :
  1 <= m < 12 →
  days_before_month y (m + 1) = days_before_month y m + days_in_month y m.
Proof.
  intros Hm. unfold days_before_month, days_in_month.
  split_month m; try lia; cbn; destruct (is_leap y); reflexivity.
Qed.

(** The day after is the next ordinal. *)
Lemma next_day_ordinal d d' :
  valid_date d = true → next_day d = Val d' →
  toordinal d' = toordinal d + 1 ∧ valid_date d' = true.
Proof.
  rewrite valid_date_spec. unfold next_day.
  destruct d as [y m dd]; cbn [year month day]. intros (Hy & Hm & Hd).
  destruct (Z.ltb_spec dd (days_in_month y m)).
  { inversion 1; subst. rewrite valid_date_spec. unfold toordinal. cbn [year month day]. lia. }
  assert (dd = days_in_month y m) as -> by lia.
  destruct (Z.ltb_spec m 12).
  { inversion 1; subst. rewrite valid_date_spec. unfold toordinal; cbn [year month day].
    rewrite days_before_month_succ by lia.
    pose proof (days_in_month_bounds y (m + 1)). lia. }
  destruct (Z.ltb_spec y MAXYEAR); [|done]. inversion 1; subst.
  assert (m = 12) as -> by lia. rewrite valid_date_spec.
  unfold toordinal; cbn [year month day]. rewrite days_before_year_succ.
  clear Hd.
  change (days_in_month y 12) with 31.
  change (days_before_month (y + 1) 1) with 0.
  change (days_in_month (y + 1) 1) with 31.
  unfold days_before_month. cbn. unfold MINYEAR, MAXYEAR in *.
  destruct (is_leap y); eval_nat; lia.
Qed.

Lemma days_before_year_mono y y' : y <= y' → days_before_year y <= days_before_year y'.
Proof. intros. unfold days_before_year. Z.to_euclidean_division_equations. lia. Qed.

(** A year's days lie before the next year. *)
Lemma toordinal_bounds d :
  valid_date d = true →
  days_before_year (year d) < toordinal d <= days_before_year (year d + 1).
Proof.
  rewrite valid_date_spec. destruct d as [y m dd]; cbn [year month day].
  intros (Hy & Hm & Hd). unfold toordinal; cbn [year month day].
  rewrite days_before_year_succ.
  revert Hd. unfold days_before_month, days_in_month.
  split_month m; cbn; eval_nat; destruct (is_leap y); lia.
Qed.

(** The first day of a later month comes after every day of an earlier one. *)
Lemma toordinal_next_month y m dd m' :
  1 <= m → m < m' <= 12 → dd <= days_in_month y m →
  toordinal (MkDate y m dd) < toordinal (MkDate y m' 1).
Proof.
  intros Hm Hm'. unfold toordinal, days_before_month, days_in_month; cbn [year month day].
  split_month m; try lia; split_month m'; try lia; cbn; eval_nat; destruct (is_leap y); lia.
Qed.

(** Consecutive dates compare as ordinals do. *)
Lemma midnight_utc_lt a b : date_lt a b → midnight_utc a < midnight_utc b.
Proof. unfold date_lt, midnight_utc, MICROSECONDS_PER_DAY. lia. Qed.
Lemma midnight_utc_le a b : date_le a b → midnight_utc a <= midnight_utc b.
Proof. unfold date_le, midnight_utc, MICROSECONDS_PER_DAY. lia. Qed.

Example epoch_is_zero : midnight_utc (MkDate 1970 1 1) = 0.
Proof. reflexivity. Qed.
Example leap_day_2028 : next_day (MkDate 2028 2 28) = Val (MkDate 2028 2 29).
Proof. reflexivity. Qed.
Example show_example : show_Z 2026 = "2026" ∧ show_02d 7 = "07" ∧ show_02d 12 = "12".
Proof. done. Qed.

(** A four-digit year prints as its four digits. *)
Lemma show_year_digits y :
  1000 <= y <= 9999 →
  show_Z y = String (digit_char (y / 1000)) (String (digit_char (y / 100 mod 10))
               (String (digit_char (y / 10 mod 10)) (String (digit_char (y mod 10)) ""))).
Proof.
  intros Hy. unfold show_Z. destruct (Z.ltb_spec y 0); [lia|]. unfold show_nonneg.
  assert (9 <= Z.log2 y) as Hl by (change 9 with (Z.log2 512); apply Z.log2_le_mono; lia).
  destruct (Z.to_nat (Z.log2 y)) as [|[|[|k]]] eqn:Hk; [lia..|].
  cbn [show_fuel].
  destruct (Z.ltb_spec y 10); [lia|].
  destruct (Z.ltb_spec (y / 10) 10); [Z.to_euclidean_division_equations; lia|].
  destruct (Z.ltb_spec (y / 10 / 10) 10); [Z.to_euclidean_division_equations; lia|].
  destruct (Z.ltb_spec (y / 10 / 10 / 10) 10); [|Z.to_euclidean_division_equations; lia].
  replace (y / 10 / 10 / 10 mod 10) with (y / 1000)
    by (Z.to_euclidean_division_equations; lia).
  replace (y / 10 / 10 mod 10) with (y / 100 mod 10); [done|].
  Z.to_euclidean_division_equations; lia.
Qed.
