(* ===== verification/AvailabilityWindows.v ===== *)
(** * Delivery windows

    [app/services/availability_windows.py]: the grammar of an
    [availability_window], its canonical form, the first day and the exclusive
    expiry of a window, the order windows are listed in and the windows open
    to new orders.  The regular expressions are recognisers returning their
    named groups; text is ASCII. *)

From Stdlib Require Import Ascii.
From S2P Require Import Prelude Calendar.
Local Open Scope Z_scope.

Definition SPOT_WINDOW : string := "SPOT".
Definition FORWARD_QUARTER_COUNT : nat := 5 * 4.

(** ** The regular expressions *)

Definition in_range (c : Ascii.ascii) (lo hi : N) : bool :=
  bool_decide (lo ≤ Ascii.N_of_ascii c ≤ hi)%N.

(** [\d] *)
Definition is_digit (c : Ascii.ascii) : bool := in_range c 48 57.

#[local] Arguments in_range : simpl never.
#[local] Arguments is_digit : simpl never.

(** [^(?P<year>\d{4})] and the text after it. *)
Definition take_year (s : string) : option (string * string) :=
  match s with
  | String a (String b (String c (String d rest))) =>
      if is_digit a && is_digit b && is_digit c && is_digit d
      then Some (String a (String b (String c (String d ""))), rest)
      else None
  | _ => None
  end.

(** [^(?P<year>\d{4})-(?P<month>0[1-9]|1[0-2])$] *)
Definition MONTH_WINDOW_RE (s : string) : option (string * string) :=
  '(year, rest) ← take_year s;
  match rest with
  | String dash (String t (String u "")) =>
      if Ascii.eqb dash "-"%char
         && ((Ascii.eqb t "0"%char && in_range u 49 57) || (Ascii.eqb t "1"%char && in_range u 48 50))
      then Some (year, String t (String u ""))
      else None
  | _ => None
  end.

(** [^(?P<year>\d{4})-Q(?P<quarter>[1-4])$] *)
Definition QUARTER_WINDOW_RE (s : string) : option (string * string) :=
  '(year, rest) ← take_year s;
  match rest with
  | String dash (String q (String n "")) =>
      if Ascii.eqb dash "-"%char && Ascii.eqb q "Q"%char && in_range n 49 52
      then Some (year, String n "")
      else None
  | _ => None
  end.

(** [^(?P<year>\d{4})-CAL$] *)
Definition CALENDAR_WINDOW_RE (s : string) : option string :=
  '(year, rest) ← take_year s;
  if bool_decide (rest = "-CAL") then Some year else None.

(** [^(SPOT|\d{4}-(0[1-9]|1[0-2])|\d{4}-Q[1-4]|\d{4}-CAL)$] *)
Definition JSON_SCHEMA_PATTERN (s : string) : bool :=
  bool_decide (s = "SPOT")
  || bool_decide (is_Some (MONTH_WINDOW_RE s))
  || bool_decide (is_Some (QUARTER_WINDOW_RE s))
  || bool_decide (is_Some (CALENDAR_WINDOW_RE s)).

(** [int(text)] on decimal digits. *)
Definition digit_value (c : Ascii.ascii) : Z := Z.of_N (Ascii.N_of_ascii c) - 48.
#[local] Arguments digit_value : simpl never.
Fixpoint py_int_acc (s : string) (acc : Z) : Z :=
  match s with
  | "" => acc
  | String c s => py_int_acc s (acc * 10 + digit_value c)
  end.
Definition py_int (s : string) : Z := py_int_acc s 0.

(** ** Canonical form *)

Definition legacy_aliases : list (string * string) := [
  ("SPOT", SPOT_WINDOW); ("Spot", SPOT_WINDOW);
  ("Q1_2025", "2025-Q1"); ("Q2_2025", "2025-Q2"); ("Q3_2025", "2025-Q3"); ("Q4_2025", "2025-Q4");
  ("Q1_2026", "2026-Q1"); ("Q2_2026", "2026-Q2"); ("Q3_2026", "2026-Q3"); ("Q4_2026", "2026-Q4");
  ("Q1 2025", "2025-Q1"); ("Q2 2025", "2025-Q2"); ("Q3 2025", "2025-Q3"); ("Q4 2025", "2025-Q4");
  ("Q1 2026", "2026-Q1"); ("Q2 2026", "2026-Q2"); ("Q3 2026", "2026-Q3"); ("Q4 2026", "2026-Q4");
  ("FORWARD_2027", "2027-CAL"); ("FORWARD_2028", "2028-CAL");
  ("Forward 2027", "2027-CAL"); ("Forward 2028", "2028-CAL") ].

Definition LEGACY_WINDOW_ALIASES : gmap string string := list_to_map legacy_aliases.

Definition blank_window_error : exn :=
  ValueError (Msg "availability_window cannot be blank").
Definition bad_window_error : exn :=
  ValueError (Msg "availability_window must be SPOT, YYYY-MM, YYYY-QN, or YYYY-CAL").
Definition unsupported_window_error (value : string) : exn :=
  ValueError (Fmt "Unsupported availability window: {}" [AStr value]).

Definition normalize_availability_window (value : string) : res string :=
  let raw := strip value in
  if bool_decide (raw = "") then Exc blank_window_error
  else match LEGACY_WINDOW_ALIASES !! raw with
  | Some canonical => Val canonical
  | None =>
      if bool_decide (upper raw = SPOT_WINDOW) then Val SPOT_WINDOW
      else if bool_decide (is_Some (MONTH_WINDOW_RE raw))
              || bool_decide (is_Some (QUARTER_WINDOW_RE raw))
              || bool_decide (is_Some (CALENDAR_WINDOW_RE raw))
      then Val raw
      else Exc bad_window_error
  end.

(** [try: normalize(..) except ValueError: return False] *)
Definition is_valid_availability_window (value : string) : bool :=
  match normalize_availability_window value with
  | Val _ => true
  | Exc _ => false
  end.

(** ** First day, order and label of a window

    [date_today] is what [date.today()] reads. *)

Definition window_start_date (value : string) (today : option date) (date_today : date) : res date :=
  normalized ← normalize_availability_window value;
  if bool_decide (normalized = SPOT_WINDOW) then Val (default date_today today)
  else match MONTH_WINDOW_RE normalized with
  | Some (year, month) => mk_date (py_int year) (py_int month) 1
  | None =>
    match QUARTER_WINDOW_RE normalized with
    | Some (year, quarter) => mk_date (py_int year) ((py_int quarter - 1) * 3 + 1) 1
    | None =>
      match CALENDAR_WINDOW_RE normalized with
      | Some year => mk_date (py_int year) 1 1
      | None => Exc (unsupported_window_error value)
      end
    end
  end.

Definition date_max : date := MkDate 9999 12 31.

Definition availability_window_sort_key (value : string) (today : option date) (date_today : date)
    : res (Z * date * Z) :=
  normalized ← normalize_availability_window value;
  if bool_decide (normalized = SPOT_WINDOW) then Val (0, default date_today today, 0)
  else if bool_decide (is_Some (MONTH_WINDOW_RE normalized)) then
    start ← window_start_date normalized today date_today; Val (1, start, 0)
  else if bool_decide (is_Some (QUARTER_WINDOW_RE normalized)) then
    start ← window_start_date normalized today date_today; Val (1, start, 1)
  else if bool_decide (is_Some (CALENDAR_WINDOW_RE normalized)) then
    start ← window_start_date normalized today date_today; Val (1, start, 2)
  else Val (99, date_max, 99).

(** Python compares the tuples lexicographically. *)
Definition sort_key_lt (a b : Z * date * Z) : Prop :=
  a.1.1 < b.1.1
  ∨ (a.1.1 = b.1.1 ∧ (date_lt a.1.2 b.1.2 ∨ (a.1.2 = b.1.2 ∧ a.2 < b.2))).

Definition MONTH_NAMES : list string :=
  ["Jan"; "Feb"; "Mar"; "Apr"; "May"; "Jun"; "Jul"; "Aug"; "Sep"; "Oct"; "Nov"; "Dec"].

Definition availability_window_display_label (value : string) : res string :=
  normalized ← normalize_availability_window value;
  if bool_decide (normalized = SPOT_WINDOW) then Val "Spot"
  else match MONTH_WINDOW_RE normalized with
  | Some (year, month) =>
      Val (nth (Z.to_nat (py_int month - 1)) MONTH_NAMES "" +:+ " " +:+ show_Z (py_int year))
  | None =>
    match QUARTER_WINDOW_RE normalized with
    | Some (year, quarter) => Val ("Q" +:+ quarter +:+ " " +:+ year)
    | None =>
      match CALENDAR_WINDOW_RE normalized with
      | Some year => Val ("CAL " +:+ year)
      | None => Val normalized
      end
    end
  end.

(** ** Windows built for a reference date *)

(** [f"{y}-{m:02d}"], [f"{y}-Q{q}"], [f"{y}-CAL"] *)
Definition month_window (y m : Z) : string := show_Z y +:+ "-" +:+ show_02d m.
Definition quarter_window (y q : Z) : string := show_Z y +:+ "-Q" +:+ show_Z q.
Definition calendar_window (y : Z) : string := show_Z y +:+ "-CAL".

Definition quarter_of (month : Z) : Z := (month - 1) / 3 + 1.

(** The quarter [offset] quarters after quarter [q] of year [y]. *)
Definition quarter_after (y q offset : Z) : string :=
  let absolute_quarter := y * 4 + (q - 1) + offset in
  quarter_window (absolute_quarter / 4) (absolute_quarter mod 4 + 1).

Definition forward_monitoring_default_windows (reference_date : date) : list string :=
  let y := year reference_date in
  let m := month reference_date in
  [SPOT_WINDOW]
  ++ ((λ offset,
        let zero_based := m - 1 + offset in
        month_window (y + zero_based / 12) (zero_based mod 12 + 1)) <$> [1; 2; 3; 4; 5; 6])
  ++ ((λ offset, quarter_after y (quarter_of m) offset) <$> [1; 2; 3; 4])
  ++ [calendar_window (y + 1); calendar_window (y + 2)].

(** [range(a, b)] *)
Definition py_range (a b : Z) : list Z := seqZ a (b - a).

Definition tradable_availability_windows (current : date) (quarter_count : nat) : list string :=
  let current_quarter := quarter_of (month current) in
  [SPOT_WINDOW]
  ++ ((λ m, month_window (year current) m)
        <$> py_range (month current) (current_quarter * 3 + 1))
  ++ ((λ index, quarter_after (year current) current_quarter (1 + index))
        <$> py_range 0 (Z.of_nat quarter_count)).

Definition is_tradable_availability_window (value : string) (today : date) (quarter_count : nat)
    : res bool :=
  normalized ← normalize_availability_window value;
  Val (bool_decide (normalized ∈ tradable_availability_windows today quarter_count)).

(** The exclusive UTC expiry of a window observed at [observed]. *)
Definition availability_window_expiry (value : string) (observed : datetime) : res datetime :=
  normalized ← normalize_availability_window value;
  if bool_decide (normalized = SPOT_WINDOW) then Val (observed + hours 24)
  else match MONTH_WINDOW_RE normalized with
  | Some (year, month) =>
      last ← mk_date (py_int year) (py_int month) (days_in_month (py_int year) (py_int month));
      next ← next_day last;
      Val (midnight_utc next)
  | None =>
    match QUARTER_WINDOW_RE normalized with
    | Some (year, quarter) =>
        let end_month := py_int quarter * 3 in
        last ← mk_date (py_int year) end_month (days_in_month (py_int year) end_month);
        next ← next_day last;
        Val (midnight_utc next)
    | None =>
      match CALENDAR_WINDOW_RE normalized with
      | Some year =>
          first ← mk_date (py_int year + 1) 1 1;
          Val (midnight_utc first)
      | None => Exc (unsupported_window_error value)
      end
    end
  end.

Example normalize_examples :
  normalize_availability_window "  q1 " = Exc bad_window_error
  ∧ normalize_availability_window " Q1 2026 " = Val "2026-Q1"
  ∧ normalize_availability_window "sPot" = Val "SPOT"
  ∧ normalize_availability_window "2027-13" = Exc bad_window_error
  ∧ normalize_availability_window "2027-12" = Val "2027-12".
Proof. vm_compute. done. Qed.

Example tradable_example :
  take 6 (tradable_availability_windows (MkDate 2026 7 15) FORWARD_QUARTER_COUNT)
  = ["SPOT"; "2026-07"; "2026-08"; "2026-09"; "2026-Q4"; "2027-Q1"].
Proof. vm_compute. done. Qed.

(** ** Facts about the recognisers *)

Definition no_space (s : string) : bool := all_chars (λ c, negb (is_space c)) s.

Lemma in_range_not_space c lo hi :
  (33 <= lo)%N → in_range c lo hi = true → is_space c = false.
Proof.
  unfold in_range, is_space. rewrite bool_decide_eq_true. intros.
  rewrite !bool_decide_eq_false_2 by lia. done.
Qed.

Lemma in_range_not_upper c lo hi :
  (hi <= 64)%N → in_range c lo hi = true → upper_ascii c = c.
Proof.
  unfold in_range, upper_ascii. rewrite bool_decide_eq_true. intros.
  rewrite !bool_decide_eq_false_2 by lia. done.
Qed.

Lemma in_range_ne c lo hi c' :
  (N_of_ascii c' < lo ∨ hi < N_of_ascii c')%N → in_range c lo hi = true → c ≠ c'.
Proof. unfold in_range. rewrite bool_decide_eq_true. intros ? ? ->. lia. Qed.

Lemma take_year_Some s y rest :
  take_year s = Some (y, rest) →
  s = y +:+ rest ∧ no_space y = true ∧
  ∃ c y', y = String c y' ∧ is_digit c = true.
Proof.
  destruct s as [|a [|b [|c [|d r]]]]; cbn; try done.
  destruct (is_digit a && is_digit b && is_digit c && is_digit d) eqn:Hd; [|done].
  inversion 1; subst. rewrite !andb_true_iff in Hd. destruct Hd as [[[Ha Hb] Hc] Hd].
  split; [done|]. split; [|eauto]. cbn.
  by rewrite !(in_range_not_space _ 48 57).
Qed.

Lemma no_space_app a b : no_space (a +:+ b) = no_space a && no_space b.
Proof. unfold no_space. induction a as [|c a IH]; [done|]. simpl. by rewrite IH, andb_assoc. Qed.

(** A window matched by one of the three forward patterns starts with a digit
    and holds no white space. *)
Definition forward_text (s : string) : Prop :=
  no_space s = true ∧ ∃ c s', s = String c s' ∧ is_digit c = true.

Lemma take_year_forward s y rest :
  take_year s = Some (y, rest) → no_space rest = true → forward_text s.
Proof.
  intros (-> & Hy & c & y' & -> & Hc)%take_year_Some Hrest. split.
  - by rewrite no_space_app, Hy, Hrest.
  - by exists c, (y' +:+ rest).
Qed.

Lemma MONTH_WINDOW_RE_forward s y m : MONTH_WINDOW_RE s = Some (y, m) → forward_text s.
Proof.
  unfold MONTH_WINDOW_RE. rewrite bind_Some. intros ([y' rest] & Hy & H).
  apply (take_year_forward _ _ _ Hy).
  destruct rest as [|dash [|t [|u [|]]]]; try done.
  destruct (Ascii.eqb_spec dash "-"); [subst|done]. cbn in *.
  destruct (Ascii.eqb_spec t "0"); [subst|]; cbn in *.
  { destruct (in_range u 49 57) eqn:Hu; [by rewrite (in_range_not_space u 49 57)|done]. }
  destruct (Ascii.eqb_spec t "1"); [subst|done]; cbn in *.
  destruct (in_range u 48 50) eqn:Hu; [by rewrite (in_range_not_space u 48 50)|done].
Qed.

Lemma QUARTER_WINDOW_RE_forward s y q : QUARTER_WINDOW_RE s = Some (y, q) → forward_text s.
Proof.
  unfold QUARTER_WINDOW_RE. rewrite bind_Some. intros ([y' rest] & Hy & H).
  apply (take_year_forward _ _ _ Hy).
  destruct rest as [|dash [|t [|u [|]]]]; try done.
  destruct (Ascii.eqb_spec dash "-"); [subst|done]. cbn in *.
  destruct (Ascii.eqb_spec t "Q"); [subst|done]; cbn in *.
  destruct (in_range u 49 52) eqn:Hu; [by rewrite (in_range_not_space u 49 52)|done].
Qed.

Lemma CALENDAR_WINDOW_RE_forward s y : CALENDAR_WINDOW_RE s = Some y → forward_text s.
Proof.
  unfold CALENDAR_WINDOW_RE. rewrite bind_Some. intros ([y' rest] & Hy & H).
  apply (take_year_forward _ _ _ Hy). case_bool_decide; [by subst|done].
Qed.

(** The four alternatives of the pattern. *)
Lemma JSON_SCHEMA_PATTERN_spec s :
  JSON_SCHEMA_PATTERN s = true ↔
  s = SPOT_WINDOW ∨ is_Some (MONTH_WINDOW_RE s) ∨ is_Some (QUARTER_WINDOW_RE s)
  ∨ is_Some (CALENDAR_WINDOW_RE s).
Proof. unfold JSON_SCHEMA_PATTERN. rewrite !orb_true_iff, !bool_decide_eq_true. tauto. Qed.

Lemma pattern_forward s :
  JSON_SCHEMA_PATTERN s = true → s = SPOT_WINDOW ∨ forward_text s.
Proof.
  rewrite JSON_SCHEMA_PATTERN_spec.
  intros [|[[[y m] H]|[[[y q] H]|[y H]]]]; [by left|right..];
    eauto using MONTH_WINDOW_RE_forward, QUARTER_WINDOW_RE_forward, CALENDAR_WINDOW_RE_forward.
Qed.

Lemma alias_canonical raw w :
  LEGACY_WINDOW_ALIASES !! raw = Some w → JSON_SCHEMA_PATTERN w = true.
Proof.
  intros H%elem_of_list_to_map_2.
  revert H. cut (Forall (λ kv, JSON_SCHEMA_PATTERN kv.2 = true) legacy_aliases).
  { rewrite Forall_forall. intros Hall Hin. apply (Hall _ Hin). }
  apply (bool_decide_unpack _). vm_compute. exact I.
Qed.

(** Only [SPOT] is at once an alias and a canonical window. *)
Lemma alias_of_canonical s w :
  JSON_SCHEMA_PATTERN s = true → LEGACY_WINDOW_ALIASES !! s = Some w → w = s.
Proof.
  intros Hs H%elem_of_list_to_map_2. revert H Hs.
  cut (Forall (λ kv, JSON_SCHEMA_PATTERN kv.1 = false ∨ kv.2 = kv.1) legacy_aliases).
  { rewrite Forall_forall. intros Hall Hin Hs.
    destruct (Hall _ Hin) as [Hf|]; [|done]. cbn in Hf. congruence. }
  apply (bool_decide_unpack _). vm_compute. exact I.
Qed.

Lemma normalize_of_canonical s :
  JSON_SCHEMA_PATTERN s = true → normalize_availability_window s = Val s.
Proof.
  intros Hs. unfold normalize_availability_window.
  destruct (pattern_forward s Hs) as [->|[Hns (c & s' & Heq & Hc)]]; [done|].
  unfold strip; rewrite strip_by_none by done.
  rewrite bool_decide_eq_false_2 by (by subst).
  destruct (LEGACY_WINDOW_ALIASES !! s) as [w|] eqn:Hal.
  { by rewrite (alias_of_canonical s w). }
  assert (upper s ≠ SPOT_WINDOW).
  { subst s. cbn. rewrite (in_range_not_upper _ 48 57) by done. intros [= ->]. done. }
  rewrite bool_decide_eq_false_2 by done.
  apply JSON_SCHEMA_PATTERN_spec in Hs as [->|[H1|[H1|H1]]]; [done|..];
    rewrite (bool_decide_eq_true_2 _ H1), ?orb_true_r; done.
Qed.

Lemma normalize_pattern v w :
  normalize_availability_window v = Val w → JSON_SCHEMA_PATTERN w = true.
Proof.
  unfold normalize_availability_window. case_bool_decide; [done|].
  destruct (LEGACY_WINDOW_ALIASES !! strip v) as [al|] eqn:Hal.
  { inversion 1; subst. eauto using alias_canonical. }
  case_bool_decide; [by inversion 1|].
  destruct (_ || _) eqn:Hor; [|done]. inversion 1; subst.
  rewrite !orb_true_iff, !bool_decide_eq_true in Hor. rewrite JSON_SCHEMA_PATTERN_spec. tauto.
Qed.

Lemma normalize_raises_value_error v e :
  normalize_availability_window v = Exc e →
  e = blank_window_error ∨ e = bad_window_error.
Proof.
  unfold normalize_availability_window. repeat case_match; inversion 1; eauto.
Qed.

(** ** Dates of a window *)

Lemma digit_char_value n : 0 <= n <= 9 →
  is_digit (digit_char n) = true ∧ digit_value (digit_char n) = n.
Proof.
  intros Hn. unfold is_digit, in_range, digit_value, digit_char.
  rewrite Ascii.N_ascii_embedding by lia. rewrite bool_decide_eq_true. lia.
Qed.

Lemma take_year_show y rest : 1000 <= y <= 9999 →
  take_year (show_Z y +:+ rest) = Some (show_Z y, rest).
Proof.
  intros Hy. rewrite show_year_digits by done. simpl.
  rewrite !(fun n H => proj1 (digit_char_value n H)); [done|..];
    Z.to_euclidean_division_equations; lia.
Qed.

Lemma py_int_show_year y : 1000 <= y <= 9999 → py_int (show_Z y) = y.
Proof.
  intros Hy. rewrite show_year_digits by done. cbn.
  rewrite !(fun n H => proj2 (digit_char_value n H));
    Z.to_euclidean_division_equations; lia.
Qed.

Lemma in_range_digit_value c lo hi :
  in_range c lo hi = true → Z.of_N lo - 48 <= digit_value c <= Z.of_N hi - 48.
Proof. unfold in_range, digit_value. rewrite bool_decide_eq_true. lia. Qed.

Lemma take_year_bounds s y rest : take_year s = Some (y, rest) → 0 <= py_int y <= 9999.
Proof.
  destruct s as [|a [|b [|c [|d r]]]]; cbn; try done.
  destruct (is_digit a && is_digit b && is_digit c && is_digit d) eqn:Hd; [|done].
  inversion 1; subst. rewrite !andb_true_iff in Hd. destruct Hd as [[[Ha Hb] Hc] Hd].
  apply in_range_digit_value in Ha, Hb, Hc, Hd. cbn. lia.
Qed.

Lemma MONTH_WINDOW_RE_month s y m :
  MONTH_WINDOW_RE s = Some (y, m) → 1 <= py_int m <= 12 ∧ ∃ rest, take_year s = Some (y, rest).
Proof.
  unfold MONTH_WINDOW_RE. rewrite bind_Some. intros ([y' rest] & Hy & H).
  destruct rest as [|dash [|t [|u [|]]]]; try done.
  destruct (Ascii.eqb_spec dash "-"); [subst|done]. cbn [andb] in H.
  destruct (Ascii.eqb_spec t "0"); [subst|]; cbn in H.
  { destruct (in_range u 49 57) eqn:Hu; [|done]. inversion H; subst.
    apply in_range_digit_value in Hu. cbn.
    change (digit_value "0"%char) with 0. split; [lia|eauto]. }
  destruct (Ascii.eqb_spec t "1"); [subst|done]; cbn in H.
  destruct (in_range u 48 50) eqn:Hu; [|done]. inversion H; subst.
  apply in_range_digit_value in Hu. cbn.
  change (digit_value "1"%char) with 1. split; [lia|eauto].
Qed.

Lemma QUARTER_WINDOW_RE_quarter s y q :
  QUARTER_WINDOW_RE s = Some (y, q) → 1 <= py_int q <= 4 ∧ ∃ rest, take_year s = Some (y, rest).
Proof.
  unfold QUARTER_WINDOW_RE. rewrite bind_Some. intros ([y' rest] & Hy & H).
  destruct rest as [|dash [|t [|u [|]]]]; try done.
  destruct (Ascii.eqb_spec dash "-"); [subst|done]. cbn [andb] in H.
  destruct (Ascii.eqb_spec t "Q"); [subst|done]; cbn in H.
  destruct (in_range u 49 52) eqn:Hu; [|done]. inversion H; subst.
  apply in_range_digit_value in Hu. cbn. split; [lia|eauto].
Qed.

Lemma CALENDAR_WINDOW_RE_year s y :
  CALENDAR_WINDOW_RE s = Some y → ∃ rest, take_year s = Some (y, rest).
Proof.
  unfold CALENDAR_WINDOW_RE. rewrite bind_Some. intros ([y' rest] & Hy & H).
  case_bool_decide; [|done]. inversion H; subst. eauto.
Qed.

(** The first day of the month after month [m] of year [y]. *)
Definition first_of_next_month (y m : Z) : date :=
  if m <? 12 then MkDate y (m + 1) 1 else MkDate (y + 1) 1 1.

Lemma month_end y m :
  1 <= y <= 9998 → 1 <= m <= 12 →
  mk_date y m (days_in_month y m) = Val (MkDate y m (days_in_month y m))
  ∧ next_day (MkDate y m (days_in_month y m)) = Val (first_of_next_month y m).
Proof.
  intros Hy Hm. pose proof (days_in_month_bounds y m). split.
  - unfold mk_date. rewrite (proj2 (valid_date_spec _)); [done|].
    unfold MINYEAR, MAXYEAR. cbn [year month day]. lia.
  - unfold next_day, first_of_next_month. cbn [year month day].
    rewrite (proj2 (Z.ltb_ge _ _)) by lia.
    destruct (Z.ltb_spec m 12); [done|].
    by rewrite (proj2 (Z.ltb_lt _ _)) by (unfold MAXYEAR; lia).
Qed.

Lemma mk_date_first y m : 1 <= y <= 9999 → 1 <= m <= 12 → mk_date y m 1 = Val (MkDate y m 1).
Proof.
  intros. pose proof (days_in_month_bounds y m). unfold mk_date.
  rewrite (proj2 (valid_date_spec _)); [done|].
  unfold MINYEAR, MAXYEAR. cbn [year month day]. lia.
Qed.

(** The first day of month [m] comes before the end of any month [m' >= m]. *)
Lemma first_lt_next y m m' :
  1 <= m <= m' → m' <= 12 → date_lt (MkDate y m 1) (first_of_next_month y m').
Proof.
  intros Hm Hm'. unfold first_of_next_month, date_lt.
  destruct (Z.ltb_spec m' 12).
  { apply toordinal_next_month; [lia..|]. pose proof (days_in_month_bounds y m). lia. }
  assert (m' = 12) as -> by lia.
  unfold toordinal; cbn [year month day]. rewrite days_before_year_succ.
  change (days_before_month (y + 1) 1) with 0.
  unfold days_before_month. split_month m; eval_nat; cbn; destruct (is_leap y); lia.
Qed.

Lemma start_of_canonical w today date_today :
  JSON_SCHEMA_PATTERN w = true →
  window_start_date w today date_today =
  if bool_decide (w = SPOT_WINDOW) then Val (default date_today today)
  else match MONTH_WINDOW_RE w with
  | Some (year, month) => mk_date (py_int year) (py_int month) 1
  | None =>
    match QUARTER_WINDOW_RE w with
    | Some (year, quarter) => mk_date (py_int year) ((py_int quarter - 1) * 3 + 1) 1
    | None =>
      match CALENDAR_WINDOW_RE w with
      | Some year => mk_date (py_int year) 1 1
      | None => Exc (unsupported_window_error w)
      end
    end
  end.
Proof. intros Hw. unfold window_start_date. by rewrite normalize_of_canonical. Qed.

Lemma midnight_lt_first y m m' :
  1 <= m <= m' → m' <= 12 →
  midnight_utc (MkDate y m 1) < midnight_utc (first_of_next_month y m').
Proof. intros. by apply midnight_utc_lt, first_lt_next. Qed.

(** ** The windows built for a date *)

Lemma show_month m : 1 <= m <= 12 →
  py_int (show_02d m) = m ∧
  ∃ t u, show_02d m = String t (String u "") ∧
    (Ascii.eqb t "0"%char && in_range u 49 57) || (Ascii.eqb t "1"%char && in_range u 48 50) = true.
Proof. intros Hm. split_month m; (split; [done|]); eexists _, _; by split. Qed.

Lemma show_quarter q : 1 <= q <= 4 →
  py_int (show_Z q) = q ∧ ∃ n, show_Z q = String n "" ∧ in_range n 49 52 = true.
Proof.
  intros Hq. assert (q = 1 ∨ q = 2 ∨ q = 3 ∨ q = 4) as H by lia.
  destruct_or!; subst q; (split; [done|]); eexists _; by split.
Qed.

Section built.
Context (y : Z) (Hy : 1000 <= y <= 9998).

Lemma MONTH_WINDOW_RE_built m : 1 <= m <= 12 →
  MONTH_WINDOW_RE (month_window y m) = Some (show_Z y, show_02d m).
Proof.
  intros Hm. unfold MONTH_WINDOW_RE, month_window. rewrite take_year_show by lia.
  destruct (show_month m Hm) as (_ & t & u & -> & Htu). simpl. by rewrite Htu.
Qed.

Lemma QUARTER_WINDOW_RE_built q : 1 <= q <= 4 →
  MONTH_WINDOW_RE (quarter_window y q) = None ∧
  QUARTER_WINDOW_RE (quarter_window y q) = Some (show_Z y, show_Z q).
Proof.
  intros Hq. unfold MONTH_WINDOW_RE, QUARTER_WINDOW_RE, quarter_window.
  rewrite take_year_show by lia.
  destruct (show_quarter q Hq) as (_ & n & -> & Hn). simpl. by rewrite Hn.
Qed.

Lemma built_not_spot rest : show_Z y +:+ rest ≠ SPOT_WINDOW.
Proof.
  intros H. pose proof (take_year_show y rest ltac:(lia)) as Ht. rewrite H in Ht. done.
Qed.

Lemma month_window_canonical m : 1 <= m <= 12 → JSON_SCHEMA_PATTERN (month_window y m) = true.
Proof. intros. apply JSON_SCHEMA_PATTERN_spec. right; left. by rewrite MONTH_WINDOW_RE_built. Qed.

Lemma quarter_window_canonical q : 1 <= q <= 4 → JSON_SCHEMA_PATTERN (quarter_window y q) = true.
Proof.
  intros Hq. apply JSON_SCHEMA_PATTERN_spec. right; right; left.
  by rewrite (proj2 (QUARTER_WINDOW_RE_built q Hq)).
Qed.

Lemma month_window_dates m today date_today observed : 1 <= m <= 12 →
  window_start_date (month_window y m) today date_today = Val (MkDate y m 1) ∧
  availability_window_expiry (month_window y m) observed
    = Val (midnight_utc (first_of_next_month y m)).
Proof.
  intros Hm. pose proof (month_window_canonical m Hm) as Hc.
  rewrite start_of_canonical by done. unfold availability_window_expiry.
  rewrite normalize_of_canonical by done. simpl.
  rewrite bool_decide_eq_false_2 by apply built_not_spot.
  rewrite MONTH_WINDOW_RE_built by done.
  rewrite py_int_show_year, (proj1 (show_month m Hm)) by lia.
  destruct (month_end y m) as [He Hn]; [lia..|].
  rewrite mk_date_first, He by lia. simpl. by rewrite Hn.
Qed.

Lemma quarter_window_dates q today date_today observed : 1 <= q <= 4 →
  window_start_date (quarter_window y q) today date_today = Val (MkDate y (3 * (q - 1) + 1) 1) ∧
  availability_window_expiry (quarter_window y q) observed
    = Val (midnight_utc (first_of_next_month y (3 * q))).
Proof.
  intros Hq. pose proof (quarter_window_canonical q Hq) as Hc.
  rewrite start_of_canonical by done. unfold availability_window_expiry.
  rewrite normalize_of_canonical by done. simpl.
  rewrite bool_decide_eq_false_2 by apply built_not_spot.
  destruct (QUARTER_WINDOW_RE_built q Hq) as [-> ->].
  rewrite py_int_show_year, (proj1 (show_quarter q Hq)) by lia.
  replace ((q - 1) * 3 + 1) with (3 * (q - 1) + 1) by lia.
  replace (q * 3) with (3 * q) by lia.
  destruct (month_end y (3 * q)) as [He Hn]; [lia..|].
  rewrite mk_date_first, He by lia. simpl. by rewrite Hn.
Qed.
End built.

(** The forward part of the tradable windows, as intervals of months counted
    from year 0: a month window covers one month, a quarter window three. *)
Definition month_index (y m : Z) : Z := 12 * y + (m - 1).
Definition date_of_index (t : Z) : date := MkDate (t / 12) (t mod 12 + 1) 1.

Lemma date_of_month_index y m : 1 <= m <= 12 → date_of_index (month_index y m) = MkDate y m 1.
Proof.
  intros. unfold date_of_index, month_index. f_equal; Z.to_euclidean_division_equations; lia.
Qed.

Lemma first_of_next_month_index y m : 1 <= m <= 12 →
  first_of_next_month y m = date_of_index (month_index y m + 1).
Proof.
  intros. unfold first_of_next_month, date_of_index, month_index.
  destruct (Z.ltb_spec m 12); f_equal; Z.to_euclidean_division_equations; lia.
Qed.

(** [w] covers the months from [a] up to [b]. *)
Definition covers (w : string) (a b : Z) : Prop :=
  a < b ∧ w ≠ SPOT_WINDOW ∧ JSON_SCHEMA_PATTERN w = true ∧
  (∀ today date_today, window_start_date w today date_today = Val (date_of_index a)) ∧
  (∀ observed, availability_window_expiry w observed = Val (midnight_utc (date_of_index b))).

Lemma month_window_covers y m : 1000 <= y <= 9998 → 1 <= m <= 12 →
  covers (month_window y m) (month_index y m) (month_index y m + 1).
Proof.
  intros Hy Hm. split_and!; [lia| |by apply month_window_canonical|..].
  - apply built_not_spot; lia.
  - intros. destruct (month_window_dates y Hy m today date_today 0 Hm) as [-> _].
    by rewrite date_of_month_index.
  - intros. destruct (month_window_dates y Hy m None (MkDate 1 1 1) observed Hm) as [_ ->].
    by rewrite first_of_next_month_index.
Qed.

Lemma quarter_after_covers y q k :
  1 <= q <= 4 → 0 <= k → 1000 <= y → 4 * y + (q - 1) + k <= 4 * 9998 + 3 →
  covers (quarter_after y q k) (12 * y + 3 * (q - 1 + k)) (12 * y + 3 * (q + k)).
Proof.
  intros Hq Hk Hy Hmax. unfold quarter_after.
  set (t := y * 4 + (q - 1) + k).
  assert (1000 <= t / 4 <= 9998) as Hy' by (Z.to_euclidean_division_equations; lia).
  assert (1 <= t mod 4 + 1 <= 4) as Hq' by (Z.to_euclidean_division_equations; lia).
  split_and!; [lia| |by apply quarter_window_canonical|..].
  - apply built_not_spot; lia.
  - intros. destruct (quarter_window_dates _ Hy' _ today date_today 0 Hq') as [-> _].
    unfold date_of_index. do 2 f_equal; Z.to_euclidean_division_equations; lia.
  - intros. destruct (quarter_window_dates _ Hy' _ None (MkDate 1 1 1) observed Hq') as [_ ->].
    rewrite first_of_next_month_index by lia.
    unfold month_index. do 3 f_equal. Z.to_euclidean_division_equations; lia.
Qed.

(** Where the [i]-th forward window starts. *)
Definition window_index (current : date) (i : nat) : Z :=
  let left := quarter_of (month current) * 3 + 1 - month current in
  month_index (year current) (month current)
  + (if Z.of_nat i <? left then Z.of_nat i else left + 3 * (Z.of_nat i - left)).

Lemma forward_window_covers current n i w :
  valid_date current = true → 1000 <= year current →
  4 * year current + 3 + Z.of_nat n <= 4 * 9998 + 3 →
  tail (tradable_availability_windows current n) !! i = Some w →
  covers w (window_index current i) (window_index current (S i)).
Proof.
  intros (Hy & Hm & _)%valid_date_spec Hlo Hhi. simpl.
  set (q := quarter_of (month current)).
  assert (1 <= q <= 4 ∧ 3 * q - 2 <= month current <= 3 * q) as [Hq Hmq]
    by (unfold q, quarter_of; Z.to_euclidean_division_equations; lia).
  rewrite lookup_app_Some, !list_lookup_fmap, !fmap_Some.
  unfold window_index; fold q. rewrite length_fmap.
  unfold py_range. rewrite length_seqZ.
  intros [(m & Hs & ->)|[Hi (k & Hs & ->)]]; apply lookup_seqZ in Hs as [-> Hlt].
  - replace (month_index (year current) (month current) + _)
      with (month_index (year current) (month current + Z.of_nat i)).
    2: { rewrite (proj2 (Z.ltb_lt _ _)) by lia. unfold month_index. lia. }
    replace (month_index (year current) (month current) + _)
      with (month_index (year current) (month current + Z.of_nat i) + 1).
    2: { unfold month_index. destruct (Z.ltb_spec (Z.of_nat (S i)) (q * 3 + 1 - month current)); lia. }
    apply month_window_covers; lia.
  - rewrite !(proj2 (Z.ltb_ge _ _)) by lia.
    replace (month_index _ _ + (q * 3 + 1 - month current + 3 * (Z.of_nat i - _)))
      with (12 * year current + 3 * (q - 1 + (1 + (0 + Z.of_nat (i - Z.to_nat (q * 3 + 1 - month current))))))
      by (unfold month_index; lia).
    replace (month_index _ _ + _)
      with (12 * year current + 3 * (q + (1 + (0 + Z.of_nat (i - Z.to_nat (q * 3 + 1 - month current))))))
      by (unfold month_index; lia).
    apply quarter_after_covers; lia.
Qed.

Lemma window_index_lt current i : window_index current i < window_index current (S i).
Proof.
  unfold window_index. destruct (Z.ltb_spec (Z.of_nat i) (quarter_of (month current) * 3 + 1 - month current)),
    (Z.ltb_spec (Z.of_nat (S i)) (quarter_of (month current) * 3 + 1 - month current)); lia.
Qed.

Lemma window_index_mono current i j : (i < j)%nat → window_index current i < window_index current j.
Proof.
  induction 1 as [|j _ IH]; [apply window_index_lt|].
  pose proof (window_index_lt current j). lia.
Qed.

Lemma window_index_0 current : 1 <= month current <= 12 →
  window_index current 0 = month_index (year current) (month current).
Proof.
  intros Hm. unfold window_index, quarter_of. rewrite (proj2 (Z.ltb_lt _ _)).
  - lia.
  - Z.to_euclidean_division_equations; lia.
Qed.

Lemma date_of_index_inj a b : date_of_index a = date_of_index b → a = b.
Proof. unfold date_of_index. intros [= H1 H2]. Z.to_euclidean_division_equations; lia. Qed.

Lemma date_of_index_step t : date_lt (date_of_index t) (date_of_index (t + 1)).
Proof.
  assert (1 <= t mod 12 + 1 <= 12) as Hm by (Z.to_euclidean_division_equations; lia).
  pose proof (first_lt_next (t / 12) (t mod 12 + 1) (t mod 12 + 1) ltac:(lia) ltac:(lia)) as H.
  rewrite first_of_next_month_index in H by done.
  replace (month_index (t / 12) (t mod 12 + 1)) with t in H; [done|].
  unfold month_index. Z.to_euclidean_division_equations; lia.
Qed.

Lemma date_of_index_mono a b : a < b → date_lt (date_of_index a) (date_of_index b).
Proof.
  intros Hab. replace b with (a + 1 + Z.of_nat (Z.to_nat (b - a - 1))) by lia.
  generalize (Z.to_nat (b - a - 1)) as n. clear. induction n as [|n IH].
  { rewrite Z.add_0_r. apply date_of_index_step. }
  pose proof (date_of_index_step (a + 1 + Z.of_nat n)).
  replace (a + 1 + Z.of_nat (S n)) with (a + 1 + Z.of_nat n + 1) by lia.
  unfold date_lt in *. lia.
Qed.

(** A date comes before the first day of the next month. *)
Lemma date_before_next_month d :
  valid_date d = true → date_lt d (date_of_index (month_index (year d) (month d) + 1)).
Proof.
  intros Hv. pose proof Hv as (Hy & Hm & Hd)%valid_date_spec.
  rewrite <-first_of_next_month_index by done. unfold first_of_next_month, date_lt.
  destruct d as [y m dd]; cbn [year month day] in *.
  destruct (Z.ltb_spec m 12); [apply toordinal_next_month; lia|].
  pose proof (toordinal_bounds _ Hv) as Hb. cbn [year] in Hb.
  unfold toordinal at 2; cbn [year month day].
  change (days_before_month (y + 1) 1) with 0. lia.
Qed.

Lemma forward_windows_NoDup current n :
  valid_date current = true → 1000 <= year current →
  4 * year current + 3 + Z.of_nat n <= 4 * 9998 + 3 →
  NoDup (tradable_availability_windows current n).
Proof.
  intros Hv Hlo Hhi. change (tradable_availability_windows current n)
    with (SPOT_WINDOW :: tail (tradable_availability_windows current n)).
  pose proof (forward_window_covers current n) as Hcov. constructor.
  - intros [i Hi]%list_elem_of_lookup_1.
    destruct (Hcov i _ Hv Hlo Hhi Hi) as (_ & Hns & _). done.
  - apply NoDup_alt. intros i j w Hi Hj.
    pose proof (Hcov i w Hv Hlo Hhi Hi) as (_ & _ & _ & Hsi & _).
    pose proof (Hcov j w Hv Hlo Hhi Hj) as (_ & _ & _ & Hsj & _).
    specialize (Hsi None current). rewrite Hsj in Hsi. inversion Hsi as [Hd].
    destruct (lt_eq_lt_dec i j) as [[Hlt|]|Hlt]; [|done|];
      apply (window_index_mono current) in Hlt;
      unfold window_index in *; Z.to_euclidean_division_equations; lia.
Qed.

(** ** Properties *)

(** Normalisation accepts exactly what it can express: its result always
    matches the published JSON pattern, a text that matches the pattern is
    returned unchanged (so normalising twice is normalising once), and the only
    exception it raises is the [ValueError] the validators turn into a 422. *)
Theorem normalize_availability_window_canonical :
  (∀ s, JSON_SCHEMA_PATTERN s = true ↔ normalize_availability_window s = Val s) ∧
  (∀ v w, normalize_availability_window v = Val w →
     JSON_SCHEMA_PATTERN w = true ∧ normalize_availability_window w = Val w) ∧
  (∀ v e, normalize_availability_window v = Exc e →
     (e = blank_window_error ∨ e = bad_window_error)
     ∧ is_valid_availability_window v = false).
Proof.
  split_and!.
  - intros s. split; [apply normalize_of_canonical|apply normalize_pattern].
  - intros v w H%normalize_pattern. auto using normalize_of_canonical.
  - intros v e H. split; [by apply normalize_raises_value_error in H|].
    unfold is_valid_availability_window. by rewrite H.
Qed.

Lemma normalize_availability_window_canonical_witness :
  JSON_SCHEMA_PATTERN "2026-Q3" = true
  ∧ normalize_availability_window "2026-Q3" = Val "2026-Q3".
Proof.
  destruct normalize_availability_window_canonical as (_ & H & _).
  apply (H " Q3_2026 "). vm_compute. reflexivity.
Defined.

(** Every accepted forward window of a year the calendar can express has a
    valid first day, and its exclusive expiry lies strictly after the midnight
    that starts that day; neither depends on the clock. *)
Theorem window_start_before_expiry v w y rest today date_today observed :
  normalize_availability_window v = Val w →
  take_year w = Some (y, rest) → 1 <= py_int y <= 9998 →
  ∃ d e, window_start_date v today date_today = Val d
    ∧ availability_window_expiry v observed = Val e
    ∧ valid_date d = true ∧ midnight_utc d < e.
Proof.
  intros Hv Hw Hy.
  unfold window_start_date, availability_window_expiry. rewrite Hv. simpl.
  rewrite bool_decide_eq_false_2 by (by intros ->).
  destruct (MONTH_WINDOW_RE w) as [[y' m]|] eqn:Hm.
  { destruct (MONTH_WINDOW_RE_month _ _ _ Hm) as (Hmr & r & Hr).
    assert (y' = y) as -> by congruence.
    destruct (month_end (py_int y) (py_int m)) as [He Hn]; [lia..|].
    rewrite mk_date_first, He by lia. simpl. rewrite Hn. eexists _, _. split_and!; [done..| |].
    - apply (mk_date_Val _ _ _ _ (mk_date_first (py_int y) (py_int m) ltac:(lia) Hmr)).
    - apply midnight_lt_first; lia. }
  destruct (QUARTER_WINDOW_RE w) as [[y' q]|] eqn:Hq.
  { destruct (QUARTER_WINDOW_RE_quarter _ _ _ Hq) as (Hqr & r & Hr).
    assert (y' = y) as -> by congruence.
    destruct (month_end (py_int y) (py_int q * 3)) as [He Hn]; [lia..|].
    rewrite mk_date_first, He by lia. simpl. rewrite Hn. eexists _, _. split_and!; [done..| |].
    - by apply (mk_date_Val (py_int y) ((py_int q - 1) * 3 + 1) 1), mk_date_first; lia.
    - apply midnight_lt_first; lia. }
  apply normalize_pattern, JSON_SCHEMA_PATTERN_spec in Hv as [->|[[? ?]|[[? ?]|[y' Hc]]]];
    [done|congruence..|].
  rewrite Hc. destruct (CALENDAR_WINDOW_RE_year _ _ Hc) as [r Hr].
  assert (y' = y) as -> by congruence.
  rewrite !mk_date_first by lia. simpl. eexists _, _. split_and!; [done..| |].
  - by apply (mk_date_Val (py_int y) 1 1), mk_date_first; lia.
  - apply (midnight_lt_first (py_int y) 1 12); lia.
Qed.

Lemma window_start_before_expiry_witness :
  ∃ d e, window_start_date "Q4 2026" None (MkDate 2026 1 5) = Val d
    ∧ availability_window_expiry "Q4 2026" 0 = Val e
    ∧ valid_date d = true ∧ midnight_utc d < e.
Proof.
  apply (window_start_before_expiry "Q4 2026" "2026-Q4" "2026" "-Q4");
    vm_compute; (reflexivity || (split; discriminate)).
Defined.

(** The windows offered to new orders tile the horizon.  After [SPOT] come
    windows without repetition, the first starting with the current month; each
    forward window is canonical, still open at the start of the current day,
    and expires exactly when the next one in the list starts. *)
Theorem tradable_windows_tile_the_horizon current n date_today observed :
  valid_date current = true → 1000 <= year current →
  4 * year current + 3 + Z.of_nat n <= 4 * 9998 + 3 →
  let forward := tail (tradable_availability_windows current n) in
  tradable_availability_windows current n = SPOT_WINDOW :: forward
  ∧ NoDup (tradable_availability_windows current n)
  ∧ head forward = Some (month_window (year current) (month current))
  ∧ (∀ w, w ∈ forward → normalize_availability_window w = Val w
       ∧ ∃ e, availability_window_expiry w observed = Val e ∧ midnight_utc current < e)
  ∧ (∀ i w w', forward !! i = Some w → forward !! S i = Some w' →
       ∃ d, window_start_date w' None date_today = Val d
         ∧ availability_window_expiry w observed = Val (midnight_utc d)).
Proof.
  intros Hv Hlo Hhi forward. pose proof (forward_window_covers current n) as Hcov.
  pose proof Hv as (Hy & Hm & _)%valid_date_spec.
  split_and!; [done|by apply forward_windows_NoDup|..].
  - unfold forward; simpl. unfold py_range.
    destruct (Z.to_nat (quarter_of (month current) * 3 + 1 - month current)) as [|k] eqn:Hk.
    { unfold quarter_of in Hk. Z.to_euclidean_division_equations; lia. }
    replace (quarter_of (month current) * 3 + 1 - month current) with (Z.succ (Z.of_nat k)) by lia.
    rewrite seqZ_cons by lia. done.
  - intros w [i Hi]%list_elem_of_lookup_1.
    destruct (Hcov i w Hv Hlo Hhi Hi) as (_ & _ & Hc & _ & He).
    split; [by apply normalize_of_canonical|]. eexists; split; [apply He|].
    apply midnight_utc_lt. pose proof (date_before_next_month current Hv) as Hnext.
    pose proof (window_index_mono current 0 (S i) ltac:(lia)) as Hlt.
    rewrite window_index_0 in Hlt by done.
    destruct (decide (month_index (year current) (month current) + 1 = window_index current (S i)))
      as [<-|]; [done|].
    unfold date_lt in *. etrans; [exact Hnext|]. apply date_of_index_mono. lia.
  - intros i w w' Hi Hi'.
    destruct (Hcov i w Hv Hlo Hhi Hi) as (_ & _ & _ & _ & He).
    destruct (Hcov (S i) w' Hv Hlo Hhi Hi') as (_ & _ & _ & Hs & _).
    eexists; split; [apply Hs|apply He].
Qed.

Lemma tradable_windows_tile_the_horizon_witness :
  head (tail (tradable_availability_windows (MkDate 2026 8 31) FORWARD_QUARTER_COUNT))
  = Some "2026-08".
Proof.
  destruct (tradable_windows_tile_the_horizon (MkDate 2026 8 31) FORWARD_QUARTER_COUNT
    (MkDate 2026 1 1) 0) as (_ & _ & H & _); [reflexivity|vm_compute; discriminate..|].
  exact H.
Defined.
