(* ===== verification/Decimal.v ===== *)
(** * Python's [decimal] arithmetic

    The finite numbers of [decimal] under the default context: 28 significant
    digits, ties to even.  A number is [coef * 10 ^ expo]; the sign is the
    coefficient's, so the signed zeros are one number, which no comparison or
    rounding below tells apart.  [div] follows the division algorithm of the
    specification (a quotient with a sticky digit, then one rounding). *)

From S2P Require Import Prelude.
Local Open Scope Z_scope.

Record decimal := MkDecimal { coef : Z; expo : Z }.

Definition PREC : Z := 28.

Inductive rounding := ROUND_HALF_EVEN | ROUND_HALF_UP.

(** Number of decimal digits of [|n|] (one for zero). *)
Fixpoint ndigits_fuel (fuel : nat) (n : Z) : Z :=
  match fuel with
  | O => 1
  | S fuel => if n <? 10 then 1 else 1 + ndigits_fuel fuel (n / 10)
  end.
Definition ndigits (n : Z) : Z := ndigits_fuel (S (Z.to_nat (Z.log2 (Z.abs n)))) (Z.abs n).

(** [n / m] rounded to an integer, for [m > 0]. *)
Definition round_div (mode : rounding) (n m : Z) : Z :=
  let q := Z.abs n / m in
  let r := Z.abs n mod m in
  let up :=
    match mode with
    | ROUND_HALF_EVEN => (m <? 2 * r) || ((2 * r =? m) && Z.odd q)
    | ROUND_HALF_UP => m <=? 2 * r
    end in
  Z.sgn n * (if up then q + 1 else q).

(** Round to the context's precision. *)
Definition fix_precision (d : decimal) : decimal :=
  let n := ndigits (coef d) in
  if n <=? PREC then d
  else
    let drop := n - PREC in
    let c := round_div ROUND_HALF_EVEN (coef d) (10 ^ drop) in
    if ndigits c <=? PREC then MkDecimal c (expo d + drop)
    else MkDecimal (Z.quot c 10) (expo d + drop + 1).

(** The coefficients of two numbers at their common (smaller) exponent. *)
Definition coef_at (d : decimal) (e : Z) : Z := coef d * 10 ^ (expo d - e).
Definition common_expo (a b : decimal) : Z := Z.min (expo a) (expo b).

Definition dadd (a b : decimal) : decimal :=
  let e := common_expo a b in fix_precision (MkDecimal (coef_at a e + coef_at b e) e).
Definition dneg (a : decimal) : decimal := MkDecimal (- coef a) (expo a).
Definition dsub (a b : decimal) : decimal := dadd a (dneg b).
Definition dabs (a : decimal) : decimal := fix_precision (MkDecimal (Z.abs (coef a)) (expo a)).
Definition dmul (a b : decimal) : decimal :=
  fix_precision (MkDecimal (coef a * coef b) (expo a + expo b)).

(** Strip trailing zeros of an exact quotient up to the ideal exponent. *)
Fixpoint reduce_to (fuel : nat) (ideal : Z) (d : decimal) : decimal :=
  match fuel with
  | O => d
  | S fuel =>
      if (expo d <? ideal) && (coef d mod 10 =? 0)
      then reduce_to fuel ideal (MkDecimal (coef d / 10) (expo d + 1))
      else d
  end.

Definition ddiv (a b : decimal) : res decimal :=
  if coef b =? 0 then Exc InvalidOperation
  else
    let ideal := expo a - expo b in
    let shift := ndigits (coef b) - ndigits (coef a) + PREC + 1 in
    let e := ideal - shift in
    let op1 := if 0 <=? shift then Z.abs (coef a) * 10 ^ shift else Z.abs (coef a) in
    let op2 := if 0 <=? shift then Z.abs (coef b) else Z.abs (coef b) * 10 ^ (- shift) in
    let q := op1 / op2 in
    let sign := Z.sgn (coef a) * Z.sgn (coef b) in
    if op1 mod op2 =? 0
    then
      let d := reduce_to (Z.to_nat (Z.max 0 shift)) ideal (MkDecimal q e) in
      Val (fix_precision (MkDecimal (sign * coef d) (expo d)))
    else
      let q := if q mod 5 =? 0 then q + 1 else q in
      Val (fix_precision (MkDecimal (sign * q) e)).

(** [x.quantize(Decimal(10) ** e, rounding)] *)
Definition quantize (x : decimal) (e : Z) (mode : rounding) : res decimal :=
  let c := if e <=? expo x then coef x * 10 ^ (expo x - e)
           else round_div mode (coef x) (10 ^ (e - expo x)) in
  if PREC <? ndigits c then Exc InvalidOperation else Val (MkDecimal c e).

(** Comparisons are exact. *)
Definition dcompare (a b : decimal) : comparison :=
  let e := common_expo a b in coef_at a e ?= coef_at b e.
Definition dltb (a b : decimal) : bool := match dcompare a b with Lt => true | _ => false end.
Definition dleb (a b : decimal) : bool := match dcompare a b with Gt => false | _ => true end.

(** A stored value in hundredths, and the integer literals of the source. *)
Definition of_cents (n : Z) : decimal := MkDecimal n (-2).
Definition of_int (n : Z) : decimal := MkDecimal n 0.

(** A value quantized to two places, in hundredths. *)
Definition to_cents (d : decimal) : Z := coef_at d (-2).

Lemma to_cents_of_cents n : to_cents (of_cents n) = n.
Proof. unfold to_cents, coef_at, of_cents. cbn. lia. Qed.

Example div_third : ddiv (of_int 1) (of_int 3) = Val (MkDecimal 3333333333333333333333333333 (-28)).
Proof. vm_compute. done. Qed.
Example div_two_thirds : ddiv (of_int 2) (of_int 3) = Val (MkDecimal 6666666666666666666666666667 (-28)).
Proof. vm_compute. done. Qed.
Example div_exact : ddiv (of_cents 750) (of_int 100) = Val (MkDecimal 75 (-3)).
Proof. vm_compute. done. Qed.
Example quantize_half_up :
  quantize (MkDecimal 12345 (-3)) (-2) ROUND_HALF_UP = Val (MkDecimal 1235 (-2))
  ∧ quantize (MkDecimal 12345 (-3)) (-2) ROUND_HALF_EVEN = Val (MkDecimal 1234 (-2)).
Proof. vm_compute. done. Qed.

(** ** Facts *)

Lemma ndigits_fuel_spec fuel n :
  0 <= n → Z.log2 n < Z.of_nat fuel →
  1 <= ndigits_fuel fuel n ∧ n < 10 ^ ndigits_fuel fuel n
  ∧ (n = 0 ∨ 10 ^ (ndigits_fuel fuel n - 1) <= n).
Proof.
  revert n. induction fuel as [|fuel IH]; intros n Hn Hl.
  { pose proof (Z.log2_nonneg n). lia. }
  simpl. destruct (Z.ltb_spec n 10).
  { split_and!; [lia|lia|]. change (10 ^ (1 - 1)) with 1. lia. }
  assert (Z.log2 (n / 10) < Z.of_nat fuel).
  { pose proof (Z.log2_double (n / 10)
      ltac:(Z.to_euclidean_division_equations; lia)) as Hd.
    assert (Z.log2 (2 * (n / 10)) <= Z.log2 n)
      by (apply Z.log2_le_mono; Z.to_euclidean_division_equations; lia). lia. }
  destruct (IH (n / 10)) as (H1 & H2 & H3); [Z.to_euclidean_division_equations; lia|done|].
  set (k := ndigits_fuel fuel (n / 10)) in *.
  split_and!; [lia| |right].
  - rewrite Z.pow_add_r by lia. change (10 ^ 1) with 10.
    Z.to_euclidean_division_equations; lia.
  - replace (1 + k - 1) with k by lia.
    destruct H3 as [H3|H3]; [Z.to_euclidean_division_equations; lia|].
    replace k with (k - 1 + 1) by lia. rewrite Z.pow_add_r by lia. change (10 ^ 1) with 10.
    Z.to_euclidean_division_equations; lia.
Qed.

Lemma ndigits_spec n :
  1 <= ndigits n ∧ Z.abs n < 10 ^ ndigits n ∧ (n = 0 ∨ 10 ^ (ndigits n - 1) <= Z.abs n).
Proof.
  unfold ndigits. destruct (ndigits_fuel_spec (S (Z.to_nat (Z.log2 (Z.abs n)))) (Z.abs n))
    as (? & ? & ?); [lia| |].
  { pose proof (Z.log2_nonneg (Z.abs n)). lia. }
  split_and!; [done..|]. lia.
Qed.

Lemma ndigits_le n k : 1 <= k → Z.abs n < 10 ^ k → ndigits n <= k.
Proof.
  intros Hk Hn. destruct (ndigits_spec n) as (H1 & H2 & [->|H3]); [done|].
  destruct (Z.le_gt_cases (ndigits n) k) as [|Hgt]; [done|].
  pose proof (Z.pow_le_mono_r 10 k (ndigits n - 1)). lia.
Qed.

Lemma ndigits_ge n k : 1 <= k → 10 ^ (k - 1) <= Z.abs n → k <= ndigits n.
Proof.
  intros Hk Hn. destruct (ndigits_spec n) as (H1 & H2 & _).
  destruct (Z.le_gt_cases k (ndigits n)) as [|Hgt]; [done|].
  pose proof (Z.pow_le_mono_r 10 (ndigits n) (k - 1)). lia.
Qed.

(** No rounding below the precision. *)
Lemma fix_precision_small d : Z.abs (coef d) < 10 ^ PREC → fix_precision d = d.
Proof.
  intros H. unfold fix_precision. rewrite (proj2 (Z.leb_le _ _)); [done|].
  apply ndigits_le; [unfold PREC; lia|done].
Qed.

(** [round_div] is within half a unit, and exact on multiples. *)
Lemma round_div_error mode n m :
  0 < m → 2 * Z.abs (round_div mode n m * m - n) <= m.
Proof.
  intros Hm. unfold round_div.
  pose proof (Z.div_mod (Z.abs n) m ltac:(lia)) as Hd.
  pose proof (Z.mod_pos_bound (Z.abs n) m Hm) as Hr.
  set (q := Z.abs n / m) in *. set (r := Z.abs n mod m) in *.
  assert (n = Z.sgn n * Z.abs n) as Hsgn by (symmetry; rewrite Z.mul_comm; apply Z.abs_sgn).
  assert (∀ u, Z.sgn n * u * m - n = Z.sgn n * (u * m - Z.abs n)) as Hfac.
  { intros u. rewrite Hsgn at 2. ring. }
  rewrite Hfac, Z.abs_mul. assert (0 <= Z.abs (Z.sgn n) <= 1) by lia.
  destruct mode.
  - destruct ((m <? 2 * r) || ((2 * r =? m) && Z.odd q)) eqn:Hup.
    + assert (m <= 2 * r).
      { apply orb_true_iff in Hup as [?%Z.ltb_lt|[?%Z.eqb_eq _]%andb_true_iff]; lia. }
      replace ((q + 1) * m - Z.abs n) with (m - r) by lia. nia.
    + apply orb_false_iff in Hup as [?%Z.ltb_ge _].
      replace (q * m - Z.abs n) with (- r) by lia. nia.
  - destruct (Z.leb_spec m (2 * r)).
    + replace ((q + 1) * m - Z.abs n) with (m - r) by lia. nia.
    + replace (q * m - Z.abs n) with (- r) by lia. nia.
Qed.

(** Rounding cannot cross a multiple of the unit. *)
Lemma round_div_ge mode n m k : 0 < m → k * m <= n → k <= round_div mode n m.
Proof. intros Hm Hk. pose proof (round_div_error mode n m Hm). nia. Qed.
Lemma round_div_le mode n m k : 0 < m → n <= k * m → round_div mode n m <= k.
Proof. intros Hm Hk. pose proof (round_div_error mode n m Hm). nia. Qed.

Lemma round_div_exact mode k m : 0 < m → round_div mode (k * m) m = k.
Proof. intros Hm. pose proof (round_div_error mode (k * m) m Hm). nia. Qed.

(** Half up, on a non-negative numerator, is [floor(n / m + 1 / 2)]. *)
Lemma round_half_up_floor n m :
  0 < m → 0 <= n → round_div ROUND_HALF_UP n m = (2 * n + m) / (2 * m).
Proof.
  intros Hm Hn. unfold round_div. rewrite (Z.abs_eq n) by done.
  destruct (Z.eq_dec n 0) as [->|].
  { rewrite Z.mul_0_l. symmetry. apply Z.div_small. lia. }
  rewrite (Z.sgn_pos n), Z.mul_1_l by lia.
  pose proof (Z.div_mod n m ltac:(lia)). pose proof (Z.mod_pos_bound n m Hm).
  destruct (Z.leb_spec m (2 * (n mod m))).
  - apply (Z.div_unique_pos _ _ _ (2 * (n mod m) - m)); lia.
  - apply (Z.div_unique_pos _ _ _ (2 * (n mod m) + m)); lia.
Qed.

(** ** Order of values

    [dle a b] compares the values; any exponent below both will do. *)

Definition dle (a b : decimal) : Prop :=
  coef_at a (common_expo a b) <= coef_at b (common_expo a b).

Lemma coef_at_shift d m m' : m <= m' → m' <= expo d → coef_at d m = coef_at d m' * 10 ^ (m' - m).
Proof.
  intros. unfold coef_at. rewrite <-Z.mul_assoc, <-Z.pow_add_r by lia. do 2 f_equal. lia.
Qed.

Lemma dle_at a b m : m <= expo a → m <= expo b → dle a b ↔ coef_at a m <= coef_at b m.
Proof.
  intros Ha Hb. unfold dle, common_expo. set (c := Z.min (expo a) (expo b)).
  rewrite (coef_at_shift a m c), (coef_at_shift b m c) by lia.
  pose proof (Z.pow_pos_nonneg 10 (c - m)). nia.
Qed.

Lemma dleb_dle a b : dleb a b = true ↔ dle a b.
Proof.
  unfold dleb, dcompare, dle. destruct (Z.compare_spec (coef_at a (common_expo a b))
    (coef_at b (common_expo a b))); split; intros; (done || lia).
Qed.

#[export] Instance dle_trans : Transitive dle.
Proof.
  intros a b c Hab Hbc. set (m := Z.min (expo a) (Z.min (expo b) (expo c))).
  apply (dle_at a b m) in Hab; [|lia..]. apply (dle_at b c m) in Hbc; [|lia..].
  apply (dle_at a c m); lia.
Qed.

(** A threshold [k * 10 ^ x] the context can represent. *)
Definition representable (t : decimal) : Prop := 0 <= coef t < 10 ^ PREC.

Lemma PREC_pow : 10 ^ PREC = 10 * 10 ^ (PREC - 1).
Proof. reflexivity. Qed.
Lemma pow10_pos k : 0 <= k → 0 < 10 ^ k.
Proof. intros. by apply Z.pow_pos_nonneg. Qed.
Lemma pow10_succ k : 0 < k → 10 ^ k = 10 * 10 ^ (k - 1).
Proof. intros. rewrite <-Z.pow_succ_r by lia. f_equal. lia. Qed.

(** A representable number at or above [10 ^ 27 * 10 ^ e] is a multiple of [10 ^ e]. *)
Lemma representable_floor t e :
  representable t → dle (MkDecimal (10 ^ (PREC - 1)) e) t → e <= expo t.
Proof.
  intros [_ Hk] Hle. destruct (Z.le_gt_cases e (expo t)) as [|Hgt]; [done|].
  apply (dle_at _ _ (expo t)) in Hle; [|cbn; lia..].
  unfold coef_at in Hle. cbn [coef expo] in Hle. rewrite Z.sub_diag, Z.mul_1_r in Hle.
  rewrite (pow10_succ (e - expo t)) in Hle by lia. rewrite PREC_pow in Hk.
  pose proof (pow10_pos (e - expo t - 1)). pose proof (pow10_pos (PREC - 1)).
  set (P := 10 ^ (PREC - 1)) in *. nia.
Qed.

(** Rounding [coef d] down to 28 digits does not cross a representable number. *)
Lemma round_coef_mono t d drop :
  representable t → 0 < drop → 10 ^ (PREC - 1) * 10 ^ drop <= coef d →
  let d' := MkDecimal (round_div ROUND_HALF_EVEN (coef d) (10 ^ drop)) (expo d + drop) in
  (dle t d → dle t d') ∧ (dle d t → dle d' t).
Proof.
  intros Ht Hdrop Hlow d'. subst d'.
  pose proof (pow10_pos drop ltac:(lia)) as Hpow.
  set (c := round_div _ _ _). assert (10 ^ (PREC - 1) <= c) as Hc by (by apply round_div_ge).
  set (e := expo d + drop). split; intros Hle.
  - destruct (Z.le_gt_cases e (expo t)) as [Hx|Hx].
    + apply (dle_at _ _ (expo d)) in Hle; [|lia..]. apply (dle_at _ _ e); [done|cbn; lia|].
      unfold coef_at in *. cbn [coef expo] in *. rewrite Z.sub_diag, Z.mul_1_r in *.
      apply round_div_ge; [done|]. etrans; [|exact Hle].
      rewrite <-Z.mul_assoc, <-Z.pow_add_r by lia.
      replace (expo t - e + drop) with (expo t - expo d) by lia. done.
    + apply (dle_at _ _ (expo t)); [done|cbn; lia|]. unfold coef_at. cbn [coef expo].
      rewrite Z.sub_diag, Z.mul_1_r. destruct Ht as [_ Ht].
      rewrite (pow10_succ (e - expo t)) by lia. rewrite PREC_pow in Ht.
      pose proof (pow10_pos (e - expo t - 1)). pose proof (pow10_pos (PREC - 1)).
      set (P := 10 ^ (PREC - 1)) in *. nia.
  - assert (e <= expo t) as Hx.
    { apply representable_floor; [done|]. etrans; [|exact Hle].
      apply (dle_at _ _ (expo d)); [cbn; lia|lia|].
      unfold coef_at. cbn [coef expo]. rewrite Z.sub_diag, Z.mul_1_r.
      replace (e - expo d) with drop by lia. done. }
    apply (dle_at _ _ (expo d)) in Hle; [|lia..]. apply (dle_at _ _ e); [cbn; lia|done|].
    unfold coef_at in *. cbn [coef expo] in *. rewrite Z.sub_diag, Z.mul_1_r in *.
    apply round_div_le; [done|]. etrans; [exact Hle|].
    rewrite <-Z.mul_assoc, <-Z.pow_add_r by lia.
    replace (expo t - e + drop) with (expo t - expo d) by lia. done.
Qed.

(** Equal values are below and above the same numbers. *)
Definition same_value (a b : decimal) : Prop := dle a b ∧ dle b a.

Lemma same_value_at a b m :
  m <= expo a → m <= expo b → coef_at a m = coef_at b m → same_value a b.
Proof. intros. split; apply (dle_at _ _ m); lia. Qed.

(** More than 28 digits after rounding means exactly [10 ^ 28]. *)
Lemma rounded_overflow d :
  0 <= coef d → PREC < ndigits (coef d) →
  let c := round_div ROUND_HALF_EVEN (coef d) (10 ^ (ndigits (coef d) - PREC)) in
  PREC < ndigits c → c = 10 ^ PREC.
Proof.
  intros Hd Hn c Hcn. set (drop := ndigits (coef d) - PREC) in *.
  pose proof (pow10_pos drop ltac:(lia)) as Hpow.
  assert (0 <= c) by (apply round_div_ge; lia).
  apply Z.le_antisymm.
  - apply round_div_le; [done|]. rewrite <-Z.pow_add_r by (unfold PREC; lia).
    destruct (ndigits_spec (coef d)) as (_ & Hup & _). rewrite Z.abs_eq in Hup by done.
    replace (PREC + drop) with (ndigits (coef d)) by lia. lia.
  - destruct (ndigits_spec c) as (_ & _ & [Hz|Hge]); [rewrite Hz in Hcn; vm_compute in Hcn; done|].
    rewrite Z.abs_eq in Hge by lia. etrans; [|exact Hge]. apply Z.pow_le_mono_r; lia.
Qed.

(** Rounding to the precision does not cross a representable number. *)
Lemma fix_precision_mono t d :
  representable t → 0 <= coef d →
  (dle t d → dle t (fix_precision d)) ∧ (dle d t → dle (fix_precision d) t).
Proof.
  intros Ht Hd. unfold fix_precision.
  destruct (Z.leb_spec (ndigits (coef d)) PREC) as [|Hn]; [done|].
  set (drop := ndigits (coef d) - PREC).
  assert (10 ^ (PREC - 1) * 10 ^ drop <= coef d) as Hlow.
  { rewrite <-Z.pow_add_r by (unfold PREC in *; lia).
    destruct (ndigits_spec (coef d)) as (_ & _ & [H|H]).
    - rewrite H in Hn. vm_compute in Hn. discriminate.
    - rewrite Z.abs_eq in H by done. replace (PREC - 1 + drop) with (ndigits (coef d) - 1) by lia. done. }
  destruct (round_coef_mono t d drop Ht ltac:(lia) Hlow) as [Hm1 Hm2].
  set (c := round_div _ _ _) in *.
  destruct (Z.leb_spec (ndigits c) PREC) as [|Hcn]; [done|].
  assert (c = 10 ^ PREC) as Hcp by by apply rounded_overflow.
  assert (same_value (MkDecimal (Z.quot c 10) (expo d + drop + 1)) (MkDecimal c (expo d + drop))) as [Hs1 Hs2].
  { apply (same_value_at _ _ (expo d + drop)); [cbn; lia..|].
    unfold coef_at. cbn [coef expo]. rewrite Hcp. rewrite Z.sub_diag.
    replace (expo d + drop + 1 - (expo d + drop)) with 1 by lia. reflexivity. }
  split; intros Hle; [etrans; [by apply Hm1|done]|etrans; [done|by apply Hm2]].
Qed.

(** ** Division *)

Lemma reduce_to_value fuel ideal d :
  0 <= coef d → 0 <= coef (reduce_to fuel ideal d) ∧ same_value (reduce_to fuel ideal d) d.
Proof.
  revert d. induction fuel as [|fuel IH]; intros d Hd; cbn [reduce_to].
  { split; [done|]. by apply (same_value_at _ _ (expo d)). }
  destruct ((expo d <? ideal) && (coef d mod 10 =? 0)) eqn:Hc.
  2: { split; [done|]. by apply (same_value_at _ _ (expo d)). }
  apply andb_true_iff in Hc as [_ Hc%Z.eqb_eq].
  destruct (IH (MkDecimal (coef d / 10) (expo d + 1))) as (Hp & Hs1 & Hs2); [cbn; Z.to_euclidean_division_equations; lia|].
  split; [done|].
  assert (same_value (MkDecimal (coef d / 10) (expo d + 1)) d) as [H1 H2].
  { apply (same_value_at _ _ (expo d)); [cbn; lia..|]. unfold coef_at. cbn [coef expo].
    rewrite Z.sub_diag. replace (expo d + 1 - expo d) with 1 by lia.
    Z.to_euclidean_division_equations; lia. }
  split; etrans; done.
Qed.

(** [t] against the exact quotient [n / m * 10 ^ e]. *)
Definition below_quotient (t : decimal) (n m e : Z) : Prop :=
  let x := Z.min (expo t) e in coef_at t x * m <= n * 10 ^ (e - x).
Definition above_quotient (t : decimal) (n m e : Z) : Prop :=
  let x := Z.min (expo t) e in n * 10 ^ (e - x) <= coef_at t x * m.

Lemma exact_quotient t q m e :
  0 < m →
  (below_quotient t (q * m) m e → dle t (MkDecimal q e))
  ∧ (above_quotient t (q * m) m e → dle (MkDecimal q e) t).
Proof.
  intros Hm. unfold below_quotient, above_quotient. set (x := Z.min (expo t) e).
  split; intros Hle; apply (dle_at _ _ x); try (cbn; lia).
  - apply (Z.mul_le_mono_pos_r _ _ m); [done|]. unfold coef_at at 2. cbn [coef expo]. lia.
  - apply (Z.mul_le_mono_pos_r _ _ m); [done|]. unfold coef_at at 1. cbn [coef expo]. lia.
Qed.

(** The quotient with its sticky digit stays on the same side. *)
Lemma sticky_mono t n m e :
  representable t → 0 < m → 0 <= n → n mod m ≠ 0 → 10 ^ (PREC - 1) <= n / m →
  let q := n / m in
  let q' := if q mod 5 =? 0 then q + 1 else q in
  (below_quotient t n m e → dle t (MkDecimal q' e)) ∧ (above_quotient t n m e → dle (MkDecimal q' e) t).
Proof.
  intros Ht Hm Hn Hr Hq q q'.
  pose proof (Z.div_mod n m ltac:(lia)) as Hd. pose proof (Z.mod_pos_bound n m Hm).
  assert (q <= q' <= q + 1) as Hq' by (unfold q'; destruct (q mod 5 =? 0); lia).
  fold q in Hd, Hq. set (r := n mod m) in *. unfold below_quotient, above_quotient.
  set (x := Z.min (expo t) e). assert (0 <= e - x) as Hx by lia.
  pose proof (pow10_pos (e - x) Hx) as Hpow.
  assert (dle (MkDecimal q e) t → e <= expo t) as Hfloor.
  { intros Hle. apply representable_floor; [done|]. etrans; [|exact Hle].
    apply (dle_at _ _ e); [cbn; lia..|]. unfold coef_at. cbn [coef expo].
    rewrite Z.sub_diag. lia. }
  assert (∀ k, dle (MkDecimal k e) t ↔ k * 10 ^ (e - x) <= coef_at t x) as Hle_l.
  { intros k. rewrite (dle_at _ _ x) by (cbn; lia). done. }
  assert (∀ k, dle t (MkDecimal k e) ↔ coef_at t x <= k * 10 ^ (e - x)) as Hle_r.
  { intros k. rewrite (dle_at _ _ x) by (cbn; lia). done. }
  split; intros Hb.
  - apply Hle_r. destruct (Z.le_gt_cases (coef_at t x) (q * 10 ^ (e - x))); [nia|].
    assert (e <= expo t) as He by (apply Hfloor, Hle_l; lia).
    assert (x = e) as -> by lia. rewrite Z.sub_diag in *. nia.
  - apply Hle_l.
    assert (e <= expo t) as He by (apply Hfloor, Hle_l; nia).
    assert (x = e) as -> by lia. rewrite Z.sub_diag in *. nia.
Qed.

(** The scaled operands of the division algorithm. *)
Definition div_shift (a b : decimal) : Z := ndigits (coef b) - ndigits (coef a) + PREC + 1.
Definition div_op1 (a b : decimal) : Z :=
  if 0 <=? div_shift a b then coef a * 10 ^ div_shift a b else coef a.
Definition div_op2 (a b : decimal) : Z :=
  if 0 <=? div_shift a b then coef b else coef b * 10 ^ (- div_shift a b).

(** The quotient before the final rounding. *)
Definition raw_quotient (a b : decimal) : decimal :=
  let e := expo a - expo b - div_shift a b in
  let q := div_op1 a b / div_op2 a b in
  if div_op1 a b mod div_op2 a b =? 0
  then reduce_to (Z.to_nat (Z.max 0 (div_shift a b))) (expo a - expo b) (MkDecimal q e)
  else MkDecimal (if q mod 5 =? 0 then q + 1 else q) e.

Lemma ddiv_raw a b :
  0 < coef a → 0 < coef b → ddiv a b = Val (fix_precision (raw_quotient a b)).
Proof.
  intros Ha Hb. unfold ddiv, raw_quotient, div_op1, div_op2, div_shift.
  rewrite (proj2 (Z.eqb_neq _ _)) by lia. rewrite (Z.abs_eq (coef a)), (Z.abs_eq (coef b)) by lia.
  rewrite (Z.sgn_pos (coef a)), (Z.sgn_pos (coef b)) by lia. rewrite !Z.mul_1_l.
  destruct (_ mod _ =? 0); [|done]. by destruct (reduce_to _ _ _).
Qed.

Lemma div_ops_spec a b :
  0 < coef a → 0 < coef b →
  0 < div_op1 a b ∧ 0 < div_op2 a b ∧ 10 ^ PREC * div_op2 a b <= div_op1 a b.
Proof.
  intros Ha Hb. unfold div_op1, div_op2.
  destruct (ndigits_spec (coef a)) as (Ha1 & Ha2 & [Hz|Ha3]); [exfalso; lia|].
  destruct (ndigits_spec (coef b)) as (Hb1 & Hb2 & _).
  rewrite Z.abs_eq in Ha3, Hb2 by lia. set (s := div_shift a b).
  assert (s = ndigits (coef b) - ndigits (coef a) + PREC + 1) as Hs by done.
  pose proof (pow10_pos PREC ltac:(unfold PREC; lia)).
  destruct (Z.leb_spec 0 s) as [Hs0|Hs0].
  - pose proof (pow10_pos s Hs0). split_and!; [nia|lia|].
    assert (10 ^ PREC * 10 ^ ndigits (coef b) <= 10 ^ (ndigits (coef a) - 1) * 10 ^ s) as Hp.
    { rewrite <-!Z.pow_add_r by (unfold PREC in *; lia). apply Z.pow_le_mono_r; lia. }
    nia.
  - pose proof (pow10_pos (- s) ltac:(lia)). split_and!; [lia|nia|].
    assert (10 ^ PREC * (10 ^ ndigits (coef b) * 10 ^ (- s)) <= 10 ^ (ndigits (coef a) - 1)) as Hp.
    { rewrite <-!Z.pow_add_r by (unfold PREC in *; lia). apply Z.pow_le_mono_r; lia. }
    set (P := 10 ^ PREC) in *. set (B := 10 ^ ndigits (coef b)) in *. set (S := 10 ^ (- s)) in *.
    transitivity (P * (B * S)); [|lia]. nia.
Qed.

(** Scaling the operands does not change the quotient. *)
Lemma quotient_scaled t a b :
  0 < coef a → 0 < coef b →
  let e := expo a - expo b - div_shift a b in
  (below_quotient t (coef a) (coef b) (expo a - expo b) → below_quotient t (div_op1 a b) (div_op2 a b) e)
  ∧ (above_quotient t (coef a) (coef b) (expo a - expo b) → above_quotient t (div_op1 a b) (div_op2 a b) e).
Proof.
  intros Ha Hb e. unfold below_quotient, above_quotient, div_op1, div_op2.
  set (i := expo a - expo b). set (s := div_shift a b).
  assert (e = i - s) as -> by done. destruct (Z.leb_spec 0 s) as [Hs|Hs].
  - set (x := Z.min (expo t) i). set (y := Z.min (expo t) (i - s)).
    assert (y <= x) by lia. pose proof (pow10_pos (x - y) ltac:(lia)).
    rewrite (coef_at_shift t y x) by lia.
    replace (coef a * 10 ^ s * 10 ^ (i - s - y)) with (coef a * 10 ^ (i - x) * 10 ^ (x - y)).
    2: { rewrite <-!Z.mul_assoc, <-!Z.pow_add_r by lia. do 2 f_equal. lia. }
    split; intros; nia.
  - set (x := Z.min (expo t) i). set (y := Z.min (expo t) (i - s)).
    assert (x <= y) by lia. pose proof (pow10_pos (y - x) ltac:(lia)).
    rewrite (coef_at_shift t x y) by lia.
    assert (10 ^ (i - x) * 10 ^ (- s) = 10 ^ (i - s - y) * 10 ^ (y - x)) as Hp.
    { rewrite <-!Z.pow_add_r by lia. f_equal. lia. }
    pose proof (pow10_pos (- s) ltac:(lia)). pose proof (pow10_pos (i - x) ltac:(lia)).
    set (T := coef_at t y) in *. set (A := 10 ^ (i - x)) in *. set (B := 10 ^ (- s)) in *.
    set (C := 10 ^ (i - s - y)) in *. set (D := 10 ^ (y - x)) in *.
    split; intros Hle.
    + apply (Z.mul_le_mono_pos_r _ _ D); [done|].
      transitivity (T * D * coef b * B); [lia|]. transitivity (coef a * A * B); [nia|]. nia.
    + apply (Z.mul_le_mono_pos_r _ _ D); [done|].
      transitivity (coef a * A * B); [nia|]. transitivity (T * D * coef b * B); [nia|]. lia.
Qed.

(** Division is correctly ordered against every representable number. *)
Lemma ddiv_mono a b d t :
  0 < coef a → 0 < coef b → ddiv a b = Val d → representable t →
  (below_quotient t (coef a) (coef b) (expo a - expo b) → dle t d)
  ∧ (above_quotient t (coef a) (coef b) (expo a - expo b) → dle d t).
Proof.
  intros Ha Hb Hd Ht. rewrite ddiv_raw in Hd by done. injection Hd as <-.
  destruct (div_ops_spec a b Ha Hb) as (H1 & H2 & H3).
  destruct (quotient_scaled t a b Ha Hb) as [Hq1 Hq2].
  set (e := expo a - expo b - div_shift a b) in *.
  assert (0 <= coef (raw_quotient a b)
    ∧ (below_quotient t (div_op1 a b) (div_op2 a b) e → dle t (raw_quotient a b))
    ∧ (above_quotient t (div_op1 a b) (div_op2 a b) e → dle (raw_quotient a b) t)) as (H0 & Hr1 & Hr2).
  2: { destruct (fix_precision_mono t _ Ht H0) as [F1 F2].
       split; intros Hle; [by apply F1, Hr1, Hq1|by apply F2, Hr2, Hq2]. }
  unfold raw_quotient. fold e. set (n := div_op1 a b) in *. set (m := div_op2 a b) in *.
  assert (10 ^ PREC <= n / m) as Hq.
  { apply Z.div_le_lower_bound; lia. }
  pose proof (pow10_pos PREC ltac:(unfold PREC; lia)) as HP.
  destruct (Z.eqb_spec (n mod m) 0) as [Hr|Hr].
  - destruct (reduce_to_value (Z.to_nat (Z.max 0 (div_shift a b))) (expo a - expo b)
      (MkDecimal (n / m) e)) as (Hp & Hs1 & Hs2); [cbn; lia|]. split; [done|].
    destruct (exact_quotient t (n / m) m e H2) as [E1 E2].
    assert (n = n / m * m) as Hn by (pose proof (Z.div_mod n m); lia). rewrite <-Hn in E1, E2.
    split; intros Hle; [etrans; [by apply E1|done]|etrans; [done|by apply E2]].
  - destruct (sticky_mono t n m e Ht H2 ltac:(lia) Hr) as [S1 S2].
    { rewrite PREC_pow in Hq. pose proof (pow10_pos (PREC - 1) ltac:(unfold PREC; lia)). lia. }
    cbn [coef]. split_and!; [|exact S1|exact S2]. destruct (_ mod 5 =? 0); lia.
Qed.

Lemma ddiv_nonneg a b d : 0 < coef a → 0 < coef b → ddiv a b = Val d → 0 <= coef d.
Proof.
  intros Ha Hb Hd.
  destruct (ddiv_mono a b d (MkDecimal 0 (expo a - expo b)) Ha Hb Hd) as [H _].
  { split; cbn; [lia|]. apply pow10_pos. unfold PREC. lia. }
  assert (dle (MkDecimal 0 (expo a - expo b)) d) as Hle.
  { apply H. unfold below_quotient, coef_at. cbn [coef expo]. rewrite Z.min_id, !Z.mul_0_l.
    rewrite Z.sub_diag. lia. }
  unfold dle, coef_at in Hle. cbn [coef expo] in Hle. set (x := common_expo _ _) in *.
  rewrite Z.mul_0_l in Hle. pose proof (pow10_pos (expo d - x) ltac:(unfold x, common_expo; cbn; lia)). nia.
Qed.

(** ** Quantizing a quotient *)

Lemma round_div_ratio mode n m n' m' :
  0 < m → 0 < m' → 0 <= n → 0 <= n' → n * m' = n' * m → round_div mode n m = round_div mode n' m'.
Proof.
  intros Hm Hm' Hn Hn' Heq. unfold round_div. rewrite !Z.abs_eq by done.
  pose proof (Z.div_mod n m ltac:(lia)). pose proof (Z.mod_pos_bound n m Hm).
  assert (n' / m' = n / m) as Hq.
  { apply Z.le_antisymm; [apply Z.lt_succ_r, Z.div_lt_upper_bound|apply Z.div_le_lower_bound]; nia. }
  pose proof (Z.div_mod n' m' ltac:(lia)). rewrite Hq in *.
  set (q := n / m) in *. set (r := n mod m) in *. set (r' := n' mod m') in *.
  assert (r * m' = r' * m) as Hr by nia.
  replace (Z.sgn n') with (Z.sgn n) by (destruct (Z.eq_dec n 0) as [->|]; [f_equal; nia|rewrite !Z.sgn_pos; nia]).
  assert ((m' <? 2 * r') = (m <? 2 * r)) as -> by (apply eq_bool_prop_intro; rewrite !Is_true_true, !Z.ltb_lt; nia).
  assert ((2 * r' =? m') = (2 * r =? m)) as -> by (apply eq_bool_prop_intro; rewrite !Is_true_true, !Z.eqb_eq; nia).
  assert ((m' <=? 2 * r') = (m <=? 2 * r)) as -> by (apply eq_bool_prop_intro; rewrite !Is_true_true, !Z.leb_le; nia).
  done.
Qed.

(** The working unit: [10 ^ (i - 15)], half of [10 ^ i] being [HALF] of them. *)
Definition GUARD : Z := 15.
Definition HALF : Z := 500000000000000.

Lemma quantize_between d i c k1 k2 mode :
  0 <= c < 10 ^ 20 → (2 * c - 1) * HALF < k1 → k2 < (2 * c + 1) * HALF →
  dle (MkDecimal k1 (i - GUARD)) d → dle d (MkDecimal k2 (i - GUARD)) →
  quantize d i mode = Val (MkDecimal c i).
Proof.
  intros Hc H1 H2 Hd1 Hd2. set (x := Z.min (expo d) (i - GUARD)).
  rewrite (dle_at _ _ x) in Hd1 by (cbn; lia). rewrite (dle_at _ _ x) in Hd2 by (cbn; lia).
  unfold coef_at in Hd1, Hd2. cbn [coef expo] in Hd1, Hd2.
  assert (0 <= i - GUARD - x) as Hx by lia. pose proof (pow10_pos _ Hx) as HB.
  set (B := 10 ^ (i - GUARD - x)) in *.
  assert (10 ^ (i - x) = 2 * HALF * B) as HP.
  { unfold B. change (2 * HALF) with (10 ^ GUARD). rewrite <-Z.pow_add_r by (unfold GUARD in *; lia). f_equal. lia. }
  unfold quantize. set (q := if i <=? expo d then _ else _).
  assert (q = c) as ->.
  { unfold q. destruct (Z.leb_spec i (expo d)) as [Hi|Hi].
    - assert (10 ^ (expo d - x) = 10 ^ (expo d - i) * (2 * HALF * B)) as HA.
      { rewrite <-HP, <-Z.pow_add_r by (unfold GUARD in *; lia). f_equal. lia. }
      rewrite HA in Hd1, Hd2. set (Q := 10 ^ (expo d - i)) in *. unfold HALF in *. nia.
    - pose proof (pow10_pos (i - expo d) ltac:(lia)) as Hm. set (m := 10 ^ (i - expo d)) in *.
      pose proof (round_div_error mode (coef d) m Hm) as Herr. set (r := round_div mode (coef d) m) in *.
      assert (0 <= expo d - x) as Hy by lia. pose proof (pow10_pos _ Hy) as HA.
      assert (m * 10 ^ (expo d - x) = 2 * HALF * B) as HmA.
      { rewrite <-HP. unfold m. rewrite <-Z.pow_add_r by lia. f_equal. lia. }
      set (A := 10 ^ (expo d - x)) in *.
      assert ((2 * c - 1) * m < 2 * coef d < (2 * c + 1) * m) as Hin.
      { split; apply (Z.mul_lt_mono_pos_r A); try done; unfold HALF in *; nia. }
      nia. }
  rewrite (proj2 (Z.ltb_ge _ _)); [done|]. etrans; [apply (ndigits_le c 20); lia|]. unfold PREC. lia.
Qed.

Lemma quantize_tie d i n m c mode :
  0 < m → 0 <= n → 0 <= coef d → 2 * n = (2 * c + 1) * m ∨ 2 * n = (2 * c - 1) * m →
  same_value d (MkDecimal (10 * n / m) (i - 1)) →
  round_div mode n m < 10 ^ 20 →
  quantize d i mode = Val (MkDecimal (round_div mode n m) i).
Proof.
  intros Hm Hn Hd Htie [Hs1 Hs2] Hsmall.
  assert (∃ h, 10 * n = (5 * h) * m ∧ Z.odd h = true) as (h & Hh & Hodd).
  { destruct Htie; [exists (2 * c + 1)|exists (2 * c - 1)]; (split; [lia|]);
      rewrite ?Z.sub_1_r, ?Z.odd_pred, ?Z.odd_add, ?Z.odd_mul; by rewrite ?Z.even_mul. }
  rewrite Hh, Z.div_mul in Hs1, Hs2 by lia.
  set (x := Z.min (expo d) (i - 1)).
  rewrite (dle_at _ _ x) in Hs1 by (cbn; lia). rewrite (dle_at _ _ x) in Hs2 by (cbn; lia).
  assert (coef_at d x = coef_at (MkDecimal (5 * h) (i - 1)) x) as Hv by lia.
  unfold coef_at in Hv. cbn [coef expo] in Hv.
  assert (0 <= i - 1 - x) as Hx by lia. pose proof (pow10_pos _ Hx) as HB.
  unfold quantize. destruct (Z.leb_spec i (expo d)) as [Hi|Hi].
  { exfalso. replace (expo d - x) with (expo d - i + 1 + (i - 1 - x)) in Hv by lia.
    rewrite !Z.pow_add_r in Hv by lia. set (B := 10 ^ (i - 1 - x)) in *.
    change (10 ^ 1) with 10 in Hv.
    assert (h = 2 * (coef d * 10 ^ (expo d - i))) as -> by nia.
    rewrite Z.odd_mul in Hodd. done. }
  pose proof (pow10_pos (i - expo d) ltac:(lia)) as HM.
  assert (coef d * m = n * 10 ^ (i - expo d)) as Hratio.
  { assert (0 <= expo d - x) as Hy by lia. pose proof (pow10_pos _ Hy) as HA.
    apply (Z.mul_reg_r _ _ (10 ^ (expo d - x))); [lia|].
    replace (n * 10 ^ (i - expo d) * 10 ^ (expo d - x)) with (10 * n * 10 ^ (i - 1 - x)).
    2: { rewrite <-(Z.mul_assoc n), <-Z.pow_add_r by lia.
         replace (i - expo d + (expo d - x)) with (1 + (i - 1 - x)) by lia.
         rewrite Z.pow_add_r by lia. change (10 ^ 1) with 10. ring. }
    rewrite Hh. nia. }
  rewrite (round_div_ratio mode (coef d) (10 ^ (i - expo d)) n m) by (done || lia).
  rewrite (proj2 (Z.ltb_ge _ _)); [done|]. etrans; [apply (ndigits_le _ 20); [lia|]|unfold PREC; lia].
  pose proof (round_div_ge mode n m 0 Hm ltac:(lia)). lia.
Qed.

(** A quotient computed with 28 digits and then quantized is the exact ratio
    rounded once, for the magnitudes of this program. *)
Lemma ddiv_quantize a b :
  0 < coef a → 0 < coef b → coef b <= 10 ^ 14 → coef a <= 10 ^ 12 * coef b →
  ∃ d, ddiv a b = Val d
    ∧ quantize d (expo a - expo b) ROUND_HALF_EVEN
      = Val (MkDecimal (round_div ROUND_HALF_EVEN (coef a) (coef b)) (expo a - expo b)).
Proof.
  intros Ha Hb Hb14 Ha12. exists (fix_precision (raw_quotient a b)).
  pose proof (ddiv_raw a b Ha Hb) as Hd. split; [done|].
  set (d := fix_precision (raw_quotient a b)) in *. set (n := coef a) in *. set (m := coef b) in *.
  set (i := expo a - expo b) in *.
  pose proof (round_div_error ROUND_HALF_EVEN n m Hb) as Herr.
  pose proof (round_div_ge ROUND_HALF_EVEN n m 0 Hb ltac:(lia)) as Hc0.
  pose proof (round_div_le ROUND_HALF_EVEN n m (10 ^ 12) Hb ltac:(lia)) as Hc12.
  set (c := round_div ROUND_HALF_EVEN n m) in *.
  assert (∀ k j, 0 <= j → 0 <= k < 10 ^ PREC →
    (k * m <= n * 10 ^ j → dle (MkDecimal k (i - j)) d) ∧ (n * 10 ^ j <= k * m → dle d (MkDecimal k (i - j)))) as Hmono.
  { intros k j Hj Hk. destruct (ddiv_mono a b d (MkDecimal k (i - j)) Ha Hb Hd Hk) as [M1 M2].
    fold n m i in M1, M2. unfold below_quotient, above_quotient in M1, M2. cbn [expo] in M1, M2.
    replace (Z.min (i - j) i) with (i - j) in M1, M2 by lia. unfold coef_at in M1, M2. cbn [coef expo] in M1, M2.
    rewrite Z.sub_diag, Z.mul_1_r in M1, M2. replace (i - (i - j)) with j in M1, M2 by lia. done. }
  destruct (Z.eq_dec (2 * Z.abs (c * m - n)) m) as [Htie|Hnt].
  - apply (quantize_tie _ _ _ _ c); [done|lia|by apply (ddiv_nonneg a b)|lia| |fold c; lia].
    assert (∃ h, 10 * n = h * m) as (h & Hh) by (destruct (Z.abs_spec (c * m - n)) as [[? ?]|[? ?]]; [exists (10 * c - 5)|exists (10 * c + 5)]; lia).
    rewrite Hh, Z.div_mul by lia.
    destruct (Hmono h 1) as [M1 M2]; [lia|unfold PREC; nia|].
    change (10 ^ 1) with 10 in M1, M2. split; [apply M2|apply M1]; lia.
  - assert (10 ^ GUARD = 2 * HALF) as HG by done.
    destruct (Hmono ((2 * c + 1) * HALF - 1) GUARD) as [_ M2]; [unfold GUARD; lia|unfold HALF, PREC; lia|].
    destruct (Hmono (Z.max 0 ((2 * c - 1) * HALF + 1)) GUARD) as [M1 _]; [unfold GUARD; lia|unfold HALF, PREC; lia|].
    rewrite HG in M1, M2.
    apply (quantize_between _ _ _ (Z.max 0 ((2 * c - 1) * HALF + 1)) ((2 * c + 1) * HALF - 1)); [lia|lia|lia| |].
    + apply M1. destruct (Z.max_spec 0 ((2 * c - 1) * HALF + 1)) as [[? ->]|[? ->]]; [|nia].
      unfold HALF in *. nia.
    + apply M2. unfold HALF in *. nia.
Qed.

(** ** The sign *)

Lemma ndigits_opp n : ndigits (- n) = ndigits n.
Proof. unfold ndigits. by rewrite Z.abs_opp. Qed.
Lemma round_div_opp mode n m : round_div mode (- n) m = - round_div mode n m.
Proof. unfold round_div. rewrite Z.abs_opp, Z.sgn_opp. ring. Qed.

Lemma fix_precision_opp d : fix_precision (dneg d) = dneg (fix_precision d).
Proof.
  unfold fix_precision, dneg. cbn [coef expo]. rewrite ndigits_opp.
  destruct (ndigits (coef d) <=? PREC); [done|]. rewrite round_div_opp, ndigits_opp.
  destruct (_ <=? PREC); [done|]. cbn [coef expo]. f_equal. apply Z.quot_opp_l. lia.
Qed.

Lemma fix_precision_digits d : Z.abs (coef (fix_precision d)) < 10 ^ PREC.
Proof.
  assert (∀ d, 0 <= coef d → Z.abs (coef (fix_precision d)) < 10 ^ PREC) as Hpos.
  { clear. intros d Hd. unfold fix_precision.
    assert (∀ n, ndigits n <= PREC → Z.abs n < 10 ^ PREC) as Hn.
    { intros n Hn. destruct (ndigits_spec n) as (_ & H & _).
      eapply Z.lt_le_trans; [exact H|]. apply Z.pow_le_mono_r; lia. }
    destruct (Z.leb_spec (ndigits (coef d)) PREC) as [|H]; [by apply Hn|].
    destruct (Z.leb_spec (ndigits (round_div ROUND_HALF_EVEN (coef d) (10 ^ (ndigits (coef d) - PREC)))) PREC)
      as [|H']; [by apply Hn|]. cbn [coef].
    rewrite (rounded_overflow d Hd H H'). reflexivity. }
  destruct (Z.le_gt_cases 0 (coef d)) as [|Hneg]; [by apply Hpos|].
  pose proof (Hpos (dneg d)) as H. rewrite fix_precision_opp in H. cbn [dneg coef] in H.
  rewrite Z.abs_opp in H. apply H. lia.
Qed.

Lemma dabs_fix d : 0 <= coef d → dabs (fix_precision d) = fix_precision d ∧ dabs (dneg (fix_precision d)) = fix_precision d.
Proof.
  intros Hd. assert (0 <= coef (fix_precision d)) as Hp.
  { unfold fix_precision. destruct (_ <=? PREC); [done|].
    assert (0 <= round_div ROUND_HALF_EVEN (coef d) (10 ^ (ndigits (coef d) - PREC))).
    { unfold round_div. assert (0 <= Z.sgn (coef d)) by lia.
      assert (0 <= Z.abs (coef d) / 10 ^ (ndigits (coef d) - PREC))
        by (apply Z_div_nonneg_nonneg; [lia|apply Z.pow_nonneg; lia]).
      destruct (_ || _); nia. }
    destruct (_ <=? PREC); cbn [coef]; [done|]. apply Z.quot_pos; lia. }
  pose proof (fix_precision_digits d). unfold dabs, dneg. cbn [coef expo].
  rewrite Z.abs_opp, Z.abs_eq by done. rewrite fix_precision_small by (cbn [coef]; lia).
  by destruct (fix_precision d).
Qed.

Lemma ddiv_abs a b :
  coef a ≠ 0 → 0 < coef b →
  ∃ d r, ddiv a b = Val d ∧ dabs d = r ∧ ddiv (MkDecimal (Z.abs (coef a)) (expo a)) b = Val r.
Proof.
  intros Ha Hb. set (p := MkDecimal (Z.abs (coef a)) (expo a)).
  assert (0 < coef p) as Hp by (cbn; lia).
  assert (0 <= coef (raw_quotient p b)) as Hraw.
  { unfold raw_quotient. destruct (div_ops_spec p b Hp Hb) as (H1 & H2 & _).
    assert (0 <= div_op1 p b / div_op2 p b) by (apply Z.div_pos; lia).
    destruct (_ =? 0); [by apply reduce_to_value|]. cbn [coef]. destruct (_ =? 0); lia. }
  rewrite (ddiv_raw p b) by done. destruct (dabs_fix _ Hraw) as [Hd1 Hd2].
  destruct (Z.lt_total (coef a) 0) as [Hn|[?|Hpos]]; [|done|].
  - assert (ddiv a b = Val (dneg (fix_precision (raw_quotient p b)))) as ->.
    { unfold ddiv, raw_quotient, div_op1, div_op2, div_shift, p. cbn [coef expo].
      assert (∀ n, ndigits (Z.abs n) = ndigits n) as -> by (intros n; unfold ndigits; by rewrite Z.abs_idemp).
      rewrite (proj2 (Z.eqb_neq (coef b) 0)) by lia. rewrite (Z.abs_eq (coef b)) by lia.
      rewrite (Z.sgn_neg (coef a)), (Z.sgn_pos (coef b)) by lia.
      destruct (_ mod _ =? 0); rewrite <-fix_precision_opp; unfold dneg; cbn [coef expo];
        do 2 f_equal; f_equal; ring. }
    eexists _, _. split_and!; [reflexivity|exact Hd2|reflexivity].
  - assert (a = p) as Hap by (unfold p; rewrite Z.abs_eq by lia; by destruct a).
    rewrite Hap, (ddiv_raw p b) by done. eexists _, _. split_and!; [reflexivity|exact Hd1|reflexivity].
Qed.

(** ** Percentages and exact quotients *)

(** What quantizing gives depends on the value only. *)
Lemma quantize_same_value d n e i mode :
  0 <= coef d → same_value d (MkDecimal n e) → e <= i → 0 <= n →
  round_div mode n (10 ^ (i - e)) < 10 ^ 20 →
  quantize d i mode = Val (MkDecimal (round_div mode n (10 ^ (i - e))) i).
Proof.
  intros Hd [Hs1 Hs2] Hei Hn Hsmall. set (x := Z.min (expo d) e).
  rewrite (dle_at _ _ x) in Hs1 by (cbn; lia). rewrite (dle_at _ _ x) in Hs2 by (cbn; lia).
  assert (coef d * 10 ^ (expo d - x) = n * 10 ^ (e - x)) as Hv by (unfold coef_at in *; cbn in *; lia).
  pose proof (pow10_pos (e - x) ltac:(lia)) as HE. pose proof (pow10_pos (i - e) ltac:(lia)) as HI.
  assert (∀ j, x <= j → j <= i → 10 ^ (i - j) * 10 ^ (j - x) = 10 ^ (i - x)) as Hpow.
  { intros j H1 H2. rewrite <-Z.pow_add_r by lia. f_equal. lia. }
  pose proof (Hpow e ltac:(lia) Hei) as He.
  assert (0 <= round_div mode n (10 ^ (i - e))) by (apply round_div_ge; lia).
  unfold quantize. set (q := if i <=? expo d then _ else _).
  assert (q = round_div mode n (10 ^ (i - e))) as ->.
  { unfold q. destruct (Z.leb_spec i (expo d)) as [Hi|Hi].
    - replace (expo d - x) with (expo d - i + (i - x)) in Hv by lia.
      rewrite Z.pow_add_r, <-He in Hv by lia.
      assert (n = coef d * 10 ^ (expo d - i) * 10 ^ (i - e)) as -> by nia.
      by rewrite round_div_exact.
    - pose proof (pow10_pos (i - expo d) ltac:(lia)). apply round_div_ratio; [lia..|].
      pose proof (Hpow (expo d) ltac:(lia) ltac:(lia)) as Hx.
      apply (Z.mul_reg_r _ _ (10 ^ (e - x))); [lia|].
      transitivity (coef d * 10 ^ (i - x)); [rewrite <-He; ring|]. rewrite <-Hx.
      transitivity (coef d * 10 ^ (expo d - x) * 10 ^ (i - expo d)); [ring|]. rewrite Hv. ring. }
  rewrite (proj2 (Z.ltb_ge _ _)); [done|]. etrans; [apply (ndigits_le _ 20); lia|]. unfold PREC. lia.
Qed.

#[export] Instance dle_refl : Reflexive dle.
Proof. intros a. unfold dle. lia. Qed.

(** Zero divides and quantizes to zero. *)
Lemma reduce_to_zero fuel ideal e : coef (reduce_to fuel ideal (MkDecimal 0 e)) = 0.
Proof.
  revert e. induction fuel as [|fuel IH]; intros e; [done|]. cbn [reduce_to coef expo].
  destruct (_ && _); [apply IH|done].
Qed.

Lemma ddiv_zero e b : coef b ≠ 0 → ∃ d, ddiv (MkDecimal 0 e) b = Val d ∧ coef d = 0.
Proof.
  intros Hb. unfold ddiv. rewrite (proj2 (Z.eqb_neq _ _)) by done. cbn [coef expo].
  rewrite Z.abs_0, Z.mul_0_l, if_same, Z.mod_0_l, Z.eqb_refl.
  - eexists. split; [reflexivity|]. cbn [Z.sgn]. rewrite Z.mul_0_l. rewrite fix_precision_small; done.
  - destruct (_ <=? _) eqn:Hs; [lia|]. apply Z.leb_gt in Hs.
    pose proof (pow10_pos (- (ndigits (coef b) - ndigits 0 + PREC + 1)) ltac:(lia)). lia.
Qed.

Lemma quantize_zero d i mode : coef d = 0 → quantize d i mode = Val (MkDecimal 0 i).
Proof.
  intros Hd. unfold quantize. rewrite Hd, Z.mul_0_l.
  assert (∀ m, round_div mode 0 m = 0) as -> by (intros m; unfold round_div; by rewrite Z.mul_0_l).
  by rewrite if_same.
Qed.

(** A percentage of a number is exact. *)
Lemma ddiv_hundred n e d :
  0 < n < 10 ^ PREC → ddiv (MkDecimal n e) (of_int 100) = Val d →
  0 <= coef d ∧ same_value d (MkDecimal n (e - 2)).
Proof.
  intros Hn Hd. split; [by apply (ddiv_nonneg (MkDecimal n e) (of_int 100) d); [cbn; lia|done|]|].
  destruct (ddiv_mono (MkDecimal n e) (of_int 100) d (MkDecimal n (e - 2))) as [M1 M2];
    [cbn; lia|done|done|split; cbn [coef]; lia|].
  unfold below_quotient, above_quotient, coef_at in M1, M2. cbn [coef expo of_int] in M1, M2.
  replace (Z.min (e - 2) (e - 0)) with (e - 2) in M1, M2 by lia.
  rewrite Z.sub_diag in M1, M2. replace (e - 0 - (e - 2)) with 2 in M1, M2 by lia.
  change (10 ^ 2) with 100 in M1, M2. split; [apply M2|apply M1]; lia.
Qed.

(** [a / b * 100], in the 28-digit context, is on the exact ratio's side of
    every whole percentage. *)
Lemma percentage_compare a b d k :
  0 < a → 0 < b <= 10 ^ 20 → 0 <= k <= 10 ^ 5 →
  ddiv (MkDecimal a (-2)) (MkDecimal b (-2)) = Val d →
  dleb (of_int k) (dmul d (of_int 100)) = bool_decide (k * b <= 100 * a)
  ∧ dleb (dmul d (of_int 100)) (of_int k) = bool_decide (100 * a <= k * b).
Proof.
  intros Ha Hb Hk Hd. pose proof (ddiv_nonneg (MkDecimal a (-2)) (MkDecimal b (-2)) d Ha (proj1 Hb) Hd) as Hd0.
  pose proof (λ t, ddiv_mono (MkDecimal a (-2)) (MkDecimal b (-2)) d t Ha (proj1 Hb) Hd) as Hmono. cbn [coef expo] in Hmono.
  set (p := dmul d (of_int 100)).
  assert (0 <= coef (MkDecimal (coef d * 100) (expo d + 0))) as Hpos by (cbn; lia).
  assert (∀ c j, 0 <= 100 * c < 10 ^ PREC → 0 <= j →
    (c * b <= a * 10 ^ j → dle (MkDecimal (100 * c) (- j)) p)
    ∧ (a * 10 ^ j <= c * b → dle p (MkDecimal (100 * c) (- j)))) as Ht.
  { intros c j Hc Hj. destruct (Hmono (MkDecimal c (- j))) as [M1 M2]; [split; cbn [coef]; lia|].
    unfold below_quotient, above_quotient, coef_at in M1, M2. cbn [coef expo] in M1, M2.
    change (-2 - -2) with 0 in M1, M2. replace (Z.min (- j) 0) with (- j) in M1, M2 by lia.
    rewrite Z.sub_diag, Z.mul_1_r in M1, M2. replace (0 - - j) with j in M1, M2 by lia.
    destruct (fix_precision_mono (MkDecimal (100 * c) (- j)) _ Hc Hpos) as [F1 F2].
    split; intros Hle; [apply F1; apply M1 in Hle|apply F2; apply M2 in Hle];
      rewrite (dle_at _ _ (Z.min (- j) (expo d))) in Hle by (cbn [expo]; lia);
      rewrite (dle_at _ _ (Z.min (- j) (expo d))) by (cbn [expo]; lia); unfold coef_at in *; cbn [coef expo] in *; rewrite Z.add_0_r; nia. }
  assert (∀ c, dle (of_int c) (MkDecimal (100 * c) (-2)) ∧ dle (MkDecimal (100 * c) (-2)) (of_int c)) as Hint.
  { intros c. apply (same_value_at _ _ (-2)); [cbn; lia..|]. unfold coef_at. cbn. lia. }
  assert (∀ c, ¬ dle (MkDecimal (100 * (k * 10 ^ 20 + c)) (-22)) (of_int k) ∨ c <= 0) as Hup.
  { intros c. destruct (Z.le_gt_cases c 0); [by right|left]. rewrite (dle_at _ _ (-22)) by (cbn; lia).
    unfold coef_at. cbn [coef expo of_int]. change (10 ^ (-22 - -22)) with 1. change (10 ^ (0 - -22)) with (100 * 10 ^ 20). lia. }
  assert (10 ^ PREC = 10 ^ 22 * 10 ^ 6 ∧ 10 ^ 22 = 100 * 10 ^ 20 ∧ 1 <= 10 ^ 20) as (HP & H22 & H20) by done.
  split; case_bool_decide as Hc.
  - apply dleb_dle. etrans; [apply Hint|]. apply (Ht k 2); [unfold PREC; lia|lia|].
    change (10 ^ 2) with 100. lia.
  - apply not_true_is_false. rewrite dleb_dle. intros Hle.
    assert (1 <= k) by nia.
    destruct (Ht (k * 10 ^ 20 - 1) 22) as [_ F]; [unfold PREC; lia|lia|].
    assert (dle p (MkDecimal (100 * (k * 10 ^ 20 - 1)) (-22))) as Hp.
    { apply F. rewrite H22. generalize dependent (10 ^ 20). intros P **. nia. }
    assert (dle (of_int k) (MkDecimal (100 * (k * 10 ^ 20 - 1)) (-22))) as Habs by (by etrans).
    rewrite (dle_at _ _ (-22)) in Habs by (cbn; lia). unfold coef_at in Habs. cbn [coef expo of_int] in Habs.
    change (10 ^ (-22 - -22)) with 1 in Habs. change (10 ^ (0 - -22)) with (100 * 10 ^ 20) in Habs. lia.
  - apply dleb_dle. etrans; [|apply Hint]. apply (Ht k 2); [unfold PREC; lia|lia|].
    change (10 ^ 2) with 100. lia.
  - apply not_true_is_false. rewrite dleb_dle. intros Hle.
    destruct (Ht (k * 10 ^ 20 + 1) 22) as [F _]; [unfold PREC; lia|lia|].
    assert (dle (MkDecimal (100 * (k * 10 ^ 20 + 1)) (-22)) p) as Hp.
    { apply F. rewrite H22. generalize dependent (10 ^ 20). intros P **. nia. }
    destruct (Hup 1) as [Hn|]; [|lia]. apply Hn. by etrans.
Qed.
