(* ===== verification/Json.v ===== *)
(** * Canonical text

    The text forms the backend hashes: [json.dumps] with sorted keys and the
    compact separators, the [str] of UUIDs, decimals, dates and UTC datetimes.
    A text is its UTF-8 bytes.  With [ensure_ascii] the model covers ASCII
    texts; without it, all of them. *)

From Stdlib Require Import Ascii.
From S2P Require Import Prelude Sha256 Calendar Decimal.
Local Open Scope Z_scope.

Inductive jvalue :=
  | VNull
  | VBool (b : bool)
  | VInt (z : Z)
  | VStr (s : string)
  | VList (l : list jvalue)
  | VObj (l : list (string * jvalue)).

Definition vopt {A} (f : A → jvalue) (x : option A) : jvalue :=
  match x with Some a => f a | None => VNull end.

(** [json.encoder]: the escapes of a string. *)
Definition escape_char (ensure_ascii : bool) (c : ascii) : string :=
  let n := N_of_ascii c in
  if (n =? 34)%N then String "\" (String c EmptyString)
  else if (n =? 92)%N then "\\"
  else if (n =? 10)%N then "\n"
  else if (n =? 13)%N then "\r"
  else if (n =? 9)%N then "\t"
  else if (n =? 12)%N then "\f"
  else if (n =? 8)%N then "\b"
  else if (n <? 32)%N || (ensure_ascii && (126 <? n)%N) then "\u00" +:+ hex_digits 2 n ""
  else String c EmptyString.

Fixpoint escape (ensure_ascii : bool) (s : string) : string :=
  match s with
  | EmptyString => EmptyString
  | String c s => escape_char ensure_ascii c +:+ escape ensure_ascii s
  end.

Definition quote_char : ascii := ascii_of_N 34.
Definition quoted (ensure_ascii : bool) (s : string) : string :=
  String quote_char (escape ensure_ascii s +:+ String quote_char EmptyString).

Fixpoint join (l : list string) : string :=
  match l with
  | [] => ""
  | [s] => s
  | s :: l => s +:+ "," +:+ join l
  end.

Definition key_le (a b : string * string) : Prop := String.leb a.1 b.1 = true.
#[export] Instance key_le_dec : RelDecision key_le.
Proof. intros a b. unfold key_le. apply _. Defined.

(** [json.dumps(v, sort_keys=True, separators=(",", ":"))] *)
Fixpoint dumps (ensure_ascii : bool) (v : jvalue) : string :=
  match v with
  | VNull => "null"
  | VBool b => if b then "true" else "false"
  | VInt z => show_Z z
  | VStr s => quoted ensure_ascii s
  | VList l => "[" +:+ join (dumps ensure_ascii <$> l) +:+ "]"
  | VObj l =>
      let members := (λ kv, (kv.1, dumps ensure_ascii kv.2)) <$> l in
      "{" +:+ join ((λ kv, quoted ensure_ascii kv.1 +:+ ":" +:+ kv.2) <$> merge_sort key_le members) +:+ "}"
  end.

(** ** [str] of the values that are hashed *)

(** [str(uuid)] *)
Definition uuid_text (u : uuid) : string :=
  let h k n := hex_digits n (N.shiftr u k) "" in
  h 96%N 8%nat +:+ "-" +:+ h 80%N 4%nat +:+ "-" +:+ h 64%N 4%nat +:+ "-" +:+ h 48%N 4%nat +:+ "-"
    +:+ h 0%N 12%nat.

(** The last [n] decimal digits of [z]. *)
Fixpoint digits (n : nat) (z : Z) (rest : string) : string :=
  match n with
  | O => rest
  | S n => digits n (z / 10) (String (digit_char (z mod 10)) rest)
  end.

Definition zeros (n : Z) : string := digits (Z.to_nat n) 0 "".

(** [Decimal.normalize], for at most 28 digits: strip the trailing zeros. *)
Fixpoint strip_zeros (fuel : nat) (d : decimal) : decimal :=
  match fuel with
  | O => d
  | S fuel => if coef d mod 10 =? 0 then strip_zeros fuel (MkDecimal (coef d / 10) (expo d + 1)) else d
  end.
Definition dnormalize (d : decimal) : decimal :=
  if coef d =? 0 then MkDecimal 0 0 else strip_zeros (Z.to_nat (ndigits (coef d))) d.

(** [format(d, "f")] *)
Definition format_f (d : decimal) : string :=
  let sign := if coef d <? 0 then "-" else "" in
  let c := Z.abs (coef d) in
  if 0 <=? expo d then sign +:+ show_nonneg (c * 10 ^ expo d)
  else sign +:+ show_nonneg (c / 10 ^ (- expo d)) +:+ "." +:+ digits (Z.to_nat (- expo d)) c "".

(** [str(d)]: scientific notation outside the plain range. *)
Definition decimal_str (d : decimal) : string :=
  let sign := if coef d <? 0 then "-" else "" in
  let c := Z.abs (coef d) in
  let n := ndigits c in
  let adjusted := expo d + n - 1 in
  if (expo d <=? 0) && (-7 <? adjusted) then
    if expo d =? 0 then sign +:+ show_nonneg c
    else sign +:+ show_nonneg (c / 10 ^ (- expo d)) +:+ "." +:+ digits (Z.to_nat (- expo d)) c ""
  else
    sign +:+ show_nonneg (c / 10 ^ (n - 1))
    +:+ (if n =? 1 then "" else "." +:+ digits (Z.to_nat (n - 1)) c "")
    +:+ "E" +:+ (if adjusted <? 0 then "-" else "+") +:+ show_nonneg (Z.abs adjusted).

(** [date.fromordinal] *)
Definition fromordinal (ordinal : Z) : date :=
  let n := ordinal - 1 in
  let n400 := n / 146097 in let n := n mod 146097 in
  let n100 := n / 36524 in let n := n mod 36524 in
  let n4 := n / 1461 in let n := n mod 1461 in
  let n1 := n / 365 in let n := n mod 365 in
  let y := n400 * 400 + n100 * 100 + n4 * 4 + n1 + 1 in
  if (n1 =? 4) || (n100 =? 4) then MkDate (y - 1) 12 31
  else
    let m := (n + 50) / 32 in
    let m := if n <? days_before_month y m then m - 1 else m in
    MkDate y m (n - days_before_month y m + 1).

(** [date.isoformat] *)
Definition date_text (d : date) : string :=
  digits 4 (year d) "" +:+ "-" +:+ digits 2 (month d) "" +:+ "-" +:+ digits 2 (day d) "".

(** [t.isoformat(timespec="microseconds")] of a UTC datetime, with [Z]. *)
Definition utc_text (t : datetime) : string :=
  let us := t mod MICROSECONDS_PER_DAY in
  date_text (fromordinal (t / MICROSECONDS_PER_DAY + EPOCH_ORDINAL))
  +:+ "T" +:+ digits 2 (us / 3600000000) "" +:+ ":" +:+ digits 2 (us / 60000000 mod 60) ""
  +:+ ":" +:+ digits 2 (us / 1000000 mod 60) "" +:+ "." +:+ digits 6 (us mod 1000000) "" +:+ "Z".

(** ** Examples *)

Example dumps_sorted :
  dumps false (VObj [("b", VInt (-12)); ("a", VList [VNull; VBool true; VStr "x\y"])])
  = String.concat "" ["{"; String quote_char "a"; String quote_char ":[null,true,"; String quote_char "x\\y";
                      String quote_char "],"; String quote_char "b"; String quote_char ":-12}"].
Proof. vm_compute. reflexivity. Qed.
Example uuid_text_example :
  uuid_text 0x1379d36c1ca955b79c0d5235a0ba1f36 = "1379d36c-1ca9-55b7-9c0d-5235a0ba1f36".
Proof. vm_compute. reflexivity. Qed.
Example decimal_texts :
  (λ n, format_f (dnormalize (of_cents n))) <$> [0; 1; 50; 60000; 60050; -125]
  = ["0"; "0.01"; "0.5"; "600"; "600.5"; "-1.25"].
Proof. vm_compute. reflexivity. Qed.
Example decimal_strs :
  decimal_str <$> [MkDecimal 500 0; MkDecimal 50000 (-2); MkDecimal 5 2; MkDecimal 15 1; MkDecimal 1 (-2); MkDecimal 0 (-2)]
  = ["500"; "500.00"; "5E+2"; "1.5E+2"; "0.01"; "0.00"].
Proof. vm_compute. reflexivity. Qed.
Example utc_texts :
  utc_text <$> [0; 1785542400000001; -1]
  = ["1970-01-01T00:00:00.000000Z"; "2026-08-01T00:00:00.000001Z"; "1969-12-31T23:59:59.999999Z"].
Proof. vm_compute. reflexivity. Qed.
