(* ===== verification/Schema.v ===== *)
(** * Rows of the market tables

    [app/models/orderbook.py], [user.py], [catalog.py], [marketplace.py],
    [subscription.py], [referral.py], [watchlist.py], [command_result.py], [market_support.py],
    [notification.py], [audit.py], [market_event.py], [live_slice_benchmark.py],
    [port.py]: a record per table with the columns the trading core reads or
    writes, and an inductive type per enum with its stored value.

    Money, quantities, prices, carbon intensities and energy densities are
    integers in hundredths: the table CHECKs ([Constraints]) admit only values
    of scale two, and the request schemas refuse the rest.  [commission_rate_pct]
    is in thousandths, its scale being three.  Row timestamps the core never
    branches on ([updated_at], and [created_at] except a trade's) are left out. *)

From S2P Require Import Prelude Catalog Calendar.

(** ** Enumerations *)

(** [models/orderbook.py] *)
Inductive OrderSide :=
  | BID | ASK.
#[export] Instance OrderSide_eq_dec : EqDecision OrderSide.
Proof. solve_decision. Defined.
Definition OrderSide_value (x : OrderSide) : string :=
  match x with
  | BID => "BID"
  | ASK => "ASK"
  end.

Inductive OrderBookStatus :=
  | OPEN | PARTIALLY_FILLED | FILLED | CANCELLED | EXPIRED.
#[export] Instance OrderBookStatus_eq_dec : EqDecision OrderBookStatus.
Proof. solve_decision. Defined.
Definition OrderBookStatus_value (x : OrderBookStatus) : string :=
  match x with
  | OPEN => "OPEN"
  | PARTIALLY_FILLED => "PARTIALLY_FILLED"
  | FILLED => "FILLED"
  | CANCELLED => "CANCELLED"
  | EXPIRED => "EXPIRED"
  end.

Inductive OrderCreationMethod :=
  | SELF_SERVICE | MARKET_SUPPORT | SYSTEM | LEGACY_UNKNOWN.
#[export] Instance OrderCreationMethod_eq_dec : EqDecision OrderCreationMethod.
Proof. solve_decision. Defined.
Definition OrderCreationMethod_value (x : OrderCreationMethod) : string :=
  match x with
  | SELF_SERVICE => "SELF_SERVICE"
  | MARKET_SUPPORT => "MARKET_SUPPORT"
  | SYSTEM => "SYSTEM"
  | LEGACY_UNKNOWN => "LEGACY_UNKNOWN"
  end.

Inductive TradeStatus :=
  | PENDING_CONFIRMATION | CONFIRMED | DELIVERED | PAID | TRADE_CANCELLED | DECLINED.
#[export] Instance TradeStatus_eq_dec : EqDecision TradeStatus.
Proof. solve_decision. Defined.
Definition TradeStatus_value (x : TradeStatus) : string :=
  match x with
  | PENDING_CONFIRMATION => "PENDING_CONFIRMATION"
  | CONFIRMED => "CONFIRMED"
  | DELIVERED => "DELIVERED"
  | PAID => "PAID"
  | TRADE_CANCELLED => "CANCELLED"
  | DECLINED => "DECLINED"
  end.

Inductive Initiator :=
  | INITIATED_BY_BUYER | INITIATED_BY_SELLER.
#[export] Instance Initiator_eq_dec : EqDecision Initiator.
Proof. solve_decision. Defined.
Definition Initiator_value (x : Initiator) : string :=
  match x with
  | INITIATED_BY_BUYER => "BUYER"
  | INITIATED_BY_SELLER => "SELLER"
  end.

(** [models/user.py] *)
Inductive UserRole :=
  | BUYER | SUPPLIER | ADMIN.
#[export] Instance UserRole_eq_dec : EqDecision UserRole.
Proof. solve_decision. Defined.
Definition UserRole_value (x : UserRole) : string :=
  match x with
  | BUYER => "BUYER"
  | SUPPLIER => "SUPPLIER"
  | ADMIN => "ADMIN"
  end.

Inductive UserStatus :=
  | PENDING | APPROVED | REJECTED.
#[export] Instance UserStatus_eq_dec : EqDecision UserStatus.
Proof. solve_decision. Defined.
Definition UserStatus_value (x : UserStatus) : string :=
  match x with
  | PENDING => "PENDING"
  | APPROVED => "APPROVED"
  | REJECTED => "REJECTED"
  end.

Inductive OrganizationProvenance :=
  | UNKNOWN | REAL | DEMO | TEST | CANARY.
#[export] Instance OrganizationProvenance_eq_dec : EqDecision OrganizationProvenance.
Proof. solve_decision. Defined.
Definition OrganizationProvenance_value (x : OrganizationProvenance) : string :=
  match x with
  | UNKNOWN => "UNKNOWN"
  | REAL => "REAL"
  | DEMO => "DEMO"
  | TEST => "TEST"
  | CANARY => "CANARY"
  end.

(** [models/subscription.py] *)
Inductive SubscriptionTier :=
  | FREE | STANDARD | ENTERPRISE.
#[export] Instance SubscriptionTier_eq_dec : EqDecision SubscriptionTier.
Proof. solve_decision. Defined.
Definition SubscriptionTier_value (x : SubscriptionTier) : string :=
  match x with
  | FREE => "free"
  | STANDARD => "standard"
  | ENTERPRISE => "enterprise"
  end.

(** [models/notification.py]: the kinds the modelled routes send *)
Inductive NotificationType :=
  | NT_ORDER_UPDATE | NT_TRADE_CONFIRMED | NT_NEGOTIATION_RECEIVED | NT_NEGOTIATION_COUNTERED | NT_NEGOTIATION_DECLINED.
#[export] Instance NotificationType_eq_dec : EqDecision NotificationType.
Proof. solve_decision. Defined.
Definition NotificationType_value (x : NotificationType) : string :=
  match x with
  | NT_ORDER_UPDATE => "ORDER_UPDATE"
  | NT_TRADE_CONFIRMED => "TRADE_CONFIRMED"
  | NT_NEGOTIATION_RECEIVED => "NEGOTIATION_RECEIVED"
  | NT_NEGOTIATION_COUNTERED => "NEGOTIATION_COUNTERED"
  | NT_NEGOTIATION_DECLINED => "NEGOTIATION_DECLINED"
  end.

(** [models/market_support.py] *)
Inductive MarketSupportCapability :=
  | MARKET_SUPPORT_LISTINGS | MARKET_SUPPORT_AUTHORIZATIONS.
#[export] Instance MarketSupportCapability_eq_dec : EqDecision MarketSupportCapability.
Proof. solve_decision. Defined.

Definition MarketSupportCapability_value (x : MarketSupportCapability) : string :=
  match x with
  | MARKET_SUPPORT_LISTINGS => "MARKET_SUPPORT_LISTINGS"
  | MARKET_SUPPORT_AUTHORIZATIONS => "MARKET_SUPPORT_AUTHORIZATIONS"
  end.

Inductive MarketSupportAuthorizationStatus :=
  | AUTHORIZATION_ACTIVE | AUTHORIZATION_CONSUMED | AUTHORIZATION_REVOKED.
#[export] Instance MarketSupportAuthorizationStatus_eq_dec : EqDecision MarketSupportAuthorizationStatus.
Proof. solve_decision. Defined.
Definition MarketSupportAuthorizationStatus_value (x : MarketSupportAuthorizationStatus) : string :=
  match x with
  | AUTHORIZATION_ACTIVE => "ACTIVE"
  | AUTHORIZATION_CONSUMED => "CONSUMED"
  | AUTHORIZATION_REVOKED => "REVOKED"
  end.

Inductive MarketSupportContextScope :=
  | ASSISTED_ORDER_ENTRY.
#[export] Instance MarketSupportContextScope_eq_dec : EqDecision MarketSupportContextScope.
Proof. solve_decision. Defined.

Inductive MarketSupportContextStatus :=
  | CONTEXT_ACTIVE | CONTEXT_EXITED | CONTEXT_EXPIRED | CONTEXT_REVOKED.
#[export] Instance MarketSupportContextStatus_eq_dec : EqDecision MarketSupportContextStatus.
Proof. solve_decision. Defined.
Definition MarketSupportContextStatus_value (x : MarketSupportContextStatus) : string :=
  match x with
  | CONTEXT_ACTIVE => "ACTIVE"
  | CONTEXT_EXITED => "EXITED"
  | CONTEXT_EXPIRED => "EXPIRED"
  | CONTEXT_REVOKED => "REVOKED"
  end.

(** [models/referral.py] *)
Inductive ReferralStatus :=
  | SIGNED_UP | VERIFIED | ACTIVE.
#[export] Instance ReferralStatus_eq_dec : EqDecision ReferralStatus.
Proof. solve_decision. Defined.
Definition ReferralStatus_value (x : ReferralStatus) : string :=
  match x with
  | SIGNED_UP => "SIGNED_UP"
  | VERIFIED => "VERIFIED"
  | ACTIVE => "ACTIVE"
  end.

(** [models/watchlist.py] *)
Inductive WatchlistTargetType :=
  | SLICE | PIN.
#[export] Instance WatchlistTargetType_eq_dec : EqDecision WatchlistTargetType.
Proof. solve_decision. Defined.
Definition WatchlistTargetType_value (x : WatchlistTargetType) : string :=
  match x with
  | SLICE => "SLICE"
  | PIN => "PIN"
  end.

Inductive WatchlistEventType :=
  | SLICE_NEW_ORDER | SLICE_BEST_PRICE_MOVED | SLICE_BENCHMARK_MOVED | SLICE_WENT_QUIET | PIN_PRICE_CHANGED | PIN_QUANTITY_CHANGED | PIN_PARTIALLY_FILLED | PIN_FILLED | PIN_WITHDRAWN | PIN_EXPIRED.
#[export] Instance WatchlistEventType_eq_dec : EqDecision WatchlistEventType.
Proof. solve_decision. Defined.
Definition WatchlistEventType_value (x : WatchlistEventType) : string :=
  match x with
  | SLICE_NEW_ORDER => "SLICE_NEW_ORDER"
  | SLICE_BEST_PRICE_MOVED => "SLICE_BEST_PRICE_MOVED"
  | SLICE_BENCHMARK_MOVED => "SLICE_BENCHMARK_MOVED"
  | SLICE_WENT_QUIET => "SLICE_WENT_QUIET"
  | PIN_PRICE_CHANGED => "PIN_PRICE_CHANGED"
  | PIN_QUANTITY_CHANGED => "PIN_QUANTITY_CHANGED"
  | PIN_PARTIALLY_FILLED => "PIN_PARTIALLY_FILLED"
  | PIN_FILLED => "PIN_FILLED"
  | PIN_WITHDRAWN => "PIN_WITHDRAWN"
  | PIN_EXPIRED => "PIN_EXPIRED"
  end.

(** ** Rows *)

Record Order := MkOrder {
  o_id : uuid;
  o_acceptance_ordinal : Z;
  o_organization_id : uuid;
  o_owner_user_id : option uuid;
  o_created_by_actor_user_id : option uuid;
  o_creation_method : OrderCreationMethod;
  o_support_authorization_id : option uuid;
  o_version : Z;
  o_inventory_item_id : option uuid;
  o_provenance : OrganizationProvenance;
  o_side : OrderSide;
  o_product_id : uuid;
  o_delivery_point_id : option uuid;
  o_port_id : option string;
  o_vessel_id : option uuid;
  o_quantity_mt : Z;
  o_remaining_quantity_mt : Z;
  o_price_per_mt_usd : Z;
  o_availability_window : string;
  o_delivery_window_start : option date;
  o_delivery_window_end : option date;
  o_certifications : option (list string);
  o_certification_declared : bool;
  o_certification_scheme : option string;
  o_specification_standard : option string;
  o_msds_available : bool;
  o_is_verdaxis_verified : bool;
  o_carbon_intensity_gco2_mj : option Z;
  o_carbon_intensity_method : option string;
  o_energy_density_mj_kg : option Z;
  o_feedstock : option string;
  o_origin : option string;
  o_off_spec : bool;
  o_off_spec_notes : option string;
  o_status : OrderBookStatus;
  o_expires_at : option datetime;
  o_idempotency_key : option string;
  o_idempotency_operation : option string;
  o_idempotency_request_hash : option string;
}.
#[export] Instance Order_eta : Eta Order := λ r,
  MkOrder (o_id r) (o_acceptance_ordinal r) (o_organization_id r) (o_owner_user_id r)
    (o_created_by_actor_user_id r) (o_creation_method r) (o_support_authorization_id r)
    (o_version r) (o_inventory_item_id r) (o_provenance r) (o_side r) (o_product_id r)
    (o_delivery_point_id r) (o_port_id r) (o_vessel_id r) (o_quantity_mt r)
    (o_remaining_quantity_mt r) (o_price_per_mt_usd r) (o_availability_window r)
    (o_delivery_window_start r) (o_delivery_window_end r) (o_certifications r)
    (o_certification_declared r) (o_certification_scheme r) (o_specification_standard r)
    (o_msds_available r) (o_is_verdaxis_verified r) (o_carbon_intensity_gco2_mj r)
    (o_carbon_intensity_method r) (o_energy_density_mj_kg r) (o_feedstock r) (o_origin r)
    (o_off_spec r) (o_off_spec_notes r) (o_status r) (o_expires_at r)
    (o_idempotency_key r) (o_idempotency_operation r) (o_idempotency_request_hash r).
#[export] Instance Order_eq_dec : EqDecision Order.
Proof. solve_decision. Defined.

Record Trade := MkTrade {
  t_id : uuid;
  t_bid_order_id : option uuid;
  t_ask_order_id : option uuid;
  t_buyer_id : uuid;
  t_seller_id : uuid;
  t_buyer_user_id : option uuid;
  t_seller_user_id : option uuid;
  t_initiator_org_id : uuid;
  t_buyer_provenance : OrganizationProvenance;
  t_seller_provenance : OrganizationProvenance;
  t_initiated_by : Initiator;
  t_is_anonymous : bool;
  t_product_id : option uuid;
  t_product_name : option string;
  t_fuel_type : option string;
  t_fuel_grade : option string;
  t_market_product : option string;
  t_delivery_point_id : option uuid;
  t_delivery_point_name : option string;
  t_delivery_point_region : option string;
  t_availability_window : option string;
  t_market_snapshot_version : option Z;
  t_quantity_mt : Z;
  t_price_per_mt_usd : Z;
  t_status : TradeStatus;
  t_final_quantity_mt : option Z;
  t_final_price_per_mt : option Z;
  t_final_total_usd : option Z;
  t_commission_rate_pct : Z;
  t_commission_fee_per_mt_usd : option Z;
  t_commission_plan : option string;
  t_commission_amount_usd : option Z;
  t_confirmed_at : option datetime;
  t_delivered_at : option datetime;
  t_paid_at : option datetime;
  t_created_at : datetime;
  t_idempotency_key : option string;
  t_idempotency_operation : option string;
  t_idempotency_request_hash : option string;
}.
#[export] Instance Trade_eta : Eta Trade := λ r,
  MkTrade (t_id r) (t_bid_order_id r) (t_ask_order_id r) (t_buyer_id r) (t_seller_id r)
    (t_buyer_user_id r) (t_seller_user_id r) (t_initiator_org_id r)
    (t_buyer_provenance r) (t_seller_provenance r) (t_initiated_by r) (t_is_anonymous r)
    (t_product_id r) (t_product_name r) (t_fuel_type r) (t_fuel_grade r)
    (t_market_product r) (t_delivery_point_id r) (t_delivery_point_name r)
    (t_delivery_point_region r) (t_availability_window r) (t_market_snapshot_version r)
    (t_quantity_mt r) (t_price_per_mt_usd r) (t_status r) (t_final_quantity_mt r)
    (t_final_price_per_mt r) (t_final_total_usd r) (t_commission_rate_pct r)
    (t_commission_fee_per_mt_usd r) (t_commission_plan r) (t_commission_amount_usd r)
    (t_confirmed_at r) (t_delivered_at r) (t_paid_at r) (t_created_at r)
    (t_idempotency_key r) (t_idempotency_operation r) (t_idempotency_request_hash r).
#[export] Instance Trade_eq_dec : EqDecision Trade.
Proof. solve_decision. Defined.

Record InventoryItem := MkInventoryItem {
  i_id : uuid;
  i_supplier_id : option uuid;
  i_owner_user_id : option uuid;
  i_port_id : option string;
  i_product_name : option string;
  i_current_stock_mt : Z;
  i_incoming_stock_mt : Z;
  i_reserved_stock_mt : Z;
  i_price_per_mt_usd : option Z;
  i_energy_density_mj_kg : option Z;
  i_is_certified : bool;
  i_certification_declared : bool;
  i_certification_scheme : option string;
  i_specification_standard : option string;
  i_msds_available : bool;
  i_carbon_intensity_gco2_mj : option Z;
  i_carbon_intensity_method : option string;
  i_feedstock : option string;
  i_origin : option string;
  i_off_spec : bool;
  i_off_spec_notes : option string;
}.
#[export] Instance InventoryItem_eta : Eta InventoryItem := λ r,
  MkInventoryItem (i_id r) (i_supplier_id r) (i_owner_user_id r) (i_port_id r) (i_product_name r)
    (i_current_stock_mt r) (i_incoming_stock_mt r) (i_reserved_stock_mt r)
    (i_price_per_mt_usd r) (i_energy_density_mj_kg r) (i_is_certified r)
    (i_certification_declared r) (i_certification_scheme r) (i_specification_standard r)
    (i_msds_available r) (i_carbon_intensity_gco2_mj r) (i_carbon_intensity_method r)
    (i_feedstock r) (i_origin r) (i_off_spec r) (i_off_spec_notes r).
#[export] Instance InventoryItem_eq_dec : EqDecision InventoryItem.
Proof. solve_decision. Defined.

Record Organization := MkOrganization {
  g_id : uuid;
  g_name : string;
  g_verification_status : string;
  g_provenance : OrganizationProvenance;
}.
#[export] Instance Organization_eta : Eta Organization := λ r,
  MkOrganization (g_id r) (g_name r) (g_verification_status r) (g_provenance r).
#[export] Instance Organization_eq_dec : EqDecision Organization.
Proof. solve_decision. Defined.

Record User := MkUser {
  u_id : uuid;
  u_role : option UserRole;
  u_status : UserStatus;
  u_organization_id : option uuid;
  u_must_change_password : bool;
  u_email_verified : bool;
  u_kyc_status : string;
  u_kyc_organization_id : option uuid;
  u_kyc_rejection_reason : option string;
  u_kyc_external_evidence_reference : option string;
  u_kyc_review_note : option string;
  u_kyc_reviewed_by : option uuid;
  u_kyc_reviewed_at : option datetime;
}.
#[export] Instance User_eta : Eta User := λ r,
  MkUser (u_id r) (u_role r) (u_status r) (u_organization_id r) (u_must_change_password r)
    (u_email_verified r) (u_kyc_status r) (u_kyc_organization_id r) (u_kyc_rejection_reason r)
    (u_kyc_external_evidence_reference r) (u_kyc_review_note r) (u_kyc_reviewed_by r) (u_kyc_reviewed_at r).
#[export] Instance User_eq_dec : EqDecision User.
Proof. solve_decision. Defined.

Record Product := MkProduct {
  p_id : uuid;
  p_name : string;
  p_fuel_type : string;
  p_fuel_grade : string;
  p_unit : option string;
  p_min_lot_size : option Z;
  p_is_active : bool;
}.
#[export] Instance Product_eta : Eta Product := λ r,
  MkProduct (p_id r) (p_name r) (p_fuel_type r) (p_fuel_grade r) (p_unit r) (p_min_lot_size r)
    (p_is_active r).
#[export] Instance Product_eq_dec : EqDecision Product.
Proof. solve_decision. Defined.

Record DeliveryPoint := MkDeliveryPoint {
  d_id : uuid;
  d_name : string;
  d_region : string;
  d_is_active : bool;
}.
#[export] Instance DeliveryPoint_eta : Eta DeliveryPoint := λ r,
  MkDeliveryPoint (d_id r) (d_name r) (d_region r) (d_is_active r).
#[export] Instance DeliveryPoint_eq_dec : EqDecision DeliveryPoint.
Proof. solve_decision. Defined.

Record Port := MkPort {
  pt_id : string;
  pt_name : string;
  pt_is_active : bool;
}.
#[export] Instance Port_eta : Eta Port := λ r,
  MkPort (pt_id r) (pt_name r) (pt_is_active r).
#[export] Instance Port_eq_dec : EqDecision Port.
Proof. solve_decision. Defined.

Record Subscription := MkSubscription {
  s_id : uuid;
  s_org_id : uuid;
  s_tier : string;
  s_expires_at : option datetime;
  s_is_active : bool;
  s_seller_fee_per_mt_usd : option Z;
}.
#[export] Instance Subscription_eta : Eta Subscription := λ r,
  MkSubscription (s_id r) (s_org_id r) (s_tier r) (s_expires_at r) (s_is_active r)
    (s_seller_fee_per_mt_usd r).
#[export] Instance Subscription_eq_dec : EqDecision Subscription.
Proof. solve_decision. Defined.

Record Referral := MkReferral {
  r_id : uuid;
  r_referred_user_id : uuid;
  r_status : ReferralStatus;
  r_activated_at : option datetime;
}.
#[export] Instance Referral_eta : Eta Referral := λ r,
  MkReferral (r_id r) (r_referred_user_id r) (r_status r) (r_activated_at r).
#[export] Instance Referral_eq_dec : EqDecision Referral.
Proof. solve_decision. Defined.

Record WatchlistTarget := MkWatchlistTarget {
  w_id : uuid;
  w_watchlist_id : uuid;
  w_target_type : WatchlistTargetType;
  w_market_product_code : option string;
  w_delivery_point_id : option uuid;
  w_availability_window_code : option string;
  w_order_id : option uuid;
  w_snapshot_price_per_mt_usd : option Z;
  w_snapshot_quantity_mt : option Z;
  w_snapshot_remaining_quantity_mt : option Z;
  w_snapshot_status : option string;
  w_snapshot_side : option string;
  w_snapshot_market_product : option string;
  w_snapshot_delivery_point_name : option string;
  w_snapshot_availability_window : option string;
  w_snapshot_counterparty_label : option string;
}.
#[export] Instance WatchlistTarget_eta : Eta WatchlistTarget := λ r,
  MkWatchlistTarget (w_id r) (w_watchlist_id r) (w_target_type r) (w_market_product_code r)
    (w_delivery_point_id r) (w_availability_window_code r) (w_order_id r)
    (w_snapshot_price_per_mt_usd r) (w_snapshot_quantity_mt r)
    (w_snapshot_remaining_quantity_mt r) (w_snapshot_status r) (w_snapshot_side r)
    (w_snapshot_market_product r) (w_snapshot_delivery_point_name r)
    (w_snapshot_availability_window r) (w_snapshot_counterparty_label r).
#[export] Instance WatchlistTarget_eq_dec : EqDecision WatchlistTarget.
Proof. solve_decision. Defined.

(** ** JSON documents

    Notification data, audit changes, event payloads and recorded responses
    are JSON columns.  A member keeps its type here: [str(uuid)], the text of
    a decimal, a timestamp or an f-string are constructors rather than
    characters; [float(x)] of a stored decimal is its value in hundredths. *)
#[local] Set Warnings "-register-all".
Inductive json :=
  | JNull
  | JBool (b : bool)
  | JStr (s : string)
  | JInt (z : Z)
  | JDec (hundredths : Z)
  | JRate (thousandths : Z)
  | JUuid (u : uuid)
  | JTime (t : datetime)
  | JText (d : detail)
  | JArr (l : list json)
  | JObj (l : list (string * json)).

#[export] Instance json_eq_dec : EqDecision json.
Proof.
  refine (fix go (a b : json) : Decision (a = b) :=
    match a, b with
    | JNull, JNull => left _
    | JBool x, JBool y => cast_if (decide (x = y))
    | JStr x, JStr y => cast_if (decide (x = y))
    | JInt x, JInt y => cast_if (decide (x = y))
    | JDec x, JDec y => cast_if (decide (x = y))
    | JRate x, JRate y => cast_if (decide (x = y))
    | JUuid x, JUuid y => cast_if (decide (x = y))
    | JTime x, JTime y => cast_if (decide (x = y))
    | JText x, JText y => cast_if (decide (x = y))
    | JArr x, JArr y => cast_if (@list_eq_dec _ go x y)
    | JObj x, JObj y => cast_if (@list_eq_dec _ (@prod_eq_dec _ _ _ go) x y)
    | _, _ => right _
    end); congruence.
Defined.

Definition jopt {A} (f : A → json) (o : option A) : json :=
  match o with Some a => f a | None => JNull end.

Record WatchlistEvent := MkWatchlistEvent {
  we_watchlist_id : uuid;
  we_watchlist_target_id : uuid;
  we_event_type : WatchlistEventType;
  we_event_payload : json;
  we_is_read : bool;
}.
#[export] Instance WatchlistEvent_eta : Eta WatchlistEvent := λ r,
  MkWatchlistEvent (we_watchlist_id r) (we_watchlist_target_id r) (we_event_type r) (we_event_payload r)
    (we_is_read r).

Record Notification := MkNotification {
  n_recipient_id : uuid;
  n_type : NotificationType;
  n_title : string;
  n_message : detail;
  n_data : json;
}.
#[export] Instance Notification_eta : Eta Notification := λ r,
  MkNotification (n_recipient_id r) (n_type r) (n_title r) (n_message r) (n_data r).

Record AuditLog := MkAuditLog {
  a_user_id : option uuid;
  a_action : string;
  a_resource_type : string;
  a_resource_id : option uuid;
  a_changes : json;
}.
#[export] Instance AuditLog_eta : Eta AuditLog := λ r,
  MkAuditLog (a_user_id r) (a_action r) (a_resource_type r) (a_resource_id r) (a_changes r).

Record MarketEventOutbox := MkMarketEventOutbox {
  e_event_type : string;
  e_aggregate_type : string;
  e_aggregate_id : uuid;
  e_participant_org_ids : list uuid;
  e_payload : json;
}.
#[export] Instance MarketEventOutbox_eta : Eta MarketEventOutbox := λ r,
  MkMarketEventOutbox (e_event_type r) (e_aggregate_type r) (e_aggregate_id r) (e_participant_org_ids r)
    (e_payload r).

Record MarketCommandResult := MkMarketCommandResult {
  cr_id : uuid;
  cr_actor_user_id : uuid;
  cr_effective_organization_id : uuid;
  cr_support_context_id : option uuid;
  cr_operation : string;
  cr_idempotency_key : string;
  cr_request_hash : string;
  cr_resource_type : string;
  cr_resource_id : uuid;
  cr_response_status : Z;
  cr_response_body : json;
}.
#[export] Instance MarketCommandResult_eta : Eta MarketCommandResult := λ r,
  MkMarketCommandResult (cr_id r) (cr_actor_user_id r) (cr_effective_organization_id r)
    (cr_support_context_id r) (cr_operation r) (cr_idempotency_key r) (cr_request_hash r)
    (cr_resource_type r) (cr_resource_id r) (cr_response_status r) (cr_response_body r).

(** [models/market_support.py] *)
Record StaffCapabilityAssignment := MkStaffCapabilityAssignment {
  sc_id : uuid;
  sc_user_id : uuid;
  sc_capability : MarketSupportCapability;
  sc_reason : string;
  sc_granted_by_user_id : uuid;
  sc_granted_at : datetime;
  sc_expires_at : option datetime;
  sc_revoked_at : option datetime;
  sc_revoked_by_user_id : option uuid;
  sc_revocation_reason : option string;
}.
#[export] Instance StaffCapabilityAssignment_eta : Eta StaffCapabilityAssignment := λ r,
  MkStaffCapabilityAssignment (sc_id r) (sc_user_id r) (sc_capability r) (sc_reason r)
    (sc_granted_by_user_id r) (sc_granted_at r) (sc_expires_at r) (sc_revoked_at r) (sc_revoked_by_user_id r)
    (sc_revocation_reason r).

Record MarketSupportContext := MkMarketSupportContext {
  sx_id : uuid;
  sx_actor_user_id : uuid;
  sx_organization_id : uuid;
  sx_accountable_user_id : uuid;
  sx_support_reference : string;
  sx_scope : MarketSupportContextScope;
  sx_started_at : datetime;
  sx_expires_at : datetime;
  sx_ended_at : option datetime;
  sx_status : MarketSupportContextStatus;
  sx_version : Z;
}.
#[export] Instance MarketSupportContext_eta : Eta MarketSupportContext := λ r,
  MkMarketSupportContext (sx_id r) (sx_actor_user_id r) (sx_organization_id r) (sx_accountable_user_id r)
    (sx_support_reference r) (sx_scope r) (sx_started_at r) (sx_expires_at r) (sx_ended_at r) (sx_status r)
    (sx_version r).

Record MarketSupportAuthorization := MkMarketSupportAuthorization {
  sa_id : uuid;
  sa_organization_id : uuid;
  sa_accountable_user_id : uuid;
  sa_market_support_context_id : option uuid;
  sa_status : MarketSupportAuthorizationStatus;
  sa_product_id : uuid;
  sa_delivery_point_id : uuid;
  sa_availability_window : string;
  sa_quantity_mt : Z;
  sa_price_per_mt_usd : Z;
  sa_order_side : OrderSide;
  sa_authorization_expires_at : datetime;
  sa_order_expires_at : option datetime;
  sa_is_anonymous : bool;
  sa_certifications : list string;
  sa_certification_declared : bool;
  sa_certification_scheme : option string;
  sa_specification_standard : option string;
  sa_msds_available : bool;
  sa_carbon_intensity_gco2_mj : option Z;
  sa_carbon_intensity_method : option string;
  sa_feedstock : option string;
  sa_origin : option string;
  sa_off_spec : bool;
  sa_off_spec_notes : option string;
  sa_terms_digest : string;
  sa_evidence_reference : string;
  sa_evidence_sha256 : option string;
  sa_commercial_consent_version : string;
  sa_commercial_consent_reference : string;
  sa_support_case_reference : option string;
  sa_instruction_at : option datetime;
  sa_acknowledge_exact_terms : option bool;
  sa_acknowledge_executable_standing_order : option bool;
  sa_idempotency_key : string;
  sa_idempotency_request_hash : string;
  sa_created_by_actor_user_id : uuid;
  sa_consumed_at : option datetime;
}.
#[export] Instance MarketSupportAuthorization_eta : Eta MarketSupportAuthorization := λ r,
  MkMarketSupportAuthorization (sa_id r) (sa_organization_id r) (sa_accountable_user_id r)
    (sa_market_support_context_id r) (sa_status r) (sa_product_id r) (sa_delivery_point_id r)
    (sa_availability_window r) (sa_quantity_mt r) (sa_price_per_mt_usd r) (sa_order_side r)
    (sa_authorization_expires_at r) (sa_order_expires_at r) (sa_is_anonymous r) (sa_certifications r)
    (sa_certification_declared r) (sa_certification_scheme r) (sa_specification_standard r)
    (sa_msds_available r) (sa_carbon_intensity_gco2_mj r) (sa_carbon_intensity_method r)
    (sa_feedstock r) (sa_origin r) (sa_off_spec r) (sa_off_spec_notes r) (sa_terms_digest r)
    (sa_evidence_reference r) (sa_evidence_sha256 r) (sa_commercial_consent_version r)
    (sa_commercial_consent_reference r) (sa_support_case_reference r) (sa_instruction_at r)
    (sa_acknowledge_exact_terms r) (sa_acknowledge_executable_standing_order r)
    (sa_idempotency_key r) (sa_idempotency_request_hash r) (sa_created_by_actor_user_id r)
    (sa_consumed_at r).

Record LiveSliceBenchmark := MkLiveSliceBenchmark {
  b_id : uuid;
  b_side : OrderSide;
  b_market_product : string;
  b_delivery_point_id : uuid;
  b_availability_window : string;
  b_benchmark_price_per_mt_usd : Z;
  b_total_remaining_quantity_mt : Z;
  b_order_count : Z;
  b_source : string;
}.
#[export] Instance LiveSliceBenchmark_eta : Eta LiveSliceBenchmark := λ r,
  MkLiveSliceBenchmark (b_id r) (b_side r) (b_market_product r) (b_delivery_point_id r)
    (b_availability_window r) (b_benchmark_price_per_mt_usd r)
    (b_total_remaining_quantity_mt r) (b_order_count r) (b_source r).

(** ** Derived attributes of the rows *)

(** [Product.market_product] *)
Definition p_market_product (p : Product) : option string :=
  market_product_value <$> derive_market_product (p_name p) (p_fuel_type p) (p_fuel_grade p).

(** [OrderBookOrder.bump_version]: only support-managed orders are versioned. *)
Definition bump_version (o : Order) : Order :=
  if bool_decide (o_creation_method o = MARKET_SUPPORT)
  then o <| o_version := (o_version o + 1)%Z |>
  else o.

Definition is_active_status (s : OrderBookStatus) : bool :=
  bool_decide (s = OPEN ∨ s = PARTIALLY_FILLED).
