(* ===== verification/OrderTerms.v ===== *)
(** * The reviewed terms of an order

    [app/services/order_terms.py]: the canonical payload of everything a direct
    hit binds, and its SHA-256 digest.  A caller must present the digest of the
    terms that were reviewed; [Trades.create_trade] compares it under the
    order's lock. *)

From S2P Require Import Prelude Sha256 Catalog Calendar AvailabilityWindows Decimal Json Schema.
Local Open Scope Z_scope.

Definition _decimal_text (value : decimal) : string :=
  if coef value =? 0 then "0" else format_f (dnormalize value).

Definition _utc_text (value : option datetime) : option string := utc_text <$> value.

(** A stored value in hundredths. *)
Definition cents_value (n : Z) : jvalue := VStr (_decimal_text (of_cents n)).
Definition uuid_value (u : uuid) : jvalue := VStr (uuid_text u).

(** An order has no [fame_terms] attribute: [getattr] gives [None]. *)
Definition executable_order_terms (order : Order) : list (string * jvalue) := [
  ("order_id", uuid_value (o_id order));
  ("side", VStr (OrderSide_value (o_side order)));
  ("organization_id", uuid_value (o_organization_id order));
  ("owner_user_id", vopt uuid_value (o_owner_user_id order));
  ("created_by_actor_user_id", vopt uuid_value (o_created_by_actor_user_id order));
  ("creation_method", VStr (OrderCreationMethod_value (o_creation_method order)));
  ("support_authorization_id", vopt uuid_value (o_support_authorization_id order));
  ("provenance", VStr (OrganizationProvenance_value (o_provenance order)));
  ("product_id", uuid_value (o_product_id order));
  ("delivery_point_id", vopt uuid_value (o_delivery_point_id order));
  ("port_id", vopt VStr (o_port_id order));
  ("vessel_id", vopt uuid_value (o_vessel_id order));
  ("inventory_item_id", vopt uuid_value (o_inventory_item_id order));
  ("quantity_mt", cents_value (o_quantity_mt order));
  ("remaining_quantity_mt", cents_value (o_remaining_quantity_mt order));
  ("price_per_mt_usd", cents_value (o_price_per_mt_usd order));
  ("availability_window", VStr (o_availability_window order));
  ("delivery_window_start", vopt (VStr ∘ date_text) (o_delivery_window_start order));
  ("delivery_window_end", vopt (VStr ∘ date_text) (o_delivery_window_end order));
  ("expires_at", vopt VStr (_utc_text (o_expires_at order)));
  ("certifications", VList (VStr <$> default [] (o_certifications order)));
  ("certification_declared", VBool (o_certification_declared order));
  ("certification_scheme", vopt VStr (o_certification_scheme order));
  ("specification_standard", vopt VStr (o_specification_standard order));
  ("msds_available", VBool (o_msds_available order));
  ("carbon_intensity_gco2_mj", vopt cents_value (o_carbon_intensity_gco2_mj order));
  ("carbon_intensity_method", vopt VStr (o_carbon_intensity_method order));
  ("energy_density_mj_kg", vopt cents_value (o_energy_density_mj_kg order));
  ("feedstock", vopt VStr (o_feedstock order));
  ("origin", vopt VStr (o_origin order));
  ("off_spec", VBool (o_off_spec order));
  ("off_spec_notes", vopt VStr (o_off_spec_notes order));
  ("is_verdaxis_verified", VBool (o_is_verdaxis_verified order));
  ("fame_terms", VNull) ].

Definition order_terms_digest (order : Order) : string :=
  sha256_hexdigest (dumps false (VObj (executable_order_terms order))).
