(* ===== verification/Constraints.v ===== *)
(** * The PostgreSQL checks of the market tables

    [app/market_constraints.py] and the constraints of the table definitions:
    what the database accepts in an order, trade, inventory or subscription
    row, with its uniqueness constraints.  A CHECK whose condition is NULL
    passes, as in SQL.  The scale conditions ([x * 100 = trunc(x * 100)]) hold
    of every value in hundredths. *)

From Stdlib Require Import Ascii.
From S2P Require Import Prelude Catalog Calendar AvailabilityWindows Schema.
Local Open Scope Z_scope.

(** Literals of the source, in hundredths. *)
Definition cents (units : Z) : Z := units * 100.

(** [_required_numeric] and [_optional_numeric] *)
Definition required_numeric (x minimum maximum : Z) : Prop := minimum <= x <= maximum.
Definition optional_numeric (x : option Z) (minimum maximum : Z) : Prop :=
  match x with None => True | Some v => required_numeric v minimum maximum end.

#[export] Instance required_numeric_dec x a b : Decision (required_numeric x a b).
Proof. unfold required_numeric. apply _. Defined.
#[export] Instance optional_numeric_dec x a b : Decision (optional_numeric x a b).
Proof. unfold optional_numeric. destruct x; apply _. Defined.

(** The idempotency columns are all present or all absent. *)
Definition idempotency_complete (key operation hash : option string) : Prop :=
  (key = None ∧ operation = None ∧ hash = None)
  ∨ (key ≠ None ∧ operation ≠ None ∧ hash ≠ None).
#[export] Instance idempotency_complete_dec k o h : Decision (idempotency_complete k o h).
Proof. unfold idempotency_complete. apply _. Defined.

(** PostgreSQL's [trim(x) <> '']: something other than spaces remains. *)
Fixpoint sql_nonblank (s : string) : bool :=
  match s with
  | EmptyString => false
  | String c s => negb (Ascii.eqb c " "%char) || sql_nonblank s
  end.

(** ** Orders *)

Definition ORDER_DOMAIN (o : Order) : Prop :=
  (o_provenance o ≠ DEMO ∨ is_active_status (o_status o) = false ∨ o_expires_at o ≠ None)
  ∧ idempotency_complete (o_idempotency_key o) (o_idempotency_operation o)
      (o_idempotency_request_hash o).

Definition ORDER_NUMERIC_VALUES (o : Order) : Prop :=
  required_numeric (o_quantity_mt o) 1 (cents 100000)
  ∧ required_numeric (o_remaining_quantity_mt o) 0 (cents 100000)
  ∧ required_numeric (o_price_per_mt_usd o) 1 (cents 1000000)
  ∧ optional_numeric (o_carbon_intensity_gco2_mj o) 0 (cents 10000)
  ∧ optional_numeric (o_energy_density_mj_kg o) 0 (cents 10000).

Definition ORDER_LIFECYCLE (o : Order) : Prop :=
  o_remaining_quantity_mt o <= o_quantity_mt o
  ∧ match o_status o with
    | OPEN => o_remaining_quantity_mt o = o_quantity_mt o
    | PARTIALLY_FILLED =>
        0 < o_remaining_quantity_mt o ∧ o_remaining_quantity_mt o < o_quantity_mt o
    | FILLED => o_remaining_quantity_mt o = 0
    | CANCELLED | EXPIRED => True
    end.

Definition order_version_check (o : Order) : Prop := 1 <= o_version o.

Definition order_checks (o : Order) : Prop :=
  ORDER_DOMAIN o ∧ ORDER_NUMERIC_VALUES o ∧ ORDER_LIFECYCLE o ∧ order_version_check o.

#[export] Instance ORDER_DOMAIN_dec o : Decision (ORDER_DOMAIN o).
Proof. unfold ORDER_DOMAIN. apply _. Defined.
#[export] Instance ORDER_NUMERIC_VALUES_dec o : Decision (ORDER_NUMERIC_VALUES o).
Proof. unfold ORDER_NUMERIC_VALUES. apply _. Defined.
#[export] Instance ORDER_LIFECYCLE_dec o : Decision (ORDER_LIFECYCLE o).
Proof. unfold ORDER_LIFECYCLE. destruct (o_status o); apply _. Defined.
#[export] Instance order_checks_dec o : Decision (order_checks o).
Proof. unfold order_checks, order_version_check. apply _. Defined.

(** ** Trades *)

Definition DEMO_ORG_VALUES : list uuid := elements DEMO_MARKET_ORG_IDS.

Definition TRADE_DOMAIN (t : Trade) : Prop :=
  t_buyer_id t ≠ t_seller_id t
  ∧ match t_initiated_by t with
    | INITIATED_BY_BUYER => t_initiator_org_id t = t_buyer_id t
    | INITIATED_BY_SELLER => t_initiator_org_id t = t_seller_id t
    end
  ∧ idempotency_complete (t_idempotency_key t) (t_idempotency_operation t)
      (t_idempotency_request_hash t)
  ∧ (t_market_snapshot_version t = None
     ∨ (t_buyer_provenance t = REAL ∧ t_seller_provenance t = REAL)
     ∨ (t_buyer_provenance t = DEMO ∧ t_seller_provenance t = DEMO
        ∧ t_buyer_id t ∈ DEMO_MARKET_ORG_IDS ∧ t_seller_id t ∈ DEMO_MARKET_ORG_IDS)).

Definition TRADE_NUMERIC_VALUES (t : Trade) : Prop :=
  required_numeric (t_quantity_mt t) 1 (cents 100000)
  ∧ required_numeric (t_price_per_mt_usd t) 1 (cents 1000000)
  ∧ optional_numeric (t_final_quantity_mt t) 1 (cents 100000)
  ∧ optional_numeric (t_final_price_per_mt t) 1 (cents 1000000)
  ∧ optional_numeric (t_final_total_usd t) 0 (cents 100000000000)
  ∧ required_numeric (t_commission_rate_pct t) 0 100000
  ∧ optional_numeric (t_commission_fee_per_mt_usd t) 0 (cents 100000)
  ∧ optional_numeric (t_commission_amount_usd t) 0 (cents 100000000000).

Definition TRADE_COMMISSION_SNAPSHOT (t : Trade) : Prop :=
  match t_commission_fee_per_mt_usd t, t_commission_plan t with
  | None, None => True
  | Some _, Some plan =>
      t_commission_rate_pct t = 0 ∧ plan ∈ ["free"; "standard"; "enterprise"]
  | _, _ => False
  end.

Definition no_final_terms (t : Trade) : Prop :=
  t_final_quantity_mt t = None ∧ t_final_price_per_mt t = None ∧ t_final_total_usd t = None.
Definition has_final_terms (t : Trade) : Prop :=
  t_final_quantity_mt t ≠ None ∧ t_final_price_per_mt t ≠ None ∧ t_final_total_usd t ≠ None.

Definition TRADE_LIFECYCLE (t : Trade) : Prop :=
  match t_final_quantity_mt t with None => True | Some q => q <= t_quantity_mt t end
  ∧ match t_status t with
    | PENDING_CONFIRMATION =>
        t_confirmed_at t = None ∧ t_delivered_at t = None ∧ t_paid_at t = None
        ∧ no_final_terms t
    | CONFIRMED =>
        t_confirmed_at t ≠ None ∧ t_delivered_at t = None ∧ t_paid_at t = None
        ∧ no_final_terms t
    | DELIVERED =>
        t_confirmed_at t ≠ None ∧ t_delivered_at t ≠ None ∧ t_paid_at t = None
        ∧ has_final_terms t
    | PAID =>
        t_confirmed_at t ≠ None ∧ t_delivered_at t ≠ None ∧ t_paid_at t ≠ None
        ∧ has_final_terms t
    | TRADE_CANCELLED | DECLINED =>
        t_delivered_at t = None ∧ t_paid_at t = None ∧ no_final_terms t
    end.

(** [market_product IN (..)] of a NULL is NULL, which a CHECK accepts. *)
Definition TRADE_SNAPSHOT (t : Trade) : Prop :=
  match t_market_snapshot_version t with
  | None => True
  | Some v =>
      v = 1
      ∧ t_product_id t ≠ None
      ∧ sql_nonblank (default "" (t_product_name t)) = true
      ∧ sql_nonblank (default "" (t_fuel_type t)) = true
      ∧ sql_nonblank (default "" (t_fuel_grade t)) = true
      ∧ match t_market_product t with None => True | Some p => p ∈ MARKET_PRODUCT_CODES end
      ∧ JSON_SCHEMA_PATTERN (default "" (t_availability_window t)) = true
      ∧ t_delivery_point_id t ≠ None
      ∧ t_delivery_point_name t ≠ None
      ∧ t_delivery_point_region t ≠ None
  end.

Definition trade_checks (t : Trade) : Prop :=
  TRADE_DOMAIN t ∧ TRADE_NUMERIC_VALUES t ∧ TRADE_LIFECYCLE t ∧ TRADE_SNAPSHOT t
  ∧ TRADE_COMMISSION_SNAPSHOT t.

#[export] Instance TRADE_DOMAIN_dec t : Decision (TRADE_DOMAIN t).
Proof. unfold TRADE_DOMAIN. destruct (t_initiated_by t); apply _. Defined.
#[export] Instance TRADE_NUMERIC_VALUES_dec t : Decision (TRADE_NUMERIC_VALUES t).
Proof. unfold TRADE_NUMERIC_VALUES. apply _. Defined.
#[export] Instance TRADE_LIFECYCLE_dec t : Decision (TRADE_LIFECYCLE t).
Proof.
  unfold TRADE_LIFECYCLE, no_final_terms, has_final_terms.
  destruct (t_final_quantity_mt t), (t_status t); apply _.
Defined.
#[export] Instance TRADE_SNAPSHOT_dec t : Decision (TRADE_SNAPSHOT t).
Proof.
  unfold TRADE_SNAPSHOT. destruct (t_market_snapshot_version t); [|apply _].
  destruct (t_market_product t); apply _.
Defined.
#[export] Instance TRADE_COMMISSION_SNAPSHOT_dec t : Decision (TRADE_COMMISSION_SNAPSHOT t).
Proof.
  unfold TRADE_COMMISSION_SNAPSHOT.
  destruct (t_commission_fee_per_mt_usd t), (t_commission_plan t); apply _.
Defined.
#[export] Instance trade_checks_dec t : Decision (trade_checks t).
Proof. unfold trade_checks. apply _. Defined.

(** ** Inventory and subscriptions *)

Definition INVENTORY_NUMERIC_VALUES (i : InventoryItem) : Prop :=
  required_numeric (i_current_stock_mt i) 0 (cents 100000)
  ∧ required_numeric (i_incoming_stock_mt i) 0 (cents 100000)
  ∧ required_numeric (i_reserved_stock_mt i) 0 (cents 100000)
  ∧ optional_numeric (i_price_per_mt_usd i) 1 (cents 1000000)
  ∧ optional_numeric (i_energy_density_mj_kg i) 0 (cents 10000)
  ∧ optional_numeric (i_carbon_intensity_gco2_mj i) 0 (cents 10000).

#[export] Instance INVENTORY_NUMERIC_VALUES_dec i : Decision (INVENTORY_NUMERIC_VALUES i).
Proof. unfold INVENTORY_NUMERIC_VALUES. apply _. Defined.

Definition subscription_check (s : Subscription) : Prop :=
  optional_numeric (s_seller_fee_per_mt_usd s) 0 (cents 100000).
#[export] Instance subscription_check_dec s : Decision (subscription_check s).
Proof. unfold subscription_check. apply _. Defined.

(** PostgreSQL's [trim(x)] removes spaces only. *)
Definition sql_space_trim (s : string) : string := strip_by (λ c, Ascii.eqb c " "%char) s.

(** [x ~ '^[0-9a-f]{64}$'] *)
Definition is_lower_hex (c : ascii) : bool :=
  let n := N_of_ascii c in
  bool_decide (48 <= n <= 57)%N || bool_decide (97 <= n <= 102)%N.
Definition is_sha256_hex (s : string) : Prop :=
  String.length s = 64%nat ∧ all_chars is_lower_hex s = true.

Definition command_result_check (r : MarketCommandResult) : Prop :=
  cr_operation r ∈ ["trade.confirm"; "trade.decline"; "trade.deliver"; "trade.pay";
                    "order.amend"; "order.cancel"]
  ∧ cr_resource_type r ∈ ["trade"; "order"]
  ∧ (1 <= String.length (sql_space_trim (cr_idempotency_key r)) <= 255)%nat
  ∧ is_sha256_hex (cr_request_hash r)
  ∧ 200 <= cr_response_status r <= 299.
#[export] Instance command_result_check_dec r : Decision (command_result_check r).
Proof. unfold command_result_check, is_sha256_hex. apply _. Defined.

(** ** Market Support *)

Definition support_context_check (x : MarketSupportContext) : Prop :=
  sx_started_at x < sx_expires_at x ∧ 1 <= sx_version x.
Definition support_authorization_check (x : MarketSupportAuthorization) : Prop :=
  0 < sa_quantity_mt x ∧ 0 < sa_price_per_mt_usd x
  ∧ match sa_order_expires_at x with None => True | Some e => sa_authorization_expires_at x <= e end.
#[export] Instance support_context_check_dec x : Decision (support_context_check x).
Proof. unfold support_context_check. apply _. Defined.
#[export] Instance support_authorization_check_dec x : Decision (support_authorization_check x).
Proof. unfold support_authorization_check. destruct (sa_order_expires_at x); apply _. Defined.

(** [uq_market_support_context_actor_active] is a partial index. *)
Definition active_support_actor (x : MarketSupportContext) : option uuid :=
  if bool_decide (sx_status x = CONTEXT_ACTIVE) then Some (sx_actor_user_id x) else None.
Definition support_authorization_key (x : MarketSupportAuthorization) : option (uuid * string) :=
  Some (sa_organization_id x, sa_idempotency_key x).

(** [uq_staff_capability_user_capability] *)
Definition capability_key (r : StaffCapabilityAssignment) : option (uuid * string) :=
  Some (sc_user_id r, MarketSupportCapability_value (sc_capability r)).

(** ** Uniqueness *)

Definition unique_on {K V A} `{Countable K} `{EqDecision A} (f : V → option A) (m : gmap K V) : Prop :=
  map_Forall (λ i x, map_Forall (λ j y, f x = None ∨ f x ≠ f y ∨ i = j) m) m.
#[export] Instance unique_on_dec {K V A} `{Countable K} `{EqDecision A} (f : V → option A)
    (m : gmap K V) : Decision (unique_on f m).
Proof. unfold unique_on. apply _. Defined.

(** [uq_orderbook_orders_org_operation_idempotency] and
    [uq_trades_initiator_operation_idempotency]: NULLs are distinct. *)
Definition order_idempotency_key (o : Order) : option (uuid * string * string) :=
  operation ← o_idempotency_operation o;
  key ← o_idempotency_key o;
  Some (o_organization_id o, operation, key).
Definition trade_idempotency_key (t : Trade) : option (uuid * string * string) :=
  operation ← t_idempotency_operation t;
  key ← t_idempotency_key t;
  Some (t_initiator_org_id t, operation, key).
Definition command_result_key (r : MarketCommandResult) : option (uuid * string * string) :=
  Some (cr_actor_user_id r, cr_operation r, cr_idempotency_key r).

(** ** Facts *)

Lemma unique_on_spec {K V A} `{Countable K} `{EqDecision A} (f : V → option A) (m : gmap K V) :
  unique_on f m ↔
  ∀ i j x y, m !! i = Some x → m !! j = Some y → f x = f y → f x ≠ None → i = j.
Proof.
  unfold unique_on. split.
  - intros Hu i j x y Hi Hj Hf Hn. destruct (Hu i x Hi j y Hj) as [|[|]]; congruence.
  - intros Hu i x Hi j y Hj. destruct (decide (f x = None)); [by left|].
    destruct (decide (f x = f y)); [right; right; eauto|by right; left].
Qed.

(** Replacing a row by one with the same key keeps a uniqueness constraint. *)
Lemma unique_on_fmap {K V A} `{Countable K} `{EqDecision A} (f : V → option A) (g : V → V) (m : gmap K V) :
  (∀ x, f (g x) = f x) → unique_on f m → unique_on f (g <$> m).
Proof.
  intros Hg Hu. unfold unique_on in *. rewrite map_Forall_fmap. intros i x Hi. cbn.
  rewrite map_Forall_fmap. intros j y Hj. cbn. rewrite !Hg. by apply (Hu i x Hi j y Hj).
Qed.

Lemma unique_on_update {K V A} `{Countable K} `{EqDecision A} (f : V → option A) (m : gmap K V) k x x' :
  unique_on f m → m !! k = Some x → f x' = f x → unique_on f (<[k := x']> m).
Proof.
  rewrite !unique_on_spec. intros Hu Hk Hf i j a b.
  destruct (decide (i = k)) as [->|Hi], (decide (j = k)) as [->|Hj];
    rewrite ?lookup_insert_eq, ?lookup_insert_ne by done; [done|..].
  - intros [= <-] Hb Hab Hn. rewrite Hf in Hab, Hn. eauto.
  - intros Ha [= <-] Hab Hn. rewrite Hf in Hab. eauto.
  - eauto.
Qed.

(** A new row without a key keeps it too. *)
Lemma unique_on_insert {K V A} `{Countable K} `{EqDecision A} (f : V → option A) (m : gmap K V) k x :
  unique_on f m → m !! k = None →
  (∀ j y, m !! j = Some y → f x = f y → f x = None) → unique_on f (<[k := x]> m).
Proof.
  rewrite !unique_on_spec. intros Hu Hk Hf i j a b.
  destruct (decide (i = k)) as [->|Hi], (decide (j = k)) as [->|Hj];
    rewrite ?lookup_insert_eq, ?lookup_insert_ne by done; [done|..].
  - intros [= <-] Hb Hab Hn. destruct Hn. eauto.
  - intros Ha [= <-] Hab Hn. destruct Hn. rewrite Hab. symmetry in Hab. eauto.
  - eauto.
Qed.

Lemma order_checks_remaining o : order_checks o → 0 <= o_remaining_quantity_mt o <= o_quantity_mt o.
Proof. intros (_ & (_ & (? & _) & _) & (? & _) & _). lia. Qed.
