(* ===== verification/Delivery.v ===== *)
(** * Final terms of a delivered trade

    The arithmetic of [app/routers/trades.py]: the price band a final price
    must stay within, and the totals stored with a delivery. *)

From S2P Require Import Prelude Catalog Calendar AvailabilityWindows Decimal Schema Constraints.
Local Open Scope Z_scope.

Definition MAX_FINAL_PRICE_DEVIATION_PCT : decimal := of_int 10.

(** The stored rate, in thousandths of a percent point. *)
Definition of_rate (thousandths : Z) : decimal := MkDecimal thousandths (-3).

Definition _delivery_amounts (quantity price commission_rate_pct : decimal)
    (commission_fee_per_mt_usd : option decimal) : res (decimal * decimal) :=
  total ← quantize (dmul quantity price) (-2) ROUND_HALF_UP;
  commission ← match commission_fee_per_mt_usd with
    | Some fee => quantize (dmul quantity fee) (-2) ROUND_HALF_UP
    | None =>
        share ← ddiv (dmul total commission_rate_pct) (of_int 100);
        quantize share (-2) ROUND_HALF_UP
    end;
  Val (total, commission).

(** [abs(final - traded) / traded * Decimal("100")] *)
Definition price_deviation_pct (final_price price : decimal) : res decimal :=
  ratio ← ddiv (dabs (dsub final_price price)) price;
  Val (dmul ratio (of_int 100)).

(** ** Facts *)

(** A value with at most two decimal places, as the request schemas admit it. *)
Definition amount_within (d : decimal) (lo hi : Z) : Prop := -2 <= expo d ∧ lo <= to_cents d <= hi.

Lemma of_cents_within n lo hi : lo <= n <= hi → amount_within (of_cents n) lo hi.
Proof. intros H. split; [cbn; lia|]. unfold to_cents, coef_at. cbn. lia. Qed.

Lemma dmul_amounts q p hi hi' :
  amount_within q 0 hi → amount_within p 0 hi' → hi * hi' < 10 ^ PREC →
  0 <= coef (dmul q p) ∧ same_value (dmul q p) (MkDecimal (to_cents q * to_cents p) (-4)).
Proof.
  intros [Eq Hq] [Ep Hp] Hmax. unfold to_cents, coef_at in *.
  pose proof (pow10_pos (expo q - -2) ltac:(lia)). pose proof (pow10_pos (expo p - -2) ltac:(lia)).
  assert (0 <= coef q ∧ 0 <= coef p) as [? ?] by nia.
  assert (coef q <= hi ∧ coef p <= hi') as [? ?] by nia.
  assert (0 <= coef q * coef p < 10 ^ PREC) as Hc by nia.
  unfold dmul. rewrite fix_precision_small by (cbn [coef]; lia). cbn [coef expo]. split; [lia|].
  apply (same_value_at _ _ (-4)); [cbn; lia..|]. unfold coef_at. cbn [coef expo].
  replace (expo q + expo p - -4) with ((expo q - -2) + (expo p - -2)) by lia.
  rewrite Z.pow_add_r by lia. change (10 ^ (-4 - -4)) with 1. ring.
Qed.

(** A product of two values, in hundredths. *)
Definition half_up_product (a b : Z) : Z := round_div ROUND_HALF_UP (a * b) 100.

Lemma product_quantized q p :
  amount_within q 0 (cents 100000) → amount_within p 0 (cents 1000000) →
  quantize (dmul q p) (-2) ROUND_HALF_UP = Val (of_cents (half_up_product (to_cents q) (to_cents p))).
Proof.
  intros Hq Hp. destruct (dmul_amounts q p _ _ Hq Hp) as [Hc Hs]; [done|].
  destruct Hq as [_ Hq], Hp as [_ Hp]. unfold cents in *.
  assert (0 <= to_cents q * to_cents p <= 10 ^ 15) as Hab by nia.
  apply (quantize_same_value _ _ (-4)); [done|done|lia..|].
  pose proof (round_div_le ROUND_HALF_UP (to_cents q * to_cents p) 100 (10 ^ 13) ltac:(lia) ltac:(lia)).
  change (10 ^ (-2 - -4)) with 100. lia.
Qed.

(** The commission in hundredths: a fee per tonne, or a share of the total. *)
Definition commission_cents (quantity total rate : Z) (fee : option Z) : Z :=
  match fee with
  | Some f => half_up_product quantity f
  | None => round_div ROUND_HALF_UP (total * rate) 100000
  end.

Lemma commission_quantized q total rate fee :
  amount_within q 0 (cents 100000) → 0 <= total <= 10 ^ 13 → 0 <= rate <= 100000 →
  optional_numeric fee 0 (cents 100000) →
  match of_cents <$> fee with
  | Some fee => quantize (dmul q fee) (-2) ROUND_HALF_UP
  | None =>
      share ← ddiv (dmul (of_cents total) (of_rate rate)) (of_int 100);
      quantize share (-2) ROUND_HALF_UP
  end = Val (of_cents (commission_cents (to_cents q) total rate fee)).
Proof.
  intros Hq Ht Hr Hf. destruct fee as [f|].
  { cbn in Hf. unfold required_numeric, cents in Hf. cbn [fmap option_fmap option_map commission_cents].
    rewrite product_quantized; [by rewrite to_cents_of_cents|done|apply of_cents_within; unfold cents; lia]. }
  cbn [fmap option_fmap option_map commission_cents].
  assert (0 <= total * rate <= 10 ^ 18) as Htr by nia.
  assert (dmul (of_cents total) (of_rate rate) = MkDecimal (total * rate) (-5)) as ->.
  { unfold dmul, of_cents, of_rate. cbn [coef expo]. apply fix_precision_small. cbn [coef]. unfold PREC. lia. }
  destruct (Z.eq_dec (total * rate) 0) as [->|Hne].
  { destruct (ddiv_zero (-5) (of_int 100)) as (d & -> & Hd); [done|]. by apply quantize_zero. }
  pose proof (ddiv_raw (MkDecimal (total * rate) (-5)) (of_int 100) ltac:(cbn; lia) ltac:(done)) as Hd.
  rewrite Hd. cbn [mbind res_bind].
  destruct (ddiv_hundred (total * rate) (-5) _ ltac:(change (10 ^ PREC) with (10 ^ 28); lia) Hd) as [Hd0 Hs].
  apply (quantize_same_value _ (total * rate) (-5 - 2)); [done|done|lia|lia|].
  pose proof (round_div_le ROUND_HALF_UP (total * rate) 100000 (10 ^ 13) ltac:(lia) ltac:(lia)).
  change (10 ^ (-2 - (-5 - 2))) with 100000. lia.
Qed.

(** The amounts fit the columns of the trade row. *)
Section bounds.
Context (q p : decimal) (rate : Z) (fee : option Z).
Context (Hq : amount_within q 0 (cents 100000)) (Hp : amount_within p 0 (cents 1000000)).
Context (Hr : 0 <= rate <= 100000) (Hf : optional_numeric fee 0 (cents 100000)).
#[local] Abbreviation total := (half_up_product (to_cents q) (to_cents p)).

Lemma delivery_total_bounds : 0 <= total <= cents 100000000000.
Proof.
  destruct Hq as [_ Hq'], Hp as [_ Hp']. unfold cents in *.
  split; [apply round_div_ge; nia|apply round_div_le; nia].
Qed.

Lemma commission_bounds :
  0 <= commission_cents (to_cents q) total rate fee <= cents 100000000000
  ∧ (fee = None → commission_cents (to_cents q) total rate fee <= total).
Proof.
  pose proof delivery_total_bounds as Ht. destruct Hq as [_ Hq']. unfold cents in *. unfold commission_cents.
  destruct fee as [f|]; cbn in Hf; unfold required_numeric in *.
  - split; [|done]. split; [apply round_div_ge|apply round_div_le]; nia.
  - assert (round_div ROUND_HALF_UP (total * rate) 100000 <= total) by (apply round_div_le; nia).
    split; [|done]. split; [apply round_div_ge; nia|lia].
Qed.

Lemma delivery_amounts_run :
  _delivery_amounts q p (of_rate rate) (of_cents <$> fee)
  = Val (of_cents total, of_cents (commission_cents (to_cents q) total rate fee)).
Proof.
  pose proof delivery_total_bounds as Ht. unfold cents in Ht.
  unfold _delivery_amounts. rewrite product_quantized by done. cbn [mbind res_bind].
  by rewrite (commission_quantized q _ rate fee) by (done || lia).
Qed.
End bounds.

(** C33: The stored totals of a delivery are exact.  For every final quantity and
    price the request schema admits, however they are written, the total is
    quantity times price rounded half up to whole cents, once; so is the
    commission of a fee per tonne, and a percentage commission is the exact
    share of the stored total rounded once: the 28-digit products, the division
    by a hundred and the quantizing lose nothing and never raise.  Total and
    commission satisfy the bounds the trade row is checked against, and a share
    never exceeds its total. *)
Theorem delivery_amounts_exact q p rate fee :
  amount_within q 0 (cents 100000) → amount_within p 0 (cents 1000000) → 0 <= rate <= 100000 →
  optional_numeric fee 0 (cents 100000) →
  let total := half_up_product (to_cents q) (to_cents p) in
  let commission := commission_cents (to_cents q) total rate fee in
  _delivery_amounts q p (of_rate rate) (of_cents <$> fee) = Val (of_cents total, of_cents commission)
  ∧ total = (2 * (to_cents q * to_cents p) + 100) / 200
  ∧ 0 <= total <= cents 100000000000 ∧ 0 <= commission <= cents 100000000000
  ∧ (fee = None → commission <= total).
Proof.
  intros Hq Hp Hr Hf total commission.
  pose proof (delivery_total_bounds q p Hq Hp). pose proof (commission_bounds q p rate fee Hq Hp Hr Hf) as [? ?].
  split; [by apply delivery_amounts_run|]. split; [|done].
  destruct Hq as [_ Hq], Hp as [_ Hp]. unfold total, half_up_product.
  rewrite round_half_up_floor by nia. reflexivity.
Qed.

Lemma delivery_amounts_exact_witness :
  _delivery_amounts (of_cents 33333) (of_cents 60050) (of_rate 500) None
  = Val (of_cents 20016467, of_cents 100082).
Proof.
  destruct (delivery_amounts_exact (of_cents 33333) (of_cents 60050) 500 None) as [H _];
    [apply of_cents_within; unfold cents; lia..|lia|exact I|].
  exact H.
Defined.

(** The deviation is computed, and compared as the rational one. *)
Lemma price_band_run final_price price :
  amount_within final_price 1 (cents 1000000) → 0 < price <= cents 1000000 →
  ∃ pct, price_deviation_pct final_price (of_cents price) = Val pct
    ∧ dltb MAX_FINAL_PRICE_DEVIATION_PCT pct
      = bool_decide (price < 10 * Z.abs (to_cents final_price - price)).
Proof.
  intros [He Hf] Hp. unfold cents in *. unfold price_deviation_pct. set (final := to_cents final_price) in *.
  assert (dabs (dsub final_price (of_cents price)) = MkDecimal (Z.abs (final - price)) (-2)) as ->.
  { assert (coef_at final_price (-2) = final) as Hfinal by done.
    unfold dsub, dadd, dneg, of_cents, common_expo. cbn [coef expo].
    rewrite Z.min_r, Hfinal by done. unfold coef_at. cbn [coef expo]. rewrite Z.sub_diag, !Z.mul_1_r. rewrite (fix_precision_small (MkDecimal _ _)) by (cbn [coef]; unfold PREC; lia).
    unfold dabs. cbn [coef expo]. rewrite fix_precision_small by (cbn [coef]; unfold PREC; lia). reflexivity. }
  set (gap := Z.abs (final - price)).
  assert (∀ pct, dltb MAX_FINAL_PRICE_DEVIATION_PCT pct = negb (dleb pct (of_int 10))) as Hlt.
  { intros pct. unfold dltb, dleb, dcompare, common_expo, MAX_FINAL_PRICE_DEVIATION_PCT.
    rewrite (Z.min_comm (expo pct)), Z.compare_antisym. by destruct (_ ?= _). }
  destruct (Z.eq_dec gap 0) as [Hz|Hnz].
  { rewrite Hz. destruct (ddiv_zero (-2) (of_cents price)) as (d & -> & Hd); [cbn; lia|].
    eexists. split; [reflexivity|]. rewrite Hlt, bool_decide_eq_false_2 by lia. apply negb_false_iff.
    unfold dmul. rewrite Hd, Z.mul_0_l, fix_precision_small by done. apply dleb_dle.
    unfold dle, coef_at, common_expo. cbn [coef expo of_int].
    pose proof (Z.pow_nonneg 10 (0 - Z.min (expo d + 0) 0)). lia. }
  pose proof (ddiv_raw (MkDecimal gap (-2)) (of_cents price) ltac:(cbn; lia) ltac:(cbn; lia)) as Hd.
  rewrite Hd. eexists. split; [reflexivity|]. rewrite Hlt.
  destruct (percentage_compare gap price _ 10 ltac:(lia) ltac:(lia) ltac:(lia) Hd) as [_ ->].
  rewrite <-bool_decide_not. apply bool_decide_ext. lia.
Qed.

(** The final price band is exact.  The 28-digit deviation of a final price
    exceeds ten percent exactly when ten times the difference exceeds the
    confirmed price: no price inside the band is refused and none outside is
    accepted, whatever the quotient's rounding does. *)
Theorem price_band_exact final_price price :
  amount_within final_price 1 (cents 1000000) → 0 < price <= cents 1000000 →
  ∃ pct, price_deviation_pct final_price (of_cents price) = Val pct
    ∧ dltb MAX_FINAL_PRICE_DEVIATION_PCT pct
      = bool_decide (price < 10 * Z.abs (to_cents final_price - price)).
Proof. apply price_band_run. Qed.

Lemma price_band_exact_witness :
  (∃ pct, price_deviation_pct (of_cents 66000) (of_cents 60000) = Val pct
    ∧ dltb MAX_FINAL_PRICE_DEVIATION_PCT pct = false)
  ∧ ∃ pct, price_deviation_pct (of_cents 66001) (of_cents 60000) = Val pct
    ∧ dltb MAX_FINAL_PRICE_DEVIATION_PCT pct = true.
Proof.
  split; apply price_band_exact; try (apply of_cents_within); unfold cents; lia.
Defined.
