(* ===== verification/NegotiationSchema.v ===== *)
(** * Rows of a negotiation

    [app/models/negotiation.py] and the negotiation clauses of
    [app/market_constraints.py]: a price conversation between two organizations
    about a resting order, and its numbered rounds.  The row timestamps that no
    route branches on are left out, as for the other tables. *)

From S2P Require Import Prelude Schema Constraints.
Local Open Scope Z_scope.

Inductive NegotiationStatus :=
  | NEG_OPEN | NEG_COUNTERED | NEG_AGREED | NEG_DECLINED | NEG_EXPIRED.
#[export] Instance NegotiationStatus_eq_dec : EqDecision NegotiationStatus.
Proof. solve_decision. Defined.
Definition NegotiationStatus_value (x : NegotiationStatus) : string :=
  match x with
  | NEG_OPEN => "OPEN"
  | NEG_COUNTERED => "COUNTERED"
  | NEG_AGREED => "AGREED"
  | NEG_DECLINED => "DECLINED"
  | NEG_EXPIRED => "EXPIRED"
  end.

Record Negotiation := MkNegotiation {
  ng_id : uuid;
  ng_bid_order_id : option uuid;
  ng_ask_order_id : option uuid;
  ng_initiator_org_id : uuid;
  ng_counterparty_org_id : uuid;
  ng_initiator_user_id : option uuid;
  ng_counterparty_user_id : option uuid;
  ng_accepted_by_user_id : option uuid;
  ng_initiator_side : string;
  ng_product_id : uuid;
  ng_delivery_point_id : option uuid;
  ng_availability_window : string;
  ng_quantity_mt : Z;
  ng_current_price : Z;
  ng_status : NegotiationStatus;
  ng_last_actor_org_id : uuid;
  ng_trade_id : option uuid;
  ng_expires_at : datetime;
}.
#[export] Instance Negotiation_eta : Eta Negotiation := λ r,
  MkNegotiation (ng_id r) (ng_bid_order_id r) (ng_ask_order_id r) (ng_initiator_org_id r)
    (ng_counterparty_org_id r) (ng_initiator_user_id r) (ng_counterparty_user_id r)
    (ng_accepted_by_user_id r) (ng_initiator_side r) (ng_product_id r) (ng_delivery_point_id r)
    (ng_availability_window r) (ng_quantity_mt r) (ng_current_price r) (ng_status r)
    (ng_last_actor_org_id r) (ng_trade_id r) (ng_expires_at r).
#[export] Instance Negotiation_eq_dec : EqDecision Negotiation.
Proof. solve_decision. Defined.

Record NegotiationRound := MkNegotiationRound {
  nr_id : uuid;
  nr_negotiation_id : uuid;
  nr_round_number : Z;
  nr_proposer_org_id : uuid;
  nr_proposer_user_id : option uuid;
  nr_proposed_price : Z;
  nr_notes : option string;
}.
#[export] Instance NegotiationRound_eta : Eta NegotiationRound := λ r,
  MkNegotiationRound (nr_id r) (nr_negotiation_id r) (nr_round_number r) (nr_proposer_org_id r)
    (nr_proposer_user_id r) (nr_proposed_price r) (nr_notes r).
#[export] Instance NegotiationRound_eq_dec : EqDecision NegotiationRound.
Proof. solve_decision. Defined.

(** ** Constraints *)

Definition NEGOTIATION_DOMAIN (x : Negotiation) : Prop :=
  ng_initiator_side x ∈ ["BUYER"; "SELLER"] ∧ ng_initiator_org_id x ≠ ng_counterparty_org_id x.
Definition NEGOTIATION_NUMERIC_VALUES (x : Negotiation) : Prop :=
  required_numeric (ng_quantity_mt x) 1 (cents 100000) ∧ required_numeric (ng_current_price x) 1 (cents 1000000).
Definition NEGOTIATION_LIFECYCLE (x : Negotiation) : Prop :=
  (ng_status x = NEG_AGREED ∧ ng_trade_id x ≠ None) ∨ (ng_status x ≠ NEG_AGREED ∧ ng_trade_id x = None).
Definition NEGOTIATION_ROUND_NUMERIC_VALUES (x : NegotiationRound) : Prop :=
  required_numeric (nr_proposed_price x) 1 (cents 1000000).
Definition negotiation_check (x : Negotiation) : Prop :=
  NEGOTIATION_DOMAIN x ∧ NEGOTIATION_NUMERIC_VALUES x ∧ NEGOTIATION_LIFECYCLE x.
#[export] Instance negotiation_check_dec x : Decision (negotiation_check x).
Proof.
  unfold negotiation_check, NEGOTIATION_DOMAIN, NEGOTIATION_NUMERIC_VALUES, NEGOTIATION_LIFECYCLE, required_numeric.
  apply _.
Defined.
#[export] Instance negotiation_round_check_dec x : Decision (NEGOTIATION_ROUND_NUMERIC_VALUES x).
Proof. unfold NEGOTIATION_ROUND_NUMERIC_VALUES, required_numeric. apply _. Defined.

Definition negotiation_active (s : NegotiationStatus) : bool :=
  match s with NEG_OPEN | NEG_COUNTERED => true | _ => false end.

(** [uq_negotiations_active_pair_product]: LEAST and GREATEST of the two parties,
    and the product, of an active row. *)
Definition active_pair_product (x : Negotiation) : option (uuid * uuid * uuid) :=
  if negotiation_active (ng_status x)
  then Some (N.min (ng_initiator_org_id x) (ng_counterparty_org_id x),
             N.max (ng_initiator_org_id x) (ng_counterparty_org_id x), ng_product_id x)
  else None.
(** [uq_neg_rounds_negotiation_round] *)
Definition negotiation_round_key (x : NegotiationRound) : option (uuid * Z) :=
  Some (nr_negotiation_id x, nr_round_number x).
