(* ===== verification/RfqSchema.v ===== *)
(** * Rows of a request for quotation

    [app/models/rfq.py] and the RFQ clauses of [app/market_constraints.py]: a
    buyer asks for a fuel at a place and a window, suppliers answer with one
    price each. *)

From S2P Require Import Prelude Schema Constraints.
Local Open Scope Z_scope.

(** [CANCELLED] is called [RFQ_WITHDRAWN]: [RFQ_CANCELLED] is an audit action. *)
Inductive RFQStatus :=
  | RFQ_OPEN | RFQ_QUOTED | RFQ_ACCEPTED | RFQ_EXPIRED | RFQ_WITHDRAWN.
#[export] Instance RFQStatus_eq_dec : EqDecision RFQStatus.
Proof. solve_decision. Defined.
Definition RFQStatus_value (x : RFQStatus) : string :=
  match x with
  | RFQ_OPEN => "OPEN"
  | RFQ_QUOTED => "QUOTED"
  | RFQ_ACCEPTED => "ACCEPTED"
  | RFQ_EXPIRED => "EXPIRED"
  | RFQ_WITHDRAWN => "CANCELLED"
  end.

Inductive QuoteStatus :=
  | QUOTE_PENDING | QUOTE_ACCEPTED | QUOTE_DECLINED | QUOTE_WITHDRAWN.
#[export] Instance QuoteStatus_eq_dec : EqDecision QuoteStatus.
Proof. solve_decision. Defined.
Definition QuoteStatus_value (x : QuoteStatus) : string :=
  match x with
  | QUOTE_PENDING => "PENDING"
  | QUOTE_ACCEPTED => "ACCEPTED"
  | QUOTE_DECLINED => "DECLINED"
  | QUOTE_WITHDRAWN => "WITHDRAWN"
  end.

Record RFQ := MkRFQ {
  rq_id : uuid;
  rq_buyer_org_id : uuid;
  rq_buyer_user_id : option uuid;
  rq_product_id : uuid;
  rq_delivery_point_id : option uuid;
  rq_quantity_mt : Z;
  rq_target_price_per_mt : option Z;
  rq_availability_window : string;
  rq_notes : option string;
  rq_is_anonymous : bool;
  rq_status : RFQStatus;
  rq_accepted_quote_id : option uuid;
  rq_trade_id : option uuid;
  rq_expires_at : datetime;
  rq_created_at : datetime;
}.
#[export] Instance RFQ_eta : Eta RFQ := λ r,
  MkRFQ (rq_id r) (rq_buyer_org_id r) (rq_buyer_user_id r) (rq_product_id r) (rq_delivery_point_id r)
    (rq_quantity_mt r) (rq_target_price_per_mt r) (rq_availability_window r) (rq_notes r) (rq_is_anonymous r)
    (rq_status r) (rq_accepted_quote_id r) (rq_trade_id r) (rq_expires_at r) (rq_created_at r).
#[export] Instance RFQ_eq_dec : EqDecision RFQ.
Proof. solve_decision. Defined.

Record RFQQuote := MkRFQQuote {
  qt_id : uuid;
  qt_rfq_id : uuid;
  qt_seller_org_id : uuid;
  qt_seller_user_id : option uuid;
  qt_price_per_mt_usd : Z;
  qt_notes : option string;
  qt_status : QuoteStatus;
  qt_created_at : datetime;
}.
#[export] Instance RFQQuote_eta : Eta RFQQuote := λ r,
  MkRFQQuote (qt_id r) (qt_rfq_id r) (qt_seller_org_id r) (qt_seller_user_id r) (qt_price_per_mt_usd r)
    (qt_notes r) (qt_status r) (qt_created_at r).
#[export] Instance RFQQuote_eq_dec : EqDecision RFQQuote.
Proof. solve_decision. Defined.

(** ** Constraints *)

Definition RFQ_NUMERIC_VALUES (x : RFQ) : Prop :=
  required_numeric (rq_quantity_mt x) 1 (cents 100000) ∧ optional_numeric (rq_target_price_per_mt x) 1 (cents 1000000).
Definition RFQ_LIFECYCLE (x : RFQ) : Prop :=
  (rq_status x = RFQ_ACCEPTED ∧ rq_accepted_quote_id x ≠ None ∧ rq_trade_id x ≠ None)
  ∨ (rq_status x ≠ RFQ_ACCEPTED ∧ rq_accepted_quote_id x = None ∧ rq_trade_id x = None).
Definition rfq_check (x : RFQ) : Prop := RFQ_NUMERIC_VALUES x ∧ RFQ_LIFECYCLE x.
#[export] Instance rfq_check_dec x : Decision (rfq_check x).
Proof. unfold rfq_check, RFQ_NUMERIC_VALUES, RFQ_LIFECYCLE, required_numeric. apply _. Defined.
Definition RFQ_QUOTE_NUMERIC_VALUES (x : RFQQuote) : Prop :=
  required_numeric (qt_price_per_mt_usd x) 1 (cents 1000000).
#[export] Instance rfq_quote_check_dec x : Decision (RFQ_QUOTE_NUMERIC_VALUES x).
Proof. unfold RFQ_QUOTE_NUMERIC_VALUES, required_numeric. apply _. Defined.

(** [uq_rfq_quotes_rfq_seller] *)
Definition rfq_quote_key (x : RFQQuote) : option (uuid * uuid) := Some (qt_rfq_id x, qt_seller_org_id x).
