(* ===== verification/Database.v ===== *)
(** * The database session

    [app/database.py] and the parts of SQLAlchemy the services use.  A
    [Database] is the content of the tables; a [World] is one request's
    session: its view of the database ([db]), the last committed content
    ([committed]), the clock, the configuration and the locks taken.

    The session's identity map and pending changes are one store here: every
    query of the modelled services that filters on a changed column runs after
    a [flush], except where a row is read again over its object
    ([OrganizationRejection], which keeps the unflushed object as a local value).
    [flush] is where PostgreSQL checks the rows ([Constraints]);
    [commit] flushes and publishes; a request that raises never commits
    ([get_db] rolls back).  Foreign keys are not modelled.  [uuid4()] is the
    least unused id of the table it is drawn for. *)

From S2P Require Import Prelude Catalog Calendar AvailabilityWindows Schema Constraints NegotiationSchema RfqSchema.

Record Database := MkDatabase {
  orders : gmap uuid Order;
  trades : gmap uuid Trade;
  inventory : gmap uuid InventoryItem;
  users : gmap uuid User;
  organizations : gmap uuid Organization;
  products : gmap uuid Product;
  delivery_points : gmap uuid DeliveryPoint;
  subscriptions : gmap uuid Subscription;
  referrals : gmap uuid Referral;
  watchlist_targets : gmap uuid WatchlistTarget;
  command_results : gmap uuid MarketCommandResult;
  benchmarks : gmap uuid LiveSliceBenchmark;
  ports : gmap string Port;
  watchlist_events : list WatchlistEvent;
  notifications : list Notification;
  audit_logs : list AuditLog;
  outbox : list MarketEventOutbox;
  staff_capabilities : gmap uuid StaffCapabilityAssignment;
  support_contexts : gmap uuid MarketSupportContext;
  support_authorizations : gmap uuid MarketSupportAuthorization;
  negotiations : gmap uuid Negotiation;
  negotiation_rounds : gmap uuid NegotiationRound;
  rfqs : gmap uuid RFQ;
  rfq_quotes : gmap uuid RFQQuote;
}.
#[export] Instance Database_eta : Eta Database := λ r,
  MkDatabase (orders r) (trades r) (inventory r) (users r) (organizations r) (products r)
    (delivery_points r) (subscriptions r) (referrals r) (watchlist_targets r)
    (command_results r) (benchmarks r) (ports r) (watchlist_events r) (notifications r)
    (audit_logs r) (outbox r) (staff_capabilities r) (support_contexts r) (support_authorizations r)
    (negotiations r) (negotiation_rounds r) (rfqs r) (rfq_quotes r).

Definition empty_database : Database :=
  MkDatabase ∅ ∅ ∅ ∅ ∅ ∅ ∅ ∅ ∅ ∅ ∅ ∅ ∅ [] [] [] [] ∅ ∅ ∅ ∅ ∅ ∅ ∅.

(** ** Configuration ([app/config.py]): the two platform fees, in hundredths of
    USD per tonne, and the switches the market routes read *)
Record Settings := MkSettings {
  SELLER_FEE_PILOT_PER_MT_USD : Z;
  SELLER_FEE_PROFESSIONAL_PER_MT_USD : Z;
  AUTO_MATCHING_ENABLED : bool;
  MARKET_SUPPORT_ENABLED : bool;
  MARKET_SUPPORT_CONSENT_VERSION : string;
  MARKET_SUPPORT_CONSENT_REFERENCE : string;
  MARKET_SUPPORT_CONTEXT_TTL_MINUTES : Z;
  MARKET_SUPPORT_BOOTSTRAP_ADMIN_USER_IDS : string;
}.
Definition default_settings : Settings := MkSettings 200 150 true false "v1" "market-support/v1" 60 "".
Definition settings_valid (c : Settings) : Prop :=
  (0 ≤ SELLER_FEE_PILOT_PER_MT_USD c ≤ cents 100000
   ∧ 0 ≤ SELLER_FEE_PROFESSIONAL_PER_MT_USD c ≤ cents 100000)%Z.

(** ** Locks, in the order they are taken *)
Inductive lock :=
  | AdvisoryIdempotency (scope : uuid) (operation key : string)
  | AdvisorySlice (product_id : uuid) (delivery_point_id : option uuid) (window : string)
  | RowOrders (ids : list uuid)
  | RowTrade (id : uuid)
  | RowTrades (ids : list uuid)
  | RowInventory (ids : list uuid)
  | RowUsers (ids : list uuid)
  | RowCapability (user : uuid) (capability : MarketSupportCapability)
  | RowSupportContext (id : uuid)
  | RowNegotiation (id : uuid)
  | RowNegotiationRounds (ids : list uuid)
  | RowRfq (id : uuid)
  | RowRfqQuotes (ids : list uuid)
  | RowOrganizations (ids : list uuid).
#[export] Instance lock_eq_dec : EqDecision lock.
Proof. solve_decision. Defined.

(** What a session reads as the time: [datetime.now] at each of its readings, and
    PostgreSQL's [now()], the time its transaction began. *)
Record Clocks := MkClocks {
  now_at :> nat → datetime;
  transaction_begun : datetime;
}.

Record World := MkWorld {
  db : Database;
  committed : Database;
  clock : Clocks;
  clock_reads : nat;
  settings : Settings;
  locks : list lock;
  acceptance_ordinal_seq : Z;
}.
#[export] Instance World_eta : Eta World := λ w,
  MkWorld (db w) (committed w) (clock w) (clock_reads w) (settings w) (locks w)
    (acceptance_ordinal_seq w).

Definition transaction_time (w : World) : datetime := transaction_begun (clock w).

(** ** What the database checks when rows are flushed *)

Definition unique_checks (d : Database) : Prop :=
  unique_on order_idempotency_key (orders d)
  ∧ unique_on (λ o, Some (o_acceptance_ordinal o)) (orders d)
  ∧ unique_on o_support_authorization_id (orders d)
  ∧ unique_on trade_idempotency_key (trades d)
  ∧ unique_on command_result_key (command_results d).

Definition support_checks (d : Database) : Prop :=
  map_Forall (λ _ x, support_context_check x) (support_contexts d)
  ∧ map_Forall (λ _ x, support_authorization_check x) (support_authorizations d)
  ∧ unique_on active_support_actor (support_contexts d)
  ∧ unique_on support_authorization_key (support_authorizations d)
  ∧ unique_on capability_key (staff_capabilities d).

Definition negotiation_checks (d : Database) : Prop :=
  map_Forall (λ _ x, negotiation_check x) (negotiations d)
  ∧ map_Forall (λ _ x, NEGOTIATION_ROUND_NUMERIC_VALUES x) (negotiation_rounds d)
  ∧ unique_on active_pair_product (negotiations d)
  ∧ unique_on negotiation_round_key (negotiation_rounds d).

Definition rfq_checks (d : Database) : Prop :=
  map_Forall (λ _ x, rfq_check x) (rfqs d)
  ∧ map_Forall (λ _ x, RFQ_QUOTE_NUMERIC_VALUES x) (rfq_quotes d)
  ∧ unique_on rfq_quote_key (rfq_quotes d).

(** The tables beside the market's own. *)
Definition side_checks (d : Database) : Prop := support_checks d ∧ negotiation_checks d ∧ rfq_checks d.

Definition database_checks (d : Database) : Prop :=
  map_Forall (λ _ o, order_checks o) (orders d)
  ∧ map_Forall (λ _ t, trade_checks t) (trades d)
  ∧ map_Forall (λ _ i, INVENTORY_NUMERIC_VALUES i) (inventory d)
  ∧ map_Forall (λ _ r, command_result_check r) (command_results d)
  ∧ map_Forall (λ _ s, subscription_check s) (subscriptions d)
  ∧ unique_checks d ∧ side_checks d.
#[export] Instance database_checks_dec d : Decision (database_checks d).
Proof. unfold database_checks, unique_checks, side_checks, support_checks, negotiation_checks, rfq_checks. apply _. Defined.

(** The tables hold rows under their own ids. *)
Definition keyed (d : Database) : Prop :=
  map_Forall (λ k o, o_id o = k) (orders d)
  ∧ map_Forall (λ k t, t_id t = k) (trades d)
  ∧ map_Forall (λ k i, i_id i = k) (inventory d)
  ∧ map_Forall (λ k g, g_id g = k) (organizations d)
  ∧ map_Forall (λ k u, u_id u = k) (users d)
  ∧ map_Forall (λ k p, p_id p = k) (products d)
  ∧ map_Forall (λ k x, sx_id x = k) (support_contexts d)
  ∧ map_Forall (λ k x, d_id x = k) (delivery_points d).

(** ** Session operations *)

Definition get_db : M World Database := gets db.

(** PostgreSQL's [now()]: when the transaction began. *)
Definition db_now : M World datetime := gets transaction_time.

(** The sequence [orderbook_acceptance_ordinal_seq]: each [nextval] is above all
    earlier ones, also those of transactions that were rolled back. *)
Definition nextval : M World Z := λ w,
  let value := (acceptance_ordinal_seq w + 1)%Z in
  Ok value (w <| acceptance_ordinal_seq := value |>).

(** [datetime.now(UTC)] *)
Definition utcnow : M World datetime := λ w,
  Ok (clock w (clock_reads w)) (w <| clock_reads := S (clock_reads w) |>).

Definition take_lock (l : lock) : M World unit :=
  modify (λ w, w <| locks := locks w ++ [l] |>).

Definition flush : M World unit := λ w,
  refuse (negb (bool_decide (database_checks (db w)))) (IntegrityError "check or unique constraint") w.

Definition commit : M World unit :=
  flush ;; modify (λ w, w <| committed := db w |>).

Definition rollback : M World unit := modify (λ w, w <| db := committed w |>).

(** The least id above every id of the table. *)
Definition fresh_id {V} (m : gmap uuid V) : uuid :=
  map_fold (λ k _ acc, N.max (N.succ k) acc) 0%N m.

Definition put_order (x : Order) : M World unit :=
  modify (λ w, w <| db := (db w) <| orders := <[ o_id x := x ]> (orders (db w)) |> |>).
Definition put_trade (x : Trade) : M World unit :=
  modify (λ w, w <| db := (db w) <| trades := <[ t_id x := x ]> (trades (db w)) |> |>).
Definition put_item (x : InventoryItem) : M World unit :=
  modify (λ w, w <| db := (db w) <| inventory := <[ i_id x := x ]> (inventory (db w)) |> |>).
Definition put_user (x : User) : M World unit :=
  modify (λ w, w <| db := (db w) <| users := <[ u_id x := x ]> (users (db w)) |> |>).
Definition put_organization (x : Organization) : M World unit :=
  modify (λ w, w <| db := (db w) <| organizations := <[ g_id x := x ]> (organizations (db w)) |> |>).
Definition put_referral (x : Referral) : M World unit :=
  modify (λ w, w <| db := (db w) <| referrals := <[ r_id x := x ]> (referrals (db w)) |> |>).
Definition put_target (x : WatchlistTarget) : M World unit :=
  modify (λ w, w <| db := (db w) <| watchlist_targets := <[ w_id x := x ]> (watchlist_targets (db w)) |> |>).
Definition put_command_result (x : MarketCommandResult) : M World unit :=
  modify (λ w, w <| db := (db w) <| command_results := <[ cr_id x := x ]> (command_results (db w)) |> |>).
Definition put_benchmark (x : LiveSliceBenchmark) : M World unit :=
  modify (λ w, w <| db := (db w) <| benchmarks := <[ b_id x := x ]> (benchmarks (db w)) |> |>).
Definition put_capability (x : StaffCapabilityAssignment) : M World unit :=
  modify (λ w, w <| db := (db w) <| staff_capabilities := <[ sc_id x := x ]> (staff_capabilities (db w)) |> |>).
Definition put_support_context (x : MarketSupportContext) : M World unit :=
  modify (λ w, w <| db := (db w) <| support_contexts := <[ sx_id x := x ]> (support_contexts (db w)) |> |>).
Definition put_support_authorization (x : MarketSupportAuthorization) : M World unit :=
  modify (λ w, w <| db := (db w) <| support_authorizations := <[ sa_id x := x ]> (support_authorizations (db w)) |> |>).
Definition put_negotiation (x : Negotiation) : M World unit :=
  modify (λ w, w <| db := (db w) <| negotiations := <[ ng_id x := x ]> (negotiations (db w)) |> |>).
Definition put_round (x : NegotiationRound) : M World unit :=
  modify (λ w, w <| db := (db w) <| negotiation_rounds := <[ nr_id x := x ]> (negotiation_rounds (db w)) |> |>).
Definition put_rfq (x : RFQ) : M World unit :=
  modify (λ w, w <| db := (db w) <| rfqs := <[ rq_id x := x ]> (rfqs (db w)) |> |>).
Definition put_quote (x : RFQQuote) : M World unit :=
  modify (λ w, w <| db := (db w) <| rfq_quotes := <[ qt_id x := x ]> (rfq_quotes (db w)) |> |>).
Definition add_watchlist_event (x : WatchlistEvent) : M World unit :=
  modify (λ w, w <| db := (db w) <| watchlist_events := watchlist_events (db w) ++ [x] |> |>).
Definition add_notification (x : Notification) : M World unit :=
  modify (λ w, w <| db := (db w) <| notifications := notifications (db w) ++ [x] |> |>).
Definition add_audit_log (x : AuditLog) : M World unit :=
  modify (λ w, w <| db := (db w) <| audit_logs := audit_logs (db w) ++ [x] |> |>).
Definition add_outbox (x : MarketEventOutbox) : M World unit :=
  modify (λ w, w <| db := (db w) <| outbox := outbox (db w) ++ [x] |> |>).
Definition delete_benchmark (id : uuid) : M World unit :=
  modify (λ w, w <| db := (db w) <| benchmarks := delete id (benchmarks (db w)) |> |>).

(** ** Attributes an order reads through its relationships

    Products and delivery points are selectin-loaded with the order. *)

Section relationships.
Context (d : Database).

Definition order_product (o : Order) : option Product := products d !! o_product_id o.
Definition order_delivery_point (o : Order) : option DeliveryPoint :=
  dp ← o_delivery_point_id o; delivery_points d !! dp.

Definition order_fuel_type (o : Order) : string := default "" (p_fuel_type <$> order_product o).
Definition order_fuel_grade (o : Order) : string :=
  default "Conventional" (p_fuel_grade <$> order_product o).
Definition order_market_product (o : Order) : option string :=
  p ← order_product o; p_market_product p.
Definition order_region (o : Order) : string := default "" (d_region <$> order_delivery_point o).
Definition order_product_name (o : Order) : string := default "" (p_name <$> order_product o).
Definition order_delivery_point_name (o : Order) : option string :=
  d_name <$> order_delivery_point o.
End relationships.

(** ** Facts *)

Lemma fresh_id_above {V} (m : gmap uuid V) k v : m !! k = Some v → (k < fresh_id m)%N.
Proof.
  unfold fresh_id. revert k v.
  apply (map_fold_weak_ind (λ acc m, ∀ k v, m !! k = Some v → (k < acc)%N)).
  - intros k v. by rewrite lookup_empty.
  - intros i x m' acc Hi IH k v. destruct (decide (i = k)) as [->|].
    + intros _. lia.
    + rewrite lookup_insert_ne by done. intros Hk. specialize (IH k v Hk). lia.
Qed.

Lemma fresh_id_none {V} (m : gmap uuid V) : m !! fresh_id m = None.
Proof.
  destruct (m !! fresh_id m) eqn:H; [|done]. pose proof (fresh_id_above m _ _ H). lia.
Qed.

Lemma flush_ok w u w' : flush w = Ok u w' → w' = w ∧ database_checks (db w).
Proof.
  unfold flush. intros [Hb ->]%refuse_ok. by rewrite negb_false_iff, bool_decide_eq_true in Hb.
Qed.

Lemma flush_run w : database_checks (db w) → flush w = Ok tt w.
Proof. intros H. unfold flush. by rewrite bool_decide_eq_true_2 by done. Qed.

Lemma commit_run w : database_checks (db w) → commit w = Ok tt (w <| committed := db w |>).
Proof. intros H. unfold commit. by erewrite bind_run by (by apply flush_run). Qed.

Lemma commit_outcome w :
  match commit w with Ok _ w' => w' = w <| committed := db w |> | Raise _ w' => w' = w end.
Proof. unfold commit, flush, mbind, M_bind, refuse. by destruct (negb _). Qed.

Lemma wp_utcnow Q E w :
  Q (clock w (clock_reads w)) (w <| clock_reads := S (clock_reads w) |>) → wp utcnow Q E w.
Proof. done. Qed.

Lemma wp_flush Q E w : database_checks (db w) → Q tt w → wp flush Q E w.
Proof. intros Hc HQ. unfold wp. by rewrite flush_run. Qed.

(** ** Writing a row of a checked database *)

Lemma checks_put_order d k o o' :
  database_checks d → orders d !! k = Some o → order_checks o' →
  order_idempotency_key o' = order_idempotency_key o →
  o_acceptance_ordinal o' = o_acceptance_ordinal o →
  o_support_authorization_id o' = o_support_authorization_id o →
  database_checks (d <| orders := <[ k := o' ]> (orders d) |>).
Proof.
  intros (H1 & H2 & H3 & H4 & H5 & (U1 & U2 & U3 & U4 & U5) & S) Hk Hc E1 E2 E3.
  unfold database_checks, unique_checks. cbn. split_and!; try done.
  - by apply map_Forall_insert_2.
  - by eapply unique_on_update.
  - eapply unique_on_update; [done..|]. by rewrite E2.
  - by eapply unique_on_update.
Qed.

Lemma checks_put_trade d k t t' :
  database_checks d → trades d !! k = Some t → trade_checks t' →
  trade_idempotency_key t' = trade_idempotency_key t →
  database_checks (d <| trades := <[ k := t' ]> (trades d) |>).
Proof.
  intros (H1 & H2 & H3 & H4 & H5 & (U1 & U2 & U3 & U4 & U5) & S) Hk Hc E1.
  unfold database_checks, unique_checks. cbn. split_and!; try done.
  - by apply map_Forall_insert_2.
  - by eapply unique_on_update.
Qed.

Lemma checks_new_trade d k t' :
  database_checks d → trades d !! k = None → trade_checks t' →
  (∀ j t, trades d !! j = Some t → trade_idempotency_key t' = trade_idempotency_key t →
          trade_idempotency_key t' = None) →
  database_checks (d <| trades := <[ k := t' ]> (trades d) |>).
Proof.
  intros (H1 & H2 & H3 & H4 & H5 & (U1 & U2 & U3 & U4 & U5) & S) Hk Hc E1.
  unfold database_checks, unique_checks. cbn. split_and!; try done.
  - by apply map_Forall_insert_2.
  - by apply unique_on_insert.
Qed.

Lemma checks_put_item d k i :
  database_checks d → INVENTORY_NUMERIC_VALUES i →
  database_checks (d <| inventory := <[ k := i ]> (inventory d) |>).
Proof.
  intros (H1 & H2 & H3 & H4 & H5 & U & S) Hi. unfold database_checks. cbn. split_and!; try done.
  by apply map_Forall_insert_2.
Qed.

(** The session primitives a run is made of. *)
Ltac inv_run_hook H ::=
  lazymatch type of H with
  | take_lock _ _ = Ok _ _ => unfold take_lock in H; inversion H; try subst; clear H
  | get_db _ = Ok _ _ => inversion H; try subst; clear H
  | utcnow _ = Ok _ _ => inversion H; try subst; clear H
  | put_order _ _ = Ok _ _ => inversion H; try subst; clear H
  | put_trade _ _ = Ok _ _ => inversion H; try subst; clear H
  | put_item _ _ = Ok _ _ => inversion H; try subst; clear H
  | flush _ = Ok _ _ =>
      let Hc := fresh "Hchecks" in apply flush_ok in H as [? Hc]; try subst
  | _ => idtac
  end.

(** Reading, locking and flushing leave the tables as they are. *)
Definition reads : relation World := λ w w',
  db w' = db w ∧ committed w' = committed w ∧ settings w' = settings w ∧ clock w' = clock w.
#[export] Instance reads_preorder : PreOrder reads.
Proof.
  split; [by repeat split|]. unfold reads. intros a b c ? ?. destruct_and!. split_and!; congruence.
Qed.

Lemma reads_utcnow : Keeps reads utcnow.
Proof. by repeat split. Qed.
Lemma reads_take_lock l : Keeps reads (take_lock l).
Proof. by repeat split. Qed.
Lemma reads_flush : Keeps reads flush.
Proof. intros w. unfold flush, refuse. by destruct (negb _). Qed.
Lemma reads_get_db : Keeps reads get_db.
Proof. by repeat split. Qed.
Lemma reads_nextval : Keeps reads nextval.
Proof. by repeat split. Qed.
#[export] Hint Resolve reads_nextval reads_utcnow reads_take_lock reads_flush reads_get_db : keeps.

Lemma reads_ok {A} (m : M World A) w a w' :
  Keeps reads m → m w = Ok a w' →
  db w' = db w ∧ committed w' = committed w ∧ settings w' = settings w ∧ clock w' = clock w.
Proof. intros Hm. apply (keeps_ok reads m w a w' Hm). Qed.

(** A read first: either it raises, or the run goes on over the same tables. *)
Lemma reads_bind {A B} (m : M World A) (k : A → M World B) (P : outcome World B → Prop) w :
  Keeps reads m → (∀ e w1, reads w w1 → P (Raise e w1)) →
  (∀ a w1, m w = Ok a w1 → reads w w1 → P (k a w1)) → P ((m ≫= k) w).
Proof. apply frame_bind. Qed.

(** Rolling back a session that has changed nothing reads, too. *)
Definition synced (w : World) : Prop := committed w = db w.
Definition reads_synced : relation World := λ w w', synced w → reads w w'.
#[export] Instance reads_synced_preorder : PreOrder reads_synced.
Proof.
  split; [by intros w _|]. intros a b c Hab Hbc Ha. pose proof (Hab Ha) as Hr. etrans; [exact Hr|].
  apply Hbc. unfold synced, reads in *. destruct_and!. congruence.
Qed.
Lemma keeps_reads_synced {A} (m : M World A) : Keeps reads m → Keeps reads_synced m.
Proof. intros H w _. apply H. Qed.
#[export] Hint Extern 5 (Keeps reads_synced _) =>
  apply keeps_reads_synced; solve [eauto 3 with keeps] : keeps.
Lemma rollback_reads_synced : Keeps reads_synced rollback.
Proof. intros w Hw. by repeat split. Qed.
#[export] Hint Resolve rollback_reads_synced : keeps.

(** Nothing but [commit] changes what other sessions see. *)
Definition uncommitted : relation World := λ w w', committed w' = committed w.
#[export] Instance uncommitted_preorder : PreOrder uncommitted.
Proof. split; [done|]. unfold uncommitted. intros a b c. congruence. Qed.

Lemma uncommitted_utcnow : Keeps uncommitted utcnow.
Proof. done. Qed.
Lemma uncommitted_take_lock l : Keeps uncommitted (take_lock l).
Proof. done. Qed.
Lemma uncommitted_flush : Keeps uncommitted flush.
Proof. intros w. unfold flush, refuse. by destruct (negb _). Qed.
Lemma uncommitted_rollback : Keeps uncommitted rollback.
Proof. done. Qed.
#[export] Hint Resolve uncommitted_utcnow uncommitted_take_lock uncommitted_flush
  uncommitted_rollback : keeps.

(** .. nor does anything change the clocks of the session. *)
Definition unmoved : relation World := λ w w', committed w' = committed w ∧ clock w' = clock w.
#[export] Instance unmoved_preorder : PreOrder unmoved.
Proof. split; [done|]. unfold unmoved. intros a b c [] []. split; congruence. Qed.
Lemma keeps_reads_unmoved {A} (m : M World A) : Keeps reads m → Keeps unmoved m.
Proof. intros H w. destruct (H w) as (_ & ? & _ & ?). by split. Qed.
#[export] Hint Extern 5 (Keeps unmoved _) => apply keeps_reads_unmoved; solve [eauto 3 with keeps] : keeps.
