(* ===== verification/MarketTransactions.v ===== *)
(** * Bounded retries of a transaction

    [app/services/market_transactions.py]: a route that fails on a serialization
    failure or a deadlock is rolled back and run again, a fixed number of times.
    Of the errors of the model only the retry marker of [Invalidation] carries a
    retryable state: the database's own come from waiting, which is not modelled. *)

From S2P Require Import Prelude Catalog Calendar AvailabilityWindows Schema Constraints Database.

Definition RETRYABLE_MARKET_SQLSTATES : list string := ["40001"; "40P01"].
Definition DEFAULT_MARKET_TRANSACTION_ATTEMPTS : nat := 2.

Definition is_retryable_market_transaction_error (error : exn) : bool :=
  match error with
  | RetryableMarketTransactionError sqlstate => bool_decide (sqlstate ∈ RETRYABLE_MARKET_SQLSTATES)
  | _ => false
  end.

(** [await db.refresh(current_user)] *)
Definition refresh_user (user : User) : M World User :=
  d ← get_db;
  match users d !! u_id user with
  | Some user' => mret user'
  | None => raise (RuntimeError (Msg "user is not persistent within this session"))
  end.

Definition serialization_failed : exn :=
  HTTPException 503 (Msg "Market transaction serialization failed; retry the request").

Section retry.
Context {A : Type} (function : User → M World A).

(** One attempt, with so many more to come. *)
Fixpoint attempt (more : nat) (current_user : User) : M World A := λ w,
  match function current_user w with
  | Raise e w' =>
      if is_retryable_market_transaction_error e then
        (rollback ;;
         match more with
         | O => raise serialization_failed
         | S more => user ← refresh_user current_user; attempt more user
         end) w'
      else Raise e w'
  | o => o
  end.

Definition retry_market_transaction (max_attempts : nat) (current_user : User) : M World A :=
  refuse (bool_decide (max_attempts < 1 ∨ 3 < max_attempts)%nat)
    (ValueError (Msg "market transaction attempts must be between 1 and 3")) ;;
  attempt (pred max_attempts) current_user.

(** ** The result is that of one attempt, over the committed tables *)

(** An attempt to rerun leaves nothing committed. *)
Definition reruns_clean : Prop :=
  ∀ u w e w', function u w = Raise e w' → is_retryable_market_transaction_error e = true → unmoved w w'.

(** The session a rerun starts from. *)
Definition rerun_of (u : User) (w : World) (u' : User) (w' : World) : Prop :=
  synced w' ∧ unmoved w w' ∧ users (db w') !! u_id u = Some u'.

Inductive attempted (u : User) (w : World) : outcome World A → Prop :=
  | attempted_once : attempted u w (function u w)
  | attempted_again u' w' : rerun_of u w u' w' → attempted u w (function u' w')
  | attempts_exhausted w' : synced w' → committed w' = committed w → attempted u w (Raise serialization_failed w')
  | attempts_orphaned e w' : synced w' → committed w' = committed w → attempted u w (Raise e w').

Lemma attempt_attempted more u w :
  map_Forall (λ k x, u_id x = k) (users (committed w)) → reruns_clean → attempted u w (attempt more u w).
Proof.
  intros Hk Hclean. revert u w Hk. induction more as [|more IH]; intros u w Hk; cbn [attempt];
    pose proof (attempted_once u w) as Honce; destruct (function u w) as [a w1|e w1] eqn:Hf; try exact Honce;
    destruct (is_retryable_market_transaction_error e) eqn:He; try exact Honce;
    pose proof (Hclean u w e w1 Hf He) as [Hc Hclk]; set (w2 := w1 <| db := committed w1 |>);
    (assert (synced w2) as Hs by done); (assert (committed w2 = committed w) as Hc2 by exact Hc); (assert (clock w2 = clock w) as Hk2 by exact Hclk);
    erewrite bind_run by reflexivity; fold w2.
  { by apply attempts_exhausted. }
  unfold refresh_user. destruct (users (db w2) !! u_id u) as [u'|] eqn:Hu.
  - erewrite bind_run by (erewrite bind_run by reflexivity; by rewrite Hu).
    rewrite <-Hc2 in Hk. pose proof (Hk (u_id u) u') as Hid. rewrite Hs in Hid. specialize (Hid Hu). cbn in Hid.
    destruct (IH u' w2 Hk) as [|u'' w' (Hs' & [Hc' Hk'] & Hu')| |].
    + apply attempted_again. by split_and!.
    + apply attempted_again. split_and!; [done|split; congruence|]. by rewrite <-Hid.
    + apply attempts_exhausted; [done|congruence].
    + apply attempts_orphaned; [done|congruence].
  - erewrite bind_raise by (erewrite bind_run by reflexivity; by rewrite Hu). by apply attempts_orphaned.
Qed.

Lemma retry_attempted n u w :
  (1 <= n <= 3)%nat → map_Forall (λ k x, u_id x = k) (users (committed w)) → reruns_clean →
  attempted u w (retry_market_transaction n u w).
Proof.
  intros Hn Hk Hclean. unfold retry_market_transaction. rewrite bool_decide_eq_false_2 by lia.
  erewrite bind_run by reflexivity. by apply attempt_attempted.
Qed.

(** A function that raises no retryable error runs once. *)
Lemma retry_transparent n u w :
  (1 <= n <= 3)%nat →
  (∀ e w', function u w = Raise e w' → is_retryable_market_transaction_error e = false) →
  retry_market_transaction n u w = function u w.
Proof.
  intros Hn He. unfold retry_market_transaction. rewrite bool_decide_eq_false_2 by lia.
  erewrite bind_run by reflexivity. destruct (pred n); cbn [attempt];
    (destruct (function u w) as [a w1|e w1]; [done|]); by rewrite (He e w1 eq_refl).
Qed.
End retry.
