(* ===== verification/Queries.v ===== *)
(** * Ordered queries over the order table

    [SELECT .. WHERE p ORDER BY r]: the rows a filter selects, in a total order
    that the acceptance ordinal or the id makes strict.  Selecting a prefix
    again by its ids, under the lock, gives the same rows: the preview and lock
    pattern of the matching engine and of the expiry sweep. *)

From S2P Require Import Prelude Catalog Calendar AvailabilityWindows Schema Constraints Database.

Definition select_orders (R : relation Order) `{!RelDecision R} (d : Database) (p : Order → bool)
    : list Order :=
  merge_sort R (filter (λ o, p o = true) (snd <$> map_to_list (orders d))).

Definition orders_keyed (d : Database) : Prop := map_Forall (λ k o, o_id o = k) (orders d).

Lemma keyed_orders d : keyed d → orders_keyed d.
Proof. by intros (? & _). Qed.

Section selection.
Context (d : Database) (Hkeyed : orders_keyed d).
Context (R : relation Order) `{!RelDecision R}.

Lemma elem_of_table o : o ∈ snd <$> map_to_list (orders d) ↔ orders d !! o_id o = Some o.
Proof.
  rewrite list_elem_of_fmap. split.
  - intros ([k o'] & -> & Hin%elem_of_map_to_list). cbn. by rewrite (Hkeyed _ _ Hin).
  - intros Ho. exists (o_id o, o). by rewrite elem_of_map_to_list.
Qed.

Lemma table_ids_NoDup : NoDup (o_id <$> (snd <$> map_to_list (orders d))).
Proof.
  rewrite <-list_fmap_compose.
  rewrite (list_fmap_ext (o_id ∘ snd) fst (map_to_list (orders d)));
    [apply NoDup_fst_map_to_list|].
  intros i [k o] Hin%list_elem_of_lookup_2%elem_of_map_to_list. by apply Hkeyed in Hin.
Qed.

Lemma elem_of_selected p o : o ∈ select_orders R d p ↔ orders d !! o_id o = Some o ∧ p o = true.
Proof.
  unfold select_orders. rewrite merge_sort_Permutation, list_elem_of_filter, elem_of_table. tauto.
Qed.

Lemma selected_NoDup p : NoDup (o_id <$> select_orders R d p).
Proof.
  unfold select_orders. rewrite merge_sort_Permutation.
  eapply sublist_NoDup; [apply table_ids_NoDup|]. apply fmap_sublist, sublist_filter.
Qed.

Lemma selected_ids_inj p a b :
  a ∈ select_orders R d p → b ∈ select_orders R d p → o_id a = o_id b → a = b.
Proof. rewrite !elem_of_selected. intros [Ha _] [Hb _] Hab. rewrite Hab in Ha. congruence. Qed.

Context `{!Transitive R, !Total R} (Hanti : ∀ a b, R a b → R b a → o_id a = o_id b).

Lemma selected_sorted p : StronglySorted R (select_orders R d p).
Proof. apply StronglySorted_merge_sort; apply _. Qed.

(** Selecting the first [k] rows again, by id, under the same filter. *)
Lemma selected_reselect p k :
  select_orders R d (λ o, bool_decide (o_id o ∈ o_id <$> take k (select_orders R d p)) && p o)
  = take k (select_orders R d p).
Proof.
  set (c := take k (select_orders R d p)).
  assert (∀ x, x ∈ c → x ∈ select_orders R d p) as Hsub.
  { intros x Hx. rewrite <-(take_drop k (select_orders R d p)). apply elem_of_app. by left. }
  assert (∀ x, x ∈ select_orders R d (λ o, bool_decide (o_id o ∈ o_id <$> c) && p o) ↔ x ∈ c) as Hmem.
  { intros x. rewrite elem_of_selected, andb_true_iff, bool_decide_eq_true. split.
    - intros (Hx & (y & Hid & Hy)%list_elem_of_fmap & Hp).
      rewrite (selected_ids_inj p x y); [done| |by apply Hsub|done].
      by apply elem_of_selected.
    - intros Hx. pose proof (Hsub x Hx) as [Ho Hp]%elem_of_selected.
      split_and!; [done| |done]. apply list_elem_of_fmap. eauto. }
  apply (StronglySorted_unique_strong R).
  - intros a b Ha%Hmem Hb Hab Hba. apply (selected_ids_inj p); auto.
  - apply selected_sorted.
  - eapply StronglySorted_app_1_l. unfold c. rewrite take_drop. apply selected_sorted.
  - apply NoDup_Permutation; [eapply NoDup_fmap_1, selected_NoDup| |done].
    eapply sublist_NoDup; [eapply NoDup_fmap_1, (selected_NoDup p)|apply sublist_take].
Qed.

Lemma selected_take_drop p k x :
  x ∈ drop k (select_orders R d p) ↔
  x ∈ select_orders R d p ∧ o_id x ∉ o_id <$> take k (select_orders R d p).
Proof.
  pose proof (selected_NoDup p) as Hnd. pose proof (selected_ids_inj p) as Hinj.
  rewrite <-(take_drop k (select_orders R d p)) in Hnd. rewrite fmap_app in Hnd.
  apply NoDup_app in Hnd as (_ & Hdis & _).
  assert (x ∈ drop k (select_orders R d p) → x ∈ select_orders R d p) as Hsub.
  { intros Hx. rewrite <-(take_drop k (select_orders R d p)). apply elem_of_app. by right. }
  split.
  - intros Hx. split; [auto|]. intros Hin. apply (Hdis _ Hin). by apply list_elem_of_fmap_2.
  - intros [Hx Hn]. rewrite <-(take_drop k (select_orders R d p)) in Hx.
    apply elem_of_app in Hx as [Hx|Hx]; [|done]. destruct Hn. by apply list_elem_of_fmap_2.
Qed.
End selection.

(** What a query selects once the rows of its first [k] no longer qualify. *)
Lemma selected_rest (R : relation Order) `{!RelDecision R, !Transitive R, !Total R} d d' p k :
  (∀ a b, R a b → R b a → o_id a = o_id b) → orders_keyed d → orders_keyed d' →
  (∀ x, orders d' !! o_id x = Some x ∧ p x = true ↔ x ∈ drop k (select_orders R d p)) →
  select_orders R d' p = drop k (select_orders R d p).
Proof.
  intros Hanti Hk Hk' Hx. apply (StronglySorted_unique_strong R).
  - intros a b Ha Hb%Hx Hab Hba. destruct Hb as [Hb Hpb]. apply (elem_of_selected d' Hk' R) in Ha as [Ha _].
    rewrite (Hanti a b Hab Hba) in Ha. congruence.
  - by apply selected_sorted.
  - pose proof (selected_sorted d R p) as Hs. rewrite <-(take_drop k) in Hs.
    by eapply StronglySorted_app_1_r.
  - apply NoDup_Permutation.
    + by eapply NoDup_fmap_1, selected_NoDup.
    + eapply sublist_NoDup; [eapply NoDup_fmap_1, (selected_NoDup d Hk R p)|apply sublist_drop].
    + intros x. rewrite (elem_of_selected d' Hk' R). apply Hx.
Qed.
