(* ===== verification/Scenario.v ===== *)
(** * A small concrete market

    Rows the witnesses of the development evaluate: a buyer and a supplier
    organization with one user each, the catalog's Bio Methanol at Rotterdam, a
    resting ask backed by inventory and an incoming bid.  Nothing here models
    code. *)

From S2P Require Import Prelude Catalog Calendar AvailabilityWindows Schema Constraints Database.
Local Open Scope Z_scope.

Module Demo.

Definition methanol : Product :=
  MkProduct (product_id_of "BIO_METHANOL") "Bio Methanol" "Methanol" "Bio" (Some "MT") (Some 20000) true.
Definition b100 : Product :=
  MkProduct (product_id_of "B100") "B100" "Biofuel" "B100" (Some "MT") (Some 20000) true.
Definition rotterdam : DeliveryPoint :=
  MkDeliveryPoint 0x1379d36c1ca955b79c0d5235a0ba1f36 "Rotterdam" "Europe" true.

Definition shipping_line : Organization := MkOrganization 1 "Shipping Line" "APPROVED" REAL.
Definition refinery : Organization := MkOrganization 2 "Refinery" "APPROVED" REAL.
Definition trader : Organization := MkOrganization 3 "Trader" "APPROVED" REAL.

Definition a_user (id : uuid) (role : UserRole) (org : uuid) : User :=
  MkUser id (Some role) APPROVED (Some org) false true "APPROVED" (Some org) None None None None None.
Definition buyer : User := a_user 11 BUYER 1.
Definition supplier : User := a_user 12 SUPPLIER 2.
Definition broker : User := a_user 13 SUPPLIER 3.

(** An open order of 500 tonnes in the spot slice. *)
Definition an_order (id : uuid) (ordinal : Z) (org owner : uuid) (side : OrderSide)
    (quantity price : Z) : Order :=
  {| o_id := id; o_acceptance_ordinal := ordinal; o_organization_id := org;
     o_owner_user_id := Some owner; o_created_by_actor_user_id := Some owner;
     o_creation_method := SELF_SERVICE; o_support_authorization_id := None; o_version := 1;
     o_inventory_item_id := None; o_provenance := REAL; o_side := side;
     o_product_id := p_id methanol; o_delivery_point_id := Some (d_id rotterdam);
     o_port_id := None; o_vessel_id := None;
     o_quantity_mt := quantity; o_remaining_quantity_mt := quantity; o_price_per_mt_usd := price;
     o_availability_window := "SPOT"; o_delivery_window_start := None; o_delivery_window_end := None;
     o_certifications := None; o_certification_declared := true;
     o_certification_scheme := Some "ISCC EU"; o_specification_standard := None;
     o_msds_available := true; o_is_verdaxis_verified := false;
     o_carbon_intensity_gco2_mj := Some 1500; o_carbon_intensity_method := Some "RED II";
     o_energy_density_mj_kg := None; o_feedstock := Some "Manure"; o_origin := Some "NL";
     o_off_spec := false; o_off_spec_notes := None; o_status := OPEN; o_expires_at := None;
     o_idempotency_key := None; o_idempotency_operation := None; o_idempotency_request_hash := None |}.

Definition an_item (id : uuid) (org : uuid) (free reserved : Z) : InventoryItem :=
  {| i_id := id; i_supplier_id := Some org; i_owner_user_id := Some 12%N; i_port_id := None;
     i_product_name := Some "Bio Methanol"; i_current_stock_mt := free; i_incoming_stock_mt := 0;
     i_reserved_stock_mt := reserved; i_price_per_mt_usd := None; i_energy_density_mj_kg := None;
     i_is_certified := true; i_certification_declared := true;
     i_certification_scheme := Some "ISCC EU"; i_specification_standard := None;
     i_msds_available := true; i_carbon_intensity_gco2_mj := Some 1500;
     i_carbon_intensity_method := Some "RED II"; i_feedstock := Some "Manure"; i_origin := Some "NL";
     i_off_spec := false; i_off_spec_notes := None |}.

(** 300 t at 600 USD/t backed by the item, and 400 t at 610 USD/t unbacked;
    the incoming bid asks for 500 t at up to 620 USD/t. *)
Definition stock : InventoryItem := an_item 70 2 100000 30000.
Definition ask : Order :=
  (an_order 21 1 2 12 ASK 30000 60000) <| o_inventory_item_id := Some 70%N |>.
Definition ask' : Order := an_order 22 2 3 13 ASK 40000 61000.
Definition bid : Order := an_order 31 3 1 11 BID 50000 62000.

Definition book (rows : list Order) : gmap uuid Order := list_to_map ((λ o, (o_id o, o)) <$> rows).

(** Without an order. *)
Definition market : Database :=
  empty_database
    <| users := list_to_map ((λ u, (u_id u, u)) <$> [buyer; supplier; broker]) |>
    <| organizations := list_to_map ((λ g, (g_id g, g)) <$> [shipping_line; refinery; trader]) |>
    <| products := list_to_map ((λ p, (p_id p, p)) <$> [methanol; b100]) |>
    <| delivery_points := {[ d_id rotterdam := rotterdam ]} |>
    <| inventory := {[ i_id stock := stock ]} |>.

(** 2026-08-01T00:00:00Z, in microseconds. *)
Definition noon : datetime := 1785542400000000.
Definition world_of (d : Database) : World := MkWorld d d (MkClocks (λ n, noon + Z.of_nat n) noon) 0 default_settings [] 100.

(** The bid has just been inserted and is about to be matched. *)
Definition placed : World := world_of (market <| orders := book [ask; ask'; bid] |>).

(** A B100 ask that satisfies the biofuel contract. *)
Definition b100_ask : Order :=
  (an_order 23 4 2 12 ASK 30000 90000)
    <| o_product_id := p_id b100 |>
    <| o_specification_standard := Some B100_SPECIFICATION_STANDARD |>.

(** Two asks with the full public metadata. *)
Definition qualified_ask : Order := ask <| o_specification_standard := Some "IMPCA" |>.
Definition qualified_ask' : Order := ask' <| o_specification_standard := Some "IMPCA" |>.
Definition quoted : World := world_of (market <| orders := book [qualified_ask; qualified_ask'] |>).

(** The backed ask has run past its deadline. *)
Definition stale_ask : Order := ask <| o_expires_at := Some (noon - 1) |>.
Definition stale : World := world_of (market <| orders := book [stale_ask; ask'; bid] |>).

(** The shipping line has hit the backed ask for 100 tonnes; the refinery has
    not answered yet. *)
Definition hit_ask : Order :=
  ask <| o_remaining_quantity_mt := 20000 |> <| o_status := PARTIALLY_FILLED |>.
Definition pending : Trade :=
  {| t_id := 81; t_bid_order_id := None; t_ask_order_id := Some 21%N;
     t_buyer_id := 1; t_seller_id := 2; t_buyer_user_id := Some 11%N; t_seller_user_id := Some 12%N;
     t_initiator_org_id := 1; t_buyer_provenance := REAL; t_seller_provenance := REAL;
     t_initiated_by := INITIATED_BY_BUYER; t_is_anonymous := true;
     t_product_id := Some (p_id methanol); t_product_name := Some "Bio Methanol";
     t_fuel_type := Some "Methanol"; t_fuel_grade := Some "Bio"; t_market_product := Some "BIO_METHANOL";
     t_delivery_point_id := Some (d_id rotterdam); t_delivery_point_name := Some "Rotterdam";
     t_delivery_point_region := Some "Europe"; t_availability_window := Some "SPOT";
     t_market_snapshot_version := Some 1; t_quantity_mt := 10000; t_price_per_mt_usd := 60000;
     t_status := PENDING_CONFIRMATION; t_final_quantity_mt := None; t_final_price_per_mt := None;
     t_final_total_usd := None; t_commission_rate_pct := 0; t_commission_fee_per_mt_usd := Some 200;
     t_commission_plan := Some "free"; t_commission_amount_usd := None;
     t_confirmed_at := None; t_delivered_at := None; t_paid_at := None; t_created_at := noon;
     t_idempotency_key := None; t_idempotency_operation := None; t_idempotency_request_hash := None |}.
Definition hit : World :=
  world_of (market <| orders := book [hit_ask; ask'] |> <| trades := {[ t_id pending := pending ]} |>).

(** An administrator has listed 200 t of the refinery's stock under a support
    context that runs for another hour. *)
Definition admin : User := MkUser 19 (Some ADMIN) APPROVED None false true "APPROVED" None None None None None None.
Definition capabilities : gmap uuid StaffCapabilityAssignment :=
  list_to_map [ (1%N, MkStaffCapabilityAssignment 1 19 MARKET_SUPPORT_LISTINGS "Pilot desk" 18 (noon - 86400000000) None None None None);
                (2%N, MkStaffCapabilityAssignment 2 19 MARKET_SUPPORT_AUTHORIZATIONS "Pilot desk" 18 (noon - 86400000000) None None None None) ].
Definition support_context : MarketSupportContext :=
  MkMarketSupportContext 5 19 2 12 "Onboarding call" ASSISTED_ORDER_ENTRY (noon - 3600000000)
    (noon + 3600000000) None CONTEXT_ACTIVE 1.
Definition assisted_ask : Order :=
  (an_order 24 5 2 19 ASK 30000 60000)
    <| o_creation_method := MARKET_SUPPORT |> <| o_support_authorization_id := Some 91%N |>
    <| o_inventory_item_id := Some 70%N |>.
Definition supported : World :=
  (world_of (market <| orders := book [assisted_ask; ask'] |>
                   <| users := <[ u_id admin := admin ]> (users market) |>
                   <| staff_capabilities := capabilities |>
                   <| support_contexts := {[ sx_id support_context := support_context ]} |>))
    <| settings := MkSettings 200 150 true true "v1" "market-support/v1" 60
         "00000000-0000-0000-0000-000000000012" |>.
(** The header that names the context, as a UUID's text. *)
Definition support_header : option string := Some "00000000-0000-0000-0000-000000000005".

Lemma placed_checked : database_checks (db placed).
Proof. apply (bool_decide_unpack _). vm_compute. exact I. Qed.
Lemma placed_keyed : keyed (db Demo.placed).
Proof. unfold keyed. split_and!; apply (bool_decide_unpack _); vm_compute; exact I. Qed.
End Demo.
