(* ===== verification/Policy.v ===== *)
(** * Who and what may execute

    [app/services/provenance.py]: the isolation of synthetic organizations.
    [app/services/execution_policy.py]: the admission of a party, the
    qualification of an order and the compatibility of two orders, with the
    SQL mirror the public projections use for fixed biofuel contracts.
    [app/services/market_admission.py]: the provenance assertions. *)

From S2P Require Import Prelude Catalog Calendar AvailabilityWindows Schema Constraints Database Scenario.

(** ** Provenance *)

(** What the callers pass: the enum, its text, or something else. *)
Inductive provenance_value :=
  | PEnum (p : OrganizationProvenance)
  | PText (s : string)
  | POther.

Definition all_provenances : list OrganizationProvenance := [UNKNOWN; REAL; DEMO; TEST; CANARY].

(** [OrganizationProvenance(value)] looks the text up among the members. *)
Definition provenance_of_text (s : string) : option OrganizationProvenance :=
  head (filter (λ p, OrganizationProvenance_value p = s) all_provenances).

Definition coerce_provenance (value : provenance_value) : OrganizationProvenance :=
  match value with
  | PEnum p => p
  | PText s => default UNKNOWN (provenance_of_text s)
  | POther => UNKNOWN
  end.

Definition INTEGRATION_TEST_ORG_IDS : gset uuid := KNOWN_TEST_ORG_IDS.
Definition KNOWN_CANARY_ORG_IDS : gset uuid := ∅.

Definition classify_organization_provenance (organization_id : option uuid) : OrganizationProvenance :=
  match organization_id with
  | None => UNKNOWN
  | Some o =>
      if bool_decide (o ∈ DEMO_MARKET_ORG_IDS) then DEMO
      else if bool_decide (o ∈ INTEGRATION_TEST_ORG_IDS) then TEST
      else if bool_decide (o ∈ KNOWN_CANARY_ORG_IDS) then CANARY
      else UNKNOWN
  end.

Definition snapshot_organization_provenance (organization : option Organization)
    : OrganizationProvenance :=
  match organization with
  | None => UNKNOWN
  | Some g => coerce_provenance (PEnum (g_provenance g))
  end.

Definition execution_provenance_compatible (left right : OrganizationProvenance)
    (left_org_id right_org_id : option uuid) (allowed_demo_org_pair : option (gset uuid)) : bool :=
  match left, right with
  | REAL, REAL => true
  | DEMO, DEMO =>
      match left_org_id, right_org_id, allowed_demo_org_pair with
      | Some l, Some r, Some allowed => bool_decide ({[ l; r ]} = allowed)
      | _, _, _ => false
      end
  | _, _ => false
  end.

(** ** Admission of a party *)

Definition execution_party_is_eligible (d : Database) (user : option User)
    (organization : option Organization) : bool :=
  match user with
  | None => false
  | Some u =>
    match u_organization_id u with
    | None => false
    | Some user_org_id =>
      if negb (bool_decide (u_role u = Some BUYER ∨ u_role u = Some SUPPLIER)) then false
      else if bool_decide (u_status u ≠ APPROVED) || negb (u_email_verified u) then false
      else if u_must_change_password u then false
      else if bool_decide (u_kyc_status u = "REJECTED") then false
      else if match u_kyc_organization_id u with
              | Some k => bool_decide (k ≠ user_org_id)
              | None => false
              end then false
      else
        let organization :=
          match organization with
          | None => organizations d !! user_org_id
          | Some _ => organization
          end in
        match organization with
        | None => false
        | Some g =>
            bool_decide (g_id g = user_org_id)
            && bool_decide (g_verification_status g = "APPROVED")
        end
    end
  end.

Definition order_owner_is_execution_eligible (d : Database) (order : Order)
    (user : option User) (organization : option Organization) : bool :=
  if bool_decide (o_creation_method order ≠ MARKET_SUPPORT)
  then execution_party_is_eligible d user organization
  else match user, organization with
  | Some u, Some g =>
      bool_decide (Some (u_id u) = o_created_by_actor_user_id order)
      && bool_decide (o_created_by_actor_user_id order = o_owner_user_id order)
      && bool_decide (u_role u = Some ADMIN)
      && bool_decide (u_status u = APPROVED)
      && bool_decide (g_id g = o_organization_id order)
      && bool_decide (g_verification_status g = "APPROVED")
      && bool_decide (g_provenance g = REAL)
  | _, _ => false
  end.

(** [assert_market_participant_provenance] and [assert_market_pair_provenance] *)
Definition assert_market_participant_provenance (g : Organization) : res unit :=
  if bool_decide (g_provenance g = REAL) then Val tt
  else if bool_decide (g_provenance g = DEMO) && bool_decide (g_id g ∈ DEMO_ACTIVITY_ORG_IDS)
  then Val tt
  else Exc (HTTPException 409
    (Msg "Organization provenance is not eligible for market activity")).

Definition assert_market_pair_provenance (left right : Organization) : res unit :=
  if execution_provenance_compatible (g_provenance left) (g_provenance right)
       (Some (g_id left)) (Some (g_id right)) (Some DEMO_ACTIVITY_ORG_IDS)
  then Val tt
  else Exc (HTTPException 409 (Msg "Market parties do not have compatible provenance")).

(** ** Qualification of an order *)

Definition normalize_certification_scheme (value : option string) : option string :=
  v ← value;
  let normalized := upper (strip v) in
  if bool_decide (normalized = "") then None else Some normalized.

Definition supplier_product_metadata_error (product_id : uuid)
    (specification_standard carbon_intensity_method : option string) : option string :=
  required_standard ← BIOFUEL_SPECIFICATION_STANDARDS !! product_id;
  let product_name := default "" (ps_name <$> PRODUCTS_BY_ID !! product_id) in
  if bool_decide (upper (strip (default "" specification_standard)) ≠ required_standard)
  then Some (product_name +:+ " ASK orders require specification_standard " +:+ required_standard)
  else if bool_decide (strip (default "" carbon_intensity_method) = "")
  then Some (product_name
    +:+ " ASK orders require a lifecycle carbon_intensity_method for the whole supplied fuel")
  else None.

Definition is_biofuel_contract (product_id : uuid) : bool :=
  bool_decide (is_Some (BIOFUEL_SPECIFICATION_STANDARDS !! product_id)).

Definition order_is_execution_qualified (order : Order) : bool :=
  if o_off_spec order then false
  else
    let normalized_scheme := normalize_certification_scheme (o_certification_scheme order) in
    if bool_decide (o_side order = ASK) then
      if bool_decide (normalized_scheme = None) then false
      else if negb (o_certification_declared order) then false
      else if is_biofuel_contract (o_product_id order) then
        if bool_decide (is_Some (supplier_product_metadata_error (o_product_id order)
             (o_specification_standard order) (o_carbon_intensity_method order))) then false
        else if negb (o_msds_available order)
                || bool_decide (o_carbon_intensity_gco2_mj order = None) then false
        else if is_blank (o_feedstock order) || is_blank (o_origin order) then false
        else true
      else true
    else true.

Definition orders_execution_compatible (left right : Order) : bool :=
  if negb (order_is_execution_qualified left) || negb (order_is_execution_qualified right)
  then false
  else
    let left_is_bid := bool_decide (o_side left = BID) in
    let bid_order := if left_is_bid then left else right in
    let ask_order := if left_is_bid then right else left in
    match normalize_certification_scheme (o_certification_scheme ask_order) with
    | None => true
    | Some ask_scheme =>
        let bid_certifications :=
          omap (λ value, normalize_certification_scheme (Some value))
               (default [] (o_certifications bid_order)) in
        if bool_decide (bid_certifications ≠ [])
        then bool_decide (ask_scheme ∈ bid_certifications)
        else match normalize_certification_scheme (o_certification_scheme bid_order) with
        | None => true
        | Some bid_scheme => bool_decide (bid_scheme = ask_scheme)
        end
    end.

(** ** The SQL mirror for fixed biofuel contracts *)

(** The characters of [" \t\r\n\f\v"]. *)
Definition is_sql_space (c : Ascii.ascii) : bool :=
  let n := Ascii.N_of_ascii c in
  bool_decide (9 ≤ n ≤ 13)%N || bool_decide (n = 32)%N.

(** [func.trim(x, " \t\r\n\f\v")]; a NULL stays NULL and satisfies nothing. *)
Definition sql_trim (s : string) : string := strip_by is_sql_space s.
Definition sql_text_present (x : option string) : bool :=
  match x with Some s => bool_decide (sql_trim s ≠ "") | None => false end.
Definition sql_text_upper_is (x : option string) (value : string) : bool :=
  match x with Some s => bool_decide (upper (sql_trim s) = value) | None => false end.

(** The columns orders and inventory items share. *)
Record SupplierMetadata := MkSupplierMetadata {
  m_off_spec : bool;
  m_specification_standard : option string;
  m_carbon_intensity_method : option string;
  m_certification_declared : bool;
  m_certification_scheme : option string;
  m_msds_available : bool;
  m_carbon_intensity_gco2_mj : option Z;
  m_feedstock : option string;
  m_origin : option string;
}.

Definition order_metadata (o : Order) : SupplierMetadata :=
  MkSupplierMetadata (o_off_spec o) (o_specification_standard o) (o_carbon_intensity_method o)
    (o_certification_declared o) (o_certification_scheme o) (o_msds_available o)
    (o_carbon_intensity_gco2_mj o) (o_feedstock o) (o_origin o).

Definition inventory_metadata (i : InventoryItem) : SupplierMetadata :=
  MkSupplierMetadata (i_off_spec i) (i_specification_standard i) (i_carbon_intensity_method i)
    (i_certification_declared i) (i_certification_scheme i) (i_msds_available i)
    (i_carbon_intensity_gco2_mj i) (i_feedstock i) (i_origin i).

Definition biofuel_supplier_metadata_clause (r : SupplierMetadata) (product_id : uuid) : bool :=
  negb (is_biofuel_contract product_id)
  || (negb (m_off_spec r)
      && existsb (λ '(identity, standard),
           bool_decide (product_id = identity)
           && sql_text_upper_is (m_specification_standard r) standard)
         (map_to_list BIOFUEL_SPECIFICATION_STANDARDS)
      && sql_text_present (m_carbon_intensity_method r)
      && m_certification_declared r
      && sql_text_present (m_certification_scheme r)
      && m_msds_available r
      && bool_decide (m_carbon_intensity_gco2_mj r ≠ None)
      && sql_text_present (m_feedstock r)
      && sql_text_present (m_origin r)).

(** ** Facts *)

Lemma execution_provenance_compatible_spec l r a b allowed :
  execution_provenance_compatible l r a b allowed = true ↔
  (l = REAL ∧ r = REAL) ∨
  (l = DEMO ∧ r = DEMO ∧
   ∃ x y s, a = Some x ∧ b = Some y ∧ allowed = Some s ∧ {[ x; y ]} = s).
Proof.
  unfold execution_provenance_compatible. split.
  - destruct l, r; try done; [by left|].
    destruct a, b, allowed; try done. rewrite bool_decide_eq_true. intros <-. right. eauto 10.
  - intros [[-> ->]|(-> & -> & x & y & s & -> & -> & -> & <-)]; [done|].
    by rewrite bool_decide_eq_true.
Qed.

Lemma provenance_compatible_without_demo_pair l r a b :
  execution_provenance_compatible l r a b None = true → l = REAL ∧ r = REAL.
Proof. rewrite execution_provenance_compatible_spec. naive_solver. Qed.

Lemma classify_never_real o : classify_organization_provenance o ≠ REAL.
Proof. unfold classify_organization_provenance. destruct o; repeat case_bool_decide; done. Qed.

(** What an admitted party is. *)
Lemma execution_party_is_eligible_spec d user organization :
  execution_party_is_eligible d user organization = true →
  ∃ u o g, user = Some u ∧ u_organization_id u = Some o
    ∧ (u_role u = Some BUYER ∨ u_role u = Some SUPPLIER)
    ∧ u_status u = APPROVED ∧ u_email_verified u = true ∧ u_must_change_password u = false
    ∧ u_kyc_status u ≠ "REJECTED"
    ∧ (u_kyc_organization_id u = None ∨ u_kyc_organization_id u = Some o)
    ∧ (organization = Some g ∨ (organization = None ∧ organizations d !! o = Some g))
    ∧ g_id g = o ∧ g_verification_status g = "APPROVED".
Proof.
  unfold execution_party_is_eligible.
  destruct user as [u|]; [|done]. destruct (u_organization_id u) as [o|] eqn:Ho; [|done].
  case_bool_decide as Hrole; simpl; [|done].
  case_bool_decide as Hst; simpl; [done|].
  destruct (u_email_verified u) eqn:Hem; simpl; [|done].
  destruct (u_must_change_password u) eqn:Hmp; [done|].
  case_bool_decide as Hkyc; [done|].
  destruct (match u_kyc_organization_id u with Some k => _ | None => _ end) eqn:Hk; [done|].
  assert (u_kyc_organization_id u = None ∨ u_kyc_organization_id u = Some o).
  { destruct (u_kyc_organization_id u); [|by left]. case_bool_decide as Hb; [done|].
    right. by f_equal. }
  destruct (match organization with Some _ => _ | None => _ end) as [g|] eqn:Hg; [|done].
  rewrite andb_true_iff, !bool_decide_eq_true. intros [Hid Hv].
  exists u, o, g. split_and!; try done.
  destruct organization; [left; congruence|right; done].
Qed.

(** The SQL trim and [str.strip] differ on the separators U+001C to U+001F. *)
Definition plain_text (s : string) : bool :=
  all_chars (λ c, Bool.eqb (is_space c) (is_sql_space c)) s.
Definition plain_option (x : option string) : Prop :=
  match x with Some s => plain_text s = true | None => True end.

Lemma sql_trim_plain s : plain_text s = true → sql_trim s = strip s.
Proof. intros. symmetry. by apply strip_by_ext. Qed.

Lemma sql_text_present_plain x : plain_option x → sql_text_present x = negb (is_blank x).
Proof.
  destruct x as [s|]; [|done]. simpl. intros. unfold is_blank. simpl.
  by rewrite sql_trim_plain, bool_decide_not.
Qed.

Lemma sql_text_upper_plain x v :
  plain_option x → v ≠ "" → sql_text_upper_is x v = bool_decide (upper (strip (default "" x)) = v).
Proof.
  destruct x as [s|]; simpl; intros H Hv; [by rewrite sql_trim_plain|].
  symmetry. by apply bool_decide_eq_false_2.
Qed.

Lemma upper_empty s : upper s = "" ↔ s = "".
Proof. by destruct s. Qed.

Lemma normalize_certification_scheme_None x :
  normalize_certification_scheme x = None ↔ is_blank x = true.
Proof.
  unfold normalize_certification_scheme, is_blank. destruct x as [s|]; simpl; [|done].
  destruct (decide (strip s = "")) as [Hs|Hs].
  - rewrite Hs. simpl. done.
  - rewrite (bool_decide_eq_false_2 (upper (strip s) = "")) by by rewrite upper_empty.
    by rewrite (bool_decide_eq_false_2 (strip s = "")).
Qed.

Lemma existsb_lookup {V} (m : gmap uuid V) (f : V → bool) k v :
  m !! k = Some v →
  existsb (λ '(i, x), bool_decide (k = i) && f x) (map_to_list m) = f v.
Proof.
  intros Hk. apply eq_bool_prop_intro. rewrite !Is_true_true, existsb_exists. split.
  - intros ([i x] & Hin & [Hi%bool_decide_eq_true Hx]%andb_true_iff).
    apply list_elem_of_In, elem_of_map_to_list in Hin. subst i.
    rewrite Hin in Hk. by injection Hk as ->.
  - intros Hx. exists (k, v). split.
    + by apply list_elem_of_In, elem_of_map_to_list.
    + by rewrite bool_decide_eq_true_2.
Qed.

Lemma biofuel_standard_clause product_id standard x :
  BIOFUEL_SPECIFICATION_STANDARDS !! product_id = Some standard →
  existsb (λ '(identity, s), bool_decide (product_id = identity) && sql_text_upper_is x s)
    (map_to_list BIOFUEL_SPECIFICATION_STANDARDS) = sql_text_upper_is x standard.
Proof. exact (existsb_lookup _ (sql_text_upper_is x) _ _). Qed.

Lemma biofuel_standards_nonempty product_id standard :
  BIOFUEL_SPECIFICATION_STANDARDS !! product_id = Some standard → standard ≠ "".
Proof.
  intros H. assert (map_Forall (λ _ s, s ≠ "") BIOFUEL_SPECIFICATION_STANDARDS) as Hall.
  { apply (bool_decide_unpack _). vm_compute. exact I. }
  exact (Hall _ _ H).
Qed.

Lemma supplier_product_metadata_error_None product_id standard spec method :
  BIOFUEL_SPECIFICATION_STANDARDS !! product_id = Some standard →
  bool_decide (is_Some (supplier_product_metadata_error product_id spec method))
  = negb (bool_decide (upper (strip (default "" spec)) = standard) && negb (is_blank method)).
Proof.
  intros Hs. unfold supplier_product_metadata_error. rewrite Hs. cbn [mbind option_bind].
  unfold is_blank. rewrite bool_decide_not.
  destruct (bool_decide (upper (strip (default "" spec)) = standard));
    [destruct (bool_decide (strip (default "" method) = ""))|]; cbn [negb andb].
  - apply bool_decide_eq_true_2. eexists; reflexivity.
  - apply bool_decide_eq_false_2. by intros [].
  - apply bool_decide_eq_true_2. eexists; reflexivity.
Qed.

Lemma is_biofuel_contract_spec product_id :
  is_biofuel_contract product_id = true ↔
  ∃ standard, BIOFUEL_SPECIFICATION_STANDARDS !! product_id = Some standard.
Proof. unfold is_biofuel_contract. by rewrite bool_decide_eq_true. Qed.

(** The texts the two versions of the biofuel contract read. *)
Definition plain_metadata (r : SupplierMetadata) : Prop :=
  plain_option (m_specification_standard r) ∧ plain_option (m_carbon_intensity_method r)
  ∧ plain_option (m_certification_scheme r) ∧ plain_option (m_feedstock r)
  ∧ plain_option (m_origin r).

(** The SQL clause the public projections use for a fixed biofuel contract
    and the Python gate the matching engine uses are the same test: on an ASK
    for a biofuel product whose texts hold no U+001C..U+001F separator, the
    clause is true exactly when the order is execution-qualified. *)
Theorem biofuel_sql_mirror_agrees o :
  o_side o = ASK → is_biofuel_contract (o_product_id o) = true →
  plain_metadata (order_metadata o) →
  biofuel_supplier_metadata_clause (order_metadata o) (o_product_id o)
  = order_is_execution_qualified o.
Proof.
  intros Hside Hbio (Hspec & Hm & Hc & Hf & Ho). cbn in Hspec, Hm, Hc, Hf, Ho.
  pose proof Hbio as [standard Hstd]%is_biofuel_contract_spec.
  unfold biofuel_supplier_metadata_clause, order_is_execution_qualified.
  rewrite Hbio, (bool_decide_eq_true_2 (o_side o = ASK)) by done.
  rewrite (biofuel_standard_clause _ _ _ Hstd), (supplier_product_metadata_error_None _ _ _ _ Hstd).
  cbn [order_metadata m_off_spec m_specification_standard m_carbon_intensity_method
    m_certification_declared m_certification_scheme m_msds_available
    m_carbon_intensity_gco2_mj m_feedstock m_origin].
  rewrite sql_text_upper_plain by eauto using biofuel_standards_nonempty.
  rewrite !sql_text_present_plain by done.
  rewrite (bool_decide_ext (normalize_certification_scheme (o_certification_scheme o) = None)
    (is_blank (o_certification_scheme o) = true)) by apply normalize_certification_scheme_None.
  rewrite bool_decide_not.
  destruct (o_off_spec o), (is_blank (o_certification_scheme o)), (o_certification_declared o),
    (bool_decide (upper _ = _)), (is_blank (o_carbon_intensity_method o)), (o_msds_available o),
    (bool_decide (o_carbon_intensity_gco2_mj o = None)), (is_blank (o_feedstock o)),
    (is_blank (o_origin o)); reflexivity.
Qed.

Lemma biofuel_sql_mirror_agrees_witness :
  biofuel_supplier_metadata_clause (order_metadata Demo.b100_ask) (o_product_id Demo.b100_ask)
  = order_is_execution_qualified Demo.b100_ask
  ∧ order_is_execution_qualified Demo.b100_ask = true.
Proof.
  split; [|vm_compute; reflexivity].
  apply (biofuel_sql_mirror_agrees Demo.b100_ask); [reflexivity|vm_compute; reflexivity|].
  repeat split; vm_compute; exact eq_refl.
Defined.

(** Compatibility of a bid and an ask does not depend on which of them is
    the incoming order. *)
Theorem orders_execution_compatible_symmetric bid ask :
  o_side bid = BID → o_side ask = ASK →
  orders_execution_compatible bid ask = orders_execution_compatible ask bid.
Proof.
  intros Hb Ha. unfold orders_execution_compatible.
  rewrite (orb_comm (negb (order_is_execution_qualified ask))).
  rewrite (bool_decide_eq_true_2 (o_side bid = BID)) by done.
  rewrite (bool_decide_eq_false_2 (o_side ask = BID)) by (rewrite Ha; discriminate).
  reflexivity.
Qed.

Lemma orders_execution_compatible_symmetric_witness :
  orders_execution_compatible Demo.bid Demo.ask = orders_execution_compatible Demo.ask Demo.bid
  ∧ orders_execution_compatible Demo.bid Demo.ask = true.
Proof.
  split; [|vm_compute; reflexivity].
  apply (orders_execution_compatible_symmetric Demo.bid Demo.ask); reflexivity.
Defined.
