(* ===== verification/Eligibility.v ===== *)
(** * What the public market shows

    [app/services/market_provenance.py] and
    [app/services/market_data_eligibility.py]: the evidence class of a row and
    the SQL predicates of the public projections, as boolean functions of the
    tables.  A comparison with NULL is not true, so it selects nothing.
    [now_expression] is the observation time, the transaction's when absent. *)

From S2P Require Import Prelude Catalog Calendar AvailabilityWindows Schema Constraints Database Scenario Policy.
Local Open Scope Z_scope.

(** ** Evidence classes *)

Inductive MarketSourceKind :=
  | CONFIRMED_TRADE | LIVE_ORDER | LIVE_INVENTORY | DEMO_SEED | BENCHMARK_REFERENCE
  | MIXED_SOURCE | NO_DATA | SOURCE_UNKNOWN.
Inductive MarketScope := DELIVERY_POINT | REGION | PRODUCT | SCOPE_UNKNOWN.
Inductive MarketDemoStatus := REAL_ONLY | DEMO_ONLY | MIXED | STATUS_UNKNOWN | NOT_APPLICABLE.

Definition MarketSourceKind_value (x : MarketSourceKind) : string :=
  match x with
  | CONFIRMED_TRADE => "CONFIRMED_TRADE" | LIVE_ORDER => "LIVE_ORDER"
  | LIVE_INVENTORY => "LIVE_INVENTORY" | DEMO_SEED => "DEMO_SEED"
  | BENCHMARK_REFERENCE => "BENCHMARK_REFERENCE" | MIXED_SOURCE => "MIXED_SOURCE"
  | NO_DATA => "NO_DATA" | SOURCE_UNKNOWN => "UNKNOWN"
  end.
Definition MarketScope_value (x : MarketScope) : string :=
  match x with
  | DELIVERY_POINT => "DELIVERY_POINT" | REGION => "REGION" | PRODUCT => "PRODUCT"
  | SCOPE_UNKNOWN => "UNKNOWN"
  end.
Definition MarketDemoStatus_value (x : MarketDemoStatus) : string :=
  match x with
  | REAL_ONLY => "REAL_ONLY" | DEMO_ONLY => "DEMO_ONLY" | MIXED => "MIXED"
  | STATUS_UNKNOWN => "UNKNOWN" | NOT_APPLICABLE => "NOT_APPLICABLE"
  end.

Inductive MarketEvidenceScope := SCOPE_REAL | SCOPE_DEMO.
#[export] Instance MarketEvidenceScope_eq_dec : EqDecision MarketEvidenceScope.
Proof. solve_decision. Defined.

Record MarketEvidencePolicy := MkMarketEvidencePolicy {
  ep_scope : MarketEvidenceScope;
  ep_provenance : OrganizationProvenance;
  ep_source_kind : MarketSourceKind;
  ep_demo_status : MarketDemoStatus;
}.

Definition evidence_policy_for_scope (scope : MarketEvidenceScope) (real_source : MarketSourceKind)
    : MarketEvidencePolicy :=
  match scope with
  | SCOPE_REAL => MkMarketEvidencePolicy scope REAL real_source REAL_ONLY
  | SCOPE_DEMO => MkMarketEvidencePolicy scope DEMO DEMO_SEED DEMO_ONLY
  end.

Record AggregateEvidenceSelection := MkAggregateEvidenceSelection {
  sel_scope : option MarketEvidenceScope;
  sel_source_kind : MarketSourceKind;
  sel_demo_status : MarketDemoStatus;
  sel_real_count : Z;
  sel_demo_count : Z;
  sel_unknown_count : Z;
  sel_value_prefix : option string;
}.

Definition select_aggregate_evidence (real_count demo_count unknown_count : Z)
    (real_source : MarketSourceKind) : AggregateEvidenceSelection :=
  let real_count := Z.max 0 real_count in
  let demo_count := Z.max 0 demo_count in
  let unknown_count := Z.max 0 unknown_count in
  let selected scope prefix :=
    let policy := evidence_policy_for_scope scope real_source in
    MkAggregateEvidenceSelection (Some scope) (ep_source_kind policy) (ep_demo_status policy)
      real_count demo_count unknown_count (Some prefix) in
  if negb (real_count =? 0) then selected SCOPE_REAL "real"
  else if negb (demo_count =? 0) then selected SCOPE_DEMO "demo"
  else if negb (unknown_count =? 0) then
    MkAggregateEvidenceSelection None SOURCE_UNKNOWN STATUS_UNKNOWN
      real_count demo_count unknown_count None
  else MkAggregateEvidenceSelection None NO_DATA NOT_APPLICABLE 0 0 0 None.

Definition SYNTHETIC_PROVENANCE : list OrganizationProvenance := [DEMO; TEST; CANARY].

Definition order_evidence_clause (p : OrganizationProvenance) (scope : MarketEvidenceScope) : bool :=
  bool_decide (p = ep_provenance (evidence_policy_for_scope scope LIVE_ORDER)).
Definition public_order_evidence_clause (p : OrganizationProvenance) : bool :=
  order_evidence_clause p SCOPE_REAL || order_evidence_clause p SCOPE_DEMO.

Definition evidence_scope_for_provenance (value : provenance_value) : option MarketEvidenceScope :=
  match coerce_provenance value with
  | REAL => Some SCOPE_REAL
  | DEMO => Some SCOPE_DEMO
  | _ => None
  end.

Definition organization_evidence_clause (g : Organization) (u : User) (scope : MarketEvidenceScope)
    : bool :=
  bool_decide (g_verification_status g = "APPROVED")
  && bool_decide (g_provenance g = ep_provenance (evidence_policy_for_scope scope CONFIRMED_TRADE))
  && bool_decide (u_organization_id u = Some (g_id g))
  && bool_decide (u_status u = APPROVED)
  && bool_decide (u_kyc_status u = "APPROVED")
  && match scope with SCOPE_DEMO => bool_decide (g_id g ∈ DEMO_MARKET_ORG_IDS) | SCOPE_REAL => true end.

(** ** Formal trade evidence *)

Definition FORMAL_TRADE_STATUSES : list TradeStatus := [CONFIRMED; DELIVERED; PAID].

Definition canonical_trade_product_snapshot_clause (t : Trade) : bool :=
  existsb (λ spec,
    bool_decide (t_product_id t = Some (ps_id spec))
    && bool_decide (t_product_name t = Some (ps_name spec))
    && bool_decide (t_fuel_type t = Some (ps_fuel_type spec))
    && bool_decide (t_fuel_grade t = Some (ps_fuel_grade spec))
    && bool_decide (t_market_product t = Some (market_product_value (ps_market_product spec))))
  CANONICAL_PRODUCTS.

Definition canonical_trade_delivery_point_snapshot_clause (t : Trade) : bool :=
  existsb (λ spec,
    bool_decide (t_delivery_point_id t = Some (ds_id spec))
    && bool_decide (t_delivery_point_name t = Some (ds_name spec))
    && bool_decide (t_delivery_point_region t = Some (ds_region spec)))
  CANONICAL_DELIVERY_POINTS.

Definition canonical_availability_window_clause (column : option string) : bool :=
  match column with Some s => JSON_SCHEMA_PATTERN s | None => false end.

Definition formal_trade_snapshot_clause (t : Trade) : bool :=
  bool_decide (t_market_snapshot_version t = Some 1)
  && canonical_trade_product_snapshot_clause t
  && canonical_trade_delivery_point_snapshot_clause t
  && canonical_availability_window_clause (t_availability_window t).

Definition trade_evidence_clause (t : Trade) (scope : MarketEvidenceScope)
    (confirmed_since confirmed_before : option datetime) : bool :=
  let policy := evidence_policy_for_scope scope CONFIRMED_TRADE in
  formal_trade_snapshot_clause t
  && bool_decide (t_buyer_provenance t = ep_provenance policy)
  && bool_decide (t_seller_provenance t = ep_provenance policy)
  && bool_decide (t_status t ∈ FORMAL_TRADE_STATUSES)
  && match t_confirmed_at t with
     | None => false
     | Some at_ =>
         match confirmed_since with Some s => s <=? at_ | None => true end
         && match confirmed_before with Some b => at_ <? b | None => true end
     end.

Definition public_trade_evidence_clause (t : Trade) (confirmed_since confirmed_before : option datetime)
    : bool :=
  trade_evidence_clause t SCOPE_REAL confirmed_since confirmed_before
  || trade_evidence_clause t SCOPE_DEMO confirmed_since confirmed_before.

(** ** Labels of one row *)

(** [str(x) if x else None]; a delivery point id is always a UUID here. *)
Definition order_market_provenance (d : Database) (o : Order) : list (string * json) :=
  let source := match o_provenance o with
                | DEMO => DEMO_SEED | REAL => LIVE_ORDER | _ => SOURCE_UNKNOWN end in
  let demo_status := match o_provenance o with
                     | DEMO => DEMO_ONLY | REAL => REAL_ONLY | _ => STATUS_UNKNOWN end in
  [ ("source_kind", JStr (MarketSourceKind_value source));
    ("scope", JStr (MarketScope_value
       match o_delivery_point_id o with Some _ => DELIVERY_POINT | None => SCOPE_UNKNOWN end));
    ("demo_status", JStr (MarketDemoStatus_value demo_status));
    ("is_demo_listing", JBool (bool_decide (o_provenance o = DEMO)));
    ("unknown_count", JInt (if bool_decide (o_provenance o = UNKNOWN) then 1 else 0));
    ("market_product", jopt JStr (order_market_product d o));
    ("delivery_point_id", jopt JUuid (o_delivery_point_id o));
    ("availability_window", JStr (o_availability_window o)) ].

Definition trade_market_provenance (t : Trade) : list (string * json) :=
  let '(source, demo_status) :=
    match t_buyer_provenance t, t_seller_provenance t with
    | DEMO, DEMO => (DEMO_SEED, DEMO_ONLY)
    | REAL, REAL => (CONFIRMED_TRADE, REAL_ONLY)
    | _, _ => (SOURCE_UNKNOWN, STATUS_UNKNOWN)
    end in
  [ ("source_kind", JStr (MarketSourceKind_value source));
    ("scope", JStr (MarketScope_value
       match t_delivery_point_id t with Some _ => DELIVERY_POINT | None => SCOPE_UNKNOWN end));
    ("demo_status", JStr (MarketDemoStatus_value demo_status));
    ("unknown_count", JInt
       (if bool_decide (t_buyer_provenance t = UNKNOWN ∨ t_seller_provenance t = UNKNOWN) then 1 else 0));
    ("product_id", jopt JUuid (t_product_id t));
    ("market_product", jopt JStr (t_market_product t));
    ("delivery_point_id", jopt JUuid (t_delivery_point_id t));
    ("availability_window", jopt JStr (t_availability_window t)) ].

(** ** Public order liquidity *)

Definition organization_row (d : Database) (id : uuid) (p : Organization → bool) : bool :=
  match organizations d !! id with Some g => p g | None => false end.

(** [EXISTS (SELECT users.id WHERE id = owner_user_id AND ..)] *)
Definition owner_row (d : Database) (o : Order) (p : User → bool) : bool :=
  match o_owner_user_id o with
  | None => false
  | Some owner => match users d !! owner with Some u => p u | None => false end
  end.

Definition eligible_owner (d : Database) (o : Order) : bool :=
  owner_row d o (λ u,
    bool_decide (u_organization_id u = Some (o_organization_id o))
    && bool_decide (u_role u = Some BUYER ∨ u_role u = Some SUPPLIER)
    && bool_decide (u_status u = APPROVED)
    && u_email_verified u
    && negb (u_must_change_password u)
    && bool_decide (u_kyc_status u ≠ "REJECTED")
    && bool_decide (u_kyc_organization_id u = None
                    ∨ u_kyc_organization_id u = Some (o_organization_id o))
    && organization_row d (o_organization_id o) (λ g,
         bool_decide (g_verification_status g = "APPROVED"))).

Definition assisted_owner (d : Database) (o : Order) : bool :=
  bool_decide (o_creation_method o = MARKET_SUPPORT)
  && owner_row d o (λ u,
       bool_decide (Some (u_id u) = o_created_by_actor_user_id o)
       && bool_decide (u_role u = Some ADMIN)
       && bool_decide (u_status u = APPROVED)
       && organization_row d (o_organization_id o) (λ g,
            bool_decide (g_verification_status g = "APPROVED")
            && bool_decide (g_provenance g = REAL))).

Definition public_order_owner_admission_clause (d : Database) (o : Order) : bool :=
  if bool_decide (o_creation_method o = MARKET_SUPPORT) then assisted_owner d o
  else bool_decide (o_owner_user_id o = None) || eligible_owner d o.

Definition market_data_eligible_organization_clause (g : Organization) : bool :=
  bool_decide (g_verification_status g = "APPROVED") && bool_decide (g_provenance g = REAL).

Definition is_spec_product (p : Product) (spec : ProductSpec) : bool :=
  bool_decide (p_id p = ps_id spec) && bool_decide (p_name p = ps_name spec)
  && bool_decide (p_fuel_type p = ps_fuel_type spec)
  && bool_decide (p_fuel_grade p = ps_fuel_grade spec).

Definition canonical_market_product_expression (p : Product) : option string :=
  (λ spec, market_product_value (ps_market_product spec))
    <$> head (filter (λ spec, is_spec_product p spec = true) CANONICAL_PRODUCTS).

Definition canonical_product_clause (p : Product) : bool :=
  p_is_active p && existsb (is_spec_product p) CANONICAL_PRODUCTS.

Definition canonical_delivery_point_clause (dp : DeliveryPoint) : bool :=
  d_is_active dp
  && existsb (λ spec, bool_decide (d_id dp = ds_id spec) && bool_decide (d_name dp = ds_name spec)
                      && bool_decide (d_region dp = ds_region spec)) CANONICAL_DELIVERY_POINTS.

Definition active_market_catalog_clauses (p : Product) (dp : DeliveryPoint) : bool :=
  canonical_product_clause p && canonical_delivery_point_clause dp.

Definition current_public_order_clause (d : Database) (o : Order) (now : datetime) : bool :=
  match o_expires_at o with
  | Some e => now <? e
  | None => bool_decide (o_provenance o = REAL ∨ o_provenance o = UNKNOWN)
  end
  && public_order_owner_admission_clause d o
  && (bool_decide (o_side o ≠ ASK)
      || biofuel_supplier_metadata_clause (order_metadata o) (o_product_id o)).

Definition public_order_collection_provenance_clause (o : Order) : bool :=
  bool_decide (o_provenance o = REAL ∨ o_provenance o = DEMO).

(** [length(trim(coalesce(x, ''))) > 0] *)
Definition sql_present (x : option string) : bool := sql_nonblank (default "" x).

(** The joins of an order with its product and delivery point. *)
Definition joined_catalog (d : Database) (o : Order) (p : Product → DeliveryPoint → bool) : bool :=
  match order_product d o, order_delivery_point d o with
  | Some product, Some dp => p product dp
  | _, _ => false
  end.

Definition _public_order_projection_statement (d : Database) (now : datetime) (o : Order) : bool :=
  joined_catalog d o (λ product dp,
    is_active_status (o_status o)
    && active_market_catalog_clauses product dp
    && canonical_availability_window_clause (Some (o_availability_window o))
    && current_public_order_clause d o now
    && public_order_collection_provenance_clause o
    && (bool_decide (o_side o ≠ ASK)
        || (sql_present (o_certification_scheme o)
            && o_certification_declared o
            && sql_present (o_specification_standard o)
            && o_msds_available o
            && bool_decide (o_carbon_intensity_gco2_mj o ≠ None)
            && sql_present (o_feedstock o)
            && sql_present (o_origin o)))).

(** ** Public availability *)

Definition _public_inventory_projection_statement (d : Database) (i : InventoryItem) : bool :=
  match port ← i_port_id i; ports d !! port, i_product_name i with
  | Some port, Some product_name =>
      pt_is_active port
      && existsb (λ dp, bool_decide (d_name dp = pt_name port)
           && existsb (λ product, bool_decide (p_name product = product_name)
                && active_market_catalog_clauses product dp
                && biofuel_supplier_metadata_clause (inventory_metadata i) (p_id product))
              (snd <$> map_to_list (products d)))
         (snd <$> map_to_list (delivery_points d))
      && match supplier ← i_supplier_id i; organizations d !! supplier,
               owner ← i_owner_user_id i; users d !! owner with
         | Some g, Some u =>
             bool_decide (u_organization_id u = Some (g_id g))
             && (organization_evidence_clause g u SCOPE_REAL
                 || organization_evidence_clause g u SCOPE_DEMO)
         | _, _ => false
         end
  | _, _ => false
  end.

(** ** Visibility of one row, as the session sees it *)

Definition public_order_is_visible (order_id : uuid) (as_of : option datetime) : M World bool :=
  d ← get_db;
  now ← match as_of with Some t => mret t | None => db_now end;
  mret (match orders d !! order_id with
        | Some o => _public_order_projection_statement d now o
        | None => false
        end).

Definition public_inventory_is_visible (item_id : uuid) : M World bool :=
  d ← get_db;
  mret (match inventory d !! item_id with
        | Some i => _public_inventory_projection_statement d i
        | None => false
        end).

Definition public_trade_is_visible (trade_id : uuid) : M World bool :=
  d ← get_db;
  mret (match trades d !! trade_id with
        | Some t => public_trade_evidence_clause t None None
        | None => false
        end).

(** Some order or inventory item of the organization, or of the user, is public. *)
Definition has_public_projection (mine : Order → bool) (my_item : InventoryItem → bool) : M World bool :=
  d ← get_db;
  now ← db_now;
  mret (existsb (λ o, mine o && _public_order_projection_statement d now o)
          (snd <$> map_to_list (orders d))
        || existsb (λ i, my_item i && _public_inventory_projection_statement d i)
             (snd <$> map_to_list (inventory d))).

Definition organization_has_public_market_projection (organization_id : uuid) : M World bool :=
  has_public_projection (λ o, bool_decide (o_organization_id o = organization_id))
    (λ i, bool_decide (i_supplier_id i = Some organization_id)).

Definition user_has_public_market_projection (user_id : uuid) : M World bool :=
  has_public_projection (λ o, bool_decide (o_owner_user_id o = Some user_id))
    (λ i, bool_decide (i_owner_user_id i = Some user_id)).

(** ** Facts *)

Lemma reads_db_now : Keeps reads db_now.
Proof. by repeat split. Qed.
#[export] Hint Resolve reads_db_now : keeps.
Lemma reads_public_order_is_visible id as_of : Keeps reads (public_order_is_visible id as_of).
Proof. unfold public_order_is_visible. keeps. Qed.
Lemma reads_public_inventory_is_visible id : Keeps reads (public_inventory_is_visible id).
Proof. unfold public_inventory_is_visible. keeps. Qed.
Lemma reads_public_trade_is_visible id : Keeps reads (public_trade_is_visible id).
Proof. unfold public_trade_is_visible. keeps. Qed.
#[export] Hint Resolve reads_public_order_is_visible reads_public_inventory_is_visible
  reads_public_trade_is_visible : keeps.

(** C30: The public book shows an owned order exactly when its owner could still
    execute it: the SQL admission clause of every public projection agrees with
    the fill-time policy [order_owner_is_execution_eligible] on the owner's
    and the organization's current rows, for self-service and for assisted
    orders alike. *)
Theorem public_admission_mirrors_execution_policy d o owner g :
  keyed d → o_owner_user_id o = Some owner → organizations d !! o_organization_id o = Some g →
  public_order_owner_admission_clause d o
  = order_owner_is_execution_eligible d o (users d !! owner) (Some g).
Proof.
  intros (_ & _ & _ & Hgk & Huk & _) Howner Hg. pose proof (Hgk _ _ Hg) as Hgid. cbn in Hgid.
  unfold public_order_owner_admission_clause, order_owner_is_execution_eligible, assisted_owner,
    eligible_owner, owner_row, organization_row. rewrite Howner, Hg.
  destruct (users d !! owner) as [u|] eqn:Hu.
  2: { cbn. by destruct (bool_decide (o_creation_method o = MARKET_SUPPORT)) eqn:E, (bool_decide (o_creation_method o ≠ MARKET_SUPPORT)). }
  pose proof (Huk _ _ Hu) as Huid. cbn in Huid.
  destruct (decide (o_creation_method o = MARKET_SUPPORT)) as [Hm|Hm].
  - rewrite !bool_decide_eq_true_2 by done. rewrite (bool_decide_eq_false_2 (o_creation_method o ≠ MARKET_SUPPORT)) by naive_solver.
    apply eq_bool_prop_intro. rewrite !Is_true_true, !andb_true_iff, !bool_decide_eq_true.
    rewrite Huid, Hgid. naive_solver.
  - rewrite (bool_decide_eq_false_2 (_ = MARKET_SUPPORT)) by done.
    rewrite (bool_decide_eq_true_2 (o_creation_method o ≠ MARKET_SUPPORT)) by done.
    rewrite (bool_decide_eq_false_2 (Some owner = None)) by done. cbn [orb].
    unfold execution_party_is_eligible.
    destruct (u_organization_id u) as [uo|]; [|by rewrite (bool_decide_eq_false_2 (None = _))].
    rewrite Hgid.
    destruct (decide (uo = o_organization_id o)) as [->|Hne].
    + rewrite (bool_decide_eq_true_2 (Some _ = Some _)) by done.
      rewrite !bool_decide_not, (bool_decide_eq_true_2 (o_organization_id o = o_organization_id o)) by done.
      assert (bool_decide (u_kyc_organization_id u = None ∨ u_kyc_organization_id u = Some (o_organization_id o))
        = negb match u_kyc_organization_id u with
               | Some k => bool_decide (k ≠ o_organization_id o) | None => false end) as ->.
      { destruct (u_kyc_organization_id u); [|done]. rewrite bool_decide_not, negb_involutive.
        apply bool_decide_ext. naive_solver. }
      destruct (bool_decide (u_role u = Some BUYER ∨ u_role u = Some SUPPLIER)),
        (bool_decide (u_status u = APPROVED)), (u_email_verified u), (u_must_change_password u),
        (bool_decide (u_kyc_status u = "REJECTED")),
        (match u_kyc_organization_id u with Some k => _ | None => _ end); done.
    + rewrite (bool_decide_eq_false_2 (Some uo = _)) by naive_solver.
      rewrite (bool_decide_eq_false_2 (o_organization_id o = uo)) by naive_solver.
      cbn. by repeat case_match.
Qed.

Lemma public_admission_mirrors_execution_policy_witness :
  public_order_owner_admission_clause (db Demo.placed) Demo.ask
  = order_owner_is_execution_eligible (db Demo.placed) Demo.ask (Some Demo.supplier) (Some Demo.refinery)
  ∧ public_order_owner_admission_clause (db Demo.placed) Demo.ask = true.
Proof.
  split; [|vm_compute; reflexivity].
  apply (public_admission_mirrors_execution_policy (db Demo.placed) Demo.ask 12 Demo.refinery);
    [exact Demo.placed_keyed|reflexivity|reflexivity].
Defined.
