(* ===== verification/TradeViews.v ===== *)
(** * What a viewer sees of a trade

    [build_trade_response] of [app/routers/trades.py] and the [TradeResponse]
    of [app/schemas/orderbook.py].  An anonymous trade shows a party only
    itself until it is confirmed, and never shows an outsider anybody; the
    seller's fee is the seller's and an administrator's to see. *)

From S2P Require Import Prelude Catalog Calendar AvailabilityWindows Schema Constraints Database Scenario Policy Eligibility.
Local Open Scope Z_scope.

Record TradeResponse := MkTradeResponse {
  tr_id : uuid;
  tr_bid_order_id : option uuid;
  tr_ask_order_id : option uuid;
  tr_buyer_id : option uuid;
  tr_seller_id : option uuid;
  tr_buyer_name : string;
  tr_seller_name : string;
  tr_initiated_by : Initiator;
  tr_is_anonymous : bool;
  tr_quantity_mt : Z;
  tr_price_per_mt_usd : Z;
  tr_status : TradeStatus;
  tr_final_quantity_mt : option Z;
  tr_final_price_per_mt : option Z;
  tr_final_total_usd : option Z;
  tr_commission_rate_pct : Z;
  tr_commission_fee_per_mt_usd : option Z;
  tr_commission_plan : option string;
  tr_commission_payer : option string;
  tr_commission_amount_usd : option Z;
  tr_confirmed_at : option datetime;
  tr_delivered_at : option datetime;
  tr_paid_at : option datetime;
  tr_created_at : datetime;
  tr_product_id : option uuid;
  tr_product_name : string;
  tr_market_product : option string;
  tr_fuel_type : string;
  tr_fuel_grade : string;
  tr_delivery_point_id : option uuid;
  tr_delivery_point_name : option string;
  tr_availability_window : option string;
  tr_region : string;
  tr_source_kind : json;
  tr_scope : json;
  tr_demo_status : json;
  tr_unknown_count : json;
}.

Definition ANONYMOUS_TRADE_HANDOFF_STATUSES : list TradeStatus := [CONFIRMED; DELIVERED; PAID].

(** [provenance["key"]] *)
Definition member (key : string) (l : list (string * json)) : json :=
  default JNull (snd <$> head (filter (λ kv, kv.1 = key) l)).

(** The two parties as a viewer sees them: ids and names. *)
Definition visible_parties (t : Trade) (buyer_name seller_name : string) (viewer_org_id : option uuid)
    : (option uuid * string) * (option uuid * string) :=
  let viewer_is_buyer := bool_decide (viewer_org_id = Some (t_buyer_id t)) in
  let viewer_is_seller := bool_decide (viewer_org_id = Some (t_seller_id t)) in
  let handoff_complete := bool_decide (t_status t ∈ ANONYMOUS_TRADE_HANDOFF_STATUSES) in
  let buyer := (Some (t_buyer_id t), buyer_name) in
  let seller := (Some (t_seller_id t), seller_name) in
  let anonymous := (None, "Anonymous") in
  if negb (t_is_anonymous t) then (buyer, seller)
  else if negb (viewer_is_buyer || viewer_is_seller) then (anonymous, anonymous)
  else if handoff_complete then (buyer, seller)
  else if viewer_is_buyer then (buyer, anonymous)
  else (anonymous, seller).

(** [buyer] and [seller] are the loaded relationships. *)
Definition build_trade_response (t : Trade) (buyer seller : option Organization)
    (viewer_org_id : option uuid) (viewer_is_admin : bool) : TradeResponse :=
  let buyer_name := default "" (g_name <$> buyer) in
  let seller_name := default "" (g_name <$> seller) in
  let parties := visible_parties t buyer_name seller_name viewer_org_id in
  let provenance := trade_market_provenance t in
  let has_seller_fee_snapshot := bool_decide (t_commission_fee_per_mt_usd t ≠ None) in
  let can_view_seller_fee := viewer_is_admin || bool_decide (viewer_org_id = Some (t_seller_id t)) in
  {| tr_id := t_id t;
     tr_bid_order_id := t_bid_order_id t;
     tr_ask_order_id := t_ask_order_id t;
     tr_buyer_id := parties.1.1;
     tr_seller_id := parties.2.1;
     tr_buyer_name := parties.1.2;
     tr_seller_name := parties.2.2;
     tr_initiated_by := t_initiated_by t;
     tr_is_anonymous := t_is_anonymous t;
     tr_quantity_mt := t_quantity_mt t;
     tr_price_per_mt_usd := t_price_per_mt_usd t;
     tr_status := t_status t;
     tr_final_quantity_mt := t_final_quantity_mt t;
     tr_final_price_per_mt := t_final_price_per_mt t;
     tr_final_total_usd := t_final_total_usd t;
     tr_commission_rate_pct := t_commission_rate_pct t;
     tr_commission_fee_per_mt_usd :=
       if can_view_seller_fee then t_commission_fee_per_mt_usd t else None;
     tr_commission_plan := if can_view_seller_fee then t_commission_plan t else None;
     tr_commission_payer := if has_seller_fee_snapshot then Some "SELLER" else None;
     tr_commission_amount_usd :=
       if can_view_seller_fee || negb has_seller_fee_snapshot then t_commission_amount_usd t else None;
     tr_confirmed_at := t_confirmed_at t;
     tr_delivered_at := t_delivered_at t;
     tr_paid_at := t_paid_at t;
     tr_created_at := t_created_at t;
     tr_product_id := t_product_id t;
     tr_product_name := default "" (t_product_name t);
     tr_market_product := t_market_product t;
     tr_fuel_type := default "" (t_fuel_type t);
     tr_fuel_grade := default "" (t_fuel_grade t);
     tr_delivery_point_id := t_delivery_point_id t;
     tr_delivery_point_name := t_delivery_point_name t;
     tr_availability_window := t_availability_window t;
     tr_region := default "" (t_delivery_point_region t);
     tr_source_kind := member "source_kind" provenance;
     tr_scope := member "scope" provenance;
     tr_demo_status := member "demo_status" provenance;
     tr_unknown_count := member "unknown_count" provenance |}.

(** [response.model_dump(mode="json")] *)
Definition response_body (r : TradeResponse) : json :=
  JObj [ ("id", JUuid (tr_id r));
         ("bid_order_id", jopt JUuid (tr_bid_order_id r));
         ("ask_order_id", jopt JUuid (tr_ask_order_id r));
         ("buyer_id", jopt JUuid (tr_buyer_id r));
         ("seller_id", jopt JUuid (tr_seller_id r));
         ("buyer_name", JStr (tr_buyer_name r));
         ("seller_name", JStr (tr_seller_name r));
         ("initiated_by", JStr (Initiator_value (tr_initiated_by r)));
         ("is_anonymous", JBool (tr_is_anonymous r));
         ("quantity_mt", JDec (tr_quantity_mt r));
         ("price_per_mt_usd", JDec (tr_price_per_mt_usd r));
         ("status", JStr (TradeStatus_value (tr_status r)));
         ("final_quantity_mt", jopt JDec (tr_final_quantity_mt r));
         ("final_price_per_mt", jopt JDec (tr_final_price_per_mt r));
         ("final_total_usd", jopt JDec (tr_final_total_usd r));
         ("commission_rate_pct", JRate (tr_commission_rate_pct r));
         ("commission_fee_per_mt_usd", jopt JDec (tr_commission_fee_per_mt_usd r));
         ("commission_plan", jopt JStr (tr_commission_plan r));
         ("commission_payer", jopt JStr (tr_commission_payer r));
         ("commission_amount_usd", jopt JDec (tr_commission_amount_usd r));
         ("confirmed_at", jopt JTime (tr_confirmed_at r));
         ("delivered_at", jopt JTime (tr_delivered_at r));
         ("paid_at", jopt JTime (tr_paid_at r));
         ("created_at", JTime (tr_created_at r));
         ("product_id", jopt JUuid (tr_product_id r));
         ("product_name", JStr (tr_product_name r));
         ("market_product", jopt JStr (tr_market_product r));
         ("fuel_type", JStr (tr_fuel_type r));
         ("fuel_grade", JStr (tr_fuel_grade r));
         ("delivery_point_id", jopt JUuid (tr_delivery_point_id r));
         ("delivery_point_name", jopt JStr (tr_delivery_point_name r));
         ("availability_window", jopt JStr (tr_availability_window r));
         ("region", JStr (tr_region r));
         ("source_kind", tr_source_kind r);
         ("scope", tr_scope r);
         ("demo_status", tr_demo_status r);
         ("unknown_count", tr_unknown_count r) ].

(** The response a session builds: the parties of a loaded trade are loaded. *)
Definition trade_response (t : Trade) (viewer_org_id : option uuid) (viewer_is_admin : bool)
    : M World TradeResponse :=
  d ← get_db;
  mret (build_trade_response t (organizations d !! t_buyer_id t) (organizations d !! t_seller_id t)
          viewer_org_id viewer_is_admin).

(** [app/services/activity.py]: the provenance of an event about a trade. *)
Definition first_of (l : list (option datetime)) : option datetime := head (omap id l).
Definition trade_activity_provenance (t : Trade) : list (string * json) :=
  let created := Some (t_created_at t) in
  let observed_at :=
    match t_status t with
    | PAID => first_of [t_paid_at t; t_delivered_at t; t_confirmed_at t; created]
    | DELIVERED => first_of [t_delivered_at t; t_confirmed_at t; created]
    | CONFIRMED => first_of [t_confirmed_at t; created]
    | _ => created
    end in
  trade_market_provenance t ++ [("observed_at", jopt JTime observed_at)].

(** ** What a response reveals *)

(** The trade with other parties, under the same provenance and terms. *)
Definition with_buyer (t : Trade) (org : uuid) (user : option uuid) : Trade :=
  t <| t_buyer_id := org |> <| t_buyer_user_id := user |>.
Definition with_seller (t : Trade) (org : uuid) (user : option uuid) : Trade :=
  t <| t_seller_id := org |> <| t_seller_user_id := user |>.
Definition with_seller_fee (t : Trade) (fee : Z) (plan : option string) (amount : option Z) : Trade :=
  t <| t_commission_fee_per_mt_usd := Some fee |> <| t_commission_plan := plan |>
    <| t_commission_amount_usd := amount |>.

(** C34: An anonymous trade does not leak the counterparty.  Until it is
    confirmed, the response to one party is the same whoever the other party
    is; an outsider's response is the same whoever both parties are, at every
    stage; and nobody but the seller and an administrator can tell one seller
    fee from another.  The responses are equal as a whole, so
    no field of them carries the hidden identity or fee. *)
Theorem anonymous_response_hides_counterparty t buyer seller other_org other_user buyer' seller' viewer admin :
  t_is_anonymous t = true → viewer ≠ Some other_org →
  (t_status t ∉ ANONYMOUS_TRADE_HANDOFF_STATUSES → viewer = Some (t_buyer_id t) → t_buyer_id t ≠ t_seller_id t →
   build_trade_response (with_seller t other_org other_user) buyer seller' viewer admin
   = build_trade_response t buyer seller viewer admin)
  ∧ (t_status t ∉ ANONYMOUS_TRADE_HANDOFF_STATUSES → viewer = Some (t_seller_id t) → t_buyer_id t ≠ t_seller_id t →
     build_trade_response (with_buyer t other_org other_user) buyer' seller viewer admin
     = build_trade_response t buyer seller viewer admin)
  ∧ (viewer ≠ Some (t_buyer_id t) → viewer ≠ Some (t_seller_id t) →
     build_trade_response (with_buyer t other_org other_user) buyer' seller' viewer admin
     = build_trade_response t buyer seller viewer admin
     ∧ build_trade_response (with_seller t other_org other_user) buyer' seller' viewer admin
       = build_trade_response t buyer seller viewer admin)
  ∧ (∀ fee fee' plan plan' amount amount', viewer ≠ Some (t_seller_id t) → admin = false →
     build_trade_response (with_seller_fee t fee plan amount) buyer seller viewer admin
     = build_trade_response (with_seller_fee t fee' plan' amount') buyer seller viewer admin).
Proof.
  intros Hanon Hother. unfold build_trade_response, visible_parties. cbn. rewrite Hanon. cbn.
  assert (bool_decide (viewer = Some other_org) = false) as Ho by (by apply bool_decide_eq_false).
  split_and!.
  - intros Hs -> Hne. rewrite Ho, (bool_decide_eq_false_2 (_ ∈ _)) by done.
    rewrite (bool_decide_eq_true_2 (Some _ = Some (t_buyer_id t))) by done.
    rewrite (bool_decide_eq_false_2 (Some _ = Some (t_seller_id t))) by congruence. done.
  - intros Hs -> Hne. rewrite Ho, (bool_decide_eq_false_2 (_ ∈ _)) by done.
    rewrite (bool_decide_eq_true_2 (Some _ = Some (t_seller_id t))) by done.
    rewrite (bool_decide_eq_false_2 (Some _ = Some (t_buyer_id t))) by congruence. done.
  - intros Hb Hs. rewrite Ho, (bool_decide_eq_false_2 (viewer = Some (t_buyer_id t))) by done.
    by rewrite (bool_decide_eq_false_2 (viewer = Some (t_seller_id t))).
  - intros * Hs ->. rewrite (bool_decide_eq_false_2 (viewer = Some (t_seller_id t))) by done. done.
Qed.

Lemma anonymous_response_hides_counterparty_witness :
  build_trade_response (with_seller Demo.pending 3 (Some 13%N)) None None (Some 1%N) false
  = build_trade_response Demo.pending None None (Some 1%N) false
  ∧ build_trade_response (with_seller_fee Demo.pending 500 None None) None None (Some 1%N) false
    = build_trade_response (with_seller_fee Demo.pending 200 None None) None None (Some 1%N) false.
Proof.
  destruct (anonymous_response_hides_counterparty Demo.pending None None 3 (Some 13%N) None None (Some 1%N) false)
    as (H1 & _ & _ & H2); [reflexivity|discriminate|].
  split; [|apply H2; [discriminate|reflexivity]].
  apply H1; [|reflexivity|discriminate]. rewrite <-(bool_decide_eq_true (_ ∈ _)). discriminate.
Defined.
