(* ===== verification/Events.v ===== *)
(** * What a transaction leaves for others to read

    [app/services/org_notifications.py]: the fan-out of a notification to the
    users of an organization.  [app/services/audit_service.py]: the audit log.
    [app/services/market_events.py]: the durable event outbox with its
    participant-scoped envelopes.  All rows are written inside the caller's
    transaction.  A query without ORDER BY returns its rows in key order here. *)

From S2P Require Import Prelude Catalog Calendar AvailabilityWindows Schema Constraints Database.

(** ** Notifications *)

Record OrgNotification := MkOrgNotification {
  on_org : uuid;
  on_type : NotificationType;
  on_title : string;
  on_message : detail;
  on_data : option json;
}.

(** The users of an organization. *)
Definition users_of_org (d : Database) (org : uuid) : list User :=
  filter (λ u, u_organization_id u = Some org) (snd <$> map_to_list (users d)).

Definition notification_for (n : OrgNotification) (u : User) : Notification :=
  MkNotification (u_id u) (on_type n) (on_title n) (on_message n) (default (JObj []) (on_data n)).

Definition notify_org_users_batched (pending : list OrgNotification) : M World unit :=
  match pending with
  | [] => mret tt
  | _ =>
      d ← get_db;
      iterM (λ n, iterM (λ u, add_notification (notification_for n u)) (users_of_org d (on_org n)))
            pending
  end.

Definition notify_org_users (org_id : uuid) (notif_type : NotificationType) (title : string)
    (message : detail) (data : option json) : M World unit :=
  notify_org_users_batched [MkOrgNotification org_id notif_type title message data].

(** ** Audit *)

(** The request context (IP address and request id) is not modelled. *)
Definition record_audit (user_id : option uuid) (action resource_type : string)
    (resource_id : option uuid) (changes : json) : M World unit :=
  add_audit_log (MkAuditLog user_id action resource_type resource_id changes).

(** [app/services/audit_actions.py] *)
Definition ORDER_EXPIRED : string := "order.expired".
Definition TRADE_CREATED : string := "trade.created".
Definition TRADE_CONFIRMED : string := "trade.confirmed".
Definition TRADE_DECLINED : string := "trade.declined".
Definition TRADE_DELIVERED : string := "trade.delivered".
Definition TRADE_PAID : string := "trade.paid".

(** ** Market events *)

Definition MARKET_EVENT_SCHEMA_VERSION : Z := 1.
Definition PUBLIC_MARKET_INVALIDATION_KEY : string := "_public_market_invalidation".

Definition payload := list (string * json).

Definition payload_has (key : string) (p : payload) : bool := bool_decide (key ∈ p.*1).

(** [dict.setdefault] *)
Definition version_market_event_payload (p : payload) : payload :=
  if payload_has "schema_version" p then p
  else p ++ [("schema_version", JInt MARKET_EVENT_SCHEMA_VERSION)].

Record MarketEventEnvelope := MkMarketEventEnvelope {
  ev_event_type : string;
  ev_aggregate_type : string;
  ev_aggregate_id : uuid;
  ev_participant_org_ids : list uuid;
  ev_payload : payload;
}.

(** [sorted(set(ids), key=str)] *)
Definition sorted_set (ids : list uuid) : list uuid :=
  merge_sort N.le (elements (list_to_set ids : gset uuid)).

(** [__post_init__]; the text of a UUID is never blank. *)
Definition envelope (event_type aggregate_type : string) (aggregate_id : uuid)
    (participant_org_ids : list uuid) (p : payload) : res MarketEventEnvelope :=
  match sorted_set participant_org_ids with
  | [] => Exc (ValueError (Msg "market events require at least one participant organization"))
  | participants =>
      if bool_decide (strip event_type = "") || bool_decide (strip aggregate_type = "")
      then Exc (ValueError (Msg "market event type and aggregate type are required"))
      else Val (MkMarketEventEnvelope event_type aggregate_type aggregate_id participants p)
  end.

Definition participant_market_event (event_type aggregate_type : string) (aggregate_id : uuid)
    (participant_org_ids : list uuid) (p : payload) (public_market_invalidation : bool)
    : res MarketEventEnvelope :=
  if payload_has PUBLIC_MARKET_INVALIDATION_KEY p
  then Exc (ValueError (Msg "public market invalidation marker is transport-owned"))
  else
    let stored := version_market_event_payload p in
    let stored := if public_market_invalidation
                  then stored ++ [(PUBLIC_MARKET_INVALIDATION_KEY, JBool true)] else stored in
    envelope event_type aggregate_type aggregate_id participant_org_ids stored.

Definition outbox_row (e : MarketEventEnvelope) : MarketEventOutbox :=
  MkMarketEventOutbox (ev_event_type e) (ev_aggregate_type e) (ev_aggregate_id e)
    (ev_participant_org_ids e) (JObj (ev_payload e)).

(** The wake-up NOTIFY carries no data and is left out. *)
Definition enqueue_market_events (events : list MarketEventEnvelope) : M World unit :=
  iterM (λ e, add_outbox (outbox_row e)) events ;;
  match events with [] => mret tt | _ => flush end.

Definition commit_market_events (events : list MarketEventEnvelope) : M World unit :=
  enqueue_market_events events ;; commit.

(** ** Facts *)

Lemma sorted_set_elem x ids : x ∈ sorted_set ids ↔ x ∈ ids.
Proof.
  unfold sorted_set. rewrite (merge_sort_Permutation N.le), elem_of_elements, elem_of_list_to_set.
  done.
Qed.

Lemma sorted_set_NoDup ids : NoDup (sorted_set ids).
Proof. unfold sorted_set. rewrite (merge_sort_Permutation N.le). apply NoDup_elements. Qed.

#[export] Instance N_le_total : Total N.le.
Proof. intros x y. lia. Qed.

Lemma sorted_set_sorted ids : StronglySorted N.le (sorted_set ids).
Proof. apply (StronglySorted_merge_sort N.le). Qed.

Lemma participant_event_returns ty agg id ids p b x :
  x ∈ ids → payload_has PUBLIC_MARKET_INVALIDATION_KEY p = false → strip ty ≠ "" → strip agg ≠ "" →
  ∃ e, participant_market_event ty agg id ids p b = Val e.
Proof.
  intros Hx Hp Hty Hagg. unfold participant_market_event. rewrite Hp. unfold envelope.
  apply sorted_set_elem in Hx. destruct (sorted_set ids); [by apply elem_of_nil in Hx|].
  rewrite !bool_decide_eq_false_2 by done. eauto.
Qed.

(** The rows these operations append are the only change they make. *)
Definition only_events : relation World := λ w w',
  committed w' = committed w ∧ settings w' = settings w ∧ clock w' = clock w
  ∧ orders (db w') = orders (db w) ∧ trades (db w') = trades (db w)
  ∧ inventory (db w') = inventory (db w) ∧ users (db w') = users (db w)
  ∧ organizations (db w') = organizations (db w) ∧ products (db w') = products (db w)
  ∧ delivery_points (db w') = delivery_points (db w) ∧ ports (db w') = ports (db w)
  ∧ subscriptions (db w') = subscriptions (db w)
  ∧ command_results (db w') = command_results (db w)
  ∧ staff_capabilities (db w') = staff_capabilities (db w)
  ∧ support_contexts (db w') = support_contexts (db w)
  ∧ support_authorizations (db w') = support_authorizations (db w)
  ∧ negotiations (db w') = negotiations (db w)
  ∧ negotiation_rounds (db w') = negotiation_rounds (db w)
  ∧ rfqs (db w') = rfqs (db w) ∧ rfq_quotes (db w') = rfq_quotes (db w).

#[export] Instance only_events_preorder : PreOrder only_events.
Proof.
  split; [by repeat split|]. intros a b c Hab Hbc. unfold only_events in *.
  destruct_and!. split_and!; congruence.
Qed.

#[export] Instance only_events_symmetric : Symmetric only_events.
Proof. intros a b H. unfold only_events in *. destruct_and!. by split_and!. Qed.

Lemma only_events_clock w w' : only_events w w' → clock w' = clock w.
Proof. intros H. apply H. Qed.
Lemma only_events_same_db w w' :
  db w' = db w → committed w' = committed w → settings w' = settings w → clock w' = clock w →
  only_events w w'.
Proof. unfold only_events. intros -> -> -> ->. done. Qed.

Lemma reads_only_events w w' : reads w w' → only_events w w'.
Proof. intros (? & ? & ? & ?). by apply only_events_same_db. Qed.
Lemma keeps_reads_only_events {A} (m : M World A) : Keeps reads m → Keeps only_events m.
Proof. intros H w. apply reads_only_events, H. Qed.
#[export] Hint Extern 5 (Keeps only_events _) =>
  apply keeps_reads_only_events; solve [eauto 3 with keeps] : keeps.
Lemma only_events_notification n : Keeps only_events (add_notification n).
Proof. by repeat split. Qed.
Lemma only_events_audit a : Keeps only_events (add_audit_log a).
Proof. by repeat split. Qed.
Lemma only_events_outbox e : Keeps only_events (add_outbox e).
Proof. by repeat split. Qed.
Lemma only_events_watch e : Keeps only_events (add_watchlist_event e).
Proof. by repeat split. Qed.
Lemma only_events_target x : Keeps only_events (put_target x).
Proof. by repeat split. Qed.
Lemma only_events_benchmark x : Keeps only_events (put_benchmark x).
Proof. by repeat split. Qed.
Lemma only_events_delete_benchmark x : Keeps only_events (delete_benchmark x).
Proof. by repeat split. Qed.
Lemma only_events_referral x : Keeps only_events (put_referral x).
Proof. by repeat split. Qed.
#[export] Hint Resolve only_events_notification only_events_audit only_events_outbox only_events_watch
  only_events_target only_events_benchmark only_events_delete_benchmark
  only_events_referral : keeps.

Lemma only_events_notify_batched l : Keeps only_events (notify_org_users_batched l).
Proof. unfold notify_org_users_batched. keeps. Qed.
Lemma only_events_notify org ty title msg data : Keeps only_events (notify_org_users org ty title msg data).
Proof. apply only_events_notify_batched. Qed.
Lemma only_events_record_audit u a t i c : Keeps only_events (record_audit u a t i c).
Proof. apply only_events_audit. Qed.
Lemma only_events_enqueue l : Keeps only_events (enqueue_market_events l).
Proof. unfold enqueue_market_events. keeps. Qed.
#[export] Hint Resolve only_events_notify_batched only_events_notify only_events_record_audit
  only_events_enqueue : keeps.

(** Read the goal's tables in the earlier state. *)
Ltac rewrite_tables H :=
  unfold only_events in H; destruct_and! H;
  repeat match goal with E : ?f (db ?w') = ?f (db ?w) |- _ => rewrite E; clear E end.

(** [database_checks] reads only the tables [only_events] keeps. *)
Lemma only_events_checks w w' : only_events w w' → database_checks (db w) ↔ database_checks (db w').
Proof.
  intros H. unfold database_checks, unique_checks, side_checks, support_checks, negotiation_checks, rfq_checks. by rewrite_tables H.
Qed.

Lemma enqueue_returns l w : database_checks (db w) → Succeeds (enqueue_market_events l) w.
Proof.
  intros Hc. unfold enqueue_market_events.
  apply succeeds_bind.
  { apply (succeeds_iterM _ _ (λ _, True)); [|done..]. intros e w1 _ _. apply succeeds_modify. }
  intros [] w1 Hrun. destruct l; [apply succeeds_ret|].
  eexists _, _. apply flush_run. apply (only_events_checks w w1); [|done].
  eapply keeps_ok; [|exact Hrun]. keeps.
Qed.

Lemma notify_returns pending w : Succeeds (notify_org_users_batched pending) w.
Proof.
  unfold notify_org_users_batched. destruct pending; [apply succeeds_ret|].
  apply succeeds_bind; [apply succeeds_gets|]. intros d w1 _.
  apply (succeeds_iterM _ _ (λ _, True)); [|done..]. intros n w2 _ _.
  apply (succeeds_iterM _ _ (λ _, True)); [|done..]. intros u w3 _ _. apply succeeds_modify.
Qed.
