(* ===== verification/Commands.v ===== *)
(** * Idempotent commands

    [app/services/idempotency.py]: keys, request hashes and the lock that
    serializes requests with one key.  [app/services/command_results.py]: the
    stored result of a lifecycle command, replayed when the same actor repeats
    the command with the same key.  Lock and statement timeouts are not
    modelled. *)

From Stdlib Require Import Ascii.
From S2P Require Import Prelude Sha256 Catalog Calendar AvailabilityWindows Decimal Json Schema Constraints Database Scenario Events.
Local Open Scope Z_scope.

(** ** [idempotency.py] *)

Definition ORDER_CREATE_OPERATION : string := "order.create".
Definition TRADE_CREATE_OPERATION : string := "trade.create".
Definition INVENTORY_PUBLISH_OPERATION : string := "inventory.publish".

Definition normalize_idempotency_key (raw : string) : res string :=
  let key := strip raw in
  if bool_decide (key = "") || bool_decide (255 < String.length key)%nat
  then Exc (HTTPException 400 (Msg "Idempotency-Key must be 1-255 characters"))
  else Val key.

(** The payload is JSON already: [default=str] is never reached. *)
Definition idempotency_request_hash (payload : jvalue) : string :=
  sha256_hexdigest (dumps true payload).

(** The 64-bit key of the advisory lock; [locks] records what it is made of. *)
Definition idempotency_lock_key (lock_scope_id : uuid) (operation key : string) : Z :=
  let text := uuid_text lock_scope_id +:+ "|" +:+ operation +:+ "|" +:+ key in
  let words := sha256_words (bytes_of_string text) in
  let unsigned := Z.of_N (N.lor (N.shiftl (nth 0 words 0%N) 32) (nth 1 words 0%N)) in
  let signed := if unsigned <? 2 ^ 63 then unsigned else unsigned - 2 ^ 64 in
  if signed =? 0 then 1 else signed.

Definition acquire_idempotency_lock (lock_scope_id : uuid) (operation key : string) : M World unit :=
  take_lock (AdvisoryIdempotency lock_scope_id operation key).

(** ** [command_results.py] *)

Definition TRADE_CONFIRM_OPERATION : string := "trade.confirm".
Definition TRADE_DECLINE_OPERATION : string := "trade.decline".
Definition TRADE_DELIVER_OPERATION : string := "trade.deliver".
Definition TRADE_PAY_OPERATION : string := "trade.pay".
Definition ORDER_AMEND_OPERATION : string := "order.amend".
Definition ORDER_CANCEL_OPERATION : string := "order.cancel".

(** The payload after [_canonical_value], which [Json] prints value by value. *)
Definition command_request_hash (payload : jvalue) : string :=
  sha256_hexdigest (dumps true payload).

Record CommandAttempt := MkCommandAttempt {
  ca_actor_user_id : uuid;
  ca_effective_organization_id : uuid;
  ca_support_context_id : option uuid;
  ca_operation : string;
  ca_idempotency_key : string;
  ca_request_hash : string;
  ca_resource_type : string;
  ca_resource_id : uuid;
  ca_replay : option MarketCommandResult;
}.

(** The unique stored result of an actor's command. *)
Definition stored_result (d : Database) (actor_user_id : uuid) (operation key : string)
    : option MarketCommandResult :=
  head (filter (λ r, cr_actor_user_id r = actor_user_id ∧ cr_operation r = operation
                     ∧ cr_idempotency_key r = key)
               (snd <$> map_to_list (command_results d))).

(** The guard that a key is reused for the same request only. *)
Definition replay_mismatch (attempt : CommandAttempt) (r : MarketCommandResult) : bool :=
  bool_decide (cr_request_hash r ≠ ca_request_hash attempt)
  || bool_decide (cr_effective_organization_id r ≠ ca_effective_organization_id attempt)
  || bool_decide (cr_support_context_id r ≠ ca_support_context_id attempt)
  || bool_decide (cr_resource_type r ≠ ca_resource_type attempt)
  || bool_decide (cr_resource_id r ≠ ca_resource_id attempt).

Definition prepare_command_attempt (raw_key : option string) (actor_user_id : uuid)
    (effective_organization_id support_context_id : option uuid)
    (operation resource_type : string) (resource_id : uuid) (payload : jvalue)
    : M World (option CommandAttempt) :=
  match raw_key with
  | None => mret None
  | Some raw =>
      key ← lift (normalize_idempotency_key raw);
      match effective_organization_id with
      | None => raise (HTTPException 403 (Msg "Market organization is required"))
      | Some organization_id =>
          let request_hash := command_request_hash payload in
          acquire_idempotency_lock actor_user_id operation key ;;
          d ← get_db;
          let replay := stored_result d actor_user_id operation key in
          let attempt := MkCommandAttempt actor_user_id organization_id support_context_id operation
                           key request_hash resource_type resource_id replay in
          refuse (match replay with Some r => replay_mismatch attempt r | None => false end)
            (HTTPException 409 (Msg "Idempotency-Key was reused with a different request or actor context")) ;;
          mret (Some attempt)
      end
  end.

Definition command_result_row (id : uuid) (attempt : CommandAttempt) (response_status : Z)
    (response_body : json) : MarketCommandResult :=
  MkMarketCommandResult id (ca_actor_user_id attempt) (ca_effective_organization_id attempt)
    (ca_support_context_id attempt) (ca_operation attempt) (ca_idempotency_key attempt)
    (ca_request_hash attempt) (ca_resource_type attempt) (ca_resource_id attempt)
    response_status response_body.

Definition record_command_success (attempt : option CommandAttempt) (response_status : Z)
    (response_body : json) : M World unit :=
  match attempt with
  | None => mret tt
  | Some a =>
      refuse (bool_decide (ca_replay a ≠ None))
        (ValueError (Msg "A replay cannot record a second command result")) ;;
      d ← get_db;
      put_command_result (command_result_row (fresh_id (command_results d)) a response_status response_body) ;;
      flush
  end.

(** ** Facts *)

Lemma reads_acquire_idempotency_lock a b c : Keeps reads (acquire_idempotency_lock a b c).
Proof. apply reads_take_lock. Qed.
#[export] Hint Resolve reads_acquire_idempotency_lock : keeps.
Lemma reads_prepare_command raw a b c d e f g : Keeps reads (prepare_command_attempt raw a b c d e f g).
Proof. unfold prepare_command_attempt. keeps. Qed.
#[export] Hint Resolve reads_prepare_command : keeps.

(** The unique constraint makes the stored result the only one. *)
Lemma stored_result_unique d i r :
  database_checks d → command_results d !! i = Some r →
  stored_result d (cr_actor_user_id r) (cr_operation r) (cr_idempotency_key r) = Some r.
Proof.
  intros (_ & _ & _ & _ & _ & (_ & _ & _ & _ & Hu) & _) Hr. unfold stored_result.
  destruct (filter _ _) as [|r' l] eqn:Hf.
  - assert (r ∈ ([] : list MarketCommandResult)) as Hin; [|by apply elem_of_nil in Hin].
    rewrite <-Hf. apply list_elem_of_filter. split; [done|].
    apply list_elem_of_fmap. exists (i, r). by rewrite elem_of_map_to_list.
  - assert (r' ∈ r' :: l) as Hin by left. rewrite <-Hf in Hin.
    apply list_elem_of_filter in Hin as ((E1 & E2 & E3) & ([j x] & Hx & Hin)%list_elem_of_fmap).
    cbn in Hx. subst x. apply elem_of_map_to_list in Hin. cbn.
    assert (j = i) as ->; [|congruence].
    apply (proj1 (unique_on_spec _ _) Hu j i r' r Hin Hr); [|done].
    unfold command_result_key. by rewrite E1, E2, E3.
Qed.

(** An attempt whose success the table of results admits. *)
Record attempt_ready (d : Database) (a : CommandAttempt) : Prop := {
  ar_replay : ca_replay a = None;
  ar_free : stored_result d (ca_actor_user_id a) (ca_operation a) (ca_idempotency_key a) = None;
  ar_operation : ca_operation a ∈ ["trade.confirm"; "trade.decline"; "trade.deliver"; "trade.pay";
                                   "order.amend"; "order.cancel"];
  ar_resource : ca_resource_type a ∈ ["trade"; "order"];
  ar_key : (1 <= String.length (sql_space_trim (ca_idempotency_key a)) <= 255)%nat;
  ar_hash : is_sha256_hex (ca_request_hash a);
}.

Lemma normalized_key_length raw key :
  normalize_idempotency_key raw = Val key → (1 <= String.length (sql_space_trim key) <= 255)%nat.
Proof.
  unfold normalize_idempotency_key. destruct (bool_decide (strip raw = "")) eqn:He; [done|].
  destruct (bool_decide (255 < _)%nat) eqn:Hl; [done|]. intros [= <-]. cbn [orb] in *.
  apply bool_decide_eq_false in He, Hl.
  assert (sql_space_trim (strip raw) = strip raw) as ->.
  { apply strip_by_again. intros c Hc%Ascii.eqb_eq. by subst. }
  destruct (strip raw); [done|]. cbn in *. lia.
Qed.

Lemma checks_new_command_result d r :
  database_checks d → command_results d !! cr_id r = None → command_result_check r →
  stored_result d (cr_actor_user_id r) (cr_operation r) (cr_idempotency_key r) = None →
  database_checks (d <| command_results := <[ cr_id r := r ]> (command_results d) |>).
Proof.
  intros Hd Hnew Hr Hfree. pose proof Hd as (H1 & H2 & H3 & H4 & H5 & (U1 & U2 & U3 & U4 & U5) & S).
  unfold database_checks, unique_checks. cbn. split_and!; try done.
  - by apply map_Forall_insert_2.
  - apply unique_on_insert; [done..|]. intros j r' Hj Heq. exfalso.
    pose proof (stored_result_unique d j r' Hd Hj) as Hs.
    unfold command_result_key in Heq. injection Heq as E1 E2 E3. rewrite <-E1, <-E2, <-E3 in Hs. congruence.
Qed.

(** Recording a ready attempt returns, and adds its row. *)
Definition recorded (d : Database) (command : option CommandAttempt) (status : Z) (body : json) : Database :=
  match command with
  | None => d
  | Some a => d <| command_results := <[ fresh_id (command_results d) :=
                command_result_row (fresh_id (command_results d)) a status body ]> (command_results d) |>
  end.

Lemma recorded_checks d command status body :
  database_checks d → (∀ a, command = Some a → attempt_ready d a) → 200 <= status <= 299 →
  database_checks (recorded d command status body).
Proof.
  intros Hd Ha Hs. destruct command as [a|]; [|done]. destruct (Ha a eq_refl) as [A1 A2 A3 A4 A5 A6].
  apply (checks_new_command_result d (command_result_row _ a status body)); [done|apply fresh_id_none| |done].
  exact (conj A3 (conj A4 (conj A5 (conj A6 Hs)))).

Qed.

Lemma record_success_run command status body w :
  database_checks (db w) → (∀ a, command = Some a → attempt_ready (db w) a) → 200 <= status <= 299 →
  ∃ w', record_command_success command status body w = Ok tt w' ∧ database_checks (db w')
    ∧ w' = w <| db := recorded (db w) command status body |>.
Proof.
  intros Hd Ha Hs. pose proof (recorded_checks _ _ _ body Hd Ha Hs) as Hd'.
  destruct command as [a|].
  2: { exists w. split_and!; [done..|]. by destruct w. }
  destruct (Ha a eq_refl) as [A1 _ _ _ _ _]. unfold record_command_success.
  eexists. split.
  - rewrite A1, bool_decide_eq_false_2 by (intros H; by apply H).
    erewrite bind_run by reflexivity. erewrite bind_run by reflexivity. erewrite bind_run by reflexivity.
    apply flush_run. exact Hd'.
  - split; [exact Hd'|done].
Qed.

(** A fresh attempt, and what recording it leaves. *)
Lemma prepare_fresh raw actor org ctx op rt rid payload w a w1 :
  prepare_command_attempt (Some raw) actor (Some org) ctx op rt rid payload w = Ok (Some a) w1 →
  normalize_idempotency_key raw = Val (ca_idempotency_key a)
  ∧ a = MkCommandAttempt actor org ctx op (ca_idempotency_key a) (command_request_hash payload) rt rid
          (stored_result (db w) actor op (ca_idempotency_key a))
  ∧ db w1 = db w.
Proof. unfold prepare_command_attempt, acquire_idempotency_lock. intros H. inv_run H. done. Qed.

Lemma record_success_ok a status body w u w' :
  record_command_success (Some a) status body w = Ok u w' →
  database_checks (db w')
  ∧ command_results (db w') = <[ fresh_id (command_results (db w)) :=
      command_result_row (fresh_id (command_results (db w))) a status body ]> (command_results (db w))
  ∧ db w' = (db w) <| command_results := command_results (db w') |>.
Proof.
  unfold record_command_success. intros H. inv_run H.
  unfold put_command_result, modify in Hrun. inversion Hrun; subst. done.
Qed.

(** A stored response of this actor's command on this resource. *)
Definition stored_response (d : Database) (u : User) (operation : string) (resource_id : uuid)
    (status : Z) (body : json) : Prop :=
  ∃ key r, stored_result d (u_id u) operation key = Some r ∧ cr_resource_id r = resource_id
    ∧ cr_response_status r = status ∧ cr_response_body r = body.

Lemma attempt_ready_ext d d' a :
  command_results d' = command_results d → attempt_ready d a → attempt_ready d' a.
Proof. intros E [A1 A2 A3 A4 A5 A6]. split; try done. unfold stored_result in *. by rewrite E. Qed.

(** Preparing finds a stored response of the same request, or a free key. *)
Lemma prepare_ok raw u org ctx op rt rid payload w command w1 :
  op ∈ ["trade.confirm"; "trade.decline"; "trade.deliver"; "trade.pay"; "order.amend"; "order.cancel"] →
  rt ∈ ["trade"; "order"] →
  prepare_command_attempt raw (u_id u) org ctx op rt rid payload w = Ok command w1 →
  match a ← command; ca_replay a with
  | Some r => stored_response (db w) u op rid (cr_response_status r) (cr_response_body r)
  | None => ∀ a, command = Some a → attempt_ready (db w) a
  end.
Proof.
  intros Hop Hrt Hrun. unfold prepare_command_attempt, acquire_idempotency_lock in Hrun.
  destruct raw as [raw|]; [|by inversion Hrun].
  apply bind_ok in Hrun as (key & w2 & [Hkey ->]%lift_ok & Hrun). destruct org as [org|]; [|discriminate].
  apply bind_ok in Hrun as ([] & w3 & [= <-] & Hrun). apply bind_ok in Hrun as (d & w4 & [= <- <-] & Hrun).
  cbv zeta in Hrun. change (db (set_field _ w)) with (db w) in Hrun.
  set (stored := stored_result (db w) (u_id u) op key) in *.
  apply bind_ok in Hrun as ([] & w5 & [Hmatch ->]%refuse_ok & [= <- <-]). cbn [mbind option_bind ca_replay].
  destruct stored as [r|] eqn:Hstored.
  - exists key, r. unfold replay_mismatch in Hmatch. cbn in Hmatch.
    rewrite !orb_false_iff, !bool_decide_eq_false in Hmatch. destruct Hmatch as [_ Hres%dec_stable].
    by subst stored.
  - intros a [= <-]. split; cbn; try done; [by eapply normalized_key_length|].
    split; [apply sha256_hexdigest_length|]. apply sha256_hexdigest_chars, forall_hex. vm_compute. reflexivity.
Qed.

(** C32: A command runs once per key.  Take a command that was prepared with a
    key, found no stored result and recorded its success.  From then on, while
    the table of results keeps its rows, every request of the same actor,
    organization and resource that carries the same key (up to surrounding
    space) gets the recorded status and body back if its payload hashes to the
    same request, and is refused with HTTP 409 if not; it never finds the key
    free again. *)
Theorem command_runs_once raw actor org ctx op rt rid payload w a w1 w2 status body u w3 raw' payload' w4 :
  prepare_command_attempt (Some raw) actor (Some org) ctx op rt rid payload w = Ok (Some a) w1 →
  record_command_success (Some a) status body w2 = Ok u w3 →
  database_checks (db w4) → command_results (db w3) ⊆ command_results (db w4) →
  strip raw' = strip raw →
  match prepare_command_attempt (Some raw') actor (Some org) ctx op rt rid payload' w4 with
  | Ok attempt w5 =>
      command_request_hash payload' = command_request_hash payload ∧ db w5 = db w4
      ∧ ∃ a' r, attempt = Some a' ∧ ca_replay a' = Some r
          ∧ cr_response_status r = status ∧ cr_response_body r = body
  | Raise e w5 =>
      command_request_hash payload' ≠ command_request_hash payload ∧ db w5 = db w4
      ∧ e = HTTPException 409 (Msg "Idempotency-Key was reused with a different request or actor context")
  end.
Proof.
  intros Hprep Hrec Hchk Hsub Hstrip.
  apply prepare_fresh in Hprep as (Hkey & Ha & _).
  apply record_success_ok in Hrec as (_ & Hres & _).
  set (row := command_result_row (fresh_id (command_results (db w2))) a status body) in Hres.
  assert (command_results (db w4) !! fresh_id (command_results (db w2)) = Some row) as Hrow.
  { eapply lookup_weaken; [|exact Hsub]. rewrite Hres. apply lookup_insert_eq. }
  pose proof (stored_result_unique _ _ _ Hchk Hrow) as Hstored. cbn in Hstored.
  assert (normalize_idempotency_key raw' = Val (ca_idempotency_key a)) as Hkey'.
  { unfold normalize_idempotency_key in *. by rewrite Hstrip. }
  unfold prepare_command_attempt. rewrite Hkey'.
  erewrite bind_run by reflexivity. erewrite bind_run by reflexivity. erewrite bind_run by reflexivity.
  cbv zeta. change (db (w4 <| locks := ?l |>)) with (db w4).
  rewrite Ha in Hstored. cbn in Hstored. rewrite Hstored. unfold replay_mismatch, row. rewrite Ha. cbn.
  destruct (decide (command_request_hash payload = command_request_hash payload')) as [He|He].
  - rewrite !bool_decide_eq_false_2 by (intros Hne; by apply Hne). cbn.
    split_and!; [done..|]. by eexists _, _.
  - rewrite bool_decide_eq_true_2 by done. cbn. by split_and!.
Qed.

(** The shipping line's request under key [k1], and the same again. *)
Definition demo_request : jvalue := VObj [("operation", VStr TRADE_PAY_OPERATION)].
Definition demo_prepare (raw : string) (w : World) : outcome World (option CommandAttempt) :=
  prepare_command_attempt (Some raw) 11 (Some 1%N) None TRADE_PAY_OPERATION "trade" 81 demo_request w.
Definition demo_first : outcome World (option CommandAttempt) := demo_prepare "k1" Demo.placed.
Definition demo_recorded : outcome World unit :=
  match demo_first with
  | Ok a w => record_command_success a 200 (JBool true) w
  | Raise e w => Raise e w
  end.

Lemma command_runs_once_witness :
  ∃ attempt w5, demo_prepare " k1 " (final demo_recorded) = Ok attempt w5
    ∧ db w5 = db (final demo_recorded)
    ∧ ∃ a' r, attempt = Some a' ∧ ca_replay a' = Some r
        ∧ cr_response_status r = 200 ∧ cr_response_body r = JBool true.
Proof.
  assert (match demo_first with Ok (Some _) _ => True | _ => False end) as Hfirst by (vm_compute; exact I).
  assert (match demo_recorded with Ok _ _ => True | _ => False end) as Hrec by (vm_compute; exact I).
  unfold demo_recorded in *. destruct demo_first as [[a|] w1|] eqn:H1; [|destruct Hfirst..].
  destruct (record_command_success (Some a) 200 (JBool true) w1) as [u w3|] eqn:H2; [|destruct Hrec].
  cbn [final]. pose proof (proj1 (record_success_ok _ _ _ _ _ _ H2)) as Hchk.
  pose proof (command_runs_once "k1" 11 1 None TRADE_PAY_OPERATION "trade" 81 demo_request Demo.placed a w1 w1
    200 (JBool true) u w3 " k1 " demo_request w3 H1 H2 Hchk ltac:(reflexivity) ltac:(vm_compute; reflexivity)) as H.
  unfold demo_prepare. destruct (prepare_command_attempt (Some " k1 ") _ _ _ _ _ _ _ w3) as [attempt w5|e w5].
  - exists attempt, w5. split; [reflexivity|exact (proj2 H)].
  - destruct (proj1 H). reflexivity.
Defined.
