(* ===== verification/Watchlist.v ===== *)
(** * Watchlist events

    [app/services/watchlist_events.py]: what the watchers of an order or of a
    slice are told when the book moves.  A snapshot or payload member [float(x)]
    is its value in hundredths; the [observed_at] member of a payload, a row
    timestamp, is left out.  The queries read the flushed tables. *)

From S2P Require Import Prelude Catalog Calendar AvailabilityWindows Decimal Schema Constraints Database Scenario Policy Eligibility Events.
Local Open Scope Z_scope.

Definition BEST_PRICE_MOVE_THRESHOLD_PCT : decimal := MkDecimal 10 (-1).
Definition BENCHMARK_MOVE_THRESHOLD_PCT : decimal := MkDecimal 10 (-1).

(** [if not value: return None] *)
Definition _normalized_window (value : option string) : res (option string) :=
  match value with
  | None | Some "" => Val None
  | Some w => w' ← normalize_availability_window w; Val (Some w')
  end.

(** [{**base, **extra}]: a repeated key keeps its first position. *)
Definition obj_set (base : list (string * json)) (kv : string * json) : list (string * json) :=
  if bool_decide (kv.1 ∈ base.*1)
  then (λ x, if bool_decide (x.1 = kv.1) then kv else x) <$> base
  else base ++ [kv].
Definition obj_update (base extra : list (string * json)) : list (string * json) :=
  foldl obj_set base extra.

(** ** The best price of a slice *)

(** The columns and joins [_best_slice_price_with_provenance] filters on. *)
Definition best_slice_order (d : Database) (market_product_code : string) (delivery_point_id : uuid)
    (window : option string) (side : OrderSide) (now : datetime) (o : Order) : bool :=
  joined_catalog d o (λ product dp,
    active_market_catalog_clauses product dp
    && bool_decide (canonical_market_product_expression product = Some market_product_code))
  && bool_decide (o_delivery_point_id o = Some delivery_point_id)
  && bool_decide (Some (o_availability_window o) = window)
  && bool_decide (o_side o = side)
  && is_active_status (o_status o)
  && current_public_order_clause d o now
  && bool_decide (o_provenance o = REAL ∨ o_provenance o = DEMO ∨ o_provenance o = UNKNOWN)
  && negb (o_off_spec o)
  && (bool_decide (o_side o ≠ ASK)
      || (o_certification_declared o && sql_present (o_certification_scheme o))).

(** [min] for asks and [max] for bids; NULL over no rows. *)
Definition best_price (side : OrderSide) (rows : list Order) : option Z :=
  foldr (λ o acc, Some
    match acc with
    | None => o_price_per_mt_usd o
    | Some p => match side with
                | ASK => Z.min (o_price_per_mt_usd o) p
                | BID => Z.max (o_price_per_mt_usd o) p
                end
    end) None rows.

Definition unknown_provenance_payload : list (string * json) :=
  [ ("source_kind", JStr (MarketSourceKind_value SOURCE_UNKNOWN));
    ("demo_status", JStr (MarketDemoStatus_value STATUS_UNKNOWN));
    ("scope", JStr (MarketScope_value SCOPE_UNKNOWN)) ].

Definition _order_provenance_payload (d : Database) (order : option Order) : res (list (string * json)) :=
  match order with
  | None => Val unknown_provenance_payload
  | Some o =>
      window ← _normalized_window (Some (o_availability_window o));
      Val (obj_update (order_market_provenance d o)
        [ ("market_product_code", jopt JStr (order_market_product d o));
          ("delivery_point_id", jopt JUuid (o_delivery_point_id o));
          ("delivery_point_name", jopt JStr (order_delivery_point_name d o));
          ("availability_window_code", jopt JStr window);
          ("order_id", JUuid (o_id o)) ])
  end.

Definition text_given (x : option string) : bool :=
  match x with Some s => bool_decide (s ≠ "") | None => false end.

Definition _best_slice_price_with_provenance (market_product_code : option string)
    (delivery_point_id : option uuid) (availability_window_code : option string)
    (side : OrderSide) : M World (option Z * list (string * json)) :=
  if negb (text_given market_product_code) || bool_decide (delivery_point_id = None)
     || negb (text_given availability_window_code)
  then mret (None, unknown_provenance_payload)
  else
    let product := default "" market_product_code in
    let dp := default 0%N delivery_point_id in
    window ← lift (_normalized_window availability_window_code);
    d ← get_db;
    now ← db_now;
    let rows := filter (λ o, best_slice_order d product dp window side now o = true)
                       (snd <$> map_to_list (orders d)) in
    let of_provenance p := filter (λ o, o_provenance o = p) rows in
    let count p := Z.of_nat (length (of_provenance p)) in
    let selection := select_aggregate_evidence (count REAL) (count DEMO) (count UNKNOWN) LIVE_ORDER in
    let best := match sel_scope selection with
                | Some SCOPE_REAL => best_price side (of_provenance REAL)
                | Some SCOPE_DEMO => best_price side (of_provenance DEMO)
                | None => None
                end in
    mret (best,
      [ ("source_kind", JStr (MarketSourceKind_value (sel_source_kind selection)));
        ("demo_status", JStr (MarketDemoStatus_value (sel_demo_status selection)));
        ("scope", JStr (MarketScope_value DELIVERY_POINT));
        ("market_product_code", JStr product);
        ("delivery_point_id", JUuid dp);
        ("availability_window_code", jopt JStr window);
        ("real_count", JInt (sel_real_count selection));
        ("demo_count", JInt (sel_demo_count selection));
        ("unknown_count", JInt (sel_unknown_count selection)) ]).

Definition _best_slice_price (market_product_code : option string) (delivery_point_id : option uuid)
    (availability_window_code : option string) (side : OrderSide) : M World (option Z) :=
  r ← _best_slice_price_with_provenance market_product_code delivery_point_id
        availability_window_code side;
  mret r.1.

(** ** Price moves *)

Definition _best_price_changed (old_price new_price : option Z) : bool :=
  bool_decide (old_price ≠ new_price).

Definition _price_move_is_material (old_price new_price : option Z) (threshold_pct : decimal)
    : res bool :=
  match old_price, new_price with
  | Some old, Some new =>
      if (old <=? 0) || (new <=? 0) then Val false
      else if old =? new then Val false
      else
        ratio ← ddiv (dsub (of_cents new) (of_cents old)) (of_cents old);
        Val (dleb threshold_pct (dmul (dabs ratio) (of_int 100)))
  | _, _ => Val false
  end.

Definition _benchmark_provenance_payload (benchmark_source : option string) : list (string * json) :=
  let '(source_kind, demo_status) :=
    if bool_decide (benchmark_source = Some "seed_matrix") then (DEMO_SEED, DEMO_ONLY)
    else if text_given benchmark_source then (BENCHMARK_REFERENCE, NOT_APPLICABLE)
    else (SOURCE_UNKNOWN, STATUS_UNKNOWN) in
  [ ("source_kind", JStr (MarketSourceKind_value source_kind));
    ("demo_status", JStr (MarketDemoStatus_value demo_status));
    ("scope", JStr (MarketScope_value DELIVERY_POINT)) ].

(** ** Events *)

(** The state of an order before a change, as the callers pass it. *)
Record BeforeOrder := MkBeforeOrder {
  bf_price_per_mt_usd : option Z;
  bf_remaining_quantity_mt : option Z;
  bf_status : option OrderBookStatus;
  bf_slice_best_price_per_mt_usd : option Z;
}.

Definition sync_target_snapshot (d : Database) (target : WatchlistTarget) (o : Order)
    (counterparty_label : option string) : res WatchlistTarget :=
  window ← _normalized_window (Some (o_availability_window o));
  Val (target <| w_market_product_code := order_market_product d o |>
              <| w_delivery_point_id := o_delivery_point_id o |>
              <| w_availability_window_code := window |>
              <| w_snapshot_price_per_mt_usd := Some (o_price_per_mt_usd o) |>
              <| w_snapshot_quantity_mt := Some (o_quantity_mt o) |>
              <| w_snapshot_remaining_quantity_mt := Some (o_remaining_quantity_mt o) |>
              <| w_snapshot_status := Some (OrderBookStatus_value (o_status o)) |>
              <| w_snapshot_side := Some (OrderSide_value (o_side o)) |>
              <| w_snapshot_market_product := order_market_product d o |>
              <| w_snapshot_delivery_point_name := order_delivery_point_name d o |>
              <| w_snapshot_availability_window := window |>
              <| w_snapshot_counterparty_label := counterparty_label |>).

Definition create_event (target : WatchlistTarget) (event_type : WatchlistEventType)
    (p : list (string * json)) : M World unit :=
  add_watchlist_event (MkWatchlistEvent (w_watchlist_id target) (w_id target) event_type (JObj p) false).

Definition pin_targets_for_order (d : Database) (order_id : uuid) : list WatchlistTarget :=
  filter (λ t, w_target_type t = PIN ∧ w_order_id t = Some order_id)
         (snd <$> map_to_list (watchlist_targets d)).

Definition slice_targets (d : Database) (market_product : string) (dp : uuid) (window : option string)
    : list WatchlistTarget :=
  filter (λ t, w_target_type t = SLICE ∧ w_market_product_code t = Some market_product
               ∧ w_delivery_point_id t = Some dp ∧ is_Some window
               ∧ w_availability_window_code t = window)
         (snd <$> map_to_list (watchlist_targets d)).

Definition matching_slice_targets (o : Order) : M World (list WatchlistTarget) :=
  d ← get_db;
  window ← lift (_normalized_window (Some (o_availability_window o)));
  mret match order_market_product d o, o_delivery_point_id o with
       | Some product, Some dp => slice_targets d product dp window
       | _, _ => []
       end.

Definition is_terminal_status (s : OrderBookStatus) : bool :=
  bool_decide (s = FILLED ∨ s = CANCELLED ∨ s = EXPIRED).

(** The event a changed remainder raises on a pinned order. *)
Definition pin_quantity_event (s : OrderBookStatus) : WatchlistEventType :=
  match s with
  | PARTIALLY_FILLED => PIN_PARTIALLY_FILLED
  | FILLED => PIN_FILLED
  | CANCELLED => PIN_WITHDRAWN
  | EXPIRED => PIN_EXPIRED
  | OPEN => PIN_QUANTITY_CHANGED
  end.

Definition _emit_pin_target (before : BeforeOrder) (o : Order) (target : WatchlistTarget) : M World unit :=
  d ← get_db;
  material ← lift (_price_move_is_material (bf_price_per_mt_usd before) (Some (o_price_per_mt_usd o))
                     BEST_PRICE_MOVE_THRESHOLD_PCT);
  (if (material : bool) then
     p ← lift (_order_provenance_payload d (Some o));
     create_event target PIN_PRICE_CHANGED (obj_update p
       [ ("old_price_per_mt_usd", jopt JDec (bf_price_per_mt_usd before));
         ("new_price_per_mt_usd", JDec (o_price_per_mt_usd o)) ])
   else mret tt) ;;
  (if match bf_remaining_quantity_mt before with
      | Some old => negb (o_remaining_quantity_mt o =? old)
      | None => false
      end
   then
     p ← lift (_order_provenance_payload d (Some o));
     create_event target (pin_quantity_event (o_status o)) (obj_update p
       [ ("old_remaining_quantity_mt", jopt JDec (bf_remaining_quantity_mt before));
         ("new_remaining_quantity_mt", JDec (o_remaining_quantity_mt o));
         ("status", JStr (OrderBookStatus_value (o_status o))) ])
   else if bool_decide (bf_status before ≠ Some (o_status o)) && is_terminal_status (o_status o)
   then
     p ← lift (_order_provenance_payload d (Some o));
     create_event target (pin_quantity_event (o_status o))
       (obj_update p [ ("status", JStr (OrderBookStatus_value (o_status o))) ])
   else mret tt) ;;
  target' ← lift (sync_target_snapshot d target o None);
  put_target target'.

Definition _emit_pin_events (before : BeforeOrder) (o : Order) : M World unit :=
  d ← get_db;
  iterM (_emit_pin_target before o) (pin_targets_for_order d (o_id o)).

Definition emit_pin_updated (before : BeforeOrder) (o : Order) : M World unit :=
  flush ;; _emit_pin_events before o.

Definition emit_slice_state_changed (market_product_code : option string)
    (delivery_point_id : option uuid) (availability_window_code : option string)
    (side : OrderSide) (before_best_price : option Z) (quiet_order_id : option uuid)
    (source_order : option Order) : M World unit :=
  if negb (text_given market_product_code) || bool_decide (delivery_point_id = None)
     || negb (text_given availability_window_code)
  then mret tt
  else
    window ← lift (_normalized_window availability_window_code);
    after ← _best_slice_price_with_provenance market_product_code delivery_point_id window side;
    d ← get_db;
    let targets := slice_targets d (default "" market_product_code)
                     (default 0%N delivery_point_id) window in
    iterM (λ target,
      (if _best_price_changed before_best_price after.1
       then create_event target SLICE_BEST_PRICE_MOVED (obj_update after.2
              [ ("side", JStr (OrderSide_value side));
                ("old_price_per_mt_usd", jopt JDec before_best_price);
                ("new_price_per_mt_usd", jopt JDec after.1) ])
       else mret tt) ;;
      match quiet_order_id with
      | Some quiet =>
          if bool_decide (before_best_price ≠ None) && bool_decide (after.1 = None)
          then
            p ← lift (_order_provenance_payload d source_order);
            create_event target SLICE_WENT_QUIET (obj_update p [ ("order_id", JUuid quiet) ])
          else mret tt
      | None => mret tt
      end) targets.

Definition emit_order_created (o : Order) (previous_best_price : option Z) : M World unit :=
  if negb (is_active_status (o_status o)) || negb (order_is_execution_qualified o) then mret tt
  else
    d ← get_db;
    current ← _best_slice_price (order_market_product d o) (o_delivery_point_id o)
                (Some (o_availability_window o)) (o_side o);
    targets ← matching_slice_targets o;
    iterM (λ target,
      p ← lift (_order_provenance_payload d (Some o));
      create_event target SLICE_NEW_ORDER (obj_update p
        [ ("order_id", JUuid (o_id o));
          ("side", JStr (OrderSide_value (o_side o)));
          ("price_per_mt_usd", JDec (o_price_per_mt_usd o));
          ("remaining_quantity_mt", JDec (o_remaining_quantity_mt o)) ]) ;;
      (if _best_price_changed previous_best_price current
       then create_event target SLICE_BEST_PRICE_MOVED (obj_update p
              [ ("side", JStr (OrderSide_value (o_side o)));
                ("old_price_per_mt_usd", jopt JDec previous_best_price);
                ("new_price_per_mt_usd", jopt JDec current) ])
       else mret tt)) targets.

Definition emit_benchmark_moved (market_product_code : string) (delivery_point_id : uuid)
    (availability_window_code : string) (old_price new_price : Z)
    (benchmark_source : option string) : M World unit :=
  material ← lift (_price_move_is_material (Some old_price) (Some new_price)
                     BENCHMARK_MOVE_THRESHOLD_PCT);
  if negb material then mret tt
  else
    window ← lift (_normalized_window (Some availability_window_code));
    d ← get_db;
    iterM (λ target,
      create_event target SLICE_BENCHMARK_MOVED
        (obj_update (_benchmark_provenance_payload benchmark_source)
          [ ("old_price_per_mt_usd", JDec old_price);
            ("new_price_per_mt_usd", JDec new_price);
            ("market_product_code", JStr market_product_code);
            ("delivery_point_id", JUuid delivery_point_id);
            ("availability_window_code", jopt JStr window) ]))
      (slice_targets d market_product_code delivery_point_id window).

Definition emit_order_updated (before : BeforeOrder) (o : Order) : M World unit :=
  flush ;;
  _emit_pin_events before o ;;
  d ← get_db;
  emit_slice_state_changed (order_market_product d o) (o_delivery_point_id o)
    (Some (o_availability_window o)) (o_side o) (bf_slice_best_price_per_mt_usd before)
    (if is_terminal_status (o_status o) then Some (o_id o) else None) (Some o).

(** ** Facts *)

Lemma price_move_ratio old new :
  0 < old <= 10 ^ 20 → 0 < new <= 10 ^ 20 →
  dsub (of_cents new) (of_cents old) = MkDecimal (new - old) (-2).
Proof.
  intros Ho Hn. unfold dsub, dadd, dneg, of_cents, common_expo, coef_at. cbn [coef expo].
  rewrite Z.min_id, Z.sub_diag, !Z.mul_1_r. rewrite fix_precision_small; [f_equal; lia|].
  cbn [coef]. unfold PREC. lia.
Qed.

(** The rounded percentage is on the exact ratio's side of the threshold. *)
Lemma ratio_threshold a b d :
  0 < a → 0 < b <= 10 ^ 20 → ddiv (MkDecimal a (-2)) (MkDecimal b (-2)) = Val d →
  dleb (MkDecimal 10 (-1)) (dmul d (of_int 100)) = bool_decide (b <= 100 * a).
Proof.
  intros Ha Hb Hd. destruct (percentage_compare a b d 1 Ha Hb ltac:(lia) Hd) as [H _].
  rewrite Z.mul_1_l in H. rewrite <-H. apply eq_bool_prop_intro. rewrite !Is_true_true, !dleb_dle.
  assert (same_value (MkDecimal 10 (-1)) (of_int 1)) as [S1 S2]
    by (apply (same_value_at _ _ (-1)); [cbn; lia..|done]).
  split; intros Hle; by etrans.
Qed.

(** A price move is material exactly when it is at least one percent of the
    old price: the 28-digit division, the rounding of the percentage and the
    comparison never misjudge a move, in either direction, for any two prices
    the tables admit. *)
Theorem price_move_is_material_exact old new :
  0 < old <= cents 1000000 → 0 < new <= cents 1000000 →
  _price_move_is_material (Some old) (Some new) BEST_PRICE_MOVE_THRESHOLD_PCT
  = Val (bool_decide (new ≠ old ∧ old <= 100 * Z.abs (new - old))).
Proof.
  intros Ho Hn. unfold cents in *. unfold _price_move_is_material.
  rewrite !(proj2 (Z.leb_gt _ _)) by lia. cbn [orb].
  destruct (Z.eqb_spec old new) as [->|Hne]; [by rewrite bool_decide_eq_false_2 by naive_solver|].
  rewrite price_move_ratio by lia.
  destruct (ddiv_abs (MkDecimal (new - old) (-2)) (of_cents old)) as (d & r & Hd & Hr & Hdiv);
    [cbn; lia|cbn; lia|].
  rewrite Hd. cbn [mbind res_bind]. rewrite Hr. f_equal.
  unfold BEST_PRICE_MOVE_THRESHOLD_PCT.
  rewrite (ratio_threshold (Z.abs (new - old)) old r) by (done || lia).
  apply bool_decide_ext. naive_solver lia.
Qed.

Lemma price_move_is_material_exact_witness :
  _price_move_is_material (Some 60000) (Some 59400) BEST_PRICE_MOVE_THRESHOLD_PCT = Val true
  ∧ _price_move_is_material (Some 60001) (Some 59401) BEST_PRICE_MOVE_THRESHOLD_PCT = Val false.
Proof.
  split; rewrite price_move_is_material_exact by (unfold cents; lia); vm_compute; reflexivity.
Defined.

Lemma only_events_create_event t ty p : Keeps only_events (create_event t ty p).
Proof. apply only_events_watch. Qed.
#[export] Hint Resolve only_events_create_event : keeps.
Lemma reads_best_slice_price a b c s : Keeps reads (_best_slice_price_with_provenance a b c s).
Proof. unfold _best_slice_price_with_provenance. keeps. Qed.
#[export] Hint Resolve reads_best_slice_price : keeps.
Lemma reads_best_slice_price_value a b c s : Keeps reads (_best_slice_price a b c s).
Proof. unfold _best_slice_price. keeps. Qed.
#[export] Hint Resolve reads_best_slice_price_value : keeps.
Lemma only_events_emit_pin before o t : Keeps only_events (_emit_pin_target before o t).
Proof. unfold _emit_pin_target. keeps. Qed.
#[export] Hint Resolve only_events_emit_pin : keeps.
Lemma only_events_emit_pins before o : Keeps only_events (_emit_pin_events before o).
Proof. unfold _emit_pin_events. keeps. Qed.
#[export] Hint Resolve only_events_emit_pins : keeps.
Lemma only_events_emit_slice a b c s p q o : Keeps only_events (emit_slice_state_changed a b c s p q o).
Proof. unfold emit_slice_state_changed. keeps. Qed.
#[export] Hint Resolve only_events_emit_slice : keeps.
Lemma only_events_emit_updated before o : Keeps only_events (emit_order_updated before o).
Proof. unfold emit_order_updated. keeps. Qed.
Lemma reads_matching_slice_targets o : Keeps reads (matching_slice_targets o).
Proof. unfold matching_slice_targets. keeps. Qed.
#[export] Hint Resolve only_events_emit_updated reads_matching_slice_targets : keeps.
Lemma only_events_emit_created o p : Keeps only_events (emit_order_created o p).
Proof. unfold emit_order_created. keeps. Qed.
Lemma only_events_emit_pin_updated before o : Keeps only_events (emit_pin_updated before o).
Proof. unfold emit_pin_updated. keeps. Qed.
Lemma only_events_emit_benchmark a b c x y s : Keeps only_events (emit_benchmark_moved a b c x y s).
Proof. unfold emit_benchmark_moved. keeps. Qed.
#[export] Hint Resolve only_events_emit_created only_events_emit_pin_updated
  only_events_emit_benchmark : keeps.

(** ** The events of a canonical order are always written *)

Lemma price_move_returns a b t : ∃ r, _price_move_is_material a b t = Val r.
Proof.
  unfold _price_move_is_material. destruct a as [old|], b as [new|]; eauto.
  destruct (Z.leb_spec old 0); [eauto|]. destruct (new <=? 0); [eauto|]. destruct (old =? new); [eauto|].
  unfold ddiv, of_cents at 1. cbn [coef].
  destruct (Z.eqb_spec old 0); [lia|]. destruct (_ =? 0); eauto.
Qed.

Lemma normalized_window_canonical w :
  JSON_SCHEMA_PATTERN w = true → _normalized_window (Some w) = Val (Some w).
Proof.
  intros Hw. unfold _normalized_window. rewrite (normalize_of_canonical w Hw). by destruct w.
Qed.

Section canonical_order.
Context (o : Order) (Hwindow : JSON_SCHEMA_PATTERN (o_availability_window o) = true).

Lemma order_payload_returns d : ∃ p, _order_provenance_payload d (Some o) = Val p.
Proof.
  unfold _order_provenance_payload. rewrite (normalized_window_canonical _ Hwindow). eauto.
Qed.

Lemma emit_pin_returns before t w : Succeeds (_emit_pin_target before o t) w.
Proof.
  unfold _emit_pin_target. apply succeeds_bind; [apply succeeds_gets|]. intros d w1 _.
  destruct (order_payload_returns d) as [p Hp].
  destruct (price_move_returns (bf_price_per_mt_usd before) (Some (o_price_per_mt_usd o))
    BEST_PRICE_MOVE_THRESHOLD_PCT) as [b Hb].
  apply succeeds_bind; [by eapply succeeds_lift|]. intros b' w2 _.
  assert (∀ ty x w, Succeeds (p ← lift (_order_provenance_payload d (Some o)); create_event t ty (obj_update p x)) w) as Hev.
  { intros ty x w'. apply succeeds_bind; [by eapply succeeds_lift|]. intros; apply succeeds_modify. }
  apply succeeds_bind; [destruct b'; [apply Hev|apply succeeds_ret]|]. intros _ w3 _.
  apply succeeds_bind.
  { destruct (match bf_remaining_quantity_mt before with Some _ => _ | None => _ end); [apply Hev|].
    destruct (_ && _); [apply Hev|apply succeeds_ret]. }
  intros _ w4 _. apply succeeds_bind; [|intros; apply succeeds_modify].
  unfold sync_target_snapshot. rewrite (normalized_window_canonical _ Hwindow). by eapply succeeds_lift.
Qed.

Lemma emit_slice_returns product dp side best quiet w :
  Succeeds (emit_slice_state_changed product dp (Some (o_availability_window o)) side best quiet (Some o)) w.
Proof.
  unfold emit_slice_state_changed. destruct (_ || _); [apply succeeds_ret|].
  rewrite (normalized_window_canonical _ Hwindow).
  apply succeeds_bind; [by eapply succeeds_lift|]. intros win w1 Hw1. inversion Hw1; subst.
  apply succeeds_bind.
  { unfold _best_slice_price_with_provenance. destruct (_ || _); [apply succeeds_ret|].
    rewrite (normalized_window_canonical _ Hwindow).
    apply succeeds_bind; [by eapply succeeds_lift|]. intros.
    apply succeeds_bind; [apply succeeds_gets|]. intros.
    apply succeeds_bind; [apply succeeds_gets|]. intros. apply succeeds_ret. }
  intros after w2 _. apply succeeds_bind; [apply succeeds_gets|]. intros d w3 _.
  apply (succeeds_iterM _ _ (λ _, True)); [|done..]. intros t w4 _ _.
  apply succeeds_bind.
  { destruct (_best_price_changed _ _); [apply succeeds_modify|apply succeeds_ret]. }
  intros _ w5 _. destruct quiet; [|apply succeeds_ret].
  destruct (_ && _); [|apply succeeds_ret]. destruct (order_payload_returns d) as [p Hp].
  apply succeeds_bind; [by eapply succeeds_lift|]. intros. apply succeeds_modify.
Qed.

Lemma emit_order_updated_returns before w :
  database_checks (db w) → Succeeds (emit_order_updated before o) w.
Proof.
  intros Hchk. unfold emit_order_updated.
  apply succeeds_bind; [eexists _, _; by apply flush_run|]. intros _ w1 _.
  apply succeeds_bind.
  { unfold _emit_pin_events. apply succeeds_bind; [apply succeeds_gets|]. intros d w2 _.
    apply (succeeds_iterM _ _ (λ _, True)); [|done..]. intros t w3 _ _. apply emit_pin_returns. }
  intros _ w2 _. apply succeeds_bind; [apply succeeds_gets|]. intros d w3 _. apply emit_slice_returns.
Qed.
End canonical_order.
