(* ===== verification/Benchmarks.v ===== *)
(** * Live slice benchmarks

    [app/services/live_benchmarks.py]: the quantity-weighted average price of
    a slice of the public book, computed in decimal arithmetic over the
    qualified rows, stored per slice and rebuilt after every change of the
    book.  A dictionary keyed by slices is a finite map; rows without an
    ORDER BY come in key order. *)

From S2P Require Import Prelude Catalog Calendar AvailabilityWindows Decimal Schema Constraints Database Scenario Policy Eligibility Events Watchlist.
Local Open Scope Z_scope.

#[export] Instance OrderSide_countable : Countable OrderSide.
Proof.
  refine (inj_countable' (λ s, bool_decide (s = BID)) (λ b : bool, if b then BID else ASK) _).
  by intros [].
Defined.

Definition LiveBenchmarkKey : Type := OrderSide * option string * option uuid * option string.

Definition _text_present (value : option string) : bool :=
  bool_decide (strip (default "" value) ≠ "").

(** A selected row: the order's columns and the canonical product label. *)
Record SliceRow := MkSliceRow { sr_order : Order; sr_market_product : option string }.

Definition public_slice_order_qualified (row : SliceRow) (as_of : option datetime) : M World bool :=
  let o := sr_order row in
  if bool_decide (sr_market_product row = None) then mret false
  else if negb (is_active_status (o_status o)) then mret false
  else
    current ← match o_expires_at o with
              | None => mret true
              | Some e =>
                  now ← match as_of with Some t => mret t | None => utcnow end;
                  mret (negb (e <=? now))
              end;
    mret (if negb current then false
          else if (o_remaining_quantity_mt o <=? 0) || o_off_spec o then false
          else if bool_decide (o_side o ≠ ASK) then true
          else if negb (order_is_execution_qualified o) then false
          else if negb (o_certification_declared o)
                  || bool_decide (normalize_certification_scheme (o_certification_scheme o) = None)
          then false
          else if negb (_text_present (o_specification_standard o)) then false
          else if negb (o_msds_available o) then false
          else if bool_decide (o_carbon_intensity_gco2_mj o = None) then false
          else if negb (_text_present (o_feedstock o)) then false
          else _text_present (o_origin o)).

Definition normalize_live_benchmark_key (side : OrderSide) (market_product : option string)
    (delivery_point_id : option uuid) (availability_window : option string)
    : res (option LiveBenchmarkKey) :=
  if negb (text_given market_product) || bool_decide (delivery_point_id = None)
     || negb (text_given availability_window)
  then Val None
  else
    window ← normalize_availability_window (default "" availability_window);
    Val (Some (side, market_product, delivery_point_id, Some window)).

Definition live_benchmark_key_for_row (row : SliceRow) : res (option LiveBenchmarkKey) :=
  let o := sr_order row in
  normalize_live_benchmark_key (o_side o) (sr_market_product row) (o_delivery_point_id o)
    (Some (o_availability_window o)).
Definition live_benchmark_key_for_order (d : Database) (o : Order) : res (option LiveBenchmarkKey) :=
  live_benchmark_key_for_row (MkSliceRow o (order_market_product d o)).

(** The rows of the joined SELECT: a NULL label or delivery point is in no key. *)
Definition slice_selected (d : Database) (keys : gset LiveBenchmarkKey) (now : datetime) (o : Order)
    : bool :=
  joined_catalog d o (λ product dp,
    bool_decide ((o_side o, canonical_market_product_expression product, o_delivery_point_id o,
                  Some (o_availability_window o)) ∈ keys)
    && bool_decide (canonical_market_product_expression product ≠ None)
    && is_active_status (o_status o)
    && (0 <? o_remaining_quantity_mt o)
    && current_public_order_clause d o now
    && public_order_collection_provenance_clause o
    && canonical_product_clause product
    && canonical_delivery_point_clause dp).

Definition row_label (d : Database) (o : Order) : option string :=
  product ← order_product d o; canonical_market_product_expression product.

Definition slice_rows (d : Database) (keys : gset LiveBenchmarkKey) (now : datetime) : list SliceRow :=
  (λ o, MkSliceRow o (row_label d o))
    <$> filter (λ o, slice_selected d keys now o = true) (snd <$> map_to_list (orders d)).

(** [(total_qty, weighted_sum, order_count)] *)
Definition Totals : Type := decimal * decimal * Z.
Definition no_totals : Totals := (of_cents 0, of_cents 0, 0).
Definition totals_add (o : Order) (t : Totals) : Totals :=
  let quantity := of_cents (o_remaining_quantity_mt o) in
  (dadd t.1.1 quantity, dadd t.1.2 (dmul quantity (of_cents (o_price_per_mt_usd o))), t.2 + 1).

Fixpoint accumulate (keys : gset LiveBenchmarkKey) (as_of : option datetime) (rows : list SliceRow)
    (totals_by_key : gmap LiveBenchmarkKey Totals) : M World (gmap LiveBenchmarkKey Totals) :=
  match rows with
  | [] => mret totals_by_key
  | row :: rows =>
      key ← lift (live_benchmark_key_for_row row);
      match key with
      | Some key =>
          if bool_decide (key ∈ keys) then
            qualified ← public_slice_order_qualified row as_of;
            accumulate keys as_of rows
              (if (qualified : bool)
               then <[ key := totals_add (sr_order row) (default no_totals (totals_by_key !! key)) ]> totals_by_key
               else totals_by_key)
          else accumulate keys as_of rows totals_by_key
      | None => accumulate keys as_of rows totals_by_key
      end
  end.

(** [(benchmark, total quantity, order count)] of one slice *)
Definition Calculation : Type := decimal * decimal * Z.
Definition calculation (t : Totals) : res Calculation :=
  price ← ddiv t.1.2 t.1.1;
  price ← quantize price (-2) ROUND_HALF_EVEN;
  total ← quantize t.1.1 (-2) ROUND_HALF_EVEN;
  Val (price, total, t.2).

Fixpoint calculate_all (l : list (LiveBenchmarkKey * Totals)) : res (gmap LiveBenchmarkKey Calculation) :=
  match l with
  | [] => Val ∅
  | (key, t) :: l => c ← calculation t; cs ← calculate_all l; Val (<[ key := c ]> cs)
  end.

Definition _calculate_live_slice_benchmarks (keys : gset LiveBenchmarkKey) (as_of : option datetime)
    : M World (gmap LiveBenchmarkKey Calculation) :=
  if bool_decide (keys = ∅) then mret ∅
  else
    d ← get_db;
    now ← match as_of with Some t => mret t | None => db_now end;
    totals ← accumulate keys as_of (slice_rows d keys now) ∅;
    lift (calculate_all (map_to_list totals)).

Definition _calculate_live_slice_benchmark (key : LiveBenchmarkKey) : M World (option Calculation) :=
  calculations ← _calculate_live_slice_benchmarks {[ key ]} None;
  mret (calculations !! key).

(** The stored benchmark of a slice. *)
Definition benchmark_of (d : Database) (key : LiveBenchmarkKey) : option LiveSliceBenchmark :=
  head (filter (λ b, (b_side b, Some (b_market_product b), Some (b_delivery_point_id b),
                      Some (b_availability_window b)) = key)
               (snd <$> map_to_list (benchmarks d))).

Definition rebuild_live_slice_benchmark (side : OrderSide) (market_product : option string)
    (delivery_point_id : option uuid) (availability_window : option string) : M World (option decimal) :=
  key ← lift (normalize_live_benchmark_key side market_product delivery_point_id availability_window);
  match key with
  | None => mret None
  | Some key =>
      flush ;;
      calculation ← _calculate_live_slice_benchmark key;
      d ← get_db;
      let record := benchmark_of d key in
      match calculation with
      | None =>
          match record with
          | Some r => delete_benchmark (b_id r) ;; flush ;; mret None
          | None => mret None
          end
      | Some (benchmark_price, total_qty, order_count) =>
          total ← lift (quantize total_qty (-2) ROUND_HALF_EVEN);
          put_benchmark
            {| b_id := match record with Some r => b_id r | None => fresh_id (benchmarks d) end;
               b_side := side;
               b_market_product := default "" market_product;
               b_delivery_point_id := default 0%N delivery_point_id;
               b_availability_window := default "" key.2;
               b_benchmark_price_per_mt_usd := to_cents benchmark_price;
               b_total_remaining_quantity_mt := to_cents total;
               b_order_count := order_count;
               b_source := "live_slice_vwap" |} ;;
          flush ;;
          mret (Some benchmark_price)
      end
  end.

(** Each distinct key once, in first-occurrence order. *)
Fixpoint rebuild_keys (seen : list LiveBenchmarkKey) (keys : list (option LiveBenchmarkKey)) : M World unit :=
  match keys with
  | [] => mret tt
  | None :: keys => rebuild_keys seen keys
  | Some key :: keys =>
      if bool_decide (key ∈ seen) then rebuild_keys seen keys
      else
        rebuild_live_slice_benchmark key.1.1.1 key.1.1.2 key.1.2 key.2 ;;
        rebuild_keys (key :: seen) keys
  end.
Definition rebuild_live_slice_benchmarks_for_keys (keys : list (option LiveBenchmarkKey)) : M World unit :=
  rebuild_keys [] keys.

Fixpoint normalize_keys (keys : list (option LiveBenchmarkKey)) : res (gset LiveBenchmarkKey) :=
  match keys with
  | [] => Val ∅
  | None :: keys => normalize_keys keys
  | Some key :: keys =>
      k ← normalize_live_benchmark_key key.1.1.1 key.1.1.2 key.1.2 key.2;
      ks ← normalize_keys keys;
      Val match k with Some k => {[ k ]} ∪ ks | None => ks end
  end.

(** The prices of the requested slices on top of the caller's cache. *)
Definition get_live_slice_benchmark_prices (keys : list (option LiveBenchmarkKey))
    (cache : gmap LiveBenchmarkKey (option decimal)) (as_of : option datetime)
    : M World (gmap LiveBenchmarkKey (option decimal)) :=
  requested ← lift (normalize_keys keys);
  let missing := requested ∖ dom cache in
  if bool_decide (missing = ∅) then mret cache
  else
    calculations ← _calculate_live_slice_benchmarks missing as_of;
    mret (set_to_map (λ key, (key, (λ c : Calculation, c.1.1) <$> calculations !! key)) missing ∪ cache).

Definition get_live_slice_benchmark_price (side : OrderSide) (market_product : option string)
    (delivery_point_id : option uuid) (availability_window : option string)
    (cache : gmap LiveBenchmarkKey (option decimal)) (as_of : option datetime)
    : M World (option decimal) :=
  key ← lift (normalize_live_benchmark_key side market_product delivery_point_id availability_window);
  match key with
  | None => mret None
  | Some key =>
      match cache !! key with
      | Some price => mret price
      | None =>
          prices ← get_live_slice_benchmark_prices [Some key] cache as_of;
          match prices !! key with Some price => mret price | None => raise KeyError end
      end
  end.

Definition rebuild_all_live_slice_benchmarks : M World nat :=
  d ← get_db;
  keys ← mapM (λ o, lift (live_benchmark_key_for_order d o)) (snd <$> map_to_list (orders d));
  let keys : gset (option LiveBenchmarkKey) := list_to_set keys in
  rebuild_live_slice_benchmarks_for_keys (elements keys) ;;
  mret (length (filter (λ k, k ≠ None) (elements keys))).

(** ** Specification *)

(** What [public_slice_order_qualified] decides at time [t]. *)
Definition qualified_at (t : datetime) (row : SliceRow) : bool :=
  let o := sr_order row in
  bool_decide (sr_market_product row ≠ None)
  && is_active_status (o_status o)
  && match o_expires_at o with Some e => t <? e | None => true end
  && (0 <? o_remaining_quantity_mt o) && negb (o_off_spec o)
  && (bool_decide (o_side o ≠ ASK)
      || (order_is_execution_qualified o && o_certification_declared o
          && bool_decide (normalize_certification_scheme (o_certification_scheme o) ≠ None)
          && _text_present (o_specification_standard o) && o_msds_available o
          && bool_decide (o_carbon_intensity_gco2_mj o ≠ None)
          && _text_present (o_feedstock o) && _text_present (o_origin o))).

(** The orders a slice's benchmark weighs at time [t]. *)
Definition benchmark_rows (d : Database) (key : LiveBenchmarkKey) (t : datetime) : list Order :=
  sr_order <$> filter (λ r, qualified_at t r = true) (slice_rows d {[ key ]} t).

Fixpoint total_quantity (rows : list Order) : Z :=
  match rows with [] => 0 | o :: rows => o_remaining_quantity_mt o + total_quantity rows end.
Fixpoint total_value (rows : list Order) : Z :=
  match rows with
  | [] => 0
  | o :: rows => o_remaining_quantity_mt o * o_price_per_mt_usd o + total_value rows
  end.

(** The quantity-weighted average price, rounded half to even to the cent. *)
Definition vwap (rows : list Order) : Z :=
  round_div ROUND_HALF_EVEN (total_value rows) (total_quantity rows).

(** The clock agrees with [t] on which of the rows have expired. *)
Definition observes (as_of : option datetime) (t : datetime) (w : World) (rows : list SliceRow) : Prop :=
  match as_of with
  | Some t' => t' = t
  | None => ∀ n row e, row ∈ rows → o_expires_at (sr_order row) = Some e →
                       (e <=? clock w n) = (e <=? t)
  end.

(** ** Facts *)

Lemma qualified_run row as_of t w :
  observes as_of t w [row] →
  ∃ w', public_slice_order_qualified row as_of w = Ok (qualified_at t row) w' ∧ reads w w'.
Proof.
  intros Hobs. unfold public_slice_order_qualified, qualified_at.
  rewrite !bool_decide_not.
  destruct (bool_decide (sr_market_product row = None)); [by exists w|].
  destruct (is_active_status _); [|by exists w]. cbn [negb andb].
  assert (∃ w', (match o_expires_at (sr_order row) with
      | Some e => now ← match as_of with Some t0 => mret t0 | None => utcnow end; mret (negb (e <=? now))
      | None => mret true
      end : M World bool) w
    = Ok (match o_expires_at (sr_order row) with Some e => t <? e | None => true end) w' ∧ reads w w') as (w' & Hrun & Hr).
  { destruct (o_expires_at (sr_order row)) as [e|] eqn:He; [|by exists w].
    assert (∀ x, (t <? e) = negb (e <=? x) ↔ (e <=? x) = (e <=? t)) as Hx.
    { intros x. rewrite Z.ltb_antisym. destruct (e <=? t), (e <=? x); split; done. }
    destruct as_of as [t'|]; cbn in Hobs.
    - subst t'. exists w. by rewrite (proj2 (Hx t)) by done.
    - exists (w <| clock_reads := S (clock_reads w) |>). split; [|by repeat split].
      erewrite bind_run by reflexivity. rewrite (proj2 (Hx (clock w (clock_reads w)))); [done|].
      apply (Hobs _ row e); [left|done]. }
  exists w'. split; [|done]. erewrite bind_run by exact Hrun. cbn. f_equal.
  rewrite Z.ltb_antisym.
  destruct (match o_expires_at (sr_order row) with Some e => t <? e | None => true end),
    (o_remaining_quantity_mt (sr_order row) <=? 0), (o_off_spec (sr_order row)),
    (bool_decide (o_side (sr_order row) = ASK)), (order_is_execution_qualified (sr_order row)),
    (o_certification_declared (sr_order row)),
    (bool_decide (normalize_certification_scheme (o_certification_scheme (sr_order row)) = None)),
    (_text_present (o_specification_standard (sr_order row))), (o_msds_available (sr_order row)),
    (bool_decide (o_carbon_intensity_gco2_mj (sr_order row) = None)),
    (_text_present (o_feedstock (sr_order row))); reflexivity.
Qed.

(** Rebuilding touches the benchmark table only, whether it returns or raises. *)
Lemma reads_qualified row as_of : Keeps reads (public_slice_order_qualified row as_of).
Proof. unfold public_slice_order_qualified. keeps. Qed.
#[export] Hint Resolve reads_qualified : keeps.
Lemma reads_accumulate keys as_of rows m : Keeps reads (accumulate keys as_of rows m).
Proof. revert m. induction rows; intros m; cbn [accumulate]; keeps. Qed.
#[export] Hint Resolve reads_accumulate : keeps.
Lemma reads_calculate keys as_of : Keeps reads (_calculate_live_slice_benchmarks keys as_of).
Proof. unfold _calculate_live_slice_benchmarks. keeps. Qed.
#[export] Hint Resolve reads_calculate : keeps.
Lemma reads_calculate_one key : Keeps reads (_calculate_live_slice_benchmark key).
Proof. unfold _calculate_live_slice_benchmark. keeps. Qed.
#[export] Hint Resolve reads_calculate_one : keeps.
Lemma only_events_rebuild_one side p dp window : Keeps only_events (rebuild_live_slice_benchmark side p dp window).
Proof. unfold rebuild_live_slice_benchmark. keeps. Qed.
#[export] Hint Resolve only_events_rebuild_one : keeps.
Lemma only_events_rebuild keys : Keeps only_events (rebuild_live_slice_benchmarks_for_keys keys).
Proof.
  unfold rebuild_live_slice_benchmarks_for_keys. generalize ([] : list LiveBenchmarkKey) as seen.
  induction keys as [|[key|] keys IH]; intros seen; cbn [rebuild_keys]; [keeps| |apply IH].
  destruct (bool_decide _); [apply IH|]. apply keeps_bind; [typeclasses eauto|keeps|intros _; apply IH].
Qed.
#[export] Hint Resolve only_events_rebuild : keeps.

(** A slice in normal form. *)
Definition slice_key (side : OrderSide) (product : string) (dp : uuid) (window : string)
    : LiveBenchmarkKey := (side, Some product, Some dp, Some window).

Lemma normalize_slice_key side product dp window :
  product ≠ "" → JSON_SCHEMA_PATTERN window = true →
  normalize_live_benchmark_key side (Some product) (Some dp) (Some window)
  = Val (Some (slice_key side product dp window)).
Proof.
  intros Hp Hw. unfold normalize_live_benchmark_key, text_given.
  assert (window ≠ "") by by intros ->.
  rewrite !(bool_decide_eq_true_2 (_ ≠ "")) by done. cbn [negb orb bool_decide].
  rewrite (bool_decide_eq_false_2 (Some dp = None)) by done.
  change (default "" (Some window)) with window. by rewrite (normalize_of_canonical window Hw).
Qed.

Lemma slice_rows_key d side product dp window t row :
  product ≠ "" → JSON_SCHEMA_PATTERN window = true →
  row ∈ slice_rows d {[ slice_key side product dp window ]} t →
  live_benchmark_key_for_row row = Val (Some (slice_key side product dp window)).
Proof.
  intros Hp Hw Hin. unfold slice_rows in Hin. apply list_elem_of_fmap in Hin as (o & -> & Hin).
  apply list_elem_of_filter in Hin as [Hsel _].
  unfold slice_selected, joined_catalog in Hsel.
  destruct (order_product d o) as [pr|] eqn:Hpr; [|done].
  destruct (order_delivery_point d o); [|done].
  rewrite !andb_true_iff, bool_decide_eq_true, elem_of_singleton in Hsel.
  destruct Hsel as [[[[[[[Hk _] _] _] _] _] _] _].
  unfold live_benchmark_key_for_row, row_label. cbn [sr_order sr_market_product]. rewrite Hpr.
  cbn [mbind option_bind]. injection Hk as <- -> -> ->. by apply normalize_slice_key.
Qed.

(** The exact decimals behind the accumulated totals. *)
Definition totals_are (q v : Z) (n : Z) (t : Totals) : Prop :=
  t.1.1 = of_cents q ∧ (t.1.2 = MkDecimal v (-4) ∨ (v = 0 ∧ t.1.2 = of_cents 0)) ∧ t.2 = n.

Definition MAX_ROWS : Z := 1000000.
Definition within_domain (o : Order) : Prop :=
  0 < o_remaining_quantity_mt o <= cents 100000 ∧ 1 <= o_price_per_mt_usd o <= cents 1000000.

Lemma dadd_exact a b e :
  expo a = e → expo b = e → Z.abs (coef a + coef b) < 10 ^ PREC → dadd a b = MkDecimal (coef a + coef b) e.
Proof.
  intros <- Hb H. unfold dadd, common_expo, coef_at. rewrite Hb, Z.min_id, Z.sub_diag, !Z.mul_1_r.
  by rewrite fix_precision_small.
Qed.

Lemma totals_add_step o t q v n :
  totals_are q v n t → within_domain o → 0 <= q <= 10 ^ 15 → 0 <= v <= 10 ^ 24 →
  totals_are (q + o_remaining_quantity_mt o)
    (v + o_remaining_quantity_mt o * o_price_per_mt_usd o) (n + 1) (totals_add o t).
Proof.
  unfold within_domain, cents. intros (H1 & H2 & H3) [Hq Hp] Hqb Hvb.
  set (x := o_remaining_quantity_mt o) in *. set (y := o_price_per_mt_usd o) in *.
  assert (0 <= x * y <= 10 ^ 16) as Hxy by nia.
  unfold totals_add. fold x y. unfold totals_are. cbn [fst snd].
  assert (dmul (of_cents x) (of_cents y) = MkDecimal (x * y) (-4)) as Hmul.
  { unfold dmul, of_cents. cbn [coef expo]. rewrite fix_precision_small; [done|]. cbn [coef].
    unfold PREC. lia. }
  split_and!.
  - rewrite H1. apply dadd_exact; [done..|]. unfold of_cents, PREC. cbn [coef]. lia.
  - left. rewrite Hmul. destruct H2 as [->|[-> ->]].
    + apply dadd_exact; [done..|]. cbn [coef]. unfold PREC. lia.
    + unfold dadd, common_expo, coef_at, of_cents. cbn [coef expo].
      change (Z.min (-2) (-4)) with (-4). rewrite Z.mul_0_l. change (-4 - -4) with 0.
      rewrite Z.mul_1_r, fix_precision_small; [done|]. cbn [coef]. unfold PREC. lia.
  - by rewrite H3.
Qed.

Lemma rows_bounds rows :
  Forall within_domain rows → Z.of_nat (length rows) <= MAX_ROWS →
  0 <= total_quantity rows <= cents 100000 * Z.of_nat (length rows)
  ∧ 0 <= total_value rows <= cents 1000000 * total_quantity rows.
Proof.
  unfold within_domain, cents. induction 1 as [|o rows Ho _ IH]; cbn; [lia|].
  intros Hlen. destruct IH; [lia|]. nia.
Qed.

(** Folding the rows, in table order, onto totals. *)
Lemma totals_fold rows t q v n :
  totals_are q v n t → Forall within_domain rows →
  0 <= q → 0 <= v → q + total_quantity rows <= 10 ^ 15 → v + total_value rows <= 10 ^ 24 →
  totals_are (q + total_quantity rows) (v + total_value rows) (n + Z.of_nat (length rows))
    (foldl (λ t o, totals_add o t) t rows).
Proof.
  intros Ht Hrows. revert t q v n Ht. induction Hrows as [|o rows Ho Hrows IH]; intros t q v n Ht Hq Hv Hbq Hbv.
  { cbn. by rewrite !Z.add_0_r. }
  cbn [foldl total_quantity total_value length] in *.
  assert (0 <= total_quantity rows ∧ 0 <= total_value rows) as [Hq0 Hv0].
  { clear -Hrows. unfold within_domain in Hrows. induction Hrows; cbn; [lia|]. nia. }
  pose proof Ho as [Ho1 Ho2]. unfold cents in Ho1, Ho2.
  replace (q + _) with ((q + o_remaining_quantity_mt o) + total_quantity rows) by lia.
  replace (v + _) with ((v + o_remaining_quantity_mt o * o_price_per_mt_usd o) + total_value rows) by lia.
  replace (n + _) with (n + 1 + Z.of_nat (length rows)) by lia.
  apply IH; [apply totals_add_step; (done || lia)|nia..].
Qed.

(** Accumulating rows that all belong to one slice. *)
Lemma accumulate_slice key as_of t rows m w :
  (∀ row, row ∈ rows → live_benchmark_key_for_row row = Val (Some key)) →
  observes as_of t w rows →
  let good := sr_order <$> filter (λ r, qualified_at t r = true) rows in
  ∃ w', accumulate {[ key ]} as_of rows m w
    = Ok (match good with
          | [] => m
          | _ => <[ key := foldl (λ t o, totals_add o t) (default no_totals (m !! key)) good ]> m
          end) w' ∧ reads w w'.
Proof.
  revert m w. induction rows as [|row rows IH]; intros m w Hkey Hobs; cbn zeta.
  { exists w. split; [done|reflexivity]. }
  cbn [accumulate]. rewrite (Hkey row) by left. unfold lift.
  erewrite bind_run by reflexivity. cbn beta iota. rewrite bool_decide_eq_true_2 by set_solver.
  destruct (qualified_run row as_of t w) as (w1 & Hrun & Hr1).
  { destruct as_of; [done|]. intros n r e Hin. apply Hobs. set_solver. }
  erewrite bind_run by exact Hrun.
  assert (observes as_of t w1 rows) as Hobs1.
  { pose proof Hr1 as (_ & _ & _ & Hc). destruct as_of; [done|]. cbn in *. rewrite Hc.
    intros n r e Hin. apply Hobs. by right. }
  assert (∀ row, row ∈ rows → live_benchmark_key_for_row row = Val (Some key)) as Hkey'
    by (intros; apply Hkey; by right).
  rewrite filter_cons. destruct (qualified_at t row) eqn:Hq; case_decide; try done.
  - destruct (IH (<[ key := totals_add (sr_order row) (default no_totals (m !! key)) ]> m) w1 Hkey' Hobs1)
      as (w' & Hacc & Hr). exists w'. split; [|by etrans].
    rewrite Hacc, fmap_cons. f_equal. cbn [foldl].
    destruct (sr_order <$> filter _ rows) eqn:Hg; [done|].
    rewrite insert_insert_eq. f_equal. by rewrite lookup_insert_eq.
  - destruct (IH m w1 Hkey' Hobs1) as (w' & Hacc & Hr). exists w'. split; [exact Hacc|by etrans].
Qed.

Lemma quantize_cents n : Z.abs n < 10 ^ PREC → quantize (of_cents n) (-2) ROUND_HALF_EVEN = Val (of_cents n).
Proof.
  intros Hn. unfold quantize, of_cents. cbn [coef expo]. rewrite Z.leb_refl, Z.sub_diag, Z.mul_1_r.
  rewrite (proj2 (Z.ltb_ge _ _)); [done|]. apply (ndigits_le _ PREC); [unfold PREC; lia|done].
Qed.
Lemma calculation_exact t rows n :
  totals_are (total_quantity rows) (total_value rows) n t →
  Forall within_domain rows → rows ≠ [] → Z.of_nat (length rows) <= MAX_ROWS →
  calculation t = Val (of_cents (vwap rows), of_cents (total_quantity rows), n).
Proof.
  intros (H1 & H2 & H3) Hrows Hne Hlen.
  destruct (rows_bounds rows Hrows Hlen) as [HQ HV]. unfold MAX_ROWS, cents in *.
  assert (0 < total_quantity rows ∧ 0 < total_value rows) as [HQ0 HV0].
  { destruct rows as [|o rows]; [done|]. apply Forall_cons in Hrows as [[Ho1 Ho2] Hrows].
    destruct (rows_bounds rows Hrows) as [? ?]; [cbn in Hlen; unfold MAX_ROWS; lia|].
    unfold cents in *. cbn [total_quantity total_value].
    pose proof (Z.mul_pos_pos (o_remaining_quantity_mt o) (o_price_per_mt_usd o)). lia. }
  assert (t.1.2 = MkDecimal (total_value rows) (-4)) as HW by (destruct H2 as [|[? _]]; [done|lia]).
  unfold calculation. rewrite HW, H1.
  destruct (ddiv_quantize (MkDecimal (total_value rows) (-4)) (of_cents (total_quantity rows)))
    as (r & Hdiv & Hquant); cbn [coef expo of_cents]; [lia..|].
  rewrite Hdiv. cbn [mbind res_bind]. cbn [coef expo of_cents] in Hquant.
  change (-4 - -2) with (-2) in Hquant. rewrite Hquant. cbn [mbind res_bind].
  assert (quantize (of_cents (total_quantity rows)) (-2) ROUND_HALF_EVEN
    = Val (of_cents (total_quantity rows))) as ->.
  { unfold quantize, of_cents. cbn [coef expo]. rewrite Z.leb_refl, Z.sub_diag, Z.mul_1_r.
    rewrite (proj2 (Z.ltb_ge _ _)); [done|]. apply (ndigits_le _ PREC); unfold PREC; lia. }
  cbn [mbind res_bind]. by rewrite H3.
Qed.

Lemma vwap_bounds rows lo hi :
  Forall within_domain rows → rows ≠ [] →
  (∀ o, o ∈ rows → lo <= o_price_per_mt_usd o <= hi) → lo <= vwap rows <= hi.
Proof.
  intros Hrows Hne Hlim.
  assert (lo * total_quantity rows <= total_value rows <= hi * total_quantity rows
    ∧ 0 <= total_quantity rows ∧ (rows ≠ [] → 0 < total_quantity rows)) as (H1 & H2 & H3).
  { clear Hne. induction Hrows as [|o rows [Ho _] Hrows IH]; cbn; [split_and!; (lia || done)|].
    destruct IH as (? & ? & _); [intros; apply Hlim; by right|].
    pose proof (Hlim o ltac:(left)) as Ho2. set (x := o_remaining_quantity_mt o) in *.
    assert (lo * x <= x * o_price_per_mt_usd o <= hi * x) by nia. lia. }
  specialize (H3 Hne). unfold vwap. split; [apply round_div_ge|apply round_div_le]; lia.
Qed.

Lemma slice_rows_domain d key t :
  database_checks d → Forall within_domain (sr_order <$> slice_rows d {[ key ]} t).
Proof.
  intros (Hchk & _). apply Forall_forall. intros o Ho.
  unfold slice_rows in Ho. rewrite <-list_fmap_compose in Ho.
  apply list_elem_of_fmap in Ho as (o' & -> & Ho). cbn.
  apply list_elem_of_filter in Ho as [Hsel Hin].
  apply list_elem_of_fmap in Hin as ([k r] & -> & Hin%elem_of_map_to_list). cbn in *.
  destruct (Hchk _ _ Hin) as (_ & (_ & Hq & Hp & _) & _).
  unfold slice_selected, joined_catalog in Hsel. repeat case_match; try done.
  rewrite !andb_true_iff in Hsel. destruct Hsel as [[[[[_ Hrem%Z.ltb_lt] _] _] _] _].
  unfold within_domain, required_numeric in *. lia.
Qed.

Lemma benchmark_rows_domain d key t :
  database_checks d → Forall within_domain (benchmark_rows d key t).
Proof.
  intros Hchk. unfold benchmark_rows. pose proof (slice_rows_domain d key t Hchk) as H.
  rewrite Forall_fmap in H. rewrite Forall_fmap. by apply Forall_filter.
Qed.

Lemma benchmark_rows_length d key t :
  (length (benchmark_rows d key t) <= size (orders d))%nat.
Proof.
  unfold benchmark_rows, slice_rows. rewrite length_fmap.
  etrans; [apply length_filter|]. rewrite length_fmap. etrans; [apply length_filter|].
  by rewrite length_fmap, length_map_to_list.
Qed.

Lemma live_benchmark_calculated side product dp window as_of t w :
  database_checks (db w) → Z.of_nat (size (orders (db w))) <= MAX_ROWS →
  product ≠ "" → JSON_SCHEMA_PATTERN window = true →
  let key := slice_key side product dp window in
  let rows := benchmark_rows (db w) key t in
  default (transaction_time w) as_of = t → observes as_of t w (slice_rows (db w) {[ key ]} t) →
  ∃ calculations w', _calculate_live_slice_benchmarks {[ key ]} as_of w = Ok calculations w'
    ∧ reads w w'
    ∧ calculations !! key
      = (if bool_decide (rows = []) then None
         else Some (of_cents (vwap rows), of_cents (total_quantity rows), Z.of_nat (length rows))).
Proof.
  intros Hchk Hsize Hp Hw key rows Ht Hobs.
  pose proof (benchmark_rows_domain (db w) key t Hchk) as Hdom. fold rows in Hdom.
  assert (Z.of_nat (length rows) <= MAX_ROWS) as Hlen.
  { pose proof (benchmark_rows_length (db w) key t). fold rows in H. lia. }
  destruct (accumulate_slice key as_of t (slice_rows (db w) {[ key ]} t) ∅ w)
    as (w' & Hacc & Hr); [by intros; eapply slice_rows_key|done|].
  fold (benchmark_rows (db w) key t) in Hacc. fold rows in Hacc.
  assert (_calculate_live_slice_benchmarks {[ key ]} as_of w
    = lift (calculate_all (map_to_list (match rows with
          | [] => ∅
          | _ => <[ key := foldl (λ t o, totals_add o t) (default no_totals ((∅ : gmap LiveBenchmarkKey Totals) !! key)) rows ]> ∅
          end))) w') as ->.
  { unfold _calculate_live_slice_benchmarks. rewrite bool_decide_eq_false_2 by set_solver.
    erewrite bind_run by reflexivity.
    assert ((match as_of with Some t => mret t | None => db_now end : M World datetime) w = Ok t w) as Hnow
      by (destruct as_of; cbn in Ht; by subst).
    erewrite bind_run by exact Hnow. erewrite bind_run by exact Hacc. done. }
  pose proof (rows_bounds rows Hdom Hlen) as Hb.
  destruct (decide (rows = [])) as [->|Hne].
  { rewrite map_to_list_empty. exists ∅, w'. by rewrite lookup_empty. }
  assert (∀ A (x y : A), match rows with [] => x | _ => y end = y) as -> by (by destruct rows).
  rewrite lookup_empty, insert_empty, map_to_list_singleton. cbn [calculate_all default].
  assert (totals_are (total_quantity rows) (total_value rows) (Z.of_nat (length rows))
    (foldl (λ t o, totals_add o t) no_totals rows)) as Htot.
  { unfold MAX_ROWS, cents in *. apply (totals_fold rows no_totals 0 0 0); try done; [|lia..].
    split_and!; [done|by right|done]. }
  rewrite (calculation_exact _ rows _ Htot Hdom Hne Hlen). cbn [mbind res_bind mret res_ret].
  eexists _, w'. split_and!; [reflexivity|done|].
  rewrite (bool_decide_eq_false_2 (rows = [])) by done. apply lookup_insert_eq.
Qed.

(** The live benchmark of a slice is the volume-weighted average price of
    its qualified public rows.  Computed in 28-digit decimal arithmetic over
    any order of the rows, the published price is the exact ratio of traded
    value to quantity rounded once, half to even, to the cent; the quantity and
    the count are exact; no rows give no benchmark; and the price lies between
    the lowest and the highest weighed price. *)
Theorem live_benchmark_is_vwap side product dp window as_of t w :
  database_checks (db w) → Z.of_nat (size (orders (db w))) <= MAX_ROWS →
  product ≠ "" → JSON_SCHEMA_PATTERN window = true →
  let key := slice_key side product dp window in
  let rows := benchmark_rows (db w) key t in
  default (transaction_time w) as_of = t → observes as_of t w (slice_rows (db w) {[ key ]} t) →
  ∃ calculations w', _calculate_live_slice_benchmarks {[ key ]} as_of w = Ok calculations w'
    ∧ db w' = db w
    ∧ calculations !! key
      = (if bool_decide (rows = []) then None
         else Some (of_cents (vwap rows), of_cents (total_quantity rows), Z.of_nat (length rows)))
    ∧ (rows ≠ [] → ∀ lo hi, (∀ o, o ∈ rows → lo <= o_price_per_mt_usd o <= hi) → lo <= vwap rows <= hi).
Proof.
  intros Hchk Hsize Hp Hw key rows Ht Hobs.
  destruct (live_benchmark_calculated side product dp window as_of t w Hchk Hsize Hp Hw Ht Hobs)
    as (cs & w' & Hrun & Hr & Hc).
  exists cs, w'. split_and!; [done|by destruct Hr|done|]. intros Hne lo hi Hlim.
  apply vwap_bounds; [by apply benchmark_rows_domain|done..].
Qed.

(** No order of the quoted demo book expires. *)
Lemma quoted_observes :
  observes None Demo.noon Demo.quoted (slice_rows (db Demo.quoted)
    {[ slice_key ASK "BIO_METHANOL" (d_id Demo.rotterdam) "SPOT" ]} Demo.noon).
Proof.
  intros n row e Hrow He.
  assert (Forall (λ r, o_expires_at (sr_order r) = None) (slice_rows (db Demo.quoted)
    {[ slice_key ASK "BIO_METHANOL" (d_id Demo.rotterdam) "SPOT" ]} Demo.noon)) as Hall
    by (apply (bool_decide_unpack _); vm_compute; exact I).
  rewrite Forall_forall in Hall. rewrite (Hall _ Hrow) in He. discriminate He.
Qed.

Lemma quoted_checked : database_checks (db Demo.quoted).
Proof. apply (bool_decide_unpack _). vm_compute. exact I. Qed.

(** The 300 t at 600 and 400 t at 610 of the demo book: 605.71 USD/t. *)
Lemma live_benchmark_is_vwap_witness :
  let key := slice_key ASK "BIO_METHANOL" (d_id Demo.rotterdam) "SPOT" in
  vwap [Demo.qualified_ask; Demo.qualified_ask'] = 60571
  ∧ ∃ calculations w', _calculate_live_slice_benchmarks {[ key ]} None Demo.quoted = Ok calculations w'
      ∧ calculations !! key = Some (of_cents 60571, of_cents 70000, 2).
Proof.
  split; [vm_compute; reflexivity|].
  destruct (live_benchmark_is_vwap ASK "BIO_METHANOL" (d_id Demo.rotterdam) "SPOT" None Demo.noon Demo.quoted)
    as (calculations & w' & Hrun & _ & Hc & _).
  - exact quoted_checked.
  - vm_compute. discriminate.
  - discriminate.
  - vm_compute. reflexivity.
  - reflexivity.
  - exact quoted_observes.
  - exists calculations, w'. split; [exact Hrun|]. rewrite Hc. vm_compute. reflexivity.
Defined.

(** ** The stored benchmarks *)

Definition key_of_benchmark (b : LiveSliceBenchmark) : LiveBenchmarkKey :=
  slice_key (b_side b) (b_market_product b) (b_delivery_point_id b) (b_availability_window b).

(** One row per slice ([uq_live_slice_benchmarks_slice]), under its own id. *)
Definition benchmarks_wf (m : gmap uuid LiveSliceBenchmark) : Prop :=
  map_Forall (λ k b, b_id b = k) m ∧ unique_on (λ b, Some (key_of_benchmark b)) m.

Lemma benchmark_of_spec d key b :
  benchmarks_wf (benchmarks d) →
  benchmark_of d key = Some b ↔ benchmarks d !! b_id b = Some b ∧ key_of_benchmark b = key.
Proof.
  intros [Hk Hu]. unfold benchmark_of. rewrite unique_on_spec in Hu.
  set (l := filter _ _).
  assert (∀ x, x ∈ l ↔ benchmarks d !! b_id x = Some x ∧ key_of_benchmark x = key) as Hl.
  { intros x. unfold l. rewrite list_elem_of_filter, list_elem_of_fmap. split.
    - intros (Hx & [k x'] & -> & Hin%elem_of_map_to_list). cbn in *. by rewrite (Hk _ _ Hin).
    - intros [Hx Hkey]. split; [done|]. exists (b_id x, x). by rewrite elem_of_map_to_list. }
  split.
  - intros Hh. apply Hl. destruct l; inversion Hh. left.
  - intros Hb. pose proof (proj2 (Hl b) Hb) as Hin. destruct l as [|x l']; [set_solver|]. cbn.
    destruct (proj1 (Hl x) ltac:(left)) as [Hx Hxk]. destruct Hb as [Hb Hbk].
    assert (b_id x = b_id b) as E by (eapply Hu; [done..| |done]; cbn; by rewrite Hxk, Hbk).
    rewrite E in Hx. congruence.
Qed.

(** What a rebuilt slice stores, the other slices being left alone. *)
Definition stores (d d' : Database) (key : LiveBenchmarkKey) (rows : list Order) : Prop :=
  benchmarks_wf (benchmarks d')
  ∧ match benchmark_of d' key with
    | None => rows = []
    | Some b =>
        rows ≠ [] ∧ b_benchmark_price_per_mt_usd b = vwap rows
        ∧ b_total_remaining_quantity_mt b = total_quantity rows
        ∧ b_order_count b = Z.of_nat (length rows)
    end
  ∧ ∀ key', key' ≠ key → benchmark_of d' key' = benchmark_of d key'.

Lemma put_benchmark_stores d b rows key :
  benchmarks_wf (benchmarks d) → key_of_benchmark b = key →
  match benchmark_of d key with Some r => b_id b = b_id r | None => b_id b = fresh_id (benchmarks d) end →
  rows ≠ [] → b_benchmark_price_per_mt_usd b = vwap rows →
  b_total_remaining_quantity_mt b = total_quantity rows → b_order_count b = Z.of_nat (length rows) →
  stores d (d <| benchmarks := <[ b_id b := b ]> (benchmarks d) |>) key rows.
Proof.
  intros Hwf Hkey Hid Hne Hp Hq Hc. pose proof Hwf as [Hk Hu].
  assert (∀ x, benchmarks d !! b_id b = Some x → key_of_benchmark x = key) as Hsame.
  { intros x Hx. destruct (benchmark_of d key) as [r|] eqn:Hr.
    - apply benchmark_of_spec in Hr as [Hr Hrk]; [|done]. rewrite Hid in Hx. congruence.
    - rewrite Hid, fresh_id_none in Hx. done. }
  assert (∀ x, benchmarks d !! b_id x = Some x → key_of_benchmark x = key → b_id x = b_id b) as Honly.
  { intros x Hx Hxk. pose proof (proj2 (benchmark_of_spec d key x Hwf) (conj Hx Hxk)) as Hr.
    rewrite Hr in Hid. done. }
  assert (benchmarks_wf (<[ b_id b := b ]> (benchmarks d))) as Hwf'.
  { split; [by apply map_Forall_insert_2|]. rewrite unique_on_spec in *. intros i j x y Hi Hj Hxy _.
    apply (inj Some) in Hxy. apply lookup_insert_Some in Hi as [[<- <-]|[Hi1 Hi]], Hj as [[<- <-]|[Hj1 Hj]]; [done|..].
    - exfalso. apply Hj1. pose proof (Hk _ _ Hj) as E. cbn in E. rewrite <-E in Hj |- *.
      symmetry. apply Honly; [done|congruence].
    - exfalso. apply Hi1. pose proof (Hk _ _ Hi) as E. cbn in E. rewrite <-E in Hi |- *.
      symmetry. apply Honly; [done|congruence].
    - eapply Hu; [done..| |done]. by f_equal. }
  split; [exact Hwf'|]. split.
  - assert (benchmark_of (d <| benchmarks := <[ b_id b := b ]> (benchmarks d) |>) key = Some b) as ->.
    { apply benchmark_of_spec; [exact Hwf'|]. split; [apply lookup_insert_eq|done]. }
    done.
  - intros key' Hne'. apply option_eq. intros x.
    rewrite !benchmark_of_spec by done. cbn. split; intros [Hx Hxk]; (split; [|done]).
    + apply lookup_insert_Some in Hx as [[E1 E2]|[_ Hx]]; [subst; done|done].
    + rewrite lookup_insert_ne; [done|]. intros E. rewrite <-E in Hx. apply Hsame in Hx. congruence.
Qed.

Lemma delete_benchmark_stores d key :
  benchmarks_wf (benchmarks d) →
  stores d (match benchmark_of d key with
            | Some r => d <| benchmarks := delete (b_id r) (benchmarks d) |>
            | None => d
            end) key [].
Proof.
  intros Hwf. pose proof Hwf as [Hk Hu].
  destruct (benchmark_of d key) as [r|] eqn:Hr; [|split_and!; [done|by rewrite Hr|done]].
  apply benchmark_of_spec in Hr as [Hr Hrk]; [|done].
  assert (benchmarks_wf (delete (b_id r) (benchmarks d))) as Hwf'.
  { split; [by apply map_Forall_delete|]. rewrite unique_on_spec in *.
    intros i j x y [_ Hi]%lookup_delete_Some [_ Hj]%lookup_delete_Some. by apply Hu. }
  split; [exact Hwf'|]. split.
  - destruct (benchmark_of _ key) as [b|] eqn:Hb; [|done]. exfalso.
    apply benchmark_of_spec in Hb as [Hb Hbk]; [|exact Hwf']. cbn in Hb.
    apply lookup_delete_Some in Hb as [Hne Hb]. apply Hne.
    rewrite unique_on_spec in Hu. eapply Hu; [done..| |done]. cbn. congruence.
  - intros key' Hne. apply option_eq. intros x. rewrite !benchmark_of_spec by done. cbn.
    rewrite lookup_delete_Some. split; [tauto|]. intros [Hx Hxk]. split_and!; [|done..].
    intros E. rewrite <-E in Hx. rewrite Hr in Hx. injection Hx as ->. congruence.
Qed.

(** C29: Rebuilding a slice's benchmark refines the stored table to the VWAP
    specification: the run returns, the slice's single row afterwards holds the
    exact average, quantity and count of the qualified rows (and is gone when
    there are none), every other slice's row is the one it had, and no other
    table changes. *)
Theorem rebuild_live_slice_benchmark_stores_vwap side product dp window w :
  database_checks (db w) → benchmarks_wf (benchmarks (db w)) →
  Z.of_nat (size (orders (db w))) <= MAX_ROWS → product ≠ "" → JSON_SCHEMA_PATTERN window = true →
  let key := slice_key side product dp window in
  let t := transaction_time w in
  let rows := benchmark_rows (db w) key t in
  observes None t w (slice_rows (db w) {[ key ]} t) →
  ∃ w', rebuild_live_slice_benchmark side (Some product) (Some dp) (Some window) w
      = Ok (if bool_decide (rows = []) then None else Some (of_cents (vwap rows))) w'
    ∧ stores (db w) (db w') key rows ∧ only_events w w'.
Proof.
  intros Hchk Hwf Hsize Hp Hw key t rows Hobs.
  destruct (live_benchmark_calculated side product dp window None t w Hchk Hsize Hp Hw eq_refl Hobs)
    as (cs & w1 & Hrun & Hr & Hc). fold key rows in Hrun, Hc.
  pose proof Hr as (Hdb & _).
  unfold rebuild_live_slice_benchmark. rewrite normalize_slice_key by done. fold key.
  erewrite bind_run by reflexivity; cbn beta iota. erewrite bind_run by (by apply flush_run); cbn beta iota.
  assert (_calculate_live_slice_benchmark key w = Ok (cs !! key) w1) as Hcalc.
  { unfold _calculate_live_slice_benchmark. by erewrite bind_run by exact Hrun. }
  erewrite bind_run by exact Hcalc; cbn beta iota.
  erewrite bind_run by reflexivity; cbn beta iota.
  unfold Calculation in *. rewrite Hc, Hdb.
  destruct (decide (rows = [])) as [Hnil|Hne].
  - rewrite !(bool_decide_eq_true_2 (rows = [])) by done. rewrite Hnil.
    pose proof (delete_benchmark_stores (db w) key Hwf) as Hst.
    destruct (benchmark_of (db w) key) as [r|]; [|exists w1; rewrite Hdb; split; [done|split; [exact Hst|by apply reads_only_events]]].
    eexists. split; [|split].
    + unfold delete_benchmark. erewrite bind_run by reflexivity; cbn beta iota. rewrite Hdb.
      erewrite bind_run by (apply flush_run; exact Hchk). reflexivity.
    + cbn [db set_field]. exact Hst.
    + etrans; [by apply reads_only_events|]. unfold only_events. rewrite Hdb. by repeat split.
  - rewrite !(bool_decide_eq_false_2 (rows = [])) by done. cbn beta iota.
    assert (quantize (of_cents (total_quantity rows)) (-2) ROUND_HALF_EVEN
      = Val (of_cents (total_quantity rows))) as ->.
    { apply quantize_cents. pose proof (benchmark_rows_domain (db w) key t Hchk) as Hdom.
      pose proof (benchmark_rows_length (db w) key t). fold rows in H, Hdom.
      destruct (rows_bounds rows Hdom); unfold MAX_ROWS, cents, PREC in *; lia. }
    erewrite bind_run by reflexivity; cbn beta iota. eexists. split; [|split].
    + unfold put_benchmark. erewrite bind_run by reflexivity; cbn beta iota. rewrite Hdb.
      erewrite bind_run by (apply flush_run; exact Hchk). reflexivity.
    + cbn [db set_field]. apply put_benchmark_stores; try done.
      * by destruct (benchmark_of (db w) key).
      * apply to_cents_of_cents.
      * apply to_cents_of_cents.
    + etrans; [by apply reads_only_events|]. unfold only_events. rewrite Hdb. by repeat split.
Qed.

Lemma rebuild_live_slice_benchmark_stores_vwap_witness :
  ∃ w' b, rebuild_live_slice_benchmark ASK (Some "BIO_METHANOL") (Some (d_id Demo.rotterdam)) (Some "SPOT")
      Demo.quoted = Ok (Some (of_cents 60571)) w'
    ∧ benchmark_of (db w') (slice_key ASK "BIO_METHANOL" (d_id Demo.rotterdam) "SPOT") = Some b
    ∧ b_benchmark_price_per_mt_usd b = 60571.
Proof.
  destruct (rebuild_live_slice_benchmark_stores_vwap ASK "BIO_METHANOL" (d_id Demo.rotterdam) "SPOT" Demo.quoted)
    as (w' & Hrun & (_ & Hst & _) & _).
  - exact quoted_checked.
  - split; apply (bool_decide_unpack _); vm_compute; exact I.
  - vm_compute. discriminate.
  - discriminate.
  - vm_compute. reflexivity.
  - exact quoted_observes.
  - assert (benchmark_rows (db Demo.quoted) (slice_key ASK "BIO_METHANOL" (d_id Demo.rotterdam) "SPOT")
      (transaction_time Demo.quoted) = [Demo.qualified_ask'; Demo.qualified_ask]) as Hrows
      by (vm_compute; reflexivity).
    rewrite Hrows in Hrun, Hst.
    destruct (benchmark_of (db w') _) as [b|] eqn:Hb; [|discriminate Hst].
    destruct Hst as (_ & Hp & _). exists w', b. split; [exact Hrun|split; [exact Hb|exact Hp]].
Defined.
