(* ===== verification/Inventory.v ===== *)
(** * The inventory reservation ledger

    [app/services/inventory_reservations.py]: locking inventory rows in id
    order, reserving, consuming and releasing stock, and the guard that keeps
    a row backing live work immutable.  Stock is split between
    [current_stock_mt] (free) and [reserved_stock_mt] (backing listings). *)

From S2P Require Import Prelude Catalog Calendar AvailabilityWindows Schema Constraints Database Events.
Local Open Scope Z_scope.

Definition lock_inventory_items (item_ids : gset uuid) : M World (gmap uuid InventoryItem) :=
  if bool_decide (item_ids = ∅) then mret ∅
  else
    take_lock (RowInventory (sorted_set (elements item_ids))) ;;
    d ← get_db;
    let rows := filter (λ kv, kv.1 ∈ item_ids) (inventory d) in
    refuse (bool_decide (item_ids ∖ dom rows ≠ ∅))
      (HTTPException 409 (Msg "Inventory reservation no longer exists")) ;;
    mret rows.

(** [(await lock_inventory_items(db, {item_id}))[item_id]] *)
Definition lock_inventory_item (item_id : uuid) : M World InventoryItem :=
  rows ← lock_inventory_items {[ item_id ]};
  match rows !! item_id with
  | Some item => mret item
  | None => raise KeyError
  end.

Definition trade_is_nonterminal (t : Trade) : bool :=
  bool_decide (t_status t = PENDING_CONFIRMATION ∨ t_status t = CONFIRMED ∨ t_status t = DELIVERED).

Definition trade_links_order (t : Trade) (o : Order) : bool :=
  bool_decide (t_bid_order_id t = Some (o_id o)) || bool_decide (t_ask_order_id t = Some (o_id o)).

(** The orders an inventory row backs. *)
Definition orders_of_item (d : Database) (item_id : uuid) : list Order :=
  filter (λ o, o_inventory_item_id o = Some item_id) (snd <$> map_to_list (orders d)).

Definition assert_inventory_mutable (item : InventoryItem) (deleting : bool) : M World unit :=
  refuse (bool_decide (0 < i_reserved_stock_mt item))
    (HTTPException 409 (Msg "Inventory has an active reservation")) ;;
  d ← get_db;
  refuse (existsb (λ o, is_active_status (o_status o)) (orders_of_item d (i_id item)))
    (HTTPException 409 (Msg "Inventory has a nonterminal listing")) ;;
  refuse (existsb (λ o, existsb (λ t, trade_links_order t o && trade_is_nonterminal t)
                          (snd <$> map_to_list (trades d)))
                  (orders_of_item d (i_id item)))
    (HTTPException 409 (Msg "Inventory has a nonterminal trade")) ;;
  if deleting
  then refuse (bool_decide (orders_of_item d (i_id item) ≠ []))
         (HTTPException 409 (Msg "Inventory has preserved order history"))
  else mret tt.

Definition reserve_inventory (item_id : uuid) (quantity : Z) : M World InventoryItem :=
  refuse (quantity <=? 0) (ValueError (Msg "reservation quantity must be positive")) ;;
  item ← lock_inventory_item item_id;
  let current := i_current_stock_mt item in
  refuse (current <? quantity)
    (HTTPException 409 (Msg "Inventory stock is already reserved or unavailable")) ;;
  let item' := item <| i_current_stock_mt := current - quantity |>
                    <| i_reserved_stock_mt := i_reserved_stock_mt item + quantity |> in
  put_item item' ;; mret item'.

Definition consume_inventory (item_id : uuid) (quantity : Z) : M World InventoryItem :=
  if quantity <=? 0 then lock_inventory_item item_id
  else
    item ← lock_inventory_item item_id;
    let reserved := i_reserved_stock_mt item in
    refuse (reserved <? quantity)
      (HTTPException 409 (Msg "Inventory reservation is inconsistent")) ;;
    let item' := item <| i_reserved_stock_mt := reserved - quantity |> in
    put_item item' ;; mret item'.

Definition release_inventory (item_id : uuid) (quantity : Z) : M World InventoryItem :=
  if quantity <=? 0 then lock_inventory_item item_id
  else
    item ← lock_inventory_item item_id;
    let reserved := i_reserved_stock_mt item in
    refuse (reserved <? quantity)
      (HTTPException 409 (Msg "Inventory reservation is inconsistent")) ;;
    let item' := item <| i_reserved_stock_mt := reserved - quantity |>
                      <| i_current_stock_mt := i_current_stock_mt item + quantity |> in
    put_item item' ;; mret item'.

Definition reconcile_inventory_quantity (item_id : uuid) (old_quantity new_quantity : Z)
    : M World InventoryItem :=
  item ← lock_inventory_item item_id;
  let delta := new_quantity - old_quantity in
  let current := i_current_stock_mt item in
  if 0 <? delta then
    let item' := item <| i_current_stock_mt := current + delta |> in
    put_item item' ;; mret item'
  else if delta <? 0 then
    let reduction := - delta in
    refuse (current <? reduction)
      (HTTPException 409 (Msg "Cannot reduce inventory below current stock")) ;;
    let item' := item <| i_current_stock_mt := current - reduction |> in
    put_item item' ;; mret item'
  else mret item.

(** ** Facts *)

Lemma reads_lock_inventory_items ids : Keeps reads (lock_inventory_items ids).
Proof. unfold lock_inventory_items. keeps. Qed.
#[export] Hint Resolve reads_lock_inventory_items : keeps.

Lemma lock_inventory_items_ok ids w rows w' :
  lock_inventory_items ids w = Ok rows w' →
  db w' = db w ∧ only_events w w' ∧
  ∀ id, id ∈ ids → ∃ item, rows !! id = Some item ∧ inventory (db w) !! id = Some item.
Proof.
  unfold lock_inventory_items. case_bool_decide as He.
  { intros H. inversion H; subst. split_and!; [done|reflexivity|set_solver]. }
  intros H. inv_run H.
  rewrite bool_decide_eq_false in Hguard.
  split_and!; [done|by apply only_events_same_db|].
  intros id Hid.
  destruct (filter (λ kv : N * InventoryItem, kv.1 ∈ ids) (inventory (db w)) !! id) as [item|] eqn:Hl.
  - exists item. split; [done|]. by apply map_lookup_filter_Some in Hl as [? _].
  - destruct Hguard. intros Heq. apply not_elem_of_dom in Hl. set_solver.
Qed.

Lemma lock_inventory_item_ok id w item w' :
  lock_inventory_item id w = Ok item w' →
  db w' = db w ∧ only_events w w' ∧ inventory (db w) !! id = Some item.
Proof.
  unfold lock_inventory_item. intros H. inv_run H.
  apply lock_inventory_items_ok in Hrun as (Hdb & Hev & Hrows).
  destruct (Hrows id) as (it & Hr & Hi); [set_solver|].
  rewrite Hr in H. inversion H; subst. split_and!; done.
Qed.

Lemma lock_inventory_item_run w id item :
  inventory (db w) !! id = Some item →
  lock_inventory_item id w
  = Ok item (w <| locks := locks w ++ [RowInventory (sorted_set (elements ({[ id ]} : gset uuid)))] |>).
Proof.
  intros Hi. unfold lock_inventory_item, lock_inventory_items.
  rewrite bool_decide_eq_false_2 by set_solver.
  set (rows := filter (λ kv : N * InventoryItem, kv.1 ∈ ({[ id ]} : gset uuid)) (inventory (db w))).
  assert (rows !! id = Some item) as Hrow.
  { unfold rows. apply map_lookup_filter_Some. split; [done|]. simpl. set_solver. }
  erewrite bind_run.
  2: { erewrite bind_run by reflexivity. erewrite bind_run by reflexivity.
       change (inventory _) with (inventory (db w)). fold rows.
       rewrite bool_decide_eq_false_2.
       - reflexivity.
       - intros H. apply H. apply elem_of_dom_2 in Hrow. set_solver. }
  by rewrite Hrow.
Qed.

Lemma locked_item_run {A} (k : InventoryItem → M World A) w id item :
  inventory (db w) !! id = Some item →
  ∃ l, (lock_inventory_item id ≫= k) w = k item (w <| locks := l |>).
Proof.
  intros Hi. eexists. erewrite bind_run by (by apply lock_inventory_item_run). reflexivity.
Qed.

(** ** The ledger the operations implement *)

Record Ledger := MkLedger { free : Z; held : Z }.

Definition ledger_of (item : InventoryItem) : Ledger :=
  MkLedger (i_current_stock_mt item) (i_reserved_stock_mt item).

Inductive ledger_op := Reserve | Consume | Release.

(** What an operation promises: [None] is a refusal. *)
Definition ledger_step (op : ledger_op) (q : Z) (l : Ledger) : option Ledger :=
  match op with
  | Reserve =>
      if (0 <? q) && (q <=? free l) then Some (MkLedger (free l - q) (held l + q)) else None
  | Consume =>
      if q <=? 0 then Some l
      else if q <=? held l then Some (MkLedger (free l) (held l - q)) else None
  | Release =>
      if q <=? 0 then Some l
      else if q <=? held l then Some (MkLedger (free l + q) (held l - q)) else None
  end.

Definition run_ledger_op (op : ledger_op) : uuid → Z → M World InventoryItem :=
  match op with
  | Reserve => reserve_inventory
  | Consume => consume_inventory
  | Release => release_inventory
  end.

(** Reserving and releasing move stock; consuming removes exactly [q]. *)
Definition ledger_removed (op : ledger_op) (q : Z) : Z :=
  match op with Consume => Z.max 0 q | _ => 0 end.

Lemma ledger_step_conserves op q l l' :
  ledger_step op q l = Some l' →
  free l' + held l' = free l + held l - ledger_removed op q
  ∧ (0 <= free l → 0 <= held l → 0 <= free l' ∧ 0 <= held l').
Proof.
  unfold ledger_step. destruct op; simpl;
    repeat match goal with |- context [?a <=? ?b] => destruct (Z.leb_spec a b) end;
    repeat match goal with |- context [?a <? ?b] => destruct (Z.ltb_spec a b) end;
    simpl; intros Heq; inversion Heq; subst; simpl; lia.
Qed.

Lemma item_unchanged w id item :
  inventory (db w) !! id = Some item →
  db w = (db w) <| inventory := <[ id := item ]> (inventory (db w)) |>.
Proof. intros Hi. rewrite insert_id by done. by destruct (db w). Qed.

(** Step over the lock of a row known to be in the table. *)
Ltac run_locked_item :=
  match goal with
  | Hi : inventory (db ?w) !! ?i = Some ?item
    |- context [mbind ?k (lock_inventory_item ?i) ?w] =>
      destruct (locked_item_run k w i item Hi) as [? ->]
  end.

Section ledger_ops.
Context (w : World) (id : uuid) (q : Z) (item : InventoryItem).
Context (Hi : inventory (db w) !! id = Some item) (Hid : i_id item = id).

Lemma ledger_op_succeeds op l' :
  ledger_step op q (ledger_of item) = Some l' →
  ∃ w' item', run_ledger_op op id q w = Ok item' w' ∧ ledger_of item' = l'
    ∧ db w' = (db w) <| inventory := <[ id := item' ]> (inventory (db w)) |>
    ∧ committed w' = committed w.
Proof.
  destruct op; cbn [run_ledger_op ledger_step ledger_of free held];
    unfold reserve_inventory, consume_inventory, release_inventory; intros Hstep.
  - destruct (Z.ltb_spec 0 q), (Z.leb_spec q (i_current_stock_mt item)); inversion Hstep; subst.
    rewrite (proj2 (Z.leb_gt q 0)) by lia. erewrite bind_run by reflexivity.
    run_locked_item.
    rewrite (proj2 (Z.ltb_ge _ _)) by lia. by eexists _, _.
  - destruct (Z.leb_spec q 0).
    { inversion Hstep; subst. eexists _, _.
      split; [by apply lock_inventory_item_run|]. split_and!; [done|exact (item_unchanged w _ item Hi)|done]. }
    destruct (Z.leb_spec q (i_reserved_stock_mt item)); inversion Hstep; subst.
    run_locked_item.
    rewrite (proj2 (Z.ltb_ge _ _)) by lia. by eexists _, _.
  - destruct (Z.leb_spec q 0).
    { inversion Hstep; subst. eexists _, _.
      split; [by apply lock_inventory_item_run|]. split_and!; [done|exact (item_unchanged w _ item Hi)|done]. }
    destruct (Z.leb_spec q (i_reserved_stock_mt item)); inversion Hstep; subst.
    run_locked_item.
    rewrite (proj2 (Z.ltb_ge _ _)) by lia. by eexists _, _.
Qed.

Lemma ledger_op_refuses op :
  ledger_step op q (ledger_of item) = None →
  ∃ e w', run_ledger_op op id q w = Raise e w' ∧ db w' = db w.
Proof.
  destruct op; cbn [run_ledger_op ledger_step ledger_of free held];
    unfold reserve_inventory, consume_inventory, release_inventory; intros Hstep.
  - destruct (Z.leb_spec q 0); [by eexists _, _|].
    rewrite (proj2 (Z.ltb_lt 0 q)) in Hstep by lia.
    destruct (Z.leb_spec q (i_current_stock_mt item)); [done|].
    erewrite bind_run by reflexivity. run_locked_item.
    rewrite (proj2 (Z.ltb_lt _ _)) by lia. by eexists _, _.
  - destruct (Z.leb_spec q 0), (Z.leb_spec q (i_reserved_stock_mt item)); try done.
    run_locked_item.
    rewrite (proj2 (Z.ltb_lt _ _)) by lia. by eexists _, _.
  - destruct (Z.leb_spec q 0), (Z.leb_spec q (i_reserved_stock_mt item)); try done.
    run_locked_item.
    rewrite (proj2 (Z.ltb_lt _ _)) by lia. by eexists _, _.
Qed.
End ledger_ops.

(** The three stock movements implement the reservation ledger.  Each one
    succeeds exactly when the ledger step does, writes the stepped balances
    into the item's row and touches nothing else; otherwise it raises and the
    tables are unchanged.  A step conserves free plus reserved stock, except
    that consuming removes exactly the quantity, and keeps both
    non-negative. *)
Theorem inventory_operations_implement_ledger op w id q item :
  inventory (db w) !! id = Some item → i_id item = id →
  match ledger_step op q (ledger_of item) with
  | Some l' =>
      (∃ w' item', run_ledger_op op id q w = Ok item' w' ∧ ledger_of item' = l'
         ∧ db w' = (db w) <| inventory := <[ id := item' ]> (inventory (db w)) |>
         ∧ committed w' = committed w)
      ∧ free l' + held l' = i_current_stock_mt item + i_reserved_stock_mt item - ledger_removed op q
      ∧ (0 <= i_current_stock_mt item → 0 <= i_reserved_stock_mt item → 0 <= free l' ∧ 0 <= held l')
  | None => ∃ e w', run_ledger_op op id q w = Raise e w' ∧ db w' = db w
  end.
Proof.
  intros Hi Hid. destruct (ledger_step op q (ledger_of item)) as [l'|] eqn:Hstep.
  - split; [|by apply ledger_step_conserves in Hstep].
    by apply (ledger_op_succeeds w id q item).
  - by apply (ledger_op_refuses w id q item).
Qed.

Lemma inventory_operations_implement_ledger_witness :
  let item := MkInventoryItem 7 None None None None 500 0 200 None None false false None None
                false None None None None false None in
  let w := MkWorld (empty_database <| inventory := {[ 7%N := item ]} |>) empty_database
             (MkClocks (λ _, 0) 0) 0 default_settings [] 0 in
  ∃ w' item', release_inventory 7 50 w = Ok item' w' ∧ ledger_of item' = MkLedger 550 150.
Proof.
  intros item w.
  destruct (inventory_operations_implement_ledger Release w 7 50 item eq_refl eq_refl)
    as [(w' & item' & H1 & H2 & _) _].
  exists w', item'. split; [exact H1|exact H2].
Defined.
