(* ===== verification/Ledger.v ===== *)
(** * The reservation invariant

    What [reserved_stock_mt] means across components: the reserved stock of an
    inventory row is exactly what the orders it backs still offer plus what
    their unconfirmed trades hold.  Orders that were cancelled or expired have
    released their remainder; confirming a trade consumes its share.  Listing,
    matching, hitting, confirming, declining and expiring each move stock on
    both sides of this equation ([Lifecycle], [Matching], [Trades]). *)

From S2P Require Import Prelude Catalog Calendar AvailabilityWindows Schema Constraints Database Events Inventory.
Local Open Scope Z_scope.

Definition is_withdrawn (s : OrderBookStatus) : bool := bool_decide (s = CANCELLED ∨ s = EXPIRED).

Lemma active_not_withdrawn s : is_active_status s = true → is_withdrawn s = false.
Proof. by destruct s. Qed.

(** What an order still offers out of item [i]. *)
Definition order_holds (i : uuid) (o : Order) : Z :=
  if bool_decide (o_inventory_item_id o = Some i) && negb (is_withdrawn (o_status o))
  then o_remaining_quantity_mt o else 0.

(** The order a trade was struck on, and what a pending trade holds of [i]. *)
Definition trade_order_id (t : Trade) : option uuid :=
  match t_ask_order_id t with Some a => Some a | None => t_bid_order_id t end.
Definition trade_item (m : gmap uuid Order) (t : Trade) : option uuid :=
  id ← trade_order_id t; o ← m !! id; o_inventory_item_id o.
Definition trade_holds (m : gmap uuid Order) (i : uuid) (t : Trade) : Z :=
  if bool_decide (t_status t = PENDING_CONFIRMATION) && bool_decide (trade_item m t = Some i)
  then t_quantity_mt t else 0.

Definition held_stock (d : Database) (i : uuid) : Z :=
  sum_map (order_holds i) (orders d) + sum_map (trade_holds (orders d) i) (trades d).

Definition reservations_ok (d : Database) : Prop :=
  map_Forall (λ i item, i_reserved_stock_mt item = held_stock d i) (inventory d).
#[export] Instance reservations_ok_dec d : Decision (reservations_ok d).
Proof. unfold reservations_ok. apply _. Defined.

(** Tables that differ only outside orders, trades and inventory. *)
Definition same_ledger (d d' : Database) : Prop :=
  orders d' = orders d ∧ trades d' = trades d ∧ inventory d' = inventory d.

Lemma same_ledger_ok d d' : same_ledger d d' → reservations_ok d → reservations_ok d'.
Proof.
  intros (Ho & Ht & Hi). unfold reservations_ok, held_stock. by rewrite Ho, Ht, Hi.
Qed.

Lemma only_events_same_ledger w w' : only_events w w' → same_ledger (db w) (db w').
Proof. unfold only_events, same_ledger. intros ?. by destruct_and!. Qed.
Lemma only_events_reservations w w' : only_events w w' → reservations_ok (db w) → reservations_ok (db w').
Proof. intros H. apply same_ledger_ok. by apply only_events_same_ledger. Qed.

(** ** How one write moves the held stock *)

(** A trade finds the same item after its order changes elsewhere. *)
Lemma trade_item_put m t id o o' :
  m !! id = Some o → o_inventory_item_id o' = o_inventory_item_id o →
  trade_item (<[ id := o' ]> m) t = trade_item m t.
Proof.
  intros Hid Hi. unfold trade_item. destruct (trade_order_id t) as [k|]; [|done]. cbn.
  destruct (decide (k = id)) as [->|].
  - by rewrite lookup_insert_eq, Hid.
  - by rewrite lookup_insert_ne.
Qed.

Lemma trade_holds_put m i t id o o' :
  m !! id = Some o → o_inventory_item_id o' = o_inventory_item_id o →
  trade_holds (<[ id := o' ]> m) i t = trade_holds m i t.
Proof. intros Hid Hi. unfold trade_holds. by rewrite (trade_item_put m t id o o'). Qed.

Lemma held_put_order d i id o o' :
  orders d !! id = Some o → o_inventory_item_id o' = o_inventory_item_id o →
  held_stock (d <| orders := <[ id := o' ]> (orders d) |>) i
  = held_stock d i - order_holds i o + order_holds i o'.
Proof.
  intros Hid Hi. unfold held_stock. cbn.
  rewrite (sum_map_update (order_holds i) (orders d) id o o') by done.
  rewrite (sum_map_ext _ (trade_holds (orders d) i)); [lia|].
  intros k t _. by apply (trade_holds_put _ _ _ _ o).
Qed.

Lemma held_put_trade d i id t t' :
  trades d !! id = Some t →
  held_stock (d <| trades := <[ id := t' ]> (trades d) |>) i
  = held_stock d i - trade_holds (orders d) i t + trade_holds (orders d) i t'.
Proof.
  intros Hid. unfold held_stock. cbn.
  rewrite (sum_map_update _ (trades d) id t t') by done. lia.
Qed.

Lemma held_new_trade d i id t' :
  trades d !! id = None →
  held_stock (d <| trades := <[ id := t' ]> (trades d) |>) i
  = held_stock d i + trade_holds (orders d) i t'.
Proof. intros Hid. unfold held_stock. cbn. rewrite sum_map_insert by done. lia. Qed.

Lemma held_put_item d i m : held_stock (d <| inventory := m |>) i = held_stock d i.
Proof. done. Qed.

(** The held stock of an item other than the one an order is backed by. *)
Lemma order_holds_other i o : o_inventory_item_id o ≠ Some i → order_holds i o = 0.
Proof. intros H. unfold order_holds. by rewrite bool_decide_eq_false_2. Qed.
Lemma order_holds_own i o :
  o_inventory_item_id o = Some i →
  order_holds i o = if is_withdrawn (o_status o) then 0 else o_remaining_quantity_mt o.
Proof. intros H. unfold order_holds. rewrite bool_decide_eq_true_2 by done. by destruct (is_withdrawn _). Qed.

Lemma order_holds_nonneg i o : order_checks o → 0 <= order_holds i o.
Proof. intros H%order_checks_remaining. unfold order_holds. destruct (_ && _); lia. Qed.
Lemma trade_holds_nonneg m i t : trade_checks t → 0 <= trade_holds m i t.
Proof.
  intros (_ & (Hq & _) & _). unfold trade_holds, required_numeric in *. destruct (_ && _); lia.
Qed.

(** What an order or a pending trade holds is covered by the reserved stock. *)
Lemma held_covers_order d i id o :
  database_checks d → orders d !! id = Some o → order_holds i o <= held_stock d i.
Proof.
  intros (Ho & Ht & _) Hid. unfold held_stock.
  pose proof (sum_map_le_one (order_holds i) (orders d) id o).
  assert (0 <= sum_map (trade_holds (orders d) i) (trades d)).
  { apply sum_map_nonneg. intros k t Hk. apply trade_holds_nonneg. by eapply Ht. }
  assert (order_holds i o <= sum_map (order_holds i) (orders d)); [|lia].
  apply (sum_map_le_one _ _ id); [|done]. intros k o' Hk. apply order_holds_nonneg. by eapply Ho.
Qed.

Lemma held_covers_orders d i id id' o o' :
  database_checks d → id ≠ id' → orders d !! id = Some o → orders d !! id' = Some o' →
  order_holds i o + order_holds i o' <= held_stock d i.
Proof.
  intros (Ho & Ht & _) Hne Hid Hid'. unfold held_stock.
  rewrite (sum_map_delete _ (orders d) id o Hid).
  assert (0 <= sum_map (trade_holds (orders d) i) (trades d)).
  { apply sum_map_nonneg. intros k t Hk. apply trade_holds_nonneg. by eapply Ht. }
  assert (order_holds i o' <= sum_map (order_holds i) (delete id (orders d))); [|lia].
  apply (sum_map_le_one _ _ id'); [|by rewrite lookup_delete_ne].
  intros k x [_ Hk]%lookup_delete_Some. apply order_holds_nonneg. by eapply Ho.
Qed.

Lemma held_covers_trade d i id t :
  database_checks d → trades d !! id = Some t → trade_holds (orders d) i t <= held_stock d i.
Proof.
  intros (Ho & Ht & _) Hid. unfold held_stock.
  assert (0 <= sum_map (order_holds i) (orders d)).
  { apply sum_map_nonneg. intros k o Hk. apply order_holds_nonneg. by eapply Ho. }
  assert (trade_holds (orders d) i t <= sum_map (trade_holds (orders d) i) (trades d)); [|lia].
  apply (sum_map_le_one _ _ id); [|done]. intros k t' Hk. apply trade_holds_nonneg. by eapply Ht.
Qed.

Lemma held_covers_both d i id o id' t :
  database_checks d → orders d !! id = Some o → trades d !! id' = Some t →
  order_holds i o + trade_holds (orders d) i t <= held_stock d i.
Proof.
  intros (Ho & Ht & _) Hid Hid'. unfold held_stock.
  assert (order_holds i o <= sum_map (order_holds i) (orders d)).
  { apply (sum_map_le_one _ _ id); [|done]. intros k x Hk. apply order_holds_nonneg. by eapply Ho. }
  assert (trade_holds (orders d) i t <= sum_map (trade_holds (orders d) i) (trades d)); [|lia].
  apply (sum_map_le_one _ _ id'); [|done]. intros k t' Hk. apply trade_holds_nonneg. by eapply Ht.
Qed.

(** ** What trades fill of an order *)

(** A trade that was neither declined nor cancelled. *)
Definition is_live (s : TradeStatus) : bool := negb (bool_decide (s = DECLINED ∨ s = TRADE_CANCELLED)).

Definition trade_fills (id : uuid) (t : Trade) : Z :=
  if (bool_decide (t_bid_order_id t = Some id) || bool_decide (t_ask_order_id t = Some id))
     && is_live (t_status t)
  then t_quantity_mt t else 0.
Definition filled_stock (d : Database) (id : uuid) : Z := sum_map (trade_fills id) (trades d).

(** An order is never overfilled: its live trades and what it still offers
    stay within its quantity. *)
Definition fills_ok (d : Database) : Prop :=
  map_Forall (λ id o, o_remaining_quantity_mt o + filled_stock d id <= o_quantity_mt o) (orders d).

Lemma filled_put_trade d id k t t' :
  trades d !! k = Some t →
  filled_stock (d <| trades := <[ k := t' ]> (trades d) |>) id
  = filled_stock d id - trade_fills id t + trade_fills id t'.
Proof. intros Hk. unfold filled_stock. cbn. by apply sum_map_update. Qed.

Lemma filled_new_trade d id k t' :
  trades d !! k = None →
  filled_stock (d <| trades := <[ k := t' ]> (trades d) |>) id = filled_stock d id + trade_fills id t'.
Proof. intros Hk. unfold filled_stock. cbn. rewrite sum_map_insert by done. lia. Qed.

Lemma fills_ok_put_order d k o' :
  fills_ok d → o_remaining_quantity_mt o' + filled_stock d k <= o_quantity_mt o' →
  fills_ok (d <| orders := <[ k := o' ]> (orders d) |>).
Proof. intros H Ho'. unfold fills_ok. cbn. by apply map_Forall_insert_2. Qed.

(** ** The invariant of the trading tables

    Checked rows under their own ids, exact reservations, canonical slice keys,
    stock that fits its column once every reservation is released, and no
    overfilled order. *)

Definition stock_fits (d : Database) : Prop :=
  map_Forall (λ _ i, i_current_stock_mt i + i_reserved_stock_mt i <= cents 100000) (inventory d).
Definition windows_canonical (d : Database) : Prop :=
  map_Forall (λ _ o, JSON_SCHEMA_PATTERN (o_availability_window o) = true) (orders d).

Definition market_ok (d : Database) : Prop :=
  database_checks d ∧ keyed d ∧ reservations_ok d ∧ stock_fits d ∧ windows_canonical d ∧ fills_ok d.
#[export] Instance market_ok_dec d : Decision (market_ok d).
Proof. unfold market_ok, keyed, stock_fits, windows_canonical, fills_ok. apply _. Defined.

Lemma market_ok_only_events w w' : only_events w w' → market_ok (db w) → market_ok (db w').
Proof.
  intros H (Hc & Hk & Hr & Hs & Hw). refine (conj _ (conj _ (conj _ (conj _ (conj _ _))))).
  { by apply (only_events_checks w w'). }
  2: { by eapply only_events_reservations. }
  all: unfold keyed, stock_fits, windows_canonical, fills_ok, filled_stock in *; rewrite_tables H; tauto.
Qed.

(** An order keeps what identifies it in the ledger. *)
Definition same_identity (o o' : Order) : Prop :=
  o_id o' = o_id o ∧ o_quantity_mt o' = o_quantity_mt o ∧ o_inventory_item_id o' = o_inventory_item_id o
  ∧ o_availability_window o' = o_availability_window o
  ∧ order_idempotency_key o' = order_idempotency_key o
  ∧ o_acceptance_ordinal o' = o_acceptance_ordinal o
  ∧ o_support_authorization_id o' = o_support_authorization_id o
  ∧ o_side o' = o_side o.

(** Withdrawing an order: its new row, and its remainder given back. *)
Definition release_stock (q : Z) (item : InventoryItem) : InventoryItem :=
  item <| i_reserved_stock_mt := i_reserved_stock_mt item - q |>
       <| i_current_stock_mt := i_current_stock_mt item + q |>.
Definition released_inventory (d : Database) (o : Order) : gmap uuid InventoryItem :=
  match o_inventory_item_id o with
  | Some i =>
      if 0 <? o_remaining_quantity_mt o
      then alter (release_stock (o_remaining_quantity_mt o)) i (inventory d) else inventory d
  | None => inventory d
  end.
Definition withdrawn_in (d : Database) (o o' : Order) : Database :=
  d <| inventory := released_inventory d o |> <| orders := <[ o_id o' := o' ]> (orders d) |>.

(** What happens to one row of the inventory. *)
Lemma released_lookup d o i item' :
  order_checks o → is_withdrawn (o_status o) = false → released_inventory d o !! i = Some item' →
  ∃ item, inventory d !! i = Some item ∧ i_id item' = i_id item
    ∧ i_reserved_stock_mt item' = i_reserved_stock_mt item - order_holds i o
    ∧ i_current_stock_mt item' = i_current_stock_mt item + order_holds i o
    ∧ i_incoming_stock_mt item' = i_incoming_stock_mt item
    ∧ i_price_per_mt_usd item' = i_price_per_mt_usd item
    ∧ i_energy_density_mj_kg item' = i_energy_density_mj_kg item
    ∧ i_carbon_intensity_gco2_mj item' = i_carbon_intensity_gco2_mj item.
Proof.
  intros Hc%order_checks_remaining Hs. unfold released_inventory, order_holds. rewrite Hs.
  destruct (o_inventory_item_id o) as [j|] eqn:Hj.
  2: { rewrite bool_decide_eq_false_2 by done. cbn. intros H. exists item'. split_and!; lia || done. }
  destruct (Z.ltb_spec 0 (o_remaining_quantity_mt o)).
  - destruct (decide (i = j)) as [->|].
    + rewrite lookup_alter_eq, bool_decide_eq_true_2 by done. intros (item & Hi & ->)%fmap_Some_1.
      exists item. by split_and!.
    + rewrite lookup_alter_ne, bool_decide_eq_false_2 by congruence. cbn. intros H0.
      exists item'. split_and!; lia || done.
  - intros H0. exists item'. case_bool_decide; cbn; split_and!; lia || done.
Qed.

Lemma market_ok_withdraw d o o' :
  market_ok d → orders d !! o_id o = Some o → is_withdrawn (o_status o) = false →
  is_withdrawn (o_status o') = true → same_identity o o' →
  o_remaining_quantity_mt o' = o_remaining_quantity_mt o → order_checks o' →
  market_ok (withdrawn_in d o o').
Proof.
  intros (Hc & Hk & Hr & Hs & Hw & Hf) Hid Ho Ho' (Eid & Eq & Ei & Ew & E1 & E2 & E3 & _) Er Hc'.
  assert (order_checks o) as Hoc by (by eapply (proj1 Hc)).
  assert (∀ i item item', inventory d !! i = Some item → released_inventory d o !! i = Some item' →
    0 <= order_holds i o <= i_reserved_stock_mt item) as Hcover.
  { intros i item item' Hi _. split; [by apply order_holds_nonneg|].
    rewrite (Hr i item Hi). by eapply held_covers_order. }
  unfold withdrawn_in. rewrite Eid. refine (conj _ (conj _ (conj _ (conj _ (conj _ _))))).
  - set (d1 := d <| inventory := released_inventory d o |>).
    change (orders d) with (orders d1). apply (checks_put_order d1 (o_id o) o); try done. unfold d1.
    destruct Hc as (C1 & C2 & C3 & C4 & C5 & U & S). unfold database_checks. cbn. split_and!; try done.
    intros i item' Hi'. destruct (released_lookup d o i item' Hoc Ho Hi')
      as (item & Hi & _ & Hres & Hcur & Hinc & Hp & He & Hci).
    pose proof (Hcover i item item' Hi Hi'). pose proof (Hs i item Hi). cbn beta in *.
    destruct (C3 i item Hi) as (? & ? & ? & ? & ? & ?).
    unfold INVENTORY_NUMERIC_VALUES, required_numeric in *. rewrite Hp, He, Hci, Hres, Hcur, Hinc. split_and!; done || lia.
  - destruct Hk as (K1 & K2 & K3 & K). unfold keyed. cbn. split_and!; try apply K; try done.
    + by apply map_Forall_insert_2.
    + intros i item' Hi'. destruct (released_lookup d o i item' Hoc Ho Hi') as (item & Hi & -> & _).
      by apply (K3 i item).
  - intros i item' Hi'. cbn [inventory] in Hi'.
    destruct (released_lookup d o i item' Hoc Ho Hi') as (item & Hi & _ & -> & _).
    set (d1 := d <| inventory := released_inventory d o |>).
    change (orders d) with (orders d1). rewrite (held_put_order d1 i (o_id o) o o') by done.
    unfold d1. rewrite held_put_item, (Hr i item Hi).
    assert (order_holds i o' = 0) as -> by (unfold order_holds; by rewrite Ho', andb_false_r). lia.
  - intros i item' Hi'. destruct (released_lookup d o i item' Hoc Ho Hi') as (item & Hi & _ & -> & -> & _).
    specialize (Hs i item Hi). cbn beta in Hs. lia.
  - unfold windows_canonical. cbn. apply map_Forall_insert_2; [|done]. rewrite Ew. by apply (Hw (o_id o)).
  - set (d1 := d <| inventory := released_inventory d o |>).
    pose proof (fills_ok_put_order d1 (o_id o) o' Hf) as Hput. apply Hput.
    rewrite Eq, Er. exact (Hf (o_id o) o Hid).
Qed.

(** Withdrawing an active order for good, under its new status. *)
Definition closed_order (s : OrderBookStatus) (o : Order) : Order := bump_version (o <| o_status := s |>).

Lemma closed_order_row s o :
  same_identity o (closed_order s o) ∧ o_status (closed_order s o) = s
  ∧ o_remaining_quantity_mt (closed_order s o) = o_remaining_quantity_mt o.
Proof. unfold closed_order, bump_version. case_bool_decide; by repeat split. Qed.

Lemma closed_order_checks s o : is_withdrawn s = true → order_checks o → order_checks (closed_order s o).
Proof.
  intros Hs%bool_decide_eq_true ((Hdemo & Hidem) & Hn & (Hle & _) & Hv). unfold closed_order, bump_version.
  destruct Hs as [-> | ->]; case_bool_decide;
    (refine (conj (conj _ Hidem) (conj Hn (conj (conj Hle I) _)));
     [cbn; tauto|unfold order_version_check in *; cbn; lia]).
Qed.

Lemma market_ok_close d o s :
  market_ok d → orders d !! o_id o = Some o → is_active_status (o_status o) = true → is_withdrawn s = true →
  market_ok (withdrawn_in d o (closed_order s o)).
Proof.
  intros Hok Ho Hact Hs. destruct (closed_order_row s o) as (Hident & Hst & Hrem).
  apply market_ok_withdraw; try done; [by apply active_not_withdrawn|by rewrite Hst|].
  apply closed_order_checks; [done|]. by apply (proj1 (proj1 Hok) (o_id o)).
Qed.
