(* ===== verification/TradeLedger.v ===== *)
(** * One trade's move on the ledger

    Every trade route changes one trade, at most one order and at most one
    inventory row before it flushes.  [moved] is that change; [market_ok_moved]
    reduces the market invariant of the result to the balance of the three. *)

From S2P Require Import Prelude Catalog Calendar AvailabilityWindows Schema Constraints Database Events Inventory Ledger.
Local Open Scope Z_scope.

(** Stock given back to, or taken from, the row that backs an order. *)
Definition move_stock (current reserved : Z) (item : InventoryItem) : InventoryItem :=
  item <| i_reserved_stock_mt := i_reserved_stock_mt item + reserved |>
       <| i_current_stock_mt := i_current_stock_mt item + current |>.

Record Move := MkMove {
  mv_trade : Trade;
  mv_order : option Order;
  mv_item : option uuid;
  mv_current : Z;
  mv_reserved : Z;
}.

Definition moved_orders (m : Move) (os : gmap uuid Order) : gmap uuid Order :=
  match mv_order m with Some o => <[ o_id o := o ]> os | None => os end.
Definition moved_inventory (m : Move) (inv : gmap uuid InventoryItem) : gmap uuid InventoryItem :=
  match mv_item m with
  | Some i => alter (move_stock (mv_current m) (mv_reserved m)) i inv
  | None => inv
  end.
Definition moved (d : Database) (m : Move) : Database :=
  d <| trades := <[ t_id (mv_trade m) := mv_trade m ]> (trades d) |>
    <| orders := moved_orders m (orders d) |>
    <| inventory := moved_inventory m (inventory d) |>.

(** What the trade held and filled before; nothing if it is new. *)
Definition held_before (d : Database) (i : uuid) (m : Move) : Z :=
  match trades d !! t_id (mv_trade m) with Some t => trade_holds (orders d) i t | None => 0 end.
Definition filled_before (d : Database) (id : uuid) (m : Move) : Z :=
  match trades d !! t_id (mv_trade m) with Some t => trade_fills id t | None => 0 end.
Definition order_change (d : Database) (f : Order → Z) (m : Move) : Z :=
  match mv_order m with
  | Some o' => match orders d !! o_id o' with Some o => f o' - f o | None => 0 end
  | None => 0
  end.

Definition same_key_or_new (d : Database) (t' : Trade) : Prop :=
  match trades d !! t_id t' with
  | Some t => trade_idempotency_key t' = trade_idempotency_key t
  | None => ∀ j t, trades d !! j = Some t → trade_idempotency_key t' = trade_idempotency_key t →
                   trade_idempotency_key t' = None
  end.

(** The move balances: what the three rows gain and lose adds up. *)
Record balanced (d : Database) (m : Move) : Prop := {
  bal_trade : trade_checks (mv_trade m);
  bal_key : same_key_or_new d (mv_trade m);
  bal_order : ∀ o', mv_order m = Some o' →
    ∃ o, orders d !! o_id o' = Some o ∧ same_identity o o' ∧ order_checks o';
  bal_held : ∀ i, is_Some (inventory d !! i) →
    trade_holds (orders d) i (mv_trade m) - held_before d i m + order_change d (order_holds i) m
    = if bool_decide (mv_item m = Some i) then mv_reserved m else 0;
  bal_stock : 0 <= mv_current m <= - mv_reserved m;
  bal_filled : ∀ id o, orders d !! id = Some o →
    trade_fills id (mv_trade m) - filled_before d id m
    + (if bool_decide (o_id <$> mv_order m = Some id)
       then order_change d o_remaining_quantity_mt m else 0) <= 0;
}.

Section moved.
Context (d : Database) (m : Move) (Hok : market_ok d) (Hbal : balanced d m).
#[local] Abbreviation t' := (mv_trade m).

Lemma moved_orders_lookup id o1 :
  moved_orders m (orders d) !! id = Some o1 →
  ∃ o, orders d !! id = Some o ∧ same_identity o o1 ∧ order_checks o1
    ∧ ∀ f : Order → Z, f o1 - f o = if bool_decide (o_id <$> mv_order m = Some id) then order_change d f m else 0.
Proof.
  destruct Hok as ((Hc & _) & _). unfold moved_orders, order_change.
  destruct (mv_order m) as [o'|] eqn:Ho'.
  2: { intros H. exists o1. split_and!; [done|by repeat split|by apply (Hc id)|].
       intros f. rewrite bool_decide_eq_false_2 by done. lia. }
  destruct (bal_order d m Hbal o' Ho') as (o & Ho & Hid & Hck).
  destruct (decide (id = o_id o')) as [->|Hne].
  - rewrite lookup_insert_eq. intros [= <-]. exists o. split_and!; [done..|].
    intros f. cbn. by rewrite bool_decide_eq_true_2, Ho.
  - rewrite lookup_insert_ne by done. intros H. exists o1. split_and!; [done|by repeat split|by apply (Hc id)|].
    intros f. cbn. rewrite bool_decide_eq_false_2 by congruence. lia.
Qed.

Lemma moved_trade_holds i t : trade_holds (moved_orders m (orders d)) i t = trade_holds (orders d) i t.
Proof.
  unfold moved_orders. destruct (mv_order m) as [o'|] eqn:Ho'; [|done].
  destruct (bal_order d m Hbal o' Ho') as (o & Ho & (_ & _ & Hi & _) & _).
  by apply (trade_holds_put _ _ _ _ o).
Qed.

Lemma moved_held i :
  held_stock (moved d m) i
  = held_stock d i + (trade_holds (orders d) i t' - held_before d i m + order_change d (order_holds i) m).
Proof.
  unfold held_stock, moved. cbn.
  assert (sum_map (order_holds i) (moved_orders m (orders d))
          = sum_map (order_holds i) (orders d) + order_change d (order_holds i) m) as ->.
  { unfold moved_orders, order_change. destruct (mv_order m) as [o'|] eqn:Ho'; [|lia].
    destruct (bal_order d m Hbal o' Ho') as (o & Ho & _). rewrite Ho.
    rewrite (sum_map_update (order_holds i) (orders d) (o_id o') o o') by done. lia. }
  rewrite (sum_map_ext _ (trade_holds (orders d) i)) by (intros; apply moved_trade_holds).
  unfold held_before. destruct (trades d !! t_id t') as [t|] eqn:Ht.
  - rewrite (sum_map_update _ (trades d) _ t t') by done. lia.
  - rewrite sum_map_insert by done. lia.
Qed.

Lemma moved_filled id :
  filled_stock (moved d m) id = filled_stock d id + trade_fills id t' - filled_before d id m.
Proof.
  unfold filled_stock, moved, filled_before. cbn. destruct (trades d !! t_id t') as [t|] eqn:Ht.
  - rewrite (sum_map_update _ (trades d) _ t t') by done. lia.
  - rewrite sum_map_insert by done. lia.
Qed.

(** The checks of the rows but the inventory's. *)
Lemma moved_row_checks :
  database_checks (d <| trades := <[ t_id t' := t' ]> (trades d) |> <| orders := moved_orders m (orders d) |>).
Proof.
  destruct Hok as (Hc & _).
  assert (database_checks (d <| trades := <[ t_id t' := t' ]> (trades d) |>)) as Hc1.
  { pose proof (bal_key d m Hbal) as Hkey. unfold same_key_or_new in Hkey.
    destruct (trades d !! t_id t') as [t|] eqn:Ht.
    - by apply (checks_put_trade d (t_id t') t); [..|apply Hbal|].
    - by apply checks_new_trade; [..|apply Hbal|]. }
  unfold moved_orders. destruct (mv_order m) as [o'|] eqn:Ho'; [|done].
  destruct (bal_order d m Hbal o' Ho') as (o & Ho & (_ & _ & _ & _ & E1 & E2 & E3 & _) & Hck).
  set (d1 := d <| trades := _ |>) in *. change (orders d) with (orders d1).
  by apply (checks_put_order d1 (o_id o') o).
Qed.

Lemma held_nonneg e i : database_checks e → 0 <= held_stock e i.
Proof.
  intros (Ho & Ht & _). unfold held_stock.
  assert (0 <= sum_map (order_holds i) (orders e)).
  { apply sum_map_nonneg. intros k o Hk. apply order_holds_nonneg. by eapply Ho. }
  assert (0 <= sum_map (trade_holds (orders e) i) (trades e)); [|lia].
  apply sum_map_nonneg. intros k t Hk. apply trade_holds_nonneg. by eapply Ht.
Qed.

Lemma moved_inventory_lookup i item' :
  moved_inventory m (inventory d) !! i = Some item' →
  ∃ item, inventory d !! i = Some item
    ∧ item' = if bool_decide (mv_item m = Some i) then move_stock (mv_current m) (mv_reserved m) item else item.
Proof.
  unfold moved_inventory. destruct (mv_item m) as [j|].
  2: { intros H. exists item'. by rewrite bool_decide_eq_false_2. }
  destruct (decide (i = j)) as [->|].
  - rewrite lookup_alter_eq, bool_decide_eq_true_2 by done. intros (item & Hi & ->)%fmap_Some_1. eauto.
  - rewrite lookup_alter_ne, bool_decide_eq_false_2 by congruence. eauto.
Qed.

(** A moved row still balances what is held of it, and fits its columns. *)
Lemma moved_item i item' :
  moved_inventory m (inventory d) !! i = Some item' →
  i_id item' = i ∧ INVENTORY_NUMERIC_VALUES item'
  ∧ i_reserved_stock_mt item' = held_stock (moved d m) i
  ∧ i_current_stock_mt item' + i_reserved_stock_mt item' <= cents 100000.
Proof.
  intros Hi'. destruct (moved_inventory_lookup i item' Hi') as (item & Hi & ->).
  destruct Hok as (Hc & Hk & Hr & Hs & _). pose proof (proj1 (proj2 (proj2 Hc)) i item Hi) as Hnum.
  destruct Hk as (_ & _ & Hk & _). pose proof (Hk i item Hi) as Hid.
  pose proof (Hr i item Hi) as Hres. pose proof (Hs i item Hi) as Hfit.
  pose proof (bal_held d m Hbal i (mk_is_Some _ _ Hi)) as Hheld.
  pose proof (moved_held i) as Hmoved. pose proof (bal_stock d m Hbal) as Hstock.
  pose proof (held_nonneg _ i moved_row_checks) as Hpos.
  change (held_stock (_ <| orders := _ |>) i) with (held_stock (moved d m) i) in Hpos.
  cbn beta in *. unfold INVENTORY_NUMERIC_VALUES, required_numeric in *.
  destruct (bool_decide _); cbn; (split_and!; [done|..]); first [apply Hnum|lia].
Qed.

Lemma market_ok_moved : market_ok (moved d m).
Proof.
  pose proof moved_row_checks as Hrow. pose proof moved_item as Hitem.
  destruct Hok as (Hc & Hk & Hr & Hs & Hw & Hf).
  refine (conj _ (conj _ (conj _ (conj _ (conj _ _))))).
  - destruct Hrow as (C1 & C2 & C3 & C4 & C5 & U & S). unfold database_checks, moved. cbn. split_and!; try done.
    intros i item' Hi'. by apply (Hitem i).
  - destruct Hk as (K1 & K2 & K3 & K). unfold keyed, moved. cbn. split_and!; try apply K.
    + intros id o1 Ho1. destruct (moved_orders_lookup id o1 Ho1) as (o & Ho & (-> & _) & _). by apply (K1 id).
    + by apply map_Forall_insert_2.
    + intros i item' Hi'. by apply (Hitem i).
  - intros i item' Hi'. by apply (Hitem i).
  - intros i item' Hi'. by apply (Hitem i).
  - intros id o1 Ho1. destruct (moved_orders_lookup id o1 Ho1) as (o & Ho & (_ & _ & _ & -> & _) & _).
    by apply (Hw id).
  - intros id o1 Ho1. destruct (moved_orders_lookup id o1 Ho1) as (o & Ho & (_ & -> & _) & _ & Hd).
    rewrite moved_filled. pose proof (bal_filled d m Hbal id o Ho) as Hb.
    specialize (Hd o_remaining_quantity_mt). specialize (Hf id o Ho). cbn beta in *. lia.
Qed.
End moved.

(** ** Moving the stock

    Consuming and releasing a covered quantity are [move_stock] on the row. *)

Lemma alter_row (f : InventoryItem → InventoryItem) (inv : gmap uuid InventoryItem) i item :
  inv !! i = Some item → alter f i inv = <[ i := f item ]> inv.
Proof.
  intros Hi. apply map_eq. intros j. destruct (decide (j = i)) as [->|].
  - by rewrite lookup_alter_eq, lookup_insert_eq, Hi.
  - by rewrite lookup_alter_ne, lookup_insert_ne.
Qed.

Lemma move_stock_consumed q item :
  move_stock 0 (- q) item = item <| i_reserved_stock_mt := i_reserved_stock_mt item - q |>.
Proof. unfold move_stock. rewrite Z.add_opp_r, Z.add_0_r. by destruct item. Qed.

Section stock.
Context (w : World) (i : uuid) (item : InventoryItem) (q : Z).
Context (Hi : inventory (db w) !! i = Some item) (Hid : i_id item = i) (Hq : 0 < q <= i_reserved_stock_mt item).

Lemma consume_run :
  ∃ x w', consume_inventory i q w = Ok x w'
    ∧ db w' = (db w) <| inventory := alter (move_stock 0 (- q)) i (inventory (db w)) |>
    ∧ committed w' = committed w.
Proof.
  unfold consume_inventory. rewrite (proj2 (Z.leb_gt q 0)) by lia. run_locked_item.
  rewrite (proj2 (Z.ltb_ge _ _)) by lia. eexists _, _. split; [reflexivity|]. cbn. split; [|done].
  by rewrite (alter_row _ _ i item), Hid, move_stock_consumed.
Qed.

Lemma release_run :
  ∃ x w', release_inventory i q w = Ok x w'
    ∧ db w' = (db w) <| inventory := alter (move_stock q (- q)) i (inventory (db w)) |>
    ∧ committed w' = committed w.
Proof.
  unfold release_inventory. rewrite (proj2 (Z.leb_gt q 0)) by lia. run_locked_item.
  rewrite (proj2 (Z.ltb_ge _ _)) by lia. eexists _, _. split; [reflexivity|]. cbn. split; [|done].
  by rewrite (alter_row _ _ i item), Hid.
Qed.
End stock.
