(* ===== verification/Admission.v ===== *)
(** * Locks, admission under lock and the seller's fee

    [app/services/market_locks.py]: the advisory lock of a market slice.
    [app/services/market_admission.py]: locking and revalidating the users and
    organizations of a transaction.  [app/services/trade_fees.py]: the fee
    snapshot of a new trade.  A lock is recorded under the identity its key is
    hashed from; waiting, timeouts and retries are not modelled. *)

From S2P Require Import Prelude Catalog Calendar AvailabilityWindows Schema Constraints Database Policy Events.
Local Open Scope Z_scope.

(** ** Slice locks *)

(** A slice key without its side: both sides of the book share one lock. *)
Definition MarketSlice : Type := uuid * option uuid * string.

Definition acquire_market_slice_lock (product_id : uuid) (delivery_point_id : option uuid)
    (availability_window : string) : M World unit :=
  window ← lift (normalize_availability_window availability_window);
  take_lock (AdvisorySlice product_id delivery_point_id window).

(** [(str(product_id), str(delivery_point_id or ""), window)]: the empty text
    of a missing delivery point sorts first. *)
Definition market_slice_lock_sort_key (key : MarketSlice) : res (N * N * string) :=
  let '(product_id, delivery_point_id, availability_window) := key in
  window ← normalize_availability_window availability_window;
  Val (product_id, match delivery_point_id with None => 0 | Some dp => N.succ dp end, window)%N.

Definition sort_key_le (a b : N * N * string) : Prop :=
  (a.1.1 < b.1.1)%N
  ∨ (a.1.1 = b.1.1 ∧ ((a.1.2 < b.1.2)%N ∨ (a.1.2 = b.1.2 ∧ String.leb a.2 b.2 = true))).
#[export] Instance sort_key_le_dec : RelDecision sort_key_le.
Proof. intros a b. unfold sort_key_le. apply _. Defined.

Definition slice_le (a b : MarketSlice) : Prop :=
  sort_key_le
    (a.1.1, match a.1.2 with None => 0 | Some dp => N.succ dp end, a.2)%N
    (b.1.1, match b.1.2 with None => 0 | Some dp => N.succ dp end, b.2)%N.
#[export] Instance slice_le_dec : RelDecision slice_le.
Proof. intros a b. unfold slice_le. apply _. Defined.

Definition acquire_market_slice_locks (keys : list MarketSlice) : M World unit :=
  unique ← mapM (λ '(p, dp, window),
    w ← lift (normalize_availability_window window); mret (p, dp, w)) keys;
  iterM (λ '(p, dp, window), acquire_market_slice_lock p dp window)
        (merge_sort slice_le (remove_dups unique)).

(** ** Organizations and users of a transaction *)

Record MarketActorOwnership := MkMarketActorOwnership {
  ma_user_id : uuid;
  ma_organization_id : uuid;
}.

Definition APPROVED_ORGANIZATION_STATUS : string := "APPROVED".

(** [SELECT .. WHERE id IN (ids) ORDER BY id FOR UPDATE] *)
Definition lock_users (ids : list uuid) : M World (gmap uuid User) :=
  take_lock (RowUsers (sorted_set ids)) ;;
  d ← get_db;
  mret (filter (λ kv, kv.1 ∈ ids) (users d)).
Definition lock_organizations (ids : list uuid) : M World (gmap uuid Organization) :=
  take_lock (RowOrganizations (sorted_set ids)) ;;
  d ← get_db;
  mret (filter (λ kv, kv.1 ∈ ids) (organizations d)).

(** [{o.user_id: o.organization_id for o in actor_ownerships}]: the last wins. *)
Definition ownership_by_user (ownerships : list MarketActorOwnership) : gmap uuid uuid :=
  list_to_map (reverse ((λ o, (ma_user_id o, ma_organization_id o)) <$> ownerships)).

Definition check_ownerships (ownership : gmap uuid uuid) (found : gmap uuid User) : M World unit :=
  iterM (λ '(user_id, organization_id),
    match found !! user_id with
    | None => raise KeyError
    | Some user =>
        refuse (bool_decide (u_organization_id user ≠ Some organization_id))
          (HTTPException 409 (Msg "Market user organization ownership changed"))
    end) (map_to_list ownership).

Definition lock_actors (ownership : gmap uuid uuid) : M World (gmap uuid User) :=
  if bool_decide (ownership = ∅) then mret ∅
  else
    let user_ids := elements (dom ownership) in
    found ← lock_users user_ids;
    refuse (bool_decide (dom found ≠ dom ownership))
      (HTTPException 409 (Msg "Market user no longer exists")) ;;
    check_ownerships ownership found ;;
    mret found.

Definition check_actors_eligible (ownership : gmap uuid uuid) (found : gmap uuid User)
    (orgs : gmap uuid Organization) : M World unit :=
  d ← get_db;
  iterM (λ '(user_id, organization_id),
    match found !! user_id, orgs !! organization_id with
    | Some user, Some organization =>
        refuse (negb (execution_party_is_eligible d (Some user) (Some organization)))
          (HTTPException 409 (Msg "User is not approved for market activity"))
    | _, _ => raise KeyError
    end) (map_to_list ownership).

Definition lock_and_load_market_organizations (organization_ids : list uuid)
    (actor_ownerships : list MarketActorOwnership) (require_approved : bool)
    (require_approved_ids : list uuid) : M World (gmap uuid Organization) :=
  let ids := sorted_set organization_ids in
  if bool_decide (ids = []) then mret ∅
  else
    let ownership := ownership_by_user actor_ownerships in
    found ← lock_actors ownership;
    orgs ← lock_organizations ids;
    refuse (bool_decide ((list_to_set ids : gset uuid) ∖ dom orgs ≠ ∅))
      (HTTPException 409 (Msg "Market organization no longer exists")) ;;
    let approved_ids : gset uuid := list_to_set (if require_approved then ids else require_approved_ids) in
    refuse (existsb (λ '(organization_id, organization),
              bool_decide (organization_id ∈ approved_ids)
              && bool_decide (upper (g_verification_status organization) ≠ APPROVED_ORGANIZATION_STATUS))
            (map_to_list orgs))
      (HTTPException 409 (Msg "Organization is not approved for market activity")) ;;
    check_actors_eligible ownership found orgs ;;
    mret orgs.

(** ** The seller's fee *)

Definition configured_fee_for_tier (tier : SubscriptionTier) (negotiated_rate : option Z)
    (configuration : Settings) : res Z :=
  match tier with
  | FREE => Val (SELLER_FEE_PILOT_PER_MT_USD configuration)
  | STANDARD => Val (SELLER_FEE_PROFESSIONAL_PER_MT_USD configuration)
  | ENTERPRISE =>
      match negotiated_rate with
      | Some rate => Val rate
      | None => Exc (HTTPException 409
          (Msg "Seller transaction fee is not configured; contact Verdaxis support"))
      end
  end.

(** [SubscriptionTier(text)] *)
Definition tier_of_text (s : string) : option SubscriptionTier :=
  head (filter (λ t, SubscriptionTier_value t = s) [FREE; STANDARD; ENTERPRISE]).

(** [scalar_one_or_none]: [org_id] is unique. *)
Definition subscription_of (d : Database) (org : uuid) : option Subscription :=
  head (filter (λ s, s_org_id s = org) (snd <$> map_to_list (subscriptions d))).

Definition seller_trade_fee (d : Database) (configuration : Settings) (seller_org_id : uuid)
    (current_time : datetime) : res (SubscriptionTier * Z) :=
  let free := fee ← configured_fee_for_tier FREE None configuration; Val (FREE, fee) in
  match subscription_of d seller_org_id with
  | None => free
  | Some subscription =>
      if negb (s_is_active subscription)
         || match s_expires_at subscription with Some e => e <=? current_time | None => false end
      then free
      else match tier_of_text (s_tier subscription) with
      | None => Exc (HTTPException 409
          (Msg "Seller subscription tier is invalid; contact Verdaxis support"))
      | Some tier =>
          fee ← configured_fee_for_tier tier (s_seller_fee_per_mt_usd subscription) configuration;
          Val (tier, fee)
      end
  end.

(** [now or datetime.now(UTC)] *)
Definition resolve_seller_trade_fee (seller_org_id : uuid) (now : option datetime)
    : M World (SubscriptionTier * Z) :=
  d ← get_db;
  configuration ← gets settings;
  current_time ← match now with Some t => mret t | None => utcnow end;
  lift (seller_trade_fee d configuration seller_org_id current_time).

(** ** Facts *)

(** A locked row is read as it is. *)
Lemma locked_lookup {V} (m : gmap uuid V) (ids : list uuid) k :
  k ∈ ids → filter (λ kv : uuid * V, kv.1 ∈ ids) m !! k = m !! k.
Proof.
  intros Hk. rewrite map_lookup_filter. destruct (m !! k) as [v|]; [|done]. cbn.
  by rewrite option_guard_True.
Qed.

Lemma lock_users_ok ids w m w' :
  lock_users ids w = Ok m w' → m = filter (λ kv, kv.1 ∈ ids) (users (db w)) ∧ db w' = db w.
Proof. by intros [= <- <-]. Qed.
Lemma lock_organizations_ok ids w m w' :
  lock_organizations ids w = Ok m w' → m = filter (λ kv, kv.1 ∈ ids) (organizations (db w)) ∧ db w' = db w.
Proof. by intros [= <- <-]. Qed.

Lemma reads_slice_lock p dp win : Keeps reads (acquire_market_slice_lock p dp win).
Proof. unfold acquire_market_slice_lock. keeps. Qed.
Lemma reads_gets_settings : Keeps reads (gets settings : M World Settings).
Proof. by repeat split. Qed.
#[export] Hint Resolve reads_slice_lock reads_gets_settings : keeps.

Lemma reads_lock_users ids : Keeps reads (lock_users ids).
Proof. unfold lock_users. keeps. Qed.
Lemma reads_lock_organizations ids : Keeps reads (lock_organizations ids).
Proof. unfold lock_organizations. keeps. Qed.
#[export] Hint Resolve reads_lock_users reads_lock_organizations : keeps.
Lemma reads_check_ownerships o f : Keeps reads (check_ownerships o f).
Proof. unfold check_ownerships. keeps. Qed.
#[export] Hint Resolve reads_check_ownerships : keeps.
Lemma reads_lock_actors o : Keeps reads (lock_actors o).
Proof. unfold lock_actors. keeps. Qed.
Lemma reads_check_actors o f g : Keeps reads (check_actors_eligible o f g).
Proof. unfold check_actors_eligible. keeps. Qed.
#[export] Hint Resolve reads_lock_actors reads_check_actors : keeps.
Lemma reads_lock_and_load ids a b c :
  Keeps reads (lock_and_load_market_organizations ids a b c).
Proof. unfold lock_and_load_market_organizations. keeps. Qed.
Lemma reads_slice_locks keys : Keeps reads (acquire_market_slice_locks keys).
Proof. unfold acquire_market_slice_locks. keeps. Qed.
Lemma reads_fee org now : Keeps reads (resolve_seller_trade_fee org now).
Proof. unfold resolve_seller_trade_fee. keeps. Qed.
#[export] Hint Resolve reads_lock_and_load reads_slice_locks reads_fee : keeps.

Lemma existsb_false_elem {A} (f : A → bool) l x : existsb f l = false → x ∈ l → f x = false.
Proof.
  induction 2 as [x l|x y l _ IH]; cbn in *; [|apply IH]; by destruct (f _); cbn in *.
Qed.

(** The one actor and its organization, once locked, are admitted. *)
Definition admitted_member (d : Database) (user org : uuid) : Prop :=
  ∃ u g, users d !! user = Some u ∧ u_organization_id u = Some org ∧ organizations d !! org = Some g
    ∧ upper (g_verification_status g) = APPROVED_ORGANIZATION_STATUS
    ∧ execution_party_is_eligible d (Some u) (Some g) = true.

(** Every organization is loaded and approved, and the one actor, of one of them,
    is admitted. *)
Definition approved_organization (d : Database) (org : uuid) : Prop :=
  ∃ g, organizations d !! org = Some g ∧ upper (g_verification_status g) = APPROVED_ORGANIZATION_STATUS.

Lemma sorted_set_nonempty x ids : x ∈ ids → sorted_set ids ≠ [].
Proof. intros Hx Hnil. apply sorted_set_elem in Hx. rewrite Hnil in Hx. by apply elem_of_nil in Hx. Qed.

Lemma lock_actors_ok user org w found w' :
  lock_actors (ownership_by_user [MkMarketActorOwnership user org]) w = Ok found w' →
  ∃ u, users (db w) !! user = Some u ∧ u_organization_id u = Some org ∧ found !! user = Some u ∧ db w' = db w.
Proof.
  assert (ownership_by_user [MkMarketActorOwnership user org] = {[ user := org ]}) as -> by done.
  unfold lock_actors. rewrite bool_decide_eq_false_2 by apply map_non_empty_singleton. cbv zeta.
  rewrite dom_singleton_L, elements_singleton.
  intros (us & w2 & [-> Hdb2]%lock_users_ok & H)%bind_ok.
  apply bind_ok in H as ([] & w3 & [_ ->]%refuse_ok & H). apply bind_ok in H as ([] & w4 & Hown & [= <- <-]).
  pose proof (keeps_ok reads _ _ _ _ (reads_check_ownerships _ _) Hown) as (Hdb4 & _).
  unfold check_ownerships in Hown. rewrite map_to_list_singleton in Hown. cbn [iterM] in Hown.
  rewrite locked_lookup in Hown by (by left). destruct (users (db w) !! user) as [u|] eqn:Hu; [|discriminate].
  apply bind_ok in Hown as ([] & w5 & [Horg _]%refuse_ok & _). apply bool_decide_eq_false, dec_stable in Horg.
  exists u. split_and!; [done|done|by rewrite locked_lookup by (by left)|congruence].
Qed.

Lemma lock_and_load_ok ids user org w orgs w' :
  lock_and_load_market_organizations ids [MkMarketActorOwnership user org] true [] w = Ok orgs w' → org ∈ ids →
  orgs = filter (λ kv, kv.1 ∈ sorted_set ids) (organizations (db w))
  ∧ (∀ i, i ∈ ids → approved_organization (db w) i) ∧ admitted_member (db w) user org.
Proof.
  intros H Hin. unfold lock_and_load_market_organizations in H. cbv zeta in H.
  rewrite bool_decide_eq_false_2 in H by (by eapply sorted_set_nonempty).
  apply bind_ok in H as (found & w1 & (u & Hu & Horg & Hfound & Hdb1)%lock_actors_ok & H).
  apply bind_ok in H as (gs & w5 & [-> Hdb5]%lock_organizations_ok & H). rewrite Hdb1 in H, Hdb5.
  apply bind_ok in H as ([] & w6 & [Hall ->]%refuse_ok & H).
  apply bind_ok in H as ([] & w7 & [Happ ->]%refuse_ok & H).
  apply bind_ok in H as ([] & w8 & Hel & [= <- <-]). set (rows := filter _ _) in *.
  assert (∀ i, i ∈ ids → approved_organization (db w) i) as Happroved.
  { intros i Hi. apply sorted_set_elem in Hi.
    assert (rows !! i = organizations (db w) !! i) as Hrow by (by apply locked_lookup).
    apply bool_decide_eq_false, dec_stable in Hall.
    assert (i ∈ dom rows) as [g Hg]%elem_of_dom.
    { set_solver. }
    exists g. rewrite <-Hrow. split; [done|]. apply existsb_false_elem with (x := (i, g)) in Happ.
    - cbn in Happ. rewrite bool_decide_eq_true_2 in Happ by set_solver. cbn in Happ.
      by apply bool_decide_eq_false, dec_stable in Happ.
    - by apply elem_of_map_to_list. }
  split_and!; [done|done|]. destruct (Happroved org Hin) as (g & Hg & Hv). exists u, g. split_and!; try done.
  unfold check_actors_eligible in Hel. apply bind_ok in Hel as (d & w9 & [= <- <-] & Hel).
  assert (ownership_by_user [MkMarketActorOwnership user org] = {[ user := org ]}) as Hown by done.
  rewrite Hown, map_to_list_singleton in Hel. cbn [iterM] in Hel.
  assert (rows !! org = Some g) as Hrow.
  { rewrite <-Hg. apply locked_lookup. by apply sorted_set_elem. }
  rewrite Hfound, Hrow, Hdb5 in Hel.
  apply bind_ok in Hel as ([] & w9 & [Hel _]%refuse_ok & _). by apply negb_false_iff in Hel.
Qed.

Lemma lock_and_load_member user org w orgs w' :
  lock_and_load_market_organizations [org] [MkMarketActorOwnership user org] true [] w = Ok orgs w' →
  admitted_member (db w) user org.
Proof. intros H. apply (lock_and_load_ok [org] user org w orgs w' H). by left. Qed.

(** The forward direction: rows that are there are locked. *)
Lemma sorted_set_singleton x : sorted_set [x] = [x].
Proof.
  unfold sorted_set. cbn [list_to_set list_to_set foldr]. rewrite (right_id_L ∅ (∪)), elements_singleton. done.
Qed.

Lemma locked_singleton {V} (m : gmap uuid V) k :
  filter (λ kv : uuid * V, kv.1 ∈ [k]) m = match m !! k with Some v => {[ k := v ]} | None => ∅ end.
Proof.
  apply map_eq. intros i. destruct (decide (i = k)) as [->|Hne].
  - rewrite locked_lookup by (by left). destruct (m !! k); [by rewrite lookup_singleton_eq|by rewrite lookup_empty].
  - assert (filter (λ kv : uuid * V, kv.1 ∈ [k]) m !! i = None) as ->.
    { apply map_lookup_filter_None. right. intros v _ Hin%list_elem_of_singleton. cbn in Hin. congruence. }
    destruct (m !! k); [by rewrite lookup_singleton_ne|by rewrite lookup_empty].
Qed.

Lemma lock_actors_run user org u w :
  users (db w) !! user = Some u → u_organization_id u = Some org →
  ∃ w', lock_actors {[ user := org ]} w = Ok {[ user := u ]} w' ∧ reads w w'.
Proof.
  intros Hu Horg. unfold lock_actors. rewrite bool_decide_eq_false_2 by apply map_non_empty_singleton. cbv zeta.
  rewrite dom_singleton_L, elements_singleton. unfold lock_users. eexists. split.
  - erewrite bind_run by reflexivity. cbn [users db set_field]. cbn. rewrite locked_singleton, Hu, dom_singleton_L.
    erewrite bind_run by (by unfold refuse; rewrite bool_decide_eq_false_2 by (by intros [])).
    unfold check_ownerships. rewrite map_to_list_singleton. cbn [iterM]. rewrite lookup_singleton_eq.
    erewrite bind_run; [reflexivity|]. erewrite bind_run by (unfold refuse; by rewrite bool_decide_eq_false_2 by (intros []; done)).
    reflexivity.
  - by repeat split.
Qed.
