(* ===== verification/RequestParty.v ===== *)
(** * Who a request acts for

    [app/services/request_party.py]: the authenticated actor, or, behind an
    active Market Support context, an administrator acting for a customer
    organization.  [app/services/market_support.py]: entity tags of assisted
    orders and the lock of their parties.  A context that has run out is closed
    and committed before the request is refused. *)

From Stdlib Require Import Ascii.
From S2P Require Import Prelude Sha256 Catalog Calendar AvailabilityWindows Decimal Json Schema Constraints Database Scenario Policy Events Inventory Ledger Admission.
Local Open Scope Z_scope.

(** ** [UUID(text)] *)

Fixpoint remove_prefix (p s : string) : option string :=
  match p, s with
  | EmptyString, _ => Some s
  | String a p, String b s => if Ascii.eqb a b then remove_prefix p s else None
  | _, EmptyString => None
  end.

(** [s.replace(p, "")] for a non-empty [p]; the fuel is the length of [s]. *)
Fixpoint remove_all_fuel (fuel : nat) (p s : string) : string :=
  match fuel, s with
  | O, _ | _, EmptyString => s
  | S fuel, String c s' =>
      match remove_prefix p s with
      | Some rest => remove_all_fuel fuel p rest
      | None => String c (remove_all_fuel fuel p s')
      end
  end.
Definition remove_all (p s : string) : string := remove_all_fuel (String.length s) p s.

Definition hex_value (c : ascii) : option N :=
  let n := N_of_ascii c in
  if bool_decide (48 <= n <= 57)%N then Some (n - 48)%N
  else if bool_decide (65 <= n <= 70)%N then Some (n - 55)%N
  else if bool_decide (97 <= n <= 102)%N then Some (n - 87)%N
  else None.

(** The digits of [int(text, 16)]: single underscores may separate them. *)
Fixpoint hex_number (acc : N) (s : string) : option N :=
  match s with
  | EmptyString => Some acc
  | String "_" (String c s) => v ← hex_value c; hex_number (acc * 16 + v) s
  | String c s => v ← hex_value c; hex_number (acc * 16 + v) s
  end.
Definition hex_digits_value (s : string) : option N :=
  match s with
  | String c s => v ← hex_value c; hex_number v s
  | EmptyString => None
  end.
(** [int(text, 16)] of a text: blanks, a sign, and a [0x] prefix are accepted. *)
Definition int16 (s : string) : option Z :=
  let s := strip s in
  let '(sign, s) := match s with
                    | String "+" s => (1, s) | String "-" s => (-1, s) | _ => (1, s) end in
  let digits := match s with
                | String "0" (String ("x" | "X") (String "_" s)) | String "0" (String ("x" | "X") s) => s
                | _ => s end in
  v ← hex_digits_value digits; Some (sign * Z.of_N v).

Definition is_brace (c : ascii) : bool := Ascii.eqb c "{" || Ascii.eqb c "}".
Definition uuid_of_text (text : string) : option uuid :=
  let hex := remove_all "-" (strip_by is_brace (remove_all "uuid:" (remove_all "urn:" text))) in
  if bool_decide (String.length hex ≠ 32%nat) then None
  else
    v ← int16 hex;
    if (0 <=? v) && (v <? 2 ^ 128) then Some (Z.to_N v) else None.

Example uuid_texts :
  uuid_of_text <$> ["1379d36c-1ca9-55b7-9c0d-5235a0ba1f36"; "{1379D36C1CA955B79C0D5235A0BA1F36}"; "1379"]
  = [Some 0x1379d36c1ca955b79c0d5235a0ba1f36%N; Some 0x1379d36c1ca955b79c0d5235a0ba1f36%N; None].
Proof. vm_compute. reflexivity. Qed.

(** ** The party of a request *)

Inductive RequestPartyMode :=
  | SELF_SERVICE_MODE | MARKET_SUPPORT_MODE.
#[export] Instance RequestPartyMode_eq_dec : EqDecision RequestPartyMode.
Proof. solve_decision. Defined.

Record RequestParty := MkRequestParty {
  rp_actor : User;
  rp_effective_organization : option Organization;
  rp_accountable_principal : User;
  rp_effective_role : option UserRole;
  rp_mode : RequestPartyMode;
  rp_support_context_id : option uuid;
  rp_support_reference : option string;
  rp_creation_method : OrderCreationMethod;
}.

Definition self_service_party (current_user : User) (organization : option Organization) : RequestParty :=
  MkRequestParty current_user organization current_user (u_role current_user) SELF_SERVICE_MODE None None SELF_SERVICE.

Definition _context_error (code message : string) : exn := HTTPException 409 (Coded code message).
Definition CONTEXT_INVALID : string := "MARKET_SUPPORT_CONTEXT_INVALID".
Definition context_not_found : exn := HTTPException 404 (Coded CONTEXT_INVALID "Not found").

(** [raw] is the context header. *)
Definition _context_locator (raw : option string) : res (option uuid) :=
  match raw with
  | None => Val None
  | Some raw =>
      if bool_decide (strip raw = "") then Val None
      else match uuid_of_text (strip raw) with
      | Some id => Val (Some id)
      | None => Exc (HTTPException 400 (Coded CONTEXT_INVALID "Invalid support context"))
      end
  end.

(** A capability row of a user; [(user_id, capability)] is unique. *)
Definition capability_of (d : Database) (user : uuid) (capability : MarketSupportCapability)
    : option StaffCapabilityAssignment :=
  head (filter (λ r, sc_user_id r = user ∧ sc_capability r = capability) (snd <$> map_to_list (staff_capabilities d))).
Definition capability_active (r : option StaffCapabilityAssignment) (now : datetime) : bool :=
  match r with
  | Some r => bool_decide (sc_revoked_at r = None)
              && match sc_expires_at r with Some e => now <? e | None => true end
  | None => false
  end.

Definition _require_context_capabilities (actor_id : uuid) : M World unit :=
  d ← get_db;
  now ← utcnow;
  iterM (λ capability,
    refuse (negb (capability_active (capability_of d actor_id capability) now))
      (HTTPException 404 (Msg "Not found")))
    [MARKET_SUPPORT_LISTINGS; MARKET_SUPPORT_AUTHORIZATIONS].

(** Sorted by name; every row is locked. *)
Definition lock_request_party_capabilities (actor_id : uuid) : M World unit :=
  now ← utcnow;
  iterM (λ capability,
    take_lock (RowCapability actor_id capability) ;;
    d ← get_db;
    refuse (negb (capability_active (capability_of d actor_id capability) now))
      (_context_error CONTEXT_INVALID "Market Support capability is no longer active"))
    [MARKET_SUPPORT_AUTHORIZATIONS; MARKET_SUPPORT_LISTINGS].

(** A context that has run out is closed for good, whatever the request asks. *)
Definition expire_context (x : MarketSupportContext) (ended_at : datetime) : MarketSupportContext :=
  x <| sx_status := CONTEXT_EXPIRED |> <| sx_ended_at := Some ended_at |> <| sx_version := sx_version x + 1 |>.
Definition close_context {A} (x : MarketSupportContext) (ended_at : datetime) : M World A :=
  put_support_context (expire_context x ended_at) ;;
  commit ;;
  raise (_context_error CONTEXT_INVALID "Support context has expired").
Definition context_inactive : exn := _context_error CONTEXT_INVALID "Support context is no longer active".

Definition resolve_request_party (raw_context : option string) (current_user : User) : M World RequestParty :=
  context_id ← lift (_context_locator raw_context);
  match context_id with
  | None =>
      d ← get_db;
      mret (self_service_party current_user (org ← u_organization_id current_user; organizations d !! org))
  | Some context_id =>
      configuration ← gets settings;
      refuse (negb (MARKET_SUPPORT_ENABLED configuration)
              || bool_decide (u_role current_user ≠ Some ADMIN)
              || bool_decide (u_status current_user ≠ APPROVED))
        context_not_found ;;
      _require_context_capabilities (u_id current_user) ;;
      d ← get_db;
      match support_contexts d !! context_id with
      | None => raise context_not_found
      | Some context =>
          refuse (bool_decide (sx_actor_user_id context ≠ u_id current_user)) context_not_found ;;
          now ← utcnow;
          refuse (bool_decide (sx_status context ≠ CONTEXT_ACTIVE)) context_inactive ;;
          if sx_expires_at context <=? now then close_context context now
          else
            refuse (bool_decide (sx_scope context ≠ ASSISTED_ORDER_ENTRY))
              (_context_error CONTEXT_INVALID "Support scope is not permitted") ;;
            match organizations d !! sx_organization_id context with
            | Some organization =>
                refuse (bool_decide (g_verification_status organization ≠ "APPROVED")
                        || bool_decide (g_provenance organization ≠ REAL))
                  (_context_error CONTEXT_INVALID "Support context target is no longer valid") ;;
                mret (MkRequestParty current_user (Some organization) current_user (Some ADMIN) MARKET_SUPPORT_MODE
                        (Some (sx_id context)) (Some (sx_support_reference context)) MARKET_SUPPORT)
            | None => raise (_context_error CONTEXT_INVALID "Support context target is no longer valid")
            end
      end
  end.

(** The context is locked and rechecked after the slice lock. *)
Definition lock_request_party_context (party : RequestParty) : M World unit :=
  match rp_mode party, rp_support_context_id party with
  | MARKET_SUPPORT_MODE, Some context_id =>
      lock_request_party_capabilities (u_id (rp_actor party)) ;;
      take_lock (RowSupportContext context_id) ;;
      d ← get_db;
      match support_contexts d !! context_id with
      | None => raise (HTTPException 404 (Msg "Not found"))
      | Some context =>
          refuse (bool_decide (sx_actor_user_id context ≠ u_id (rp_actor party)))
            (HTTPException 404 (Msg "Not found")) ;;
          refuse (bool_decide (sx_status context ≠ CONTEXT_ACTIVE)) context_inactive ;;
          now ← utcnow;
          if sx_expires_at context <=? now
          then ended_at ← utcnow; close_context context ended_at
          else mret tt
      end
  | _, _ => mret tt
  end.

(** ** [market_support.py] *)

Definition order_etag (order_id : uuid) (version : Z) : string :=
  "W/" +:+ String quote_char ("order-" +:+ uuid_text order_id +:+ "-v" +:+ show_Z version
                              +:+ String quote_char EmptyString).

Fixpoint ends_with_quote (s : string) : bool :=
  match s with
  | EmptyString => false
  | String c EmptyString => Ascii.eqb c quote_char
  | String _ s => ends_with_quote s
  end.

Definition require_matching_etag (raw : option string) (order_id : uuid) (version : Z) : M World unit :=
  match raw with
  | None => raise (HTTPException 428 (Coded "IF_MATCH_REQUIRED" "If-Match is required"))
  | Some raw =>
      let value := strip raw in
      refuse (bool_decide (remove_prefix ("W/" +:+ String quote_char EmptyString) value = None)
              || negb (ends_with_quote value))
        (HTTPException 400 (Coded "IF_MATCH_MALFORMED" "If-Match is malformed")) ;;
      refuse (bool_decide (value ≠ order_etag order_id version))
        (HTTPException 412 (Coded "ORDER_VERSION_STALE" "Listing changed; reload and retry"))
  end.

(** The accountable user and the organization, without any admission check. *)
Definition lock_support_order_parties (o : Order) : M World unit :=
  match o_owner_user_id o with
  | Some owner => lock_users [owner] ;; mret tt
  | None => mret tt
  end ;;
  lock_organizations [o_organization_id o] ;;
  mret tt.

(** ** Facts

    A request that only settles its party changes nothing but, at most, a
    context that has run out. *)

(** The clock shows [t] at some point of the session. *)
Definition observed (w : World) (t : datetime) : Prop := ∃ n, t = clock w n.

(** [seen] holds of the times the request may have read. *)
Definition context_after (seen : datetime → Prop) (x x' : MarketSupportContext) : Prop :=
  x' = x ∨ sx_status x = CONTEXT_ACTIVE
           ∧ ∃ now t, seen now ∧ seen t ∧ sx_expires_at x <= now ∧ x' = expire_context x t.
#[export] Instance context_after_preorder seen : PreOrder (context_after seen).
Proof.
  split; [by left|]. intros x y z [->|(Hx & now & t & Hn & Ht & Hle & ->)] Hyz; [done|].
  destruct Hyz as [->|(Hy & _)]; [right; eauto 8|done].
Qed.

Definition contexts_expire (seen : datetime → Prop) (d d' : Database) : Prop :=
  d' = d <| support_contexts := support_contexts d' |>
  ∧ ∀ id, option_Forall2 (context_after seen) (support_contexts d !! id) (support_contexts d' !! id).
#[export] Instance contexts_expire_preorder seen : PreOrder (contexts_expire seen).
Proof.
  split; unfold contexts_expire; [intros d; split; [by destruct d|done]|].
  intros a b c [Hab Rab] [Hbc Rbc]. split; [rewrite Hbc, Hab; by destruct a|]. intros id. etrans; [apply Rab|apply Rbc].
Qed.

Lemma observed_clock w w' : clock w' = clock w → observed w' = observed w.
Proof. intros E. unfold observed. by rewrite E. Qed.

Definition quiet : relation World := λ w w', synced w → market_ok (db w) →
  synced w' ∧ market_ok (db w') ∧ contexts_expire (observed w) (db w) (db w')
  ∧ settings w' = settings w ∧ clock w' = clock w.
#[export] Instance quiet_preorder : PreOrder quiet.
Proof.
  split; [intros a Hs Hok; by split_and!|]. intros a b c Hab Hbc Hs Hok.
  destruct (Hab Hs Hok) as (Hs1 & Hok1 & Hd1 & ? & Hk). destruct (Hbc Hs1 Hok1) as (Hs2 & Hok2 & Hd2 & ? & ?).
  rewrite (observed_clock a b Hk) in Hd2.
  split_and!; [done..|by etrans| |]; congruence.
Qed.

Lemma reads_synced_quiet w w' : reads_synced w w' → quiet w w'.
Proof.
  intros H Hs Hok. destruct (H Hs) as (Hd & Hc & ? & ?). unfold synced in *. rewrite Hd, Hc. by split_and!.
Qed.
Lemma keeps_reads_quiet {A} (m : M World A) : Keeps reads m → Keeps quiet m.
Proof. intros H w. apply reads_synced_quiet. intros _. apply H. Qed.
#[export] Hint Extern 5 (Keeps quiet _) =>
  apply keeps_reads_quiet; solve [eauto 3 with keeps] : keeps.
Lemma rollback_quiet : Keeps quiet rollback.
Proof. intros w. apply reads_synced_quiet, rollback_reads_synced. Qed.
#[export] Hint Resolve rollback_quiet : keeps.

(** Closing a context of the table. *)
Lemma checks_put_context d x t :
  database_checks d → support_contexts d !! sx_id x = Some x →
  database_checks (d <| support_contexts := <[ sx_id x := expire_context x t ]> (support_contexts d) |>).
Proof.
  intros (H1 & H2 & H3 & H4 & H5 & U & (S1 & S2 & S3 & S4 & S5) & N & Q) Hx.
  unfold database_checks, side_checks, support_checks. cbn. split_and!; try done.
  - apply map_Forall_insert_2; [|done]. destruct (S1 _ _ Hx). unfold support_context_check in *. cbn. lia.
  - apply unique_on_spec. intros i j y z Hi Hj He Hn.
    assert (∀ k v, <[ sx_id x := expire_context x t ]> (support_contexts d) !! k = Some v →
              active_support_actor v ≠ None → support_contexts d !! k = Some v) as Hold.
    { intros k v [[_ <-]|[_ Hv]]%lookup_insert_Some; [|done]. intros Ha. by destruct Ha. }
    apply (proj1 (unique_on_spec _ _) S3 i j y z); [apply Hold|apply Hold|..]; congruence.
Qed.

Definition without_context (d : Database) (x : MarketSupportContext) (ended_at : datetime) : Database :=
  d <| support_contexts := <[ sx_id x := expire_context x ended_at ]> (support_contexts d) |>.

Lemma close_context_closes {A} x now t w :
  synced w → market_ok (db w) → support_contexts (db w) !! sx_id x = Some x → sx_status x = CONTEXT_ACTIVE →
  observed w now → observed w t → sx_expires_at x <= now →
  ∃ e w', close_context (A := A) x t w = Raise e w' ∧ quiet w w' ∧ db w' = without_context (db w) x t.
Proof.
  intros Hs Hok Hx Ha Hn Ht Hle. unfold close_context. erewrite bind_run by reflexivity.
  set (w1 := w <| db := _ |>). pose proof Hok as (Hc & (K1 & K2 & K3 & K4 & K5 & K6 & K7 & K8) & Hrest).
  assert (database_checks (db w1)) as Hc1 by exact (checks_put_context (db w) x t Hc Hx).
  assert (commit w1 = Ok tt (w1 <| committed := db w1 |>)) as Hcom.
  { by apply commit_run. }
  erewrite bind_run by exact Hcom. eexists _, _. split; [reflexivity|]. split; [|done]. intros _ _. split_and!; try done.
  - split; [exact Hc1|]. split; [|exact Hrest]. unfold keyed. cbn. split_and!; try done. by apply map_Forall_insert_2.
  - split; [done|]. intros id. cbn. destruct (decide (id = sx_id x)) as [->|].
    + rewrite Hx, lookup_insert_eq. constructor. right. eauto 8.
    + by rewrite lookup_insert_ne.
Qed.

Lemma reads_require_capabilities actor : Keeps reads (_require_context_capabilities actor).
Proof. unfold _require_context_capabilities. keeps. Qed.
Lemma reads_lock_capabilities actor : Keeps reads (lock_request_party_capabilities actor).
Proof. unfold lock_request_party_capabilities. keeps. Qed.
Lemma reads_etag raw id v : Keeps reads (require_matching_etag raw id v).
Proof. unfold require_matching_etag. keeps. Qed.
Lemma reads_lock_support_parties o : Keeps reads (lock_support_order_parties o).
Proof. unfold lock_support_order_parties. keeps. Qed.
#[export] Hint Resolve reads_require_capabilities reads_lock_capabilities reads_etag reads_lock_support_parties : keeps.

(** A table row found by its id carries it. *)
Lemma context_row d id x :
  market_ok d → support_contexts d !! id = Some x → sx_id x = id ∧ support_contexts d !! sx_id x = Some x.
Proof.
  intros (_ & (_ & _ & _ & _ & _ & _ & Hk & _) & _) Hx. pose proof (Hk id x Hx) as Hid. cbn in Hid. by subst.
Qed.

(** ** Who a support party is *)

Definition capable (w : World) (user : uuid) (capability : MarketSupportCapability) : Prop :=
  ∃ t, observed w t ∧ capability_active (capability_of (db w) user capability) t = true.

(** An approved administrator with both capabilities, inside an active,
    unexpired context of its own. *)
Record support_authority (w : World) (u : User) (x : MarketSupportContext) : Prop := {
  au_enabled : MARKET_SUPPORT_ENABLED (settings w) = true;
  au_admin : u_role u = Some ADMIN;
  au_approved : u_status u = APPROVED;
  au_capable : ∀ capability, capable w (u_id u) capability;
  au_context : support_contexts (db w) !! sx_id x = Some x;
  au_actor : sx_actor_user_id x = u_id u;
  au_active : sx_status x = CONTEXT_ACTIVE;
  au_unexpired : ∃ t, observed w t ∧ t < sx_expires_at x;
  au_scope : sx_scope x = ASSISTED_ORDER_ENTRY;
}.

Definition blank_context (raw : option string) : Prop :=
  match raw with Some raw => strip raw = "" | None => True end.

(** What resolving has established about the party. *)
Definition party_of (w : World) (raw_context : option string) (u : User) (p : RequestParty) : Prop :=
  rp_actor p = u ∧ rp_accountable_principal p = u ∧
  match rp_mode p with
  | SELF_SERVICE_MODE =>
      blank_context raw_context
      ∧ p = self_service_party u (org ← u_organization_id u; organizations (db w) !! org)
  | MARKET_SUPPORT_MODE =>
      ∃ x g, support_authority w u x ∧ rp_support_context_id p = Some (sx_id x)
        ∧ organizations (db w) !! sx_organization_id x = Some g ∧ rp_effective_organization p = Some g
        ∧ g_verification_status g = "APPROVED" ∧ g_provenance g = REAL
  end.

(** What a refusal leaves: nothing, or the closing of the one context the header
    names, when the actor's clock showed it had run out. *)
Definition only_closes_named (w : World) (raw_context : option string) (u : User) (w' : World) : Prop :=
  db w' = db w
  ∨ ∃ x now, _context_locator raw_context = Val (Some (sx_id x))
      ∧ support_contexts (db w) !! sx_id x = Some x ∧ sx_actor_user_id x = u_id u
      ∧ sx_status x = CONTEXT_ACTIVE ∧ observed w now ∧ sx_expires_at x <= now
      ∧ db w' = without_context (db w) x now.

Definition party_outcome (w : World) (raw_context : option string) (u : User)
    (o : outcome World RequestParty) : Prop :=
  match o with
  | Ok p w' => reads w w' ∧ party_of w raw_context u p
  | Raise _ w' => quiet w w' ∧ only_closes_named w raw_context u w'
  end.

Lemma reads_quiet w w' : reads w w' → quiet w w'.
Proof. intros H. by apply reads_synced_quiet; intros _. Qed.

Lemma reads_refused w raw u w' : reads w w' → quiet w w' ∧ only_closes_named w raw u w'.
Proof. intros H. split; [by apply reads_quiet|left; apply H]. Qed.

Lemma locator_blank raw (w w' : World) : lift (_context_locator raw) w = Ok None w' → w' = w ∧ blank_context raw.
Proof.
  intros [H ->]%lift_ok. split; [done|]. unfold _context_locator, blank_context in *.
  destruct raw; [|done]. case_bool_decide; [done|]. by destruct (uuid_of_text _).
Qed.

Lemma reads_observed w w' t : reads w w' → observed w' t → observed w t.
Proof. intros (_ & _ & _ & E) [n ->]. exists n. by rewrite E. Qed.
Lemma reads_settled w w1 : synced w → market_ok (db w) → reads w w1 → synced w1 ∧ market_ok (db w1).
Proof. intros Hs Hok (Hd & Hc & _). unfold synced in *. by rewrite Hd, Hc. Qed.

Lemma require_capabilities_ok actor w u w' :
  _require_context_capabilities actor w = Ok u w' → ∀ capability, capable w actor capability.
Proof.
  unfold _require_context_capabilities. intros (d & w1 & Hd & H)%bind_ok. injection Hd as <- <-.
  apply bind_ok in H as (now & w2 & Hnow & H). injection Hnow as <- <-.
  cbn [iterM] in H. apply bind_ok in H as ([] & w3 & [H1 ->]%refuse_ok & H).
  apply bind_ok in H as ([] & w4 & [H2 ->]%refuse_ok & _).
  apply negb_false_iff in H1, H2. intros capability. exists (clock w (clock_reads w)).
  split; [by exists (clock_reads w)|]. by destruct capability.
Qed.

Lemma resolve_party_outcome raw u w :
  synced w → market_ok (db w) → party_outcome w raw u (resolve_request_party raw u w).
Proof.
  intros Hs Hok. unfold resolve_request_party.
  apply reads_bind; [keeps|intros e w1; apply reads_refused|]. intros [id|] w1 Hid Hr.
  2: { apply locator_blank in Hid as [-> Hblank]. split; [done|]. by split_and!. }
  apply lift_ok in Hid as [Hloc ->]. clear Hr.
  apply reads_bind; [keeps|intros e w1; apply reads_refused|]. intros cfg w1 [= <- <-] _.
  apply reads_bind; [keeps|intros e w1; apply reads_refused|]. intros [] w1 [Hgate ->]%refuse_ok _.
  rewrite !orb_false_iff, negb_false_iff, !bool_decide_eq_false in Hgate.
  destruct Hgate as ((Hen & Hrole%dec_stable) & Happ%dec_stable).
  apply reads_bind; [keeps|intros e w1; apply reads_refused|]. intros [] w1 Hcap Hr1.
  pose proof (require_capabilities_ok _ _ _ _ Hcap) as Hable. erewrite bind_run by reflexivity.
  assert (db w1 = db w) as Hdb by apply Hr1. rewrite Hdb.
  destruct (support_contexts (db w) !! id) as [x|] eqn:Hx; [|by apply reads_refused].
  apply context_row in Hx as [<- Hx]; [|done].
  apply (frame_bind reads); [keeps|intros e w2 H2; apply reads_refused; by trans w1|].
  intros [] w2 [Hact%bool_decide_eq_false%dec_stable ->]%refuse_ok _.
  erewrite bind_run by reflexivity. set (now := clock w1 (clock_reads w1)). set (w2 := set_field _ w1).
  assert (reads w w2) as Hr2 by (by trans w1).
  apply (frame_bind reads); [keeps|intros e w3 H3; apply reads_refused; by trans w2|].
  intros [] w3 [Hstat%bool_decide_eq_false%dec_stable ->]%refuse_ok _.
  destruct (Z.leb_spec (sx_expires_at x) now) as [Hexp|Hexp].
  { assert (observed w2 now) as Hnow by (by exists (clock_reads w1)).
    destruct (reads_settled w w2 Hs Hok Hr2) as [Hs2 Hok2].
    destruct (close_context_closes (A := RequestParty) x now now w2) as (e & w3 & Hrun & Hq & Hdb3);
      [done|done|by rewrite (proj1 Hr2)|done..|]. rewrite Hrun. split; [exact (transitivity (reads_quiet _ _ Hr2) Hq)|].
    right. exists x, now. rewrite (proj1 Hr2) in Hdb3. split_and!; try done. by eapply reads_observed. }
  apply (frame_bind reads); [keeps|intros e w3 H3; apply reads_refused; by trans w2|].
  intros [] w3 [Hscope%bool_decide_eq_false%dec_stable ->]%refuse_ok _.
  destruct (organizations (db w) !! sx_organization_id x) as [g|] eqn:Hg; [|by apply reads_refused].
  apply (frame_bind reads); [keeps|intros e w3 H3; apply reads_refused; by trans w2|].
  intros [] w3 [Hgo ->]%refuse_ok _. apply orb_false_iff in Hgo as [Hv Hp].
  apply bool_decide_eq_false, dec_stable in Hv, Hp. split; [done|]. split_and!; [done..|].
  exists x, g. split_and!; try done. split; try done.
  exists now. split; [|done]. exists (clock_reads w1). unfold now. by rewrite (proj2 (proj2 (proj2 Hr1))).
Qed.

(** ** Locking a resolved party *)

Lemma lock_capabilities_ok actor w u w' :
  lock_request_party_capabilities actor w = Ok u w' → ∀ capability, capable w actor capability.
Proof.
  unfold lock_request_party_capabilities. intros (now & w1 & Hnow & H)%bind_ok. injection Hnow as <- <-.
  cbn [iterM] in H. apply bind_ok in H as ([] & w3 & H1 & H). apply bind_ok in H as ([] & w5 & H2 & _).
  apply bind_ok in H1 as ([] & w6 & [= <-] & (d & w7 & [= <- <-] & [H1 ->]%refuse_ok)%bind_ok).
  apply bind_ok in H2 as ([] & w8 & [= <-] & (d & w9 & [= <- <-] & [H2 ->]%refuse_ok)%bind_ok).
  apply negb_false_iff in H1, H2. intros capability. exists (clock w (clock_reads w)).
  split; [by exists (clock_reads w)|]. by destruct capability.
Qed.

(** What the lock has checked again. *)
Definition still_authorized (w : World) (actor id : uuid) : Prop :=
  (∀ capability, capable w actor capability)
  ∧ ∃ x t, support_contexts (db w) !! id = Some x ∧ sx_actor_user_id x = actor
      ∧ sx_status x = CONTEXT_ACTIVE ∧ observed w t ∧ t < sx_expires_at x.

Lemma lock_party_outcome p w :
  synced w → market_ok (db w) →
  match lock_request_party_context p w with
  | Ok _ w' => reads w w' ∧ (rp_mode p = MARKET_SUPPORT_MODE →
      ∀ id, rp_support_context_id p = Some id → still_authorized w (u_id (rp_actor p)) id)
  | Raise _ w' => quiet w w'
  end.
Proof.
  intros Hs Hok. unfold lock_request_party_context.
  destruct (rp_mode p); [by split|]. destruct (rp_support_context_id p) as [id|]; [|by split].
  match goal with |- match ?m w with _ => _ end =>
    change ((λ o : outcome World unit, match o with
      | Ok _ w' => reads w w' ∧ (MARKET_SUPPORT_MODE = MARKET_SUPPORT_MODE →
          ∀ id', Some id = Some id' → still_authorized w (u_id (rp_actor p)) id')
      | Raise _ w' => quiet w w' end) (m w)) end.
  apply reads_bind; [keeps|intros e w1; apply reads_quiet|]. intros [] w1 Hcap Hr1.
  pose proof (lock_capabilities_ok _ _ _ _ Hcap) as Hable.
  do 2 (erewrite bind_run by reflexivity). set (w2 := set_field _ w1).
  assert (reads w w2) as Hr2 by (by trans w1). assert (db w2 = db w) as Hdb by apply Hr2. rewrite Hdb.
  destruct (support_contexts (db w) !! id) as [x|] eqn:Hx; [|by apply reads_quiet].
  apply (frame_bind reads); [keeps|intros e w3 H3; apply reads_quiet; by trans w2|].
  intros [] w3 [Hact%bool_decide_eq_false%dec_stable ->]%refuse_ok _.
  apply (frame_bind reads); [keeps|intros e w3 H3; apply reads_quiet; by trans w2|].
  intros [] w3 [Hstat%bool_decide_eq_false%dec_stable ->]%refuse_ok _.
  erewrite bind_run by reflexivity. set (w3 := set_field _ w2).
  assert (reads w w3) as Hr3 by (by trans w2).
  assert (sx_id x = id ∧ support_contexts (db w) !! sx_id x = Some x) as [Hid Hrow] by (by apply context_row).
  destruct (Z.leb_spec (sx_expires_at x) (clock w2 (clock_reads w2))) as [Hexp|Hexp].
  - erewrite bind_run by reflexivity. set (w4 := set_field _ w3). assert (reads w w4) as Hr4 by (by trans w3).
    destruct (reads_settled w w4 Hs Hok Hr4) as [Hs4 Hok4].
    assert (∀ n, observed w4 (clock w2 n)) as Hobs by (intros n; by exists n).
    destruct (close_context_closes (A := unit) x (clock w2 (clock_reads w2)) (clock w3 (clock_reads w3)) w4)
      as (e & w5 & -> & Hq & _); [done|done|by rewrite (proj1 Hr4)|done|apply Hobs|apply Hobs|done|]. etrans; [by apply reads_quiet|exact Hq].
  - split; [done|]. intros _ id' [= <-]. split; [done|]. exists x, (clock w2 (clock_reads w2)).
    split_and!; try done. exists (clock_reads w2). by rewrite (proj2 (proj2 (proj2 Hr2))).
Qed.

(** C35: Nobody acts for a customer without authority, and resolving a party has
    no effect.  A party resolved for a request is the authenticated actor: for
    itself, when the context header is absent or blank, or for the organization
    of a support context, when support is enabled, the actor is an approved
    administrator that holds both capabilities, the context is the actor's own,
    active, unexpired and for order entry, and the organization is a real,
    approved one.  A request that is refused leaves every table as it was, but
    for one row: the context the header names, if it is the actor's own, active,
    and the request has read a time at which it had run out, is closed for good
    as of that time and committed. *)
Theorem support_party_is_authorized raw u w :
  synced w → market_ok (db w) → party_outcome w raw u (resolve_request_party raw u w).
Proof. apply resolve_party_outcome. Qed.

Lemma supported_ok : market_ok (db Demo.supported).
Proof. apply (bool_decide_unpack _). vm_compute. exact I. Qed.

Lemma support_party_is_authorized_witness :
  ∃ p w' x, resolve_request_party Demo.support_header Demo.admin Demo.supported = Ok p w'
    ∧ rp_mode p = MARKET_SUPPORT_MODE ∧ support_authority Demo.supported Demo.admin x.
Proof.
  pose proof (support_party_is_authorized Demo.support_header Demo.admin Demo.supported eq_refl supported_ok) as H.
  assert (match resolve_request_party Demo.support_header Demo.admin Demo.supported with
          | Ok p _ => bool_decide (rp_mode p = MARKET_SUPPORT_MODE)
          | Raise _ _ => false end = true) as Hrun by (vm_compute; reflexivity).
  destruct (resolve_request_party _ _ _) as [p w'|]; [|discriminate Hrun].
  apply bool_decide_eq_true in Hrun. destruct H as (_ & _ & _ & H). rewrite Hrun in H.
  destruct H as (x & g & Hx & _). exists p, w', x. split_and!; [reflexivity|exact Hrun|exact Hx].
Defined.
