(* ===== verification/SupportDesk.v ===== *)
(** * The Market Support desk

    [app/routers/market_support.py]: bootstrap operators grant and revoke the two
    staff capabilities, and a capable administrator opens, reads and exits the
    short-lived context under which it may act for a customer organization.
    [app/middleware/market_support_scope.py]: the requests that may carry a
    context.  The routes that listed for a customer without a context are
    retired: they refuse before their bodies begin.

    An answer repeats the row; the names and addresses of the organization and of
    the actor it adds are not modelled, nor are the paged searches, the length
    limits of text columns and the audit's request context.  Retries of a
    contended transaction are the caller's. *)

From Stdlib Require Import Ascii.
From S2P Require Import Prelude Catalog Calendar AvailabilityWindows Schema Constraints Database Scenario Policy Events Admission RequestParty.
Local Open Scope Z_scope.

(** ** Which requests may carry a context *)

Fixpoint lstrip_slashes (s : string) : string :=
  match s with
  | String "/" s => lstrip_slashes s
  | s => s
  end.
Definition rstrip_slashes (s : string) : string := rstrip_by (Ascii.eqb "/") s.

Definition KNOWN_STATE_CHANGING_GET_PATHS : list string :=
  ["/api/auth/verify-email"; "/api/referrals/my-code"; "/api/verify-email"; "/api/watchlists/me"].
Definition is_known_state_changing_get (method path : string) : bool :=
  bool_decide (upper method = "GET") && bool_decide (rstrip_slashes path ∈ KNOWN_STATE_CHANGING_GET_PATHS).

(** [[0-9a-fA-F-]{n}] followed by one of the given ends. *)
Definition is_id_char (c : ascii) : bool :=
  Ascii.eqb c "-" || match hex_value c with Some _ => true | None => false end.
Fixpoint id_then (n : nat) (ends : list string) (s : string) : bool :=
  match n, s with
  | O, s => bool_decide (s ∈ ends)
  | S n, String c s => is_id_char c && id_then n ends s
  | S _, EmptyString => false
  end.
Definition path_matches (prefix : string) (ends : list string) (path : string) : bool :=
  match remove_prefix prefix path with Some rest => id_then 36 ends rest | None => false end.
Definition _CANCEL_PATH : string → bool := path_matches "/api/orderbook/" ["/cancel"; "/cancel/"].
Definition _CONTEXT_EXIT_PATH : string → bool :=
  path_matches "/api/admin/market-support/contexts/" ["/exit"; "/exit/"].

(** [carries]: the request has a context id. *)
Definition is_market_support_mutation_allowed (method path : string) (carries : bool) : bool :=
  if is_known_state_changing_get method path then false
  else if negb carries || bool_decide (upper method ∈ ["GET"; "HEAD"; "OPTIONS"]) then true
  else
    let normalized :=
      match remove_prefix "/api/" path with
      | Some _ => path
      | None => "/api/" +:+ lstrip_slashes path
      end in
    bool_decide (upper method = "POST")
    && (bool_decide (rstrip_slashes normalized = "/api/orderbook")
        || _CANCEL_PATH normalized || _CONTEXT_EXIT_PATH normalized).

(** The answer of the middleware to a request it stops. *)
Definition MarketSupportScopeMiddleware (method path : string) (raw_context : option string)
    : option (Z * detail) :=
  let allowed := is_market_support_mutation_allowed method path true in
  if negb allowed && bool_decide (upper method = "GET") then
    Some (405, Coded "STATE_CHANGING_GET_NOT_ALLOWED"
                 "State-changing operations must use their declared mutation method")
  else match raw_context with
  | None | Some "" => None
  | Some _ =>
      if allowed then None
      else Some (403, Coded "MARKET_SUPPORT_MUTATION_NOT_ALLOWED"
                        "This operation is not available in Market Support mode")
  end.

Example context_mutations :
  (λ r, MarketSupportScopeMiddleware r.1 r.2 Demo.support_header) <$>
    [ ("POST", "/api/orderbook/"); ("post", "/api/orderbook/00000000-0000-0000-0000-000000000005/cancel");
      ("POST", "/api/admin/market-support/contexts/00000000-0000-0000-0000-000000000005/exit/");
      ("GET", "/api/trades") ] = [None; None; None; None].
Proof. vm_compute. reflexivity. Qed.
Example context_mutations_refused :
  (λ r, fst <$> MarketSupportScopeMiddleware r.1 r.2 Demo.support_header) <$>
    [ ("POST", "/api/rfq"); ("POST", "/api/inventory"); ("PATCH", "/api/watchlists/5");
      ("DELETE", "/api/orderbook/00000000-0000-0000-0000-000000000005"); ("GET", "/api/watchlists/me/") ]
  = [Some 403; Some 403; Some 403; Some 403; Some 405].
Proof. vm_compute. reflexivity. Qed.

(** ** Who may use the desk *)

Definition not_found : exn := HTTPException 404 (Msg "Not found").
Definition forbidden : exn := HTTPException 403 (Msg "Forbidden").

(** [text.split(sep)] *)
Fixpoint split_on (sep : ascii) (s : string) : list string :=
  match s with
  | EmptyString => [EmptyString]
  | String c s =>
      if Ascii.eqb c sep then EmptyString :: split_on sep s
      else match split_on sep s with
           | word :: words => String c word :: words
           | [] => [String c EmptyString]
           end
  end.

(** Entries that are not a UUID are skipped. *)
Definition _bootstrap_ids (c : Settings) : list uuid :=
  omap (λ raw, uuid_of_text (strip raw)) (split_on "," (MARKET_SUPPORT_BOOTSTRAP_ADMIN_USER_IDS c)).

Definition require_market_support_admin (current_user : User) : M World unit :=
  configuration ← gets settings;
  refuse (negb (MARKET_SUPPORT_ENABLED configuration)) not_found ;;
  refuse (bool_decide (u_role current_user ≠ Some ADMIN) || bool_decide (u_status current_user ≠ APPROVED))
    forbidden.

Definition _require_bootstrap_operator (user : User) : M World unit :=
  configuration ← gets settings;
  refuse (bool_decide (u_id user ∉ _bootstrap_ids configuration)) forbidden.

Definition _lock_capability (user_id : uuid) (capability : MarketSupportCapability)
    : M World StaffCapabilityAssignment :=
  now ← utcnow;
  take_lock (RowCapability user_id capability) ;;
  d ← get_db;
  let required := HTTPException 403 (Coded "MARKET_SUPPORT_CAPABILITY_REQUIRED" "Forbidden") in
  match capability_of d user_id capability with
  | Some assignment =>
      refuse (negb (capability_active (Some assignment) now)) required ;;
      mret assignment
  | None => raise required
  end.

Definition _require_context_capabilities (user_id : uuid) : M World unit :=
  _lock_capability user_id MARKET_SUPPORT_AUTHORIZATIONS ;;
  _lock_capability user_id MARKET_SUPPORT_LISTINGS ;;
  mret tt.

(** The capabilities of a user at an instant, each once. *)
Definition _active_capabilities (user_id : uuid) : M World (list MarketSupportCapability) :=
  now ← utcnow;
  d ← get_db;
  mret (remove_dups (sc_capability <$>
          filter (λ r, sc_user_id r = user_id ∧ capability_active (Some r) now = true)
                 (snd <$> map_to_list (staff_capabilities d)))).

Definition _require_any_capability (user_id : uuid) : M World unit :=
  l ← _active_capabilities user_id;
  refuse (bool_decide (l = [])) forbidden.

(** [GET /capabilities] *)
Definition capabilities (current_user : User) : M World (list MarketSupportCapability) :=
  require_market_support_admin current_user ;;
  _active_capabilities (u_id current_user).

(** ** Retired routes *)

Definition _reject_legacy_workspace_mutation : M World unit :=
  configuration ← gets settings;
  refuse (MARKET_SUPPORT_ENABLED configuration)
    (HTTPException 410 (Coded "MARKET_SUPPORT_LEGACY_MUTATION_RETIRED"
                          "Use an active Market Support context and the normal customer route")).

(** [create_authorization], [create_listing], [cancel_listing] and
    [revoke_authorization] start this way, whatever their bodies do. *)
Definition legacy_mutation {A} (body : User → M World A) (current_user : User) : M World A :=
  require_market_support_admin current_user ;;
  _reject_legacy_workspace_mutation ;;
  body current_user.

(** ** Granting and revoking a capability *)

Record CapabilityAssignmentCreate := MkCapabilityAssignmentCreate {
  ca_user_id : uuid;
  ca_capability : MarketSupportCapability;
  ca_reason : string;
  ca_expires_at : option datetime;
}.

(** The length is checked before blanks are stripped; [now] is when the body is
    read. *)
Definition capability_assignment_create (user_id : uuid) (capability : MarketSupportCapability) (raw_reason : string)
    (expires_at : option datetime) (now : datetime) : option CapabilityAssignmentCreate :=
  if bool_decide (3 <= String.length raw_reason <= 500)%nat
     && match expires_at with Some e => now <? e | None => true end
  then Some (MkCapabilityAssignmentCreate user_id capability (strip raw_reason) expires_at)
  else None.

(** Three blanks pass for a reason. *)
Example blank_reason :
  ca_reason <$> capability_assignment_create 19 MARKET_SUPPORT_LISTINGS "   " None 0 = Some "".
Proof. vm_compute. reflexivity. Qed.

Definition MARKET_SUPPORT_CAPABILITY_GRANTED : string := "market_support.capability_granted".
Definition MARKET_SUPPORT_CAPABILITY_REVOKED : string := "market_support.capability_revoked".
Definition MARKET_SUPPORT_CONTEXT_STARTED : string := "market_support.context_started".
Definition MARKET_SUPPORT_CONTEXT_EXITED : string := "market_support.context_exited".
Definition MARKET_SUPPORT_CONTEXT_REVOKED : string := "market_support.context_revoked".

Definition audit_capability (action : string) (a : StaffCapabilityAssignment) (reason : string) (by_user : uuid)
    : M World unit :=
  record_audit (Some by_user) action "staff_capability_assignment" (Some (sc_id a))
    (JObj [("target_user_id", JUuid (sc_user_id a));
           ("capability", JStr (MarketSupportCapability_value (sc_capability a)));
           ("reason", JStr reason)]).

(** [db.refresh] of a row that is there. *)
Definition refresh_capability (id : uuid) : M World StaffCapabilityAssignment :=
  d ← get_db;
  match staff_capabilities d !! id with
  | Some a => mret a
  | None => raise (RuntimeError (Msg "assignment is not persistent within this session"))
  end.

(** The row of a grant: a new one, or the old one renewed. *)
Definition granted (d : Database) (body : CapabilityAssignmentCreate) (by_user : uuid) (now : datetime)
    : StaffCapabilityAssignment :=
  match capability_of d (ca_user_id body) (ca_capability body) with
  | None =>
      MkStaffCapabilityAssignment (fresh_id (staff_capabilities d)) (ca_user_id body) (ca_capability body)
        (ca_reason body) by_user now (ca_expires_at body) None None None
  | Some a =>
      a <| sc_reason := ca_reason body |> <| sc_granted_by_user_id := by_user |> <| sc_granted_at := now |>
        <| sc_expires_at := ca_expires_at body |> <| sc_revoked_at := None |>
        <| sc_revoked_by_user_id := None |> <| sc_revocation_reason := None |>
  end.

Definition approved_admin (u : option User) : bool :=
  match u with
  | Some u => bool_decide (u_role u = Some ADMIN) && bool_decide (u_status u = APPROVED)
  | None => false
  end.

(** [POST /capability-assignments] *)
Definition create_capability_assignment (body : CapabilityAssignmentCreate) (current_user : User)
    : M World StaffCapabilityAssignment :=
  require_market_support_admin current_user ;;
  _require_bootstrap_operator current_user ;;
  take_lock (RowUsers [ca_user_id body]) ;;
  d ← get_db;
  refuse (negb (approved_admin (users d !! ca_user_id body)))
    (HTTPException 409 (Msg "Capability target must be an approved administrator")) ;;
  take_lock (RowCapability (ca_user_id body) (ca_capability body)) ;;
  now ← utcnow;
  let a := granted d body (u_id current_user) now in
  put_capability a ;;
  flush ;;
  audit_capability MARKET_SUPPORT_CAPABILITY_GRANTED a (ca_reason body) (u_id current_user) ;;
  commit ;;
  refresh_capability (sc_id a).

(** A context that stops being active. *)
Definition end_context (x : MarketSupportContext) (how : MarketSupportContextStatus) (ended_at : datetime)
    : MarketSupportContext :=
  x <| sx_status := how |> <| sx_ended_at := Some ended_at |> <| sx_version := sx_version x + 1 |>.

Definition context_id_le (x y : MarketSupportContext) : Prop := (sx_id x ≤ sx_id y)%N.
#[export] Instance context_id_le_dec : RelDecision context_id_le.
Proof. intros x y. unfold context_id_le. apply _. Defined.

(** The active contexts of an actor. *)
Definition is_active_of (actor : uuid) (x : MarketSupportContext) : Prop :=
  sx_actor_user_id x = actor ∧ sx_status x = CONTEXT_ACTIVE.
#[export] Instance is_active_of_dec actor x : Decision (is_active_of actor x).
Proof. unfold is_active_of. apply _. Defined.
Definition active_contexts (d : Database) (actor : uuid) : list MarketSupportContext :=
  filter (is_active_of actor) (snd <$> map_to_list (support_contexts d)).

Definition revoked (a : StaffCapabilityAssignment) (by_user : uuid) (reason : string) (now : datetime)
    : StaffCapabilityAssignment :=
  a <| sc_revoked_at := Some now |> <| sc_revoked_by_user_id := Some by_user |> <| sc_revocation_reason := Some reason |>.

Definition audit_context (action : string) (x : MarketSupportContext) (by_user : uuid) (changes : list (string * json))
    : M World unit :=
  record_audit (Some by_user) action "market_support_context" (Some (sx_id x)) (JObj changes).

(** [POST /capability-assignments/{assignment_id}/revoke]; [reason] is stripped. *)
Definition revoke_capability_assignment (assignment_id : uuid) (reason : string) (current_user : User)
    : M World StaffCapabilityAssignment :=
  require_market_support_admin current_user ;;
  _require_bootstrap_operator current_user ;;
  d ← get_db;
  match staff_capabilities d !! assignment_id with
  | None => raise (HTTPException 404 (Msg "Capability assignment not found"))
  | Some a =>
      take_lock (RowCapability (sc_user_id a) (sc_capability a)) ;;
      let contexts := merge_sort context_id_le (active_contexts d (sc_user_id a)) in
      iterM (λ x, take_lock (RowSupportContext (sx_id x))) contexts ;;
      (if bool_decide (sc_revoked_at a = None)
       then now ← utcnow; put_capability (revoked a (u_id current_user) reason now)
       else mret tt) ;;
      audit_capability MARKET_SUPPORT_CAPABILITY_REVOKED a reason (u_id current_user) ;;
      now ← utcnow;
      iterM (λ x,
        put_support_context (end_context x CONTEXT_REVOKED now) ;;
        audit_context MARKET_SUPPORT_CONTEXT_REVOKED x (u_id current_user)
          [("status", JStr (MarketSupportContextStatus_value CONTEXT_REVOKED)); ("reason", JStr reason);
           ("capability_assignment_id", JUuid (sc_id a))]) contexts ;;
      commit ;;
      refresh_capability assignment_id
  end.

(** ** Contexts *)

Definition _load_organization (organization_id : uuid) : M World Organization :=
  d ← get_db;
  match organizations d !! organization_id with
  | None => raise (HTTPException 404 (Msg "Organization not found"))
  | Some g =>
      refuse (bool_decide (upper (g_verification_status g) ≠ "APPROVED"))
        (HTTPException 409 (Coded "ORGANIZATION_NOT_APPROVED" "Organization is not approved")) ;;
      refuse (bool_decide (g_provenance g ≠ REAL))
        (HTTPException 409 (Coded "ORGANIZATION_NOT_REAL" "Market support is limited to real organizations")) ;;
      mret g
  end.

(** [GET /organizations/{organization_id}/entry]: the organization that is eligible. *)
Definition organization_entry (organization_id : uuid) (current_user : User) : M World Organization :=
  require_market_support_admin current_user ;;
  _require_context_capabilities (u_id current_user) ;;
  _load_organization organization_id.

(** The identities of a context must still be there. *)
Definition _context_response (x : MarketSupportContext) : M World MarketSupportContext :=
  d ← get_db;
  refuse (bool_decide (organizations d !! sx_organization_id x = None)
          || bool_decide (users d !! sx_actor_user_id x = None))
    (HTTPException 409 (Msg "Support context identities are no longer available")) ;;
  mret x.

Record MarketSupportContextCreate := MkMarketSupportContextCreate {
  mc_organization_id : uuid;
  mc_support_reference : string;
  mc_confirm_replacement : bool;
}.

(** Ends the actor's contexts that have run out, and one for another organization
    if the replacement is confirmed; returns the one for the same organization. *)
Fixpoint settle_contexts (l : list MarketSupportContext) (body : MarketSupportContextCreate) (now : datetime)
    (actor : uuid) : M World (option MarketSupportContext) :=
  match l with
  | [] => mret None
  | x :: l =>
      if sx_expires_at x <=? now then
        put_support_context (end_context x CONTEXT_EXPIRED now) ;;
        settle_contexts l body now actor
      else if bool_decide (sx_organization_id x = mc_organization_id body) then mret (Some x)
      else
        refuse (negb (mc_confirm_replacement body))
          (HTTPException 409 (Coded "MARKET_SUPPORT_CONTEXT_REPLACEMENT_REQUIRED"
                                "Confirm replacement of the active support context")) ;;
        put_support_context (end_context x CONTEXT_EXITED now) ;;
        audit_context MARKET_SUPPORT_CONTEXT_EXITED x actor
          [("status", JStr (MarketSupportContextStatus_value CONTEXT_EXITED)); ("replacement", JBool true)] ;;
        settle_contexts l body now actor
  end.

Definition minutes (n : Z) : Z := n * 60000000.

Definition new_context (id : uuid) (body : MarketSupportContextCreate) (actor : uuid) (ttl : Z) (now : datetime)
    : MarketSupportContext :=
  MkMarketSupportContext id actor (mc_organization_id body) actor
    (mc_support_reference body) ASSISTED_ORDER_ENTRY now (now + minutes ttl) None CONTEXT_ACTIVE 1.

Definition refresh_context (id : uuid) : M World MarketSupportContext :=
  d ← get_db;
  match support_contexts d !! id with
  | Some x => mret x
  | None => raise (RuntimeError (Msg "context is not persistent within this session"))
  end.

(** A context that is opened. *)
Definition open_context (body : MarketSupportContextCreate) (actor : uuid) (now : datetime)
    : M World MarketSupportContext :=
  d ← get_db;
  configuration ← gets settings;
  let x := new_context (fresh_id (support_contexts d)) body actor
             (MARKET_SUPPORT_CONTEXT_TTL_MINUTES configuration) now in
  put_support_context x ;;
  flush ;;
  audit_context MARKET_SUPPORT_CONTEXT_STARTED x actor
    [("organization_id", JUuid (sx_organization_id x)); ("support_reference", JStr (sx_support_reference x));
     ("scope", JStr "ASSISTED_ORDER_ENTRY"); ("expires_at", JTime (sx_expires_at x))] ;;
  commit ;;
  opened ← refresh_context (sx_id x);
  _context_response opened.

(** [POST /contexts] *)
Definition create_context (body : MarketSupportContextCreate) (current_user : User) : M World MarketSupportContext :=
  require_market_support_admin current_user ;;
  _require_context_capabilities (u_id current_user) ;;
  _load_organization (mc_organization_id body) ;;
  now ← utcnow;
  d ← get_db;
  let contexts := active_contexts d (u_id current_user) in
  iterM (λ x, take_lock (RowSupportContext (sx_id x))) contexts ;;
  settled ← settle_contexts contexts body now (u_id current_user);
  match settled with
  | Some x => _context_response x
  | None => open_context body (u_id current_user) now
  end.

Definition _load_owned_context (actor_id context_id : uuid) (lock : bool) : M World MarketSupportContext :=
  (if lock then take_lock (RowSupportContext context_id) else mret tt) ;;
  d ← get_db;
  match support_contexts d !! context_id with
  | Some x =>
      refuse (bool_decide (sx_actor_user_id x ≠ actor_id)) not_found ;;
      mret x
  | None => raise not_found
  end.

Definition started_later (x y : MarketSupportContext) : Prop := sx_started_at y <= sx_started_at x.
#[export] Instance started_later_dec : RelDecision started_later.
Proof. intros x y. unfold started_later. apply _. Defined.

(** A read closes a context that has run out; each test and stamp reads the clock. *)
Definition expire_due (x : MarketSupportContext) : M World MarketSupportContext :=
  now ← utcnow;
  if sx_expires_at x <=? now then
    ended_at ← utcnow;
    put_support_context (end_context x CONTEXT_EXPIRED ended_at) ;;
    commit ;;
    mret (end_context x CONTEXT_EXPIRED ended_at)
  else mret x.

(** [GET /contexts/active] *)
Definition active_context (current_user : User) : M World (option MarketSupportContext) :=
  require_market_support_admin current_user ;;
  _require_context_capabilities (u_id current_user) ;;
  d ← get_db;
  match head (merge_sort started_later (active_contexts d (u_id current_user))) with
  | None => mret None
  | Some x =>
      y ← expire_due x;
      if bool_decide (sx_status y = CONTEXT_ACTIVE) then answer ← _context_response y; mret (Some answer)
      else mret None
  end.

(** [GET /contexts/{context_id}] *)
Definition get_context (context_id : uuid) (current_user : User) : M World MarketSupportContext :=
  require_market_support_admin current_user ;;
  _require_context_capabilities (u_id current_user) ;;
  x ← _load_owned_context (u_id current_user) context_id false;
  y ← (if bool_decide (sx_status x = CONTEXT_ACTIVE) then expire_due x else mret x);
  _context_response y.

(** [POST /contexts/{context_id}/exit] *)
Definition exit_context (context_id : uuid) (current_user : User) : M World MarketSupportContext :=
  require_market_support_admin current_user ;;
  _require_context_capabilities (u_id current_user) ;;
  x ← _load_owned_context (u_id current_user) context_id true;
  y ← (if bool_decide (sx_status x = CONTEXT_ACTIVE) then
         now ← utcnow;
         ended_at ← utcnow;
         let y := end_context x (if sx_expires_at x <=? now then CONTEXT_EXPIRED else CONTEXT_EXITED) ended_at in
         put_support_context y ;;
         audit_context MARKET_SUPPORT_CONTEXT_EXITED y (u_id current_user)
           [("status", JStr (MarketSupportContextStatus_value (sx_status y)))] ;;
         commit ;;
         refresh_context (sx_id y)
       else mret x);
  _context_response y.

(** ** On the demo market

    An operator manages the desk; the administrator [Demo.admin] has a context for
    the refinery that runs for another hour. *)

Definition operator : User := Demo.admin <| u_id := 18%N |>.
Definition desk : World :=
  Demo.supported <| db := (db Demo.supported) <| users := <[ u_id operator := operator ]> (users (db Demo.supported)) |> |>
                 <| committed := (db Demo.supported) <| users := <[ u_id operator := operator ]> (users (db Demo.supported)) |> |>
                 <| clock := MkClocks (λ _, Demo.noon) Demo.noon |>.
Definition for_shipping (confirm : bool) : MarketSupportContextCreate :=
  MkMarketSupportContextCreate 1 "Call 17" confirm.

(** The contexts of a run's database: id, organization, status and version. *)
Definition contexts_after {A} (o : outcome World A) : list (uuid * uuid * MarketSupportContextStatus * Z) :=
  (λ x, (sx_id x, sx_organization_id x, sx_status x, sx_version x))
    <$> (snd <$> map_to_list (support_contexts (committed (final o)))).
