(* ===== verification/SupportDeskSafety.v ===== *)
(** * What the Market Support desk guarantees

    The abstract desk: who holds which capability until when, and which context
    each administrator has open, at most one.  Granting, revoking, opening,
    reading and leaving are steps of it; contexts that have ended never change
    again; and a capability that is revoked ends the assistance it allowed, for
    requests under way as well, until it is granted again. *)

From S2P Require Import Prelude Catalog Calendar AvailabilityWindows Schema Constraints Database Scenario Policy Events Inventory Ledger Admission RequestParty SupportDesk.
Local Open Scope Z_scope.

(** ** Rows found by a unique key *)

Section unique_row.
Context {V : Type} (id : V → uuid) (m : gmap uuid V) (P : V → Prop) `{∀ x, Decision (P x)}.
Context (Hid : map_Forall (λ k x, id x = k) m).
Context (Hone : ∀ i j x y, m !! i = Some x → m !! j = Some y → P x → P y → i = j).

Lemma elem_of_rows x : x ∈ filter P (snd <$> map_to_list m) ↔ m !! id x = Some x ∧ P x.
Proof using Hid.
  rewrite list_elem_of_filter, list_elem_of_fmap. split.
  - intros (HP & [k y] & -> & Hin%elem_of_map_to_list). cbn in *. by rewrite (Hid _ _ Hin).
  - intros [Hx HP]. split; [done|]. exists (id x, x). by rewrite elem_of_map_to_list.
Qed.

Lemma rows_NoDup : NoDup (filter P (snd <$> map_to_list m)).
Proof using Hid.
  apply NoDup_filter. apply (NoDup_fmap_1 id). rewrite <-list_fmap_compose.
  rewrite (list_fmap_ext (id ∘ snd) fst (map_to_list m)); [apply NoDup_fst_map_to_list|].
  intros i [k x] Hin%list_elem_of_lookup_2%elem_of_map_to_list. by apply Hid in Hin.
Qed.

Lemma rows_at_most_one :
  filter P (snd <$> map_to_list m) = match head (filter P (snd <$> map_to_list m)) with Some x => [x] | None => [] end.
Proof using Hid Hone.
  pose proof rows_NoDup as Hnd. pose proof elem_of_rows as Hin.
  destruct (filter P _) as [|x [|y l]]; [done..|]. exfalso. apply NoDup_cons in Hnd as [Hx _]. apply Hx.
  destruct (proj1 (Hin x)) as [Hmx HPx]; [left|]. destruct (proj1 (Hin y)) as [Hmy HPy]; [right; left|].
  pose proof (Hone _ _ _ _ Hmx Hmy HPx HPy) as E. rewrite E in Hmx. rewrite Hmx in Hmy. injection Hmy as ->. left.
Qed.

Lemma unique_row x : head (filter P (snd <$> map_to_list m)) = Some x ↔ m !! id x = Some x ∧ P x.
Proof using Hid Hone.
  rewrite <-elem_of_rows. pose proof rows_at_most_one as E. destruct (head _) as [y|]; rewrite E.
  - rewrite list_elem_of_singleton. naive_solver.
  - set_solver.
Qed.
End unique_row.

(** ** The abstract desk *)

(** The expiry of a grant in force: [None] when there is none. *)
Definition standing (d : Database) (user : uuid) (c : MarketSupportCapability) : option (option datetime) :=
  a ← capability_of d user c;
  match sc_revoked_at a with None => Some (sc_expires_at a) | Some _ => None end.
Definition live_at (grant : option (option datetime)) (t : datetime) : Prop :=
  match grant with None => False | Some None => True | Some (Some e) => t < e end.

(** The context an administrator has open. *)
Definition current_context (d : Database) (actor : uuid) : option MarketSupportContext :=
  head (active_contexts d actor).

(** Capabilities under their own ids; a context has ended exactly if it is not
    active; its organization and its actor exist. *)
Definition desk_ok (d : Database) : Prop :=
  map_Forall (λ k a, sc_id a = k) (staff_capabilities d)
  ∧ map_Forall (λ _ x, sx_status x = CONTEXT_ACTIVE ↔ sx_ended_at x = None) (support_contexts d)
  ∧ map_Forall (λ _ x, is_Some (organizations d !! sx_organization_id x) ∧ is_Some (users d !! sx_actor_user_id x))
      (support_contexts d).
#[export] Instance desk_ok_dec d : Decision (desk_ok d).
Proof. unfold desk_ok. apply _. Defined.

Section views.
Context (d : Database) (Hok : market_ok d) (Hdesk : desk_ok d).

Lemma context_rows : map_Forall (λ k x, sx_id x = k) (support_contexts d).
Proof using Hok. apply Hok. Qed.
Lemma one_context actor i j x y :
  support_contexts d !! i = Some x → support_contexts d !! j = Some y →
  is_active_of actor x → is_active_of actor y → i = j.
Proof using Hok.
  intros Hx Hy [Ax Sx] [Ay Sy]. destruct Hok as ((_ & _ & _ & _ & _ & _ & (_ & _ & Hu & _) & _) & _).
  apply (proj1 (unique_on_spec _ _) Hu i j x y Hx Hy); unfold active_support_actor;
    rewrite !bool_decide_eq_true_2 by done; congruence.
Qed.
Lemma one_capability user c i j x y :
  staff_capabilities d !! i = Some x → staff_capabilities d !! j = Some y →
  sc_user_id x = user ∧ sc_capability x = c → sc_user_id y = user ∧ sc_capability y = c → i = j.
Proof using Hok.
  intros Hx Hy [Ux Cx] [Uy Cy]. destruct Hok as ((_ & _ & _ & _ & _ & _ & (_ & _ & _ & _ & Hu) & _) & _).
  apply (proj1 (unique_on_spec _ _) Hu i j x y Hx Hy); unfold capability_key; [|done]. congruence.
Qed.

Lemma current_context_spec actor x :
  current_context d actor = Some x ↔ support_contexts d !! sx_id x = Some x ∧ is_active_of actor x.
Proof using Hok. apply (unique_row sx_id); [apply context_rows|apply one_context]. Qed.
Lemma active_contexts_one actor :
  active_contexts d actor = match current_context d actor with Some x => [x] | None => [] end.
Proof using Hok. apply (rows_at_most_one sx_id); [apply context_rows|apply one_context]. Qed.
Lemma capability_of_spec user c a :
  capability_of d user c = Some a
  ↔ staff_capabilities d !! sc_id a = Some a ∧ sc_user_id a = user ∧ sc_capability a = c.
Proof using Hok Hdesk. apply (unique_row sc_id); [apply Hdesk|apply one_capability]. Qed.
End views.

Lemma capability_active_live d user c t :
  capability_active (capability_of d user c) t = true ↔ live_at (standing d user c) t.
Proof.
  unfold standing. destruct (capability_of d user c) as [a|]; [|done]. cbn.
  destruct (sc_revoked_at a); cbn; [done|]. destruct (sc_expires_at a); cbn; [|done]. apply Z.ltb_lt.
Qed.

(** ** What a request may touch *)

(** The capabilities, the contexts and the audit log. *)
Definition desk_frame (d d' : Database) : Prop :=
  d' = d <| staff_capabilities := staff_capabilities d' |> <| support_contexts := support_contexts d' |>
         <| audit_logs := audit_logs d' |>.
#[export] Instance desk_frame_preorder : PreOrder desk_frame.
Proof.
  split; [intros []; reflexivity|]. unfold desk_frame. intros a b c Hb Hc. rewrite Hc. rewrite Hb at 1. by destruct a.
Qed.

Lemma desk_frame_market d d' :
  desk_frame d d' → market_ok d → database_checks d' → map_Forall (λ k x, sx_id x = k) (support_contexts d') →
  market_ok d'.
Proof.
  intros Hf (_ & (K1 & K2 & K3 & K4 & K5 & K6 & _ & K8) & Hrest) Hc Hx. split; [exact Hc|].
  rewrite Hf. split; [|exact Hrest]. by split_and!.
Qed.

(** A context stays as it is, or ends for good. *)
Definition context_moves (x x' : MarketSupportContext) : Prop :=
  x' = x ∨ sx_status x = CONTEXT_ACTIVE ∧ ∃ how t, how ≠ CONTEXT_ACTIVE ∧ x' = end_context x how t.
#[export] Instance context_moves_preorder : PreOrder context_moves.
Proof.
  split; [by left|]. intros x y z [->|(Hx & how & t & Ht & ->)] Hyz; [done|].
  destruct Hyz as [->|(Hy & _)]; [right; eauto|]. by destruct Ht.
Qed.

(** No context is dropped, none is revived. *)
Definition contexts_move (d d' : Database) : Prop :=
  ∀ id x, support_contexts d !! id = Some x → ∃ x', support_contexts d' !! id = Some x' ∧ context_moves x x'.
#[export] Instance contexts_move_preorder : PreOrder contexts_move.
Proof.
  split; [intros d id x Hx; by exists x|]. intros a b c Hab Hbc id x Hx.
  destruct (Hab id x Hx) as (y & Hy & Hxy). destruct (Hbc id y Hy) as (z & Hz & Hyz).
  exists z. split; [done|by etrans].
Qed.

Section moves.
Context (d d' : Database).

Lemma contexts_move_same : support_contexts d' = support_contexts d → contexts_move d d'.
Proof. intros E id x Hx. exists x. by rewrite E. Qed.

(** One context ends, and perhaps a new one starts. *)
Lemma contexts_move_end id x how t :
  support_contexts d !! id = Some x → sx_status x = CONTEXT_ACTIVE → how ≠ CONTEXT_ACTIVE →
  support_contexts d' = <[ id := end_context x how t ]> (support_contexts d) → contexts_move d d'.
Proof.
  intros Hx Ha Hhow E i y Hy. rewrite E. destruct (decide (i = id)) as [->|].
  - rewrite lookup_insert_eq. eexists. split; [done|]. rewrite Hx in Hy. injection Hy as <-. right. eauto.
  - rewrite lookup_insert_ne by done. by exists y.
Qed.
Lemma contexts_move_new id y :
  support_contexts d !! id = None → support_contexts d' = <[ id := y ]> (support_contexts d) → contexts_move d d'.
Proof.
  intros Hn E i x Hx. rewrite E, lookup_insert_ne by congruence. by exists x.
Qed.
Lemma contexts_move_fmap f :
  (∀ x, context_moves x (f x)) → support_contexts d' = f <$> support_contexts d → contexts_move d d'.
Proof. intros Hf E i x Hx. rewrite E, lookup_fmap, Hx. eexists. by split. Qed.
End moves.

(** ** Who uses the desk *)

Definition desk_admin (cfg : Settings) (u : User) : Prop :=
  MARKET_SUPPORT_ENABLED cfg = true ∧ u_role u = Some ADMIN ∧ u_status u = APPROVED.
Definition desk_operator (cfg : Settings) (u : User) : Prop :=
  desk_admin cfg u ∧ u_id u ∈ _bootstrap_ids cfg.
#[export] Instance desk_operator_dec cfg u : Decision (desk_operator cfg u).
Proof. unfold desk_operator, desk_admin. apply _. Defined.

(** An administrator whose two grants are in force when the clock is read. *)
Definition desk_agent (cfg : Settings) (seen : datetime → Prop) (d : Database) (u : User) : Prop :=
  desk_admin cfg u ∧ ∀ c, ∃ t, seen t ∧ live_at (standing d (u_id u) c) t.

Definition assists (d : Database) (org : uuid) : Prop :=
  ∃ g, organizations d !! org = Some g ∧ upper (g_verification_status g) = "APPROVED" ∧ g_provenance g = REAL.

Lemma require_admin_ok u w a w' : require_market_support_admin u w = Ok a w' → w' = w ∧ desk_admin (settings w) u.
Proof.
  unfold require_market_support_admin, desk_admin. intros H. inv_run H.
  rewrite negb_false_iff in *. apply orb_false_iff in Hguard0 as [Hr Ha].
  apply bool_decide_eq_false, dec_stable in Hr, Ha. done.
Qed.

Lemma require_operator_ok u w a w' :
  _require_bootstrap_operator u w = Ok a w' → w' = w ∧ u_id u ∈ _bootstrap_ids (settings w).
Proof.
  unfold _require_bootstrap_operator. intros H. inv_run H. split; [done|].
  by apply bool_decide_eq_false, dec_stable in Hguard.
Qed.

Lemma lock_capability_ok user c w a w' :
  _lock_capability user c w = Ok a w' →
  reads w w' ∧ ∃ t, observed w t ∧ live_at (standing (db w) user c) t.
Proof.
  unfold _lock_capability. intros H. do 3 (erewrite bind_run in H by reflexivity). cbv zeta in H. cbn in H.
  destruct (capability_of (db w) user c) as [r|] eqn:Hr; [|discriminate H].
  apply bind_ok in H as ([] & w1 & [Hact ->]%refuse_ok & H). injection H as <- <-.
  split; [by repeat split|]. exists (clock w (clock_reads w)). split; [by exists (clock_reads w)|].
  apply negb_false_iff in Hact. by rewrite <-capability_active_live, Hr.
Qed.

Lemma reads_require_admin u : Keeps reads (require_market_support_admin u).
Proof. unfold require_market_support_admin. keeps. Qed.
Lemma reads_require_operator u : Keeps reads (_require_bootstrap_operator u).
Proof. unfold _require_bootstrap_operator. keeps. Qed.
Lemma reads_lock_capability u c : Keeps reads (_lock_capability u c).
Proof. unfold _lock_capability. keeps. Qed.
#[export] Hint Resolve reads_require_admin reads_require_operator reads_lock_capability : keeps.
Lemma reads_context_capabilities u : Keeps reads (SupportDesk._require_context_capabilities u).
Proof. unfold SupportDesk._require_context_capabilities. keeps. Qed.
Lemma reads_load_organization org : Keeps reads (_load_organization org).
Proof. unfold _load_organization. keeps. Qed.
Lemma reads_context_response x : Keeps reads (_context_response x).
Proof. unfold _context_response. keeps. Qed.
Lemma reads_load_owned a id b : Keeps reads (_load_owned_context a id b).
Proof. unfold _load_owned_context. keeps. Qed.
Lemma reads_refresh_context id : Keeps reads (refresh_context id).
Proof. unfold refresh_context. keeps. Qed.
#[export] Hint Resolve reads_context_capabilities reads_load_organization reads_context_response
  reads_load_owned reads_refresh_context : keeps.

Lemma desk_observed w w' t : reads w w' → observed w' t → observed w t.
Proof. intros (_ & _ & _ & E) [n ->]. exists n. by rewrite E. Qed.

Lemma context_capabilities_ok user w a w' :
  SupportDesk._require_context_capabilities user w = Ok a w' →
  reads w w' ∧ ∀ c, ∃ t, observed w t ∧ live_at (standing (db w) user c) t.
Proof.
  unfold SupportDesk._require_context_capabilities. intros (r1 & w1 & [Hr1 H1]%lock_capability_ok & H)%bind_ok.
  apply bind_ok in H as (r2 & w2 & [Hr2 H2]%lock_capability_ok & [= _ <-]). split; [by etrans|].
  intros []; [|done]. destruct H2 as (t & Ht & Hl). exists t. split; [by eapply desk_observed|].
  by rewrite (proj1 Hr1) in Hl.
Qed.

Lemma load_organization_ok org w g w' :
  _load_organization org w = Ok g w' → w' = w ∧ organizations (db w) !! org = Some g ∧ assists (db w) org.
Proof.
  unfold _load_organization. intros H. erewrite bind_run in H by reflexivity.
  destruct (organizations (db w) !! org) as [g'|] eqn:Hg; [|discriminate H].
  inv_run H. apply bool_decide_eq_false, dec_stable in Hguard, Hguard0. split; [done|]. split; [done|]. by exists g.
Qed.

(** ** The steps of the desk *)

Inductive desk_request :=
  | Grant (body : CapabilityAssignmentCreate)
  | Revoke (assignment_id : uuid) (reason : string)
  | Open (body : MarketSupportContextCreate)
  | ReadActive
  | Read (context_id : uuid)
  | Leave (context_id : uuid).

(** Only the grant of [c] to [user] is changed. *)
Definition regrants (d d' : Database) (user : uuid) (c : MarketSupportCapability)
    (grant : option (option datetime)) : Prop :=
  standing d' user c = grant ∧ ∀ user' c', (user', c') ≠ (user, c) → standing d' user' c' = standing d user' c'.

Definition closes (how : MarketSupportContextStatus) (t : datetime) (actor : uuid) (x : MarketSupportContext)
    : MarketSupportContext :=
  if bool_decide (is_active_of actor x) then end_context x how t else x.

(** Leaving at [now] a context that has run out or not. *)
Definition leaving (x : MarketSupportContext) (now : datetime) : MarketSupportContextStatus :=
  if sx_expires_at x <=? now then CONTEXT_EXPIRED else CONTEXT_EXITED.

(** The contexts once the actor's open one is closed, if there is one. *)
Definition settled (d : Database) (actor : uuid) (now : datetime) : gmap uuid MarketSupportContext :=
  match current_context d actor with
  | Some x => <[ sx_id x := end_context x (leaving x now) now ]> (support_contexts d)
  | None => support_contexts d
  end.

(** An open context may be left for another organization, if that is confirmed,
    or because it has run out. *)
Definition replaceable (d : Database) (actor : uuid) (b : MarketSupportContextCreate) (now : datetime) : Prop :=
  match current_context d actor with
  | Some x => sx_expires_at x <= now ∨ (sx_organization_id x ≠ mc_organization_id b ∧ mc_confirm_replacement b = true)
  | None => True
  end.

(** The context a read names. *)
Definition names (d : Database) (actor : uuid) (r : desk_request) (x : MarketSupportContext) : Prop :=
  match r with
  | ReadActive => current_context d actor = Some x
  | Read id | Leave id => support_contexts d !! id = Some x ∧ sx_actor_user_id x = actor
  | _ => False
  end.

(** Nothing to do: no context, one that has ended, or one that is read in time. *)
Definition settled_already (d : Database) (seen : datetime → Prop) (actor : uuid) (r : desk_request) : Prop :=
  r = ReadActive ∧ current_context d actor = None
  ∨ ∃ x, names d actor r x ∧ (sx_status x ≠ CONTEXT_ACTIVE ∨
      (∀ id, r ≠ Leave id) ∧ ∃ now, seen now ∧ now < sx_expires_at x).

Section desk_step.
Context (cfg : Settings) (seen : datetime → Prop) (u : User) (d : Database).

Inductive desk_step : desk_request → Database → Prop :=
  | ds_grant b d' :
      desk_operator cfg u → approved_admin (users d !! ca_user_id b) = true →
      regrants d d' (ca_user_id b) (ca_capability b) (Some (ca_expires_at b)) →
      support_contexts d' = support_contexts d → desk_step (Grant b) d'
  | ds_revoke id reason a t d' :
      desk_operator cfg u → staff_capabilities d !! id = Some a → seen t →
      regrants d d' (sc_user_id a) (sc_capability a) None →
      support_contexts d' = closes CONTEXT_REVOKED t (sc_user_id a) <$> support_contexts d →
      desk_step (Revoke id reason) d'
  | ds_open b id now d' :
      desk_agent cfg seen d u → assists d (mc_organization_id b) → seen now →
      replaceable d (u_id u) b now → support_contexts d !! id = None →
      staff_capabilities d' = staff_capabilities d →
      support_contexts d'
        = <[ id := new_context id b (u_id u) (MARKET_SUPPORT_CONTEXT_TTL_MINUTES cfg) now ]> (settled d (u_id u) now) →
      desk_step (Open b) d'
  | ds_keep b x now :
      desk_agent cfg seen d u → assists d (mc_organization_id b) → seen now →
      current_context d (u_id u) = Some x → now < sx_expires_at x → sx_organization_id x = mc_organization_id b →
      desk_step (Open b) d
  | ds_expire r x now t d' :
      desk_agent cfg seen d u → names d (u_id u) r x → (∀ id, r ≠ Leave id) → sx_status x = CONTEXT_ACTIVE →
      seen now → sx_expires_at x <= now → seen t → staff_capabilities d' = staff_capabilities d →
      support_contexts d' = <[ sx_id x := end_context x CONTEXT_EXPIRED t ]> (support_contexts d) →
      desk_step r d'
  | ds_leave id x now t d' :
      desk_agent cfg seen d u → names d (u_id u) (Leave id) x → sx_status x = CONTEXT_ACTIVE →
      seen now → seen t → staff_capabilities d' = staff_capabilities d →
      support_contexts d' = <[ sx_id x := end_context x (leaving x now) t ]> (support_contexts d) →
      desk_step (Leave id) d'
  | ds_look r :
      desk_agent cfg seen d u → settled_already d seen (u_id u) r → desk_step r d.
End desk_step.

Definition sound_desk (d : Database) : Prop := market_ok d ∧ desk_ok d.
#[export] Instance sound_desk_dec d : Decision (sound_desk d).
Proof. unfold sound_desk. apply _. Defined.

(** What a request leaves: a step that is committed, or nothing. *)
Definition desk_outcome {A} (r : desk_request) (u : User) (w : World) (o : outcome World A) : Prop :=
  match o with
  | Ok _ w' =>
      synced w' ∧ sound_desk (db w') ∧ desk_frame (db w) (db w')
      ∧ desk_step (settings w) (observed w) u (db w) r (db w')
  | Raise _ w' => committed w' = db w
  end.

(** ** Running the routes *)

Lemma desk_commit_outcome {A} (k : M World A) (P : outcome World A → Prop) w :
  (∀ e, P (Raise e w)) → (database_checks (db w) → P (k (w <| committed := db w |>))) → P ((commit ;; k) w).
Proof.
  intros He Hk. destruct (decide (database_checks (db w))) as [Hc|Hc].
  - erewrite bind_run by (by apply commit_run). auto.
  - erewrite bind_raise; [apply He|]. unfold commit. erewrite bind_raise; [done|].
    unfold flush. by rewrite bool_decide_eq_false_2.
Qed.

(** A prefix that only reads: it raises, or the route goes on. *)
Lemma desk_reads {A B} (m : M World A) (k : A → M World B) r u w w1 :
  synced w → reads w w1 → Keeps reads m →
  (∀ a w2, m w1 = Ok a w2 → reads w w2 → desk_outcome r u w (k a w2)) →
  desk_outcome r u w ((m ≫= k) w1).
Proof.
  intros Hs H1 Hm Hk. apply (frame_bind reads); [done| |].
  - intros e w2 H2. cbn. by rewrite (proj1 (proj2 (transitivity H1 H2))).
  - intros a w2 Hrun H2. apply Hk; [done|by etrans].
Qed.

Section routes.
Context {A : Type} (u : User) (w : World) (Hsync : synced w).

Lemma operator_first r (k : M World A) :
  (∀ w1, reads w w1 → desk_operator (settings w) u → desk_outcome r u w (k w1)) →
  desk_outcome r u w ((require_market_support_admin u ;; (_require_bootstrap_operator u ;; k)) w).
Proof.
  intros Hk. apply desk_reads; [done..|keeps|]. intros [] w1 [-> Ha]%require_admin_ok _.
  apply desk_reads; [done..|keeps|]. intros [] w1 [-> Ho]%require_operator_ok _. by apply Hk.
Qed.

Lemma agent_first r (k : M World A) :
  (∀ w1, reads w w1 → desk_agent (settings w) (observed w) (db w) u → desk_outcome r u w (k w1)) →
  desk_outcome r u w ((require_market_support_admin u ;; (SupportDesk._require_context_capabilities (u_id u) ;; k)) w).
Proof.
  intros Hk. apply desk_reads; [done..|keeps|]. intros [] w1 [-> Ha]%require_admin_ok _.
  apply desk_reads; [done..|keeps|]. intros [] w1 [Hr Hc]%context_capabilities_ok _. by apply Hk.
Qed.
End routes.

(** ** Rows that are written *)

Definition context_row_ok (d : Database) (k : uuid) (x : MarketSupportContext) : Prop :=
  sx_id x = k ∧ (sx_status x = CONTEXT_ACTIVE ↔ sx_ended_at x = None)
  ∧ is_Some (organizations d !! sx_organization_id x) ∧ is_Some (users d !! sx_actor_user_id x).

Lemma sound_rows d : sound_desk d → map_Forall (context_row_ok d) (support_contexts d).
Proof.
  intros [Hm (_ & H1 & H2)] k x Hx. pose proof (context_rows d Hm k x Hx) as Hid. cbn in Hid.
  by repeat split; try apply (H1 k x Hx); try apply (H2 k x Hx).
Qed.
Lemma end_context_row_ok d k x how t :
  context_row_ok d k x → how ≠ CONTEXT_ACTIVE → context_row_ok d k (end_context x how t).
Proof. intros (? & _ & ? & ?) Hh. split; [done|]. split; [|by split]. cbn. by split. Qed.

Lemma sound_desk_after d d' :
  sound_desk d → desk_frame d d' → database_checks d' →
  map_Forall (λ k a, sc_id a = k) (staff_capabilities d') → map_Forall (context_row_ok d) (support_contexts d') →
  sound_desk d'.
Proof.
  intros [Hm _] Hf Hc Hs Hx. split.
  - apply (desk_frame_market d); [done..|]. intros k x Hk. by apply (Hx k x Hk).
  - split; [exact Hs|]. rewrite Hf. split; intros k x Hk; apply (Hx k x Hk).
Qed.

(** One grant changes: the row is new, or keeps its owner and capability. *)
Lemma regrants_put d d' a :
  sound_desk d → sound_desk d' → staff_capabilities d' = <[ sc_id a := a ]> (staff_capabilities d) →
  (∀ b, staff_capabilities d !! sc_id a = Some b → sc_user_id b = sc_user_id a ∧ sc_capability b = sc_capability a) →
  regrants d d' (sc_user_id a) (sc_capability a)
    (match sc_revoked_at a with None => Some (sc_expires_at a) | Some _ => None end).
Proof.
  intros [Hm Hd] [Hm' Hd'] Hput Hold.
  assert (capability_of d' (sc_user_id a) (sc_capability a) = Some a) as Ha.
  { apply capability_of_spec; [done..|]. by rewrite Hput, lookup_insert_eq. }
  split; [unfold standing; by rewrite Ha|]. intros user c Hne. unfold standing. f_equal.
  apply option_eq. intros r. rewrite !capability_of_spec by done. rewrite Hput.
  destruct (decide (sc_id r = sc_id a)) as [E|E]; [|by rewrite lookup_insert_ne].
  rewrite E, lookup_insert_eq. split; intros (Hr & <- & <-); destruct Hne.
  - by injection Hr as ->.
  - destruct (Hold r Hr). congruence.
Qed.

(** A run of the trailing reads. *)
Lemma context_response_run d w x :
  sound_desk d → db w = d → support_contexts d !! sx_id x = Some x → _context_response x w = Ok x w.
Proof.
  intros Hs <- Hx. apply sound_rows in Hs. destruct (Hs _ _ Hx) as (_ & _ & Ho & Ha).
  unfold _context_response. erewrite bind_run by reflexivity.
  rewrite !bool_decide_eq_false_2 by (by apply is_Some_None_iff || by apply not_eq_None_Some). done.
Qed.
Lemma refresh_context_run w x : support_contexts (db w) !! sx_id x = Some x → refresh_context (sx_id x) w = Ok x w.
Proof. intros Hx. unfold refresh_context. erewrite bind_run by reflexivity. by rewrite Hx. Qed.
Lemma refresh_capability_run w a :
  staff_capabilities (db w) !! sc_id a = Some a → refresh_capability (sc_id a) w = Ok a w.
Proof. intros Ha. unfold refresh_capability. erewrite bind_run by reflexivity. by rewrite Ha. Qed.

(** The commit of a route: the rows are sound, and the answer is read. *)
Lemma desk_commits {A} (k : M World A) r u w w1 :
  committed w1 = db w → sound_desk (db w) → desk_frame (db w) (db w1) →
  map_Forall (λ k a, sc_id a = k) (staff_capabilities (db w1)) →
  map_Forall (context_row_ok (db w)) (support_contexts (db w1)) →
  (sound_desk (db w1) → (∃ a, k (w1 <| committed := db w1 |>) = Ok a (w1 <| committed := db w1 |>))
                        ∧ desk_step (settings w) (observed w) u (db w) r (db w1)) →
  desk_outcome r u w ((commit ;; k) w1).
Proof.
  intros Hc Hok Hf Hs Hx Hk. apply desk_commit_outcome; [by intros|]. intros Hchecks.
  assert (sound_desk (db w1)) as Hok1 by (by apply (sound_desk_after (db w))).
  destruct (Hk Hok1) as [(a & ->) Hstep]. by split_and!.
Qed.

(** ** Each route is a step *)

Lemma granted_key d b by_user now :
  market_ok d → desk_ok d →
  let a := granted d b by_user now in
  sc_user_id a = ca_user_id b ∧ sc_capability a = ca_capability b ∧ sc_revoked_at a = None
  ∧ sc_expires_at a = ca_expires_at b
  ∧ (∀ r, staff_capabilities d !! sc_id a = Some r → sc_user_id r = sc_user_id a ∧ sc_capability r = sc_capability a).
Proof.
  intros Hm Hd. unfold granted. destruct (capability_of d _ _) as [r|] eqn:Hr; cbn.
  - apply capability_of_spec in Hr as (Hr & Hu & Hc); [|done..]. split_and!; [done..|]. intros r'. rewrite Hr.
    by intros [= <-].
  - split_and!; [done..|]. intros r. by rewrite fresh_id_none.
Qed.

Lemma grant_outcome b u w :
  synced w → sound_desk (db w) → desk_outcome (Grant b) u w (create_capability_assignment b u w).
Proof.
  intros Hs Hok. pose proof Hok as [Hm Hd]. unfold create_capability_assignment.
  apply operator_first; [done|]. intros w1 Hr1 Hop.
  apply (desk_reads (take_lock _)); [done..|keeps|]. intros [] w2 _ Hr2.
  apply (desk_reads get_db); [done..|keeps|]. intros d w3 [= <- <-] _.
  assert (db w2 = db w) as -> by apply Hr2.
  apply (desk_reads (refuse _ _)); [done..|keeps|]. intros [] w3 [Htarget%negb_false_iff ->]%refuse_ok _.
  apply (desk_reads (take_lock _)); [done..|keeps|]. intros [] w3 _ Hr3.
  apply (desk_reads utcnow); [done..|keeps|]. intros now w4 _ Hr4. cbv zeta.
  destruct (granted_key (db w) b (u_id u) now Hm Hd) as (Hu & Hc & Hrev & Hexp & Hold).
  set (a := granted _ _ _ _) in *. clearbody a.
  assert (db w4 = db w ∧ committed w4 = db w ∧ settings w4 = settings w ∧ clock w4 = clock w) as (E1 & E2 & E3 & E4).
  { destruct Hr4 as (-> & -> & -> & ->). by split_and!. }
  erewrite bind_run by reflexivity. rewrite E1. set (w5 := set_field _ w4).
  apply (frame_bind reads); [keeps|intros e w6 H6; cbn; by rewrite (proj1 (proj2 H6))|]. intros [] w6 _ H6.
  erewrite bind_run by reflexivity. set (w7 := set_field _ w6).
  assert (desk_frame (db w) (db w7) ∧ staff_capabilities (db w7) = <[ sc_id a := a ]> (staff_capabilities (db w))
          ∧ support_contexts (db w7) = support_contexts (db w) ∧ committed w7 = db w) as (Hf & Hput & Hctx & Hcom).
  { unfold w7. cbn. destruct H6 as (-> & -> & _). unfold w5, desk_frame. by split_and!. }
  clearbody w7. apply desk_commits; [done..| | |].
  - rewrite Hput. apply map_Forall_insert_2; [done|apply Hd].
  - rewrite Hctx. by apply sound_rows.
  - intros Hok7. split; [exists a; apply refresh_capability_run; cbn; by rewrite Hput, lookup_insert_eq|].
    apply ds_grant; [done..| |done]. rewrite <-Hu, <-Hc, <-Hexp.
    pose proof (regrants_put (db w) (db w7) a Hok Hok7 Hput Hold) as H. by rewrite Hrev in H.
Qed.

Lemma standing_same d d' user c : staff_capabilities d' = staff_capabilities d → standing d' user c = standing d user c.
Proof. intros E. unfold standing, capability_of. by rewrite E. Qed.
Lemma regrants_same d d' user c grant :
  staff_capabilities d' = staff_capabilities d → standing d user c = grant → regrants d d' user c grant.
Proof. intros E Hg. split; [by rewrite (standing_same d d')|]. intros. by apply standing_same. Qed.

(** The open context of an actor, closed, is all of its contexts, closed. *)
Definition closed_contexts (d : Database) (how : MarketSupportContextStatus) (t : datetime) (actor : uuid)
    : gmap uuid MarketSupportContext :=
  match current_context d actor with
  | Some x => <[ sx_id x := end_context x how t ]> (support_contexts d)
  | None => support_contexts d
  end.
Lemma closes_fmap d how t actor :
  market_ok d → closed_contexts d how t actor = closes how t actor <$> support_contexts d.
Proof.
  intros Hm. unfold closed_contexts. apply map_eq. intros k. rewrite lookup_fmap.
  assert (∀ y, support_contexts d !! k = Some y → is_active_of actor y → current_context d actor = Some y) as Hin.
  { intros y Hy Ha. apply current_context_spec; [done|]. split; [|done].
    pose proof (context_rows d Hm k y Hy) as E. cbn in E. by rewrite E. }
  destruct (current_context d actor) as [x|] eqn:Hx.
  - apply current_context_spec in Hx as [Hx Ha]; [|done]. destruct (decide (k = sx_id x)) as [->|Hk].
    + rewrite lookup_insert_eq, Hx. cbn. unfold closes. by rewrite bool_decide_eq_true_2.
    + rewrite lookup_insert_ne by done. destruct (support_contexts d !! k) as [y|] eqn:Hy; [|done]. cbn. unfold closes.
      case_bool_decide as Hay; [|done]. specialize (Hin y eq_refl Hay) as [= <-].
      pose proof (context_rows d Hm k x Hy) as E. by destruct Hk.
  - destruct (support_contexts d !! k) as [y|] eqn:Hy; [|done]. cbn. unfold closes.
    case_bool_decide as Hay; [|done]. by specialize (Hin y eq_refl Hay).
Qed.
Lemma closed_rows d how t actor :
  sound_desk d → how ≠ CONTEXT_ACTIVE → map_Forall (context_row_ok d) (closed_contexts d how t actor).
Proof.
  intros Hok Hh. unfold closed_contexts. destruct (current_context d actor) as [x|] eqn:Hx; [|by apply sound_rows].
  apply current_context_spec in Hx as [Hx _]; [|apply Hok]. apply map_Forall_insert_2; [|by apply sound_rows].
  apply end_context_row_ok; [|done]. by apply sound_rows in Hx.
Qed.

(** The writes of a revocation. *)
Lemma revoke_contexts_run d a reason u now w how (l := active_contexts d (sc_user_id a)) :
  market_ok d → support_contexts (db w) = support_contexts d → how = CONTEXT_REVOKED →
  ∃ logs, iterM (λ x,
        put_support_context (end_context x how now) ;;
        audit_context MARKET_SUPPORT_CONTEXT_REVOKED x (u_id u)
          [("status", JStr (MarketSupportContextStatus_value CONTEXT_REVOKED)); ("reason", JStr reason);
           ("capability_assignment_id", JUuid (sc_id a))]) (merge_sort context_id_le l) w
    = Ok tt (w <| db := (db w) <| support_contexts := closed_contexts d how now (sc_user_id a) |>
                              <| audit_logs := logs |> |>).
Proof.
  intros Hm Hc ->. unfold l, closed_contexts. rewrite (active_contexts_one d Hm).
  destruct (current_context d (sc_user_id a)) as [x|].
  - eexists. rewrite <-Hc. reflexivity.
  - exists (audit_logs (db w)). rewrite <-Hc. by destruct w as [[] ?].
Qed.

(** The revoked row, which may have been revoked before. *)
Lemma revoke_row_run a reason u w :
  staff_capabilities (db w) !! sc_id a = Some a →
  ∃ a' w', (if bool_decide (sc_revoked_at a = None)
            then now ← utcnow; put_capability (revoked a (u_id u) reason now) else mret tt) w = Ok tt w'
    ∧ db w' = (db w) <| staff_capabilities := <[ sc_id a := a' ]> (staff_capabilities (db w)) |>
    ∧ committed w' = committed w ∧ clock w' = clock w
    ∧ sc_id a' = sc_id a ∧ sc_user_id a' = sc_user_id a ∧ sc_capability a' = sc_capability a ∧ is_Some (sc_revoked_at a').
Proof.
  intros Ha. case_bool_decide as Hr.
  - eexists (revoked a _ _ _), _. split; [reflexivity|]. by split_and!.
  - exists a, w. rewrite insert_id by done. split_and!; try done; [by destruct (db w)|by apply not_eq_None_Some].
Qed.

(** What stands before the commit: one row revoked, the contexts of its holder
    closed. *)
Definition revoking (w : World) (a a' : StaffCapabilityAssignment) (now : datetime) (w' : World) : Prop :=
  desk_frame (db w) (db w') ∧ staff_capabilities (db w') = <[ sc_id a' := a' ]> (staff_capabilities (db w))
  ∧ support_contexts (db w') = closed_contexts (db w) CONTEXT_REVOKED now (sc_user_id a) ∧ committed w' = db w
  ∧ observed w now ∧ sc_id a' = sc_id a ∧ sc_user_id a' = sc_user_id a ∧ sc_capability a' = sc_capability a
  ∧ is_Some (sc_revoked_at a').

Lemma revoke_runs id reason u w a :
  synced w → sound_desk (db w) → desk_operator (settings w) u → staff_capabilities (db w) !! id = Some a →
  ∃ a' now w', revoke_capability_assignment id reason u w = (commit ;; refresh_capability id) w' ∧ revoking w a a' now w'.
Proof.
  intros Hs [Hm Hd] [(Hen & Hrole & Happ) Hop] Ha. unfold revoke_capability_assignment.
  assert (require_market_support_admin u w = Ok tt w) as Hadm.
  { unfold require_market_support_admin. erewrite bind_run by reflexivity. rewrite Hen.
    erewrite bind_run by reflexivity. by rewrite !bool_decide_eq_false_2 by auto. }
  assert (_require_bootstrap_operator u w = Ok tt w) as Hboot.
  { unfold _require_bootstrap_operator. erewrite bind_run by reflexivity. by rewrite bool_decide_eq_false_2 by auto. }
  erewrite bind_run by exact Hadm. erewrite bind_run by exact Hboot. erewrite bind_run by reflexivity. rewrite Ha.
  assert (sc_id a = id) as <- by (by apply (proj1 Hd) in Ha).
  erewrite bind_run by reflexivity. cbv zeta. set (w1 := set_field _ w).
  assert (∀ l w, reads w (final (iterM (λ x, take_lock (RowSupportContext (sx_id x))) l w))
                 ∧ ∃ w', iterM (λ x, take_lock (RowSupportContext (sx_id x))) l w = Ok tt w') as Hlocks.
  { intros l w0. split; [apply keeps_iterM; [apply _|intros x; keeps]|]. revert w0.
    induction l as [|x l IH]; intros w0; [by eexists|]. cbn [iterM]. erewrite bind_run by reflexivity. apply IH. }
  edestruct Hlocks as [Hr3 [w3 H3]]. erewrite bind_run by exact H3. rewrite H3 in Hr3. destruct Hr3 as (E1 & E2 & E3 & E4).
  cbn in E1, E2, E4. clear H3 Hlocks.
  destruct (revoke_row_run a reason u w3) as (a' & w4 & Hrow & F1 & F2 & F3 & Hid & Hu & Hc & Hrev);
    [by rewrite E1|]. erewrite bind_run by exact Hrow. erewrite bind_run by reflexivity.
  erewrite bind_run by reflexivity. set (now := clock _ _). set (w5 := set_field _ (set_field _ w4)).
  destruct (revoke_contexts_run (db w) a reason u now w5 CONTEXT_REVOKED Hm) as (logs & Hrun);
    [unfold w5; cbn; by rewrite F1, E1|done|]. erewrite bind_run by exact Hrun. set (w6 := set_field _ w5).
  exists a', now, w6. split; [done|]. unfold revoking, w6, w5. cbn. rewrite F1, F2, E1, E2, Hid.
  split_and!; try done. exists (clock_reads w4). unfold now. cbn. by rewrite F3, E4.
Qed.

Lemma revoking_step id reason u w a a' now w' :
  sound_desk (db w) → desk_operator (settings w) u → staff_capabilities (db w) !! id = Some a → revoking w a a' now w' →
  sound_desk (db w') → desk_step (settings w) (observed w) u (db w) (Revoke id reason) (db w').
Proof.
  intros Hok Hop Ha (Hf & Hput & Hctx & _ & Hnow & Hid & Hu & Hc & t & Hrev) Hok'. pose proof Hok as [Hm Hd].
  assert (sc_id a = id) as <- by (by apply (proj1 Hd) in Ha).
  apply (ds_revoke _ _ _ _ _ _ a now); [done..| |by rewrite Hctx, closes_fmap].
  rewrite <-Hu, <-Hc. pose proof (regrants_put (db w) (db w') a' Hok Hok' Hput) as H. rewrite Hrev in H. apply H.
  intros b. rewrite Hid, Ha. by intros [= <-].
Qed.

Lemma revoke_outcome id reason u w :
  synced w → sound_desk (db w) → desk_outcome (Revoke id reason) u w (revoke_capability_assignment id reason u w).
Proof.
  intros Hs Hok. destruct (staff_capabilities (db w) !! id) as [a|] eqn:Ha.
  2: { unfold revoke_capability_assignment. apply operator_first; [done|]. intros w1 Hr1 _.
       erewrite bind_run by reflexivity. rewrite (proj1 Hr1), Ha. cbn. by rewrite (proj1 (proj2 Hr1)). }
  destruct (decide (desk_operator (settings w) u)) as [Hop|Hop].
  2: { unfold revoke_capability_assignment. by apply operator_first. }
  destruct (revoke_runs id reason u w a Hs Hok Hop Ha) as (a' & now & w' & -> & Hrev).
  pose proof Hrev as (Hf & Hput & Hctx & Hcom & _ & Hid & _).
  assert (sc_id a = id) as <- by (by apply (proj1 (proj2 Hok)) in Ha).
  apply desk_commits; [done..| | |].
  - rewrite Hput. apply map_Forall_insert_2; [done|apply Hok].
  - rewrite Hctx. by apply closed_rows.
  - intros Hok'. split.
    + exists a'. rewrite <-Hid. apply refresh_capability_run. cbn. by rewrite Hput, lookup_insert_eq.
    + by eapply revoking_step.
Qed.

(** The open context is kept, closed, or in the way. *)
Lemma settle_contexts_outcome b now actor w :
  market_ok (db w) →
  match settle_contexts (active_contexts (db w) actor) b now actor w with
  | Raise _ w' => w' = w
  | Ok (Some x) w' =>
      w' = w ∧ current_context (db w) actor = Some x ∧ now < sx_expires_at x ∧ sx_organization_id x = mc_organization_id b
  | Ok None w' =>
      desk_frame (db w) (db w') ∧ staff_capabilities (db w') = staff_capabilities (db w)
      ∧ support_contexts (db w') = settled (db w) actor now ∧ replaceable (db w) actor b now
      ∧ committed w' = committed w ∧ settings w' = settings w
  end.
Proof.
  intros Hm. rewrite active_contexts_one by done. unfold settled, replaceable.
  destruct (current_context (db w) actor) as [x|]; [|by split_and!]. cbn. unfold leaving.
  destruct (Z.leb_spec (sx_expires_at x) now); [split_and!; try done; by left|].
  case_bool_decide as Ho; [done|]. destruct (mc_confirm_replacement b) eqn:Hb; [|done].
  split_and!; try done. by right.
Qed.

Lemma settled_rows d actor now : sound_desk d → map_Forall (context_row_ok d) (settled d actor now).
Proof.
  intros Hok. pose proof (closed_rows d CONTEXT_EXPIRED now actor Hok ltac:(done)) as H1.
  pose proof (closed_rows d CONTEXT_EXITED now actor Hok ltac:(done)) as H2. unfold closed_contexts, settled, leaving in *.
  destruct (current_context d actor) as [x|]; [|done]. by destruct (_ <=? _).
Qed.
Lemma settled_lookup d actor now k : market_ok d → settled d actor now !! k = None → support_contexts d !! k = None.
Proof.
  intros Hm. unfold settled. destruct (current_context d actor) as [x|]; [|done].
  rewrite lookup_insert_None. by intros [? _].
Qed.

Lemma open_outcome b u w :
  users (db w) !! u_id u = Some u → synced w → sound_desk (db w) → desk_outcome (Open b) u w (create_context b u w).
Proof.
  intros Hu Hs Hok. pose proof Hok as [Hm Hd]. unfold create_context.
  apply agent_first; [done|]. intros w1 Hr1 Hag.
  apply (desk_reads (_load_organization _)); [done..|keeps|].
  intros g w2 (-> & Hg & Hassist)%load_organization_ok _. rewrite (proj1 Hr1) in Hg, Hassist.
  erewrite bind_run by reflexivity. set (now := clock _ _). set (w2 := set_field _ w1).
  assert (reads w w2) as Hr2 by (by etrans).
  assert (observed w now) as Hnow by (exists (clock_reads w1); unfold now; by rewrite (proj2 (proj2 (proj2 Hr1)))).
  apply (desk_reads get_db); [done..|keeps|]. intros d w3 Hget Hr.
  assert (d = db w) as -> by (injection Hget as <- _; apply Hr1). cbv zeta. clear Hget Hr2 w2.
  apply (desk_reads (iterM _ _)); [done..|keeps|]. intros [] w2 _ Hr3. clear Hr w3. rename w2 into w3.
  assert (db w = db w3) as -> by (by rewrite (proj1 Hr3)).
  pose proof Hr3 as (E1 & E2 & E3 & E4).
  pose proof (settle_contexts_outcome b now (u_id u) w3 ltac:(by rewrite E1)) as Hset.
  unfold mbind at 1, M_bind at 1. destruct (settle_contexts _ _ _ _ w3) as [[x|] w4|e w4].
  - destruct Hset as (-> & Hx & Hexp & Horg). rewrite E1 in Hx.
    pose proof (proj1 (current_context_spec (db w) Hm _ _) Hx) as [Hrow _].
    rewrite (context_response_run (db w)) by done.
    refine (conj _ (conj _ (conj _ _))); rewrite ?E1; [by unfold synced; rewrite E1, E2|done..|].
    by eapply ds_keep.
  - destruct Hset as (Hf & Hst & Hctx & Hrep & F1 & F2). rewrite E1 in *. unfold open_context.
    do 3 (erewrite bind_run by reflexivity). cbv zeta. rewrite F2, E3, Hctx.
    set (id := fresh_id _). set (y := new_context _ _ _ _ _). set (w5 := set_field _ w4).
    apply (frame_bind reads); [keeps|intros e w6 H6; exact (eq_trans (proj1 (proj2 H6)) (eq_trans F1 (eq_trans E2 Hs)))|]. intros [] w6 _ H6.
    erewrite bind_run by reflexivity. set (w7 := set_field _ w6).
    assert (desk_frame (db w) (db w7) ∧ staff_capabilities (db w7) = staff_capabilities (db w)
            ∧ support_contexts (db w7) = <[ id := y ]> (settled (db w) (u_id u) now) ∧ committed w7 = db w)
      as (Hf7 & Hst7 & Hctx7 & Hcom).
    { unfold w7. cbn. destruct H6 as (-> & -> & _). unfold w5. cbn. rewrite F1, E2, Hst, ?Hctx. split_and!; [|done..].
      rewrite Hf. by unfold desk_frame. }
    assert (settled (db w) (u_id u) now !! id = None) as Hnew by apply fresh_id_none.
    clearbody w7 id. apply desk_commits; [done..| | |].
    + by rewrite Hst7; apply Hd.
    + rewrite Hctx7. apply map_Forall_insert_2; [|by apply settled_rows]. split_and!; [done|done|..]; cbn; [by eexists|].
      by eexists.
    + intros Hok7. assert (support_contexts (db w7) !! sx_id y = Some y) as Hy by (rewrite Hctx7; apply lookup_insert_eq).
      split; [|eapply ds_open; [done..|by eapply settled_lookup|done|by rewrite Hctx7]].
      exists y. erewrite bind_run by (by apply refresh_context_run). by apply (context_response_run (db w7)).
  - cbn. subst w4. by rewrite E2.
Qed.

(** A read closes a context that has run out. *)
Lemma expire_outcome {A} x (k : MarketSupportContext → M World A) r u w w1 :
  synced w → sound_desk (db w) → reads w w1 → desk_agent (settings w) (observed w) (db w) u →
  names (db w) (u_id u) r x → (∀ id, r ≠ Leave id) →
  support_contexts (db w) !! sx_id x = Some x → sx_status x = CONTEXT_ACTIVE →
  (∀ w2 now, reads w w2 → observed w now → now < sx_expires_at x → desk_outcome r u w (k x w2)) →
  (∀ t w2, sound_desk (db w2) → support_contexts (db w2) !! sx_id x = Some (end_context x CONTEXT_EXPIRED t) →
     ∃ a, k (end_context x CONTEXT_EXPIRED t) w2 = Ok a w2) →
  desk_outcome r u w ((expire_due x ≫= k) w1).
Proof.
  intros Hs Hok Hr1 Hag Hname Hleave Hx Hact Hkeep Hclose. pose proof Hr1 as (E1 & E2 & E3 & E4).
  unfold expire_due. rewrite bind_assoc. erewrite bind_run by reflexivity.
  set (now := clock w1 _). set (w2 := set_field _ w1).
  assert (observed w now) as Hnow by (exists (clock_reads w1); unfold now; by rewrite E4).
  assert (reads w w2) as Hr2 by (by etrans).
  destruct (Z.leb_spec (sx_expires_at x) now) as [Hexp|Hexp]; [|by apply (Hkeep w2 now)].
  rewrite bind_assoc. erewrite bind_run by reflexivity. set (t := clock w2 _). set (w3 := set_field _ w2).
  assert (observed w t) as Ht by (exists (clock_reads w2); unfold t; cbn; by rewrite E4).
  set (y := end_context x CONTEXT_EXPIRED t). rewrite bind_assoc. erewrite bind_run by reflexivity.
  set (w4 := set_field _ w3). rewrite bind_assoc.
  assert (desk_frame (db w) (db w4) ∧ staff_capabilities (db w4) = staff_capabilities (db w)
          ∧ support_contexts (db w4) = <[ sx_id x := y ]> (support_contexts (db w)) ∧ committed w4 = db w)
    as (Hf & Hst & Hctx & Hcom).
  { unfold w4. cbn. rewrite E1, E2. by split_and!. }
  clearbody w4. apply desk_commits; [done..| | |].
  - rewrite Hst. apply Hok.
  - rewrite Hctx. apply map_Forall_insert_2; [|by apply sound_rows].
    apply end_context_row_ok; [|done]. by apply sound_rows in Hx.
  - intros Hok4. split; [|by eapply (ds_expire _ _ _ _ r x now t)].
    apply (Hclose t (w4 <| committed := db w4 |>)); [done|]. cbn. by rewrite Hctx, lookup_insert_eq.
Qed.

(** Nothing was written: the answer is read. *)
Lemma look_outcome {A} (a : A) r u w w1 :
  synced w → sound_desk (db w) → reads w w1 → desk_agent (settings w) (observed w) (db w) u →
  settled_already (db w) (observed w) (u_id u) r → desk_outcome r u w (Ok a w1).
Proof.
  intros Hs Hok (E1 & E2 & _ & _) Hag Hset. cbn. rewrite E1. split_and!; [|done|done|by apply ds_look].
  unfold synced. by rewrite E1, E2.
Qed.

Lemma read_active_outcome u w :
  synced w → sound_desk (db w) → desk_outcome ReadActive u w (active_context u w).
Proof.
  intros Hs Hok. pose proof Hok as [Hm Hd]. unfold active_context. apply agent_first; [done|]. intros w1 Hr1 Hag.
  apply (desk_reads get_db); [done..|keeps|]. intros d w2 Hget Hr2.
  assert (d = db w) as -> by (injection Hget as <- _; apply Hr1).
  rewrite (active_contexts_one (db w) Hm). destruct (current_context (db w) (u_id u)) as [x|] eqn:Hx.
  2: { apply look_outcome; [done..|]. by left. }
  change (head (merge_sort started_later [x])) with (Some x). cbn match.
  pose proof (proj1 (current_context_spec (db w) Hm _ _) Hx) as (Hrow & Hown & Hact).
  apply expire_outcome; [done..| |].
  - intros w3 now Hr3 Hnow Hlt. rewrite bool_decide_eq_true_2 by done.
    erewrite bind_run by (apply (context_response_run (db w)); [done|apply Hr3|done]).
    apply look_outcome; [done..|]. right. exists x. split; [done|]. right. split; [done|]. by exists now.
  - intros t w3 _ _. by exists None.
Qed.

Lemma load_owned_ok actor id b w x w' :
  _load_owned_context actor id b w = Ok x w' →
  support_contexts (db w) !! id = Some x ∧ sx_actor_user_id x = actor.
Proof.
  unfold _load_owned_context. intros (? & w1 & H1 & H)%bind_ok.
  assert (db w1 = db w) as Hdb by (destruct b; by injection H1 as <- <-).
  erewrite bind_run in H by reflexivity. rewrite Hdb in H.
  destruct (support_contexts (db w) !! id) as [y|]; [|discriminate H].
  apply bind_ok in H as ([] & w2 & [Ha ->]%refuse_ok & [= <- <-]).
  by apply bool_decide_eq_false, dec_stable in Ha.
Qed.

Lemma read_outcome id u w :
  synced w → sound_desk (db w) → desk_outcome (Read id) u w (get_context id u w).
Proof.
  intros Hs Hok. pose proof Hok as [Hm Hd]. unfold get_context. apply agent_first; [done|]. intros w1 Hr1 Hag.
  apply (desk_reads (_load_owned_context _ _ _)); [done..|keeps|].
  intros x w2 [Hx Hown]%load_owned_ok Hr2. rewrite (proj1 Hr1) in Hx.
  assert (sx_id x = id) as <- by (by apply (context_rows (db w) Hm) in Hx).
  case_bool_decide as Hact.
  - apply expire_outcome; [done..| |].
    + intros w3 now Hr3 Hnow Hlt. rewrite (context_response_run (db w)); [|done|apply Hr3|done].
      apply look_outcome; [done..|]. right. exists x. split; [done|]. right. split; [done|]. by exists now.
    + intros t w3 Hok3 Hx3. exists (end_context x CONTEXT_EXPIRED t). by apply (context_response_run (db w3)).
  - erewrite bind_run by reflexivity. rewrite (context_response_run (db w)); [|done|apply Hr2|done].
    apply look_outcome; [done..|]. right. exists x. split; [done|]. by left.
Qed.

Lemma leave_outcome id u w :
  synced w → sound_desk (db w) → desk_outcome (Leave id) u w (exit_context id u w).
Proof.
  intros Hs Hok. pose proof Hok as [Hm Hd]. unfold exit_context. apply agent_first; [done|]. intros w1 Hr1 Hag.
  apply (desk_reads (_load_owned_context _ _ _)); [done..|keeps|].
  intros x w2 [Hx Hown]%load_owned_ok Hr2. rewrite (proj1 Hr1) in Hx.
  assert (sx_id x = id) as <- by (by apply (context_rows (db w) Hm) in Hx).
  case_bool_decide as Hact.
  2: { erewrite bind_run by reflexivity. rewrite (context_response_run (db w)); [|done|apply Hr2|done].
       apply look_outcome; [done..|]. right. exists x. split; [done|]. by left. }
  pose proof Hr2 as (E1 & E2 & E3 & E4).
  rewrite bind_assoc. erewrite bind_run by reflexivity. set (now := clock w2 _). set (w3 := set_field _ w2).
  rewrite bind_assoc. erewrite bind_run by reflexivity. set (t := clock w3 _). set (w4 := set_field _ w3). cbv zeta.
  change (if sx_expires_at x <=? now then CONTEXT_EXPIRED else CONTEXT_EXITED) with (leaving x now).
  set (y := end_context x (leaving x now) t).
  do 2 (rewrite bind_assoc; erewrite bind_run by reflexivity). set (w5 := set_field _ (set_field _ w4)). rewrite bind_assoc.
  assert (observed w now ∧ observed w t) as [Hnow Ht].
  { split; [exists (clock_reads w2)|exists (clock_reads w3)]; unfold now, t; cbn; by rewrite E4. }
  assert (desk_frame (db w) (db w5) ∧ staff_capabilities (db w5) = staff_capabilities (db w)
          ∧ support_contexts (db w5) = <[ sx_id x := y ]> (support_contexts (db w)) ∧ committed w5 = db w)
    as (Hf & Hst & Hctx & Hcom).
  { unfold w5. cbn. rewrite E1, E2. by split_and!. }
  clearbody w5. apply desk_commits; [done..| | |].
  - rewrite Hst. apply Hok.
  - rewrite Hctx. apply map_Forall_insert_2; [|by apply sound_rows].
    apply end_context_row_ok; [by apply sound_rows in Hx|]. unfold leaving. by destruct (_ <=? _).
  - intros Hok5. assert (support_contexts (db w5) !! sx_id y = Some y) as Hy by (rewrite Hctx; apply lookup_insert_eq).
    split; [|by eapply (ds_leave _ _ _ _ (sx_id x) x now t)].
    exists y. erewrite bind_run by (by apply refresh_context_run). by apply (context_response_run (db w5)).
Qed.

(** ** A revocation cannot fail *)

Lemma checks_revoked w a a' now w' :
  sound_desk (db w) → staff_capabilities (db w) !! sc_id a = Some a → revoking w a a' now w' → database_checks (db w').
Proof.
  intros [Hm Hd] Ha (Hf & Hput & Hctx & _ & _ & Hid & Hu & Hc & _).
  pose proof Hm as ((H1 & H2 & H3 & H4 & H5 & U & (S1 & S2 & S3 & S4 & S5) & N & Q) & _).
  rewrite (closes_fmap (db w)) in Hctx by done. rewrite Hf. unfold database_checks, side_checks, support_checks.
  cbn. rewrite Hput, Hctx. split_and!; try done.
  - intros k y Hy. apply lookup_fmap_Some in Hy as (x & <- & Hx). specialize (S1 k x Hx). unfold closes.
    case_bool_decide; [|done]. unfold support_context_check in *. cbn. lia.
  - apply unique_on_spec. intros i j y1 y2 Hy1 Hy2 He Hn.
    assert (∀ k y, (closes CONTEXT_REVOKED now (sc_user_id a) <$> support_contexts (db w)) !! k = Some y →
              active_support_actor y ≠ None → support_contexts (db w) !! k = Some y) as Hold.
    { intros k y (x & <- & Hx)%lookup_fmap_Some. unfold closes. by case_bool_decide. }
    apply (proj1 (unique_on_spec _ _) S3 i j y1 y2); [apply Hold|apply Hold|..]; congruence.
  - rewrite Hid. eapply unique_on_update; [done..|]. unfold capability_key. by rewrite Hu, Hc.
Qed.

Lemma revoke_returns id reason u w a :
  synced w → sound_desk (db w) → desk_operator (settings w) u → staff_capabilities (db w) !! id = Some a →
  ∃ a' w', revoke_capability_assignment id reason u w = Ok a' w'.
Proof.
  intros Hs Hok Hop Ha. destruct (revoke_runs id reason u w a Hs Hok Hop Ha) as (a' & now & w' & -> & Hrev).
  assert (sc_id a = id) as <- by (by apply (proj1 (proj2 Hok)) in Ha).
  erewrite bind_run by (apply commit_run; by eapply checks_revoked).
  destruct Hrev as (_ & Hput & _ & _ & _ & Hid & _). exists a'. eexists. rewrite <-Hid.
  apply refresh_capability_run. cbn. by rewrite Hput, lookup_insert_eq.
Qed.

(** ** Retired routes never run *)

Lemma legacy_mutations_retired {A} (body : User → M World A) u w :
  ∃ e, legacy_mutation body u w = Raise e w ∧ (e = not_found ∨ e = forbidden ∨ ∃ c m, e = HTTPException 410 (Coded c m)).
Proof.
  unfold legacy_mutation, require_market_support_admin, _reject_legacy_workspace_mutation.
  destruct (MARKET_SUPPORT_ENABLED (settings w)) eqn:Hen.
  - destruct (bool_decide (u_role u ≠ Some ADMIN) || bool_decide (u_status u ≠ APPROVED)) eqn:Ha.
    + exists forbidden. split; [|by right; left]. unfold mbind, M_bind, gets, refuse. by rewrite Hen.
    + eexists. split; [|right; right; by eexists _, _]. unfold mbind, M_bind, gets, refuse, mret, M_ret.
      rewrite Hen. cbn. by rewrite Hen.
  - exists not_found. split; [|by left]. unfold mbind, M_bind, gets, refuse. by rewrite Hen.
Qed.

(** ** The desk implements its specification *)

Definition run_desk (r : desk_request) (u : User) : M World unit :=
  match r with
  | Grant b => create_capability_assignment b u ;; mret tt
  | Revoke id reason => revoke_capability_assignment id reason u ;; mret tt
  | Open b => create_context b u ;; mret tt
  | ReadActive => active_context u ;; mret tt
  | Read id => get_context id u ;; mret tt
  | Leave id => exit_context id u ;; mret tt
  end.

Lemma desk_outcome_forget {A} (m : M World A) r u w :
  desk_outcome r u w (m w) → desk_outcome r u w ((m ;; mret tt) w).
Proof. unfold mbind, M_bind. by destruct (m w). Qed.

Lemma run_desk_outcome r u w :
  synced w → sound_desk (db w) → users (db w) !! u_id u = Some u → desk_outcome r u w (run_desk r u w).
Proof.
  intros Hs Hok Hu. destruct r; apply desk_outcome_forget.
  - by apply grant_outcome.
  - by apply revoke_outcome.
  - by apply open_outcome.
  - by apply read_active_outcome.
  - by apply read_outcome.
  - by apply leave_outcome.
Qed.

(** C19: The Market Support desk keeps its books.  A request of an authenticated
    user either changes nothing, or is one step of the abstract desk, committed:
    a bootstrap operator sets or withdraws exactly one grant - an approved
    administrator's - and withdrawing one closes the holder's open context in the
    same transaction; an approved administrator whose two grants are in force
    opens a context for a real, approved organization with the configured
    lifetime, keeps the one it has for it, leaves one for another organization
    only after confirming, and reads and leaves none but its own; a context that
    has run out is closed as expired by whoever finds it.  Capabilities, contexts
    and the audit log are all that changes, every row still satisfies the
    database's constraints, and an administrator still has at most one open
    context. *)
Theorem support_desk_implements_grants r u w :
  synced w → sound_desk (db w) → users (db w) !! u_id u = Some u → desk_outcome r u w (run_desk r u w).
Proof. apply run_desk_outcome. Qed.

Lemma desk_sound : sound_desk (db desk).
Proof. apply (bool_decide_unpack _). vm_compute. exact I. Qed.

Lemma support_desk_implements_grants_witness :
  ∃ w', run_desk (Open (for_shipping true)) Demo.admin desk = Ok tt w'
    ∧ desk_step (settings desk) (observed desk) Demo.admin (db desk) (Open (for_shipping true)) (db w').
Proof.
  pose proof (support_desk_implements_grants (Open (for_shipping true)) Demo.admin desk eq_refl desk_sound eq_refl) as H.
  assert (match run_desk (Open (for_shipping true)) Demo.admin desk with Ok _ _ => true | Raise _ _ => false end = true)
    as Hrun by (vm_compute; reflexivity).
  destruct (run_desk _ _ _) as [[] w'|]; [|discriminate Hrun]. exists w'. split; [reflexivity|apply H].
Defined.
