(* ===== verification/SupportAccess.v ===== *)
(** * What a revocation ends

    The Market Support desk among everybody else's requests: any sequence of
    grants, revocations, contexts that are opened, read and left, requests that
    carry a context, and changes elsewhere in the market.  Contexts that have
    ended stay ended; and once a capability is revoked, its holder acts for no
    customer until it is granted again. *)

From S2P Require Import Prelude Catalog Calendar AvailabilityWindows Schema Constraints Database Scenario Policy Events Inventory Ledger Admission RequestParty SupportDesk SupportDeskSafety.
Local Open Scope Z_scope.

(** ** One visit after the other *)

(** Each request runs in a session of its own over the committed tables, at
    whatever times its clock shows; requests of the rest of the system leave
    capabilities and contexts alone. *)
Inductive desk_visit (cfg : Settings) (allowed : desk_request → Prop) (d d' : Database) : Prop :=
  | dv_request r u w :
      allowed r → users d !! u_id u = Some u → db w = d → synced w → settings w = cfg →
      d' = committed (final (run_desk r u w)) → desk_visit cfg allowed d d'
  | dv_resolve raw u w :
      db w = d → synced w → settings w = cfg →
      d' = committed (final (resolve_request_party raw u w)) → desk_visit cfg allowed d d'
  | dv_lock p w :
      db w = d → synced w → settings w = cfg →
      d' = committed (final (lock_request_party_context p w)) → desk_visit cfg allowed d d'
  | dv_elsewhere :
      sound_desk d' → staff_capabilities d' = staff_capabilities d →
      support_contexts d' = support_contexts d → desk_visit cfg allowed d d'.

(** ** What a visit does to the contexts *)

Lemma contexts_expire_moves seen d d' : contexts_expire seen d d' → contexts_move d d'.
Proof.
  intros [_ H] id x Hx. specialize (H id). rewrite Hx in H. inversion H as [? x' Hxx' E1 E2|]; subst.
  exists x'. split; [done|]. destruct Hxx' as [->|(Ha & now & t & _ & _ & _ & ->)]; [by left|].
  right. split; [done|]. by exists CONTEXT_EXPIRED, t.
Qed.

Lemma contexts_expire_sound seen d d' : contexts_expire seen d d' → market_ok d' → sound_desk d → sound_desk d'.
Proof.
  intros [Hd H] Hm Hok. split; [exact Hm|].
  assert (map_Forall (context_row_ok d) (support_contexts d')) as Hx.
  { intros k y Hy. specialize (H k). rewrite Hy in H. inversion H as [x ? Hxy E1 E2|]; subst.
    symmetry in E1. pose proof (sound_rows d Hok k x E1) as Hrow.
    destruct Hxy as [->|(_ & now & t & _ & _ & _ & ->)]; [done|]. by apply (end_context_row_ok d k x CONTEXT_EXPIRED t). }
  split; [rewrite Hd; apply Hok|]. rewrite Hd. split; intros k y Hy; apply (Hx k y Hy).
Qed.

Lemma resolve_quiet raw u w : Keeps_at quiet (resolve_request_party raw u) w.
Proof.
  intros Hs Hok. pose proof (resolve_party_outcome raw u w Hs Hok) as H.
  destruct (resolve_request_party raw u w) as [p w'|e w']; [|by apply H]. exact (reads_quiet _ _ (proj1 H) Hs Hok).
Qed.
Lemma lock_quiet p w : Keeps_at quiet (lock_request_party_context p) w.
Proof.
  intros Hs Hok. pose proof (lock_party_outcome p w Hs Hok) as H.
  destruct (lock_request_party_context p w) as [u w'|e w']; [|by apply H]. exact (reads_quiet _ _ (proj1 H) Hs Hok).
Qed.

(** A visit is a step of the desk, the expiry of contexts, or leaves both tables. *)
Inductive desk_move (cfg : Settings) (allowed : desk_request → Prop) (d d' : Database) : Prop :=
  | dm_step r u seen :
      allowed r → desk_step cfg seen u d r d' → desk_move cfg allowed d d'
  | dm_expire seen : contexts_expire seen d d' → desk_move cfg allowed d d'
  | dm_same :
      staff_capabilities d' = staff_capabilities d → support_contexts d' = support_contexts d →
      desk_move cfg allowed d d'.

Lemma visit_moves cfg allowed d d' :
  sound_desk d → desk_visit cfg allowed d d' → sound_desk d' ∧ desk_move cfg allowed d d'.
Proof.
  intros Hok [r u w Hr Hu <- Hs <- ->|raw u w <- Hs <- ->|p w <- Hs <- ->|Hok' Hst Hctx].
  - pose proof (run_desk_outcome r u w Hs Hok Hu) as H. destruct (run_desk r u w) as [[] w'|e w']; cbn in *.
    + destruct H as (Hs' & Hok' & _ & Hstep). unfold synced in Hs'. rewrite Hs'. split; [done|]. by eapply dm_step.
    + rewrite H. split; [done|]. by apply dm_same.
  - destruct (resolve_quiet raw u w Hs (proj1 Hok)) as (Hs' & Hm & He & _). rewrite Hs'.
    split; [by eapply contexts_expire_sound|by eapply dm_expire].
  - destruct (lock_quiet p w Hs (proj1 Hok)) as (Hs' & Hm & He & _). rewrite Hs'.
    split; [by eapply contexts_expire_sound|by eapply dm_expire].
  - split; [done|by apply dm_same].
Qed.

Lemma names_row d actor r x :
  sound_desk d → names d actor r x → support_contexts d !! sx_id x = Some x.
Proof.
  intros [Hm _]. destruct r; cbn; [done..| | |].
  - intros Hx. by apply current_context_spec in Hx as [? _].
  - intros [Hx _]. pose proof (context_rows d Hm _ _ Hx) as E. cbn in E. by subst.
  - intros [Hx _]. pose proof (context_rows d Hm _ _ Hx) as E. cbn in E. by subst.
Qed.

Lemma leaving_ended x now : leaving x now ≠ CONTEXT_ACTIVE.
Proof. unfold leaving. by destruct (_ <=? _). Qed.

Lemma settled_moves d actor now id y :
  market_ok d → support_contexts d !! id = None →
  ∀ d', support_contexts d' = <[ id := y ]> (settled d actor now) → contexts_move d d'.
Proof.
  intros Hm Hnew d' E. unfold settled in E. destruct (current_context d actor) as [x|] eqn:Hx.
  2: { by eapply contexts_move_new. }
  apply current_context_spec in Hx as [Hrow Ha]; [|done].
  pose (d1 := d <| support_contexts := <[ sx_id x := end_context x (leaving x now) now ]> (support_contexts d) |>).
  trans d1.
  - eapply (contexts_move_end d d1); [done|apply Ha|apply leaving_ended|done].
  - eapply (contexts_move_new d1 d'); [|exact E]. cbn. rewrite lookup_insert_ne; congruence.
Qed.

Lemma step_moves cfg seen u d r d' :
  sound_desk d → desk_step cfg seen u d r d' → contexts_move d d'.
Proof.
  intros Hok H. pose proof (names_row d (u_id u)) as Hname.
  destruct H as [b d' _ _ _ E|id reason a t d' _ _ _ _ E|b id now d' _ _ _ _ Hn _ E|b x now _ _ _ _ _ _
    |r x now t d' _ Hx _ Ha _ _ _ _ E|id x now t d' _ Hx Ha _ _ _ E|r _ _].
  - by apply contexts_move_same.
  - eapply contexts_move_fmap; [|exact E]. intros x. unfold closes. case_bool_decide as Ha; [|by left].
    right. split; [apply Ha|]. by exists CONTEXT_REVOKED, t.
  - by eapply settled_moves; [apply Hok|..].
  - done.
  - by apply (contexts_move_end d d' (sx_id x) x CONTEXT_EXPIRED t); [eapply Hname|..].
  - by apply (contexts_move_end d d' (sx_id x) x (leaving x now) t); [eapply Hname| |apply leaving_ended|].
  - done.
Qed.

Lemma move_moves cfg allowed d d' : sound_desk d → desk_move cfg allowed d d' → contexts_move d d'.
Proof.
  intros Hok [r u seen _ Hstep|seen He|_ E]; [by eapply step_moves|by eapply contexts_expire_moves|].
  by apply contexts_move_same.
Qed.

(** C21: Contexts are opened and closed, never revived.  Through any sequence of
    visits to the desk - grants, revocations, contexts opened, read and left,
    requests that carry a context, in any order and at any times - and changes
    elsewhere, the tables stay sound: one assignment per administrator and
    capability, at most one open context per administrator, an end stamp exactly
    on the closed ones, identities that exist.  No context is ever dropped,
    moved to another administrator, organization or lifetime, or opened again:
    it is as it was, or was open and has been closed once, its version one
    higher. *)
Theorem desk_never_revives_contexts cfg d d' :
  sound_desk d → rtc (desk_visit cfg (λ _, True)) d d' → sound_desk d' ∧ contexts_move d d'.
Proof.
  intros Hok Hvisits. revert Hok. induction Hvisits as [d|d e d' Hv _ IH]; intros Hok; [done|].
  destruct (visit_moves _ _ _ _ Hok Hv) as [Hok' Hmove]. destruct (IH Hok') as [Hok'' Hm]. split; [done|].
  etrans; [by eapply move_moves|exact Hm].
Qed.

(** ** Nobody acts without a grant *)

(** [user] has no grant of [c] in force and no open context. *)
Definition barred (d : Database) (user : uuid) (c : MarketSupportCapability) : Prop :=
  standing d user c = None ∧ current_context d user = None.

(** The request grants [c] to [user]. *)
Definition grants (user : uuid) (c : MarketSupportCapability) (r : desk_request) : Prop :=
  match r with Grant b => ca_user_id b = user ∧ ca_capability b = c | _ => False end.

Lemma no_current_context d actor :
  market_ok d → (∀ k x, support_contexts d !! k = Some x → ¬ is_active_of actor x) → current_context d actor = None.
Proof.
  intros Hm H. destruct (current_context d actor) as [x|] eqn:Hx; [|done].
  apply current_context_spec in Hx as [Hrow Ha]; [|done]. by apply H in Hrow.
Qed.
Lemma no_active_row d actor k x :
  market_ok d → current_context d actor = None → support_contexts d !! k = Some x → ¬ is_active_of actor x.
Proof.
  intros Hm Hn Hx Ha. assert (current_context d actor = Some x) as E; [|congruence].
  apply current_context_spec; [done|]. split; [|done]. pose proof (context_rows d Hm k x Hx) as Hid. cbn in Hid. by rewrite Hid.
Qed.

Section barred.
Context (d : Database) (Hok : sound_desk d) (user : uuid) (c : MarketSupportCapability) (Hbar : barred d user c).

(** Only rows that were active before, or another administrator's, are active. *)
Lemma barred_contexts d' :
  sound_desk d' →
  (∀ k y, support_contexts d' !! k = Some y → is_active_of user y → support_contexts d !! k = Some y) →
  current_context d' user = None.
Proof using Hok Hbar.
  intros [Hm' _] H. apply no_current_context; [done|]. intros k y Hy Ha.
  by apply (no_active_row d user k y); [apply Hok|apply Hbar|apply H|].
Qed.

Lemma ended_not_active x how t : how ≠ CONTEXT_ACTIVE → ¬ is_active_of user (end_context x how t).
Proof using. intros Hh [_ H]. by destruct Hh. Qed.

Lemma barred_insert_end d' id x how t :
  sound_desk d' → how ≠ CONTEXT_ACTIVE →
  support_contexts d' = <[ id := end_context x how t ]> (support_contexts d) → current_context d' user = None.
Proof using Hok Hbar.
  intros Hok' Hh E. apply barred_contexts; [done|]. intros k y Hy Ha. rewrite E in Hy.
  apply lookup_insert_Some in Hy as [[_ <-]|[_ Hy]]; [|done]. by apply ended_not_active in Ha.
Qed.

Lemma barred_step cfg seen u r d' :
  sound_desk d' → ¬ grants user c r → desk_step cfg seen u d r d' → barred d' user c.
Proof using Hok Hbar.
  intros Hok' Hno H. destruct Hbar as [Hnone Hcur].
  destruct H as [b d' _ _ [_ Hother] E|id reason a t d' _ _ _ [Hthis Hother] E|b id now d' [_ Hag] _ _ _ _ Es E
    |b x now _ _ _ _ _ _|r x now t d' _ _ _ _ _ _ _ Es E|id x now t d' _ _ _ _ _ Es E|r _ _].
  - split; [|unfold current_context, active_contexts; by rewrite E]. rewrite Hother; [done|].
    intros [= -> ->]. by destruct Hno.
  - split.
    + destruct (decide ((user, c) = (sc_user_id a, sc_capability a))) as [[= -> ->]|Hne]; [done|]. by rewrite Hother.
    + apply barred_contexts; [done|]. intros k y Hy Ha. rewrite E in Hy.
      apply lookup_fmap_Some in Hy as (x & <- & Hx). unfold closes in *. case_bool_decide; [|done].
      by apply ended_not_active in Ha.
  - split; [by rewrite (standing_same d)|]. apply barred_contexts; [done|]. intros k y Hy Ha. rewrite E in Hy.
    apply lookup_insert_Some in Hy as [[_ <-]|[_ Hy]].
    + destruct Ha as [Hu _]. cbn in Hu. subst. destruct (Hag c) as (t & _ & Hl). by rewrite Hnone in Hl.
    + unfold settled in Hy. destruct (current_context d (u_id u)) as [x|]; [|done].
      apply lookup_insert_Some in Hy as [[_ <-]|[_ Hy]]; [|done].
      apply ended_not_active in Ha; [done|apply leaving_ended].
  - done.
  - split; [by rewrite (standing_same d)|]. by eapply (barred_insert_end d' _ _ CONTEXT_EXPIRED).
  - split; [by rewrite (standing_same d)|]. by eapply barred_insert_end; [|apply leaving_ended|].
  - done.
Qed.

Lemma barred_expire seen d' : sound_desk d' → contexts_expire seen d d' → barred d' user c.
Proof using Hok Hbar.
  intros Hok' [Hd H]. split; [rewrite Hd; apply Hbar|]. apply barred_contexts; [done|].
  intros k y Hy Ha. specialize (H k). rewrite Hy in H. inversion H as [x ? Hxy E1 E2|]; subst.
  destruct Hxy as [->|(_ & now & t & _ & _ & _ & ->)]; [done|]. by apply (ended_not_active x CONTEXT_EXPIRED t) in Ha.
Qed.

Lemma barred_move cfg allowed d' :
  (∀ r, allowed r → ¬ grants user c r) → sound_desk d' → desk_move cfg allowed d d' → barred d' user c.
Proof using Hok Hbar.
  intros Hno Hok' [r u seen Hr Hstep|seen He|Es Ec].
  - eapply barred_step; [done|by apply Hno|done].
  - by eapply barred_expire.
  - split; [rewrite (standing_same d) by done; apply Hbar|].
    unfold current_context, active_contexts. rewrite Ec. apply Hbar.
Qed.
End barred.

Lemma barred_visits cfg allowed user c d d' :
  (∀ r, allowed r → ¬ grants user c r) → sound_desk d → barred d user c →
  rtc (desk_visit cfg allowed) d d' → sound_desk d' ∧ barred d' user c.
Proof.
  intros Hno Hok Hbar Hv. revert Hok Hbar. induction Hv as [d|d e d' Hv _ IH]; intros Hok Hbar; [done|].
  destruct (visit_moves _ _ _ _ Hok Hv) as [Hok' Hmove]. apply IH; [done|].
  exact (barred_move d Hok user c Hbar cfg allowed e Hno Hok' Hmove).
Qed.

Lemma not_capable w user c : standing (db w) user c = None → ¬ capable w user c.
Proof. intros H (t & _ & Ha%capability_active_live). by rewrite H in Ha. Qed.

(** A request of [user]: it can act only for itself, and one that has already
    been resolved is refused when its context is locked. *)
Definition only_for_itself (d : Database) (user : uuid) : Prop :=
  ∀ w, db w = d → synced w →
    (∀ raw u p w', u_id u = user → resolve_request_party raw u w = Ok p w' → rp_mode p = SELF_SERVICE_MODE)
    ∧ (∀ p id, u_id (rp_actor p) = user → rp_mode p = MARKET_SUPPORT_MODE → rp_support_context_id p = Some id →
         ∃ e w', lock_request_party_context p w = Raise e w').

Lemma barred_only_for_itself d user c : sound_desk d → barred d user c → only_for_itself d user.
Proof.
  intros [Hm _] [Hn _] w <- Hs. split.
  - intros raw u p w' <- Hrun. pose proof (resolve_party_outcome raw u w Hs Hm) as H. rewrite Hrun in H.
    destruct H as (_ & _ & _ & H). destruct (rp_mode p); [done|]. destruct H as (x & g & Hauth & _).
    by destruct (not_capable w (u_id u) c Hn (au_capable _ _ _ Hauth c)).
  - intros p id <- Hmode Hid. pose proof (lock_party_outcome p w Hs Hm) as H.
    destruct (lock_request_party_context p w) as [[] w'|e w']; [|by eexists _, _].
    destruct H as [_ H]. destruct (H Hmode id Hid) as [Hcap _]. by destruct (not_capable w _ c Hn (Hcap c)).
Qed.

(** C20: A revocation ends the assistance it allowed.  When a bootstrap operator
    revokes an assignment the request always succeeds, and from then on, through
    any sequence of visits and changes elsewhere, until that capability is granted
    to its holder again: the holder has no open context, no request of the holder
    is resolved to act for a customer, whatever context it names, and a request
    that had been resolved before the revocation is refused when it locks its
    context. *)
Theorem revocation_ends_assistance id reason u w a :
  synced w → sound_desk (db w) → users (db w) !! u_id u = Some u → desk_operator (settings w) u →
  staff_capabilities (db w) !! id = Some a →
  ∃ a' w', revoke_capability_assignment id reason u w = Ok a' w' ∧ synced w' ∧
    ∀ d', rtc (desk_visit (settings w) (λ r, ¬ grants (sc_user_id a) (sc_capability a) r)) (db w') d' →
      current_context d' (sc_user_id a) = None ∧ only_for_itself d' (sc_user_id a).
Proof.
  intros Hs Hok Hu Hop Ha. destruct (revoke_returns id reason u w a Hs Hok Hop Ha) as (a' & w' & Hrun).
  exists a', w'. split; [done|]. pose proof (revoke_outcome id reason u w Hs Hok) as H. rewrite Hrun in H.
  destruct H as (Hs' & Hok' & _ & Hstep). split; [done|]. intros d' Hv.
  assert (barred (db w') (sc_user_id a) (sc_capability a)) as Hbar.
  { inversion Hstep as [|? ? b t ? _ Hb _ [Hthis _] E| | |? x ? ? ? _ Hx| |? _ Hset]; subst; [|done|].
    - rewrite Ha in Hb. injection Hb as <-. split; [done|]. apply no_current_context; [apply Hok'|].
      intros k y Hy Hact. rewrite E in Hy. apply lookup_fmap_Some in Hy as (x & <- & _). unfold closes in Hact.
      case_bool_decide; [by apply ended_not_active in Hact|done].
    - destruct Hset as [[? _]|(x & Hx & _)]; done. }
  destruct (barred_visits (settings w) _ _ _ _ _ (λ r Hr, Hr) Hok' Hbar Hv) as [Hok'' Hbar''].
  split; [apply Hbar''|by eapply barred_only_for_itself].
Qed.

(** ** On the demo market

    The administrator swaps the refinery for the shipping line, the operator
    revokes one of its grants, and later grants it again. *)

Example replacing_needs_confirmation :
  contexts_after (create_context (for_shipping false) Demo.admin desk) = [(5%N, 2%N, CONTEXT_ACTIVE, 1)]
  ∧ contexts_after (create_context (for_shipping true) Demo.admin desk)
    = [(6%N, 1%N, CONTEXT_ACTIVE, 1); (5%N, 2%N, CONTEXT_EXITED, 2)].
Proof. split; vm_compute; reflexivity. Qed.
Example revoking_closes_contexts :
  contexts_after (revoke_capability_assignment 1 "left the desk" operator desk) = [(5%N, 2%N, CONTEXT_REVOKED, 2)].
Proof. vm_compute. reflexivity. Qed.
Example leaving_twice :
  contexts_after ((exit_context 5 Demo.admin ;; exit_context 5 Demo.admin) desk) = [(5%N, 2%N, CONTEXT_EXITED, 2)].
Proof. vm_compute. reflexivity. Qed.

Definition desk_at (d : Database) : World := desk <| db := d |> <| committed := d |>.
Definition visited (d : Database) (r : desk_request) (u : User) : Database :=
  committed (final (run_desk r u (desk_at d))).
Definition regrant : desk_request :=
  Grant (MkCapabilityAssignmentCreate 19 MARKET_SUPPORT_LISTINGS "back at the desk" None).
Definition swapped : Database := visited (db desk) (Open (for_shipping true)) Demo.admin.
Definition dismissed : Database := visited swapped (Revoke 1 "left the desk") operator.
Definition reinstated : Database := visited dismissed regrant operator.

Definition statuses (d : Database) : list MarketSupportContextStatus :=
  sx_status <$> (snd <$> map_to_list (support_contexts d)).
Example reinstated_desk :
  statuses reinstated = [CONTEXT_REVOKED; CONTEXT_EXITED]
  ∧ standing dismissed 19 MARKET_SUPPORT_LISTINGS = None ∧ standing reinstated 19 MARKET_SUPPORT_LISTINGS = Some None.
Proof. vm_compute. done. Qed.

Lemma desk_visited allowed d r u :
  allowed r → users d !! u_id u = Some u → desk_visit (settings desk) allowed d (visited d r u).
Proof. intros Hr Hu. exact (dv_request _ _ _ _ r u (desk_at d) Hr Hu eq_refl eq_refl eq_refl eq_refl). Qed.
Lemma users_present : users (db desk) !! 19%N = Some Demo.admin ∧ users swapped !! 18%N = Some operator
  ∧ users dismissed !! 18%N = Some operator.
Proof. vm_compute. done. Qed.

Lemma desk_never_revives_contexts_witness : sound_desk reinstated ∧ contexts_move (db desk) reinstated.
Proof.
  apply (desk_never_revives_contexts (settings desk) (db desk) reinstated desk_sound).
  destruct users_present as (H1 & H2 & H3). apply (rtc_l _ _ swapped); [|apply (rtc_l _ _ dismissed)].
  - exact (desk_visited (λ _, True) (db desk) (Open (for_shipping true)) Demo.admin I H1).
  - exact (desk_visited (λ _, True) swapped (Revoke 1 "left the desk") operator I H2).
  - apply rtc_once. exact (desk_visited (λ _, True) dismissed regrant operator I H3).
Defined.

Lemma operator_works : desk_operator (settings desk) operator.
Proof. apply (bool_decide_unpack _). vm_compute. exact I. Qed.

Lemma revocation_ends_assistance_witness :
  ∃ a' w', revoke_capability_assignment 1 "left the desk" operator desk = Ok a' w'
    ∧ current_context (db w') 19 = None ∧ only_for_itself (db w') 19.
Proof.
  destruct (staff_capabilities (db desk) !! 1%N) as [a|] eqn:Ha; [|discriminate Ha].
  destruct (revocation_ends_assistance 1 "left the desk" operator desk a eq_refl desk_sound eq_refl operator_works Ha)
    as (a' & w' & Hrun & _ & H).
  exists a', w'. split; [exact Hrun|]. assert (sc_user_id a = 19%N) as E by (by injection Ha as <-).
  rewrite <-E. apply H. apply rtc_refl.
Defined.
