(* ===== verification/Trades.v ===== *)
(** * The trade routes

    [app/routers/trades.py]: hitting an order, and the counterparty's
    confirmation, refusal, delivery and payment, with the admission gate of
    [app/middleware/execution.py].  Each route is one transaction: slice lock,
    row locks, guards, effects, events, stored response, commit.  The retry of a
    serialization failure ([market_transactions.py]), analytics and the audit's
    request context are not modelled.  [current_user] is the authenticated
    user's row. *)

From S2P Require Import Prelude Sha256 Catalog Calendar AvailabilityWindows Decimal Json Schema OrderTerms Constraints Delivery Database Scenario Policy Eligibility Events Commands TradeViews Watchlist Benchmarks Inventory Ledger Admission.
Local Open Scope Z_scope.

(** ** Shared steps *)

(** What a route answers: a response it built, or a stored one. *)
Inductive reply :=
  | Fresh (r : TradeResponse)
  | Replayed (response_status : Z) (response_body : json).

(** [except IntegrityError] *)
Definition catch_integrity {A} (m : M World A) (handler : exn → M World A) : M World A := λ w,
  match m w with
  | Raise (IntegrityError c) w' => handler (IntegrityError c) w'
  | outcome => outcome
  end.

(** [require_execution_eligible_user] *)
Definition require_execution_eligible_user (current_user : User) : M World unit :=
  refuse (bool_decide (u_role current_user = Some ADMIN))
    (HTTPException 403 (Msg "Administrators cannot execute market actions")) ;;
  d ← get_db;
  let organization := org ← u_organization_id current_user; organizations d !! org in
  refuse (negb (execution_party_is_eligible d (Some current_user) organization))
    (HTTPException 403 (Msg "Execution access is not available")).

Definition is_admin (u : User) : bool := bool_decide (u_role u = Some ADMIN).

Definition _load_trade (trade_id : uuid) (for_update : bool) : M World Trade :=
  (if for_update then take_lock (RowTrade trade_id) else mret tt) ;;
  d ← get_db;
  match trades d !! trade_id with
  | Some t => mret t
  | None => raise (HTTPException 404 (Msg "Trade not found"))
  end.

(** The loaded relationships [trade.bid_order] and [trade.ask_order]. *)
Definition bid_order_of (d : Database) (t : Trade) : option Order :=
  id ← t_bid_order_id t; orders d !! id.
Definition ask_order_of (d : Database) (t : Trade) : option Order :=
  id ← t_ask_order_id t; orders d !! id.

(** The slice identity; its side is not part of it. *)
Definition _trade_market_slice (d : Database) (t : Trade) : option MarketSlice :=
  match t_product_id t, t_availability_window t with
  | Some product_id, Some (String _ _ as window) => Some (product_id, t_delivery_point_id t, window)
  | _, _ =>
      match ask_order_of d t, bid_order_of d t with
      | Some o, _ | None, Some o => Some (o_product_id o, o_delivery_point_id o, o_availability_window o)
      | None, None => None
      end
  end.

Definition order_slice (o : Order) : MarketSlice :=
  (o_product_id o, o_delivery_point_id o, o_availability_window o).

(** [await db.rollback(); raise ..] *)
Definition rollback_raise {A} (cond : bool) (e : exn) (k : M World A) : M World A :=
  if cond then rollback ;; raise e else k.

Definition _lock_trade_market_rows (trade_id : uuid) : M World (Trade * option Order) :=
  preview ← _load_trade trade_id false;
  d ← get_db;
  let locked_identity := _trade_market_slice d preview in
  match locked_identity with
  | Some (product_id, delivery_point_id, window) =>
      acquire_market_slice_lock product_id delivery_point_id window
  | None => mret tt
  end ;;
  trade ← _load_trade trade_id true;
  d ← get_db;
  rollback_raise (bool_decide (_trade_market_slice d trade ≠ locked_identity))
    (HTTPException 409 (Msg "Trade slice changed; retry the request"))
  (match trade_order_id trade with
   | None => mret (trade, None)
   | Some order_id =>
       take_lock (RowOrders [order_id]) ;;
       d ← get_db;
       match orders d !! order_id with
       | None => rollback ;; raise (HTTPException 409 (Msg "Trade order no longer exists"))
       | Some o =>
           rollback_raise (bool_decide (locked_identity ≠ Some (order_slice o)))
             (HTTPException 409 (Msg "Trade order slice changed; retry the request"))
             (mret (trade, Some o))
       end
   end).

(** One side of a trade is still admitted: through its order, if it has one. *)
Definition side_eligible (d : Database) (o : option Order) (user : option User)
    (organization : option Organization) : bool :=
  match o with
  | Some o => order_owner_is_execution_eligible d o user organization
  | None => execution_party_is_eligible d user organization
  end.

Definition _revalidate_trade_parties (t : Trade) : M World unit :=
  match t_buyer_user_id t, t_seller_user_id t with
  | Some buyer, Some seller =>
      parties ← lock_users [buyer; seller];
      orgs ← lock_organizations [t_buyer_id t; t_seller_id t];
      d ← get_db;
      let buyer_eligible :=
        side_eligible d (bid_order_of d t) (parties !! buyer) (orgs !! t_buyer_id t) in
      let seller_eligible :=
        side_eligible d (ask_order_of d t) (parties !! seller) (orgs !! t_seller_id t) in
      refuse (negb buyer_eligible || negb seller_eligible)
        (HTTPException 409 (Msg "Trade parties are no longer execution-qualified"))
  | _, _ => raise (HTTPException 409 (Msg "Trade parties require fresh admission review"))
  end.

(** ** Assisted orders *)

Definition support_ownership_error : exn :=
  HTTPException 403 (Msg "Trade support ownership is not valid").

(** The economic side a valid assisted order represents: side, organization,
    role and owner. *)
Definition _assisted_trade_side (t : Trade) (linked_order : Order)
    : res (option (OrderSide * uuid * UserRole * uuid)) :=
  if bool_decide (o_creation_method linked_order ≠ MARKET_SUPPORT) then Val None
  else match o_owner_user_id linked_order with
  | None => Exc support_ownership_error
  | Some owner =>
      let own_actor := bool_decide (o_created_by_actor_user_id linked_order = Some owner) in
      match o_side linked_order with
      | ASK =>
          if bool_decide (t_ask_order_id t = Some (o_id linked_order))
             && bool_decide (t_seller_id t = o_organization_id linked_order)
             && bool_decide (t_seller_user_id t = Some owner) && own_actor
          then Val (Some (ASK, t_seller_id t, SUPPLIER, owner))
          else Exc support_ownership_error
      | BID =>
          if bool_decide (t_bid_order_id t = Some (o_id linked_order))
             && bool_decide (t_buyer_id t = o_organization_id linked_order)
             && bool_decide (t_buyer_user_id t = Some owner) && own_actor
          then Val (Some (BID, t_buyer_id t, BUYER, owner))
          else Exc support_ownership_error
      end
  end.

Definition _authorize_assisted_trade_actor (t : Trade) (linked_order : option Order)
    (current_user : User) (expected_side : option OrderSide) : M World bool :=
  match linked_order with
  | None => mret false
  | Some o =>
      side ← lift (_assisted_trade_side t o);
      match side with
      | None => mret false
      | Some (support_side, organization_id, expected_role, owner_user_id) =>
          d ← get_db;
          match users d !! u_id current_user, organizations d !! organization_id with
          | Some actor, Some organization =>
              let actor_is_support_member :=
                bool_decide (u_organization_id actor = Some organization_id)
                && bool_decide (u_role actor = Some expected_role) in
              refuse (bool_decide (u_id current_user = owner_user_id))
                (HTTPException 403 (Msg "Support administrators cannot change trade lifecycle")) ;;
              if negb actor_is_support_member then mret false
              else
                refuse (match expected_side with
                        | Some s => bool_decide (support_side ≠ s) | None => false end)
                  (HTTPException 403 (Msg "Trade side is not authorized for this action")) ;;
                refuse (negb (execution_party_is_eligible d (Some actor) (Some organization)))
                  (HTTPException 409 (Msg "Trade parties are no longer execution-qualified")) ;;
                mret true
          | _, _ => raise (HTTPException 409 (Msg "Trade support ownership is no longer valid"))
          end
      end
  end.

(** [ASK] if the buyer initiated, else [BID]: the side that answers. *)
Definition counterparty_side (t : Trade) : OrderSide :=
  match t_initiated_by t with INITIATED_BY_BUYER => ASK | INITIATED_BY_SELLER => BID end.

Definition _watchlist_before_state (o : Order) : M World BeforeOrder :=
  d ← get_db;
  best ← _best_slice_price (order_market_product d o) (o_delivery_point_id o)
           (Some (o_availability_window o)) (o_side o);
  mret (MkBeforeOrder (Some (o_price_per_mt_usd o)) (Some (o_remaining_quantity_mt o))
          (Some (o_status o)) best).

(** [rebuild_live_slice_benchmarks_for_keys(db, [(order.side, ..)])] *)
Definition rebuild_order_slice (o : Order) : M World unit :=
  d ← get_db;
  rebuild_live_slice_benchmarks_for_keys
    [Some (o_side o, order_market_product d o, o_delivery_point_id o, Some (o_availability_window o))].

Definition trade_data (t : Trade) : option json := Some (JObj [("trade_id", JUuid (t_id t))]).

(** ** Hitting an order *)

Record TradeCreate := MkTradeCreate {
  tc_order_id : uuid;
  tc_expected_terms_digest : option string;
  tc_quantity_mt : decimal;
}.

(** What the request schema admits. *)
Definition trade_create_valid (p : TradeCreate) : Prop :=
  amount_within (tc_quantity_mt p) 1 (cents 100000).

Definition trade_create_idempotency_payload (p : TradeCreate) : jvalue :=
  VObj ([ ("order_id", VStr (uuid_text (tc_order_id p)));
          ("quantity_mt", VStr (decimal_str (tc_quantity_mt p))) ]
        ++ match tc_expected_terms_digest p with
           | Some digest => [("expected_terms_digest", VStr digest)]
           | None => []
           end).

Definition terms_review_conflict : exn :=
  HTTPException 409 (Coded "ORDER_TERMS_REVIEW_REQUIRED"
    "Order terms changed or were not reviewed. Refresh and review before trading.").

(** The trade a key already created. *)
Definition existing_trade (d : Database) (initiator_org_id : uuid) (key : string) : option Trade :=
  head (filter (λ t, t_initiator_org_id t = initiator_org_id
                     ∧ t_idempotency_operation t = Some TRADE_CREATE_OPERATION
                     ∧ t_idempotency_key t = Some key)
               (snd <$> map_to_list (trades d))).

Definition initiating_user (t : Trade) : option uuid :=
  match t_initiated_by t with
  | INITIATED_BY_BUYER => t_buyer_user_id t
  | INITIATED_BY_SELLER => t_seller_user_id t
  end.

(** Answer a repeated request with the trade it created. *)
Definition replay_trade (t : Trade) (request_hash : string) (current_user : User) : M World TradeResponse :=
  refuse (bool_decide (t_idempotency_request_hash t ≠ Some request_hash))
    (HTTPException 409 (Msg "Idempotency-Key was reused with a different request")) ;;
  refuse (bool_decide (initiating_user t ≠ Some (u_id current_user)))
    (HTTPException 409 (Msg "Idempotency-Key is bound to another request principal")) ;;
  trade_response t (u_organization_id current_user) (is_admin current_user).

(** The key a request carries: an empty header is no key, but stays on the row. *)
Record CreateKey := MkCreateKey {
  ck_idempotency_key : option string;
  ck_request_hash : option string;
}.
Definition given_key (k : CreateKey) : option string :=
  match ck_idempotency_key k with Some "" => None | key => key end.

Definition create_key (raw_key : option string) (p : TradeCreate) : res CreateKey :=
  match raw_key with
  | None | Some "" => Val (MkCreateKey raw_key None)
  | Some raw =>
      key ← normalize_idempotency_key raw;
      Val (MkCreateKey (Some key) (Some (idempotency_request_hash (trade_create_idempotency_payload p))))
  end.

(** A trade already created under the key. *)
Definition created_before (k : CreateKey) (initiator_org_id : uuid) (current_user : User)
    : M World (option TradeResponse) :=
  match given_key k with
  | None => mret None
  | Some key =>
      acquire_idempotency_lock initiator_org_id TRADE_CREATE_OPERATION key ;;
      d ← get_db;
      match existing_trade d initiator_org_id key with
      | None => mret None
      | Some t =>
          response ← replay_trade t (default "" (ck_request_hash k)) current_user;
          mret (Some response)
      end
  end.

(** Slice lock, row lock, and the reviewed terms. *)
Definition lock_target_order (p : TradeCreate) : M World Order :=
  d ← get_db;
  let target_slice := order_slice <$> orders d !! tc_order_id p in
  match target_slice with
  | Some (product_id, delivery_point_id, window) =>
      acquire_market_slice_lock product_id delivery_point_id window
  | None => mret tt
  end ;;
  take_lock (RowOrders [tc_order_id p]) ;;
  d ← get_db;
  match orders d !! tc_order_id p with
  | None => raise (HTTPException 404 (Msg "Order not found"))
  | Some order =>
      rollback_raise (match target_slice with
                      | Some s => bool_decide (order_slice order ≠ s) | None => false end)
        (HTTPException 409 (Msg "Order slice changed; retry the trade"))
        (refuse (bool_decide (tc_expected_terms_digest p = None)
                 || bool_decide (tc_expected_terms_digest p ≠ Some (order_terms_digest order)))
           terms_review_conflict ;;
         mret order)
  end.

Definition not_available : exn := HTTPException 400 (Msg "Order is not available for trading").

(** The side of the initiator, and who may take it. *)
Definition initiator_of (order : Order) : Initiator :=
  match o_side order with ASK => INITIATED_BY_BUYER | BID => INITIATED_BY_SELLER end.

Definition check_hit_side (order : Order) (current_user : User) : M World unit :=
  match o_side order with
  | ASK =>
      refuse (bool_decide (u_role current_user ≠ Some BUYER))
        (HTTPException 403 (Msg "Only buyers can hit an ASK order"))
  | BID =>
      refuse (bool_decide (u_role current_user ≠ Some SUPPLIER))
        (HTTPException 403 (Msg "Only suppliers can hit a BID order")) ;;
      refuse (is_biofuel_contract (o_product_id order))
        (HTTPException 400 (Msg "Place a qualified ASK order with the required fuel specification and supplier details to fill this biofuel BID."))
  end.

(** Every guard between the reviewed terms and the trade; the organizations'
    provenances are what the trade records. *)
Definition admit_hit (order : Order) (quantity : Z) (current_user : User) (initiator_org_id : uuid)
    : M World (OrganizationProvenance * OrganizationProvenance) :=
  d ← get_db;
  refuse (negb (joined_catalog d order active_market_catalog_clauses)) not_available ;;
  organizations ← lock_and_load_market_organizations [initiator_org_id; o_organization_id order]
    [MkMarketActorOwnership (u_id current_user) initiator_org_id] true [];
  refuse (negb (is_active_status (o_status order))) not_available ;;
  match o_expires_at order with
  | Some e => now ← utcnow; refuse (e <=? now) (HTTPException 400 (Msg "Order has expired"))
  | None => mret tt
  end ;;
  refuse (negb (order_is_execution_qualified order))
    (HTTPException 400 (Msg "Order is not execution-qualified")) ;;
  refuse (is_demo_market_organization (Some (o_organization_id order)))
    (HTTPException 400 (Msg "Demo listings are preview liquidity and cannot be traded.")) ;;
  match o_owner_user_id order with
  | None => raise (HTTPException 409 (Msg "Order owner requires explicit provenance review"))
  | Some owner =>
      let target_provenance := coerce_provenance (PEnum (o_provenance order)) in
      refuse (bool_decide (target_provenance ∈ [DEMO; TEST; CANARY]))
        (HTTPException 400 (Msg "Synthetic listings cannot be traded")) ;;
      check_hit_side order current_user ;;
      refuse (bool_decide (o_organization_id order = initiator_org_id))
        (HTTPException 400 (Msg "Cannot trade with your own order")) ;;
      let initiator_provenance := snapshot_organization_provenance (organizations !! initiator_org_id) in
      refuse (negb (execution_provenance_compatible initiator_provenance target_provenance
                      (Some initiator_org_id) (Some (o_organization_id order)) None))
        (HTTPException 400 (Msg "Synthetic and live trades cannot be mixed")) ;;
      parties ← lock_users [u_id current_user; owner];
      locked_organizations ← lock_organizations [initiator_org_id; o_organization_id order];
      d ← get_db;
      refuse (negb (execution_party_is_eligible d (parties !! u_id current_user)
                      (locked_organizations !! initiator_org_id))
              || negb (order_owner_is_execution_eligible d order (parties !! owner)
                         (locked_organizations !! o_organization_id order)))
        not_available ;;
      refuse (o_remaining_quantity_mt order <? quantity)
        (HTTPException 400 (Fmt "Requested quantity ({}) exceeds remaining ({})"
           [ADec quantity; ADec (o_remaining_quantity_mt order)])) ;;
      mret (initiator_provenance, target_provenance)
  end.

Definition new_trade (d : Database) (order : Order) (quantity : Z) (current_user : User)
    (initiator_org_id : uuid) (initiator_provenance target_provenance : OrganizationProvenance)
    (plan : SubscriptionTier) (fee : Z) (k : CreateKey) (created_at : datetime) : Trade :=
  let is_ask := bool_decide (o_side order = ASK) in
  {| t_id := fresh_id (trades d);
     t_bid_order_id := if is_ask then None else Some (o_id order);
     t_ask_order_id := if is_ask then Some (o_id order) else None;
     t_buyer_id := if is_ask then initiator_org_id else o_organization_id order;
     t_seller_id := if is_ask then o_organization_id order else initiator_org_id;
     t_buyer_user_id := if is_ask then Some (u_id current_user) else o_owner_user_id order;
     t_seller_user_id := if is_ask then o_owner_user_id order else Some (u_id current_user);
     t_initiator_org_id := initiator_org_id;
     t_buyer_provenance := if is_ask then initiator_provenance else target_provenance;
     t_seller_provenance := if is_ask then target_provenance else initiator_provenance;
     t_initiated_by := initiator_of order;
     t_is_anonymous := true;
     t_product_id := Some (o_product_id order);
     t_product_name := Some (order_product_name d order);
     t_fuel_type := Some (order_fuel_type d order);
     t_fuel_grade := Some (order_fuel_grade d order);
     t_market_product := order_market_product d order;
     t_delivery_point_id := o_delivery_point_id order;
     t_delivery_point_name := order_delivery_point_name d order;
     t_delivery_point_region := Some (order_region d order);
     t_availability_window := Some (o_availability_window order);
     t_market_snapshot_version := Some 1;
     t_quantity_mt := quantity;
     t_price_per_mt_usd := o_price_per_mt_usd order;
     t_status := PENDING_CONFIRMATION;
     t_final_quantity_mt := None; t_final_price_per_mt := None; t_final_total_usd := None;
     t_commission_rate_pct := 0;
     t_commission_fee_per_mt_usd := Some fee;
     t_commission_plan := Some (SubscriptionTier_value plan);
     t_commission_amount_usd := None;
     t_confirmed_at := None; t_delivered_at := None; t_paid_at := None;
     t_created_at := created_at;
     t_idempotency_key := ck_idempotency_key k;
     t_idempotency_operation := (λ _, TRADE_CREATE_OPERATION) <$> given_key k;
     t_idempotency_request_hash := ck_request_hash k |}.

(** The order after a hit. *)
Definition hit_order (o : Order) (quantity : Z) : Order :=
  let remaining := o_remaining_quantity_mt o - quantity in
  bump_version
    (o <| o_remaining_quantity_mt := remaining |>
       <| o_status := if remaining =? 0 then FILLED
                      else if bool_decide (o_status o = OPEN) then PARTIALLY_FILLED
                      else o_status o |>).

(** A concurrent insert under the same key has won the race. *)
Definition resolve_key_winner (k : CreateKey) (initiator_org_id : uuid) (current_user : User) (e : exn)
    : M World (option TradeResponse) :=
  rollback ;;
  match given_key k with
  | None => raise e
  | Some key =>
      d ← get_db;
      match existing_trade d initiator_org_id key with
      | None => raise e
      | Some t =>
          response ← replay_trade t (default "" (ck_request_hash k)) current_user;
          mret (Some response)
      end
  end.

(** Benchmarks, watchlists, notification, audit and the event of a new trade. *)
Definition announce_trade (t : Trade) (order : Order) (before_state : BeforeOrder)
    (public_order_before : bool) (current_user : User) : M World unit :=
  rebuild_order_slice order ;;
  emit_order_updated before_state order ;;
  let counterparty_org_id :=
    match t_initiated_by t with INITIATED_BY_BUYER => t_seller_id t | INITIATED_BY_SELLER => t_buyer_id t end in
  notify_org_users counterparty_org_id NT_ORDER_UPDATE "New Trade Request"
    (Fmt "A new trade request for {} MT at ${}/MT has been placed."
       [ADec (t_quantity_mt t); ADec (o_price_per_mt_usd order)]) (trade_data t) ;;
  record_audit (Some (u_id current_user)) TRADE_CREATED "trade" (Some (t_id t))
    (JObj [ ("order_id", JUuid (o_id order)); ("quantity_mt", JDec (t_quantity_mt t));
            ("price_per_mt_usd", JDec (o_price_per_mt_usd order)) ]) ;;
  public ← (if public_order_before then mret true else public_order_is_visible (o_id order) None : M World bool);
  event ← lift (participant_market_event "trade_created" "trade" (t_id t) [t_buyer_id t; t_seller_id t]
    (trade_activity_provenance t
     ++ [ ("id", JUuid (t_id t)); ("status", JStr (TradeStatus_value (t_status t)));
          ("quantity", JDec (t_quantity_mt t)); ("price", JDec (t_price_per_mt_usd t));
          ("product_name", JStr (default "" (t_product_name t)));
          ("fuel_type", JStr (default "" (t_fuel_type t)));
          ("region", JStr (default "" (t_delivery_point_region t))) ]) public);
  enqueue_market_events [event].

(** Admission, the two rows, and the flush that inserts them. *)
Definition place_trade (p : TradeCreate) (k : CreateKey) (current_user : User) (initiator_org_id : uuid)
    : M World TradeResponse :=
  let quantity := to_cents (tc_quantity_mt p) in
  order ← lock_target_order p;
  provenances ← admit_hit order quantity current_user initiator_org_id;
  public_order_before ← public_order_is_visible (o_id order) None;
  before_state ← _watchlist_before_state order;
  let seller_org_id := match o_side order with
                       | ASK => o_organization_id order | BID => initiator_org_id end in
  fee ← resolve_seller_trade_fee seller_org_id None;
  created_at ← utcnow;
  d ← get_db;
  let trade := new_trade d order quantity current_user initiator_org_id provenances.1 provenances.2
                 fee.1 fee.2 k created_at in
  let order' := hit_order order quantity in
  put_trade trade ;;
  put_order order' ;;
  winner ← catch_integrity (flush ;; mret None) (resolve_key_winner k initiator_org_id current_user);
  match winner with
  | Some response => mret response
  | None =>
      announce_trade trade order' before_state public_order_before current_user ;;
      loaded_trade ← _load_trade (t_id trade) false;
      response ← trade_response loaded_trade (Some initiator_org_id) (is_admin current_user);
      commit ;;
      mret response
  end.

(** [POST /trades/], behind [require_execution_eligible_user]. *)
Definition create_trade (p : TradeCreate) (raw_key : option string) (current_user : User)
    : M World TradeResponse :=
  require_execution_eligible_user current_user ;;
  match u_organization_id current_user with
  | None => raise (HTTPException 400 (Msg "User must belong to an organization to trade"))
  | Some initiator_org_id =>
      k ← lift (create_key raw_key p);
      replay ← created_before k initiator_org_id current_user;
      match replay with
      | Some response => mret response
      | None => place_trade p k current_user initiator_org_id
      end
  end.

(** ** Lifecycle commands *)

(** [prepare_command_attempt], and the stored response if there is one. *)
Definition run_command (raw_key : option string) (current_user : User) (operation : string)
    (trade_id : uuid) (payload : list (string * jvalue)) (body : option CommandAttempt → M World reply)
    : M World reply :=
  command ← prepare_command_attempt raw_key (u_id current_user) (u_organization_id current_user) None
    operation "trade" trade_id
    (VObj ([("operation", VStr operation); ("trade_id", VStr (uuid_text trade_id))] ++ payload));
  match a ← command; ca_replay a with
  | Some stored => mret (Replayed (cr_response_status stored) (cr_response_body stored))
  | None => body command
  end.

(** The parties' organizations, the actor's if it is another one, and the actor. *)
Definition lock_trade_parties (t : Trade) (current_user : User) : M World unit :=
  let org := u_organization_id current_user in
  let actor_orgs := filter (λ o, o ∉ [t_buyer_id t; t_seller_id t]) (option_list org) in
  lock_and_load_market_organizations ([t_buyer_id t; t_seller_id t] ++ actor_orgs)
    (option_list (MkMarketActorOwnership (u_id current_user) <$> org)) true [] ;;
  mret tt.

(** The actor is exactly the recorded principal of the party. *)
Definition is_principal (current_user : User) (org : uuid) (user : option uuid) : bool :=
  bool_decide (u_organization_id current_user = Some org) && bool_decide (user = Some (u_id current_user)).

(** Response, stored result, commit. *)
Definition finish_command (command : option CommandAttempt) (t : Trade) (current_user : User)
    : M World reply :=
  flush ;;
  response ← trade_response t (u_organization_id current_user) (is_admin current_user);
  record_command_success command 200 (response_body response) ;;
  commit ;;
  mret (Fresh response).

Definition trade_event (t : Trade) (event_type : string) (extra : list (string * json)) (public : bool)
    : res MarketEventEnvelope :=
  participant_market_event event_type "trade" (t_id t) [t_buyer_id t; t_seller_id t]
    (trade_activity_provenance t
     ++ [("id", JUuid (t_id t)); ("status", JStr (TradeStatus_value (t_status t)))] ++ extra) public.

Definition quantity_and_price (t : Trade) : list (string * json) :=
  [("quantity", JDec (t_quantity_mt t)); ("price", JDec (t_price_per_mt_usd t))].

(** ** [PUT /trades/{id}/confirm] *)

Definition confirmed_trade (t : Trade) (now : datetime) : Trade :=
  t <| t_status := CONFIRMED |> <| t_confirmed_at := Some now |>.

(** The guards between the locked rows and the confirmation. *)
Definition admit_confirmation (t : Trade) (order : option Order) (current_user : User) : M World unit :=
  refuse (bool_decide (t_status t ≠ PENDING_CONFIRMATION))
    (HTTPException 400 (Msg "Trade is not pending confirmation")) ;;
  refuse (negb (execution_provenance_compatible (t_buyer_provenance t) (t_seller_provenance t)
                  (Some (t_buyer_id t)) (Some (t_seller_id t)) None))
    (HTTPException 409 (Msg "Trade provenance is not eligible for execution")) ;;
  assisted_actor ← _authorize_assisted_trade_actor t order current_user (Some (counterparty_side t));
  match t_initiated_by t with
  | INITIATED_BY_BUYER =>
      refuse (negb assisted_actor && negb (is_principal current_user (t_seller_id t) (t_seller_user_id t)))
        (HTTPException 403 (Msg "Only the seller can confirm this trade"))
  | INITIATED_BY_SELLER =>
      refuse (negb assisted_actor && negb (is_principal current_user (t_buyer_id t) (t_buyer_user_id t)))
        (HTTPException 403 (Msg "Only the buyer can confirm this trade"))
  end ;;
  _revalidate_trade_parties t.

Definition initiator_org (t : Trade) : uuid :=
  match t_initiated_by t with INITIATED_BY_BUYER => t_buyer_id t | INITIATED_BY_SELLER => t_seller_id t end.

(** Consume the stock the trade holds. *)
Definition backing_item (order : option Order) : option uuid := o ← order; o_inventory_item_id o.
Definition consume_backing (order : option Order) (quantity : Z) : M World unit :=
  match backing_item order with
  | Some item => consume_inventory item quantity ;; mret tt
  | None => mret tt
  end.

(** The verified referrals of the two organizations' users become active. *)
Definition member_of_parties (t : Trade) (u : User) : bool :=
  bool_decide (u_organization_id u = Some (t_buyer_id t) ∨ u_organization_id u = Some (t_seller_id t)).
Definition verified_referrals (d : Database) (t : Trade) : list Referral :=
  filter (λ r, r_status r = VERIFIED
               ∧ (member_of_parties t <$> users d !! r_referred_user_id r) = Some true)
         (snd <$> map_to_list (referrals d)).
Definition activate_referrals (t : Trade) : M World unit :=
  now ← utcnow;
  d ← get_db;
  iterM (λ r, put_referral (r <| r_status := ACTIVE |> <| r_activated_at := Some now |>))
        (verified_referrals d t).

Definition announce_confirmation (t : Trade) (order : option Order) (current_user : User) : M World unit :=
  notify_org_users (initiator_org t) NT_ORDER_UPDATE "Trade Confirmed"
    (Fmt "Your trade for {} MT has been confirmed by the counterparty." [ADec (t_quantity_mt t)])
    (trade_data t) ;;
  record_audit (Some (u_id current_user)) TRADE_CONFIRMED "trade" (Some (t_id t))
    (JObj [("status", JStr (TradeStatus_value CONFIRMED))]) ;;
  flush ;;
  public_market_changed ← public_trade_is_visible (t_id t);
  public_market_changed ← (match backing_item order with
    | Some item => if (public_market_changed : bool) then mret true else public_inventory_is_visible item
    | None => mret public_market_changed
    end : M World bool);
  event ← lift (trade_event t "trade_confirmed" (quantity_and_price t) public_market_changed);
  enqueue_market_events [event].

Definition confirm_trade (trade_id : uuid) (raw_key : option string) (current_user : User) : M World reply :=
  run_command raw_key current_user TRADE_CONFIRM_OPERATION trade_id [] (λ command,
    require_execution_eligible_user current_user ;;
    rows ← _lock_trade_market_rows trade_id;
    let '(trade, confirmed_order) := rows in
    lock_trade_parties trade current_user ;;
    admit_confirmation trade confirmed_order current_user ;;
    now ← utcnow;
    let trade' := confirmed_trade trade now in
    put_trade trade' ;;
    consume_backing confirmed_order (t_quantity_mt trade) ;;
    activate_referrals trade' ;;
    announce_confirmation trade' confirmed_order current_user ;;
    finish_command command trade' current_user).

(** ** [PUT /trades/{id}/decline] *)

(** Only the counterparty may decline: the assisted actor, the recorded
    principal, or, on a trade without one, any user of the party. *)
Definition is_counterparty (t : Trade) (assisted_actor : bool) (current_user : User) : bool :=
  assisted_actor
  || match t_initiated_by t with
     | INITIATED_BY_BUYER =>
         match t_seller_user_id t with
         | Some u => bool_decide (u = u_id current_user)
         | None => bool_decide (Some (t_seller_id t) = u_organization_id current_user)
         end
     | INITIATED_BY_SELLER =>
         match t_buyer_user_id t with
         | Some u => bool_decide (u = u_id current_user)
         | None => bool_decide (Some (t_buyer_id t) = u_organization_id current_user)
         end
     end.

Definition admit_refusal (t : Trade) (order : option Order) (current_user : User) : M World unit :=
  rollback_raise (bool_decide (t_status t ≠ PENDING_CONFIRMATION))
    (HTTPException 400 (Msg "Trade is not pending confirmation"))
    (assisted_side ← lift (match order with Some o => _assisted_trade_side t o | None => Val None end);
     let acting_for_assisted_side :=
       match assisted_side with
       | Some (_, org, role, _) =>
           bool_decide (u_organization_id current_user = Some org) && bool_decide (u_role current_user = Some role)
       | None => false
       end in
     lock_and_load_market_organizations [t_buyer_id t; t_seller_id t]
       (if acting_for_assisted_side
        then option_list (MkMarketActorOwnership (u_id current_user) <$> u_organization_id current_user)
        else []) false [] ;;
     assisted_actor ← _authorize_assisted_trade_actor t order current_user (Some (counterparty_side t));
     refuse (negb (is_counterparty t assisted_actor current_user))
       (HTTPException 403 (Msg match t_initiated_by t with
                               | INITIATED_BY_BUYER => "Only the seller can decline this trade"
                               | INITIATED_BY_SELLER => "Only the buyer can decline this trade"
                               end))).

Definition declined_trade (t : Trade) : Trade := t <| t_status := DECLINED |>.

(** The order gets the declined quantity back. *)
Definition restored_order (o : Order) (quantity : Z) : Order :=
  let remaining := o_remaining_quantity_mt o + quantity in
  bump_version
    (o <| o_remaining_quantity_mt := remaining |>
       <| o_status := if remaining =? o_quantity_mt o then OPEN else PARTIALLY_FILLED |>).
Definition overdue_order (o : Order) (quantity : Z) : Order :=
  bump_version
    (o <| o_remaining_quantity_mt := o_remaining_quantity_mt o + quantity |> <| o_status := EXPIRED |>).

(** [order.expires_at is not None and order.expires_at <= datetime.now(UTC)] *)
Definition overdue_at (o : Order) (now : datetime) : bool :=
  match o_expires_at o with Some e => e <=? now | None => false end.
Definition order_overdue (o : Order) : M World bool :=
  match o_expires_at o with
  | Some e => now ← utcnow; mret (overdue_at o now)
  | None => mret false
  end.

(** What declining does to the order: a withdrawn order only releases the
    trade's stock, an overdue one expires with its whole balance, any other is
    live again. *)
Definition settle_order (t : Trade) (o : Order) (current_user : User) : M World unit :=
  let quantity := t_quantity_mt t in
  let release item q := (release_inventory item q ;; mret tt : M World unit) in
  if bool_decide (o_status o = CANCELLED ∨ o_status o = EXPIRED) then
    match o_inventory_item_id o with Some item => release item quantity | None => mret tt end
  else
    before_state ← _watchlist_before_state o;
    overdue ← order_overdue o;
    if (overdue : bool) then
      let o' := overdue_order o quantity in
      match o_inventory_item_id o with
      | Some item =>
          if 0 <? o_remaining_quantity_mt o' then release item (o_remaining_quantity_mt o') else mret tt
      | None => mret tt
      end ;;
      put_order o' ;;
      rebuild_order_slice o' ;;
      emit_order_updated before_state o' ;;
      record_audit (Some (u_id current_user)) ORDER_EXPIRED "order" (Some (o_id o))
        (JObj [ ("status", JStr (OrderBookStatus_value EXPIRED));
                ("released_quantity_mt", JDec (o_remaining_quantity_mt o')) ])
    else
      let o' := restored_order o quantity in
      put_order o' ;;
      rebuild_order_slice o' ;;
      emit_order_updated before_state o'.

Definition visible_order (order : option Order) : M World bool :=
  match order with Some o => public_order_is_visible (o_id o) None | None => mret false end.

Definition announce_refusal (t : Trade) (order : option Order) (public_order_before : bool)
    (current_user : User) : M World unit :=
  notify_org_users (initiator_org t) NT_ORDER_UPDATE "Trade Declined"
    (Fmt "Your trade request for {} MT has been declined." [ADec (t_quantity_mt t)]) (trade_data t) ;;
  record_audit (Some (u_id current_user)) TRADE_DECLINED "trade" (Some (t_id t))
    (JObj [("status", JStr (TradeStatus_value DECLINED))]) ;;
  flush ;;
  public_order_after ← visible_order order;
  event ← lift (trade_event t "trade_declined" [] (public_order_before || public_order_after));
  enqueue_market_events [event].

Definition decline_trade (trade_id : uuid) (raw_key : option string) (current_user : User) : M World reply :=
  run_command raw_key current_user TRADE_DECLINE_OPERATION trade_id [] (λ command,
    rows ← _lock_trade_market_rows trade_id;
    let '(trade, order) := rows in
    admit_refusal trade order current_user ;;
    d ← get_db;
    let locked_identity := _trade_market_slice d trade in
    public_order_before ← visible_order order;
    let trade' := declined_trade trade in
    put_trade trade' ;;
    match order with
    | None => mret tt
    | Some o =>
        rollback_raise (bool_decide (locked_identity ≠ Some (order_slice o)))
          (HTTPException 409 (Msg "Order slice changed; retry the decline"))
          (settle_order trade o current_user)
    end ;;
    announce_refusal trade' order public_order_before current_user ;;
    finish_command command trade' current_user).

(** ** [PUT /trades/{id}/deliver] *)

Record TradeDeliverPayload := MkTradeDeliverPayload {
  td_final_quantity_mt : decimal;
  td_final_price_per_mt : decimal;
}.
Definition deliver_payload_valid (p : TradeDeliverPayload) : Prop :=
  amount_within (td_final_quantity_mt p) 1 (cents 100000)
  ∧ amount_within (td_final_price_per_mt p) 1 (cents 1000000).

(** Either party may deliver. *)
Definition admit_delivery (t : Trade) (order : option Order) (p : TradeDeliverPayload) (current_user : User)
    : M World unit :=
  refuse (bool_decide (t_status t ≠ CONFIRMED))
    (HTTPException 400 (Msg "Trade must be confirmed before delivery")) ;;
  assisted_actor ← _authorize_assisted_trade_actor t order current_user None;
  refuse (negb assisted_actor
          && negb (is_principal current_user (t_buyer_id t) (t_buyer_user_id t)
                   || is_principal current_user (t_seller_id t) (t_seller_user_id t)))
    (HTTPException 403 (Msg "Not authorized for this trade")) ;;
  _revalidate_trade_parties t ;;
  refuse (t_quantity_mt t <? to_cents (td_final_quantity_mt p))
    (HTTPException 400 (Msg "final_quantity_mt cannot exceed originally traded quantity")) ;;
  deviation ← lift (price_deviation_pct (td_final_price_per_mt p) (of_cents (t_price_per_mt_usd t)));
  refuse (dltb MAX_FINAL_PRICE_DEVIATION_PCT deviation)
    (HTTPException 400
       (Msg "final_price_per_mt deviates more than 10% from the confirmed trade price")).

Definition delivered_trade (t : Trade) (p : TradeDeliverPayload) (total commission : Z) (now : datetime)
    : Trade :=
  t <| t_final_quantity_mt := Some (to_cents (td_final_quantity_mt p)) |>
    <| t_final_price_per_mt := Some (to_cents (td_final_price_per_mt p)) |>
    <| t_final_total_usd := Some total |>
    <| t_commission_amount_usd := Some commission |>
    <| t_delivered_at := Some now |>
    <| t_status := DELIVERED |>.

Definition announce_delivery (t : Trade) (current_user : User) : M World unit :=
  let counterparty_org_id :=
    if bool_decide (u_organization_id current_user = Some (t_buyer_id t)) then t_seller_id t else t_buyer_id t in
  notify_org_users counterparty_org_id NT_ORDER_UPDATE "Trade Delivered"
    (Fmt "Trade for {} MT has been marked as delivered." [ADec (default 0 (t_final_quantity_mt t))])
    (trade_data t) ;;
  record_audit (Some (u_id current_user)) TRADE_DELIVERED "trade" (Some (t_id t))
    (JObj [ ("status", JStr (TradeStatus_value DELIVERED));
            ("final_quantity_mt", jopt JDec (t_final_quantity_mt t));
            ("final_price_per_mt", jopt JDec (t_final_price_per_mt t));
            ("final_total_usd", jopt JDec (t_final_total_usd t)) ]) ;;
  event ← lift (trade_event t "trade_delivered"
    [ ("final_quantity", jopt JDec (t_final_quantity_mt t)); ("final_price", jopt JDec (t_final_price_per_mt t));
      ("final_total", jopt JDec (t_final_total_usd t)) ] false);
  enqueue_market_events [event].

Definition deliver_trade (trade_id : uuid) (p : TradeDeliverPayload) (raw_key : option string)
    (current_user : User) : M World reply :=
  run_command raw_key current_user TRADE_DELIVER_OPERATION trade_id
    [ ("final_quantity_mt", VStr (format_f (dnormalize (td_final_quantity_mt p))));
      ("final_price_per_mt", VStr (format_f (dnormalize (td_final_price_per_mt p)))) ] (λ command,
    require_execution_eligible_user current_user ;;
    rows ← _lock_trade_market_rows trade_id;
    let '(trade, linked_order) := rows in
    lock_trade_parties trade current_user ;;
    admit_delivery trade linked_order p current_user ;;
    amounts ← lift (_delivery_amounts (td_final_quantity_mt p) (td_final_price_per_mt p)
                      (of_rate (t_commission_rate_pct trade)) (of_cents <$> t_commission_fee_per_mt_usd trade));
    now ← utcnow;
    let trade' := delivered_trade trade p (to_cents amounts.1) (to_cents amounts.2) now in
    put_trade trade' ;;
    announce_delivery trade' current_user ;;
    finish_command command trade' current_user).

(** ** [POST /trades/{id}/pay] *)

Definition admit_payment (t : Trade) (order : option Order) (current_user : User) : M World unit :=
  refuse (bool_decide (t_status t ≠ DELIVERED))
    (HTTPException 400 (Msg "Trade must be delivered before payment")) ;;
  assisted_actor ← _authorize_assisted_trade_actor t order current_user (Some ASK);
  refuse (negb assisted_actor && negb (is_principal current_user (t_seller_id t) (t_seller_user_id t)))
    (HTTPException 403 (Msg "Only the seller can mark a trade as paid")) ;;
  refuse (bool_decide (u_role current_user ≠ Some SUPPLIER))
    (HTTPException 403 (Msg "Only suppliers can mark trades as paid")) ;;
  _revalidate_trade_parties t.

Definition paid_trade (t : Trade) (now : datetime) : Trade :=
  t <| t_status := PAID |> <| t_paid_at := Some now |>.

Definition announce_payment (t : Trade) (current_user : User) : M World unit :=
  notify_org_users (t_buyer_id t) NT_ORDER_UPDATE "Trade Paid"
    (Fmt "Payment for trade of {} MT has been confirmed." [ADec (t_quantity_mt t)]) (trade_data t) ;;
  record_audit (Some (u_id current_user)) TRADE_PAID "trade" (Some (t_id t))
    (JObj [("status", JStr (TradeStatus_value PAID))]) ;;
  event ← lift (trade_event t "trade_paid" (quantity_and_price t) false);
  enqueue_market_events [event].

Definition pay_trade (trade_id : uuid) (raw_key : option string) (current_user : User) : M World reply :=
  run_command raw_key current_user TRADE_PAY_OPERATION trade_id [] (λ command,
    require_execution_eligible_user current_user ;;
    rows ← _lock_trade_market_rows trade_id;
    let '(trade, linked_order) := rows in
    lock_trade_parties trade current_user ;;
    admit_payment trade linked_order current_user ;;
    now ← utcnow;
    let trade' := paid_trade trade now in
    put_trade trade' ;;
    announce_payment trade' current_user ;;
    finish_command command trade' current_user).

(** ** The routes on the demo market *)

Definition outcome_status (o : outcome World reply) : option TradeStatus :=
  match o with Ok (Fresh r) _ => Some (tr_status r) | _ => None end.

Example confirm_demo : outcome_status (confirm_trade 81 (Some "k1") Demo.supplier Demo.hit) = Some CONFIRMED.
Proof. vm_compute. reflexivity. Qed.
Example decline_demo : outcome_status (decline_trade 81 None Demo.supplier Demo.hit) = Some DECLINED.
Proof. vm_compute. reflexivity. Qed.
Example confirm_by_initiator :
  match confirm_trade 81 None Demo.buyer Demo.hit with
  | Raise e _ => e = HTTPException 403 (Msg "Only the seller can confirm this trade")
  | Ok _ _ => False
  end.
Proof. vm_compute. reflexivity. Qed.
Example pay_before_delivery :
  match pay_trade 81 None Demo.supplier Demo.hit with
  | Raise e _ => e = HTTPException 400 (Msg "Trade must be delivered before payment")
  | Ok _ _ => False
  end.
Proof. vm_compute. reflexivity. Qed.
