(* ===== verification/Orders.v ===== *)
(** * The order routes

    [app/routers/orderbook.py]: cancelling an order, by its owner or, for an
    assisted order, by Market Support acting for the customer.  The route is one
    transaction: the request party, the stored result of a repeated command, the
    order's guards, slice, context, row and party locks, the release of what the
    order still holds, its new row, benchmarks, events, audit, commit.

    The engine's bookkeeping of a repeated read ([populate_existing]) is the
    session store; [order_activity_provenance]'s [observed_at] is a row
    timestamp and left out. *)

From S2P Require Import Prelude Sha256 Catalog Calendar AvailabilityWindows Decimal Json Schema OrderTerms Constraints Delivery Database Scenario Policy Eligibility Events Commands TradeViews Watchlist Benchmarks Inventory Ledger Admission RequestParty Trades.
Local Open Scope Z_scope.

(** ** Shared steps *)

(** [request.headers.get(..)] is truthy. *)
Definition header_given (raw : option string) : bool :=
  match raw with Some (String _ _) => true | _ => false end.

Definition _reject_admin_legacy_workspace_mutation (raw_context : option string) (current_user : User)
    : M World unit :=
  configuration ← gets settings;
  refuse (MARKET_SUPPORT_ENABLED configuration && is_admin current_user && negb (header_given raw_context))
    (HTTPException 410 (Coded "MARKET_SUPPORT_LEGACY_MUTATION_RETIRED"
       "Use an active Market Support context for workspace mutations")).

(** The party behind a context header; without one there is none. *)
Definition party_of_request (raw_context : option string) (current_user : User)
    : M World (option RequestParty) :=
  if header_given raw_context
  then party ← resolve_request_party raw_context current_user; mret (Some party)
  else mret None.

Definition effective_organization_of (party : option RequestParty) (current_user : User) : option uuid :=
  match party ≫= rp_effective_organization with
  | Some organization => Some (g_id organization)
  | None => u_organization_id current_user
  end.

(** Also the window's text, which only a malformed one fails to give. *)
Definition order_before_state (o : Order) : M World BeforeOrder :=
  lift (normalize_availability_window (o_availability_window o)) ;;
  _watchlist_before_state o.

(** [app/services/activity.py] *)
Definition order_activity_provenance (d : Database) (o : Order) : list (string * json) :=
  order_market_provenance d o ++ [("delivery_point", jopt JStr (order_delivery_point_name d o))].

(** [app/services/audit_actions.py] *)
Definition ORDER_CANCELLED : string := "order.cancelled".

(** ** [POST /orderbook/{id}/cancel] and [DELETE /orderbook/{id}] *)

(** The reason a request body may carry, as the schema normalizes it. *)
Definition normalize_reason (reason : string) : option string :=
  if bool_decide (3 <= String.length reason <= 500)%nat && negb (bool_decide (strip reason = ""))
  then Some (strip reason) else None.

Inductive CancelMethod := POST | DELETE.
#[export] Instance CancelMethod_eq_dec : EqDecision CancelMethod.
Proof. solve_decision. Defined.

Record OrderCancel := MkOrderCancel {
  oc_method : CancelMethod;
  oc_reason : option string;
  oc_if_match : option string;
}.

Definition order_not_found : exn := HTTPException 404 (Msg "Order not found").
Definition not_cancellable : exn :=
  HTTPException 400 (Msg "Can only cancel orders with OPEN or PARTIALLY_FILLED status").

Definition is_assisted (o : Order) : bool := bool_decide (o_creation_method o = MARKET_SUPPORT).
Definition acts_in_support (party : option RequestParty) : bool :=
  match party with Some p => bool_decide (rp_mode p = MARKET_SUPPORT_MODE) | None => false end.

(** The owner of a self-service order; on one without an owner, any user of the
    organization. *)
Definition owns_order (o : Order) (current_user : User) : bool :=
  match o_owner_user_id o with
  | Some owner => bool_decide (owner = u_id current_user)
  | None => bool_decide (u_organization_id current_user = Some (o_organization_id o))
  end.

(** The context an assisted order was authorized under. *)
Definition support_context_of (d : Database) (o : Order) : option uuid :=
  a ← o_support_authorization_id o; row ← support_authorizations d !! a; sa_market_support_context_id row.

(** The guards before the slice lock.  The result is the local
    [authorization_context], which only a support party binds. *)
Definition admit_cancel (p : OrderCancel) (party : option RequestParty)
    (effective_organization_id : option uuid) (o : Order) (current_user : User)
    : M World (option (option uuid)) :=
  refuse (is_assisted o && bool_decide (oc_reason p = None))
    (HTTPException 400 (Msg "Cancellation reason is required for assisted orders")) ;;
  refuse (bool_decide (oc_method p = POST) && bool_decide (oc_reason p = None))
    (HTTPException 400 (Msg "Cancellation reason is required")) ;;
  authorization_context ← (if acts_in_support party then
      refuse (negb (is_assisted o) || bool_decide (Some (o_organization_id o) ≠ effective_organization_id))
        (HTTPException 403 (Msg "Only assisted orders for this organization can be cancelled")) ;;
      d ← get_db;
      refuse (bool_decide (o_support_authorization_id o = None))
        (HTTPException 403 (Msg "The support authorization for this listing is unavailable")) ;;
      mret (Some (support_context_of d o))
    else
      refuse (negb (owns_order o current_user))
        (HTTPException 403 (Msg "You can only cancel your own orders")) ;;
      mret None : M World (option (option uuid)));
  (if is_assisted o then require_matching_etag (oc_if_match p) (o_id o) (o_version o) else mret tt) ;;
  refuse (negb (is_active_status (o_status o))) not_cancellable ;;
  mret authorization_context.

(** The organization and the actor of a self-service order are locked and
    admitted; nobody without an organization passes. *)
Definition lock_cancelling_party (o : Order) (effective_organization_id : option uuid) (p : OrderCancel)
    (current_user : User) : M World unit :=
  if is_assisted o then
    require_matching_etag (oc_if_match p) (o_id o) (o_version o) ;;
    lock_support_order_parties o
  else
    match effective_organization_id with
    | Some org =>
        lock_and_load_market_organizations [org] [MkMarketActorOwnership (u_id current_user) org] true [] ;;
        mret tt
    | None =>
        found ← lock_users [u_id current_user];
        match found !! u_id current_user with
        | None => raise (HTTPException 409 (Msg "Market user no longer exists"))
        | Some user =>
            refuse (bool_decide (u_organization_id user ≠ None))
              (HTTPException 409 (Msg "Market user organization ownership changed")) ;;
            take_lock (RowOrganizations []) ;;
            raise (HTTPException 409 (Msg "Market organization no longer exists"))
        end
    end.

(** Slice, context, row and parties, and the guards again. *)
Definition lock_cancelled_order (p : OrderCancel) (party : option RequestParty)
    (effective_organization_id : option uuid) (preview : Order) (current_user : User) : M World Order :=
  acquire_market_slice_lock (o_product_id preview) (o_delivery_point_id preview) (o_availability_window preview) ;;
  match party with Some party => lock_request_party_context party | None => mret tt end ;;
  take_lock (RowOrders [o_id preview]) ;;
  d ← get_db;
  match orders d !! o_id preview with
  | None => raise order_not_found
  | Some o =>
      rollback_raise (bool_decide (order_slice o ≠ order_slice preview))
        (HTTPException 409 (Msg "Order slice changed; retry the cancellation"))
        (lock_cancelling_party o effective_organization_id p current_user ;;
         rollback_raise (negb (is_active_status (o_status o))) not_cancellable (mret o))
  end.

Definition cancelled_order (o : Order) : Order := bump_version (o <| o_status := CANCELLED |>).

(** What the order still holds goes back to the row that backs it. *)
Definition release_order (o : Order) : M World unit :=
  match o_inventory_item_id o with
  | Some item =>
      if 0 <? o_remaining_quantity_mt o
      then release_inventory item (o_remaining_quantity_mt o) ;; mret tt else mret tt
  | None => mret tt
  end.

(** Reading an unbound [authorization_context] raises. *)
Definition original_support_context (party : option RequestParty)
    (authorization_context : option (option uuid)) : res json :=
  match party, authorization_context with
  | None, _ => Val JNull
  | Some _, Some context => Val (jopt JUuid context)
  | Some _, None => Exc UnboundLocalError
  end.

Definition announce_cancellation (o : Order) (before_state : BeforeOrder) (public_before : bool)
    (party : option RequestParty) (effective_organization_id : option uuid)
    (authorization_context : option (option uuid)) (p : OrderCancel) (current_user : User) : M World unit :=
  rebuild_order_slice o ;;
  emit_order_updated before_state o ;;
  original ← lift (original_support_context party authorization_context);
  record_audit (Some (u_id current_user)) ORDER_CANCELLED "order" (Some (o_id o))
    (JObj [ ("status", JStr (OrderBookStatus_value CANCELLED));
            ("reason", jopt JStr (oc_reason p));
            ("actor_user_id", JUuid (match party with Some p => u_id (rp_actor p) | None => u_id current_user end));
            ("effective_organization_id", jopt JUuid effective_organization_id);
            ("original_principal_user_id", jopt JUuid (o_owner_user_id o));
            ("cancellation_principal_user_id",
              JUuid (match party with Some p => u_id (rp_accountable_principal p) | None => u_id current_user end));
            ("support_context_id", jopt JUuid (party ≫= rp_support_context_id));
            ("original_support_context_id", original);
            ("version", JInt (o_version o)) ]) ;;
  d ← get_db;
  event ← lift (participant_market_event "order_cancelled" "order" (o_id o) [o_organization_id o]
    (order_activity_provenance d o
     ++ [ ("id", JUuid (o_id o)); ("side", JStr (OrderSide_value (o_side o)));
          ("product_name", JStr (order_product_name d o)); ("fuel_type", JStr (order_fuel_type d o));
          ("region", JStr (order_region d o)) ]) public_before);
  enqueue_market_events [event].

(** The effects behind the guards; the answer is the status code. *)
Definition perform_cancel (o : Order) (command : option CommandAttempt) (party : option RequestParty)
    (effective_organization_id : option uuid) (authorization_context : option (option uuid))
    (p : OrderCancel) (current_user : User) : M World Z :=
  public_before ← public_order_is_visible (o_id o) None;
  before_state ← order_before_state o;
  release_order o ;;
  let o' := cancelled_order o in
  put_order o' ;;
  announce_cancellation o' before_state public_before party effective_organization_id
    authorization_context p current_user ;;
  record_command_success command 204 JNull ;;
  commit ;;
  mret 204.

Definition cancel_payload (order_id : uuid) (p : OrderCancel) : jvalue :=
  VObj [ ("operation", VStr ORDER_CANCEL_OPERATION); ("order_id", VStr (uuid_text order_id));
         ("reason", vopt VStr (oc_reason p)); ("if_match", vopt VStr (oc_if_match p)) ].

Definition cancel_order (order_id : uuid) (p : OrderCancel) (raw_context raw_key : option string)
    (current_user : User) : M World Z :=
  _reject_admin_legacy_workspace_mutation raw_context current_user ;;
  party ← party_of_request raw_context current_user;
  let effective_organization_id := effective_organization_of party current_user in
  command ← prepare_command_attempt raw_key (u_id current_user) effective_organization_id
    (party ≫= rp_support_context_id) ORDER_CANCEL_OPERATION "order" order_id (cancel_payload order_id p);
  match a ← command; ca_replay a with
  | Some stored => mret (cr_response_status stored)
  | None =>
      d ← get_db;
      match orders d !! order_id with
      | None => raise order_not_found
      | Some preview =>
          authorization_context ← admit_cancel p party effective_organization_id preview current_user;
          order ← lock_cancelled_order p party effective_organization_id preview current_user;
          perform_cancel order command party effective_organization_id authorization_context p current_user
      end
  end.

(** ** On the demo market *)

Example cancel_demo :
  match cancel_order 21 (MkOrderCancel DELETE None None) None (Some "k1") Demo.supplier Demo.hit with
  | Ok status w =>
      status = 204 ∧ o_status <$> orders (committed w) !! 21%N = Some CANCELLED
      ∧ i_reserved_stock_mt <$> inventory (committed w) !! 70%N = Some 10000
  | Raise _ _ => False
  end.
Proof. vm_compute. by split_and!. Qed.
Example cancel_foreign :
  match cancel_order 21 (MkOrderCancel DELETE None None) None None Demo.buyer Demo.hit with
  | Raise e _ => e = HTTPException 403 (Msg "You can only cancel your own orders")
  | Ok _ _ => False
  end.
Proof. vm_compute. reflexivity. Qed.
