(* ===== verification/TradeSteps.v ===== *)
(** * The life of a trade

    The trade routes as a transition system on the ledger: who may take which
    step, and the one trade, at most one order and at most one inventory row it
    changes.  This is the specification the routes of [Trades] implement
    ([TradesSafety]); every step balances ([TradeLedger.balanced]), so it keeps
    the market invariant. *)

From S2P Require Import Prelude Sha256 Catalog Calendar AvailabilityWindows Decimal Json Schema OrderTerms Constraints Delivery Database Scenario Policy Eligibility Events Commands TradeViews Watchlist Benchmarks Inventory Ledger TradeLedger Admission Trades.
Local Open Scope Z_scope.

(** ** Who acts for a side of a trade *)

Definition side_org (t : Trade) (s : OrderSide) : uuid :=
  match s with ASK => t_seller_id t | BID => t_buyer_id t end.
Definition side_user (t : Trade) (s : OrderSide) : option uuid :=
  match s with ASK => t_seller_user_id t | BID => t_buyer_user_id t end.
Definition side_role (s : OrderSide) : UserRole := match s with ASK => SUPPLIER | BID => BUYER end.
Definition linked_order (d : Database) (t : Trade) : option Order :=
  id ← trade_order_id t; orders d !! id.

(** The side was entered by Market Support: a qualified member of the customer
    organization acts for it, never the support administrator who owns it. *)
Definition assisted_for (d : Database) (u : User) (t : Trade) (s : OrderSide) : Prop :=
  ∃ o, linked_order d t = Some o ∧ o_creation_method o = MARKET_SUPPORT ∧ o_side o = s
    ∧ o_organization_id o = side_org t s ∧ o_owner_user_id o = side_user t s
    ∧ side_user t s ≠ Some (u_id u) ∧ u_role u = Some (side_role s).

Definition acts_for (d : Database) (u : User) (t : Trade) (s : OrderSide) : Prop :=
  u_organization_id u = Some (side_org t s)
  ∧ (side_user t s = Some (u_id u) ∨ assisted_for d u t s).

(** Declining needs no admission: the recorded principal may, wherever the user
    belongs now, or, on a trade without one, anybody of the party. *)
Definition may_decline (d : Database) (u : User) (t : Trade) : Prop :=
  let s := counterparty_side t in
  side_user t s = Some (u_id u) ∨ acts_for d u t s
  ∨ (side_user t s = None ∧ u_organization_id u = Some (side_org t s)).

(** Both parties are still admitted, each through its order if it has one. *)
Definition parties_admitted (d : Database) (t : Trade) : Prop :=
  ∃ buyer seller, t_buyer_user_id t = Some buyer ∧ t_seller_user_id t = Some seller
    ∧ side_eligible d (bid_order_of d t) (users d !! buyer) (organizations d !! t_buyer_id t) = true
    ∧ side_eligible d (ask_order_of d t) (users d !! seller) (organizations d !! t_seller_id t) = true.

(** The trade's provenances allow execution: both parties are live. *)
Definition live_parties (t : Trade) : Prop := t_buyer_provenance t = REAL ∧ t_seller_provenance t = REAL.

(** ** The lifecycle

    [PENDING_CONFIRMATION] is answered by the counterparty: [CONFIRMED], which
    consumes the stock held for the trade, or [DECLINED], which gives it back; a
    confirmed trade is [DELIVERED] by either party within the traded quantity
    and the price band, and [PAID] by the seller. *)

(** What a refusal does to the order: a withdrawn order only loses what the
    trade held, one that was overdue when the clock was read expires with its
    whole balance, one that was not is live again.  [seen] holds of the times the
    request may have read. *)
Inductive refund (d : Database) (seen : datetime → Prop) (t : Trade) : Move → Prop :=
  | refund_unlinked :
      linked_order d t = None → refund d seen t (MkMove (declined_trade t) None None 0 0)
  | refund_withdrawn o :
      linked_order d t = Some o → is_withdrawn (o_status o) = true →
      refund d seen t
        (MkMove (declined_trade t) None (o_inventory_item_id o) (t_quantity_mt t) (- t_quantity_mt t))
  | refund_overdue o now :
      linked_order d t = Some o → is_withdrawn (o_status o) = false → seen now → overdue_at o now = true →
      let o' := overdue_order o (t_quantity_mt t) in
      refund d seen t
        (MkMove (declined_trade t) (Some o') (o_inventory_item_id o)
           (o_remaining_quantity_mt o') (- o_remaining_quantity_mt o'))
  | refund_live o now :
      linked_order d t = Some o → is_withdrawn (o_status o) = false → seen now → overdue_at o now = false →
      refund d seen t (MkMove (declined_trade t) (Some (restored_order o (t_quantity_mt t))) None 0 0).

Inductive lifecycle_step (d : Database) (seen : datetime → Prop) (u : User) (t : Trade) : Move → Prop :=
  | step_confirm now :
      t_status t = PENDING_CONFIRMATION → live_parties t →
      acts_for d u t (counterparty_side t) → parties_admitted d t →
      seen now →
      lifecycle_step d seen u t
        (MkMove (confirmed_trade t now) None (backing_item (linked_order d t)) 0 (- t_quantity_mt t))
  | step_decline m :
      t_status t = PENDING_CONFIRMATION → may_decline d u t → refund d seen t m →
      lifecycle_step d seen u t m
  | step_deliver s p now :
      t_status t = CONFIRMED → acts_for d u t s → parties_admitted d t → deliver_payload_valid p →
      let quantity := to_cents (td_final_quantity_mt p) in
      let price := to_cents (td_final_price_per_mt p) in
      quantity <= t_quantity_mt t → 10 * Z.abs (price - t_price_per_mt_usd t) <= t_price_per_mt_usd t →
      let total := half_up_product quantity price in
      let commission := commission_cents quantity total (t_commission_rate_pct t) (t_commission_fee_per_mt_usd t) in
      seen now →
      lifecycle_step d seen u t (MkMove (delivered_trade t p total commission now) None None 0 0)
  | step_pay now :
      t_status t = DELIVERED → acts_for d u t ASK → u_role u = Some SUPPLIER → parties_admitted d t →
      seen now →
      lifecycle_step d seen u t (MkMove (paid_trade t now) None None 0 0).

(** ** Every step balances *)

(** What a lifecycle step leaves of a trade. *)
Definition same_terms (t t' : Trade) : Prop :=
  t_id t' = t_id t ∧ t_bid_order_id t' = t_bid_order_id t ∧ t_ask_order_id t' = t_ask_order_id t
  ∧ t_quantity_mt t' = t_quantity_mt t ∧ trade_idempotency_key t' = trade_idempotency_key t.

Lemma trade_item_linked d t : trade_item (orders d) t = backing_item (linked_order d t).
Proof. unfold trade_item, linked_order. by destruct (trade_order_id t). Qed.

Lemma same_terms_item m t t' : same_terms t t' → trade_item m t' = trade_item m t.
Proof. intros (_ & Hb & Ha & _). unfold trade_item, trade_order_id. by rewrite Ha, Hb. Qed.

(** A trade without an order holds and fills nothing. *)
Lemma trade_holds_pending d i t :
  t_status t = PENDING_CONFIRMATION →
  trade_holds (orders d) i t
  = if bool_decide (backing_item (linked_order d t) = Some i) then t_quantity_mt t else 0.
Proof. intros Hs. unfold trade_holds. by rewrite trade_item_linked, Hs. Qed.
Lemma trade_holds_settled m i t : t_status t ≠ PENDING_CONFIRMATION → trade_holds m i t = 0.
Proof. intros Hs. unfold trade_holds. by rewrite bool_decide_eq_false_2. Qed.

Lemma trade_fills_nonneg id t : trade_checks t → 0 <= trade_fills id t.
Proof. intros (_ & (Hq & _) & _). unfold trade_fills, required_numeric in *. destruct (_ && _); lia. Qed.
Lemma trade_fills_same id t t' :
  same_terms t t' → is_live (t_status t') = is_live (t_status t) → trade_fills id t' = trade_fills id t.
Proof. intros (_ & Hb & Ha & Hq & _) Hl. unfold trade_fills. by rewrite Ha, Hb, Hq, Hl. Qed.
Lemma trade_fills_dead id t : is_live (t_status t) = false → trade_fills id t = 0.
Proof. intros H. unfold trade_fills. by rewrite H, andb_false_r. Qed.
Lemma trade_fills_linked id t :
  is_live (t_status t) = true → trade_order_id t = Some id → trade_fills id t = t_quantity_mt t.
Proof.
  intros Hl Hid. unfold trade_fills, trade_order_id in *. rewrite Hl.
  destruct (t_ask_order_id t); [|rewrite Hid]; rewrite ?Hid, (bool_decide_eq_true_2 (Some id = _)) by done;
    by rewrite ?orb_true_r.
Qed.

(** The order a refusal writes. *)
Lemma overdue_order_row o n :
  same_identity o (overdue_order o n) ∧ o_status (overdue_order o n) = EXPIRED
  ∧ o_remaining_quantity_mt (overdue_order o n) = o_remaining_quantity_mt o + n.
Proof. unfold overdue_order, bump_version. case_bool_decide; by repeat split. Qed.
Lemma restored_order_row o n :
  same_identity o (restored_order o n)
  ∧ is_withdrawn (o_status (restored_order o n)) = false
  ∧ o_remaining_quantity_mt (restored_order o n) = o_remaining_quantity_mt o + n.
Proof.
  unfold restored_order, bump_version.
  case_bool_decide; cbn; (split_and!; [by repeat split|by destruct (_ =? _)|done]).
Qed.

(** The obligations of a step on a trade of the tables. *)
Lemma balanced_step d t m :
  market_ok d → trades d !! t_id t = Some t → same_terms t (mv_trade m) → trade_checks (mv_trade m) →
  (∀ o', mv_order m = Some o' → ∃ o, linked_order d t = Some o ∧ same_identity o o' ∧ order_checks o') →
  (∀ i, trade_holds (orders d) i (mv_trade m) - trade_holds (orders d) i t
        + order_change d (order_holds i) m = if bool_decide (mv_item m = Some i) then mv_reserved m else 0) →
  0 <= mv_current m <= - mv_reserved m →
  (∀ id, trade_fills id (mv_trade m) - trade_fills id t
         + (if bool_decide (o_id <$> mv_order m = Some id)
            then order_change d o_remaining_quantity_mt m else 0) <= 0) →
  balanced d m.
Proof.
  intros Hok Ht Hst Hc Ho Hh Hs Hf. pose proof Hst as (Hid & _ & _ & _ & Hkey).
  destruct Hok as (_ & (Hk & _) & _).
  split; [done| | | |done|].
  - unfold same_key_or_new. by rewrite Hid, Ht.
  - intros o' Ho'. destruct (Ho o' Ho') as (o & Hl & Hident & Hck). exists o. split_and!; [|done..].
    destruct Hident as (-> & _). unfold linked_order in Hl. destruct (trade_order_id t) as [k|]; [|done].
    cbn in Hl. by rewrite (Hk k o Hl).
  - intros i _. unfold held_before. rewrite Hid, Ht. apply Hh.
  - intros id o _. unfold filled_before. rewrite Hid, Ht. apply Hf.
Qed.

Section steps.
Context (d : Database) (t : Trade) (Hok : market_ok d) (Ht : trades d !! t_id t = Some t).
#[local] Abbreviation q := (t_quantity_mt t).

Lemma step_trade_checks : trade_checks t.
Proof. destruct Hok as ((_ & Hc & _) & _). by eapply Hc. Qed.

Lemma linked_order_lookup o :
  linked_order d t = Some o → trade_order_id t = Some (o_id o) ∧ orders d !! o_id o = Some o.
Proof.
  unfold linked_order. destruct (trade_order_id t) as [k|]; [|done]. cbn. intros Hk.
  destruct Hok as (_ & (Hkey & _) & _). by rewrite (Hkey k o Hk).
Qed.

Lemma linked_order_room o :
  linked_order d t = Some o → is_live (t_status t) = true → order_checks o ∧
  o_remaining_quantity_mt o + q <= o_quantity_mt o.
Proof.
  intros Ho Hl. destruct (linked_order_lookup o Ho) as [Hid Hlook].
  destruct Hok as ((Hco & Hct & _) & _ & _ & _ & _ & Hf). split; [by eapply Hco|].
  specialize (Hf _ _ Hlook). cbn beta in Hf.
  assert (trade_fills (o_id o) t <= filled_stock d (o_id o)) as Hle.
  { apply (sum_map_le_one _ _ (t_id t)); [|done]. intros k x Hx. apply trade_fills_nonneg. by eapply Hct. }
  rewrite (trade_fills_linked _ t Hl Hid) in Hle. lia.
Qed.

(** A step that only moves the trade along. *)
Lemma balanced_advance t' :
  same_terms t t' → trade_checks t' → is_live (t_status t') = is_live (t_status t) →
  t_status t ≠ PENDING_CONFIRMATION → t_status t' ≠ PENDING_CONFIRMATION →
  balanced d (MkMove t' None None 0 0).
Proof.
  intros Hst Hc Hl H1 H2. apply (balanced_step d t); cbn; try done.
  - intros i. rewrite !trade_holds_settled by done. unfold order_change. cbn. done.
  - intros id. rewrite (trade_fills_same id t t') by done. unfold order_change. cbn. case_bool_decide; lia.
Qed.

Lemma balanced_confirm now :
  t_status t = PENDING_CONFIRMATION →
  balanced d (MkMove (confirmed_trade t now) None (backing_item (linked_order d t)) 0 (- q)).
Proof.
  intros Hp. pose proof step_trade_checks as (Hdom & Hnum & (Hfin & Hlife) & Hrest).
  rewrite Hp in Hlife. destruct Hlife as (_ & H2 & H3 & H4).
  apply (balanced_step d t); cbn; try done.
  - intros i. rewrite trade_holds_settled, trade_holds_pending by done. unfold order_change. cbn.
    case_bool_decide; lia.
  - destruct Hnum as ((? & _) & _). lia.
  - intros id.
    assert (trade_fills id (confirmed_trade t now) = trade_fills id t) as ->.
    { apply trade_fills_same; [done|]. cbn. by rewrite Hp. }
    unfold order_change. cbn. case_bool_decide; lia.
Qed.

(** What refusing leaves of the trade itself. *)
Lemma declined_checks : t_status t = PENDING_CONFIRMATION → trade_checks (declined_trade t).
Proof.
  intros Hp. pose proof step_trade_checks as (Hdom & Hnum & (Hfin & Hlife) & Hrest).
  rewrite Hp in Hlife. destruct Hlife as (_ & H2 & H3 & H4). 
  exact (conj Hdom (conj Hnum (conj (conj Hfin (conj H2 (conj H3 H4))) Hrest))).
Qed.

Section refused.
Context (Hp : t_status t = PENDING_CONFIRMATION).

Lemma refused_quantity : 1 <= q.
Proof. by destruct step_trade_checks as (_ & ((? & _) & _) & _). Qed.
Lemma refused_fills id : trade_fills id (declined_trade t) - trade_fills id t <= 0.
Proof.
  rewrite (trade_fills_dead id (declined_trade t)) by done.
  pose proof (trade_fills_nonneg id t step_trade_checks). lia.
Qed.
Lemma refused_holds i :
  trade_holds (orders d) i (declined_trade t) - trade_holds (orders d) i t
  = if bool_decide (backing_item (linked_order d t) = Some i) then - q else 0.
Proof.
  rewrite (trade_holds_settled _ _ (declined_trade t)), trade_holds_pending by done.
  case_bool_decide; lia.
Qed.

(** The order keeps its row. *)
Lemma balanced_unsettled item :
  (∀ i, bool_decide (backing_item (linked_order d t) = Some i) = bool_decide (item = Some i)) →
  balanced d (MkMove (declined_trade t) None item q (- q)).
Proof.
  intros Hitem. pose proof refused_quantity.
  apply (balanced_step d t); cbn; [done..|by apply declined_checks|done| |lia|].
  - intros i. rewrite refused_holds, Hitem. unfold order_change. cbn. lia.
  - intros id. pose proof (refused_fills id). unfold order_change. cbn. case_bool_decide; lia.
Qed.

(** The order gets the quantity back. *)
Lemma balanced_settled o o' item current reserved :
  linked_order d t = Some o → same_identity o o' → order_checks o' →
  o_remaining_quantity_mt o' = o_remaining_quantity_mt o + q →
  (∀ i, order_holds i o' - order_holds i o + (if bool_decide (o_inventory_item_id o = Some i) then - q else 0)
        = if bool_decide (item = Some i) then reserved else 0) →
  0 <= current <= - reserved →
  balanced d (MkMove (declined_trade t) (Some o') item current reserved).
Proof.
  intros Hl Hid Hck Hrem Hh Hs. destruct (linked_order_lookup o Hl) as [Hoid Hlook].
  pose proof Hid as (Eid & _).
  assert (∀ f, order_change d f (MkMove (declined_trade t) (Some o') item current reserved) = f o' - f o) as Hch.
  { intros f. unfold order_change. cbn. by rewrite Eid, Hlook. }
  apply (balanced_step d t); [done..|by apply declined_checks| | |done|]; cbn [mv_trade mv_order mv_item].
  - intros o1 [= <-]. by exists o.
  - intros i. rewrite refused_holds, Hl, Hch, <-Hh. cbn [backing_item mbind option_bind]. lia.
  - intros id. rewrite Hch, Hrem. cbn. rewrite Eid. case_bool_decide as Hb.
    + injection Hb as <-. rewrite (trade_fills_dead _ (declined_trade t)) by done.
      rewrite (trade_fills_linked _ t) by (done || by rewrite Hp). lia.
    + pose proof (refused_fills id). lia.
Qed.

Lemma balanced_refund seen m :
  refund d seen t m → (∀ o', mv_order m = Some o' → order_checks o') → balanced d m.
Proof.
  pose proof refused_quantity as Hq.
  intros [Hl|o Hl Hw|o now Hl Hw _ Hover o'|o now Hl Hw _ Hover] Hck; cbn in Hck.
  - apply (balanced_step d t); cbn; [done..|by apply declined_checks|done| |lia|].
    + intros i. rewrite refused_holds, Hl. done.
    + intros id. pose proof (refused_fills id). unfold order_change. cbn. case_bool_decide; lia.
  - apply balanced_unsettled. intros i. by rewrite Hl.
  - destruct (overdue_order_row o q) as (Hid & Hst & Hrem). fold o' in Hid, Hst, Hrem.
    destruct (linked_order_room o Hl) as [Hc _]; [by rewrite Hp|]. apply order_checks_remaining in Hc.
    apply (balanced_settled o); [done|done|by apply Hck|done| |lia].
    intros i. destruct Hid as (_ & _ & Hi & _). unfold order_holds. rewrite Hi, Hst, Hw, Hrem.
    change (is_withdrawn EXPIRED) with true. case_bool_decide; cbn; lia.
  - destruct (restored_order_row o q) as (Hid & Hst & Hrem).
    apply (balanced_settled o); [done|done|by apply Hck|done| |lia].
    intros i. destruct Hid as (_ & _ & Hi & _). unfold order_holds. rewrite Hi, Hst, Hw, Hrem, if_same.
    case_bool_decide; cbn; lia.
Qed.
End refused.

Lemma delivered_checks p total commission now :
  t_status t = CONFIRMED → deliver_payload_valid p → to_cents (td_final_quantity_mt p) <= q →
  0 <= total <= cents 100000000000 → 0 <= commission <= cents 100000000000 →
  trade_checks (delivered_trade t p total commission now).
Proof.
  intros Hs [[_ Hq] [_ Hp]] Hle Htot Hc.
  pose proof step_trade_checks as (Hdom & (N1 & N2 & _ & _ & _ & N6 & N7 & _) & (_ & Hlife) & Hrest).
  rewrite Hs in Hlife. destruct Hlife as (H1 & _ & H3 & _).
  unfold trade_checks. split_and!; [done| | |apply Hrest..].
  - unfold TRADE_NUMERIC_VALUES. cbn. by split_and!.
  - unfold TRADE_LIFECYCLE. cbn. by split_and!.
Qed.

Lemma paid_checks now : t_status t = DELIVERED → trade_checks (paid_trade t now).
Proof.
  intros Hs. pose proof step_trade_checks as (Hdom & Hnum & (Hf & Hlife) & Hrest).
  rewrite Hs in Hlife. destruct Hlife as (H1 & H2 & _ & H4).
  refine (conj Hdom (conj Hnum (conj (conj Hf (conj H1 (conj H2 (conj _ H4)))) Hrest))). done.
Qed.

Lemma lifecycle_balanced seen u m :
  lifecycle_step d seen u t m → (∀ o', mv_order m = Some o' → order_checks o') → balanced d m.
Proof.
  intros [now Hs _ _ _ _|m' Hs _ Href|s p now Hs _ _ Hv quantity price Hle Hband total commission _|now Hs _ _ _ _] Hck.
  - by apply balanced_confirm.
  - by eapply balanced_refund.
  - pose proof step_trade_checks as (_ & (_ & _ & _ & _ & _ & N6 & N7 & _) & _).
    assert (amount_within (td_final_quantity_mt p) 0 (cents 100000)
            ∧ amount_within (td_final_price_per_mt p) 0 (cents 1000000)) as [Hq Hp].
    { destruct Hv as [[? ?] [? ?]]. unfold amount_within. lia. }
    apply balanced_advance; cbn; [done| |by rewrite Hs..|done].
    apply delivered_checks; try done; [by apply delivery_total_bounds|by apply commission_bounds].
  - apply balanced_advance; cbn; [done|by apply paid_checks|by rewrite Hs..|done].
Qed.
End steps.

(** ** Hitting an order

    The role that may take each side, and the one step of [create_trade]: the
    reviewed terms of an active, unexpired live order of another organization,
    within its remainder, between two admitted parties, at the seller's fee. *)

Definition taker_role (s : OrderSide) : UserRole := match s with ASK => BUYER | BID => SUPPLIER end.

Definition hit_seller (order : Order) (org : uuid) : uuid :=
  match o_side order with ASK => o_organization_id order | BID => org end.

Inductive hit_step (d : Database) (cfg : Settings) (seen : datetime → Prop) (u : User) (p : TradeCreate) (k : CreateKey) : Move → Prop :=
  | step_hit order org owner now fee_time created_at plan fee :
      orders d !! tc_order_id p = Some order →
      tc_expected_terms_digest p = Some (order_terms_digest order) →
      is_active_status (o_status order) = true → seen now → overdue_at order now = false →
      order_is_execution_qualified order = true → o_provenance order = REAL →
      is_demo_market_organization (Some (o_organization_id order)) = false →
      u_organization_id u = Some org → o_organization_id order ≠ org →
      u_role u = Some (taker_role (o_side order)) → o_owner_user_id order = Some owner →
      execution_party_is_eligible d (users d !! u_id u) (organizations d !! org) = true →
      order_owner_is_execution_eligible d order (users d !! owner)
        (organizations d !! o_organization_id order) = true →
      to_cents (tc_quantity_mt p) <= o_remaining_quantity_mt order →
      seen fee_time → seller_trade_fee d cfg (hit_seller order org) fee_time = Val (plan, fee) →
      seen created_at →
      hit_step d cfg seen u p k
        (MkMove (new_trade d order (to_cents (tc_quantity_mt p)) u org REAL REAL plan fee k created_at)
           (Some (hit_order order (to_cents (tc_quantity_mt p)))) None 0 0).

Lemma hit_order_row o n :
  same_identity o (hit_order o n) ∧ o_remaining_quantity_mt (hit_order o n) = o_remaining_quantity_mt o - n
  ∧ (is_active_status (o_status o) = true → is_withdrawn (o_status (hit_order o n)) = false).
Proof.
  unfold hit_order, bump_version.
  case_bool_decide; cbn; (split_and!; [by repeat split|done|]); (destruct (_ =? _); [done|]);
    (destruct (bool_decide (o_status o = OPEN)); [done|apply active_not_withdrawn]).
Qed.

(** The rows of a checked result. *)
Lemma moved_checked d m d' :
  database_checks d' → same_ledger (moved d m) d' →
  trade_checks (mv_trade m) ∧ (∀ o', mv_order m = Some o' → order_checks o')
  ∧ (trades d !! t_id (mv_trade m) = None → same_key_or_new d (mv_trade m)).
Proof.
  intros (Ho & Ht & _ & _ & _ & (_ & _ & _ & Hu & _) & _) (Eo & Et & _). rewrite Eo in Ho. rewrite Et in Ht, Hu. split_and!.
  - apply (Ht (t_id (mv_trade m))). apply lookup_insert_eq.
  - intros o' Ho'. apply (Ho (o_id o')). unfold moved, moved_orders. rewrite Ho'. apply lookup_insert_eq.
  - intros Hnew. unfold same_key_or_new. rewrite Hnew. intros j t Hj Hkey.
    destruct (decide (trade_idempotency_key (mv_trade m) = None)) as [|Hne]; [done|exfalso].
    assert (j ≠ t_id (mv_trade m)) as Hjn by congruence.
    apply Hjn. symmetry. apply (proj1 (unique_on_spec _ _) Hu _ _ (mv_trade m) t); [apply lookup_insert_eq| |done..].
    unfold moved. cbn. by rewrite lookup_insert_ne.
Qed.

Lemma hit_balanced d cfg seen u p k m d' :
  market_ok d → hit_step d cfg seen u p k m → database_checks d' → same_ledger (moved d m) d' → balanced d m.
Proof.
  intros Hok Hstep Hc Hled. destruct (moved_checked d m d' Hc Hled) as (Htc & Hoc & Hkey).
  destruct Hstep as [o org owner now fee_time created_at plan fee Ho _ Hact _ _ _ _ _ _ _ _ _ _ _ Hq _ _ _].
  set (n := to_cents (tc_quantity_mt p)) in *. destruct Hok as (_ & (Hk & _) & _).
  pose proof (Hk _ _ Ho) as Hid. cbn beta in Hid. rewrite <-Hid in Ho.
  destruct (hit_order_row o n) as (Hident & Hrem & Hw). specialize (Hw Hact).
  pose proof Hident as (Eid & _ & Ei & _). apply active_not_withdrawn in Hact as Hnw.
  cbn [mv_trade mv_order mv_item mv_current mv_reserved] in *.
  set (t := new_trade d o n u org REAL REAL plan fee k created_at) in *.
  assert (trades d !! t_id t = None) as Hnew by apply fresh_id_none.
  assert (trade_order_id t = Some (o_id o)) as Hto by (unfold t, trade_order_id; cbn; by case_bool_decide).
  assert (∀ f, order_change d f (MkMove t (Some (hit_order o n)) None 0 0) = f (hit_order o n) - f o) as Hch.
  { intros f. unfold order_change. cbn. by rewrite Eid, Ho. }
  split; cbn [mv_trade mv_order mv_item mv_current mv_reserved]; [done|by apply Hkey| | |done|].
  - intros o' [= <-]. exists o. split_and!; [by rewrite Eid|done|by apply Hoc].
  - intros i _. rewrite Hch. unfold held_before. cbn [mv_trade]. rewrite Hnew.
    unfold trade_holds, trade_item. rewrite Hto. cbn [mbind option_bind]. rewrite Ho. cbn [mbind option_bind].
    unfold order_holds. rewrite Ei, Hrem, Hw, Hnw, if_same.
    change (bool_decide (t_status t = _)) with true. change (t_quantity_mt t) with n. case_bool_decide; cbn; lia.
  - intros id o1 _. rewrite Hch, Hrem. unfold filled_before. cbn [mv_trade]. rewrite Hnew. cbn. rewrite Eid.
    case_bool_decide as Hb.
    + injection Hb as <-. rewrite (trade_fills_linked _ t) by done. change (t_quantity_mt t) with n. lia.
    + assert (trade_fills id t = 0) as ->; [|lia].
      unfold trade_fills, t. cbn. destruct (bool_decide (o_side o = ASK));
        rewrite !bool_decide_eq_false_2 by (done || congruence); done.
Qed.
