(* ===== verification/TradesSafety.v ===== *)
(** * What the trade routes guarantee

    The lifecycle of a trade as a transition system over the ledger, and the
    routes of [Trades] as its implementation: who may take which step, what the
    step changes, and that nothing else happens - no partial effect, no step
    out of order, no loss of the market invariant. *)

From S2P Require Import Prelude Sha256 Catalog Calendar AvailabilityWindows Decimal Json Schema OrderTerms Constraints Delivery Database Scenario Policy Eligibility Events Commands TradeViews Watchlist Benchmarks Inventory Ledger TradeLedger Admission RequestParty Trades TradeSteps.
Local Open Scope Z_scope.

(** ** Frames of the guards *)

Lemma reads_require u : Keeps reads (require_execution_eligible_user u).
Proof. unfold require_execution_eligible_user. keeps. Qed.
Lemma reads_load_trade id b : Keeps reads (_load_trade id b).
Proof. unfold _load_trade. keeps. Qed.
Lemma reads_trade_response t v a : Keeps reads (trade_response t v a).
Proof. unfold trade_response. keeps. Qed.
#[export] Hint Resolve reads_require reads_load_trade reads_trade_response : keeps.

Lemma synced_rollback_raise {A} b e (k : M World A) :
  Keeps reads_synced k → Keeps reads_synced (rollback_raise b e k).
Proof. unfold rollback_raise. intros Hk. destruct b; [keeps|done]. Qed.
#[export] Hint Resolve synced_rollback_raise : keeps.

Lemma synced_lock_rows id : Keeps reads_synced (_lock_trade_market_rows id).
Proof.
  unfold _lock_trade_market_rows. keeps.
  apply synced_rollback_raise. keeps.
Qed.
Lemma reads_revalidate t : Keeps reads (_revalidate_trade_parties t).
Proof. unfold _revalidate_trade_parties. keeps. Qed.
Lemma reads_authorize t o u s : Keeps reads (_authorize_assisted_trade_actor t o u s).
Proof. unfold _authorize_assisted_trade_actor. keeps. Qed.
Lemma reads_lock_parties t u : Keeps reads (lock_trade_parties t u).
Proof. unfold lock_trade_parties. keeps. Qed.
#[export] Hint Resolve synced_lock_rows reads_revalidate reads_authorize reads_lock_parties : keeps.

Lemma reads_admit_confirmation t o u : Keeps reads (admit_confirmation t o u).
Proof. unfold admit_confirmation. keeps. Qed.
Lemma synced_admit_refusal t o u : Keeps reads_synced (admit_refusal t o u).
Proof. unfold admit_refusal. apply synced_rollback_raise. keeps. Qed.
Lemma reads_admit_delivery t o p u : Keeps reads (admit_delivery t o p u).
Proof. unfold admit_delivery. keeps. Qed.
Lemma reads_admit_payment t o u : Keeps reads (admit_payment t o u).
Proof. unfold admit_payment. keeps. Qed.
#[export] Hint Resolve reads_admit_confirmation synced_admit_refusal reads_admit_delivery
  reads_admit_payment : keeps.

(** ** What the guards establish *)

Lemma load_trade_ok id b w t w1 :
  _load_trade id b w = Ok t w1 → trades (db w) !! id = Some t ∧ db w1 = db w.
Proof.
  unfold _load_trade. destruct b; intros H; inv_run H; cbn in H;
    (destruct (trades _ !! id) eqn:Ht; [|discriminate]); inversion H; subst; done.
Qed.

Lemma lock_rows_ok id w t o w1 :
  _lock_trade_market_rows id w = Ok (t, o) w1 →
  trades (db w) !! id = Some t ∧ o = linked_order (db w) t
  ∧ (o ≠ None → _trade_market_slice (db w) t = order_slice <$> o) ∧ (trade_order_id t = None ∨ o ≠ None).
Proof.
  unfold _lock_trade_market_rows. intros (preview & w2 & Hprev & H)%bind_ok.
  apply load_trade_ok in Hprev as [Hprev Hdb2]. erewrite bind_run in H by reflexivity.
  apply bind_ok in H as ([] & w3 & Hlock & H).
  assert (db w3 = db w2) as Hdb3.
  { destruct (_trade_market_slice (db w2) preview) as [[[p dp] win]|]; [|by inversion Hlock].
    apply (reads_ok _ _ _ _ (reads_slice_lock p dp win)) in Hlock. by destruct Hlock. }
  apply bind_ok in H as (t' & w4 & Ht' & H). apply load_trade_ok in Ht' as [Ht' Hdb4].
  assert (db w4 = db w) as E4 by congruence. assert (db w3 = db w) as E3 by congruence.
  erewrite bind_run in H by reflexivity. rewrite E4, Hdb2 in H. rewrite E3 in Ht'.
  assert (preview = t') as -> by congruence.
  unfold rollback_raise in H at 1. rewrite bool_decide_eq_false_2 in H by (intros Hne; by apply Hne).
  unfold linked_order. destruct (trade_order_id t') as [oid|] eqn:Hoid.
  2: { inversion H; subst. rewrite Hoid. cbn. split_and!; [done..|by left]. }
  do 2 (erewrite bind_run in H by reflexivity). change (db (w4 <| locks := _ |>)) with (db w4) in H.
  rewrite E4 in H. destruct (orders (db w) !! oid) as [x|] eqn:Hx; [|discriminate].
  unfold rollback_raise in H. case_bool_decide as Hslice; [discriminate|]. inversion H; subst.
  rewrite Hoid. cbn. split_and!; [done..| |by right]. intros _.
  destruct (decide (_trade_market_slice (db w) t = Some (order_slice x))); [done|contradiction].
Qed.

Lemma assisted_side_ok t o s org role owner :
  _assisted_trade_side t o = Val (Some (s, org, role, owner)) →
  o_creation_method o = MARKET_SUPPORT ∧ o_side o = s ∧ org = side_org t s ∧ role = side_role s
  ∧ o_organization_id o = side_org t s ∧ o_owner_user_id o = side_user t s ∧ side_user t s = Some owner.
Proof.
  unfold _assisted_trade_side. case_bool_decide as Hm; [discriminate|].
  destruct (o_owner_user_id o) as [own|]; [|discriminate].
  destruct (o_side o); (destruct (_ && _) eqn:Hc; [|discriminate]); intros [= <- <- <- <-];
    rewrite !andb_true_iff, !bool_decide_eq_true in Hc; destruct_and!; cbn;
    (split_and!; [destruct (o_creation_method o); tauto|done..|congruence]).
Qed.

Lemma authorize_ok d t u expected w b w1 :
  db w = d → users d !! u_id u = Some u →
  _authorize_assisted_trade_actor t (linked_order d t) u expected w = Ok b w1 →
  b = true → ∃ s, acts_for d u t s ∧ assisted_for d u t s ∧ match expected with Some e => s = e | None => True end.
Proof.
  intros Hd Hu. unfold _authorize_assisted_trade_actor.
  destruct (linked_order d t) as [o|] eqn:Ho; [|intros H ->; inversion H].
  intros H ->. apply bind_ok in H as (side & w2 & Hside & H). apply lift_ok in Hside as [Hside ->].
  destruct side as [[[[s org] role] owner]|]; [|inversion H].
  apply assisted_side_ok in Hside as (Hm & Hs & -> & -> & Horg & Howner & Huser).
  erewrite bind_run in H by reflexivity. rewrite Hd, Hu in H.
  destruct (organizations d !! side_org t s) as [g|]; [|discriminate].
  apply bind_ok in H as ([] & w3 & Hr & H). apply refuse_ok in Hr as [Hown ->].
  rewrite bool_decide_eq_false in Hown.
  destruct (negb (_ && _)) eqn:Hmem; [inversion H|].
  rewrite negb_false_iff, andb_true_iff, !bool_decide_eq_true in Hmem. destruct Hmem as [Hmem Hrole].
  apply bind_ok in H as ([] & w4 & Hr & H). apply refuse_ok in Hr as [Hexp ->].
  assert (assisted_for d u t s) as Has.
  { exists o. split_and!; try done; congruence. }
  exists s. split_and!; [|done|].
  - split; [done|by right].
  - destruct expected as [e|]; [|done]. by apply bool_decide_eq_false, dec_stable in Hexp.
Qed.

Lemma is_principal_spec u org user :
  is_principal u org user = true ↔ u_organization_id u = Some org ∧ user = Some (u_id u).
Proof. unfold is_principal. by rewrite andb_true_iff, !bool_decide_eq_true. Qed.

Lemma revalidate_ok d t w u w1 :
  db w = d → _revalidate_trade_parties t w = Ok u w1 → parties_admitted d t.
Proof.
  intros Hd. unfold _revalidate_trade_parties. destruct (t_buyer_user_id t) as [b|] eqn:Hb; [|discriminate].
  destruct (t_seller_user_id t) as [s|] eqn:Hs; [|discriminate]. unfold lock_users, lock_organizations.
  intros H. inv_run H. rename Hguard into Hg. cbn [db set_field] in Hg.
  match type of Hg with context [db ?x] => change (db x) with (db w) in Hg end.
  rewrite orb_false_iff, !negb_false_iff, !locked_lookup in Hg by set_solver.
  by exists b, s.
Qed.

(** A returning guard: the actor is the principal of the side, or assisted. *)
Lemma actor_guard d t u w assisted w1 (s : OrderSide) :
  db w = d → users d !! u_id u = Some u →
  _authorize_assisted_trade_actor t (linked_order d t) u (Some s) w = Ok assisted w1 →
  negb assisted && negb (is_principal u (side_org t s) (side_user t s)) = false →
  acts_for d u t s.
Proof.
  intros Hd Hu Hauth Hguard. rewrite andb_false_iff, !negb_false_iff in Hguard. destruct Hguard as [->|Hp].
  - by destruct (authorize_ok d t u _ w true w1 Hd Hu Hauth eq_refl) as (s' & Hacts & _ & ->).
  - apply is_principal_spec in Hp as [Ho Hsu]. split; [done|by left].
Qed.

Section guards.
Context (d : Database) (t : Trade) (u : User) (w w1 : World).
Context (Hd : db w = d) (Hu : users d !! u_id u = Some u).

Lemma admit_confirmation_ok x :
  admit_confirmation t (linked_order d t) u w = Ok x w1 →
  t_status t = PENDING_CONFIRMATION ∧ live_parties t ∧ acts_for d u t (counterparty_side t)
  ∧ parties_admitted d t.
Proof.
  unfold admit_confirmation. intros ([] & w2 & [Hs ->]%refuse_ok & H)%bind_ok.
  apply bind_ok in H as ([] & w3 & [Hp ->]%refuse_ok & H).
  apply bind_ok in H as (assisted & w4 & Hauth & H).
  pose proof (reads_ok _ _ _ _ (reads_authorize t (linked_order d t) u (Some (counterparty_side t))) Hauth) as (Hdb & _).
  apply bind_ok in H as ([] & w5 & Hact & H).
  rewrite bool_decide_eq_false in Hs. apply dec_stable in Hs.
  apply negb_false_iff, provenance_compatible_without_demo_pair in Hp.
  assert (w5 = w4 ∧ acts_for d u t (counterparty_side t)) as [-> Hacts].
  { unfold counterparty_side in *. destruct (t_initiated_by t); apply refuse_ok in Hact as [Hg ->];
      (split; [done|]); by eapply actor_guard. }
  split_and!; [done|done|done|]. eapply revalidate_ok; [|exact H]. congruence.
Qed.

Lemma admit_refusal_ok x :
  admit_refusal t (linked_order d t) u w = Ok x w1 →
  t_status t = PENDING_CONFIRMATION ∧ may_decline d u t.
Proof.
  unfold admit_refusal, rollback_raise. case_bool_decide as Hs; [discriminate|].
  intros (side & w2 & [_ ->]%lift_ok & H)%bind_ok. apply bind_ok in H as (orgs & w3 & Hl & H).
  apply (reads_ok _ _ _ _ (reads_lock_and_load _ _ _ _)) in Hl as (Hdb3 & _).
  apply bind_ok in H as (assisted & w4 & Hauth & H). apply refuse_ok in H as [Hg _].
  apply negb_false_iff in Hg. split; [done|]. unfold may_decline, is_counterparty in *.
  apply orb_true_iff in Hg as [->|Hg].
  - destruct (authorize_ok d t u _ w3 true w4 ltac:(congruence) Hu Hauth eq_refl) as (s & Hacts & _ & ->). by right; left.
  - unfold counterparty_side, side_user, side_org in *. destruct (t_initiated_by t).
    + destruct (t_seller_user_id t); apply bool_decide_eq_true in Hg; [left; congruence|by right; right].
    + destruct (t_buyer_user_id t); apply bool_decide_eq_true in Hg; [left; congruence|by right; right].
Qed.

Lemma admit_delivery_ok p x :
  admit_delivery t (linked_order d t) p u w = Ok x w1 →
  t_status t = CONFIRMED ∧ (∃ s, acts_for d u t s) ∧ parties_admitted d t
  ∧ to_cents (td_final_quantity_mt p) <= t_quantity_mt t
  ∧ ∃ pct, price_deviation_pct (td_final_price_per_mt p) (of_cents (t_price_per_mt_usd t)) = Val pct
      ∧ dltb MAX_FINAL_PRICE_DEVIATION_PCT pct = false.
Proof.
  unfold admit_delivery. intros ([] & w2 & [Hs ->]%refuse_ok & H)%bind_ok.
  apply bind_ok in H as (assisted & w4 & Hauth & H).
  pose proof (reads_ok _ _ _ _ (reads_authorize t (linked_order d t) u None) Hauth) as (Hdb & _).
  apply bind_ok in H as ([] & w5 & [Hact ->]%refuse_ok & H).
  apply bind_ok in H as ([] & w6 & Hrev & H).
  apply bind_ok in H as ([] & w7 & [Hq ->]%refuse_ok & H).
  apply bind_ok in H as (pct & w8 & [Hpct ->]%lift_ok & [Hband _]%refuse_ok).
  rewrite bool_decide_eq_false in Hs. apply dec_stable in Hs. apply Z.ltb_ge in Hq.
  split_and!; [done| |eapply revalidate_ok; [|exact Hrev]; congruence|done|by exists pct].
  rewrite andb_false_iff, !negb_false_iff, orb_true_iff, !is_principal_spec in Hact.
  destruct Hact as [->|[[Ho Hsu]|[Ho Hsu]]].
  - destruct (authorize_ok d t u _ w true w4 Hd Hu Hauth eq_refl) as (s & Hacts & _). by exists s.
  - exists BID. split; [done|by left].
  - exists ASK. split; [done|by left].
Qed.

Lemma admit_payment_ok x :
  admit_payment t (linked_order d t) u w = Ok x w1 →
  t_status t = DELIVERED ∧ acts_for d u t ASK ∧ u_role u = Some SUPPLIER ∧ parties_admitted d t.
Proof.
  unfold admit_payment. intros ([] & w2 & [Hs ->]%refuse_ok & H)%bind_ok.
  apply bind_ok in H as (assisted & w4 & Hauth & H).
  pose proof (reads_ok _ _ _ _ (reads_authorize t (linked_order d t) u (Some ASK)) Hauth) as (Hdb & _).
  apply bind_ok in H as ([] & w5 & [Hact ->]%refuse_ok & H).
  apply bind_ok in H as ([] & w6 & [Hrole ->]%refuse_ok & H).
  rewrite bool_decide_eq_false in Hs, Hrole. apply dec_stable in Hs, Hrole.
  split_and!; [done|by eapply (actor_guard d t u w assisted w4 ASK)|done|].
  eapply revalidate_ok; [|exact H]. congruence.
Qed.
End guards.

(** ** The common tail of a command *)

Definition trade_operations : list string :=
  [TRADE_CONFIRM_OPERATION; TRADE_DECLINE_OPERATION; TRADE_DELIVER_OPERATION; TRADE_PAY_OPERATION].

Lemma run_command_outcome raw u operation id payload body w (P : outcome World reply → Prop) :
  operation ∈ trade_operations →
  (∀ e w1, reads w w1 → P (Raise e w1)) →
  (∀ status b w1, reads w w1 → stored_response (db w) u operation id status b → P (Ok (Replayed status b) w1)) →
  (∀ command w1, reads w w1 → (∀ a, command = Some a → attempt_ready (db w) a) → P (body command w1)) →
  P (run_command raw u operation id payload body w).
Proof.
  intros Hop Hraise Hreplay Hbody. unfold run_command.
  apply reads_bind; [keeps|done|]. intros command w1 Hrun Hr.
  apply prepare_ok in Hrun; [|unfold trade_operations in Hop; set_solver|set_solver].
  destruct (mbind _ _) as [r|]; [by apply Hreplay|by apply Hbody].
Qed.

Lemma market_ok_recorded d command status body :
  market_ok d → (∀ a, command = Some a → attempt_ready d a) → 200 <= status <= 299 →
  market_ok (recorded d command status body).
Proof.
  intros Hok Ha Hs. pose proof (recorded_checks d command status body (proj1 Hok) Ha Hs) as Hc.
  split; [done|]. destruct Hok as (_ & Hrest). destruct command; exact Hrest.
Qed.

Lemma recorded_ledger d command status body : same_ledger d (recorded d command status body).
Proof. by destruct command. Qed.

(** Nobody's account or organization changes. *)
Definition same_people (d d' : Database) : Prop :=
  users d' = users d ∧ organizations d' = organizations d.

Lemma recorded_people d command status body : same_people d (recorded d command status body).
Proof. by destruct command. Qed.

(** The response every route returns. *)
Definition response_to (d : Database) (t : Trade) (u : User) : TradeResponse :=
  build_trade_response t (organizations d !! t_buyer_id t) (organizations d !! t_seller_id t)
    (u_organization_id u) (is_admin u).

Lemma finish_run command t u w :
  market_ok (db w) → (∀ a, command = Some a → attempt_ready (db w) a) →
  ∃ w', finish_command command t u w = Ok (Fresh (response_to (db w) t u)) w'
    ∧ market_ok (db w') ∧ committed w' = db w' ∧ same_ledger (db w) (db w') ∧ same_people (db w) (db w').
Proof.
  intros Hok Ha. unfold finish_command. erewrite bind_run by (apply flush_run, Hok).
  erewrite bind_run by reflexivity. fold (response_to (db w) t u). set (r := response_to (db w) t u).
  destruct (record_success_run command 200 (response_body r) w (proj1 Hok) Ha ltac:(lia)) as (w' & Hrun & Hc & Hw').
  erewrite bind_run by exact Hrun.
  assert (commit w' = Ok tt (w' <| committed := db w' |>)) as Hcommit.
  { by apply commit_run. }
  erewrite bind_run by exact Hcommit. eexists. split; [reflexivity|]. cbn. rewrite Hw'. cbn.
  split_and!; [by apply market_ok_recorded|done|apply recorded_ledger..|apply recorded_people].
Qed.

Lemma public_key_fresh t extra :
  payload_has PUBLIC_MARKET_INVALIDATION_KEY extra = false →
  payload_has PUBLIC_MARKET_INVALIDATION_KEY (trade_activity_provenance t ++ extra) = false.
Proof.
  unfold payload_has. rewrite !bool_decide_eq_false, fmap_app, elem_of_app. intros Hx [H|H]; [|done].
  unfold trade_activity_provenance, trade_market_provenance in H. revert H.
  destruct (t_buyer_provenance t), (t_seller_provenance t); rewrite <-(bool_decide_eq_true (_ ∈ _)); done.
Qed.

Lemma trade_event_returns t ty extra public :
  payload_has PUBLIC_MARKET_INVALIDATION_KEY extra = false → strip ty ≠ "" →
  ∃ e, trade_event t ty extra public = Val e.
Proof.
  intros Hx Hty. unfold trade_event. apply (participant_event_returns _ _ _ _ _ _ (t_buyer_id t)); [set_solver| |done..].
  apply public_key_fresh. unfold payload_has in *. rewrite bool_decide_eq_false in *.
  cbn. rewrite !not_elem_of_cons. done.
Qed.

(** Announcing a step: notification, audit, one event. *)
Lemma announce_returns org title msg data actor action id changes t ty extra public w :
  database_checks (db w) → payload_has PUBLIC_MARKET_INVALIDATION_KEY extra = false → strip ty ≠ "" →
  Succeeds (notify_org_users org NT_ORDER_UPDATE title msg data ;;
            record_audit actor action "trade" id changes ;;
            event ← lift (trade_event t ty extra public);
            enqueue_market_events [event]) w.
Proof.
  intros Hc Hx Hty. apply succeeds_bind; [apply notify_returns|]. intros [] w1 H1.
  apply succeeds_bind; [apply succeeds_modify|]. intros [] w2 H2.
  destruct (trade_event_returns t ty extra public Hx Hty) as [e He].
  apply succeeds_bind; [by eapply succeeds_lift|]. intros e' w3 H3. apply lift_ok in H3 as [_ ->].
  apply enqueue_returns. apply (keeps_ok only_events) in H1; [|keeps].
  apply (keeps_ok only_events) in H2; [|keeps].
  by apply (only_events_checks w w2); [etrans|].
Qed.

(** From a successful framed step to its resulting state. *)
Lemma succeeds_frame {A} (m : M World A) w :
  Succeeds m w → Keeps only_events m → ∃ a w', m w = Ok a w' ∧ only_events w w'.
Proof. intros (a & w' & H) Hk. exists a, w'. split; [done|]. by eapply keeps_ok. Qed.

(** ** The lifecycle routes implement the lifecycle *)

(** Foreign keys: the order of a trade and the inventory of an order exist. *)
Definition items_exist (d : Database) : Prop :=
  map_Forall (λ _ o, match o_inventory_item_id o with
                     | Some i => is_Some (inventory d !! i) | None => True end) (orders d).
#[export] Instance items_exist_dec d : Decision (items_exist d).
Proof.
  unfold items_exist. apply map_Forall_dec. intros k o. destruct (o_inventory_item_id o); apply _.
Defined.

(** The state a step has moved to, up to the events it has announced. *)
Definition settled (d : Database) (m : Move) (w : World) : Prop :=
  ∃ w0, db w0 = moved d m ∧ only_events w0 w.

Lemma settled_events d m w w' : settled d m w → only_events w w' → settled d m w'.
Proof. intros (w0 & H0 & H) H'. exists w0. split; [done|]. by etrans. Qed.

Lemma settled_facts d m w :
  market_ok d → balanced d m → settled d m w →
  market_ok (db w) ∧ same_ledger (moved d m) (db w) ∧ command_results (db w) = command_results d
  ∧ same_people d (db w).
Proof.
  intros Hok Hbal (w0 & H0 & Hev). split_and!.
  - apply (market_ok_only_events w0); [done|]. rewrite H0. by apply market_ok_moved.
  - rewrite <-H0. by apply only_events_same_ledger.
  - trans (command_results (db w0)); [apply Hev|by rewrite H0].
  - split; [trans (users (db w0))|trans (organizations (db w0))]; try apply Hev; by rewrite H0.
Qed.

(** Announcing a settled step, then the response, the stored result, the commit. *)
Lemma settled_run d m command u (announce : M World unit) w :
  market_ok d → balanced d m → settled d m w → (∀ a, command = Some a → attempt_ready d a) →
  Succeeds announce w → Keeps only_events announce →
  ∃ w', (announce ;; finish_command command (mv_trade m) u) w = Ok (Fresh (response_to d (mv_trade m) u)) w'
    ∧ same_ledger (moved d m) (db w') ∧ market_ok (db w') ∧ committed w' = db w' ∧ same_people d (db w').
Proof.
  intros Hok Hbal Hset Hcmd Hann Hkeep.
  destruct (succeeds_frame announce w Hann Hkeep) as ([] & w1 & Hrun & Hev).
  apply (settled_events d m w w1) in Hev; [|done].
  destruct (settled_facts d m w1 Hok Hbal Hev) as (Hok1 & Hled & Hcr & Hpeople).
  destruct (finish_run command (mv_trade m) u w1 Hok1) as (w' & Hfin & Hok' & Hcom & Hled' & Hpeople').
  { intros a Ha. eapply attempt_ready_ext; [exact Hcr|]. by apply Hcmd. }
  exists w'. erewrite bind_run by exact Hrun. rewrite Hfin. unfold response_to.
  unfold same_people, same_ledger in *. destruct_and! Hpeople. destruct_and! Hpeople'. destruct_and! Hled. destruct_and! Hled'.
  split_and!; congruence.
Qed.

(** What the route has made of the trade. *)
Definition in_status (s : TradeStatus) (t : Trade) : Prop := t_status t = s.
Definition delivered_as (p : TradeDeliverPayload) (t : Trade) : Prop :=
  t_status t = DELIVERED ∧ t_final_quantity_mt t = Some (to_cents (td_final_quantity_mt p))
  ∧ t_final_price_per_mt t = Some (to_cents (td_final_price_per_mt p)).

(** What a lifecycle route does: a step of the lifecycle, committed with the
    invariant; a stored response; or a refusal that leaves the tables alone. *)
Definition lifecycle_outcome (refused : World → World → Prop) (operation : string) (target : Trade → Prop)
    (w : World) (id : uuid) (u : User) (o : outcome World reply) : Prop :=
  match o with
  | Ok (Fresh r) w' =>
      ∃ t m, trades (db w) !! id = Some t ∧ lifecycle_step (db w) (observed w) u t m ∧ target (mv_trade m)
        ∧ r = response_to (db w) (mv_trade m) u ∧ same_ledger (moved (db w) m) (db w')
        ∧ market_ok (db w') ∧ committed w' = db w' ∧ same_people (db w) (db w')
  | Ok (Replayed status body) w' => stored_response (db w) u operation id status body ∧ reads w w'
  | Raise _ w' => refused w w'
  end.

(** The trade a route has loaded is a row of the tables, under its id. *)
Lemma loaded_trade d id t :
  market_ok d → trades d !! id = Some t → t_id t = id ∧ trades d !! t_id t = Some t.
Proof. intros (_ & (_ & Hk & _) & _) Ht. pose proof (Hk id t Ht) as Hid. cbn in Hid. by subst. Qed.

Lemma linked_item_held d t i :
  market_ok d → items_exist d → trades d !! t_id t = Some t → t_status t = PENDING_CONFIRMATION →
  backing_item (linked_order d t) = Some i →
  ∃ item, inventory d !! i = Some item ∧ i_id item = i ∧ 0 < t_quantity_mt t
    ∧ ∀ o, linked_order d t = Some o → order_holds i o + t_quantity_mt t <= i_reserved_stock_mt item.
Proof.
  intros Hok Hex Ht Hs Hi. destruct (linked_order d t) as [o|] eqn:Hl; [|done].
  destruct (linked_order_lookup d t Hok o Hl) as [_ Ho]. cbn in Hi.
  pose proof (Hex _ _ Ho) as Hitem. cbn in Hitem. rewrite Hi in Hitem. destruct Hitem as [item Hitem].
  pose proof (refused_quantity d t Hok Ht) as Hq.
  destruct Hok as (Hc & (_ & _ & Hk & _) & Hr & _). exists item. split_and!; [done|by apply (Hk i item)|lia|].
  intros o' [= <-]. rewrite (Hr i item Hitem).
  pose proof (held_covers_both d i _ o _ t Hc Ho Ht) as Hboth.
  rewrite trade_holds_pending, Hl in Hboth by done. cbn in Hboth. by rewrite Hi, bool_decide_eq_true_2 in Hboth.
Qed.

Lemma reads_trans_synced w w1 w2 : synced w → reads w w1 → reads_synced w1 w2 → reads w w2.
Proof.
  intros Hw H1 H2. etrans; [exact H1|]. apply H2. unfold synced, reads in *. destruct_and!. congruence.
Qed.

(** The common shape of confirming, delivering and paying: the execution gate,
    the locked rows, the locked parties, the route's own guards, its effects. *)
Section admitted.
Context (operation : string) (target : Trade → Prop) (id : uuid) (u : User) (w : World).
Context (guard : Trade → option Order → M World unit).
Context (effects : option CommandAttempt → Trade → option Order → M World reply).
Context (Hop : operation ∈ trade_operations) (Hsync : synced w).
Context (Hadmit : ∀ t o, Keeps reads (guard t o)).

Lemma admitted_outcome raw payload :
  (∀ command t w1 w2, trades (db w) !! id = Some t →
     db w1 = db w → guard t (linked_order (db w) t) w1 = Ok tt w2 → reads w w2 →
     (∀ a, command = Some a → attempt_ready (db w) a) →
     lifecycle_outcome reads operation target w id u (effects command t (linked_order (db w) t) w2)) →
  lifecycle_outcome reads operation target w id u
    (run_command raw u operation id payload (λ command,
       require_execution_eligible_user u ;;
       rows ← _lock_trade_market_rows id;
       let '(trade, order) := rows in
       lock_trade_parties trade u ;;
       guard trade order ;;
       effects command trade order) w).
Proof.
  intros Heff. apply (run_command_outcome _ _ _ _ _ _ _ (lifecycle_outcome reads operation target w id u));
    [done|by intros e w1 Hr|by intros status b w1 Hr Hs|].
  intros command w1 Hr1 Hready.
  apply reads_bind; [keeps|intros e w2 Hr; change (reads w w2); by trans w1|]. intros [] w2 _ Hr2.
  assert (reads w w2) as Hrw2 by (by trans w1). pose proof Hrw2 as (Hdb2 & _).
  apply (frame_bind reads_synced); [keeps|intros e w3 Hr; by apply (reads_trans_synced w w2)|].
  intros [t o] w3 Hlock Hr3. apply lock_rows_ok in Hlock as (Ht & Ho & _). rewrite Hdb2 in Ht, Ho. subst o.
  apply (reads_trans_synced w w2 w3 Hsync Hrw2) in Hr3.
  apply reads_bind; [keeps|intros e w4 Hr; change (reads w w4); by trans w3|]. intros [] w4 _ Hr4.
  assert (reads w w4) as Hrw4 by (by trans w3).
  apply reads_bind; [apply Hadmit|intros e w5 Hr; change (reads w w5); by trans w4|]. intros [] w5 Had Hr5.
  apply (Heff command t w4); [done|apply Hrw4|done|by trans w4|done].
Qed.
End admitted.

(** A step that writes only the trade, and announces it. *)
Lemma advance_run command u t t' (announce : M World unit) w :
  market_ok (db w) → t_id t' = t_id t → balanced (db w) (MkMove t' None None 0 0) →
  (∀ a, command = Some a → attempt_ready (db w) a) →
  (∀ w', market_ok (db w') → Succeeds announce w') → Keeps only_events announce →
  ∃ w', (put_trade t' ;; announce ;; finish_command command t' u) w = Ok (Fresh (response_to (db w) t' u)) w'
    ∧ same_ledger (moved (db w) (MkMove t' None None 0 0)) (db w') ∧ market_ok (db w') ∧ committed w' = db w'
    ∧ same_people (db w) (db w').
Proof.
  intros Hok Hid Hbal Hcmd Hann Hkeep. erewrite bind_run by reflexivity. set (w1 := w <| db := _ |>).
  assert (settled (db w) (MkMove t' None None 0 0) w1) as Hset by (exists w1; by split).
  apply (settled_run (db w) (MkMove t' None None 0 0)); [done..| |done].
  apply Hann. by eapply settled_facts.
Qed.

(** ** Paying *)

Lemma announce_payment_returns t u w : market_ok (db w) → Succeeds (announce_payment t u) w.
Proof. intros [Hc _]. by apply announce_returns. Qed.
Lemma only_events_announce_payment t u : Keeps only_events (announce_payment t u).
Proof. unfold announce_payment. keeps. Qed.
Lemma announce_delivery_returns t u w : market_ok (db w) → Succeeds (announce_delivery t u) w.
Proof. intros [Hc _]. by apply announce_returns. Qed.
Lemma only_events_announce_delivery t u : Keeps only_events (announce_delivery t u).
Proof. unfold announce_delivery. keeps. Qed.
#[export] Hint Resolve only_events_announce_payment only_events_announce_delivery : keeps.

(** What the clock shows later in a session, it shows in the session. *)
Lemma reads_clock w w1 n : reads w w1 → observed w (clock w1 n).
Proof. intros H. apply (reads_observed w w1); [done|by exists n]. Qed.

(** A step that moves only the trade, once its guards have passed. *)
Lemma advance_outcome refused operation target id u w command t t' (announce : M World unit) w2 :
  market_ok (db w) → trades (db w) !! id = Some t → t_id t' = t_id t →
  lifecycle_step (db w) (observed w) u t (MkMove t' None None 0 0) → target t' →
  (∀ a, command = Some a → attempt_ready (db w) a) → db w2 = db w →
  (∀ w', market_ok (db w') → Succeeds announce w') → Keeps only_events announce →
  lifecycle_outcome refused operation target w id u
    ((put_trade t' ;; announce ;; finish_command command t' u) w2).
Proof.
  intros Hok Ht Hid Hstep Hst Hcmd Hdb Hann Hkeep.
  destruct (loaded_trade (db w) id t Hok Ht) as [_ Htt].
  destruct (advance_run command u t t' announce w2) as (w' & -> & Hled & Hok' & Hcom & Hpeople); rewrite ?Hdb; try done.
  { apply (lifecycle_balanced (db w) t Hok Htt (observed w) u); [done|]. by intros o'. }
  exists t, (MkMove t' None None 0 0). rewrite Hdb in *. by split_and!.
Qed.

Definition pay_effects (u : User) (command : option CommandAttempt) (t : Trade) (_ : option Order) : M World reply :=
  now ← utcnow;
  let t' := paid_trade t now in
  put_trade t' ;; announce_payment t' u ;; finish_command command t' u.

Lemma pay_effects_outcome refused id u w command t w1 w2 :
  market_ok (db w) → users (db w) !! u_id u = Some u → trades (db w) !! id = Some t → db w1 = db w →
  admit_payment t (linked_order (db w) t) u w1 = Ok tt w2 → reads w w2 →
  (∀ a, command = Some a → attempt_ready (db w) a) →
  lifecycle_outcome refused TRADE_PAY_OPERATION (in_status PAID) w id u (pay_effects u command t (linked_order (db w) t) w2).
Proof.
  intros Hok Hu Ht Hdb1 Hadm Hr Hcmd; pose proof (proj1 Hr) as Hdb2.
  apply (admit_payment_ok (db w) t u w1 w2 Hdb1 Hu) in Hadm as (Hs & Hact & Hrole & Hpar).
  unfold pay_effects. erewrite bind_run by reflexivity. cbv zeta.
  apply (advance_outcome _ _ _ _ _ _ _ t); try done; [apply step_pay; try done; by apply (reads_clock w w2)| |keeps].
  intros. by apply announce_payment_returns.
Qed.

Lemma pay_trade_outcome id raw u w :
  market_ok (db w) → synced w → users (db w) !! u_id u = Some u →
  lifecycle_outcome reads TRADE_PAY_OPERATION (in_status PAID) w id u (pay_trade id raw u w).
Proof.
  intros Hok Hsync Hu.
  apply (admitted_outcome TRADE_PAY_OPERATION (in_status PAID) id u w (λ t o, admit_payment t o u) (pay_effects u));
    [set_solver|done|intros; keeps|].
  intros command t w1 w2 Ht Hdb1 Hadm Hr Hcmd. by eapply pay_effects_outcome.
Qed.

(** ** Delivering *)

Definition deliver_effects (p : TradeDeliverPayload) (u : User) (command : option CommandAttempt) (t : Trade)
    (_ : option Order) : M World reply :=
  amounts ← lift (_delivery_amounts (td_final_quantity_mt p) (td_final_price_per_mt p)
                    (of_rate (t_commission_rate_pct t)) (of_cents <$> t_commission_fee_per_mt_usd t));
  now ← utcnow;
  let t' := delivered_trade t p (to_cents amounts.1) (to_cents amounts.2) now in
  put_trade t' ;; announce_delivery t' u ;; finish_command command t' u.

Lemma deliver_effects_outcome refused id p u w command t w1 w2 :
  market_ok (db w) → users (db w) !! u_id u = Some u → deliver_payload_valid p → trades (db w) !! id = Some t →
  db w1 = db w → admit_delivery t (linked_order (db w) t) p u w1 = Ok tt w2 → reads w w2 →
  (∀ a, command = Some a → attempt_ready (db w) a) →
  lifecycle_outcome refused TRADE_DELIVER_OPERATION (delivered_as p) w id u
    (deliver_effects p u command t (linked_order (db w) t) w2).
Proof.
  intros Hok Hu Hp Ht Hdb1 Hadm Hr Hcmd; pose proof (proj1 Hr) as Hdb2. unfold deliver_effects.
  apply (admit_delivery_ok (db w) t u w1 w2 Hdb1 Hu) in Hadm as (Hs & [s Hact] & Hpar & Hq & pct & Hpct & Hband).
  destruct (loaded_trade (db w) id t Hok Ht) as [_ Htt].
  pose proof (step_trade_checks (db w) t Hok Htt) as (_ & (_ & Hprice & _ & _ & _ & Hrate & Hfee & _) & _).
  destruct Hp as [Hpq Hpp] eqn:Hpe. clear Hpe.
  destruct (price_band_run (td_final_price_per_mt p) (t_price_per_mt_usd t) Hpp) as (pct' & Hpct' & Hb);
    [unfold required_numeric in Hprice; lia|].
  rewrite Hpct in Hpct'. injection Hpct' as <-. rewrite Hband in Hb. symmetry in Hb. apply bool_decide_eq_false in Hb.
  assert (amount_within (td_final_quantity_mt p) 0 (cents 100000)
          ∧ amount_within (td_final_price_per_mt p) 0 (cents 1000000)) as [Hq0 Hp0].
  { destruct Hpq, Hpp. unfold amount_within. lia. }
  rewrite (delivery_amounts_run _ _ _ (t_commission_fee_per_mt_usd t) Hq0 Hp0 Hrate Hfee).
  do 2 (erewrite bind_run by reflexivity). cbv zeta. cbn [fst snd]. rewrite !to_cents_of_cents.
  apply (advance_outcome _ _ _ _ _ _ _ t); try done; [|intros; by apply announce_delivery_returns|keeps].
  apply (step_deliver _ _ _ _ s); try done; [lia|by apply (reads_clock w w2)].
Qed.

Lemma deliver_trade_outcome id p raw u w :
  market_ok (db w) → synced w → users (db w) !! u_id u = Some u → deliver_payload_valid p →
  lifecycle_outcome reads TRADE_DELIVER_OPERATION (delivered_as p) w id u (deliver_trade id p raw u w).
Proof.
  intros Hok Hsync Hu Hp.
  apply (admitted_outcome TRADE_DELIVER_OPERATION (delivered_as p) id u w (λ t o, admit_delivery t o p u) (deliver_effects p u));
    [set_solver|done|intros; keeps|].
  intros command t w1 w2 Ht Hdb1 Hadm Hr Hcmd. by eapply deliver_effects_outcome.
Qed.

(** ** Confirming *)

Lemma announce_confirmation_returns t o u w : market_ok (db w) → Succeeds (announce_confirmation t o u) w.
Proof.
  intros [Hc _]. unfold announce_confirmation.
  apply succeeds_bind; [apply notify_returns|]. intros [] w1 H1.
  apply succeeds_bind; [apply succeeds_modify|]. intros [] w2 H2.
  apply (keeps_ok only_events) in H1; [|keeps]. apply (keeps_ok only_events) in H2; [|keeps].
  assert (database_checks (db w2)) as Hc2 by (by apply (only_events_checks w w2); [etrans|]).
  apply succeeds_bind; [eexists _, _; by apply flush_run|]. intros [] w3 [-> _]%flush_ok.
  apply succeeds_bind; [by eexists _, _|]. intros visible w4 [= _ <-].
  apply succeeds_bind; [destruct (backing_item o), visible; by eexists _, _|].
  intros visible' w5 H5.
  assert (db w5 = db w2) as Hdb5.
  { destruct (backing_item o), visible; injection H5 as _ <-; done. }
  destruct (trade_event_returns t "trade_confirmed" (quantity_and_price t) visible') as [e He]; [done..|].
  apply succeeds_bind; [by eapply succeeds_lift|]. intros e' w6 [_ ->]%lift_ok.
  apply enqueue_returns. by rewrite Hdb5.
Qed.
Lemma only_events_announce_confirmation t o u : Keeps only_events (announce_confirmation t o u).
Proof. unfold announce_confirmation. keeps. Qed.
Lemma activate_returns t w : Succeeds (activate_referrals t) w.
Proof.
  unfold activate_referrals. do 2 (apply succeeds_bind; [by eexists _, _|]; intros ? ? _).
  apply (succeeds_iterM _ _ (λ _, True)); [|done..]. intros. apply succeeds_modify.
Qed.
Lemma only_events_activate t : Keeps only_events (activate_referrals t).
Proof. unfold activate_referrals. keeps. Qed.
#[export] Hint Resolve only_events_announce_confirmation only_events_activate : keeps.

(** The stock a pending trade holds is there to consume. *)
Lemma confirm_moves d t now w :
  market_ok d → items_exist d → trades d !! t_id t = Some t → t_status t = PENDING_CONFIRMATION →
  db w = d <| trades := <[ t_id t := confirmed_trade t now ]> (trades d) |> →
  let o := linked_order d t in
  ∃ w', consume_backing o (t_quantity_mt t) w = Ok tt w'
    ∧ db w' = moved d (MkMove (confirmed_trade t now) None (backing_item o) 0 (- t_quantity_mt t)).
Proof.
  intros Hok Hex Ht Hs Hdb o. unfold consume_backing. destruct (backing_item o) as [i|] eqn:Hi; [|by exists w].
  destruct (linked_item_held d t i Hok Hex Ht Hs Hi) as (item & Hitem & Hid & Hpos & Hq).
  assert (0 < t_quantity_mt t <= i_reserved_stock_mt item) as Hle.
  { unfold o in Hi. destruct (linked_order d t) as [o'|] eqn:Hl; [|done].
    destruct (linked_order_lookup d t Hok o' Hl) as [_ Ho'].
    pose proof (order_holds_nonneg i o' (proj1 (proj1 Hok) _ _ Ho')). specialize (Hq o' eq_refl). lia. }
  destruct (consume_run w i item (t_quantity_mt t)) as (x & w' & Hrun & Hdb' & _); [by rewrite Hdb|done..|].
  exists w'. erewrite bind_run by exact Hrun. by rewrite Hdb', Hdb.
Qed.

Definition confirm_effects (u : User) (command : option CommandAttempt) (t : Trade) (o : option Order) : M World reply :=
  now ← utcnow;
  let t' := confirmed_trade t now in
  put_trade t' ;; consume_backing o (t_quantity_mt t) ;; activate_referrals t' ;;
  announce_confirmation t' o u ;; finish_command command t' u.

Lemma confirm_effects_outcome refused id u w command t w1 w2 :
  market_ok (db w) → items_exist (db w) → users (db w) !! u_id u = Some u → trades (db w) !! id = Some t →
  db w1 = db w → admit_confirmation t (linked_order (db w) t) u w1 = Ok tt w2 → reads w w2 →
  (∀ a, command = Some a → attempt_ready (db w) a) →
  lifecycle_outcome refused TRADE_CONFIRM_OPERATION (in_status CONFIRMED) w id u
    (confirm_effects u command t (linked_order (db w) t) w2).
Proof.
  intros Hok Hex Hu Ht Hdb1 Hadm Hr Hcmd; pose proof (proj1 Hr) as Hdb2. unfold confirm_effects.
  apply (admit_confirmation_ok (db w) t u w1 w2 Hdb1 Hu) in Hadm as (Hs & Hlive & Hact & Hpar).
  destruct (loaded_trade (db w) id t Hok Ht) as [_ Htt].
  do 2 (erewrite bind_run by reflexivity). cbv zeta. set (now := clock w2 (clock_reads w2)).
  match goal with |- context [mbind _ _ ?x] => set (w3 := x) end.
  destruct (confirm_moves (db w) t now w3 Hok Hex Htt Hs) as (w4 & Hrun4 & Hdb4);
    [unfold w3; cbn; by rewrite Hdb2|].
  set (m := MkMove _ _ _ _ _) in Hdb4.
  assert (balanced (db w) m) as Hbal by (by apply balanced_confirm).
  assert (settled (db w) m w4) as Hset by (by exists w4).
  destruct (succeeds_frame _ w4 (activate_returns (confirmed_trade t now) w4) (only_events_activate _))
    as ([] & w5 & Hrun5 & Hev5).
  apply (settled_events _ _ w4 w5) in Hset; [|done].
  destruct (settled_run (db w) m command u (announce_confirmation (confirmed_trade t now) (linked_order (db w) t) u) w5)
    as (w' & Hrun & Hled & Hok' & Hcom & Hpeople); try done.
  { apply announce_confirmation_returns. by eapply settled_facts. }
  { keeps. }
  erewrite bind_run by exact Hrun4.
  erewrite bind_run by exact Hrun5. change (mv_trade m) with (confirmed_trade t now) in Hrun. rewrite Hrun.
  exists t, m. split_and!; try done. apply step_confirm; try done. by apply (reads_clock w w2).
Qed.

Lemma confirm_trade_outcome id raw u w :
  market_ok (db w) → items_exist (db w) → synced w → users (db w) !! u_id u = Some u →
  lifecycle_outcome reads TRADE_CONFIRM_OPERATION (in_status CONFIRMED) w id u (confirm_trade id raw u w).
Proof.
  intros Hok Hex Hsync Hu.
  apply (admitted_outcome TRADE_CONFIRM_OPERATION (in_status CONFIRMED) id u w (λ t o, admit_confirmation t o u) (confirm_effects u));
    [set_solver|done|intros; keeps|].
  intros command t w1 w2 Ht Hdb1 Hadm Hr Hcmd. by eapply confirm_effects_outcome.
Qed.

(** ** Refusing *)

(** What settling the order leaves, in the state where the trade is declined. *)
Definition refunded (d : Database) (t : Trade) (w w' : World) : Prop :=
  (∃ m, refund d (observed w) t m ∧ settled d m w') ∧ committed w' = committed w.

Lemma wp_reads {A B} (m : M World A) (k : A → M World B) Q E w :
  Keeps reads m → (∀ e w1, reads w w1 → E e w1) →
  (∀ a w1, m w = Ok a w1 → reads w w1 → wp (k a) Q E w1) → wp (m ≫= k) Q E w.
Proof. apply (reads_bind m k (λ o, match o with Ok a w' => Q a w' | Raise e w' => E e w' end)). Qed.

Lemma only_events_before_state o : Keeps reads (_watchlist_before_state o).
Proof. unfold _watchlist_before_state. keeps. Qed.
Lemma only_events_rebuild_order o : Keeps only_events (rebuild_order_slice o).
Proof. unfold rebuild_order_slice. keeps. Qed.
#[export] Hint Resolve only_events_before_state only_events_rebuild_order : keeps.

Lemma order_overdue_run o w :
  ∃ w1, order_overdue o w = Ok (overdue_at o (clock w (clock_reads w))) w1 ∧ reads w w1.
Proof.
  unfold order_overdue, overdue_at. destruct (o_expires_at o) as [e|] eqn:He; [|by exists w].
  eexists. split; [by erewrite bind_run by reflexivity|by repeat split].
Qed.

Section settling.
Context (d : Database) (t : Trade) (o : Order) (u : User).
Context (Hok : market_ok d) (Hex : items_exist d) (Ht : trades d !! t_id t = Some t).
Context (Hs : t_status t = PENDING_CONFIRMATION) (Hl : linked_order d t = Some o).
#[local] Abbreviation declined_db := (d <| trades := <[ t_id t := declined_trade t ]> (trades d) |>).

(** The stock that comes back with the trade, and with its order. *)
Lemma release_backing i q w :
  o_inventory_item_id o = Some i → db w = declined_db →
  (q = t_quantity_mt t ∨ (is_withdrawn (o_status o) = false ∧ q = o_remaining_quantity_mt o + t_quantity_mt t)) →
  ∃ w', (release_inventory i q ;; mret tt) w = Ok tt w'
    ∧ db w' = declined_db <| inventory := alter (move_stock q (- q)) i (inventory d) |> ∧ uncommitted w w'.
Proof.
  intros Hi Hdb Hq.
  destruct (linked_item_held d t i Hok Hex Ht Hs) as (item & Hitem & Hid & Hpos & Hheld); [by rewrite Hl|].
  specialize (Hheld o Hl). destruct (linked_order_lookup d t Hok o Hl) as [_ Ho].
  pose proof (proj1 (proj1 Hok) _ _ Ho) as Hoc. pose proof (order_holds_nonneg i o Hoc) as Hnn.
  pose proof (order_checks_remaining o Hoc) as Hrem. rewrite order_holds_own in Hheld, Hnn by done.
  destruct (release_run w i item q) as (x & w' & Hrun & Hdb' & Hcom); [by rewrite Hdb|done| |].
  { destruct Hq as [->|[Hw ->]]; [lia|]. rewrite Hw in *. lia. }
  exists w'. split_and!; [by erewrite bind_run by exact Hrun| |done]. by rewrite Hdb', Hdb.
Qed.

(** An overdue order gives its whole balance back before its row is written. *)
Lemma overdue_moves seen w now :
  is_withdrawn (o_status o) = false → db w = declined_db → seen now → overdue_at o now = true →
  let o' := overdue_order o (t_quantity_mt t) in
  ∃ w', match o_inventory_item_id o with
        | Some item =>
            if 0 <? o_remaining_quantity_mt o'
            then release_inventory item (o_remaining_quantity_mt o') ;; mret tt else mret tt
        | None => mret tt
        end w = Ok tt w'
    ∧ uncommitted w w'
    ∧ ∃ m, refund d seen t m ∧ moved d m = (db w') <| orders := <[ o_id o' := o' ]> (orders (db w')) |>.
Proof.
  intros Hw Hdb Hseen Hover o'. destruct (overdue_order_row o (t_quantity_mt t)) as (_ & _ & Hrem). fold o' in Hrem.
  pose proof (refused_quantity d t Hok Ht) as Hq.
  destruct (linked_order_lookup d t Hok o Hl) as [_ Ho].
  pose proof (order_checks_remaining o (proj1 (proj1 Hok) _ _ Ho)) as Hnn.
  pose proof (refund_overdue d seen t o now Hl Hw Hseen Hover) as Href. cbv zeta in Href. fold o' in Href.
  destruct (o_inventory_item_id o) as [i|] eqn:Hi.
  - rewrite (proj2 (Z.ltb_lt _ _)) by lia.
    destruct (release_backing i (o_remaining_quantity_mt o') w Hi Hdb) as (w' & Hrun & Hdb' & Hcom); [by right|].
    exists w'. split_and!; [done..|]. eexists. split; [exact Href|]. by rewrite Hdb'.
  - exists w. split_and!; [done..|]. eexists. split; [exact Href|]. by rewrite Hdb.
Qed.

(** The move has been written; what follows are events. *)
Lemma settled_events_wp m (w w3 : World) (k : M World unit) :
  refund d (observed w) t m → db w3 = moved d m → uncommitted w w3 → Keeps only_events k →
  wp k (λ _ w', refunded d t w w') (λ _ w', uncommitted w w') w3.
Proof.
  intros Href Hdb Hu Hk. pose proof (Hk w3) as Hf. unfold wp. unfold uncommitted in *.
  destruct (k w3) as [[] w'|e w'].
  - split; [|trans (committed w3); [apply Hf|done]]. exists m. split; [done|]. by exists w3.
  - trans (committed w3); [apply Hf|done].
Qed.

Lemma settle_outcome w :
  db w = declined_db →
  wp (settle_order t o u) (λ _ w', refunded d t w w') (λ _ w', uncommitted w w') w.
Proof.
  intros Hdb. unfold settle_order. fold (is_withdrawn (o_status o)).
  pose proof (refused_quantity d t Hok Ht) as Hq.
  destruct (is_withdrawn (o_status o)) eqn:Hw.
  { set (m := MkMove (declined_trade t) None (o_inventory_item_id o) (t_quantity_mt t) (- t_quantity_mt t)).
    assert (refund d (observed w) t m) as Href by (by constructor).
    destruct (o_inventory_item_id o) as [i|] eqn:Hi.
    - destruct (release_backing i _ w Hi Hdb (or_introl eq_refl)) as (w' & Hrun & Hdb' & Hcom).
      unfold wp. rewrite Hrun. split; [|done]. exists m. split; [done|]. by exists w'.
    - apply wp_ret. split; [|done]. exists m. split; [done|]. by exists w. }
  apply wp_reads; [keeps|by intros e w1 (_ & ? & _)|]. intros before w1 _ (Hdb1 & Hcom1 & _ & Hclock1).
  destruct (order_overdue_run o w1) as (w2 & Hrun2 & (Hdb2 & Hcom2 & _)).
  set (now := clock w1 (clock_reads w1)) in Hrun2.
  assert (observed w now) as Hnow by (exists (clock_reads w1); unfold now; by rewrite Hclock1).
  assert (db w2 = declined_db) as Hd2 by (by rewrite Hdb2, Hdb1). assert (uncommitted w w2) as Hu2 by (unfold uncommitted; congruence).
  unfold wp. erewrite bind_run by exact Hrun2. destruct (overdue_at o now) eqn:Hover.
  - destruct (overdue_moves (observed w) w2 now Hw Hd2 Hnow Hover) as (w3 & Hrun3 & Hcom3 & m & Href & Hdb3).
    cbv zeta. erewrite bind_run by exact Hrun3. erewrite bind_run by reflexivity. apply (settled_events_wp m); try done.
    + etrans; [exact Hu2|exact Hcom3].
    + keeps.
  - cbv zeta. erewrite bind_run by reflexivity.
    apply (settled_events_wp (MkMove (declined_trade t) (Some (restored_order o (t_quantity_mt t))) None 0 0));
      [by apply (refund_live _ _ _ _ now)|cbn; by rewrite Hd2|done|keeps].
Qed.
End settling.

Lemma reads_visible_order o : Keeps reads (visible_order o).
Proof. unfold visible_order. keeps. Qed.
Lemma only_events_announce_refusal t o b u : Keeps only_events (announce_refusal t o b u).
Proof. unfold announce_refusal. pose proof reads_visible_order. keeps. Qed.
#[export] Hint Resolve reads_visible_order only_events_announce_refusal : keeps.

(** Announcing a refusal flushes the rows. *)
Lemma announce_refusal_checks t o b u w w' :
  announce_refusal t o b u w = Ok tt w' → database_checks (db w').
Proof.
  unfold announce_refusal. intros ([] & w1 & _ & H)%bind_ok. apply bind_ok in H as ([] & w2 & _ & H).
  apply bind_ok in H as ([] & w3 & [-> Hc]%flush_ok & H).
  eapply (keeps_ok only_events) in H; [|keeps]. by apply (only_events_checks w2 w').
Qed.

(** From the declined trade to the end of the request. *)
Lemma refusal_outcome id u command t w w1 b :
  market_ok (db w) → items_exist (db w) → trades (db w) !! id = Some t → may_decline (db w) u t →
  t_status t = PENDING_CONFIRMATION → (∀ a, command = Some a → attempt_ready (db w) a) → reads w w1 →
  (trade_order_id t = None ∨ linked_order (db w) t ≠ None) →
  (linked_order (db w) t ≠ None → _trade_market_slice (db w) t = order_slice <$> linked_order (db w) t) →
  lifecycle_outcome uncommitted TRADE_DECLINE_OPERATION (in_status DECLINED) w id u
    ((put_trade (declined_trade t) ;;
      match linked_order (db w) t with
      | None => mret tt
      | Some o =>
          rollback_raise (bool_decide (_trade_market_slice (db w) t ≠ Some (order_slice o)))
            (HTTPException 409 (Msg "Order slice changed; retry the decline"))
            (settle_order t o u)
      end ;;
      announce_refusal (declined_trade t) (linked_order (db w) t) b u ;;
      finish_command command (declined_trade t) u) w1).
Proof.
  intros Hok Hex Ht Hmay Hs Hcmd (Hdb1 & Hcom1 & _ & Hclock1) Hlink Hslice.
  destruct (loaded_trade (db w) id t Hok Ht) as [_ Htt].
  erewrite bind_run by reflexivity. set (w2 := w1 <| db := _ |>).
  assert (uncommitted w w2) as Hu2 by exact Hcom1.
  assert (observed w2 = observed w) as Hobs2 by (by apply observed_clock).
  assert (db w2 = (db w) <| trades := <[ t_id t := declined_trade t ]> (trades (db w)) |>) as Hdb2
    by (unfold w2; cbn; by rewrite Hdb1).
  match goal with |- lifecycle_outcome _ _ _ _ _ _ ((mbind _ ?m) w2) => set (settle := m) end.
  assert (wp settle (λ _ w', refunded (db w) t w2 w') (λ _ w', uncommitted w2 w') w2) as Hsettle.
  { unfold settle. destruct (linked_order (db w) t) as [o|] eqn:Hl.
    - unfold rollback_raise. rewrite bool_decide_eq_false_2; [by apply settle_outcome|].
      rewrite Hslice by done. intros H. by apply H.
    - apply wp_ret. split; [|done]. exists (MkMove (declined_trade t) None None 0 0).
      split; [by constructor|]. by exists w2. }
  unfold wp in Hsettle. unfold mbind at 1, M_bind at 1. destruct (settle w2) as [[] w3|e w3] eqn:Hrun.
  2: { unfold lifecycle_outcome. etrans; [exact Hu2|done]. }
  destruct Hsettle as [(m & Href & Hset) Hcom3]. clear Hrun.
  assert (mv_trade m = declined_trade t) as Hm by (by destruct Href).
  apply (frame_bind only_events); [keeps|intros e w4 Hev; change (uncommitted w w4)|].
  { etrans; [exact Hu2|]. etrans; [exact Hcom3|apply Hev]. }
  intros [] w4 Hann Hev. apply announce_refusal_checks in Hann.
  apply (settled_events _ _ w3 w4) in Hset; [|done].
  assert (database_checks (moved (db w) m)) as Hchk.
  { destruct Hset as (w0 & <- & Hev0). by apply (only_events_checks w0 w4). }
  assert (balanced (db w) m) as Hbal.
  { apply (balanced_refund (db w) t Hok Htt Hs (observed w2)); [done|]. by apply (moved_checked (db w) m (moved (db w) m)). }
  destruct (settled_run (db w) m command u (mret tt) w4) as (w' & Hrun & Hled & Hok' & Hcom & Hpeople);
    [done..|apply succeeds_ret|keeps|].
  rewrite Hm in Hrun. change ((mret tt ;; finish_command command (declined_trade t) u) w4)
    with (finish_command command (declined_trade t) u w4) in Hrun. rewrite Hrun.
  exists t, m. rewrite Hm. split_and!; try done. apply step_decline; [done..|]. by rewrite <-Hobs2.
Qed.

Lemma decline_trade_outcome id raw u w :
  market_ok (db w) → items_exist (db w) → synced w → users (db w) !! u_id u = Some u →
  lifecycle_outcome uncommitted TRADE_DECLINE_OPERATION (in_status DECLINED) w id u (decline_trade id raw u w).
Proof.
  intros Hok Hex Hsync Hu. unfold decline_trade.
  apply (run_command_outcome _ _ _ _ _ _ _ (lifecycle_outcome uncommitted TRADE_DECLINE_OPERATION (in_status DECLINED) w id u));
    [set_solver|by intros e w1 (_ & Hr & _)|by intros status b w1 Hr Hs|].
  intros command w1 Hr1 Hready.
  apply (frame_bind reads_synced); [keeps| |].
  { intros e w2 Hr. change (uncommitted w w2). by apply (reads_trans_synced w w1) in Hr as (_ & ? & _). }
  intros [t o] w2 Hlock Hr2. apply lock_rows_ok in Hlock as (Ht & Ho & Hslice & Hlink).
  apply (reads_trans_synced w w1 w2 Hsync Hr1) in Hr2.
  assert (db w1 = db w) as Hdb1 by apply Hr1. rewrite Hdb1 in Ht, Ho, Hslice. subst o.
  apply (frame_bind reads_synced); [keeps| |].
  { intros e w3 Hr. change (uncommitted w w3). by apply (reads_trans_synced w w2) in Hr as (_ & ? & _). }
  intros [] w3 Hadm Hr3. apply (reads_trans_synced w w2 w3 Hsync Hr2) in Hr3.
  apply (admit_refusal_ok (db w) t u w2 w3) in Hadm as [Hs Hmay]; [|apply Hr2|done].
  erewrite bind_run by reflexivity. cbv zeta.
  apply reads_bind; [keeps| |].
  { intros e w4 (_ & Hc & _). change (uncommitted w w4). unfold uncommitted. rewrite Hc. apply Hr3. }
  intros b w4 _ Hr4. assert (reads w w4) as Hrw4 by (by trans w3).
  assert (db w3 = db w) as -> by apply Hr3.
  apply refusal_outcome; try done.
Qed.

(** ** The four routes as steps of the specification *)

(** C10: Confirming implements the lifecycle's confirmation.  A confirmation that
    is answered afresh is by somebody acting for the counterparty (its recorded
    principal, or an admitted member of an assisted customer), on a pending trade
    between live, still admitted parties; it consumes exactly the stock the trade
    held, touches no order, and commits a ledger that satisfies the market
    invariant.  Otherwise it replays this actor's stored response, or refuses and
    leaves every table as it was: there is no partial confirmation, no violated
    constraint and no short reservation. *)
Theorem confirm_trade_implements_lifecycle id raw u w :
  market_ok (db w) → items_exist (db w) → synced w → users (db w) !! u_id u = Some u →
  lifecycle_outcome reads TRADE_CONFIRM_OPERATION (in_status CONFIRMED) w id u (confirm_trade id raw u w).
Proof. apply confirm_trade_outcome. Qed.

(** C11: Declining implements the lifecycle's refusal.  Only the counterparty
    refuses a pending trade; the quantity returns to the order if that is still
    live, and the stock to the inventory if the order was withdrawn or has run
    past its deadline, in which case it expires with its whole balance.  Whether
    the deadline has passed is told by a reading of the request's own clock.  The
    committed ledger satisfies the market invariant; a request that fails
    commits nothing. *)
Theorem decline_trade_implements_lifecycle id raw u w :
  market_ok (db w) → items_exist (db w) → synced w → users (db w) !! u_id u = Some u →
  lifecycle_outcome uncommitted TRADE_DECLINE_OPERATION (in_status DECLINED) w id u (decline_trade id raw u w).
Proof. apply decline_trade_outcome. Qed.

(** C13: Delivering implements the lifecycle's delivery.  Either party delivers a
    confirmed trade, with the quantity and price of the request, within the traded
    quantity and the exact ten percent price band; the totals stored with it are
    the exact ones.  Otherwise the stored
    response is replayed, or the request is refused with every table as it was. *)
Theorem deliver_trade_implements_lifecycle id p raw u w :
  market_ok (db w) → synced w → users (db w) !! u_id u = Some u → deliver_payload_valid p →
  lifecycle_outcome reads TRADE_DELIVER_OPERATION (delivered_as p) w id u (deliver_trade id p raw u w).
Proof. apply deliver_trade_outcome. Qed.

(** Paying implements the lifecycle's last step.  Only a supplier acting for
    the seller marks a delivered trade as paid, while both parties are admitted.
    Otherwise the stored response is replayed, or the request is refused with
    every table as it was. *)
Theorem pay_trade_implements_lifecycle id raw u w :
  market_ok (db w) → synced w → users (db w) !! u_id u = Some u →
  lifecycle_outcome reads TRADE_PAY_OPERATION (in_status PAID) w id u (pay_trade id raw u w).
Proof. apply pay_trade_outcome. Qed.

(** On the demo market, where the hit is pending. *)
Lemma hit_ok : market_ok (db Demo.hit).
Proof. apply (bool_decide_unpack _). vm_compute. exact I. Qed.
Lemma hit_items : items_exist (db Demo.hit).
Proof. apply (bool_decide_unpack _). vm_compute. exact I. Qed.

(** The fresh outcome of a run that is known to return. *)
Definition is_fresh (o : outcome World reply) : bool :=
  match o with Ok (Fresh _) _ => true | _ => false end.

Lemma confirm_trade_implements_lifecycle_witness :
  ∃ r w' t m, confirm_trade 81 (Some "k1") Demo.supplier Demo.hit = Ok (Fresh r) w'
    ∧ lifecycle_step (db Demo.hit) (observed Demo.hit) Demo.supplier t m ∧ t_status (mv_trade m) = CONFIRMED ∧ market_ok (db w').
Proof.
  pose proof (confirm_trade_implements_lifecycle 81 (Some "k1") Demo.supplier Demo.hit hit_ok hit_items eq_refl eq_refl) as H.
  assert (is_fresh (confirm_trade 81 (Some "k1") Demo.supplier Demo.hit) = true) as Hf by (vm_compute; reflexivity).
  destruct (confirm_trade _ _ _ _) as [[r|st b] w'|e w']; try discriminate Hf.
  destruct H as (t & m & _ & Hstep & Hst & _ & _ & Hok & _). exists r, w', t, m. by split_and!.
Defined.

Lemma decline_trade_implements_lifecycle_witness :
  ∃ r w' t m, decline_trade 81 None Demo.supplier Demo.hit = Ok (Fresh r) w'
    ∧ lifecycle_step (db Demo.hit) (observed Demo.hit) Demo.supplier t m ∧ t_status (mv_trade m) = DECLINED ∧ market_ok (db w').
Proof.
  pose proof (decline_trade_implements_lifecycle 81 None Demo.supplier Demo.hit hit_ok hit_items eq_refl eq_refl) as H.
  assert (is_fresh (decline_trade 81 None Demo.supplier Demo.hit) = true) as Hf by (vm_compute; reflexivity).
  destruct (decline_trade _ _ _ _) as [[r|st b] w'|e w']; try discriminate Hf.
  destruct H as (t & m & _ & Hstep & Hst & _ & _ & Hok & _). exists r, w', t, m. by split_and!.
Defined.

Lemma world_of_synced d : synced (Demo.world_of d).
Proof. reflexivity. Qed.

(** The demo trade confirmed, and delivered 1 USD/t above the confirmed price. *)
Definition confirmed_market : World :=
  Demo.world_of (committed (final (confirm_trade 81 None Demo.supplier Demo.hit))).
Definition demo_delivery : TradeDeliverPayload := MkTradeDeliverPayload (of_cents 10000) (of_cents 60100).
Definition delivered_market : World :=
  Demo.world_of (committed (final (deliver_trade 81 demo_delivery None Demo.buyer confirmed_market))).

Lemma confirmed_market_ok : market_ok (db confirmed_market).
Proof. apply (bool_decide_unpack _). vm_compute. exact I. Qed.
Lemma delivered_market_ok : market_ok (db delivered_market).
Proof. apply (bool_decide_unpack _). vm_compute. exact I. Qed.

Lemma deliver_trade_implements_lifecycle_witness :
  ∃ r w' t m, deliver_trade 81 demo_delivery None Demo.buyer confirmed_market = Ok (Fresh r) w'
    ∧ lifecycle_step (db confirmed_market) (observed confirmed_market) Demo.buyer t m ∧ t_status (mv_trade m) = DELIVERED ∧ market_ok (db w').
Proof.
  pose proof (deliver_trade_implements_lifecycle 81 demo_delivery None Demo.buyer confirmed_market
    confirmed_market_ok (world_of_synced _) ltac:(vm_compute; reflexivity)
    ltac:(split; apply of_cents_within; unfold cents; lia)) as H.
  assert (is_fresh (deliver_trade 81 demo_delivery None Demo.buyer confirmed_market) = true) as Hf by (vm_compute; reflexivity).
  destruct (deliver_trade _ _ _ _ _) as [[r|st b] w'|e w']; try discriminate Hf.
  destruct H as (t & m & _ & Hstep & (Hst & _) & _ & _ & Hok & _). exists r, w', t, m. by split_and!.
Defined.

Lemma pay_trade_implements_lifecycle_witness :
  ∃ r w' t m, pay_trade 81 None Demo.supplier delivered_market = Ok (Fresh r) w'
    ∧ lifecycle_step (db delivered_market) (observed delivered_market) Demo.supplier t m ∧ t_status (mv_trade m) = PAID ∧ market_ok (db w').
Proof.
  pose proof (pay_trade_implements_lifecycle 81 None Demo.supplier delivered_market
    delivered_market_ok (world_of_synced _) ltac:(vm_compute; reflexivity)) as H.
  assert (is_fresh (pay_trade 81 None Demo.supplier delivered_market) = true) as Hf by (vm_compute; reflexivity).
  destruct (pay_trade _ _ _ _) as [[r|st b] w'|e w']; try discriminate Hf.
  destruct H as (t & m & _ & Hstep & Hst & _ & _ & Hok & _). exists r, w', t, m. by split_and!.
Defined.
