(* ===== verification/OrdersSafety.v ===== *)
(** * Cancelling an order

    The cancel route ([Orders]) implements one step of the ledger: an active
    order, withdrawn by somebody entitled to it, gives exactly what it still
    holds back to the inventory.  A request that fails commits nothing but, at
    most, the closing of a support context that has run out. *)

From S2P Require Import Prelude Sha256 Catalog Calendar AvailabilityWindows Decimal Json Schema OrderTerms Constraints Delivery Database Scenario Policy Eligibility Events Commands TradeViews Watchlist Benchmarks Inventory Ledger TradeLedger Admission RequestParty Trades Orders TradeSteps TradesSafety.
Local Open Scope Z_scope.

(** ** Frames *)

Lemma reads_reject raw u : Keeps reads (_reject_admin_legacy_workspace_mutation raw u).
Proof. unfold _reject_admin_legacy_workspace_mutation. keeps. Qed.
Lemma reads_admit_cancel p party org o u : Keeps reads (admit_cancel p party org o u).
Proof. unfold admit_cancel. keeps. Qed.
Lemma reads_lock_cancelling o org p u : Keeps reads (lock_cancelling_party o org p u).
Proof. unfold lock_cancelling_party. keeps. Qed.
Lemma reads_order_before o : Keeps reads (order_before_state o).
Proof. unfold order_before_state. keeps. Qed.
#[export] Hint Resolve reads_reject reads_admit_cancel reads_lock_cancelling reads_order_before : keeps.
Lemma only_events_announce_cancellation o b v party org ctx p u :
  Keeps only_events (announce_cancellation o b v party org ctx p u).
Proof. unfold announce_cancellation. keeps. Qed.
#[export] Hint Resolve only_events_announce_cancellation : keeps.

(** ** Who may cancel what *)

(** Its owner, with a member of an admitted organization behind a self-service
    order; or Market Support, inside a context of the order's organization. *)
Definition entitled (w : World) (u : User) (o : Order) : Prop :=
  (owns_order o u = true
   ∧ (is_assisted o = false → ∃ org, u_organization_id u = Some org ∧ admitted_member (db w) (u_id u) org))
  ∨ (is_assisted o = true ∧ o_support_authorization_id o ≠ None
     ∧ ∃ x, support_authority w u x ∧ sx_organization_id x = o_organization_id o).

Record may_cancel (w : World) (u : User) (p : OrderCancel) (o : Order) : Prop := {
  mc_active : is_active_status (o_status o) = true;
  mc_entitled : entitled w u o;
  mc_reason : is_assisted o = true ∨ oc_method p = POST → oc_reason p ≠ None;
  mc_version : is_assisted o = true →
    strip <$> oc_if_match p = Some (order_etag (o_id o) (o_version o));
}.

(** What a request that fails leaves behind. *)
Definition undone (w w' : World) : Prop :=
  contexts_expire (observed w) (committed w) (committed w') ∧ market_ok (committed w').

Definition cancel_outcome (w : World) (id : uuid) (p : OrderCancel) (u : User) (o : outcome World Z) : Prop :=
  match o with
  | Ok status w' =>
      (reads w w' ∧ ∃ body, stored_response (db w) u ORDER_CANCEL_OPERATION id status body)
      ∨ ∃ order, status = 204 ∧ orders (db w) !! id = Some order ∧ may_cancel w u p order
          ∧ same_ledger (withdrawn_in (db w) order (cancelled_order order)) (db w')
          ∧ market_ok (db w') ∧ committed w' = db w' ∧ same_people (db w) (db w')
  | Raise _ w' => undone w w'
  end.

(** ** The guards *)

Lemma etag_ok raw id v w u w' :
  require_matching_etag raw id v w = Ok u w' → strip <$> raw = Some (order_etag id v).
Proof.
  unfold require_matching_etag. destruct raw as [raw|]; [|done]. cbv zeta.
  intros ([] & w1 & [_ ->]%refuse_ok & [Hv ->]%refuse_ok)%bind_ok.
  apply bool_decide_eq_false, dec_stable in Hv. cbn. by rewrite Hv.
Qed.

Definition right_to (party : option RequestParty) (org : option uuid) (o : Order) (u : User) : Prop :=
  if acts_in_support party
  then is_assisted o = true ∧ org = Some (o_organization_id o) ∧ o_support_authorization_id o ≠ None
  else owns_order o u = true.

Lemma admit_cancel_ok p party org o u w ctx w1 :
  admit_cancel p party org o u w = Ok ctx w1 →
  is_active_status (o_status o) = true ∧ right_to party org o u
  ∧ (is_assisted o = true ∨ oc_method p = POST → oc_reason p ≠ None)
  ∧ (is_assisted o = true → strip <$> oc_if_match p = Some (order_etag (o_id o) (o_version o)))
  ∧ (acts_in_support party = true → is_Some ctx).
Proof.
  unfold admit_cancel, right_to. intros ([] & w2 & [Hr1 ->]%refuse_ok & H)%bind_ok.
  apply bind_ok in H as ([] & w2 & [Hr2 ->]%refuse_ok & H). apply bind_ok in H as (c & w2 & Hright & H).
  apply bind_ok in H as ([] & w3 & Hetag & H). apply bind_ok in H as ([] & w4 & [Hact ->]%refuse_ok & [= <- <-]).
  apply negb_false_iff in Hact. split_and!; [done| | | |].
  - destruct (acts_in_support party).
    + apply bind_ok in Hright as ([] & w5 & [Ha ->]%refuse_ok & Hright).
      apply bind_ok in Hright as (d & w5 & [= <- <-] & Hright).
      apply bind_ok in Hright as ([] & w5 & [Hs ->]%refuse_ok & _).
      rewrite orb_false_iff, negb_false_iff, !bool_decide_eq_false in *.
      destruct Ha as [? <-%dec_stable]. done.
    + apply bind_ok in Hright as ([] & w5 & [Ha ->]%refuse_ok & _). by apply negb_false_iff in Ha.
  - rewrite andb_false_iff, bool_decide_eq_false in Hr1, Hr2. rewrite bool_decide_eq_false in Hr2.
    intros [Has|Hp] Hn; [destruct Hr1|destruct Hr2]; try done; congruence.
  - intros Has. rewrite Has in Hetag. by apply etag_ok in Hetag.
  - intros Hin. rewrite Hin in Hright. apply bind_ok in Hright as ([] & w5 & _ & Hright).
    apply bind_ok in Hright as (d & w6 & _ & Hright). apply bind_ok in Hright as ([] & w7 & _ & [= <- _]). by eexists.
Qed.

(** A step that reads when it returns and is quiet when it raises. *)
Lemma settle_bind {A B} (m : M World A) (k : A → M World B) (P : outcome World B → Prop) w :
  match m w with Ok _ w' => reads w w' | Raise _ w' => quiet w w' end →
  (∀ e w1, quiet w w1 → P (Raise e w1)) →
  (∀ a w1, m w = Ok a w1 → reads w w1 → P (k a w1)) → P ((m ≫= k) w).
Proof. intros Hm He Hk. unfold mbind, M_bind. destruct (m w) as [a w1|e w1]; [by apply Hk|by apply He]. Qed.

Section cancelling.
Context (p : OrderCancel) (u : User) (w : World).
Context (Hsync : synced w) (Hok : market_ok (db w)).

Definition party_admitted (raw : option string) (party : option RequestParty) : Prop :=
  match party with
  | Some party => party_of w raw u party
  | None => header_given raw = false
  end.

Lemma party_of_request_outcome raw :
  match party_of_request raw u w with
  | Ok party w' => reads w w' ∧ party_admitted raw party
  | Raise _ w' => quiet w w'
  end.
Proof.
  unfold party_of_request. destruct (header_given raw) eqn:Hg; [|done].
  pose proof (resolve_party_outcome raw u w Hsync Hok) as Hp. unfold mbind, M_bind.
  destruct (resolve_request_party raw u w); [done|apply Hp].
Qed.

Lemma lock_cancelling_ok o org w1 w2 :
  db w1 = db w → lock_cancelling_party o org p u w1 = Ok tt w2 →
  is_assisted o = false → ∃ g, org = Some g ∧ admitted_member (db w) (u_id u) g.
Proof.
  intros Hd H Ha. unfold lock_cancelling_party in H. rewrite Ha in H. destruct org as [g|].
  - apply bind_ok in H as (gs & w3 & H & _). apply lock_and_load_member in H. rewrite Hd in H. by exists g.
  - apply bind_ok in H as (found & w3 & _ & H). destruct (found !! u_id u); [|discriminate].
    apply bind_ok in H as ([] & w4 & _ & H). by apply bind_ok in H as ([] & w5 & _ & H).
Qed.

Lemma lock_cancelled_outcome party org o w1 :
  reads w w1 → orders (db w) !! o_id o = Some o → is_active_status (o_status o) = true →
  match lock_cancelled_order p party org o u w1 with
  | Ok o' w2 => o' = o ∧ reads w w2
      ∧ (is_assisted o = false → ∃ g, org = Some g ∧ admitted_member (db w) (u_id u) g)
  | Raise _ w2 => quiet w w2
  end.
Proof.
  intros Hr1 Ho Hact. unfold lock_cancelled_order.
  match goal with |- match ?m w1 with _ => _ end => change ((λ out : outcome World Order, match out with
    | Ok o' w2 => o' = o ∧ reads w w2
        ∧ (is_assisted o = false → ∃ g, org = Some g ∧ admitted_member (db w) (u_id u) g)
    | Raise _ w2 => quiet w w2 end) (m w1)) end.
  assert (synced w1 ∧ market_ok (db w1)) as [Hs1 Hok1]
    by (destruct Hr1 as (Hd & Hc & _); unfold synced in *; by rewrite Hd, Hc).
  apply (frame_bind reads); [keeps|intros e w2 H2; apply reads_quiet; by trans w1|]. intros [] w2 _ H2.
  assert (reads w w2) as Hr2 by (by trans w1).
  assert (synced w2 ∧ market_ok (db w2)) as [Hs2 Hok2]
    by (destruct Hr2 as (Hd & Hc & _); unfold synced in *; by rewrite Hd, Hc).
  apply settle_bind.
  { destruct party as [party|]; [|done]. pose proof (lock_party_outcome party w2 Hs2 Hok2) as Hl.
    by destruct (lock_request_party_context party w2) as [|]; [apply Hl|]. }
  { intros e w3 Hq. exact (transitivity (reads_quiet _ _ Hr2) Hq). }
  intros [] w3 _ H3. do 2 (erewrite bind_run by reflexivity). set (w4 := set_field _ w3).
  assert (reads w w4) as Hr4 by (by trans w2; [|trans w3]). assert (db w4 = db w) as Hdb by apply Hr4.
  rewrite Hdb, Ho. unfold rollback_raise at 1. rewrite bool_decide_eq_false_2 by (intros H; by apply H).
  apply (frame_bind reads); [keeps|intros e w5 H5; apply reads_quiet; by trans w4|]. intros [] w5 Hl H5.
  unfold rollback_raise. rewrite Hact. cbn [negb]. split_and!; [done|by trans w4|]. by eapply lock_cancelling_ok.
Qed.

(** ** The effects *)

Context (Hex : items_exist (db w)).

Lemma release_order_run o w1 :
  orders (db w) !! o_id o = Some o → is_active_status (o_status o) = true → db w1 = db w →
  ∃ w2, release_order o w1 = Ok tt w2 ∧ uncommitted w1 w2
    ∧ db w2 = (db w) <| inventory := released_inventory (db w) o |>.
Proof.
  intros Ho Hact%active_not_withdrawn Hd. unfold release_order, released_inventory.
  destruct (o_inventory_item_id o) as [i|] eqn:Hi.
  2: { exists w1. split_and!; [done..|]. rewrite Hd. by destruct (db w). }
  destruct (Z.ltb_spec 0 (o_remaining_quantity_mt o)) as [Hq|Hq].
  2: { exists w1. split_and!; [done..|]. rewrite Hd. by destruct (db w). }
  pose proof (Hex _ _ Ho) as Hitem. cbn in Hitem. rewrite Hi in Hitem. destruct Hitem as [item Hitem].
  pose proof Hok as (Hc & (_ & _ & Hk & _) & Hr & _).
  pose proof (held_covers_order (db w) i _ o Hc Ho) as Hheld. rewrite order_holds_own, Hact in Hheld by done.
  pose proof (Hr i item Hitem) as Hres. cbn in Hres.
  destruct (release_run w1 i item (o_remaining_quantity_mt o)) as (x & w2 & Hrun & Hdb & Hcom);
    [by rewrite Hd|by apply (Hk i item)|lia|].
  exists w2. split_and!; [by erewrite bind_run by exact Hrun|done|]. by rewrite Hdb, Hd.
Qed.

Lemma perform_cancel_outcome o command party org ctx w1 :
  orders (db w) !! o_id o = Some o → is_active_status (o_status o) = true → reads w w1 →
  (∀ a, command = Some a → attempt_ready (db w) a) →
  match perform_cancel o command party org ctx p u w1 with
  | Ok status w' => status = 204 ∧ same_ledger (withdrawn_in (db w) o (cancelled_order o)) (db w')
      ∧ market_ok (db w') ∧ committed w' = db w' ∧ same_people (db w) (db w')
  | Raise _ w' => uncommitted w w'
  end.
Proof.
  intros Ho Hact (Hd1 & Hc1 & _) Hcmd. unfold perform_cancel.
  match goal with |- match ?m w1 with _ => _ end => change ((λ out : outcome World Z, match out with
    | Ok status w' => status = 204 ∧ same_ledger (withdrawn_in (db w) o (cancelled_order o)) (db w')
        ∧ market_ok (db w') ∧ committed w' = db w' ∧ same_people (db w) (db w')
    | Raise _ w' => uncommitted w w' end) (m w1)) end.
  apply (frame_bind reads); [keeps|intros e w2 (_ & Hc & _); unfold uncommitted; congruence|].
  intros public w2 _ (Hd2 & Hc2 & _).
  apply (frame_bind reads); [keeps|intros e w3 (_ & Hc & _); unfold uncommitted; congruence|].
  intros before w3 _ (Hd3 & Hc3 & _).
  destruct (release_order_run o w3) as (w4 & Hrun & Hc4 & Hd4); [done..|congruence|].
  erewrite bind_run by exact Hrun. cbv zeta. erewrite bind_run by reflexivity. set (w5 := set_field _ w4).
  assert (db w5 = withdrawn_in (db w) o (cancelled_order o)) as Hd5 by (unfold w5; cbn; by rewrite Hd4).
  assert (committed w5 = committed w) as Hc5 by (unfold uncommitted in *; cbn; congruence).
  apply (frame_bind only_events); [keeps|intros e w6 (Hc & _); unfold uncommitted; congruence|].
  intros [] w6 _ H6. pose proof (only_events_same_ledger _ _ H6) as Hled. rewrite Hd5 in Hled.
  assert (market_ok (db w6)) as Hok6.
  { apply (market_ok_only_events w5); [done|]. rewrite Hd5. by apply (market_ok_close _ o CANCELLED). }
  assert (users (db w6) = users (db w) ∧ organizations (db w6) = organizations (db w)
          ∧ command_results (db w6) = command_results (db w)) as (Hu6 & Hg6 & Hcr6).
  { unfold only_events in H6. destruct_and! H6. rewrite Hd5 in *. by split_and!. }
  destruct (record_success_run command 204 JNull w6 (proj1 Hok6)) as (w7 & Hrec & Hchk & ->); [|lia|].
  { intros a Ha. eapply attempt_ready_ext; [exact Hcr6|]. by apply Hcmd. }
  erewrite bind_run by exact Hrec. set (w7 := set_field _ w6) in *.
  assert (commit w7 = Ok tt (w7 <| committed := db w7 |>)) as Hcommit.
  { by apply commit_run. }
  erewrite bind_run by exact Hcommit. cbn.
  destruct (recorded_people (db w6) command 204 JNull) as [Hru Hrg].
  split_and!; [done| | |done|].
  - destruct (recorded_ledger (db w6) command 204 JNull) as (E1 & E2 & E3). destruct Hled as (L1 & L2 & L3).
    split_and!; [by rewrite <-L1, <-E1|by rewrite <-L2, <-E2|by rewrite <-L3, <-E3].
  - apply market_ok_recorded; [done| |lia]. intros a Ha. eapply attempt_ready_ext; [exact Hcr6|]. by apply Hcmd.
  - split; congruence.
Qed.

(** ** The route *)

Context (Hu : users (db w) !! u_id u = Some u).

Lemma entitled_of raw party o w1 :
  reads w w1 → party_admitted raw party → right_to party (effective_organization_of party u) o u →
  (is_assisted o = false → ∃ g, effective_organization_of party u = Some g ∧ admitted_member (db w) (u_id u) g) →
  entitled w u o.
Proof.
  intros _ Hparty Hright Hmember. unfold right_to in Hright. destruct (acts_in_support party) eqn:Hin.
  - right. destruct Hright as (Ha & Horg & Hauth). split_and!; [done..|].
    destruct party as [party|]; [|done]. apply bool_decide_eq_true in Hin.
    destruct Hparty as (_ & _ & Hparty). rewrite Hin in Hparty.
    destruct Hparty as (x & g & Hx & _ & Hg & Heff & _). exists x. split; [done|].
    unfold effective_organization_of in Horg. cbn in Horg. rewrite Heff in Horg. injection Horg as <-.
    destruct Hok as (_ & (_ & _ & _ & Hk & _) & _). symmetry. by apply (Hk _ g).
  - left. split; [done|]. intros Ha. destruct (Hmember Ha) as (g & _ & Hmem). exists g. split; [|done].
    destruct Hmem as (u' & g' & Hu' & Horg & _). congruence.
Qed.

Lemma quiet_undone w' : quiet w w' → undone w w'.
Proof.
  intros H. destruct (H Hsync Hok) as (Hs' & Hok' & Hd & _). unfold undone, synced in *. by rewrite Hs', Hsync.
Qed.
Lemma uncommitted_undone w' : uncommitted w w' → undone w w'.
Proof. intros Hc. unfold undone. rewrite Hc. split; [done|]. by rewrite Hsync. Qed.

Lemma cancel_order_outcome id raw_context raw_key :
  cancel_outcome w id p u (cancel_order id p raw_context raw_key u w).
Proof.
  unfold cancel_order.
  apply reads_bind; [keeps|intros e w1 Hr; by apply quiet_undone, reads_quiet|]. intros [] w1 Hrej _.
  assert (w1 = w) as ->.
  { unfold _reject_admin_legacy_workspace_mutation in Hrej. apply bind_ok in Hrej as (cfg & w2 & [= <- <-] & Hrej).
    by apply refuse_ok in Hrej as [_ ->]. }
  pose proof (party_of_request_outcome raw_context) as Hparty.
  apply settle_bind; [by destruct (party_of_request raw_context u w); [apply Hparty|]|intros e w1; apply quiet_undone|].
  intros party w1 Hrun Hr1. rewrite Hrun in Hparty. destruct Hparty as [_ Hparty]. cbv zeta. clear Hrun.
  set (org := effective_organization_of party u).
  apply (frame_bind reads); [keeps|intros e w2 H2; apply quiet_undone, reads_quiet; by trans w1|].
  intros command w2 Hprep H2. assert (reads w w2) as Hr2 by (by trans w1).
  apply prepare_ok in Hprep; [|set_solver..]. rewrite (proj1 Hr1) in Hprep.
  destruct (a ← command; ca_replay a) as [r|].
  { left. split; [done|]. eauto. }
  erewrite bind_run by reflexivity. rewrite (proj1 Hr2).
  destruct (orders (db w) !! id) as [o|] eqn:Ho; [|by apply quiet_undone, reads_quiet].
  assert (o_id o = id) as Hid by (by apply (proj1 (proj1 (proj2 Hok)) id o)).
  apply (frame_bind reads); [keeps|intros e w3 H3; apply quiet_undone, reads_quiet; by trans w2|].
  intros ctx w3 Hadm H3. assert (reads w w3) as Hr3 by (by trans w2).
  apply admit_cancel_ok in Hadm as (Hact & Hright & Hreason & Hver & _).
  assert (orders (db w) !! o_id o = Some o) as Horow by (by rewrite Hid).
  pose proof (lock_cancelled_outcome party org o w3 Hr3 Horow Hact) as Hlock.
  unfold mbind at 1, M_bind at 1.
  destruct (lock_cancelled_order p party org o u w3) as [o' w4|e w4]; [|by apply quiet_undone].
  destruct Hlock as (-> & Hr4 & Hmember).
  pose proof (perform_cancel_outcome o command party org ctx w4 Horow Hact Hr4 Hprep) as Hperf.
  destruct (perform_cancel o command party org ctx p u w4) as [status w5|e w5]; [|by apply uncommitted_undone].
  destruct Hperf as (-> & Hled & Hok5 & Hcom & Hpeople). right. exists o. split_and!; try done.
  split; [done| |done|done]. by apply (entitled_of raw_context party o w3).
Qed.
End cancelling.

(** C8: Cancelling implements the withdrawal of an order.  A cancellation that is
    answered afresh withdraws an active order for somebody entitled to it: its
    owner, behind an admitted organization if the order is self-service, or an
    authorized support administrator inside a context of the order's
    organization; with a reason where one is required, and, for an assisted
    order, at exactly the version the caller has seen.  The order's whole
    remainder returns to the inventory that backs it, nothing else in the ledger
    changes, and the committed tables satisfy the market invariant.  Otherwise
    the stored response is replayed, or the request fails and commits nothing but
    the closing of a support context that has run out. *)
Theorem cancel_order_implements_withdrawal id p raw_context raw_key u w :
  synced w → market_ok (db w) → items_exist (db w) → users (db w) !! u_id u = Some u →
  cancel_outcome w id p u (cancel_order id p raw_context raw_key u w).
Proof. intros. by apply cancel_order_outcome. Qed.

(** The administrator cancels the assisted listing it has read at version 1. *)
Definition demo_cancel : OrderCancel :=
  MkOrderCancel POST (Some "Customer request") (Some (order_etag 24 1)).

Lemma supported_items : items_exist (db Demo.supported).
Proof. apply (bool_decide_unpack _). vm_compute. exact I. Qed.

Lemma cancel_order_implements_withdrawal_witness :
  ∃ w', cancel_order 24 demo_cancel Demo.support_header (Some "k1") Demo.admin Demo.supported = Ok 204 w'
    ∧ may_cancel Demo.supported Demo.admin demo_cancel Demo.assisted_ask
    ∧ same_ledger (withdrawn_in (db Demo.supported) Demo.assisted_ask (cancelled_order Demo.assisted_ask)) (db w')
    ∧ market_ok (db w').
Proof.
  pose proof (cancel_order_implements_withdrawal 24 demo_cancel Demo.support_header (Some "k1") Demo.admin
    Demo.supported eq_refl supported_ok supported_items ltac:(vm_compute; reflexivity)) as H.
  assert (match cancel_order 24 demo_cancel Demo.support_header (Some "k1") Demo.admin Demo.supported with
          | Ok status w' => (status =? 204) && bool_decide (size (command_results (db w')) = 1%nat)
                            && bool_decide (o_status <$> orders (db w') !! 24%N = Some CANCELLED)
          | Raise _ _ => false end = true) as Hrun by (vm_compute; reflexivity).
  destruct (cancel_order _ _ _ _ _ _) as [status w'|]; [|discriminate Hrun].
  rewrite !andb_true_iff, Z.eqb_eq, !bool_decide_eq_true in Hrun. destruct Hrun as ((-> & _) & Hst).
  exists w'. destruct H as [[Hr _]|(o & _ & Ho & Hmay & Hled & Hok & _)].
  - exfalso. destruct Hr as (Hdb & _). rewrite Hdb in Hst. revert Hst. vm_compute. discriminate.
  - assert (Some Demo.assisted_ask = Some o) as [= <-] by (rewrite <-Ho; vm_compute; reflexivity).
    split_and!; [reflexivity|exact Hmay|exact Hled|exact Hok].
Defined.
