(* ===== verification/TradeHits.v ===== *)
(** * What hitting an order guarantees

    [create_trade] as an implementation of [TradeSteps.hit_step]: what its
    guards establish, the trade and order it leaves, and that a request that
    fails, or repeats an earlier one, leaves nothing behind. *)

From S2P Require Import Prelude Sha256 Catalog Calendar AvailabilityWindows Decimal Json Schema OrderTerms Constraints Delivery Database Scenario Policy Eligibility Events Commands TradeViews Watchlist Benchmarks Inventory Ledger TradeLedger Admission RequestParty Trades TradeSteps TradesSafety.
Local Open Scope Z_scope.

(** ** What the guards establish *)

Lemma synced_lock_target p : Keeps reads_synced (lock_target_order p).
Proof. unfold lock_target_order. keeps. apply synced_rollback_raise. keeps. Qed.
Lemma reads_check_hit_side o u : Keeps reads (check_hit_side o u).
Proof. unfold check_hit_side. keeps. Qed.
#[export] Hint Resolve synced_lock_target reads_check_hit_side : keeps.
Lemma reads_admit_hit o q u org : Keeps reads (admit_hit o q u org).
Proof. unfold admit_hit. keeps. Qed.
Lemma reads_replay t h u : Keeps reads (replay_trade t h u).
Proof. unfold replay_trade. keeps. Qed.
#[export] Hint Resolve reads_admit_hit reads_replay : keeps.
Lemma reads_created_before k org u : Keeps reads (created_before k org u).
Proof. unfold created_before. keeps. Qed.
#[export] Hint Resolve reads_created_before : keeps.

Lemma lock_target_ok p w o w1 :
  lock_target_order p w = Ok o w1 →
  orders (db w) !! tc_order_id p = Some o ∧ tc_expected_terms_digest p = Some (order_terms_digest o).
Proof.
  unfold lock_target_order. intros H. erewrite bind_run in H by reflexivity. cbv zeta in H.
  apply bind_ok in H as ([] & w2 & Hlock & H).
  assert (db w2 = db w) as Hdb.
  { destruct (order_slice <$> _) as [[[a b] c]|]; [|by inversion Hlock].
    by apply (reads_ok _ _ _ _ (reads_slice_lock a b c)) in Hlock as (? & _). }
  do 2 (erewrite bind_run in H by reflexivity). change (db (w2 <| locks := _ |>)) with (db w2) in H.
  rewrite Hdb in H. destruct (orders (db w) !! tc_order_id p) as [x|]; [|discriminate].
  unfold rollback_raise in H. cbn [fmap option_fmap option_map] in H.
  rewrite bool_decide_eq_false_2 in H by (intros Hne; by apply Hne).
  apply bind_ok in H as ([] & w3 & [Hg ->]%refuse_ok & H). inversion H; subst. split; [done|].
  apply orb_false_iff in Hg as [_ Hg]. by apply bool_decide_eq_false, dec_stable in Hg.
Qed.

Lemma check_hit_side_ok o u w x w1 :
  check_hit_side o u w = Ok x w1 → u_role u = Some (taker_role (o_side o)).
Proof.
  unfold check_hit_side. destruct (o_side o); intros H; inv_run H;
    by apply bool_decide_eq_false, dec_stable in Hguard.
Qed.

(** The facts [admit_hit] hands to the new trade. *)
Record hit_admitted (d : Database) (seen : datetime → Prop) (o : Order) (u : User) (org : uuid) (q : Z) : Prop := {
  ha_active : is_active_status (o_status o) = true;
  ha_fresh : ∃ now, seen now ∧ overdue_at o now = false;
  ha_qualified : order_is_execution_qualified o = true;
  ha_real : o_provenance o = REAL;
  ha_live : is_demo_market_organization (Some (o_organization_id o)) = false;
  ha_other : o_organization_id o ≠ org;
  ha_role : u_role u = Some (taker_role (o_side o));
  ha_taker : execution_party_is_eligible d (users d !! u_id u) (organizations d !! org) = true;
  ha_owner : ∃ owner, o_owner_user_id o = Some owner
    ∧ order_owner_is_execution_eligible d o (users d !! owner) (organizations d !! o_organization_id o) = true;
  ha_quantity : q <= o_remaining_quantity_mt o;
}.

Lemma expiry_guard_ok o (w : World) x w1 :
  match o_expires_at o with
  | Some e => now ← utcnow; refuse (e <=? now) (HTTPException 400 (Msg "Order has expired"))
  | None => mret tt
  end w = Ok x w1 →
  (∃ now, observed w now ∧ overdue_at o now = false) ∧ db w1 = db w.
Proof.
  unfold overdue_at. destruct (o_expires_at o) as [e|]; intros H; inv_run H; (split; [|done]).
  - eexists. split; [by eexists|done].
  - eexists. split; [by exists 0%nat|done].
Qed.

Lemma admit_hit_ok d o q u org w ip tp w1 :
  db w = d → admit_hit o q u org w = Ok (ip, tp) w1 → hit_admitted d (observed w) o u org q ∧ ip = REAL ∧ tp = REAL.
Proof.
  intros <-. unfold admit_hit. intros (d & w2 & [= <- <-] & H)%bind_ok.
  apply bind_ok in H as ([] & w3 & [_ ->]%refuse_ok & H).
  apply bind_ok in H as (orgs & w4 & Hl & H).
  apply (reads_ok _ _ _ _ (reads_lock_and_load _ _ _ _)) in Hl as (Hdb4 & _ & _ & Hclock4).
  apply bind_ok in H as ([] & w5 & [Hact ->]%refuse_ok & H). apply negb_false_iff in Hact.
  apply bind_ok in H as ([] & w6 & Hexp & H). apply expiry_guard_ok in Hexp as [Hexp Hdb6].
  rewrite (observed_clock _ _ Hclock4) in Hexp.
  apply bind_ok in H as ([] & w7 & [Hqual ->]%refuse_ok & H). apply negb_false_iff in Hqual.
  apply bind_ok in H as ([] & w8 & [Hdemo ->]%refuse_ok & H).
  destruct (o_owner_user_id o) as [owner|] eqn:Howner; [|discriminate]. cbv zeta in H.
  apply bind_ok in H as ([] & w9 & [_ ->]%refuse_ok & H).
  apply bind_ok in H as ([] & w10 & Hside & H).
  pose proof (check_hit_side_ok o u _ _ _ Hside) as Hrole.
  apply (reads_ok _ _ _ _ (reads_check_hit_side _ _)) in Hside as (Hdb10 & _).
  apply bind_ok in H as ([] & w11 & [Hself ->]%refuse_ok & H). apply bool_decide_eq_false in Hself.
  apply bind_ok in H as ([] & w12 & [Hprov ->]%refuse_ok & H).
  apply negb_false_iff, provenance_compatible_without_demo_pair in Hprov as [Hip Htp].
  unfold lock_users, lock_organizations in H. inv_run H. rename Hguard into Helig, Hguard0 into Hq.
  apply Z.ltb_ge in Hq. cbn [db set_field] in Helig.
  match type of Helig with context [db ?x] => change (db x) with (db w10) in Helig end.
  rewrite Hdb10, Hdb6, Hdb4 in Helig.
  rewrite !locked_lookup in Helig by first [by left|by right; left].
  rewrite orb_false_iff, !negb_false_iff in Helig. destruct Helig as [Htaker Hown].
  split; [|done]. split; try done. by exists owner.
Qed.

(** ** The outcome *)

(** The trade an earlier request with this key created. *)
Definition earlier_trade (d : Database) (u : User) (k : CreateKey) (t : Trade) : Prop :=
  ∃ org key, u_organization_id u = Some org ∧ given_key k = Some key
    ∧ existing_trade d org key = Some t ∧ initiating_user t = Some (u_id u)
    ∧ t_idempotency_request_hash t = Some (default "" (ck_request_hash k)).

Definition hit_outcome (p : TradeCreate) (raw : option string) (u : User) (w : World)
    (o : outcome World TradeResponse) : Prop :=
  match o with
  | Ok r w' =>
      ∃ k, create_key raw p = Val k ∧
        ((∃ t, earlier_trade (db w) u k t ∧ r = response_to (db w) t u ∧ db w' = db w ∧ committed w' = committed w)
         ∨ ∃ m, hit_step (db w) (settings w) (observed w) u p k m ∧ r = response_to (db w) (mv_trade m) u
             ∧ same_ledger (moved (db w) m) (db w') ∧ market_ok (db w') ∧ committed w' = db w')
  | Raise _ w' => uncommitted w w'
  end.

Lemma replay_ok t h u w r w1 :
  replay_trade t h u w = Ok r w1 →
  r = response_to (db w) t u ∧ initiating_user t = Some (u_id u) ∧ t_idempotency_request_hash t = Some h.
Proof.
  unfold replay_trade. intros ([] & w2 & [Hh ->]%refuse_ok & H)%bind_ok.
  apply bind_ok in H as ([] & w3 & [Hu ->]%refuse_ok & H).
  apply bool_decide_eq_false, dec_stable in Hh, Hu. by inversion H.
Qed.

Lemma created_before_ok k org u w r w1 :
  u_organization_id u = Some org → created_before k org u w = Ok (Some r) w1 →
  ∃ t, earlier_trade (db w) u k t ∧ r = response_to (db w) t u.
Proof.
  intros Horg. unfold created_before. destruct (given_key k) as [key|] eqn:Hk; [|by inversion 1].
  intros ([] & w2 & Hlock & H)%bind_ok.
  apply (reads_ok _ _ _ _ (reads_acquire_idempotency_lock _ _ _)) in Hlock as (Hdb & _).
  erewrite bind_run in H by reflexivity. rewrite Hdb in H.
  destruct (existing_trade (db w) org key) as [t|] eqn:Ht; [|by inversion H].
  apply bind_ok in H as (response & w3 & Hr & H). inversion H; subst. apply replay_ok in Hr as (-> & Hu & Hh).
  exists t. rewrite Hdb. split; [|done]. by exists org, key.
Qed.

Lemma only_events_announce_trade t o before b u : Keeps only_events (announce_trade t o before b u).
Proof. unfold announce_trade. keeps. Qed.
#[export] Hint Resolve only_events_announce_trade : keeps.

(** The insert: it takes, or a concurrent winner of the key answers, or the
    request fails. *)
Lemma insert_outcome k org u w (P : outcome World TradeResponse → Prop) (rest : M World TradeResponse) :
  u_organization_id u = Some org →
  (∀ e w', uncommitted w w' → P (Raise e w')) →
  (∀ t w1, earlier_trade (committed w) u k t → db w1 = committed w → uncommitted w w1 →
     P (Ok (response_to (committed w) t u) w1)) →
  (database_checks (db w) → P (rest w)) →
  P ((winner ← catch_integrity (flush ;; mret None) (resolve_key_winner k org u);
      match winner with Some response => mret response | None => rest end) w).
Proof.
  intros Horg Hraise Hwin Hrest. unfold mbind at 1, M_bind at 1, catch_integrity.
  destruct (decide (database_checks (db w))) as [Hc|Hc].
  { erewrite bind_run by (by apply flush_run). by apply Hrest. }
  assert (flush w = Raise (IntegrityError "check or unique constraint") w) as Hf.
  { unfold flush. by rewrite bool_decide_eq_false_2. }
  erewrite bind_raise by exact Hf. unfold resolve_key_winner. erewrite bind_run by reflexivity.
  destruct (given_key k) as [key|] eqn:Hk; [|by apply Hraise].
  erewrite bind_run by reflexivity. change (db (w <| db := _ |>)) with (committed w).
  destruct (existing_trade (committed w) org key) as [t|] eqn:Ht; [|by apply Hraise].
  set (w1 := w <| db := _ |>). pose proof (reads_replay t (default "" (ck_request_hash k)) u w1) as Hreads.
  unfold mbind at 1, M_bind at 1. destruct (replay_trade _ _ u w1) as [r w2|e w2] eqn:Hr.
  - apply replay_ok in Hr as (-> & Hu & Hh). destruct Hreads as (Hdb & Hcom & _).
    apply Hwin; [|done..]. by exists org, key.
  - destruct Hreads as (Hdb & Hcom & _). by apply Hraise.
Qed.

Lemma load_trade_run id t w : trades (db w) !! id = Some t → _load_trade id false w = Ok t w.
Proof. intros H. unfold _load_trade, mbind, M_bind. cbn. by rewrite H. Qed.

(** From the inserted rows to the committed response. *)
Lemma announced_outcome p raw k u org w w3 m o' before b :
  market_ok (db w) → create_key raw p = Val k → u_organization_id u = Some org →
  hit_step (db w) (settings w) (observed w) u p k m → db w3 = moved (db w) m → uncommitted w w3 → database_checks (db w3) →
  hit_outcome p raw u w
    ((announce_trade (mv_trade m) o' before b u ;;
      loaded_trade ← _load_trade (t_id (mv_trade m)) false;
      response ← trade_response loaded_trade (Some org) (is_admin u);
      commit ;; mret response) w3).
Proof.
  intros Hok Hk Horg Hstep Hdb Hu Hc.
  apply (frame_bind only_events); [keeps|intros e w4 Hev; change (uncommitted w w4)|].
  { etrans; [exact Hu|apply Hev]. }
  intros [] w4 _ Hev.
  assert (balanced (db w) m) as Hbal 
    by (eapply (hit_balanced _ _ _ _ _ _ _ (db w3)); [done..|by rewrite Hdb]).
  assert (settled (db w) m w4) as Hset by (by exists w3).
  destruct (settled_facts _ _ _ Hok Hbal Hset) as (Hok4 & Hled & _ & (_ & Horgs)).
  assert (trades (db w4) !! t_id (mv_trade m) = Some (mv_trade m)) as Hload.
  { destruct Hled as (_ & -> & _). unfold moved. cbn. apply lookup_insert_eq. }
  erewrite bind_run by (apply load_trade_run; exact Hload). erewrite bind_run by reflexivity.
  assert (commit w4 = Ok tt (w4 <| committed := db w4 |>)) as Hcommit.
  { apply commit_run, Hok4. }
  erewrite bind_run by exact Hcommit. exists k. split; [done|]. right. exists m.
  split_and!; try done. unfold response_to. by rewrite Horgs, Horg.
Qed.

Lemma place_trade_outcome p raw k u org w w1 :
  market_ok (db w) → synced w → create_key raw p = Val k → u_organization_id u = Some org → reads w w1 →
  hit_outcome p raw u w (place_trade p k u org w1).
Proof.
  intros Hok Hsync Hk Horg Hr1. unfold place_trade. cbv zeta.
  apply (frame_bind reads_synced); [keeps| |].
  { intros e w2 Hr. change (uncommitted w w2). by apply (reads_trans_synced w w1) in Hr as (_ & ? & _). }
  intros o w2 Hlock Hr2. apply lock_target_ok in Hlock as [Ho Hdigest].
  apply (reads_trans_synced w w1 w2 Hsync Hr1) in Hr2. assert (db w1 = db w) as Hdb1 by apply Hr1. rewrite Hdb1 in Ho.
  assert (∀ w3, reads w w3 → uncommitted w w3) as Hunc by (by intros w3 (_ & ? & _)).
  apply reads_bind; [keeps|intros e w3 Hr; apply (Hunc w3); by trans w2|].
  intros [ip tp] w3 Hadm Hr3. apply (admit_hit_ok (db w)) in Hadm as (Hadm & -> & ->); [|apply Hr2].
  assert (reads w w3) as Hw3 by (by trans w2).
  apply reads_bind; [keeps|intros e w4 Hr; apply (Hunc w4); by trans w3|]. intros b w4 _ Hr4.
  assert (reads w w4) as Hw4 by (by trans w3).
  apply reads_bind; [keeps|intros e w5 Hr; apply (Hunc w5); by trans w4|]. intros before w5 _ Hr5.
  assert (reads w w5) as Hw5 by (by trans w4).
  apply reads_bind; [keeps|intros e w6 Hr; apply (Hunc w6); by trans w5|]. intros [plan fee] w6 Hfee Hr6.
  assert (reads w w6) as Hw6 by (by trans w5).
  unfold resolve_seller_trade_fee in Hfee. do 3 (erewrite bind_run in Hfee by reflexivity).
  apply lift_ok in Hfee as [Hfee _].
  assert (db w5 = db w ∧ settings w5 = settings w) as [Hdb5 Hset5] by (split; apply Hw5).
  rewrite Hdb5, Hset5 in Hfee.
  do 4 (erewrite bind_run by reflexivity). cbn [fst snd].
  set (created_at := clock w6 _). set (t := new_trade _ _ _ _ _ _ _ _ _ _ _).
  set (o' := hit_order o _). set (m := MkMove t (Some o') None 0 0).
  match goal with |- hit_outcome _ _ _ _ (_ ?x) => set (w7 := x) end.
  assert (db w6 = db w ∧ committed w6 = committed w) as [Hdb6 Hcom6] by (split; apply Hw6).
  assert (hit_step (db w) (settings w) (observed w) u p k m) as Hstep.
  { destruct Hadm as [A1 (now & Hnow & A2) A3 A4 A5 A6 A7 A8 (owner & A9 & A10) A11]. unfold m, t, o'.
    change (db (w6 <| clock_reads := _ |>)) with (db w6). rewrite Hdb6.
    eapply (step_hit _ _ _ _ _ _ o org owner now); try done; [by apply (reads_observed w w2)|by apply (reads_clock w w5)|by apply (reads_clock w w6)]. }
  assert (db w7 = moved (db w) m) as Hdb7 by (unfold w7, moved; cbn; by rewrite Hdb6).
  assert (uncommitted w w7) as Hu7 by exact Hcom6.
  apply (insert_outcome k org u w7 (hit_outcome p raw u w)); [done| | |].
  - intros e w8 Hu. change (uncommitted w w8). by etrans.
  - intros t0 w8 Ht0 Hdb8 Hu8. assert (committed w7 = db w) as Hc7 by (unfold synced, uncommitted in *; congruence).
    rewrite Hc7 in *. exists k. split; [done|]. left. exists t0. split_and!; [done..|].
    unfold uncommitted in *. congruence.
  - intros Hc. by apply (announced_outcome p raw k u org w w7 m).
Qed.

Lemma create_trade_outcome p raw u w :
  market_ok (db w) → synced w → hit_outcome p raw u w (create_trade p raw u w).
Proof.
  intros Hok Hsync. unfold create_trade.
  assert (∀ w1, reads w w1 → uncommitted w w1) as Hunc by (by intros w1 (_ & ? & _)).
  apply reads_bind; [keeps|intros e w1 Hr; by apply (Hunc w1)|]. intros [] w1 _ Hr1.
  destruct (u_organization_id u) as [org|] eqn:Horg; [|by apply (Hunc w1)].
  apply reads_bind; [keeps|intros e w2 Hr; apply (Hunc w2); by trans w1|].
  intros k w2 [Hk ->]%lift_ok _.
  apply reads_bind; [keeps|intros e w3 Hr; apply (Hunc w3); by trans w1|]. intros [r|] w3 Hrun Hr3.
  - apply (created_before_ok k org u) in Hrun as (t & Ht & ->); [|done].
    assert (db w1 = db w) as Hdb by apply Hr1. rewrite Hdb in *. assert (reads w w3) as (? & ? & _) by (by trans w1).
    exists k. split; [done|]. left. by exists t.
  - apply (place_trade_outcome p raw k u org w w3); try done. by trans w1.
Qed.

(** C12: Hitting an order implements the step of the specification.  A request
    either answers with the trade that the same user's earlier request with the
    same key and payload created, changing nothing; or places one new trade:
    the order's terms were the ones reviewed, it was active, live, qualified and
    unexpired when the request read its clock, the two parties are different and admitted, the role fits the
    side and the quantity is within the remainder - and then the committed
    ledger is the old one with the trade added and the quantity taken off the
    order, and still satisfies the market invariant; or it fails, and nothing
    is committed.  A lost race for the key ends in one of the three, too. *)
Theorem create_trade_implements_hit p raw u w :
  market_ok (db w) → synced w → hit_outcome p raw u w (create_trade p raw u w).
Proof. apply create_trade_outcome. Qed.

Definition demo_hit : TradeCreate :=
  MkTradeCreate 21 (Some (order_terms_digest Demo.ask)) (of_cents 10000).
Definition trade_returned (o : outcome World TradeResponse) : bool :=
  match o with Ok _ _ => true | Raise _ _ => false end.

Lemma placed_ok : market_ok (db Demo.placed).
Proof. apply (bool_decide_unpack _). vm_compute. exact I. Qed.

Lemma create_trade_implements_hit_witness :
  ∃ r w', create_trade demo_hit (Some "k1") Demo.buyer Demo.placed = Ok r w'
    ∧ ∃ k m, hit_step (db Demo.placed) default_settings (observed Demo.placed) Demo.buyer demo_hit k m ∧ market_ok (db w').
Proof.
  pose proof (create_trade_implements_hit demo_hit (Some "k1") Demo.buyer Demo.placed placed_ok eq_refl) as H.
  assert (trade_returned (create_trade demo_hit (Some "k1") Demo.buyer Demo.placed) = true) as Hr by (vm_compute; reflexivity).
  destruct (create_trade _ _ _ _) as [r w'|e w']; [|discriminate Hr].
  exists r, w'. split; [done|]. destruct H as (k & _ & [(t & (org & key & _ & _ & Ht & _) & _)|(m & Hm & _ & _ & Hok & _)]).
  - exfalso. revert Ht. vm_compute. discriminate.
  - by exists k, m.
Defined.

(** ** The empty key

    An empty header is no key, but it is stored with the trade, whose idempotency
    columns the database wants all present or all absent. *)

(** A request with an empty [Idempotency-Key] header cannot create a trade.
    Whatever the order, the user and the payload, it fails and commits nothing;
    when every other condition holds, what it fails with is the unhandled
    [IntegrityError] of the insert - where the same request without the header
    succeeds. *)
Theorem create_trade_empty_key_fails p u w :
  market_ok (db w) → synced w →
  ∃ e w', create_trade p (Some "") u w = Raise e w' ∧ committed w' = committed w.
Proof.
  intros Hok Hsync. pose proof (create_trade_outcome p (Some "") u w Hok Hsync) as H.
  destruct (create_trade p (Some "") u w) as [r w'|e w']; [exfalso|by exists e, w'].
  destruct H as (k & [= <-] & [(t & (org & key & _ & [=] & _) & _)|(m & Hstep & _ & Hled & Hok' & _)]).
  destruct Hok' as ((_ & Htc & _) & _). destruct Hled as (_ & Htr & _).
  assert (trade_checks (mv_trade m)) as ((_ & _ & Hidem & _) & _).
  { apply (Htc (t_id (mv_trade m))). rewrite Htr. apply lookup_insert_eq. }
  destruct Hstep. cbn in Hidem. destruct Hidem as [(Hk & _)|(_ & Hop & _)]; [discriminate Hk|by apply Hop].
Qed.

Lemma create_trade_empty_key_fails_witness :
  (∃ e w', create_trade demo_hit (Some "") Demo.buyer Demo.placed = Raise e w'
     ∧ committed w' = committed Demo.placed ∧ e = IntegrityError "check or unique constraint")
  ∧ trade_returned (create_trade demo_hit None Demo.buyer Demo.placed) = true.
Proof.
  split; [|vm_compute; reflexivity].
  destruct (create_trade_empty_key_fails demo_hit Demo.buyer Demo.placed placed_ok eq_refl) as (e & w' & Hrun & Hc).
  exists e, w'. split_and!; [done..|].
  assert (match create_trade demo_hit (Some "") Demo.buyer Demo.placed with
          | Raise (IntegrityError c) _ => String.eqb c "check or unique constraint" | _ => false end = true) as He
    by (vm_compute; reflexivity).
  rewrite Hrun in He. destruct e; try discriminate He. by apply String.eqb_eq in He as ->.
Defined.
