(* ===== verification/Lifecycle.v ===== *)
(** * Expiry of a slice

    [app/services/order_lifecycle.py]: under the slice lock, the active orders
    of one side of a slice whose deadline has passed are expired, at most a
    hundred per call and in id order, and what they still hold is released.  An
    inventory row several orders share is one object of the session. *)

From S2P Require Import Prelude Catalog Calendar AvailabilityWindows Decimal Schema Constraints Database Queries Scenario Policy Eligibility Events Watchlist Inventory Ledger Admission.
Local Open Scope Z_scope.

Definition MAX_EXPIRY_ROWS_PER_TRANSACTION : Z := 100.

(** One side of a slice. *)
Record SliceSide := MkSliceSide {
  sl_side : OrderSide;
  sl_product_id : uuid;
  sl_delivery_point_id : option uuid;
  sl_availability_window : string;
}.

(** [filters] *)
Definition expiry_filter (sl : SliceSide) (observed_now : datetime) (o : Order) : bool :=
  bool_decide (o_side o = sl_side sl)
  && bool_decide (o_product_id o = sl_product_id sl)
  && bool_decide (o_availability_window o = sl_availability_window sl)
  && is_active_status (o_status o)
  && match o_expires_at o with Some e => e <=? observed_now | None => false end
  && bool_decide (o_delivery_point_id o = sl_delivery_point_id sl).

Definition id_le (a b : Order) : Prop := (o_id a <= o_id b)%N.
#[export] Instance id_le_dec : RelDecision id_le.
Proof. intros a b. unfold id_le. apply _. Defined.

Definition orders_by_id (d : Database) (p : Order → bool) : list Order :=
  select_orders id_le d p.

Definition expiry_before (o : Order) : BeforeOrder :=
  MkBeforeOrder (Some (o_price_per_mt_usd o)) (Some (o_remaining_quantity_mt o)) (Some (o_status o)) None.

(** Give the remainder of an expired order back to the row that backs it. *)
Definition release_expired (inventory_rows : gset uuid) (o : Order) : M World unit :=
  match o_inventory_item_id o with
  | Some item_id =>
      if 0 <? o_remaining_quantity_mt o then
        d ← get_db;
        match inventory d !! item_id with
        | Some item =>
            if bool_decide (item_id ∈ inventory_rows) then
              let reserved := i_reserved_stock_mt item in
              refuse (reserved <? o_remaining_quantity_mt o)
                (HTTPException 409 (Msg "Inventory reservation is inconsistent; expiry refused")) ;;
              put_item (item <| i_reserved_stock_mt := reserved - o_remaining_quantity_mt o |>
                             <| i_current_stock_mt := i_current_stock_mt item + o_remaining_quantity_mt o |>)
            else raise KeyError
        | None => raise KeyError
        end
      else mret tt
  | None => mret tt
  end.

Definition expired_order (o : Order) : Order := bump_version (o <| o_status := EXPIRED |>).

Definition expire_order (inventory_rows : gset uuid) (public_before : bool) (o : Order)
    : M World (Order * MarketEventEnvelope) :=
  release_expired inventory_rows o ;;
  let o' := expired_order o in
  put_order o' ;;
  emit_order_updated (expiry_before o) o' ;;
  record_audit None ORDER_EXPIRED "order" (Some (o_id o))
    (JObj [ ("status", JStr (OrderBookStatus_value EXPIRED));
            ("released_quantity_mt", JDec (o_remaining_quantity_mt o)) ]) ;;
  event ← lift (participant_market_event "order_expired" "order" (o_id o) [o_organization_id o]
    [ ("id", JUuid (o_id o)); ("status", JStr (OrderBookStatus_value EXPIRED)) ] public_before);
  mret (o', event).

(** The orders one call expires. *)
Definition due_orders (d : Database) (sl : SliceSide) (observed_now : datetime) (limit : Z) : list Order :=
  take (Z.to_nat limit) (orders_by_id d (expiry_filter sl observed_now)).

Definition expire_market_slice_orders (sl : SliceSide) (now : option datetime) (limit : Z)
    (additional_organization_ids : list uuid) (actor_ownerships : list MarketActorOwnership)
    (require_approved_organization_ids : list uuid)
    : M World (list Order * gmap uuid Organization) :=
  refuse ((limit <? 1) || (MAX_EXPIRY_ROWS_PER_TRANSACTION <? limit))
    (ValueError (Msg "expiry limit is outside the operational bound")) ;;
  observed_now ← match now with Some t => mret t | None => utcnow end;
  acquire_market_slice_lock (sl_product_id sl) (sl_delivery_point_id sl) (sl_availability_window sl) ;;
  d ← get_db;
  let preview_ids := o_id <$> due_orders d sl observed_now limit in
  rows ← (match preview_ids with
          | [] => mret []
          | _ =>
              take_lock (RowOrders preview_ids) ;;
              d ← get_db;
              let rows := orders_by_id d
                (λ o, bool_decide (o_id o ∈ preview_ids) && expiry_filter sl observed_now o) in
              refuse (bool_decide (length rows ≠ length preview_ids))
                (HTTPException 409 (Msg "Expired order set changed; retry the request")) ;;
              mret rows
          end : M World (list Order));
  organizations ← lock_and_load_market_organizations
    (additional_organization_ids ++ (o_organization_id <$> rows)) actor_ownerships false
    require_approved_organization_ids;
  let inventory_ids : gset uuid := list_to_set (omap (λ o,
    if 0 <? o_remaining_quantity_mt o then o_inventory_item_id o else None) rows) in
  lock_inventory_items inventory_ids ;;
  public_before ← mapM (λ o, match o_expires_at o with
    | Some e => visible ← public_order_is_visible (o_id o) (Some (e - 1)); mret (visible : bool)
    | None => mret false
    end) rows;
  expired ← mapM (λ '(o, visible), expire_order inventory_ids visible o) (zip rows public_before);
  enqueue_market_events (snd <$> expired) ;;
  mret (fst <$> expired, organizations).

(** ** What an expiry does to the ledger *)

(** The book without the expired orders: each one is withdrawn. *)
Definition expired_in (d : Database) (rows : list Order) : Database :=
  foldl (λ d o, withdrawn_in d o (expired_order o)) d rows.

Lemma expired_order_identity o : same_identity o (expired_order o).
Proof. apply (closed_order_row EXPIRED). Qed.
Lemma expired_order_status o : o_status (expired_order o) = EXPIRED.
Proof. apply (closed_order_row EXPIRED). Qed.

Lemma released_insert d o i item :
  o_inventory_item_id o = Some i → inventory d !! i = Some item → 0 < o_remaining_quantity_mt o →
  released_inventory d o = <[ i := release_stock (o_remaining_quantity_mt o) item ]> (inventory d).
Proof.
  intros Hi Hitem Hq. unfold released_inventory. rewrite Hi, (proj2 (Z.ltb_lt _ _)) by done.
  apply map_eq. intros j. destruct (decide (j = i)) as [->|].
  - by rewrite lookup_alter_eq, lookup_insert_eq, Hitem.
  - by rewrite lookup_alter_ne, lookup_insert_ne.
Qed.

(** The row of an order is backed by an inventory row this call has locked. *)
Definition backing_locked (d : Database) (inventory_rows : gset uuid) (o : Order) : Prop :=
  ∀ i, o_inventory_item_id o = Some i → 0 < o_remaining_quantity_mt o →
  i ∈ inventory_rows ∧ is_Some (inventory d !! i).

Lemma release_expired_run rows o w :
  market_ok (db w) → orders (db w) !! o_id o = Some o → is_active_status (o_status o) = true →
  backing_locked (db w) rows o →
  release_expired rows o w = Ok tt (w <| db := (db w) <| inventory := released_inventory (db w) o |> |>).
Proof.
  intros (Hc & Hk & Hr & _) Hid Hs%active_not_withdrawn Hlock. unfold release_expired.
  assert (w = w <| db := (db w) <| inventory := inventory (db w) |> |>) as Heta
    by (destruct w as [[] ? ? ? ? ? ? ?]; done).
  destruct (o_inventory_item_id o) as [i|] eqn:Hi.
  2: { unfold released_inventory. rewrite Hi, <-Heta. done. }
  destruct (Z.ltb_spec 0 (o_remaining_quantity_mt o)) as [Hq|Hq].
  2: { unfold released_inventory. rewrite Hi, (proj2 (Z.ltb_ge _ _)), <-Heta by done. done. }
  destruct (Hlock i Hi Hq) as [Hin [item Hitem]].
  assert (o_remaining_quantity_mt o <= i_reserved_stock_mt item) as Hcover.
  { rewrite (Hr i item Hitem). etrans; [|by eapply held_covers_order].
    by rewrite order_holds_own, Hs. }
  rewrite (released_insert _ o i item) by done.
  erewrite bind_run by reflexivity. rewrite Hitem, bool_decide_eq_true_2 by done.
  rewrite (proj2 (Z.ltb_ge _ _)) by lia. erewrite bind_run by reflexivity.
  destruct Hk as (_ & _ & Hk & _). unfold put_item, modify, release_stock. cbn. by rewrite (Hk i item Hitem).
Qed.

Lemma expire_order_run rows visible o w :
  market_ok (db w) → orders (db w) !! o_id o = Some o → is_active_status (o_status o) = true →
  backing_locked (db w) rows o →
  market_ok (withdrawn_in (db w) o (expired_order o))
  ∧ ∃ e w', expire_order rows visible o w = Ok (expired_order o, e) w'
      ∧ only_events (w <| db := withdrawn_in (db w) o (expired_order o) |>) w'.
Proof.
  intros Hok Hid Hs Hlock.
  assert (market_ok (withdrawn_in (db w) o (expired_order o))) as Hok'.
  { by apply (market_ok_close _ o EXPIRED). }
  split; [done|]. unfold expire_order.
  erewrite bind_run by (by apply release_expired_run). cbv zeta. erewrite bind_run by reflexivity.
  set (w1 := w <| db := withdrawn_in (db w) o (expired_order o) |>).
  match goal with |- context [(emit_order_updated _ _ ≫= _) ?s] => change s with w1 end.
  destruct (emit_order_updated_returns (expired_order o)) with (before := expiry_before o) (w := w1)
    as ([] & w2 & Hrun); [|exact (proj1 Hok')|].
  { destruct (expired_order_identity o) as (_ & _ & _ & -> & _).
    apply (proj1 (proj2 (proj2 (proj2 (proj2 Hok)))) (o_id o) o Hid). }
  assert (only_events w1 w2) as Hev by (eapply keeps_ok; [apply only_events_emit_updated|exact Hrun]).
  erewrite bind_run by exact Hrun. erewrite bind_run by reflexivity.
  destruct (participant_event_returns "order_expired" "order" (o_id o) [o_organization_id o]
    [("id", JUuid (o_id o)); ("status", JStr (OrderBookStatus_value EXPIRED))] visible (o_organization_id o))
    as [e He]; [set_solver|done..|].
  erewrite bind_run by (unfold lift; by rewrite He).
  eexists e, _. split; [reflexivity|]. etrans; [exact Hev|]. by repeat split.
Qed.

(** ** A run of expiries *)

Lemma withdrawn_orders_other d o o' k :
  o_id o' ≠ k → orders (withdrawn_in d o o') !! k = orders d !! k.
Proof. intros H. unfold withdrawn_in. cbn. by rewrite lookup_insert_ne. Qed.

Lemma withdrawn_backing d o o' rows x :
  backing_locked d rows x → backing_locked (withdrawn_in d o o') rows x.
Proof.
  intros H i Hi Hq. destruct (H i Hi Hq) as [? [item Hitem]]. split; [done|].
  unfold withdrawn_in, released_inventory. cbn.
  destruct (o_inventory_item_id o) as [j|]; [|eauto]. destruct (0 <? _); [|eauto].
  apply lookup_alter_is_Some. eauto.
Qed.

#[export] Instance expired_in_proper rows :
  Proper (only_events ==> only_events) (λ w, w <| db := expired_in (db w) rows |>).
Proof.
  induction rows as [|o rows IH]; intros a b H.
  { unfold expired_in. cbn. unfold only_events in *. cbn. done. }
  specialize (IH (a <| db := withdrawn_in (db a) o (expired_order o) |>)
                 (b <| db := withdrawn_in (db b) o (expired_order o) |>)). apply IH.
  unfold only_events at 1. cbn. unfold withdrawn_in, released_inventory. cbn.
  rewrite_tables H. by split_and!.
Qed.

Lemma expire_orders_run inventory_rows l w :
  market_ok (db w) → NoDup (o_id <$> l.*1) →
  (∀ o, o ∈ l.*1 → orders (db w) !! o_id o = Some o ∧ is_active_status (o_status o) = true
                    ∧ backing_locked (db w) inventory_rows o) →
  market_ok (expired_in (db w) l.*1)
  ∧ ∃ es w', mapM (λ '(o, visible), expire_order inventory_rows visible o) l w = Ok es w'
      ∧ es.*1 = expired_order <$> l.*1 ∧ only_events (w <| db := expired_in (db w) l.*1 |>) w'.
Proof.
  revert w. induction l as [|[o visible] l IH]; intros w Hok Hnd Hl.
  { split; [done|]. exists [], w. split_and!; [done..|]. by apply only_events_same_db. }
  apply NoDup_cons in Hnd as [Hnin Hnd].
  destruct (Hl o) as (Hid & Hs & Hb); [left|].
  destruct (expire_order_run inventory_rows visible o w Hok Hid Hs Hb) as (Hok1 & e & w1 & Hrun & Hev).
  assert (market_ok (db w1)) as Hok1' by (by eapply market_ok_only_events).
  assert (same_ledger (withdrawn_in (db w) o (expired_order o)) (db w1)) as Hsame
    by exact (only_events_same_ledger _ _ Hev).
  destruct (IH w1) as (Hok2 & es & w2 & Hrun2 & Hes & Hev2); [done..| |].
  { intros x Hx. destruct (Hl x) as (Hxid & Hxs & Hxb); [by right|]. destruct Hsame as (So & _ & Si).
    split_and!; [|done|].
    - rewrite So, withdrawn_orders_other; [done|].
      rewrite (proj1 (expired_order_identity o)). intros Heq.
      apply Hnin. cbn. rewrite Heq. by apply list_elem_of_fmap_2.
    - intros i Hi Hq. rewrite Si. by apply (withdrawn_backing _ _ _ _ x Hxb). }
  assert (only_events (w <| db := expired_in (db w) (o :: l.*1) |>)
                      (w1 <| db := expired_in (db w1) l.*1 |>)) as Hev'
    by (apply (expired_in_proper l.*1) in Hev; exact Hev).
  split; [symmetry in Hev'; exact (market_ok_only_events _ _ Hev' Hok2)|].
  exists (((expired_order o, e)) :: es), w2. split_and!.
  - cbn [mapM]. erewrite bind_run by exact Hrun. by erewrite bind_run by exact Hrun2.
  - cbn. by rewrite Hes.
  - etrans; [exact Hev'|exact Hev2].
Qed.

#[export] Instance id_le_transitive : Transitive id_le.
Proof. intros a b c. unfold id_le. lia. Qed.
#[export] Instance id_le_total : Total id_le.
Proof. intros a b. unfold id_le. lia. Qed.
Lemma id_le_antisymm a b : id_le a b → id_le b a → o_id a = o_id b.
Proof. unfold id_le. lia. Qed.

Lemma due_orders_spec d sl t limit o :
  keyed d → o ∈ due_orders d sl t limit → orders d !! o_id o = Some o ∧ expiry_filter sl t o = true.
Proof.
  intros Hk%keyed_orders Hin. apply (elem_of_selected d Hk id_le).
  unfold due_orders, orders_by_id in Hin.
  rewrite <-(take_drop (Z.to_nat limit) (select_orders id_le d (expiry_filter sl t))).
  apply elem_of_app. by left.
Qed.

Lemma due_orders_NoDup d sl t limit : keyed d → NoDup (o_id <$> due_orders d sl t limit).
Proof.
  intros Hk%keyed_orders. unfold due_orders, orders_by_id.
  eapply sublist_NoDup; [apply (selected_NoDup d Hk id_le)|]. apply fmap_sublist, sublist_take.
Qed.

Lemma expiry_filter_active sl t o : expiry_filter sl t o = true → is_active_status (o_status o) = true.
Proof. unfold expiry_filter. rewrite !andb_true_iff. tauto. Qed.

(** The rows locked again are the rows previewed. *)
Lemma due_orders_reselect d sl t limit :
  keyed d →
  orders_by_id d (λ o, bool_decide (o_id o ∈ o_id <$> due_orders d sl t limit) && expiry_filter sl t o)
  = due_orders d sl t limit.
Proof.
  intros Hk%keyed_orders. apply (selected_reselect d Hk id_le); [apply _..|apply id_le_antisymm].
Qed.

(** [now or datetime.now(UTC)] *)
Definition observed_now (w : World) (now : option datetime) : datetime :=
  match now with Some t => t | None => clock w (clock_reads w) end.

(** The outcome of a sweep that withdraws [due]. *)
Definition withdraws_due (w : World) (due : list Order)
    (out : outcome World (list Order * gmap uuid Organization)) : Prop :=
  match out with
  | Ok (rows, _) w' =>
      rows = expired_order <$> due ∧ same_ledger (expired_in (db w) due) (db w') ∧ market_ok (db w')
      ∧ committed w' = committed w
  | Raise e w' => db w' = db w ∧ committed w' = committed w
  end.

Lemma expire_market_slice_orders_outcome sl now limit extra actors approved w :
  market_ok (db w) →
  withdraws_due w (due_orders (db w) sl (observed_now w now) limit)
    (expire_market_slice_orders sl now limit extra actors approved w).
Proof.
  intros Hok. set (due := due_orders _ _ _ _). unfold expire_market_slice_orders. set (P := withdraws_due w due).
  apply reads_bind; [keeps|by intros ? ? (? & ? & _)|]. intros [] w0 [_ ->]%refuse_ok _.
  assert (∃ w1, (match now with Some t => mret t | None => utcnow end : M World datetime) w
                = Ok (observed_now w now) w1 ∧ reads w w1) as (w1 & Hnow & Hw1).
  { destruct now; eexists; (split; [reflexivity|]); by repeat split. }
  erewrite bind_run by exact Hnow.
  apply reads_bind; [keeps|intros ? ? Hr; by destruct (transitivity Hw1 Hr) as (? & ? & _)|].
  intros [] w2 _ Hw2. pose proof (transitivity Hw1 Hw2) as Hr2. clear Hw1 Hw2 Hnow w1.
  erewrite bind_run by reflexivity. cbv zeta.
  replace (db w2) with (db w) by (symmetry; apply Hr2). fold due.
  match goal with |- P ((?m ≫= _) w2) => assert (∃ w3, m w2 = Ok due w3 ∧ reads w w3) as (w3 & Hrows & Hr3) end.
  { destruct (o_id <$> due) as [|i ids] eqn:Hids.
    { apply fmap_nil_inv in Hids. rewrite Hids. by exists w2. }
    eexists. erewrite bind_run by reflexivity. erewrite bind_run by reflexivity.
    change (db (w2 <| locks := ?l |>)) with (db w2).
    rewrite <-Hids. replace (db w2) with (db w) by (symmetry; apply Hr2).
    pose proof (due_orders_reselect (db w) sl (observed_now w now) limit (proj1 (proj2 Hok))) as Hsel.
    fold due in Hsel. rewrite Hsel, length_fmap, bool_decide_eq_false_2 by (intros Hne; by apply Hne).
    split; [reflexivity|]. etrans; [exact Hr2|]. by repeat split. }
  erewrite bind_run by exact Hrows. clear Hrows.
  apply reads_bind; [keeps|intros ? ? Hr; by destruct (transitivity Hr3 Hr) as (? & ? & _)|].
  intros organizations w4 _ Hw4. pose proof (transitivity Hr3 Hw4) as Hr4. clear Hw4.
  set (item_ids := list_to_set _ : gset uuid).
  apply reads_bind; [keeps|intros ? ? Hr; by destruct (transitivity Hr4 Hr) as (? & ? & _)|].
  intros items w5 Hitems Hw5.
  assert (∀ o, o ∈ due → backing_locked (db w) item_ids o) as Hback.
  { intros o Ho i Hi Hq. assert (i ∈ item_ids) as Hin.
    { apply elem_of_list_to_set, list_elem_of_omap. exists o. split; [done|].
      by rewrite (proj2 (Z.ltb_lt _ _)). }
    split; [done|]. apply lock_inventory_items_ok in Hitems as (_ & _ & Hitems).
    destruct (Hitems i Hin) as (item & _ & Hitem). rewrite (proj1 Hr4) in Hitem. eauto. }
  pose proof (transitivity Hr4 Hw5) as Hr5. clear Hw5 Hr4 Hr3 Hr2 Hitems.
  apply reads_bind; [keeps|intros ? ? Hr; by destruct (transitivity Hr5 Hr) as (? & ? & _)|].
  intros visible w6 Hvis%mapM_ok_length Hw6. pose proof (transitivity Hr5 Hw6) as Hr6. clear Hw6 Hr5.
  assert ((zip due visible).*1 = due) as Hzip by (apply fst_zip; lia).
  destruct (expire_orders_run item_ids (zip due visible) w6) as (Hok' & es & w7 & Hrun & Hes & Hev);
    rewrite ?Hzip, ?(proj1 Hr6); [done|apply due_orders_NoDup, Hok| |].
  { intros o Ho. destruct (due_orders_spec _ _ _ _ _ (proj1 (proj2 Hok)) Ho) as [Hid Hf].
    split_and!; [done|by eapply expiry_filter_active|by apply Hback]. }
  rewrite Hzip in *. rewrite (proj1 Hr6) in *.
  erewrite bind_run by exact Hrun.
  assert (market_ok (db w7)) as Hok7 by (exact (market_ok_only_events _ _ Hev Hok')).
  destruct (enqueue_returns es.*2 w7) as ([] & w8 & Henq); [apply Hok7|].
  erewrite bind_run by exact Henq. unfold P. cbn.
  apply (keeps_ok only_events) in Henq; [|keeps].
  split_and!; [done| | |].
  - exact (only_events_same_ledger _ _ (transitivity Hev Henq)).
  - exact (market_ok_only_events _ _ Henq Hok7).
  - etrans; [apply Henq|]. etrans; [apply Hev|]. apply Hr6.
Qed.

(** C24: Expiring a slice.  On trading tables that satisfy the market
    invariant, a call either raises before it has changed a table, or it
    withdraws exactly the due orders - at most [limit] active orders of the
    side and slice whose deadline has passed, in id order - releasing to each
    one's inventory row what it still offered, and changes no other order,
    trade or stock.  The invariant, the exact reservation balance included,
    holds again afterwards, and nothing is committed. *)
Theorem expire_market_slice_orders_withdraws_due sl now limit extra actors approved w :
  market_ok (db w) →
  let due := due_orders (db w) sl (observed_now w now) limit in
  match expire_market_slice_orders sl now limit extra actors approved w with
  | Ok (rows, _) w' =>
      rows = expired_order <$> due
      ∧ same_ledger (expired_in (db w) due) (db w') ∧ market_ok (db w')
      ∧ committed w' = committed w
  | Raise e w' => db w' = db w ∧ committed w' = committed w
  end.
Proof.
  intros Hok. exact (expire_market_slice_orders_outcome sl now limit extra actors approved w Hok).
Qed.

Definition demo_slice : SliceSide :=
  MkSliceSide ASK (p_id Demo.methanol) (Some (d_id Demo.rotterdam)) "SPOT".

Lemma expire_market_slice_orders_withdraws_due_witness :
  ∃ orgs w', expire_market_slice_orders demo_slice None 100 [] [] [] Demo.stale
             = Ok ([expired_order Demo.stale_ask], orgs) w'
    ∧ market_ok (db w') ∧ i_current_stock_mt <$> inventory (db w') !! 70%N = Some 130000.
Proof.
  assert (market_ok (db Demo.stale)) as Hok by (apply (bool_decide_unpack _); vm_compute; exact I).
  pose proof (expire_market_slice_orders_withdraws_due demo_slice None 100 [] [] [] Demo.stale Hok) as H.
  assert (match expire_market_slice_orders demo_slice None 100 [] [] [] Demo.stale with
          | Ok _ _ => True | Raise _ _ => False end) as Hret by (vm_compute; exact I).
  destruct (expire_market_slice_orders _ _ _ _ _ _ _) as [[rows orgs] w'|]; [|destruct Hret].
  cbv zeta in H. destruct H as (-> & (_ & _ & Hinv) & Hok' & _).
  exists orgs, w'. split_and!; [|done|].
  - do 2 f_equal.
  - rewrite Hinv. vm_compute. reflexivity.
Defined.

Lemma expired_in_lookup d rows k :
  NoDup (o_id <$> rows) →
  orders (expired_in d rows) !! k
  = match list_find (λ o, o_id o = k) rows with
    | Some (_, o) => Some (expired_order o)
    | None => orders d !! k
    end.
Proof.
  revert d. induction rows as [|o rows IH]; intros d; [done|]. intros [Hnin Hnd]%NoDup_cons.
  cbn [expired_in foldl]. change (foldl _ ?d' rows) with (expired_in d' rows).
  rewrite IH by done. cbn [list_find]. destruct (decide (o_id o = k)) as [<-|Hne].
  - destruct (list_find (λ x, o_id x = o_id o) rows) as [[i x]|] eqn:Hf.
    + apply list_find_Some in Hf as (Hi & Hx & _). destruct Hnin. rewrite <-Hx.
      apply list_elem_of_fmap_2. by eapply list_elem_of_lookup_2.
    + cbn. rewrite (proj1 (expired_order_identity o)). by rewrite lookup_insert_eq.
  - destruct (list_find _ rows) as [[i x]|]; [done|].
    by rewrite withdrawn_orders_other by (by rewrite (proj1 (expired_order_identity o))).
Qed.

(** C28: A sweep makes progress.  A call that returns has expired at most
    [limit] orders, and what is overdue afterwards, at the same instant, is
    exactly what it did not get to: the remaining overdue orders in id order.
    Repeating the call drains the slice, and once it returns fewer than
    [limit] rows nothing is overdue. *)
Theorem expire_market_slice_orders_drains sl now limit extra actors approved w rows orgs w' :
  market_ok (db w) →
  expire_market_slice_orders sl now limit extra actors approved w = Ok (rows, orgs) w' →
  let overdue d := orders_by_id d (expiry_filter sl (observed_now w now)) in
  (length rows <= Z.to_nat limit)%nat ∧ overdue (db w') = drop (Z.to_nat limit) (overdue (db w))
  ∧ ((length rows < Z.to_nat limit)%nat → overdue (db w') = []).
Proof.
  intros Hok Hrun overdue.
  pose proof (expire_market_slice_orders_outcome sl now limit extra actors approved w Hok) as H.
  rewrite Hrun in H. destruct H as (-> & (Hord & _) & Hok' & _).
  assert (overdue (db w') = drop (Z.to_nat limit) (overdue (db w))) as Hrest.
  { apply (selected_rest id_le); [apply id_le_antisymm|apply keyed_orders, Hok..|apply keyed_orders, Hok'|].
    pose proof (keyed_orders _ (proj1 (proj2 Hok))) as Hk.
    intros x. rewrite (selected_take_drop (db w) Hk id_le), (elem_of_selected (db w) Hk id_le), Hord.
    rewrite expired_in_lookup by apply due_orders_NoDup, Hok.
    change (take _ _) with (due_orders (db w) sl (observed_now w now) limit).
    destruct (list_find _ _) as [[i y]|] eqn:Hf.
    - apply list_find_Some in Hf as (Hy%list_elem_of_lookup_2 & Hyx & _).
      split; [|intros [_ []]; rewrite <-Hyx; by apply list_elem_of_fmap_2].
      intros [[= <-] Hf%expiry_filter_active]. by rewrite expired_order_status in Hf.
    - apply list_find_None in Hf. rewrite Forall_forall in Hf.
      split; [|tauto]. intros Hx. split; [done|].
      intros (y & Hy & Hin)%list_elem_of_fmap. by apply (Hf y). }
  assert (length (due_orders (db w) sl (observed_now w now) limit)
          = Nat.min (Z.to_nat limit) (length (overdue (db w)))) as Hlen by apply length_take.
  rewrite length_fmap, Hlen. split_and!; [lia|done|].
  intros Hlt. rewrite Hrest. apply drop_ge. lia.
Qed.

Lemma expire_market_slice_orders_drains_witness :
  ∃ rows orgs w', expire_market_slice_orders demo_slice None 100 [] [] [] Demo.stale = Ok (rows, orgs) w'
    ∧ orders_by_id (db w') (expiry_filter demo_slice Demo.noon) = [].
Proof.
  assert (market_ok (db Demo.stale)) as Hok by (apply (bool_decide_unpack _); vm_compute; exact I).
  pose proof (λ rows orgs w', expire_market_slice_orders_drains demo_slice None 100 [] [] [] Demo.stale
    rows orgs w' Hok) as H.
  assert (match expire_market_slice_orders demo_slice None 100 [] [] [] Demo.stale with
          | Ok (rows, _) _ => (length rows < 100)%nat | Raise _ _ => False end) as Hret
    by (vm_compute; lia).
  destruct (expire_market_slice_orders _ _ _ _ _ _ _) as [[rows orgs] w'|]; [|destruct Hret].
  exists rows, orgs, w'. split; [done|]. by apply (H rows orgs w').
Defined.
