(* ===== verification/Matching.v ===== *)
(** * Match on insert

    [app/services/matching_engine.py]: when an order is placed, the crossing
    orders of its slice are locked in price, acceptance, id priority and traded
    against one after another, inside the caller's transaction.  The incoming
    order is a row of the table, written back after every fill. *)

From S2P Require Import Prelude Catalog Calendar AvailabilityWindows Schema Constraints Database Queries Policy Events Inventory Admission.
Local Open Scope Z_scope.

Definition MAX_CROSSING_ORDERS_PER_MATCH : nat := 100.

Definition opposite (s : OrderSide) : OrderSide := match s with BID => ASK | ASK => BID end.

(** A BID trades with asks at or below its price, an ASK with bids at or above. *)
Definition price_filter (new_order o : Order) : bool :=
  match o_side new_order with
  | BID => o_price_per_mt_usd o <=? o_price_per_mt_usd new_order
  | ASK => o_price_per_mt_usd new_order <=? o_price_per_mt_usd o
  end.

Definition organization_is_approved (d : Database) (org : uuid) : bool :=
  match organizations d !! org with
  | Some g => bool_decide (g_verification_status g = "APPROVED")
  | None => false
  end.

(** [match_filters] *)
Definition match_filters (d : Database) (new_order : Order) (now : datetime) (o : Order) : bool :=
  bool_decide (o_side o = opposite (o_side new_order))
  && bool_decide (o_product_id o = o_product_id new_order)
  && bool_decide (o_availability_window o = o_availability_window new_order)
  && is_active_status (o_status o)
  && bool_decide (o_organization_id o ≠ o_organization_id new_order)
  && price_filter new_order o
  && match o_expires_at o with None => true | Some e => now <? e end
  && bool_decide (o_provenance o = o_provenance new_order)
  && organization_is_approved d (o_organization_id o)
  && bool_decide (o_delivery_point_id o = o_delivery_point_id new_order).

(** Best price first, then the acceptance ordinal, then the id. *)
Definition price_rank (side : OrderSide) (o : Order) : Z :=
  match side with BID => o_price_per_mt_usd o | ASK => - o_price_per_mt_usd o end.
Definition priority_le (side : OrderSide) (a b : Order) : Prop :=
  price_rank side a < price_rank side b
  ∨ (price_rank side a = price_rank side b
     ∧ (o_acceptance_ordinal a < o_acceptance_ordinal b
        ∨ (o_acceptance_ordinal a = o_acceptance_ordinal b ∧ (o_id a <= o_id b)%N))).
#[export] Instance priority_le_dec side : RelDecision (priority_le side).
Proof. intros a b. unfold priority_le. apply _. Defined.

(** The rows a filter selects, in priority order. *)
Definition prioritized (d : Database) (side : OrderSide) (p : Order → bool) : list Order :=
  select_orders (priority_le side) d p.

(** What stays fixed during one match. *)
Record MatchContext := MkMatchContext {
  mc_now : datetime;
  mc_provenance : OrganizationProvenance;
  mc_allowed_demo : option (uuid * uuid);
  mc_is_anonymous : bool;
}.

(** What the loop carries. *)
Record MatchState := MkMatchState {
  ms_new_order : Order;
  ms_fee_snapshots : gmap uuid (SubscriptionTier * Z);
  ms_trades : list Trade;
  ms_notifications : list OrgNotification;
}.

(** The demo gate of an incoming DEMO order: [None] refuses it, and an admitted
    order may trade with exactly one counterparty order and organization. *)
Definition demo_counterparty (new_order : Order) (allowed_demo_order_pair : option (gset uuid))
    : option (uuid * uuid) :=
  let expected_new_org_id :=
    match o_side new_order with BID => DEMO_ACTIVITY_BUYER_ORG_ID | ASK => DEMO_ACTIVITY_SELLER_ORG_ID end in
  if bool_decide (o_organization_id new_order ≠ expected_new_org_id) then None
  else match allowed_demo_order_pair with
  | None => None
  | Some allowed =>
      if bool_decide (size allowed ≠ 2%nat) || bool_decide (o_id new_order ∉ allowed) then None
      else match elements (allowed ∖ {[ o_id new_order ]}) with
      | [counterparty_id] =>
          Some (counterparty_id,
                match o_side new_order with
                | BID => DEMO_ACTIVITY_SELLER_ORG_ID
                | ASK => DEMO_ACTIVITY_BUYER_ORG_ID
                end)
      | _ => None
      end
  end.

(** Both owners admitted under their row locks. *)
Definition owners_admitted (new_order crossing : Order) : M World bool :=
  match o_owner_user_id new_order, o_owner_user_id crossing with
  | Some new_owner, Some crossing_owner =>
      owners ← lock_users [new_owner; crossing_owner];
      orgs ← lock_organizations [o_organization_id new_order; o_organization_id crossing];
      d ← get_db;
      mret (order_owner_is_execution_eligible d new_order (owners !! new_owner)
              (orgs !! o_organization_id new_order)
            && order_owner_is_execution_eligible d crossing (owners !! crossing_owner)
                 (orgs !! o_organization_id crossing))
  | _, _ => mret false
  end.

(** [consumption_by_item], in insertion order. *)
Definition consumption_by_item (new_order crossing : Order) (trade_qty : Z) : list (uuid * Z) :=
  match o_inventory_item_id new_order, o_inventory_item_id crossing with
  | None, None => []
  | Some i, None | None, Some i => [(i, trade_qty)]
  | Some i, Some j =>
      if bool_decide (i = j) then [(i, trade_qty + trade_qty)] else [(i, trade_qty); (j, trade_qty)]
  end.

Definition consume_reservations (consumption : list (uuid * Z)) : M World unit :=
  rows ← lock_inventory_items (list_to_set consumption.*1);
  iterM (λ '(item_id, consumed),
    match rows !! item_id with
    | None => raise KeyError
    | Some item =>
        let reserved := i_reserved_stock_mt item in
        refuse (reserved <? consumed)
          (RuntimeError (Msg "inventory reservation is inconsistent; refusing the match")) ;;
        put_item (item <| i_reserved_stock_mt := reserved - consumed |>)
    end) consumption.

(** [seller_fee_snapshots]: resolved once per seller and match. *)
Definition fee_snapshot (fees : gmap uuid (SubscriptionTier * Z)) (seller_org : uuid) (now : datetime)
    : M World (SubscriptionTier * Z) :=
  match fees !! seller_org with
  | Some fee => mret fee
  | None => resolve_seller_trade_fee seller_org (Some now)
  end.

(** The row of an automatic trade. *)
Definition matched_trade (d : Database) (ctx : MatchContext) (new_order crossing : Order)
    (trade_qty : Z) (plan : SubscriptionTier) (fee : Z) (confirmed_at created_at : datetime) : Trade :=
  let is_bid := bool_decide (o_side new_order = BID) in
  let bid := if is_bid then new_order else crossing in
  let ask := if is_bid then crossing else new_order in
  {| t_id := fresh_id (trades d);
     t_bid_order_id := Some (o_id bid); t_ask_order_id := Some (o_id ask);
     t_buyer_id := o_organization_id bid; t_seller_id := o_organization_id ask;
     t_buyer_user_id := o_owner_user_id bid; t_seller_user_id := o_owner_user_id ask;
     t_initiator_org_id := o_organization_id new_order;
     t_buyer_provenance := if is_bid then mc_provenance ctx else o_provenance crossing;
     t_seller_provenance := if is_bid then o_provenance crossing else mc_provenance ctx;
     t_initiated_by := if is_bid then INITIATED_BY_BUYER else INITIATED_BY_SELLER;
     t_is_anonymous := mc_is_anonymous ctx;
     t_product_id := Some (o_product_id new_order);
     t_product_name := Some (order_product_name d new_order);
     t_fuel_type := Some (order_fuel_type d new_order);
     t_fuel_grade := Some (order_fuel_grade d new_order);
     t_market_product := order_market_product d new_order;
     t_delivery_point_id := o_delivery_point_id new_order;
     t_delivery_point_name := order_delivery_point_name d new_order;
     t_delivery_point_region := Some (order_region d new_order);
     t_availability_window := Some (o_availability_window new_order);
     t_market_snapshot_version := Some 1;
     t_quantity_mt := trade_qty;
     t_price_per_mt_usd := o_price_per_mt_usd crossing;
     t_status := CONFIRMED;
     t_final_quantity_mt := None; t_final_price_per_mt := None; t_final_total_usd := None;
     t_commission_rate_pct := 0;
     t_commission_fee_per_mt_usd := Some fee;
     t_commission_plan := Some (SubscriptionTier_value plan);
     t_commission_amount_usd := None;
     t_confirmed_at := Some confirmed_at; t_delivered_at := None; t_paid_at := None;
     t_created_at := created_at;
     t_idempotency_key := None; t_idempotency_operation := None;
     t_idempotency_request_hash := None |}.

(** Take [trade_qty] off an order that a trade fills. *)
Definition fill_order (o : Order) (trade_qty : Z) : Order :=
  let remaining := o_remaining_quantity_mt o - trade_qty in
  bump_version
    (o <| o_remaining_quantity_mt := remaining |>
       <| o_status := if remaining =? 0 then FILLED else PARTIALLY_FILLED |>).

Definition match_notifications (t : Trade) (product_name : string) : list OrgNotification :=
  let message := Fmt "Your order was automatically matched: {} MT of {} at ${}/MT"
    [ADec (t_quantity_mt t); AStr (if bool_decide (product_name = "") then "fuel" else product_name);
     ADec (t_price_per_mt_usd t)] in
  let data := JObj [("trade_id", JUuid (t_id t)); ("auto_matched", JBool true)] in
  [ MkOrgNotification (t_buyer_id t) NT_TRADE_CONFIRMED "Auto-Matched Trade" message (Some data);
    MkOrgNotification (t_seller_id t) NT_TRADE_CONFIRMED "Auto-Matched Trade" message (Some data) ].

(** Trade the two orders: the body of the loop once every guard has passed. *)
Definition execute_match (ctx : MatchContext) (st : MatchState) (crossing : Order)
    : M World MatchState :=
  let new_order := ms_new_order st in
  let trade_qty := Z.min (o_remaining_quantity_mt new_order) (o_remaining_quantity_mt crossing) in
  let seller_org := match o_side new_order with
                    | BID => o_organization_id crossing
                    | ASK => o_organization_id new_order
                    end in
  fee ← fee_snapshot (ms_fee_snapshots st) seller_org (mc_now ctx);
  consume_reservations (consumption_by_item new_order crossing trade_qty) ;;
  confirmed_at ← utcnow;
  d ← get_db;
  created_at ← utcnow;
  let trade := matched_trade d ctx new_order crossing trade_qty fee.1 fee.2 confirmed_at created_at in
  put_trade trade ;;
  flush ;;
  let new_order' := fill_order new_order trade_qty in
  put_order new_order' ;;
  put_order (fill_order crossing trade_qty) ;;
  mret (MkMatchState new_order' (<[ seller_org := fee ]> (ms_fee_snapshots st))
          (ms_trades st ++ [trade])
          (ms_notifications st ++ match_notifications trade (order_product_name d new_order))).

(** One crossing order: the guards ([continue]) and the trade. *)
Definition match_one (ctx : MatchContext) (st : MatchState) (crossing : Order) : M World MatchState :=
  let new_order := ms_new_order st in
  if match o_expires_at crossing with Some e => e <=? mc_now ctx | None => false end then
    put_order (bump_version (crossing <| o_status := EXPIRED |>)) ;; mret st
  else if negb (execution_provenance_compatible (mc_provenance ctx) (o_provenance crossing)
             (Some (o_organization_id new_order)) (Some (o_organization_id crossing))
             (Some DEMO_ACTIVITY_ORG_IDS)) then mret st
  else if match mc_allowed_demo ctx with
          | Some (id, org) => bool_decide (o_id crossing ≠ id) || bool_decide (o_organization_id crossing ≠ org)
          | None => false
          end then mret st
  else if negb (orders_execution_compatible new_order crossing) then mret st
  else
    admitted ← match mc_allowed_demo ctx with
               | Some _ => mret true
               | None => owners_admitted new_order crossing
               end;
    if negb admitted then mret st else execute_match ctx st crossing.

Fixpoint match_loop (ctx : MatchContext) (crossing_orders : list Order) (st : MatchState)
    : M World MatchState :=
  match crossing_orders with
  | [] => mret st
  | crossing :: rest =>
      if o_remaining_quantity_mt (ms_new_order st) <=? 0 then mret st
      else st' ← match_one ctx st crossing; match_loop ctx rest st'
  end.

Definition fanout_error : exn :=
  HTTPException 409 (Msg "Market slice match fan-out exceeds the per-transaction bound; no partial matching result was committed").

(** The book side: preview, lock, admission, loop, notifications. *)
Definition match_against_book (ctx : MatchContext) (new_order : Order) : M World (list Trade) :=
  d ← get_db;
  let side := o_side new_order in
  let now := mc_now ctx in
  let preview := take (S MAX_CROSSING_ORDERS_PER_MATCH)
                      (prioritized d side (match_filters d new_order now)) in
  let fanout_exceeded := bool_decide (MAX_CROSSING_ORDERS_PER_MATCH < length preview)%nat in
  let candidate_rows := take MAX_CROSSING_ORDERS_PER_MATCH preview in
  match candidate_rows with
  | [] => mret []
  | _ =>
      let candidate_ids := o_id <$> candidate_rows in
      take_lock (RowOrders candidate_ids) ;;
      d ← get_db;
      let crossing_orders :=
        prioritized d side (λ o, bool_decide (o_id o ∈ candidate_ids) && match_filters d new_order now o) in
      lock_and_load_market_organizations
        (o_organization_id new_order :: (o_organization_id <$> crossing_orders)) [] true [] ;;
      st ← match_loop ctx crossing_orders (MkMatchState new_order ∅ [] []);
      notify_org_users_batched (ms_notifications st) ;;
      flush ;;
      refuse (fanout_exceeded && (0 <? o_remaining_quantity_mt (ms_new_order st))) fanout_error ;;
      mret (ms_trades st)
  end.

Definition match_order (new_order : Order) (is_anonymous : bool)
    (allowed_demo_order_pair : option (gset uuid)) : M World (list Trade) :=
  if o_remaining_quantity_mt new_order <=? 0 then mret []
  else
    acquire_market_slice_lock (o_product_id new_order) (o_delivery_point_id new_order)
      (o_availability_window new_order) ;;
    now ← utcnow;
    if match o_expires_at new_order with Some e => e <=? now | None => false end then
      put_order (bump_version (new_order <| o_status := EXPIRED |>)) ;; mret []
    else
      let provenance := coerce_provenance (PEnum (o_provenance new_order)) in
      if negb (bool_decide (provenance = REAL ∨ provenance = DEMO)) then mret []
      else
        let demo := demo_counterparty new_order allowed_demo_order_pair in
        if bool_decide (provenance = DEMO) && bool_decide (demo = None) then mret []
        else if negb (order_is_execution_qualified new_order) then mret []
        else
          match_against_book
            (MkMatchContext now provenance (if bool_decide (provenance = DEMO) then demo else None)
               is_anonymous) new_order.

(** ** The matching plan

    What the loop should do, as a function of the incoming quantity and the
    crossing orders in priority order: take each executable order in turn, fill
    the smaller of the two remainders, stop when nothing is left. *)

Definition owners_ok (d : Database) (new_order crossing : Order) : bool :=
  match o_owner_user_id new_order, o_owner_user_id crossing with
  | Some a, Some b =>
      order_owner_is_execution_eligible d new_order (users d !! a)
        (organizations d !! o_organization_id new_order)
      && order_owner_is_execution_eligible d crossing (users d !! b)
           (organizations d !! o_organization_id crossing)
  | _, _ => false
  end.

(** Every guard of [match_one]. *)
Definition executable (d : Database) (ctx : MatchContext) (new_order crossing : Order) : bool :=
  execution_provenance_compatible (mc_provenance ctx) (o_provenance crossing)
    (Some (o_organization_id new_order)) (Some (o_organization_id crossing))
    (Some DEMO_ACTIVITY_ORG_IDS)
  && match mc_allowed_demo ctx with
     | Some (id, org) => bool_decide (o_id crossing = id) && bool_decide (o_organization_id crossing = org)
     | None => true
     end
  && orders_execution_compatible new_order crossing
  && match mc_allowed_demo ctx with Some _ => true | None => owners_ok d new_order crossing end.

Fixpoint plan (quantity : Z) (book : list Order) : list (Order * Z) :=
  match book with
  | [] => []
  | crossing :: rest =>
      if quantity <=? 0 then []
      else
        let fill := Z.min quantity (o_remaining_quantity_mt crossing) in
        (crossing, fill) :: plan (quantity - fill) rest
  end.

Fixpoint total_filled (fills : list (Order * Z)) : Z :=
  match fills with [] => 0 | f :: fills => f.2 + total_filled fills end.

(** The incoming order after a list of fills. *)
Definition fill_all (o : Order) (fills : list (Order * Z)) : Order :=
  foldl (λ o f, fill_order o f.2) o fills.

(** The crossing orders after them, and the order table. *)
Definition fill_map (fills : list (Order * Z)) : gmap uuid Order :=
  list_to_map ((λ f, (o_id f.1, fill_order f.1 f.2)) <$> fills).
Definition book_after (new_order : Order) (fills : list (Order * Z)) (m : gmap uuid Order)
    : gmap uuid Order :=
  <[ o_id new_order := fill_all new_order fills ]> (fill_map fills ∪ m).

(** Reserved stock after a consumption. *)
Definition consume_map (consumption : list (uuid * Z)) (m : gmap uuid InventoryItem)
    : gmap uuid InventoryItem :=
  foldl (λ m c, alter (λ i, i <| i_reserved_stock_mt := i_reserved_stock_mt i - c.2 |>) c.1 m)
        m consumption.

Definition consume_all (new_order : Order) (fills : list (Order * Z)) (m : gmap uuid InventoryItem)
    : gmap uuid InventoryItem :=
  foldl (λ m f, consume_map (consumption_by_item new_order f.1 f.2) m) m fills.

(** Rows inserted one after another under unused ids. *)
Fixpoint inserted (ts : list Trade) (m m' : gmap uuid Trade) : Prop :=
  match ts with
  | [] => m' = m
  | t :: ts => m !! t_id t = None ∧ inserted ts (<[ t_id t := t ]> m) m'
  end.

(** ** Fields a fill leaves alone *)

Lemma bump_version_fields o :
  o_id (bump_version o) = o_id o ∧ o_side (bump_version o) = o_side o
  ∧ o_organization_id (bump_version o) = o_organization_id o
  ∧ o_owner_user_id (bump_version o) = o_owner_user_id o
  ∧ o_inventory_item_id (bump_version o) = o_inventory_item_id o
  ∧ o_provenance (bump_version o) = o_provenance o
  ∧ o_product_id (bump_version o) = o_product_id o
  ∧ o_delivery_point_id (bump_version o) = o_delivery_point_id o
  ∧ o_availability_window (bump_version o) = o_availability_window o
  ∧ o_price_per_mt_usd (bump_version o) = o_price_per_mt_usd o
  ∧ o_quantity_mt (bump_version o) = o_quantity_mt o
  ∧ o_remaining_quantity_mt (bump_version o) = o_remaining_quantity_mt o
  ∧ o_status (bump_version o) = o_status o
  ∧ o_expires_at (bump_version o) = o_expires_at o.
Proof. unfold bump_version. case_bool_decide; by repeat split. Qed.

(** What identifies an order in the book and decides whom it may trade with. *)
Definition same_terms (o o' : Order) : Prop :=
  o_id o' = o_id o ∧ o_side o' = o_side o ∧ o_organization_id o' = o_organization_id o
  ∧ o_owner_user_id o' = o_owner_user_id o ∧ o_inventory_item_id o' = o_inventory_item_id o
  ∧ o_provenance o' = o_provenance o ∧ o_product_id o' = o_product_id o
  ∧ o_delivery_point_id o' = o_delivery_point_id o
  ∧ o_availability_window o' = o_availability_window o
  ∧ o_price_per_mt_usd o' = o_price_per_mt_usd o ∧ o_quantity_mt o' = o_quantity_mt o
  ∧ o_expires_at o' = o_expires_at o
  ∧ order_is_execution_qualified o' = order_is_execution_qualified o
  ∧ o_certifications o' = o_certifications o ∧ o_certification_scheme o' = o_certification_scheme o
  ∧ o_creation_method o' = o_creation_method o
  ∧ o_created_by_actor_user_id o' = o_created_by_actor_user_id o
  ∧ o_acceptance_ordinal o' = o_acceptance_ordinal o.

#[export] Instance same_terms_preorder : PreOrder same_terms.
Proof.
  split; [by repeat split|]. unfold same_terms. intros a b c ? ?. destruct_and!.
  split_and!; congruence.
Qed.

Lemma fill_order_terms o q : same_terms o (fill_order o q).
Proof. unfold fill_order, bump_version. case_bool_decide; by repeat split. Qed.

Lemma fill_order_result o q :
  o_remaining_quantity_mt (fill_order o q) = o_remaining_quantity_mt o - q
  ∧ o_status (fill_order o q) = if o_remaining_quantity_mt o - q =? 0 then FILLED else PARTIALLY_FILLED.
Proof. unfold fill_order, bump_version. case_bool_decide; by repeat split. Qed.

Lemma fill_all_terms o fills : same_terms o (fill_all o fills).
Proof.
  revert o. induction fills as [|f fills IH]; intros o; [reflexivity|]. simpl.
  etrans; [apply fill_order_terms|]. apply IH.
Qed.

Lemma fill_all_remaining o fills :
  o_remaining_quantity_mt (fill_all o fills)
  = o_remaining_quantity_mt o - total_filled fills.
Proof.
  revert o. induction fills as [|f fills IH]; intros o; [cbn; lia|].
  cbn [total_filled].
  change (fill_all o (f :: fills)) with (fill_all (fill_order o f.2) fills).
  rewrite IH, (proj1 (fill_order_result o f.2)). lia.
Qed.

Lemma orders_execution_compatible_terms o o' c :
  same_terms o o' → orders_execution_compatible o' c = orders_execution_compatible o c.
Proof.
  unfold same_terms, orders_execution_compatible. intros Ht. destruct_and!.
  assert (o_side o' = o_side o) as -> by done.
  destruct (bool_decide (o_side o = BID)); cbv zeta;
    repeat match goal with E : ?f o' = _ |- _ => rewrite ?E; clear E end; done.
Qed.

(** ** Runs *)

(** Matching writes orders, trades, reservations and event rows only. *)
Definition static : relation World := λ w w',
  committed w' = committed w ∧ settings w' = settings w ∧ clock w' = clock w
  ∧ users (db w') = users (db w) ∧ organizations (db w') = organizations (db w)
  ∧ products (db w') = products (db w) ∧ delivery_points (db w') = delivery_points (db w)
  ∧ subscriptions (db w') = subscriptions (db w).

#[export] Instance static_preorder : PreOrder static.
Proof.
  split; [by repeat split|]. unfold static. intros a b c ? ?. destruct_and!. split_and!; congruence.
Qed.

Lemma reads_static w w' : reads w w' → static w w'.
Proof. intros (E & ? & ? & ?). unfold static. rewrite E. done. Qed.
Lemma only_events_static w w' : only_events w w' → static w w'.
Proof. unfold only_events, static. intros ?. destruct_and!. done. Qed.
Lemma keeps_static_of_events {A} (m : M World A) : Keeps only_events m → Keeps static m.
Proof. intros H w. apply only_events_static, H. Qed.
Lemma static_put_order o : Keeps static (put_order o).
Proof. by repeat split. Qed.
Lemma static_put_trade t : Keeps static (put_trade t).
Proof. by repeat split. Qed.
Lemma static_put_item i : Keeps static (put_item i).
Proof. by repeat split. Qed.
#[export] Hint Resolve static_put_order static_put_trade static_put_item : keeps.
#[export] Hint Extern 6 (Keeps static _) =>
  apply keeps_static_of_events; solve [eauto 4 with keeps] : keeps.

Lemma owners_ok_static w w' n c : static w w' → owners_ok (db w') n c = owners_ok (db w) n c.
Proof.
  unfold static. intros ?. destruct_and!. unfold owners_ok.
  unfold order_owner_is_execution_eligible, execution_party_is_eligible.
  by repeat match goal with E : ?f (db w') = _ |- _ => rewrite E; clear E end.
Qed.

Lemma executable_static w w' ctx n c :
  static w w' → executable (db w') ctx n c = executable (db w) ctx n c.
Proof. intros Hs. unfold executable. by rewrite (owners_ok_static w w'). Qed.

Lemma executable_terms d ctx n n' c :
  same_terms n n' → executable d ctx n' c = executable d ctx n c.
Proof.
  intros Ht. unfold executable. rewrite (orders_execution_compatible_terms n n') by done.
  unfold same_terms in Ht. destruct_and!.
  unfold owners_ok, order_owner_is_execution_eligible.
  by repeat match goal with E : ?f n' = _ |- _ => rewrite E; clear E end.
Qed.

Lemma reads_owners_admitted n c : Keeps reads (owners_admitted n c).
Proof. unfold owners_admitted. keeps. Qed.
#[export] Hint Resolve reads_owners_admitted : keeps.

Lemma filter_lookup_in {V} (m : gmap uuid V) (ids : list uuid) k :
  k ∈ ids → filter (λ kv, kv.1 ∈ ids) m !! k = m !! k.
Proof.
  intros Hk. destruct (m !! k) as [v|] eqn:Hm.
  - by apply map_lookup_filter_Some.
  - apply map_lookup_filter_None. by left.
Qed.

Lemma owners_admitted_run n c w :
  ∃ w', owners_admitted n c w = Ok (owners_ok (db w) n c) w' ∧ reads w w'.
Proof.
  unfold owners_admitted, owners_ok.
  destruct (o_owner_user_id n) as [a|]; [|by exists w].
  destruct (o_owner_user_id c) as [b|]; [|by exists w].
  eexists. split.
  - unfold lock_users, lock_organizations, take_lock, get_db, mbind, M_bind, modify, gets, mret, M_ret.
    change (users (db (set_field _ _))) with (users (db w)).
    cbn [db set_field]. rewrite !filter_lookup_in by set_solver. reflexivity.
  - by repeat split.
Qed.

(** The tables a run of the loop may write. *)
Definition same_books (w w' : World) : Prop :=
  orders (db w') = orders (db w) ∧ trades (db w') = trades (db w)
  ∧ inventory (db w') = inventory (db w).

Lemma only_events_same_books w w' : only_events w w' → same_books w w'.
Proof. unfold only_events, same_books. intros ?. by destruct_and!. Qed.

Definition inventory_keyed (w : World) : Prop := map_Forall (λ k i, i_id i = k) (inventory (db w)).

Lemma inventory_keyed_put w (item : InventoryItem) i :
  map_Forall (λ k i, i_id i = k) (inventory (db w)) →
  i = i_id item → map_Forall (λ k i, i_id i = k) (<[ i := item ]> (inventory (db w))).
Proof. intros Hk ->. by apply map_Forall_insert_2. Qed.

Definition consume_rows (rows : gmap uuid InventoryItem) (consumption : list (uuid * Z)) : M World unit :=
  iterM (λ '(item_id, consumed),
    match rows !! item_id with
    | None => raise KeyError
    | Some item =>
        let reserved := i_reserved_stock_mt item in
        refuse (reserved <? consumed)
          (RuntimeError (Msg "inventory reservation is inconsistent; refusing the match")) ;;
        put_item (item <| i_reserved_stock_mt := reserved - consumed |>)
    end) consumption.

Lemma consume_rows_ok rows l w w' u :
  NoDup l.*1 → (∀ id, id ∈ l.*1 → rows !! id = inventory (db w) !! id) →
  inventory_keyed w → consume_rows rows l w = Ok u w' →
  static w w' ∧ orders (db w') = orders (db w) ∧ trades (db w') = trades (db w)
  ∧ inventory (db w') = consume_map l (inventory (db w))
  ∧ ∀ id q, (id, q) ∈ l → ∃ item, inventory (db w) !! id = Some item ∧ q <= i_reserved_stock_mt item.
Proof.
  revert w. induction l as [|[id q] l IH]; intros w Hnd Hrows Hkeyed Hrun.
  { inversion Hrun; subst. split_and!; try done. set_solver. }
  apply NoDup_cons in Hnd as [Hid Hnd].
  cbn [consume_rows iterM] in Hrun. apply bind_ok in Hrun as (u1 & w1 & H1 & H2).
  rewrite Hrows in H1 by (csimpl; set_solver).
  destruct (inventory (db w) !! id) as [item|] eqn:Hitem; [|done].
  inv_run H1. apply Z.ltb_ge in Hguard.
  pose proof (Hkeyed _ _ Hitem) as Hiid. cbn in Hiid.
  match type of H2 with _ ?w1 = _ => set (w1' := w1) in * end.
  assert (inventory (db w1') = <[ id := item <| i_reserved_stock_mt := i_reserved_stock_mt item - q |> ]>
            (inventory (db w))) as Hinv by (subst w1'; cbn; by rewrite Hiid).
  destruct (IH w1') as (Hst & Ho & Ht & Hi & Hall); [done| | |exact H2|].
  { intros id' Hid'. rewrite Hinv, lookup_insert_ne by set_solver. apply Hrows. csimpl. set_solver. }
  { unfold inventory_keyed. rewrite Hinv. by apply inventory_keyed_put. }
  split_and!; [|done|done| |].
  - etrans; [|exact Hst]. by repeat split.
  - rewrite Hi, Hinv. unfold consume_map. cbn [foldl fst snd]. f_equal.
    apply map_eq. intros k. destruct (decide (k = id)) as [->|].
    + by rewrite lookup_insert_eq, lookup_alter_eq, Hitem.
    + by rewrite lookup_insert_ne, lookup_alter_ne.
  - intros id' q' [Heq|Hin]%elem_of_cons.
    + inversion Heq; subst. eauto.
    + destruct (Hall id' q' Hin) as (it & Hit & Hq). rewrite Hinv in Hit.
      rewrite lookup_insert_ne in Hit; [eauto|]. intros <-. apply Hid.
      apply list_elem_of_fmap. by exists (id, q').
Qed.

Lemma consume_reservations_ok l w w' u :
  NoDup l.*1 → inventory_keyed w → consume_reservations l w = Ok u w' →
  static w w' ∧ orders (db w') = orders (db w) ∧ trades (db w') = trades (db w)
  ∧ inventory (db w') = consume_map l (inventory (db w))
  ∧ ∀ id q, (id, q) ∈ l → ∃ item, inventory (db w) !! id = Some item ∧ q <= i_reserved_stock_mt item.
Proof.
  intros Hnd Hkeyed Hrun. unfold consume_reservations in Hrun.
  apply bind_ok in Hrun as (rows & w1 & H1 & H2).
  apply lock_inventory_items_ok in H1 as (Hdb & Hev & Hrows).
  fold (consume_rows rows l) in H2.
  apply (consume_rows_ok rows l w1) in H2 as (Hst & Ho & Ht & Hi & Hall); [|done| |].
  - rewrite Hdb in *. split_and!; [|done..]. etrans; [|exact Hst]. by apply only_events_static.
  - intros id Hid. destruct (Hrows id) as (item & -> & Hit); [by apply elem_of_list_to_set|].
    by rewrite Hdb, Hit.
  - unfold inventory_keyed. by rewrite Hdb.
Qed.

Lemma consumption_NoDup n c q : NoDup (consumption_by_item n c q).*1.
Proof.
  unfold consumption_by_item. destruct (o_inventory_item_id n), (o_inventory_item_id c);
    [case_bool_decide|..]; csimpl; repeat constructor; set_solver.
Qed.

(** The seller of a fill, and the rows one fill writes. *)
Definition seller_of (n c : Order) : uuid :=
  match o_side n with BID => o_organization_id c | ASK => o_organization_id n end.

(** [t] is the row of a trade of [q] between [n] and [c], inserted into [trades]. *)
Definition trade_of (w : World) (ctx : MatchContext) (n c : Order) (q : Z) (t : Trade) : Prop :=
  ∃ d plan fee confirmed_at created_at,
    trades d = trades (db w) ∧ products d = products (db w)
    ∧ delivery_points d = delivery_points (db w)
    ∧ t = matched_trade d ctx n c q plan fee confirmed_at created_at
    ∧ trade_checks t.

Lemma reads_fee_snapshot fees org now : Keeps reads (fee_snapshot fees org now).
Proof. unfold fee_snapshot. keeps. Qed.
#[export] Hint Resolve reads_fee_snapshot : keeps.

Lemma static_consume l : Keeps static (consume_reservations l).
Proof. unfold consume_reservations. keeps. Qed.
#[export] Hint Resolve static_consume : keeps.
Lemma static_execute_match ctx st c : Keeps static (execute_match ctx st c).
Proof. unfold execute_match. keeps. Qed.
#[export] Hint Resolve static_execute_match : keeps.
Lemma static_match_one ctx st c : Keeps static (match_one ctx st c).
Proof. unfold match_one. keeps. Qed.
#[export] Hint Resolve static_match_one : keeps.
Lemma static_match_loop ctx l st : Keeps static (match_loop ctx l st).
Proof.
  revert st. induction l as [|c l IH]; intros st; cbn [match_loop]; [apply keeps_ret, _|].
  case_match; [apply keeps_ret, _|]. apply keeps_bind; [apply _|apply static_match_one|auto].
Qed.

Lemma execute_match_ok ctx st c w st' w' :
  inventory_keyed w → execute_match ctx st c w = Ok st' w' →
  let n := ms_new_order st in
  let q := Z.min (o_remaining_quantity_mt n) (o_remaining_quantity_mt c) in
  ∃ t,
    trade_of w ctx n c q t
    ∧ ms_new_order st' = fill_order n q ∧ ms_trades st' = ms_trades st ++ [t]
    ∧ orders (db w') = <[ o_id c := fill_order c q ]> (<[ o_id n := fill_order n q ]> (orders (db w)))
    ∧ trades (db w') = <[ t_id t := t ]> (trades (db w))
    ∧ inventory (db w') = consume_map (consumption_by_item n c q) (inventory (db w))
    ∧ (∀ id x, (id, x) ∈ consumption_by_item n c q →
         ∃ item, inventory (db w) !! id = Some item ∧ x <= i_reserved_stock_mt item).
Proof.
  intros Hkeyed Hrun n q. unfold execute_match in Hrun. fold n in Hrun. fold q in Hrun.
  apply bind_ok in Hrun as ([plan fee] & w1 & Hfee & Hrun).
  apply reads_ok in Hfee as (Hdb1 & _); [|apply reads_fee_snapshot].
  apply bind_ok in Hrun as (u & w2 & Hcons & Hrun).
  apply consume_reservations_ok in Hcons as (Hst2 & Ho2 & Ht2 & Hi2 & Hall);
    [|apply consumption_NoDup|by unfold inventory_keyed; rewrite Hdb1].
  inv_run Hrun. rewrite Hdb1 in *.
  destruct Hchecks as (_ & Htrades & _). cbn in Htrades.
  eexists. cbn [ms_new_order ms_trades]. split_and!.
  - eexists (db w2), plan, fee, _, _. unfold static in Hst2. destruct_and! Hst2.
    rewrite Hdb1 in *. split_and!; [done..|reflexivity|].
    eapply Htrades. apply lookup_insert_eq.
  - reflexivity.
  - reflexivity.
  - cbn. rewrite Ho2. rewrite !(proj1 (fill_order_terms _ _)). reflexivity.
  - cbn. by rewrite Ht2.
  - cbn. by rewrite Hi2.
  - exact Hall.
Qed.

(** The trade of one fill of the incoming order [n]: the row [matched_trade]
    builds, under some unused id, plan and timestamps, and within the checks. *)
Definition fill_trade (d : Database) (ctx : MatchContext) (n : Order) (f : Order * Z) (t : Trade) : Prop :=
  ∃ id plan fee confirmed_at created_at,
    t = (matched_trade d ctx n f.1 f.2 plan fee confirmed_at created_at) <| t_id := id |>
    ∧ trade_checks t.

Lemma matched_trade_ext d d' ctx n n' c q plan fee ca cr id :
  products d' = products d → delivery_points d' = delivery_points d → same_terms n n' →
  (matched_trade d' ctx n' c q plan fee ca cr) <| t_id := id |>
  = (matched_trade d ctx n c q plan fee ca cr) <| t_id := id |>.
Proof.
  unfold matched_trade, order_product_name, order_fuel_type, order_fuel_grade,
    order_market_product, order_region, order_delivery_point_name, order_product,
    order_delivery_point. intros -> -> Ht. unfold same_terms in Ht. destruct_and!.
  assert (o_side n' = o_side n) as -> by done.
  destruct (bool_decide (o_side n = BID)); cbv zeta;
    repeat match goal with E : ?f n' = _ |- _ => rewrite ?E; clear E end; reflexivity.
Qed.

Lemma trade_of_fill w ctx n c q t :
  trade_of w ctx n c q t → fill_trade (db w) ctx n (c, q) t ∧ trades (db w) !! t_id t = None.
Proof.
  intros (d & plan & fee & ca & cr & H1 & H2 & H3 & -> & Hc). split.
  - exists (fresh_id (trades d)), plan, fee, ca, cr. split; [|exact Hc].
    exact (matched_trade_ext (db w) d ctx n n c q plan fee ca cr _ H2 H3 (reflexivity n)).
  - rewrite <-H1. apply fresh_id_none.
Qed.

Lemma fill_trade_static w w' ctx n n' f t :
  static w w' → same_terms n n' → fill_trade (db w') ctx n' f t → fill_trade (db w) ctx n f t.
Proof.
  intros Hs Ht (id & plan & fee & ca & cr & -> & Hc).
  exists id, plan, fee, ca, cr. split; [|done]. unfold static in Hs. destruct_and!.
  by apply matched_trade_ext.
Qed.

Definition not_expired (ctx : MatchContext) (c : Order) : Prop :=
  match o_expires_at c with Some e => mc_now ctx < e | None => True end.

Lemma match_one_ok ctx st c w st' w' :
  not_expired ctx c → match_one ctx st c w = Ok st' w' →
  (executable (db w) ctx (ms_new_order st) c = false ∧ st' = st ∧ reads w w')
  ∨ (executable (db w) ctx (ms_new_order st) c = true
     ∧ ∃ w1, reads w w1 ∧ execute_match ctx st c w1 = Ok st' w').
Proof.
  intros Hexp. unfold match_one, executable.
  assert (match o_expires_at c with Some e => e <=? mc_now ctx | None => false end = false) as ->.
  { unfold not_expired in Hexp. destruct (o_expires_at c); [by apply Z.leb_gt|done]. }
  destruct (execution_provenance_compatible _ _ _ _ _); cbn [negb andb];
    [|inversion 1; subst; left; split_and!; reflexivity].
  destruct (mc_allowed_demo ctx) as [[id org]|].
  - rewrite !bool_decide_not.
    destruct (bool_decide (o_id c = id)), (bool_decide (o_organization_id c = org)); cbn [negb andb orb];
      try (inversion 1; subst; left; split_and!; reflexivity).
    destruct (orders_execution_compatible _ _); cbn [negb andb];
      [|inversion 1; subst; left; split_and!; reflexivity].
    intros H. right. split; [done|]. by exists w.
  - destruct (orders_execution_compatible _ _); cbn [negb andb];
      [|inversion 1; subst; left; split_and!; reflexivity].
    intros H. apply bind_ok in H as (b & w1 & H1 & H2).
    destruct (owners_admitted_run (ms_new_order st) c w) as (w1' & Hrun & Hr).
    rewrite Hrun in H1. inversion H1; subst.
    destruct (owners_ok (db w) (ms_new_order st) c); cbn [negb] in H2.
    + right. split; [done|]. eauto.
    + inversion H2; subst. left. done.
Qed.

Lemma plan_sublist q l : (plan q l).*1 `sublist_of` l.
Proof.
  revert q. induction l as [|c l IH]; intros q; cbn [plan]; [done|].
  destruct (q <=? 0); csimpl; [apply sublist_nil_l|]. by apply sublist_skip.
Qed.

Lemma fill_map_None fills k : k ∉ (o_id <$> fills.*1) → fill_map fills !! k = None.
Proof.
  intros Hk. apply not_elem_of_list_to_map_1. intros Hin. apply Hk.
  apply list_elem_of_fmap in Hin as ([i o] & -> & Hin).
  apply list_elem_of_fmap in Hin as (f & Heq & Hin). inversion Heq; subst.
  apply list_elem_of_fmap. exists f.1. split; [done|]. apply list_elem_of_fmap. by exists f.
Qed.

(** One more fill in front of the others. *)
Lemma book_after_cons n c q fills m :
  o_id c ≠ o_id n → o_id c ∉ (o_id <$> fills.*1) →
  book_after (fill_order n q) fills (<[ o_id c := fill_order c q ]> (<[ o_id n := fill_order n q ]> m))
  = book_after n ((c, q) :: fills) m.
Proof.
  intros Hcn Hc. unfold book_after.
  rewrite (proj1 (fill_order_terms n q)).
  change (fill_all n ((c, q) :: fills)) with (fill_all (fill_order n q) fills).
  change (fill_map ((c, q) :: fills)) with (<[ o_id c := fill_order c q ]> (fill_map fills)).
  apply map_eq. intros k. destruct (decide (k = o_id n)) as [->|Hkn].
  { by rewrite !lookup_insert_eq. }
  rewrite !(lookup_insert_ne _ (o_id n)) by done. rewrite !lookup_union.
  destruct (decide (k = o_id c)) as [->|Hkc].
  - rewrite fill_map_None, !lookup_insert_eq by done. by destruct (m !! o_id c).
  - by rewrite !lookup_insert_ne by done.
Qed.

Lemma book_after_nil n m : m !! o_id n = Some n → book_after n [] m = m.
Proof. 
  intros Hn. unfold book_after. change (fill_map []) with (∅ : gmap uuid Order).
  rewrite (left_id_L ∅ (∪)). by apply insert_id.
 Qed.

(** What a run of the loop over [l] does to the tables. *)
Record loop_result (ctx : MatchContext) (l : list Order) (st : MatchState) (w : World)
    (st' : MatchState) (w' : World) (ts : list Trade) : Prop := {
  lr_trades : ms_trades st' = ms_trades st ++ ts;
  lr_fills : Forall2 (fill_trade (db w) ctx (ms_new_order st))
    (plan (o_remaining_quantity_mt (ms_new_order st))
       (filter (λ c, executable (db w) ctx (ms_new_order st) c = true) l)) ts;
  lr_new : ms_new_order st' = fill_all (ms_new_order st)
    (plan (o_remaining_quantity_mt (ms_new_order st))
       (filter (λ c, executable (db w) ctx (ms_new_order st) c = true) l));
  lr_orders : orders (db w') = book_after (ms_new_order st)
    (plan (o_remaining_quantity_mt (ms_new_order st))
       (filter (λ c, executable (db w) ctx (ms_new_order st) c = true) l)) (orders (db w));
  lr_inserted : inserted ts (trades (db w)) (trades (db w'));
  lr_inventory : inventory (db w') = consume_all (ms_new_order st)
    (plan (o_remaining_quantity_mt (ms_new_order st))
       (filter (λ c, executable (db w) ctx (ms_new_order st) c = true) l)) (inventory (db w));
}.

Lemma loop_result_stop ctx l st w :
  orders (db w) !! o_id (ms_new_order st) = Some (ms_new_order st) →
  plan (o_remaining_quantity_mt (ms_new_order st))
    (filter (λ c, executable (db w) ctx (ms_new_order st) c = true) l) = [] →
  loop_result ctx l st w st w [].
Proof.
  intros Hn Hp. split; rewrite ?Hp.
  - by rewrite app_nil_r.
  - constructor.
  - done.
  - symmetry. by apply book_after_nil.
  - done.
  - done.
Qed.

Lemma consume_map_keyed l w :
  inventory_keyed w → map_Forall (λ k i, i_id i = k) (consume_map l (inventory (db w))).
Proof.
  unfold inventory_keyed. generalize (inventory (db w)) as m. induction l as [|c l IH]; [done|].
  intros m Hm. cbn. apply IH. intros k i. rewrite lookup_alter_Some.
  intros [(<- & i' & Hi' & ->)|[_ Hi]]; [cbn|]; by eapply Hm.
Qed.

Lemma consume_all_terms n n' fills m :
  same_terms n n' → consume_all n' fills m = consume_all n fills m.
Proof.
  intros Ht. unfold consume_all. revert m. induction fills as [|f fills IH]; [done|]. intros m.
  cbn. rewrite IH. f_equal. unfold consumption_by_item.
  assert (o_inventory_item_id n' = o_inventory_item_id n) as -> by (unfold same_terms in Ht; by destruct_and!).
  done.
Qed.

Lemma filter_executable_ext d d' ctx n n' (l : list Order) :
  (∀ c, executable d' ctx n' c = executable d ctx n c) →
  filter (λ c, executable d' ctx n' c = true) l = filter (λ c, executable d ctx n c = true) l.
Proof. intros He. apply list_filter_iff. intros c. by rewrite He. Qed.
Arguments inserted : simpl nomatch.

Lemma match_loop_ok ctx l st w st' w' :
  inventory_keyed w → NoDup (o_id <$> l) → o_id (ms_new_order st) ∉ (o_id <$> l) →
  Forall (not_expired ctx) l →
  orders (db w) !! o_id (ms_new_order st) = Some (ms_new_order st) →
  match_loop ctx l st w = Ok st' w' →
  ∃ ts, loop_result ctx l st w st' w' ts.
Proof.
  revert st w. induction l as [|c l IH]; intros st w Hkeyed Hnd Hnew Hexp Hrow Hrun.
  { inversion Hrun; subst. exists []. by apply loop_result_stop. }
  cbn [match_loop] in Hrun. destruct (Z.leb_spec (o_remaining_quantity_mt (ms_new_order st)) 0).
  { inversion Hrun; subst. exists []. apply loop_result_stop; [done|].
    destruct (filter _ (c :: l)); cbn [plan]; [done|]. by rewrite (proj2 (Z.leb_le _ _)). }
  rewrite fmap_cons in Hnd, Hnew. apply NoDup_cons in Hnd as [Hc Hnd].
  apply not_elem_of_cons in Hnew as [Hnc Hnl]. apply Forall_cons in Hexp as [Hec Hexp].
  apply bind_ok in Hrun as (st1 & w1 & H1 & H2).
  pose proof (keeps_ok static _ _ _ _ (static_match_one ctx st c) H1) as Hst.
  destruct (match_one_ok ctx st c w st1 w1 Hec H1) as [(Hx & -> & Hr)|(Hx & w0 & Hr & He)].
  - pose proof Hr as (Hdb & _).
    destruct (IH st w1) as [ts [R1 R2 R3 R4 R5 R6]]; try done;
      [by unfold inventory_keyed; rewrite Hdb|by rewrite Hdb|].
    exists ts. rewrite Hdb in *.
    assert (filter (λ c, executable (db w) ctx (ms_new_order st) c = true) (c :: l)
      = filter (λ c, executable (db w) ctx (ms_new_order st) c = true) l) as Hf
      by (apply filter_cons_False; by rewrite Hx).
    split; rewrite ?Hf; done.
  - pose proof Hr as (Hdb & _).
    apply execute_match_ok in He as (t & Ht & Hn' & Hts & Ho & Htr & Hinv & _);
      [|by unfold inventory_keyed; rewrite Hdb].
    rewrite Hdb in *.
    set (n := ms_new_order st) in *. set (q := Z.min _ _) in *.
    pose proof (fill_order_terms n q) as Hterms.
    apply trade_of_fill in Ht as [Hft Hfresh]. rewrite Hdb in Hft, Hfresh.
    destruct (IH st1 w1) as [ts [R1 R2 R3 R4 R5 R6]]; try done.
    { unfold inventory_keyed. rewrite Hinv. by apply consume_map_keyed. }
    { rewrite Hn', (proj1 Hterms). done. }
    { rewrite Hn', (proj1 Hterms), Ho, lookup_insert_ne, lookup_insert_eq by congruence. done. }
    assert (∀ x, executable (db w1) ctx (ms_new_order st1) x = executable (db w) ctx n x) as Hext.
    { intros x. rewrite Hn', (executable_static w w1) by done. by apply executable_terms. }
    rewrite (filter_executable_ext _ _ _ _ _ _ Hext) in R2, R3, R4, R6.
    rewrite Hn', (proj1 (fill_order_result n q)) in R2, R3, R4, R6.
    set (rest := filter (λ c, executable (db w) ctx n c = true) l) in *.
    assert (plan (o_remaining_quantity_mt n)
      (filter (λ c, executable (db w) ctx n c = true) (c :: l))
      = (c, q) :: plan (o_remaining_quantity_mt n - q) rest) as Hplan.
    { rewrite filter_cons_True by done. cbn [plan]. by rewrite (proj2 (Z.leb_gt _ _)) by done. }
    assert (o_id c ∉ (o_id <$> (plan (o_remaining_quantity_mt n - q) rest).*1)) as Hcrest.
    { intros Hin. apply Hc. apply list_elem_of_fmap in Hin as (x & -> & Hin).
      apply list_elem_of_fmap. exists x. split; [done|].
      pose proof (elem_of_sublist _ _ _ Hin (plan_sublist _ _)) as Hin'.
      by apply list_elem_of_filter in Hin' as [_ ?]. }
    exists (t :: ts). fold n. split; fold n; rewrite ?Hplan.
    + rewrite R1, Hts. by rewrite <-app_assoc.
    + constructor; [done|]. eapply Forall2_impl; [exact R2|].
      intros f t' Hf. by eapply fill_trade_static.
    + done.
    + rewrite R4, Ho. apply book_after_cons; [congruence|done].
    + cbn [inserted]. split; [done|]. by rewrite <-Htr.
    + rewrite R6, Hinv. rewrite (consume_all_terms n) by done. reflexivity.
Qed.
