(* ===== verification/MatchingSpec.v ===== *)
(** * What matching guarantees

    The specification of [match_order] ([Matching]): a matched order executes
    the greedy plan over its crossing orders in priority order, and from that
    its price, priority, completeness, isolation and conservation properties. *)

From S2P Require Import Prelude Catalog Calendar AvailabilityWindows Schema Constraints Database Queries Scenario Policy Events Inventory Admission Matching.
Local Open Scope Z_scope.

(** ** The candidate book *)

(** The crossing orders a match may trade with, in priority order. *)
Definition crossing_book (d : Database) (n : Order) (now : datetime) : list Order :=
  prioritized d (o_side n) (match_filters d n now).
Definition candidates (d : Database) (n : Order) (now : datetime) : list Order :=
  take MAX_CROSSING_ORDERS_PER_MATCH (crossing_book d n now).

#[export] Instance priority_le_trans side : Transitive (priority_le side).
Proof. intros a b c. unfold priority_le. lia. Qed.
#[export] Instance priority_le_total side : Total (priority_le side).
Proof. intros a b. unfold priority_le. lia. Qed.

Lemma priority_le_antisymm_id side a b : priority_le side a b → priority_le side b a → o_id a = o_id b.
Proof. unfold priority_le. lia. Qed.

Lemma keyed_inventory w : keyed (db w) → inventory_keyed w.
Proof. by intros (_ & _ & ? & _). Qed.

Section book.
Context (d : Database) (Hkeyed : orders_keyed d) (side : OrderSide) (p : Order → bool).

Lemma elem_of_prioritized o : o ∈ prioritized d side p ↔ orders d !! o_id o = Some o ∧ p o = true.
Proof. exact (elem_of_selected d Hkeyed _ p o). Qed.
Lemma prioritized_sorted : StronglySorted (priority_le side) (prioritized d side p).
Proof. apply selected_sorted; apply _. Qed.
Lemma prioritized_NoDup : NoDup (o_id <$> prioritized d side p).
Proof. exact (selected_NoDup d Hkeyed _ p). Qed.
Lemma prioritized_reselect k :
  prioritized d side (λ o, bool_decide (o_id o ∈ o_id <$> take k (prioritized d side p)) && p o)
  = take k (prioritized d side p).
Proof. apply (selected_reselect d Hkeyed (priority_le side)); [apply _..|apply priority_le_antisymm_id]. Qed.
End book.

(** ** The gates of [match_order] *)

Definition order_expired (o : Order) (now : datetime) : bool :=
  match o_expires_at o with Some e => e <=? now | None => false end.

(** The context of a match, when every gate before the book lets it through. *)
Definition match_context (n : Order) (now : datetime) (is_anonymous : bool)
    (allowed : option (gset uuid)) : option MatchContext :=
  match o_provenance n with
  | REAL =>
      if order_is_execution_qualified n then Some (MkMatchContext now REAL None is_anonymous) else None
  | DEMO =>
      c ← demo_counterparty n allowed;
      if order_is_execution_qualified n then Some (MkMatchContext now DEMO (Some c) is_anonymous) else None
  | _ => None
  end.

(** The fills a match should make. *)
Definition match_plan (d : Database) (n : Order) (ctx : MatchContext) : list (Order * Z) :=
  plan (o_remaining_quantity_mt n)
    (filter (λ c, executable d ctx n c = true) (candidates d n (mc_now ctx))).

Definition planned_fills (d : Database) (n : Order) (octx : option MatchContext) : list (Order * Z) :=
  match octx with Some ctx => match_plan d n ctx | None => [] end.

Lemma match_filters_facts d n now o :
  match_filters d n now o = true ↔
  o_side o = opposite (o_side n) ∧ o_product_id o = o_product_id n
  ∧ o_availability_window o = o_availability_window n ∧ is_active_status (o_status o) = true
  ∧ o_organization_id o ≠ o_organization_id n ∧ price_filter n o = true
  ∧ match o_expires_at o with None => True | Some e => now < e end
  ∧ o_provenance o = o_provenance n ∧ organization_is_approved d (o_organization_id o) = true
  ∧ o_delivery_point_id o = o_delivery_point_id n.
Proof.
  unfold match_filters. rewrite !andb_true_iff, !bool_decide_eq_true.
  destruct (o_expires_at o); rewrite ?Z.ltb_lt; tauto.
Qed.

Lemma opposite_ne s : opposite s ≠ s.
Proof. by destruct s. Qed.

(** What a match that made [fills] leaves behind. *)
Record match_result (ctx : MatchContext) (n : Order) (fills : list (Order * Z)) (ts : list Trade)
    (w w' : World) : Prop := {
  mr_trades : Forall2 (fill_trade (db w) ctx n) fills ts;
  mr_orders : orders (db w') = book_after n fills (orders (db w));
  mr_inserted : inserted ts (trades (db w)) (trades (db w'));
  mr_inventory : inventory (db w') = consume_all n fills (inventory (db w));
  mr_static : static w w';
}.

Lemma match_result_none ctx n w w' :
  orders (db w) !! o_id n = Some n → reads w w' → match_result ctx n [] [] w w'.
Proof.
  intros Hn Hr. pose proof Hr as (Hdb & _). split.
  - constructor.
  - rewrite Hdb. symmetry. by apply book_after_nil.
  - by rewrite Hdb.
  - by rewrite Hdb.
  - by apply reads_static.
Qed.

Lemma candidates_not_expired d n ctx :
  orders_keyed d → Forall (not_expired ctx) (candidates d n (mc_now ctx)).
Proof.
  intros Hk. apply Forall_forall. intros c Hc.
  pose proof (elem_of_sublist _ _ _ Hc (sublist_take _ _)) as Hb.
  apply elem_of_prioritized in Hb as [_ Hf]; [|done].
  apply match_filters_facts in Hf. unfold not_expired. by destruct_and!.
Qed.

Lemma candidates_exclude_self d n now :
  orders_keyed d → orders d !! o_id n = Some n → o_id n ∉ (o_id <$> candidates d n now).
Proof.
  intros Hk Hn (c & Hid & Hc)%list_elem_of_fmap.
  pose proof (elem_of_sublist _ _ _ Hc (sublist_take _ _)) as Hb.
  apply elem_of_prioritized in Hb as [Ho Hf]; [|done].
  assert (c = n) as -> by congruence.
  apply match_filters_facts in Hf as (Hs & _). by destruct (o_side n).
Qed.

Lemma candidates_NoDup d n now : orders_keyed d → NoDup (o_id <$> candidates d n now).
Proof.
  intros Hk. eapply sublist_NoDup; [by apply (prioritized_NoDup d Hk)|].
  apply fmap_sublist, sublist_take.
Qed.

Lemma match_against_book_ok ctx n w ts w' :
  keyed (db w) → orders (db w) !! o_id n = Some n →
  match_against_book ctx n w = Ok ts w' →
  match_result ctx n (match_plan (db w) n ctx) ts w w'
  ∧ ((MAX_CROSSING_ORDERS_PER_MATCH < length (crossing_book (db w) n (mc_now ctx)))%nat →
     o_remaining_quantity_mt (fill_all n (match_plan (db w) n ctx)) <= 0).
Proof.
  intros Hkeyed Hn Hrun. pose proof (keyed_orders _ Hkeyed) as Hok.
  unfold match_against_book in Hrun. apply bind_ok in Hrun as (d & w1 & Hd & Hrun).
  inversion Hd; subst d w1; clear Hd. cbv zeta in Hrun.
  fold (crossing_book (db w) n (mc_now ctx)) in Hrun.
  rewrite take_take, length_take in Hrun.
  replace (MAX_CROSSING_ORDERS_PER_MATCH `min` S MAX_CROSSING_ORDERS_PER_MATCH)%nat
    with MAX_CROSSING_ORDERS_PER_MATCH in Hrun by reflexivity.
  fold (candidates (db w) n (mc_now ctx)) in Hrun.
  set (cs := candidates (db w) n (mc_now ctx)) in *.
  destruct cs as [|c0 cs0] eqn:Hcs.
  { inversion Hrun; subst. split.
    - unfold match_plan. fold cs. rewrite Hcs. by apply match_result_none.
    - intros Hlen. unfold cs, candidates in Hcs. apply (f_equal length) in Hcs.
      rewrite length_take in Hcs. cbn [length] in Hcs. unfold MAX_CROSSING_ORDERS_PER_MATCH in *. lia. }
  rewrite <-Hcs in Hrun. clear Hcs c0 cs0.
  apply bind_ok in Hrun as (u & w1 & Hlock & Hrun). inversion Hlock; subst u w1; clear Hlock.
  apply bind_ok in Hrun as (d & w1 & Hd & Hrun). inversion Hd; subst d w1; clear Hd.
  cbn [db set_field] in Hrun. unfold cs, candidates, crossing_book in Hrun.
  rewrite prioritized_reselect in Hrun by done.
  fold (crossing_book (db w) n (mc_now ctx)) in Hrun. fold (candidates (db w) n (mc_now ctx)) in Hrun.
  apply bind_ok in Hrun as (orgs & w1 & Hload & Hrun).
  apply reads_ok in Hload as (Hdb1 & Hc1 & Hs1 & Hk1); [|apply reads_lock_and_load].
  cbn [db committed settings clock set_field] in Hdb1, Hc1, Hs1, Hk1.
  apply bind_ok in Hrun as (st & w2 & Hloop & Hrun).
  pose proof (keeps_ok static _ _ _ _ (static_match_loop ctx _ _) Hloop) as Hst.
  apply match_loop_ok in Hloop as [ts' [R1 R2 R3 R4 R5 R6]];
    [|by unfold inventory_keyed; rewrite Hdb1; apply keyed_inventory
     |by apply candidates_NoDup|by apply candidates_exclude_self
     |by apply candidates_not_expired|by rewrite Hdb1].
  cbn [ms_new_order ms_trades] in *. rewrite Hdb1 in *. rewrite app_nil_l in R1. subst ts'.
  apply bind_ok in Hrun as (u & w3 & Hnot & Hrun).
  apply (keeps_ok only_events) in Hnot; [|apply only_events_notify_batched].
  inv_run Hrun. clear Hchecks.
  pose proof (only_events_same_books _ _ Hnot) as (Ho3 & Ht3 & Hi3).
  split.
  - split; fold (match_plan (db w) n ctx) in *.
    + exact R2.
    + by rewrite Ho3.
    + by rewrite Ht3.
    + by rewrite Hi3.
    + etrans; [|by apply only_events_static]. etrans; [|exact Hst].
      unfold static. rewrite Hdb1. done.
  - intros Hlen. rewrite R3 in Hguard. apply andb_false_iff in Hguard as [Hg|Hg].
    + apply bool_decide_eq_false in Hg. unfold MAX_CROSSING_ORDERS_PER_MATCH in *. lia.
    + by apply Z.ltb_ge in Hg.
Qed.

(** An order refused by a gate leaves the tables alone; an expired one is
    closed. *)
Lemma match_order_ok n is_anonymous allowed w ts w' :
  keyed (db w) → orders (db w) !! o_id n = Some n → 0 < o_remaining_quantity_mt n →
  match_order n is_anonymous allowed w = Ok ts w' →
  let now := clock w (clock_reads w) in
  if order_expired n now
  then ts = [] ∧ orders (db w') = <[ o_id n := bump_version (n <| o_status := EXPIRED |>) ]> (orders (db w))
       ∧ trades (db w') = trades (db w) ∧ inventory (db w') = inventory (db w) ∧ static w w'
  else match match_context n now is_anonymous allowed with
  | None => ts = [] ∧ reads w w'
  | Some ctx =>
      mc_now ctx = now ∧
      match_result ctx n (match_plan (db w) n ctx) ts w w'
      ∧ ((MAX_CROSSING_ORDERS_PER_MATCH < length (crossing_book (db w) n now))%nat →
         o_remaining_quantity_mt (fill_all n (match_plan (db w) n ctx)) <= 0)
  end.
Proof.
  intros Hkeyed Hn Hrem Hrun now. unfold match_order in Hrun.
  rewrite (proj2 (Z.leb_gt _ _)) in Hrun by done.
  apply bind_ok in Hrun as (u & w1 & Hlock & Hrun).
  pose proof (reads_slice_lock (o_product_id n) (o_delivery_point_id n) (o_availability_window n)) as Hkl.
  assert (clock_reads w1 = clock_reads w) as Hcr.
  { unfold acquire_market_slice_lock in Hlock. inv_run Hlock. done. }
  pose proof (keeps_ok reads _ _ _ _ Hkl Hlock) as Hr. pose proof Hr as (Hdb & Hco & Hse & Hcl).
  apply bind_ok in Hrun as (now' & w2 & Hnow & Hrun). inversion Hnow; subst now' w2; clear Hnow.
  rewrite Hcl, Hcr in Hrun. fold now in Hrun.
  set (w2 := w1 <| clock_reads := S (clock_reads w) |>) in *.
  assert (reads w w2) as Hr2 by (etrans; [exact Hr|]; by repeat split).
  assert (db w2 = db w) as Hdb2 by done.
  fold (order_expired n now) in Hrun.
  destruct (order_expired n now).
  { inv_run Hrun. split_and!; [done| | | |].
    - rewrite <-Hdb. change (o_id n) with (o_id (n <| o_status := EXPIRED |>)).
      rewrite <-(proj1 (bump_version_fields (n <| o_status := EXPIRED |>))). reflexivity.
    - by rewrite <-Hdb.
    - by rewrite <-Hdb.
    - etrans; [by apply reads_static|]. by repeat split. }
  unfold match_context. cbn [coerce_provenance] in Hrun.
  destruct (o_provenance n) eqn:Hprov; cbn in Hrun;
    try (inversion Hrun; subst; split; [done|exact Hr2]).
  - destruct (order_is_execution_qualified n); cbn in Hrun; [|inversion Hrun; subst; done].
    apply match_against_book_ok in Hrun; [|by rewrite Hdb2..].
    rewrite Hdb2 in Hrun. destruct Hrun as [[M1 M2 M3 M4 M5] Hf]. split; [done|]. split; [|done].
    rewrite Hdb2 in *. split; try done. etrans; [by apply reads_static|exact M5].
  - destruct (demo_counterparty n allowed) as [c|]; cbn in Hrun; [|inversion Hrun; subst; done].
    destruct (order_is_execution_qualified n); cbn in Hrun |- *; [|inversion Hrun; subst; done].
    apply match_against_book_ok in Hrun; [|by rewrite Hdb2..].
    rewrite Hdb2 in Hrun. destruct Hrun as [[M1 M2 M3 M4 M5] Hf]. split; [done|]. split; [|done].
    rewrite Hdb2 in *. split; try done. etrans; [by apply reads_static|exact M5].
Qed.

(** ** The greedy plan *)

Definition fillable (o : Order) : Prop := 0 < o_remaining_quantity_mt o.

Lemma plan_fills q l f :
  Forall fillable l → f ∈ plan q l → f.1 ∈ l ∧ 0 < f.2 <= o_remaining_quantity_mt f.1 ∧ f.2 <= q.
Proof.
  revert q. induction l as [|c l IH]; intros q Hl; cbn [plan]; [set_solver|].
  apply Forall_cons in Hl as [Hc Hl]. unfold fillable in Hc.
  destruct (Z.leb_spec q 0); [set_solver|].
  intros [->|Hin]%elem_of_cons; cbn; [split; [left|lia]|].
  destruct (IH _ Hl Hin) as (? & ? & ?). split; [by right|]. split; [lia|]. lia.
Qed.

Fixpoint total_remaining (l : list Order) : Z :=
  match l with [] => 0 | o :: l => o_remaining_quantity_mt o + total_remaining l end.

Lemma total_remaining_nonneg l : Forall fillable l → 0 <= total_remaining l.
Proof. induction 1 as [|c l Hc _ IH]; cbn; [lia|]. unfold fillable in Hc. lia. Qed.

(** The plan trades as much as it can. *)
Lemma plan_total q l :
  0 <= q → Forall fillable l → total_filled (plan q l) = Z.min q (total_remaining l).
Proof.
  revert q. induction l as [|c l IH]; intros q Hq Hl; cbn [plan total_filled total_remaining].
  { lia. }
  pose proof Hl as [Hc Hl']%Forall_cons. unfold fillable in Hc.
  pose proof (total_remaining_nonneg l Hl') as Hnn.
  destruct (Z.leb_spec q 0); cbn [total_filled snd].
  - lia.
  - rewrite IH by (done || lia). lia.
Qed.

(** An order of the book is exhausted by the plan, or the plan exhausts the
    incoming quantity without going past that order. *)
Lemma plan_priority q l c :
  0 <= q → NoDup l → Forall fillable l → c ∈ l →
  (c, o_remaining_quantity_mt c) ∈ plan q l
  ∨ (total_filled (plan q l) = q ∧
     ∃ l1 l2, l = l1 ++ c :: l2 ∧ ∀ f, f ∈ plan q l → f.1 ∈ l1 ++ [c]).
Proof.
  revert q. induction l as [|b l IH]; intros q Hq Hnd Hl Hc; [set_solver|].
  apply Forall_cons in Hl as [Hb Hl]. unfold fillable in Hb. apply NoDup_cons in Hnd as [Hbl Hnd].
  cbn [plan]. destruct (Z.leb_spec q 0).
  { right. split; [cbn; lia|].
    apply list_elem_of_split in Hc as (l1 & l2 & ->). exists l1, l2. split; [done|set_solver]. }
  apply elem_of_cons in Hc as [->|Hc].
  - destruct (Z.le_gt_cases (o_remaining_quantity_mt b) q).
    + left. rewrite Z.min_r by lia. left.
    + right. rewrite Z.min_l by lia. replace (q - q) with 0 by lia.
      assert (plan 0 l = []) as -> by (by destruct l). split; [cbn; lia|].
      exists [], l. split; [done|]. set_solver.
  - destruct (IH (q - Z.min q (o_remaining_quantity_mt b))) as [Hin|(Ht & l1 & l2 & -> & Hf)];
      [lia|done..| |].
    + left. by right.
    + right. split; [cbn [total_filled snd]; lia|].
      exists (b :: l1), l2. split; [done|]. intros f [->|Hin]%elem_of_cons; [left|].
      right. by apply Hf.
Qed.

(** Active rows within their checks have something left. *)
Lemma active_fillable o : order_checks o → is_active_status (o_status o) = true → fillable o.
Proof.
  unfold is_active_status, fillable. rewrite bool_decide_eq_true.
  intros (_ & (Hq & _) & (_ & Hl) & _) [Hs|Hs]; rewrite Hs in Hl; unfold required_numeric in *; lia.
Qed.

Lemma fillable_candidates d n now :
  orders_keyed d → database_checks d → Forall fillable (candidates d n now).
Proof.
  intros Hk (Ho & _). apply Forall_forall. intros c Hc.
  pose proof (elem_of_sublist _ _ _ Hc (sublist_take _ _)) as Hb.
  apply elem_of_prioritized in Hb as [Hrow Hf]; [|done].
  apply match_filters_facts in Hf. apply active_fillable; [by eapply Ho|by destruct_and!].
Qed.

(** An order whose whole remainder was filled. *)
Lemma fill_all_filled o fills :
  0 < o_remaining_quantity_mt o → total_filled fills = o_remaining_quantity_mt o →
  o_remaining_quantity_mt (fill_all o fills) = 0 ∧ o_status (fill_all o fills) = FILLED.
Proof.
  intros Ho Ht. split; [rewrite fill_all_remaining; lia|].
  destruct fills as [|f fills _] using rev_ind; [cbn in Ht; lia|].
  unfold fill_all. rewrite foldl_snoc. fold (fill_all o fills).
  rewrite (proj2 (fill_order_result _ _)), fill_all_remaining.
  assert (total_filled (fills ++ [f]) = total_filled fills + f.2) as Hsnoc.
  { clear. induction fills as [|g fills IH]; cbn [total_filled app]; [lia|]. rewrite IH. lia. }
  by rewrite (proj2 (Z.eqb_eq _ _)) by lia.
Qed.

(** ** Properties *)

(** C1: Matching implements its plan.  If an unexpired incoming order with a
    positive remainder is matched without raising, then either a gate refused
    it and no table changed, or: there is one trade per planned fill, in plan
    order, each the row [matched_trade] describes for its fill; the order table
    is exactly the old one with those fills applied to the incoming and the
    crossing orders; the trades are inserted under unused ids; reservations are
    consumed per fill; and the total traded is the smaller of the incoming
    remainder and everything executable among the candidates. *)
Theorem match_order_implements_plan n is_anonymous allowed w ts w' :
  keyed (db w) → database_checks (db w) → orders (db w) !! o_id n = Some n →
  0 < o_remaining_quantity_mt n →
  order_expired n (clock w (clock_reads w)) = false →
  match_order n is_anonymous allowed w = Ok ts w' →
  match match_context n (clock w (clock_reads w)) is_anonymous allowed with
  | None => ts = [] ∧ db w' = db w
  | Some ctx =>
      let fills := match_plan (db w) n ctx in
      Forall2 (fill_trade (db w) ctx n) fills ts
      ∧ orders (db w') = book_after n fills (orders (db w))
      ∧ inserted ts (trades (db w)) (trades (db w'))
      ∧ inventory (db w') = consume_all n fills (inventory (db w))
      ∧ committed w' = committed w
      ∧ total_filled fills
        = Z.min (o_remaining_quantity_mt n)
            (total_remaining (filter (λ c, executable (db w) ctx n c = true)
               (candidates (db w) n (mc_now ctx))))
  end.
Proof.
  intros Hkeyed Hchk Hn Hrem Hexp Hrun.
  pose proof (match_order_ok n is_anonymous allowed w ts w' Hkeyed Hn Hrem Hrun) as H. cbv zeta in H.
  rewrite Hexp in H. destruct (match_context _ _ _ _) as [ctx|]; [|by destruct H as (-> & ? & _)].
  destruct H as (Hnow & [M1 M2 M3 M4 M5] & _). cbv zeta. split_and!; try done.
  { unfold static in M5. by destruct_and!. }
  apply plan_total; [lia|]. apply Forall_filter, fillable_candidates; [by apply keyed_orders|done].
Qed.

(** The run of the demo match, as a returned value. *)
Lemma placed_matches :
  ∃ ts w', match_order Demo.bid false None Demo.placed = Ok ts w'.
Proof.
  assert (match match_order Demo.bid false None Demo.placed with Ok _ _ => True | _ => False end) as H
    by (vm_compute; exact I).
  destruct (match_order Demo.bid false None Demo.placed); [eauto|done].
Qed.

Lemma match_order_implements_plan_witness :
  ∃ ts w' ctx, match_order Demo.bid false None Demo.placed = Ok ts w'
    ∧ total_filled (match_plan (db Demo.placed) Demo.bid ctx)
      = Z.min 50000 (total_remaining (filter (λ c, executable (db Demo.placed) ctx Demo.bid c = true)
               (candidates (db Demo.placed) Demo.bid (mc_now ctx)))).
Proof.
  destruct placed_matches as (ts & w' & H). exists ts, w'.
  pose proof (match_order_implements_plan Demo.bid false None Demo.placed ts w'
    Demo.placed_keyed Demo.placed_checked eq_refl ltac:(vm_compute; exact eq_refl) eq_refl H) as Hp.
  destruct (match_context _ _ _ _) as [ctx|] eqn:Hctx; [|vm_compute in Hctx; discriminate].
  exists ctx. destruct Hp as (_ & _ & _ & _ & _ & Ht). split; [exact H|exact Ht].
Defined.

(** What a trade row says about its fill. *)
Lemma fill_trade_facts d ctx n c q t :
  fill_trade d ctx n (c, q) t →
  t_quantity_mt t = q ∧ t_price_per_mt_usd t = o_price_per_mt_usd c ∧ t_status t = CONFIRMED
  ∧ t_initiator_org_id t = o_organization_id n
  ∧ t_product_id t = Some (o_product_id n) ∧ t_delivery_point_id t = o_delivery_point_id n
  ∧ t_availability_window t = Some (o_availability_window n)
  ∧ match o_side n with
    | BID => t_bid_order_id t = Some (o_id n) ∧ t_ask_order_id t = Some (o_id c)
             ∧ t_buyer_id t = o_organization_id n ∧ t_seller_id t = o_organization_id c
             ∧ t_buyer_provenance t = mc_provenance ctx ∧ t_seller_provenance t = o_provenance c
    | ASK => t_bid_order_id t = Some (o_id c) ∧ t_ask_order_id t = Some (o_id n)
             ∧ t_buyer_id t = o_organization_id c ∧ t_seller_id t = o_organization_id n
             ∧ t_buyer_provenance t = o_provenance c ∧ t_seller_provenance t = mc_provenance ctx
    end.
Proof.
  intros (id & plan & fee & ca & cr & -> & _). unfold matched_trade. cbn [fst snd].
  destruct (o_side n); by repeat split.
Qed.

Lemma match_context_provenance n now a allowed ctx :
  match_context n now a allowed = Some ctx →
  mc_provenance ctx = o_provenance n ∧ mc_now ctx = now
  ∧ order_is_execution_qualified n = true ∧ (o_provenance n = REAL ∨ o_provenance n = DEMO).
Proof.
  unfold match_context. destruct (o_provenance n); try done.
  - destruct (order_is_execution_qualified n); [|done]. inversion 1; subst. auto.
  - destruct (demo_counterparty n allowed); [|done]. cbn.
    destruct (order_is_execution_qualified n); [|done]. inversion 1; subst. auto.
Qed.

Lemma match_plan_elem d n ctx f :
  orders_keyed d → database_checks d → f ∈ match_plan d n ctx →
  orders d !! o_id f.1 = Some f.1 ∧ match_filters d n (mc_now ctx) f.1 = true
  ∧ executable d ctx n f.1 = true ∧ 0 < f.2 <= o_remaining_quantity_mt f.1
  ∧ f.2 <= o_remaining_quantity_mt n.
Proof.
  intros Hk Hchk Hf. apply plan_fills in Hf as (Hin & Hq & Hqn);
    [|by apply Forall_filter, fillable_candidates].
  apply list_elem_of_filter in Hin as [Hex Hin].
  pose proof (elem_of_sublist _ _ _ Hin (sublist_take _ _)) as Hb.
  apply elem_of_prioritized in Hb as [Hrow Hmf]; [|done]. done.
Qed.

(** Within the price limits of both sides, at the resting price. *)
Definition within_limits (n c : Order) (price : Z) : Prop :=
  price = o_price_per_mt_usd c ∧
  match o_side n with
  | BID => o_price_per_mt_usd c <= price <= o_price_per_mt_usd n
  | ASK => o_price_per_mt_usd n <= price <= o_price_per_mt_usd c
  end.



(** Where a crossing order stands after the match. *)
Lemma book_after_new n fills m : book_after n fills m !! o_id n = Some (fill_all n fills).
Proof. apply lookup_insert_eq. Qed.

Lemma book_after_filled n fills m c q :
  NoDup (o_id <$> fills.*1) → o_id n ∉ (o_id <$> fills.*1) → (c, q) ∈ fills →
  book_after n fills m !! o_id c = Some (fill_order c q).
Proof.
  intros Hnd Hn Hin. unfold book_after.
  assert (o_id c ∈ o_id <$> fills.*1) as Hcin.
  { apply list_elem_of_fmap. exists c. split; [done|]. apply list_elem_of_fmap. by exists (c, q). }
  assert (o_id n ≠ o_id c) by (intros E; by rewrite E in Hn).
  rewrite lookup_insert_ne by done. rewrite lookup_union.
  replace (fill_map fills !! o_id c) with (Some (fill_order c q)); [by destruct (m !! o_id c)|].
  symmetry. apply elem_of_list_to_map_1.
  - rewrite <-list_fmap_compose. rewrite <-list_fmap_compose in Hnd. exact Hnd.
  - apply list_elem_of_fmap. by exists (c, q).
Qed.

Lemma match_plan_ids d n ctx :
  orders_keyed d → orders d !! o_id n = Some n →
  NoDup (o_id <$> (match_plan d n ctx).*1) ∧ o_id n ∉ (o_id <$> (match_plan d n ctx).*1).
Proof.
  intros Hk Hn.
  assert (o_id <$> (match_plan d n ctx).*1 `sublist_of` o_id <$> candidates d n (mc_now ctx)) as Hs.
  { apply fmap_sublist. etrans; [apply plan_sublist|apply sublist_filter]. }
  split.
  - eapply sublist_NoDup; [by apply candidates_NoDup|exact Hs].
  - intros Hin. pose proof (elem_of_sublist _ _ _ Hin Hs). by eapply candidates_exclude_self.
Qed.

Lemma crossing_book_split d n now c :
  orders_keyed d → c ∈ crossing_book d n now →
  c ∈ candidates d n now
  ∨ ((MAX_CROSSING_ORDERS_PER_MATCH < length (crossing_book d n now))%nat
     ∧ ∀ x, x ∈ candidates d n now → priority_le (o_side n) x c).
Proof.
  intros Hk Hc. unfold candidates. rewrite <-(take_drop MAX_CROSSING_ORDERS_PER_MATCH (crossing_book d n now)) in Hc.
  apply elem_of_app in Hc as [Hc|Hc]; [by left|right]. split.
  - destruct (Nat.le_gt_cases (length (crossing_book d n now)) MAX_CROSSING_ORDERS_PER_MATCH) as [Hle|]; [|done].
    rewrite drop_ge in Hc by done. set_solver.
  - intros x Hx. eapply StronglySorted_app_1_elem_of; [|exact Hx|exact Hc].
    rewrite take_drop. by apply prioritized_sorted.
Qed.

(** C27: Price, then time.  After a match that returns, take any order [c] that
    crosses the incoming one, is executable against it and is in the book.
    Either [c] was completely filled, or the incoming order was, and every
    order it traded with comes before [c] in price, acceptance and id priority
    (or is [c] itself).  In particular nothing executable is left over when the
    incoming order still has a remainder, the fan-out bound included. *)
Theorem match_order_price_time_priority n is_anonymous allowed w ts w' ctx c :
  keyed (db w) → database_checks (db w) → orders (db w) !! o_id n = Some n →
  0 < o_remaining_quantity_mt n →
  order_expired n (clock w (clock_reads w)) = false →
  match_order n is_anonymous allowed w = Ok ts w' →
  match_context n (clock w (clock_reads w)) is_anonymous allowed = Some ctx →
  c ∈ crossing_book (db w) n (mc_now ctx) → executable (db w) ctx n c = true →
  (∃ c', orders (db w') !! o_id c = Some c' ∧ o_remaining_quantity_mt c' = 0 ∧ o_status c' = FILLED)
  ∨ (∃ n', orders (db w') !! o_id n = Some n' ∧ o_remaining_quantity_mt n' = 0 ∧ o_status n' = FILLED
     ∧ ∀ f, f ∈ match_plan (db w) n ctx → f.1 = c ∨ priority_le (o_side n) f.1 c).
Proof.
  intros Hkeyed Hchk Hn Hrem Hexp Hrun Hctx Hc Hex.
  pose proof (keyed_orders _ Hkeyed) as Hok.
  pose proof (match_order_ok n is_anonymous allowed w ts w' Hkeyed Hn Hrem Hrun) as H. cbv zeta in H.
  rewrite Hexp, Hctx in H. destruct H as (Hnow & [_ M2 _ _ _] & Hfan). rewrite <-Hnow in Hfan.
  destruct (match_plan_ids (db w) n ctx Hok Hn) as [Hnd Hnin].
  set (fills := match_plan (db w) n ctx) in *. rewrite M2.
  assert (Forall fillable (filter (λ c, executable (db w) ctx n c = true)
    (candidates (db w) n (mc_now ctx)))) as Hfl
    by (by apply Forall_filter, fillable_candidates).
  assert (total_filled fills = o_remaining_quantity_mt n →
    o_remaining_quantity_mt (fill_all n fills) = 0 ∧ o_status (fill_all n fills) = FILLED) as Hdone.
  { intros Ht. apply fill_all_filled; [lia|done]. }
  destruct (crossing_book_split _ _ _ _ Hok Hc) as [Hcand|[Hlen Hprio]].
  - destruct (plan_priority (o_remaining_quantity_mt n)
      (filter (λ c, executable (db w) ctx n c = true) (candidates (db w) n (mc_now ctx))) c)
      as [Hin|(Ht & l1 & l2 & Hsplit & Hall)]; [lia| |done|by apply list_elem_of_filter|..].
    + eapply sublist_NoDup; [|apply sublist_filter]. eapply NoDup_fmap_1. by apply candidates_NoDup.
    + left. exists (fill_order c (o_remaining_quantity_mt c)).
      rewrite (book_after_filled n fills _ c (o_remaining_quantity_mt c)) by done.
      destruct (fill_order_result c (o_remaining_quantity_mt c)) as [-> ->].
      rewrite Z.sub_diag. done.
    + right. exists (fill_all n fills). rewrite book_after_new. destruct (Hdone Ht) as [-> ->].
      split_and!; [done..|]. intros f Hf. apply Hall, elem_of_app in Hf as [Hf|Hf];
        [right|left; set_solver].
      eapply StronglySorted_app_1_elem_of; [|exact Hf|by left]. rewrite <-Hsplit.
      apply StronglySorted_filter, StronglySorted_take, prioritized_sorted.
  - right. specialize (Hfan Hlen). rewrite fill_all_remaining in Hfan.
    pose proof (plan_total (o_remaining_quantity_mt n) _ ltac:(lia) Hfl) as Ht.
    fold (match_plan (db w) n ctx) in Ht. fold fills in Ht.
    exists (fill_all n fills). rewrite book_after_new.
    destruct Hdone as [-> ->]; [lia|]. split_and!; [done..|].
    intros f Hf. right. apply Hprio. apply (plan_fills _ _ f) in Hf as [Hf _]; [|done].
    by apply list_elem_of_filter in Hf as [_ ?].
Qed.

Lemma match_order_price_time_priority_witness :
  ∃ ts w' c', match_order Demo.bid false None Demo.placed = Ok ts w'
    ∧ orders (db w') !! o_id Demo.ask = Some c' ∧ o_status c' = FILLED.
Proof.
  destruct placed_matches as (ts & w' & H). 
  destruct (match_context Demo.bid (clock Demo.placed 0%nat) false None) as [ctx|] eqn:Hctx;
    [|vm_compute in Hctx; discriminate].
  assert (ctx = MkMatchContext Demo.noon REAL None false) as -> by (vm_compute in Hctx; injection Hctx as <-; reflexivity).
  destruct (match_order_price_time_priority Demo.bid false None Demo.placed ts w' _ Demo.ask
    Demo.placed_keyed Demo.placed_checked eq_refl ltac:(vm_compute; exact eq_refl) eq_refl H Hctx)
    as [(c' & H1 & _ & H2)|(n' & _ & _ & _ & Hf)].
  - apply (elem_of_prioritized _ (keyed_orders _ Demo.placed_keyed)). split; vm_compute; reflexivity.
  - vm_compute. reflexivity.
  - exists ts, w', c'. split_and!; [exact H|exact H1|exact H2].
  - exfalso.
    assert ((Demo.ask', 20000) ∈
      match_plan (db Demo.placed) Demo.bid (MkMatchContext Demo.noon REAL None false)) as Hin.
    { assert (match_plan (db Demo.placed) Demo.bid (MkMatchContext Demo.noon REAL None false)
        = [(Demo.ask, 30000); (Demo.ask', 20000)]) as -> by (vm_compute; reflexivity).
      right. left. }
    destruct (Hf _ Hin) as [E|Hp]; [discriminate|].
    vm_compute in Hp. destruct Hp as [Hp|[Hp _]]; discriminate.
Defined.
