(* ===== verification/MatchingSafety.v ===== *)
(** * Matching never corrupts the ledger

    [match_order] run forward: from trading tables that satisfy the market
    invariant, a match either refuses with HTTP 409 or returns with the
    invariant intact.  No reservation runs negative, no constraint of the
    database is violated and no internal lookup fails. *)

From S2P Require Import Prelude Catalog Calendar AvailabilityWindows Schema Constraints Database Queries Scenario Policy Events Inventory Ledger Admission Matching MatchingSpec.
Local Open Scope Z_scope.

(** A refusal the client is told to retry or cannot repair. *)
Definition conflict (e : exn) : Prop := ∃ m, e = HTTPException 409 m.

(** The terms of an order name catalog rows a trade can snapshot. *)
Definition tradable_terms (d : Database) (o : Order) : Prop :=
  match products d !! o_product_id o with
  | Some p => sql_nonblank (p_name p) = true ∧ sql_nonblank (p_fuel_type p) = true
              ∧ sql_nonblank (p_fuel_grade p) = true
  | None => False
  end
  ∧ is_Some (order_delivery_point d o).
#[export] Instance tradable_terms_dec d o : Decision (tradable_terms d o).
Proof. unfold tradable_terms. destruct (products d !! o_product_id o); apply _. Defined.

(** Backed orders point at inventory rows (the foreign key). *)
Definition backed (d : Database) : Prop :=
  map_Forall (λ _ o, match o_inventory_item_id o with
                     | Some i => is_Some (inventory d !! i) | None => True end) (orders d).
#[export] Instance backed_dec d : Decision (backed d).
Proof. unfold backed. apply map_Forall_dec. intros _ o. destruct (o_inventory_item_id o); apply _. Defined.

#[export] Instance settings_valid_dec c : Decision (settings_valid c).
Proof. unfold settings_valid. apply _. Defined.

(** ** The fee of a trade *)

Definition fee_ok (fee : SubscriptionTier * Z) : Prop := 0 <= fee.2 <= cents 100000.

Lemma seller_trade_fee_ok d c org now :
  settings_valid c → map_Forall (λ _ s, subscription_check s) (subscriptions d) →
  match seller_trade_fee d c org now with Val fee => fee_ok fee | Exc e => conflict e end.
Proof.
  intros [Hpilot Hpro] Hsub. unfold seller_trade_fee, subscription_of.
  destruct (head _) as [s|] eqn:Hs; [|exact Hpilot].
  assert (subscription_check s) as Hcheck.
  { destruct (filter _ _) as [|s' l] eqn:Hf; [done|]. cbn in Hs. inversion Hs; subst s'.
    assert (s ∈ filter (λ s, s_org_id s = org) (snd <$> map_to_list (subscriptions d))) as Hin
      by (rewrite Hf; left).
    apply list_elem_of_filter in Hin as (_ & ([k s'] & -> & Hin%elem_of_map_to_list)%list_elem_of_fmap).
    by apply (Hsub k). }
  destruct (_ || _); [exact Hpilot|].
  destruct (tier_of_text _) as [[| |]|]; cbn; [exact Hpilot|exact Hpro| |by eexists].
  unfold subscription_check, optional_numeric in Hcheck.
  destruct (s_seller_fee_per_mt_usd s); cbn; [exact Hcheck|by eexists].
Qed.

Lemma fee_snapshot_wp fees org now w :
  settings_valid (settings w) → database_checks (db w) → map_Forall (λ _ f, fee_ok f) fees →
  wp (fee_snapshot fees org now) (λ fee w', fee_ok fee ∧ reads w w') (λ e w', conflict e ∧ reads w w') w.
Proof.
  intros Hset (_ & _ & _ & _ & Hsub & _) Hfees. unfold fee_snapshot.
  destruct (fees !! org) as [fee|] eqn:Hfee; [apply wp_ret; split; [by apply (Hfees org)|done]|].
  unfold resolve_seller_trade_fee. apply wp_bind, wp_gets, wp_bind, wp_gets, wp_bind, wp_ret.
  pose proof (seller_trade_fee_ok (db w) (settings w) org now Hset Hsub) as H.
  apply wp_lift; intros ? E; rewrite E in H; done.
Qed.

(** ** What one fill draws from the inventory *)

Definition drawn (i : uuid) (n c : Order) (q : Z) : Z :=
  (if bool_decide (o_inventory_item_id n = Some i) then q else 0)
  + (if bool_decide (o_inventory_item_id c = Some i) then q else 0).

Definition draw (q : Z) (item : InventoryItem) : InventoryItem :=
  item <| i_reserved_stock_mt := i_reserved_stock_mt item - q |>.
Lemma draw_0 item : draw 0 item = item.
Proof. unfold draw. destruct item. cbn. unfold set_field. cbn. f_equal. lia. Qed.
Lemma draw_draw a b item : draw a (draw b item) = draw (b + a) item.
Proof. unfold draw. destruct item. cbn. unfold set_field. cbn. by rewrite Z.sub_add_distr. Qed.

Lemma alter_draw_lookup q k (m : gmap uuid InventoryItem) i :
  alter (draw q) k m !! i = draw (if bool_decide (k = i) then q else 0) <$> m !! i.
Proof.
  case_bool_decide as Hk; [subst; apply lookup_alter_eq|].
  rewrite lookup_alter_ne by done. destruct (m !! i); cbn; by rewrite ?draw_0.
Qed.

Lemma consume_map_lookup n c q (m : gmap uuid InventoryItem) i :
  consume_map (consumption_by_item n c q) m !! i = draw (drawn i n c q) <$> m !! i.
Proof.
  change (consume_map ?l m) with (foldl (λ m x, alter (draw x.2) x.1 m) m l).
  unfold consumption_by_item, drawn.
  destruct (o_inventory_item_id n) as [a|], (o_inventory_item_id c) as [b|];
    [case_bool_decide as Hab|..]; cbn [foldl fst snd]; subst;
    rewrite ?alter_draw_lookup; destruct (m !! i); cbn; rewrite ?draw_draw, ?(draw_0 _); try done;
    f_equal; repeat case_bool_decide; simplify_eq; rewrite ?Z.add_0_r, ?draw_0; try done.
Qed.

(** ** One fill on the ledger *)

Definition filled_in (d : Database) (n c : Order) (q : Z) (t : Trade) : Database :=
  d <| inventory := consume_map (consumption_by_item n c q) (inventory d) |>
    <| trades := <[ t_id t := t ]> (trades d) |>
    <| orders := <[ o_id n := fill_order n q ]> (orders d) |>
    <| orders := <[ o_id c := fill_order c q ]> (<[ o_id n := fill_order n q ]> (orders d)) |>.

(** Two active orders of the book that may be filled by [q]. *)
Record fill_pair (d : Database) (n c : Order) (q : Z) : Prop := {
  fp_new : orders d !! o_id n = Some n;
  fp_crossing : orders d !! o_id c = Some c;
  fp_distinct : o_id n ≠ o_id c;
  fp_new_active : is_active_status (o_status n) = true;
  fp_crossing_active : is_active_status (o_status c) = true;
  fp_positive : 0 < q;
  fp_new_covers : q <= o_remaining_quantity_mt n;
  fp_crossing_covers : q <= o_remaining_quantity_mt c;
}.

Lemma fill_order_identity o q : same_identity o (fill_order o q).
Proof. unfold fill_order, bump_version. case_bool_decide; by repeat split. Qed.

Lemma active_cases s : is_active_status s = true → s = OPEN ∨ s = PARTIALLY_FILLED.
Proof. destruct s; try done; auto. Qed.

Lemma fill_order_checks o q :
  order_checks o → is_active_status (o_status o) = true → 0 < q <= o_remaining_quantity_mt o →
  order_checks (fill_order o q).
Proof.
  intros (Hd & Hn & Hl & Hv) Hs Hq. apply active_cases in Hs.
  destruct (fill_order_result o q) as [Hr Hst]. destruct (fill_order_terms o q) as (_ & _ & _ & _ & _ & Hp & _ & _ & _ & Hpr & Hqu & He & _).
  assert (o_carbon_intensity_gco2_mj (fill_order o q) = o_carbon_intensity_gco2_mj o
    ∧ o_energy_density_mj_kg (fill_order o q) = o_energy_density_mj_kg o
    ∧ o_idempotency_key (fill_order o q) = o_idempotency_key o
    ∧ o_idempotency_operation (fill_order o q) = o_idempotency_operation o
    ∧ o_idempotency_request_hash (fill_order o q) = o_idempotency_request_hash o
    ∧ o_version o <= o_version (fill_order o q)) as (E1 & E2 & E3 & E4 & E5 & E6)
    by (unfold fill_order, bump_version; case_bool_decide; cbn; split_and!; done || lia).
  unfold order_checks, ORDER_DOMAIN, ORDER_NUMERIC_VALUES, ORDER_LIFECYCLE, order_version_check in *.
  rewrite Hr, Hst, Hp, Hpr, Hqu, He, E1, E2, E3, E4, E5.
  unfold required_numeric in *. destruct Hd as [Hdemo Hidem], Hn as (N1 & N2 & N3 & N4 & N5).
  split_and!; try done; try lia.
  - destruct Hdemo as [?|[Ha|?]]; auto. destruct Hs as [Hs|Hs]; by rewrite Hs in Ha.
  - destruct (Z.eqb_spec (o_remaining_quantity_mt o - q) 0); destruct Hs as [Hs|Hs]; rewrite Hs in Hl; lia.
Qed.

Lemma fill_order_not_withdrawn o q : is_withdrawn (o_status (fill_order o q)) = false.
Proof. rewrite (proj2 (fill_order_result o q)). by destruct (_ =? 0). Qed.

(** An active order's holding falls by what is drawn for it. *)
Lemma fill_order_holds i o q :
  is_active_status (o_status o) = true →
  order_holds i (fill_order o q)
  = order_holds i o - (if bool_decide (o_inventory_item_id o = Some i) then q else 0).
Proof.
  intros Hs%active_not_withdrawn. unfold order_holds.
  rewrite fill_order_not_withdrawn, Hs, (proj1 (fill_order_result o q)).
  destruct (fill_order_identity o q) as (_ & _ & -> & _). case_bool_decide; cbn; lia.
Qed.

Section fill.
Context (d : Database) (n c : Order) (q : Z) (t : Trade).
Context (Hok : market_ok d) (Hpair : fill_pair d n c q).
Context (Ht_checks : trade_checks t) (Ht_new : trades d !! t_id t = None).
Context (Ht_key : trade_idempotency_key t = None) (Ht_status : t_status t ≠ PENDING_CONFIRMATION).
Context (Ht_fills : ∀ id, trade_fills id t <= if bool_decide (id = o_id n ∨ id = o_id c) then q else 0).

Lemma fill_covers i item :
  inventory d !! i = Some item → 0 <= drawn i n c q <= i_reserved_stock_mt item.
Proof.
  intros Hi. destruct Hok as (Hc & _ & Hr & _), Hpair as [H1 H2 H3 H4 H5 H6 H7 H8].
  rewrite (Hr i item Hi).
  pose proof (held_covers_orders d i _ _ _ _ Hc H3 H1 H2) as Hcov.
  apply active_not_withdrawn in H4, H5. unfold drawn. unfold order_holds in Hcov. rewrite H4, H5 in Hcov.
  do 2 case_bool_decide; cbn in Hcov; lia.
Qed.

(** The state the trade is flushed in: the orders are written afterwards. *)
Lemma fill_flush_checks :
  database_checks (d <| inventory := consume_map (consumption_by_item n c q) (inventory d) |>
                     <| trades := <[ t_id t := t ]> (trades d) |>).
Proof.
  pose proof (proj1 Hok) as Hchk.
  set (d1 := d <| inventory := consume_map (consumption_by_item n c q) (inventory d) |>).
  change (trades d) with (trades d1). apply checks_new_trade; [|done|done|].
  - destruct Hchk as (C1 & C2 & C3 & C4 & C5 & U & S). unfold database_checks, d1. cbn. split_and!; try done.
    intros i item'. rewrite consume_map_lookup. intros (item & Hi & ->)%fmap_Some_1.
    pose proof (fill_covers i item Hi). pose proof (C3 i item Hi) as (? & ? & ? & ? & ? & ?).
    unfold INVENTORY_NUMERIC_VALUES, required_numeric, draw in *. cbn. split_and!; done || lia.
  - intros j t' _ Heq. by rewrite Ht_key.
Qed.

Lemma market_ok_fill : market_ok (filled_in d n c q t).
Proof.
  pose proof fill_flush_checks as Hflush. pose proof fill_covers as Hcov.
  destruct Hok as (Hc & Hk & Hr & Hs & Hw & Hf), Hpair as [H1 H2 H3 H4 H5 H6 H7 H8].
  pose proof (proj1 Hc _ _ H1) as Hnc. pose proof (proj1 Hc _ _ H2) as Hcc. cbn beta in Hnc, Hcc.
  destruct (fill_order_identity n q) as (N1 & Nq & N2 & N3 & N4 & N5 & N6 & _).
  destruct (fill_order_identity c q) as (C1 & Cq & C2 & C3 & C4 & C5 & C6 & _).
  set (d1 := d <| inventory := consume_map (consumption_by_item n c q) (inventory d) |>) in Hflush.
  set (d2 := d1 <| trades := <[ t_id t := t ]> (trades d) |>).
  set (d3 := d2 <| orders := <[ o_id n := fill_order n q ]> (orders d2) |>).
  assert (orders d3 !! o_id c = Some c) as H2' by (cbn; by rewrite lookup_insert_ne).
  change (filled_in d n c q t) with (d3 <| orders := <[ o_id c := fill_order c q ]> (orders d3) |>).
  refine (conj _ (conj _ (conj _ (conj _ (conj _ _))))).
  - apply (checks_put_order d3 (o_id c) c); try done; [|apply fill_order_checks; done || lia].
    apply (checks_put_order d2 (o_id n) n); try done. apply fill_order_checks; done || lia.
  - destruct Hk as (K1 & K2 & K3 & K). unfold keyed, d3, d2, d1. cbn. split_and!; try apply K.
    + by repeat apply map_Forall_insert_2.
    + by apply map_Forall_insert_2.
    + intros i item'. rewrite consume_map_lookup. intros (item & Hi & ->)%fmap_Some_1.
      by apply (K3 i item).
  - intros i item' Hi'. change (inventory _) with (consume_map (consumption_by_item n c q) (inventory d)) in Hi'.
    rewrite consume_map_lookup in Hi'. apply fmap_Some_1 in Hi' as (item & Hi & ->).
    rewrite (held_put_order d3 i (o_id c) c) by done.
    unfold d3. rewrite (held_put_order d2 i (o_id n) n) by done.
    unfold d2. change (trades d) with (trades d1). rewrite held_new_trade by done.
    unfold d1. rewrite held_put_item, !fill_order_holds by done.
    unfold trade_holds. rewrite (bool_decide_eq_false_2 (t_status t = _)) by done. cbn.
    rewrite (Hr i item Hi). unfold drawn. lia.
  - intros i item' Hi'. change (inventory _) with (consume_map (consumption_by_item n c q) (inventory d)) in Hi'.
    rewrite consume_map_lookup in Hi'. apply fmap_Some_1 in Hi' as (item & Hi & ->).
    specialize (Hcov i item Hi). pose proof (Hs i item Hi). cbn in *. lia.
  - unfold windows_canonical, d3, d2, d1. cbn. apply map_Forall_insert_2; [|apply map_Forall_insert_2; [|done]].
    + rewrite C3. by apply (Hw (o_id c)).
    + rewrite N3. by apply (Hw (o_id n)).
  - assert (∀ id, filled_stock d2 id <= filled_stock d id + if bool_decide (id = o_id n ∨ id = o_id c) then q else 0) as Hfill.
    { intros id. unfold d2. change (trades d) with (trades d1). rewrite filled_new_trade by done.
      change (filled_stock d1 id) with (filled_stock d id). specialize (Ht_fills id). lia. }
    pose proof (Hf _ _ H1) as Hfn. pose proof (Hf _ _ H2) as Hfc. cbn beta in Hfn, Hfc.
    change (fills_ok (d3 <| orders := <[ o_id c := fill_order c q ]> (orders d3) |>)).
    intros id o. change (filled_stock (d3 <| orders := _ |>) id) with (filled_stock d2 id).
    change (orders (d3 <| orders := _ |>)) with (<[ o_id c := fill_order c q ]> (<[ o_id n := fill_order n q ]> (orders d))).
    specialize (Hfill id). destruct (fill_order_result n q) as [Nr _], (fill_order_result c q) as [Cr _].
    destruct (decide (id = o_id c)) as [->|Hic];
      [|destruct (decide (id = o_id n)) as [->|Hin]].
    + rewrite lookup_insert_eq. intros [= <-]. rewrite bool_decide_eq_true_2 in Hfill by auto. lia.
    + rewrite lookup_insert_ne, lookup_insert_eq by done. intros [= <-].
      rewrite bool_decide_eq_true_2 in Hfill by auto. lia.
    + rewrite !lookup_insert_ne by done. intros Ho. rewrite bool_decide_eq_false_2 in Hfill by naive_solver.
      specialize (Hf id o Ho). cbn beta in Hf. lia.
Qed.
End fill.

(** ** The row of an automatic trade passes every check *)

Lemma p_market_product_code p code : p_market_product p = Some code → code ∈ MARKET_PRODUCT_CODES.
Proof.
  unfold p_market_product. intros (m & Hm & ->)%fmap_Some.
  apply derive_market_product_Some in Hm as (spec & Hin & <- & _).
  unfold MARKET_PRODUCT_CODES. apply list_elem_of_fmap. eauto.
Qed.

(** A matched trade fills the two orders it was struck on. *)
Lemma matched_trade_fills d ctx n c q plan fee ca cr id :
  0 <= q → trade_fills id (matched_trade d ctx n c q plan fee ca cr)
  <= if bool_decide (id = o_id n ∨ id = o_id c) then q else 0.
Proof.
  intros Hq. unfold trade_fills, matched_trade. cbn. destruct (bool_decide (o_side n = BID)); cbn;
    repeat case_bool_decide; naive_solver lia.
Qed.

(** What the guards of the loop establish about a crossing order. *)
Record admissible (d : Database) (ctx : MatchContext) (n c : Order) : Prop := {
  ad_parties : o_organization_id n ≠ o_organization_id c;
  ad_new_provenance : o_provenance n = mc_provenance ctx;
  ad_crossing_provenance : o_provenance c = mc_provenance ctx;
  ad_compatible : execution_provenance_compatible (mc_provenance ctx) (o_provenance c)
    (Some (o_organization_id n)) (Some (o_organization_id c)) (Some DEMO_ACTIVITY_ORG_IDS) = true;
  ad_terms : tradable_terms d n;
}.

Lemma compatible_snapshot p a b :
  execution_provenance_compatible p p (Some a) (Some b) (Some DEMO_ACTIVITY_ORG_IDS) = true →
  p = REAL ∨ (p = DEMO ∧ a ∈ DEMO_MARKET_ORG_IDS ∧ b ∈ DEMO_MARKET_ORG_IDS).
Proof.
  destruct p; cbn; try done; [by left|]. rewrite bool_decide_eq_true. intros Heq. right.
  pose proof demo_activity_orgs_are_demo as Hsub. rewrite <-Heq in Hsub.
  split_and!; [done|apply Hsub, elem_of_union_l|apply Hsub, elem_of_union_r]; by apply elem_of_singleton.
Qed.

#[local] Opaque DEMO_MARKET_ORG_IDS.
Lemma matched_trade_checks d d' ctx n c q plan fee ca cr :
  market_ok d → fill_pair d n c q → admissible d ctx n c → 0 <= fee <= cents 100000 →
  products d' = products d → delivery_points d' = delivery_points d →
  trade_checks (matched_trade d' ctx n c q plan fee ca cr).
Proof.
  intros ((Ho & _) & _ & _ & _ & Hw & _) [H1 H2 _ _ _ H6 H7 H8] [A1 A2 A3 A4 A5] Hfee Hp Hdp.
  pose proof (Ho _ _ H1) as (_ & (Nq & Nr & Np & _) & (Nle & _) & _).
  pose proof (Ho _ _ H2) as (_ & (Cq & Cr & Cp & _) & (Cle & _) & _).
  pose proof (Hw _ _ H1) as Hwin. cbn beta in Hwin. unfold required_numeric in *.
  rewrite A3 in A4. apply compatible_snapshot in A4.
  destruct A5 as [Hprod [dp Hdel]]. unfold tradable_terms in Hprod.
  destruct (products d !! o_product_id n) as [p|] eqn:Hpr; [|done]. destruct Hprod as (P1 & P2 & P3).
  unfold order_delivery_point in Hdel. apply bind_Some in Hdel as (k & Hk & Hdel).
  unfold trade_checks. split_and!.
  - unfold TRADE_DOMAIN, matched_trade. cbn.
    destruct (o_side n); [change (bool_decide (BID = BID)) with true|change (bool_decide (ASK = BID)) with false];
      cbn; rewrite A3; (split_and!; [done|done|by left|]); right;
      (destruct A4 as [->|(-> & ? & ?)]; [left|right]); by split_and!.
  - unfold TRADE_NUMERIC_VALUES, required_numeric, optional_numeric, matched_trade. cbn.
    split_and!; done || lia.
  - unfold TRADE_LIFECYCLE, matched_trade, no_final_terms. cbn. by split_and!.
  - unfold TRADE_SNAPSHOT, matched_trade. cbn.
    unfold order_product_name, order_fuel_type, order_fuel_grade, order_market_product, order_region,
      order_delivery_point_name, order_product, order_delivery_point.
    rewrite Hp, Hdp, Hpr, Hk. cbn. rewrite Hdel. cbn.
    split_and!; try done. destruct (p_market_product p) eqn:Hcode; [|done].
    by apply (p_market_product_code p).
  - unfold TRADE_COMMISSION_SNAPSHOT, matched_trade. cbn. split; [done|]. destruct plan; set_solver.
Qed.

(** ** The run of one fill *)

Lemma consume_rows_run rows l w :
  NoDup l.*1 → inventory_keyed w →
  (∀ id q, (id, q) ∈ l → ∃ item, rows !! id = Some item ∧ inventory (db w) !! id = Some item
                                 ∧ q <= i_reserved_stock_mt item) →
  consume_rows rows l w = Ok tt (w <| db := (db w) <| inventory := consume_map l (inventory (db w)) |> |>).
Proof.
  revert w. induction l as [|[id q] l IH]; intros w Hnd Hkeyed Hl.
  { cbn. unfold mret, M_ret. f_equal. by destruct w as [[] ? ? ? ? ? ? ?]. }
  apply NoDup_cons in Hnd as [Hid Hnd].
  destruct (Hl id q) as (item & Hrow & Hitem & Hq); [left|].
  cbn [consume_rows iterM]. rewrite Hrow, (proj2 (Z.ltb_ge _ _)) by done.
  erewrite bind_run by (erewrite bind_run by reflexivity; reflexivity).
  pose proof (Hkeyed _ _ Hitem) as Hiid. cbn in Hiid.
  match goal with |- _ ?w1 = _ => set (w' := w1) end.
  match goal with |- ?lhs = _ => change lhs with (consume_rows rows l w') end.
  assert (inventory (db w') = <[ id := draw q item ]> (inventory (db w))) as Hinv
    by (subst w'; cbn; by rewrite Hiid).
  rewrite (IH w'); [|done| |].
  - assert (consume_map ((id, q) :: l) (inventory (db w))
      = consume_map l (<[ id := draw q item ]> (inventory (db w)))) as ->.
    { unfold consume_map. cbn [foldl fst snd]. f_equal.
      apply map_eq. intros k. destruct (decide (k = id)) as [->|].
      - by rewrite lookup_insert_eq, lookup_alter_eq, Hitem.
      - by rewrite lookup_insert_ne, lookup_alter_ne. }
    rewrite Hinv. reflexivity.
  - unfold inventory_keyed. rewrite Hinv. apply map_Forall_insert_2; [done|exact Hkeyed].
  - intros id' q' Hin. destruct (Hl id' q') as (it & ? & Hit & ?); [by right|]. exists it.
    rewrite Hinv, lookup_insert_ne; [done|]. intros <-. apply Hid. apply list_elem_of_fmap. by exists (id, q').
Qed.

Lemma consume_reservations_run l w :
  NoDup l.*1 → inventory_keyed w →
  (∀ id q, (id, q) ∈ l → ∃ item, inventory (db w) !! id = Some item ∧ q <= i_reserved_stock_mt item) →
  ∃ w', consume_reservations l w = Ok tt w'
    ∧ reads (w <| db := (db w) <| inventory := consume_map l (inventory (db w)) |> |>) w'.
Proof.
  intros Hnd Hkeyed Hl. unfold consume_reservations.
  assert (∃ rows w1, lock_inventory_items (list_to_set l.*1) w = Ok rows w1) as (rows & w1 & Hlock).
  { unfold lock_inventory_items. case_bool_decide; [by eexists _, _|].
    erewrite bind_run by reflexivity. erewrite bind_run by reflexivity.
    rewrite bool_decide_eq_false_2; [by eexists _, _|]. intros Hne. apply Hne.
    apply set_eq. intros k. split; [|set_solver]. intros [Hk Hnot]%elem_of_difference. destruct Hnot.
    apply elem_of_list_to_set, list_elem_of_fmap in Hk as ([id q] & -> & Hin).
    destruct (Hl id q Hin) as (item & Hitem & _). apply elem_of_dom. exists item. cbn.
    apply map_lookup_filter_Some. split; [done|]. apply elem_of_list_to_set, list_elem_of_fmap.
    by exists (id, q). }
  erewrite bind_run by exact Hlock.
  pose proof (keeps_ok reads _ _ _ _ (reads_lock_inventory_items _) Hlock) as Hr.
  apply lock_inventory_items_ok in Hlock as (Hdb & _ & Hrows). fold (consume_rows rows l).
  rewrite consume_rows_run; [|done|by unfold inventory_keyed; rewrite Hdb|].
  - eexists. split; [reflexivity|]. unfold reads in *. rewrite Hdb. cbn. by destruct_and!.
  - intros id q Hin. destruct (Hl id q Hin) as (item & Hitem & Hq).
    destruct (Hrows id) as (item' & Hrow & Hitem'); [apply elem_of_list_to_set, list_elem_of_fmap; by exists (id, q)|].
    exists item. rewrite Hdb. split_and!; congruence || done.
Qed.

(** What a fill draws is reserved. *)
Lemma consumption_covered d n c q :
  market_ok d → backed d → fill_pair d n c q →
  ∀ id x, (id, x) ∈ consumption_by_item n c q →
  ∃ item, inventory d !! id = Some item ∧ x <= i_reserved_stock_mt item.
Proof.
  intros Hok Hb Hpair id x Hin.
  assert (x = drawn id n c q ∧ (o_inventory_item_id n = Some id ∨ o_inventory_item_id c = Some id)) as [-> Hown].
  { unfold consumption_by_item, drawn in *.
    destruct (o_inventory_item_id n) as [a|], (o_inventory_item_id c) as [b|];
      [destruct (decide (a = b)) as [->|];
        [rewrite bool_decide_eq_true_2 in Hin by done|rewrite bool_decide_eq_false_2 in Hin by done]|..];
      rewrite ?elem_of_cons, ?elem_of_nil in Hin; destruct_or?; simplify_eq;
      (split; [|auto]); repeat case_bool_decide; simplify_eq; lia. }
  assert (is_Some (inventory d !! id)) as [item Hitem].
  { destruct Hown as [Ho|Ho].
    - pose proof (Hb _ _ (fp_new _ _ _ _ Hpair)) as H. cbn in H. by rewrite Ho in H.
    - pose proof (Hb _ _ (fp_crossing _ _ _ _ Hpair)) as H. cbn in H. by rewrite Ho in H. }
  exists item. split; [done|]. by apply (fill_covers d n c q).
Qed.

(** What every step of the loop leaves alone in the session. *)
Definition same_session : relation World := λ w w',
  committed w' = committed w ∧ settings w' = settings w.
#[export] Instance same_session_preorder : PreOrder same_session.
Proof. split; [by repeat split|]. unfold same_session. intros a b c ? ?. destruct_and!. split; congruence. Qed.
Lemma static_same_session w w' : static w w' → same_session w w'.
Proof. unfold static. intros ?. by destruct_and!. Qed.

Lemma execute_match_wp ctx st c w :
  let n := ms_new_order st in
  let q := Z.min (o_remaining_quantity_mt n) (o_remaining_quantity_mt c) in
  market_ok (db w) → backed (db w) → settings_valid (settings w) →
  map_Forall (λ _ f, fee_ok f) (ms_fee_snapshots st) →
  fill_pair (db w) n c q → admissible (db w) ctx n c →
  wp (execute_match ctx st c)
    (λ st' w', (∃ t, db w' = filled_in (db w) n c q t) ∧ market_ok (db w')
       ∧ ms_new_order st' = fill_order n q ∧ map_Forall (λ _ f, fee_ok f) (ms_fee_snapshots st'))
    (λ e _, conflict e) w.
Proof.
  intros n q Hok Hb Hset Hfees Hpair Had. unfold execute_match. fold n. fold q.
  apply wp_bind. eapply wp_mono; [by apply fee_snapshot_wp; [|apply Hok|]| |by intros ? ? [? _]].
  intros [plan fee] w1 [Hfee Hr1]. pose proof (proj1 Hr1) as Hdb1.
  destruct (consume_reservations_run (consumption_by_item n c q) w1) as (w2 & Hrun2 & Hr2);
    [apply consumption_NoDup|unfold inventory_keyed; rewrite Hdb1; apply Hok
    |rewrite Hdb1; by apply consumption_covered|].
  pose proof (proj1 Hr2) as Hdb2. cbn [db set_field] in Hdb2.
  assert (db w2 = (db w) <| inventory := consume_map (consumption_by_item n c q) (inventory (db w)) |>) as Hdb2'.
  { etrans; [exact Hdb2|]. cbn. by rewrite Hdb1. }
  clear Hdb2. unfold wp. erewrite bind_run by exact Hrun2. do 3 (erewrite bind_run by reflexivity).
  cbv zeta. change (db (w2 <| clock_reads := ?x |>)) with (db w2). rewrite Hdb2'.
  match goal with |- context [put_trade ?t] => set (tr := t) end.
  assert (trade_checks tr) as Htc by (by eapply matched_trade_checks).
  assert (trades (db w) !! t_id tr = None) as Hnew by exact (fresh_id_none (trades (db w))).
  pose proof (fill_flush_checks (db w) n c q tr Hok Hpair Htc Hnew eq_refl) as Hflush.
  erewrite bind_run by reflexivity.
  erewrite bind_run by (apply flush_run; cbn; rewrite Hdb2'; exact Hflush).
  do 2 (erewrite bind_run by reflexivity).
  pose proof (market_ok_fill (db w) n c q tr Hok Hpair Htc Hnew eq_refl ltac:(done)
    (λ id, matched_trade_fills _ _ _ _ _ _ _ _ _ id (Z.lt_le_incl _ _ (fp_positive _ _ _ _ Hpair)))) as Hok'.
  match goal with |- match mret _ ?w' with _ => _ end =>
    assert (db w' = filled_in (db w) n c q tr) as Hdb' end.
  { cbn. rewrite Hdb2'. rewrite !(proj1 (fill_order_terms _ _)). reflexivity. }
  cbn [mret M_ret]. rewrite Hdb'. split_and!; [by exists tr|by apply Hok'|done|].
  by apply map_Forall_insert_2.
Qed.

(** ** The loop *)

(** What holds of the tables and of the loop's state before the orders of
    [rest] are visited. *)
Record loop_ok (ctx : MatchContext) (st : MatchState) (rest : list Order) (d : Database) : Prop := {
  lo_market : market_ok d;
  lo_backed : backed d;
  lo_fees : map_Forall (λ _ f, fee_ok f) (ms_fee_snapshots st);
  lo_row : orders d !! o_id (ms_new_order st) = Some (ms_new_order st);
  lo_active : 0 < o_remaining_quantity_mt (ms_new_order st) →
    is_active_status (o_status (ms_new_order st)) = true;
  lo_provenance : o_provenance (ms_new_order st) = mc_provenance ctx;
  lo_terms : tradable_terms d (ms_new_order st);
  lo_ids : NoDup (o_id (ms_new_order st) :: (o_id <$> rest));
  lo_rest : Forall (λ c, orders d !! o_id c = Some c ∧ is_active_status (o_status c) = true
    ∧ not_expired ctx c ∧ o_organization_id c ≠ o_organization_id (ms_new_order st)
    ∧ o_provenance c = mc_provenance ctx) rest;
}.

Lemma loop_ok_tail ctx st c rest d : loop_ok ctx st (c :: rest) d → loop_ok ctx st rest d.
Proof.
  intros [H1 H2 H3 H4 H5 H6 H7 H8 H9]. split; try done.
  - apply NoDup_cons in H8 as [Hn [Hc Hnd]%NoDup_cons]. apply NoDup_cons. split; [set_solver|done].
  - by apply Forall_cons in H9 as [_ ?].
Qed.

Lemma tradable_terms_fill d n c q t : tradable_terms d n → tradable_terms (filled_in d n c q t) (fill_order n q).
Proof.
  unfold tradable_terms, order_delivery_point.
  destruct (fill_order_terms n q) as (_ & _ & _ & _ & _ & _ & -> & -> & _). done.
Qed.

Lemma backed_fill d n c q t : fill_pair d n c q → backed d → backed (filled_in d n c q t).
Proof.
  intros [H1 H2 _ _ _ _ _ _] Hb.
  assert (∀ o, match o_inventory_item_id o with Some i => is_Some (inventory d !! i) | None => True end →
    match o_inventory_item_id o with
    | Some i => is_Some (consume_map (consumption_by_item n c q) (inventory d) !! i) | None => True end) as Hmono.
  { intros o. destruct (o_inventory_item_id o); [|done]. by rewrite consume_map_lookup, fmap_is_Some. }
  unfold backed, filled_in. cbn.
  apply map_Forall_insert_2; [|apply map_Forall_insert_2; [|intros k o Ho; by apply Hmono, (Hb k)]].
  - destruct (fill_order_identity c q) as (_ & _ & Hi & _). rewrite Hi. apply (Hmono c), (Hb (o_id c) c H2).
  - destruct (fill_order_identity n q) as (_ & _ & Hi & _). rewrite Hi. apply (Hmono n), (Hb (o_id n) n H1).
Qed.

Lemma filled_in_orders_other d n c q t k :
  k ≠ o_id n → k ≠ o_id c → orders (filled_in d n c q t) !! k = orders d !! k.
Proof. intros Hn Hc. unfold filled_in. cbn. by rewrite !lookup_insert_ne. Qed.

Lemma loop_ok_fill ctx st c rest d t st' :
  let n := ms_new_order st in
  let q := Z.min (o_remaining_quantity_mt n) (o_remaining_quantity_mt c) in
  loop_ok ctx st (c :: rest) d → fill_pair d n c q → market_ok (filled_in d n c q t) →
  ms_new_order st' = fill_order n q → map_Forall (λ _ f, fee_ok f) (ms_fee_snapshots st') →
  loop_ok ctx st' rest (filled_in d n c q t).
Proof.
  intros n q [H1 H2 H3 H4 H5 H6 H7 H8 H9] Hpair Hok' Hn' Hfees. fold n in H4, H5, H6, H7, H8, H9.
  apply NoDup_cons in H8 as [Hnin [Hcin Hnd]%NoDup_cons].
  apply not_elem_of_cons in Hnin as [Hnc Hnin]. apply Forall_cons in H9 as [_ H9].
  destruct (fill_order_terms n q) as (T1 & _ & T3 & _ & _ & T6 & _).
  split; rewrite ?Hn', ?T1, ?T3, ?T6; try done.
  - by apply backed_fill.
  - unfold filled_in. cbn. by rewrite lookup_insert_ne, lookup_insert_eq.
  - destruct (fill_order_result n q) as [-> ->]. intros Hpos. by rewrite (proj2 (Z.eqb_neq _ _)) by lia.
  - by apply tradable_terms_fill.
  - by apply NoDup_cons.
  - rewrite Forall_forall in H9 |- *. intros x Hx. destruct (H9 x Hx) as (Hrow & ?).
    rewrite filled_in_orders_other; [done|..]; intros Heq;
      [apply Hnin|apply Hcin]; rewrite <-Heq; by apply list_elem_of_fmap_2.
Qed.

(** The head of the loop may be filled. *)
Lemma loop_ok_pair ctx st c rest d :
  loop_ok ctx st (c :: rest) d → 0 < o_remaining_quantity_mt (ms_new_order st) →
  fill_pair d (ms_new_order st) c (Z.min (o_remaining_quantity_mt (ms_new_order st)) (o_remaining_quantity_mt c)).
Proof.
  intros [H1 H2 H3 H4 H5 H6 H7 H8 H9] Hpos. apply Forall_cons in H9 as [(C1 & C2 & _) _].
  apply NoDup_cons in H8 as [Hnc _]. apply not_elem_of_cons in Hnc as [Hnc _].
  pose proof (active_fillable c (proj1 (proj1 H1) _ _ C1) C2). unfold fillable in *.
  split; try done; [by apply H5|lia..].
Qed.

Lemma same_session_match_one ctx st c w : Keeps_at same_session (match_one ctx st c) w.
Proof. apply static_same_session, static_match_one. Qed.

Lemma match_one_wp ctx st c rest w :
  loop_ok ctx st (c :: rest) (db w) → settings_valid (settings w) →
  0 < o_remaining_quantity_mt (ms_new_order st) →
  wp (match_one ctx st c) (λ st' w', loop_ok ctx st' rest (db w')) (λ e _, conflict e) w.
Proof.
  intros Hlo Hset Hpos.
  assert (wp (mret st : M World MatchState) (λ st' w', loop_ok ctx st' rest (db w')) (λ e _, conflict e) w) as Hskip
    by (apply wp_ret; by apply (loop_ok_tail _ _ c)).
  pose proof (lo_rest _ _ _ _ Hlo) as [(Hrow & _ & Hexp & Horg & Hprov) _]%Forall_cons.
  unfold match_one.
  assert (match o_expires_at c with Some e => e <=? mc_now ctx | None => false end = false) as ->.
  { unfold not_expired in Hexp. destruct (o_expires_at c); [by apply Z.leb_gt|done]. }
  destruct (execution_provenance_compatible _ _ _ _ _) eqn:Hcompat; cbn [negb]; [|exact Hskip].
  destruct (match mc_allowed_demo ctx with Some _ => _ | None => _ end); [exact Hskip|].
  destruct (orders_execution_compatible _ _); cbn [negb]; [|exact Hskip].
  assert (∃ b w1, (match mc_allowed_demo ctx with
    | Some _ => mret true | None => owners_admitted (ms_new_order st) c end : M World bool) w = Ok b w1
    ∧ reads w w1) as (b & w1 & Hrun & Hr).
  { destruct (mc_allowed_demo ctx); [by exists true, w|].
    destruct (owners_admitted_run (ms_new_order st) c w) as (w1 & ? & ?). by eexists _, w1. }
  pose proof Hr as (Hdb & _ & Hs & _).
  unfold wp. erewrite bind_run by exact Hrun. destruct b; cbn [negb].
  2: { rewrite <-Hdb in Hlo. cbn. by apply (loop_ok_tail _ _ c). }
  pose proof Hlo as [H1 H2 H3 H4 H5 H6 H7 H8 H9].
  eapply (wp_mono _ _ _ _ (λ e _, conflict e)).
  - rewrite <-Hdb in *. apply execute_match_wp; try done; [by rewrite Hs|by eapply loop_ok_pair].
  - intros st' w' ((t & Hdb') & Hok' & Hn' & Hfees'). rewrite Hdb' in Hok' |- *. rewrite Hdb in *.
    eapply loop_ok_fill; [exact Hlo|by eapply loop_ok_pair|done..].
  - done.
Qed.

Lemma match_loop_wp ctx rest st w :
  loop_ok ctx st rest (db w) → settings_valid (settings w) →
  wp (match_loop ctx rest st) (λ st' w', market_ok (db w')) (λ e _, conflict e) w.
Proof.
  revert st w. induction rest as [|c rest IH]; intros st w Hlo Hset; cbn [match_loop].
  { apply wp_ret, Hlo. }
  destruct (Z.leb_spec (o_remaining_quantity_mt (ms_new_order st)) 0); [apply wp_ret, Hlo|].
  apply wp_bind. eapply wp_mono.
  - apply (wp_keeps same_session); [apply same_session_match_one|by apply (match_one_wp ctx st c rest)].
  - intros st' w' [Hlo' [_ Hs]]. apply IH; [done|by rewrite Hs].
  - by intros e w' [? _].
Qed.

(** ** The whole match *)

Lemma load_organizations_wp ids require_approved approved w :
  wp (lock_and_load_market_organizations ids [] require_approved approved)
    (λ _ w', reads w w') (λ e _, conflict e) w.
Proof.
  eapply wp_mono;
    [apply (wp_keeps reads _ (λ _ _, True) (λ e _, conflict e)); [apply reads_lock_and_load|]
    |by intros ? ? [_ ?]|by intros ? ? [? _]].
  unfold lock_and_load_market_organizations. case_bool_decide; [by apply wp_ret|].
  change (ownership_by_user []) with (∅ : gmap uuid uuid).
  unfold lock_actors. rewrite bool_decide_eq_true_2 by done.
  apply wp_bind, wp_ret. unfold lock_organizations.
  apply wp_bind, wp_bind, wp_modify, wp_bind, wp_gets, wp_ret.
  apply wp_bind, wp_refuse; [by eexists|]. intros _.
  apply wp_bind, wp_refuse; [by eexists|]. intros _.
  unfold check_actors_eligible. rewrite map_to_list_empty.
  apply wp_bind, wp_bind, wp_gets. by apply wp_ret, wp_ret.
Qed.

(** The incoming order of a match. *)
Record incoming_ok (d : Database) (n : Order) : Prop := {
  in_row : orders d !! o_id n = Some n;
  in_active : is_active_status (o_status n) = true;
  in_terms : tradable_terms d n;
}.

Lemma loop_ok_start ctx n d :
  market_ok d → backed d → incoming_ok d n → o_provenance n = mc_provenance ctx →
  loop_ok ctx (MkMatchState n ∅ [] []) (candidates d n (mc_now ctx)) d.
Proof.
  intros Hok Hb [I1 I2 I3] Hp. pose proof (keyed_orders _ (proj1 (proj2 Hok))) as Hk.
  split; cbn; try done.
  - apply NoDup_cons. split; [by apply candidates_exclude_self|by apply candidates_NoDup].
  - pose proof (candidates_not_expired d n ctx Hk) as Hexp. rewrite Forall_forall in Hexp |- *.
    intros c Hc. pose proof (elem_of_sublist _ _ _ Hc (sublist_take _ _)) as Hin.
    apply elem_of_prioritized in Hin as [Hrow Hf]; [|done]. apply match_filters_facts in Hf.
    destruct_and! Hf. split_and!; done || congruence.
Qed.

Lemma match_against_book_wp ctx n w :
  market_ok (db w) → backed (db w) → settings_valid (settings w) → incoming_ok (db w) n →
  o_provenance n = mc_provenance ctx →
  wp (match_against_book ctx n) (λ _ w', market_ok (db w')) (λ e _, conflict e) w.
Proof.
  intros Hok Hb Hset Hin Hp. pose proof (keyed_orders _ (proj1 (proj2 Hok))) as Hk.
  unfold match_against_book. apply wp_bind, wp_gets. cbv zeta.
  fold (crossing_book (db w) n (mc_now ctx)). rewrite take_take, length_take.
  replace (MAX_CROSSING_ORDERS_PER_MATCH `min` S MAX_CROSSING_ORDERS_PER_MATCH)%nat
    with MAX_CROSSING_ORDERS_PER_MATCH by reflexivity.
  fold (candidates (db w) n (mc_now ctx)).
  set (cs := candidates (db w) n (mc_now ctx)). destruct cs as [|c0 cs0] eqn:Hcs; [by apply wp_ret|].
  rewrite <-Hcs. clear Hcs c0 cs0.
  apply wp_bind, wp_modify, wp_bind, wp_gets. cbn [db set_field]. unfold cs, candidates, crossing_book.
  rewrite prioritized_reselect by done.
  fold (crossing_book (db w) n (mc_now ctx)). fold (candidates (db w) n (mc_now ctx)).
  apply wp_bind. eapply wp_mono; [apply load_organizations_wp| |done].
  intros orgs w1 Hr. pose proof (proj1 Hr) as Hdb. pose proof (proj1 (proj2 (proj2 Hr))) as Hs. cbn in Hdb, Hs.
  apply wp_bind. eapply wp_mono.
  - apply match_loop_wp; [rewrite Hdb; by apply loop_ok_start|by rewrite Hs].
  - intros st w2 Hok2. cbn beta in Hok2.
    destruct (notify_returns (ms_notifications st) w2) as (u & w3 & Hnot).
    pose proof (keeps_ok only_events _ _ _ _ (only_events_notify_batched _) Hnot) as Hev.
    pose proof (market_ok_only_events _ _ Hev Hok2) as Hok3.
    unfold wp. erewrite bind_run by exact Hnot. erewrite bind_run by (apply flush_run, Hok3).
    destruct (_ && _); cbn; [by eexists|done].
  - done.
Qed.

Lemma uncommitted_static {A} (m : M World A) : Keeps static m → Keeps uncommitted m.
Proof. intros H w. specialize (H w). unfold static in H. by destruct_and!. Qed.

Lemma static_match_order n a allowed : Keeps static (match_order n a allowed).
Proof.
  unfold match_order, match_against_book. cbv zeta. keeps. all: apply static_match_loop.
Qed.

Lemma match_order_wp n is_anonymous allowed w :
  market_ok (db w) → backed (db w) → settings_valid (settings w) → incoming_ok (db w) n →
  order_expired n (clock w (clock_reads w)) = false →
  wp (match_order n is_anonymous allowed) (λ _ w', market_ok (db w')) (λ e _, conflict e) w.
Proof.
  intros Hok Hb Hset Hin Hexp. unfold match_order. destruct (_ <=? 0); [by apply wp_ret|].
  destruct Hin as [I1 I2 I3].
  pose proof (proj1 (proj2 (proj2 (proj2 (proj2 Hok)))) _ _ I1) as Hwin. cbn in Hwin.
  unfold acquire_market_slice_lock. rewrite (normalize_of_canonical _ Hwin).
  apply wp_bind, wp_bind, wp_lift; [|done]. intros win _. apply wp_modify, wp_bind.
  apply wp_utcnow. set (w1 := _ <| clock_reads := _ |>).
  lazymatch goal with |- wp (if ?b then _ else _) _ _ _ =>
    change b with (order_expired n (clock w (clock_reads w))) end.
  rewrite Hexp. destruct (o_provenance n) eqn:Hp; cbn; try done.
  - destruct (order_is_execution_qualified n); cbn; [|done]. by apply match_against_book_wp.
  - destruct (demo_counterparty n allowed); cbn; [|done].
    destruct (order_is_execution_qualified n); cbn; [|done]. by apply match_against_book_wp.
Qed.

(** C23: Matching is safe.  On trading tables that satisfy the market invariant,
    matching an unexpired active order whose terms name catalog rows either
    returns with the invariant intact - constraints, stock bounds and the exact
    balance between reserved stock and what orders and pending trades hold - or
    refuses with HTTP 409.  It never violates a constraint of the database,
    never finds a reservation short, and commits nothing itself. *)
Theorem match_order_safe n is_anonymous allowed w :
  market_ok (db w) → backed (db w) → settings_valid (settings w) → incoming_ok (db w) n →
  order_expired n (clock w (clock_reads w)) = false →
  match match_order n is_anonymous allowed w with
  | Ok _ w' => market_ok (db w') ∧ committed w' = committed w
  | Raise e w' => conflict e ∧ committed w' = committed w
  end.
Proof.
  intros Hok Hb Hset Hin Hexp.
  apply (wp_keeps uncommitted); [apply uncommitted_static, static_match_order|].
  by apply match_order_wp.
Qed.

Lemma match_order_safe_witness :
  ∃ ts w', match_order Demo.bid false None Demo.placed = Ok ts w' ∧ market_ok (db w').
Proof.
  assert (market_ok (db Demo.placed)) as Hok by (apply (bool_decide_unpack _); vm_compute; exact I).
  assert (backed (db Demo.placed)) as Hb by (apply (bool_decide_unpack _); vm_compute; exact I).
  assert (settings_valid (settings Demo.placed)) as Hset by (apply (bool_decide_unpack _); vm_compute; exact I).
  assert (incoming_ok (db Demo.placed) Demo.bid) as Hin.
  { split; [vm_compute; reflexivity..|]. apply (bool_decide_unpack _); vm_compute; exact I. }
  pose proof (match_order_safe Demo.bid false None Demo.placed Hok Hb Hset Hin eq_refl) as H.
  destruct placed_matches as (ts & w' & Hrun). exists ts, w'. split; [exact Hrun|].
  rewrite Hrun in H. exact (proj1 H).
Defined.

(** ** The one leak: an incoming order that expires while it is placed *)

(** The run of the expiry branch. *)
Lemma match_order_expired_run n is_anonymous allowed w :
  market_ok (db w) → orders (db w) !! o_id n = Some n → is_active_status (o_status n) = true →
  order_expired n (clock w (clock_reads w)) = true →
  ∃ w', match_order n is_anonymous allowed w = Ok [] w'
    ∧ db w' = (db w) <| orders := <[ o_id n := closed_order EXPIRED n ]> (orders (db w)) |>
    ∧ committed w' = committed w.
Proof.
  intros Hok Hrow Hact Hexp.
  pose proof (active_fillable n (proj1 (proj1 Hok) _ _ Hrow) Hact) as Hpos. unfold fillable in Hpos.
  pose proof (proj1 (proj2 (proj2 (proj2 (proj2 Hok)))) _ _ Hrow) as Hwin. cbn in Hwin.
  unfold match_order. rewrite (proj2 (Z.leb_gt _ _)) by done.
  unfold acquire_market_slice_lock. rewrite (normalize_of_canonical _ Hwin).
  do 2 (erewrite bind_run by reflexivity).
  lazymatch goal with |- context [if ?b then _ else _] =>
    change b with (order_expired n (clock w (clock_reads w))) end.
  rewrite Hexp. eexists. split; [reflexivity|]. split; [|done]. pose proof (closed_order_row EXPIRED n) as [[Eid _] _].
  unfold closed_order in *. cbn. by rewrite Eid.
Qed.

(** C31: The expiry branch of the matching engine leaks stock.  When an active,
    inventory-backed order has run past its deadline by the time it is matched,
    [match_order] returns normally with the order closed as expired, but the
    stock reserved for it stays reserved: no order or trade accounts for it any
    more, and the sweep ([Lifecycle]) selects active orders only. *)
Theorem match_order_expiry_strands_stock n is_anonymous allowed w i item :
  market_ok (db w) → orders (db w) !! o_id n = Some n → is_active_status (o_status n) = true →
  o_inventory_item_id n = Some i → inventory (db w) !! i = Some item →
  order_expired n (clock w (clock_reads w)) = true →
  ∃ w', match_order n is_anonymous allowed w = Ok [] w'
    ∧ o_status <$> orders (db w') !! o_id n = Some EXPIRED
    ∧ inventory (db w') !! i = Some item
    ∧ held_stock (db w') i = i_reserved_stock_mt item - o_remaining_quantity_mt n
    ∧ ¬ reservations_ok (db w').
Proof.
  intros Hok Hrow Hact Hi Hitem Hexp.
  pose proof (active_fillable n (proj1 (proj1 Hok) _ _ Hrow) Hact) as Hpos. unfold fillable in Hpos.
  destruct (closed_order_row EXPIRED n) as ((Eid & _ & Eitem & _) & Est & _).
  destruct (match_order_expired_run n is_anonymous allowed w Hok Hrow Hact Hexp) as (w' & Hrun & Hdb & _).
  set (n' := closed_order EXPIRED n) in *.
  exists w'. split; [done|]. rewrite Hdb.
  assert (held_stock ((db w) <| orders := <[ o_id n := n' ]> (orders (db w)) |>) i
    = i_reserved_stock_mt item - o_remaining_quantity_mt n) as Hheld.
  { rewrite (held_put_order _ i (o_id n) n) by done.
    rewrite (order_holds_own i n), (order_holds_own i n'), Est by (by rewrite ?Eitem).
    rewrite (active_not_withdrawn _ Hact). change (is_withdrawn EXPIRED) with true.
    pose proof (proj1 (proj2 (proj2 Hok)) i item Hitem) as Hbal. cbn beta in Hbal. cbn iota. lia. }
  split_and!; [cbn; rewrite lookup_insert_eq; exact (f_equal Some Est)|done|done|].
  intros Hr. specialize (Hr i item Hitem). cbn beta in Hr. rewrite Hheld in Hr. lia.
Qed.

(** The backed ask of the demo market, placed with a deadline that has passed. *)
Lemma match_order_expiry_strands_stock_witness :
  ∃ w', match_order Demo.stale_ask false None Demo.stale = Ok [] w' ∧ ¬ reservations_ok (db w').
Proof.
  assert (market_ok (db Demo.stale)) as Hok by (apply (bool_decide_unpack _); vm_compute; exact I).
  destruct (match_order_expiry_strands_stock Demo.stale_ask false None Demo.stale 70 Demo.stock Hok)
    as (w' & Hrun & _ & _ & _ & Hbad); [vm_compute; reflexivity..|].
  exists w'. split; [exact Hrun|exact Hbad].
Defined.
