(* ===== verification/PostOnly.v ===== *)
(** * Post-only assessment of assisted listings

    [app/services/market_support_post_only.py]: before Market Support lists an
    order for a customer, the complete crossing set of its slice is assessed
    under the slice lock, and the listing is refused unless it would rest.  The
    matching engine ([Matching]) is not called for such an order; the theorem is
    that the assessment predicts it: an order assessed to rest would have
    matched nothing, and one assessed to cross names the price of the first
    trade it would have made. *)

From S2P Require Import Prelude Catalog Calendar AvailabilityWindows Schema Constraints Database Scenario Queries Policy Events Inventory Admission Lifecycle Matching MatchingSpec.
Local Open Scope Z_scope.

Record PostOnlyAssessment := MkPostOnlyAssessment {
  pa_would_cross : bool;
  pa_indeterminate : bool;
  pa_best_executable_price : option Z;
}.

Definition not_assessable : PostOnlyAssessment := MkPostOnlyAssessment true true None.

(** [filters] *)
Definition post_only_filters (d : Database) (candidate : Order) (now : datetime) (o : Order) : bool :=
  bool_decide (o_side o = opposite (o_side candidate))
  && bool_decide (o_product_id o = o_product_id candidate)
  && bool_decide (o_delivery_point_id o = o_delivery_point_id candidate)
  && bool_decide (o_availability_window o = o_availability_window candidate)
  && is_active_status (o_status o)
  && bool_decide (o_organization_id o ≠ o_organization_id candidate)
  && price_filter candidate o
  && match o_expires_at o with None => true | Some e => now <? e end
  && bool_decide (o_provenance o = REAL)
  && organization_is_approved d (o_organization_id o).

(** The first crossing order that the candidate could trade with. *)
Fixpoint first_executable (d : Database) (candidate : Order) (owners : gmap uuid User)
    (orgs : gmap uuid Organization) (crossing_orders : list Order) : PostOnlyAssessment :=
  match crossing_orders with
  | [] => MkPostOnlyAssessment false false None
  | crossing :: rest =>
      match o_owner_user_id crossing with
      | Some owner =>
          if negb (orders_execution_compatible candidate crossing)
          then first_executable d candidate owners orgs rest
          else if order_owner_is_execution_eligible d crossing (owners !! owner)
                    (orgs !! o_organization_id crossing)
          then MkPostOnlyAssessment true false (Some (o_price_per_mt_usd crossing))
          else first_executable d candidate owners orgs rest
      | None => first_executable d candidate owners orgs rest
      end
  end.

(** The rows of the preview, locked in id order. *)
Definition lock_crossing (candidate : Order) (now : datetime) (preview : list uuid) : M World (list Order) :=
  match preview with
  | [] => mret []
  | _ =>
      take_lock (RowOrders (sorted_set preview)) ;;
      d ← get_db;
      mret (orders_by_id d (λ o, bool_decide (o_id o ∈ preview) && post_only_filters d candidate now o))
  end.

Definition assess_locked_order (candidate : Order) (organization : Organization) : M World PostOnlyAssessment :=
  if (o_remaining_quantity_mt candidate <=? 0)
     || negb (order_is_execution_qualified candidate)
     || bool_decide (o_provenance candidate ≠ REAL)
     || bool_decide (g_id organization ≠ o_organization_id candidate)
     || bool_decide (g_verification_status organization ≠ "APPROVED")
  then mret not_assessable
  else
    now ← utcnow;
    d ← get_db;
    let preview := take (S MAX_CROSSING_ORDERS_PER_MATCH)
                        (prioritized d (o_side candidate) (post_only_filters d candidate now)) in
    if bool_decide (MAX_CROSSING_ORDERS_PER_MATCH < length preview)%nat then mret not_assessable
    else
      crossing_orders ← lock_crossing candidate now (o_id <$> preview);
      owners ← lock_users (omap o_owner_user_id crossing_orders);
      orgs ← lock_organizations (g_id organization :: (o_organization_id <$> crossing_orders));
      d ← get_db;
      mret (first_executable d candidate owners orgs
              (merge_sort (priority_le (o_side candidate)) crossing_orders)).

(** ** Facts *)

Lemma reads_lock_crossing n now preview : Keeps reads (lock_crossing n now preview).
Proof. unfold lock_crossing. keeps. Qed.
#[export] Hint Resolve reads_lock_crossing : keeps.
Lemma reads_assess n g : Keeps reads (assess_locked_order n g).
Proof. unfold assess_locked_order. cbv zeta. keeps. Qed.

(** The crossing set is the book the matching engine would match against. *)
Lemma post_only_filters_match d n now o :
  o_provenance n = REAL → post_only_filters d n now o = match_filters d n now o.
Proof.
  intros Hp. unfold post_only_filters, match_filters. rewrite Hp.
  repeat match goal with |- context [bool_decide ?P] => destruct (bool_decide P) end;
    cbn [andb]; rewrite ?andb_true_r, ?andb_false_r; done.
Qed.

Lemma prioritized_ext d side p q : (∀ o, p o = q o) → prioritized d side p = prioritized d side q.
Proof. intros H. unfold prioritized, select_orders. f_equal. apply list_filter_iff. intros o. by rewrite H. Qed.

(** Sorting the locked rows again gives the priority order of the preview. *)
Lemma resorted d (Hk : orders_keyed d) side (p : Order → bool) :
  merge_sort (priority_le side) (orders_by_id d p) = prioritized d side p.
Proof.
  apply (StronglySorted_unique_strong (priority_le side)).
  - intros a b Ha Hb Hab Hba. rewrite merge_sort_Permutation in Ha.
    apply (elem_of_selected d Hk id_le) in Ha as [Ha _]. apply (elem_of_prioritized d Hk) in Hb as [Hb _].
    rewrite (priority_le_antisymm_id _ _ _ Hab Hba) in Ha. congruence.
  - apply StronglySorted_merge_sort; apply _.
  - by apply prioritized_sorted.
  - rewrite merge_sort_Permutation. unfold orders_by_id, prioritized, select_orders.
    by rewrite !merge_sort_Permutation.
Qed.

(** ** What the assessment finds *)

(** A crossing order the candidate could trade with: its owner is admitted. *)
Definition tradable (d : Database) (n c : Order) : bool :=
  match o_owner_user_id c with
  | Some owner =>
      orders_execution_compatible n c
      && order_owner_is_execution_eligible d c (users d !! owner) (organizations d !! o_organization_id c)
  | None => false
  end.

Definition assessment_of (best : option Order) : PostOnlyAssessment :=
  match best with
  | Some c => MkPostOnlyAssessment true false (Some (o_price_per_mt_usd c))
  | None => MkPostOnlyAssessment false false None
  end.

Lemma first_executable_head d n owners orgs l :
  (∀ c u, c ∈ l → o_owner_user_id c = Some u → owners !! u = users d !! u) →
  (∀ c, c ∈ l → orgs !! o_organization_id c = organizations d !! o_organization_id c) →
  first_executable d n owners orgs l = assessment_of (head (filter (λ c, tradable d n c = true) l)).
Proof.
  induction l as [|c l IH]; intros Hu Hg; [done|]. cbn [first_executable].
  rewrite IH; [|intros x u Hx; apply Hu; by right|intros x Hx; apply Hg; by right].
  assert (tradable d n c = match o_owner_user_id c with
    | Some u => orders_execution_compatible n c
        && order_owner_is_execution_eligible d c (owners !! u) (orgs !! o_organization_id c)
    | None => false end) as Ht.
  { unfold tradable. rewrite (Hg c) by (by left). destruct (o_owner_user_id c) as [u|] eqn:Hc; [|done].
    by rewrite (Hu c u) by (done || by left). }
  rewrite filter_cons. destruct (o_owner_user_id c) as [u|]; [|by rewrite decide_False by (by rewrite Ht)].
  destruct (orders_execution_compatible n c); cbn [negb andb] in *; [|by rewrite decide_False by (by rewrite Ht)].
  destruct (order_owner_is_execution_eligible _ _ _ _);
    [by rewrite decide_True by done|by rewrite decide_False by (by rewrite Ht)].
Qed.

(** The gates before the book. *)
Definition assessable (n : Order) (g : Organization) : bool :=
  negb ((o_remaining_quantity_mt n <=? 0) || negb (order_is_execution_qualified n)
        || bool_decide (o_provenance n ≠ REAL) || bool_decide (g_id g ≠ o_organization_id n)
        || bool_decide (g_verification_status g ≠ "APPROVED")).

Section assess.
Context (n : Order) (g : Organization) (w : World).
Context (Hk : orders_keyed (db w)) (Hp : o_provenance n = REAL).
Let now := clock w (clock_reads w).

Lemma post_only_book k :
  take k (prioritized (db w) (o_side n) (post_only_filters (db w) n now)) = take k (crossing_book (db w) n now).
Proof. f_equal. apply prioritized_ext. intros o. by apply post_only_filters_match. Qed.

Lemma lock_crossing_run w1 l :
  db w1 = db w → (length l <= MAX_CROSSING_ORDERS_PER_MATCH)%nat → l = crossing_book (db w) n now →
  ∃ rows w2, lock_crossing n now (o_id <$> l) w1 = Ok rows w2 ∧ db w2 = db w
    ∧ merge_sort (priority_le (o_side n)) rows = l ∧ rows ≡ₚ l.
Proof.
  intros Hdb Hlen Hl. unfold lock_crossing. destruct l as [|c l'] eqn:He.
  { exists [], w1. by split_and!. }
  rewrite <-He in *. cbn [fmap list_fmap]. destruct (o_id <$> l) as [|i ids] eqn:Hids; [by rewrite He in Hids|].
  rewrite <-Hids. eexists _, _. split; [erewrite bind_run by reflexivity; by erewrite bind_run by reflexivity|].
  cbn [db set_field]. change (db (w1 <| locks := _ |>)) with (db w1). rewrite Hdb. split; [done|].
  pose proof (prioritized_reselect (db w) Hk (o_side n) (match_filters (db w) n now) MAX_CROSSING_ORDERS_PER_MATCH) as Hsel.
  fold (crossing_book (db w) n now) in Hsel. rewrite <-Hl, take_ge in Hsel by done.
  match goal with |- merge_sort _ ?s = _ ∧ _ => assert (merge_sort (priority_le (o_side n)) s = l) as Hs end.
  { rewrite resorted, <-Hsel by done. apply prioritized_ext. intros o. by rewrite post_only_filters_match, Hsel. }
  split; [exact Hs|]. etrans; [symmetry; apply (merge_sort_Permutation (priority_le (o_side n)))|by rewrite Hs].
Qed.

Lemma assess_ok a w1 :
  assess_locked_order n g w = Ok a w1 → pa_indeterminate a = false →
  assessable n g = true ∧ (length (crossing_book (db w) n now) <= MAX_CROSSING_ORDERS_PER_MATCH)%nat
  ∧ a = assessment_of (head (filter (λ c, tradable (db w) n c = true) (crossing_book (db w) n now))).
Proof.
  intros Hrun Hdet. unfold assess_locked_order in Hrun. unfold assessable.
  destruct (_ || _) eqn:Hgate; [inversion Hrun; by subst|]. split; [done|].
  apply bind_ok in Hrun as (now' & w2 & [= <- <-] & Hrun). fold now in Hrun.
  apply bind_ok in Hrun as (d & w2 & [= <- <-] & Hrun). cbn [db set_field] in Hrun. cbv zeta in Hrun.
  rewrite post_only_book in Hrun. rewrite length_take in Hrun.
  case_bool_decide as Hlen; [inversion Hrun; by subst|].
  unfold MAX_CROSSING_ORDERS_PER_MATCH in *.
  assert (length (crossing_book (db w) n now) <= 100)%nat as Hle by lia. split; [done|].
  rewrite take_ge in Hrun by lia.
  apply bind_ok in Hrun as (rows & w3 & Hlock & Hrun).
  set (l := crossing_book (db w) n now) in *.
  match type of Hlock with _ ?w2 = _ => destruct (lock_crossing_run w2 l eq_refl Hle eq_refl)
    as (rows' & w3' & Hlock' & Hdb3 & Hsort & Hperm) end.
  rewrite Hlock in Hlock'. injection Hlock' as <- <-.
  apply bind_ok in Hrun as (owners & w4 & [-> Hdb4]%lock_users_ok & Hrun).
  apply bind_ok in Hrun as (orgs & w5 & [-> Hdb5]%lock_organizations_ok & Hrun).
  apply bind_ok in Hrun as (d & w6 & [= <- <-] & [= <- <-]).
  rewrite Hsort, Hdb5, Hdb4, Hdb3. apply first_executable_head.
  - intros c u Hc Hu. apply locked_lookup. apply list_elem_of_omap. exists c. split; [by rewrite Hperm|done].
  - intros c Hc. apply locked_lookup. right. apply list_elem_of_fmap_2. by rewrite Hperm.
Qed.
End assess.

(** ** The assessment predicts the match *)

Definition placed_in (d : Database) (n : Order) : Database := d <| orders := <[ o_id n := n ]> (orders d) |>.

(** The book an order is matched against does not depend on its own row. *)
Lemma crossing_book_placed d n now :
  orders_keyed d → orders d !! o_id n = None → crossing_book (placed_in d n) n now = crossing_book d n now.
Proof.
  intros Hk Hnew. unfold crossing_book, prioritized.
  assert (orders_keyed (placed_in d n)) as Hk' by (by apply map_Forall_insert_2).
  change (match_filters (placed_in d n) n now) with (match_filters d n now).
  rewrite <-(drop_0 (select_orders _ d _)).
  apply selected_rest; try done; [apply _..|apply priority_le_antisymm_id|].
  intros x. rewrite drop_0, (elem_of_selected d Hk). cbn. split; intros [Hx Hf]; (split; [|done]).
  - apply lookup_insert_Some in Hx as [[_ <-]|[_ Hx]]; [|done].
    apply match_filters_facts in Hf. destruct_and! Hf. congruence.
  - rewrite lookup_insert_ne; [done|]. intros He. rewrite <-He in Hx. congruence.
Qed.

(** Among live orders the matching engine asks for nothing but the admission of
    both owners. *)
Lemma executable_tradable d n c now anon :
  o_provenance c = REAL → is_Some (o_owner_user_id n) →
  executable d (MkMatchContext now REAL None anon) n c
  = tradable d n c && match o_owner_user_id n with
      | Some a => order_owner_is_execution_eligible d n (users d !! a) (organizations d !! o_organization_id n)
      | None => false
      end.
Proof.
  intros Hp [a Ha]. unfold executable, tradable, owners_ok. cbn. rewrite Hp, Ha. cbn.
  destruct (o_owner_user_id c); [|by rewrite andb_false_r].
  destruct (orders_execution_compatible n c); cbn; [|done]. by rewrite andb_comm.
Qed.

Section predicts.
Context (n : Order) (g : Organization) (w w2 : World) (anonymous : bool).
Context (Hkeyed : keyed (db w)) (Hnew : orders (db w) !! o_id n = None).
Context (Hplaced : db w2 = placed_in (db w) n) (Hclock : clock w2 (clock_reads w2) = clock w (clock_reads w)).
Let now := clock w (clock_reads w).
Let ctx := MkMatchContext now REAL None anonymous.

Lemma placed_keyed_rows : keyed (db w2).
Proof. rewrite Hplaced. destruct Hkeyed as [Ho Hr]. split; [|exact Hr]. by apply map_Forall_insert_2. Qed.

(** A REAL order of positive, qualified quantity is matched against its book. *)
Lemma placed_match ts w3 :
  assessable n g = true → order_expired n now = false → match_order n anonymous None w2 = Ok ts w3 →
  Forall2 (fill_trade (db w2) ctx n) (match_plan (db w2) n ctx) ts.
Proof.
  unfold assessable. rewrite negb_true_iff, !orb_false_iff, !bool_decide_eq_false, negb_false_iff, Z.leb_gt.
  intros ((((Hrem & Hq) & Hp) & _) & _) Hexp Hrun.
  apply dec_stable in Hp. apply match_order_ok in Hrun;
    [|apply placed_keyed_rows|by rewrite Hplaced; cbn; rewrite lookup_insert_eq|done].
  cbv zeta in Hrun. rewrite Hclock in Hrun. fold now in Hrun. rewrite Hexp in Hrun.
  unfold match_context in Hrun. rewrite Hp, Hq in Hrun. apply Hrun.
Qed.

Lemma placed_plan :
  o_provenance n = REAL → is_Some (o_owner_user_id n) →
  (length (crossing_book (db w) n now) <= MAX_CROSSING_ORDERS_PER_MATCH)%nat →
  match_plan (db w2) n ctx
  = plan (o_remaining_quantity_mt n) (filter (λ c, executable (db w) ctx n c = true) (crossing_book (db w) n now)).
Proof.
  intros Hp Ho Hlen. unfold match_plan, candidates. cbn [mc_now ctx]. rewrite Hplaced.
  rewrite crossing_book_placed by (done || by apply keyed_orders). by rewrite take_ge.
Qed.
End predicts.

Lemma filter_ext_elem {A} (f g : A → bool) (l : list A) :
  (∀ x, x ∈ l → f x = g x) → filter (λ x, f x = true) l = filter (λ x, g x = true) l.
Proof.
  induction l as [|x l IH]; intros H; [done|]. rewrite !filter_cons, IH by (intros y Hy; apply H; by right).
  by rewrite (H x) by (by left).
Qed.

(** The candidate's own owner is admitted, too. *)
Definition own_admitted (d : Database) (n : Order) : bool :=
  match o_owner_user_id n with
  | Some a => order_owner_is_execution_eligible d n (users d !! a) (organizations d !! o_organization_id n)
  | None => false
  end.

(** C26: The post-only assessment predicts the matching engine.  When the
    complete crossing set can be assessed, and the same order is then placed and
    matched at the same instant: an order assessed to rest trades nothing; an
    order assessed to cross, whose own owner is admitted, trades, and its first
    trade is at exactly the price the assessment reports. *)
Theorem post_only_predicts_matching n g w a w1 w2 anonymous ts w3 :
  keyed (db w) → orders (db w) !! o_id n = None → is_Some (o_owner_user_id n) →
  assess_locked_order n g w = Ok a w1 → pa_indeterminate a = false →
  db w2 = placed_in (db w) n → clock w2 (clock_reads w2) = clock w (clock_reads w) →
  order_expired n (clock w (clock_reads w)) = false →
  match_order n anonymous None w2 = Ok ts w3 →
  if pa_would_cross a
  then own_admitted (db w) n = true →
       ∃ t ts', ts = t :: ts' ∧ pa_best_executable_price a = Some (t_price_per_mt_usd t)
  else ts = [].
Proof.
  intros Hk Hnew Ho Ha Hdet Hdb Hclock Hexp Hrun.
  assert (o_provenance n = REAL ∧ 0 < o_remaining_quantity_mt n) as [Hp Hrem].
  { unfold assess_locked_order in Ha. destruct (_ || _) eqn:Hg; [inversion Ha; by subst|].
    rewrite !orb_false_iff, !bool_decide_eq_false, Z.leb_gt in Hg. destruct_and! Hg. split; [by apply dec_stable|done]. }
  apply (assess_ok n g w (keyed_orders _ Hk) Hp) in Ha as (Hass & Hlen & ->); [|done].
  apply (placed_match n g w w2 anonymous Hk Hdb Hclock) in Hrun; [|done..].
  rewrite (placed_plan n w w2 anonymous Hk Hnew Hdb Hp Ho Hlen) in Hrun.
  set (book := crossing_book _ _ _) in *.
  rewrite (filter_ext_elem _ (λ c, tradable (db w) n c && own_admitted (db w) n)) in Hrun.
  2: { intros c Hc. apply executable_tradable; [|done].
       apply (elem_of_prioritized (db w) (keyed_orders _ Hk)) in Hc as [_ Hf].
       apply match_filters_facts in Hf. destruct_and! Hf. congruence. }
  destruct (own_admitted (db w) n) eqn:Hown.
  - rewrite (filter_ext_elem _ (λ c, tradable (db w) n c)) in Hrun by (intros; apply andb_true_r).
    destruct (filter _ book) as [|c l]; cbn in *.
    + by apply Forall2_nil_inv_l in Hrun.
    + intros _. rewrite (proj2 (Z.leb_gt _ _)) in Hrun by done.
      apply Forall2_cons_inv_l in Hrun as (t & ts' & Ht & _ & ->). exists t, ts'. split; [done|].
      apply fill_trade_facts in Ht. destruct_and! Ht. congruence.
  - rewrite (filter_ext_elem _ (λ _, false)) in Hrun by (intros; apply andb_false_r).
    assert (∀ l : list Order, filter (λ _, false = true) l = []) as Hnil by (induction l; done).
    rewrite Hnil in Hrun. apply Forall2_nil_inv_l in Hrun as ->. by destruct (head _).
Qed.

(** The demo bid crosses: its first trade is at the price of the best ask. *)
Definition unplaced : World := Demo.world_of (Demo.market <| orders := Demo.book [Demo.ask; Demo.ask'] |>).
Lemma unplaced_assessed :
  ∃ w1, assess_locked_order Demo.bid Demo.shipping_line unplaced = Ok (MkPostOnlyAssessment true false (Some 60000)) w1.
Proof.
  assert (match assess_locked_order Demo.bid Demo.shipping_line unplaced with
          | Ok a _ => bool_decide (pa_best_executable_price a = Some 60000) && pa_would_cross a && negb (pa_indeterminate a)
          | Raise _ _ => false end = true) as H by (vm_compute; reflexivity).
  destruct (assess_locked_order _ _ _) as [[b i p] w1|]; [|discriminate]. cbn in H.
  rewrite !andb_true_iff, negb_true_iff, bool_decide_eq_true in H. destruct H as ((-> & ->) & ->). by exists w1.
Qed.

Lemma post_only_predicts_matching_witness :
  ∃ t ts w', match_order Demo.bid false None Demo.placed = Ok (t :: ts) w' ∧ t_price_per_mt_usd t = 60000.
Proof.
  destruct unplaced_assessed as [w1 Ha], placed_matches as (ts & w' & Hrun).
  assert (keyed (db unplaced)) as Hk by (unfold keyed; split_and!; apply (bool_decide_unpack _); vm_compute; exact I).
  assert (db Demo.placed = placed_in (db unplaced) Demo.bid) as Hdb by (vm_compute; reflexivity).
  assert (orders (db unplaced) !! o_id Demo.bid = None) as Hnew by (vm_compute; reflexivity).
  pose proof (post_only_predicts_matching Demo.bid Demo.shipping_line unplaced
    (MkPostOnlyAssessment true false (Some 60000)) w1 Demo.placed false ts w'
    Hk Hnew (ex_intro _ 11%N eq_refl) Ha eq_refl Hdb eq_refl eq_refl Hrun) as H. cbn [pa_would_cross] in H.
  assert (own_admitted (db unplaced) Demo.bid = true) as Hown by (vm_compute; reflexivity).
  destruct (H Hown) as (t & ts' & Hts & Hp). rewrite Hts in Hrun. exists t, ts', w'.
  split; [exact Hrun|]. injection Hp as Hp. symmetry. exact Hp.
Defined.
