(* ===== verification/OrderEntry.v ===== *)
(** * A new order on its way in

    The request body of an order and what the schema makes of it
    ([app/schemas/orderbook.py]), the supplier metadata an ask must carry and
    the answer a caller gets ([app/routers/orderbook.py]), the minimum lot
    ([app/services/order_quantity.py]), the digest of authorized terms
    ([app/services/market_support.py]) and the acceptance ordinal
    ([app/services/market_locks.py]).

    [model_dump(mode="json")] is Pydantic's: a request carries what it gives of
    its body ([nc_model_dump]) and of its confirmation ([mf_model_dump]).  The
    lengths of text columns, [created_at] and the supplier tier are left out. *)

From S2P Require Import Prelude Sha256 Catalog Calendar AvailabilityWindows Decimal Json Schema OrderTerms Constraints Delivery Database Scenario Policy Eligibility Events Commands TradeViews Watchlist Benchmarks Admission RequestParty Trades Orders.
Local Open Scope Z_scope.

(** ** The request *)

Record MarketSupportFinalConfirmation := MkMarketSupportFinalConfirmation {
  mf_external_instruction_reference : string;
  mf_instruction_at : datetime;
  mf_evidence_excerpt : option string;
  mf_acknowledge_exact_terms : bool;
  mf_acknowledge_executable_standing_order : bool;
  mf_model_dump : jvalue;
}.
#[export] Instance MarketSupportFinalConfirmation_eta : Eta MarketSupportFinalConfirmation := λ r,
  MkMarketSupportFinalConfirmation (mf_external_instruction_reference r) (mf_instruction_at r)
    (mf_evidence_excerpt r) (mf_acknowledge_exact_terms r) (mf_acknowledge_executable_standing_order r)
    (mf_model_dump r).

(** [SupplierListingMetadataMixin] *)
Record SupplierListingMetadata := MkSupplierListingMetadata {
  sm_certification_declared : bool;
  sm_certification_scheme : option string;
  sm_specification_standard : option string;
  sm_msds_available : bool;
  sm_carbon_intensity_gco2_mj : option decimal;
  sm_carbon_intensity_method : option string;
  sm_feedstock : option string;
  sm_origin : option string;
  sm_off_spec : bool;
  sm_off_spec_notes : option string;
}.
#[export] Instance SupplierListingMetadata_eta : Eta SupplierListingMetadata := λ r,
  MkSupplierListingMetadata (sm_certification_declared r) (sm_certification_scheme r)
    (sm_specification_standard r) (sm_msds_available r) (sm_carbon_intensity_gco2_mj r)
    (sm_carbon_intensity_method r) (sm_feedstock r) (sm_origin r) (sm_off_spec r) (sm_off_spec_notes r).

Record OrderCreate := MkOrderCreate {
  nc_side : OrderSide;
  nc_product_id : uuid;
  nc_delivery_point_id : uuid;
  nc_port_id : option string;
  nc_vessel_id : option uuid;
  nc_quantity_mt : decimal;
  nc_price_per_mt_usd : decimal;
  nc_availability_window : string;
  nc_certifications : list string;
  nc_metadata : SupplierListingMetadata;
  nc_expires_at : option datetime;
  nc_is_anonymous : bool;
  nc_support_confirmation : option MarketSupportFinalConfirmation;
  nc_fields_set : list string;
  nc_model_dump : list (string * jvalue);
}.
#[export] Instance OrderCreate_eta : Eta OrderCreate := λ r,
  MkOrderCreate (nc_side r) (nc_product_id r) (nc_delivery_point_id r) (nc_port_id r) (nc_vessel_id r)
    (nc_quantity_mt r) (nc_price_per_mt_usd r) (nc_availability_window r) (nc_certifications r)
    (nc_metadata r) (nc_expires_at r) (nc_is_anonymous r) (nc_support_confirmation r) (nc_fields_set r)
    (nc_model_dump r).

Definition nc_certification_scheme (p : OrderCreate) : option string := sm_certification_scheme (nc_metadata p).

(** ** The schema's validators *)

(** [value.strip() or None] *)
Definition strip_or_none (value : option string) : option string :=
  v ← value; if bool_decide (strip v = "") then None else Some (strip v).

(** Stripped, without blanks, each once, in the order given. *)
Fixpoint normalized_certifications (seen : list string) (l : list string) : list string :=
  match l with
  | [] => []
  | c :: l =>
      let normalized := strip c in
      if bool_decide (normalized = "") || bool_decide (normalized ∈ seen)
      then normalized_certifications seen l
      else normalized :: normalized_certifications (normalized :: seen) l
  end.

Definition strip_scheme (m : SupplierListingMetadata) : SupplierListingMetadata :=
  m <| sm_certification_scheme := strip_or_none (sm_certification_scheme m) |>.
Definition validate_execution_qualifiers (p : OrderCreate) : OrderCreate :=
  p <| nc_certifications := normalized_certifications [] (nc_certifications p) |>
    <| nc_metadata := strip_scheme (nc_metadata p) |>.

Definition confirmation_valid (c : MarketSupportFinalConfirmation) : Prop :=
  (1 <= String.length (mf_external_instruction_reference c) <= 500)%nat
  ∧ strip (mf_external_instruction_reference c) = mf_external_instruction_reference c
  ∧ strip_or_none (mf_evidence_excerpt c) = mf_evidence_excerpt c
  ∧ mf_acknowledge_exact_terms c = true ∧ mf_acknowledge_executable_standing_order c = true.

(** [ge=0] on an unbounded decimal. *)
Definition metadata_valid (m : SupplierListingMetadata) : Prop :=
  match sm_carbon_intensity_gco2_mj m with Some c => 0 <= coef c | None => True end.

(** What the schema admits, validators included. *)
Definition order_create_valid (p : OrderCreate) : Prop :=
  amount_within (nc_quantity_mt p) 1 (cents 100000)
  ∧ amount_within (nc_price_per_mt_usd p) 1 (cents 1000000)
  ∧ JSON_SCHEMA_PATTERN (nc_availability_window p) = true
  ∧ normalized_certifications [] (nc_certifications p) = nc_certifications p
  ∧ strip_or_none (nc_certification_scheme p) = nc_certification_scheme p
  ∧ nc_is_anonymous p = true
  ∧ metadata_valid (nc_metadata p)
  ∧ match nc_support_confirmation p with Some c => confirmation_valid c | None => True end.

#[export] Instance amount_within_dec d lo hi : Decision (amount_within d lo hi).
Proof. unfold amount_within. apply _. Defined.
#[export] Instance order_create_valid_dec p : Decision (order_create_valid p).
Proof.
  unfold order_create_valid, metadata_valid, confirmation_valid.
  destruct (sm_carbon_intensity_gco2_mj _), (nc_support_confirmation p); apply _.
Defined.

(** ** What an ask must say, and a bid may not *)

Definition SUPPLIER_METADATA_FIELDS : list string :=
  ["certification_declared"; "certification_scheme"; "specification_standard"; "msds_available";
   "carbon_intensity_gco2_mj"; "carbon_intensity_method"; "feedstock"; "origin"; "off_spec"; "off_spec_notes"].
Definition EXECUTION_QUALIFIER_FIELDS : list string := ["certification_scheme"].
Definition ASK_ONLY_METADATA_FIELDS : list string :=
  filter (λ f, f ∉ EXECUTION_QUALIFIER_FIELDS) SUPPLIER_METADATA_FIELDS.

Definition text_le (a b : string) : Prop := String.leb a b = true.
#[export] Instance text_le_dec : RelDecision text_le.
Proof. intros a b. unfold text_le. apply _. Defined.

(** A set; [sorted(..)] is how it is printed. *)
Definition _ask_only_metadata_fields_present (fields_set : list string) : list string :=
  merge_sort text_le (filter (λ f, f ∈ fields_set) ASK_ONLY_METADATA_FIELDS).

Definition comma_separated (l : list string) : string :=
  match l with
  | [] => ""
  | s :: l => foldl (λ acc x, acc +:+ ", " +:+ x) s l
  end.

Definition _require_supplier_certification (certification_declared : bool)
    (certification_scheme : option string) : M World unit :=
  refuse (negb certification_declared)
    (HTTPException 400 (Msg "ASK orders require an explicit certification declaration")) ;;
  refuse (negb (text_given certification_scheme))
    (HTTPException 400 (Msg "ASK orders require a certification scheme")).

(** [not (value or '').strip()] *)
Definition blank_text (value : option string) : bool := bool_decide (strip (default "" value) = "").

Definition missing_metadata (specification_standard : option string) (msds_available : bool)
    (carbon_given : bool) (feedstock origin : option string) : list string :=
  (if blank_text specification_standard then ["specification_standard"] else [])
  ++ (if msds_available then [] else ["msds_available"])
  ++ (if carbon_given then [] else ["carbon_intensity_gco2_mj"])
  ++ (if blank_text feedstock then ["feedstock"] else [])
  ++ (if blank_text origin then ["origin"] else []).

Definition _require_supplier_metadata (specification_standard : option string) (msds_available : bool)
    (carbon_given : bool) (feedstock origin : option string) (product_id : uuid)
    (carbon_intensity_method : option string) : M World unit :=
  let missing := missing_metadata specification_standard msds_available carbon_given feedstock origin in
  refuse (negb (bool_decide (missing = [])))
    (HTTPException 400 (Fmt "ASK orders require supplier details: {}" [AStr (comma_separated missing)])) ;;
  match supplier_product_metadata_error product_id specification_standard carbon_intensity_method with
  | Some product_error => raise (HTTPException 400 (Msg product_error))
  | None => mret tt
  end.

(** The block of [create_order] on the metadata of either side. *)
Definition check_metadata (p : OrderCreate) (certification_scheme : option string) : M World unit :=
  let m := nc_metadata p in
  match nc_side p with
  | BID =>
      let supplied := _ask_only_metadata_fields_present (nc_fields_set p) in
      refuse (negb (bool_decide (supplied = [])))
        (HTTPException 400 (Fmt "Supplier metadata is only allowed for ASK orders: {}" [AStr (comma_separated supplied)]))
  | ASK =>
      _require_supplier_certification (sm_certification_declared m) certification_scheme ;;
      _require_supplier_metadata (sm_specification_standard m) (sm_msds_available m)
        (bool_decide (is_Some (sm_carbon_intensity_gco2_mj m))) (sm_feedstock m) (sm_origin m)
        (nc_product_id p) (sm_carbon_intensity_method m)
  end.

(** ** The minimum lot *)

(** [finite_decimal] of [schemas/market_integrity.py]: the model's decimals are finite. *)
Definition finite_decimal (value : decimal) (field_name : string) : res decimal :=
  if expo value <? -2 then Exc (ValueError (Fmt "{} supports at most {} decimal places" [AStr field_name; AInt 2]))
  else Val value.

(** [datetime.now(UTC).date()] *)
Definition utc_date (t : datetime) : date := fromordinal (t / MICROSECONDS_PER_DAY + EPOCH_ORDINAL).

Definition bad_request (message : string) : exn := HTTPException 400 (Msg message).

(** [raise HTTPException(.., detail=str(exc)) from exc] *)
Definition as_bad_request {A} (r : res A) : res A :=
  match r with
  | Exc (ValueError d) => Exc (HTTPException 400 d)
  | r => r
  end.

Definition minimum_unavailable : exn := HTTPException 409 (Msg "Product minimum lot is unavailable").
Definition lot_unit (product : Product) : string :=
  let unit := strip (match p_unit product with Some (String _ _ as unit) => unit | _ => "MT" end) in
  if bool_decide (unit = "") then "MT" else unit.

(** A catalog minimum is a [Numeric(12, 2)] value: always a decimal of scale two. *)
Definition require_minimum_order_quantity (quantity_mt : decimal) (product : Product) : M World decimal :=
  quantity ← lift (as_bad_request (finite_decimal quantity_mt "quantity_mt"));
  refuse (dleb quantity (of_int 0)) (HTTPException 400 (Msg "Order quantity must be positive")) ;;
  match p_min_lot_size product with
  | None => raise minimum_unavailable
  | Some minimum =>
      refuse (minimum <=? 0) minimum_unavailable ;;
      refuse (dltb quantity (of_cents minimum))
        (HTTPException 400 (Fmt "Order quantity must be at least {} {} for {}"
           [ADec minimum; AStr (lot_unit product); AStr (p_name product)])) ;;
      mret quantity
  end.

(** ** Columns, keys and digests *)

(** A decimal as a column of scale two holds it; the table's CHECK refuses one
    that has a third decimal place. *)
Definition column_cents (d : decimal) : option Z :=
  if -2 <=? expo d then Some (to_cents d)
  else if coef d mod 10 ^ (- 2 - expo d) =? 0 then Some (coef d / 10 ^ (- 2 - expo d))
  else None.

Definition next_order_acceptance_ordinal : M World Z := nextval.

Definition economic_order_idempotency_payload (p : OrderCreate) : jvalue :=
  VObj (filter (λ kv, kv.1 ≠ "support_confirmation") (nc_model_dump p)).

(** [utc(value).isoformat().replace("+00:00", "Z")]: no fraction when it is zero. *)
Definition isoformat_z (t : datetime) : string :=
  if t mod 1000000 =? 0 then String.substring 0 19 (utc_text t) +:+ "Z" else utc_text t.
(** [format(value.normalize(), "f")] *)
Definition canonical_decimal (d : decimal) : jvalue := VStr (format_f (dnormalize (fix_precision d))).

(** [_canonical_digest_value(economic_order_payload(order))] *)
Definition canonical_order_terms (p : OrderCreate) : list (string * jvalue) :=
  let m := nc_metadata p in
  [ ("certification_declared", VBool (sm_certification_declared m));
    ("certification_scheme", vopt VStr (sm_certification_scheme m));
    ("specification_standard", vopt VStr (sm_specification_standard m));
    ("msds_available", VBool (sm_msds_available m));
    ("carbon_intensity_gco2_mj", vopt canonical_decimal (sm_carbon_intensity_gco2_mj m));
    ("carbon_intensity_method", vopt VStr (sm_carbon_intensity_method m));
    ("feedstock", vopt VStr (sm_feedstock m)); ("origin", vopt VStr (sm_origin m));
    ("off_spec", VBool (sm_off_spec m)); ("off_spec_notes", vopt VStr (sm_off_spec_notes m));
    ("side", VStr (OrderSide_value (nc_side p))); ("product_id", uuid_value (nc_product_id p));
    ("delivery_point_id", uuid_value (nc_delivery_point_id p)); ("port_id", vopt VStr (nc_port_id p));
    ("vessel_id", vopt uuid_value (nc_vessel_id p)); ("quantity_mt", canonical_decimal (nc_quantity_mt p));
    ("price_per_mt_usd", canonical_decimal (nc_price_per_mt_usd p));
    ("availability_window", VStr (nc_availability_window p));
    ("certifications", VList (VStr <$> nc_certifications p));
    ("expires_at", vopt (VStr ∘ isoformat_z) (nc_expires_at p));
    ("is_anonymous", VBool (nc_is_anonymous p)) ].
Definition authorization_terms_digest (p : OrderCreate) : string :=
  sha256_hexdigest (dumps true (VObj (canonical_order_terms p))).

(** ** The answer *)

Record OrderResponse := MkOrderResponse {
  or_id : uuid;
  or_terms_digest : string;
  or_side : OrderSide;
  or_product_id : uuid;
  or_product_name : string;
  or_market_product : option string;
  or_fuel_type : string;
  or_fuel_grade : string;
  or_delivery_point_id : option uuid;
  or_delivery_point_name : option string;
  or_region : string;
  or_port_id : option string;
  or_quantity_mt : Z;
  or_remaining_quantity_mt : Z;
  or_price_per_mt_usd : Z;
  or_availability_window : string;
  or_certifications : list string;
  or_certification_declared : bool;
  or_certification_scheme : option string;
  or_specification_standard : option string;
  or_msds_available : bool;
  or_carbon_intensity_gco2_mj : option Z;
  or_carbon_intensity_method : option string;
  or_feedstock : option string;
  or_origin : option string;
  or_off_spec : bool;
  or_off_spec_notes : option string;
  or_is_verdaxis_verified : bool;
  or_status : OrderBookStatus;
  or_expires_at : option datetime;
  or_benchmark_price_per_mt_usd : option decimal;
  or_premium_discount_per_mt_usd : option decimal;
  or_benchmark_source : option string;
  or_is_crossed : bool;
  or_provenance : list (string * json);
}.

(** [app/services/benchmarks.py] *)
Definition compute_premium_discount (listing_price_per_mt_usd benchmark_price_per_mt_usd : decimal) : res decimal :=
  quantize (dsub listing_price_per_mt_usd benchmark_price_per_mt_usd) (-2) ROUND_HALF_EVEN.

Definition lower_side (s : OrderSide) : string := match s with BID => "bid" | ASK => "ask" end.

(** Benchmark, premium over it, and its source. *)
Definition _benchmark_payload (o : Order) : M World (option decimal * option decimal * option string) :=
  d ← get_db;
  benchmark_price ← get_live_slice_benchmark_price (o_side o) (order_market_product d o)
    (o_delivery_point_id o) (Some (o_availability_window o)) ∅ None;
  match benchmark_price with
  | None => mret (None, None, None)
  | Some price =>
      premium ← lift (compute_premium_discount (of_cents (o_price_per_mt_usd o)) price);
      mret (Some price, Some premium, Some ("live_slice_" +:+ lower_side (o_side o) +:+ "_vwap"))
  end.

(** [OrderResponse.model_validate(order)] reads the row, normalizes the window,
    which must then match the schema's pattern, and wants a list of certifications. *)
Definition _order_response (o : Order) : M World OrderResponse :=
  window ← lift (normalize_availability_window (o_availability_window o));
  refuse (negb (JSON_SCHEMA_PATTERN window)) (ValueError (Msg "availability_window")) ;;
  match o_certifications o with
  | None => raise (ValueError (Msg "certifications"))
  | Some certifications =>
      benchmark ← _benchmark_payload o;
      d ← get_db;
      mret {| or_id := o_id o; or_terms_digest := order_terms_digest o; or_side := o_side o;
        or_product_id := o_product_id o; or_product_name := order_product_name d o;
        or_market_product := order_market_product d o; or_fuel_type := order_fuel_type d o;
        or_fuel_grade := order_fuel_grade d o; or_delivery_point_id := o_delivery_point_id o;
        or_delivery_point_name := order_delivery_point_name d o; or_region := order_region d o;
        or_port_id := o_port_id o; or_quantity_mt := o_quantity_mt o;
        or_remaining_quantity_mt := o_remaining_quantity_mt o; or_price_per_mt_usd := o_price_per_mt_usd o;
        or_availability_window := window; or_certifications := certifications;
        or_certification_declared := o_certification_declared o;
        or_certification_scheme := o_certification_scheme o;
        or_specification_standard := o_specification_standard o; or_msds_available := o_msds_available o;
        or_carbon_intensity_gco2_mj := o_carbon_intensity_gco2_mj o;
        or_carbon_intensity_method := o_carbon_intensity_method o; or_feedstock := o_feedstock o;
        or_origin := o_origin o; or_off_spec := o_off_spec o; or_off_spec_notes := o_off_spec_notes o;
        or_is_verdaxis_verified := o_is_verdaxis_verified o; or_status := o_status o;
        or_expires_at := o_expires_at o; or_benchmark_price_per_mt_usd := benchmark.1.1;
        or_premium_discount_per_mt_usd := benchmark.1.2; or_benchmark_source := benchmark.2;
        or_is_crossed := false; or_provenance := order_market_provenance d o |}
  end.
