(* ===== verification/AutoMatch.v ===== *)
(** * What an automatic match leaves for others

    [app/services/auto_match_side_effects.py]: audit rows, watchlist events and
    market events of the trades an incoming or amended order has made. *)

From S2P Require Import Prelude Catalog Calendar AvailabilityWindows Decimal Schema Constraints Database Queries Policy Eligibility Events TradeViews Watchlist Lifecycle Orders.
Local Open Scope Z_scope.

(** [app/services/audit_actions.py] *)
Definition TRADE_AUTO_MATCHED : string := "trade.auto_matched".

Definition audit_auto_match (actor_user_id : option uuid) (t : Trade) : M World unit :=
  record_audit actor_user_id TRADE_AUTO_MATCHED "trade" (Some (t_id t))
    (JObj [ ("trade_id", JUuid (t_id t)); ("bid_order_id", jopt JUuid (t_bid_order_id t));
            ("ask_order_id", jopt JUuid (t_ask_order_id t)); ("quantity_mt", JDec (t_quantity_mt t));
            ("price_per_mt_usd", JDec (t_price_per_mt_usd t)); ("buyer_org_id", JUuid (t_buyer_id t));
            ("seller_org_id", JUuid (t_seller_id t)) ]).

(** The order on the other side of a trade. *)
Definition resting_id (triggering_order : Order) (t : Trade) : option uuid :=
  match o_side triggering_order with BID => t_ask_order_id t | ASK => t_bid_order_id t end.

Definition matched_quantity_by_resting_order (triggering_order : Order) (trades : list Trade) : gmap uuid Z :=
  foldl (λ m t, match resting_id triggering_order t with
                | Some id => <[ id := default 0 (m !! id) + t_quantity_mt t ]> m
                | None => m end) ∅ trades.

Definition emit_resting (matched : gmap uuid Z) (resting_order : Order) : M World unit :=
  let before_remaining := o_remaining_quantity_mt resting_order + default 0 (matched !! o_id resting_order) in
  let before_status := if before_remaining =? o_quantity_mt resting_order then OPEN else PARTIALLY_FILLED in
  emit_pin_updated
    (MkBeforeOrder (Some (o_price_per_mt_usd resting_order)) (Some before_remaining) (Some before_status) None)
    resting_order.

Definition auto_match_event (t : Trade) : res MarketEventEnvelope :=
  participant_market_event "trade_auto_matched" "trade" (t_id t) [t_buyer_id t; t_seller_id t]
    (trade_activity_provenance t
     ++ [ ("trade_id", JUuid (t_id t)); ("product_name", JStr (default "" (t_product_name t)));
          ("fuel_type", JStr (default "" (t_fuel_type t))); ("quantity", JDec (t_quantity_mt t));
          ("price", JDec (t_price_per_mt_usd t)); ("is_anonymous", JBool (t_is_anonymous t)) ]) false.

(** The organization of an order and those of its trades. *)
Definition participants (o : Order) (trades : list Trade) : list uuid :=
  o_organization_id o :: (t_buyer_id <$> trades) ++ (t_seller_id <$> trades).

Definition orders_matched_event (d : Database) (o : Order) (trades : list Trade) : res MarketEventEnvelope :=
  participant_market_event "orders_matched" "order" (o_id o) (participants o trades)
    (order_activity_provenance d o
     ++ [ ("order_id", JUuid (o_id o)); ("matches", JInt (Z.of_nat (length trades))) ]) false.

Definition collect_auto_match_side_effects (triggering_order : Order) (trades : list Trade)
    (actor_user_id : option uuid) (resting_side_previous_best_price : option Z)
    : M World (list MarketEventEnvelope) :=
  match trades with
  | [] => mret []
  | _ =>
      iterM (audit_auto_match actor_user_id) trades ;;
      let matched := matched_quantity_by_resting_order triggering_order trades in
      d ← get_db;
      let resting_orders := orders_by_id d (λ o, bool_decide (o_id o ∈ dom matched)) in
      iterM (emit_resting matched) resting_orders ;;
      match resting_orders with
      | representative :: _ =>
          emit_slice_state_changed (order_market_product d representative) (o_delivery_point_id representative)
            (Some (o_availability_window representative)) (o_side representative)
            resting_side_previous_best_price (Some (o_id representative)) (Some representative)
      | [] => mret tt
      end ;;
      events ← mapM (λ t, lift (auto_match_event t)) trades;
      matched_event ← lift (orders_matched_event d triggering_order trades);
      mret (events ++ [matched_event])
  end.

(** ** Facts *)

Lemma only_events_audit_auto_match u t : Keeps only_events (audit_auto_match u t).
Proof. apply only_events_record_audit. Qed.
Lemma only_events_emit_resting m o : Keeps only_events (emit_resting m o).
Proof. unfold emit_resting. cbv zeta. eauto with keeps. Qed.
#[export] Hint Resolve only_events_audit_auto_match only_events_emit_resting : keeps.
Lemma only_events_auto_match o ts u b : Keeps only_events (collect_auto_match_side_effects o ts u b).
Proof. unfold collect_auto_match_side_effects. keeps. Qed.
#[export] Hint Resolve only_events_auto_match : keeps.

(** Each resting order is credited with exactly what its trades took. *)
Definition taken_of (o : Order) (id : uuid) (ts : list Trade) : Z :=
  foldr (λ t acc, (if bool_decide (resting_id o t = Some id) then t_quantity_mt t else 0) + acc) 0 ts.
Lemma matched_quantity_spec o ts id :
  default 0 (matched_quantity_by_resting_order o ts !! id) = taken_of o id ts.
Proof.
  unfold matched_quantity_by_resting_order.
  cut (∀ m : gmap uuid Z, default 0 (foldl (λ m t, match resting_id o t with
         | Some id => <[ id := default 0 (m !! id) + t_quantity_mt t ]> m | None => m end) m ts !! id)
       = default 0 (m !! id) + taken_of o id ts).
  { intros H. rewrite H, lookup_empty. done. }
  induction ts as [|t ts IH]; intros m; cbn [foldl taken_of foldr]; [by rewrite Z.add_0_r|].
  rewrite IH. fold (taken_of o id ts). destruct (resting_id o t) as [j|]; [|by rewrite bool_decide_eq_false_2].
  destruct (decide (j = id)) as [->|Hne].
  - rewrite lookup_insert_eq, bool_decide_eq_true_2 by done. cbn. lia.
  - rewrite lookup_insert_ne, bool_decide_eq_false_2 by congruence. lia.
Qed.
