(* ===== verification/OrderCreation.v ===== *)
(** * Placing an order

    [app/routers/orderbook.py], [create_order]: a bid or an ask enters the book,
    placed by its owner or, post-only, by Market Support for a customer.  One
    transaction: party, key and replay, guards, slice lock, acceptance ordinal,
    party locks, guards again, the support authorization, the row, match on
    insert, benchmarks, events, response, commit.

    [date.today()] is the UTC date (the process runs in UTC).  Analytics and the
    audit's request context are not modelled; foreign keys of the vessel column
    are not checked. *)

From S2P Require Import Prelude Sha256 Catalog Calendar AvailabilityWindows Decimal Json Schema OrderTerms Constraints Delivery Database Scenario Queries Policy Eligibility Events Commands TradeViews Watchlist Benchmarks Inventory Ledger Admission RequestParty Trades Orders Lifecycle Matching PostOnly OrderEntry AutoMatch.
Local Open Scope Z_scope.

(** [app/services/audit_actions.py] *)
Definition ORDER_CREATED : string := "order.created".
Definition MARKET_SUPPORT_AUTHORIZATION_CREATED : string := "market_support.authorization_created".

Definition is_support (party : RequestParty) : bool := bool_decide (rp_mode party = MARKET_SUPPORT_MODE).

(** ** Who asks, and whether the request was answered before *)

Definition admit_request (p : OrderCreate) (party : RequestParty) (current_user : User) : M World unit :=
  if is_support party then
    refuse (negb (bool_decide (is_Some (nc_support_confirmation p))))
      (bad_request "Final assisted-order confirmation is required")
  else
    refuse (bool_decide (is_Some (nc_support_confirmation p)))
      (bad_request "Assisted-order confirmation requires an active assisted workspace") ;;
    require_execution_eligible_user current_user.

Definition create_payload (p : OrderCreate) (party : RequestParty) : jvalue :=
  if is_support party then
    VObj ([("order", economic_order_idempotency_payload p)]
          ++ match nc_support_confirmation p with
             | Some c => [("support_confirmation", mf_model_dump c)]
             | None => []
             end)
  else economic_order_idempotency_payload p.

(** An empty header is no key, but stays on the row. *)
Definition order_key (raw_key : option string) (p : OrderCreate) (party : RequestParty) : res CreateKey :=
  match raw_key with
  | None | Some "" =>
      if is_support party then Exc (bad_request "Assisted orders require Idempotency-Key")
      else Val (MkCreateKey raw_key None)
  | Some raw =>
      key ← normalize_idempotency_key raw;
      Val (MkCreateKey (Some key) (Some (idempotency_request_hash (create_payload p party))))
  end.

(** The order a key already created. *)
Definition existing_order (d : Database) (organization_id : uuid) (key : string) : option Order :=
  head (filter (λ o, o_organization_id o = organization_id
                     ∧ o_idempotency_operation o = Some ORDER_CREATE_OPERATION
                     ∧ o_idempotency_key o = Some key)
               (snd <$> map_to_list (orders d))).

Definition _replay_belongs_to_party (d : Database) (o : Order) (party : RequestParty) : bool :=
  bool_decide (o_creation_method o = rp_creation_method party)
  && match o_owner_user_id o with
     | Some owner => bool_decide (owner = u_id (rp_accountable_principal party))
     | None => negb (is_support party)
     end
  && match o_created_by_actor_user_id o with
     | Some actor => bool_decide (actor = u_id (rp_actor party))
     | None => true
     end
  && (negb (is_support party)
      || match a ← o_support_authorization_id o; support_authorizations d !! a with
         | Some authorization =>
             bool_decide (sa_accountable_user_id authorization = u_id (rp_accountable_principal party))
             && bool_decide (sa_market_support_context_id authorization = rp_support_context_id party)
         | None => false
         end).

Definition _load_valid_order_create_replay (organization_id : uuid) (key : string)
    (request_hash : option string) (party : RequestParty) : M World (option Order) :=
  d ← get_db;
  match existing_order d organization_id key with
  | None => mret None
  | Some o =>
      refuse (bool_decide (o_idempotency_request_hash o ≠ request_hash))
        (HTTPException 409 (Msg "Idempotency-Key was reused with a different request")) ;;
      refuse (negb (_replay_belongs_to_party d o party))
        (HTTPException 409 (Msg "Idempotency-Key is bound to another request party")) ;;
      mret (Some o)
  end.

(** The answer to a key that has created an order already. *)
Definition answered_before (k : CreateKey) (organization_id : uuid) (party : RequestParty)
    : M World (option OrderResponse) :=
  match given_key k with
  | None => mret None
  | Some key =>
      replay ← _load_valid_order_create_replay organization_id key (ck_request_hash k) party;
      match replay with
      | Some o => response ← _order_response o; mret (Some response)
      | None => mret None
      end
  end.

Definition replay_created (k : CreateKey) (organization_id : uuid) (party : RequestParty)
    : M World (option OrderResponse) :=
  match given_key k with
  | Some key => acquire_idempotency_lock organization_id ORDER_CREATE_OPERATION key
  | None => mret tt
  end ;;
  answered_before k organization_id party.

(** ** The guards before the locks *)

Definition check_role (p : OrderCreate) (party : RequestParty) : M World unit :=
  refuse (negb (is_support party) && bool_decide (nc_side p = BID)
          && bool_decide (rp_effective_role party ≠ Some BUYER))
    (HTTPException 403 (Msg "Only buyers can place BID orders")) ;;
  refuse (negb (is_support party) && bool_decide (nc_side p = ASK)
          && bool_decide (rp_effective_role party ≠ Some SUPPLIER))
    (HTTPException 403 (Msg "Only suppliers can place ASK orders")).

Definition check_window (p : OrderCreate) : M World unit :=
  now ← utcnow;
  tradable ← lift (is_tradable_availability_window (nc_availability_window p) (utc_date now) FORWARD_QUARTER_COUNT);
  refuse (negb tradable) (bad_request "Availability window is no longer open for new orders").

(** The product is active and canonical, and so is the delivery point. *)
Definition check_catalog (p : OrderCreate) : M World Product :=
  d ← get_db;
  match products d !! nc_product_id p with
  | Some product =>
      refuse (negb (p_is_active product) || bool_decide (canonical_market_product_expression product = None))
        (bad_request "Invalid product_id") ;;
      refuse (match delivery_points d !! nc_delivery_point_id p with
              | Some dp => negb (canonical_delivery_point_clause dp)
              | None => true
              end) (bad_request "Invalid delivery_point_id") ;;
      mret product
  | None => raise (bad_request "Invalid product_id")
  end.

(** ** Under the locks *)

(** Slice, ordinal, support context, organization; a self-service principal
    must still be an admitted member of it. *)
Definition lock_listing_party (p : OrderCreate) (party : RequestParty) (organization_id : uuid)
    : M World (Z * Organization) :=
  acquire_market_slice_lock (nc_product_id p) (Some (nc_delivery_point_id p)) (nc_availability_window p) ;;
  ordinal ← next_order_acceptance_ordinal;
  lock_request_party_context party ;;
  organizations ← lock_and_load_market_organizations [organization_id]
    (if is_support party then []
     else [MkMarketActorOwnership (u_id (rp_accountable_principal party)) organization_id]) true [];
  match organizations !! organization_id with
  | Some organization => mret (ordinal, organization)
  | None => raise KeyError
  end.

Definition check_order_expiry (expires_at : option datetime) : M World unit :=
  match expires_at with
  | Some e => now ← utcnow; refuse (e <=? now) (bad_request "Order expiry must be in the future")
  | None => mret tt
  end.

(** The row; an ask takes its metadata from the body, the scheme as it stands
    there, a bid only its normalized scheme. *)
Definition new_order (d : Database) (p : OrderCreate) (party : RequestParty) (k : CreateKey) (ordinal : Z)
    (organization : Organization) (organization_id : uuid) : Order :=
  let m := nc_metadata p in
  let is_ask := bool_decide (nc_side p = ASK) in
  let ask {A} (x default : A) := if is_ask then x else default in
  {| o_id := fresh_id (orders d); o_acceptance_ordinal := ordinal;
     o_organization_id := organization_id;
     o_owner_user_id := Some (u_id (rp_accountable_principal party));
     o_created_by_actor_user_id := Some (u_id (rp_actor party));
     o_creation_method := rp_creation_method party;
     o_support_authorization_id := None; o_version := 1; o_inventory_item_id := None;
     o_provenance := snapshot_organization_provenance (Some organization);
     o_side := nc_side p; o_product_id := nc_product_id p;
     o_delivery_point_id := Some (nc_delivery_point_id p);
     o_port_id := nc_port_id p; o_vessel_id := nc_vessel_id p;
     o_quantity_mt := to_cents (nc_quantity_mt p);
     o_remaining_quantity_mt := to_cents (nc_quantity_mt p);
     o_price_per_mt_usd := to_cents (nc_price_per_mt_usd p);
     o_availability_window := nc_availability_window p;
     o_delivery_window_start := None; o_delivery_window_end := None;
     o_certifications := Some (nc_certifications p);
     o_certification_declared := ask (sm_certification_declared m) false;
     o_certification_scheme :=
       ask (sm_certification_scheme m) (normalize_certification_scheme (nc_certification_scheme p));
     o_specification_standard := ask (sm_specification_standard m) None;
     o_msds_available := ask (sm_msds_available m) false;
     o_is_verdaxis_verified := false;
     o_carbon_intensity_gco2_mj := ask (sm_carbon_intensity_gco2_mj m ≫= column_cents) None;
     o_carbon_intensity_method := ask (sm_carbon_intensity_method m) None;
     o_energy_density_mj_kg := None;
     o_feedstock := ask (sm_feedstock m) None; o_origin := ask (sm_origin m) None;
     o_off_spec := ask (sm_off_spec m) false; o_off_spec_notes := ask (sm_off_spec_notes m) None;
     o_status := OPEN; o_expires_at := nc_expires_at p;
     o_idempotency_key := ck_idempotency_key k;
     o_idempotency_operation := (λ _, ORDER_CREATE_OPERATION) <$> given_key k;
     o_idempotency_request_hash := given_key k ≫= λ _, ck_request_hash k |}.

(** ** Market Support: post-only, under an authorization of its own *)

Definition would_cross (best_executable_price : option Z) : exn :=
  HTTPException 409 (CodedWith "POST_ONLY_WOULD_CROSS"
    "Assisted order entry is post-only and must rest without immediate execution"
    [("best_executable_opposing_price", match best_executable_price with Some x => ADec x | None => ANone end)]).

(** The instruction precedes the order, which uses the catalog's place only. *)
Definition check_instruction (p : OrderCreate) (c : MarketSupportFinalConfirmation) : M World unit :=
  now ← utcnow;
  refuse (bool_decide (is_Some (nc_port_id p)) || bool_decide (is_Some (nc_vessel_id p)))
    (bad_request "Assisted orders use the canonical delivery point only") ;;
  refuse (now <? mf_instruction_at c)
    (HTTPException 400 (Coded "MARKET_SUPPORT_INSTRUCTION_TIME_INVALID" "Instruction time cannot be in the future")) ;;
  refuse (match nc_expires_at p with Some e => e <=? mf_instruction_at c | None => false end)
    (bad_request "Order expiry must follow the instruction time").

Definition load_support_context (party : RequestParty) : M World MarketSupportContext :=
  match rp_support_context_id party with
  | None => raise NoResultFound
  | Some id =>
      take_lock (RowSupportContext id) ;;
      d ← get_db;
      match support_contexts d !! id with Some x => mret x | None => raise NoResultFound end
  end.

Definition require_resting (o : Order) (organization : Organization) : M World unit :=
  assessment ← assess_locked_order o organization;
  refuse (pa_indeterminate assessment)
    (HTTPException 409 (Coded "POST_ONLY_CHECK_INDETERMINATE"
       "The complete crossing set could not be assessed; retry later")) ;;
  refuse (pa_would_cross assessment) (would_cross (pa_best_executable_price assessment)).

Definition authorization_expiry (context : MarketSupportContext) (expires_at : option datetime) : datetime :=
  match expires_at with Some e => Z.min (sx_expires_at context) e | None => sx_expires_at context end.

(** The authorization as it is first flushed.  A carbon intensity that the order's
    column refuses is left out: the order is refused with it. *)
Definition support_authorization (d : Database) (configuration : Settings) (p : OrderCreate)
    (c : MarketSupportFinalConfirmation) (party : RequestParty) (k : CreateKey)
    (context : MarketSupportContext) (o : Order) : MarketSupportAuthorization :=
  let m := nc_metadata p in
  {| sa_id := fresh_id (support_authorizations d);
     sa_organization_id := o_organization_id o;
     sa_accountable_user_id := u_id (rp_accountable_principal party);
     sa_market_support_context_id := rp_support_context_id party;
     sa_status := AUTHORIZATION_ACTIVE;
     sa_product_id := o_product_id o; sa_delivery_point_id := nc_delivery_point_id p;
     sa_availability_window := o_availability_window o;
     sa_quantity_mt := o_quantity_mt o; sa_price_per_mt_usd := o_price_per_mt_usd o;
     sa_order_side := o_side o;
     sa_authorization_expires_at := authorization_expiry context (nc_expires_at p);
     sa_order_expires_at := nc_expires_at p; sa_is_anonymous := nc_is_anonymous p;
     sa_certifications := nc_certifications p;
     sa_certification_declared := sm_certification_declared m;
     sa_certification_scheme := normalize_certification_scheme (nc_certification_scheme p);
     sa_specification_standard := sm_specification_standard m; sa_msds_available := sm_msds_available m;
     sa_carbon_intensity_gco2_mj := sm_carbon_intensity_gco2_mj m ≫= column_cents;
     sa_carbon_intensity_method := sm_carbon_intensity_method m;
     sa_feedstock := sm_feedstock m; sa_origin := sm_origin m;
     sa_off_spec := sm_off_spec m; sa_off_spec_notes := sm_off_spec_notes m;
     sa_terms_digest := authorization_terms_digest p;
     sa_evidence_reference := mf_external_instruction_reference c;
     sa_evidence_sha256 := if text_given (mf_evidence_excerpt c)
                           then sha256_hexdigest <$> mf_evidence_excerpt c else None;
     sa_commercial_consent_version := MARKET_SUPPORT_CONSENT_VERSION configuration;
     sa_commercial_consent_reference := MARKET_SUPPORT_CONSENT_REFERENCE configuration;
     sa_support_case_reference := rp_support_reference party;
     sa_instruction_at := Some (mf_instruction_at c);
     sa_acknowledge_exact_terms := Some (mf_acknowledge_exact_terms c);
     sa_acknowledge_executable_standing_order := Some (mf_acknowledge_executable_standing_order c);
     sa_idempotency_key := default "" (ck_idempotency_key k);
     sa_idempotency_request_hash :=
       default (idempotency_request_hash (economic_order_idempotency_payload p)) (ck_request_hash k);
     sa_created_by_actor_user_id := u_id (rp_actor party);
     sa_consumed_at := None |}.

Definition consumed (a : MarketSupportAuthorization) (now : datetime) : MarketSupportAuthorization :=
  a <| sa_status := AUTHORIZATION_CONSUMED |> <| sa_consumed_at := Some now |>.

Definition audit_authorization (a : MarketSupportAuthorization) (party : RequestParty) : M World unit :=
  record_audit (Some (u_id (rp_actor party))) MARKET_SUPPORT_AUTHORIZATION_CREATED "market_support_authorization"
    (Some (sa_id a))
    (JObj [ ("organization_id", JUuid (sa_organization_id a));
            ("accountable_user_id", JUuid (sa_accountable_user_id a));
            ("support_context_id", jopt JUuid (rp_support_context_id party));
            ("terms_digest", JStr (sa_terms_digest a));
            ("evidence_reference", JStr (sa_evidence_reference a));
            ("instruction_at", jopt JTime (sa_instruction_at a));
            ("acknowledge_exact_terms", jopt JBool (sa_acknowledge_exact_terms a));
            ("acknowledge_executable_standing_order", jopt JBool (sa_acknowledge_executable_standing_order a));
            ("commercial_consent_version", JStr (sa_commercial_consent_version a));
            ("status", JStr (MarketSupportAuthorizationStatus_value (sa_status a))) ]).

(** The order, bound to the authorization that is created and consumed for it. *)
Definition authorize_listing (p : OrderCreate) (party : RequestParty) (k : CreateKey)
    (organization : Organization) (o : Order) : M World Order :=
  if negb (is_support party) then mret o
  else match nc_support_confirmation p with
  | None => raise (bad_request "Assisted orders require final confirmation")
  | Some c =>
      check_instruction p c ;;
      context ← load_support_context party;
      require_resting o organization ;;
      d ← get_db;
      configuration ← gets settings;
      let a := support_authorization d configuration p c party k context o in
      put_support_authorization a ;;
      flush ;;
      consumed_at ← utcnow;
      let a := consumed a consumed_at in
      put_support_authorization a ;;
      audit_authorization a party ;;
      mret (o <| o_support_authorization_id := Some (sa_id a) |>)
  end.

(** ** The insert, and what follows it *)

(** The carbon intensity has a third decimal place that the CHECK refuses. *)
Definition carbon_storable (p : OrderCreate) : bool :=
  bool_decide (nc_side p = BID)
  || match sm_carbon_intensity_gco2_mj (nc_metadata p) with
     | Some c => bool_decide (is_Some (column_cents c))
     | None => true
     end.

(** A concurrent request with the same key has committed first. *)
Definition resolve_order_winner (k : CreateKey) (organization_id : uuid) (party : RequestParty) (e : exn)
    : M World (option OrderResponse) :=
  rollback ;;
  winner ← answered_before k organization_id party;
  match winner with
  | Some response => mret (Some response)
  | None => raise e
  end.

Definition insert_order (p : OrderCreate) (o : Order) : M World unit :=
  put_order o ;;
  refuse (negb (carbon_storable p)) (IntegrityError "ck_orderbook_orders_numeric_values") ;;
  flush.

Definition audit_listing (o : Order) (party : RequestParty) : M World unit :=
  d ← get_db;
  record_audit (Some (u_id (rp_actor party))) ORDER_CREATED "order" (Some (o_id o))
    (JObj [ ("side", JStr (OrderSide_value (o_side o))); ("product_id", JUuid (o_product_id o));
            ("market_product", jopt JStr (order_market_product d o));
            ("delivery_point_id", jopt JUuid (o_delivery_point_id o));
            ("availability_window", JStr (o_availability_window o));
            ("quantity_mt", JDec (o_quantity_mt o)); ("price_per_mt_usd", JDec (o_price_per_mt_usd o));
            ("status", JStr (OrderBookStatus_value (o_status o)));
            ("actor_user_id", JUuid (u_id (rp_actor party)));
            ("effective_organization_id", JUuid (o_organization_id o));
            ("accountable_user_id", JUuid (u_id (rp_accountable_principal party)));
            ("support_context_id", jopt JUuid (rp_support_context_id party));
            ("creation_method", JStr (OrderCreationMethod_value (o_creation_method o))) ]).

Definition notify_listing (o : Order) (party : RequestParty) : M World unit :=
  if is_support party then
    notify_org_users_batched
      [ MkOrgNotification (o_organization_id o) NT_ORDER_UPDATE "Listing set up by Verdaxis Support"
          (Msg "Verdaxis Support published an authorized listing for your organization.")
          (Some (JObj [ ("order_id", JUuid (o_id o));
                        ("creation_method", JStr (OrderCreationMethod_value MARKET_SUPPORT)) ])) ]
  else mret tt.

(** Match on insert; an assisted order rests. *)
Definition match_listing (p : OrderCreate) (party : RequestParty) (o : Order) : M World (list Trade) :=
  configuration ← gets settings;
  if AUTO_MATCHING_ENABLED configuration && negb (is_support party)
  then match_order o (nc_is_anonymous p) None else mret [].

(** The row as the session has it now; [db.refresh] raises without one. *)
Definition load_order (id : uuid) : M World Order :=
  d ← get_db;
  match orders d !! id with
  | Some o => mret o
  | None => raise (RuntimeError (Msg "order is not persistent within this session"))
  end.

Definition public_market_changed (o : Order) (trades : list Trade) : M World bool :=
  visible ← public_order_is_visible (o_id o) None;
  others ← mapM (λ t, public_trade_is_visible (t_id t)) (if visible then [] else trades);
  mret (visible || existsb id others).

Definition order_created_event (d : Database) (o : Order) (trades : list Trade) (changed : bool)
    : res MarketEventEnvelope :=
  participant_market_event "order_created" "order" (o_id o) (participants o trades)
    (order_activity_provenance d o
     ++ [ ("id", JUuid (o_id o)); ("side", JStr (OrderSide_value (o_side o)));
          ("product_name", JStr (order_product_name d o)); ("fuel_type", JStr (order_fuel_type d o));
          ("region", JStr (order_region d o)); ("price", JDec (o_price_per_mt_usd o));
          ("quantity", JDec (o_remaining_quantity_mt o)) ]) changed.

(** The best prices of both sides before the insert. *)
Record PreviousBest := MkPreviousBest {
  pb_own_side : option Z;
  pb_resting_side : option Z;
}.

Definition previous_best_prices (o : Order) : M World PreviousBest :=
  d ← get_db;
  own ← _best_slice_price (order_market_product d o) (o_delivery_point_id o) (Some (o_availability_window o)) (o_side o);
  resting ← _best_slice_price (order_market_product d o) (o_delivery_point_id o) (Some (o_availability_window o))
    (opposite (o_side o));
  mret (MkPreviousBest own resting).

(** Benchmarks of both sides, watchlists and events of the matched order. *)
Definition publish_listing (o : Order) (product : Product) (trades : list Trade) (party : RequestParty)
    (before : PreviousBest) : M World unit :=
  rebuild_live_slice_benchmarks_for_keys
    [ Some (o_side o, p_market_product product, o_delivery_point_id o, Some (o_availability_window o));
      Some (opposite (o_side o), p_market_product product, o_delivery_point_id o, Some (o_availability_window o)) ] ;;
  o ← load_order (o_id o);
  emit_order_created o (pb_own_side before) ;;
  matched ← collect_auto_match_side_effects o trades (Some (u_id (rp_actor party))) (pb_resting_side before);
  flush ;;
  changed ← public_market_changed o trades;
  d ← get_db;
  created ← lift (order_created_event d o trades changed);
  enqueue_market_events (matched ++ [created]).

(** From the inserted row to the committed response. *)
Definition finish_listing (p : OrderCreate) (o : Order) (product : Product) (party : RequestParty)
    (k : CreateKey) (organization_id : uuid) (before : PreviousBest) : M World OrderResponse :=
  audit_listing o party ;;
  notify_listing o party ;;
  trades ← match_listing p party o;
  publish_listing o product trades party before ;;
  listed ← load_order (o_id o);
  response ← _order_response listed;
  winner ← catch_integrity (commit ;; mret None) (resolve_order_winner k organization_id party);
  mret (default response winner).

(** Every guard and lock, then the insert. *)
Definition place_order (p : OrderCreate) (k : CreateKey) (party : RequestParty) (organization_id : uuid)
    : M World OrderResponse :=
  check_role p party ;;
  check_window p ;;
  check_metadata p (normalize_certification_scheme (nc_certification_scheme p)) ;;
  product ← check_catalog p;
  locked ← lock_listing_party p party organization_id;
  require_minimum_order_quantity (nc_quantity_mt p) product ;;
  check_order_expiry (nc_expires_at p) ;;
  d ← get_db;
  o ← authorize_listing p party k locked.2 (new_order d p party k locked.1 locked.2 organization_id);
  before ← previous_best_prices o;
  winner ← catch_integrity (insert_order p o ;; mret None) (resolve_order_winner k organization_id party);
  match winner with
  | Some response => mret response
  | None => finish_listing p o product party k organization_id before
  end.

(** [POST /orderbook] *)
Definition create_order (p : OrderCreate) (raw_context raw_key : option string) (current_user : User)
    : M World OrderResponse :=
  party ← resolve_request_party raw_context current_user;
  admit_request p party current_user ;;
  match effective_organization_of (Some party) current_user with
  | None => raise (bad_request "User must belong to an organization")
  | Some organization_id =>
      k ← lift (order_key raw_key p party);
      replay ← replay_created k organization_id party;
      match replay with
      | Some response => mret response
      | None => place_order p k party organization_id
      end
  end.

(** ** On the demo market *)

Definition no_metadata : SupplierListingMetadata :=
  MkSupplierListingMetadata false None None false None None None None false None.
(** 500 t of Bio Methanol at Rotterdam, spot, at up to 620 USD/t. *)
Definition demo_bid : OrderCreate :=
  MkOrderCreate BID (p_id Demo.methanol) (d_id Demo.rotterdam) None None (of_int 500) (of_int 620) "SPOT" []
    no_metadata None true None ["side"; "product_id"] [("side", VStr "BID")].
Definition demo_metadata : SupplierListingMetadata :=
  MkSupplierListingMetadata true (Some "ISCC EU") (Some "IMPCA") true (Some (of_cents 1500)) (Some "RED II")
    (Some "Manure") (Some "NL") false None.
(** 300 t that Market Support lists for the refinery, instructed an hour ago. *)
Definition demo_confirmation : MarketSupportFinalConfirmation :=
  MkMarketSupportFinalConfirmation "Call of 1 August" (Demo.noon - 3600000000) (Some "sell 300 t") true true
    (VObj [("external_instruction_reference", VStr "Call of 1 August")]).
Definition demo_listing : OrderCreate :=
  MkOrderCreate ASK (p_id Demo.methanol) (d_id Demo.rotterdam) None None (of_int 300) (of_int 600) "SPOT" ["ISCC EU"]
    demo_metadata (Some (Demo.noon + 86400000000)) true (Some demo_confirmation) ["side"; "product_id"] [("side", VStr "ASK")].

Definition listed_rows (o : outcome World OrderResponse) : option (list (OrderSide * Z * OrderBookStatus)) :=
  match o with
  | Ok _ w => Some ((λ o, (o_side o, o_remaining_quantity_mt o, o_status o)) <$> (snd <$> map_to_list (orders (committed w))))
  | Raise _ _ => None
  end.
Definition raised {A} (o : outcome World A) : option exn :=
  match o with Ok _ _ => None | Raise e _ => Some e end.

Example create_matches :
  listed_rows (create_order demo_bid None (Some "k1") Demo.buyer unplaced)
  = Some [(ASK, 20000, PARTIALLY_FILLED); (ASK, 0, FILLED); (BID, 0, FILLED)].
Proof. vm_compute. reflexivity. Qed.
