(* ===== verification/OrderCreationSafety.v ===== *)
(** * What placing an order guarantees

    [create_order] run forward: a request is answered with the order an earlier
    request with its key has placed, or places one new order for somebody
    entitled to it and matches it exactly as planned, or fails and leaves
    nothing behind but the closing of a support context that has run out. *)

From S2P Require Import Prelude Sha256 Catalog Calendar AvailabilityWindows Decimal Json Schema OrderTerms Constraints Delivery Database Scenario Queries Policy Eligibility Events Commands TradeViews Watchlist Benchmarks Inventory Ledger TradeLedger Admission RequestParty Trades Orders TradeSteps TradesSafety OrdersSafety Lifecycle Matching MatchingSpec MatchingSafety PostOnly OrderEntry AutoMatch OrderCreation.
Local Open Scope Z_scope.

(** ** Frames *)

Lemma reads_benchmark_price s p dp win c t : Keeps reads (get_live_slice_benchmark_price s p dp win c t).
Proof. unfold get_live_slice_benchmark_price, get_live_slice_benchmark_prices. keeps. Qed.
#[export] Hint Resolve reads_benchmark_price : keeps.
Lemma reads_order_response o : Keeps reads (_order_response o).
Proof. unfold _order_response, _benchmark_payload. keeps. Qed.
#[export] Hint Resolve reads_order_response : keeps.
Lemma reads_load_replay org key h party : Keeps reads (_load_valid_order_create_replay org key h party).
Proof. unfold _load_valid_order_create_replay. keeps. Qed.
#[export] Hint Resolve reads_load_replay : keeps.
Lemma reads_answered_before k org party : Keeps reads (answered_before k org party).
Proof. unfold answered_before. keeps. Qed.
#[export] Hint Resolve reads_answered_before : keeps.
Lemma reads_replay_created k org party : Keeps reads (replay_created k org party).
Proof. unfold replay_created. keeps. Qed.
Lemma reads_admit_request p party u : Keeps reads (admit_request p party u).
Proof. unfold admit_request. keeps. Qed.
Lemma reads_check_role p party : Keeps reads (check_role p party).
Proof. unfold check_role. keeps. Qed.
Lemma reads_check_window p : Keeps reads (check_window p).
Proof. unfold check_window. keeps. Qed.
Lemma reads_check_metadata p s : Keeps reads (check_metadata p s).
Proof. unfold check_metadata, _require_supplier_certification, _require_supplier_metadata. keeps. Qed.
Lemma reads_check_catalog p : Keeps reads (check_catalog p).
Proof. unfold check_catalog. keeps. Qed.
Lemma reads_minimum q product : Keeps reads (require_minimum_order_quantity q product).
Proof. unfold require_minimum_order_quantity. keeps. Qed.
Lemma reads_check_expiry e : Keeps reads (check_order_expiry e).
Proof. unfold check_order_expiry. keeps. Qed.
Lemma reads_check_instruction p c : Keeps reads (check_instruction p c).
Proof. unfold check_instruction. keeps. Qed.
Lemma reads_load_context party : Keeps reads (load_support_context party).
Proof. unfold load_support_context. keeps. Qed.
#[export] Hint Resolve reads_assess : keeps.
Lemma reads_require_resting o g : Keeps reads (require_resting o g).
Proof. unfold require_resting. keeps. Qed.
Lemma reads_previous_best o : Keeps reads (previous_best_prices o).
Proof. unfold previous_best_prices. keeps. Qed.
Lemma reads_load_order id : Keeps reads (load_order id).
Proof. unfold load_order. keeps. Qed.
Lemma reads_public_changed o ts : Keeps reads (public_market_changed o ts).
Proof. unfold public_market_changed. keeps. Qed.
#[export] Hint Resolve reads_replay_created reads_admit_request reads_check_role reads_check_window
  reads_check_metadata reads_check_catalog reads_minimum reads_check_expiry reads_check_instruction
  reads_load_context reads_require_resting reads_previous_best reads_load_order reads_public_changed : keeps.

Lemma only_events_audit_authorization a party : Keeps only_events (audit_authorization a party).
Proof. apply only_events_record_audit. Qed.
Lemma only_events_audit_listing o party : Keeps only_events (audit_listing o party).
Proof. unfold audit_listing. keeps. Qed.
Lemma only_events_notify_listing o party : Keeps only_events (notify_listing o party).
Proof. unfold notify_listing. keeps. Qed.
#[export] Hint Resolve only_events_audit_authorization only_events_audit_listing only_events_notify_listing : keeps.
Lemma only_events_publish o product ts party before : Keeps only_events (publish_listing o product ts party before).
Proof. unfold publish_listing. keeps. Qed.
#[export] Hint Resolve only_events_publish : keeps.

Lemma keeps_only_events_uncommitted {A} (m : M World A) : Keeps only_events m → Keeps uncommitted m.
Proof. intros H w'. apply H. Qed.
Lemma keeps_only_events_unmoved {A} (m : M World A) : Keeps only_events m → Keeps unmoved m.
Proof. intros H w'. split; apply H. Qed.

(** ** A new row of the book *)

(** Trades refer to orders of the table (the foreign keys): a bid and an ask. *)
Definition linked_to (d : Database) (s : OrderSide) (id : option uuid) : Prop :=
  match id with
  | Some id => match orders d !! id with Some o => o_side o = s | None => False end
  | None => True
  end.
#[export] Instance linked_to_dec d s id : Decision (linked_to d s id).
Proof. unfold linked_to. destruct id as [id|]; [|apply _]. destruct (orders d !! id); apply _. Defined.
Definition trades_linked (d : Database) : Prop :=
  map_Forall (λ _ t, linked_to d BID (t_bid_order_id t) ∧ linked_to d ASK (t_ask_order_id t)) (trades d).
#[export] Instance trades_linked_dec d : Decision (trades_linked d).
Proof. unfold trades_linked. apply _. Defined.

(** The session before and after an authorization: every table of the market
    but the authorizations. *)
Definition same_market (d d' : Database) : Prop :=
  orders d' = orders d ∧ trades d' = trades d ∧ inventory d' = inventory d ∧ users d' = users d
  ∧ organizations d' = organizations d ∧ products d' = products d ∧ delivery_points d' = delivery_points d
  ∧ support_contexts d' = support_contexts d.
#[export] Instance same_market_preorder : PreOrder same_market.
Proof.
  split; [by repeat split|]. unfold same_market. intros a b c ? ?. destruct_and!. split_and!; congruence.
Qed.

(** The tables with the new order in them. *)
Definition listed_in (d : Database) (n : Order) (d' : Database) : Prop := same_market (placed_in d n) d'.

Lemma only_events_same_market w w' : only_events w w' → same_market (db w) (db w').
Proof. unfold only_events, same_market. intros ?. destruct_and!. split_and!; done. Qed.
Lemma reads_same_market w w' : reads w w' → same_market (db w) (db w').
Proof. by intros (-> & _). Qed.

Section listing.
Context (d d' : Database) (n : Order).
Context (Hok : market_ok d) (Hlinked : trades_linked d) (Hnew : orders d !! o_id n = None).
Context (Hitem : o_inventory_item_id n = None) (Hrest : o_remaining_quantity_mt n <= o_quantity_mt n).
Context (Hwindow : JSON_SCHEMA_PATTERN (o_availability_window n) = true).
Context (Hlisted : listed_in d n d') (Hchecks : database_checks d').

Lemma new_unfilled : filled_stock d (o_id n) = 0.
Proof.
  apply sum_map_zero. intros k t Ht. destruct (Hlinked k t Ht) as [Hb Ha]. unfold trade_fills.
  rewrite !bool_decide_eq_false_2; [done|..]; intros E; rewrite E in *; cbn in *; rewrite Hnew in *; done.
Qed.

Lemma listed_held i : held_stock d' i = held_stock d i.
Proof.
  destruct Hlisted as (Ho & Ht & _). unfold held_stock. rewrite Ho, Ht. cbn.
  rewrite sum_map_insert by done. unfold order_holds at 1. rewrite Hitem, bool_decide_eq_false_2 by done. cbn.
  rewrite (sum_map_ext (trade_holds (<[ o_id n := n ]> (orders d)) i) (trade_holds (orders d) i)); [lia|].
  intros k t Hk. unfold trade_holds, trade_item. destruct (trade_order_id t) as [id|]; [|done]. cbn.
  destruct (decide (id = o_id n)) as [->|].
  - rewrite lookup_insert_eq, Hnew. cbn. by rewrite Hitem.
  - by rewrite lookup_insert_ne.
Qed.

Lemma market_ok_listed : market_ok d'.
Proof.
  pose proof listed_held as Hheld. pose proof new_unfilled as Hfill.
  destruct Hok as (_ & (K1 & K2 & K3 & K4 & K5 & K6 & K7 & K8) & Hr & Hs & Hw & Hf).
  destruct Hlisted as (Eo & Et & Ei & Eu & Eg & Ep & Ed & Ec). cbn in *.
  refine (conj Hchecks (conj _ (conj _ (conj _ (conj _ _))))).
  - unfold keyed. rewrite Eo, Et, Ei, Eu, Eg, Ep, Ec, Ed. split_and!; try done. by apply map_Forall_insert_2.
  - intros i item. rewrite Ei. intros Hi. rewrite Hheld. by apply Hr.
  - unfold stock_fits. by rewrite Ei.
  - unfold windows_canonical. rewrite Eo. by apply map_Forall_insert_2.
  - unfold fills_ok, filled_stock. rewrite Eo, Et. cbn. apply map_Forall_insert_2; [|done].
    change (o_remaining_quantity_mt n + filled_stock d (o_id n) <= o_quantity_mt n). lia.
Qed.
End listing.

(** ** What the guards establish *)

Definition maker_role (s : OrderSide) : UserRole := match s with BID => BUYER | ASK => SUPPLIER end.

(** An active canonical product, at an active canonical delivery point. *)
Definition canonical_terms (d : Database) (p : OrderCreate) (product : Product) : Prop :=
  products d !! nc_product_id p = Some product ∧ p_is_active product = true
  ∧ canonical_market_product_expression product ≠ None
  ∧ ∃ dp, delivery_points d !! nc_delivery_point_id p = Some dp ∧ canonical_delivery_point_clause dp = true.

Lemma canonical_texts p :
  canonical_market_product_expression p ≠ None →
  sql_nonblank (p_name p) = true ∧ sql_nonblank (p_fuel_type p) = true ∧ sql_nonblank (p_fuel_grade p) = true.
Proof.
  unfold canonical_market_product_expression. intros H.
  destruct (filter _ _) as [|spec l] eqn:Hf; [done|]. assert (spec ∈ spec :: l) as Hin by left.
  rewrite <-Hf in Hin. apply list_elem_of_filter in Hin as [Hs Hin].
  unfold is_spec_product in Hs. rewrite !andb_true_iff, !bool_decide_eq_true in Hs.
  destruct Hs as (((_ & ->) & ->) & ->).
  assert (Forall (λ s, sql_nonblank (ps_name s) = true ∧ sql_nonblank (ps_fuel_type s) = true
    ∧ sql_nonblank (ps_fuel_grade s) = true) CANONICAL_PRODUCTS) as Hall
    by (apply (bool_decide_unpack _); vm_compute; exact I).
  rewrite Forall_forall in Hall. by apply Hall.
Qed.

Lemma canonical_tradable d d' p product n :
  canonical_terms d p product → products d' = products d → delivery_points d' = delivery_points d →
  o_product_id n = nc_product_id p → o_delivery_point_id n = Some (nc_delivery_point_id p) →
  tradable_terms d' n.
Proof.
  intros (Hp & _ & Hc & dp & Hdp & _) Ep Ed En Edp. unfold tradable_terms, order_delivery_point.
  rewrite Ep, Ed, En, Edp, Hp. split; [by apply canonical_texts|]. cbn. rewrite Hdp. by eexists.
Qed.

Lemma check_catalog_ok p w product w' :
  check_catalog p w = Ok product w' → w' = w ∧ canonical_terms (db w) p product.
Proof.
  unfold check_catalog. intros (d & w1 & [= <- <-] & H)%bind_ok. unfold canonical_terms.
  destruct (products (db w) !! nc_product_id p) as [x|] eqn:Hx; [|discriminate].
  apply bind_ok in H as ([] & w1 & [Hg ->]%refuse_ok & H).
  apply bind_ok in H as ([] & w1 & [Hd ->]%refuse_ok & [= <- <-]).
  rewrite orb_false_iff, negb_false_iff, bool_decide_eq_false in Hg. destruct Hg as [Ha Hc].
  split; [done|]. split_and!; try done. destruct (delivery_points _ !! _) as [dp|]; [|done].
  exists dp. split; [done|]. by apply negb_false_iff in Hd.
Qed.

Lemma check_window_ok p w u w' :
  check_window p w = Ok u w' →
  ∃ t, observed w t
    ∧ is_tradable_availability_window (nc_availability_window p) (utc_date t) FORWARD_QUARTER_COUNT = Val true.
Proof.
  unfold check_window. intros (now & w1 & [= <- <-] & H)%bind_ok.
  apply bind_ok in H as (b & w1 & [Hb ->]%lift_ok & [Hg ->]%refuse_ok). apply negb_false_iff in Hg as ->.
  eexists. split; [by eexists|exact Hb].
Qed.

Lemma check_role_ok p party w u w' :
  check_role p party w = Ok u w' → is_support party = false →
  rp_effective_role party = Some (maker_role (nc_side p)).
Proof.
  unfold check_role. intros ([] & w1 & [H1 ->]%refuse_ok & [H2 ->]%refuse_ok)%bind_ok Hs. rewrite Hs in *.
  cbn in *. destruct (nc_side p); cbn in *; by apply bool_decide_eq_false, dec_stable in H1 || by apply bool_decide_eq_false, dec_stable in H2.
Qed.

(** Whether the body states what its side must state. *)
Definition metadata_complete (p : OrderCreate) : Prop :=
  match nc_side p with
  | BID => _ask_only_metadata_fields_present (nc_fields_set p) = []
  | ASK =>
      let m := nc_metadata p in
      sm_certification_declared m = true
      ∧ normalize_certification_scheme (sm_certification_scheme m) ≠ None
      ∧ missing_metadata (sm_specification_standard m) (sm_msds_available m)
          (bool_decide (is_Some (sm_carbon_intensity_gco2_mj m))) (sm_feedstock m) (sm_origin m) = []
      ∧ supplier_product_metadata_error (nc_product_id p) (sm_specification_standard m)
          (sm_carbon_intensity_method m) = None
  end.

Lemma check_metadata_ok p w u w' :
  check_metadata p (normalize_certification_scheme (nc_certification_scheme p)) w = Ok u w' → metadata_complete p.
Proof.
  unfold check_metadata, metadata_complete. destruct (nc_side p).
  { intros [H ->]%refuse_ok. by apply negb_false_iff, bool_decide_eq_true in H. }
  intros ([] & w1 & Hc & H)%bind_ok. unfold _require_supplier_certification in Hc.
  apply bind_ok in Hc as ([] & w2 & [Hd ->]%refuse_ok & [Hn ->]%refuse_ok).
  apply negb_false_iff in Hd, Hn. unfold _require_supplier_metadata in H.
  apply bind_ok in H as ([] & w2 & [Hm ->]%refuse_ok & H). apply negb_false_iff, bool_decide_eq_true in Hm.
  destruct (supplier_product_metadata_error _ _ _); [discriminate|].
  split_and!; try done. intros E. unfold nc_certification_scheme in Hn. by rewrite E in Hn.
Qed.

(** At least the catalog's lot. *)
Definition lot_reached (quantity : decimal) (product : Product) : Prop :=
  ∃ minimum, p_min_lot_size product = Some minimum ∧ 0 < minimum <= to_cents quantity.

Lemma minimum_ok quantity product w q w' :
  require_minimum_order_quantity quantity product w = Ok q w' → lot_reached quantity product.
Proof.
  unfold require_minimum_order_quantity. intros (q' & w1 & [Hq ->]%lift_ok & H)%bind_ok.
  assert (q' = quantity ∧ -2 <= expo q') as [-> He].
  { unfold finite_decimal in Hq. destruct (Z.ltb_spec (expo quantity) (-2)); [done|].
    cbn in Hq. injection Hq as <-. done. }
  apply bind_ok in H as ([] & w1 & [_ ->]%refuse_ok & H). unfold lot_reached.
  destruct (p_min_lot_size product) as [m|]; [|discriminate].
  apply bind_ok in H as ([] & w1 & [Hpos ->]%refuse_ok & H). apply bind_ok in H as ([] & w1 & [Hlot ->]%refuse_ok & _).
  apply Z.leb_gt in Hpos. exists m. split_and!; [done..|].
  unfold dltb, dcompare, common_expo in Hlot. cbn in Hlot. rewrite (Z.min_r (expo _) (-2)) in Hlot by done.
  change (coef_at (of_cents m) (-2)) with (m * 1) in Hlot. unfold to_cents.
  destruct (Z.compare_spec (coef_at quantity (-2)) (m * 1)); done || lia.
Qed.

Definition expires_after (e : option datetime) (t : datetime) : Prop :=
  match e with Some e => t < e | None => True end.
Lemma check_expiry_ok e w u w' : check_order_expiry e w = Ok u w' → ∃ t, observed w t ∧ expires_after e t.
Proof.
  unfold check_order_expiry, expires_after. destruct e as [e|].
  - intros (now & w1 & [= <- <-] & [H ->]%refuse_ok)%bind_ok. apply Z.leb_gt in H. eexists. split; [by eexists|done].
  - intros _. exists (clock w 0%nat). split; [by eexists|done].
Qed.

(** A locked organization is a row of the table. *)
Lemma lock_and_load_rows ids own a b w orgs w' id g :
  lock_and_load_market_organizations ids own a b w = Ok orgs w' → orgs !! id = Some g →
  organizations (db w) !! id = Some g.
Proof.
  unfold lock_and_load_market_organizations. cbv zeta. case_bool_decide.
  { intros [= <- <-]. by rewrite lookup_empty. }
  intros (found & w1 & Ha & H2)%bind_ok. apply (reads_ok _ _ _ _ (reads_lock_actors _)) in Ha as (Hdb & _).
  apply bind_ok in H2 as (gs & w2 & [-> _]%lock_organizations_ok & H2). rewrite Hdb in H2.
  apply bind_ok in H2 as ([] & w3 & _ & H2). apply bind_ok in H2 as ([] & w4 & _ & H2).
  apply bind_ok in H2 as ([] & w5 & _ & [= <- _]). by intros [? _]%map_lookup_filter_Some.
Qed.

(** ** Under the locks *)

Lemma still_authorized_reads w w' actor id : reads w w' → still_authorized w' actor id → still_authorized w actor id.
Proof.
  intros Hr [Hc (x & t & Hx & Ha & Hs & Ht & He)]. pose proof Hr as (Hdb & _). rewrite Hdb in Hx. split.
  - intros capability. destruct (Hc capability) as (t' & Ht' & Hcap). exists t'. rewrite Hdb in Hcap.
    split; [by eapply reads_observed|done].
  - exists x, t. split_and!; try done. by eapply reads_observed.
Qed.

Section placing.
Context (p : OrderCreate) (party : RequestParty) (org : uuid) (w : World).
Context (Hsync : synced w) (Hok : market_ok (db w)).

(** The party under its locks: a support context that still runs, or an admitted
    member of the organization. *)
Definition party_locked (g : Organization) : Prop :=
  organizations (db w) !! org = Some g
  ∧ if is_support party
    then ∀ id, rp_support_context_id party = Some id → still_authorized w (u_id (rp_actor party)) id
    else admitted_member (db w) (u_id (rp_accountable_principal party)) org.

Lemma lock_listing_outcome w1 :
  reads w w1 →
  match lock_listing_party p party org w1 with
  | Ok (_, g) w2 => reads w w2 ∧ party_locked g
  | Raise _ w2 => quiet w w2
  end.
Proof.
  intros Hr1. unfold lock_listing_party.
  match goal with |- match ?m w1 with _ => _ end => change ((λ out : outcome World (Z * Organization),
    match out with Ok (_, g) w2 => reads w w2 ∧ party_locked g | Raise _ w2 => quiet w w2 end) (m w1)) end.
  apply (frame_bind reads); [keeps|intros e w2 H2; apply reads_quiet; by trans w1|]. intros [] w2 _ H2.
  assert (reads w w2) as Hr2 by (by trans w1).
  apply (frame_bind reads); [apply reads_nextval|intros e w3 H3; apply reads_quiet; by trans w2|]. intros ordinal w3 _ H3.
  assert (reads w w3) as Hr3 by (by trans w2). destruct (reads_settled w w3 Hsync Hok Hr3) as [Hs3 Hok3].
  pose proof (lock_party_outcome party w3 Hs3 Hok3) as Hlock.
  apply settle_bind; [by destruct (lock_request_party_context party w3); [apply Hlock|]|..].
  { intros e w4 Hq. exact (transitivity (reads_quiet _ _ Hr3) Hq). }
  intros [] w4 Hrun Hr4. rewrite Hrun in Hlock. destruct Hlock as [_ Hauth].
  assert (reads w w4) as Hr4' by (by trans w3). assert (db w4 = db w) as Hdb4 by apply Hr4'.
  apply (frame_bind reads); [keeps|intros e w5 H5; apply reads_quiet; by trans w4|]. intros orgs w5 Horgs H5.
  assert (reads w w5) as Hr5 by (by trans w4).
  destruct (orgs !! org) as [g|] eqn:Hg; [|by apply reads_quiet]. split; [exact Hr5|]. split.
  - rewrite <-Hdb4. by eapply lock_and_load_rows.
  - unfold is_support in *. case_bool_decide as Hm.
    + intros id Hid. eapply still_authorized_reads; [exact Hr3|]. by apply Hauth.
    + apply lock_and_load_member in Horgs. by rewrite Hdb4 in Horgs.
Qed.

(** ** The authorization of an assisted order *)

(** The row an assisted order is bound to, consumed by it. *)
Definition authorized_by (d : Database) (a : uuid) (n : Order) : Prop :=
  ∃ row, support_authorizations d !! a = Some row ∧ sa_status row = AUTHORIZATION_CONSUMED
    ∧ is_Some (sa_consumed_at row)
    ∧ sa_market_support_context_id row = rp_support_context_id party
    ∧ sa_accountable_user_id row = u_id (rp_accountable_principal party)
    ∧ sa_terms_digest row = authorization_terms_digest p
    ∧ sa_quantity_mt row = o_quantity_mt n ∧ sa_price_per_mt_usd row = o_price_per_mt_usd n
    ∧ sa_order_side row = o_side n ∧ sa_organization_id row = o_organization_id n.

(** An instructed order of the catalog's place that crosses nothing tradable. *)
Definition resting (d : Database) (n : Order) (g : Organization) : Prop :=
  ∃ c t t', nc_support_confirmation p = Some c ∧ observed w t ∧ mf_instruction_at c <= t
    ∧ expires_after (nc_expires_at p) (mf_instruction_at c)
    ∧ nc_port_id p = None ∧ nc_vessel_id p = None
    ∧ observed w t' ∧ assessable n g = true
    ∧ filter (λ x, tradable d n x = true) (crossing_book d n t') = [].

Definition bound_to (a : option uuid) (n : Order) : Order := n <| o_support_authorization_id := a |>.

(** What the step leaves: the order's binding, and tables that differ in the
    authorizations and audit rows alone. *)
Definition listing_authorized (g : Organization) (n n' : Order) (w2 : World) : Prop :=
  same_market (db w) (db w2) ∧ uncommitted w w2 ∧ settings w2 = settings w ∧ clock w2 = clock w
  ∧ if is_support party
    then ∃ a, n' = bound_to (Some a) n ∧ authorized_by (db w2) a n ∧ resting (db w) n g
    else n' = n ∧ reads w w2.

Lemma require_resting_ok n g w1 u w2 :
  reads w w1 → o_provenance n = REAL → require_resting n g w1 = Ok u w2 →
  ∃ t, observed w t ∧ assessable n g = true ∧ filter (λ x, tradable (db w) n x = true) (crossing_book (db w) n t) = [].
Proof.
  intros Hr Hp. unfold require_resting. intros (a & w3 & Ha & H)%bind_ok.
  apply bind_ok in H as ([] & w4 & [Hi ->]%refuse_ok & [Hc ->]%refuse_ok).
  assert (db w1 = db w) as Hdb by apply Hr.
  apply assess_ok in Ha as (Hass & _ & ->); [|rewrite Hdb; apply keyed_orders, Hok|done|done].
  exists (clock w1 (clock_reads w1)). rewrite Hdb in Hc.
  split_and!; [by eapply reads_observed; [|eexists]|done|]. by destruct (filter _ _).
Qed.

Lemma unassessable_raises n g w1 : o_provenance n ≠ REAL → ∃ e, require_resting n g w1 = Raise e w1.
Proof.
  intros Hp. unfold require_resting, assess_locked_order. rewrite (bool_decide_eq_true_2 (_ ≠ REAL)) by done.
  rewrite !orb_true_r. cbn. eexists. reflexivity.
Qed.

Lemma uncommitted_authorize k g n : Keeps uncommitted (authorize_listing p party k g n).
Proof.
  unfold authorize_listing. destruct (negb _); [keeps|]. destruct (nc_support_confirmation p) as [c|]; [|keeps].
  keeps; try done. all: apply keeps_only_events_uncommitted; keeps.
Qed.

Lemma authorize_support_ok k g n c w1 n' w2 :
  reads w w1 → is_support party = true → nc_support_confirmation p = Some c →
  authorize_listing p party k g n w1 = Ok n' w2 → listing_authorized g n n' w2.
Proof.
  intros Hr Hs Hc Hrun. pose proof (uncommitted_authorize k g n w1) as Hu. rewrite Hrun in Hu. cbn in Hu.
  unfold authorize_listing in Hrun. rewrite Hs, Hc in Hrun. cbn [negb] in Hrun.
  apply bind_ok in Hrun as ([] & w3 & Hins & Hrun).
  pose proof (reads_ok _ _ _ _ (reads_check_instruction _ _) Hins) as Hr3. fold (reads w1 w3) in Hr3.
  assert (reads w w3) as Hw3 by (by trans w1).
  apply bind_ok in Hrun as (context & w4 & Hctx & Hrun).
  pose proof (reads_ok _ _ _ _ (reads_load_context _) Hctx) as Hr4. fold (reads w3 w4) in Hr4.
  assert (reads w w4) as Hw4 by (by trans w3).
  apply bind_ok in Hrun as ([] & w5 & Hrest & Hrun).
  pose proof (reads_ok _ _ _ _ (reads_require_resting _ _) Hrest) as Hr5. fold (reads w4 w5) in Hr5.
  assert (reads w w5) as Hw5 by (by trans w4).
  assert (o_provenance n = REAL) as Hp.
  { destruct (decide (o_provenance n = REAL)) as [|Hp]; [done|].
    destruct (unassessable_raises n g w4 Hp) as [e He]. congruence. }
  apply require_resting_ok in Hrest as (t' & Ht' & Hass & Hbook); [|done..].
  do 2 (erewrite bind_run in Hrun by reflexivity). cbv zeta in Hrun.
  erewrite bind_run in Hrun by reflexivity. set (a := support_authorization _ _ _ _ _ _ _ _) in *.
  apply bind_ok in Hrun as ([] & w6 & Hflush & Hrun). apply flush_ok in Hflush as [-> _].
  erewrite bind_run in Hrun by reflexivity. set (ca := consumed a _) in *.
  erewrite bind_run in Hrun by reflexivity.
  apply bind_ok in Hrun as ([] & w7 & Haud & [= <- <-]).
  assert (only_events (set_field (proj := db) (λ _, (db w5) <| support_authorizations := <[ sa_id ca := ca ]>
     (<[ sa_id a := a ]> (support_authorizations (db w5))) |>) w5) w7) as Hev.
  { unfold audit_authorization, record_audit, add_audit_log, modify in Haud. injection Haud as <-. by repeat split. }
  pose proof (only_events_same_market _ _ Hev) as Hm. assert (db w5 = db w) as Hdb5 by apply Hw5.
  unfold listing_authorized. split_and!.
  - etrans; [|exact Hm]. cbn. rewrite Hdb5. by repeat split.
  - etrans; [apply Hr|exact Hu].
  - unfold only_events in Hev. destruct_and! Hev. cbn in *. destruct Hw5 as (_ & _ & ? & _). congruence.
  - unfold only_events in Hev. destruct_and! Hev. cbn in *. destruct Hw5 as (_ & _ & _ & ?). congruence.
  - rewrite Hs. exists (sa_id a). split; [done|]. split.
    + exists ca. unfold only_events in Hev. destruct_and! Hev.
      match goal with E : support_authorizations (db w7) = _ |- _ => rewrite E end. cbn.
      split; [apply lookup_insert_eq|]. by split_and!.
    + exists c. unfold check_instruction in Hins. apply bind_ok in Hins as (now & w8 & [= <- <-] & Hins).
      apply bind_ok in Hins as ([] & w8 & [Hport ->]%refuse_ok & Hins).
      apply bind_ok in Hins as ([] & w8 & [Hnow ->]%refuse_ok & [Hexp ->]%refuse_ok).
      rewrite orb_false_iff, !bool_decide_eq_false in Hport. destruct Hport as [H1 H2].
      apply Z.ltb_ge in Hnow. exists (clock w1 (clock_reads w1)), t'.
      apply eq_None_not_Some in H1, H2.
      assert (observed w (clock w1 (clock_reads w1))) by (eapply reads_observed; [exact Hr|by eexists]).
      split_and!; try done. destruct (nc_expires_at p); [|done]. by apply Z.leb_gt in Hexp.
Qed.

Lemma authorize_outcome k g n w1 :
  reads w w1 →
  match authorize_listing p party k g n w1 with
  | Ok n' w2 => listing_authorized g n n' w2
  | Raise _ w2 => uncommitted w w2
  end.
Proof.
  intros Hr. pose proof (uncommitted_authorize k g n w1) as Hu.
  destruct (authorize_listing p party k g n w1) as [n' w2|e w2] eqn:Hrun; [|by etrans; [apply Hr|]].
  destruct (is_support party) eqn:Hs.
  - destruct (nc_support_confirmation p) as [c|] eqn:Hc; [by eapply authorize_support_ok|].
    unfold authorize_listing in Hrun. by rewrite Hs, Hc in Hrun.
  - unfold authorize_listing in Hrun. rewrite Hs in Hrun. injection Hrun as <- <-.
    unfold listing_authorized. rewrite Hs. split_and!; try done; try apply Hr. by apply reads_same_market.
Qed.
End placing.

(** ** Match on insert *)

(** How the book looks after an order was matched: untouched if it rests, the
    order expired if its time has come, else exactly the plan. *)
Definition matched_in (auto anonymous : bool) (n : Order) (now : datetime)
    (d d' : Database) (ts : list Trade) : Prop :=
  if negb auto || (o_remaining_quantity_mt n <=? 0) then ts = [] ∧ same_ledger d d'
  else if order_expired n now
  then ts = [] ∧ same_ledger (d <| orders := <[ o_id n := closed_order EXPIRED n ]> (orders d) |>) d'
  else match match_context n now anonymous None with
  | None => ts = [] ∧ same_ledger d d'
  | Some ctx =>
      let fills := match_plan d n ctx in
      Forall2 (fill_trade d ctx n) fills ts ∧ orders d' = book_after n fills (orders d)
      ∧ inserted ts (trades d) (trades d') ∧ inventory d' = consume_all n fills (inventory d)
  end.

(** A backed order that expires in the match keeps its reservation. *)
Definition strands (auto : bool) (n : Order) (now : datetime) : bool :=
  auto && order_expired n now && bool_decide (is_Some (o_inventory_item_id n)).

Lemma matched_in_same_ledger auto a n now d d1 d2 ts :
  same_ledger d1 d2 → matched_in auto a n now d d1 ts → matched_in auto a n now d d2 ts.
Proof.
  intros (Eo & Et & Ei). unfold matched_in, same_ledger. rewrite Eo, Et, Ei.
  destruct (_ || _); [done|]. destruct (order_expired _ _); [done|]. by destruct (match_context _ _ _ _).
Qed.

Lemma unbacked_closed d n o' : o_inventory_item_id n = None → o_id o' = o_id n →
  withdrawn_in d n o' = d <| orders := <[ o_id n := o' ]> (orders d) |>.
Proof. intros Hi Hid. unfold withdrawn_in, released_inventory. rewrite Hi, Hid. by destruct d. Qed.

Section matching.
Context (auto anonymous : bool) (n : Order) (w : World).
Context (Hok : market_ok (db w)) (Hex : items_exist (db w)) (Hset : settings_valid (settings w)).
Context (Hrow : orders (db w) !! o_id n = Some n).
Context (Hact : is_active_status (o_status n) = true ∨ o_remaining_quantity_mt n <= 0).
Context (Hterms : tradable_terms (db w) n).

Lemma match_row_outcome :
  match (if auto then match_order n anonymous None else mret []) w with
  | Ok ts w' => uncommitted w w' ∧ (auto = false → w' = w)
      ∧ ∃ now, observed w now ∧ matched_in auto anonymous n now (db w) (db w') ts
          ∧ (strands auto n now = false → market_ok (db w'))
  | Raise _ w' => uncommitted w w'
  end.
Proof.
  unfold matched_in, strands. destruct auto; cbn [andb negb orb].
  2: { split_and!; [done..|]. exists (clock w 0%nat). split; [by eexists|]. split; [by repeat split|done]. }
  set (now := clock w (clock_reads w)). assert (observed w now) as Hobs by (by eexists).
  destruct (Z.leb_spec (o_remaining_quantity_mt n) 0) as [Hrem|Hrem].
  { unfold match_order. rewrite (proj2 (Z.leb_le _ _)) by done. split_and!; [done..|].
    exists now. split; [done|]. split; [by repeat split|done]. }
  destruct Hact as [Ha|Ha]; [|lia].
  destruct (order_expired n now) eqn:Hexp.
  { destruct (match_order_expired_run n anonymous None w Hok Hrow Ha Hexp) as (w' & -> & Hdb & Hc).
    split_and!; [done..|]. exists now. rewrite Hexp, Hdb. split; [done|]. split; [by repeat split|].
    cbn. intros Hi%bool_decide_eq_false%eq_None_not_Some. destruct (closed_order_row EXPIRED n) as ((Eid & _) & _).
    rewrite <-(unbacked_closed (db w) n (closed_order EXPIRED n)) by done. by apply market_ok_close. }
  assert (incoming_ok (db w) n) as Hin by (by split).
  pose proof (match_order_wp n anonymous None w Hok Hex Hset Hin Hexp) as Hwp.
  pose proof (static_match_order n anonymous None w) as Hst. unfold wp in Hwp.
  destruct (match_order n anonymous None w) as [ts w'|e w'] eqn:Hrun; [|by apply Hst].
  cbn in Hst. split_and!; [by apply Hst|done|]. exists now. split; [done|]. rewrite Hexp. split; [|done].
  apply match_order_ok in Hrun; [|apply Hok|done|by apply active_fillable; [apply (proj1 (proj1 Hok) _ _ Hrow)|]].
  cbv zeta in Hrun. fold now in Hrun. rewrite Hexp in Hrun. destruct (match_context _ _ _ _) as [ctx|].
  - by destruct Hrun as (_ & [M1 M2 M3 M4 M5] & _).
  - destruct Hrun as (-> & Hr). split; [done|]. destruct Hr as (-> & _). by repeat split.
Qed.
End matching.

(** Match on insert happens for self-service orders only. *)
Definition matches_listing (c : Settings) (party : RequestParty) : bool :=
  AUTO_MATCHING_ENABLED c && negb (is_support party).

Lemma match_listing_outcome p party n w :
  market_ok (db w) → items_exist (db w) → settings_valid (settings w) →
  orders (db w) !! o_id n = Some n → o_status n = OPEN → tradable_terms (db w) n → o_inventory_item_id n = None →
  match match_listing p party n w with
  | Ok ts w' => uncommitted w w' ∧ market_ok (db w') ∧ (is_support party = true → w' = w)
      ∧ ∃ now, observed w now ∧ matched_in (matches_listing (settings w) party) (nc_is_anonymous p) n now (db w) (db w') ts
  | Raise _ w' => uncommitted w w'
  end.
Proof.
  intros Hok Hex Hset Hrow Hopen Hterms Hitem. unfold match_listing. erewrite bind_run by reflexivity.
  fold (matches_listing (settings w) party).
  pose proof (match_row_outcome (matches_listing (settings w) party) (nc_is_anonymous p) n w Hok Hex Hset Hrow
    ltac:(left; by rewrite Hopen) Hterms) as H.
  set (out := (if matches_listing _ _ then match_order n _ None else mret []) w) in *.
  change (match out with
  | Ok ts w' => uncommitted w w' ∧ market_ok (db w') ∧ (is_support party = true → w' = w)
      ∧ ∃ now, observed w now ∧ matched_in (matches_listing (settings w) party) (nc_is_anonymous p) n now (db w) (db w') ts
  | Raise _ w' => uncommitted w w'
  end). destruct out as [ts w'|e w']; [|done].
  destruct H as (Hu & Hno & now & Hnow & Hm & Hok'). split_and!; [done| | |by exists now].
  - apply Hok'. unfold strands. rewrite Hitem. by rewrite andb_false_r.
  - intros Hs. apply Hno. unfold matches_listing. by rewrite Hs, andb_false_r.
Qed.

(** ** From the insert to the response *)

(** A response that shows the row. *)
Definition answers (o : Order) (r : OrderResponse) : Prop :=
  or_id r = o_id o ∧ or_terms_digest r = order_terms_digest o ∧ or_side r = o_side o
  ∧ or_status r = o_status o ∧ or_quantity_mt r = o_quantity_mt o
  ∧ or_remaining_quantity_mt r = o_remaining_quantity_mt o ∧ or_price_per_mt_usd r = o_price_per_mt_usd o.

Lemma order_response_ok o w r w' : _order_response o w = Ok r w' → answers o r.
Proof.
  unfold _order_response. intros (win & w1 & _ & H)%bind_ok. apply bind_ok in H as ([] & w2 & _ & H).
  destruct (o_certifications o); [|discriminate]. apply bind_ok in H as (b & w3 & _ & H).
  apply bind_ok in H as (d & w4 & _ & [= <- _]). by repeat split.
Qed.

Lemma load_order_ok id w o w' : load_order id w = Ok o w' → w' = w ∧ orders (db w) !! id = Some o.
Proof.
  unfold load_order. intros (d & w1 & [= <- <-] & H)%bind_ok. destruct (orders (db w) !! id); by inversion H.
Qed.

(** The order an earlier request with the key has placed. *)
Definition earlier_order (d : Database) (org : uuid) (k : CreateKey) (party : RequestParty) (o : Order) : Prop :=
  ∃ key, given_key k = Some key ∧ existing_order d org key = Some o
    ∧ o_idempotency_request_hash o = ck_request_hash k ∧ _replay_belongs_to_party d o party = true.

Lemma answered_before_ok k org party w r w' :
  answered_before k org party w = Ok (Some r) w' → ∃ o, earlier_order (db w) org k party o ∧ answers o r.
Proof.
  unfold answered_before. destruct (given_key k) as [key|] eqn:Hk; [|by inversion 1].
  intros (replay & w1 & Hl & H)%bind_ok. destruct replay as [o|]; [|by inversion H].
  apply bind_ok in H as (r' & w2 & Hr & [= <- _]). apply order_response_ok in Hr.
  unfold _load_valid_order_create_replay in Hl. apply bind_ok in Hl as (d & w3 & [= <- <-] & Hl).
  destruct (existing_order (db w) org key) as [x|] eqn:Hx; [|by inversion Hl].
  apply bind_ok in Hl as ([] & w3 & [Hh ->]%refuse_ok & Hl). apply bind_ok in Hl as ([] & w4 & [Hb ->]%refuse_ok & [= <- _]).
  apply bool_decide_eq_false, dec_stable in Hh. apply negb_false_iff in Hb. exists x. split; [|done]. by exists key.
Qed.

Lemma resolve_winner_outcome k org party e w :
  match resolve_order_winner k org party e w with
  | Ok (Some r) w' => (∃ o, earlier_order (committed w) org k party o ∧ answers o r)
      ∧ db w' = committed w ∧ uncommitted w w'
  | Ok None _ => False
  | Raise _ w' => uncommitted w w'
  end.
Proof.
  unfold resolve_order_winner. erewrite bind_run by reflexivity. set (w1 := w <| db := committed w |>).
  unfold mbind, M_bind. pose proof (reads_answered_before k org party w1) as Hr.
  destruct (answered_before k org party w1) as [[r|] w2|e' w2] eqn:Hrun; cbn in Hr |- *; try apply Hr.
  split; [|split; apply Hr]. by apply answered_before_ok in Hrun.
Qed.

Section finishing.
Context (p : OrderCreate) (party : RequestParty) (k : CreateKey) (org : uuid) (product : Product) (n : Order).
Context (d : Database) (w1 : World) (before : PreviousBest).
Context (Hok : market_ok (db w1)) (Hex : items_exist (db w1)) (Hset : settings_valid (settings w1)).
Context (Hlisted : listed_in d n (db w1)) (Hopen : o_status n = OPEN).
Context (Hterms : tradable_terms (db w1) n) (Hitem : o_inventory_item_id n = None).

Definition finished (r : OrderResponse) (w' : World) : Prop :=
  market_ok (db w') ∧ committed w' = db w'
  ∧ (∃ d1 ts now, listed_in d n d1 ∧ observed w1 now
      ∧ matched_in (matches_listing (settings w1) party) (nc_is_anonymous p) n now d1 (db w') ts)
  ∧ (is_support party = true → support_authorizations (db w') = support_authorizations (db w1))
  ∧ ∃ o', orders (db w') !! o_id n = Some o' ∧ answers o' r.

Lemma finish_outcome :
  match finish_listing p n product party k org before w1 with
  | Ok r w' => finished r w'
  | Raise _ w' => uncommitted w1 w'
  end.
Proof.
  unfold finish_listing.
  match goal with |- match ?m w1 with _ => _ end => change ((λ out : outcome World OrderResponse,
    match out with Ok r w' => finished r w' | Raise _ w' => uncommitted w1 w' end) (m w1)) end.
  assert (∀ w w', only_events w w' → uncommitted w w') as Hunc by (by intros w w' [? _]).
  apply (frame_bind only_events); [keeps|intros e w2 H2; by apply Hunc|]. intros [] w2 _ H2.
  apply (frame_bind only_events); [keeps|intros e w3 H3; apply Hunc; by trans w2|]. intros [] w3 _ H3.
  assert (only_events w1 w3) as Hev by (by trans w2). clear H2 H3 w2.
  pose proof (only_events_same_market _ _ Hev) as Hm3.
  assert (listed_in d n (db w3)) as Hlisted3 by (unfold listed_in in *; by etrans).
  assert (orders (db w3) !! o_id n = Some n) as Hrow.
  { destruct Hlisted3 as (-> & _). cbn. apply lookup_insert_eq. }
  assert (settings w3 = settings w1 ∧ clock w3 = clock w1) as [Hs3 Hc3] by (split; apply Hev).
  assert (support_authorizations (db w3) = support_authorizations (db w1)) as Hsa3
    by (unfold only_events in Hev; by destruct_and! Hev).
  pose proof (market_ok_only_events _ _ Hev Hok) as Hok3.
  assert (items_exist (db w3)) as Hex3.
  { destruct Hm3 as (Eo & _ & Ei & _). unfold items_exist. by rewrite Eo, Ei. }
  assert (tradable_terms (db w3) n) as Hterms3.
  { destruct Hm3 as (_ & _ & _ & _ & _ & Ep & Ed & _). revert Hterms.
    unfold tradable_terms, order_delivery_point. by rewrite Ep, Ed. }
  pose proof (match_listing_outcome p party n w3 Hok3 Hex3 ltac:(by rewrite Hs3) Hrow Hopen Hterms3 Hitem) as Hmatch.
  unfold mbind at 1, M_bind at 1. destruct (match_listing p party n w3) as [ts w4|e w4]; [|by trans w3; [apply Hunc|]].
  destruct Hmatch as (Hu4 & Hok4 & Hsup & now & Hnow & Hmatched). rewrite Hs3 in Hmatched.
  assert (uncommitted w1 w4) as Hu14 by (trans w3; [by apply Hunc|done]).
  apply (frame_bind only_events); [keeps|intros e w5 H5; trans w4; [done|by apply Hunc]|]. intros [] w5 _ H5.
  pose proof (market_ok_only_events _ _ H5 Hok4) as Hok5.
  assert (uncommitted w1 w5) as Hu15 by (trans w4; [done|by apply Hunc]).
  apply (frame_bind reads); [keeps|intros e w6 (_ & H6 & _); by trans w5|]. intros o' w6 Hload _.
  apply load_order_ok in Hload as [-> Ho'].
  apply (frame_bind reads); [keeps|intros e w6 (_ & H6 & _); by trans w5|]. intros r w6 Hresp H6.
  apply order_response_ok in Hresp. assert (db w6 = db w5) as Hdb6 by apply H6.
  assert (commit w6 = Ok tt (w6 <| committed := db w6 |>)) as Hcommit by (apply commit_run; rewrite Hdb6; apply Hok5).
  unfold mbind at 1, M_bind at 1, catch_integrity. erewrite bind_run by exact Hcommit. cbn.
  unfold finished. cbn. rewrite Hdb6. split_and!; [done|done| | |by exists o'].
  - exists (db w3), ts, now. split_and!; [done|destruct Hnow as [i ->]; exists i; by rewrite Hc3|].
    eapply matched_in_same_ledger; [|exact Hmatched]. by apply only_events_same_ledger.
  - intros Hsp. specialize (Hsup Hsp) as ->. unfold only_events in H5. destruct_and! H5. congruence.
Qed.
End finishing.

(** ** The step a placed order is *)

(** Everything the guards and locks have established about a new order. *)
Record may_list (w : World) (p : OrderCreate) (party : RequestParty) (org : uuid) (product : Product)
    (n : Order) (g : Organization) : Prop := {
  ml_party : party_locked party org w g;
  ml_role : is_support party = false → rp_effective_role party = Some (maker_role (nc_side p));
  ml_window : ∃ t, observed w t
    ∧ is_tradable_availability_window (nc_availability_window p) (utc_date t) FORWARD_QUARTER_COUNT = Val true;
  ml_metadata : metadata_complete p;
  ml_catalog : canonical_terms (db w) p product;
  ml_lot : lot_reached (nc_quantity_mt p) product;
  ml_unexpired : ∃ t, observed w t ∧ expires_after (nc_expires_at p) t;
  ml_resting : is_support party = true → resting p w (db w) n g;
}.

(** One new row, unbacked and under an unused id, matched as planned. *)
Definition placed (w : World) (p : OrderCreate) (party : RequestParty) (k : CreateKey) (org : uuid)
    (r : OrderResponse) (w' : World) : Prop :=
  ∃ ordinal g product a,
    let n := new_order (db w) p party k ordinal g org in
    may_list w p party org product n g ∧ order_checks n ∧ carbon_storable p = true
    ∧ (if is_support party then ∃ id, a = Some id ∧ authorized_by p party (db w') id n else a = None)
    ∧ (∃ d1 ts now, listed_in (db w) (bound_to a n) d1 ∧ observed w now
         ∧ matched_in (matches_listing (settings w) party) (nc_is_anonymous p) (bound_to a n) now d1 (db w') ts)
    ∧ market_ok (db w') ∧ committed w' = db w'
    ∧ ∃ o', orders (db w') !! o_id n = Some o' ∧ answers o' r.

Definition replayed (w : World) (party : RequestParty) (k : CreateKey) (org : uuid) (r : OrderResponse)
    (w' : World) : Prop :=
  (∃ o, earlier_order (db w) org k party o ∧ answers o r) ∧ db w' = db w ∧ committed w' = committed w.

Definition order_outcome (w : World) (p : OrderCreate) (party : RequestParty) (k : CreateKey) (org : uuid)
    (out : outcome World OrderResponse) : Prop :=
  match out with
  | Ok r w' => replayed w party k org r w' ∨ placed w p party k org r w'
  | Raise _ w' => undone w w'
  end.

Section place.
Context (p : OrderCreate) (party : RequestParty) (k : CreateKey) (org : uuid) (w : World).
Context (Hsync : synced w) (Hok : market_ok (db w)) (Hex : items_exist (db w)) (Hlinked : trades_linked (db w)).
Context (Hset : settings_valid (settings w)) (Hvalid : JSON_SCHEMA_PATTERN (nc_availability_window p) = true).

(** The insert: a concurrent winner of the key answers, or the row is in. *)
Lemma insert_outcome_order n w6 (P : outcome World OrderResponse → Prop) (rest : M World OrderResponse) :
  committed w6 = db w →
  (∀ e w', uncommitted w6 w' → P (Raise e w')) →
  (∀ r w', replayed w party k org r w' → P (Ok r w')) →
  (let w7 := w6 <| db := placed_in (db w6) n |> in
   carbon_storable p = true → database_checks (db w7) → P (rest w7)) →
  P ((winner ← catch_integrity (insert_order p n ;; mret None) (resolve_order_winner k org party);
      match winner with Some response => mret response | None => rest end) w6).
Proof.
  intros Hcom Hraise Hwin Hrest. unfold mbind at 1, M_bind at 1.
  set (w7 := w6 <| db := placed_in (db w6) n |>). cbv zeta in Hrest. fold w7 in Hrest.
  assert (insert_order p n w6 = Ok tt w7 ∧ carbon_storable p = true ∧ database_checks (db w7)
          ∨ ∃ c, insert_order p n w6 = Raise (IntegrityError c) w7) as Hins.
  { unfold insert_order. erewrite bind_run by reflexivity. fold w7.
    destruct (carbon_storable p); cbn [negb]; [|by right; eexists].
    erewrite bind_run by reflexivity. unfold flush.
    case_bool_decide as Hc; cbn [negb]; [by left|by right; eexists]. }
  unfold catch_integrity. destruct Hins as [(Hins & Hcarbon & Hc)|[c Hins]].
  { erewrite bind_run by exact Hins. by apply Hrest. }
  unfold mbind at 1, M_bind at 1. rewrite Hins.
  pose proof (resolve_winner_outcome k org party (IntegrityError c) w7) as H.
  destruct (resolve_order_winner k org party (IntegrityError c) w7) as [[r|] w'|e w']; [|done|by apply Hraise].
  destruct H as ((o & Ho & Hr) & Hdb & Hu). apply Hwin. unfold uncommitted, synced in *.
  change (committed w7) with (committed w6) in *. rewrite Hcom in *.
  split; [by exists o|]. split; [done|]. congruence.
Qed.
Lemma listed_in_market n d' : same_market (db w) d' → listed_in (db w) n (placed_in d' n).
Proof. intros (Eo & ?). unfold listed_in, same_market. cbn. rewrite Eo. destruct_and!. split_and!; done. Qed.

Lemma authorized_by_row d d' a n n' :
  support_authorizations d' = support_authorizations d →
  authorized_by p party d a n → o_quantity_mt n' = o_quantity_mt n →
  o_price_per_mt_usd n' = o_price_per_mt_usd n → o_side n' = o_side n →
  o_organization_id n' = o_organization_id n → authorized_by p party d' a n'.
Proof. unfold authorized_by. by intros -> ? -> -> -> ->. Qed.

(** From the locked book to the response. *)
Lemma list_outcome ordinal product g before n' w6 :
  let n := new_order (db w) p party k ordinal g org in
  may_list w p party org product n g → listing_authorized p party w g n n' w6 →
  order_outcome w p party k org
    ((winner ← catch_integrity (insert_order p n' ;; mret None) (resolve_order_winner k org party);
      match winner with
      | Some response => mret response
      | None => finish_listing p n' product party k org before
      end) w6).
Proof.
  intros n Hmay (Hsame & Hunc & Hs6 & Hc6 & Hauth).
  assert (∃ a, n' = bound_to a n ∧ (if is_support party
    then ∃ id, a = Some id ∧ authorized_by p party (db w6) id n else a = None)) as (a & -> & Ha).
  { destruct (is_support party).
    - destruct Hauth as (id & -> & Hauth & _). eauto.
    - destruct Hauth as [-> _]. by exists None. }
  apply (insert_outcome_order (bound_to a n) w6 (order_outcome w p party k org)).
  { unfold uncommitted, synced in *. congruence. }
  { intros e w' Hu. apply uncommitted_undone; [done..|]. by trans w6. }
  { intros r w' Hr. by left. }
  intros w7 Hcarbon Hchecks. pose proof (listed_in_market (bound_to a n) (db w6) Hsame) as Hlisted.
  change (placed_in (db w6) (bound_to a n)) with (db w7) in Hlisted.
  assert (market_ok (db w7)) as Hok7.
  { apply (market_ok_listed (db w) (db w7) (bound_to a n)); try done; apply fresh_id_none. }
  assert (items_exist (db w7)) as Hex7.
  { destruct Hlisted as (Eo & _ & Ei & _). unfold items_exist. rewrite Eo, Ei. by apply map_Forall_insert_2. }
  assert (tradable_terms (db w7) (bound_to a n)) as Hterms.
  { destruct Hlisted as (_ & _ & _ & _ & _ & Ep & Ed & _).
    by eapply canonical_tradable; [apply (ml_catalog _ _ _ _ _ _ _ Hmay)|..]. }
  pose proof (finish_outcome p party k org product (bound_to a n) (db w) w7 before Hok7 Hex7
    ltac:(by change (settings w7) with (settings w6); rewrite Hs6) Hlisted eq_refl Hterms eq_refl) as Hfin.
  destruct (finish_listing _ _ _ _ _ _ _ w7) as [r w'|e w']; [|by apply uncommitted_undone; [..|trans w6]].
  destruct Hfin as (Hok' & Hcom & (d1 & ts & now & Hd1 & Hnow & Hm) & Hsa & Hresp).
  right. exists ordinal, g, product, a. split; [exact Hmay|]. split; [|split; [done|split; [|split]]].
  - destruct Hchecks as (Hall & _). by apply (Hall (o_id n) (bound_to a n)), lookup_insert_eq.
  - destruct (is_support party); [|done]. destruct Ha as (id & -> & Ha). exists id. split; [done|].
    eapply authorized_by_row; [|exact Ha|done..]. by rewrite Hsa.
  - change (settings w7) with (settings w6) in Hm. rewrite Hs6 in Hm. exists d1, ts, now. split; [done|]. split; [|done].
    destruct Hnow as [i ->]. exists i. change (clock w7) with (clock w6). by rewrite Hc6.
  - by split_and!.
Qed.
Lemma place_order_outcome w1 :
  reads w w1 → order_outcome w p party k org (place_order p k party org w1).
Proof.
  intros Hr1. unfold place_order.
  assert (∀ e w' w'', reads w w' → reads w' w'' → order_outcome w p party k org (Raise e w'')) as Hfail.
  { intros e w' w'' H1 H2. apply quiet_undone; [done..|]. apply reads_quiet. by trans w'. }
  apply (frame_bind reads); [keeps|intros e w2; by apply Hfail|]. intros [] w2 Hrole H2.
  assert (reads w w2) as Hr2 by (by trans w1).
  apply (frame_bind reads); [keeps|intros e w3; by apply Hfail|]. intros [] w3 Hwin H3.
  assert (reads w w3) as Hr3 by (by trans w2).
  apply (frame_bind reads); [keeps|intros e w4; by apply Hfail|]. intros [] w4 Hmeta H4.
  assert (reads w w4) as Hr4 by (by trans w3).
  apply (frame_bind reads); [keeps|intros e w5; by apply Hfail|]. intros product w5 Hcat H5.
  assert (reads w w5) as Hr5 by (by trans w4).
  pose proof (lock_listing_outcome p party org w Hsync Hok w5 Hr5) as Hlock. unfold mbind at 1, M_bind at 1.
  destruct (lock_listing_party p party org w5) as [[ordinal g] w6|e w6]; [|by apply quiet_undone].
  destruct Hlock as [Hr6 Hparty]. cbn [fst snd].
  apply (frame_bind reads); [keeps|intros e w7; by apply Hfail|]. intros q w7 Hlot H7.
  assert (reads w w7) as Hr7 by (by trans w6).
  apply (frame_bind reads); [keeps|intros e w8; by apply Hfail|]. intros [] w8 Hexp H8.
  assert (reads w w8) as Hr8 by (by trans w7).
  erewrite bind_run by reflexivity. assert (db w8 = db w) as -> by apply Hr8.
  set (n := new_order (db w) p party k ordinal g org).
  pose proof (authorize_outcome p party w Hok k g n w8 Hr8) as Hauth. unfold mbind at 1, M_bind at 1.
  destruct (authorize_listing p party k g n w8) as [n' w9|e w9]; [|by apply uncommitted_undone].
  assert (may_list w p party org product n g) as Hmay.
  { apply check_window_ok in Hwin as (t & Ht & Hwin). apply check_catalog_ok in Hcat as [_ Hcat].
    apply check_expiry_ok in Hexp as (t' & Ht' & Hexp). rewrite (proj1 Hr4) in Hcat. split.
    - done.
    - by eapply check_role_ok.
    - exists t. split; [by apply (reads_observed w w2)|done].
    - by eapply check_metadata_ok.
    - done.
    - by eapply minimum_ok.
    - exists t'. split; [by apply (reads_observed w w7)|done].
    - intros Hs. destruct Hauth as (_ & _ & _ & _ & Hauth). rewrite Hs in Hauth. by destruct Hauth as (? & _ & _ & ?). }
  apply (frame_bind reads); [keeps| |].
  { intros e w10 (_ & Hc & _). apply uncommitted_undone; [done..|]. destruct Hauth as (_ & Hu & _).
    unfold uncommitted in *. congruence. }
  intros before w10 _ H10. eapply list_outcome; [exact Hmay|].
  destruct Hauth as (Hsame & Hu & Hs9 & Hc9 & Hauth). destruct H10 as (Hd & Hc & Hs & Hk).
  unfold listing_authorized, uncommitted, reads in *. rewrite Hd, Hc, Hs, Hk. split_and!; try done.
Qed.
End place.

(** ** The route *)

(** Who the request acts for, under which key, and the step it is. *)
Definition create_outcome (w : World) (p : OrderCreate) (raw_context raw_key : option string) (u : User)
    (out : outcome World OrderResponse) : Prop :=
  match out with
  | Ok r w' => ∃ party org k, party_of w raw_context u party
      ∧ is_support party = bool_decide (is_Some (nc_support_confirmation p))
      ∧ effective_organization_of (Some party) u = Some org ∧ order_key raw_key p party = Val k
      ∧ (replayed w party k org r w' ∨ placed w p party k org r w')
  | Raise _ w' => undone w w'
  end.

Lemma admit_request_ok p party u w x w' :
  admit_request p party u w = Ok x w' → is_support party = bool_decide (is_Some (nc_support_confirmation p)).
Proof.
  unfold admit_request. destruct (is_support party).
  - by intros [H%negb_false_iff _]%refuse_ok.
  - by intros ([] & w1 & [H _]%refuse_ok & _)%bind_ok.
Qed.

Lemma replay_created_ok k org party w r w' :
  replay_created k org party w = Ok (Some r) w' → ∃ o, earlier_order (db w) org k party o ∧ answers o r.
Proof.
  unfold replay_created. intros ([] & w1 & Hl & H)%bind_ok. apply answered_before_ok in H.
  enough (db w1 = db w) as Hd by (by rewrite Hd in H).
  destruct (given_key k); [|by inversion Hl].
  by apply (reads_ok _ _ _ _ (ltac:(keeps) : Keeps reads (acquire_idempotency_lock org ORDER_CREATE_OPERATION s))) in Hl as [? _].
Qed.

Section creating.
Context (p : OrderCreate) (raw_context raw_key : option string) (u : User) (w : World).
Context (Hsync : synced w) (Hok : market_ok (db w)) (Hex : items_exist (db w)) (Hlinked : trades_linked (db w)).
Context (Hset : settings_valid (settings w)) (Hvalid : order_create_valid p).

Lemma create_order_outcome : create_outcome w p raw_context raw_key u (create_order p raw_context raw_key u w).
Proof.
  unfold create_order. pose proof (resolve_party_outcome raw_context u w Hsync Hok) as Hparty.
  assert (∀ e w', quiet w w' → create_outcome w p raw_context raw_key u (Raise e w')) as Hfail
    by (intros e w'; by apply quiet_undone).
  apply settle_bind; [by destruct (resolve_request_party raw_context u w); apply Hparty|done|].
  intros party w1 Hrun Hr1. rewrite Hrun in Hparty. destruct Hparty as [_ Hparty]. clear Hrun.
  apply (frame_bind reads); [keeps|intros e w2 H2; apply Hfail, reads_quiet; by trans w1|]. intros [] w2 Hadm H2.
  assert (reads w w2) as Hr2 by (by trans w1). apply admit_request_ok in Hadm.
  destruct (effective_organization_of (Some party) u) as [org|] eqn:Horg; [|by apply Hfail, reads_quiet].
  destruct (order_key raw_key p party) as [k|e] eqn:Hkey; [|by apply Hfail, reads_quiet].
  erewrite bind_run by reflexivity.
  apply (frame_bind reads); [keeps|intros e w3 H3; apply Hfail, reads_quiet; by trans w2|]. intros [r|] w3 Hrep H3.
  - assert (reads w w3) as Hr3 by (by trans w2). exists party, org, k. split_and!; try done. left.
    apply replay_created_ok in Hrep. rewrite (proj1 Hr2) in Hrep. split; [done|]. split; apply Hr3.
  - pose proof (place_order_outcome p party k org w Hsync Hok Hex Hlinked Hset (proj1 (proj2 (proj2 Hvalid))) w3
      ltac:(by trans w2)) as Hplace.
    destruct (place_order p k party org w3) as [r w4|e w4]; [|exact Hplace]. exists party, org, k. by split_and!.
Qed.
End creating.

(** C2: Creating an order implements the listing of an order.  A request that is
    answered acts for the caller, or for the organization of an active support
    context exactly when it carries an assisted confirmation.  It returns the
    order that an earlier request with the same key, body and party has placed and
    changes nothing; or it lists one new order under an unused id, with the terms
    of the body, in a tradable window, for an active canonical product at an active
    canonical place, in at least the catalog's lot, with the metadata its side must
    state, unexpired, for an admitted member in the role of its side.  An assisted
    order crosses nothing tradable, rests, and is bound to a consumed authorization
    of its own that states the same terms; a self-service order is matched exactly
    as planned against the book it entered.  The response shows the row, and the
    committed tables satisfy the market invariant.  A request that fails commits
    nothing but the closing of a support context that has run out. *)
Theorem create_order_implements_listing p raw_context raw_key u w :
  synced w → market_ok (db w) → items_exist (db w) → trades_linked (db w) → settings_valid (settings w) →
  order_create_valid p →
  create_outcome w p raw_context raw_key u (create_order p raw_context raw_key u w).
Proof. intros. by apply create_order_outcome. Qed.

Lemma demo_listing_valid : order_create_valid demo_listing.
Proof. apply (bool_decide_unpack _). vm_compute. exact I. Qed.

Lemma create_order_implements_listing_witness :
  ∃ r w' party org k,
    create_order demo_listing Demo.support_header (Some "k1") Demo.admin Demo.supported = Ok r w'
    ∧ is_support party = true ∧ placed Demo.supported demo_listing party k org r w' ∧ or_status r = OPEN.
Proof.
  pose proof (create_order_implements_listing demo_listing Demo.support_header (Some "k1") Demo.admin Demo.supported
    eq_refl supported_ok supported_items ltac:(apply (bool_decide_unpack _); vm_compute; exact I)
    ltac:(apply (bool_decide_unpack _); vm_compute; exact I) demo_listing_valid) as H.
  assert (match create_order demo_listing Demo.support_header (Some "k1") Demo.admin Demo.supported with
          | Ok r w' => bool_decide (or_status r = OPEN)
                       && bool_decide (size (orders (db w')) ≠ size (orders (db Demo.supported)))
          | Raise _ _ => false end = true) as Hrun by (vm_compute; reflexivity).
  destruct (create_order _ _ _ _ _) as [r w'|]; [|discriminate Hrun].
  rewrite andb_true_iff, !bool_decide_eq_true in Hrun. destruct Hrun as [Hopen Hsize].
  destruct H as (party & org & k & Hparty & Hs & _ & _ & [(_ & Hd & _)|Hplaced]); [by rewrite Hd in Hsize|].
  exists r, w', party, org, k. split_and!; [reflexivity|rewrite Hs; reflexivity|exact Hplaced|exact Hopen].
Defined.

(** ** Which requests the table refuses *)

(** The carbon intensity an ask states fits its column: two decimals, at most 10000. *)
Definition carbon_fits (p : OrderCreate) : Prop :=
  nc_side p = ASK →
  match sm_carbon_intensity_gco2_mj (nc_metadata p) with
  | Some c => ∃ v, column_cents c = Some v ∧ v <= cents 10000
  | None => True
  end.
(** A demo order in the book expires. *)
Definition demo_expires (p : OrderCreate) (g : Organization) : Prop :=
  snapshot_organization_provenance (Some g) = DEMO → nc_expires_at p ≠ None.

Lemma column_cents_nonneg c v : 0 <= coef c → column_cents c = Some v → 0 <= v.
Proof.
  unfold column_cents, to_cents, coef_at. intros Hc.
  destruct (Z.leb_spec (-2) (expo c)); [intros [= <-]; nia|]. destruct (_ =? 0); [|done]. intros [= <-].
  apply Z.div_pos; [done|]. apply Z.pow_pos_nonneg; lia.
Qed.

Lemma carbon_column p :
  metadata_valid (nc_metadata p) →
  carbon_fits p ↔
  carbon_storable p = true
  ∧ optional_numeric (if bool_decide (nc_side p = ASK)
                      then sm_carbon_intensity_gco2_mj (nc_metadata p) ≫= column_cents else None) 0 (cents 10000).
Proof.
  unfold metadata_valid, carbon_fits, carbon_storable. intros Hv. destruct (nc_side p); cbn.
  { split; [by split|]. intros _ [=]. }
  destruct (sm_carbon_intensity_gco2_mj (nc_metadata p)) as [c|]; cbn; [|by split].
  destruct (column_cents c) as [v|] eqn:Hc; cbn.
  - apply column_cents_nonneg in Hc; [|done]. unfold required_numeric. split.
    + intros H. destruct (H eq_refl) as (v' & [= <-] & ?). split; [done|]. split; lia.
    + intros (_ & ? & ?) _. by eexists.
  - split; [|by intros [[=] _]]. intros H. by destruct (H eq_refl) as (v' & [=] & _).
Qed.

Lemma key_complete raw_key p party k :
  order_key raw_key p party = Val k →
  idempotency_complete (ck_idempotency_key k) ((λ _, ORDER_CREATE_OPERATION) <$> given_key k)
    (given_key k ≫= λ _, ck_request_hash k) ↔ raw_key ≠ Some "".
Proof.
  unfold order_key, idempotency_complete, given_key. destruct raw_key as [[|a raw]|].
  - destruct (is_support party); [done|]. intros [= <-]. cbn. naive_solver.
  - unfold mbind, res_bind. intros H. split; [done|]. intros _. right.
    destruct (normalize_idempotency_key (String a raw)) as [key|] eqn:Hkey; [|done]. injection H as <-. cbn.
    apply normalized_key_length in Hkey. destruct key; [cbn in Hkey; lia|done].
  - destruct (is_support party); [done|]. intros [= <-]. cbn. split; [done|]. intros _. by left.
Qed.

Lemma key_given raw_key p party k key :
  order_key raw_key p party = Val k → given_key k = Some key → raw_key ≠ None ∧ raw_key ≠ Some "".
Proof.
  unfold order_key, given_key.
  destruct raw_key as [[|]|]; [|done|]; destruct (is_support party); try done; by intros [= <-].
Qed.

Lemma new_order_row_checks_iff d p party raw_key k ordinal g org :
  order_create_valid p → order_key raw_key p party = Val k →
  order_checks (new_order d p party k ordinal g org) ∧ carbon_storable p = true
  ↔ raw_key ≠ Some "" ∧ carbon_fits p ∧ demo_expires p g.
Proof.
  intros ((_ & Hq) & (_ & Hp) & _ & _ & _ & _ & Hm & _) Hk. rewrite <-(key_complete _ _ _ _ Hk), (carbon_column p Hm).
  unfold order_checks, ORDER_DOMAIN, ORDER_NUMERIC_VALUES, ORDER_LIFECYCLE, order_version_check, demo_expires. cbn.
  unfold required_numeric. destruct (decide (snapshot_organization_provenance (Some g) = DEMO)); intuition (lia || done).
Qed.

(** C36: A valid body makes a well-formed row, except where its schema is looser
    than the table.  The row that [create_order] builds from a body the schema
    admits satisfies every CHECK of the order table exactly when the
    Idempotency-Key header is not the empty text, the carbon intensity of an ask
    has at most two decimals and is at most 10000, and an order of a demo
    organization has an expiry. *)
Theorem new_order_row_checks d p party raw_key k ordinal g org :
  order_create_valid p → order_key raw_key p party = Val k →
  order_checks (new_order d p party k ordinal g org) ∧ carbon_storable p = true
  ↔ raw_key ≠ Some "" ∧ carbon_fits p ∧ demo_expires p g.
Proof. apply new_order_row_checks_iff. Qed.

Lemma new_order_row_checks_witness :
  let k := MkCreateKey None None in
  let party := self_service_party Demo.supplier (Some Demo.refinery) in
  order_key None demo_listing party = Val k
  ∧ order_checks (new_order Demo.market demo_listing party k 7 Demo.refinery (g_id Demo.refinery)).
Proof.
  cbv zeta. split; [reflexivity|].
  refine (proj1 (proj2 (new_order_row_checks Demo.market demo_listing
    (self_service_party Demo.supplier (Some Demo.refinery)) None (MkCreateKey None None) 7 Demo.refinery _
    demo_listing_valid eq_refl) _)).
  split; [discriminate|]. split; [|discriminate]. intros _. exists 1500. split; [reflexivity|]. unfold cents. lia.
Defined.

(** A request that the table refuses fails, and leaves nothing behind.  With an
    empty Idempotency-Key header [create_order] never answers, whatever the request:
    the empty text is stored without an operation and violates the CHECK that wants
    the idempotency columns together.  Nor does it answer a keyless ask whose carbon
    intensity has a third decimal or exceeds 10000. *)
Theorem create_order_refuses_unstorable p raw_context raw_key u w :
  synced w → market_ok (db w) → items_exist (db w) → trades_linked (db w) → settings_valid (settings w) →
  order_create_valid p → raw_key = Some "" ∨ raw_key = None ∧ ¬ carbon_fits p →
  match create_order p raw_context raw_key u w with
  | Ok _ _ => False
  | Raise _ w' => undone w w'
  end.
Proof.
  intros Hs Hok Hex Hl Hset Hv Hbad.
  pose proof (create_order_outcome p raw_context raw_key u w Hs Hok Hex Hl Hset Hv) as H.
  destruct (create_order p raw_context raw_key u w) as [r w'|e w']; [|exact H].
  destruct H as (party & org & k & _ & _ & _ & Hk & [[(o & (key & Hgiven & _) & _) _]|H]).
  - apply (key_given _ _ _ _ key) in Hk; [|done]. destruct Hbad as [->|[-> _]]; naive_solver.
  - destruct H as (ordinal & g & product & a & _ & Hc & Hcarbon & _).
    destruct (proj1 (new_order_row_checks_iff (db w) p party raw_key k ordinal g org Hv Hk) (conj Hc Hcarbon)) as (? & ? & _).
    naive_solver.
Qed.

Lemma unplaced_ok : market_ok (db unplaced).
Proof. apply (bool_decide_unpack _). vm_compute. exact I. Qed.
Lemma demo_bid_valid : order_create_valid demo_bid.
Proof. apply (bool_decide_unpack _). vm_compute. exact I. Qed.

Lemma create_order_refuses_unstorable_witness :
  ∃ e w', create_order demo_bid None (Some "") Demo.buyer unplaced = Raise e w' ∧ undone unplaced w'
    ∧ raised (create_order demo_bid None (Some "") Demo.buyer unplaced)
      = Some (IntegrityError "check or unique constraint").
Proof.
  pose proof (create_order_refuses_unstorable demo_bid None (Some "") Demo.buyer unplaced eq_refl unplaced_ok
    ltac:(apply (bool_decide_unpack _); vm_compute; exact I) ltac:(apply (bool_decide_unpack _); vm_compute; exact I)
    ltac:(apply (bool_decide_unpack _); vm_compute; exact I) demo_bid_valid (or_introl eq_refl)) as H.
  assert (raised (create_order demo_bid None (Some "") Demo.buyer unplaced)
    = Some (IntegrityError "check or unique constraint")) as Hr by (vm_compute; reflexivity).
  destruct (create_order _ _ _ _ _) as [r w'|e w']; [destruct H|]. exists e, w'. split_and!; [reflexivity|exact H|exact Hr].
Defined.
