(* ===== verification/ListingSteps.v ===== *)
(** * A placed order on the ledger

    What matching a new order does to the books: which rows stay, what each
    trade takes out of which inventory row.  [accounted_stock] is everything an
    inventory row has held since it was recorded; a match conserves it as long
    as only asks are backed. *)

From S2P Require Import Prelude Sha256 Catalog Calendar AvailabilityWindows Decimal Json Schema OrderTerms Constraints Delivery Database Queries Policy Eligibility Events Commands TradeViews Watchlist Benchmarks Inventory Ledger TradeLedger Admission RequestParty Trades Orders TradeSteps TradesSafety OrdersSafety Lifecycle Matching MatchingSpec MatchingSafety OrderCreationSafety.
Local Open Scope Z_scope.

(** ** The account of an inventory row *)

(** What the settled trades have taken out of item [i]. *)
Definition is_settled (s : TradeStatus) : bool :=
  match s with CONFIRMED | DELIVERED | PAID => true | _ => false end.
Definition trade_takes (m : gmap uuid Order) (i : uuid) (t : Trade) : Z :=
  if is_settled (t_status t) && bool_decide (trade_item m t = Some i) then t_quantity_mt t else 0.
Definition taken_stock (d : Database) (i : uuid) : Z := sum_map (trade_takes (orders d) i) (trades d).

(** Free, reserved and taken: what item [i] has held since it was recorded. *)
Definition accounted_stock (d : Database) (i : uuid) : option Z :=
  (λ item, i_current_stock_mt item + i_reserved_stock_mt item + taken_stock d i) <$> inventory d !! i.

(** Only asks are backed by inventory. *)
Definition asks_backed (d : Database) : Prop :=
  map_Forall (λ _ o, o_inventory_item_id o ≠ None → o_side o = ASK) (orders d).
#[export] Instance asks_backed_dec d : Decision (asks_backed d).
Proof. unfold asks_backed. apply _. Defined.

(** ** Books that keep every order, its side and its backing *)

Definition same_backing (o o' : Order) : Prop :=
  o_inventory_item_id o' = o_inventory_item_id o ∧ o_side o' = o_side o.
Definition orders_kept (m m' : gmap uuid Order) : Prop :=
  ∀ id, option_Forall2 same_backing (m !! id) (m' !! id).

Lemma same_backing_refl o : same_backing o o.
Proof. done. Qed.
#[export] Instance orders_kept_preorder : PreOrder orders_kept.
Proof.
  split.
  - intros m id. destruct (m !! id); by constructor.
  - intros m1 m2 m3 H1 H2 id. specialize (H1 id). specialize (H2 id).
    destruct H1 as [a b [E1 E2]|]; [|done]. inversion H2 as [? c [E3 E4] Ha Hc|]; subst. constructor. split; congruence.
Qed.

Lemma kept_insert m o o' : m !! o_id o' = Some o → same_backing o o' → orders_kept m (<[ o_id o' := o' ]> m).
Proof.
  intros Ho Hb id. destruct (decide (id = o_id o')) as [->|].
  - rewrite lookup_insert_eq, Ho. by constructor.
  - rewrite lookup_insert_ne by done. destruct (m !! id); by constructor.
Qed.

Lemma kept_trade_item m m' t : orders_kept m m' → trade_item m' t = trade_item m t.
Proof.
  intros H. unfold trade_item. destruct (trade_order_id t) as [id|]; [|done]. cbn.
  by destruct (H id) as [a b [E _]|].
Qed.

Lemma kept_takes m m' i t : orders_kept m m' → trade_takes m' i t = trade_takes m i t.
Proof. intros H. unfold trade_takes. by rewrite (kept_trade_item m m'). Qed.

Lemma kept_linked d d' s id : orders_kept (orders d) (orders d') → linked_to d s id → linked_to d' s id.
Proof.
  intros H. unfold linked_to. destruct id as [id|]; [|done]. by destruct (H id) as [a b [_ ->]|].
Qed.

Lemma kept_asks_backed d d' : orders_kept (orders d) (orders d') → asks_backed d → asks_backed d'.
Proof.
  intros H Hb id o' Ho'. specialize (H id). rewrite Ho' in H. inversion H as [o ? [E1 E2] Ho|]; subst.
  rewrite E1, E2. by apply (Hb id).
Qed.

Lemma kept_items d d' :
  orders_kept (orders d) (orders d') → (∀ i, is_Some (inventory d !! i) → is_Some (inventory d' !! i)) →
  items_exist d → items_exist d'.
Proof.
  intros H Hinv Hex id o' Ho'. specialize (H id). rewrite Ho' in H. inversion H as [o ? [E1 E2] Ho|]; subst.
  rewrite E1. symmetry in Ho. specialize (Hex _ _ Ho). cbn in Hex. destruct (o_inventory_item_id o); [by apply Hinv|done].
Qed.

Lemma identity_backing o o' : same_identity o o' → same_backing o o'.
Proof. unfold same_identity, same_backing. intros H. by destruct_and! H. Qed.

(** Replacing a row under the same identity keeps the books. *)
Lemma kept_put m o o' : m !! o_id o = Some o → same_identity o o' → orders_kept m (<[ o_id o' := o' ]> m).
Proof. intros Ho H. apply (kept_insert m o); [by rewrite (proj1 H)|by apply identity_backing]. Qed.

Lemma kept_trades_linked d d' :
  orders_kept (orders d) (orders d') → trades d' = trades d → trades_linked d → trades_linked d'.
Proof. intros H Et Hl k t Ht. rewrite Et in Ht. destruct (Hl k t Ht). split; by eapply kept_linked. Qed.

(** ** A new row of the books *)

Section listed.
Context (d d1 : Database) (n : Order) (Hnew : orders d !! o_id n = None) (Hitem : o_inventory_item_id n = None).
Context (Hlisted : listed_in d n d1).

Lemma listed_orders : orders d1 = <[ o_id n := n ]> (orders d).
Proof. apply Hlisted. Qed.
Lemma listed_row : orders d1 !! o_id n = Some n.
Proof. rewrite listed_orders. apply lookup_insert_eq. Qed.
Lemma listed_keyed : orders_keyed d → orders_keyed d1.
Proof. unfold orders_keyed. rewrite listed_orders. intros H. by apply map_Forall_insert_2. Qed.

Lemma listed_keeps id o : orders d !! id = Some o → orders d1 !! id = Some o.
Proof. intros Ho. rewrite listed_orders, lookup_insert_ne; [done|]. intros E. congruence. Qed.

Lemma listed_linked_to s id : linked_to d s id → linked_to d1 s id.
Proof.
  destruct id as [id|]; [|done]. cbn. destruct (orders d !! id) as [o|] eqn:Ho; [|done]. by rewrite (listed_keeps id o).
Qed.
Lemma listed_linked : trades_linked d → trades_linked d1.
Proof.
  destruct Hlisted as (_ & Et & _). intros Hl k t Ht. rewrite Et in Ht. destruct (Hl k t Ht).
  split; by apply listed_linked_to.
Qed.

Lemma listed_asks_backed : asks_backed d → asks_backed d1.
Proof. intros H. unfold asks_backed. rewrite listed_orders. by apply map_Forall_insert_2. Qed.

Lemma listed_items : items_exist d → items_exist d1.
Proof.
  destruct Hlisted as (_ & _ & Ei & _). intros H. unfold items_exist. rewrite listed_orders, Ei.
  apply map_Forall_insert_2; [by rewrite Hitem|exact H].
Qed.

Lemma listed_accounts i : trades_linked d → accounted_stock d1 i = accounted_stock d i.
Proof.
  destruct Hlisted as (_ & Et & Ei & _). intros Hl. unfold accounted_stock, taken_stock. rewrite Ei, Et. cbn.
  rewrite (sum_map_ext (trade_takes (orders d1) i) (trade_takes (orders d) i)); [done|].
  intros k t Ht. unfold trade_takes. assert (trade_item (orders d1) t = trade_item (orders d) t) as ->; [|done].
  assert (∃ s, linked_to d s (trade_order_id t)) as [s Hid].
  { destruct (Hl k t Ht). unfold trade_order_id. destruct (t_ask_order_id t); by eexists. }
  unfold trade_item. destruct (trade_order_id t) as [id|]; [|done]. cbn in Hid |- *.
  destruct (orders d !! id) as [o|] eqn:Ho; [|done]. by rewrite (listed_keeps id o Ho).
Qed.
End listed.

(** ** What a match does to the books *)

(** Trades struck automatically between two rows of the book. *)
Definition auto_trade (d : Database) (t : Trade) : Prop :=
  t_status t = CONFIRMED ∧ linked_to d BID (t_bid_order_id t) ∧ linked_to d ASK (t_ask_order_id t).

Definition takes_all (m : gmap uuid Order) (i : uuid) (ts : list Trade) : Z :=
  foldr (λ t acc, trade_takes m i t + acc) 0 ts.

Record traded (d d' : Database) (ts : list Trade) : Prop := {
  td_orders : orders_kept (orders d) (orders d');
  td_inserted : inserted ts (trades d) (trades d');
  td_auto : Forall (auto_trade d) ts;
  td_inventory : ∀ i, inventory d' !! i = draw (takes_all (orders d) i ts) <$> inventory d !! i;
}.

Lemma traded_nothing d d' :
  orders_kept (orders d) (orders d') → trades d' = trades d → inventory d' = inventory d → traded d d' [].
Proof.
  intros Ho Ht Hi. split; [done|by rewrite Ht|constructor|]. intros i. rewrite Hi. cbn.
  destruct (inventory d !! i) as [item|]; [|done]. cbn. by rewrite draw_0.
Qed.

Section plan.
Context (d : Database) (n : Order) (ctx : MatchContext).
Context (Hk : orders_keyed d) (Hn : orders d !! o_id n = Some n) (Hb : asks_backed d).

(** A crossing row of the book, on the other side. *)
Definition crosses (f : Order * Z) : Prop := orders d !! o_id f.1 = Some f.1 ∧ o_side f.1 = opposite (o_side n).

Lemma plan_rows : Forall crosses (match_plan d n ctx).
Proof.
  apply Forall_forall. intros f Hf.
  assert (f.1 ∈ (match_plan d n ctx).*1) as Hin by (apply list_elem_of_fmap; by exists f).
  pose proof (elem_of_sublist _ _ _ Hin (plan_sublist _ _)) as [_ Hc]%list_elem_of_filter.
  pose proof (elem_of_sublist _ _ _ Hc (sublist_take _ _)) as Hb'.
  apply elem_of_prioritized in Hb' as [Hrow Hm]; [|done]. apply match_filters_facts in Hm.
  split; [done|by destruct_and! Hm].
Qed.

Lemma same_terms_backing o o' : same_terms o o' → same_backing o o'.
Proof. unfold same_terms, same_backing. intros H. by destruct_and! H. Qed.

Lemma book_after_kept fills : Forall crosses fills → orders_kept (orders d) (book_after n fills (orders d)).
Proof.
  intros Hf id. unfold book_after. destruct (decide (id = o_id n)) as [->|Hne].
  { rewrite lookup_insert_eq, Hn. constructor. apply same_terms_backing, fill_all_terms. }
  rewrite lookup_insert_ne by done. rewrite lookup_union.
  destruct (fill_map fills !! id) as [x|] eqn:Hx; [|by destruct (orders d !! id); constructor].
  apply elem_of_list_to_map_2, list_elem_of_fmap in Hx as (f & [= -> ->] & Hin).
  rewrite Forall_forall in Hf. destruct (Hf f Hin) as [-> _]. constructor.
  apply same_terms_backing, fill_order_terms.
Qed.

(** An automatic trade takes its quantity from the row behind the ask. *)
Lemma fill_takes f t i :
  crosses f → fill_trade d ctx n f t → auto_trade d t ∧ trade_takes (orders d) i t = drawn i n f.1 f.2.
Proof.
  intros [Hrow Hside] (id & plan & fee & ca & cr & -> & _). destruct f as [c q]. cbn in Hrow, Hside |- *.
  pose proof (Hb _ _ Hn) as Hbn. pose proof (Hb _ _ Hrow) as Hbc. cbn in Hbn, Hbc.
  unfold auto_trade, trade_takes, trade_item, drawn, linked_to. cbn. rewrite Hside in Hbc.
  destruct (o_side n) eqn:En; [change (bool_decide (BID = BID)) with true|change (bool_decide (ASK = BID)) with false];
    cbn; rewrite Hn, Hrow; cbn.
  - split; [by split_and!|].
    destruct (o_inventory_item_id n); [by discriminate Hbn|]. rewrite (bool_decide_eq_false_2 (None = _)) by done. lia.
  - split; [by split_and!|].
    destruct (o_inventory_item_id c); [by discriminate Hbc|]. rewrite (bool_decide_eq_false_2 (None = _)) by done. lia.
Qed.

Lemma consume_all_takes i fills ts m :
  Forall crosses fills → Forall2 (fill_trade d ctx n) fills ts →
  consume_all n fills m !! i = draw (takes_all (orders d) i ts) <$> m !! i.
Proof.
  intros Hc H. revert m Hc. induction H as [|f t fills ts Hft _ IH]; intros m Hc.
  { cbn. destruct (m !! i) as [item|]; [|done]. cbn. by rewrite draw_0. }
  apply Forall_cons in Hc as [Hf Hc]. cbn. change (foldl _ ?m0 fills) with (consume_all n fills m0).
  rewrite IH by done. rewrite consume_map_lookup. destruct (fill_takes f t i Hf Hft) as [_ ->].
  destruct (m !! i) as [item|]; [|done]. cbn. by rewrite draw_draw.
Qed.

Lemma plan_traded d' ts :
  Forall2 (fill_trade d ctx n) (match_plan d n ctx) ts →
  orders d' = book_after n (match_plan d n ctx) (orders d) → inserted ts (trades d) (trades d') →
  inventory d' = consume_all n (match_plan d n ctx) (inventory d) → traded d d' ts.
Proof.
  intros Hts Ho Ht Hi. pose proof plan_rows as Hrows. split.
  - rewrite Ho. by apply book_after_kept.
  - done.
  - clear Ho Ht Hi. induction Hts as [|f t fills ts Hft _ IH]; [constructor|].
    apply Forall_cons in Hrows as [Hf Hrows]. constructor; [by apply (fill_takes f t 0%N)|by apply IH].
  - intros i. rewrite Hi. by apply consume_all_takes.
Qed.
End plan.

Lemma matched_traded auto anonymous n now d d' ts :
  orders_keyed d → orders d !! o_id n = Some n → asks_backed d →
  matched_in auto anonymous n now d d' ts → traded d d' ts.
Proof.
  intros Hk Hn Hb. unfold matched_in.
  assert (∀ e, same_ledger d e → traded d e []) as Hrest.
  { intros e (Eo & Et & Ei). by apply traded_nothing; [rewrite Eo|..]. }
  destruct (_ || _); [intros [-> H]; by apply Hrest|]. destruct (order_expired n now).
  { intros [-> (Eo & Et & Ei)]. destruct (closed_order_row EXPIRED n) as ((Eid & _ & Eitem & _) & _).
    apply traded_nothing; [|done..]. rewrite Eo. cbn. rewrite <-Eid. apply (kept_insert _ n); [by rewrite Eid|].
    split; [done|]. exact (proj1 (proj2 (bump_version_fields (n <| o_status := EXPIRED |>)))). }
  destruct (match_context n now anonymous None) as [ctx|]; [|intros [-> H]; by apply Hrest].
  intros (Hts & Ho & Ht & Hi). by eapply plan_traded.
Qed.

(** ** What every match preserves *)

Section traded.
Context (d d' : Database) (ts : list Trade) (Htr : traded d d' ts).

Lemma traded_inventory i : is_Some (inventory d !! i) → is_Some (inventory d' !! i).
Proof. rewrite (td_inventory _ _ _ Htr). apply fmap_is_Some. Qed.

Lemma inserted_lookup l (m m' : gmap uuid Trade) k t :
  inserted l m m' → m' !! k = Some t → m !! k = Some t ∨ t ∈ l.
Proof.
  revert m. induction l as [|x l IH]; intros m; cbn; [intros ->; by left|]. intros [Hx H] Ht.
  destruct (IH _ H Ht) as [Hm|Hin]; [|by right; right]. destruct (decide (t_id x = k)) as [<-|].
  - rewrite lookup_insert_eq in Hm. injection Hm as <-. right. left.
  - rewrite lookup_insert_ne in Hm by done. by left.
Qed.

Lemma inserted_keeps l (m m' : gmap uuid Trade) k t :
  inserted l m m' → m !! k = Some t → m' !! k = Some t.
Proof.
  revert m. induction l as [|x l IH]; intros m; cbn; [by intros ->|]. intros [Hx H] Ht.
  apply (IH _ H). rewrite lookup_insert_ne; [done|]. intros E. congruence.
Qed.

Lemma traded_linked : trades_linked d → trades_linked d'.
Proof.
  intros Hl k t Ht. destruct Htr as [Ho Hins Hauto _].
  assert (linked_to d BID (t_bid_order_id t) ∧ linked_to d ASK (t_ask_order_id t)) as [H1 H2].
  { destruct (inserted_lookup _ _ _ _ _ Hins Ht) as [Hm|Hin]; [by apply (Hl k)|].
    rewrite Forall_forall in Hauto. by destruct (Hauto t Hin). }
  split; by eapply kept_linked.
Qed.

Lemma sum_inserted (f : Trade → Z) l (m m' : gmap uuid Trade) :
  inserted l m m' → sum_map f m' = sum_map f m + foldr (λ t acc, f t + acc) 0 l.
Proof.
  revert m. induction l as [|t l IH]; intros m; cbn; [intros ->; lia|]. intros [Ht H].
  rewrite (IH _ H), sum_map_insert by done. lia.
Qed.

Lemma traded_accounts i : accounted_stock d' i = accounted_stock d i.
Proof.
  destruct Htr as [Ho Hins _ Hinv]. unfold accounted_stock. rewrite Hinv.
  destruct (inventory d !! i) as [item|]; [|done]. cbn. f_equal. unfold taken_stock.
  rewrite (sum_map_ext _ (trade_takes (orders d) i)) by (intros; by apply kept_takes).
  rewrite (sum_inserted _ _ _ _ Hins). unfold takes_all. lia.
Qed.
End traded.
