(* ===== verification/OrderAmendment.v ===== *)
(** * Amending an order

    [app/routers/orderbook.py], [update_order]: the owner of a self-service
    order changes its terms while it is in the book.  One transaction: the stored
    result of a repeated command, guards, slice and row locks, guards again,
    quantity and stock, queue priority, the row, match, benchmarks, events,
    audit, stored response, commit.

    The market identity of an order is immutable.  A field of the request is
    absent, null or given.  [exclude_unset] dumps and responses are Pydantic's;
    [created_at] and the supplier tier are left out of the stored response. *)

From S2P Require Import Prelude Sha256 Catalog Calendar AvailabilityWindows Decimal Json Schema OrderTerms Constraints Delivery Database Scenario Queries Policy Eligibility Events Commands TradeViews Watchlist Benchmarks Inventory Ledger Admission RequestParty Trades Orders Lifecycle Matching PostOnly OrderEntry AutoMatch OrderCreation.
Local Open Scope Z_scope.

(** ** The request *)

(** Absent, null, or given. *)
Abbreviation field A := (option (option A)).

Record OrderUpdate := MkOrderUpdate {
  ou_quantity_mt : field decimal;
  ou_price_per_mt_usd : field decimal;
  ou_availability_window : field string;
  ou_certifications : field (list string);
  ou_certification_declared : field bool;
  ou_certification_scheme : field string;
  ou_specification_standard : field string;
  ou_msds_available : field bool;
  ou_carbon_intensity_gco2_mj : field decimal;
  ou_carbon_intensity_method : field string;
  ou_feedstock : field string;
  ou_origin : field string;
  ou_off_spec : field bool;
  ou_off_spec_notes : field string;
  ou_expires_at : field datetime;
}.
#[export] Instance OrderUpdate_eta : Eta OrderUpdate := λ r,
  MkOrderUpdate (ou_quantity_mt r) (ou_price_per_mt_usd r) (ou_availability_window r) (ou_certifications r)
    (ou_certification_declared r) (ou_certification_scheme r) (ou_specification_standard r)
    (ou_msds_available r) (ou_carbon_intensity_gco2_mj r) (ou_carbon_intensity_method r)
    (ou_feedstock r) (ou_origin r) (ou_off_spec r) (ou_off_spec_notes r) (ou_expires_at r).

Definition given_within (x : field decimal) (lo hi : Z) : Prop :=
  match x with Some (Some d) => amount_within d lo hi | _ => True end.
(** What the schema admits. *)
Definition order_update_valid (p : OrderUpdate) : Prop :=
  given_within (ou_quantity_mt p) 1 (cents 100000)
  ∧ given_within (ou_price_per_mt_usd p) 1 (cents 1000000)
  ∧ match ou_availability_window p with Some (Some w) => JSON_SCHEMA_PATTERN w = true | _ => True end
  ∧ match ou_carbon_intensity_gco2_mj p with Some (Some c) => 0 <= coef c | _ => True end.

(** [model_dump(exclude_unset=True)] *)
Definition dumped {A} (name : string) (f : A → jvalue) (x : field A) : list (string * jvalue) :=
  match x with Some v => [(name, vopt f v)] | None => [] end.
Definition update_dump (p : OrderUpdate) : list (string * jvalue) :=
  dumped "quantity_mt" canonical_decimal (ou_quantity_mt p)
  ++ dumped "price_per_mt_usd" canonical_decimal (ou_price_per_mt_usd p)
  ++ dumped "availability_window" VStr (ou_availability_window p)
  ++ dumped "certifications" (λ l, VList (VStr <$> l)) (ou_certifications p)
  ++ dumped "certification_declared" VBool (ou_certification_declared p)
  ++ dumped "certification_scheme" VStr (ou_certification_scheme p)
  ++ dumped "specification_standard" VStr (ou_specification_standard p)
  ++ dumped "msds_available" VBool (ou_msds_available p)
  ++ dumped "carbon_intensity_gco2_mj" canonical_decimal (ou_carbon_intensity_gco2_mj p)
  ++ dumped "carbon_intensity_method" VStr (ou_carbon_intensity_method p)
  ++ dumped "feedstock" VStr (ou_feedstock p)
  ++ dumped "origin" VStr (ou_origin p)
  ++ dumped "off_spec" VBool (ou_off_spec p)
  ++ dumped "off_spec_notes" VStr (ou_off_spec_notes p)
  ++ dumped "expires_at" (VStr ∘ isoformat_z) (ou_expires_at p).

Definition amend_payload (order_id : uuid) (p : OrderUpdate) : jvalue :=
  VObj [ ("operation", VStr ORDER_AMEND_OPERATION); ("order_id", VStr (uuid_text order_id));
         ("update", VObj (update_dump p)) ].

(** ** The changes *)

(** [update_dict]: the scheme normalized, the window dropped, and what only an
    ask may say dropped for a bid. *)
Definition update_dict (p : OrderUpdate) (o : Order) : OrderUpdate :=
  let c := p <| ou_availability_window := None |>
             <| ou_certification_scheme := normalize_certification_scheme <$> ou_certification_scheme p |> in
  match o_side o with
  | ASK => c
  | BID => c <| ou_certification_declared := None |> <| ou_specification_standard := None |>
             <| ou_msds_available := None |> <| ou_carbon_intensity_gco2_mj := None |>
             <| ou_carbon_intensity_method := None |> <| ou_feedstock := None |> <| ou_origin := None |>
             <| ou_off_spec := None |> <| ou_off_spec_notes := None |>
  end.

(** [update_dict.get(field, order.field)] *)
Definition requested {A} (change : field A) (current : option A) : option A := default current change.
(** [bool(update_dict.get(field, order.field))] *)
Definition requested_flag (change : field bool) (current : bool) : bool :=
  default false (requested change (Some current)).

(** A metadata or an economic field is in the changes: without the window, any is. *)
Definition economic_update (c : OrderUpdate) : bool := negb (bool_decide (update_dump c = [])).

Definition normalized_schemes (certifications : option (list string)) : gset string :=
  list_to_set (omap (λ item, normalize_certification_scheme (Some item)) (default [] certifications)).

(** Whether an effective amendment admits a new execution opportunity.  The
    schema knows no [fame_terms]. *)
Definition _amendment_loses_priority (o : Order) (c : OrderUpdate) : bool :=
  match ou_price_per_mt_usd c with
  | Some price => bool_decide (to_cents <$> price ≠ Some (o_price_per_mt_usd o))
  | None => false
  end
  || match ou_quantity_mt c with Some (Some q) => o_quantity_mt o <? to_cents q | _ => false end
  || match ou_expires_at c, o_expires_at o with
     | Some new_expiry, Some old => match new_expiry with Some e => old <? e | None => true end
     | _, _ => false
     end
  || match ou_certifications c with
     | Some l => bool_decide (normalized_schemes (o_certifications o) ≠ normalized_schemes l)
     | None => false
     end
  || match ou_certification_scheme c with
     | Some scheme => bool_decide (scheme ≠ o_certification_scheme o)
     | None => false
     end
  || match ou_off_spec c with Some off => o_off_spec o && negb (default false off) | None => false end.

(** The changes set on the row; the new ordinal of one that lost its place. *)
Definition amended_order (o : Order) (c : OrderUpdate) (ordinal : option Z) : Order :=
  let quantity := match ou_quantity_mt c with Some (Some q) => to_cents q | _ => o_quantity_mt o end in
  let remaining := o_remaining_quantity_mt o + (quantity - o_quantity_mt o) in
  o <| o_quantity_mt := quantity |> <| o_remaining_quantity_mt := remaining |>
    <| o_status := if bool_decide (is_Some (ou_quantity_mt c)) && (remaining =? 0) then FILLED else o_status o |>
    <| o_price_per_mt_usd := match ou_price_per_mt_usd c with Some (Some x) => to_cents x | _ => o_price_per_mt_usd o end |>
    <| o_certifications := requested (ou_certifications c) (o_certifications o) |>
    <| o_certification_declared := requested_flag (ou_certification_declared c) (o_certification_declared o) |>
    <| o_certification_scheme := requested (ou_certification_scheme c) (o_certification_scheme o) |>
    <| o_specification_standard := requested (ou_specification_standard c) (o_specification_standard o) |>
    <| o_msds_available := requested_flag (ou_msds_available c) (o_msds_available o) |>
    <| o_carbon_intensity_gco2_mj := match ou_carbon_intensity_gco2_mj c with
                                     | Some x => x ≫= column_cents | None => o_carbon_intensity_gco2_mj o end |>
    <| o_carbon_intensity_method := requested (ou_carbon_intensity_method c) (o_carbon_intensity_method o) |>
    <| o_feedstock := requested (ou_feedstock c) (o_feedstock o) |>
    <| o_origin := requested (ou_origin c) (o_origin o) |>
    <| o_off_spec := requested_flag (ou_off_spec c) (o_off_spec o) |>
    <| o_off_spec_notes := requested (ou_off_spec_notes c) (o_off_spec_notes o) |>
    <| o_expires_at := requested (ou_expires_at c) (o_expires_at o) |>
    <| o_acceptance_ordinal := default (o_acceptance_ordinal o) ordinal |>.

(** A null that the table refuses, or a carbon intensity with a third decimal. *)
Definition amendment_storable (c : OrderUpdate) : bool :=
  match ou_price_per_mt_usd c with Some None => false | _ => true end
  && match ou_off_spec c with Some None => false | _ => true end
  && match ou_carbon_intensity_gco2_mj c with
     | Some (Some x) => bool_decide (is_Some (column_cents x))
     | _ => true
     end.

(** ** The guards *)

Definition check_new_expiry (p : OrderUpdate) : M World unit :=
  match ou_expires_at p with
  | Some (Some e) => now ← utcnow; refuse (e <=? now) (HTTPException 422 (Msg "expires_at must be in the future"))
  | _ => mret tt
  end.

Definition order_has_expired (o : Order) : M World bool :=
  overdue ← order_overdue o; mret (overdue && is_active_status (o_status o)).
Definition overdue_error : exn := bad_request "Order has expired".
Definition not_updatable : exn := bad_request "Can only update orders with OPEN or PARTIALLY_FILLED status".
Definition not_own_order : exn := HTTPException 403 (Msg "You can only update your own orders").

(** An ask must still say everything an ask says. *)
Definition check_amended_metadata (o : Order) (c : OrderUpdate) : M World unit :=
  match o_side o with
  | BID => mret tt
  | ASK =>
      _require_supplier_certification (requested_flag (ou_certification_declared c) (o_certification_declared o))
        (requested (ou_certification_scheme c) (o_certification_scheme o)) ;;
      _require_supplier_metadata (requested (ou_specification_standard c) (o_specification_standard o))
        (requested_flag (ou_msds_available c) (o_msds_available o))
        match ou_carbon_intensity_gco2_mj c with
        | Some x => bool_decide (is_Some x)
        | None => bool_decide (is_Some (o_carbon_intensity_gco2_mj o))
        end
        (requested (ou_feedstock c) (o_feedstock o)) (requested (ou_origin c) (o_origin o)) (o_product_id o)
        (requested (ou_carbon_intensity_method c) (o_carbon_intensity_method o))
  end.

(** The guards before the locks; the result is [update_dict]. *)
Definition preview_amendment (p : OrderUpdate) (o : Order) (current_user : User) : M World OrderUpdate :=
  refuse (negb (owns_order o current_user)) not_own_order ;;
  refuse (is_assisted o)
    (HTTPException 409 (Msg "Assisted listings cannot be edited; cancel and create a replacement")) ;;
  expired ← order_has_expired o;
  refuse expired overdue_error ;;
  refuse (negb (is_active_status (o_status o))) not_updatable ;;
  refuse (match ou_availability_window p with
          | Some (Some window) => bool_decide (window ≠ o_availability_window o)
          | _ => false
          end)
    (HTTPException 409 (Msg "Executable order market identity is immutable; cancel and create a new order")) ;;
  let c := update_dict p o in
  check_amended_metadata o c ;;
  mret c.

(** Slice and row, and the guards again; then the owner's organization. *)
Definition lock_amended_order (preview : Order) (current_user : User) : M World Order :=
  acquire_market_slice_locks [order_slice preview] ;;
  take_lock (RowOrders [o_id preview]) ;;
  d ← get_db;
  match orders d !! o_id preview with
  | None => raise order_not_found
  | Some o =>
      refuse (bool_decide (Some (o_organization_id o) ≠ u_organization_id current_user)) not_own_order ;;
      rollback_raise (bool_decide (order_slice o ≠ order_slice preview))
        (HTTPException 409 (Msg "Order slice changed; retry the update"))
        (expired ← order_has_expired o;
         rollback_raise expired overdue_error
           (rollback_raise (negb (is_active_status (o_status o))) not_updatable
              (lock_and_load_market_organizations [o_organization_id o]
                 [MkMarketActorOwnership (u_id current_user) (o_organization_id o)] true [] ;;
               mret o)))
  end.

(** ** The effects *)

(** The new quantity against what is filled, and the stock behind the difference. *)
Definition amend_quantity (o : Order) (c : OrderUpdate) : M World unit :=
  match ou_quantity_mt c with
  | None => mret tt
  | Some None => raise TypeError
  | Some (Some new_quantity) =>
      let filled := o_quantity_mt o - o_remaining_quantity_mt o in
      let new_remaining := to_cents new_quantity - filled in
      refuse (new_remaining <? 0) (bad_request "New quantity cannot be less than already filled amount") ;;
      d ← get_db;
      match order_product d o with
      | None => raise AttributeError
      | Some product => require_minimum_order_quantity new_quantity product ;; mret tt
      end ;;
      match o_inventory_item_id o with
      | Some item =>
          let remaining_delta := new_remaining - o_remaining_quantity_mt o in
          if 0 <? remaining_delta then reserve_inventory item remaining_delta ;; mret tt
          else if remaining_delta <? 0 then release_inventory item (- remaining_delta) ;; mret tt
          else mret tt
      | None => mret tt
      end
  end.

Definition amended_ordinal (o : Order) (c : OrderUpdate) : M World (option Z) :=
  if _amendment_loses_priority o c then ordinal ← next_order_acceptance_ordinal; mret (Some ordinal)
  else mret None.

(** The row, as the next query flushes it. *)
Definition store_amendment (c : OrderUpdate) (o' : Order) : M World unit :=
  put_order o' ;;
  refuse (negb (amendment_storable c)) (IntegrityError "ck_orderbook_orders_numeric_values") ;;
  flush.

(** The trades of the amended order, and the best price they met. *)
Definition match_amended (c : OrderUpdate) (o' : Order) : M World (list Trade * option Z) :=
  configuration ← gets settings;
  if economic_update c && AUTO_MATCHING_ENABLED configuration then
    d ← get_db;
    resting ← _best_slice_price (order_market_product d o') (o_delivery_point_id o')
      (Some (o_availability_window o')) (opposite (o_side o'));
    acquire_market_slice_lock (o_product_id o') (o_delivery_point_id o') (o_availability_window o') ;;
    trades ← match_order o' true None;
    mret (trades, resting)
  else mret ([], None).

(** ** Audit, events, response *)

Definition given {A} (f : OrderUpdate → field A) (c : OrderUpdate) : bool :=
  match f c with Some _ => true | None => false end.
Definition jtexts (l : option (list string)) : json := jopt (λ l, JArr (JStr <$> l)) l.

(** The columns an amendment may set, in the schema's order. *)
Definition AMENDED_COLUMNS : list (string * (OrderUpdate → bool) * (Order → json)) :=
  [ ("quantity_mt", given ou_quantity_mt, λ o, JDec (o_quantity_mt o));
    ("price_per_mt_usd", given ou_price_per_mt_usd, λ o, JDec (o_price_per_mt_usd o));
    ("certifications", given ou_certifications, λ o, jtexts (o_certifications o));
    ("certification_declared", given ou_certification_declared, λ o, JBool (o_certification_declared o));
    ("certification_scheme", given ou_certification_scheme, λ o, jopt JStr (o_certification_scheme o));
    ("specification_standard", given ou_specification_standard, λ o, jopt JStr (o_specification_standard o));
    ("msds_available", given ou_msds_available, λ o, JBool (o_msds_available o));
    ("carbon_intensity_gco2_mj", given ou_carbon_intensity_gco2_mj, λ o, jopt JDec (o_carbon_intensity_gco2_mj o));
    ("carbon_intensity_method", given ou_carbon_intensity_method, λ o, jopt JStr (o_carbon_intensity_method o));
    ("feedstock", given ou_feedstock, λ o, jopt JStr (o_feedstock o));
    ("origin", given ou_origin, λ o, jopt JStr (o_origin o));
    ("off_spec", given ou_off_spec, λ o, JBool (o_off_spec o));
    ("off_spec_notes", given ou_off_spec_notes, λ o, jopt JStr (o_off_spec_notes o));
    ("expires_at", given ou_expires_at, λ o, jopt JTime (o_expires_at o));
    ("acceptance_ordinal", λ _, true, λ o, JInt (o_acceptance_ordinal o));
    ("remaining_quantity_mt", λ _, true, λ o, JDec (o_remaining_quantity_mt o));
    ("status", λ _, true, λ o, JStr (OrderBookStatus_value (o_status o))) ].

Definition _changed_fields (c : OrderUpdate) (before after : Order) : list (string * json) :=
  omap (λ '(name, set, value),
    if set c && negb (bool_decide (value before = value after))
    then Some (name, JObj [("from", value before); ("to", value after)]) else None) AMENDED_COLUMNS.

Definition ORDER_UPDATED : string := "order.updated".

Definition order_updated_event (d : Database) (o : Order) (trades : list Trade) (changed : bool)
    : res MarketEventEnvelope :=
  participant_market_event "order_updated" "order" (o_id o) (participants o trades)
    (order_activity_provenance d o
     ++ [ ("id", JUuid (o_id o)); ("side", JStr (OrderSide_value (o_side o)));
          ("product_name", JStr (order_product_name d o)); ("fuel_type", JStr (order_fuel_type d o));
          ("region", JStr (order_region d o)) ]) changed.

(** Benchmarks, watchlists, events and audit of the amended row. *)
Definition announce_amendment (c : OrderUpdate) (before : Order) (before_state : BeforeOrder)
    (public_before : bool) (matched : list Trade * option Z) (current_user : User) : M World unit :=
  after ← load_order (o_id before);
  rebuild_order_slice after ;;
  emit_order_updated before_state after ;;
  events ← collect_auto_match_side_effects after matched.1 (Some (u_id current_user)) matched.2;
  flush ;;
  public_after ← public_order_is_visible (o_id after) None;
  others ← mapM (λ t, public_trade_is_visible (t_id t)) matched.1;
  let changes := _changed_fields c before after in
  let changed := negb (bool_decide (changes = [])) in
  d ← get_db;
  updated ← lift (order_updated_event d after matched.1
    ((changed && (public_before || public_after)) || existsb id others));
  (if changed
   then record_audit (Some (u_id current_user)) ORDER_UPDATED "order" (Some (o_id after)) (JObj changes)
   else mret tt) ;;
  enqueue_market_events (events ++ [updated]) ;;
  flush.

(** [response.model_dump(mode="json")] *)
Definition order_response_body (r : OrderResponse) : json :=
  JObj ([ ("id", JUuid (or_id r)); ("terms_digest", JStr (or_terms_digest r));
          ("side", JStr (OrderSide_value (or_side r))); ("product_id", JUuid (or_product_id r));
          ("product_name", JStr (or_product_name r)); ("market_product", jopt JStr (or_market_product r));
          ("fuel_type", JStr (or_fuel_type r)); ("fuel_grade", JStr (or_fuel_grade r));
          ("delivery_point_id", jopt JUuid (or_delivery_point_id r));
          ("delivery_point_name", jopt JStr (or_delivery_point_name r)); ("region", JStr (or_region r));
          ("port_id", jopt JStr (or_port_id r)); ("quantity_mt", JDec (or_quantity_mt r));
          ("remaining_quantity_mt", JDec (or_remaining_quantity_mt r));
          ("price_per_mt_usd", JDec (or_price_per_mt_usd r)); ("availability_window", JStr (or_availability_window r));
          ("certifications", JArr (JStr <$> or_certifications r));
          ("certification_declared", JBool (or_certification_declared r));
          ("certification_scheme", jopt JStr (or_certification_scheme r));
          ("specification_standard", jopt JStr (or_specification_standard r));
          ("msds_available", JBool (or_msds_available r));
          ("carbon_intensity_gco2_mj", jopt JDec (or_carbon_intensity_gco2_mj r));
          ("carbon_intensity_method", jopt JStr (or_carbon_intensity_method r));
          ("feedstock", jopt JStr (or_feedstock r)); ("origin", jopt JStr (or_origin r));
          ("off_spec", JBool (or_off_spec r)); ("off_spec_notes", jopt JStr (or_off_spec_notes r));
          ("is_verdaxis_verified", JBool (or_is_verdaxis_verified r));
          ("status", JStr (OrderBookStatus_value (or_status r))); ("expires_at", jopt JTime (or_expires_at r));
          ("benchmark_price_per_mt_usd", jopt (JDec ∘ to_cents) (or_benchmark_price_per_mt_usd r));
          ("premium_discount_per_mt_usd", jopt (JDec ∘ to_cents) (or_premium_discount_per_mt_usd r));
          ("benchmark_source", jopt JStr (or_benchmark_source r)); ("is_crossed", JBool (or_is_crossed r)) ]
        ++ or_provenance r).

Inductive order_reply :=
  | FreshOrder (r : OrderResponse)
  | ReplayedOrder (response_status : Z) (response_body : json).

(** From the amended row to the committed response. *)
Definition finish_amendment (command : option CommandAttempt) (id : uuid) : M World order_reply :=
  after ← load_order id;
  response ← _order_response after;
  record_command_success command 200 (order_response_body response) ;;
  commit ;;
  mret (FreshOrder response).

Definition perform_amendment (o : Order) (c : OrderUpdate) (command : option CommandAttempt)
    (current_user : User) : M World order_reply :=
  public_before ← public_order_is_visible (o_id o) None;
  amend_quantity o c ;;
  ordinal ← amended_ordinal o c;
  before_state ← order_before_state o;
  let o' := amended_order o c ordinal in
  store_amendment c o' ;;
  matched ← match_amended c o';
  announce_amendment c o before_state public_before matched current_user ;;
  finish_amendment command (o_id o).

(** [PUT /orderbook/{id}] *)
Definition update_order (order_id : uuid) (p : OrderUpdate) (raw_context raw_key : option string)
    (current_user : User) : M World order_reply :=
  _reject_admin_legacy_workspace_mutation raw_context current_user ;;
  command ← prepare_command_attempt raw_key (u_id current_user) (u_organization_id current_user) None
    ORDER_AMEND_OPERATION "order" order_id (amend_payload order_id p);
  match a ← command; ca_replay a with
  | Some stored => mret (ReplayedOrder (cr_response_status stored) (cr_response_body stored))
  | None =>
      require_execution_eligible_user current_user ;;
      check_new_expiry p ;;
      d ← get_db;
      match orders d !! order_id with
      | None => raise order_not_found
      | Some preview =>
          c ← preview_amendment p preview current_user;
          order ← lock_amended_order preview current_user;
          perform_amendment order c command current_user
      end
  end.
