(* ===== verification/OrderAmendmentSafety.v ===== *)
(** * What amending an order guarantees

    [update_order] run forward: the owner's active order takes the requested
    terms, its stock follows the difference in quantity, and it is matched
    exactly as planned; or the stored response is replayed; or the request fails
    and commits nothing.  One branch breaks the market invariant: an order that
    expires in the match keeps its reservation. *)

From S2P Require Import Prelude Sha256 Catalog Calendar AvailabilityWindows Decimal Json Schema OrderTerms Constraints Delivery Database Scenario Queries Policy Eligibility Events Commands TradeViews Watchlist Benchmarks Inventory Ledger TradeLedger Admission RequestParty Trades Orders TradeSteps TradesSafety OrdersSafety Lifecycle Matching MatchingSpec MatchingSafety PostOnly OrderEntry AutoMatch OrderCreation OrderCreationSafety OrderAmendment.
Local Open Scope Z_scope.

(** ** Frames *)

Lemma reads_check_new_expiry p : Keeps reads (check_new_expiry p).
Proof. unfold check_new_expiry. keeps. Qed.
Lemma reads_has_expired o : Keeps reads (order_has_expired o).
Proof. unfold order_has_expired, order_overdue. keeps. Qed.
#[export] Hint Resolve reads_check_new_expiry reads_has_expired : keeps.
Lemma reads_amended_metadata o c : Keeps reads (check_amended_metadata o c).
Proof. unfold check_amended_metadata, _require_supplier_certification, _require_supplier_metadata. keeps. Qed.
#[export] Hint Resolve reads_amended_metadata : keeps.
Lemma reads_preview p o u : Keeps reads (preview_amendment p o u).
Proof. unfold preview_amendment. keeps. Qed.
Lemma reads_ordinal o c : Keeps reads (amended_ordinal o c).
Proof. unfold amended_ordinal, next_order_acceptance_ordinal. keeps. Qed.
#[export] Hint Resolve reads_preview reads_ordinal : keeps.
Lemma synced_lock_amended o u : Keeps reads_synced (lock_amended_order o u).
Proof.
  unfold lock_amended_order. keeps. apply synced_rollback_raise. keeps. do 2 apply synced_rollback_raise. keeps.
Qed.
Lemma only_events_announce_amendment c o b pub m u : Keeps only_events (announce_amendment c o b pub m u).
Proof. unfold announce_amendment. keeps. Qed.
#[export] Hint Resolve synced_lock_amended only_events_announce_amendment : keeps.

(** ** Stock moves on a row known to be locked *)

Lemma reserve_ok w i q x w' :
  reserve_inventory i q w = Ok x w' → map_Forall (λ k v, i_id v = k) (inventory (db w)) →
  db w' = (db w) <| inventory := alter (move_stock (- q) q) i (inventory (db w)) |>
  ∧ committed w' = committed w ∧ settings w' = settings w ∧ clock w' = clock w.
Proof.
  unfold reserve_inventory. intros H Hk. apply bind_ok in H as ([] & w1 & [_ ->]%refuse_ok & H).
  apply bind_ok in H as (item & w1 & (Hdb & Hev & Hi)%lock_inventory_item_ok & H).
  apply bind_ok in H as ([] & w2 & [_ ->]%refuse_ok & [= <- <-]).
  pose proof (Hk i item Hi) as Hid. cbn in Hid. unfold only_events in Hev. destruct_and! Hev. cbn.
  rewrite Hdb, Hid, (alter_row _ _ i item) by done. split_and!; done.
Qed.

Lemma release_ok w i q x w' :
  0 < q → release_inventory i q w = Ok x w' → map_Forall (λ k v, i_id v = k) (inventory (db w)) →
  db w' = (db w) <| inventory := alter (move_stock q (- q)) i (inventory (db w)) |>
  ∧ committed w' = committed w ∧ settings w' = settings w ∧ clock w' = clock w.
Proof.
  unfold release_inventory. intros Hq H Hk. rewrite (proj2 (Z.leb_gt q 0)) in H by lia.
  apply bind_ok in H as (item & w1 & (Hdb & Hev & Hi)%lock_inventory_item_ok & H).
  apply bind_ok in H as ([] & w2 & [_ ->]%refuse_ok & [= <- <-]).
  pose proof (Hk i item Hi) as Hid. cbn in Hid. unfold only_events in Hev. destruct_and! Hev. cbn.
  rewrite Hdb, Hid, (alter_row _ _ i item) by done. split_and!; done.
Qed.

(** ** The amended ledger *)

(** The stock behind an order follows its remainder. *)
Definition amended_inventory (d : Database) (o o' : Order) : gmap uuid InventoryItem :=
  let delta := o_remaining_quantity_mt o' - o_remaining_quantity_mt o in
  match o_inventory_item_id o with
  | Some i => alter (move_stock (- delta) delta) i (inventory d)
  | None => inventory d
  end.
Definition amended_in (d : Database) (o o' : Order) : Database :=
  d <| inventory := amended_inventory d o o' |> <| orders := <[ o_id o := o' ]> (orders d) |>.

Lemma move_stock_zero item : move_stock 0 0 item = item.
Proof. unfold move_stock. rewrite !Z.add_0_r. by destruct item. Qed.

Lemma amended_lookup d o o' i item' :
  amended_inventory d o o' !! i = Some item' →
  ∃ item, inventory d !! i = Some item ∧ i_id item' = i_id item
    ∧ let delta := if bool_decide (o_inventory_item_id o = Some i)
                   then o_remaining_quantity_mt o' - o_remaining_quantity_mt o else 0 in
      i_reserved_stock_mt item' = i_reserved_stock_mt item + delta
      ∧ i_current_stock_mt item' = i_current_stock_mt item - delta.
Proof.
  unfold amended_inventory. destruct (o_inventory_item_id o) as [j|].
  2: { intros H. exists item'. rewrite bool_decide_eq_false_2 by done. cbn. split_and!; lia || done. }
  destruct (decide (i = j)) as [->|].
  - rewrite lookup_alter_eq, bool_decide_eq_true_2 by done. intros (item & Hi & ->)%fmap_Some_1.
    exists item. cbn. split_and!; lia || done.
  - rewrite lookup_alter_ne, bool_decide_eq_false_2 by congruence. cbn. intros H. exists item'. split_and!; lia || done.
Qed.

Section amended.
Context (d : Database) (o o' : Order).
Context (Hok : market_ok d) (Hrow : orders d !! o_id o = Some o).
Context (Hact : is_withdrawn (o_status o) = false) (Hact' : is_withdrawn (o_status o') = false).
Context (Hid : o_id o' = o_id o) (Hitem : o_inventory_item_id o' = o_inventory_item_id o).
Context (Hwindow : o_availability_window o' = o_availability_window o).
Context (Hrest : o_quantity_mt o' - o_remaining_quantity_mt o' = o_quantity_mt o - o_remaining_quantity_mt o).
Context (Hchecks : database_checks (amended_in d o o')).

Lemma amended_holds i :
  order_holds i o' - order_holds i o
  = if bool_decide (o_inventory_item_id o = Some i) then o_remaining_quantity_mt o' - o_remaining_quantity_mt o else 0.
Proof.
  unfold order_holds. rewrite Hitem, Hact, Hact'. cbn. rewrite !andb_true_r.
  destruct (bool_decide (o_inventory_item_id o = Some i)); lia.
Qed.

Lemma market_ok_amended : market_ok (amended_in d o o').
Proof.
  destruct Hok as (_ & (K1 & K2 & K3 & K) & Hr & Hs & Hw & Hf). unfold amended_in.
  set (d1 := d <| inventory := amended_inventory d o o' |>).
  assert (∀ i, held_stock (amended_in d o o') i = held_stock d i + (order_holds i o' - order_holds i o)) as Hheld.
  { intros i. unfold amended_in. fold d1. change (orders d) with (orders d1).
    rewrite (held_put_order d1 i (o_id o) o o') by done. unfold d1. rewrite held_put_item. lia. }
  refine (conj Hchecks (conj _ (conj _ (conj _ (conj _ _))))).
  - unfold keyed. cbn. split_and!; try apply K; try done.
    + by apply map_Forall_insert_2.
    + intros i item' Hi'. destruct (amended_lookup d o o' i item' Hi') as (item & Hi & -> & _). by apply (K3 i item).
  - intros i item' Hi'. destruct (amended_lookup d o o' i item' Hi') as (item & Hi & _ & Hres & _).
    change (i_reserved_stock_mt item' = held_stock (amended_in d o o') i).
    rewrite Hheld, amended_holds, Hres. by rewrite (Hr i item Hi).
  - intros i item' Hi'. destruct (amended_lookup d o o' i item' Hi') as (item & Hi & _ & Hres & Hcur).
    specialize (Hs i item Hi). cbn in Hs, Hres, Hcur |- *. lia.
  - unfold windows_canonical. cbn. apply map_Forall_insert_2; [|done]. rewrite Hwindow. by apply (Hw (o_id o)).
  - pose proof (fills_ok_put_order d1 (o_id o) o' Hf) as Hput. apply Hput.
    specialize (Hf (o_id o) o Hrow). cbn in Hf. change (filled_stock d1 (o_id o)) with (filled_stock d (o_id o)). lia.
Qed.
End amended.

(** ** The guards *)

(** An ask says everything an ask must say. *)
Definition complete_ask (o : Order) : Prop :=
  o_side o = ASK →
  o_certification_declared o = true ∧ text_given (o_certification_scheme o) = true
  ∧ missing_metadata (o_specification_standard o) (o_msds_available o)
      (bool_decide (is_Some (o_carbon_intensity_gco2_mj o))) (o_feedstock o) (o_origin o) = []
  ∧ supplier_product_metadata_error (o_product_id o) (o_specification_standard o) (o_carbon_intensity_method o) = None.

Definition same_window (p : OrderUpdate) (o : Order) : Prop :=
  match ou_availability_window p with Some (Some window) => window = o_availability_window o | _ => True end.

Lemma amended_metadata_ok o c ordinal w u w' :
  check_amended_metadata o c w = Ok u w' → amendment_storable c = true → complete_ask (amended_order o c ordinal).
Proof.
  unfold check_amended_metadata, complete_ask. cbn. intros H Hstore Hside. rewrite Hside in H.
  apply bind_ok in H as ([] & w1 & Hcert & H). unfold _require_supplier_certification in Hcert.
  apply bind_ok in Hcert as ([] & w2 & [Hd%negb_false_iff ->]%refuse_ok & [Hs%negb_false_iff ->]%refuse_ok).
  unfold _require_supplier_metadata in H. apply bind_ok in H as ([] & w2 & [Hm ->]%refuse_ok & H).
  apply negb_false_iff, bool_decide_eq_true in Hm. destruct (supplier_product_metadata_error _ _ _); [discriminate|].
  split_and!; try done. unfold amendment_storable in Hstore. rewrite !andb_true_iff in Hstore.
  destruct Hstore as [_ Hc]. destruct (ou_carbon_intensity_gco2_mj c) as [[x|]|]; cbn in *; try done.
  by rewrite Hc.
Qed.

Lemma preview_ok p o u w c w' :
  preview_amendment p o u w = Ok c w' →
  c = update_dict p o ∧ owns_order o u = true ∧ is_assisted o = false ∧ is_active_status (o_status o) = true
  ∧ same_window p o ∧ ∃ w1 w2 x, check_amended_metadata o c w1 = Ok x w2.
Proof.
  unfold preview_amendment. intros ([] & w1 & [Ho%negb_false_iff ->]%refuse_ok & H)%bind_ok.
  apply bind_ok in H as ([] & w1 & [Ha ->]%refuse_ok & H). apply bind_ok in H as (e & w1 & _ & H).
  apply bind_ok in H as ([] & w2 & [_ ->]%refuse_ok & H).
  apply bind_ok in H as ([] & w2 & [Hs%negb_false_iff ->]%refuse_ok & H).
  apply bind_ok in H as ([] & w2 & [Hw ->]%refuse_ok & H). cbv zeta in H.
  apply bind_ok in H as (x & w3 & Hm & [= <- <-]). split_and!; try done.
  - unfold same_window. destruct (ou_availability_window p) as [[win|]|]; try done.
    by apply bool_decide_eq_false, dec_stable in Hw.
  - by eexists _, _, x.
Qed.

Lemma has_expired_ok o w b w' :
  order_has_expired o w = Ok b w' → is_active_status (o_status o) = true → b = false →
  ∃ t, observed w t ∧ overdue_at o t = false.
Proof.
  unfold order_has_expired, order_overdue, overdue_at. intros (x & w1 & H & [= <- <-])%bind_ok -> Hb.
  rewrite andb_true_r in Hb. subst x. destruct (o_expires_at o) as [e|].
  - apply bind_ok in H as (now & w2 & [= <- <-] & [= Hx _]). eexists. split; [by eexists|done].
  - exists (clock w 0%nat). split; [by eexists|done].
Qed.

Section locking.
Context (u : User) (w : World) (Hsync : synced w) (o : Order).
Context (Hrow : orders (db w) !! o_id o = Some o) (Hact : is_active_status (o_status o) = true).

Lemma lock_amended_outcome w1 :
  reads w w1 →
  match lock_amended_order o u w1 with
  | Ok o' w2 => o' = o ∧ reads w w2 ∧ u_organization_id u = Some (o_organization_id o)
      ∧ admitted_member (db w) (u_id u) (o_organization_id o)
      ∧ ∃ t, observed w t ∧ overdue_at o t = false
  | Raise _ w2 => reads w w2
  end.
Proof.
  intros Hr1. pose proof (synced_lock_amended o u w1) as Hk.
  assert (synced w1) as Hs1 by (destruct Hr1 as (Hd & Hc & _); unfold synced in *; congruence).
  destruct (lock_amended_order o u w1) as [o' w2|e w2] eqn:Hrun; specialize (Hk Hs1); cbn in Hk;
    [|by trans w1].
  assert (reads w w2) as Hr2 by (by trans w1).
  unfold lock_amended_order in Hrun. apply bind_ok in Hrun as ([] & w3 & Hl & Hrun).
  pose proof (reads_ok _ _ _ _ (reads_slice_locks _) Hl) as Hr3. fold (reads w1 w3) in Hr3.
  do 2 (erewrite bind_run in Hrun by reflexivity). set (w4 := set_field _ w3) in *.
  assert (reads w w4) as Hr4 by (trans w1; [done|]; trans w3; done).
  assert (db w4 = db w) as Hdb by apply Hr4. rewrite Hdb, Hrow in Hrun.
  apply bind_ok in Hrun as ([] & w5 & [Horg ->]%refuse_ok & Hrun). apply bool_decide_eq_false, dec_stable in Horg.
  unfold rollback_raise in Hrun at 1. rewrite bool_decide_eq_false_2 in Hrun by (intros Hne; by apply Hne).
  apply bind_ok in Hrun as (b & w5 & Hexp & Hrun).
  pose proof (reads_ok _ _ _ _ (reads_has_expired _) Hexp) as Hr5. fold (reads w4 w5) in Hr5.
  unfold rollback_raise in Hrun. destruct b; [discriminate|]. rewrite Hact in Hrun. cbn [negb] in Hrun.
  apply bind_ok in Hrun as (gs & w6 & Hgs & [= <- <-]). apply lock_and_load_member in Hgs.
  apply has_expired_ok in Hexp as (t & Ht & Hover); [|done..].
  split_and!; try done.
  - rewrite (proj1 Hr5), Hdb in Hgs. done.
  - exists t. split; [by apply (reads_observed w w4)|done].
Qed.
End locking.

(** ** The effects *)

(** The new quantity covers what is filled and reaches the catalog's lot. *)
Definition quantity_allowed (d : Database) (o : Order) (c : OrderUpdate) : Prop :=
  match ou_quantity_mt c with
  | None => True
  | Some None => False
  | Some (Some q) => o_quantity_mt o - o_remaining_quantity_mt o <= to_cents q
      ∧ ∃ product, order_product d o = Some product ∧ lot_reached q product
  end.

Lemma uncommitted_put_item x : Keeps uncommitted (put_item x).
Proof. done. Qed.
Lemma uncommitted_put_order x : Keeps uncommitted (put_order x).
Proof. done. Qed.
#[export] Hint Resolve uncommitted_put_item uncommitted_put_order : keeps.
Lemma keeps_reads_uncommitted {A} (m : M World A) : Keeps reads m → Keeps uncommitted m.
Proof. intros H w. apply H. Qed.
#[export] Hint Extern 5 (Keeps uncommitted _) => apply keeps_reads_uncommitted; solve [eauto 3 with keeps] : keeps.
Lemma reads_lock_item i : Keeps reads (lock_inventory_item i).
Proof. unfold lock_inventory_item. keeps. Qed.
#[export] Hint Resolve reads_lock_item : keeps.
Lemma uncommitted_reserve i q : Keeps uncommitted (reserve_inventory i q).
Proof. unfold reserve_inventory. keeps. Qed.
Lemma uncommitted_release i q : Keeps uncommitted (release_inventory i q).
Proof. unfold release_inventory. keeps. Qed.
#[export] Hint Resolve uncommitted_reserve uncommitted_release : keeps.
Lemma uncommitted_amend_quantity o c : Keeps uncommitted (amend_quantity o c).
Proof. unfold amend_quantity. keeps. Qed.
Lemma uncommitted_store c o : Keeps uncommitted (store_amendment c o).
Proof. unfold store_amendment. keeps. Qed.
#[export] Hint Resolve uncommitted_amend_quantity uncommitted_store : keeps.

Section quantity.
Context (w : World) (o : Order) (c : OrderUpdate) (Hok : market_ok (db w)).

(** What is behind the order follows; everything else is as it was. *)
Definition stock_amended (o' : Order) (w2 : World) : Prop :=
  db w2 = (db w) <| inventory := amended_inventory (db w) o o' |>
  ∧ uncommitted w w2 ∧ settings w2 = settings w ∧ clock w2 = clock w.

Lemma stock_unmoved o' w2 :
  reads w w2 → o_remaining_quantity_mt o' = o_remaining_quantity_mt o → stock_amended o' w2.
Proof.
  intros (Hd & Hc & Hs & Hk) Hr. unfold stock_amended, amended_inventory. rewrite Hr, Z.sub_diag.
  split_and!; try done. rewrite Hd. destruct (o_inventory_item_id o) as [i|]; [|by destruct (db w)].
  assert (alter (move_stock (- 0) 0) i (inventory (db w)) = inventory (db w)) as ->; [|by destruct (db w)].
  apply map_eq. intros j. destruct (decide (j = i)) as [->|]; [|by rewrite lookup_alter_ne].
  rewrite lookup_alter_eq. destruct (inventory (db w) !! i) as [item|]; [|done]. cbn. f_equal. apply move_stock_zero.
Qed.

Lemma amend_quantity_outcome ordinal w1 :
  reads w w1 →
  match amend_quantity o c w1 with
  | Ok _ w2 => stock_amended (amended_order o c ordinal) w2 ∧ quantity_allowed (db w) o c
  | Raise _ w2 => uncommitted w w2
  end.
Proof.
  intros Hr. pose proof (uncommitted_amend_quantity o c w1) as Hu.
  destruct (amend_quantity o c w1) as [[] w2|e w2] eqn:Hrun; [|by etrans; [apply Hr|]].
  unfold amend_quantity in Hrun. unfold quantity_allowed.
  destruct (ou_quantity_mt c) as [[q|]|] eqn:Hq; [|discriminate|].
  2: { injection Hrun as <-. split; [|done]. apply stock_unmoved; [done|]. unfold amended_order. cbn. rewrite Hq. lia. }
  apply bind_ok in Hrun as ([] & w3 & [Hrem%Z.ltb_ge ->]%refuse_ok & Hrun).
  erewrite bind_run in Hrun by reflexivity. apply bind_ok in Hrun as ([] & w3 & Hlot & Hrun).
  assert (reads w1 w3 ∧ ∃ product, order_product (db w) o = Some product ∧ lot_reached q product) as [Hr3 Hprod].
  { rewrite (proj1 Hr) in Hlot. destruct (order_product (db w) o) as [product|]; [|discriminate].
    apply bind_ok in Hlot as (x & w4 & Hmin & [= <-]). split; [|by exists product; split; [|eapply minimum_ok]].
    apply (reads_ok _ _ _ _ (reads_minimum _ _)) in Hmin. exact Hmin. }
  split; [|by split; [lia|]].
  assert (reads w w3) as Hr'  by (by trans w1). clear Hu Hlot Hr Hr3.
  set (o' := amended_order o c ordinal).
  assert (o_remaining_quantity_mt o' - o_remaining_quantity_mt o
    = to_cents q - (o_quantity_mt o - o_remaining_quantity_mt o) - o_remaining_quantity_mt o) as Hdelta.
  { unfold o', amended_order. cbn. rewrite Hq. lia. }
  destruct (o_inventory_item_id o) as [i|] eqn:Hi.
  2: { injection Hrun as <-. destruct Hr' as (Hd & Hc & Hs & Hk). unfold stock_amended, amended_inventory.
       rewrite Hi. split_and!; try done. rewrite Hd. by destruct (db w). }
  destruct Hr' as (Hd & Hc & Hs & Hk). pose proof Hok as (_ & (_ & _ & Hkey & _) & _).
  assert (map_Forall (λ k v, i_id v = k) (inventory (db w3))) as Hkey3 by (by rewrite Hd).
  rewrite <-Hdelta in Hrun.
  destruct (Z.ltb_spec 0 (o_remaining_quantity_mt o' - o_remaining_quantity_mt o)).
  - apply bind_ok in Hrun as (x & w4 & Hres & [= <-]). apply reserve_ok in Hres as (Hd4 & Hc4 & Hs4 & Hk4); [|done].
    unfold stock_amended, amended_inventory, uncommitted. rewrite Hi, Hd4, Hd. split_and!; congruence.
  - destruct (Z.ltb_spec (o_remaining_quantity_mt o' - o_remaining_quantity_mt o) 0).
    + apply bind_ok in Hrun as (x & w4 & Hrel & [= <-]).
      apply release_ok in Hrel as (Hd4 & Hc4 & Hs4 & Hk4); [|lia|done].
      unfold stock_amended, amended_inventory, uncommitted. rewrite Hi, Hd4, Hd. rewrite Z.opp_involutive. split_and!; congruence.
    + injection Hrun as <-. apply stock_unmoved; [by split_and!|lia].
Qed.
End quantity.

(** ** The step an amendment is *)

(** Everything the guards and locks have established. *)
Record may_amend (w : World) (u : User) (p : OrderUpdate) (o : Order) : Prop := {
  ma_owner : owns_order o u = true;
  ma_self_service : is_assisted o = false;
  ma_active : is_active_status (o_status o) = true;
  ma_organization : u_organization_id u = Some (o_organization_id o);
  ma_member : admitted_member (db w) (u_id u) (o_organization_id o);
  ma_unexpired : ∃ t, observed w t ∧ overdue_at o t = false;
  ma_window : same_window p o;
  ma_quantity : quantity_allowed (db w) o (update_dict p o);
}.

Definition rematches (configuration : Settings) (c : OrderUpdate) : bool :=
  economic_update c && AUTO_MATCHING_ENABLED configuration.

(** The row with the requested terms, at the end of the queue if it offers more,
    its stock adjusted, and matched as planned. *)
Definition amended (w : World) (u : User) (p : OrderUpdate) (o : Order) (r : OrderResponse) (w' : World) : Prop :=
  ∃ ordinal d1 ts now,
    let c := update_dict p o in
    let o' := amended_order o c ordinal in
    let auto := rematches (settings w) c in
    may_amend w u p o ∧ order_checks o' ∧ complete_ask o'
    ∧ (is_Some ordinal ↔ _amendment_loses_priority o c = true)
    ∧ same_ledger (amended_in (db w) o o') d1
    ∧ observed w now ∧ matched_in auto true o' now d1 (db w') ts
    ∧ (strands auto o' now = false → market_ok (db w'))
    ∧ committed w' = db w'
    ∧ ∃ o'', orders (db w') !! o_id o = Some o'' ∧ answers o'' r.

Section performing.
Context (u : User) (p : OrderUpdate) (o : Order) (w : World).
Context (Hok : market_ok (db w)) (Hex : items_exist (db w)) (Hset : settings_valid (settings w)).
Context (Hrow : orders (db w) !! o_id o = Some o) (Hact : is_active_status (o_status o) = true).
Context (Hterms : tradable_terms (db w) o).
Let c : OrderUpdate := update_dict p o.

Lemma amended_active ordinal :
  let o' := amended_order o c ordinal in
  (is_active_status (o_status o') = true ∨ o_remaining_quantity_mt o' <= 0) ∧ is_withdrawn (o_status o') = false.
Proof.
  unfold amended_order. cbn. destruct (bool_decide (is_Some _) && _) eqn:Hf; cbn.
  - apply andb_true_iff in Hf as [_ Hz%Z.eqb_eq]. split; [right; lia|done].
  - split; [by left|by apply active_not_withdrawn].
Qed.

Lemma amended_items ordinal : items_exist (amended_in (db w) o (amended_order o c ordinal)).
Proof.
  unfold items_exist, amended_in. cbn.
  assert (∀ i, is_Some (inventory (db w) !! i) →
    is_Some (amended_inventory (db w) o (amended_order o c ordinal) !! i)) as Hdom.
  { intros i Hi. unfold amended_inventory. destruct (o_inventory_item_id o) as [j|]; [|done].
    destruct (decide (i = j)) as [->|]; [by rewrite lookup_alter_eq, fmap_is_Some|by rewrite lookup_alter_ne]. }
  apply map_Forall_insert_2.
  - cbn. pose proof (Hex _ _ Hrow) as Hi. cbn in Hi. destruct (o_inventory_item_id o); [by apply Hdom|done].
  - intros id x Hx. pose proof (Hex _ _ Hx) as Hi. cbn in Hi. destruct (o_inventory_item_id x); [by apply Hdom|done].
Qed.

(** The row is in the session. *)
Lemma store_outcome o' w8 :
  match store_amendment c o' w8 with
  | Ok _ w9 => w9 = w8 <| db := (db w8) <| orders := <[ o_id o' := o' ]> (orders (db w8)) |> |>
      ∧ database_checks (db w9) ∧ amendment_storable c = true
  | Raise _ w9 => uncommitted w8 w9
  end.
Proof.
  pose proof (uncommitted_store c o' w8) as Hu. destruct (store_amendment c o' w8) as [[] w9|e w9] eqn:Hrun; [|done].
  unfold store_amendment in Hrun. erewrite bind_run in Hrun by reflexivity.
  apply bind_ok in Hrun as ([] & w10 & [Hs%negb_false_iff ->]%refuse_ok & Hrun). apply flush_ok in Hrun as [-> Hc]. done.
Qed.

Lemma match_amended_outcome ordinal w9 :
  let o' := amended_order o c ordinal in
  db w9 = amended_in (db w) o o' → market_ok (db w9) → quantity_allowed (db w) o c →
  settings w9 = settings w → clock w9 = clock w →
  match match_amended c o' w9 with
  | Ok (ts, _) w' => uncommitted w9 w'
      ∧ ∃ now d1, same_ledger (db w9) d1 ∧ observed w now ∧ matched_in (rematches (settings w) c) true o' now d1 (db w') ts
          ∧ (strands (rematches (settings w) c) o' now = false → market_ok (db w'))
  | Raise _ w' => uncommitted w9 w'
  end.
Proof.
  intros o' Hdb Hok9 Hq Hs Hk. unfold match_amended. erewrite bind_run by reflexivity. rewrite Hs.
  fold (rematches (settings w) c). destruct (rematches (settings w) c) eqn:Hauto.
  2: { split; [done|]. exists (clock w 0%nat), (db w9). split; [by repeat split|]. split; [by eexists|].
       unfold matched_in. split; [by repeat split|done]. }
  erewrite bind_run by reflexivity.
  match goal with |- match ?m w9 with _ => _ end => change ((λ out : outcome World (list Trade * option Z), match out with
    | Ok (ts, _) w' => uncommitted w9 w' ∧ ∃ now d1, same_ledger (db w9) d1 ∧ observed w now ∧ matched_in true true o' now d1 (db w') ts
          ∧ (strands true o' now = false → market_ok (db w'))
    | Raise _ w' => uncommitted w9 w' end) (m w9)) end.
  apply (frame_bind reads); [keeps|intros e w10 (_ & H & _); exact H|]. intros best w10 _ H10.
  apply (frame_bind reads); [keeps|intros e w11 (_ & H & _); destruct H10 as (_ & ? & _); unfold uncommitted; congruence|].
  intros [] w11 _ H11. assert (reads w9 w11) as Hr by (by trans w10). destruct Hr as (Hd11 & Hc11 & Hs11 & Hk11).
  assert (orders (db w11) !! o_id o' = Some o') as Hrow11 by (rewrite Hd11, Hdb; apply lookup_insert_eq).
  assert (items_exist (db w11)) as Hex11 by (rewrite Hd11, Hdb; apply amended_items).
  assert (tradable_terms (db w11) o') as Hterms11 by (by rewrite Hd11, Hdb).
  pose proof (match_row_outcome true true o' w11 ltac:(by rewrite Hd11) Hex11 ltac:(by rewrite Hs11, Hs) Hrow11
    (proj1 (amended_active ordinal)) Hterms11) as Hm. cbn iota in Hm.
  unfold mbind at 1, M_bind at 1. destruct (match_order o' true None w11) as [ts w12|e w12].
  - destruct Hm as (Hu & _ & now & [i Hnow] & Hm & Hok'). cbn. split; [unfold uncommitted in *; congruence|].
    exists now, (db w11). rewrite Hd11 in Hm |- *. split; [by repeat split|]. split; [exists i; by rewrite Hnow, Hk11, Hk|done].
  - unfold uncommitted in *. congruence.
Qed.
End performing.

(** ** From the matched row to the response *)

Lemma announce_checks c o b pub m u w x w' :
  announce_amendment c o b pub m u w = Ok x w' → database_checks (db w').
Proof.
  unfold announce_amendment. intros (after & w1 & _ & H)%bind_ok. cbv zeta in H.
  repeat match type of H with (_ ≫= _) _ = Ok _ _ => apply bind_ok in H as (? & ? & _ & H) end.
  apply flush_ok in H as [-> H]. exact H.
Qed.

Lemma record_ok command status body w x w' :
  record_command_success command status body w = Ok x w' → database_checks (db w) →
  ∃ results, db w' = (db w) <| command_results := results |> ∧ database_checks (db w') ∧ uncommitted w w'.
Proof.
  unfold record_command_success. destruct command as [a|].
  - intros ([] & w1 & [_ ->]%refuse_ok & H)%bind_ok _. do 2 (erewrite bind_run in H by reflexivity).
    apply flush_ok in H as [-> Hc]. by eexists.
  - intros [= _ <-] Hc. exists (command_results (db w)). split_and!; [by destruct (db w)|done..].
Qed.

Lemma market_ok_results d results :
  market_ok d → database_checks (d <| command_results := results |>) → market_ok (d <| command_results := results |>).
Proof. intros (_ & Hk & Hr & Hs & Hw & Hf) Hc. by refine (conj Hc (conj Hk (conj Hr (conj Hs (conj Hw Hf))))). Qed.

Lemma uncommitted_record command status body : Keeps uncommitted (record_command_success command status body).
Proof. unfold record_command_success. keeps. Qed.

Lemma finish_amendment_outcome command id w :
  database_checks (db w) →
  match finish_amendment command id w with
  | Ok (FreshOrder r) w' => committed w' = db w' ∧ same_ledger (db w) (db w') ∧ (market_ok (db w) → market_ok (db w'))
      ∧ ∃ o, orders (db w') !! id = Some o ∧ answers o r
  | Ok (ReplayedOrder _ _) _ => False
  | Raise _ w' => uncommitted w w'
  end.
Proof.
  intros Hc. unfold finish_amendment.
  match goal with |- match ?m w with _ => _ end => change ((λ out : outcome World order_reply, match out with
    | Ok (FreshOrder r) w' => committed w' = db w' ∧ same_ledger (db w) (db w') ∧ (market_ok (db w) → market_ok (db w'))
        ∧ ∃ o, orders (db w') !! id = Some o ∧ answers o r
    | Ok (ReplayedOrder _ _) _ => False
    | Raise _ w' => uncommitted w w' end) (m w)) end.
  apply (frame_bind reads); [keeps|intros e w1 (_ & H & _); exact H|]. intros o w1 [-> Ho]%load_order_ok _.
  apply (frame_bind reads); [keeps|intros e w1 (_ & H & _); exact H|]. intros r w1 Hr (Hd1 & Hc1 & _).
  apply order_response_ok in Hr.
  apply (frame_bind uncommitted); [apply uncommitted_record|intros e w2 H; unfold uncommitted in *; congruence|].
  intros [] w2 Hrec Hu2. apply record_ok in Hrec as (results & Hd2 & Hc2 & _); [|by rewrite Hd1].
  erewrite bind_run by (by apply commit_run). cbn. rewrite Hd2, Hd1 in *.
  split_and!; [done|by repeat split|by intros; apply market_ok_results|by exists o].
Qed.

Definition update_outcome (w : World) (id : uuid) (p : OrderUpdate) (u : User) (out : outcome World order_reply) : Prop :=
  match out with
  | Ok (ReplayedOrder status body) w' => reads w w' ∧ stored_response (db w) u ORDER_AMEND_OPERATION id status body
  | Ok (FreshOrder r) w' => ∃ o, orders (db w) !! id = Some o ∧ amended w u p o r w'
  | Raise _ w' => uncommitted w w'
  end.

Section updating.
Context (u : User) (p : OrderUpdate) (w : World).
Context (Hsync : synced w) (Hok : market_ok (db w)) (Hex : items_exist (db w)) (Hset : settings_valid (settings w)).

Lemma perform_amendment_outcome o command w4 :
  orders (db w) !! o_id o = Some o → is_active_status (o_status o) = true → tradable_terms (db w) o →
  owns_order o u = true → is_assisted o = false → u_organization_id u = Some (o_organization_id o) →
  admitted_member (db w) (u_id u) (o_organization_id o) → (∃ t, observed w t ∧ overdue_at o t = false) →
  same_window p o → (∃ w1 w2 x, check_amended_metadata o (update_dict p o) w1 = Ok x w2) → reads w w4 →
  update_outcome w (o_id o) p u (perform_amendment o (update_dict p o) command u w4).
Proof.
  intros Hrow Hact Hterms Hown Hself Horg Hmem Hexp Hwin Hmeta Hr4. unfold perform_amendment.
  set (c := update_dict p o) in *.
  apply (frame_bind reads); [keeps|intros e w5 (_ & H & _); destruct Hr4 as (_ & ? & _); cbn; unfold uncommitted; congruence|].
  intros pub w5 _ H5. assert (reads w w5) as Hr5 by (by trans w4). clear H5.
  pose proof (λ ordinal, amend_quantity_outcome w o c Hok ordinal w5 Hr5) as Hquantity.
  unfold mbind at 1, M_bind at 1. destruct (amend_quantity o c w5) as [x w6|e w6]; [|exact (Hquantity None)].
  apply (frame_bind reads); [keeps| |].
  { intros e w7 (_ & H & _). destruct (Hquantity None) as [(_ & H' & _) _]. cbn. unfold uncommitted in *. congruence. }
  intros ordinal w7 Hord H7. destruct (Hquantity ordinal) as [(Hd6 & Hu6 & Hs6 & Hk6) Hq]. clear Hquantity.
  assert (is_Some ordinal ↔ _amendment_loses_priority o c = true) as Hloses.
  { unfold amended_ordinal in Hord. destruct (_amendment_loses_priority o c).
    - apply bind_ok in Hord as (z & w8 & _ & [= <- _]). by split.
    - injection Hord as <- _. split; [by intros []|done]. }
  set (o' := amended_order o c ordinal) in *.
  apply (frame_bind reads); [keeps| |].
  { intros e w8 (_ & H & _). destruct H7 as (_ & H' & _). cbn. unfold uncommitted in *. congruence. }
  intros before w8 _ H8. assert (reads w6 w8) as Hr8 by (by trans w7). clear H7 H8.
  destruct Hr8 as (Hd8 & Hc8 & Hs8 & Hk8). fold o'. cbv zeta.
  pose proof (store_outcome p o o' w8) as Hstore. fold c in Hstore. unfold mbind at 1, M_bind at 1.
  destruct (store_amendment c o' w8) as [y w9|e w9]; [|cbn; unfold uncommitted in *; congruence].
  destruct Hstore as (-> & Hchk & Hstorable). set (w9 := w8 <| db := _ |>) in *.
  assert (db w9 = amended_in (db w) o o') as Hd9 by (unfold w9; cbn; by rewrite Hd8, Hd6).
  assert (market_ok (db w9)) as Hok9.
  { rewrite Hd9 in Hchk |- *. apply market_ok_amended; try done; [by apply active_not_withdrawn|apply (amended_active p o Hact)|].
    unfold o', amended_order. cbn. lia. }
  pose proof (match_amended_outcome p o w Hex Hset Hrow Hact Hterms ordinal w9 Hd9 Hok9 Hq
    ltac:(change (settings w8 = settings w); congruence) ltac:(change (clock w8 = clock w); congruence)) as Hmatch.
  fold c o' in Hmatch. assert (uncommitted w w9) as Hu9 by (change (committed w8 = committed w); unfold uncommitted in *; congruence).
  unfold mbind at 1, M_bind at 1. destruct (match_amended c o' w9) as [[ts best] w10|e w10]; [|cbn; unfold uncommitted in *; congruence].
  destruct Hmatch as (Hu10 & now & d1 & Hd1 & Hnow & Hm & Hok10). rewrite Hd9 in Hd1.
  assert (uncommitted w w10) as Huw10 by (by trans w9). cbn [fst snd].
  apply (frame_bind only_events); [keeps|intros e w11 [H _]; cbn; unfold uncommitted in *; congruence|].
  intros [] w11 Hann H11. apply announce_checks in Hann. pose proof (only_events_same_ledger _ _ H11) as Hled.
  pose proof (finish_amendment_outcome command (o_id o) w11 Hann) as Hfin.
  destruct (finish_amendment command (o_id o) w11) as [[r|status body] w12|e w12]; [|done|].
  2: { cbn. destruct H11 as [H _]. unfold uncommitted in *. congruence. }
  destruct Hfin as (Hcom & Hled' & Hok' & Hresp). exists o. split; [done|].
  exists ordinal, d1, ts, now. split.
  { split; done. }
  split; [by apply (proj1 (proj1 Hok9) (o_id o)); rewrite Hd9; apply lookup_insert_eq|].
  split; [by destruct Hmeta as (? & ? & ? & Hmeta); eapply amended_metadata_ok|].
  split; [done|]. split; [done|]. split; [done|]. split.
  { eapply matched_in_same_ledger; [|exact Hm]. unfold same_ledger in *. destruct_and!. split_and!; congruence. }
  split; [|done]. intros Hst. apply Hok', (market_ok_only_events w10); [done|]. by apply Hok10.
Qed.

Lemma update_order_outcome id raw_context raw_key :
  (∀ o, orders (db w) !! id = Some o → tradable_terms (db w) o) →
  update_outcome w id p u (update_order id p raw_context raw_key u w).
Proof.
  intros Hterms. unfold update_order.
  assert (∀ e w' w'', reads w w' → reads w' w'' → update_outcome w id p u (Raise e w'')) as Hfail
    by (intros e w' w'' (_ & H1 & _) (_ & H2 & _); cbn; unfold uncommitted; congruence).
  apply (frame_bind reads); [keeps|intros e w1; by apply (Hfail e w)|]. intros [] w1 Hrej Hr1.
  apply (frame_bind reads); [keeps|intros e w2; by apply Hfail|]. intros command w2 Hprep H2.
  assert (reads w w2) as Hr2 by (by trans w1).
  apply prepare_ok in Hprep; [|set_solver..]. rewrite (proj1 Hr1) in Hprep.
  destruct (a ← command; ca_replay a) as [r|]; [by split|].
  apply (frame_bind reads); [keeps|intros e w3; by apply Hfail|]. intros [] w3 _ H3. assert (reads w w3) as Hr3 by (by trans w2).
  apply (frame_bind reads); [keeps|intros e w4; by apply Hfail|]. intros [] w4 _ H4. assert (reads w w4) as Hr4 by (by trans w3).
  erewrite bind_run by reflexivity. rewrite (proj1 Hr4).
  destruct (orders (db w) !! id) as [o|] eqn:Ho; [|by apply (Hfail _ w4 w4)].
  assert (o_id o = id) as <- by (by apply (proj1 (proj1 (proj2 Hok)) id o)).
  apply (frame_bind reads); [keeps|intros e w5; by apply Hfail|]. intros c w5 Hprev H5. assert (reads w w5) as Hr5 by (by trans w4).
  apply preview_ok in Hprev as (-> & Hown & Hself & Hact & Hwin & Hmeta).
  pose proof (lock_amended_outcome u w Hsync o Ho Hact w5 Hr5) as Hlock. unfold mbind at 1, M_bind at 1.
  destruct (lock_amended_order o u w5) as [o' w6|e w6]; [|by apply (Hfail e w)].
  destruct Hlock as (-> & Hr6 & Horg & Hmem & Hexp). apply perform_amendment_outcome; try done. by apply Hterms.
Qed.
End updating.

(** C3: Amending implements the amendment of an order.  An amendment that is
    answered afresh changes an active, unexpired self-service order for its owner,
    an admitted member of its organization, within its market identity: the row
    takes the requested terms and satisfies every CHECK, an ask still states all its
    metadata, a new quantity covers what is filled and reaches the catalog's lot, the
    stock behind the order follows its remainder exactly, the order gets a new place
    in the queue exactly when it offers more than before, and it is then matched
    exactly as planned.  The committed tables satisfy the market invariant, unless a
    backed order expired between the guards and the match.  Otherwise the stored
    response is replayed, or the request fails and commits nothing. *)
Theorem update_order_implements_amendment id p raw_context raw_key u w :
  synced w → market_ok (db w) → items_exist (db w) → settings_valid (settings w) →
  (∀ o, orders (db w) !! id = Some o → tradable_terms (db w) o) →
  update_outcome w id p u (update_order id p raw_context raw_key u w).
Proof. intros. by apply update_order_outcome. Qed.

(** The refinery doubles its partly filled, backed ask, and completes its data. *)
Definition no_update : OrderUpdate :=
  MkOrderUpdate None None None None None None None None None None None None None None None.
Definition demo_update : OrderUpdate :=
  no_update <| ou_quantity_mt := Some (Some (of_int 600)) |> <| ou_certifications := Some (Some ["ISCC EU"]) |>
            <| ou_specification_standard := Some (Some "IMPCA") |>.

Lemma hit_ask_tradable o : orders (db Demo.hit) !! 21%N = Some o → tradable_terms (db Demo.hit) o.
Proof.
  intros H. assert (o = Demo.hit_ask) as ->.
  { assert (Some Demo.hit_ask = Some o) as [= E]; [|done]. rewrite <-H. vm_compute. reflexivity. }
  unfold tradable_terms. split; [vm_compute; by split_and!|]. vm_compute. by eexists.
Qed.

Lemma update_order_implements_amendment_witness :
  ∃ r w', update_order 21 demo_update None (Some "k1") Demo.supplier Demo.hit = Ok (FreshOrder r) w'
    ∧ amended Demo.hit Demo.supplier demo_update Demo.hit_ask r w' ∧ or_remaining_quantity_mt r = 50000.
Proof.
  pose proof (update_order_implements_amendment 21 demo_update None (Some "k1") Demo.supplier Demo.hit
    eq_refl hit_ok hit_items ltac:(apply (bool_decide_unpack _); vm_compute; exact I) hit_ask_tradable) as H.
  assert (match update_order 21 demo_update None (Some "k1") Demo.supplier Demo.hit with
          | Ok (FreshOrder r) w' => bool_decide (or_remaining_quantity_mt r = 50000)
          | _ => false end = true) as Hrun by (vm_compute; reflexivity).
  destruct (update_order _ _ _ _ _ _) as [[r|status body] w'|]; [|discriminate Hrun..].
  apply bool_decide_eq_true in Hrun. destruct H as (o & Ho & H).
  assert (Some Demo.hit_ask = Some o) as [= <-] by (rewrite <-Ho; vm_compute; reflexivity).
  exists r, w'. split_and!; [reflexivity|exact H|exact Hrun].
Defined.

(** ** Queue priority *)

Lemma normalized_schemes_spec l s :
  s ∈ normalized_schemes l ↔ s ∈ omap (λ value, normalize_certification_scheme (Some value)) (default [] l).
Proof. unfold normalized_schemes. by rewrite elem_of_list_to_set. Qed.

Lemma kept_terms o c ordinal :
  _amendment_loses_priority o c = false →
  let o' := amended_order o c ordinal in
  o_price_per_mt_usd o' = o_price_per_mt_usd o ∧ o_quantity_mt o' <= o_quantity_mt o
  ∧ o_certification_scheme o' = o_certification_scheme o
  ∧ normalized_schemes (o_certifications o') = normalized_schemes (o_certifications o)
  ∧ (o_off_spec o' = false → o_off_spec o = false)
  ∧ (∀ e, o_expires_at o = Some e → ∃ e', o_expires_at o' = Some e' ∧ e' <= e).
Proof.
  unfold _amendment_loses_priority, amended_order. rewrite !orb_false_iff. cbn.
  intros (((((Hp & Hq) & He) & Hc) & Hs) & Ho). unfold requested, requested_flag. split_and!.
  - destruct (ou_price_per_mt_usd c) as [[x|]|]; try done. apply bool_decide_eq_false, dec_stable in Hp. cbn in Hp. congruence.
  - destruct (ou_quantity_mt c) as [[q|]|]; lia.
  - destruct (ou_certification_scheme c); [|done]. by apply bool_decide_eq_false, dec_stable in Hs.
  - destruct (ou_certifications c); [|done]. by apply bool_decide_eq_false, dec_stable in Hc.
  - destruct (ou_off_spec c) as [off|]; [|done]. cbn. intros Hf. rewrite Hf in Ho. by destruct (o_off_spec o).
  - intros e Hoe. rewrite Hoe in He. destruct (ou_expires_at c) as [[e'|]|]; cbn in *; [|done|].
    + exists e'. split; [done|]. by apply Z.ltb_ge in He.
    + exists e. split; [done|lia].
Qed.

Lemma same_schemes_compatible o o' x :
  o_side o' = o_side o → o_certification_scheme o' = o_certification_scheme o →
  normalized_schemes (o_certifications o') = normalized_schemes (o_certifications o) →
  order_is_execution_qualified o = true →
  orders_execution_compatible o' x = true → orders_execution_compatible o x = true.
Proof.
  intros Hside Hscheme Hcert Hq. unfold orders_execution_compatible.
  destruct (order_is_execution_qualified o'); [|done]. rewrite Hq. cbn.
  destruct (order_is_execution_qualified x); [|done]. cbn. rewrite Hside.
  destruct (bool_decide (o_side o = BID)); [|by rewrite Hscheme].
  destruct (normalize_certification_scheme (o_certification_scheme x)) as [s|]; [|done]. rewrite Hscheme.
  set (l' := omap _ (default [] (o_certifications o'))). set (l := omap _ (default [] (o_certifications o))).
  assert (∀ s, s ∈ l' ↔ s ∈ l) as Hl
    by (intros a; unfold l, l'; by rewrite <-!normalized_schemes_spec, Hcert).
  destruct l' as [|a l'], l as [|b l]; cbn; try done.
  - exfalso. specialize (Hl b). set_solver.
  - exfalso. specialize (Hl a). set_solver.
  - rewrite !bool_decide_eq_true. apply Hl.
Qed.

(** C37: An amendment that keeps its place in the queue offers nothing new.  For a
    qualified order, when [_amendment_loses_priority] says no, the amended order has
    no more to trade than before, is expired whenever it was, crosses exactly the
    prices it crossed, and is compatible only with orders it was compatible with: no
    execution becomes possible ahead of those that queued behind it. *)
Theorem kept_place_admits_nothing_new o p ordinal x t :
  _amendment_loses_priority o (update_dict p o) = false → order_is_execution_qualified o = true →
  let o' := amended_order o (update_dict p o) ordinal in
  o_remaining_quantity_mt o' <= o_remaining_quantity_mt o
  ∧ (order_expired o t = true → order_expired o' t = true)
  ∧ price_filter o' x = price_filter o x ∧ price_filter x o' = price_filter x o
  ∧ (orders_execution_compatible o' x = true → orders_execution_compatible o x = true).
Proof.
  intros Hkeep Hq o'. destruct (kept_terms o _ ordinal Hkeep) as (Hp & Hqty & Hs & Hc & _ & He). fold o' in Hp, Hqty, Hs, Hc, He.
  assert (o_side o' = o_side o) as Hside by done. split_and!.
  - unfold o', amended_order in *. cbn in *. lia.
  - unfold order_expired. destruct (o_expires_at o) as [e|]; [|done]. destruct (He e eq_refl) as (e' & -> & Hle). lia.
  - unfold price_filter. by rewrite Hp, Hside.
  - unfold price_filter. by rewrite Hp.
  - by apply same_schemes_compatible.
Qed.

(** A smaller quantity at the same price keeps the place of the ask. *)
Lemma kept_place_admits_nothing_new_witness :
  let p := no_update <| ou_quantity_mt := Some (Some (of_int 250)) |> in
  _amendment_loses_priority Demo.hit_ask (update_dict p Demo.hit_ask) = false
  ∧ o_remaining_quantity_mt (amended_order Demo.hit_ask (update_dict p Demo.hit_ask) None) <= 20000.
Proof.
  cbv zeta. split; [vm_compute; reflexivity|].
  refine (proj1 (kept_place_admits_nothing_new Demo.hit_ask _ None Demo.bid 0 _ _)); vm_compute; reflexivity.
Defined.

(** Amended to expire a microsecond from now, the backed ask runs out before it is
    matched: the route answers, and commits a reservation that backs nothing. *)
Example amendment_strands_stock :
  match update_order 21 (demo_update <| ou_quantity_mt := None |> <| ou_expires_at := Some (Some (Demo.noon + 1)) |>)
          None None Demo.supplier Demo.hit with
  | Ok _ w' => negb (bool_decide (reservations_ok (committed w')))
               && bool_decide (o_status <$> orders (committed w') !! 21%N = Some EXPIRED)
  | Raise _ _ => false
  end = true.
Proof. vm_compute. reflexivity. Qed.

(** Without qualification it may: a biofuel ask that lacks its feedstock trades
    with nobody; stating it makes the ask executable in its old place. *)
Example completing_metadata_keeps_place :
  let o := Demo.b100_ask <| o_feedstock := None |> in
  let c := update_dict (no_update <| ou_feedstock := Some (Some "UCO") |>) o in
  _amendment_loses_priority o c = false ∧ order_is_execution_qualified o = false
  ∧ order_is_execution_qualified (amended_order o c None) = true.
Proof. vm_compute. by split_and!. Qed.
