(* ===== verification/Invalidation.v ===== *)
(** * Invalidating the market access of an organization

    [app/services/market_invalidation.py]: when an organization loses its
    approval, its pending trades are cancelled, its active orders withdrawn, the
    orders of its counterparties get back what those trades had taken, and every
    reservation this frees is released.  The affected rows are previewed, their
    slices locked, and previewed again: a preview that changed meanwhile raises a
    retry marker.  The service neither commits nor publishes.

    [populate_existing] is part of the model: the lock on the organizations reads
    their rows again into the session's objects, so the operation also returns
    the organizations as the session holds them afterwards. *)

From S2P Require Import Prelude Catalog Calendar AvailabilityWindows Decimal Schema Constraints Database Queries Scenario Policy Eligibility Events Watchlist Benchmarks Inventory Ledger Admission Trades Orders OrderAmendment Lifecycle.
Local Open Scope Z_scope.

Definition MAX_INVALIDATION_ROWS_PER_TRANSACTION : nat := 100.

(** [app/services/audit_actions.py] *)
Definition AUDIT_TRADE_CANCELLED : string := "trade.cancelled".
Definition MARKET_ACCESS_INVALIDATED : string := "market.access_invalidated".

(** ** The preview *)

Definition OrderIdentity : Type := uuid * uuid * OrderSide * uuid * option uuid * string.
Definition _order_identity (row : Order) : OrderIdentity :=
  (o_id row, o_organization_id row, o_side row, o_product_id row, o_delivery_point_id row,
   o_availability_window row).

(** [SELECT .. FROM trades WHERE p ORDER BY id] *)
Definition trade_id_le (a b : Trade) : Prop := (t_id a <= t_id b)%N.
#[export] Instance trade_id_le_dec : RelDecision trade_id_le.
Proof. intros a b. unfold trade_id_le. apply _. Defined.
Definition trades_by_id (d : Database) (p : Trade → bool) : list Trade :=
  merge_sort trade_id_le (filter (λ t, p t = true) (snd <$> map_to_list (trades d))).

Definition trade_party (organization_id : uuid) (t : Trade) : bool :=
  bool_decide (t_buyer_id t = organization_id) || bool_decide (t_seller_id t = organization_id).
Definition pending_trade_of (organization_id : uuid) (t : Trade) : bool :=
  bool_decide (t_status t = PENDING_CONFIRMATION) && trade_party organization_id t.
Definition active_order_of (organization_id : uuid) (o : Order) : bool :=
  bool_decide (o_organization_id o = organization_id) && is_active_status (o_status o).

(** The orders a trade was struck on. *)
Definition trade_links (t : Trade) : list uuid :=
  option_list (t_bid_order_id t) ++ option_list (t_ask_order_id t).
Definition linked_order_ids (rows : list Trade) : list uuid := rows ≫= trade_links.

(** Rows of selected columns: of an order only its identity is used. *)
Record Preview := MkPreview {
  pv_trades : list Trade;
  pv_owned : list Order;
  pv_linked : list Order;
}.

Definition _preview (organization_id : uuid) : M World Preview :=
  d ← get_db;
  let limit := S MAX_INVALIDATION_ROWS_PER_TRANSACTION in
  let rows := take limit (trades_by_id d (pending_trade_of organization_id)) in
  let owned_orders := take limit (orders_by_id d (active_order_of organization_id)) in
  let linked_orders := orders_by_id d (λ o, bool_decide (o_id o ∈ linked_order_ids rows)) in
  refuse (bool_decide (MAX_INVALIDATION_ROWS_PER_TRANSACTION < length rows)%nat
          || bool_decide (MAX_INVALIDATION_ROWS_PER_TRANSACTION < length owned_orders)%nat)
    (HTTPException 409
      (Msg "Market access invalidation exceeds the per-transaction bound; approval was not changed")) ;;
  mret (MkPreview rows owned_orders linked_orders).

(** [{row.id: _order_identity(row) ..}] over the owned and then the linked rows:
    the last wins. *)
Definition identities (p : Preview) : gmap uuid OrderIdentity :=
  list_to_map (reverse ((λ o, (o_id o, _order_identity o)) <$> (pv_owned p ++ pv_linked p))).

(** An orderless trade still has a market snapshot. *)
Definition legacy_slice (t : Trade) : option MarketSlice :=
  match t_bid_order_id t, t_ask_order_id t, t_product_id t, t_availability_window t with
  | None, None, Some product_id, Some window =>
      if bool_decide (window = "") then None else Some (product_id, t_delivery_point_id t, window)
  | _, _, _, _ => None
  end.
Definition preview_slices (p : Preview) : list MarketSlice :=
  ((λ kv : uuid * OrderIdentity, (kv.2.1.1.2, kv.2.1.2, kv.2.2)) <$> map_to_list (identities p))
  ++ omap legacy_slice (pv_trades p).

(** ** Locking what is affected *)

Definition trade_ids (rows : list Trade) : gset uuid := list_to_set (t_id <$> rows).
Definition order_ids (rows : list Order) : gset uuid := list_to_set (o_id <$> rows).

Definition retry_marker : exn := RetryableMarketTransactionError "40001".

Definition lock_executable_trades (organization_id : uuid) (ids : list uuid) : M World (list Trade) :=
  match ids with
  | [] => mret []
  | _ =>
      take_lock (RowTrades ids) ;;
      d ← get_db;
      mret (trades_by_id d (λ t, bool_decide (t_id t ∈ ids) && pending_trade_of organization_id t))
  end.
Definition lock_affected_orders (ids : list uuid) : M World (list Order) :=
  match ids with
  | [] => mret []
  | _ =>
      take_lock (RowOrders ids) ;;
      d ← get_db;
      mret (orders_by_id d (λ o, bool_decide (o_id o ∈ ids)))
  end.

(** The locked rows, and the organizations as they were read again. *)
Record Affected := MkAffected {
  af_trades : list Trade;
  af_orders : list Order;
  af_organization_ids : list uuid;
  af_organizations : gmap uuid Organization;
}.

(** Everything after the first preview, which may be out of date by now. *)
Definition lock_affected_market (organization_id : uuid) (preview : Preview) : M World Affected :=
  acquire_market_slice_locks (preview_slices preview) ;;
  current ← _preview organization_id;
  refuse (bool_decide (trade_ids (pv_trades current) ≠ trade_ids (pv_trades preview))
          || bool_decide (identities current ≠ identities preview)) retry_marker ;;
  let ids := sorted_set (t_id <$> pv_trades preview) in
  rows ← lock_executable_trades organization_id ids;
  refuse (bool_decide (trade_ids rows ≠ list_to_set ids)) retry_marker ;;
  let ids := sorted_set ((map_to_list (identities preview)).*1 ++ linked_order_ids (pv_trades preview)) in
  orders ← lock_affected_orders ids;
  refuse (bool_decide (order_ids orders ≠ list_to_set ids)) retry_marker ;;
  let organization_ids := organization_id :: (o_organization_id <$> orders)
                            ++ (t_buyer_id <$> rows) ++ (t_seller_id <$> rows) in
  organizations ← lock_and_load_market_organizations organization_ids [] false [];
  mret (MkAffected rows orders organization_ids organizations).

(** ** Cancelling what was executable *)

Definition cancelled_trade (t : Trade) : Trade := t <| t_status := TRADE_CANCELLED |>.

Definition cancel_affected_trade (actor_user_id : option uuid) (reason reference : string) (t : Trade)
    : M World unit :=
  put_trade (cancelled_trade t) ;;
  record_audit actor_user_id AUDIT_TRADE_CANCELLED "trade" (Some (t_id t))
    (JObj [ ("status", JStr (TradeStatus_value TRADE_CANCELLED)); ("reason", JStr reason);
            ("reference", JStr reference) ]).

(** [restored_by_order]: a trade counts for the order of each side. *)
Definition trade_restores (order_id : uuid) (t : Trade) : Z :=
  (if bool_decide (t_bid_order_id t = Some order_id) then t_quantity_mt t else 0)
  + (if bool_decide (t_ask_order_id t = Some order_id) then t_quantity_mt t else 0).
Definition restored_by_order (rows : list Trade) (order_id : uuid) : Z :=
  foldr (λ t acc, trade_restores order_id t + acc) 0 rows.

Section one_order.
Context (organization_id : uuid) (observed_now : datetime) (restored : Z) (o : Order).

Definition owner_revoked : bool := bool_decide (o_organization_id o = organization_id).
Definition invalidated_status : OrderBookStatus :=
  let remaining := o_remaining_quantity_mt o + restored in
  if is_withdrawn (o_status o) then o_status o
  else if owner_revoked then CANCELLED
  else if overdue_at o observed_now then EXPIRED
  else if bool_decide (restored ≠ 0) then
    if remaining =? o_quantity_mt o then OPEN else PARTIALLY_FILLED
  else o_status o.
(** The reserved stock the order no longer needs. *)
Definition invalidated_release : Z :=
  let remaining := o_remaining_quantity_mt o + restored in
  if is_withdrawn (o_status o) then restored
  else if owner_revoked || overdue_at o observed_now then remaining
  else 0.
Definition invalidated_order : Order :=
  let o' := o <| o_remaining_quantity_mt := o_remaining_quantity_mt o + restored |>
              <| o_status := invalidated_status |> in
  if bool_decide (restored ≠ 0) || bool_decide (invalidated_status ≠ o_status o)
  then bump_version o' else o'.
Definition invalidation_action : string :=
  if owner_revoked && negb (is_withdrawn (o_status o)) then ORDER_CANCELLED
  else if bool_decide (invalidated_status = EXPIRED) && negb (is_withdrawn (o_status o)) then ORDER_EXPIRED
  else ORDER_UPDATED.
End one_order.

(** One order of the loop: what it releases, and the benchmark it touches.  The
    write a refusal leaves behind in its session is left out: it is rolled back. *)
Definition invalidate_order (organization_id : uuid) (actor_user_id : option uuid) (reason reference : string)
    (observed_now : datetime) (rows : list Trade) (o : Order)
    : M World (option (uuid * Z) * option LiveBenchmarkKey) :=
  let restored := restored_by_order rows (o_id o) in
  let before := MkBeforeOrder (Some (o_price_per_mt_usd o)) (Some (o_remaining_quantity_mt o))
                  (Some (o_status o)) None in
  refuse (bool_decide (restored ≠ 0) && (o_quantity_mt o <? o_remaining_quantity_mt o + restored))
    (HTTPException 409 (Msg "Pending trade quantity exceeds its immutable order capacity")) ;;
  let o' := invalidated_order organization_id observed_now restored o in
  let release := invalidated_release organization_id observed_now restored o in
  put_order o' ;;
  let released := match o_inventory_item_id o with
                  | Some item_id => if 0 <? release then Some (item_id, release) else None
                  | None => None
                  end in
  if owner_revoked organization_id o || bool_decide (restored ≠ 0) then
    d ← get_db;
    emit_order_updated before o' ;;
    record_audit actor_user_id (invalidation_action organization_id observed_now restored o) "order" (Some (o_id o))
      (JObj [ ("status", JStr (OrderBookStatus_value (o_status o')));
              ("restored_quantity_mt", JDec restored); ("released_quantity_mt", JDec release);
              ("reason", JStr reason); ("reference", JStr reference) ]) ;;
    mret (released, Some (o_side o', order_market_product d o', o_delivery_point_id o',
                          Some (o_availability_window o')))
  else mret (released, None).

(** [releases]: the total of each inventory row. *)
Definition releases_by_item (l : list (uuid * Z)) : gmap uuid Z :=
  foldl (λ m kv, <[ kv.1 := default 0 (m !! kv.1) + kv.2 ]> m) ∅ l.

Definition release_items (releases : gmap uuid Z) : M World unit :=
  inventory ← lock_inventory_items (dom releases);
  iterM (λ '(item_id, quantity),
    match inventory !! item_id with
    | None => raise KeyError
    | Some item =>
        refuse (i_reserved_stock_mt item <? quantity)
          (HTTPException 409 (Msg "Inventory reservation is inconsistent; invalidation refused")) ;;
        put_item (release_stock quantity item)
    end) (map_to_list releases).

Definition cancel_affected_market (organization_id : uuid) (actor_user_id : option uuid) (reason reference : string)
    (a : Affected) : M World unit :=
  iterM (cancel_affected_trade actor_user_id reason reference) (af_trades a) ;;
  observed_now ← utcnow;
  results ← mapM (invalidate_order organization_id actor_user_id reason reference observed_now (af_trades a))
              (af_orders a);
  release_items (releases_by_item (omap fst results)) ;;
  rebuild_live_slice_benchmarks_for_keys (snd <$> results) ;;
  record_audit actor_user_id MARKET_ACCESS_INVALIDATED "organization" (Some organization_id)
    (JObj [ ("cancelled_trade_ids", JArr (JUuid ∘ t_id <$> af_trades a));
            ("affected_order_ids", JArr (JUuid ∘ o_id <$> af_orders a));
            ("reason", JStr reason); ("reference", JStr reference) ]).

(** ** The whole operation *)

Definition invalidate_previewed_market (organization_id : uuid) (actor_user_id : option uuid)
    (reason reference : string) (public_market_invalidation : bool) (preview : Preview)
    : M World (list MarketEventEnvelope * gmap uuid Organization) :=
  affected ← lock_affected_market organization_id preview;
  cancel_affected_market organization_id actor_user_id reason reference affected ;;
  event ← lift (participant_market_event "market_access_invalidated" "organization" organization_id
    (af_organization_ids affected)
    [ ("organization_id", JUuid organization_id);
      ("cancelled_trade_count", JInt (Z.of_nat (length (af_trades affected))));
      ("affected_order_count", JInt (Z.of_nat (length (af_orders affected))));
      ("reference", JStr reference) ] public_market_invalidation);
  mret ([event], af_organizations affected).

Definition invalidate_organization_market_access (organization_id : uuid) (actor_user_id : option uuid)
    (reason reference : string) (public_market_invalidation : bool)
    : M World (list MarketEventEnvelope * gmap uuid Organization) :=
  refuse (bool_decide (strip reason = "") || bool_decide (strip reference = ""))
    (ValueError (Msg "market invalidation requires reason and reference")) ;;
  preview ← _preview organization_id;
  invalidate_previewed_market organization_id actor_user_id reason reference public_market_invalidation preview.
