(* ===== verification/InvalidationSafety.v ===== *)
(** * Invalidating market access refines a revocation

    What the invalidator does to the books is one simultaneous change, defined
    here without loops or locks: the organization's pending trades are cancelled,
    the affected orders get their new rows and every inventory row gets back what
    its orders no longer need.  The revocation keeps the market invariant, takes
    the organization out of the market and loses no stock; the operation
    implements it. *)

From S2P Require Import Prelude Catalog Calendar AvailabilityWindows Decimal Schema Constraints Database Queries Scenario Policy Eligibility Events Watchlist Benchmarks Inventory Ledger TradeLedger Admission RequestParty Trades TradeSteps Orders OrderAmendment Lifecycle OrderCreationSafety ListingSteps Invalidation.
Local Open Scope Z_scope.

(** ** The revocation *)

Section revocation.
Context (d : Database) (org : uuid) (now : datetime).

Definition doomed_trades : list Trade := trades_by_id d (pending_trade_of org).
Definition affected (o : Order) : bool :=
  active_order_of org o || bool_decide (o_id o ∈ linked_order_ids doomed_trades).
(** What the cancelled trades had taken from an order. *)
Definition restored_stock (id : uuid) : Z := restored_by_order doomed_trades id.

Definition revoked_trade (t : Trade) : Trade := if pending_trade_of org t then cancelled_trade t else t.
Definition revoked_order (o : Order) : Order :=
  if affected o then invalidated_order org now (restored_stock (o_id o)) o else o.
Definition freed_by (o : Order) : Z :=
  if affected o then invalidated_release org now (restored_stock (o_id o)) o else 0.
Definition freed_stock (i : uuid) : Z :=
  sum_map (λ o, if bool_decide (o_inventory_item_id o = Some i) then freed_by o else 0) (orders d).

Definition revoked_in : Database :=
  d <| trades := revoked_trade <$> trades d |>
    <| orders := revoked_order <$> orders d |>
    <| inventory := map_imap (λ i item, Some (release_stock (freed_stock i) item)) (inventory d) |>.
End revocation.

(** The organization offers nothing and has promised nothing. *)
Definition out_of_market (d : Database) (org : uuid) : Prop :=
  map_Forall (λ _ o, active_order_of org o = false) (orders d)
  ∧ map_Forall (λ _ t, pending_trade_of org t = false) (trades d).

(** ** Rows of the revocation *)

Lemma invalidated_order_row org now restored o :
  same_identity o (invalidated_order org now restored o)
  ∧ o_status (invalidated_order org now restored o) = invalidated_status org now restored o
  ∧ o_remaining_quantity_mt (invalidated_order org now restored o) = o_remaining_quantity_mt o + restored
  ∧ o_organization_id (invalidated_order org now restored o) = o_organization_id o.
Proof. unfold invalidated_order, bump_version. destruct (_ || _); [case_bool_decide|]; by repeat split. Qed.

Lemma revoked_order_identity d org now o : same_identity o (revoked_order d org now o).
Proof. unfold revoked_order. destruct (affected _ _ _); [apply invalidated_order_row|by repeat split]. Qed.

Lemma trade_links_elem id t :
  id ∈ trade_links t ↔ t_bid_order_id t = Some id ∨ t_ask_order_id t = Some id.
Proof.
  unfold trade_links. rewrite elem_of_app. destruct (t_bid_order_id t), (t_ask_order_id t); cbn;
    rewrite ?list_elem_of_singleton, ?elem_of_nil; naive_solver.
Qed.
Lemma linked_order_ids_elem id rows : id ∈ linked_order_ids rows ↔ ∃ t, t ∈ rows ∧ id ∈ trade_links t.
Proof. unfold linked_order_ids. rewrite list_elem_of_bind. naive_solver. Qed.

Lemma unlinked_restores id rows : id ∉ linked_order_ids rows → restored_by_order rows id = 0.
Proof.
  induction rows as [|t rows IH]; intros Hid; [done|].
  change (restored_by_order (t :: rows) id) with (trade_restores id t + restored_by_order rows id). rewrite IH.
  - unfold trade_restores. rewrite !bool_decide_eq_false_2; [done|..]; intros E; apply Hid, linked_order_ids_elem;
      exists t; (split; [by left|]); apply trade_links_elem; tauto.
  - intros Hin. apply Hid. apply linked_order_ids_elem in Hin as (x & Hx & Hl). apply linked_order_ids_elem.
    exists x. split; [by right|done].
Qed.

Lemma unaffected_restored d org o : affected d org o = false → restored_stock d org (o_id o) = 0.
Proof.
  intros [_ Hb%bool_decide_eq_false]%orb_false_iff. by apply unlinked_restores.
Qed.

(** The code's running total as a sum over the table. *)
Lemma restored_as_sum d org id :
  restored_stock d org id = sum_map (λ t, if pending_trade_of org t then trade_restores id t else 0) (trades d).
Proof.
  unfold restored_stock, doomed_trades, trades_by_id. change (restored_by_order ?l id) with (sum_list (trade_restores id) l).
  rewrite (sum_list_permutation _ _ _ (merge_sort_Permutation trade_id_le _)), sum_list_filter.
  apply sum_list_map.
Qed.

Section revoked.
Context (d : Database) (org : uuid) (now : datetime).
Context (Hok : market_ok d) (Hlinked : trades_linked d) (Hbacked : asks_backed d).
#[local] Abbreviation d' := (revoked_in d org now).
#[local] Abbreviation restored := (restored_stock d org).

Lemma revoked_kept : orders_kept (orders d) (orders d').
Proof.
  intros id. cbn. rewrite lookup_fmap. destruct (orders d !! id); constructor.
  apply identity_backing, revoked_order_identity.
Qed.

Lemma trade_restores_nonneg id t k : trades d !! k = Some t → 0 <= trade_restores id t.
Proof.
  intros Ht. destruct Hok as ((_ & Hc & _) & _). destruct (Hc k t Ht) as (_ & ((? & _) & _) & _).
  unfold trade_restores. case_bool_decide; case_bool_decide; lia.
Qed.
Lemma restored_nonneg id : 0 <= restored id.
Proof.
  rewrite restored_as_sum. apply sum_map_nonneg. intros k t Ht. destruct (pending_trade_of org t); [|done].
  by apply (trade_restores_nonneg id t k).
Qed.

(** No trade has an order on both sides. *)
Lemma restores_fills id k t :
  trades d !! k = Some t → pending_trade_of org t = true → trade_restores id t = trade_fills id t.
Proof.
  intros Ht [Hp%bool_decide_eq_true _]%andb_true_iff. destruct (Hlinked k t Ht) as [Hb Ha].
  unfold trade_restores, trade_fills. rewrite Hp. cbn. rewrite andb_true_r.
  case_bool_decide as E1; case_bool_decide as E2; cbn; try lia.
  rewrite E1 in Hb. rewrite E2 in Ha. cbn in *. destruct (orders d !! id); [congruence|done].
Qed.

Lemma revoked_filled id : filled_stock d' id = filled_stock d id - restored id.
Proof.
  unfold filled_stock. cbn. rewrite sum_map_fmap, restored_as_sum.
  enough (sum_map (trade_fills id) (trades d)
    = sum_map (λ t, trade_fills id (revoked_trade org t)) (trades d)
      + sum_map (λ t, if pending_trade_of org t then trade_restores id t else 0) (trades d)) by lia.
  rewrite <-sum_map_plus. apply sum_map_ext. intros k t Ht. unfold revoked_trade.
  destruct (pending_trade_of org t) eqn:He; [|lia].
  by rewrite (trade_fills_dead id (cancelled_trade t)), (restores_fills id k t).
Qed.

(** What an order holds of an item, before and after. *)
Lemma revoked_order_holds i o :
  order_holds i (revoked_order d org now o)
  = order_holds i o + if bool_decide (o_inventory_item_id o = Some i)
                      then restored (o_id o) - freed_by d org now o else 0.
Proof.
  destruct (revoked_order_identity d org now o) as (_ & _ & Ei & _).
  unfold order_holds. rewrite Ei. case_bool_decide; [|done]. cbn [andb]. unfold revoked_order, freed_by.
  destruct (affected d org o) eqn:Ha; [|rewrite (unaffected_restored d org o Ha); lia].
  destruct (invalidated_order_row org now (restored (o_id o)) o) as (_ & -> & -> & _).
  unfold invalidated_status, invalidated_release. destruct (is_withdrawn (o_status o)) eqn:Hw; [rewrite Hw; cbn; lia|].
  destruct (owner_revoked org o); [change (is_withdrawn CANCELLED) with true; cbn; lia|].
  destruct (overdue_at o now); [change (is_withdrawn EXPIRED) with true; cbn; lia|]. cbn [orb].
  case_bool_decide as Hr; [|rewrite Hw; cbn; lia].
  destruct (_ =? _); [change (is_withdrawn OPEN) with false|change (is_withdrawn PARTIALLY_FILLED) with false]; cbn; lia.
Qed.

(** A bid backs nothing: what a trade holds is given back through its ask. *)
Lemma bid_unbacked k t o i :
  trades d !! k = Some t → orders d !! o_id o = Some o → t_bid_order_id t = Some (o_id o) →
  o_inventory_item_id o ≠ Some i.
Proof.
  intros Ht Ho Hb Hi. destruct (Hlinked k t Ht) as [Hl _]. rewrite Hb in Hl. cbn in Hl. rewrite Ho in Hl.
  specialize (Hbacked _ _ Ho). cbn in Hbacked. rewrite Hi, Hl in Hbacked. by discriminate Hbacked.
Qed.

Lemma trade_gives_back i k t :
  trades d !! k = Some t →
  sum_map (λ o, if bool_decide (o_inventory_item_id o = Some i) then trade_restores (o_id o) t else 0) (orders d)
  = if bool_decide (trade_item (orders d) t = Some i) then t_quantity_mt t else 0.
Proof.
  intros Ht. pose proof (proj1 (proj1 (proj2 Hok))) as Hkey. cbn beta in Hkey.
  rewrite (sum_map_ext _ (λ o, (if bool_decide (o_inventory_item_id o = Some i)
      then if bool_decide (t_ask_order_id t = Some (o_id o)) then t_quantity_mt t else 0 else 0))).
  2: { intros j o Ho. pose proof (Hkey j o Ho) as Hj. cbn in Hj. subst j. unfold trade_restores.
       case_bool_decide as Hi; [|done]. rewrite (bool_decide_eq_false_2 (t_bid_order_id t = _)); [lia|].
       intros Hb. by apply (bid_unbacked k t o i Ht Ho Hb). }
  unfold trade_item, trade_order_id. destruct (t_ask_order_id t) as [a|] eqn:Ha.
  - rewrite (sum_map_at _ _ a).
    + cbn. destruct (orders d !! a) as [o|] eqn:Ho; [|done]. cbn. pose proof (Hkey a o Ho) as Hj. cbn in Hj.
      by rewrite Hj, (bool_decide_eq_true_2 (Some a = Some a)).
    + intros j o Ho Hne. pose proof (Hkey j o Ho) as Hj. cbn in Hj.
      rewrite (bool_decide_eq_false_2 (Some a = _)) by congruence. apply if_same.
  - rewrite sum_map_zero by (intros; apply if_same). destruct (t_bid_order_id t) as [b|] eqn:Hb; [|done]. cbn.
    destruct (orders d !! b) as [o|] eqn:Ho; [|done]. cbn. rewrite bool_decide_eq_false_2; [done|].
    pose proof (Hkey b o Ho) as Hj. cbn in Hj. subst b. by apply (bid_unbacked k t o i).
Qed.

Lemma revoked_trade_holds i k t :
  trades d !! k = Some t →
  trade_holds (orders d) i t
  = trade_holds (orders d') i (revoked_trade org t)
    + if pending_trade_of org t
      then if bool_decide (trade_item (orders d) t = Some i) then t_quantity_mt t else 0 else 0.
Proof.
  intros Ht. unfold revoked_trade. destruct (pending_trade_of org t) eqn:He.
  - apply andb_true_iff in He as [Hp%bool_decide_eq_true _].
    rewrite (trade_holds_settled _ _ (cancelled_trade t)) by done. unfold trade_holds. by rewrite Hp.
  - unfold trade_holds. rewrite (kept_trade_item _ _ t revoked_kept). lia.
Qed.

Lemma revoked_held i : held_stock d' i = held_stock d i - freed_stock d org now i.
Proof.
  unfold held_stock, freed_stock.
  rewrite (sum_map_ext (trade_holds (orders d) i) _ (trades d) (revoked_trade_holds i)), sum_map_plus.
  change (trades d') with (revoked_trade org <$> trades d). rewrite sum_map_fmap.
  change (sum_map (order_holds i) (orders d')) with (sum_map (order_holds i) (revoked_order d org now <$> orders d)).
  rewrite sum_map_fmap, (sum_map_ext _ _ (orders d) (λ k o _, revoked_order_holds i o)), sum_map_plus.
  assert (sum_map (λ t, if pending_trade_of org t
            then if bool_decide (trade_item (orders d) t = Some i) then t_quantity_mt t else 0 else 0) (trades d)
          = sum_map (λ o, if bool_decide (o_inventory_item_id o = Some i) then restored (o_id o) else 0) (orders d)) as ->.
  { rewrite (sum_map_ext (λ o : Order, if bool_decide (o_inventory_item_id o = Some i) then restored (o_id o) else 0)
      (λ o, sum_map (λ t, if pending_trade_of org t then
         if bool_decide (o_inventory_item_id o = Some i) then trade_restores (o_id o) t else 0 else 0) (trades d))).
    - rewrite sum_map_swap. apply sum_map_ext. intros k t Ht. destruct (pending_trade_of org t).
      + by rewrite (trade_gives_back i k t Ht).
      + symmetry. by apply sum_map_zero.
    - intros j o _. case_bool_decide; [by rewrite restored_as_sum|]. symmetry. apply sum_map_zero.
      intros. apply if_same. }
  rewrite (sum_map_ext (λ o : Order, if bool_decide (o_inventory_item_id o = Some i) then restored (o_id o) else 0)
    (λ o, (if bool_decide (o_inventory_item_id o = Some i) then restored (o_id o) - freed_by d org now o else 0)
          + if bool_decide (o_inventory_item_id o = Some i) then freed_by d org now o else 0))
    by (intros; case_bool_decide; lia).
  rewrite sum_map_plus. lia.
Qed.

(** ** The rows satisfy their constraints *)

Lemma revoked_remaining k o :
  orders d !! k = Some o →
  0 <= restored (o_id o) ∧ o_remaining_quantity_mt o + restored (o_id o) <= o_quantity_mt o.
Proof.
  intros Ho. split; [apply restored_nonneg|]. pose proof (proj1 (proj1 (proj2 Hok)) k o Ho) as Hk. cbn in Hk. subst k.
  pose proof (proj2 (proj2 (proj2 (proj2 (proj2 Hok)))) _ o Ho) as Hf. cbn beta in Hf.
  pose proof (revoked_filled (o_id o)) as Hr.
  assert (0 <= filled_stock d' (o_id o)); [|lia]. unfold filled_stock. cbn. rewrite sum_map_fmap.
  apply sum_map_nonneg. intros j t Ht. unfold revoked_trade. destruct (pending_trade_of org t).
  - by rewrite (trade_fills_dead _ (cancelled_trade t)).
  - destruct Hok as ((_ & Hc & _) & _). by apply trade_fills_nonneg, (Hc j).
Qed.

Lemma revoked_trade_checks k t : trades d !! k = Some t → trade_checks (revoked_trade org t).
Proof.
  intros Ht. destruct Hok as ((_ & Hc & _) & _). pose proof (Hc k t Ht) as Hck. cbn in Hck. unfold revoked_trade.
  destruct (pending_trade_of org t) eqn:He; [|done]. apply andb_true_iff in He as [Hp%bool_decide_eq_true _].
  destruct Hck as (Hdom & Hnum & (Hfin & Hlife) & Hrest). rewrite Hp in Hlife. destruct Hlife as (_ & H2 & H3 & H4).
  exact (conj Hdom (conj Hnum (conj (conj Hfin (conj H2 (conj H3 H4))) Hrest))).
Qed.

(** Only a filled demonstration order without a deadline could not be live again. *)
Definition restorable (o : Order) : Prop :=
  o_provenance o ≠ DEMO ∨ o_expires_at o ≠ None ∨ o_status o ≠ FILLED.

Lemma revoked_order_checks k o :
  orders d !! k = Some o → restorable o → order_checks (revoked_order d org now o).
Proof.
  intros Ho Hre. destruct (revoked_remaining k o Ho) as [H0 Hle].
  pose proof (proj1 (proj1 Hok) k o Ho) as Hck. cbn in Hck. unfold revoked_order.
  destruct (affected d org o); [|done]. set (r := restored (o_id o)) in *.
  destruct Hck as ((Hdemo & Hidem) & (N1 & N2 & Nrest) & (Hrem & Hlife) & Hv).
  assert (order_checks (o <| o_remaining_quantity_mt := o_remaining_quantity_mt o + r |>
                          <| o_status := invalidated_status org now r o |>)) as Hall.
  { unfold order_checks, ORDER_DOMAIN, ORDER_NUMERIC_VALUES, ORDER_LIFECYCLE, required_numeric in *. cbn.
    unfold invalidated_status. unfold restorable in Hre.
    destruct (is_withdrawn (o_status o)) eqn:Hw.
    { split_and!; try tauto; try lia. by destruct (o_status o). }
    destruct (owner_revoked org o); [split_and!; try tauto; try lia|].
    destruct (overdue_at o now); [split_and!; try tauto; try lia|].
    case_bool_decide as Hr.
    - destruct (Z.eqb_spec (o_remaining_quantity_mt o + r) (o_quantity_mt o));
        (split_and!; try tauto; try lia; destruct Hdemo as [|[Hi|]]; [by left| |by do 2 right];
         destruct (o_status o); try done; naive_solver).
    - replace (o_remaining_quantity_mt o + r) with (o_remaining_quantity_mt o) by lia. split_and!; try tauto; try lia. }
  unfold invalidated_order, bump_version. destruct (_ || _); [|exact Hall]. case_bool_decide; [|exact Hall].
  destruct Hall as (A1 & A2 & A3 & A4). refine (conj A1 (conj A2 (conj A3 _))).
  unfold order_version_check in *. cbn in *. lia.
Qed.

(** ** The invariant *)

Lemma freed_by_nonneg k o : orders d !! k = Some o → 0 <= freed_by d org now o.
Proof.
  intros Ho. destruct (revoked_remaining k o Ho) as [H0 _].
  pose proof (order_checks_remaining _ (proj1 (proj1 Hok) k o Ho)). unfold freed_by, invalidated_release.
  destruct (affected d org o); [|done]. destruct (is_withdrawn _); [done|]. destruct (_ || _); lia.
Qed.
Lemma freed_nonneg i : 0 <= freed_stock d org now i.
Proof.
  apply sum_map_nonneg. intros k o Ho. case_bool_decide; [|done]. by apply (freed_by_nonneg k).
Qed.

Lemma revoked_item i item' :
  inventory d' !! i = Some item' →
  ∃ item, inventory d !! i = Some item ∧ item' = release_stock (freed_stock d org now i) item.
Proof. cbn. rewrite map_lookup_imap. destruct (inventory d !! i) as [item|]; [|done]. intros [= <-]. by exists item. Qed.

(** The organization is out, the books stay linked, and no stock is lost. *)
Lemma revoked_out : out_of_market d' org.
Proof.
  split; cbn; rewrite map_Forall_fmap.
  - intros k o Ho. cbn. unfold revoked_order. destruct (affected d org o) eqn:Ha; [|by apply orb_false_iff in Ha as [? _]].
    destruct (invalidated_order_row org now (restored (o_id o)) o) as (_ & Hst & _ & Hg).
    unfold active_order_of. rewrite Hg, Hst. case_bool_decide as Ho'; [|done]. unfold invalidated_status.
    destruct (is_withdrawn (o_status o)) eqn:Hw; [by destruct (o_status o)|].
    unfold owner_revoked. by rewrite bool_decide_eq_true_2.
  - intros k t Ht. cbn. unfold revoked_trade. by destruct (pending_trade_of org t) eqn:He.
Qed.

Lemma revoked_items i : is_Some (inventory d !! i) → is_Some (inventory d' !! i).
Proof. cbn. rewrite map_lookup_imap. intros [item ->]. by eexists. Qed.

Lemma revoked_linked : trades_linked d'.
Proof.
  unfold trades_linked. change (trades d') with (revoked_trade org <$> trades d). rewrite map_Forall_fmap.
  intros k t Ht. cbn. destruct (Hlinked k t Ht) as [Hb Ha]. unfold revoked_trade.
  destruct (pending_trade_of org t); cbn; split; by apply (kept_linked d _ _ _ revoked_kept).
Qed.

Lemma revoked_accounts i : accounted_stock d' i = accounted_stock d i.
Proof.
  unfold accounted_stock. cbn [inventory set_field]. cbn. rewrite map_lookup_imap.
  destruct (inventory d !! i) as [item|]; [|done]. cbn. f_equal.
  assert (taken_stock d' i = taken_stock d i) as ->; [|lia]. unfold taken_stock.
  change (trades d') with (revoked_trade org <$> trades d). rewrite sum_map_fmap. apply sum_map_ext.
  intros k t Ht. rewrite (kept_takes _ _ _ _ revoked_kept). unfold revoked_trade.
  destruct (pending_trade_of org t) eqn:He; [|done]. apply andb_true_iff in He as [Hp%bool_decide_eq_true _].
  unfold trade_takes. by rewrite Hp.
Qed.

Context (Hchecks : map_Forall (λ _ o, order_checks (revoked_order d org now o)) (orders d)).

Lemma revoked_row_checks : database_checks (d' <| inventory := inventory d |>).
Proof.
  pose proof revoked_trade_checks as Htc. destruct Hok as ((C1 & C2 & C3 & C4 & C5 & (U1 & U2 & U3 & U4 & U5) & S) & _).
  unfold database_checks, unique_checks. cbn. split_and!; try done.
  - rewrite map_Forall_fmap. apply Hchecks.
  - rewrite map_Forall_fmap. exact Htc.
  - apply unique_on_fmap; [|done]. intros o. apply revoked_order_identity.
  - apply unique_on_fmap; [|done]. intros o. cbn. f_equal. apply revoked_order_identity.
  - apply unique_on_fmap; [|done]. intros o. apply revoked_order_identity.
  - apply unique_on_fmap; [|done]. intros t. unfold revoked_trade. by destruct (pending_trade_of org t).
Qed.

Lemma revoked_market_ok : market_ok d'.
Proof.
  pose proof revoked_row_checks as Hrow. pose proof revoked_held as Hheld. pose proof revoked_item as Hitem.
  pose proof freed_nonneg as Hfree. pose proof revoked_filled as Hfill.
  destruct Hok as (Hc & Hk & Hr & Hs & Hw & Hf).
  refine (conj _ (conj _ (conj _ (conj _ (conj _ _))))).
  - pose proof (λ i, held_nonneg _ i Hrow) as Hpos.
    destruct Hrow as (C1 & C2 & _ & C4 & C5 & U & S). unfold database_checks. split_and!; try done.
    intros i item' (item & Hi & ->)%Hitem. pose proof (proj1 (proj2 (proj2 Hc)) i item Hi) as Hnum.
    specialize (Hpos i). change (held_stock (_ <| inventory := _ |>) i) with (held_stock d' i) in Hpos.
    rewrite Hheld, <-(Hr i item Hi) in Hpos. specialize (Hfree i). specialize (Hs i item Hi). cbn beta in Hs.
    destruct Hnum as (? & ? & ? & ? & ? & ?). unfold INVENTORY_NUMERIC_VALUES, required_numeric in *. cbn.
    split_and!; done || lia.
  - destruct Hk as (K1 & K2 & K3 & K). unfold keyed. cbn. split_and!; try apply K.
    + rewrite map_Forall_fmap. intros k o Ho. cbn. rewrite (proj1 (revoked_order_identity d org now o)). by apply (K1 k).
    + rewrite map_Forall_fmap. intros k t Ht. cbn. unfold revoked_trade. destruct (pending_trade_of org t); exact (K2 k t Ht).
    + intros i item' (item & Hi & ->)%Hitem. by apply (K3 i item).
  - intros i item' (item & Hi & ->)%Hitem. rewrite Hheld, <-(Hr i item Hi). done.
  - intros i item' (item & Hi & ->)%Hitem. specialize (Hs i item Hi). cbn in *. lia.
  - unfold windows_canonical. cbn. rewrite map_Forall_fmap. intros k o Ho. cbn.
    destruct (revoked_order_identity d org now o) as (_ & _ & _ & -> & _). by apply (Hw k).
  - unfold fills_ok. cbn. rewrite map_Forall_fmap. intros k o Ho. cbn.
    change (filled_stock _ k) with (filled_stock d' k). rewrite Hfill. pose proof (proj1 Hk k o Ho) as Hid. cbn in Hid. subst k.
    specialize (Hf _ o Ho). cbn beta in Hf. destruct (revoked_order_identity d org now o) as (_ & -> & _).
    unfold revoked_order. destruct (affected d org o) eqn:Ha.
    + destruct (invalidated_order_row org now (restored (o_id o)) o) as (_ & _ & -> & _). lia.
    + rewrite (unaffected_restored d org o Ha). lia.
Qed.
End revoked.

(** ** What is previewed and locked *)

Definition full_preview (d : Database) (org : uuid) : Preview :=
  MkPreview (doomed_trades d org) (orders_by_id d (active_order_of org))
    (orders_by_id d (λ o, bool_decide (o_id o ∈ linked_order_ids (doomed_trades d org)))).

(** Within the bound of one transaction. *)
Definition within_bound (d : Database) (org : uuid) : Prop :=
  (length (doomed_trades d org) <= MAX_INVALIDATION_ROWS_PER_TRANSACTION)%nat
  ∧ (length (orders_by_id d (active_order_of org)) <= MAX_INVALIDATION_ROWS_PER_TRANSACTION)%nat.
#[export] Instance within_bound_dec d org : Decision (within_bound d org).
Proof. unfold within_bound. apply _. Defined.

Lemma take_within {A} n (l : list A) : ¬ (n < length (take (S n) l))%nat → take (S n) l = l.
Proof. rewrite length_take. intros H. apply take_ge. lia. Qed.

Lemma preview_read org w p w' : _preview org w = Ok p w' → w' = w ∧ p = full_preview (db w) org ∧ within_bound (db w) org.
Proof.
  intros H. unfold _preview in H. apply bind_ok in H as (d & w1 & [= <- <-] & H). cbv zeta in H.
  apply bind_ok in H as ([] & w1 & [Hb ->]%refuse_ok & [= <- <-]).
  apply orb_false_iff in Hb as [H1%bool_decide_eq_false H2%bool_decide_eq_false].
  pose proof (take_within _ _ H1) as E1. pose proof (take_within _ _ H2) as E2. rewrite E1, E2 in *.
  split_and!; [done|done|]. unfold within_bound, doomed_trades. lia.
Qed.

Lemma preview_run org w : within_bound (db w) org → _preview org w = Ok (full_preview (db w) org) w.
Proof.
  intros [H1 H2]. unfold _preview. erewrite bind_run by reflexivity. cbv zeta. unfold doomed_trades in H1.
  rewrite !take_ge by lia. rewrite !bool_decide_eq_false_2 by lia. reflexivity.
Qed.

Lemma elem_of_trades_by_id d p t :
  keyed d → t ∈ trades_by_id d p ↔ trades d !! t_id t = Some t ∧ p t = true.
Proof.
  intros (_ & Hk & _). unfold trades_by_id. rewrite (merge_sort_Permutation trade_id_le), list_elem_of_filter, list_elem_of_fmap.
  split.
  - intros [Hp ([k x] & -> & Hin%elem_of_map_to_list)]. cbn in *. pose proof (Hk k x Hin) as Hx. cbn in Hx. by rewrite Hx.
  - intros [Ht Hp]. split; [done|]. exists (t_id t, t). split; [done|]. by apply elem_of_map_to_list.
Qed.
Lemma elem_of_orders_by_id d p o :
  keyed d → o ∈ orders_by_id d p ↔ orders d !! o_id o = Some o ∧ p o = true.
Proof. intros Hk%keyed_orders. apply (elem_of_selected d Hk). Qed.

Lemma filter_agree {A} (p q : A → bool) (l : list A) :
  (∀ x, x ∈ l → p x = q x) → filter (λ x, p x = true) l = filter (λ x, q x = true) l.
Proof.
  induction l as [|x l IH]; intros H; [done|]. rewrite !filter_cons, (H x) by (by left).
  rewrite IH; [done|]. intros y Hy. apply H. by right.
Qed.
Lemma filter_none {A} (p : A → bool) (l : list A) : (∀ x, p x = false) → filter (λ x, p x = true) l = [].
Proof.
  intros H. induction l as [|x l IH]; [done|]. rewrite filter_cons, decide_False by (by rewrite H). done.
Qed.
Lemma trades_by_id_agree d p q :
  keyed d → (∀ t, trades d !! t_id t = Some t → p t = q t) → trades_by_id d p = trades_by_id d q.
Proof.
  intros (_ & Hk & _) H. unfold trades_by_id. f_equal. apply filter_agree.
  intros t ([k x] & -> & Hin%elem_of_map_to_list)%list_elem_of_fmap. apply H. pose proof (Hk k x Hin) as Hx. cbn in *. by rewrite Hx.
Qed.
Lemma orders_by_id_agree d p q :
  keyed d → (∀ o, orders d !! o_id o = Some o → p o = q o) → orders_by_id d p = orders_by_id d q.
Proof.
  intros Hk%keyed_orders H. unfold orders_by_id, select_orders. f_equal. apply filter_agree.
  intros o Ho. apply H. by apply elem_of_table.
Qed.

Lemma identities_dom p k : is_Some (identities p !! k) ↔ k ∈ o_id <$> pv_owned p ++ pv_linked p.
Proof.
  unfold identities. rewrite <-elem_of_dom, dom_list_to_map, elem_of_list_to_set.
  rewrite list_elem_of_fmap. split.
  - intros ([k' x] & -> & Hin%elem_of_reverse%list_elem_of_fmap). destruct Hin as (o & [= -> ->] & Ho).
    cbn. by apply list_elem_of_fmap_2.
  - intros (o & -> & Ho)%list_elem_of_fmap. exists (o_id o, _order_identity o). split; [done|].
    apply elem_of_reverse, list_elem_of_fmap. by exists o.
Qed.

Lemma identities_keys p k : k ∈ (map_to_list (identities p)).*1 ↔ k ∈ o_id <$> pv_owned p ++ pv_linked p.
Proof.
  rewrite <-identities_dom, list_elem_of_fmap. split.
  - intros ([k' x] & -> & Hin%elem_of_map_to_list). by eexists.
  - intros [x Hx]. exists (k, x). split; [done|]. by apply elem_of_map_to_list.
Qed.

Lemma full_preview_ids d org o :
  keyed d → orders d !! o_id o = Some o →
  o_id o ∈ o_id <$> pv_owned (full_preview d org) ++ pv_linked (full_preview d org)
  ↔ active_order_of org o = true ∨ o_id o ∈ linked_order_ids (doomed_trades d org).
Proof.
  intros Hk Ho. rewrite list_elem_of_fmap. cbn. split.
  - intros (x & Hid & [Hx|Hx]%elem_of_app); apply elem_of_orders_by_id in Hx as [Hx Hp]; try done.
    + left. rewrite <-Hid in Hx. assert (x = o) as -> by congruence. done.
    + right. rewrite Hid. by apply bool_decide_eq_true in Hp.
  - intros [Hp|Hp]; exists o; (split; [done|]); apply elem_of_app; [left|right]; apply elem_of_orders_by_id; try done.
    split; [done|]. by apply bool_decide_eq_true.
Qed.

(** The trades of an older preview are still on the same orders. *)
Definition links_kept (d : Database) (p : Preview) : Prop :=
  ∀ t t', t ∈ pv_trades p → trades d !! t_id t = Some t' → trade_links t' = trade_links t.

(** The rows to cancel, under lock, as the books have them now. *)
Definition affected_rows (d : Database) (org : uuid) (a : Affected) : Prop :=
  af_trades a = doomed_trades d org ∧ af_orders a = orders_by_id d (affected d org)
  ∧ af_organization_ids a = org :: (o_organization_id <$> af_orders a)
                              ++ (t_buyer_id <$> af_trades a) ++ (t_seller_id <$> af_trades a)
  ∧ af_organizations a = filter (λ kv, kv.1 ∈ sorted_set (af_organization_ids a)) (organizations d)
  ∧ ∀ id, id ∈ af_organization_ids a → is_Some (organizations d !! id).

Lemma lock_trades_ok org ids w rows w' :
  lock_executable_trades org ids w = Ok rows w' →
  rows = trades_by_id (db w) (λ t, bool_decide (t_id t ∈ ids) && pending_trade_of org t) ∧ reads w w'.
Proof.
  unfold lock_executable_trades. destruct ids as [|i ids].
  - intros [= <- <-]. split; [|done]. unfold trades_by_id. by rewrite filter_none.
  - intros H. apply bind_ok in H as ([] & w1 & [= <-] & H). apply bind_ok in H as (d & w2 & [= <- <-] & [= <- <-]).
    by repeat split.
Qed.

Lemma lock_orders_ok ids w rows w' :
  lock_affected_orders ids w = Ok rows w' →
  rows = orders_by_id (db w) (λ o, bool_decide (o_id o ∈ ids)) ∧ reads w w'.
Proof.
  unfold lock_affected_orders. destruct ids as [|i ids].
  - intros [= <- <-]. split; [|done]. unfold orders_by_id, select_orders. by rewrite filter_none.
  - intros H. apply bind_ok in H as ([] & w1 & [= <-] & H). apply bind_ok in H as (d & w2 & [= <- <-] & [= <- <-]).
    by repeat split.
Qed.

(** Locking organizations alone. *)
Lemma lock_organizations_only ids w orgs w' :
  lock_and_load_market_organizations ids [] false [] w = Ok orgs w' → ids ≠ [] →
  orgs = filter (λ kv, kv.1 ∈ sorted_set ids) (organizations (db w)) ∧ (∀ id, id ∈ ids → is_Some (organizations (db w) !! id))
  ∧ reads w w'.
Proof.
  intros H Hne. pose proof (keeps_ok reads _ _ _ _ (reads_lock_and_load _ _ _ _) H) as Hr.
  unfold lock_and_load_market_organizations in H. cbv zeta in H. destruct ids as [|i ids]; [done|].
  rewrite bool_decide_eq_false_2 in H by (eapply (sorted_set_nonempty i); by left).
  apply bind_ok in H as (found & w1 & H1 & H). unfold lock_actors in H1. rewrite bool_decide_eq_true_2 in H1 by done.
  injection H1 as <- <-. apply bind_ok in H as (gs & w5 & [-> Hdb5]%lock_organizations_ok & H).
  apply bind_ok in H as ([] & w6 & [Hall%bool_decide_eq_false ->]%refuse_ok & H). apply dec_stable in Hall.
  apply bind_ok in H as ([] & w7 & _ & H). apply bind_ok in H as ([] & w8 & _ & [= <- <-]).
  split_and!; [done| |done]. intros id Hid%sorted_set_elem.
  rewrite <-(locked_lookup (organizations (db w)) _ id Hid). apply elem_of_dom. set_solver.
Qed.

(** The preview names the trades and the orders the books would name now. *)
Definition preview_current (d : Database) (org : uuid) (p : Preview) : Prop :=
  trade_ids (pv_trades p) = trade_ids (doomed_trades d org) ∧ identities p = identities (full_preview d org).

Lemma lock_affected_ok org p w a w' :
  keyed (db w) → links_kept (db w) p → lock_affected_market org p w = Ok a w' →
  affected_rows (db w) org a ∧ preview_current (db w) org p ∧ reads w w'.
Proof.
  intros Hk Hlinks H. unfold lock_affected_market in H.
  apply bind_ok in H as ([] & w1 & Hr1%reads_ok & H); [|keeps]. pose proof (proj1 Hr1) as Hdb1.
  apply bind_ok in H as (cur & w2 & (-> & Hcur & _)%preview_read & H). rewrite Hdb1 in Hcur.
  apply bind_ok in H as ([] & w2 & [Hsame ->]%refuse_ok & H).
  apply orb_false_iff in Hsame as [Hids%bool_decide_eq_false%dec_stable Hident%bool_decide_eq_false%dec_stable].
  cbv zeta in H. apply bind_ok in H as (rows & w3 & [Hrows Hr3]%lock_trades_ok & H).
  apply bind_ok in H as ([] & w4 & [_ ->]%refuse_ok & H).
  apply bind_ok in H as (os & w4 & [Hos Hr4]%lock_orders_ok & H).
  apply bind_ok in H as ([] & w5 & [_ ->]%refuse_ok & H).
  apply bind_ok in H as (orgs & w5 & (Horgs & Hex & Hr5)%lock_organizations_only & [= <- <-]); [|done].
  rewrite (proj1 Hr4), (proj1 Hr3), Hdb1 in Horgs, Hex. rewrite (proj1 Hr3), Hdb1 in Hos. rewrite Hdb1 in Hrows.
  split_and!; [|unfold preview_current; by rewrite <-Hids, <-Hident, Hcur
                |etrans; [exact Hr1|]; etrans; [exact Hr3|]; etrans; [exact Hr4|exact Hr5]].
  assert (∀ id, id ∈ t_id <$> pv_trades p ↔ id ∈ t_id <$> doomed_trades (db w) org) as Htid.
  { intros id. rewrite Hcur in Hids. cbn in Hids. unfold trade_ids in Hids.
    rewrite <-!(elem_of_list_to_set (C:=gset uuid)). by rewrite Hids. }
  unfold affected_rows. cbn. split_and!; [| |done|done|done].
  - rewrite Hrows. apply trades_by_id_agree; [done|]. intros t Ht. destruct (pending_trade_of org t) eqn:He; [|apply andb_false_r].
    rewrite andb_true_r. apply bool_decide_eq_true, sorted_set_elem, Htid, list_elem_of_fmap_2, elem_of_trades_by_id; done.
  - rewrite Hos. apply orders_by_id_agree; [done|]. intros o Ho. apply eq_true_iff_eq.
    unfold affected. rewrite bool_decide_eq_true, sorted_set_elem, elem_of_app, orb_true_iff, bool_decide_eq_true.
    rewrite <-Hident, Hcur, identities_keys, full_preview_ids by done.
    assert (o_id o ∈ linked_order_ids (pv_trades p) → o_id o ∈ linked_order_ids (doomed_trades (db w) org)) as Hold.
    { intros (t & Ht & Hl)%linked_order_ids_elem.
      assert (t_id t ∈ t_id <$> doomed_trades (db w) org) as (t' & Hid & Ht')%list_elem_of_fmap
        by (by apply Htid, list_elem_of_fmap_2).
      apply linked_order_ids_elem. exists t'. split; [done|]. apply elem_of_trades_by_id in Ht' as [Ht' _]; [|done].
      rewrite <-Hid in Ht'. by rewrite (Hlinks t t' Ht Ht'). }
    tauto.
Qed.

(** ** The writes of the loops *)

Definition with_trades (w : World) (m : gmap uuid Trade) : World := w <| db := (db w) <| trades := m |> |>.
Definition with_orders (w : World) (m : gmap uuid Order) : World := w <| db := (db w) <| orders := m |> |>.
Definition with_inventory (w : World) (m : gmap uuid InventoryItem) : World := w <| db := (db w) <| inventory := m |> |>.

Ltac by_tables H := unfold only_events in H |- *; cbn in *; destruct_and! H; split_and!; congruence.

#[export] Instance with_trades_proper m : Proper (only_events ==> only_events) (λ w, with_trades w m).
Proof. intros a b H. unfold with_trades. by_tables H. Qed.
#[export] Instance with_orders_proper m : Proper (only_events ==> only_events) (λ w, with_orders w m).
Proof. intros a b H. unfold with_orders. by_tables H. Qed.
#[export] Instance with_inventory_proper m : Proper (only_events ==> only_events) (λ w, with_inventory w m).
Proof. intros a b H. unfold with_inventory. by_tables H. Qed.

Lemma cancel_trades_run actor reason reference l w :
  ∃ w', iterM (cancel_affected_trade actor reason reference) l w = Ok tt w'
    ∧ only_events (with_trades w (put_all t_id (cancelled_trade <$> l) (trades (db w)))) w'.
Proof.
  revert w. induction l as [|t l IH]; intros w.
  { exists w. split; [done|]. unfold with_trades. by repeat split. }
  set (w1 := with_trades w (<[ t_id t := cancelled_trade t ]> (trades (db w)))).
  assert (∃ w2, cancel_affected_trade actor reason reference t w = Ok tt w2 ∧ only_events w1 w2) as (w2 & Hrun & Hev)
    by (eexists; split; [reflexivity|by repeat split]).
  destruct (IH w2) as (w3 & Hrun3 & Hev3). exists w3. split.
  - cbn [iterM]. by erewrite bind_run by exact Hrun.
  - etrans; [|exact Hev3]. assert (trades (db w2) = trades (db w1)) as -> by (unfold only_events in Hev; by destruct_and! Hev).
    exact (with_trades_proper _ w1 w2 Hev).
Qed.

Lemma emit_updated_ok before o w u w' :
  emit_order_updated before o w = Ok u w' → database_checks (db w) ∧ only_events w w'.
Proof.
  intros H. split; [|by eapply keeps_ok; [apply only_events_emit_updated|exact H]].
  unfold emit_order_updated in H. by apply bind_ok in H as ([] & w1 & [-> Hc]%flush_ok & _).
Qed.

Section orders_loop.
Context (org : uuid) (actor : option uuid) (reason reference : string) (now : datetime) (rows : list Trade).

Definition new_row (o : Order) : Order := invalidated_order org now (restored_by_order rows (o_id o)) o.
Definition released_by (o : Order) : option (uuid * Z) :=
  item ← o_inventory_item_id o;
  let release := invalidated_release org now (restored_by_order rows (o_id o)) o in
  if 0 <? release then Some (item, release) else None.
(** The loop touches the order: it is the organization's, or gets something back. *)
Definition touched (o : Order) : bool := owner_revoked org o || bool_decide (restored_by_order rows (o_id o) ≠ 0).

Lemma invalidate_order_ok o w y w' :
  touched o = true → invalidate_order org actor reason reference now rows o w = Ok y w' →
  only_events (with_orders w (<[ o_id o := new_row o ]> (orders (db w)))) w'
  ∧ map_Forall (λ _ o, order_checks o) (orders (db w')) ∧ y.1 = released_by o.
Proof.
  intros Ht H. unfold invalidate_order in H. apply bind_ok in H as ([] & w1 & [_ ->]%refuse_ok & H).
  fold (new_row o) in H. change (_ || _) with (touched o) in H. rewrite Ht in H.
  assert (o_id (new_row o) = o_id o) as Hid by apply invalidated_order_row.
  set (w1 := with_orders w (<[ o_id o := new_row o ]> (orders (db w)))).
  assert (put_order (new_row o) w = Ok tt w1) as Hput by (unfold put_order, modify; by rewrite Hid).
  erewrite bind_run in H by exact Hput. apply bind_ok in H as (d & w2 & [= <- <-] & H).
  apply bind_ok in H as ([] & w3 & [Hchk Hev]%emit_updated_ok & H).
  apply bind_ok in H as ([] & w4 & Haud & [= <- <-]).
  pose proof (transitivity Hev (keeps_ok only_events _ _ _ _ (only_events_record_audit _ _ _ _ _) Haud)) as Hev4.
  split_and!; [done| |done].
  assert (orders (db w4) = orders (db w1)) as -> by (unfold only_events in Hev4; by destruct_and! Hev4). apply Hchk.
Qed.

Lemma invalidate_orders_ok l w ys w' :
  Forall (λ o, touched o = true) l → map_Forall (λ _ o, order_checks o) (orders (db w)) →
  mapM (invalidate_order org actor reason reference now rows) l w = Ok ys w' →
  only_events (with_orders w (put_all o_id (new_row <$> l) (orders (db w)))) w'
  ∧ map_Forall (λ _ o, order_checks o) (orders (db w')) ∧ ys.*1 = released_by <$> l.
Proof.
  revert w ys w'. induction l as [|o l IH]; intros w ys w' Hl Hc H.
  { injection H as <- <-. split_and!; [by repeat split|done|done]. }
  apply Forall_cons in Hl as [Ho Hl]. cbn [mapM] in H.
  apply bind_ok in H as (y & w1 & (Hev1 & Hc1 & Hy)%invalidate_order_ok & H); [|done].
  apply bind_ok in H as (zs & w2 & (Hev2 & Hc2 & Hzs)%IH & [= <- <-]); [|done..].
  split_and!; [|done|by cbn; rewrite Hy, Hzs]. etrans; [|exact Hev2].
  set (w0 := with_orders w (<[ o_id o := new_row o ]> (orders (db w)))) in *.
  assert (orders (db w1) = orders (db w0)) as -> by (unfold only_events in Hev1; by destruct_and! Hev1).
  etrans; [|exact (with_orders_proper _ w0 w1 Hev1)].
  assert (o_id (new_row o) = o_id o) as Hid by apply invalidated_order_row.
  unfold put_all. cbn. rewrite Hid. done.
Qed.
End orders_loop.

(** ** Releasing the reservations *)

Lemma releases_insert l kv i : default 0 (releases_by_item (l ++ [kv]) !! i)
  = default 0 (releases_by_item l !! i) + if bool_decide (kv.1 = i) then kv.2 else 0.
Proof.
  unfold releases_by_item. rewrite foldl_app. cbn. case_bool_decide as Hi.
  - subst i. rewrite lookup_insert_eq. cbn. lia.
  - rewrite lookup_insert_ne by done. lia.
Qed.

Lemma releases_total l i :
  default 0 (releases_by_item l !! i) = sum_list (λ kv, if bool_decide (kv.1 = i) then kv.2 else 0) l.
Proof.
  induction l as [|kv l IH] using rev_ind; [done|]. rewrite releases_insert, IH.
  rewrite (sum_list_permutation _ (l ++ [kv]) (kv :: l)) by (by rewrite Permutation_app_comm). cbn. unfold sum_list. lia.
Qed.

(** The reservations of [releases] given back at once. *)
Definition released_all (releases : gmap uuid Z) (inv : gmap uuid InventoryItem) : gmap uuid InventoryItem :=
  map_imap (λ i item, Some (release_stock (default 0 (releases !! i)) item)) inv.

Lemma release_nothing item : release_stock 0 item = item.
Proof. unfold release_stock. rewrite Z.sub_0_r, Z.add_0_r. by destruct item. Qed.

Definition release_one (inv : gmap uuid InventoryItem) : uuid * Z → M World unit := λ '(item_id, quantity),
  match inv !! item_id with
  | None => raise KeyError
  | Some item =>
      refuse (i_reserved_stock_mt item <? quantity)
        (HTTPException 409 (Msg "Inventory reservation is inconsistent; invalidation refused")) ;;
      put_item (release_stock quantity item)
  end.

Lemma release_each_ok rows l w u w' :
  map_Forall (λ k i, i_id i = k) (inventory (db w)) → NoDup l.*1 →
  (∀ i q, (i, q) ∈ l → ∀ item, rows !! i = Some item → inventory (db w) !! i = Some item) →
  iterM (release_one rows) l w = Ok u w' →
  only_events (with_inventory w (released_all (list_to_map l) (inventory (db w)))) w'.
Proof.
  revert w. induction l as [|[i q] l IH]; intros w Hk Hnd Hrows H.
  { injection H as <- <-. unfold with_inventory.
    assert (released_all (list_to_map []) (inventory (db w)) = inventory (db w)) as ->; [|by repeat split].
    apply map_eq. intros i. unfold released_all. rewrite map_lookup_imap. destruct (inventory (db w) !! i); [|done].
    cbn. by rewrite release_nothing. }
  cbn [iterM] in H. apply bind_ok in H as ([] & w1 & H1 & H). unfold release_one in H1.
  destruct (rows !! i) as [item|] eqn:Hi; [|done].
  assert (inventory (db w) !! i = Some item) as Hitem by (apply (Hrows i q); [by left|done]).
  apply bind_ok in H1 as ([] & w2 & [_ ->]%refuse_ok & Hput). apply NoDup_cons in Hnd as [Hnin Hnd]. cbn in Hnin.
  set (inv := <[ i := release_stock q item ]> (inventory (db w))).
  assert (w1 = with_inventory w inv) as ->.
  { unfold put_item, modify in Hput. injection Hput as <-. pose proof (Hk i item Hitem) as Hid. cbn in Hid.
    unfold inv, with_inventory. by rewrite Hid. }
  apply IH in H.
  - etrans; [|exact H]. unfold with_inventory. cbn [db inventory set_field]. cbn.
    assert (released_all (<[ i := q ]> (list_to_map l)) (inventory (db w)) = released_all (list_to_map l) inv) as ->;
      [|by repeat split].
    apply map_eq. intros j. unfold released_all, inv. rewrite !map_lookup_imap.
    destruct (decide (j = i)) as [->|Hne].
    + rewrite !lookup_insert_eq, Hitem. cbn. by rewrite (not_elem_of_list_to_map_1 l i Hnin), release_nothing.
    + by rewrite !lookup_insert_ne by done.
  - unfold inv. cbn. apply map_Forall_insert_2; [|done]. exact (Hk i item Hitem).
  - done.
  - intros j q' Hj x Hx. unfold inv. cbn. rewrite lookup_insert_ne; [by apply (Hrows j q'); [by right|]|].
    intros <-. apply Hnin. by apply (list_elem_of_fmap_2 fst) in Hj.
Qed.

Lemma release_items_ok releases w u w' :
  map_Forall (λ k i, i_id i = k) (inventory (db w)) → release_items releases w = Ok u w' →
  only_events (with_inventory w (released_all releases (inventory (db w)))) w'.
Proof.
  intros Hk H. unfold release_items in H. apply bind_ok in H as (rows & w1 & Hlock & H).
  pose proof (keeps_ok reads _ _ _ _ (reads_lock_inventory_items _) Hlock) as Hr.
  apply lock_inventory_items_ok in Hlock as (Hdb & Hev & Hrows).
  apply release_each_ok in H.
  - rewrite list_to_map_to_list in H. rewrite Hdb in H. etrans; [|exact H]. exact (with_inventory_proper _ w w1 Hev).
  - by rewrite Hdb.
  - apply NoDup_fst_map_to_list.
  - intros i q Hi%elem_of_map_to_list item Hitem. rewrite Hdb.
    destruct (Hrows i) as (x & Hx & Hinv); [apply elem_of_dom; by eexists|]. congruence.
Qed.

(** ** The operation implements the revocation *)

Lemma omap_fst {A B} (l : list (option A * B)) : omap fst l = omap (λ x, x) l.*1.
Proof. induction l as [|[[a|] b] l IH]; cbn; by rewrite ?IH. Qed.

Section cancelled.
Context (org : uuid) (actor : option uuid) (reason reference : string).
Context (w : World) (Hok : market_ok (db w)) (Hlinked : trades_linked (db w)) (Hbacked : asks_backed (db w)).
#[local] Abbreviation d := (db w).

Lemma linked_restored o : o_id o ∈ linked_order_ids (doomed_trades d org) → restored_stock d org (o_id o) ≠ 0.
Proof.
  intros (t & Ht & Hl)%linked_order_ids_elem. apply elem_of_trades_by_id in Ht as [Ht He]; [|apply Hok].
  rewrite restored_as_sum.
  pose proof (sum_map_le_one (λ t, if pending_trade_of org t then trade_restores (o_id o) t else 0) (trades d) (t_id t) t) as Hle.
  cbn in Hle. rewrite He in Hle.
  assert (trade_restores (o_id o) t <= sum_map (λ t, if pending_trade_of org t then trade_restores (o_id o) t else 0) (trades d)).
  { apply Hle; [|done]. intros k x Hx. destruct (pending_trade_of org x); [|done]. by apply (trade_restores_nonneg d Hok _ x k). }
  assert (1 <= trade_restores (o_id o) t); [|lia].
  destruct Hok as ((_ & Hc & _) & _). destruct (Hc _ t Ht) as (_ & ((? & _) & _) & _).
  apply trade_links_elem in Hl. unfold trade_restores. destruct Hl as [-> | ->];
    rewrite (bool_decide_eq_true_2 (Some _ = _)) by done; case_bool_decide; lia.
Qed.

Lemma affected_touched o : affected d org o = true → touched org (doomed_trades d org) o = true.
Proof.
  unfold affected, touched, owner_revoked, active_order_of.
  intros [[-> _]%andb_true_iff|Hl%bool_decide_eq_true]%orb_true_iff; [done|].
  rewrite (bool_decide_eq_true_2 (_ ≠ 0)) by (by apply linked_restored). apply orb_true_r.
Qed.

(** What the loop releases of item [i] is what the revocation frees. *)
Lemma loop_releases now i :
  default 0 (releases_by_item (omap (released_by org now (doomed_trades d org)) (orders_by_id d (affected d org))) !! i)
  = freed_stock d org now i.
Proof.
  rewrite releases_total. unfold freed_stock.
  assert (∀ l, (∀ o, o ∈ l → orders d !! o_id o = Some o ∧ affected d org o = true) →
    sum_list (λ kv, if bool_decide (kv.1 = i) then kv.2 else 0) (omap (released_by org now (doomed_trades d org)) l)
    = sum_list (λ o, if bool_decide (o_inventory_item_id o = Some i) then freed_by d org now o else 0) l) as Hsum.
  { induction l as [|o l IH]; intros Hl; [done|]. destruct (Hl o) as [Ho Ha]; [by left|].
    assert (0 <= freed_by d org now o) as H0 by (by apply (freed_by_nonneg d org now Hok Hlinked (o_id o))).
    specialize (IH ltac:(intros x Hx; apply Hl; by right)).
    unfold sum_list in *. cbn [foldr omap list_omap]. rewrite <-IH. unfold released_by, freed_by in *. rewrite Ha in *.
    change (restored_by_order (doomed_trades d org) (o_id o)) with (restored_stock d org (o_id o)).
    destruct (o_inventory_item_id o) as [j|]; cbn; [|done]. destruct (Z.ltb_spec 0 (invalidated_release org now (restored_stock d org (o_id o)) o)) as [Hp|Hp].
    - cbn. case_bool_decide; case_bool_decide; (lia || congruence).
    - case_bool_decide; lia. }
  rewrite Hsum.
  - unfold orders_by_id, select_orders. rewrite (sum_list_permutation _ _ _ (merge_sort_Permutation id_le _)), sum_list_filter, sum_list_map.
    apply sum_map_ext. intros k o _. unfold freed_by. destruct (affected d org o); [done|]. by case_bool_decide.
  - intros o Ho. by apply elem_of_orders_by_id in Ho; [|apply Hok].
Qed.

Lemma cancel_affected_ok a u w' :
  affected_rows d org a → cancel_affected_market org actor reason reference a w = Ok u w' →
  ∃ now, observed w now ∧ only_events (w <| db := revoked_in d org now |>) w'
    ∧ map_Forall (λ _ o, order_checks (revoked_order d org now o)) (orders d).
Proof.
  intros (Etr & Eos & _) H. unfold cancel_affected_market in H. rewrite Etr, Eos in H.
  pose proof Hok as (Hchk & (Ko & Kt & Ki & _) & _).
  destruct (cancel_trades_run actor reason reference (doomed_trades d org) w) as (w1 & Hrun & Hev1).
  erewrite bind_run in H by exact Hrun. clear Hrun.
  rewrite (put_all_fmap t_id cancelled_trade (pending_trade_of org)) in Hev1
    by (done || (intros t; apply elem_of_trades_by_id, Hok)).
  apply bind_ok in H as (now & w2 & [= <- <-] & H). exists (clock w1 (clock_reads w1)).
  split; [exists (clock_reads w1); by rewrite (only_events_clock _ _ Hev1)|]. set (now := clock w1 _) in *.
  set (w2 := w1 <| clock_reads := _ |>) in *.
  assert (only_events (with_trades w (revoked_trade org <$> trades d)) w2) as Hev2 by (etrans; [exact Hev1|by repeat split]).
  clearbody w2. clear Hev1 Hbacked. clearbody now. clear w1.
  assert (orders (db w2) = orders d ∧ inventory (db w2) = inventory d) as [Eo2 Ei2]
    by (unfold only_events in Hev2; by destruct_and! Hev2).
  apply bind_ok in H as (ys & w3 & (Hev3 & Hc3 & Hys)%invalidate_orders_ok & H).
  2: { apply Forall_forall. intros o Ho. apply elem_of_orders_by_id in Ho as [_ Ha]; [|apply Hok]. by apply affected_touched. }
  2: { rewrite Eo2. apply Hchk. }
  rewrite Eo2, (put_all_fmap o_id _ (affected d org)) in Hev3
    by (done || (intros o; apply invalidated_order_row) || (intros o; apply elem_of_orders_by_id, Hok)).
  change (λ x, if affected d org x then new_row org now (doomed_trades d org) x else x) with (revoked_order d org now) in Hev3.
  assert (inventory (db w3) = inventory d ∧ orders (db w3) = revoked_order d org now <$> orders d) as [Ei3 Eo3].
  { unfold only_events in Hev3. destruct_and! Hev3. cbn in *. split; congruence. }
  apply bind_ok in H as ([] & w4 & Hev4%release_items_ok & H); [|by rewrite Ei3].
  apply bind_ok in H as ([] & w5 & Hreb & Haud). split.
  - etrans; [|etrans; [exact (keeps_ok only_events _ _ _ _ (only_events_rebuild _) Hreb)
                      |exact (keeps_ok only_events _ _ _ _ (only_events_record_audit _ _ _ _ _) Haud)]].
    etrans; [|exact Hev4]. rewrite Ei3.
    assert (released_all (releases_by_item (omap fst ys)) (inventory d) = inventory (revoked_in d org now)) as ->.
    { apply map_eq. intros i. unfold released_all. cbn. rewrite !map_lookup_imap.
      destruct (inventory d !! i) as [item|]; [|done]. cbn. do 2 f_equal.
      rewrite omap_fst, Hys, <-(loop_releases now i). do 3 f_equal.
      generalize (orders_by_id d (affected d org)). intros l. induction l as [|o l IHl]; [done|]. cbn.
      destruct (released_by _ _ _ o); by rewrite IHl. }
    etrans; [|apply (with_inventory_proper _ _ _ Hev3)].
    etrans; [|apply (with_inventory_proper _ _ _ (with_orders_proper _ _ _ Hev2))]. by repeat split.
  - rewrite Eo3, map_Forall_fmap in Hc3. exact Hc3.
Qed.
End cancelled.

Lemma unmoved_invalidate org actor reason reference public p :
  Keeps unmoved (invalidate_previewed_market org actor reason reference public p).
Proof.
  assert (∀ t, Keeps unmoved (cancel_affected_trade actor reason reference t)) as Hcancel by done.
  assert (∀ now rows o, Keeps unmoved (invalidate_order org actor reason reference now rows o)) as Horder.
  { intros now rows o. unfold invalidate_order. keeps; try done. all: apply keeps_only_events_unmoved; keeps. }
  unfold invalidate_previewed_market, lock_affected_market, cancel_affected_market, release_items.
  keeps; try apply Hcancel; try apply Horder; try done.
  all: apply keeps_only_events_unmoved; unfold lock_executable_trades, lock_affected_orders, _preview; keeps.
Qed.

Section implements.
Context (org : uuid) (actor : option uuid) (reason reference : string) (public : bool).

Lemma invalidate_previewed_ok p w events orgs w' :
  market_ok (db w) → trades_linked (db w) → asks_backed (db w) → links_kept (db w) p →
  invalidate_previewed_market org actor reason reference public p w = Ok (events, orgs) w' →
  ∃ now a e, observed w now ∧ affected_rows (db w) org a ∧ preview_current (db w) org p
    ∧ events = [e] ∧ orgs = af_organizations a ∧ ev_participant_org_ids e = sorted_set (af_organization_ids a)
    ∧ only_events (w <| db := revoked_in (db w) org now |>) w' ∧ market_ok (revoked_in (db w) org now).
Proof.
  intros Hok Hl Hb Hp H. unfold invalidate_previewed_market in H.
  apply bind_ok in H as (a & w1 & (Ha & Hcur & Hr)%lock_affected_ok & H); [|apply Hok|done].
  apply bind_ok in H as ([] & w2 & Hc & H). pose proof (proj1 Hr) as Hdb.
  apply cancel_affected_ok with (org := org) in Hc as (now & Hnow & Hev & Hchk); rewrite ?Hdb in *; [|done..].
  apply bind_ok in H as (e & w3 & [He ->]%lift_ok & [= <- <- <-]).
  exists now, a, e. split_and!; try done.
  - by eapply reads_observed.
  - unfold participant_market_event in He. destruct (payload_has _ _); [done|]. unfold envelope in He.
    destruct (sorted_set (af_organization_ids a)) as [|x l] eqn:Hs; [done|].
    destruct (_ || _); [done|]. by injection He as <-.
  - etrans; [|exact Hev]. destruct Hr as (_ & ? & ? & ?). by repeat split.
  - by apply revoked_market_ok.
Qed.
End implements.

(** What a successful invalidation leaves behind: the books of [d] without the
    organization, as of a time the session has read. *)
Definition revoked_outcome (seen : datetime → Prop) (d : Database) (org : uuid) (d' : Database) : Prop :=
  (∃ now, seen now ∧ same_ledger (revoked_in d org now) d') ∧ market_ok d' ∧ trades_linked d' ∧ asks_backed d'
  ∧ out_of_market d' org ∧ (∀ i, accounted_stock d' i = accounted_stock d i)
  ∧ organizations d' = organizations d ∧ users d' = users d.

Lemma revoked_outcome_ok (seen : datetime → Prop) d org now w w' :
  seen now → market_ok d → trades_linked d → asks_backed d → market_ok (revoked_in d org now) →
  only_events (w <| db := revoked_in d org now |>) w' → revoked_outcome seen d org (db w').
Proof.
  intros Hnow Hok Hl Hb Hok' Hev. pose proof (only_events_same_ledger _ _ Hev) as Hs. pose proof Hs as (Eo & Et & Ei). cbn in Hs.
  pose proof (revoked_out d org now) as [Out1 Out2]. pose proof (revoked_linked d org now Hl) as Hl'.
  pose proof (kept_asks_backed _ _ (revoked_kept d org now) Hb) as Hb'.
  unfold revoked_outcome. split_and!.
  - by exists now.
  - exact (market_ok_only_events _ _ Hev Hok').
  - unfold trades_linked, linked_to in *. by rewrite Et, Eo.
  - unfold asks_backed in *. by rewrite Eo.
  - unfold out_of_market. by rewrite Et, Eo.
  - intros i. rewrite <-(revoked_accounts d org now i). unfold accounted_stock, taken_stock. by rewrite Et, Ei, Eo.
  - unfold only_events in Hev. by destruct_and! Hev.
  - unfold only_events in Hev. by destruct_and! Hev.
Qed.

Lemma same_ledger_trans a b c : same_ledger a b → same_ledger b c → same_ledger a c.
Proof. unfold same_ledger. intros (? & ? & ?) (? & ? & ?). split_and!; congruence. Qed.

Lemma revoked_outcome_events seen d org w w' :
  only_events w w' → revoked_outcome seen d org (db w) → revoked_outcome seen d org (db w').
Proof.
  intros Hev ((now & Hnow & H1) & H2 & H3 & H4 & [H5 H5'] & H6 & H7 & H8). pose proof (only_events_same_ledger _ _ Hev) as Hs.
  pose proof Hs as (Eo & Et & Ei). unfold revoked_outcome. split_and!.
  - exists now. split; [done|]. by eapply same_ledger_trans.
  - by eapply market_ok_only_events.
  - unfold trades_linked, linked_to in *. by rewrite Et, Eo.
  - unfold asks_backed in *. by rewrite Eo.
  - unfold out_of_market. by rewrite Et, Eo.
  - intros i. rewrite <-H6. unfold accounted_stock, taken_stock. by rewrite Et, Ei, Eo.
  - rewrite <-H7. unfold only_events in Hev. by destruct_and! Hev.
  - rewrite <-H8. unfold only_events in Hev. by destruct_and! Hev.
Qed.

Lemma revoked_in_ledger d d' org now : same_ledger d d' → same_ledger (revoked_in d org now) (revoked_in d' org now).
Proof.
  intros (Eo & Et & Ei). unfold same_ledger, revoked_in. cbn. rewrite Eo, Et, Ei.
  assert (doomed_trades d' org = doomed_trades d org) as E by (unfold doomed_trades, trades_by_id; by rewrite Et).
  assert (∀ o, revoked_order d' org now o = revoked_order d org now o) as Er
    by (intros o; unfold revoked_order, affected, restored_stock; by rewrite E).
  split_and!; [by apply map_fmap_ext|done|]. apply map_eq. intros i. rewrite !map_lookup_imap.
  assert (freed_stock d' org now i = freed_stock d org now i) as ->; [|done].
  unfold freed_stock. rewrite Eo. apply sum_map_ext. intros k o _. unfold freed_by, affected, restored_stock. by rewrite E.
Qed.

(** C18: Invalidating an organization's market access is one revocation.  Over
    books that satisfy the market invariant, and whatever the first preview saw -
    other requests may have run between it and the slice locks, as long as no trade
    changed its orders -, the operation either raises and commits nothing, or the
    preview was still current and it has cancelled every pending trade of the
    organization, withdrawn every active order, given the counterparties' orders back
    what those trades had taken - live again, or expired if their deadline had passed
    at the time the session read - and every inventory row what its orders no longer
    need: the organization is out of the market, the invariant holds, no stock is
    lost or created, and one event tells exactly the parties concerned. *)
Theorem invalidation_implements_revocation org actor reason reference public p w :
  market_ok (db w) → trades_linked (db w) → asks_backed (db w) → links_kept (db w) p →
  match invalidate_previewed_market org actor reason reference public p w with
  | Ok (events, _) w' =>
      preview_current (db w) org p ∧ revoked_outcome (observed w) (db w) org (db w') ∧ committed w' = committed w
      ∧ ∃ e a, events = [e] ∧ affected_rows (db w) org a
          ∧ ev_participant_org_ids e = sorted_set (af_organization_ids a)
  | Raise e w' => committed w' = committed w
  end.
Proof.
  intros Hok Hl Hb Hp.
  pose proof (unmoved_invalidate org actor reason reference public p w) as Hu.
  destruct (invalidate_previewed_market _ _ _ _ _ _ w) as [[events orgs] w'|e w'] eqn:H; [|apply Hu].
  destruct (invalidate_previewed_ok _ _ _ _ _ p w events orgs w' Hok Hl Hb Hp H)
    as (now & a & e & Hnow & Ha & Hcur & -> & _ & Hpart & Hev & Hok').
  split_and!; [done|by eapply revoked_outcome_ok|apply Hu|]. by exists e, a.
Qed.

Lemma own_preview_links d org : keyed d → links_kept d (full_preview d org).
Proof. intros Hk t t' Ht Ht'. apply elem_of_trades_by_id in Ht as [Ht _]; [|done]. congruence. Qed.

Lemma invalidation_implements_revocation_witness :
  ∃ events orgs w',
    invalidate_previewed_market 2 None "revoked" "case 7" false (full_preview (db Demo.hit) 2) Demo.hit = Ok (events, orgs) w'
    ∧ length events = 1%nat ∧ out_of_market (db w') 2 ∧ ledger_of <$> inventory (db w') !! 70%N = Some (MkLedger 130000 0).
Proof.
  assert (market_ok (db Demo.hit)) as Hok by (apply (bool_decide_unpack _); vm_compute; exact I).
  assert (trades_linked (db Demo.hit)) as Hl by (apply (bool_decide_unpack _); vm_compute; exact I).
  assert (asks_backed (db Demo.hit)) as Hb by (apply (bool_decide_unpack _); vm_compute; exact I).
  pose proof (invalidation_implements_revocation 2 None "revoked" "case 7" false (full_preview (db Demo.hit) 2) Demo.hit
    Hok Hl Hb (own_preview_links _ 2 (proj1 (proj2 Hok)))) as H.
  assert (match invalidate_previewed_market 2 None "revoked" "case 7" false (full_preview (db Demo.hit) 2) Demo.hit with
          | Ok _ w' => ledger_of <$> inventory (db w') !! 70%N = Some (MkLedger 130000 0)
          | Raise _ _ => False end) as Hret by (vm_compute; reflexivity).
  destruct (invalidate_previewed_market _ _ _ _ _ _ _) as [[events orgs] w'|]; [|destruct Hret].
  destruct H as (_ & (_ & _ & _ & _ & Hout & _) & _ & e & a & -> & _).
  exists [e], orgs, w'. by split_and!.
Defined.
