(* ===== verification/OrganizationRejection.v ===== *)
(** * Rejecting an organization

    [PUT /auth/organization/{id}/reject] of [app/routers/auth_simple.py]: an
    administrator rejects an organization, its members are detached and its market
    access invalidated, in one retried transaction.

    The session runs with [autoflush=False], and here that matters: the assignment
    of the new status is a change of the organization's object that no flush has
    written when the invalidator locks the row and reads it again over the object
    ([populate_existing]).  An unflushed object is a local value of the model; it
    is written back where the session next flushes it. *)

From S2P Require Import Prelude Catalog Calendar AvailabilityWindows Decimal Json Schema Constraints Database MarketTransactions Queries Scenario Policy Eligibility Events Watchlist Benchmarks Inventory Ledger TradeLedger Admission RequestParty Trades TradeSteps Orders OrderAmendment Lifecycle OrderCreationSafety ListingSteps Invalidation InvalidationSafety.
Local Open Scope Z_scope.

(** [app/services/audit_actions.py] *)
Definition ADMIN_ORGANIZATION_REJECTED : string := "admin.organization_rejected".
Definition KYC_MEMBERSHIP_INVALIDATED : string := "kyc.membership_invalidated".

Record AdminDecisionBody := MkAdminDecisionBody { ad_reason : option string }.

(** ** Detaching the members *)

Definition kyc_unbound (user : User) : User :=
  user <| u_kyc_status := "PENDING" |> <| u_kyc_organization_id := None |>
       <| u_kyc_rejection_reason := None |> <| u_kyc_external_evidence_reference := None |>
       <| u_kyc_review_note := None |> <| u_kyc_reviewed_by := None |> <| u_kyc_reviewed_at := None |>.

(** The user's object as the function leaves it, and its result. *)
Definition _invalidate_membership_bound_kyc (user : User) (actor_user_id : uuid) (reason : string)
    : M World (User * bool) :=
  if bool_decide (u_kyc_organization_id user = None) && bool_decide (u_kyc_status user = "PENDING")
  then mret (user, false)
  else
    let user' := kyc_unbound user in
    put_user user' ;;
    record_audit (Some actor_user_id) KYC_MEMBERSHIP_INVALIDATED "kyc" (Some (u_id user))
      (JObj [ ("kyc_status", JObj [("from", JStr (u_kyc_status user)); ("to", JStr "PENDING")]);
              ("kyc_organization_id", JObj [("from", jopt JUuid (u_kyc_organization_id user)); ("to", JNull)]);
              ("reason", JStr reason) ]) ;;
    mret (user', true).

Definition detach_member (actor_user_id : uuid) (member : User) : M World unit :=
  unbound ← _invalidate_membership_bound_kyc member actor_user_id "organization_rejected";
  put_user (unbound.1 <| u_organization_id := None |>).

(** ** The route *)

Definition reject_organization_attempt (organization_id : uuid) (body : AdminDecisionBody) (current_user : User)
    : M World (uuid * string) :=
  refuse (bool_decide (u_role current_user ≠ Some ADMIN)) (HTTPException 403 (Msg "Forbidden")) ;;
  take_lock (RowOrganizations [organization_id]) ;;
  d ← get_db;
  match organizations d !! organization_id with
  | None => raise (HTTPException 404 (Msg "Organization not found"))
  | Some row =>
      let previous := g_verification_status row in
      public_before ← organization_has_public_market_projection organization_id;
      (* the object, assigned but not flushed *)
      let organization := row <| g_verification_status := "REJECTED" |> in
      d ← get_db;
      let members := users_of_org d organization_id in
      take_lock (RowUsers (u_id <$> members)) ;;
      iterM (detach_member (u_id current_user)) members ;;
      invalidated ← invalidate_organization_market_access organization_id (Some (u_id current_user))
        "organization_rejected" ("organization:" +:+ uuid_text organization_id) public_before;
      let '(invalidation_events, reloaded) := invalidated in
      (* the same object, if the invalidator has read its row again *)
      let organization := default organization (reloaded !! organization_id) in
      put_organization organization ;;
      enqueue_market_events invalidation_events ;;
      record_audit (Some (u_id current_user)) ADMIN_ORGANIZATION_REJECTED "organization" (Some organization_id)
        (JObj [ ("verification_status", JObj [("from", JStr previous); ("to", JStr "REJECTED")]);
                ("market_invalidation_events", JInt (Z.of_nat (length invalidation_events)));
                ("reason", jopt JStr (ad_reason body)) ]) ;;
      commit ;;
      mret (organization_id, g_verification_status organization)
  end.

Definition reject_organization (organization_id : uuid) (body : AdminDecisionBody) (current_user : User)
    : M World (uuid * string) :=
  retry_market_transaction (reject_organization_attempt organization_id body)
    DEFAULT_MARKET_TRANSACTION_ATTEMPTS current_user.

(** ** What a rejection does to the tables *)

Definition member_of (organization_id : uuid) (u : User) : bool := bool_decide (u_organization_id u = Some organization_id).
Definition detached_row (u : User) : User :=
  (if bool_decide (u_kyc_organization_id u = None) && bool_decide (u_kyc_status u = "PENDING") then u else kyc_unbound u)
    <| u_organization_id := None |>.
(** The users without the organization. *)
Definition detached_users (organization_id : uuid) (m : gmap uuid User) : gmap uuid User :=
  (λ u, if member_of organization_id u then detached_row u else u) <$> m.

Definition with_users (w : World) (m : gmap uuid User) : World := w <| db := (db w) <| users := m |> |>.
#[export] Instance with_users_proper m : Proper (only_events ==> only_events) (λ w, with_users w m).
Proof. intros a b H. unfold with_users. by_tables H. Qed.

Lemma detach_member_run actor u w :
  ∃ w', detach_member actor u w = Ok tt w'
    ∧ only_events (with_users w (<[ u_id u := detached_row u ]> (users (db w)))) w'.
Proof.
  unfold detach_member, _invalidate_membership_bound_kyc, detached_row. destruct (_ && _).
  - eexists. split; [reflexivity|by repeat split].
  - eexists. split; [reflexivity|]. cbn. unfold only_events. cbn. rewrite insert_insert_eq. by repeat split.
Qed.

Lemma detach_members_run actor l w :
  ∃ w', iterM (detach_member actor) l w = Ok tt w'
    ∧ only_events (with_users w (put_all u_id (detached_row <$> l) (users (db w)))) w'.
Proof.
  revert w. induction l as [|u l IH]; intros w.
  { exists w. split; [done|]. unfold with_users. by repeat split. }
  destruct (detach_member_run actor u w) as (w2 & Hrun & Hev). set (w1 := with_users w _) in *.
  destruct (IH w2) as (w3 & Hrun3 & Hev3). exists w3. split.
  - cbn [iterM]. by erewrite bind_run by exact Hrun.
  - etrans; [|exact Hev3]. assert (users (db w2) = users (db w1)) as -> by (unfold only_events in Hev; by destruct_and! Hev).
    assert (u_id (detached_row u) = u_id u) as Hid by (unfold detached_row; by destruct (_ && _)).
    change (put_all u_id (detached_row <$> u :: l) (users (db w)))
      with (put_all u_id (detached_row <$> l) (<[ u_id (detached_row u) := detached_row u ]> (users (db w)))).
    rewrite Hid. exact (with_users_proper _ w1 w2 Hev).
Qed.

Lemma members_detached_run actor organization_id w :
  map_Forall (λ k u, u_id u = k) (users (db w)) →
  ∃ w', iterM (detach_member actor) (users_of_org (db w) organization_id) w = Ok tt w'
    ∧ only_events (with_users w (detached_users organization_id (users (db w)))) w'.
Proof.
  intros Hk. destruct (detach_members_run actor (users_of_org (db w) organization_id) w) as (w' & Hrun & Hev).
  exists w'. split; [done|]. rewrite (put_all_fmap u_id detached_row (member_of organization_id)) in Hev; [done|exact Hk| |].
  - intros u. unfold detached_row. by destruct (_ && _).
  - intros u. unfold users_of_org, member_of. rewrite list_elem_of_filter, list_elem_of_fmap, bool_decide_eq_true. split.
    + intros [Hp ([k x] & -> & Hin%elem_of_map_to_list)]. cbn in *. pose proof (Hk k x Hin) as Hx. cbn in Hx. by rewrite Hx.
    + intros [Hu Hp]. split; [done|]. exists (u_id u, u). split; [done|]. by apply elem_of_map_to_list.
Qed.

Lemma market_ok_users d m : market_ok d → map_Forall (λ k u, u_id u = k) m → market_ok (d <| users := m |>).
Proof.
  intros (Hc & (K1 & K2 & K3 & K4 & K5 & K) & H) Hm. refine (conj Hc (conj _ H)).
  unfold keyed. cbn. split_and!; try done; apply K.
Qed.

(** ** The outcome of one attempt *)

(** The organization's object, its members and the market after the route. *)
Definition rejection_outcome (seen : datetime → Prop) (d : Database) (organization_id : uuid) (status : string) (d' : Database) : Prop :=
  ∃ row, organizations d !! organization_id = Some row ∧ status = g_verification_status row
    ∧ users d' = detached_users organization_id (users d)
    ∧ revoked_outcome seen (d <| users := detached_users organization_id (users d) |>) organization_id d'
    ∧ ∃ a, last (audit_logs d') = Some a ∧ a_action a = ADMIN_ORGANIZATION_REJECTED ∧ a_resource_id a = Some organization_id.

Lemma put_organization_same w id row :
  organizations (db w) !! id = Some row → g_id row = id → put_organization row w = Ok tt w.
Proof.
  intros Hrow Hid. unfold put_organization, modify. rewrite Hid, insert_id by done. by destruct w as [[] ? ? ? ? ? ? ?].
Qed.

Lemma detached_keyed organization_id (m : gmap uuid User) :
  map_Forall (λ k u, u_id u = k) m → map_Forall (λ k u, u_id u = k) (detached_users organization_id m).
Proof.
  intros Hk. unfold detached_users. rewrite map_Forall_fmap. intros k u Hu. cbn. rewrite <-(Hk k u Hu).
  unfold detached_row. destruct (member_of _ u); [|done]. by destruct (_ && _).
Qed.

(** The invalidator within the route: the object of the organization is what the
    tables hold. *)
Lemma invalidated_ok d w w1 id row actor reason reference public events reloaded w' :
  market_ok d → only_events (w <| db := d |>) w1 → trades_linked d → asks_backed d → organizations d !! id = Some row →
  invalidate_organization_market_access id actor reason reference public w1 = Ok (events, reloaded) w' →
  revoked_outcome (observed w1) d id (db w') ∧ reloaded !! id = Some row.
Proof.
  intros Hok Hev Hl Hb Hrow H. unfold invalidate_organization_market_access in H.
  apply bind_ok in H as ([] & w2 & [_ ->]%refuse_ok & H). apply bind_ok in H as (p & w2 & (-> & Hp & _)%preview_read & H).
  pose proof (market_ok_only_events _ _ Hev Hok) as Hok1. pose proof (only_events_same_ledger _ _ Hev) as (Eo & Et & Ei). cbn in *.
  assert (organizations (db w1) = organizations d) as Eg by (unfold only_events in Hev; by destruct_and! Hev).
  assert (trades_linked (db w1)) as Hl1 by (unfold trades_linked, linked_to in *; by rewrite Et, Eo).
  assert (asks_backed (db w1)) as Hb1 by (unfold asks_backed in *; by rewrite Eo).
  apply invalidate_previewed_ok in H as (now & a & e & Hnow & Ha & _ & _ & -> & _ & Hev1 & Hok2); try done.
  2: { rewrite Hp. by apply own_preview_links, Hok1. }
  split.
  - apply (revoked_outcome_ok (observed w1) (db w1) id now w1 w') in Hev1; [|done..].
    destruct Hev1 as ((now' & Hnow' & H1) & H2 & H3 & H4 & H5 & H6 & H7 & H8). unfold revoked_outcome. split_and!; try done.
    + exists now'. split; [done|]. assert (same_ledger d (db w1)) as Hs by done. by apply (same_ledger_trans _ _ _ (revoked_in_ledger _ _ id now' Hs)).
    + intros i. rewrite H6. unfold accounted_stock, taken_stock. by rewrite Eo, Et, Ei.
    + by rewrite H7.
    + rewrite H8. unfold only_events in Hev. by destruct_and! Hev.
  - destruct Ha as (_ & _ & Hids & -> & _). rewrite locked_lookup; [by rewrite Eg|]. apply sorted_set_elem. rewrite Hids. by left.
Qed.

(** A run that raises has committed nothing. *)
Definition raises_clean {A} (w : World) (o : outcome World A) : Prop :=
  match o with Ok _ _ => True | Raise _ w' => unmoved w w' end.

Lemma raises_clean_bind {A B} (m : M World A) (k : A → M World B) w w1 :
  Keeps unmoved m → unmoved w w1 → (∀ a w2, unmoved w w2 → raises_clean w (k a w2)) → raises_clean w ((m ≫= k) w1).
Proof.
  intros Hm H1 Hk. apply (frame_bind unmoved); [done|intros e w2 H2; exact (transitivity H1 H2)|].
  intros a w2 _ H2. apply Hk. by trans w1.
Qed.

Section attempt.
Context (organization_id : uuid) (body : AdminDecisionBody) (current_user : User) (w : World).

Lemma attempt_raises_clean : raises_clean w (reject_organization_attempt organization_id body current_user w).
Proof.
  unfold reject_organization_attempt.
  assert (∀ u, Keeps unmoved (detach_member (u_id current_user) u)) as Hdetach.
  { intros u w1. destruct (detach_member_run (u_id current_user) u w1) as (w2 & -> & Hev). split; apply Hev. }
  assert (∀ r f b, Keeps unmoved (invalidate_organization_market_access organization_id (Some (u_id current_user)) r f b)) as Hinv.
  { intros r f b. unfold invalidate_organization_market_access. apply keeps_bind; [apply _|keeps|intros _].
    apply keeps_bind; [apply _|unfold _preview; keeps|intros p]. apply unmoved_invalidate. }
  apply raises_clean_bind; [keeps|done|intros [] w1 H1]. apply raises_clean_bind; [keeps|done|intros [] w2 H2].
  apply raises_clean_bind; [keeps|done|intros d w3 H3].
  destruct (organizations d !! organization_id) as [row|]; [|exact H3].
  apply raises_clean_bind; [unfold organization_has_public_market_projection, has_public_projection; keeps|done|intros b w4 H4].
  apply raises_clean_bind; [keeps|done|intros d' w5 H5]. cbv zeta. apply raises_clean_bind; [keeps|done|intros [] w6 H6].
  apply raises_clean_bind; [apply keeps_iterM; [apply _|done]|done|intros [] w7 H7].
  apply raises_clean_bind; [apply Hinv|done|intros [events reloaded] w8 H8].
  apply raises_clean_bind; [done|done|intros [] w9 H9].
  apply raises_clean_bind; [apply keeps_only_events_unmoved; keeps|done|intros [] w10 H10].
  apply raises_clean_bind; [apply keeps_only_events_unmoved; keeps|done|intros [] w11 H11].
  pose proof (commit_outcome w11) as Hc. unfold raises_clean, mbind, M_bind. destruct (commit w11); [done|]. by subst.
Qed.

Context (Hok : market_ok (db w)) (Hlinked : trades_linked (db w)) (Hbacked : asks_backed (db w)).

Lemma attempt_ok r w' :
  reject_organization_attempt organization_id body current_user w = Ok r w' →
  r.1 = organization_id ∧ u_role current_user = Some ADMIN
  ∧ rejection_outcome (observed w) (db w) organization_id r.2 (db w') ∧ committed w' = db w'.
Proof.
  intros H. unfold reject_organization_attempt in H.
  apply bind_ok in H as ([] & w1 & [Hrole%bool_decide_eq_false%dec_stable ->]%refuse_ok & H).
  apply bind_ok in H as ([] & w1 & [= <-] & H). apply bind_ok in H as (d & w2 & [= <- <-] & H). cbn [db] in H.
  change (organizations (db (w <| locks := ?l |>))) with (organizations (db w)) in H.
  destruct (organizations (db w) !! organization_id) as [row|] eqn:Hrow; [|done].
  apply bind_ok in H as (b & w3 & Hr3%reads_ok & H); [|unfold organization_has_public_market_projection, has_public_projection; keeps].
  pose proof (proj1 Hr3) as Hdb3. change (db (w <| locks := ?l |>)) with (db w) in Hdb3.
  apply bind_ok in H as (d' & w4 & [= <- <-] & H). cbv zeta in H. apply bind_ok in H as ([] & w4 & [= <-] & H).
  change (db (w3 <| locks := ?l |>)) with (db w3) in H. set (w4 := w3 <| locks := _ |>) in H.
  pose proof Hok as (_ & (_ & _ & _ & Kg & Ku & _) & _).
  assert (db w4 = db w) as Hdb4 by exact Hdb3.
  destruct (members_detached_run (u_id current_user) organization_id w4) as (w5 & Hrun & Hev5); [by rewrite Hdb4|].
  change (db w3) with (db w4) in H. erewrite bind_run in H by exact Hrun. clear Hrun. rewrite Hdb4 in Hev5.
  set (d1 := (db w) <| users := detached_users organization_id (users (db w)) |>).
  assert (only_events (w4 <| db := d1 |>) w5) as Hev by (etrans; [|exact Hev5]; unfold with_users; by rewrite Hdb4).
  assert (market_ok d1) as Hok1 by (by apply market_ok_users, detached_keyed).
  apply bind_ok in H as ([events reloaded] & w6 & Hinv & H).
  destruct (invalidated_ok d1 w4 w5 _ row _ _ _ _ _ _ _ Hok1 Hev Hlinked Hbacked Hrow Hinv) as [Hrev Hrel].
  assert (organizations (db w6) = organizations (db w)) as Hgs by apply Hrev.
  rewrite Hrel in H. cbn [default] in H.
  erewrite bind_run in H by (apply put_organization_same with (id := organization_id); [by rewrite Hgs|exact (Kg _ _ Hrow)]).
  apply bind_ok in H as ([] & w7 & Henq & H). apply bind_ok in H as ([] & w8 & Haud & H).
  apply bind_ok in H as ([] & w9 & Hcom & [= <- <-]). pose proof (commit_outcome w8) as Hc. rewrite Hcom in Hc. subst w9.
  pose proof (keeps_ok only_events _ _ _ _ (only_events_enqueue _) Henq) as He7.
  pose proof (keeps_ok only_events _ _ _ _ (only_events_record_audit _ _ _ _ _) Haud) as He8.
  rewrite (observed_clock w w5) in Hrev by (rewrite (only_events_clock _ _ Hev); apply (proj2 (proj2 (proj2 Hr3)))).
  assert (revoked_outcome (observed w) d1 organization_id (db w8)) as Hout by (by eapply revoked_outcome_events; [etrans; [exact He7|exact He8]|]).
  split_and!; [done|done| |done]. exists row. cbn. split_and!; [done|done|apply Hout|exact Hout|].
  injection Haud as <-. cbn. rewrite last_snoc. by eexists.
Qed.
End attempt.

(** ** The route *)

Definition rejection_result (w : World) (organization_id : uuid) (o : outcome World (uuid * string)) : Prop :=
  match o with
  | Ok r w' => r.1 = organization_id ∧ rejection_outcome (observed w) (db w) organization_id r.2 (db w') ∧ committed w' = db w'
  | Raise e w' => committed w' = committed w
  end.

Lemma reject_organization_outcome organization_id body u w :
  synced w → market_ok (db w) → trades_linked (db w) → asks_backed (db w) →
  rejection_result w organization_id (reject_organization organization_id body u w).
Proof.
  intros Hsync Hok Hl Hb.
  assert (∀ u' w', db w' = db w → unmoved w w' →
    rejection_result w organization_id (reject_organization_attempt organization_id body u' w')) as Hone.
  { intros u' w' Hdb [Hc Hk]. pose proof (attempt_raises_clean organization_id body u' w') as Hraise.
    pose proof (attempt_ok organization_id body u' w') as Hret. rewrite Hdb, (observed_clock w w' Hk) in Hret. specialize (Hret Hok Hl Hb).
    destruct (reject_organization_attempt organization_id body u' w') as [r w1|e w1]; cbn in *.
    - by destruct (Hret r w1 eq_refl) as (? & _ & ? & ?).
    - destruct Hraise. congruence. }
  unfold reject_organization. destruct (retry_attempted (reject_organization_attempt organization_id body) DEFAULT_MARKET_TRANSACTION_ATTEMPTS u w)
    as [|u' w' (Hs & Hc & _)|w' _ Hc|e w' _ Hc]; try done.
  - unfold DEFAULT_MARKET_TRANSACTION_ATTEMPTS. lia.
  - rewrite Hsync. apply Hok.
  - intros u' w' e w1 H _. pose proof (attempt_raises_clean organization_id body u' w') as Hr. by rewrite H in Hr.
  - by apply Hone.
  - apply Hone; [|done]. destruct Hc as [Hc _]. unfold synced in *. congruence.
Qed.

(** C40: A rejected organization keeps its approval.  A rejection that is served
    cancels the organization's pending trades, withdraws its orders, gives back every
    reservation and detaches all its members, in a market that keeps its invariant
    and loses no stock, and records in the audit log that the organization was
    rejected; but the status itself is never written: the invalidator reads the row
    again over the unflushed assignment, so the organizations are committed as they
    were and the response reports the old status.  A request that fails commits
    nothing. *)
Theorem rejection_loses_status organization_id body u w :
  synced w → market_ok (db w) → trades_linked (db w) → asks_backed (db w) →
  match reject_organization organization_id body u w with
  | Ok (id, status) w' =>
      id = organization_id
      ∧ organizations (committed w') = organizations (committed w)
      ∧ Some status = g_verification_status <$> organizations (committed w) !! organization_id
      ∧ market_ok (committed w') ∧ out_of_market (committed w') organization_id
      ∧ users_of_org (committed w') organization_id = []
      ∧ (∀ i, accounted_stock (committed w') i = accounted_stock (committed w) i)
      ∧ ∃ a, last (audit_logs (committed w')) = Some a ∧ a_action a = ADMIN_ORGANIZATION_REJECTED
  | Raise e w' => committed w' = committed w
  end.
Proof.
  intros Hsync Hok Hl Hb. pose proof (reject_organization_outcome organization_id body u w Hsync Hok Hl Hb) as H.
  destruct (reject_organization _ _ _ _) as [[id status] w'|e w']; [|exact H]. cbn in H.
  destruct H as (Hid & (row & Hrow & Hst & Hus & Hout & a & Ha & Hact & _) & Hc). rewrite Hc, Hsync.
  destruct Hout as (_ & Hok' & _ & _ & Hom & Hacc & Hg & _).
  split_and!; try done; [by rewrite Hrow, Hst| |by exists a].
  unfold users_of_org. rewrite Hus. apply elem_of_nil_inv. intros x [Hx Hin]%list_elem_of_filter.
  apply list_elem_of_fmap in Hin as ([k y] & -> & Hin%elem_of_map_to_list). unfold detached_users in Hin.
  rewrite lookup_fmap in Hin. destruct (users (db w) !! k) as [z|]; [|done]. cbn in Hin. injection Hin as <-. cbn in Hx.
  unfold member_of in Hx. case_bool_decide; done.
Qed.

Lemma rejection_loses_status_witness :
  ∃ w', reject_organization 2 (MkAdminDecisionBody None) Demo.admin Demo.hit = Ok (2%N, "APPROVED") w'
    ∧ approved_organization (committed w') 2 ∧ out_of_market (committed w') 2.
Proof.
  assert (market_ok (db Demo.hit)) as Hok by (apply (bool_decide_unpack _); vm_compute; exact I).
  assert (trades_linked (db Demo.hit)) as Hl by (apply (bool_decide_unpack _); vm_compute; exact I).
  assert (asks_backed (db Demo.hit)) as Hb by (apply (bool_decide_unpack _); vm_compute; exact I).
  pose proof (rejection_loses_status 2 (MkAdminDecisionBody None) Demo.admin Demo.hit eq_refl Hok Hl Hb) as H.
  assert (match reject_organization 2 (MkAdminDecisionBody None) Demo.admin Demo.hit with
          | Ok _ _ => True | Raise _ _ => False end) as Hret by (vm_compute; exact I).
  destruct (reject_organization _ _ _ _) as [[id status] w'|]; [|destruct Hret].
  destruct H as (-> & Hg & Hst & _ & Hout & _). injection Hst as ->.
  exists w'. split_and!; [done| |done]. exists Demo.refinery. rewrite Hg. by split.
Defined.
