(* ===== verification/Negotiations.v ===== *)
(** * Negotiations

    [app/routers/negotiations.py]: two organizations bargain about the price of
    a resting order.  One proposes, then they take turns countering, at most ten
    rounds and until the deadline; either side may decline.  Accepting is
    disabled: a negotiation never becomes a trade.  [create_negotiation],
    [counter_negotiation], [accept_negotiation], [decline_negotiation] and
    [get_negotiation] are modelled in full; the listing is not.  The retry of
    serialization failures and lock timeouts are left out as for the order
    routes. *)

From S2P Require Import Prelude Catalog Calendar AvailabilityWindows Decimal Json Schema Constraints NegotiationSchema Delivery Database Scenario Policy Eligibility Events Admission RequestParty Trades OrderEntry.
Local Open Scope Z_scope.

Definition MAX_ROUNDS : nat := 10.

(** ** Requests and responses ([app/schemas/negotiation.py]) *)

Record NegotiationCreateRequest := MkNegotiationCreateRequest {
  nq_bid_order_id : option uuid;
  nq_ask_order_id : option uuid;
  nq_counterparty_org_id : uuid;
  nq_product_id : uuid;
  nq_delivery_point_id : uuid;
  nq_availability_window : string;
  nq_quantity_mt : decimal;
  nq_proposed_price : decimal;
  nq_notes : option string;
  nq_expires_in_hours : Z;
}.
Definition negotiation_create_valid (p : NegotiationCreateRequest) : Prop :=
  (nq_bid_order_id p ≠ None ∨ nq_ask_order_id p ≠ None)
  ∧ amount_within (nq_quantity_mt p) 1 (cents 100000)
  ∧ amount_within (nq_proposed_price p) 1 (cents 1000000)
  ∧ 1 <= nq_expires_in_hours p <= 72.

Record NegotiationCounterRequest := MkNegotiationCounterRequest {
  nk_proposed_price : decimal;
  nk_notes : option string;
}.
Definition negotiation_counter_valid (p : NegotiationCounterRequest) : Prop :=
  amount_within (nk_proposed_price p) 1 (cents 1000000).

(** A round, and the name of the organization that proposed it. *)
Record NegotiationRoundResponse := MkNegotiationRoundResponse {
  nrr_round : NegotiationRound;
  nrr_proposer_org_name : option string;
}.
(** The row, the names and the rounds. *)
Record NegotiationResponse := MkNegotiationResponse {
  nrs_negotiation : Negotiation;
  nrs_initiator_org_name : option string;
  nrs_counterparty_org_name : option string;
  nrs_product_name : option string;
  nrs_rounds : list NegotiationRoundResponse;
}.

(** ** Helpers *)

Definition conflict_error (s : string) : exn := HTTPException 409 (Msg s).
Definition no_organization : exn := HTTPException 403 (Msg "User must belong to an organization").
Definition negotiation_not_found : exn := HTTPException 404 (Msg "Negotiation not found").

(** [Negotiation.rounds]: ordered by round number, ties by id. *)
Definition round_le (a b : NegotiationRound) : Prop :=
  nr_round_number a < nr_round_number b ∨ (nr_round_number a = nr_round_number b ∧ (nr_id a <= nr_id b)%N).
#[export] Instance round_le_dec : RelDecision round_le.
Proof. intros a b. unfold round_le. apply _. Defined.
Definition rounds_of (d : Database) (id : uuid) : list NegotiationRound :=
  merge_sort round_le (filter (λ r, nr_negotiation_id r = id) (snd <$> map_to_list (negotiation_rounds d))).

(** The row, for a party; the same 404 for everybody else. *)
Definition is_party (n : Negotiation) (org_id : uuid) : bool :=
  bool_decide (ng_initiator_org_id n = org_id) || bool_decide (ng_counterparty_org_id n = org_id).
Definition _load_negotiation (negotiation_id org_id : uuid) (for_update : bool)
    : M World (Negotiation * list NegotiationRound) :=
  (if for_update then take_lock (RowNegotiation negotiation_id) else mret tt) ;;
  d ← get_db;
  match negotiations d !! negotiation_id with
  | Some n =>
      if is_party n org_id then mret (n, rounds_of d negotiation_id) else raise negotiation_not_found
  | None => raise negotiation_not_found
  end.

(** [_batch_org_names], at one id. *)
Definition org_name (d : Database) (org_id : uuid) : option string := g_name <$> organizations d !! org_id.

Definition negotiation_response (d : Database) (n : Negotiation) (rounds : list NegotiationRound)
    : NegotiationResponse :=
  {| nrs_negotiation := n;
     nrs_initiator_org_name := org_name d (ng_initiator_org_id n);
     nrs_counterparty_org_name := org_name d (ng_counterparty_org_id n);
     nrs_product_name := p_name <$> products d !! ng_product_id n;
     nrs_rounds := (λ r, MkNegotiationRoundResponse r (org_name d (nr_proposer_org_id r))) <$> rounds |}.
Definition _build_response (n : Negotiation) (rounds : list NegotiationRound) : M World NegotiationResponse :=
  d ← get_db; mret (negotiation_response d n rounds).

Definition not_active (s : NegotiationStatus) : exn :=
  HTTPException 400 (Fmt "Negotiation is {} — no further actions allowed" [AStr (NegotiationStatus_value s)]).
Definition negotiation_expired : exn := bad_request "Negotiation has expired".
Definition _assert_active (n : Negotiation) : M World unit :=
  refuse (negb (negotiation_active (ng_status n))) (not_active (ng_status n)) ;;
  now ← utcnow;
  refuse (ng_expires_at n <=? now) negotiation_expired.

Definition _assert_counterparty_turn (n : Negotiation) (org_id : uuid) : M World unit :=
  refuse (bool_decide (ng_last_actor_org_id n = org_id)) (bad_request "Waiting for the other party to respond").

(** [(buyer_org_id, seller_org_id)] *)
Definition _resolve_trade_roles (n : Negotiation) : uuid * uuid :=
  if bool_decide (ng_initiator_side n = "BUYER")
  then (ng_initiator_org_id n, ng_counterparty_org_id n)
  else (ng_counterparty_org_id n, ng_initiator_org_id n).

(** [(buyer_user_id, seller_user_id)] *)
Definition _resolve_trade_users (n : Negotiation) : res (uuid * uuid) :=
  match ng_initiator_user_id n, ng_counterparty_user_id n with
  | Some initiator, Some counterparty =>
      if bool_decide (ng_initiator_side n = "BUYER") then Val (initiator, counterparty)
      else if bool_decide (ng_initiator_side n = "SELLER") then Val (counterparty, initiator)
      else Exc (conflict_error "Negotiation party roles are invalid")
  | _, _ => Exc (HTTPException 409 (Coded "NEGOTIATION_PROVENANCE_REQUIRED"
              "Legacy negotiation requires an explicit audited provenance decision"))
  end.

(** [expected.get(current_user.id)]: of equal keys the counterparty's entry wins. *)
Definition expected_org (n : Negotiation) (user_id : uuid) : option uuid :=
  if bool_decide (ng_counterparty_user_id n = Some user_id) then Some (ng_counterparty_org_id n)
  else if bool_decide (ng_initiator_user_id n = Some user_id) then Some (ng_initiator_org_id n)
  else None.
Definition _assert_concrete_party (n : Negotiation) (current_user : User) : M World unit :=
  refuse (match expected_org n (u_id current_user) with
          | None => true
          | Some org => bool_decide (u_organization_id current_user ≠ Some org)
          end) negotiation_not_found.

Definition _revalidate_negotiation_parties (n : Negotiation) : M World unit :=
  parties ← lift (_resolve_trade_users n);
  let '(buyer_user_id, seller_user_id) := parties in
  found ← lock_users [buyer_user_id; seller_user_id];
  let '(buyer_org_id, seller_org_id) := _resolve_trade_roles n in
  orgs ← lock_organizations [buyer_org_id; seller_org_id];
  d ← get_db;
  let buyer := found !! buyer_user_id in
  let seller := found !! seller_user_id in
  refuse (bool_decide ((buyer ≫= u_role) ≠ Some BUYER) || bool_decide ((seller ≫= u_role) ≠ Some SUPPLIER)
          || negb (execution_party_is_eligible d buyer (orgs !! buyer_org_id))
          || negb (execution_party_is_eligible d seller (orgs !! seller_org_id)))
    (HTTPException 409 (Coded "NEGOTIATION_PARTY_INELIGIBLE"
      "One or more negotiation parties are no longer execution-qualified")).

(** ** The order a negotiation is about *)

Definition side_text (s : OrderSide) : string := match s with BID => "bid" | ASK => "ask" end.

Definition _validate_negotiation_order (order : option Order) (expected_side : OrderSide)
    (org_ids : list uuid) (quantity_mt : decimal) : M World Order :=
  let side := AStr (side_text expected_side) in
  match order with
  | None => raise (HTTPException 400 (Fmt "Invalid {}_order_id" [side]))
  | Some o =>
      refuse (bool_decide (o_side o ≠ expected_side))
        (HTTPException 400 (Fmt "{}_order_id must reference a {} order"
          [side; AStr (OrderSide_value expected_side)])) ;;
      refuse (bool_decide (o_organization_id o ∉ org_ids))
        (HTTPException 400 (Fmt "{}_order_id does not belong to either negotiating party" [side])) ;;
      refuse (negb (is_active_status (o_status o)))
        (HTTPException 409 (Fmt "{}_order_id is not executable" [side])) ;;
      match o_expires_at o with
      | Some e =>
          now ← utcnow;
          refuse (e <=? now) (HTTPException 409 (Fmt "{}_order_id has expired" [side]))
      | None => mret tt
      end ;;
      refuse (o_remaining_quantity_mt o <? to_cents quantity_mt)
        (HTTPException 409 (Fmt "Negotiation quantity exceeds {} capacity" [AStr (OrderSide_value expected_side)])) ;;
      refuse (negb (order_is_execution_qualified o))
        (HTTPException 409 (Fmt "{}_order_id is not execution-qualified" [side])) ;;
      mret o
  end.

Definition _load_order (order_id : uuid) (for_update : bool) : M World (option Order) :=
  (if for_update then take_lock (RowOrders [order_id]) else mret tt) ;;
  d ← get_db;
  mret (orders d !! order_id).

(** One of the two orders, if the request names it. *)
Definition load_and_validate_order (order_id : option uuid) (side : OrderSide) (p : NegotiationCreateRequest)
    (org_id : uuid) (for_update : bool) : M World (option Order) :=
  match order_id with
  | None => mret None
  | Some id =>
      row ← _load_order id for_update;
      o ← _validate_negotiation_order row side [org_id; nq_counterparty_org_id p] (nq_quantity_mt p);
      mret (Some o)
  end.

Definition _load_and_validate_negotiation_orders (p : NegotiationCreateRequest) (org_id : uuid)
    (for_update : bool) : M World (option Order * option Order * Order) :=
  bid_order ← load_and_validate_order (nq_bid_order_id p) BID p org_id for_update;
  ask_order ← load_and_validate_order (nq_ask_order_id p) ASK p org_id for_update;
  match (match bid_order with Some o => Some o | None => ask_order end) with
  | None => raise (bad_request "A negotiation requires an order")
  | Some canonical =>
      refuse (bool_decide (o_product_id canonical ≠ nq_product_id p))
        (bad_request "Negotiation product must match its canonical order") ;;
      expected_window ← lift (normalize_availability_window (nq_availability_window p));
      refuse (bool_decide (o_delivery_point_id canonical ≠ Some (nq_delivery_point_id p))
              || bool_decide (o_availability_window canonical ≠ expected_window))
        (bad_request "Negotiation market slice must match its canonical order") ;;
      match bid_order, ask_order with
      | Some b, Some a =>
          refuse (bool_decide (order_slice b ≠ order_slice a))
            (bad_request "Negotiation orders must share one canonical market slice") ;;
          refuse (bool_decide (({[ o_organization_id b; o_organization_id a ]} : gset uuid)
                               ≠ {[ org_id; nq_counterparty_org_id p ]}))
            (bad_request "Negotiation orders must be owned by opposite negotiating parties")
      | _, _ =>
          refuse (bool_decide (o_organization_id canonical ≠ nq_counterparty_org_id p))
            (bad_request "A one-sided negotiation must reference the counterparty's order")
      end ;;
      mret (bid_order, ask_order, canonical)
  end.

(** [app/services/market_catalog_validation.py] *)
Definition require_canonical_market_slice (product_id : uuid) (delivery_point_id : option uuid)
    : M World (Product * DeliveryPoint) :=
  match delivery_point_id with
  | None => raise (bad_request "delivery_point_id is required")
  | Some dp_id =>
      d ← get_db;
      match products d !! product_id with
      | Some product =>
          refuse (negb (canonical_product_clause product)) (bad_request "Invalid product_id") ;;
          match delivery_points d !! dp_id with
          | Some point =>
              refuse (negb (canonical_delivery_point_clause point)) (bad_request "Invalid delivery_point_id") ;;
              mret (product, point)
          | None => raise (bad_request "Invalid delivery_point_id")
          end
      | None => raise (bad_request "Invalid product_id")
      end
  end.

(** ** Locking a negotiation *)

Definition _negotiation_lock_identity (n : Negotiation) : uuid * uuid * uuid * option uuid * string :=
  (ng_initiator_org_id n, ng_counterparty_org_id n, ng_product_id n, ng_delivery_point_id n,
   ng_availability_window n).
Definition _order_lock_identity (o : Order) : uuid * uuid * OrderSide * uuid * option uuid * string :=
  (o_id o, o_organization_id o, o_side o, o_product_id o, o_delivery_point_id o, o_availability_window o).

(** [organizations[left]] and [organizations[right]], as a pair that may trade. *)
Definition assert_pair (orgs : gmap uuid Organization) (left right : uuid) : M World unit :=
  match orgs !! left, orgs !! right with
  | Some l, Some r => lift (assert_market_pair_provenance l r)
  | _, _ => raise KeyError
  end.

Definition _lock_negotiation_for_mutation (negotiation_id org_id user_id : uuid)
    : M World (Negotiation * list NegotiationRound) :=
  preview ← _load_negotiation negotiation_id org_id false;
  let observed := fst preview in
  acquire_market_slice_lock (ng_product_id observed) (ng_delivery_point_id observed)
    (ng_availability_window observed) ;;
  row ← _load_negotiation negotiation_id org_id true;
  let '(locked, rounds) := row in
  rollback_raise (bool_decide (_negotiation_lock_identity locked ≠ _negotiation_lock_identity observed))
    (conflict_error "Negotiation market slice changed; retry the request")
    (take_lock (RowNegotiationRounds (nr_id <$> rounds)) ;;
     orgs ← lock_and_load_market_organizations [ng_initiator_org_id locked; ng_counterparty_org_id locked]
       [MkMarketActorOwnership user_id org_id] true [];
     assert_pair orgs (ng_initiator_org_id locked) (ng_counterparty_org_id locked) ;;
     mret (locked, rounds)).

Definition other_org (n : Negotiation) (org_id : uuid) : uuid :=
  if bool_decide (org_id = ng_initiator_org_id n) then ng_counterparty_org_id n else ng_initiator_org_id n.

Definition negotiation_event (event_type : string) (n : Negotiation) (p : payload) : M World unit :=
  event ← lift (participant_market_event event_type "negotiation" (ng_id n)
    [ng_initiator_org_id n; ng_counterparty_org_id n] (("id", JUuid (ng_id n)) :: p) false);
  enqueue_market_events [event].

(** ** Countering *)

(** The guards behind the lock. *)
Definition admit_counter (n : Negotiation) (rounds : list NegotiationRound) (org_id : uuid)
    (current_user : User) : M World unit :=
  _assert_concrete_party n current_user ;;
  _revalidate_negotiation_parties n ;;
  _assert_active n ;;
  _assert_counterparty_turn n org_id ;;
  refuse (bool_decide (MAX_ROUNDS <= length rounds)%nat)
    (HTTPException 400 (Fmt "Maximum {} rounds reached" [AInt (Z.of_nat MAX_ROUNDS)])).

Definition new_round (d : Database) (n : Negotiation) (number : Z) (org_id : uuid) (current_user : User)
    (price : Z) (notes : option string) : NegotiationRound :=
  {| nr_id := fresh_id (negotiation_rounds d); nr_negotiation_id := ng_id n; nr_round_number := number;
     nr_proposer_org_id := org_id; nr_proposer_user_id := Some (u_id current_user);
     nr_proposed_price := price; nr_notes := notes |}.

Definition countered (n : Negotiation) (org_id : uuid) (price : Z) : Negotiation :=
  n <| ng_current_price := price |> <| ng_last_actor_org_id := org_id |> <| ng_status := NEG_COUNTERED |>.

Definition NEGOTIATION_COUNTERED : string := "negotiation.countered".
Definition NEGOTIATION_CREATED : string := "negotiation.created".
Definition NEGOTIATION_DECLINED : string := "negotiation.declined".

Definition announce_counter (before n : Negotiation) (number : Z) (org_id : uuid)
    (p : NegotiationCounterRequest) (current_user : User) : M World unit :=
  let price := decimal_str (nk_proposed_price p) in
  d ← get_db;
  notify_org_users (other_org n org_id) NT_NEGOTIATION_COUNTERED "Counter-Offer Received"
    (Fmt "{} countered at ${}/MT." [AStr (default "Counterparty" (org_name d org_id)); AStr price])
    (Some (JObj [("negotiation_id", JUuid (ng_id n))])) ;;
  record_audit (Some (u_id current_user)) NEGOTIATION_COUNTERED "negotiation" (Some (ng_id n))
    (JObj [ ("status", JObj [ ("from", JStr (NegotiationStatus_value (ng_status before)));
                              ("to", JStr (NegotiationStatus_value (ng_status n))) ]);
            ("price_per_mt_usd", JObj [("from", JDec (ng_current_price before)); ("to", JStr price)]);
            ("round", JInt number); ("proposer_org_id", JUuid org_id);
            ("proposer_user_id", JUuid (u_id current_user)) ]) ;;
  negotiation_event "negotiation_countered" n [("proposed_price", JStr price); ("round", JInt number)].

(** The new round and the row; the answer shows them as committed. *)
Definition perform_counter (n : Negotiation) (rounds : list NegotiationRound) (org_id : uuid)
    (p : NegotiationCounterRequest) (current_user : User) : M World NegotiationResponse :=
  d ← get_db;
  let number := Z.of_nat (length rounds) + 1 in
  let price := to_cents (nk_proposed_price p) in
  let round := new_round d n number org_id current_user price (nk_notes p) in
  let n' := countered n org_id price in
  put_round round ;;
  put_negotiation n' ;;
  announce_counter n n' number org_id p current_user ;;
  commit ;;
  _build_response n' (rounds ++ [round]).

Definition counter_negotiation (negotiation_id : uuid) (p : NegotiationCounterRequest) (current_user : User)
    : M World NegotiationResponse :=
  require_execution_eligible_user current_user ;;
  match u_organization_id current_user with
  | None => raise no_organization
  | Some org_id =>
      row ← _lock_negotiation_for_mutation negotiation_id org_id (u_id current_user);
      let '(n, rounds) := row in
      admit_counter n rounds org_id current_user ;;
      perform_counter n rounds org_id p current_user
  end.

(** ** Accepting and declining *)

Definition accept_negotiation (negotiation_id : uuid) (current_user : User) : M World NegotiationResponse :=
  require_execution_eligible_user current_user ;;
  raise (conflict_error "Negotiation acceptance is disabled; negotiations are non-executable in this release").

Definition declined (n : Negotiation) : Negotiation := n <| ng_status := NEG_DECLINED |>.

(** Only a recorded user declines.  These guards do not ask for eligibility; the
    lock above does. *)
Definition admit_decline (n : Negotiation) (current_user : User) : M World unit :=
  refuse (bool_decide (Some (u_id current_user) ∉ [ng_initiator_user_id n; ng_counterparty_user_id n]))
    negotiation_not_found ;;
  _assert_active n.

Definition announce_decline (before n : Negotiation) (org_id : uuid) (current_user : User) : M World unit :=
  d ← get_db;
  notify_org_users (other_org n org_id) NT_NEGOTIATION_DECLINED "Deal Declined"
    (Fmt "{} declined the negotiation." [AStr (default "Counterparty" (org_name d org_id))])
    (Some (JObj [("negotiation_id", JUuid (ng_id n))])) ;;
  record_audit (Some (u_id current_user)) NEGOTIATION_DECLINED "negotiation" (Some (ng_id n))
    (JObj [ ("status", JObj [ ("from", JStr (NegotiationStatus_value (ng_status before)));
                              ("to", JStr (NegotiationStatus_value NEG_DECLINED)) ]);
            ("declined_by_org_id", JUuid org_id) ]) ;;
  negotiation_event "negotiation_declined" n [("declined_by", JUuid org_id)].

Definition perform_decline (n : Negotiation) (rounds : list NegotiationRound) (org_id : uuid)
    (current_user : User) : M World NegotiationResponse :=
  let n' := declined n in
  put_negotiation n' ;;
  announce_decline n n' org_id current_user ;;
  commit ;;
  _build_response n' rounds.

Definition decline_negotiation (negotiation_id : uuid) (current_user : User) : M World NegotiationResponse :=
  match u_organization_id current_user with
  | None => raise no_organization
  | Some org_id =>
      row ← _lock_negotiation_for_mutation negotiation_id org_id (u_id current_user);
      let '(n, rounds) := row in
      admit_decline n current_user ;;
      perform_decline n rounds org_id current_user
  end.

Definition get_negotiation (negotiation_id : uuid) (current_user : User) : M World NegotiationResponse :=
  match u_organization_id current_user with
  | None => raise no_organization
  | Some org_id =>
      row ← _load_negotiation negotiation_id org_id false;
      let '(n, rounds) := row in
      _build_response n rounds
  end.

(** ** Creating *)

Definition initiator_side_of (current_user : User) : option string :=
  match u_role current_user with Some BUYER => Some "BUYER" | Some SUPPLIER => Some "SELLER" | _ => None end.

(** What the initiator must name: the counterparty's resting order. *)
Definition check_initiation (p : NegotiationCreateRequest) (org_id : uuid) (current_user : User) : M World string :=
  refuse (bool_decide (nq_counterparty_org_id p = org_id)) (bad_request "Cannot negotiate with yourself") ;;
  match initiator_side_of current_user with
  | None => raise (HTTPException 403 (Msg "User is not a market participant"))
  | Some initiator_side =>
      refuse (bool_decide (initiator_side = "BUYER") && bool_decide (nq_ask_order_id p = None))
        (bad_request "Buyer negotiations require a counterparty ASK order") ;;
      refuse (bool_decide (initiator_side = "SELLER") && bool_decide (nq_bid_order_id p = None))
        (bad_request "Supplier negotiations require a counterparty BID order") ;;
      availability_window ← lift (normalize_availability_window (nq_availability_window p));
      now ← utcnow;
      tradable ← lift (is_tradable_availability_window availability_window (utc_date now) FORWARD_QUARTER_COUNT);
      refuse (negb tradable) (bad_request "Availability window is not tradable") ;;
      mret initiator_side
  end.

Definition named_orders (bid_order ask_order : option Order) : list Order :=
  match bid_order, ask_order with
  | Some b, Some a => [b; a]
  | Some o, None | None, Some o => [o]
  | None, None => []
  end.

(** Preview, slice locks, the rows again under lock. *)
Definition lock_negotiation_orders (p : NegotiationCreateRequest) (org_id : uuid)
    : M World (option Order * option Order * Order) :=
  observed ← _load_and_validate_negotiation_orders p org_id false;
  let observed_orders := named_orders (fst (fst observed)) (snd (fst observed)) in
  require_canonical_market_slice (nq_product_id p) (Some (nq_delivery_point_id p)) ;;
  acquire_market_slice_locks (order_slice <$> observed_orders) ;;
  rows ← _load_and_validate_negotiation_orders p org_id true;
  let '(bid_order, ask_order, canonical_order) := rows in
  rollback_raise (bool_decide (_order_lock_identity <$> named_orders bid_order ask_order
                               ≠ _order_lock_identity <$> observed_orders))
    (conflict_error "Negotiation order slice changed; retry the request")
    (mret (bid_order, ask_order, canonical_order)).

(** An order whose provenance is not its organization's is stale. *)
Fixpoint assert_order_provenance (orgs : gmap uuid Organization) (l : list Order) : M World unit :=
  match l with
  | [] => mret tt
  | o :: l =>
      match orgs !! o_organization_id o with
      | None => raise KeyError
      | Some g =>
          rollback_raise (bool_decide (o_provenance o ≠ g_provenance g))
            (conflict_error "Negotiation order provenance is stale") (assert_order_provenance orgs l)
      end
  end.

(** The counterparty's order names its owner; an own order is the initiator's. *)
Definition counterparty_user_of (p : NegotiationCreateRequest) (org_id : uuid) (initiator_side : string)
    (bid_order ask_order : option Order) (current_user : User) : M World (uuid * UserRole) :=
  let '(theirs, ours, their_text, our_text, role) :=
    if bool_decide (initiator_side = "BUYER")
    then (ask_order, bid_order, "ASK order does not identify the declared counterparty",
          "BID order must be owned by the initiating user", SUPPLIER)
    else (bid_order, ask_order, "BID order does not identify the declared counterparty",
          "ASK order must be owned by the initiating user", BUYER) in
  match theirs with
  | None => raise AttributeError
  | Some o =>
      match o_owner_user_id o with
      | Some owner =>
          refuse (bool_decide (o_organization_id o ≠ nq_counterparty_org_id p)) (bad_request their_text) ;;
          refuse (match ours with
                  | Some own => bool_decide (o_organization_id own ≠ org_id)
                                || bool_decide (o_owner_user_id own ≠ Some (u_id current_user))
                  | None => false
                  end) (bad_request our_text) ;;
          mret (owner, role)
      | None => raise (bad_request their_text)
      end
  end.

(** Both people, in the role they act in, still admitted. *)
Definition check_people (orgs : gmap uuid Organization) (org_id counterparty_org_id counterparty_user_id : uuid)
    (role : UserRole) (current_user : User) : M World unit :=
  found ← lock_users [u_id current_user; counterparty_user_id];
  d ← get_db;
  let initiator := found !! u_id current_user in
  let counterparty := found !! counterparty_user_id in
  refuse (bool_decide ((initiator ≫= u_role) ≠ u_role current_user)
          || bool_decide ((counterparty ≫= u_role) ≠ Some role)
          || negb (execution_party_is_eligible d initiator (orgs !! org_id))
          || negb (execution_party_is_eligible d counterparty (orgs !! counterparty_org_id)))
    (conflict_error "Negotiation party is not execution-qualified").

(** Active negotiations of the two parties, either way round, over the product. *)
Definition same_pair (org_id counterparty_org_id : uuid) (n : Negotiation) : bool :=
  (bool_decide (ng_initiator_org_id n = org_id) && bool_decide (ng_counterparty_org_id n = counterparty_org_id))
  || (bool_decide (ng_initiator_org_id n = counterparty_org_id) && bool_decide (ng_counterparty_org_id n = org_id)).
Definition duplicates (d : Database) (org_id counterparty_org_id product_id : uuid) : list Negotiation :=
  filter (λ n, same_pair org_id counterparty_org_id n = true ∧ ng_product_id n = product_id
               ∧ negotiation_active (ng_status n) = true) (snd <$> map_to_list (negotiations d)).
Definition already_active : exn :=
  conflict_error "An active negotiation already exists for this product with this counterparty".
Definition reject_duplicate (p : NegotiationCreateRequest) (org_id : uuid) : M World unit :=
  d ← get_db;
  match duplicates d org_id (nq_counterparty_org_id p) (nq_product_id p) with
  | [] => mret tt
  | [_] => raise already_active
  | _ => raise MultipleResultsFound
  end.

Definition new_negotiation (d : Database) (p : NegotiationCreateRequest) (org_id counterparty_user_id : uuid)
    (initiator_side : string) (canonical_order : Order) (current_user : User) (now : datetime) : Negotiation :=
  {| ng_id := fresh_id (negotiations d); ng_bid_order_id := nq_bid_order_id p;
     ng_ask_order_id := nq_ask_order_id p; ng_initiator_org_id := org_id;
     ng_counterparty_org_id := nq_counterparty_org_id p; ng_initiator_user_id := Some (u_id current_user);
     ng_counterparty_user_id := Some counterparty_user_id; ng_accepted_by_user_id := None;
     ng_initiator_side := initiator_side; ng_product_id := nq_product_id p;
     ng_delivery_point_id := o_delivery_point_id canonical_order;
     ng_availability_window := o_availability_window canonical_order;
     ng_quantity_mt := to_cents (nq_quantity_mt p); ng_current_price := to_cents (nq_proposed_price p);
     ng_status := NEG_OPEN; ng_last_actor_org_id := org_id; ng_trade_id := None;
     ng_expires_at := now + nq_expires_in_hours p * 3600000000 |}.

Definition announce_negotiation (n : Negotiation) (p : NegotiationCreateRequest) (current_user : User)
    : M World unit :=
  let price := decimal_str (nq_proposed_price p) in
  let quantity := decimal_str (nq_quantity_mt p) in
  d ← get_db;
  record_audit (Some (u_id current_user)) NEGOTIATION_CREATED "negotiation" (Some (ng_id n))
    (JObj [ ("initiator_org_id", JUuid (ng_initiator_org_id n));
            ("counterparty_org_id", JUuid (ng_counterparty_org_id n));
            ("initiator_user_id", jopt JUuid (ng_initiator_user_id n));
            ("counterparty_user_id", jopt JUuid (ng_counterparty_user_id n));
            ("product_id", JUuid (ng_product_id n)); ("bid_order_id", jopt JUuid (ng_bid_order_id n));
            ("ask_order_id", jopt JUuid (ng_ask_order_id n)); ("quantity_mt", JStr quantity);
            ("price_per_mt_usd", JStr price); ("status", JStr (NegotiationStatus_value (ng_status n))) ]) ;;
  notify_org_users (ng_counterparty_org_id n) NT_NEGOTIATION_RECEIVED "New Deal Proposal"
    (Fmt "{} proposed ${}/MT for {} MT."
      [AStr (default "A counterparty" (org_name d (ng_initiator_org_id n))); AStr price; AStr quantity])
    (Some (JObj [("negotiation_id", JUuid (ng_id n))])) ;;
  negotiation_event "negotiation_created" n
    [("counterparty_org_id", JUuid (ng_counterparty_org_id n)); ("proposed_price", JStr price)].

(** [diag_constraint_name]: the constraint a database driver reports for a
    violation, if it reports one. *)
Section create.
Context (diag_constraint_name : exn → option string).

Definition duplicate_key (e : exn) : M World unit :=
  rollback ;;
  if bool_decide (diag_constraint_name e = Some "uq_negotiations_active_pair_product")
  then raise already_active else raise e.

(** The row with its first round, flushed, announced and committed. *)
Definition perform_create (p : NegotiationCreateRequest) (org_id counterparty_user_id : uuid)
    (initiator_side : string) (canonical_order : Order) (current_user : User) : M World NegotiationResponse :=
  now ← utcnow;
  d ← get_db;
  let n := new_negotiation d p org_id counterparty_user_id initiator_side canonical_order current_user now in
  let round := new_round d n 1 org_id current_user (to_cents (nq_proposed_price p)) (nq_notes p) in
  put_negotiation n ;;
  put_round round ;;
  catch_integrity flush duplicate_key ;;
  announce_negotiation n p current_user ;;
  response ← _build_response n [round];
  commit ;;
  mret response.

Definition create_negotiation (p : NegotiationCreateRequest) (current_user : User) : M World NegotiationResponse :=
  require_execution_eligible_user current_user ;;
  match u_organization_id current_user with
  | None => raise no_organization
  | Some org_id =>
      initiator_side ← check_initiation p org_id current_user;
      rows ← lock_negotiation_orders p org_id;
      let '(bid_order, ask_order, canonical_order) := rows in
      let locked_orders := named_orders bid_order ask_order in
      orgs ← lock_and_load_market_organizations [org_id; nq_counterparty_org_id p]
        [MkMarketActorOwnership (u_id current_user) org_id] true [];
      assert_pair orgs org_id (nq_counterparty_org_id p) ;;
      assert_order_provenance orgs locked_orders ;;
      require_canonical_market_slice (o_product_id canonical_order) (o_delivery_point_id canonical_order) ;;
      counterparty ← counterparty_user_of p org_id initiator_side bid_order ask_order current_user;
      let '(counterparty_user_id, role) := counterparty in
      check_people orgs org_id (nq_counterparty_org_id p) counterparty_user_id role current_user ;;
      reject_duplicate p org_id ;;
      perform_create p org_id counterparty_user_id initiator_side canonical_order current_user
  end.
End create.

(** ** On the demo market

    The shipping line bargains for 100 t of the refinery's ask. *)

Definition demo_proposal : NegotiationCreateRequest :=
  MkNegotiationCreateRequest None (Some 21%N) 2 (p_id Demo.methanol) (d_id Demo.rotterdam) "spot"
    (of_int 100) (of_int 580) (Some "prompt lifting") 24.
Definition demo_counter (price : Z) : NegotiationCounterRequest := MkNegotiationCounterRequest (of_int price) None.

(** Status, price and rounds of a run's answer. *)
Definition talk (o : outcome World NegotiationResponse) : option (NegotiationStatus * Z * list (Z * uuid * Z)) :=
  match o with
  | Ok r _ => Some (ng_status (nrs_negotiation r), ng_current_price (nrs_negotiation r),
      (λ x, (nr_round_number (nrr_round x), nr_proposer_org_id (nrr_round x), nr_proposed_price (nrr_round x)))
        <$> nrs_rounds r)
  | Raise _ _ => None
  end.

Example negotiate :
  talk ((create_negotiation (λ _, None) demo_proposal Demo.buyer ;;
         counter_negotiation 0 (demo_counter 595) Demo.supplier ;;
         counter_negotiation 0 (demo_counter 590) Demo.buyer) Demo.quoted)
  = Some (NEG_COUNTERED, 59000, [(1, 1%N, 58000); (2, 2%N, 59500); (3, 1%N, 59000)]).
Proof. vm_compute. reflexivity. Qed.
Example negotiate_out_of_turn :
  match (create_negotiation (λ _, None) demo_proposal Demo.buyer ;;
         counter_negotiation 0 (demo_counter 570) Demo.buyer) Demo.quoted with
  | Raise e _ => e = bad_request "Waiting for the other party to respond"
  | Ok _ _ => False
  end.
Proof. vm_compute. reflexivity. Qed.
