(* ===== verification/NegotiationsSafety.v ===== *)
(** * What a negotiation guarantees

    The conversation behind the rows: numbered offers that alternate between the
    two parties, within ten rounds, the last of them on the table.  Every request
    is a step of it or changes nothing; the order tables are never touched. *)

From S2P Require Import Prelude Catalog Calendar AvailabilityWindows Decimal Json Schema Constraints NegotiationSchema Delivery Database Scenario Policy Eligibility Events Admission RequestParty Trades TradesSafety OrderEntry OrderCreationSafety Negotiations.
Local Open Scope Z_scope.

(** ** The rounds of a negotiation *)

Definition rounds_keyed (d : Database) : Prop := map_Forall (λ k r, nr_id r = k) (negotiation_rounds d).

#[export] Instance round_le_trans : Transitive round_le.
Proof. intros a b c. unfold round_le. lia. Qed.
#[export] Instance round_le_total : Total round_le.
Proof. intros a b. unfold round_le. lia. Qed.

Section rounds.
Context (d : Database) (Hkeyed : rounds_keyed d).
Definition round_rows (id : uuid) : list NegotiationRound :=
  filter (λ r, nr_negotiation_id r = id) (snd <$> map_to_list (negotiation_rounds d)).

Lemma elem_of_rounds id r :
  r ∈ rounds_of d id ↔ negotiation_rounds d !! nr_id r = Some r ∧ nr_negotiation_id r = id.
Proof.
  unfold rounds_of. rewrite merge_sort_Permutation, list_elem_of_filter, list_elem_of_fmap. split.
  - intros (Hid & [k r'] & -> & Hin%elem_of_map_to_list). cbn in *. by rewrite (Hkeyed _ _ Hin).
  - intros [Hr Hid]. split; [done|]. exists (nr_id r, r). by rewrite elem_of_map_to_list.
Qed.

(** Any sorted arrangement of the rows is the query's answer. *)
Lemma rounds_of_sorted id l : StronglySorted round_le l → l ≡ₚ round_rows id → rounds_of d id = l.
Proof.
  intros Hs Hp. apply (StronglySorted_unique_strong round_le).
  - intros a b Ha Hb Hab Hba. apply elem_of_rounds in Ha as [Ha _].
    assert (b ∈ rounds_of d id) as Hb'.
    { unfold rounds_of. by rewrite merge_sort_Permutation, <-Hp. }
    apply elem_of_rounds in Hb' as [Hb' _]. unfold round_le in *. assert (nr_id a = nr_id b) as E by lia.
    rewrite E in Ha. congruence.
  - apply StronglySorted_merge_sort; apply _.
  - done.
  - unfold rounds_of. by rewrite merge_sort_Permutation, Hp.
Qed.
End rounds.

Section new_round.
Context (d d' : Database) (r : NegotiationRound).
Context (Hkeyed : rounds_keyed d) (Hnew : negotiation_rounds d !! nr_id r = None).
Context (Hd' : negotiation_rounds d' = <[ nr_id r := r ]> (negotiation_rounds d)).

Lemma rounds_keyed_insert : rounds_keyed d'.
Proof. unfold rounds_keyed. rewrite Hd'. by apply map_Forall_insert_2. Qed.

Lemma round_rows_insert id :
  round_rows d' id ≡ₚ (if decide (nr_negotiation_id r = id) then [r] else []) ++ round_rows d id.
Proof.
  unfold round_rows. rewrite Hd', map_to_list_insert by done. rewrite fmap_cons, filter_cons. cbn [snd].
  by destruct (decide _).
Qed.

Lemma rounds_of_other id : nr_negotiation_id r ≠ id → rounds_of d' id = rounds_of d id.
Proof.
  intros Hne. apply rounds_of_sorted; [apply rounds_keyed_insert|apply StronglySorted_merge_sort; apply _|].
  rewrite round_rows_insert, decide_False by done. apply merge_sort_Permutation.
Qed.

Lemma rounds_of_snoc :
  Forall (λ x, nr_round_number x < nr_round_number r) (rounds_of d (nr_negotiation_id r)) →
  rounds_of d' (nr_negotiation_id r) = rounds_of d (nr_negotiation_id r) ++ [r].
Proof.
  intros Hlt. apply rounds_of_sorted; [apply rounds_keyed_insert| |].
  - apply StronglySorted_app_2; [|apply StronglySorted_merge_sort; apply _|by repeat constructor].
    intros x y Hx ->%list_elem_of_singleton. rewrite Forall_forall in Hlt. left. by apply Hlt.
  - rewrite round_rows_insert, decide_True by done. rewrite (Permutation_app_comm [r]). f_equiv.
    apply merge_sort_Permutation.
Qed.
End new_round.

(** ** The conversation *)

(** Who makes the offer with index [i]: the initiator starts. *)
Definition proposer_at (n : Negotiation) (i : nat) : uuid :=
  if Nat.even i then ng_initiator_org_id n else ng_counterparty_org_id n.

(** Numbered offers in turns, at most ten, the last of them on the table; open
    until the first counter; never executed. *)
Definition talk_ok (n : Negotiation) (l : list NegotiationRound) : Prop :=
  (λ r, (nr_round_number r, nr_proposer_org_id r)) <$> l = imap (λ i _, (Z.of_nat i + 1, proposer_at n i)) l
  ∧ (1 <= length l <= MAX_ROUNDS)%nat
  ∧ (λ r, (nr_proposed_price r, nr_proposer_org_id r)) <$> last l
    = Some (ng_current_price n, ng_last_actor_org_id n)
  ∧ (ng_status n = NEG_OPEN → length l = 1%nat)
  ∧ (ng_status n = NEG_COUNTERED → 2 <= length l)%nat
  ∧ ng_trade_id n = None.

Definition talks_ok (d : Database) : Prop :=
  map_Forall (λ k n, ng_id n = k) (negotiations d)
  ∧ rounds_keyed d
  ∧ map_Forall (λ _ r, is_Some (negotiations d !! nr_negotiation_id r)) (negotiation_rounds d)
  ∧ map_Forall (λ k n, talk_ok n (rounds_of d k)) (negotiations d).
#[export] Instance talks_ok_dec d : Decision (talks_ok d).
Proof. unfold talks_ok, rounds_keyed, talk_ok. apply _. Defined.

(** The tables after a negotiation has a new row and perhaps a new round. *)
Definition with_round (round : option NegotiationRound) (m : gmap uuid NegotiationRound) :=
  match round with Some r => <[ nr_id r := r ]> m | None => m end.
Definition changed (d : Database) (n : Negotiation) (round : option NegotiationRound) (d' : Database) : Prop :=
  same_market d d' ∧ negotiations d' = <[ ng_id n := n ]> (negotiations d)
  ∧ negotiation_rounds d' = with_round round (negotiation_rounds d).

Lemma talk_numbers n l r :
  talk_ok n l → r ∈ l → nr_round_number r < Z.of_nat (length l) + 1.
Proof.
  intros (Hl & _) [i Hi]%list_elem_of_lookup_1.
  pose proof (f_equal (λ k, k !! i) Hl) as E. cbn in E. rewrite list_lookup_fmap, Hi, list_lookup_imap, Hi in E.
  cbn in E. injection E as E _. pose proof (lookup_lt_Some _ _ _ Hi). lia.
Qed.

Lemma even_S i : Nat.even (S i) = negb (Nat.even i).
Proof. by rewrite Nat.even_succ, <-Nat.negb_even. Qed.

(** Whose turn it is: the party that did not make the last offer. *)
Lemma next_proposer n l org :
  talk_ok n l → is_party n org = true → ng_initiator_org_id n ≠ ng_counterparty_org_id n →
  ng_last_actor_org_id n ≠ org → proposer_at n (length l) = org.
Proof.
  intros (Hl & [Hlen _] & Hlast & _) Hp Hne Hturn. destruct l as [|x l _] using rev_ind; [cbn in Hlen; lia|].
  rewrite last_snoc in Hlast. injection Hlast as _ Hactor. rewrite fmap_app, imap_app in Hl. cbn in Hl.
  apply app_inj_2 in Hl as [_ Hl]; [|done]. injection Hl as _ Hx. rewrite Nat.add_0_r in Hx.
  rewrite length_app. cbn. rewrite Nat.add_1_r. rewrite Hx in Hactor. rewrite <-Hactor in Hturn.
  unfold proposer_at, is_party in *. rewrite even_S. apply orb_true_iff in Hp.
  rewrite !bool_decide_eq_true in Hp. destruct (Nat.even (length l)); cbn; destruct Hp; congruence.
Qed.

(** Adding an offer of the party whose turn it is. *)
Lemma talk_ok_counter n l org price r :
  talk_ok n l → is_party n org = true → ng_initiator_org_id n ≠ ng_counterparty_org_id n →
  ng_last_actor_org_id n ≠ org → (length l < MAX_ROUNDS)%nat →
  nr_round_number r = Z.of_nat (length l) + 1 → nr_proposer_org_id r = org → nr_proposed_price r = price →
  talk_ok (countered n org price) (l ++ [r]).
Proof.
  intros Hok Hp Hne Hturn Hlen Hnum Horg Hprice. pose proof (next_proposer n l org Hok Hp Hne Hturn) as Hnext.
  destruct Hok as (Hl & [Hone _] & _ & _ & _ & Htr). unfold talk_ok. rewrite length_app, last_snoc. cbn.
  split_and!; try done; try lia.
  - rewrite fmap_app, imap_app, Hl. f_equal. cbn. rewrite Nat.add_0_r, Hnum, Horg, <-Hnext. done.
  - by rewrite Hprice, Horg.
Qed.

Lemma talk_ok_declined n l : talk_ok n l → talk_ok (declined n) l.
Proof. intros (H1 & [H2 H2'] & H3 & _ & _ & H6). unfold talk_ok. cbn. by split_and!. Qed.

Lemma talk_ok_first n r :
  nr_round_number r = 1 → nr_proposer_org_id r = ng_initiator_org_id n → ng_status n = NEG_OPEN →
  nr_proposed_price r = ng_current_price n → ng_last_actor_org_id n = ng_initiator_org_id n →
  ng_trade_id n = None → talk_ok n [r].
Proof.
  intros Hnum Horg Hst Hprice Hact Htr. unfold talk_ok, proposer_at, MAX_ROUNDS. cbn.
  split_and!; try done; try lia; [by rewrite Hnum, Horg|by rewrite Hprice, Horg, Hact|by rewrite Hst].
Qed.

(** ** Every change keeps the conversations *)

Section preserved.
Context (d d' : Database) (Hchecks : database_checks d) (Htalks : talks_ok d).

Lemma negotiation_row n : negotiations d !! ng_id n = Some n → negotiation_check n.
Proof. destruct Hchecks as (_ & _ & _ & _ & _ & _ & _ & (Hn & _) & _). apply (Hn (ng_id n)). Qed.

Lemma rounds_belong id : negotiations d !! id = None → rounds_of d id = [].
Proof.
  destruct Htalks as (_ & Hk & Hr & _). intros Hnone. apply elem_of_nil_inv. intros r Hin.
  apply elem_of_rounds in Hin as [Hin <-]; [|done]. specialize (Hr _ _ Hin). cbn in Hr. rewrite Hnone in Hr.
  by apply is_Some_None in Hr.
Qed.

(** A new round, or none, of the one row that changes. *)
Lemma talks_ok_changed n round :
  changed d n round d' →
  match round with
  | Some r => nr_negotiation_id r = ng_id n ∧ negotiation_rounds d !! nr_id r = None
              ∧ Forall (λ x, nr_round_number x < nr_round_number r) (rounds_of d (ng_id n))
              ∧ talk_ok n (rounds_of d (ng_id n) ++ [r])
  | None => talk_ok n (rounds_of d (ng_id n))
  end →
  talks_ok d' ∧ rounds_of d' (ng_id n) = rounds_of d (ng_id n) ++ option_list round.
Proof.
  destruct Htalks as (Hk & Hrk & Hr & Ht). intros (_ & En & Er) Hround.
  assert (∀ k, is_Some (negotiations d !! k) → is_Some (negotiations d' !! k)) as Hkeep.
  { intros k [x Hx]. rewrite En. destruct (decide (k = ng_id n)) as [->|].
    - rewrite lookup_insert_eq. by eexists.
    - rewrite lookup_insert_ne by done. by exists x. }
  assert (rounds_keyed d' ∧ (∀ k, k ≠ ng_id n → rounds_of d' k = rounds_of d k)
    ∧ rounds_of d' (ng_id n) = rounds_of d (ng_id n) ++ option_list round
    ∧ talk_ok n (rounds_of d' (ng_id n))) as (Hrk' & Hother & Hmine & Hmine').
  { destruct round as [r|]; cbn in Er |- *.
    - destruct Hround as (Hid & Hnew & Hlt & Hok). rewrite <-Hid in *. split_and!.
      + by eapply rounds_keyed_insert.
      + intros k Hne. by apply (rounds_of_other d d' r).
      + by apply rounds_of_snoc.
      + by rewrite (rounds_of_snoc d d' r).
    - unfold rounds_keyed, rounds_of in *. rewrite Er. split_and!; try done. by rewrite app_nil_r. }
  split; [|done]. split_and!; [|done| |].
  - rewrite En. by apply map_Forall_insert_2.
  - intros k r0 Hr0. rewrite Er in Hr0. destruct round as [r|]; cbn in Hr0; [|by apply Hkeep, (Hr k)].
    apply lookup_insert_Some in Hr0 as [[_ <-]|[_ Hr0]]; [|by apply Hkeep, (Hr k)].
    destruct Hround as (-> & _). rewrite En, lookup_insert_eq. by eexists.
  - intros k n0 Hn0. rewrite En in Hn0. apply lookup_insert_Some in Hn0 as [[<- <-]|[Hne Hn0]]; [done|].
    rewrite Hother by congruence. by apply (Ht k).
Qed.
End preserved.

(** ** Writing rows of checked tables *)

(** A row that leaves a partial index. *)
Lemma unique_on_drop {K V A} `{Countable K} `{EqDecision A} (f : V → option A) (m : gmap K V) k x :
  unique_on f m → f x = None → unique_on f (<[k := x]> m).
Proof.
  rewrite !unique_on_spec. intros Hu Hf i j a b Ha Hb E Hne.
  assert (∀ l c, <[k := x]> m !! l = Some c → f c ≠ None → m !! l = Some c) as Hold.
  { intros l c [[_ <-]|[_ Hc]]%lookup_insert_Some Hc'; [|done]. by destruct Hc'. }
  apply (Hu i j a b); [by apply Hold|apply Hold; congruence|done|done].
Qed.

Lemma checks_put_negotiation d n :
  database_checks d → negotiation_check n →
  match negotiations d !! ng_id n with
  | Some n0 => active_pair_product n = active_pair_product n0 ∨ active_pair_product n = None
  | None => ∀ k x, negotiations d !! k = Some x → active_pair_product n = active_pair_product x →
      active_pair_product n = None
  end →
  database_checks (d <| negotiations := <[ ng_id n := n ]> (negotiations d) |>).
Proof.
  intros (H1 & H2 & H3 & H4 & H5 & U & S & (N1 & N2 & N3 & N4) & Q) Hn Hu.
  unfold database_checks, side_checks, negotiation_checks. cbn. split_and!; try done.
  - by apply map_Forall_insert_2.
  - destruct (negotiations d !! ng_id n) as [n0|] eqn:Hn0; [|by apply unique_on_insert].
    destruct Hu; [by eapply unique_on_update|by apply unique_on_drop].
Qed.

Lemma checks_put_round d r :
  database_checks d → NEGOTIATION_ROUND_NUMERIC_VALUES r → negotiation_rounds d !! nr_id r = None →
  (∀ k x, negotiation_rounds d !! k = Some x → negotiation_round_key r ≠ negotiation_round_key x) →
  database_checks (d <| negotiation_rounds := <[ nr_id r := r ]> (negotiation_rounds d) |>).
Proof.
  intros (H1 & H2 & H3 & H4 & H5 & U & S & (N1 & N2 & N3 & N4) & Q) Hr Hnew Hu.
  unfold database_checks, side_checks, negotiation_checks. cbn. split_and!; try done.
  - by apply map_Forall_insert_2.
  - apply unique_on_insert; [done..|]. intros k x Hk He. by destruct (Hu k x Hk).
Qed.

(** ** Frames *)

Lemma reads_load_negotiation id org b : Keeps reads (_load_negotiation id org b).
Proof. unfold _load_negotiation. keeps. Qed.
Lemma reads_assert_active n : Keeps reads (_assert_active n).
Proof. unfold _assert_active. keeps. Qed.
Lemma reads_revalidate_negotiation n : Keeps reads (_revalidate_negotiation_parties n).
Proof. unfold _revalidate_negotiation_parties. keeps. Qed.
Lemma reads_assert_pair orgs l r : Keeps reads (assert_pair orgs l r).
Proof. unfold assert_pair. keeps. Qed.
#[export] Hint Resolve reads_load_negotiation reads_assert_active reads_revalidate_negotiation reads_assert_pair : keeps.
Lemma reads_admit_counter n l org u : Keeps reads (admit_counter n l org u).
Proof. unfold admit_counter, _assert_concrete_party, _assert_counterparty_turn. keeps. Qed.
Lemma reads_admit_decline n u : Keeps reads (admit_decline n u).
Proof. unfold admit_decline. keeps. Qed.
Lemma reads_validate_order o s ids q : Keeps reads (_validate_negotiation_order o s ids q).
Proof. unfold _validate_negotiation_order. keeps. Qed.
Lemma reads_load_order_row id b : Keeps reads (_load_order id b).
Proof. unfold _load_order. keeps. Qed.
#[export] Hint Resolve reads_admit_counter reads_admit_decline reads_validate_order reads_load_order_row : keeps.
Lemma reads_load_and_validate id s p org b : Keeps reads (load_and_validate_order id s p org b).
Proof. unfold load_and_validate_order. keeps. Qed.
#[export] Hint Resolve reads_load_and_validate : keeps.
Lemma reads_load_orders p org b : Keeps reads (_load_and_validate_negotiation_orders p org b).
Proof. unfold _load_and_validate_negotiation_orders. keeps. Qed.
Lemma reads_canonical_slice p dp : Keeps reads (require_canonical_market_slice p dp).
Proof. unfold require_canonical_market_slice. keeps. Qed.
Lemma reads_initiation p org u : Keeps reads (check_initiation p org u).
Proof. unfold check_initiation. keeps. Qed.
Lemma reads_counterparty p org s b a u : Keeps reads (counterparty_user_of p org s b a u).
Proof. unfold counterparty_user_of. keeps. Qed.
Lemma reads_check_people orgs o c cu r u : Keeps reads (check_people orgs o c cu r u).
Proof. unfold check_people. keeps. Qed.
Lemma reads_reject_duplicate p org : Keeps reads (reject_duplicate p org).
Proof. unfold reject_duplicate. keeps. Qed.
Lemma reads_build_response n l : Keeps reads (_build_response n l).
Proof. unfold _build_response. keeps. Qed.
#[export] Hint Resolve reads_load_orders reads_canonical_slice reads_initiation reads_counterparty
  reads_check_people reads_reject_duplicate reads_build_response : keeps.

Lemma reads_rollback_raise {A} b e (k : M World A) : Keeps reads_synced k → Keeps reads_synced (rollback_raise b e k).
Proof. intros H. unfold rollback_raise. destruct b; [keeps|done]. Qed.
Lemma reads_lock_negotiation id org u : Keeps reads_synced (_lock_negotiation_for_mutation id org u).
Proof.
  unfold _lock_negotiation_for_mutation. apply keeps_bind; [apply _|keeps|intros preview].
  apply keeps_bind; [apply _|keeps|intros _]. apply keeps_bind; [apply _|keeps|intros [n l]].
  apply reads_rollback_raise. keeps.
Qed.
Lemma reads_lock_orders p org : Keeps reads_synced (lock_negotiation_orders p org).
Proof.
  unfold lock_negotiation_orders. apply keeps_bind; [apply _|keeps|intros observed].
  apply keeps_bind; [apply _|keeps|intros _]. apply keeps_bind; [apply _|keeps|intros _].
  apply keeps_bind; [apply _|keeps|intros [[b a] c]]. apply reads_rollback_raise. keeps.
Qed.
Lemma reads_order_provenance orgs l : Keeps reads_synced (assert_order_provenance orgs l).
Proof.
  induction l as [|o l IH]; [keeps|]. cbn. destruct (orgs !! _); [by apply reads_rollback_raise|keeps].
Qed.
#[export] Hint Resolve reads_lock_negotiation reads_lock_orders reads_order_provenance : keeps.

Lemma only_events_negotiation_event ty n p : Keeps only_events (negotiation_event ty n p).
Proof. unfold negotiation_event. keeps. Qed.
#[export] Hint Resolve only_events_negotiation_event : keeps.
Lemma only_events_announce_counter b n k org p u : Keeps only_events (announce_counter b n k org p u).
Proof. unfold announce_counter. keeps. Qed.
Lemma only_events_announce_decline b n org u : Keeps only_events (announce_decline b n org u).
Proof. unfold announce_decline. keeps. Qed.
Lemma only_events_announce_negotiation n p u : Keeps only_events (announce_negotiation n p u).
Proof. unfold announce_negotiation. keeps. Qed.
#[export] Hint Resolve only_events_announce_counter only_events_announce_decline only_events_announce_negotiation : keeps.

(** ** What is announced goes through *)

Lemma succeeds_events {A B} (m : M World A) (k : A → M World B) w :
  Succeeds m w → Keeps only_events m → (∀ a w1, only_events w w1 → Succeeds (k a) w1) → Succeeds (m ≫= k) w.
Proof. intros Hm Hk H. apply succeeds_bind; [done|]. intros a w1 Hrun. apply H. by apply (keeps_ok only_events m w a). Qed.

Lemma negotiation_event_returns ty n p w :
  strip ty ≠ "" → payload_has PUBLIC_MARKET_INVALIDATION_KEY p = false → database_checks (db w) →
  Succeeds (negotiation_event ty n p) w.
Proof.
  intros Hty Hp Hc. unfold negotiation_event.
  destruct (participant_event_returns ty "negotiation" (ng_id n) [ng_initiator_org_id n; ng_counterparty_org_id n]
    (("id", JUuid (ng_id n)) :: p) false (ng_initiator_org_id n)) as [e He]; [by left| |done|done|].
  { unfold payload_has in *. apply bool_decide_eq_false in Hp. apply bool_decide_eq_false. cbn.
    intros [Hx|Hx]%elem_of_cons; [discriminate|done]. }
  rewrite He. apply succeeds_bind; [by eexists _, _|]. intros x w1 [_ ->]%lift_ok. by apply enqueue_returns.
Qed.

Section announced.
Context (w : World) (Hc : database_checks (db w)).

Lemma announce_counter_returns b n k org p u : Succeeds (announce_counter b n k org p u) w.
Proof.
  unfold announce_counter. apply succeeds_events; [apply succeeds_gets|keeps|]. intros d w1 H1.
  apply succeeds_events; [apply notify_returns|keeps|]. intros _ w2 H2.
  apply succeeds_events; [apply succeeds_modify|keeps|]. intros _ w3 H3.
  apply negotiation_event_returns; [done|done|]. apply (only_events_checks w); [by trans w1; [|trans w2]|done].
Qed.
Lemma announce_decline_returns b n org u : Succeeds (announce_decline b n org u) w.
Proof.
  unfold announce_decline. apply succeeds_events; [apply succeeds_gets|keeps|]. intros d w1 H1.
  apply succeeds_events; [apply notify_returns|keeps|]. intros _ w2 H2.
  apply succeeds_events; [apply succeeds_modify|keeps|]. intros _ w3 H3.
  apply negotiation_event_returns; [done|done|]. apply (only_events_checks w); [by trans w1; [|trans w2]|done].
Qed.
Lemma announce_negotiation_returns n p u : Succeeds (announce_negotiation n p u) w.
Proof.
  unfold announce_negotiation. apply succeeds_events; [apply succeeds_gets|keeps|]. intros d w1 H1.
  apply succeeds_events; [apply succeeds_modify|keeps|]. intros _ w2 H2.
  apply succeeds_events; [apply notify_returns|keeps|]. intros _ w3 H3.
  apply negotiation_event_returns; [done|done|]. apply (only_events_checks w); [by trans w1; [|trans w2]|done].
Qed.
End announced.

(** [w1]: the session with the rows in it. *)
Lemma changed_events w w1 w2 n round :
  changed (db w) n round (db w1) → only_events w1 w2 → changed (db w) n round (db w2).
Proof.
  intros (Hs & Hn & Hr) Hev. pose proof (only_events_same_market _ _ Hev) as Hm.
  split; [by etrans|]. unfold only_events in Hev. destruct_and! Hev. split; congruence.
Qed.

Lemma response_rounds d n l : nrr_round <$> nrs_rounds (negotiation_response d n l) = l.
Proof. cbn. rewrite <-list_fmap_compose. by apply list_fmap_id. Qed.

Lemma announced_settled w w1 n round (announce : M World unit) l :
  changed (db w) n round (db w1) → database_checks (db w1) →
  Succeeds announce w1 → Keeps only_events announce →
  ∃ w', (announce ;; commit ;; _build_response n l) w1 = Ok (negotiation_response (db w') n l) w'
    ∧ changed (db w) n round (db w') ∧ committed w' = db w' ∧ database_checks (db w').
Proof.
  intros Hch Hc (u & w2 & Hrun) Hk. pose proof (keeps_ok only_events _ _ _ _ Hk Hrun) as Hev.
  assert (database_checks (db w2)) as Hc2 by (by apply (only_events_checks w1)).
  exists (w2 <| committed := db w2 |>). split_and!; [|exact (changed_events w w1 w2 n round Hch Hev)|done|done].
  erewrite bind_run by exact Hrun. erewrite bind_run by (by apply commit_run). done.
Qed.

(** ** Bargaining, abstractly *)

(** The requests that may change a conversation. *)
Inductive talk_request :=
  | Propose (p : NegotiationCreateRequest)
  | Counter (id : uuid) (p : NegotiationCounterRequest)
  | Accept (id : uuid)
  | DeclineTalk (id : uuid).
Definition talk_valid (r : talk_request) : Prop :=
  match r with
  | Propose p => negotiation_create_valid p
  | Counter _ p => negotiation_counter_valid p
  | _ => True
  end.

Definition live_at (n : Negotiation) (now : datetime) : Prop :=
  negotiation_active (ng_status n) = true ∧ now < ng_expires_at n.

(** The two recorded people are still a buyer and a supplier who may execute. *)
Definition eligible_as (d : Database) (user org : uuid) (role : UserRole) : Prop :=
  users d !! user ≫= u_role = Some role
  ∧ execution_party_is_eligible d (users d !! user) (organizations d !! org) = true.
Definition people_admitted (d : Database) (n : Negotiation) : Prop :=
  ∃ buyer seller, _resolve_trade_users n = Val (buyer, seller)
    ∧ eligible_as d buyer (fst (_resolve_trade_roles n)) BUYER
    ∧ eligible_as d seller (snd (_resolve_trade_roles n)) SUPPLIER.

(** The organizations are approved, and the user acts for [org]. *)
Definition speaks_for (d : Database) (n : Negotiation) (u : User) (org : uuid) : Prop :=
  admitted_member d (u_id u) org ∧ approved_organization d (ng_initiator_org_id n)
  ∧ approved_organization d (ng_counterparty_org_id n).

(** The counterparty's resting order a proposal is about. *)
Definition side_against (initiator_side : string) : OrderSide :=
  if bool_decide (initiator_side = "BUYER") then ASK else BID.
Definition named_order (p : NegotiationCreateRequest) (s : OrderSide) : option uuid :=
  match s with ASK => nq_ask_order_id p | BID => nq_bid_order_id p end.
Record proposable (d : Database) (seen : datetime → Prop) (p : NegotiationCreateRequest) (initiator_side : string)
    (o : Order) (owner : uuid) : Prop := {
  pp_row : ∃ id, named_order p (side_against initiator_side) = Some id ∧ orders d !! id = Some o;
  pp_side : o_side o = side_against initiator_side;
  pp_org : o_organization_id o = nq_counterparty_org_id p;
  pp_owner : o_owner_user_id o = Some owner;
  pp_active : is_active_status (o_status o) = true;
  pp_unexpired : ∃ t, seen t ∧ overdue_at o t = false;
  pp_capacity : to_cents (nq_quantity_mt p) <= o_remaining_quantity_mt o;
  pp_qualified : order_is_execution_qualified o = true;
  pp_slice : o_product_id o = nq_product_id p ∧ o_delivery_point_id o = Some (nq_delivery_point_id p)
    ∧ normalize_availability_window (nq_availability_window p) = Val (o_availability_window o);
}.

(** The new row and the new round of a step. *)
Inductive bargain_step (d : Database) (seen : datetime → Prop) (u : User) (org : uuid)
    : talk_request → Negotiation → option NegotiationRound → Prop :=
  | bargain_open p o owner side now :
      let n := new_negotiation d p org owner side o u now in
      seen now → org ≠ nq_counterparty_org_id p → initiator_side_of u = Some side →
      proposable d seen p side o owner → duplicates d org (nq_counterparty_org_id p) (nq_product_id p) = [] →
      people_admitted d n → speaks_for d n u org → negotiation_create_valid p →
      bargain_step d seen u org (Propose p) n (Some (new_round d n 1 org u (to_cents (nq_proposed_price p)) (nq_notes p)))
  | bargain_counter n p now :
      let number := Z.of_nat (length (rounds_of d (ng_id n))) + 1 in
      let price := to_cents (nk_proposed_price p) in
      negotiations d !! ng_id n = Some n → is_party n org = true → expected_org n (u_id u) = Some org →
      seen now → live_at n now → ng_last_actor_org_id n ≠ org →
      (length (rounds_of d (ng_id n)) < MAX_ROUNDS)%nat →
      people_admitted d n → speaks_for d n u org → negotiation_counter_valid p →
      bargain_step d seen u org (Counter (ng_id n) p) (countered n org price) (Some (new_round d n number org u price (nk_notes p)))
  | bargain_decline n now :
      negotiations d !! ng_id n = Some n → is_party n org = true →
      Some (u_id u) ∈ [ng_initiator_user_id n; ng_counterparty_user_id n] →
      seen now → live_at n now → speaks_for d n u org →
      bargain_step d seen u org (DeclineTalk (ng_id n)) (declined n) None.

(** A step keeps the constraints and the conversations. *)
Lemma fresh_round_key d r k x :
  Forall (λ x, nr_round_number x < nr_round_number r) (rounds_of d (nr_negotiation_id r)) → rounds_keyed d →
  negotiation_rounds d !! k = Some x → negotiation_round_key r ≠ negotiation_round_key x.
Proof.
  intros Hlt Hk Hx [= Hid Hnum]. rewrite Forall_forall in Hlt.
  assert (x ∈ rounds_of d (nr_negotiation_id r)) as Hin.
  { apply elem_of_rounds; [done|]. by rewrite (Hk _ _ Hx). }
  specialize (Hlt x Hin). lia.
Qed.

Section step.
Context (d d' : Database) (seen : datetime → Prop) (u : User) (org : uuid) (rq : talk_request).
Context (Hchecks : database_checks d) (Htalks : talks_ok d).

Lemma step_row_checks n round :
  bargain_step d seen u org rq n round → negotiation_check n ∧ from_option NEGOTIATION_ROUND_NUMERIC_VALUES True round.
Proof.
  intros [p o owner side now n' _ Hne Hside Hprop _ _ _ (_ & [_ Hq] & [_ Hp] & _)
         |n' p now number price Hn _ _ _ [Hact _] _ _ _ _ [_ Hp]|n' now Hn _ _ _ [Hact _] _]; cbn.
  - split; [|exact Hp]. unfold negotiation_check, NEGOTIATION_DOMAIN, NEGOTIATION_NUMERIC_VALUES, NEGOTIATION_LIFECYCLE.
    cbn. split_and!; try done; try (apply Hq || apply Hp); [|by right].
    unfold initiator_side_of in Hside. destruct (u_role u) as [[]|]; try discriminate; injection Hside as <-; set_solver.
  - split; [|exact Hp]. destruct (negotiation_row d Hchecks n' Hn) as (Hdom & [Hq _] & Hlife).
    refine (conj Hdom (conj (conj Hq Hp) _)). right. split; [done|]. cbn.
    destruct Hlife as [[Ha _]|[_ Ht]]; [by rewrite Ha in Hact|done].
  - split; [|done]. destruct (negotiation_row d Hchecks n' Hn) as (Hdom & Hnum & Hlife).
    refine (conj Hdom (conj Hnum _)). right. split; [done|]. cbn.
    destruct Hlife as [[Ha _]|[_ Ht]]; [by rewrite Ha in Hact|done].
Qed.

(** No active row of the pair: the new one violates no uniqueness. *)
Lemma no_duplicate_key counterparty product n :
  duplicates d org counterparty product = [] → ng_initiator_org_id n = org →
  ng_counterparty_org_id n = counterparty → ng_product_id n = product →
  ∀ k x, negotiations d !! k = Some x → active_pair_product n = active_pair_product x → active_pair_product n = None.
Proof.
  intros Hd <- <- <- k x Hx E. unfold active_pair_product in *.
  destruct (negotiation_active (ng_status n)); [|done]. destruct (negotiation_active (ng_status x)) eqn:Hact; [|done].
  injection E as Emin Emax Ep. exfalso.
  assert (x ∈ duplicates d (ng_initiator_org_id n) (ng_counterparty_org_id n) (ng_product_id n)) as Hin.
  { unfold duplicates. apply list_elem_of_filter. split.
    - split_and!; [|done|done]. unfold same_pair. rewrite orb_true_iff, !andb_true_iff, !bool_decide_eq_true. lia.
    - apply list_elem_of_fmap. exists (k, x). by rewrite elem_of_map_to_list. }
  rewrite Hd in Hin. by apply elem_of_nil in Hin.
Qed.

(** What the new round adds to the conversation. *)
Lemma step_round n round :
  bargain_step d seen u org rq n round →
  match round with
  | Some r => nr_negotiation_id r = ng_id n ∧ negotiation_rounds d !! nr_id r = None
              ∧ Forall (λ x, nr_round_number x < nr_round_number r) (rounds_of d (ng_id n))
              ∧ talk_ok n (rounds_of d (ng_id n) ++ [r])
  | None => talk_ok n (rounds_of d (ng_id n))
  end.
Proof.
  intros [p o owner side now n' _ _ _ _ _ _ _ _|n' p now number price Hn Hp _ _ _ Hturn Hlen _ _ _|n' now Hn _ _ _ _ _].
  - assert (rounds_of d (ng_id n') = []) as Hnil by apply (rounds_belong d Htalks), fresh_id_none.
    rewrite Hnil. split_and!; [done|apply fresh_id_none|constructor|]. by apply talk_ok_first.
  - destruct Htalks as (_ & _ & _ & Ht). pose proof (Ht _ _ Hn) as Hok. cbn beta in Hok.
    change (ng_id (countered n' org price)) with (ng_id n').
    split_and!; [done|apply fresh_id_none| |].
    + apply Forall_forall. intros x Hx. by apply (talk_numbers n').
    + destruct (negotiation_row d Hchecks n' Hn) as ((_ & Hne) & _). by apply talk_ok_counter.
  - destruct Htalks as (_ & _ & _ & Ht). apply talk_ok_declined. by apply (Ht (ng_id n')).
Qed.

Lemma step_talks n round :
  bargain_step d seen u org rq n round → changed d n round d' →
  talks_ok d' ∧ rounds_of d' (ng_id n) = rounds_of d (ng_id n) ++ option_list round.
Proof. intros Hs Hch. apply talks_ok_changed; [done..|]. by apply step_round. Qed.

(** The row of the step keeps its place in the unique index. *)
Lemma step_unique n round :
  bargain_step d seen u org rq n round →
  match negotiations d !! ng_id n with
  | Some n0 => active_pair_product n = active_pair_product n0 ∨ active_pair_product n = None
  | None => ∀ k x, negotiations d !! k = Some x → active_pair_product n = active_pair_product x →
      active_pair_product n = None
  end.
Proof.
  intros [p o owner side now n' _ _ _ _ Hdup _ _ _|n' p now number price Hn Hp _ _ [Hact _] _ _ _ _ _|n' now Hn _ _ _ _ _].
  - unfold n'. cbn [ng_id new_negotiation]. rewrite fresh_id_none. by eapply no_duplicate_key.
  - change (ng_id (countered n' org price)) with (ng_id n'). rewrite Hn. left. unfold active_pair_product. cbn.
    by rewrite Hact.
  - change (ng_id (declined n')) with (ng_id n'). rewrite Hn. by right.
Qed.
End step.

(** ** The writes of each route *)

Definition written (d : Database) (n : Negotiation) (round : option NegotiationRound) : Database :=
  d <| negotiations := <[ ng_id n := n ]> (negotiations d) |>
    <| negotiation_rounds := with_round round (negotiation_rounds d) |>.

Lemma written_changed d n round : changed d n round (written d n round).
Proof. by split. Qed.

Section writes.
Context (w : World) (seen : datetime → Prop) (u : User) (org : uuid) (rq : talk_request).
Context (Hchecks : database_checks (db w)) (Htalks : talks_ok (db w)).

Lemma written_checks n round : bargain_step (db w) seen u org rq n round → database_checks (written (db w) n round).
Proof.
  intros Hs. destruct (step_row_checks _ _ _ _ _ Hchecks Htalks n round Hs) as [Hn Hr].
  pose proof (step_unique _ _ _ _ _ n round Hs) as Hu. pose proof (step_round _ _ _ _ _ Hchecks Htalks n round Hs) as Hround.
  pose proof (checks_put_negotiation (db w) n Hchecks Hn Hu) as Hc.
  destruct round as [r|]; [|exact Hc]. destruct Hround as (Hid & Hnew & Hlt & _).
  apply (checks_put_round _ r Hc Hr Hnew). cbn. intros k x. rewrite <-Hid in Hlt.
  apply fresh_round_key; [done|apply Htalks].
Qed.

(** Announced and committed: the answer of a step. *)
Definition settles (n : Negotiation) (round : option NegotiationRound) (out : outcome World NegotiationResponse) : Prop :=
  ∃ w', out = Ok (negotiation_response (db w') n (rounds_of (db w') (ng_id n))) w'
    ∧ changed (db w) n round (db w') ∧ committed w' = db w' ∧ database_checks (db w') ∧ talks_ok (db w').

Lemma written_settles n round (announce : M World unit) w1 :
  bargain_step (db w) seen u org rq n round → db w1 = written (db w) n round →
  Succeeds announce w1 → Keeps only_events announce →
  settles n round ((announce ;; commit ;; _build_response n (rounds_of (db w) (ng_id n) ++ option_list round)) w1).
Proof.
  intros Hs Hd Ha Hk. pose proof (written_checks n round Hs) as Hc. pose proof (written_changed (db w) n round) as Hch.
  rewrite <-Hd in Hc, Hch.
  destruct (announced_settled w w1 n round announce (rounds_of (db w) (ng_id n) ++ option_list round) Hch Hc Ha Hk)
    as (w' & Hrun & Hch' & Hcom & Hc').
  destruct (step_talks (db w) (db w') seen u org rq Hchecks Htalks n round Hs Hch') as [Ht' Hrounds].
  exists w'. split_and!; try done. by rewrite Hrounds.
Qed.

Lemma perform_counter_settles n p :
  let round := new_round (db w) n (Z.of_nat (length (rounds_of (db w) (ng_id n))) + 1) org u
                 (to_cents (nk_proposed_price p)) (nk_notes p) in
  bargain_step (db w) seen u org rq (countered n org (to_cents (nk_proposed_price p))) (Some round) →
  settles (countered n org (to_cents (nk_proposed_price p))) (Some round)
    (perform_counter n (rounds_of (db w) (ng_id n)) org p u w).
Proof.
  intros round Hs. unfold perform_counter. do 3 (erewrite bind_run by reflexivity).
  set (n' := countered n org (to_cents (nk_proposed_price p))) in *.
  apply (written_settles n' (Some round) (announce_counter n n' _ org p u)); [done|reflexivity| |keeps].
  apply announce_counter_returns. by apply (written_checks _ (Some round)).
Qed.

Lemma perform_decline_settles n :
  bargain_step (db w) seen u org rq (declined n) None →
  settles (declined n) None (perform_decline n (rounds_of (db w) (ng_id n)) org u w).
Proof.
  intros Hs. unfold perform_decline. erewrite bind_run by reflexivity.
  rewrite <-(app_nil_r (rounds_of (db w) (ng_id n))).
  apply (written_settles (declined n) None (announce_decline n (declined n) org u)); [done|reflexivity| |keeps].
  apply announce_decline_returns. by apply (written_checks _ None).
Qed.
End writes.

(** ** What the guards establish *)

Lemma load_negotiation_ok id org b w n l w' :
  _load_negotiation id org b w = Ok (n, l) w' →
  negotiations (db w) !! id = Some n ∧ is_party n org = true ∧ l = rounds_of (db w) id ∧ reads w w'.
Proof.
  intros H. pose proof (keeps_ok reads _ _ _ _ (reads_load_negotiation id org b) H) as Hr.
  unfold _load_negotiation in H. apply bind_ok in H as ([] & w1 & Hl & H).
  assert (db w1 = db w) as Hd by (destruct b; by inversion Hl).
  apply bind_ok in H as (d & w2 & [= <- <-] & H). rewrite Hd in H.
  destruct (negotiations (db w) !! id) as [x|]; [|discriminate]. destruct (is_party x org) eqn:Hp; [|discriminate].
  injection H as -> -> ->. by split_and!.
Qed.

(** Two organizations of the loaded ones. *)
Lemma rollback_raise_ok {A} b e (k : M World A) w a w' :
  rollback_raise b e k w = Ok a w' → b = false ∧ k w = Ok a w'.
Proof. unfold rollback_raise. by destruct b. Qed.

Lemma is_party_in n org : is_party n org = true → org ∈ [ng_initiator_org_id n; ng_counterparty_org_id n].
Proof. unfold is_party. rewrite orb_true_iff, !bool_decide_eq_true. set_solver. Qed.

Lemma lock_negotiation_ok id org u w n l w' :
  synced w → talks_ok (db w) → _lock_negotiation_for_mutation id org (u_id u) w = Ok (n, l) w' →
  negotiations (db w) !! ng_id n = Some n ∧ ng_id n = id ∧ is_party n org = true
  ∧ l = rounds_of (db w) (ng_id n) ∧ speaks_for (db w) n u org ∧ reads w w'.
Proof.
  intros Hsync (Hk & _) H. pose proof (keeps_ok reads_synced _ _ _ _ (reads_lock_negotiation id org _) H Hsync) as Hr.
  unfold _lock_negotiation_for_mutation in H.
  apply bind_ok in H as ([n0 l0] & w1 & (_ & _ & _ & Hr1)%load_negotiation_ok & H).
  apply bind_ok in H as ([] & w2 & Hs & H). pose proof (keeps_ok reads _ _ _ _ (reads_slice_lock _ _ _) Hs) as Hr2.
  apply bind_ok in H as ([n1 l1] & w3 & (Hn & Hp & Hl & Hr3)%load_negotiation_ok & H).
  apply rollback_raise_ok in H as [_ H]. apply bind_ok in H as ([] & w4 & [= <-] & H).
  apply bind_ok in H as (orgs & w5 & Hload & H). apply bind_ok in H as ([] & w6 & _ & [= -> -> _]).
  assert (db w2 = db w) as Hd2 by (destruct Hr1 as [E1 _], Hr2 as [E2 _]; congruence). rewrite Hd2 in Hn, Hl.
  pose proof (Hk _ _ Hn) as Hid. cbn in Hid. rewrite Hid. split_and!; try done.
  apply lock_and_load_ok in Hload as (_ & Happ & Hadm); [|by apply is_party_in].
  assert (db w3 = db w) as Hd3 by (destruct Hr3 as [E3 _]; congruence). change (db (w3 <| locks := _ |>)) with (db w3) in *.
  rewrite Hd3 in *. split_and!; [exact Hadm|apply Happ; left|apply Happ; right; left].
Qed.

Lemma assert_active_ok n w x w' : _assert_active n w = Ok x w' → ∃ t, observed w t ∧ live_at n t.
Proof.
  unfold _assert_active. intros ([] & w1 & [Ha ->]%refuse_ok & H)%bind_ok. apply negb_false_iff in Ha.
  apply bind_ok in H as (t & w2 & [= <- <-] & [Ht _]%refuse_ok). apply Z.leb_gt in Ht.
  eexists. split; [by eexists|by split].
Qed.

Lemma revalidate_negotiation_ok n w x w' :
  _revalidate_negotiation_parties n w = Ok x w' → people_admitted (db w) n.
Proof.
  unfold _revalidate_negotiation_parties.
  intros ([buyer seller] & w1 & [Hu ->]%lift_ok & H)%bind_ok.
  apply bind_ok in H as (found & w2 & [-> Hd2]%lock_users_ok & H).
  destruct (_resolve_trade_roles n) as [bo so] eqn:Hroles.
  apply bind_ok in H as (orgs & w3 & [-> Hd3]%lock_organizations_ok & H).
  apply bind_ok in H as (d & w4 & [= <- <-] & [H _]%refuse_ok). rewrite Hd3, Hd2 in H.
  rewrite !locked_lookup in H by set_solver.
  rewrite !orb_false_iff, !bool_decide_eq_false, !negb_false_iff in H. destruct H as (((H1 & H2) & H3) & H4).
  apply dec_stable in H1, H2. exists buyer, seller. rewrite Hroles. by split_and!.
Qed.

Lemma concrete_party_ok n u org w x w' :
  _assert_concrete_party n u w = Ok x w' → u_organization_id u = Some org → expected_org n (u_id u) = Some org.
Proof.
  unfold _assert_concrete_party. intros [H _]%refuse_ok Hu. destruct (expected_org n (u_id u)) as [o|]; [|discriminate].
  apply bool_decide_eq_false, dec_stable in H. congruence.
Qed.

Lemma admit_counter_ok n l org u w x w' :
  admit_counter n l org u w = Ok x w' → u_organization_id u = Some org →
  expected_org n (u_id u) = Some org ∧ people_admitted (db w) n ∧ (∃ t, observed w t ∧ live_at n t)
  ∧ ng_last_actor_org_id n ≠ org ∧ (length l < MAX_ROUNDS)%nat.
Proof.
  intros H Hu. unfold admit_counter in H.
  apply bind_ok in H as ([] & w1 & Hp & H). pose proof (concrete_party_ok _ _ _ _ _ _ Hp Hu) as Hex.
  apply refuse_ok in Hp as [_ ->]. apply bind_ok in H as ([] & w2 & Hrev & H).
  pose proof (keeps_ok reads _ _ _ _ (reads_revalidate_negotiation n) Hrev) as (_ & _ & _ & Hc2).
  apply revalidate_negotiation_ok in Hrev.
  apply bind_ok in H as ([] & w3 & (t & Ht & Hlive)%assert_active_ok & H).
  apply bind_ok in H as ([] & w4 & [Hturn ->]%refuse_ok & [Hlen _]%refuse_ok).
  apply bool_decide_eq_false in Hturn, Hlen. split_and!; [done|done| |done|lia].
  exists t. split; [|done]. unfold observed in *. by rewrite Hc2 in Ht.
Qed.

Lemma admit_decline_ok n u w x w' :
  admit_decline n u w = Ok x w' →
  Some (u_id u) ∈ [ng_initiator_user_id n; ng_counterparty_user_id n] ∧ ∃ t, observed w t ∧ live_at n t.
Proof.
  unfold admit_decline. intros ([] & w1 & [H ->]%refuse_ok & Ha)%bind_ok. apply bool_decide_eq_false, dec_stable in H.
  split; [done|]. by apply assert_active_ok in Ha.
Qed.

(** ** The routes *)

(** A request is a step of the conversation, committed with everything else as it
    was, or a refusal that leaves every table alone. *)
Definition bargain_outcome (w : World) (u : User) (rq : talk_request) (out : outcome World NegotiationResponse) : Prop :=
  match out with
  | Ok r w' => ∃ org n round, u_organization_id u = Some org
      ∧ bargain_step (db w) (observed w) u org rq n round ∧ changed (db w) n round (db w')
      ∧ committed w' = db w' ∧ database_checks (db w') ∧ talks_ok (db w')
      ∧ r = negotiation_response (db w') n (rounds_of (db w') (ng_id n))
  | Raise e w' => reads w w'
  end.

Lemma settles_outcome w w1 u org rq n round out :
  u_organization_id u = Some org → reads w w1 → bargain_step (db w) (observed w) u org rq n round →
  settles w1 n round out → bargain_outcome w u rq out.
Proof.
  intros Hu (Hd & _) Hs (w' & -> & Hch & Hcom & Hc & Ht). rewrite Hd in Hch. exists org, n, round. by split_and!.
Qed.

Section routes.
Context (w : World) (u : User) (Hsync : synced w) (Hchecks : database_checks (db w)) (Htalks : talks_ok (db w)).

Lemma observed_reads w1 t : reads w w1 → observed w1 t → observed w t.
Proof. intros (_ & _ & _ & Hc). unfold observed. by rewrite Hc. Qed.

(** A guard first: a refusal, or the run goes on over the same tables. *)
Lemma guard_bind {A} rq (m : M World A) (k : A → M World NegotiationResponse) w1 :
  reads w w1 → Keeps reads_synced m →
  (∀ a w2, m w1 = Ok a w2 → reads w w2 → bargain_outcome w u rq (k a w2)) → bargain_outcome w u rq ((m ≫= k) w1).
Proof.
  intros Hr Hm Hk. apply (frame_bind reads_synced); [done| |].
  - intros e w2 H2. exact (reads_trans_synced w w1 w2 Hsync Hr H2).
  - intros a w2 Hrun H2. apply Hk; [done|]. exact (reads_trans_synced w w1 w2 Hsync Hr H2).
Qed.

Lemma synced_after w1 : reads w w1 → synced w1.
Proof. intros (Hd & Hc & _). unfold synced in *. congruence. Qed.

Lemma counter_outcome id p :
  negotiation_counter_valid p → bargain_outcome w u (Counter id p) (counter_negotiation id p u w).
Proof.
  intros Hp. unfold counter_negotiation. apply guard_bind; [done|keeps|]. intros [] w1 _ Hr1.
  destruct (u_organization_id u) as [org|] eqn:Hu; [|exact Hr1].
  apply guard_bind; [done|keeps|]. intros [n l] w2 Hlock Hr2. assert (db w1 = db w) as Hd1 by apply Hr1.
  apply lock_negotiation_ok in Hlock as (Hn & <- & Hparty & -> & Hspeak & _);
    [|by apply synced_after|by rewrite Hd1]. rewrite Hd1 in *.
  apply guard_bind; [done|keeps|]. intros [] w3 Hadm Hr3. apply (admit_counter_ok _ _ org) in Hadm; [|done].
  destruct Hadm as (Hex & Hpeople & (t & Ht & Hlive) & Hturn & Hlen).
  assert (db w2 = db w) as Hd2 by apply Hr2. assert (db w3 = db w) as Hd3 by apply Hr3. rewrite Hd2 in Hpeople.
  assert (bargain_step (db w) (observed w) u org (Counter (ng_id n) p) (countered n org (to_cents (nk_proposed_price p)))
    (Some (new_round (db w) n (Z.of_nat (length (rounds_of (db w) (ng_id n))) + 1) org u
       (to_cents (nk_proposed_price p)) (nk_notes p)))) as Hs.
  { apply (bargain_counter _ _ _ _ _ _ t); try done. by apply (observed_reads w2). }
  eapply (settles_outcome w w3); [done|done|exact Hs|]. rewrite <-Hd3 in Hs |- *.
  apply (perform_counter_settles w3 (observed w) u org (Counter (ng_id n) p)); [by rewrite Hd3..|exact Hs].
Qed.

Lemma decline_outcome id : bargain_outcome w u (DeclineTalk id) (decline_negotiation id u w).
Proof.
  unfold decline_negotiation. destruct (u_organization_id u) as [org|] eqn:Hu; [|done].
  apply guard_bind; [done|keeps|]. intros [n l] w2 Hlock Hr2.
  apply lock_negotiation_ok in Hlock as (Hn & <- & Hparty & -> & Hspeak & _); [|done..].
  apply guard_bind; [done|keeps|]. intros [] w3 (Hmine & t & Ht & Hlive)%admit_decline_ok Hr3.
  assert (db w3 = db w) as Hd3 by apply Hr3.
  assert (bargain_step (db w) (observed w) u org (DeclineTalk (ng_id n)) (declined n) None) as Hs.
  { apply (bargain_decline _ _ _ _ _ t); try done. by apply (observed_reads w2). }
  eapply (settles_outcome w w3); [done|done|exact Hs|]. rewrite <-Hd3 in Hs |- *.
  apply (perform_decline_settles w3 (observed w) u org (DeclineTalk (ng_id n))); [by rewrite Hd3..|exact Hs].
Qed.

Lemma accept_outcome id : bargain_outcome w u (Accept id) (accept_negotiation id u w).
Proof. unfold accept_negotiation. apply guard_bind; [done|keeps|]. by intros [] w1 _ Hr1. Qed.
End routes.

(** ** Proposing *)

Lemma initiation_ok p org u w side w' :
  check_initiation p org u w = Ok side w' → org ≠ nq_counterparty_org_id p ∧ initiator_side_of u = Some side.
Proof.
  unfold check_initiation. intros ([] & w1 & [Hne ->]%refuse_ok & H)%bind_ok. apply bool_decide_eq_false in Hne.
  destruct (initiator_side_of u) as [s|]; [|discriminate].
  apply bind_ok in H as ([] & w1 & _ & H). apply bind_ok in H as ([] & w2 & _ & H).
  apply bind_ok in H as (win & w3 & _ & H). apply bind_ok in H as (now & w4 & _ & H).
  apply bind_ok in H as (t & w5 & _ & H). apply bind_ok in H as ([] & w6 & _ & [= <- _]).
  split; [congruence|done].
Qed.

Lemma validate_order_ok row s ids q w o w' :
  _validate_negotiation_order row s ids q w = Ok o w' →
  row = Some o ∧ o_side o = s ∧ is_active_status (o_status o) = true
  ∧ (∃ t, observed w t ∧ overdue_at o t = false) ∧ to_cents q <= o_remaining_quantity_mt o
  ∧ order_is_execution_qualified o = true.
Proof.
  destruct row as [x|]; [|discriminate]. cbn. intros ([] & w1 & [Hs ->]%refuse_ok & H)%bind_ok.
  apply bool_decide_eq_false, dec_stable in Hs. apply bind_ok in H as ([] & w1 & [_ ->]%refuse_ok & H).
  apply bind_ok in H as ([] & w1 & [Ha ->]%refuse_ok & H). apply negb_false_iff in Ha.
  apply bind_ok in H as ([] & w1 & He & H). apply bind_ok in H as ([] & w2 & [Hq ->]%refuse_ok & H).
  apply Z.ltb_ge in Hq. apply bind_ok in H as ([] & w2 & [Hx ->]%refuse_ok & [= <- _]). apply negb_false_iff in Hx.
  split_and!; try done. unfold overdue_at. destruct (o_expires_at x) as [e|].
  - apply bind_ok in He as (t & w2 & [= <- <-] & [Ht _]%refuse_ok). eexists. split; [by eexists|exact Ht].
  - exists (clock w 0%nat). split; [by exists 0%nat|done].
Qed.

Lemma load_and_validate_ok id s p org b w o w' :
  load_and_validate_order id s p org b w = Ok (Some o) w' →
  ∃ k, id = Some k ∧ orders (db w) !! k = Some o ∧ o_side o = s ∧ is_active_status (o_status o) = true
    ∧ (∃ t, observed w t ∧ overdue_at o t = false) ∧ to_cents (nq_quantity_mt p) <= o_remaining_quantity_mt o
    ∧ order_is_execution_qualified o = true.
Proof.
  unfold load_and_validate_order. destruct id as [k|]; [|discriminate].
  intros (row & w1 & Hrow & H)%bind_ok. apply bind_ok in H as (x & w2 & Hx & [= -> _]).
  pose proof (keeps_ok reads _ _ _ _ (reads_load_order_row k b) Hrow) as (_ & _ & _ & Hclock).
  unfold _load_order in Hrow. apply bind_ok in Hrow as ([] & w3 & Hl & Hrow).
  apply bind_ok in Hrow as (d & w4 & [= <- <-] & [= <- <-]).
  assert (db w3 = db w) as Hd by (destruct b; by inversion Hl).
  apply validate_order_ok in Hx as (Hx & ? & ? & (t & Ht & ?) & ? & ?). rewrite Hd in Hx.
  exists k. split_and!; try done. exists t. split; [|done]. unfold observed in *. by rewrite Hclock in Ht.
Qed.

Definition slice_named (p : NegotiationCreateRequest) (o : Order) : Prop :=
  o_product_id o = nq_product_id p ∧ o_delivery_point_id o = Some (nq_delivery_point_id p)
  ∧ normalize_availability_window (nq_availability_window p) = Val (o_availability_window o).

(** The orders loaded for a proposal. *)
Definition loaded_for (w : World) (p : NegotiationCreateRequest) (s : OrderSide) (x : option Order) : Prop :=
  match x with
  | None => True
  | Some o => ∃ k, named_order p s = Some k ∧ orders (db w) !! k = Some o ∧ o_side o = s
      ∧ is_active_status (o_status o) = true ∧ (∃ t, observed w t ∧ overdue_at o t = false)
      ∧ to_cents (nq_quantity_mt p) <= o_remaining_quantity_mt o ∧ order_is_execution_qualified o = true
      ∧ slice_named p o
  end.

Lemma load_orders_ok p org b w bid ask c w' :
  _load_and_validate_negotiation_orders p org b w = Ok (bid, ask, c) w' →
  loaded_for w p BID bid ∧ loaded_for w p ASK ask ∧ slice_named p c.
Proof.
  unfold _load_and_validate_negotiation_orders. intros (x & w1 & Hx & H)%bind_ok.
  pose proof (keeps_ok reads _ _ _ _ (reads_load_and_validate _ _ _ _ _) Hx) as (Hd1 & _ & _ & Hc1).
  apply bind_ok in H as (y & w2 & Hy & H).
  assert (∃ c0, match x with Some o => Some o | None => y end = Some c0) as [c0 Hc0].
  { destruct (match x with Some o => Some o | None => y end) as [c0|]; [by eexists|discriminate]. }
  rewrite Hc0 in H. apply bind_ok in H as ([] & w3 & [Hp ->]%refuse_ok & H).
  apply bind_ok in H as (win & w3 & [Hwin ->]%lift_ok & H). apply bind_ok in H as ([] & w3 & [Hs ->]%refuse_ok & H).
  rewrite orb_false_iff, !bool_decide_eq_false in Hs. destruct Hs as [Hdp Hw]. apply bool_decide_eq_false, dec_stable in Hp.
  apply dec_stable in Hdp, Hw. assert (slice_named p c0) as Hc by (split_and!; congruence).
  apply bind_ok in H as ([] & w3 & Hrest & [= <- <- <- _]).
  assert (∀ o, x = Some o ∨ y = Some o → slice_named p o) as Hslice.
  { intros o Ho. destruct x as [a|], y as [z|]; cbn in Hc0; try (injection Hc0 as <-); try (by destruct Ho; simplify_eq).
    apply bind_ok in Hrest as ([] & w4 & [Hsame ->]%refuse_ok & _). apply bool_decide_eq_false, dec_stable in Hsame.
    injection Hsame as E1 E2 E3. destruct Ho as [[= <-]|[= <-]]; [done|]. destruct Hc as (? & ? & ?).
    split_and!; congruence. }
  split_and!; [| |done].
  - destruct x as [o|]; [|done]. apply load_and_validate_ok in Hx as (k & Hk & ?). destruct_and!.
    exists k. split_and!; try done. apply Hslice. by left.
  - destruct y as [o|]; [|done]. apply load_and_validate_ok in Hy as (k & Hk & ?). destruct_and!.
    unfold loaded_for, observed in *. rewrite Hd1, Hc1 in *. exists k. split_and!; try done. apply Hslice. by right.
Qed.

Lemma loaded_reads w w1 p s x : reads w w1 → loaded_for w1 p s x → loaded_for w p s x.
Proof.
  intros (Hd & _ & _ & Hc). unfold loaded_for, observed. by rewrite Hd, Hc.
Qed.

Lemma lock_negotiation_orders_ok p org w bid ask c w' :
  lock_negotiation_orders p org w = Ok (bid, ask, c) w' →
  loaded_for w p BID bid ∧ loaded_for w p ASK ask ∧ slice_named p c.
Proof.
  unfold lock_negotiation_orders. intros (x & w1 & Hx & H)%bind_ok.
  pose proof (keeps_ok reads _ _ _ _ (reads_load_orders _ _ _) Hx) as Hr1.
  apply bind_ok in H as (y & w2 & Hy & H). pose proof (keeps_ok reads _ _ _ _ (reads_canonical_slice _ _) Hy) as Hr2.
  apply bind_ok in H as ([] & w3 & Hz & H). pose proof (keeps_ok reads _ _ _ _ (reads_slice_locks _) Hz) as Hr3.
  apply bind_ok in H as ([[b a] c0] & w4 & Hl & [_ [= <- <- <- _]]%rollback_raise_ok).
  assert (reads w w3) as Hr by (by trans w1; [|trans w2]). apply load_orders_ok in Hl as (Hb & Ha & Hc).
  split_and!; [by apply (loaded_reads w w3)|by apply (loaded_reads w w3)|done].
Qed.

Lemma counterparty_user_ok p org side bid ask u w owner role w' :
  counterparty_user_of p org side bid ask u w = Ok (owner, role) w' →
  loaded_for w p BID bid → loaded_for w p ASK ask →
  ∃ o, proposable (db w) (observed w) p side o owner
    ∧ role = (if bool_decide (side = "BUYER") then SUPPLIER else BUYER).
Proof.
  intros H Hb Ha. unfold counterparty_user_of in H.
  assert (∀ theirs ours t1 t2 role0, loaded_for w p (side_against side) theirs →
    (match theirs with
     | None => raise AttributeError
     | Some o => match o_owner_user_id o with
         | Some owner => refuse (bool_decide (o_organization_id o ≠ nq_counterparty_org_id p)) (bad_request t1) ;;
             refuse (match ours with
                     | Some own => bool_decide (o_organization_id own ≠ org)
                                   || bool_decide (o_owner_user_id own ≠ Some (u_id u))
                     | None => false end) (bad_request t2) ;; mret (owner, role0)
         | None => raise (bad_request t1) end end : M World (uuid * UserRole)) w = Ok (owner, role) w' →
    role = role0 ∧ ∃ o, proposable (db w) (observed w) p side o owner) as Hcase.
  { intros theirs ours t1 t2 role0 Hl Hrun. destruct theirs as [o|]; [|discriminate].
    destruct (o_owner_user_id o) as [ow|] eqn:How; [|discriminate].
    apply bind_ok in Hrun as ([] & w1 & [Horg ->]%refuse_ok & Hrun). apply bool_decide_eq_false, dec_stable in Horg.
    apply bind_ok in Hrun as ([] & w1 & _ & [= <- <- _]). split; [done|]. exists o.
    destruct Hl as (k & Hk & Hrow & Hs & Hact & Ht & Hq & Hx & Hsl). split; try done. by exists k. }
  destruct (bool_decide (side = "BUYER")) eqn:Hside.
  - apply Hcase in H as [-> [o Ho]]; [by exists o|]. unfold side_against. by rewrite Hside.
  - apply Hcase in H as [-> [o Ho]]; [by exists o|]. unfold side_against. by rewrite Hside.
Qed.

Lemma check_people_ok orgs org c owner role u w x w' :
  check_people orgs org c owner role u w = Ok x w' →
  orgs !! org = organizations (db w) !! org → orgs !! c = organizations (db w) !! c →
  (∀ r, u_role u = Some r → eligible_as (db w) (u_id u) org r) ∧ eligible_as (db w) owner c role.
Proof.
  unfold check_people. intros H Ho Hc.
  apply bind_ok in H as (found & w1 & [-> Hd1]%lock_users_ok & H).
  apply bind_ok in H as (d & w2 & [= <- <-] & [H _]%refuse_ok). rewrite Hd1 in H.
  rewrite !locked_lookup in H by set_solver. rewrite Ho, Hc in H.
  rewrite !orb_false_iff, !bool_decide_eq_false, !negb_false_iff in H. destruct H as (((H1 & H2) & H3) & H4).
  apply dec_stable in H1, H2. split; [|done]. intros r Hr. split; congruence.
Qed.

Lemma reject_duplicate_ok p org w x w' :
  reject_duplicate p org w = Ok x w' → duplicates (db w) org (nq_counterparty_org_id p) (nq_product_id p) = [].
Proof.
  unfold reject_duplicate. intros (d & w1 & [= <- <-] & H)%bind_ok. by destruct (duplicates _ _ _ _) as [|? []].
Qed.

(** Of the canonical order the row takes the slice. *)
Lemma new_negotiation_slice d p org owner side c o u now :
  slice_named p c → slice_named p o →
  new_negotiation d p org owner side c u now = new_negotiation d p org owner side o u now.
Proof.
  intros (_ & Ed & Ew) (_ & Ed' & Ew'). rewrite Ew in Ew'. injection Ew' as Ew'. unfold new_negotiation. congruence.
Qed.

Lemma new_people_admitted d p org owner side o u now :
  initiator_side_of u = Some side → (∀ r, u_role u = Some r → eligible_as d (u_id u) org r) →
  eligible_as d owner (nq_counterparty_org_id p) (if bool_decide (side = "BUYER") then SUPPLIER else BUYER) →
  people_admitted d (new_negotiation d p org owner side o u now).
Proof.
  unfold initiator_side_of, people_admitted, _resolve_trade_users, _resolve_trade_roles. intros Hs Hmine Htheirs.
  destruct (u_role u) as [[]|]; try discriminate; injection Hs as <-; cbn in *; eexists _, _;
    (split; [reflexivity|]); split; auto.
Qed.

Section creating.
Context (diag : exn → option string).

Lemma perform_create_settles w u org p owner side c now :
  database_checks (db w) → talks_ok (db w) → now = clock w (clock_reads w) →
  let n := new_negotiation (db w) p org owner side c u now in
  let round := new_round (db w) n 1 org u (to_cents (nq_proposed_price p)) (nq_notes p) in
  ∀ seen rq, bargain_step (db w) seen u org rq n (Some round) →
  settles w n (Some round) (perform_create diag p org owner side c u w).
Proof.
  intros Hc Ht -> n round seen rq Hs. unfold perform_create. do 4 (erewrite bind_run by reflexivity). fold n. fold round.
  set (w1 := final (put_round round (final (put_negotiation n (final (utcnow w)))))).
  assert (db w1 = written (db w) n (Some round)) as Hd1 by done.
  pose proof (written_checks w seen u org rq Hc Ht n (Some round) Hs) as Hc1. rewrite <-Hd1 in Hc1.
  pose proof (written_changed (db w) n (Some round)) as Hch. rewrite <-Hd1 in Hch.
  change (settles w n (Some round) ((catch_integrity flush (duplicate_key diag) ;; announce_negotiation n p u ;;
    response ← _build_response n [round]; commit ;; mret response) w1)).
  erewrite bind_run by (unfold catch_integrity; by rewrite flush_run).
  destruct (announce_negotiation_returns w1 Hc1 n p u) as ([] & w2 & Hrun). erewrite bind_run by exact Hrun.
  pose proof (keeps_ok only_events _ _ _ _ (only_events_announce_negotiation n p u) Hrun) as Hev.
  assert (database_checks (db w2)) as Hc2 by (by apply (only_events_checks w1)).
  pose proof (changed_events w w1 w2 n (Some round) Hch Hev) as Hch2.
  destruct (step_talks (db w) (db w2) seen u org rq Hc Ht n (Some round) Hs Hch2) as [Ht2 Hrounds].
  assert (rounds_of (db w) (ng_id n) = []) as Hnil by apply (rounds_belong (db w) Ht), fresh_id_none.
  rewrite Hnil in Hrounds. cbn in Hrounds.
  erewrite bind_run by reflexivity. erewrite bind_run by (by apply commit_run).
  exists (w2 <| committed := db w2 |>). split_and!; try done. cbn. by rewrite Hrounds.
Qed.

Section route.
Context (w : World) (u : User) (Hsync : synced w) (Hchecks : database_checks (db w)) (Htalks : talks_ok (db w)).

Lemma create_negotiation_outcome p :
  negotiation_create_valid p → bargain_outcome w u (Propose p) (create_negotiation diag p u w).
Proof.
  intros Hp. unfold create_negotiation. apply guard_bind; [done|done|keeps|]. intros [] w1 _ Hr1.
  destruct (u_organization_id u) as [org|] eqn:Hu; [|exact Hr1].
  apply guard_bind; [done|done|keeps|]. intros side w2 [Hne Hside]%initiation_ok Hr2.
  apply guard_bind; [done|done|keeps|]. intros [[bid ask] c] w3 Hl Hr3.
  apply lock_negotiation_orders_ok in Hl as (Hbid & Hask & Hslice).
  apply (loaded_reads w w2) in Hbid; [|done]. apply (loaded_reads w w2) in Hask; [|done].
  apply guard_bind; [done|done|keeps|]. intros orgs w4 Hload Hr4.
  apply lock_and_load_ok in Hload as (-> & Happ & Hadm); [|by left].
  assert (db w3 = db w) as Hd3 by apply Hr3. rewrite Hd3 in Happ, Hadm |- *. set (orgs := filter _ _).
  apply guard_bind; [done|done|keeps|]. intros [] w5 _ Hr5.
  apply guard_bind; [done|done|keeps|]. intros [] w6 _ Hr6.
  apply guard_bind; [done|done|keeps|]. intros [product point] w7 _ Hr7.
  apply guard_bind; [done|done|keeps|]. intros [owner role] w8 Hcp Hr8.
  assert (db w7 = db w ∧ observed w7 = observed w) as [Hd7 Ho7].
  { destruct Hr7 as (Hd & _ & _ & Hc). split; [done|]. unfold observed. by rewrite Hc. }
  apply counterparty_user_ok in Hcp as (o & Hprop & ->); [|unfold loaded_for; by rewrite Hd7, Ho7..].
  rewrite Hd7, Ho7 in Hprop.
  apply guard_bind; [done|done|keeps|]. intros [] w9 Hpeople Hr9.
  assert (db w8 = db w) as Hd8 by apply Hr8.
  apply check_people_ok in Hpeople as [Hmine Htheirs];
    [|rewrite Hd8; apply locked_lookup, sorted_set_elem; set_solver..]. rewrite Hd8 in Hmine, Htheirs.
  apply guard_bind; [done|done|keeps|]. intros [] w10 Hdup Hr10.
  assert (db w9 = db w) as Hd9 by apply Hr9. apply reject_duplicate_ok in Hdup. rewrite Hd9 in Hdup.
  assert (db w10 = db w) as Hd10 by apply Hr10. set (now := clock w10 (clock_reads w10)).
  assert (bargain_step (db w) (observed w) u org (Propose p) (new_negotiation (db w) p org owner side c u now)
    (Some (new_round (db w) (new_negotiation (db w) p org owner side c u now) 1 org u
       (to_cents (nq_proposed_price p)) (nq_notes p)))) as Hs.
  { rewrite (new_negotiation_slice (db w) p org owner side c o u now Hslice (pp_slice _ _ _ _ _ _ Hprop)).
    apply bargain_open; try done.
    - apply (observed_reads w w10); [done|by eexists].
    - by apply new_people_admitted.
    - split_and!; [done|apply Happ; left|apply Happ; right; left]. }
  eapply (settles_outcome w w10); [done|done|exact Hs|]. rewrite <-Hd10 in Hs |- *.
  apply (perform_create_settles w10 u org p owner side c now) with (seen := observed w) (rq := Propose p);
    [by rewrite Hd10..|done|exact Hs].
Qed.
End route.
End creating.

(** ** Any sequence of requests *)

Definition run_talk (diag : exn → option string) (r : talk_request) (u : User) : M World NegotiationResponse :=
  match r with
  | Propose p => create_negotiation diag p u
  | Counter id p => counter_negotiation id p u
  | Accept id => accept_negotiation id u
  | DeclineTalk id => decline_negotiation id u
  end.

Lemma run_talk_outcome diag r u w :
  synced w → database_checks (db w) → talks_ok (db w) → talk_valid r → bargain_outcome w u r (run_talk diag r u w).
Proof.
  intros Hs Hc Ht Hv. destruct r; cbn.
  - by apply create_negotiation_outcome.
  - by apply counter_outcome.
  - by apply accept_outcome.
  - by apply decline_outcome.
Qed.

(** Everything but the progress of the bargaining. *)
Definition talk_terms (n : Negotiation) : Negotiation :=
  n <| ng_current_price := 0 |> <| ng_last_actor_org_id := 0%N |> <| ng_status := NEG_OPEN |>.
(** The same conversation, later: a closed one has not moved, an active one has
    at most more offers. *)
Record talk_later (d : Database) (n : Negotiation) (d' : Database) (n' : Negotiation) : Prop := {
  tl_terms : talk_terms n' = talk_terms n;
  tl_closed : negotiation_active (ng_status n) = false → n' = n;
  tl_rounds : rounds_of d (ng_id n) `prefix_of` rounds_of d' (ng_id n);
}.
Definition talks_later (d d' : Database) : Prop :=
  ∀ id n, negotiations d !! id = Some n → ∃ n', negotiations d' !! id = Some n' ∧ talk_later d n d' n'.
#[export] Instance talks_later_preorder : PreOrder talks_later.
Proof.
  split; [intros d id n Hn; exists n; by split|]. intros d1 d2 d3 H12 H23 id n Hn.
  destruct (H12 id n Hn) as (n2 & Hn2 & [T12 C12 R12]). destruct (H23 id n2 Hn2) as (n3 & Hn3 & [T23 C23 R23]).
  exists n3. split; [done|]. split; [congruence| |].
  - intros Hc. pose proof (C12 Hc) as ->. by apply C23.
  - assert (ng_id n2 = ng_id n) as E by exact (f_equal ng_id T12). rewrite E in R23. by etrans.
Qed.

(** A step moves one conversation along. *)
Lemma step_later d d' seen u org rq n round :
  database_checks d → talks_ok d → bargain_step d seen u org rq n round → changed d n round d' → talks_later d d'.
Proof.
  intros Hc Ht Hs Hch. destruct (step_talks d d' seen u org rq Hc Ht n round Hs Hch) as [_ Hmine].
  pose proof (step_round d seen u org rq Hc Ht n round Hs) as Hround.
  pose proof Hch as (_ & En & Er). intros id n0 Hn0. destruct Ht as (Hk & Hrk & _).
  pose proof (Hk _ _ Hn0) as Hid. cbn in Hid. destruct (decide (id = ng_id n)) as [->|Hne].
  - exists n. rewrite En, lookup_insert_eq. split; [done|].
    assert (talk_terms n = talk_terms n0 ∧ negotiation_active (ng_status n0) = true) as [HT HA].
    { destruct Hs as [p o owner side now n' _ _ _ _ _ _ _ _|n' p now number price Hn _ _ _ [Hact _] _ _ _ _ _
                     |n' now Hn _ _ _ [Hact _] _].
      - unfold n' in Hn0. cbn [ng_id new_negotiation] in Hn0. by rewrite fresh_id_none in Hn0.
      - change (ng_id (countered n' org price)) with (ng_id n') in Hn0. assert (n0 = n') as -> by congruence. done.
      - change (ng_id (declined n')) with (ng_id n') in Hn0. assert (n0 = n') as -> by congruence. done. }
    split; [done|by rewrite HA|]. rewrite Hid, Hmine. by apply prefix_app_r.
  - exists n0. rewrite En, lookup_insert_ne by done. split; [done|]. split; [done|done|]. rewrite Hid.
    destruct round as [r|]; cbn in Er.
    + destruct Hround as (Hof & Hnew & _). rewrite (rounds_of_other d d' r); [done..|]. by rewrite Hof.
    + unfold rounds_of. by rewrite Er.
Qed.

(** One request served over the committed tables, at times of [since]; or
    anything else that leaves the negotiation tables alone. *)
Definition talk_session (cfg : Settings) (clock : nat → datetime) (d : Database) : World :=
  MkWorld d d (MkClocks clock (clock 0%nat)) 0 cfg [] 0.
Definition elsewhere (d d' : Database) : Prop :=
  negotiations d' = negotiations d ∧ negotiation_rounds d' = negotiation_rounds d ∧ database_checks d'.

Section sequences.
Context (cfg : Settings) (diag : exn → option string) (since : datetime → Prop).

Inductive talk_step (d : Database) : Database → Prop :=
  | talk_served r u clock :
      talk_valid r → (∀ k, since (clock k)) →
      talk_step d (committed (final (run_talk diag r u (talk_session cfg clock d))))
  | talk_elsewhere d' : elsewhere d d' → talk_step d d'.

Definition talks_sound (d : Database) : Prop := database_checks d ∧ talks_ok d.

(** What a served request leaves. *)
Lemma served_talk d r u clock :
  talks_sound d → talk_valid r →
  let d' := committed (final (run_talk diag r u (talk_session cfg clock d))) in
  d' = d ∨ ∃ org n round, u_organization_id u = Some org
    ∧ bargain_step d (observed (talk_session cfg clock d)) u org r n round ∧ changed d n round d' ∧ talks_sound d'.
Proof.
  intros [Hc Ht] Hv. pose proof (run_talk_outcome diag r u (talk_session cfg clock d) eq_refl Hc Ht Hv) as H.
  destruct (run_talk _ _ _ _) as [x w'|e w']; cbn in *.
  - destruct H as (org & n & round & Hu & Hs & Hch & -> & Hc' & Ht' & _). right. by exists org, n, round.
  - left. apply H.
Qed.

Lemma elsewhere_talks d d' : elsewhere d d' → talks_ok d → talks_ok d' ∧ talks_later d d'.
Proof.
  intros (En & Er & _) Ht. assert (∀ id, rounds_of d' id = rounds_of d id) as Hr by (intros; unfold rounds_of; by rewrite Er).
  split.
  - destruct Ht as (H1 & H2 & H3 & H4). unfold talks_ok, rounds_keyed. rewrite En, Er. split_and!; try done.
    intros k n Hn. rewrite Hr. by apply H4.
  - intros id n Hn. exists n. rewrite En. split; [done|]. split; [done|done|by rewrite Hr].
Qed.

Lemma talk_step_sound d d' : talk_step d d' → talks_sound d → talks_sound d' ∧ talks_later d d'.
Proof.
  intros [r u clock Hv _|d1 He] Hd.
  - destruct (served_talk d r u clock Hd Hv) as [->|(org & n & round & _ & Hs & Hch & Hd')]; [done|].
    split; [done|]. destruct Hd. by eapply step_later.
  - destruct Hd as [Hc Ht]. destruct (elsewhere_talks d d1 He Ht). split; [|done]. split; [apply He|done].
Qed.

Lemma talk_run_sound d d' : rtc talk_step d d' → talks_sound d → talks_sound d' ∧ talks_later d d'.
Proof.
  induction 1 as [|d d1 d2 Hs _ IH]; intros Hd; [done|].
  destruct (talk_step_sound d d1 Hs Hd) as [Hd1 H1]. destruct (IH Hd1) as [Hd2 H2]. split; [done|by etrans].
Qed.

(** A row that is active but past its deadline. *)
Section overdue.
Context (n : Negotiation) (Hactive : negotiation_active (ng_status n) = true).
Context (Hpast : ∀ t, since t → ng_expires_at n <= t).

Definition still_there (d : Database) : Prop := negotiations d !! ng_id n = Some n.

Lemma overdue_not_live clock d t n0 :
  (∀ k, since (clock k)) → observed (talk_session cfg clock d) t → live_at n0 t → still_there d →
  negotiations d !! ng_id n0 = Some n0 → ng_id n0 ≠ ng_id n.
Proof.
  intros Hcl [k ->] [_ Hlive] Hn Hn0 E. unfold still_there in Hn. rewrite E, Hn in Hn0. injection Hn0 as <-.
  specialize (Hpast _ (Hcl k)). cbn in Hlive. lia.
Qed.

Lemma overdue_stays d d' : talk_step d d' → talks_sound d → still_there d → still_there d'.
Proof.
  intros [r u clock Hv Hcl|d1 (En & _)] Hd Hn; [|unfold still_there in *; by rewrite En].
  destruct (served_talk d r u clock Hd Hv) as [->|(org & n1 & round & _ & Hs & (_ & En & _) & _)]; [done|].
  unfold still_there. rewrite En, lookup_insert_ne; [done|].
  destruct Hs as [p o owner side now n' _ _ _ _ _ _ _ _|n' p now number price Hn' _ _ Hnow Hlive _ _ _ _ _
                 |n' now Hn' _ _ Hnow Hlive _].
  - intros E. unfold still_there in Hn. rewrite <-E in Hn. unfold n' in Hn. cbn [ng_id new_negotiation] in Hn.
    by rewrite fresh_id_none in Hn.
  - exact (overdue_not_live clock d now n' Hcl Hnow Hlive Hn Hn').
  - exact (overdue_not_live clock d now n' Hcl Hnow Hlive Hn Hn').
Qed.

Lemma overdue_stays_run d d' : rtc talk_step d d' → talks_sound d → still_there d → still_there d'.
Proof.
  induction 1 as [|d d1 d2 Hs _ IH]; intros Hd Hn; [done|].
  apply IH; [by apply (talk_step_sound d d1)|by apply (overdue_stays d)].
Qed.

(** The requests about the row, its parties or their product. *)
Definition concerns (u : User) (r : talk_request) : Prop :=
  match r with
  | Propose p => nq_product_id p = ng_product_id n
      ∧ ∃ org, u_organization_id u = Some org ∧ same_pair org (nq_counterparty_org_id p) n = true
  | Counter id _ | Accept id | DeclineTalk id => id = ng_id n
  end.

Lemma overdue_refuses d r u clock :
  talks_sound d → still_there d → talk_valid r → (∀ k, since (clock k)) → concerns u r →
  ∃ e w', run_talk diag r u (talk_session cfg clock d) = Raise e w' ∧ db w' = d.
Proof.
  intros [Hc Ht] Hn Hv Hcl Hr. pose proof (run_talk_outcome diag r u (talk_session cfg clock d) eq_refl Hc Ht Hv) as H.
  destruct (run_talk _ _ _ _) as [x w'|e w']; [|by exists e, w'; split; [|apply H]]. exfalso.
  destruct H as (org & n1 & round & Hu & Hs & _).
  destruct Hs as [p o owner side now n' _ _ _ _ Hdup _ _ _|n' p now number price Hn' _ _ Hnow Hlive _ _ _ _ _
                 |n' now Hn' _ _ Hnow Hlive _]; cbn in Hr.
  - destruct Hr as (Hp & org' & Hu' & Hpair). assert (org' = org) as -> by congruence.
    assert (n ∈ duplicates d org (nq_counterparty_org_id p) (nq_product_id p)) as Hin.
    { apply list_elem_of_filter. split; [by split_and!|]. apply list_elem_of_fmap. exists (ng_id n, n).
      by rewrite elem_of_map_to_list. }
    cbn in Hdup. rewrite Hdup in Hin. by apply elem_of_nil in Hin.
  - exact (overdue_not_live clock d now n' Hcl Hnow Hlive Hn Hn' Hr).
  - exact (overdue_not_live clock d now n' Hcl Hnow Hlive Hn Hn' Hr).
Qed.
End overdue.
End sequences.

(** ** What holds of the routes *)

(** C14: The negotiation routes implement bargaining.  A request that is answered
    is one step of the conversation it names, committed with every other table
    as it was and every constraint satisfied: a proposal of an admitted buyer or
    supplier about the counterparty's resting order - active, unexpired,
    qualified, of that slice and quantity - where the pair has no active
    negotiation of the product; a counter-offer of the recorded user of the party
    whose turn it is, before the deadline and the eleventh round, while both
    people are still admitted; or a refusal by a recorded user.  Nothing is ever
    accepted.  The answer shows the row with its rounds.  Every other request
    leaves every table as it was. *)
Theorem negotiations_implement_bargaining diag r u w :
  synced w → database_checks (db w) → talks_ok (db w) → talk_valid r →
  bargain_outcome w u r (run_talk diag r u w).
Proof. apply run_talk_outcome. Qed.

(** C15: A conversation stays what it is.  Through any sequence of negotiation
    requests, with anything in between that leaves the negotiation tables alone,
    the offers of every negotiation stay numbered from one, alternate between its
    two parties, are at most ten, and the last one is the price on the table;
    its terms never change, its history only grows, a closed negotiation never
    moves again and none becomes a trade. *)
Theorem bargaining_keeps_conversations cfg diag since d d' :
  talks_sound d → rtc (talk_step cfg diag since) d d' → talks_sound d' ∧ talks_later d d'.
Proof. intros Hd Hr. by apply (talk_run_sound cfg diag since). Qed.

(** C38: An overdue negotiation blocks its pair for good.  No route ever marks a
    negotiation as expired.  Once the deadline of an active one has passed it can
    be neither countered nor declined nor accepted, and its two parties can never
    again negotiate about the product: whatever happens, each such request fails
    and changes nothing, and the row stays as it is. *)
Theorem overdue_negotiation_blocks_pair cfg diag since d d' n :
  talks_sound d → negotiations d !! ng_id n = Some n → negotiation_active (ng_status n) = true →
  (∀ t, since t → ng_expires_at n <= t) → rtc (talk_step cfg diag since) d d' →
  negotiations d' !! ng_id n = Some n
  ∧ ∀ r u clock, talk_valid r → (∀ k, since (clock k)) → concerns n u r →
      ∃ e w', run_talk diag r u (talk_session cfg clock d') = Raise e w' ∧ db w' = d'.
Proof.
  intros Hd Hn Ha Hpast Hr. pose proof (overdue_stays_run cfg diag since n Hpast d d' Hr Hd Hn) as Hn'.
  split; [exact Hn'|]. intros r u clock Hv Hcl Hc.
  apply (overdue_refuses cfg diag since n Ha Hpast); try done. by apply (talk_run_sound cfg diag since d).
Qed.

(** ** On the demo market *)

Definition no_diag : exn → option string := λ _, None.
Lemma quoted_sound : talks_sound (db Demo.quoted).
Proof. split; apply (bool_decide_unpack _); vm_compute; exact I. Qed.
Lemma proposal_valid : talk_valid (Propose demo_proposal).
Proof.
  split_and!; [by right|apply (bool_decide_unpack _); vm_compute; exact I..].
Qed.
Lemma demo_counter_valid price : 1 <= price <= 1000000 → talk_valid (Counter 0 (demo_counter price)).
Proof.
  intros H. unfold talk_valid, negotiation_counter_valid, amount_within, demo_counter, of_int, to_cents, coef_at, cents.
  cbn. lia.
Qed.

Definition answered (o : outcome World NegotiationResponse) : bool := match o with Ok _ _ => true | Raise _ _ => false end.

Lemma negotiations_implement_bargaining_witness :
  ∃ r w' org n round, create_negotiation no_diag demo_proposal Demo.buyer Demo.quoted = Ok r w'
    ∧ bargain_step (db Demo.quoted) (observed Demo.quoted) Demo.buyer org (Propose demo_proposal) n round
    ∧ talks_ok (db w').
Proof.
  pose proof (negotiations_implement_bargaining no_diag (Propose demo_proposal) Demo.buyer Demo.quoted eq_refl
    (proj1 quoted_sound) (proj2 quoted_sound) proposal_valid) as H. cbn [run_talk] in H.
  assert (answered (create_negotiation no_diag demo_proposal Demo.buyer Demo.quoted) = true) as Hrun by (vm_compute; reflexivity).
  destruct (create_negotiation _ _ _ _) as [r w'|]; [|discriminate Hrun].
  destruct H as (org & n & round & _ & Hs & _ & _ & _ & Ht & _). by exists r, w', org, n, round.
Defined.

(** Proposed, countered twice. *)
Definition demo_clock (k : nat) : datetime := Demo.noon + Z.of_nat k.
Definition demo_talk (d : Database) (r : talk_request) (u : User) : Database :=
  committed (final (run_talk no_diag r u (talk_session default_settings demo_clock d))).
Definition talk1 : Database := demo_talk (db Demo.quoted) (Propose demo_proposal) Demo.buyer.
Definition talk2 : Database := demo_talk talk1 (Counter 0 (demo_counter 595)) Demo.supplier.
Definition talk3 : Database := demo_talk talk2 (Counter 0 (demo_counter 590)) Demo.buyer.

Example talk3_rounds : length (rounds_of talk3 0) = 3%nat ∧ ng_current_price <$> negotiations talk3 !! 0%N = Some 59000.
Proof. vm_compute. done. Qed.

Lemma demo_talk_step d r u :
  talk_valid r → talk_step default_settings no_diag (λ _, True) d (demo_talk d r u).
Proof. intros Hv. by apply (talk_served _ _ _ d r u demo_clock). Qed.

Lemma bargaining_keeps_conversations_witness : talks_sound talk3 ∧ talks_later (db Demo.quoted) talk3.
Proof.
  apply (bargaining_keeps_conversations default_settings no_diag (λ _, True) (db Demo.quoted) talk3 quoted_sound).
  eapply rtc_l; [apply (demo_talk_step _ (Propose demo_proposal) Demo.buyer), proposal_valid|].
  eapply rtc_l; [apply (demo_talk_step _ (Counter 0 (demo_counter 595)) Demo.supplier), demo_counter_valid; lia|].
  eapply rtc_l; [apply (demo_talk_step _ (Counter 0 (demo_counter 590)) Demo.buyer), demo_counter_valid; lia|].
  apply rtc_refl.
Defined.

(** A day and a bit later nobody has answered the proposal. *)
Definition next_day (k : nat) : datetime := Demo.noon + 90000000000 + Z.of_nat k.
Definition stuck_row : Negotiation := default (new_negotiation (db Demo.quoted) demo_proposal 1 12 "BUYER" Demo.ask Demo.buyer Demo.noon)
  (negotiations talk1 !! 0%N).

Lemma talk1_sound : talks_sound talk1.
Proof. split; apply (bool_decide_unpack _); vm_compute; exact I. Qed.

Lemma overdue_negotiation_blocks_pair_witness :
  ∃ e w', create_negotiation no_diag demo_proposal Demo.buyer (talk_session default_settings next_day talk1) = Raise e w'
    ∧ db w' = talk1.
Proof.
  refine (proj2 (overdue_negotiation_blocks_pair default_settings no_diag (λ t, ng_expires_at stuck_row <= t) talk1 talk1
    stuck_row talk1_sound _ _ (λ t Ht, Ht) (rtc_refl _ _)) (Propose demo_proposal) Demo.buyer next_day proposal_valid _ _).
  - vm_compute. reflexivity.
  - vm_compute. reflexivity.
  - intros k. assert (ng_expires_at stuck_row = Demo.noon + 86400000001) as -> by (vm_compute; reflexivity).
    unfold next_day. lia.
  - split; [vm_compute; reflexivity|]. exists 1%N. split; vm_compute; reflexivity.
Defined.
