(* ===== verification/Rfqs.v ===== *)
(** * Requests for quotation

    [app/routers/rfq.py]: a buyer asks for a quantity of a fuel at a place and a
    window, suppliers answer with one price each, the buyer may withdraw.
    Accepting is disabled: a request never becomes a trade.  The six routes are
    modelled in full; the retry of serialization failures is the caller's, rate
    limits and the audit's request context are left out. *)

From S2P Require Import Prelude Catalog Calendar AvailabilityWindows Decimal Json Schema Constraints NegotiationSchema RfqSchema Delivery Database Scenario Policy Eligibility Events Admission RequestParty Trades OrderEntry Negotiations.
Local Open Scope Z_scope.

(** ** Requests and responses ([app/schemas/rfq.py]) *)

Record RFQCreateRequest := MkRFQCreateRequest {
  rc_product_id : uuid;
  rc_delivery_point_id : uuid;
  rc_quantity_mt : decimal;
  rc_target_price_per_mt : option decimal;
  rc_availability_window : string;
  rc_notes : option string;
  rc_is_anonymous : bool;
  rc_expires_in_hours : Z;
}.
Definition rfq_create_valid (p : RFQCreateRequest) : Prop :=
  amount_within (rc_quantity_mt p) 1 (cents 100000)
  ∧ match rc_target_price_per_mt p with Some t => amount_within t 1 (cents 1000000) | None => True end
  ∧ 1 <= rc_expires_in_hours p <= 168.

Record RFQQuoteRequest := MkRFQQuoteRequest {
  rqq_price_per_mt_usd : decimal;
  rqq_notes : option string;
}.
Definition rfq_quote_valid (p : RFQQuoteRequest) : Prop := amount_within (rqq_price_per_mt_usd p) 1 (cents 1000000).

Record RFQQuoteResponse := MkRFQQuoteResponse {
  qr_id : uuid;
  qr_seller_org_id : uuid;
  qr_seller_org_name : option string;
  qr_price_per_mt_usd : Z;
  qr_notes : option string;
  qr_status : QuoteStatus;
  qr_created_at : datetime;
}.
Record RFQResponse := MkRFQResponse {
  rr_id : uuid;
  rr_buyer_org_id : option uuid;
  rr_buyer_org_name : option string;
  rr_product_id : uuid;
  rr_product_name : option string;
  rr_delivery_point_id : option uuid;
  rr_delivery_point_name : option string;
  rr_quantity_mt : Z;
  rr_target_price_per_mt : option Z;
  rr_availability_window : string;
  rr_notes : option string;
  rr_is_anonymous : bool;
  rr_status : RFQStatus;
  rr_expires_at : datetime;
  rr_created_at : datetime;
  rr_quote_count : nat;
  rr_quotes : list RFQQuoteResponse;
}.

(** ** Helpers *)

(** [RFQ.quotes] *)
Definition quotes_of (d : Database) (rfq_id : uuid) : list RFQQuote :=
  filter (λ q, qt_rfq_id q = rfq_id) (snd <$> map_to_list (rfq_quotes d)).

Definition rfq_not_found : exn := HTTPException 404 (Msg "RFQ not found").
Definition forbidden_error (s : string) : exn := HTTPException 403 (Msg s).

Definition _load_rfq (rfq_id : uuid) (for_update : bool) (visibility_filters : RFQ → bool) : M World RFQ :=
  (if for_update then take_lock (RowRfq rfq_id) else mret tt) ;;
  d ← get_db;
  match rfqs d !! rfq_id with
  | Some r => if visibility_filters r then mret r else raise rfq_not_found
  | None => raise rfq_not_found
  end.

Definition _rfq_lock_identity (r : RFQ) : uuid * uuid * option uuid * string :=
  (rq_buyer_org_id r, rq_product_id r, rq_delivery_point_id r, rq_availability_window r).

Definition supplier_visible_status (s : RFQStatus) : bool :=
  match s with RFQ_OPEN | RFQ_QUOTED => true | _ => false end.

(** What a supplier sees at [now], and everybody else. *)
Definition supplier_sees (org_id : uuid) (now : datetime) (r : RFQ) : bool :=
  bool_decide (rq_buyer_org_id r ≠ org_id) && supplier_visible_status (rq_status r) && (now <? rq_expires_at r).
Definition buyer_sees (org_id : uuid) (r : RFQ) : bool := bool_decide (rq_buyer_org_id r = org_id).

Definition _rfq_visibility_filters (current_user : User) : M World (RFQ → bool) :=
  match u_organization_id current_user with
  | None => raise no_organization
  | Some org_id =>
      if bool_decide (u_role current_user = Some SUPPLIER)
      then now ← utcnow; mret (supplier_sees org_id now)
      else mret (buyer_sees org_id)
  end.

(** The clock is read only for a request that is still open. *)
Definition _ensure_rfq_detail_visible (r : RFQ) (current_user : User) : M World unit :=
  match u_organization_id current_user with
  | None => raise no_organization
  | Some org_id =>
      visible ← (if bool_decide (u_role current_user = Some SUPPLIER)
                 then if bool_decide (rq_buyer_org_id r ≠ org_id) && supplier_visible_status (rq_status r)
                      then now ← utcnow; mret (supplier_sees org_id now r)
                      else mret false
                 else mret (buyer_sees org_id r));
      refuse (negb visible) rfq_not_found
  end.

(** An empty name counts as none. *)
Definition present (name : option string) : option string :=
  match name with Some "" => None | _ => name end.

Definition quote_response (d : Database) (q : RFQQuote) : RFQQuoteResponse :=
  MkRFQQuoteResponse (qt_id q) (qt_seller_org_id q) (present (org_name d (qt_seller_org_id q)))
    (qt_price_per_mt_usd q) (qt_notes q) (qt_status q) (qt_created_at q).

Definition rfq_response (d : Database) (r : RFQ) (quotes : list RFQQuote) (viewer_org_id : option uuid)
    : res RFQResponse :=
  let is_owner := bool_decide (viewer_org_id = Some (rq_buyer_org_id r)) in
  window ← normalize_availability_window (rq_availability_window r);
  Val {| rr_id := rq_id r;
         rr_buyer_org_id := if is_owner || negb (rq_is_anonymous r) then Some (rq_buyer_org_id r) else None;
         rr_buyer_org_name := if rq_is_anonymous r && negb is_owner then Some "Anonymous"
                              else present (org_name d (rq_buyer_org_id r));
         rr_product_id := rq_product_id r;
         rr_product_name := present (p_name <$> products d !! rq_product_id r);
         rr_delivery_point_id := rq_delivery_point_id r;
         rr_delivery_point_name := present (dp ← rq_delivery_point_id r; d_name <$> delivery_points d !! dp);
         rr_quantity_mt := rq_quantity_mt r; rr_target_price_per_mt := rq_target_price_per_mt r;
         rr_availability_window := window; rr_notes := rq_notes r; rr_is_anonymous := rq_is_anonymous r;
         rr_status := rq_status r; rr_expires_at := rq_expires_at r; rr_created_at := rq_created_at r;
         rr_quote_count := length quotes;
         rr_quotes := quote_response d <$>
           filter (λ q, is_owner = true ∨ viewer_org_id = Some (qt_seller_org_id q)) quotes |}.

Definition _build_rfq_response (r : RFQ) (quotes : list RFQQuote) (viewer_org_id : option uuid)
    : M World RFQResponse :=
  d ← get_db; lift (rfq_response d r quotes viewer_org_id).

(** [organizations[id]], admitted to the market by provenance. *)
Definition assert_participant (orgs : gmap uuid Organization) (id : uuid) : M World unit :=
  match orgs !! id with
  | Some g => lift (assert_market_participant_provenance g)
  | None => raise KeyError
  end.

Definition rfq_event (event_type aggregate_type : string) (id : uuid) (orgs : list uuid) (p : payload)
    : M World unit :=
  event ← lift (participant_market_event event_type aggregate_type id orgs p false);
  enqueue_market_events [event].

Definition RFQ_CREATED : string := "rfq.created".
Definition RFQ_CANCELLED : string := "rfq.cancelled".
Definition RFQ_QUOTE_SUBMITTED : string := "rfq.quote_submitted".
Definition RFQ_QUOTE_WITHDRAWN : string := "rfq.quote_withdrawn".

(** ** Asking *)

(** [created_at] is stamped when the row is flushed, after the deadline is set. *)
Definition new_rfq (id : uuid) (p : RFQCreateRequest) (window : string) (org_id user_id : uuid)
    (now created_at : datetime) : RFQ :=
  {| rq_id := id; rq_buyer_org_id := org_id; rq_buyer_user_id := Some user_id;
     rq_product_id := rc_product_id p; rq_delivery_point_id := Some (rc_delivery_point_id p);
     rq_quantity_mt := to_cents (rc_quantity_mt p); rq_target_price_per_mt := to_cents <$> rc_target_price_per_mt p;
     rq_availability_window := window; rq_notes := rc_notes p; rq_is_anonymous := rc_is_anonymous p;
     rq_status := RFQ_OPEN; rq_accepted_quote_id := None; rq_trade_id := None;
     rq_expires_at := now + rc_expires_in_hours p * 3600000000; rq_created_at := created_at |}.

Definition announce_rfq (r : RFQ) (p : RFQCreateRequest) (user_id : uuid) : M World unit :=
  record_audit (Some user_id) RFQ_CREATED "rfq" (Some (rq_id r))
    (JObj [ ("buyer_org_id", JUuid (rq_buyer_org_id r)); ("product_id", JUuid (rq_product_id r));
            ("delivery_point_id", jopt JUuid (rq_delivery_point_id r));
            ("quantity_mt", JStr (decimal_str (rc_quantity_mt p)));
            ("target_price_per_mt", jopt (λ t, JStr (decimal_str t)) (rc_target_price_per_mt p));
            ("availability_window", JStr (rq_availability_window r));
            ("status", JStr (RFQStatus_value (rq_status r))) ]) ;;
  rfq_event "rfq_created" "rfq" (rq_id r) [rq_buyer_org_id r]
    [ ("rfq_id", JUuid (rq_id r)); ("product_id", JUuid (rq_product_id r));
      ("delivery_point_id", jopt JUuid (rq_delivery_point_id r));
      ("availability_window", JStr (rq_availability_window r)) ].

(** [POST /rfq] *)
Definition create_rfq (p : RFQCreateRequest) (current_user : User) : M World RFQResponse :=
  require_execution_eligible_user current_user ;;
  match u_organization_id current_user with
  | None => raise no_organization
  | Some org_id =>
      refuse (bool_decide (u_role current_user ≠ Some BUYER)) (forbidden_error "Only buyers can create RFQs") ;;
      window ← lift (normalize_availability_window (rc_availability_window p));
      today ← utcnow;
      tradable ← lift (is_tradable_availability_window window (utc_date today) FORWARD_QUARTER_COUNT);
      refuse (negb tradable) (bad_request "Availability window is not tradable") ;;
      require_canonical_market_slice (rc_product_id p) (Some (rc_delivery_point_id p)) ;;
      acquire_market_slice_lock (rc_product_id p) (Some (rc_delivery_point_id p)) window ;;
      orgs ← lock_and_load_market_organizations [org_id] [MkMarketActorOwnership (u_id current_user) org_id] true [];
      assert_participant orgs org_id ;;
      require_canonical_market_slice (rc_product_id p) (Some (rc_delivery_point_id p)) ;;
      now ← utcnow;
      d ← get_db;
      created_at ← utcnow;
      let r := new_rfq (fresh_id (rfqs d)) p window org_id (u_id current_user) now created_at in
      put_rfq r ;;
      flush ;;
      announce_rfq r p (u_id current_user) ;;
      commit ;;
      _build_rfq_response r [] (Some org_id)
  end.

(** ** Reading *)

Definition created_later (a b : RFQ) : Prop := rq_created_at b <= rq_created_at a.
#[export] Instance created_later_dec : RelDecision created_later.
Proof. intros a b. unfold created_later. apply _. Defined.

(** [RFQStatus(text)]; another text is no filter. *)
Definition status_of_text (text : string) : option RFQStatus :=
  head (filter (λ s, RFQStatus_value s = text) [RFQ_OPEN; RFQ_QUOTED; RFQ_ACCEPTED; RFQ_EXPIRED; RFQ_WITHDRAWN]).
Definition has_status (status_filter : option string) (r : RFQ) : bool :=
  match (text ← status_filter; status_of_text text) with
  | Some s => bool_decide (rq_status r = s)
  | None => true
  end.
Definition has_product (product_id : option uuid) (r : RFQ) : bool :=
  match product_id with Some id => bool_decide (rq_product_id r = id) | None => true end.

(** [GET /rfq]: a page, and the number of rows over all pages. *)
Definition list_rfqs (status_filter : option string) (product_id : option uuid) (skip limit : nat)
    (current_user : User) : M World (list RFQResponse * nat) :=
  visible ← _rfq_visibility_filters current_user;
  d ← get_db;
  let rows := filter (λ r, visible r && has_status status_filter r && has_product product_id r = true)
                     (snd <$> map_to_list (rfqs d)) in
  let page := take limit (drop skip (merge_sort created_later rows)) in
  items ← mapM (λ r, _build_rfq_response r (quotes_of d (rq_id r)) (u_organization_id current_user)) page;
  mret (items, length rows).

(** [GET /rfq/{rfq_id}] *)
Definition get_rfq (rfq_id : uuid) (current_user : User) : M World RFQResponse :=
  visible ← _rfq_visibility_filters current_user;
  r ← _load_rfq rfq_id false visible;
  _ensure_rfq_detail_visible r current_user ;;
  d ← get_db;
  _build_rfq_response r (quotes_of d rfq_id) (u_organization_id current_user).

(** ** Answering *)

(** The row under the slice lock, unless its slice has changed, and its quotes. *)
Definition lock_rfq (rfq_id : uuid) (visible : RFQ → bool) : M World (RFQ * list RFQQuote) :=
  observed ← _load_rfq rfq_id false visible;
  acquire_market_slice_lock (rq_product_id observed) (rq_delivery_point_id observed)
    (rq_availability_window observed) ;;
  r ← _load_rfq rfq_id true visible;
  rollback_raise (bool_decide (_rfq_lock_identity r ≠ _rfq_lock_identity observed))
    (conflict_error "RFQ market slice changed; retry the request")
    (d ← get_db;
     let quotes := quotes_of d rfq_id in
     take_lock (RowRfqQuotes (sorted_set (qt_id <$> quotes))) ;;
     mret (r, quotes)).

Definition new_quote (id : uuid) (r : RFQ) (p : RFQQuoteRequest) (org_id user_id : uuid) (created_at : datetime)
    : RFQQuote :=
  {| qt_id := id; qt_rfq_id := rq_id r; qt_seller_org_id := org_id; qt_seller_user_id := Some user_id;
     qt_price_per_mt_usd := to_cents (rqq_price_per_mt_usd p); qt_notes := rqq_notes p;
     qt_status := QUOTE_PENDING; qt_created_at := created_at |}.

Definition quoted_rfq (r : RFQ) : RFQ :=
  if bool_decide (rq_status r = RFQ_OPEN) then r <| rq_status := RFQ_QUOTED |> else r.

(** The guards behind the locks. *)
Definition admit_quote (r : RFQ) (quotes : list RFQQuote) (org_id : uuid) : M World unit :=
  refuse (negb (supplier_visible_status (rq_status r))) (bad_request "RFQ is not open for quoting") ;;
  now ← utcnow;
  refuse (rq_expires_at r <=? now) (bad_request "RFQ has expired") ;;
  refuse (bool_decide (rq_buyer_org_id r = org_id)) (bad_request "Cannot quote your own RFQ") ;;
  refuse (bool_decide (filter (λ q, qt_seller_org_id q = org_id) quotes ≠ []))
    (conflict_error "You have already quoted this RFQ").

Definition announce_quote (before r : RFQ) (q : RFQQuote) (p : RFQQuoteRequest) (user_id : uuid) : M World unit :=
  let price := decimal_str (rqq_price_per_mt_usd p) in
  notify_org_users (rq_buyer_org_id r) NT_ORDER_UPDATE "New Quote Received"
    (Fmt "A supplier submitted a quote of ${}/MT on your RFQ." [AStr price])
    (Some (JObj [("rfq_id", JUuid (rq_id r)); ("quote_id", JUuid (qt_id q))])) ;;
  record_audit (Some user_id) RFQ_QUOTE_SUBMITTED "rfq_quote" (Some (qt_id q))
    (JObj [ ("rfq_id", JUuid (rq_id r)); ("seller_org_id", JUuid (qt_seller_org_id q));
            ("price_per_mt_usd", JStr price); ("quote_status", JStr (QuoteStatus_value (qt_status q)));
            ("rfq_status", JObj [ ("from", JStr (RFQStatus_value (rq_status before)));
                                  ("to", JStr (RFQStatus_value (rq_status r))) ]) ]) ;;
  rfq_event "rfq_quote_submitted" "rfq_quote" (qt_id q) [rq_buyer_org_id r; qt_seller_org_id q]
    [ ("rfq_id", JUuid (rq_id r)); ("quote_id", JUuid (qt_id q)); ("status", JStr (QuoteStatus_value (qt_status q))) ].

(** [POST /rfq/{rfq_id}/quote] *)
Definition submit_quote (rfq_id : uuid) (p : RFQQuoteRequest) (current_user : User) : M World RFQQuoteResponse :=
  require_execution_eligible_user current_user ;;
  match u_organization_id current_user with
  | None => raise no_organization
  | Some org_id =>
      refuse (bool_decide (u_role current_user ≠ Some SUPPLIER)) (forbidden_error "Only suppliers can submit quotes") ;;
      visible ← _rfq_visibility_filters current_user;
      locked ← lock_rfq rfq_id visible;
      let '(r, quotes) := locked in
      orgs ← lock_and_load_market_organizations [rq_buyer_org_id r; org_id]
        [MkMarketActorOwnership (u_id current_user) org_id] true [];
      assert_pair orgs (rq_buyer_org_id r) org_id ;;
      require_canonical_market_slice (rq_product_id r) (rq_delivery_point_id r) ;;
      admit_quote r quotes org_id ;;
      d ← get_db;
      created_at ← utcnow;
      let q := new_quote (fresh_id (rfq_quotes d)) r p org_id (u_id current_user) created_at in
      put_quote q ;;
      put_rfq (quoted_rfq r) ;;
      flush ;;
      announce_quote r (quoted_rfq r) q p (u_id current_user) ;;
      commit ;;
      d ← get_db;
      mret (quote_response d q)
  end.

(** ** Accepting is disabled *)

(** [POST /rfq/{rfq_id}/accept/{quote_id}] *)
Definition accept_quote (rfq_id quote_id : uuid) (current_user : User) : M World RFQQuoteResponse :=
  require_execution_eligible_user current_user ;;
  raise (conflict_error "RFQ acceptance is disabled; RFQs are non-executable in this release").

(** ** Withdrawing *)

(** [lock_and_load_market_organizations] over the buyer's organization, with the
    caller's own membership, which may be none: then the row is looked up under
    no organization. *)
Definition lock_rfq_owner (r : RFQ) (current_user : User) : M World unit :=
  match u_organization_id current_user with
  | Some org_id =>
      lock_and_load_market_organizations [rq_buyer_org_id r]
        [MkMarketActorOwnership (u_id current_user) org_id] true [] ;;
      mret tt
  | None =>
      found ← lock_users [u_id current_user];
      match found !! u_id current_user with
      | None => raise (conflict_error "Market user no longer exists")
      | Some user =>
          refuse (bool_decide (u_organization_id user ≠ None))
            (conflict_error "Market user organization ownership changed") ;;
          orgs ← lock_organizations [rq_buyer_org_id r];
          match orgs !! rq_buyer_org_id r with
          | None => raise (conflict_error "Market organization no longer exists")
          | Some g =>
              refuse (bool_decide (upper (g_verification_status g) ≠ APPROVED_ORGANIZATION_STATUS))
                (conflict_error "Organization is not approved for market activity") ;;
              raise KeyError
          end
      end
  end.

Definition owns_rfq (r : RFQ) (current_user : User) : bool :=
  match rq_buyer_user_id r with
  | Some buyer => bool_decide (buyer = u_id current_user)
  | None => bool_decide (u_organization_id current_user = Some (rq_buyer_org_id r))
  end.

Definition withdrawn_quote (q : RFQQuote) : RFQQuote := q <| qt_status := QUOTE_WITHDRAWN |>.
Definition withdrawn_rfq (r : RFQ) : RFQ := r <| rq_status := RFQ_WITHDRAWN |>.

Definition withdraw_quote (user_id : uuid) (q : RFQQuote) : M World unit :=
  if bool_decide (qt_status q = QUOTE_PENDING) then
    put_quote (withdrawn_quote q) ;;
    record_audit (Some user_id) RFQ_QUOTE_WITHDRAWN "rfq_quote" (Some (qt_id q))
      (JObj [ ("rfq_id", JUuid (qt_rfq_id q));
              ("quote_status", JObj [ ("from", JStr (QuoteStatus_value QUOTE_PENDING));
                                      ("to", JStr (QuoteStatus_value QUOTE_WITHDRAWN)) ]) ])
  else mret tt.

Definition announce_withdrawal (r : RFQ) (quotes : list RFQQuote) (user_id : uuid) : M World unit :=
  record_audit (Some user_id) RFQ_CANCELLED "rfq" (Some (rq_id r))
    (JObj [ ("status", JObj [ ("from", JStr (RFQStatus_value (rq_status r)));
                              ("to", JStr (RFQStatus_value RFQ_WITHDRAWN)) ]) ]) ;;
  rfq_event "rfq_cancelled" "rfq" (rq_id r) (rq_buyer_org_id r :: (qt_seller_org_id <$> quotes))
    [("rfq_id", JUuid (rq_id r)); ("status", JStr (RFQStatus_value RFQ_WITHDRAWN))].

(** [POST /rfq/{rfq_id}/cancel] *)
Definition cancel_rfq (rfq_id : uuid) (current_user : User) : M World unit :=
  locked ← lock_rfq rfq_id (λ _, true);
  let '(r, quotes) := locked in
  lock_rfq_owner r current_user ;;
  refuse (negb (owns_rfq r current_user)) (forbidden_error "Only the RFQ owner can cancel") ;;
  refuse (negb (supplier_visible_status (rq_status r)))
    (bad_request "RFQ cannot be cancelled in its current state") ;;
  put_rfq (withdrawn_rfq r) ;;
  iterM (withdraw_quote (u_id current_user)) quotes ;;
  announce_withdrawal r quotes (u_id current_user) ;;
  commit.

(** ** On the demo market

    The shipping line asks for 100 t of methanol, anonymously; the refinery and
    the trader answer. *)

Definition demo_ask : RFQCreateRequest :=
  MkRFQCreateRequest (p_id Demo.methanol) (d_id Demo.rotterdam) (of_int 100) (Some (of_int 590)) "spot" None true 24.
Definition demo_quote (price : Z) : RFQQuoteRequest := MkRFQQuoteRequest (of_int price) None.
Definition floor : World := Demo.placed <| clock := MkClocks (λ n, Demo.noon + Z.of_nat n) Demo.noon |>.
Definition answered : M World unit :=
  create_rfq demo_ask Demo.buyer ;; submit_quote 0 (demo_quote 605) Demo.supplier ;;
  submit_quote 0 (demo_quote 600) Demo.broker ;; mret tt.

(** Who asks, how many answers, and the visible ones: seller, price and status. *)
Definition board (o : outcome World RFQResponse)
    : option (option uuid * option string * RFQStatus * nat * list (uuid * Z * QuoteStatus)) :=
  match o with
  | Ok r _ => Some (rr_buyer_org_id r, rr_buyer_org_name r, rr_status r, rr_quote_count r,
      (λ q, (qr_seller_org_id q, qr_price_per_mt_usd q, qr_status q)) <$> rr_quotes r)
  | Raise _ _ => None
  end.

Example owner_sees_all :
  board ((answered ;; get_rfq 0 Demo.buyer) floor)
  = Some (Some 1%N, Some (g_name Demo.shipping_line), RFQ_QUOTED, 2%nat,
          [(3%N, 60000, QUOTE_PENDING); (2%N, 60500, QUOTE_PENDING)]).
Proof. vm_compute. reflexivity. Qed.
Example supplier_sees_its_own :
  board ((answered ;; get_rfq 0 Demo.supplier) floor)
  = Some (None, Some "Anonymous", RFQ_QUOTED, 2%nat, [(2%N, 60500, QUOTE_PENDING)]).
Proof. vm_compute. reflexivity. Qed.
Example owner_withdraws :
  board ((answered ;; cancel_rfq 0 Demo.buyer ;; get_rfq 0 Demo.buyer) floor)
  = Some (Some 1%N, Some (g_name Demo.shipping_line), RFQ_WITHDRAWN, 2%nat,
          [(3%N, 60000, QUOTE_WITHDRAWN); (2%N, 60500, QUOTE_WITHDRAWN)]).
Proof. vm_compute. reflexivity. Qed.
Example outsider_cancels :
  match (answered ;; cancel_rfq 0 Demo.supplier) floor with Raise e _ => e = KeyError | Ok _ _ => False end.
Proof. vm_compute. reflexivity. Qed.
Example one_answer_each :
  match (answered ;; submit_quote 0 (demo_quote 500) Demo.broker) floor with
  | Raise e _ => e = conflict_error "You have already quoted this RFQ" | Ok _ _ => False end.
Proof. vm_compute. reflexivity. Qed.
