(* ===== verification/RfqsSafety.v ===== *)
(** * What a request for quotation guarantees

    The board behind the rows: requests that are open until the first answer,
    one answer of each supplier, and a withdrawal that takes the answers along.
    Every request is a step of it or changes nothing; an anonymous request does
    not tell who asks. *)

From S2P Require Import Prelude Catalog Calendar AvailabilityWindows Decimal Json Schema Constraints NegotiationSchema RfqSchema Delivery Database Scenario Policy Eligibility Events Admission RequestParty Trades TradesSafety OrderEntry OrderCreationSafety Negotiations NegotiationsSafety Rfqs.
Local Open Scope Z_scope.

(** ** The board *)

(** A request and its answers. *)
Definition answers_ok (r : RFQ) (quotes : list RFQQuote) : Prop :=
  Forall (λ q, qt_seller_org_id q ≠ rq_buyer_org_id r) quotes
  ∧ match rq_status r with
    | RFQ_OPEN => quotes = []
    | RFQ_QUOTED => quotes ≠ [] ∧ Forall (λ q, qt_status q = QUOTE_PENDING) quotes
    | RFQ_WITHDRAWN => Forall (λ q, qt_status q = QUOTE_WITHDRAWN) quotes
    | RFQ_ACCEPTED | RFQ_EXPIRED => False
    end
  ∧ JSON_SCHEMA_PATTERN (rq_availability_window r) = true.
Definition rfq_ok (d : Database) (r : RFQ) : Prop := answers_ok r (quotes_of d (rq_id r)).
#[export] Instance rfq_ok_dec d r : Decision (rfq_ok d r).
Proof. unfold rfq_ok, answers_ok. destruct (rq_status r); apply _. Defined.

(** Which answers there are matters, not how the table lists them. *)
#[export] Instance answers_ok_proper r : Proper ((≡ₚ) ==> iff) (answers_ok r).
Proof.
  assert (∀ l k, l ≡ₚ k → answers_ok r l → answers_ok r k) as H; [|split; by apply H].
  intros l k Hp (Hs & Hq & Hw). split_and!; [by rewrite <-Hp| |done]. destruct (rq_status r); try done.
  - rewrite Hq in Hp. by apply Permutation_nil_l in Hp.
  - destruct Hq as [Hne Hq]. split; [|by rewrite <-Hp]. intros Hnil. rewrite Hnil in Hp.
    by apply Permutation_nil_r in Hp.
  - by rewrite <-Hp.
Qed.

Definition quotes_keyed (d : Database) : Prop := map_Forall (λ k q, qt_id q = k) (rfq_quotes d).
Definition rfqs_ok (d : Database) : Prop :=
  map_Forall (λ k r, rq_id r = k) (rfqs d)
  ∧ quotes_keyed d
  ∧ map_Forall (λ _ q, is_Some (rfqs d !! qt_rfq_id q)) (rfq_quotes d)
  ∧ map_Forall (λ _ r, rfq_ok d r) (rfqs d).
#[export] Instance rfqs_ok_dec d : Decision (rfqs_ok d).
Proof. unfold rfqs_ok, quotes_keyed. apply _. Defined.

Lemma elem_of_quotes d id q :
  quotes_keyed d → q ∈ quotes_of d id ↔ rfq_quotes d !! qt_id q = Some q ∧ qt_rfq_id q = id.
Proof.
  intros Hk. unfold quotes_of. rewrite list_elem_of_filter, list_elem_of_fmap. split.
  - intros (Hid & [k q'] & -> & Hin%elem_of_map_to_list). cbn in *. by rewrite (Hk _ _ Hin).
  - intros [Hq Hid]. split; [done|]. exists (qt_id q, q). by rewrite elem_of_map_to_list.
Qed.

Lemma Forall_quotes d id (P : RFQQuote → Prop) :
  quotes_keyed d →
  Forall P (quotes_of d id) ↔ ∀ k q, rfq_quotes d !! k = Some q → qt_rfq_id q = id → P q.
Proof.
  intros Hk. rewrite Forall_forall. split.
  - intros H k q Hq Hid. apply H, elem_of_quotes; [done|]. split; [|done]. by rewrite (Hk _ _ Hq).
  - intros H q [Hq Hid]%elem_of_quotes; [|done]. by apply (H (qt_id q)).
Qed.

Lemma quotes_NoDup d id : quotes_keyed d → NoDup (qt_id <$> quotes_of d id).
Proof.
  intros Hk. apply NoDup_fmap_2_strong.
  - intros a b [Ha _]%elem_of_quotes [Hb _]%elem_of_quotes E; [congruence|done..].
  - unfold quotes_of. apply NoDup_filter, NoDup_fmap_2_strong; [|apply NoDup_map_to_list].
    intros [i a] [j b] Ha%elem_of_map_to_list Hb%elem_of_map_to_list E. cbn in E. subst b.
    pose proof (Hk _ _ Ha) as H1. pose proof (Hk _ _ Hb) as H2. cbn in H1, H2. congruence.
Qed.

(** ** The steps *)

(** The tables after one row and its answers have changed. *)
Definition board_after (d : Database) (r : RFQ) (quotes : gmap uuid RFQQuote) : Database :=
  d <| rfqs := <[ rq_id r := r ]> (rfqs d) |> <| rfq_quotes := quotes |>.

(** The same tables but for the rows that are only ever appended. *)
Definition same_tables (d d' : Database) : Prop :=
  same_market d d' ∧ ports d' = ports d ∧ subscriptions d' = subscriptions d
  ∧ command_results d' = command_results d ∧ staff_capabilities d' = staff_capabilities d
  ∧ support_authorizations d' = support_authorizations d ∧ negotiations d' = negotiations d
  ∧ negotiation_rounds d' = negotiation_rounds d ∧ rfqs d' = rfqs d ∧ rfq_quotes d' = rfq_quotes d.

Lemma only_events_same_tables w w' : only_events w w' → same_tables (db w) (db w').
Proof.
  intros H. split; [by apply only_events_same_market|]. unfold only_events in H. destruct_and! H. by split_and!.
Qed.

Inductive rfq_request :=
  | Ask (p : RFQCreateRequest)
  | Quote (rfq_id : uuid) (p : RFQQuoteRequest)
  | AcceptQuote (rfq_id quote_id : uuid)
  | Withdraw (rfq_id : uuid).
Definition rfq_valid (rq : rfq_request) : Prop :=
  match rq with
  | Ask p => rfq_create_valid p
  | Quote _ p => rfq_quote_valid p
  | _ => True
  end.

Definition withdraw_from (rfq_id : uuid) (q : RFQQuote) : RFQQuote :=
  if decide (qt_rfq_id q = rfq_id) then withdrawn_quote q else q.

(** The new row and the answers of a step. *)
Inductive rfq_step (d : Database) (seen : datetime → Prop) (u : User) (org : uuid)
    : rfq_request → RFQ → gmap uuid RFQQuote → Prop :=
  | step_ask p window today now created_at :
      u_role u = Some BUYER → normalize_availability_window (rc_availability_window p) = Val window →
      seen today → is_tradable_availability_window window (utc_date today) FORWARD_QUARTER_COUNT = Val true →
      seen now → seen created_at → rfq_create_valid p → admitted_member d (u_id u) org →
      rfq_step d seen u org (Ask p) (new_rfq (fresh_id (rfqs d)) p window org (u_id u) now created_at) (rfq_quotes d)
  | step_quote r p now created_at :
      let q := new_quote (fresh_id (rfq_quotes d)) r p org (u_id u) created_at in
      u_role u = Some SUPPLIER → rfqs d !! rq_id r = Some r → supplier_visible_status (rq_status r) = true →
      seen now → now < rq_expires_at r → seen created_at → rq_buyer_org_id r ≠ org →
      Forall (λ x, qt_seller_org_id x ≠ org) (quotes_of d (rq_id r)) → rfq_quote_valid p →
      admitted_member d (u_id u) org → approved_organization d (rq_buyer_org_id r) →
      rfq_step d seen u org (Quote (rq_id r) p) (quoted_rfq r) (<[ qt_id q := q ]> (rfq_quotes d))
  | step_withdraw r :
      rfqs d !! rq_id r = Some r → supplier_visible_status (rq_status r) = true → owns_rfq r u = true →
      org = rq_buyer_org_id r → admitted_member d (u_id u) org →
      rfq_step d seen u org (Withdraw (rq_id r)) (withdrawn_rfq r) (withdraw_from (rq_id r) <$> rfq_quotes d).

(** ** A step keeps the board *)

Lemma no_quotes_of_unknown d id : rfqs_ok d → rfqs d !! id = None → quotes_of d id = [].
Proof.
  intros (_ & Hk & Hr & _) Hnone. apply elem_of_nil_inv. intros q [Hq <-]%elem_of_quotes; [|done].
  specialize (Hr _ _ Hq). cbn in Hr. rewrite Hnone in Hr. by apply is_Some_None in Hr.
Qed.

Lemma quotes_of_insert d d' q id :
  rfq_quotes d !! qt_id q = None → rfq_quotes d' = <[ qt_id q := q ]> (rfq_quotes d) →
  quotes_of d' id ≡ₚ (if decide (qt_rfq_id q = id) then [q] else []) ++ quotes_of d id.
Proof.
  intros Hnew E. unfold quotes_of. rewrite E, map_to_list_insert by done. rewrite fmap_cons, filter_cons.
  cbn [snd]. by destruct (decide _).
Qed.

Lemma quotes_of_fmap d d' (f : RFQQuote → RFQQuote) id :
  (∀ q, qt_rfq_id (f q) = qt_rfq_id q) → rfq_quotes d' = f <$> rfq_quotes d →
  quotes_of d' id ≡ₚ f <$> quotes_of d id.
Proof.
  intros Hf E. unfold quotes_of. rewrite E, map_to_list_fmap. rewrite <-list_fmap_compose.
  induction (map_to_list (rfq_quotes d)) as [|[k q] l IH]; [done|]. rewrite !fmap_cons, !filter_cons. cbn [snd prod_map compose].
  cbn. rewrite Hf. destruct (decide _); [by rewrite fmap_cons, IH|done].
Qed.

(** One row with its answers at a time. *)
Lemma rfqs_ok_board d r quotes :
  rfqs_ok d → let d' := board_after d r quotes in
  quotes_keyed d' →
  map_Forall (λ _ q, qt_rfq_id q = rq_id r ∨ is_Some (rfqs d !! qt_rfq_id q)) quotes →
  (∀ id, id ≠ rq_id r → quotes_of d id ≡ₚ quotes_of d' id) → rfq_ok d' r → rfqs_ok d'.
Proof.
  intros (Hk & Hqk & Hof & Hrows) d' Hqk' Hof' Hother Hr. split_and!; [|done| |].
  - by apply map_Forall_insert_2.
  - intros k q Hq. cbn. specialize (Hof' k q Hq). cbn in Hof'. destruct (decide (qt_rfq_id q = rq_id r)) as [->|Hne].
    + rewrite lookup_insert_eq. by eexists.
    + rewrite lookup_insert_ne by congruence. by destruct Hof'.
  - intros k x Hx. cbn in Hx. apply lookup_insert_Some in Hx as [[<- <-]|[Hne Hx]]; [done|].
    unfold rfq_ok. rewrite <-Hother; [by apply (Hrows k)|]. pose proof (Hk _ _ Hx) as E. cbn in E. congruence.
Qed.

Section step.
Context (d : Database) (seen : datetime → Prop) (u : User) (org : uuid).
Context (Hok : rfqs_ok d).

Lemma ask_board p window user now created_at :
  normalize_availability_window (rc_availability_window p) = Val window →
  rfqs_ok (board_after d (new_rfq (fresh_id (rfqs d)) p window org user now created_at) (rfq_quotes d)).
Proof.
  intros Hwin. pose proof Hok as (Hk & Hqk & Hof & Hrows). apply rfqs_ok_board; [done|done| |done|].
  - intros k q Hq. right. by apply (Hof k).
  - unfold rfq_ok. cbn. change (quotes_of (board_after d _ _) ?i) with (quotes_of d i).
    rewrite (no_quotes_of_unknown d (fresh_id (rfqs d)) Hok) by apply fresh_id_none.
    split_and!; [constructor|done|by eapply normalize_pattern].
Qed.

Lemma quote_board r p user created_at :
  let q := new_quote (fresh_id (rfq_quotes d)) r p org user created_at in
  rfqs d !! rq_id r = Some r → supplier_visible_status (rq_status r) = true → rq_buyer_org_id r ≠ org →
  rfqs_ok (board_after d (quoted_rfq r) (<[ qt_id q := q ]> (rfq_quotes d))).
Proof.
  intros q Hr Hst Hne. pose proof Hok as (Hk & Hqk & Hof & Hrows).
  assert (rq_id (quoted_rfq r) = rq_id r) as Eid by (unfold quoted_rfq; by case_bool_decide).
  assert (∀ id, quotes_of (board_after d (quoted_rfq r) (<[ qt_id q := q ]> (rfq_quotes d))) id
    ≡ₚ (if decide (rq_id r = id) then [q] else []) ++ quotes_of d id) as Hperm.
  { intros id. apply (quotes_of_insert d _ q); [apply fresh_id_none|done]. }
  apply rfqs_ok_board; [done|by apply map_Forall_insert_2| | |]; rewrite ?Eid.
  - apply map_Forall_insert_2; [by left|]. intros k x Hx. right. by apply (Hof k).
  - intros id Hid. rewrite Hperm. by rewrite decide_False.
  - destruct (Hrows _ _ Hr) as (Hs & Hq & Hw). unfold rfq_ok. rewrite Eid, Hperm, decide_True by done. unfold answers_ok.
    assert (rq_status (quoted_rfq r) = RFQ_QUOTED ∧ rq_buyer_org_id (quoted_rfq r) = rq_buyer_org_id r
      ∧ rq_availability_window (quoted_rfq r) = rq_availability_window r) as (-> & -> & ->).
    { unfold quoted_rfq. case_bool_decide as E; [done|]. by destruct (rq_status r). }
    split_and!; [by constructor|done| |done].
    constructor; [done|]. destruct (rq_status r); [by rewrite Hq|apply Hq|done..].
Qed.

Lemma withdraw_board r :
  rfqs d !! rq_id r = Some r → supplier_visible_status (rq_status r) = true →
  rfqs_ok (board_after d (withdrawn_rfq r) (withdraw_from (rq_id r) <$> rfq_quotes d)).
Proof.
  intros Hr Hst. pose proof Hok as (Hk & Hqk & Hof & Hrows).
  assert (∀ id q, qt_rfq_id (withdraw_from id q) = qt_rfq_id q ∧ qt_id (withdraw_from id q) = qt_id q
    ∧ qt_seller_org_id (withdraw_from id q) = qt_seller_org_id q) as Hsame.
  { intros id q. unfold withdraw_from. by destruct (decide _). }
  assert (∀ id, quotes_of (board_after d (withdrawn_rfq r) (withdraw_from (rq_id r) <$> rfq_quotes d)) id
    ≡ₚ withdraw_from (rq_id r) <$> quotes_of d id) as Hperm.
  { intros id. apply quotes_of_fmap; [|done]. intros q. apply Hsame. }
  apply rfqs_ok_board; [done| | | |].
  - intros k q Hq. cbn in Hq. apply lookup_fmap_Some in Hq as (x & <- & Hx). cbn.
    destruct (Hsame (rq_id r) x) as (_ & -> & _). by apply (Hqk _ _ Hx).
  - intros k q Hq. apply lookup_fmap_Some in Hq as (x & <- & Hx). destruct (Hsame (rq_id r) x) as (-> & _).
    right. by apply (Hof k).
  - intros i Hid. cbn in Hid. rewrite Hperm. rewrite <-(list_fmap_id (quotes_of d i)) at 1.
    rewrite (Forall_fmap_ext_1 (withdraw_from (rq_id r)) id); [done|]. apply Forall_quotes; [done|].
    intros k q Hq Ho. unfold withdraw_from. by rewrite decide_False by congruence.
  - destruct (Hrows _ _ Hr) as (Hs & Hq & Hw). unfold rfq_ok. rewrite Hperm. unfold answers_ok. rewrite !Forall_fmap.
    change (rq_id (withdrawn_rfq r)) with (rq_id r). change (rq_status (withdrawn_rfq r)) with RFQ_WITHDRAWN. cbn match. split_and!; [| |done].
    + eapply Forall_impl; [exact Hs|]. intros q. cbn. by destruct (Hsame (rq_id r) q) as (_ & _ & ->).
    + rewrite Forall_fmap. apply Forall_quotes; [done|]. intros k q _ Ho. cbn. unfold withdraw_from. by rewrite decide_True.
Qed.
End step.

(** ** A step keeps the constraints *)

Lemma same_tables_checks d d' : same_tables d d' → database_checks d → database_checks d'.
Proof.
  intros (Hm & H) Hc. unfold same_market in Hm. destruct_and! Hm. destruct_and! H.
  unfold database_checks, unique_checks, side_checks, support_checks, negotiation_checks, rfq_checks in *.
  repeat match goal with E : ?f d' = ?f d |- _ => rewrite E; clear E end. exact Hc.
Qed.

Lemma same_tables_rfqs d d' : same_tables d d' → rfqs_ok d → rfqs_ok d'.
Proof.
  intros (_ & H). destruct_and! H. unfold rfqs_ok, quotes_keyed, rfq_ok, quotes_of.
  repeat match goal with E : ?f d' = ?f d |- _ => rewrite E; clear E end. done.
Qed.

Lemma checks_board d r quotes :
  database_checks d → rfq_check r → map_Forall (λ _ q, RFQ_QUOTE_NUMERIC_VALUES q) quotes →
  unique_on rfq_quote_key quotes → database_checks (board_after d r quotes).
Proof.
  intros (H1 & H2 & H3 & H4 & H5 & U & S & N & (R1 & R2 & R3)) Hr Hq Hu.
  unfold database_checks, side_checks, rfq_checks. cbn. split_and!; try done. by apply map_Forall_insert_2.
Qed.

Section step_sound.
Context (d : Database) (seen : datetime → Prop) (u : User) (org : uuid) (rq : rfq_request).
Context (r : RFQ) (quotes : gmap uuid RFQQuote).
Context (Hchecks : database_checks d) (Hok : rfqs_ok d) (Hstep : rfq_step d seen u org rq r quotes).

Lemma step_row : rfq_check r.
Proof.
  pose proof Hchecks as (_ & _ & _ & _ & _ & _ & _ & _ & (R & _)).
  destruct Hstep as [p window today now created_at _ _ _ _ _ _ ([_ Hq] & Ht & _) _|r0 p now created_at q _ Hr Hst _ _ _ _ _ _ _ _
                    |r0 Hr Hst _ _ _].
  - split; [split; [exact Hq|]|by right]. cbn. by destruct (rc_target_price_per_mt p) as [t|]; [apply Ht|].
  - destruct (R _ _ Hr) as [Hn Hl]. unfold quoted_rfq. case_bool_decide as E; [|done]. split; [done|].
    right. split; [done|]. cbn. destruct Hl as [[E' _]|[_ Hl]]; [by rewrite E in E'|done].
  - destruct (R _ _ Hr) as [Hn Hl]. split; [done|]. right. split; [done|]. cbn.
    destruct Hl as [[E _]|[_ Hl]]; [by rewrite E in Hst|done].
Qed.

Lemma step_quotes : map_Forall (λ _ q, RFQ_QUOTE_NUMERIC_VALUES q) quotes ∧ unique_on rfq_quote_key quotes.
Proof.
  pose proof Hchecks as (_ & _ & _ & _ & _ & _ & _ & _ & (_ & R & U)).
  destruct Hstep as [|r0 p now created_at q _ Hr _ _ _ _ _ Hfirst [_ Hp] _ _|r0 Hr Hst _ _ _]; [done| |]; split.
  - by apply map_Forall_insert_2.
  - apply unique_on_insert; [done|apply fresh_id_none|]. intros k x Hx [= E1 E2].
    pose proof Hok as (_ & Hk & _). rewrite (Forall_quotes d (rq_id r0) _ Hk) in Hfirst.
    by destruct (Hfirst k x Hx).
  - intros k q Hq. apply lookup_fmap_Some in Hq as (x & <- & Hx). unfold withdraw_from.
    destruct (decide _); by apply (R k x).
  - rewrite unique_on_spec in U |- *. intros i j a b Ha Hb.
    apply lookup_fmap_Some in Ha as (x & <- & Hx). apply lookup_fmap_Some in Hb as (y & <- & Hy).
    assert (∀ q, rfq_quote_key (withdraw_from (rq_id r0) q) = rfq_quote_key q) as E.
    { intros q. unfold withdraw_from. by destruct (decide _). }
    rewrite !E. by apply U.
Qed.

Lemma step_checks : database_checks (board_after d r quotes).
Proof. destruct step_quotes. apply checks_board; [done|apply step_row|done..]. Qed.

Lemma step_board : rfqs_ok (board_after d r quotes).
Proof.
  destruct Hstep as [p window today now created_at _ Hw _ _ _ _ _ _|r0 p now created_at q _ Hr Hst _ _ _ Hne _ _ _ _
                    |r0 Hr Hst _ _ _].
  - by apply ask_board.
  - by apply quote_board.
  - by apply withdraw_board.
Qed.
End step_sound.

(** ** Frames *)

Lemma reads_load_rfq id b v : Keeps reads (_load_rfq id b v).
Proof. unfold _load_rfq. keeps. Qed.
Lemma reads_visibility u : Keeps reads (_rfq_visibility_filters u).
Proof. unfold _rfq_visibility_filters. keeps. Qed.
Lemma reads_participant orgs id : Keeps reads (assert_participant orgs id).
Proof. unfold assert_participant. keeps. Qed.
Lemma reads_admit_quote r l org : Keeps reads (admit_quote r l org).
Proof. unfold admit_quote. keeps. Qed.
#[export] Hint Resolve reads_load_rfq reads_visibility reads_participant reads_admit_quote : keeps.
Lemma reads_lock_rfq id v : Keeps reads_synced (lock_rfq id v).
Proof.
  unfold lock_rfq. apply keeps_bind; [apply _|keeps|intros observed].
  apply keeps_bind; [apply _|keeps|intros _]. apply keeps_bind; [apply _|keeps|intros r].
  apply reads_rollback_raise. keeps.
Qed.
Lemma reads_lock_rfq_owner r u : Keeps reads (lock_rfq_owner r u).
Proof. unfold lock_rfq_owner. keeps. Qed.
#[export] Hint Resolve reads_lock_rfq reads_lock_rfq_owner : keeps.

Lemma only_events_rfq_event ty agg id orgs p : Keeps only_events (rfq_event ty agg id orgs p).
Proof. unfold rfq_event. keeps. Qed.
#[export] Hint Resolve only_events_rfq_event : keeps.
Lemma only_events_announce_rfq r p u : Keeps only_events (announce_rfq r p u).
Proof. unfold announce_rfq. keeps. Qed.
Lemma only_events_announce_quote b r q p u : Keeps only_events (announce_quote b r q p u).
Proof. unfold announce_quote. keeps. Qed.
Lemma only_events_announce_withdrawal r l u : Keeps only_events (announce_withdrawal r l u).
Proof. unfold announce_withdrawal. keeps. Qed.
#[export] Hint Resolve only_events_announce_rfq only_events_announce_quote only_events_announce_withdrawal : keeps.

Lemma rfq_event_returns ty agg id org orgs p w :
  strip ty ≠ "" → strip agg ≠ "" → org ∈ orgs → payload_has PUBLIC_MARKET_INVALIDATION_KEY p = false →
  database_checks (db w) → Succeeds (rfq_event ty agg id orgs p) w.
Proof.
  intros Hty Hagg Horg Hp Hc. unfold rfq_event.
  destruct (participant_event_returns ty agg id orgs p false org Horg Hp Hty Hagg) as [e He].
  rewrite He. apply succeeds_bind; [by eexists _, _|]. intros x w1 [_ ->]%lift_ok. by apply enqueue_returns.
Qed.

Section announced.
Context (w : World) (Hc : database_checks (db w)).

Lemma announce_rfq_returns r p u : Succeeds (announce_rfq r p u) w.
Proof.
  unfold announce_rfq. apply succeeds_events; [apply succeeds_modify|keeps|]. intros _ w1 H1.
  eapply rfq_event_returns; [done|done|by left|done|]. by apply (only_events_checks w).
Qed.
Lemma announce_quote_returns b r q p u : Succeeds (announce_quote b r q p u) w.
Proof.
  unfold announce_quote. apply succeeds_events; [apply notify_returns|keeps|]. intros _ w1 H1.
  apply succeeds_events; [apply succeeds_modify|keeps|]. intros _ w2 H2.
  eapply rfq_event_returns; [done|done|by left|done|]. apply (only_events_checks w); [by trans w1|done].
Qed.
Lemma announce_withdrawal_returns r l u : Succeeds (announce_withdrawal r l u) w.
Proof.
  unfold announce_withdrawal. apply succeeds_events; [apply succeeds_modify|keeps|]. intros _ w1 H1.
  eapply rfq_event_returns; [done|done|by left|done|]. by apply (only_events_checks w).
Qed.
End announced.

(** ** The answers are withdrawn one after the other *)

(** Nothing but quotes and appended rows has changed. *)
Definition only_quotes (w w' : World) : Prop :=
  only_events (w <| db := (db w) <| rfq_quotes := rfq_quotes (db w') |> |>) w'.

Definition by_quote_id (l : list RFQQuote) : gmap uuid RFQQuote := list_to_map ((λ q, (qt_id q, q)) <$> l).

Lemma withdraw_loop user l w :
  NoDup (qt_id <$> l) → Forall (λ q, qt_status q = QUOTE_PENDING) l →
  ∃ w', iterM (withdraw_quote user) l w = Ok tt w' ∧ only_quotes w w'
    ∧ rfq_quotes (db w') = by_quote_id (withdrawn_quote <$> l) ∪ rfq_quotes (db w).
Proof.
  revert w. induction l as [|q l IH]; intros w Hnd Hp.
  { exists w. split_and!; [done|by repeat split|]. unfold by_quote_id. cbn. by rewrite (left_id_L ∅ (∪)). }
  rewrite fmap_cons in Hnd. apply NoDup_cons in Hnd as [Hq Hnd]. apply Forall_cons in Hp as [Hpq Hp].
  set (w1 := final (record_audit (Some user) RFQ_QUOTE_WITHDRAWN "rfq_quote" (Some (qt_id q))
      (JObj [ ("rfq_id", JUuid (qt_rfq_id q));
              ("quote_status", JObj [ ("from", JStr (QuoteStatus_value QUOTE_PENDING));
                                      ("to", JStr (QuoteStatus_value QUOTE_WITHDRAWN)) ]) ])
      (final (put_quote (withdrawn_quote q) w)))).
  assert (withdraw_quote user q w = Ok tt w1) as Hone.
  { unfold withdraw_quote. by rewrite bool_decide_eq_true_2. }
  destruct (IH w1 Hnd Hp) as (w' & Hrun & Hev & Hquotes). exists w'. split_and!.
  - cbn [iterM]. erewrite bind_run by exact Hone. exact Hrun.
  - unfold only_quotes, only_events in *. exact Hev.
  - rewrite Hquotes. unfold by_quote_id. rewrite !fmap_cons. cbn [list_to_map foldr].
    change (rfq_quotes (db w1)) with (<[ qt_id q := withdrawn_quote q ]> (rfq_quotes (db w))).
    cbn. rewrite <-insert_union_l, insert_union_r; [done|]. apply not_elem_of_list_to_map_1.
    rewrite <-!list_fmap_compose. exact Hq.
Qed.

Lemma withdrawn_quotes d id :
  quotes_keyed d →
  by_quote_id (withdrawn_quote <$> quotes_of d id) ∪ rfq_quotes d = withdraw_from id <$> rfq_quotes d.
Proof.
  intros Hk. apply map_eq. intros k. rewrite lookup_fmap, lookup_union.
  assert (NoDup ((λ q, (qt_id q, q)) <$> (withdrawn_quote <$> quotes_of d id)).*1) as Hnd.
  { rewrite <-!list_fmap_compose. by apply quotes_NoDup. }
  destruct (rfq_quotes d !! k) as [q|] eqn:Hq; cbn.
  - pose proof (Hk _ _ Hq) as Hid. cbn in Hid. unfold withdraw_from. destruct (decide (qt_rfq_id q = id)) as [E|E].
    + assert (by_quote_id (withdrawn_quote <$> quotes_of d id) !! k = Some (withdrawn_quote q)) as ->; [|done].
      apply elem_of_list_to_map; [done|]. apply list_elem_of_fmap. exists (withdrawn_quote q).
      split; [by rewrite <-Hid|]. apply list_elem_of_fmap. exists q. split; [done|].
      apply elem_of_quotes; [done|]. by rewrite Hid.
    + assert (by_quote_id (withdrawn_quote <$> quotes_of d id) !! k = None) as ->; [|done].
      apply not_elem_of_list_to_map_1. rewrite <-!list_fmap_compose.
      intros (x & Hx & [Hin Ho]%elem_of_quotes)%list_elem_of_fmap; [|done]. cbn in Hx.
      change (k = qt_id x) in Hx. subst k. congruence.
  - rewrite (right_id_L None _). apply not_elem_of_list_to_map_1. rewrite <-!list_fmap_compose.
    intros (x & Hx & [Hin Ho]%elem_of_quotes)%list_elem_of_fmap; [|done]. change (k = qt_id x) in Hx. congruence.
Qed.

(** ** What the guards establish *)

Lemma load_rfq_ok id b v w r w' :
  _load_rfq id b v w = Ok r w' → rfqs (db w) !! id = Some r ∧ v r = true ∧ reads w w'.
Proof.
  intros H. pose proof (keeps_ok reads _ _ _ _ (reads_load_rfq id b v) H) as Hr.
  unfold _load_rfq in H. apply bind_ok in H as ([] & w1 & Hl & H).
  assert (db w1 = db w) as Hd by (destruct b; by inversion Hl).
  apply bind_ok in H as (d & w2 & [= <- <-] & H). rewrite Hd in H.
  destruct (rfqs (db w) !! id) as [x|]; [|discriminate]. destruct (v x) eqn:Hv; [|discriminate].
  injection H as -> _. done.
Qed.

Lemma lock_rfq_ok id v w r quotes w' :
  synced w → rfqs_ok (db w) → lock_rfq id v w = Ok (r, quotes) w' →
  rfqs (db w) !! rq_id r = Some r ∧ rq_id r = id ∧ v r = true ∧ quotes = quotes_of (db w) (rq_id r).
Proof.
  intros Hsync (Hk & _) H. unfold lock_rfq in H.
  apply bind_ok in H as (r0 & w1 & (_ & _ & Hr1)%load_rfq_ok & H).
  apply bind_ok in H as ([] & w2 & Hs & H). pose proof (keeps_ok reads _ _ _ _ (reads_slice_lock _ _ _) Hs) as Hr2.
  apply bind_ok in H as (r1 & w3 & (Hn & Hv & Hr3)%load_rfq_ok & H).
  apply rollback_raise_ok in H as [_ H]. apply bind_ok in H as (d & w4 & [= <- <-] & H).
  apply bind_ok in H as ([] & w5 & _ & [= -> <- _]).
  assert (db w2 = db w ∧ db w3 = db w) as [E2 E3].
  { destruct Hr1 as [E1 _], Hr2 as [E2 _], Hr3 as [E3 _]. split; congruence. }
  rewrite E2 in Hn. rewrite E3. pose proof (Hk _ _ Hn) as Hid. cbn in Hid. rewrite Hid. by split_and!.
Qed.

(** The actor's organization has to be among the loaded ones. *)
Lemma lock_and_load_actor_in ids user org w orgs w' x :
  x ∈ ids → lock_and_load_market_organizations ids [MkMarketActorOwnership user org] true [] w = Ok orgs w' → org ∈ ids.
Proof.
  intros Hx H. unfold lock_and_load_market_organizations in H. cbv zeta in H.
  rewrite bool_decide_eq_false_2 in H by (by eapply sorted_set_nonempty).
  apply bind_ok in H as (found & w1 & (u & Hu & Horg & Hfound & Hdb1)%lock_actors_ok & H).
  apply bind_ok in H as (gs & w5 & [-> Hdb5]%lock_organizations_ok & H).
  apply bind_ok in H as ([] & w6 & [_ ->]%refuse_ok & H). apply bind_ok in H as ([] & w7 & [_ ->]%refuse_ok & H).
  apply bind_ok in H as ([] & w8 & Hel & _). set (rows := filter _ _) in *.
  unfold check_actors_eligible in Hel. apply bind_ok in Hel as (d & w9 & [= <- <-] & Hel).
  assert (ownership_by_user [MkMarketActorOwnership user org] = {[ user := org ]}) as Hown by done.
  rewrite Hown, map_to_list_singleton in Hel. cbn [iterM] in Hel. rewrite Hfound in Hel.
  destruct (rows !! org) as [g|] eqn:Hg; [|discriminate].
  apply map_lookup_filter_Some in Hg as [_ Hin]. cbn in Hin. rewrite !sorted_set_elem in Hin. exact Hin.
Qed.

Lemma lock_rfq_owner_ok r u w x w' :
  lock_rfq_owner r u w = Ok x w' →
  u_organization_id u = Some (rq_buyer_org_id r) ∧ admitted_member (db w) (u_id u) (rq_buyer_org_id r).
Proof.
  unfold lock_rfq_owner. destruct (u_organization_id u) as [org|].
  - intros (orgs & w1 & H & _)%bind_ok.
    assert (org ∈ [rq_buyer_org_id r]) as ->%list_elem_of_singleton.
    { eapply lock_and_load_actor_in; [|exact H]. by left. }
    split; [done|]. by apply lock_and_load_member in H.
  - intros (found & w1 & _ & H)%bind_ok. destruct (found !! u_id u) as [x0|]; [|discriminate].
    apply bind_ok in H as ([] & w2 & _ & H). apply bind_ok in H as (orgs & w3 & _ & H).
    destruct (orgs !! rq_buyer_org_id r); [|discriminate]. by apply bind_ok in H as ([] & w4 & _ & [=]).
Qed.

Lemma admit_quote_ok r quotes org w x w' :
  admit_quote r quotes org w = Ok x w' →
  supplier_visible_status (rq_status r) = true ∧ (∃ t, observed w t ∧ t < rq_expires_at r)
  ∧ rq_buyer_org_id r ≠ org ∧ Forall (λ q, qt_seller_org_id q ≠ org) quotes.
Proof.
  unfold admit_quote. intros ([] & w1 & [Hs ->]%refuse_ok & H)%bind_ok. apply negb_false_iff in Hs.
  apply bind_ok in H as (now & w2 & [= <- <-] & H). apply bind_ok in H as ([] & w3 & [Ht ->]%refuse_ok & H).
  apply bind_ok in H as ([] & w4 & [Hne ->]%refuse_ok & [Hf _]%refuse_ok).
  apply Z.leb_gt in Ht. apply bool_decide_eq_false in Hne, Hf. apply dec_stable in Hf.
  split_and!; [done| |done|].
  - eexists. split; [by eexists|exact Ht].
  - apply Forall_forall. intros q Hq Horg. assert (q ∈ filter (λ q, qt_seller_org_id q = org) quotes) as Hin.
    { by apply list_elem_of_filter. }
    rewrite Hf in Hin. by apply elem_of_nil in Hin.
Qed.

(** ** The routes *)

Inductive rfq_answer := Asked (x : RFQResponse) | Quoted (x : RFQQuoteResponse) | Done.
Definition run_rfq (rq : rfq_request) (u : User) : M World rfq_answer :=
  match rq with
  | Ask p => x ← create_rfq p u; mret (Asked x)
  | Quote id p => x ← submit_quote id p u; mret (Quoted x)
  | AcceptQuote id quote_id => x ← accept_quote id quote_id u; mret (Quoted x)
  | Withdraw id => cancel_rfq id u ;; mret Done
  end.

(** The answer shows what the step has written. *)
Definition answer_shows (d : Database) (org : uuid) (rq : rfq_request) (r : RFQ) (x : rfq_answer) : Prop :=
  match rq, x with
  | Ask _, Asked x => rfq_response d r (quotes_of d (rq_id r)) (Some org) = Val x
  | Quote _ p, Quoted x => ∃ q, q ∈ quotes_of d (rq_id r) ∧ x = quote_response d q
      ∧ qt_seller_org_id q = org ∧ qt_price_per_mt_usd q = to_cents (rqq_price_per_mt_usd p)
  | Withdraw _, Done => True
  | _, _ => False
  end.

(** A request is a step of the board, committed with everything else as it was,
    or a refusal that leaves every table alone. *)
Definition board_outcome (w : World) (u : User) (rq : rfq_request) (out : outcome World rfq_answer) : Prop :=
  match out with
  | Ok x w' => ∃ org r quotes, u_organization_id u = Some org
      ∧ rfq_step (db w) (observed w) u org rq r quotes ∧ same_tables (board_after (db w) r quotes) (db w')
      ∧ committed w' = db w' ∧ database_checks (db w') ∧ rfqs_ok (db w') ∧ answer_shows (db w') org rq r x
  | Raise _ w' => reads w w'
  end.

(** The rows are written: what is left announces, commits and answers. *)
Lemma board_settled w w1 u org rq r quotes (announce : M World unit)
    (rest answer : M World rfq_answer) :
  database_checks (db w) → rfqs_ok (db w) → u_organization_id u = Some org →
  rfq_step (db w) (observed w) u org rq r quotes → same_tables (board_after (db w) r quotes) (db w1) →
  (database_checks (db w1) → Succeeds announce w1) → Keeps only_events announce →
  (∀ w2 w3, announce w1 = Ok tt w2 → commit w2 = Ok tt w3 → rest w1 = answer w3) →
  (∀ w', same_tables (board_after (db w) r quotes) (db w') → rfqs_ok (db w') →
     ∃ x, answer w' = Ok x w' ∧ answer_shows (db w') org rq r x) →
  board_outcome w u rq (rest w1).
Proof.
  intros Hc Hok Hu Hs Hsame Ha Hk Hrest Hx. pose proof (step_checks _ _ _ _ _ _ _ Hc Hok Hs) as Hc1.
  pose proof (step_board _ _ _ _ _ _ _ Hok Hs) as Hok1.
  destruct (Ha (same_tables_checks _ _ Hsame Hc1)) as ([] & w2 & Hrun).
  pose proof (keeps_ok only_events _ _ _ _ Hk Hrun) as Hev%only_events_same_tables.
  assert (same_tables (board_after (db w) r quotes) (db w2)) as Hsame2.
  { destruct Hsame as [M1 H1], Hev as [M2 H2]. split; [by etrans|]. destruct_and! H1. destruct_and! H2.
    split_and!; congruence. }
  pose proof (same_tables_checks _ _ Hsame2 Hc1) as Hc2. pose proof (same_tables_rfqs _ _ Hsame2 Hok1) as Hok2.
  pose proof (commit_run w2 Hc2) as Hcommit. set (w3 := _ <| committed := _ |>) in Hcommit.
  destruct (Hx w3 Hsame2 Hok2) as (x & Hrun' & Hshow).
  rewrite (Hrest w2 w3 Hrun Hcommit), Hrun'.
  exists org, r, quotes. by split_and!.
Qed.

Lemma response_returns d r l viewer :
  JSON_SCHEMA_PATTERN (rq_availability_window r) = true → ∃ x, rfq_response d r l viewer = Val x.
Proof. intros Hw. unfold rfq_response. rewrite normalize_of_canonical by done. by eexists. Qed.

(** What an open request looks like once it is written. *)
Lemma asked_row d d' seen u org p r :
  rfq_step d seen u org (Ask p) r (rfq_quotes d) → same_tables (board_after d r (rfq_quotes d)) d' → rfqs_ok d' →
  quotes_of d' (rq_id r) = [] ∧ JSON_SCHEMA_PATTERN (rq_availability_window r) = true.
Proof.
  intros Hs (_ & H) (_ & _ & _ & Hrows). destruct_and! H.
  assert (rfqs d' !! rq_id r = Some r) as Hr.
  { match goal with E : rfqs d' = _ |- _ => rewrite E end. apply lookup_insert_eq. }
  destruct (Hrows _ _ Hr) as (_ & Hq & Hw). inversion Hs; subst; by split.
Qed.

Section routes.
Context (w : World) (u : User) (Hsync : synced w) (Hchecks : database_checks (db w)) (Hok : rfqs_ok (db w)).

(** A guard first: a refusal, or the run goes on over the same tables. *)
Lemma board_guard {A} rq (m : M World A) (k : A → M World rfq_answer) w1 :
  reads w w1 → Keeps reads_synced m →
  (∀ a w2, m w1 = Ok a w2 → reads w w2 → board_outcome w u rq (k a w2)) → board_outcome w u rq ((m ≫= k) w1).
Proof.
  intros Hr Hm Hk. apply (frame_bind reads_synced); [done| |].
  - intros e w2 H2. exact (reads_trans_synced w w1 w2 Hsync Hr H2).
  - intros a w2 Hrun H2. apply Hk; [done|]. exact (reads_trans_synced w w1 w2 Hsync Hr H2).
Qed.

Lemma seen_by w1 k : reads w w1 → observed w (clock w1 k).
Proof. intros (_ & _ & _ & Hcl). exists k. by rewrite Hcl. Qed.

(** The new row, its announcement and the answer. *)
Definition publish_rfq (p : RFQCreateRequest) (window : string) (org : uuid) : M World RFQResponse :=
  now ← utcnow;
  d ← get_db;
  created_at ← utcnow;
  let r := new_rfq (fresh_id (rfqs d)) p window org (u_id u) now created_at in
  put_rfq r ;; flush ;; announce_rfq r p (u_id u) ;; commit ;; _build_rfq_response r [] (Some org).

Lemma publish_outcome p window org w1 :
  reads w w1 → u_organization_id u = Some org →
  (∀ now created_at, observed w now → observed w created_at →
     rfq_step (db w) (observed w) u org (Ask p)
       (new_rfq (fresh_id (rfqs (db w))) p window org (u_id u) now created_at) (rfq_quotes (db w))) →
  board_outcome w u (Ask p) ((x ← publish_rfq p window org; mret (Asked x)) w1).
Proof.
  intros Hr1 Hu Hstep. assert (db w1 = db w) as Hd1 by apply Hr1. unfold publish_rfq.
  do 4 (rewrite bind_assoc; erewrite bind_run by reflexivity).
  set (r := new_rfq _ _ _ _ _ _ _). set (w2 := set_field _ _).
  assert (rfq_step (db w) (observed w) u org (Ask p) r (rfq_quotes (db w))) as Hs.
  { unfold r. cbn [rfqs]. change (db (set_field _ w1)) with (db w1). rewrite Hd1.
    apply Hstep; [by apply seen_by|exact (seen_by w1 (S (clock_reads w1)) Hr1)]. }
  assert (db w2 = board_after (db w) r (rfq_quotes (db w))) as Hd2.
  { transitivity (board_after (db w1) r (rfq_quotes (db w1))); [done|by rewrite Hd1]. }
  clearbody w2 r. assert (database_checks (db w2)) as Hc2 by (rewrite Hd2; by eapply step_checks).
  rewrite bind_assoc. erewrite bind_run by (by apply flush_run).
  apply (board_settled w w2 u org (Ask p) r (rfq_quotes (db w)) (announce_rfq r p (u_id u)) _
    (x ← _build_rfq_response r [] (Some org); mret (Asked x))); try done;
    [by rewrite Hd2|intros Hc'; exact (announce_rfq_returns w2 Hc' r p (u_id u))|keeps| |].
  - intros w3 w4 H3 H4. rewrite bind_assoc. erewrite bind_run by exact H3. rewrite bind_assoc.
    by erewrite bind_run by exact H4.
  - intros w' Hsame Hok'. pose proof (asked_row (db w) (db w') _ _ _ _ _ Hs Hsame Hok') as [Hq Hw].
    destruct (response_returns (db w') r [] (Some org) Hw) as [x Hx]. exists (Asked x). cbn [answer_shows]. rewrite Hq.
    split; [|done]. unfold _build_rfq_response. rewrite bind_assoc. erewrite bind_run by reflexivity. rewrite Hx. reflexivity.
Qed.

Lemma ask_outcome p : rfq_create_valid p → board_outcome w u (Ask p) (run_rfq (Ask p) u w).
Proof.
  intros Hp. cbn [run_rfq]. unfold create_rfq. rewrite bind_assoc. apply board_guard; [done|keeps|].
  intros [] w1 _ Hr1. destruct (u_organization_id u) as [org|] eqn:Hu; [|exact Hr1].
  rewrite bind_assoc. apply board_guard; [done|keeps|]. intros [] w2 [Hrole _]%refuse_ok Hr2.
  apply bool_decide_eq_false, dec_stable in Hrole.
  rewrite bind_assoc. apply board_guard; [done|keeps|]. intros window w3 [Hwin _]%lift_ok Hr3.
  rewrite bind_assoc. apply board_guard; [done|keeps|]. intros today w4 [= Htoday _] Hr4.
  rewrite bind_assoc. apply board_guard; [done|keeps|]. intros tradable w5 [Htr _]%lift_ok Hr5.
  rewrite bind_assoc. apply board_guard; [done|keeps|]. intros [] w6 [Ht _]%refuse_ok Hr6.
  apply negb_false_iff in Ht. subst tradable.
  rewrite bind_assoc. apply board_guard; [done|keeps|]. intros pp w7 _ Hr7.
  rewrite bind_assoc. apply board_guard; [done|keeps|]. intros [] w8 _ Hr8.
  rewrite bind_assoc. apply board_guard; [done|keeps|]. intros orgs w9 Hload%lock_and_load_member Hr9.
  rewrite bind_assoc. apply board_guard; [done|keeps|]. intros [] w10 _ Hr10.
  rewrite bind_assoc. apply board_guard; [done|keeps|]. intros pp' w11 _ Hr11.
  assert (db w8 = db w) as Hd8 by apply Hr8. rewrite Hd8 in Hload.
  apply (publish_outcome p window org w11); [done|done|]. intros now created_at Hnow Hcreated.
  apply (step_ask _ _ _ _ p window today); try done. rewrite <-Htoday. by apply seen_by.
Qed.

(** The new answer, its announcement and the response. *)
Definition publish_quote (r : RFQ) (p : RFQQuoteRequest) (org : uuid) : M World RFQQuoteResponse :=
  d ← get_db;
  created_at ← utcnow;
  let q := new_quote (fresh_id (rfq_quotes d)) r p org (u_id u) created_at in
  put_quote q ;; put_rfq (quoted_rfq r) ;; flush ;; announce_quote r (quoted_rfq r) q p (u_id u) ;; commit ;;
  d ← get_db;
  mret (quote_response d q).

Lemma quote_outcome_of r p org w1 :
  reads w w1 → u_organization_id u = Some org →
  (∀ created_at, observed w created_at →
     let q := new_quote (fresh_id (rfq_quotes (db w))) r p org (u_id u) created_at in
     rfq_step (db w) (observed w) u org (Quote (rq_id r) p) (quoted_rfq r) (<[ qt_id q := q ]> (rfq_quotes (db w)))) →
  board_outcome w u (Quote (rq_id r) p) ((x ← publish_quote r p org; mret (Quoted x)) w1).
Proof.
  intros Hr1 Hu Hstep. assert (db w1 = db w) as Hd1 by apply Hr1. unfold publish_quote.
  do 4 (rewrite bind_assoc; erewrite bind_run by reflexivity).
  set (q := new_quote _ _ _ _ _ _). set (w2 := set_field _ _).
  assert (rfq_step (db w) (observed w) u org (Quote (rq_id r) p) (quoted_rfq r) (<[ qt_id q := q ]> (rfq_quotes (db w)))) as Hs.
  { unfold q. rewrite Hd1. apply Hstep. by apply seen_by. }
  assert (db w2 = board_after (db w) (quoted_rfq r) (<[ qt_id q := q ]> (rfq_quotes (db w)))) as Hd2.
  { transitivity (board_after (db w1) (quoted_rfq r) (<[ qt_id q := q ]> (rfq_quotes (db w1)))); [done|by rewrite Hd1]. }
  assert (qt_rfq_id q = rq_id r ∧ qt_seller_org_id q = org ∧ qt_price_per_mt_usd q = to_cents (rqq_price_per_mt_usd p))
    as (Hof & Hseller & Hprice) by done.
  clearbody w2 q. assert (database_checks (db w2)) as Hc2 by (rewrite Hd2; by eapply step_checks).
  rewrite bind_assoc. erewrite bind_run by (by apply flush_run).
  apply (board_settled w w2 u org (Quote (rq_id r) p) (quoted_rfq r) (<[ qt_id q := q ]> (rfq_quotes (db w)))
    (announce_quote r (quoted_rfq r) q p (u_id u)) _ (d ← get_db; mret (Quoted (quote_response d q)))); try done;
    [by rewrite Hd2|intros Hc'; exact (announce_quote_returns w2 Hc' r (quoted_rfq r) q p (u_id u))|keeps| |].
  - intros w3 w4 H3 H4. rewrite bind_assoc. erewrite bind_run by exact H3. rewrite bind_assoc.
    erewrite bind_run by exact H4. done.
  - intros w' (_ & H) Hok'. eexists. split; [reflexivity|]. exists q. split_and!; try done.
    destruct_and! H. apply elem_of_quotes; [apply Hok'|]. split.
    + match goal with E : rfq_quotes (db w') = _ |- _ => rewrite E end. apply lookup_insert_eq.
    + rewrite Hof. unfold quoted_rfq. by case_bool_decide.
Qed.

Lemma quote_outcome id p : rfq_quote_valid p → board_outcome w u (Quote id p) (run_rfq (Quote id p) u w).
Proof.
  intros Hp. cbn [run_rfq]. unfold submit_quote. rewrite bind_assoc. apply board_guard; [done|keeps|].
  intros [] w1 _ Hr1. destruct (u_organization_id u) as [org|] eqn:Hu; [|exact Hr1].
  rewrite bind_assoc. apply board_guard; [done|keeps|]. intros [] w2 [Hrole _]%refuse_ok Hr2.
  apply bool_decide_eq_false, dec_stable in Hrole.
  rewrite bind_assoc. apply board_guard; [done|keeps|]. intros visible w3 _ Hr3.
  rewrite bind_assoc. apply board_guard; [done|keeps|]. intros [r quotes] w4 Hlock Hr4.
  assert (db w3 = db w) as Hd3 by apply Hr3.
  apply lock_rfq_ok in Hlock as (Hr & <- & _ & ->); [|by apply (synced_after w Hsync)|by rewrite Hd3]. rewrite Hd3 in *.
  rewrite bind_assoc. apply board_guard; [done|keeps|]. intros orgs w5 Hload Hr5.
  apply lock_and_load_ok in Hload as (_ & Happ & Hadm); [|by right; left].
  assert (db w4 = db w) as Hd4 by apply Hr4. rewrite Hd4 in Happ, Hadm.
  rewrite bind_assoc. apply board_guard; [done|keeps|]. intros [] w6 _ Hr6.
  rewrite bind_assoc. apply board_guard; [done|keeps|]. intros pp w7 _ Hr7.
  rewrite bind_assoc. apply board_guard; [done|keeps|]. intros [] w8 (Hst & (t & Ht & Hlive) & Hne & Hfirst)%admit_quote_ok Hr8.
  apply (quote_outcome_of r p org w8); [done|done|]. intros created_at Hcreated q.
  apply (step_quote _ _ _ _ r p t); try done.
  - by apply (observed_reads w w7).
  - apply Happ. by left.
Qed.

Lemma accept_quote_outcome id quote_id : board_outcome w u (AcceptQuote id quote_id) (run_rfq (AcceptQuote id quote_id) u w).
Proof. cbn [run_rfq]. unfold accept_quote. rewrite bind_assoc. apply board_guard; [done|keeps|]. by intros [] w1 _ Hr1. Qed.

Lemma withdraw_outcome id : board_outcome w u (Withdraw id) (run_rfq (Withdraw id) u w).
Proof.
  cbn [run_rfq]. unfold cancel_rfq. rewrite bind_assoc. apply board_guard; [done|keeps|]. intros [r quotes] w1 Hlock Hr1.
  apply lock_rfq_ok in Hlock as (Hr & <- & _ & ->); [|done..].
  rewrite bind_assoc. apply board_guard; [done|keeps|]. intros [] w2 [Hu Hadm]%lock_rfq_owner_ok Hr2.
  assert (db w1 = db w) as Hd1 by apply Hr1. rewrite Hd1 in Hadm.
  rewrite bind_assoc. apply board_guard; [done|keeps|]. intros [] w3 [Hown%negb_false_iff _]%refuse_ok Hr3.
  rewrite bind_assoc. apply board_guard; [done|keeps|]. intros [] w4 [Hst%negb_false_iff _]%refuse_ok Hr4.
  assert (db w4 = db w) as Hd4 by apply Hr4. rewrite bind_assoc. erewrite bind_run by reflexivity.
  set (w5 := set_field _ w4). pose proof (step_withdraw (db w) (observed w) u _ r Hr Hst Hown eq_refl Hadm) as Hs.
  pose proof Hok as (_ & Hqk & _ & Hrows). pose proof (Hrows _ _ Hr) as (_ & Hq & _).
  destruct (withdraw_loop (u_id u) (quotes_of (db w) (rq_id r)) w5) as (w6 & Hrun & Hev & Hquotes).
  { by apply quotes_NoDup. }
  { destruct (rq_status r); try done; [by rewrite Hq|apply Hq]. }
  rewrite bind_assoc. erewrite bind_run by exact Hrun.
  apply (board_settled w w6 u _ _ _ _ (announce_withdrawal r (quotes_of (db w) (rq_id r)) (u_id u)) _ (mret Done)
    Hchecks Hok Hu Hs); [|intros Hc'; exact (announce_withdrawal_returns w6 Hc' r _ (u_id u))|keeps| |].
  - apply only_events_same_tables in Hev. cbn in Hev. rewrite Hquotes in Hev.
    change (rfq_quotes (db w5)) with (rfq_quotes (db w4)) in Hev. change (rfqs (db w5)) with (<[rq_id r := withdrawn_rfq r]> (rfqs (db w4))) in Hev.
    rewrite Hd4, (withdrawn_quotes (db w) (rq_id r) Hqk) in Hev. exact Hev.
  - intros w7 w8 H7 H8. rewrite bind_assoc. erewrite bind_run by exact H7. by erewrite bind_run by exact H8.
  - intros w' _ _. by exists Done.
Qed.

Lemma run_rfq_outcome rq : rfq_valid rq → board_outcome w u rq (run_rfq rq u w).
Proof.
  destruct rq; intros Hv; [by apply ask_outcome|by apply quote_outcome|apply accept_quote_outcome|apply withdraw_outcome].
Qed.
End routes.

(** ** Who may withdraw *)

(** The caller locked and loaded with one organization: what goes wrong. *)
Definition refused (status : Z) (e : exn) : Prop := ∃ msg, e = HTTPException status (Msg msg).

Lemma lock_and_load_refuses b user org u w :
  users (db w) !! user = Some u → u_organization_id u = Some org →
  let run := lock_and_load_market_organizations [b] [MkMarketActorOwnership user org] true [] w in
  (org ≠ b → approved_organization (db w) b → ∃ w', run = Raise KeyError w')
  ∧ (org = b → ¬ admitted_member (db w) user org → ∃ e w', run = Raise e w' ∧ refused 409 e).
Proof.
  intros Hu Horg run. subst run. unfold lock_and_load_market_organizations. cbv zeta. rewrite sorted_set_singleton.
  rewrite bool_decide_eq_false_2 by done.
  assert (ownership_by_user [MkMarketActorOwnership user org] = {[ user := org ]}) as -> by done.
  destruct (lock_actors_run user org u w Hu Horg) as (w1 & Hrun & Hr1). erewrite bind_run by exact Hrun.
  assert (db w1 = db w) as Hd1 by apply Hr1. unfold lock_organizations.
  erewrite bind_run by reflexivity. rewrite sorted_set_singleton. cbn [organizations db set_field]. cbn.
  rewrite locked_singleton, Hd1. set (w2 := set_field _ w1).
  assert (db w2 = db w) as Hd2 by exact Hd1. clearbody w2. rewrite (right_id_L ∅ (∪)).
  destruct (organizations (db w) !! b) as [g|] eqn:Hg; cycle 1.
  { split; [intros _ (g & Hg' & _); congruence|]. intros _ _. eexists _, _. split; [|by eexists].
    apply bind_raise. unfold refuse. by rewrite bool_decide_eq_true_2 by set_solver. }
  erewrite bind_run by (unfold refuse; by rewrite bool_decide_eq_false_2 by (rewrite dom_singleton_L; set_solver)).
  rewrite map_to_list_singleton. cbn [existsb]. rewrite bool_decide_eq_true_2, orb_false_r, andb_true_l by set_solver.
  destruct (decide (upper (g_verification_status g) = APPROVED_ORGANIZATION_STATUS)) as [Ha|Ha]; cycle 1.
  { split; [intros _ (g' & Hg' & Ha'); congruence|]. intros _ _. eexists _, _. split; [|by eexists].
    apply bind_raise. unfold refuse. by rewrite bool_decide_eq_true_2. }
  erewrite bind_run by (unfold refuse; by rewrite bool_decide_eq_false_2 by (intros []; done)).
  unfold check_actors_eligible. rewrite map_to_list_singleton. cbn [iterM]. rewrite lookup_singleton_eq.
  split.
  - intros Hne _. eexists. apply bind_raise. erewrite bind_run by reflexivity.
    by rewrite lookup_singleton_ne by done.
  - intros -> Hnot. eexists _, _. split; [|by eexists]. apply bind_raise. erewrite bind_run by reflexivity.
    rewrite lookup_singleton_eq, Hd2. apply bind_raise. unfold refuse.
    destruct (execution_party_is_eligible _ _ _) eqn:He; [|done]. destruct Hnot. by exists u, g.
Qed.

Lemma lock_rfq_run id v w r :
  rfqs_ok (db w) → rfqs (db w) !! id = Some r → v r = true →
  ∃ w', lock_rfq id v w = Ok (r, quotes_of (db w) id) w' ∧ reads w w'.
Proof.
  intros (_ & _ & _ & Hrows) Hr Hv. destruct (Hrows _ _ Hr) as (_ & _ & Hw). unfold lock_rfq. eexists. split.
  - erewrite bind_run by (unfold _load_rfq; erewrite bind_run by reflexivity; erewrite bind_run by reflexivity; by rewrite Hr, Hv).
    erewrite bind_run; cycle 1.
    { unfold acquire_market_slice_lock. erewrite bind_run by (unfold lift; by rewrite normalize_of_canonical). reflexivity. }
    erewrite bind_run; cycle 1.
    { unfold _load_rfq. erewrite bind_run by reflexivity. erewrite bind_run by reflexivity.
      match goal with |- context [rfqs ?d !! id] => change (rfqs d) with (rfqs (db w)) end. by rewrite Hr, Hv. }
    unfold rollback_raise. rewrite bool_decide_eq_false_2 by (intros []; done).
    erewrite bind_run by reflexivity. by erewrite bind_run by reflexivity.
  - by repeat split.
Qed.

(** C39: Withdrawing a request still takes admission.  The route is documented
    to cancel an owned request "even after its owner's execution eligibility
    changes", but it locks the caller as an admitted member first: an owner who
    is no longer admitted, or whose organization is no longer approved, is
    refused with HTTP 409 and the request stays open.  A user of another
    organization meets an unhandled KeyError, never the intended HTTP 403.
    Nothing changes in either case. *)
Theorem cancel_rfq_needs_admission id u w r user org :
  rfqs_ok (db w) → rfqs (db w) !! id = Some r →
  u_organization_id u = Some org → users (db w) !! u_id u = Some user → u_organization_id user = Some org →
  ¬ (org = rq_buyer_org_id r ∧ admitted_member (db w) (u_id u) org) →
  (org ≠ rq_buyer_org_id r → approved_organization (db w) (rq_buyer_org_id r)) →
  ∃ e w', cancel_rfq id u w = Raise e w' ∧ reads w w'
    ∧ (if decide (org = rq_buyer_org_id r) then refused 409 e else e = KeyError).
Proof.
  intros Hok Hr Hu Huser Horg Hnot Happ.
  destruct (lock_rfq_run id (λ _, true) w r Hok Hr eq_refl) as (w1 & Hlock & Hr1).
  assert (db w1 = db w) as Hd1 by apply Hr1.
  assert (∃ e w2, lock_rfq_owner r u w1 = Raise e w2
    ∧ (if decide (org = rq_buyer_org_id r) then refused 409 e else e = KeyError)) as (e & w2 & Hrun & He).
  { unfold lock_rfq_owner. rewrite Hu.
    destruct (lock_and_load_refuses (rq_buyer_org_id r) (u_id u) org user w1) as [H1 H2]; [by rewrite Hd1|done|].
    rewrite Hd1 in H1, H2. destruct (decide (org = rq_buyer_org_id r)) as [E|E].
    - destruct (H2 E) as (e & w2 & Hrun & He); [by intros ?; destruct Hnot|]. exists e, w2. split; [|done].
      by apply bind_raise.
    - destruct (H1 E (Happ E)) as (w2 & Hrun). exists KeyError, w2. split; [|done]. by apply bind_raise. }
  exists e, w2. split_and!; [|etrans; [exact Hr1|]|done].
  - unfold cancel_rfq. erewrite bind_run by exact Hlock. by apply bind_raise.
  - pose proof (reads_lock_rfq_owner r u w1) as Hk. by rewrite Hrun in Hk.
Qed.

(** ** What an outsider learns *)

(** A request without its buyer. *)
Definition unsigned (r : RFQ) : RFQ := r <| rq_buyer_org_id := 0%N |> <| rq_buyer_user_id := None |>.

(** Two boards that differ, for the request [id], in who asks and in the answers
    of the others - but not in how many there are. *)
Record same_view (viewer id : uuid) (d d' : Database) : Prop := {
  sv_rows : ∃ r r', rfqs d !! id = Some r ∧ rfqs d' !! id = Some r' ∧ unsigned r = unsigned r'
    ∧ rq_is_anonymous r = true ∧ rq_buyer_org_id r ≠ viewer ∧ rq_buyer_org_id r' ≠ viewer;
  sv_mine : filter (λ q, qt_seller_org_id q = viewer) (quotes_of d id)
            = filter (λ q, qt_seller_org_id q = viewer) (quotes_of d' id);
  sv_count : length (quotes_of d id) = length (quotes_of d' id);
  sv_products : products d = products d';
  sv_points : delivery_points d = delivery_points d';
  sv_name : org_name d viewer = org_name d' viewer;
}.

Definition result {S A} (o : outcome S A) : A + exn :=
  match o with Ok a _ => inl a | Raise e _ => inr e end.

Section view.
Context (viewer id : uuid) (d d' : Database) (Hv : same_view viewer id d d').
Context (r r' : RFQ) (Hr : rfqs d !! id = Some r) (Hr' : rfqs d' !! id = Some r').

Lemma view_rows :
  unsigned r = unsigned r' ∧ rq_is_anonymous r = true ∧ rq_buyer_org_id r ≠ viewer ∧ rq_buyer_org_id r' ≠ viewer.
Proof. destruct (sv_rows _ _ _ _ Hv) as (x & x' & Hx & Hx' & H). by simplify_eq. Qed.

Lemma visible_quotes (l : list RFQQuote) :
  filter (λ q, false = true ∨ Some viewer = Some (qt_seller_org_id q)) l = filter (λ q, qt_seller_org_id q = viewer) l.
Proof. apply list_filter_iff. intros q. split; [by intros [[=]|[= ->]]|intros ->; by right]. Qed.

Lemma view_quotes :
  quote_response d <$> filter (λ q, qt_seller_org_id q = viewer) (quotes_of d id)
  = quote_response d' <$> filter (λ q, qt_seller_org_id q = viewer) (quotes_of d' id).
Proof.
  rewrite <-(sv_mine _ _ _ _ Hv). apply Forall_fmap_ext_1, Forall_forall. intros q [<- _]%list_elem_of_filter.
  unfold quote_response. by rewrite (sv_name _ _ _ _ Hv).
Qed.

Lemma view_response :
  rfq_response d r (quotes_of d id) (Some viewer) = rfq_response d' r' (quotes_of d' id) (Some viewer).
Proof.
  destruct view_rows as (Hsame & Hanon & Hne & Hne'). unfold rfq_response.
  rewrite !bool_decide_eq_false_2 by congruence. cbv zeta. rewrite !visible_quotes, view_quotes, (sv_count _ _ _ _ Hv).
  rewrite (sv_products _ _ _ _ Hv), (sv_points _ _ _ _ Hv).
  destruct r, r'. cbn in *. injection Hsame as -> -> -> -> -> -> -> -> -> -> -> -> ->. by subst.
Qed.

Lemma view_supplier now : supplier_sees viewer now r = supplier_sees viewer now r'.
Proof.
  destruct view_rows as (Hsame & _ & Hne & Hne'). unfold supplier_sees. rewrite !bool_decide_eq_true_2 by done.
  destruct r, r'. cbn in *. by injection Hsame as -> -> -> -> -> -> -> -> -> -> -> -> ->.
Qed.
End view.

(** C17: An anonymous request does not tell who asks.  What a user of another
    organization is answered about it - its response or the refusal - depends
    neither on the buyer nor on the answers of other suppliers: two boards that
    differ only in these look the same, except for how many answers there are. *)
Theorem anonymous_rfq_hides_buyer viewer id u w w' :
  same_view viewer id (db w) (db w') → clock w = clock w' → clock_reads w = clock_reads w' →
  u_organization_id u = Some viewer → result (get_rfq id u w) = result (get_rfq id u w').
Proof.
  intros Hv Hclock Hreads Hu. pose proof Hv as [(r & r' & Hr & Hr' & Hsame & Hanon & Hne & Hne') _ _ _ _ _].
  pose proof (view_response _ _ _ _ Hv r r' Hr Hr') as Hresp. pose proof (view_supplier _ _ _ _ Hv r r' Hr Hr') as Hsees.
  unfold get_rfq, _rfq_visibility_filters. rewrite Hu. unfold _load_rfq, _ensure_rfq_detail_visible, _build_rfq_response, result. rewrite Hu.
  unfold mbind, M_bind, mret, M_ret, utcnow, get_db, gets, refuse, lift.
  destruct (bool_decide (u_role u = Some SUPPLIER)) eqn:Hrole; cbn; rewrite Hr, Hr'.
  - rewrite Hclock, Hreads, <-Hsees. destruct (supplier_sees viewer _ r) eqn:E; [cbn|done].
    assert (supplier_visible_status (rq_status r) = true ∧ supplier_visible_status (rq_status r') = true) as [-> ->].
    { pose proof E as E'. rewrite Hsees in E'. unfold supplier_sees in E, E'. rewrite !andb_true_iff in E, E'. tauto. }
    rewrite !bool_decide_eq_true_2 by done. cbn. rewrite Hclock, <-Hsees.
    destruct (negb _); [done|]. cbn.
    rewrite Hresp. clear. by destruct (rfq_response _ _ _ _).
  - unfold buyer_sees. by rewrite !bool_decide_eq_false_2.
Qed.

(** ** What holds of the routes *)

(** C16: The routes implement a board of requests.  A request that is answered is
    one step of the board, committed with every other table as it was and every
    constraint satisfied: a buyer admitted to the market asks for a tradable
    window of a slice; an admitted supplier of another organization, whose
    organization has not answered yet, answers an open request before its
    deadline; or its owner, still admitted, withdraws it with all its answers.
    A request is open until the first answer, its answers are pending until it
    is withdrawn, and none is ever accepted.  The answer shows what was written.
    Every other request leaves every table as it was. *)
Theorem rfqs_implement_board rq u w :
  synced w → database_checks (db w) → rfqs_ok (db w) → rfq_valid rq → board_outcome w u rq (run_rfq rq u w).
Proof. intros Hs Hc Hok. by apply run_rfq_outcome. Qed.

(** ** On the demo market *)

Lemma floor_sound : database_checks (db floor) ∧ rfqs_ok (db floor).
Proof. split; apply (bool_decide_unpack _); vm_compute; exact I. Qed.
Lemma demo_ask_valid : rfq_create_valid demo_ask.
Proof.
  split_and!; try lia; apply (bool_decide_unpack _); vm_compute; exact I.
Qed.

Lemma rfqs_implement_board_witness :
  ∃ x w' r, create_rfq demo_ask Demo.buyer floor = Ok x w'
    ∧ rfq_step (db floor) (observed floor) Demo.buyer 1 (Ask demo_ask) r ∅ ∧ rfqs_ok (db w').
Proof.
  pose proof (rfqs_implement_board (Ask demo_ask) Demo.buyer floor eq_refl (proj1 floor_sound) (proj2 floor_sound)
    demo_ask_valid) as H. cbn [run_rfq] in H.
  assert (is_Some (board (create_rfq demo_ask Demo.buyer floor))) as [b Hb] by (vm_compute; by eexists).
  destruct (create_rfq _ _ _) as [x w'|] eqn:Hrun; [|discriminate Hb].
  erewrite bind_run in H by exact Hrun. destruct H as (org & r & quotes & Hu & Hs & _ & _ & _ & Hok & _).
  assert (org = 1%N) as -> by (vm_compute in Hu; congruence). exists x, w', r. split; [done|]. split; [|done].
  by inversion Hs; subst.
Defined.

Definition answered_floor : World := final (answered floor).
(** Somebody else asks, and the trader offers another price. *)
Definition elsewhere_asked (w : World) : World :=
  w <| db := (db w)
    <| rfqs := (λ r, r <| rq_buyer_org_id := 4%N |> <| rq_buyer_user_id := None |>) <$> rfqs (db w) |>
    <| rfq_quotes := (λ q, if decide (qt_seller_org_id q = 3%N) then q <| qt_price_per_mt_usd := 1 |> else q)
                     <$> rfq_quotes (db w) |> |>.
Lemma elsewhere_clock w : clock w = clock (elsewhere_asked w) ∧ clock_reads w = clock_reads (elsewhere_asked w).
Proof. done. Qed.
Definition demo_row : RFQ := default (new_rfq 0 demo_ask "" 0 0 0 0) (rfqs (db answered_floor) !! 0%N).

Lemma demo_same_view : same_view 2 0 (db answered_floor) (db (elsewhere_asked answered_floor)).
Proof.
  split; [|vm_compute; reflexivity..].
  exists demo_row, (demo_row <| rq_buyer_org_id := 4%N |> <| rq_buyer_user_id := None |>).
  split_and!; vm_compute; (reflexivity || discriminate).
Qed.

Lemma anonymous_rfq_hides_buyer_witness :
  result (get_rfq 0 Demo.supplier answered_floor) = result (get_rfq 0 Demo.supplier (elsewhere_asked answered_floor)).
Proof.
  apply (anonymous_rfq_hides_buyer 2); [exact demo_same_view|apply elsewhere_clock|apply elsewhere_clock|reflexivity].
Defined.

(** The shipping line has lost its approval since it asked. *)
Definition lapsed_floor : World :=
  answered_floor <| db := (db answered_floor)
    <| organizations := <[ 1%N := Demo.shipping_line <| g_verification_status := "SUSPENDED" |> ]>
                        (organizations (db answered_floor)) |> |>.

Lemma lapsed_rows : rfqs_ok (db lapsed_floor) ∧ rfqs (db lapsed_floor) !! 0%N = Some demo_row.
Proof. split; [apply (bool_decide_unpack _); vm_compute; exact I|vm_compute; reflexivity]. Qed.
Lemma lapsed_owner : ¬ admitted_member (db lapsed_floor) 11 1.
Proof.
  intros (u & g & _ & _ & Hg & Ha & _). assert (organizations (db lapsed_floor) !! 1%N
    = Some (Demo.shipping_line <| g_verification_status := "SUSPENDED" |>)) as E by (vm_compute; reflexivity).
  rewrite E in Hg. injection Hg as <-. discriminate Ha.
Qed.
Lemma answered_rows :
  rfqs_ok (db answered_floor) ∧ rfqs (db answered_floor) !! 0%N = Some demo_row
  ∧ users (db answered_floor) !! 12%N = Some Demo.supplier ∧ approved_organization (db answered_floor) 1.
Proof.
  split_and!; [apply (bool_decide_unpack _); vm_compute; exact I|vm_compute; reflexivity..|].
  exists Demo.shipping_line. split; vm_compute; reflexivity.
Qed.

Lemma cancel_rfq_needs_admission_witness :
  (∃ e w', cancel_rfq 0 Demo.buyer lapsed_floor = Raise e w' ∧ refused 409 e)
  ∧ (∃ w', cancel_rfq 0 Demo.supplier answered_floor = Raise KeyError w').
Proof.
  assert (rq_buyer_org_id demo_row = 1%N) as Hbuyer by (vm_compute; reflexivity). split.
  - destruct (cancel_rfq_needs_admission 0 Demo.buyer lapsed_floor demo_row Demo.buyer 1 (proj1 lapsed_rows)
      (proj2 lapsed_rows) eq_refl) as (e & w' & Hrun & _ & He); [vm_compute; reflexivity|done| | |].
    + intros [_ H]. exact (lapsed_owner H).
    + rewrite Hbuyer. by intros [].
    + rewrite Hbuyer, decide_True in He by done. exists e, w'. exact (conj Hrun He).
  - destruct answered_rows as (Hok & Hr & Hu & Ha).
    destruct (cancel_rfq_needs_admission 0 Demo.supplier answered_floor demo_row Demo.supplier 2 Hok Hr eq_refl Hu)
      as (e & w' & Hrun & _ & He); [done| | |].
    + rewrite Hbuyer. by intros [].
    + by rewrite Hbuyer.
    + rewrite Hbuyer, decide_False in He by done. subst e. exists w'. exact Hrun.
Defined.
