(* ===== verification/InventoryRoutes.v ===== *)
(** * Managing and publishing inventory

    [app/routers/inventory.py]: a supplier records, edits and deletes stock, and
    publishes a row as an ask of the order book.  Publishing is one transaction:
    key and replay, the supplier and the row under lock, the listing that is
    already live, the slice swept of expired asks, the row again, all its free
    stock reserved behind a new order, match on insert, benchmarks, events.

    Quantities and prices of the bodies are hundredths (their schemas admit two
    decimals).  [fuel_type] and [updated_at] are not modelled, nor are the
    lengths of text columns, analytics and the audit's request context; retries
    of a contended transaction are the caller's. *)

From S2P Require Import Prelude Sha256 Catalog Calendar AvailabilityWindows Decimal Json Schema OrderTerms Constraints Delivery Database Scenario Queries Policy Eligibility Events Commands TradeViews Watchlist Benchmarks Inventory Ledger Admission RequestParty Trades Orders Lifecycle Matching PostOnly OrderEntry AutoMatch OrderCreation.
Local Open Scope Z_scope.

(** ** Bodies *)

Record InventoryCreate := MkInventoryCreate {
  ic_port_id : string;
  ic_product_name : option string;
  ic_current_stock_mt : Z;
  ic_incoming_stock_mt : Z;
  ic_price_per_mt_usd : option Z;
  ic_energy_density_mj_kg : option Z;
  ic_is_certified : bool;
  ic_certification_declared : bool;
  ic_certification_scheme : option string;
  ic_specification_standard : option string;
  ic_msds_available : bool;
  ic_carbon_intensity_gco2_mj : option Z;
  ic_carbon_intensity_method : option string;
  ic_feedstock : option string;
  ic_origin : option string;
  ic_off_spec : bool;
  ic_off_spec_notes : option string;
}.

(** [exclude_unset]: [None] is a field the body does not name, [Some None] one it
    sets to null. *)
Record InventoryItemUpdate := MkInventoryItemUpdate {
  iu_product_name : option (option string);
  iu_current_stock_mt : option (option Z);
  iu_incoming_stock_mt : option (option Z);
  iu_price_per_mt_usd : option (option Z);
  iu_certification_declared : option (option bool);
  iu_certification_scheme : option (option string);
  iu_specification_standard : option (option string);
  iu_msds_available : option (option bool);
  iu_carbon_intensity_gco2_mj : option (option Z);
  iu_carbon_intensity_method : option (option string);
  iu_feedstock : option (option string);
  iu_origin : option (option string);
  iu_off_spec : option (option bool);
  iu_off_spec_notes : option (option string);
}.

Definition inventory_create_valid (p : InventoryCreate) : Prop :=
  required_numeric (ic_current_stock_mt p) 0 (cents 100000)
  ∧ required_numeric (ic_incoming_stock_mt p) 0 (cents 100000)
  ∧ optional_numeric (ic_price_per_mt_usd p) 1 (cents 1000000)
  ∧ optional_numeric (ic_energy_density_mj_kg p) 0 99999
  ∧ optional_numeric (ic_carbon_intensity_gco2_mj p) 0 (cents 10000).
#[export] Instance inventory_create_valid_dec p : Decision (inventory_create_valid p).
Proof. unfold inventory_create_valid. apply _. Defined.

(** ** Who manages inventory *)

(** The role and organization checks the three routes share. *)
Definition managing_supplier (no_organization : string) (current_user : User) : M World uuid :=
  require_execution_eligible_user current_user ;;
  refuse (bool_decide (u_role current_user ≠ Some SUPPLIER))
    (HTTPException 403 (Msg "Only suppliers can manage inventory")) ;;
  match u_organization_id current_user with
  | None => raise (bad_request no_organization)
  | Some organization_id =>
      lock_and_load_market_organizations [organization_id]
        [MkMarketActorOwnership (u_id current_user) organization_id] false [] ;;
      mret organization_id
  end.

(** The supplier's own row, locked. *)
Definition own_item (item_id organization_id : uuid) : M World InventoryItem :=
  take_lock (RowInventory [item_id]) ;;
  d ← get_db;
  match inventory d !! item_id with
  | Some item =>
      refuse (bool_decide (i_supplier_id item ≠ Some organization_id))
        (HTTPException 404 (Msg "Inventory item not found")) ;;
      mret item
  | None => raise (HTTPException 404 (Msg "Inventory item not found"))
  end.

(** [db.refresh(item)] *)
Definition refresh_item (item_id : uuid) : M World InventoryItem :=
  d ← get_db;
  match inventory d !! item_id with
  | Some item => mret item
  | None => raise (RuntimeError (Msg "item is not persistent within this session"))
  end.

Definition delete_item (item_id : uuid) : M World unit :=
  modify (λ w, w <| db := (db w) <| inventory := delete item_id (inventory (db w)) |> |>).

Definition inventory_event (event_type : string) (item_id organization_id : uuid) (public : bool)
    : res MarketEventEnvelope :=
  participant_market_event event_type "inventory" item_id [organization_id] [("id", JUuid item_id)] public.

Definition announce_item (event_type : string) (item_id organization_id : uuid) (public : bool) : M World unit :=
  event ← lift (inventory_event event_type item_id organization_id public);
  enqueue_market_events [event].

(** ** Recording *)

Definition new_item (d : Database) (p : InventoryCreate) (organization_id owner : uuid) : InventoryItem :=
  {| i_id := fresh_id (inventory d); i_supplier_id := Some organization_id; i_owner_user_id := Some owner;
     i_port_id := Some (ic_port_id p); i_product_name := ic_product_name p;
     i_current_stock_mt := ic_current_stock_mt p; i_incoming_stock_mt := ic_incoming_stock_mt p;
     i_reserved_stock_mt := 0; i_price_per_mt_usd := ic_price_per_mt_usd p;
     i_energy_density_mj_kg := ic_energy_density_mj_kg p; i_is_certified := ic_is_certified p;
     i_certification_declared := ic_certification_declared p;
     i_certification_scheme := ic_certification_scheme p;
     i_specification_standard := ic_specification_standard p; i_msds_available := ic_msds_available p;
     i_carbon_intensity_gco2_mj := ic_carbon_intensity_gco2_mj p;
     i_carbon_intensity_method := ic_carbon_intensity_method p; i_feedstock := ic_feedstock p;
     i_origin := ic_origin p; i_off_spec := ic_off_spec p; i_off_spec_notes := ic_off_spec_notes p |}.

(** HTTP errors pass; any other failure is rolled back and becomes a 500. *)
Definition internal_error_on_failure {A} (m : M World A) : M World A := λ w,
  match m w with
  | Raise (HTTPException status d) w' => Raise (HTTPException status d) w'
  | Raise _ w' =>
      (rollback ;; raise (HTTPException 500 (Msg "Unable to create inventory item"))) w'
  | outcome => outcome
  end.

(** [POST /inventory] *)
Definition add_inventory (p : InventoryCreate) (current_user : User) : M World InventoryItem :=
  organization_id ← managing_supplier "User has no organization. Please complete onboarding first." current_user;
  internal_error_on_failure (
    d ← get_db;
    let item := new_item d p organization_id (u_id current_user) in
    put_item item ;;
    flush ;;
    public_after ← public_inventory_is_visible (i_id item);
    announce_item "inventory_created" (i_id item) organization_id public_after ;;
    commit ;;
    refresh_item (i_id item)).

(** ** Editing *)

(** A nullable column takes null as its value. *)
Definition set_nullable {A} (update : option (option A)) (old : option A) : option A := default old update.
(** A NOT NULL column that is set to null is refused when the row is flushed. *)
Definition set_required {A} (update : option (option A)) (old : A) : A :=
  match update with Some (Some x) => x | _ => old end.
Definition sets_null {A} (update : option (option A)) : bool :=
  match update with Some None => true | _ => false end.

Definition violates_not_null (u : InventoryItemUpdate) : bool :=
  sets_null (iu_current_stock_mt u) || sets_null (iu_incoming_stock_mt u)
  || sets_null (iu_certification_declared u) || sets_null (iu_msds_available u) || sets_null (iu_off_spec u).

Definition updated_item (u : InventoryItemUpdate) (i : InventoryItem) : InventoryItem :=
  i <| i_product_name := set_nullable (iu_product_name u) (i_product_name i) |>
    <| i_current_stock_mt := set_required (iu_current_stock_mt u) (i_current_stock_mt i) |>
    <| i_incoming_stock_mt := set_required (iu_incoming_stock_mt u) (i_incoming_stock_mt i) |>
    <| i_price_per_mt_usd := set_nullable (iu_price_per_mt_usd u) (i_price_per_mt_usd i) |>
    <| i_certification_declared := set_required (iu_certification_declared u) (i_certification_declared i) |>
    <| i_certification_scheme := set_nullable (iu_certification_scheme u) (i_certification_scheme i) |>
    <| i_specification_standard := set_nullable (iu_specification_standard u) (i_specification_standard i) |>
    <| i_msds_available := set_required (iu_msds_available u) (i_msds_available i) |>
    <| i_carbon_intensity_gco2_mj := set_nullable (iu_carbon_intensity_gco2_mj u) (i_carbon_intensity_gco2_mj i) |>
    <| i_carbon_intensity_method := set_nullable (iu_carbon_intensity_method u) (i_carbon_intensity_method i) |>
    <| i_feedstock := set_nullable (iu_feedstock u) (i_feedstock i) |>
    <| i_origin := set_nullable (iu_origin u) (i_origin i) |>
    <| i_off_spec := set_required (iu_off_spec u) (i_off_spec i) |>
    <| i_off_spec_notes := set_nullable (iu_off_spec_notes u) (i_off_spec_notes i) |>.

(** [changed] *)
Definition item_changed (u : InventoryItemUpdate) (i : InventoryItem) : bool :=
  violates_not_null u || bool_decide (updated_item u i ≠ i).

(** [PATCH /inventory/{item_id}] *)
Definition update_inventory (item_id : uuid) (updates : InventoryItemUpdate) (current_user : User)
    : M World InventoryItem :=
  organization_id ← managing_supplier "User has no organization" current_user;
  item ← own_item item_id organization_id;
  assert_inventory_mutable item false ;;
  public_before ← public_inventory_is_visible (i_id item);
  put_item (updated_item updates item) ;;
  refuse (violates_not_null updates) (IntegrityError "not null") ;;
  flush ;;
  public_after ← public_inventory_is_visible (i_id item);
  announce_item "inventory_updated" (i_id item) organization_id
    (item_changed updates item && (public_before || public_after)) ;;
  commit ;;
  refresh_item (i_id item).

(** [DELETE /inventory/{item_id}] *)
Definition delete_inventory (item_id : uuid) (current_user : User) : M World unit :=
  organization_id ← managing_supplier "User has no organization" current_user;
  item ← own_item item_id organization_id;
  assert_inventory_mutable item true ;;
  public_before ← public_inventory_is_visible (i_id item);
  delete_item (i_id item) ;;
  announce_item "inventory_deleted" (i_id item) organization_id public_before ;;
  commit.

(** ** Publishing: the key *)

Definition publish_key (raw_key : option string) (item_id : uuid) : res CreateKey :=
  match raw_key with
  | None | Some "" => Val (MkCreateKey raw_key None)
  | Some raw =>
      key ← normalize_idempotency_key raw;
      Val (MkCreateKey (Some key)
             (Some (idempotency_request_hash (VObj [("inventory_item_id", uuid_value item_id)]))))
  end.

(** The listing a key already published. *)
Definition existing_publication (d : Database) (organization_id : uuid) (key : string) : option Order :=
  head (filter (λ o, o_organization_id o = organization_id
                     ∧ o_idempotency_operation o = Some INVENTORY_PUBLISH_OPERATION
                     ∧ o_idempotency_key o = Some key)
               (snd <$> map_to_list (orders d))).

(** [{"status": "published", "listing_id": ..}] *)
Record PublishResponse := MkPublishResponse {
  pr_status : string;
  pr_listing_id : uuid;
}.
Definition published (o : Order) : PublishResponse := MkPublishResponse "published" (o_id o).

Definition answered_publication (k : CreateKey) (organization_id : uuid) : M World (option PublishResponse) :=
  match given_key k with
  | None => mret None
  | Some key =>
      d ← get_db;
      match existing_publication d organization_id key with
      | None => mret None
      | Some o =>
          refuse (bool_decide (o_idempotency_request_hash o ≠ ck_request_hash k))
            (HTTPException 409 (Msg "Idempotency-Key was reused with a different request")) ;;
          mret (Some (published o))
      end
  end.

Definition replay_publication (k : CreateKey) (organization_id : uuid) : M World (option PublishResponse) :=
  match given_key k with
  | Some key => acquire_idempotency_lock organization_id INVENTORY_PUBLISH_OPERATION key
  | None => mret tt
  end ;;
  answered_publication k organization_id.

(** ** The supplier, the row and its slice *)

(** User and organization are locked and read again. *)
Definition requalify_supplier (current_user : User) (organization_id : uuid) : M World unit :=
  users ← lock_users [u_id current_user];
  organizations ← lock_organizations [organization_id];
  d ← get_db;
  let locked_user := users !! u_id current_user in
  refuse (negb (execution_party_is_eligible d locked_user (organizations !! organization_id))
          || bool_decide ((u ← locked_user; u_role u) ≠ Some SUPPLIER))
    (HTTPException 403 (Msg "Supplier is no longer execution-qualified")).

(** An active order backed by the item whose deadline, by the database's clock, is
    ahead, if there is one. *)
Definition existing_listing (item_id : uuid) : M World (option Order) :=
  d ← get_db;
  now ← db_now;
  mret (head (filter (λ o, is_active_status (o_status o)
                           && match o_expires_at o with Some e => now <? e | None => true end = true)
                     (orders_of_item d item_id))).

(** An active order backed by the item whose deadline has passed. *)
Definition expired_backlog (item_id : uuid) : M World bool :=
  d ← get_db;
  now ← db_now;
  mret (existsb (λ o, is_active_status (o_status o)
                      && match o_expires_at o with Some e => e <=? now | None => false end)
          (orders_of_item d item_id)).

Definition scalar_one_or_none {A} (rows : list A) : M World (option A) :=
  match rows with
  | [] => mret None
  | [x] => mret (Some x)
  | _ => raise MultipleResultsFound
  end.

Definition _resolve_catalog_product (item : InventoryItem) : M World (option Product) :=
  let product_name := strip (default "" (i_product_name item)) in
  if bool_decide (product_name = "") then mret None
  else
    d ← get_db;
    scalar_one_or_none (filter (λ p, p_is_active p = true ∧ p_name p = product_name
                                     ∧ canonical_market_product_expression p ≠ None)
                               (snd <$> map_to_list (products d))).

Definition _resolve_delivery_point (item : InventoryItem) : M World (option DeliveryPoint) :=
  d ← get_db;
  match (port ← i_port_id item; ports d !! port) with
  | None => mret None
  | Some port =>
      if bool_decide (pt_name port = "") then mret None
      else scalar_one_or_none (filter (λ dp, canonical_delivery_point_clause dp = true ∧ d_name dp = strip (pt_name port))
                                      (snd <$> map_to_list (delivery_points d)))
  end.

(** The catalog's product and place of a row. *)
Definition market_place (item : InventoryItem) : M World (Product * DeliveryPoint) :=
  product ← _resolve_catalog_product item;
  match product with
  | None => raise (bad_request "Unable to map inventory item to a catalog product")
  | Some product =>
      delivery_point ← _resolve_delivery_point item;
      match delivery_point with
      | None => raise (bad_request "Inventory port is not an active canonical delivery point")
      | Some delivery_point => mret (product, delivery_point)
      end
  end.

Definition publish_slice (product : Product) (dp : DeliveryPoint) : SliceSide :=
  MkSliceSide ASK (p_id product) (Some (d_id dp)) SPOT_WINDOW.

(** The advisory lock, then the sweep of the slice's asks under it. *)
Definition sweep_slice (product : Product) (dp : DeliveryPoint) (current_user : User) (organization_id : uuid)
    : M World (gmap uuid Organization) :=
  acquire_market_slice_lock (p_id product) (Some (d_id dp)) SPOT_WINDOW ;;
  swept ← expire_market_slice_orders (publish_slice product dp) None MAX_EXPIRY_ROWS_PER_TRANSACTION
    [organization_id] [MkMarketActorOwnership (u_id current_user) organization_id] [organization_id];
  mret swept.2.

(** The row is still of the slice that is locked. *)
Definition recheck_slice (item : InventoryItem) (product : Product) (dp : DeliveryPoint) : M World Product :=
  locked_product ← _resolve_catalog_product item;
  locked_delivery_point ← _resolve_delivery_point item;
  match locked_product, locked_delivery_point with
  | Some locked_product, Some locked_delivery_point =>
      if bool_decide (p_id locked_product = p_id product) && bool_decide (d_id locked_delivery_point = d_id dp)
      then mret locked_product
      else rollback ;; raise (HTTPException 409 (Msg "Inventory market slice changed; retry publication"))
  | _, _ => rollback ;; raise (HTTPException 409 (Msg "Inventory market slice changed; retry publication"))
  end.

(** All of the row's free stock; the second guard of the source compares it with itself. *)
Definition publishable_quantity (item : InventoryItem) (product : Product) : M World Z :=
  let quantity := i_current_stock_mt item in
  refuse (quantity <=? 0) (bad_request "Inventory quantity must be positive") ;;
  require_minimum_order_quantity (of_cents quantity) product ;;
  mret quantity.

(** ** The listing *)

Definition listing_expiry (provenance : OrganizationProvenance) : M World (option datetime) :=
  if bool_decide (provenance = DEMO) then
    now ← utcnow;
    e ← lift (availability_window_expiry SPOT_WINDOW now);
    mret (Some e)
  else mret None.

(** The ask: the row's stock, price and supplier metadata; the column defaults
    leave the creation method unknown and the actor unset. *)
Definition new_listing (d : Database) (item : InventoryItem) (product : Product) (dp : DeliveryPoint)
    (k : CreateKey) (ordinal : Z) (current_user : User) (organization : Organization) (organization_id : uuid)
    (quantity price : Z) (expires_at : option datetime) : Order :=
  {| o_id := fresh_id (orders d); o_acceptance_ordinal := ordinal;
     o_organization_id := organization_id; o_owner_user_id := Some (u_id current_user);
     o_created_by_actor_user_id := None; o_creation_method := LEGACY_UNKNOWN;
     o_support_authorization_id := None; o_version := 1; o_inventory_item_id := Some (i_id item);
     o_provenance := snapshot_organization_provenance (Some organization);
     o_side := ASK; o_product_id := p_id product; o_delivery_point_id := Some (d_id dp);
     o_port_id := i_port_id item; o_vessel_id := None;
     o_quantity_mt := quantity; o_remaining_quantity_mt := quantity; o_price_per_mt_usd := price;
     o_availability_window := SPOT_WINDOW;
     o_delivery_window_start := None; o_delivery_window_end := None;
     o_certifications := Some (if i_is_certified item then ["INVENTORY_CERTIFIED"] else []);
     o_certification_declared := i_certification_declared item;
     o_certification_scheme := i_certification_scheme item;
     o_specification_standard := i_specification_standard item; o_msds_available := i_msds_available item;
     o_is_verdaxis_verified := false;
     o_carbon_intensity_gco2_mj := i_carbon_intensity_gco2_mj item;
     o_carbon_intensity_method := i_carbon_intensity_method item; o_energy_density_mj_kg := None;
     o_feedstock := i_feedstock item; o_origin := i_origin item;
     o_off_spec := i_off_spec item; o_off_spec_notes := i_off_spec_notes item;
     o_status := OPEN; o_expires_at := expires_at;
     o_idempotency_key := ck_idempotency_key k;
     o_idempotency_operation := (λ _, INVENTORY_PUBLISH_OPERATION) <$> given_key k;
     o_idempotency_request_hash := given_key k ≫= λ _, ck_request_hash k |}.

Definition check_listing (o : Order) : M World unit :=
  match supplier_product_metadata_error (o_product_id o) (o_specification_standard o) (o_carbon_intensity_method o) with
  | Some product_error => raise (bad_request product_error)
  | None => mret tt
  end ;;
  refuse (negb (order_is_execution_qualified o))
    (bad_request "Inventory is not execution-qualified for marketplace publication").

Definition build_listing (item : InventoryItem) (product : Product) (dp : DeliveryPoint) (k : CreateKey)
    (current_user : User) (organization : Organization) (organization_id : uuid) (quantity : Z) : M World Order :=
  ordinal ← next_order_acceptance_ordinal;
  match i_price_per_mt_usd item with
  | None => raise InvalidOperation
  | Some price =>
      expires_at ← listing_expiry (snapshot_organization_provenance (Some organization));
      d ← get_db;
      let o := new_listing d item product dp k ordinal current_user organization organization_id quantity price
                 expires_at in
      check_listing o ;;
      mret o
  end.

(** A concurrent request with the same key has committed first. *)
Definition resolve_publication_winner (k : CreateKey) (organization_id : uuid) (e : exn)
    : M World (option PublishResponse) :=
  rollback ;;
  winner ← answered_publication k organization_id;
  match winner with
  | Some response => mret (Some response)
  | None => raise e
  end.

Definition match_publication (o : Order) : M World (list Trade) :=
  configuration ← gets settings;
  if AUTO_MATCHING_ENABLED configuration then match_order o true None else mret [].

(** [app/services/audit_actions.py] *)
Definition INVENTORY_PUBLISHED : string := "inventory.published".

Definition audit_publication (item_id : uuid) (o : Order) (current_user : User) : M World unit :=
  record_audit (Some (u_id current_user)) INVENTORY_PUBLISHED "inventory" (Some item_id)
    (JObj [ ("inventory_item_id", JUuid item_id); ("listing_id", JUuid (o_id o));
            ("quantity_mt", JDec (o_quantity_mt o)); ("price_per_mt_usd", JDec (o_price_per_mt_usd o));
            ("status", JStr (OrderBookStatus_value (o_status o))) ]).

(** Benchmarks of both sides, watchlists, audit and events of the matched listing. *)
Definition announce_publication (o : Order) (product : Product) (dp : DeliveryPoint) (trades : list Trade)
    (item_id : uuid) (current_user : User) (before : PreviousBest) : M World unit :=
  rebuild_live_slice_benchmarks_for_keys
    [ Some (ASK, p_market_product product, Some (d_id dp), Some SPOT_WINDOW);
      Some (BID, p_market_product product, Some (d_id dp), Some SPOT_WINDOW) ] ;;
  o ← load_order (o_id o);
  emit_order_created o (pb_own_side before) ;;
  matched ← collect_auto_match_side_effects o trades (Some (u_id current_user)) (pb_resting_side before);
  audit_publication item_id o current_user ;;
  changed ← public_market_changed o trades;
  d ← get_db;
  created ← lift (order_created_event d o trades changed);
  enqueue_market_events (matched ++ [created]).

(** From the flushed row to the response. *)
Definition finish_publication (o : Order) (product : Product) (dp : DeliveryPoint) (item_id : uuid)
    (current_user : User) (before : PreviousBest) : M World PublishResponse :=
  trades ← match_publication o;
  announce_publication o product dp trades item_id current_user before ;;
  commit ;;
  listed ← load_order (o_id o);
  mret (published listed).

(** The stock is reserved and the listing inserted. *)
Definition list_stock (o : Order) (item_id : uuid) (quantity : Z) (k : CreateKey) (organization_id : uuid)
    : M World (option PublishResponse) :=
  reserve_inventory item_id quantity ;;
  put_order o ;;
  catch_integrity (flush ;; mret None) (resolve_publication_winner k organization_id).

(** Under the slice lock. *)
Definition publish_swept (item_id : uuid) (product : Product) (dp : DeliveryPoint) (k : CreateKey)
    (current_user : User) (organization_id : uuid) (organizations : gmap uuid Organization)
    : M World PublishResponse :=
  item ← own_item item_id organization_id;
  locked_product ← recheck_slice item product dp;
  live ← existing_listing (i_id item);
  match live with
  | Some o => mret (published o)
  | None =>
      backlog ← expired_backlog (i_id item);
      refuse backlog
        (HTTPException 409 (Msg "Inventory listing expiry backlog must be reconciled before publication")) ;;
      quantity ← publishable_quantity item locked_product;
      match organizations !! organization_id with
      | None => raise KeyError
      | Some organization =>
          o ← build_listing item product dp k current_user organization organization_id quantity;
          before ← previous_best_prices o;
          winner ← list_stock o (i_id item) quantity k organization_id;
          match winner with
          | Some response => mret response
          | None => finish_publication o product dp (i_id item) current_user before
          end
      end
  end.

Definition publish_item (item_id : uuid) (k : CreateKey) (current_user : User) (organization_id : uuid)
    : M World PublishResponse :=
  refuse (bool_decide (u_role current_user ≠ Some SUPPLIER))
    (HTTPException 403 (Msg "Only suppliers can publish inventory")) ;;
  requalify_supplier current_user organization_id ;;
  item ← own_item item_id organization_id;
  live ← existing_listing (i_id item);
  match live with
  | Some o => mret (published o)
  | None =>
      refuse (bool_decide (i_price_per_mt_usd item = None)) (bad_request "Inventory item missing price") ;;
      place ← market_place item;
      organizations ← sweep_slice place.1 place.2 current_user organization_id;
      publish_swept item_id place.1 place.2 k current_user organization_id organizations
  end.

(** [POST /inventory/{item_id}/publish] *)
Definition publish_inventory_item (item_id : uuid) (raw_key : option string) (current_user : User)
    : M World PublishResponse :=
  require_execution_eligible_user current_user ;;
  match u_organization_id current_user with
  | None => raise (bad_request "User has no organization")
  | Some organization_id =>
      k ← lift (publish_key raw_key item_id);
      replay ← replay_publication k organization_id;
      match replay with
      | Some response => mret response
      | None => publish_item item_id k current_user organization_id
      end
  end.

(** ** On the demo market *)

(** The stock is at Rotterdam for 600 USD/t; the ask it backs has run past its
    deadline, and a bid for 500 t at 620 USD/t rests in the book. *)
Definition demo_stock : InventoryItem :=
  Demo.stock <| i_port_id := Some "nl-rtm" |> <| i_price_per_mt_usd := Some 60000 |>.
Definition demo_shelf : World :=
  (Demo.world_of (Demo.market <| orders := Demo.book [Demo.stale_ask; Demo.bid] |>
                              <| ports := {[ "nl-rtm" := MkPort "nl-rtm" "Rotterdam" true ]} |>
                              <| inventory := {[ i_id demo_stock := demo_stock ]} |>))
    <| clock := MkClocks (λ _, Demo.noon) Demo.noon |>.

Definition left_after {A} (o : outcome World A) : option (list (OrderSide * Z * OrderBookStatus) * list (Z * Z)) :=
  match o with
  | Ok _ w => Some ((λ o, (o_side o, o_remaining_quantity_mt o, o_status o)) <$> (snd <$> map_to_list (orders (committed w))),
                    (λ i, (i_current_stock_mt i, i_reserved_stock_mt i)) <$> (snd <$> map_to_list (inventory (committed w))))
  | Raise _ _ => None
  end.

Example publish_sweeps_lists_and_matches :
  left_after (publish_inventory_item 70 (Some "k1") Demo.supplier demo_shelf)
  = Some ([(ASK, 80000, PARTIALLY_FILLED); (ASK, 30000, EXPIRED); (BID, 0, FILLED)], [(0, 80000)]).
Proof. vm_compute. reflexivity. Qed.
