(* ===== verification/InventoryRoutesSafety.v ===== *)
(** * What managing and publishing inventory guarantees

    [publish_inventory_item] run forward: a supplier's request is answered with
    the listing that is already there, or sweeps the slice, moves all the free
    stock of the row behind one new ask and matches it exactly as planned, or
    fails and commits nothing.  The other routes write one row that backs
    nothing. *)

From S2P Require Import Prelude Sha256 Catalog Calendar AvailabilityWindows Decimal Json Schema OrderTerms Constraints Delivery Database Scenario Queries Policy Eligibility Events Commands TradeViews Watchlist Benchmarks Inventory Ledger TradeLedger Admission RequestParty Trades Orders TradeSteps TradesSafety OrdersSafety Lifecycle Matching MatchingSpec MatchingSafety PostOnly OrderEntry AutoMatch OrderCreation OrderCreationSafety ListingSteps OrderAmendment OrderAmendmentSafety InventoryRoutes.
Local Open Scope Z_scope.

(** ** Frames *)

Lemma reads_requalify u org : Keeps reads (requalify_supplier u org).
Proof. unfold requalify_supplier. keeps. Qed.
Lemma reads_own_item i org : Keeps reads (own_item i org).
Proof. unfold own_item. keeps. Qed.
Lemma reads_existing_listing i : Keeps reads (existing_listing i).
Proof. unfold existing_listing. keeps. Qed.
Lemma reads_expired_backlog i : Keeps reads (expired_backlog i).
Proof. unfold expired_backlog. keeps. Qed.
Lemma reads_scalar {A} (l : list A) : Keeps reads (scalar_one_or_none l).
Proof. unfold scalar_one_or_none. keeps. Qed.
#[export] Hint Resolve reads_requalify reads_own_item reads_existing_listing reads_expired_backlog reads_scalar : keeps.
Lemma reads_resolve_product i : Keeps reads (_resolve_catalog_product i).
Proof. unfold _resolve_catalog_product. keeps. Qed.
Lemma reads_resolve_place i : Keeps reads (_resolve_delivery_point i).
Proof. unfold _resolve_delivery_point. keeps. Qed.
#[export] Hint Resolve reads_resolve_product reads_resolve_place : keeps.
Lemma reads_market_place i : Keeps reads (market_place i).
Proof. unfold market_place. keeps. Qed.
Lemma reads_answered_publication k org : Keeps reads (answered_publication k org).
Proof. unfold answered_publication. keeps. Qed.
#[export] Hint Resolve reads_market_place reads_answered_publication : keeps.
Lemma reads_replay_publication k org : Keeps reads (replay_publication k org).
Proof. unfold replay_publication. keeps. Qed.
Lemma reads_publishable i p : Keeps reads (publishable_quantity i p).
Proof. unfold publishable_quantity. keeps. Qed.
Lemma reads_listing_expiry p : Keeps reads (listing_expiry p).
Proof. unfold listing_expiry. keeps. Qed.
Lemma reads_check_listing o : Keeps reads (check_listing o).
Proof. unfold check_listing. keeps. Qed.
#[export] Hint Resolve reads_replay_publication reads_publishable reads_listing_expiry reads_check_listing : keeps.
Lemma reads_build_listing i p dp k u g org q : Keeps reads (build_listing i p dp k u g org q).
Proof. unfold build_listing, next_order_acceptance_ordinal. keeps. Qed.
#[export] Hint Resolve reads_build_listing : keeps.
Lemma only_events_audit_publication i o u : Keeps only_events (audit_publication i o u).
Proof. apply only_events_record_audit. Qed.
#[export] Hint Resolve only_events_audit_publication : keeps.
Lemma only_events_announce_publication o p dp ts i u b : Keeps only_events (announce_publication o p dp ts i u b).
Proof. unfold announce_publication. keeps. Qed.
Lemma uncommitted_recheck i p dp : Keeps uncommitted (recheck_slice i p dp).
Proof.
  assert (∀ A (m : M World A), Keeps reads m → Keeps uncommitted m) as Hr by (intros A m H w; apply (H w)).
  unfold recheck_slice. keeps; try (by apply Hr; keeps). all: try done.
Qed.
#[export] Hint Resolve only_events_announce_publication uncommitted_recheck : keeps.

Lemma static_expire sl t n ids own req : Keeps static (expire_market_slice_orders sl t n ids own req).
Proof.
  unfold expire_market_slice_orders, expire_order, release_expired. keeps.
Qed.

(** ** A listing backed by stock *)

(** The new row, and its quantity moved behind it. *)
Definition backed_in (d : Database) (n : Order) : Database :=
  d <| inventory := match o_inventory_item_id n with
                    | Some i => alter (move_stock (- o_remaining_quantity_mt n) (o_remaining_quantity_mt n)) i (inventory d)
                    | None => inventory d end |>
    <| orders := <[ o_id n := n ]> (orders d) |>.

Lemma backed_row d n i item' :
  inventory (backed_in d n) !! i = Some item' →
  ∃ item, inventory d !! i = Some item ∧ i_id item' = i_id item
    ∧ let q := if bool_decide (o_inventory_item_id n = Some i) then o_remaining_quantity_mt n else 0 in
      i_reserved_stock_mt item' = i_reserved_stock_mt item + q
      ∧ i_current_stock_mt item' = i_current_stock_mt item - q.
Proof.
  unfold backed_in. cbn. destruct (o_inventory_item_id n) as [j|].
  2: { intros H. exists item'. rewrite bool_decide_eq_false_2 by done. split_and!; lia || done. }
  destruct (decide (i = j)) as [->|].
  - rewrite lookup_alter_eq, bool_decide_eq_true_2 by done. intros (item & Hi & ->)%fmap_Some_1.
    exists item. cbn. split_and!; lia || done.
  - rewrite lookup_alter_ne, bool_decide_eq_false_2 by congruence. intros H. exists item'. split_and!; lia || done.
Qed.

Section backed.
Context (d d' : Database) (n : Order).
Context (Hok : market_ok d) (Hlinked : trades_linked d) (Hnew : orders d !! o_id n = None).
Context (Hopen : is_withdrawn (o_status n) = false) (Hrest : o_remaining_quantity_mt n <= o_quantity_mt n).
Context (Hwindow : JSON_SCHEMA_PATTERN (o_availability_window n) = true).
Context (Hbacked : same_market (backed_in d n) d').

(** Trades of the book do not refer to an order that is not in it. *)
Lemma new_unlinked t k : trades d !! k = Some t → trade_order_id t ≠ Some (o_id n).
Proof.
  intros Ht Hid. destruct (Hlinked k t Ht) as [Hb Ha]. unfold trade_order_id in Hid.
  destruct (t_ask_order_id t) as [a|]; [injection Hid as ->|rewrite Hid in Hb]; cbn in *; by rewrite Hnew in *.
Qed.

Lemma backed_held i : held_stock d' i = held_stock d i + order_holds i n.
Proof.
  destruct Hbacked as (Ho & Ht & _). unfold held_stock. rewrite Ho, Ht. cbn.
  rewrite sum_map_insert by done.
  rewrite (sum_map_ext (trade_holds (<[ o_id n := n ]> (orders d)) i) (trade_holds (orders d) i)); [lia|].
  intros k t Hk. unfold trade_holds, trade_item. pose proof (new_unlinked t k Hk) as Hne.
  destruct (trade_order_id t) as [id|]; [|done]. cbn. rewrite lookup_insert_ne; [done|]. congruence.
Qed.

Lemma market_ok_backed : database_checks d' → market_ok d'.
Proof.
  intros Hchecks. pose proof backed_held as Hheld. pose proof (new_unfilled d n Hlinked Hnew) as Hfill.
  destruct Hok as (_ & (K1 & K2 & K3 & K4 & K5 & K6 & K7 & K8) & Hr & Hs & Hw & Hf).
  destruct Hbacked as (Eo & Et & Ei & Eu & Eg & Ep & Ed & Ec).
  change (trades (backed_in d n)) with (trades d) in Et.
  change (orders (backed_in d n)) with (<[ o_id n := n ]> (orders d)) in Eo.
  refine (conj Hchecks (conj _ (conj _ (conj _ (conj _ _))))).
  - unfold keyed. rewrite Eo, Et, Ei, Eu, Eg, Ep, Ec, Ed. split_and!; try done; [by apply map_Forall_insert_2|].
    intros i item' (item & Hi & -> & _)%backed_row. by apply (K3 i item).
  - intros i item'. rewrite Ei. intros (item & Hi & _ & Hres & _)%backed_row. rewrite Hheld, Hres, (Hr i item Hi).
    unfold order_holds. rewrite Hopen, andb_true_r. cbn. lia.
  - intros i item'. rewrite Ei. intros (item & Hi & _ & Hres & Hcur)%backed_row. rewrite Hres, Hcur.
    specialize (Hs i item Hi). cbn beta in Hs. lia.
  - unfold windows_canonical. rewrite Eo. by apply map_Forall_insert_2.
  - unfold fills_ok, filled_stock. rewrite Eo, Et. apply map_Forall_insert_2; [|done].
    change (o_remaining_quantity_mt n + filled_stock d (o_id n) <= o_quantity_mt n). lia.
Qed.

Lemma backed_items : items_exist d → (∀ i, o_inventory_item_id n = Some i → is_Some (inventory d !! i)) → items_exist d'.
Proof.
  destruct Hbacked as (Eo & _ & Ei & _). intros Hex Hn. unfold items_exist. rewrite Eo, Ei.
  assert (∀ i, is_Some (inventory d !! i) → is_Some (inventory (backed_in d n) !! i)) as Hkeep.
  { intros i Hi. unfold backed_in. cbn. destruct (o_inventory_item_id n); [|done]. by apply lookup_alter_is_Some. }
  apply map_Forall_insert_2; [destruct (o_inventory_item_id n); [by apply Hkeep, Hn|done]|].
  intros k o Ho. specialize (Hex k o Ho). cbn in Hex. destruct (o_inventory_item_id o); [by apply Hkeep|done].
Qed.

Lemma backed_keeps id o : orders d !! id = Some o → orders d' !! id = Some o.
Proof. destruct Hbacked as (-> & _). intros Ho. cbn. rewrite lookup_insert_ne; [done|]. intros E. congruence. Qed.

Lemma backed_linked : trades_linked d'.
Proof.
  assert (∀ s id, linked_to d s id → linked_to d' s id) as Hl.
  { intros s [id|]; [|done]. cbn. destruct (orders d !! id) as [o|] eqn:Ho; [|done]. by rewrite (backed_keeps id o). }
  destruct Hbacked as (_ & Et & _). intros k t Ht. rewrite Et in Ht. destruct (Hlinked k t Ht). split; by apply Hl.
Qed.

Lemma backed_asks : o_side n = ASK → asks_backed d → asks_backed d'.
Proof.
  destruct Hbacked as (Eo & _). intros Hn H. unfold asks_backed. rewrite Eo. by apply map_Forall_insert_2.
Qed.

(** Reserving moves stock, and takes none. *)
Lemma backed_accounts i : accounted_stock d' i = accounted_stock d i.
Proof.
  destruct Hbacked as (Eo & Et & Ei & _). unfold accounted_stock, taken_stock. rewrite Ei, Et.
  change (trades (backed_in d n)) with (trades d).
  rewrite (sum_map_ext (trade_takes (orders d') i) (trade_takes (orders d) i)).
  - unfold backed_in. cbn. destruct (o_inventory_item_id n) as [j|]; [|done]. destruct (decide (i = j)) as [->|].
    + rewrite lookup_alter_eq. destruct (inventory d !! j); [|done]. cbn. f_equal. lia.
    + by rewrite lookup_alter_ne.
  - intros k t Hk. unfold trade_takes, trade_item. pose proof (new_unlinked t k Hk) as Hne. rewrite Eo.
    destruct (trade_order_id t) as [id|]; [|done]. cbn. rewrite lookup_insert_ne; [done|]. congruence.
Qed.
End backed.

(** ** What the guards establish *)

(** The listing of a row that is already in the book. *)
Definition live_listing (d : Database) (now : datetime) (item_id : uuid) (o : Order) : Prop :=
  orders d !! o_id o = Some o ∧ o_inventory_item_id o = Some item_id ∧ is_active_status (o_status o) = true
  ∧ expires_after (o_expires_at o) now.

Lemma orders_of_item_spec d i o :
  orders_keyed d → o ∈ orders_of_item d i → orders d !! o_id o = Some o ∧ o_inventory_item_id o = Some i.
Proof.
  intros Hk [Hi Hin]%list_elem_of_filter. apply list_elem_of_fmap in Hin as ([k x] & -> & Hx%elem_of_map_to_list).
  cbn in *. pose proof (Hk _ _ Hx) as Hid. cbn in Hid. by rewrite Hid.
Qed.

Lemma head_elem_of {A} (l : list A) x : head l = Some x → x ∈ l.
Proof. destruct l; [done|]. intros [= ->]. left. Qed.

Lemma existing_listing_ok i w o w' :
  orders_keyed (db w) → existing_listing i w = Ok (Some o) w' → live_listing (db w) (transaction_time w) i o.
Proof.
  intros Hk H. unfold existing_listing in H. erewrite bind_run in H by reflexivity. erewrite bind_run in H by reflexivity.
  injection H as H _. apply head_elem_of, list_elem_of_filter in H as [[Hs He]%andb_true_iff Hin].
  apply orders_of_item_spec in Hin as [Hrow Hi]; [|done]. split_and!; try done.
  unfold expires_after. destruct (o_expires_at o); [|done]. by apply Z.ltb_lt in He.
Qed.

(** With no live listing and no backlog, nothing active is listed against the row. *)
Definition unlisted (d : Database) (item_id : uuid) : Prop :=
  ∀ o, o ∈ orders_of_item d item_id → is_active_status (o_status o) = false.

Lemma existing_listing_none i w w' b w1 w2 :
  existing_listing i w = Ok None w' → expired_backlog i w1 = Ok b w2 → b = false →
  db w1 = db w → transaction_time w1 = transaction_time w → unlisted (db w) i.
Proof.
  intros H H1 -> Hdb Htt o Ho. unfold existing_listing in H. unfold expired_backlog in H1.
  do 2 (erewrite bind_run in H by reflexivity). do 2 (erewrite bind_run in H1 by reflexivity).
  injection H as H _. injection H1 as H1 _. rewrite Hdb, Htt in H1.
  destruct (is_active_status (o_status o)) eqn:Ha; [exfalso|done].
  assert (o ∉ filter (λ o, is_active_status (o_status o)
    && match o_expires_at o with Some e => transaction_time w <? e | None => true end = true) (orders_of_item (db w) i)) as Hn.
  { destruct (filter _ _) as [|x l]; [apply not_elem_of_nil|done]. }
  rewrite list_elem_of_filter, Ha in Hn. apply (existsb_false_elem _ _ o) in H1; [|done]. cbn beta in H1. rewrite Ha in H1. cbn [andb] in H1.
  destruct (o_expires_at o) as [e|]; [|by apply Hn].
  apply Z.leb_gt in H1. apply Hn. split; [by apply Z.ltb_lt|done].
Qed.

Lemma own_item_ok i org w item w' :
  own_item i org w = Ok item w' → inventory (db w) !! i = Some item ∧ i_supplier_id item = Some org.
Proof.
  unfold own_item. intros H. erewrite bind_run in H by reflexivity. erewrite bind_run in H by reflexivity.
  cbn in H. destruct (inventory (db w) !! i) as [x|] eqn:Hx; [|discriminate].
  apply bind_ok in H as ([] & w1 & [Hs _]%refuse_ok & [= <- _]). by apply bool_decide_eq_false, dec_stable in Hs.
Qed.

(** The catalog's product of a row, and the place of its port. *)
Definition names_product (d : Database) (item : InventoryItem) (p : Product) : Prop :=
  products d !! p_id p = Some p ∧ p_is_active p = true ∧ p_name p = strip (default "" (i_product_name item))
  ∧ canonical_market_product_expression p ≠ None.
Definition names_place (d : Database) (item : InventoryItem) (dp : DeliveryPoint) : Prop :=
  delivery_points d !! d_id dp = Some dp ∧ canonical_delivery_point_clause dp = true
  ∧ ∃ port x, i_port_id item = Some port ∧ ports d !! port = Some x ∧ d_name dp = strip (pt_name x).

Lemma scalar_ok {A} (l : list A) w x w' : scalar_one_or_none l w = Ok (Some x) w' → x ∈ l.
Proof. destruct l as [|y [|]]; inversion 1; subst. left. Qed.

Lemma row_elem_of {V} (m : gmap uuid V) (id : V → uuid) (P : V → Prop) `{!∀ x, Decision (P x)} x :
  map_Forall (λ k v, id v = k) m → x ∈ filter P (snd <$> map_to_list m) → m !! id x = Some x ∧ P x.
Proof.
  intros Hk [HP Hin]%list_elem_of_filter. apply list_elem_of_fmap in Hin as ([k v] & -> & Hv%elem_of_map_to_list).
  cbn in *. pose proof (Hk _ _ Hv) as Hid. cbn in Hid. by rewrite Hid.
Qed.

Lemma resolve_product_ok item w p w' :
  keyed (db w) → _resolve_catalog_product item w = Ok (Some p) w' → names_product (db w) item p.
Proof.
  intros (_ & _ & _ & _ & _ & Hk & _) H. unfold _resolve_catalog_product in H. cbv zeta in H. case_bool_decide; [discriminate|].
  erewrite bind_run in H by reflexivity. apply scalar_ok, (row_elem_of _ p_id) in H; [|done]. unfold names_product. tauto.
Qed.
Lemma resolve_place_ok item w dp w' :
  keyed (db w) → _resolve_delivery_point item w = Ok (Some dp) w' → names_place (db w) item dp.
Proof.
  intros (_ & _ & _ & _ & _ & _ & _ & Hk) H. unfold _resolve_delivery_point in H. erewrite bind_run in H by reflexivity.
  destruct (i_port_id item) as [port|] eqn:Hport; cbn in H; [|discriminate].
  destruct (ports (db w) !! port) as [x|] eqn:Hx; cbn in H; [|discriminate]. case_bool_decide; [discriminate|].
  apply scalar_ok, (row_elem_of _ d_id) in H as (Hrow & Hc & Hn); [|done]. split_and!; try done. by exists port, x.
Qed.

Lemma market_place_ok item w p dp w' :
  keyed (db w) → market_place item w = Ok (p, dp) w' → names_product (db w) item p ∧ names_place (db w) item dp.
Proof.
  intros Hk. unfold market_place. intros ([x|] & w1 & Hp & H)%bind_ok; [|discriminate].
  apply bind_ok in H as ([y|] & w2 & Hd & H); [|discriminate]. injection H as <- <- _.
  pose proof (reads_ok _ _ _ _ (reads_resolve_product _) Hp) as (E & _).
  split; [by eapply resolve_product_ok|]. rewrite <-E. eapply resolve_place_ok; [by rewrite E|done].
Qed.

(** Under the slice lock the row still names the product that was locked. *)
Lemma recheck_ok item p dp w p' w' :
  keyed (db w) → products (db w) !! p_id p = Some p → recheck_slice item p dp w = Ok p' w' → reads w w' ∧ p' = p.
Proof.
  intros Hk Hp. unfold recheck_slice. intros (x & w1 & Hx & H)%bind_ok. apply bind_ok in H as (y & w2 & Hy & H).
  assert (reads w w2) as Hr.
  { trans w1; [exact (reads_ok _ _ _ _ (reads_resolve_product _) Hx)|exact (reads_ok _ _ _ _ (reads_resolve_place _) Hy)]. }
  destruct x as [x|]; [|done]. destruct y as [y|]; [|done].
  destruct (bool_decide (p_id x = p_id p)) eqn:E; [|done]. destruct (bool_decide (d_id y = d_id dp)); [|done].
  cbn in H. injection H as <- <-. split; [done|]. apply bool_decide_eq_true in E.
  apply resolve_product_ok in Hx as (Hrow & _); [|done]. rewrite E in Hrow. congruence.
Qed.

Lemma publishable_ok item p w q w' :
  publishable_quantity item p w = Ok q w' →
  q = i_current_stock_mt item ∧ 0 < q ∧ lot_reached (of_cents q) p.
Proof.
  unfold publishable_quantity. intros ([] & w1 & [Hq ->]%refuse_ok & H)%bind_ok.
  apply bind_ok in H as (x & w1 & Hx%minimum_ok & [= <- _]). apply Z.leb_gt in Hq. done.
Qed.

(** The supplier, once locked, may still execute for its organization. *)
Definition qualified_supplier (d : Database) (user org : uuid) : Prop :=
  ∃ u, users d !! user = Some u ∧ u_role u = Some SUPPLIER
    ∧ execution_party_is_eligible d (Some u) (organizations d !! org) = true.

Lemma requalify_ok u org w x w' : requalify_supplier u org w = Ok x w' → qualified_supplier (db w) (u_id u) org.
Proof.
  unfold requalify_supplier. intros (us & w1 & [-> Hd1]%lock_users_ok & H)%bind_ok.
  apply bind_ok in H as (gs & w2 & [-> Hd2]%lock_organizations_ok & H). rewrite Hd1 in H, Hd2.
  apply bind_ok in H as (d & w3 & [= <- <-] & H). cbv zeta in H. rewrite Hd2 in H. apply refuse_ok in H as [H _].
  rewrite !locked_lookup in H by (by left). apply orb_false_iff in H as [He%negb_false_iff Hr].
  apply bool_decide_eq_false, dec_stable in Hr. destruct (users (db w) !! u_id u) as [x'|] eqn:Hx; [|done]. by exists x'.
Qed.

(** ** The listing *)

(** A demo listing runs for a day from a time observed; others do not expire. *)
Definition listing_expires (w : World) (g : Organization) (expires_at : option datetime) : Prop :=
  if bool_decide (snapshot_organization_provenance (Some g) = DEMO)
  then ∃ t, observed w t ∧ expires_at = Some (t + hours 24)
  else expires_at = None.

Lemma listing_expiry_ok g w e w' :
  listing_expiry (snapshot_organization_provenance (Some g)) w = Ok e w' → listing_expires w g e.
Proof.
  unfold listing_expiry, listing_expires. destruct (bool_decide _); [|by inversion 1].
  intros (t & w1 & [= <- <-] & H)%bind_ok. apply bind_ok in H as (x & w2 & [Hx ->]%lift_ok & [= <- _]).
  assert (availability_window_expiry SPOT_WINDOW (clock w (clock_reads w)) = Val (clock w (clock_reads w) + hours 24))
    as E by reflexivity.
  rewrite E in Hx. injection Hx as <-. eexists. split; [by eexists|done].
Qed.

(** What a new listing says of the row it offers. *)
Definition offers (w : World) (d : Database) (item : InventoryItem) (product : Product) (dp : DeliveryPoint) (k : CreateKey)
    (u : User) (org : uuid) (n : Order) : Prop :=
  ∃ g ordinal price expires_at, organizations d !! org = Some g ∧ i_price_per_mt_usd item = Some price
    ∧ listing_expires w g expires_at ∧ order_is_execution_qualified n = true
    ∧ n = new_listing d item product dp k ordinal u g org (i_current_stock_mt item) price expires_at.

Lemma build_listing_ok item product dp k u g org w n w' :
  organizations (db w) !! org = Some g →
  build_listing item product dp k u g org (i_current_stock_mt item) w = Ok n w' → offers w (db w) item product dp k u org n.
Proof.
  intros Hg. unfold build_listing. intros (ordinal & w1 & Hn & H)%bind_ok.
  pose proof (reads_ok _ _ _ _ reads_nextval Hn) as Hr1.
  destruct (i_price_per_mt_usd item) as [price|] eqn:Hprice; [|discriminate].
  apply bind_ok in H as (e & w2 & He & H). pose proof (reads_ok _ _ _ _ (reads_listing_expiry _) He) as Hr2.
  apply listing_expiry_ok in He. apply bind_ok in H as (d & w3 & [= <- <-] & H). cbv zeta in H.
  apply bind_ok in H as ([] & w4 & Hc & [= <- _]). unfold check_listing in Hc.
  apply bind_ok in Hc as ([] & w5 & _ & [Hq%negb_false_iff _]%refuse_ok).
  assert (db w2 = db w) as Hdb by (destruct Hr1, Hr2; congruence).
  rewrite Hdb in *. exists g, ordinal, price, e. split_and!; try done.
  unfold listing_expires in *. case_bool_decide; [|done]. destruct He as (t & [i Ht] & ->).
  exists t. split; [|done]. exists i. destruct Hr1 as (_ & _ & _ & Hclk). by rewrite <-Hclk.
Qed.

Section offered.
Context (w : World) (d : Database) (item : InventoryItem) (product : Product) (dp : DeliveryPoint) (k : CreateKey).
Context (u : User) (org : uuid) (n : Order) (Hoffer : offers w d item product dp k u org n).

Lemma offer_row :
  orders d !! o_id n = None ∧ o_status n = OPEN ∧ o_inventory_item_id n = Some (i_id item)
  ∧ o_remaining_quantity_mt n = i_current_stock_mt item ∧ o_quantity_mt n = i_current_stock_mt item
  ∧ o_availability_window n = SPOT_WINDOW ∧ o_side n = ASK ∧ o_product_id n = p_id product
  ∧ o_delivery_point_id n = Some (d_id dp).
Proof. destruct Hoffer as (g & ordinal & price & e & _ & _ & _ & _ & ->). split_and!; try done. apply fresh_id_none. Qed.

(** No request takes a day. *)
Definition prompt (c : nat → datetime) : Prop := ∀ i j, c i < c j + hours 24.

Lemma offer_unexpired now : prompt (clock w) → observed w now → order_expired n now = false.
Proof.
  intros Hp [i ->]. destruct Hoffer as (g & ordinal & price & e & _ & _ & He & _ & ->).
  unfold order_expired, listing_expires in *. cbn. case_bool_decide.
  - destruct He as (t & [j ->] & ->). apply Z.leb_gt, Hp.
  - by subst.
Qed.

Lemma offer_tradable d' item' : names_product d' item' product → names_place d' item' dp → tradable_terms d' n.
Proof.
  intros (Hp & _ & _ & Hc) (Hd & _). destruct offer_row as (_ & _ & _ & _ & _ & _ & _ & Ep & Ed).
  unfold tradable_terms, order_delivery_point. rewrite Ep, Ed, Hp. split; [by apply canonical_texts|].
  cbn. rewrite Hd. by eexists.
Qed.
End offered.

(** ** The insert *)

Lemma publication_resolved k org e w :
  match resolve_publication_winner k org e w with
  | Ok (Some r) w' => (∃ key o, given_key k = Some key ∧ existing_publication (committed w) org key = Some o
        ∧ o_idempotency_request_hash o = ck_request_hash k ∧ r = published o) ∧ uncommitted w w'
  | Ok None _ => False
  | Raise _ w' => uncommitted w w'
  end.
Proof.
  unfold resolve_publication_winner. erewrite bind_run by reflexivity. set (w1 := w <| db := committed w |>).
  unfold answered_publication. destruct (given_key k) as [key|]; [|done].
  change (db w1) with (committed w). unfold mbind, M_bind, get_db, gets. cbn.
  destruct (existing_publication (committed w) org key) as [o|] eqn:Ho; [|done].
  unfold refuse. destruct (decide (o_idempotency_request_hash o = ck_request_hash k)) as [Hh|Hh].
  - rewrite bool_decide_eq_false_2 by (by intros Hne). cbn. split; [|done]. by exists key, o.
  - by rewrite bool_decide_eq_true_2.
Qed.

Lemma list_stock_outcome n item k org w :
  keyed (db w) → inventory (db w) !! i_id item = Some item → o_inventory_item_id n = Some (i_id item) →
  o_remaining_quantity_mt n = i_current_stock_mt item →
  match list_stock n (i_id item) (i_current_stock_mt item) k org w with
  | Ok None w' => db w' = backed_in (db w) n ∧ database_checks (db w')
      ∧ committed w' = committed w ∧ settings w' = settings w ∧ clock w' = clock w
  | Ok (Some r) w' => (∃ key o, given_key k = Some key ∧ existing_publication (committed w) org key = Some o
        ∧ o_idempotency_request_hash o = ck_request_hash k ∧ r = published o) ∧ uncommitted w w'
  | Raise _ w' => uncommitted w w'
  end.
Proof.
  intros (_ & _ & Hk & _) Hi Hitem Hrem. unfold list_stock. unfold mbind at 1, M_bind at 1.
  destruct (reserve_inventory (i_id item) (i_current_stock_mt item) w) as [x w1|e w1] eqn:Hres.
  2: { assert (Keeps uncommitted (reserve_inventory (i_id item) (i_current_stock_mt item))) as Hu.
       { unfold reserve_inventory, lock_inventory_item, lock_inventory_items. keeps. all: done. }
       specialize (Hu w). by rewrite Hres in Hu. }
  apply reserve_ok in Hres as (Hdb & Hc & Hs & Hclk); [|done].
  erewrite bind_run by reflexivity. set (w2 := w1 <| db := _ |>).
  assert (db w2 = backed_in (db w) n) as Hdb2.
  { unfold w2, backed_in. cbn. rewrite Hdb, Hitem, Hrem. done. }
  assert (uncommitted w w2) as Hu by done. unfold catch_integrity, mbind at 1, M_bind at 1, flush, refuse.
  case_bool_decide as Hchecks; cbn.
  - by split_and!.
  - pose proof (publication_resolved k org (IntegrityError "check or unique constraint") w2) as H.
    unfold uncommitted in *. rewrite Hu in H.
    destruct (resolve_publication_winner _ _ _ w2) as [[r|] w'|]; done.
Qed.

(** ** From the insert to the response *)

Lemma announced_row o product dp ts i u before w x w' :
  announce_publication o product dp ts i u before w = Ok x w' → is_Some (orders (db w') !! o_id o).
Proof.
  intros H. pose proof (keeps_ok only_events _ _ _ _ (only_events_announce_publication _ _ _ _ _ _ _) H) as Hev.
  unfold announce_publication in H. apply bind_ok in H as ([] & w1 & Hb & H).
  apply bind_ok in H as (o' & w2 & [-> Ho]%load_order_ok & _).
  apply (keeps_ok only_events) in Hb; [|keeps].
  destruct (only_events_same_ledger _ _ Hev) as (-> & _). destruct (only_events_same_ledger _ _ Hb) as (<- & _). by eexists.
Qed.

Section finishing.
Context (n : Order) (product : Product) (dp : DeliveryPoint) (item_id : uuid) (u : User) (before : PreviousBest).
Context (w : World) (Hok : market_ok (db w)) (Hex : items_exist (db w)) (Hset : settings_valid (settings w)).
Context (Hrow : orders (db w) !! o_id n = Some n) (Hopen : o_status n = OPEN) (Hterms : tradable_terms (db w) n).
Context (Hfresh : ∀ now, observed w now → order_expired n now = false).

Definition matched_and_committed (r : PublishResponse) (w' : World) : Prop :=
  r = published n ∧ market_ok (db w') ∧ committed w' = db w'
  ∧ ∃ ts now, observed w now ∧ matched_in (AUTO_MATCHING_ENABLED (settings w)) true n now (db w) (db w') ts.

Lemma finish_publication_outcome :
  match finish_publication n product dp item_id u before w with
  | Ok r w' => matched_and_committed r w'
  | Raise _ w' => uncommitted w w'
  end.
Proof.
  unfold finish_publication, match_publication.
  pose proof (match_row_outcome (AUTO_MATCHING_ENABLED (settings w)) true n w Hok Hex Hset Hrow
    ltac:(left; by rewrite Hopen) Hterms) as Hmatch.
  unfold mbind at 1, M_bind at 1. erewrite bind_run by reflexivity.
  set (out := (if AUTO_MATCHING_ENABLED _ then match_order n true None else mret []) w) in *.
  destruct out as [ts w1|e w1]; [|exact Hmatch].
  destruct Hmatch as (Hu1 & _ & now & Hnow & Hm & Hok1).
  assert (market_ok (db w1)) as Hok1' by (apply Hok1; unfold strands; by rewrite (Hfresh now Hnow), andb_false_r).
  clear Hok1. match goal with |- match ?m w1 with _ => _ end => change ((λ out : outcome World PublishResponse,
    match out with Ok r w' => matched_and_committed r w' | Raise _ w' => uncommitted w w' end) (m w1)) end.
  apply (frame_bind only_events); [keeps|intros e w2 [H2 _]; by trans w1|]. intros [] w2 Hann H2.
  pose proof (market_ok_only_events _ _ H2 Hok1') as Hok2. apply announced_row in Hann as [o Ho].
  erewrite bind_run by (apply commit_run, Hok2). unfold load_order.
  erewrite bind_run by (erewrite bind_run by reflexivity; change (db (w2 <| committed := db w2 |>)) with (db w2);
    by rewrite Ho). cbn.
  split_and!; [|done|done|].
  - unfold published. f_equal. by apply (proj1 (proj1 (proj2 Hok2)) (o_id n) o).
  - exists ts, now. split; [done|]. eapply matched_in_same_ledger; [|exact Hm]. exact (only_events_same_ledger _ _ H2).
Qed.
End finishing.

(** ** The sweep *)

Lemma lock_and_load_row ids own r ok w orgs w' org g :
  lock_and_load_market_organizations ids own r ok w = Ok orgs w' → orgs !! org = Some g →
  organizations (db w) !! org = Some g.
Proof.
  unfold lock_and_load_market_organizations. cbv zeta. destruct (bool_decide _); [by intros [= <- _]|].
  intros (found & w1 & Hf & H)%bind_ok Hg. pose proof (reads_ok _ _ _ _ (reads_lock_actors _) Hf) as (E1 & _).
  apply bind_ok in H as (gs & w2 & [-> E2]%lock_organizations_ok & H). rewrite E1 in *.
  apply bind_ok in H as ([] & w3 & _ & H). apply bind_ok in H as ([] & w4 & _ & H).
  apply bind_ok in H as ([] & w5 & _ & [= <- _]). by apply map_lookup_filter_Some in Hg as [? _].
Qed.

Lemma expire_organizations sl t limit extra own req w rows orgs w' org g :
  expire_market_slice_orders sl t limit extra own req w = Ok (rows, orgs) w' → orgs !! org = Some g →
  organizations (db w) !! org = Some g.
Proof.
  unfold expire_market_slice_orders. intros H Hg.
  apply bind_ok in H as ([] & w0 & [_ ->]%refuse_ok & H).
  apply bind_ok in H as (now & w1 & Hnow & H).
  assert (Keeps reads (match t with Some t => mret t | None => utcnow end : M World datetime)) as Kn by keeps.
  pose proof (keeps_ok reads _ _ _ _ Kn Hnow) as H1.
  apply bind_ok in H as ([] & w2 & Hlock & H).
  pose proof (keeps_ok reads _ _ _ _ (reads_slice_lock _ _ _) Hlock) as H2.
  apply bind_ok in H as (d & w3 & [= <- <-] & H). cbv zeta in H.
  apply bind_ok in H as (sel & w3 & Hsel & H). apply (keeps_ok reads) in Hsel as H3; [|keeps].
  apply bind_ok in H as (gs & w4 & Hgs & H). apply bind_ok in H as (items & w5 & _ & H).
  apply bind_ok in H as (pub & w6 & _ & H). apply bind_ok in H as (es & w7 & _ & H).
  apply bind_ok in H as ([] & w8 & _ & [= _ <- _]).
  apply (lock_and_load_row _ _ _ _ _ _ _ _ _ Hgs) in Hg.
  assert (db w3 = db w) as <- by (destruct H1, H2, H3; congruence). exact Hg.
Qed.

Lemma sweep_slice_outcome product dp u org w :
  market_ok (db w) →
  match sweep_slice product dp u org w with
  | Ok orgs w' => (∃ t, observed w t
        ∧ same_ledger (expired_in (db w) (due_orders (db w) (publish_slice product dp) t MAX_EXPIRY_ROWS_PER_TRANSACTION)) (db w'))
      ∧ market_ok (db w') ∧ static w w' ∧ ∀ g, orgs !! org = Some g → organizations (db w) !! org = Some g
  | Raise _ w' => uncommitted w w'
  end.
Proof.
  intros Hok. unfold sweep_slice.
  match goal with |- match ?m w with _ => _ end => set (run := m w); pattern run; unfold run; clear run end.
  apply (frame_bind reads); [keeps|by intros e w1 (_ & ? & _)|]. intros [] w1 _ H1.
  assert (db w1 = db w) as E by apply H1.
  pose proof (expire_market_slice_orders_outcome (publish_slice product dp) None MAX_EXPIRY_ROWS_PER_TRANSACTION [org]
    [MkMarketActorOwnership (u_id u) org] [org] w1 ltac:(by rewrite E)) as H.
  pose proof (static_expire (publish_slice product dp) None MAX_EXPIRY_ROWS_PER_TRANSACTION [org]
    [MkMarketActorOwnership (u_id u) org] [org] w1) as Hst.
  unfold mbind, M_bind. destruct (expire_market_slice_orders _ _ _ _ _ _ w1) as [[rows orgs] w2|e w2] eqn:Hrun.
  - destruct H as (_ & Hled & Hok2 & _). cbn. rewrite E in Hled. split_and!; [|done| |].
    + exists (observed_now w1 None). split; [|exact Hled]. exists (clock_reads w1). cbn. by destruct H1 as (_ & _ & _ & ->).
    + etrans; [by apply reads_static|exact Hst].
    + intros g Hg. rewrite <-E. eapply expire_organizations; [exact Hrun|exact Hg].
  - destruct H as [_ Hc]. unfold uncommitted. destruct H1 as (_ & <- & _). exact Hc.
Qed.

(** What is live after the sweep was live before it. *)
Lemma swept_live d due d1 now i o :
  NoDup (o_id <$> due) → same_ledger (expired_in d due) d1 → live_listing d1 now i o → live_listing d now i o.
Proof.
  intros Hnd (Eo & _) (Hrow & Hi & Hact & He). rewrite Eo, expired_in_lookup in Hrow by done. split_and!; try done.
  destruct (list_find _ due) as [[j x]|]; [|done]. injection Hrow as <-. by rewrite expired_order_status in Hact.
Qed.

Lemma expired_in_books d due :
  NoDup (o_id <$> due) → (∀ o, o ∈ due → orders d !! o_id o = Some o) →
  orders_kept (orders d) (orders (expired_in d due)) ∧ trades (expired_in d due) = trades d
  ∧ ∀ i, is_Some (inventory d !! i) → is_Some (inventory (expired_in d due) !! i).
Proof.
  revert d. induction due as [|o due IH]; intros d Hnd Hrows; [by split_and!|].
  apply NoDup_cons in Hnd as [Hnin Hnd]. cbn [expired_in foldl]. change (foldl _ ?x due) with (expired_in x due).
  assert (orders d !! o_id o = Some o) as Ho by (apply Hrows; left).
  destruct (IH (withdrawn_in d o (expired_order o)) Hnd) as (Hk & Ht & Hi).
  { intros x Hx. rewrite withdrawn_orders_other; [apply Hrows; by right|].
    rewrite (proj1 (expired_order_identity o)). intros E. apply Hnin. rewrite E. by apply list_elem_of_fmap_2. }
  split_and!.
  - etrans; [|exact Hk]. apply (kept_put _ o); [done|apply expired_order_identity].
  - by rewrite Ht.
  - intros i Hs. apply Hi. cbn. unfold released_inventory. destruct (o_inventory_item_id o); [|done].
    destruct (0 <? _); [|done]. by apply lookup_alter_is_Some.
Qed.

(** ** The step a publication is *)

(** Swept, listed and matched: everything the route has established. *)
Definition listed_stock (w : World) (item_id : uuid) (k : CreateKey) (u : User) (org : uuid)
    (r : PublishResponse) (w' : World) : Prop :=
  ∃ stored product dp t d1 item n d2 ts now,
    qualified_supplier (db w) (u_id u) org
    ∧ inventory (db w) !! item_id = Some stored ∧ i_supplier_id stored = Some org
    ∧ names_product (db w) stored product ∧ names_place (db w) stored dp
    ∧ observed w t
    ∧ same_ledger (expired_in (db w) (due_orders (db w) (publish_slice product dp) t MAX_EXPIRY_ROWS_PER_TRANSACTION)) d1
    ∧ unlisted d1 item_id
    ∧ inventory d1 !! item_id = Some item ∧ 0 < i_current_stock_mt item
    ∧ lot_reached (of_cents (i_current_stock_mt item)) product
    ∧ offers w d1 item product dp k u org n ∧ order_checks n
    ∧ same_market (backed_in d1 n) d2 ∧ observed w now
    ∧ matched_in (AUTO_MATCHING_ENABLED (settings w)) true n now d2 (db w') ts
    ∧ r = published n ∧ market_ok d1 ∧ market_ok (db w') ∧ committed w' = db w'.

(** The answer of a listing that is there already; what the sweep did is not committed. *)
Definition already_listed (w : World) (item_id : uuid) (k : CreateKey) (org : uuid) (r : PublishResponse) (w' : World) : Prop :=
  committed w' = committed w
  ∧ ((∃ key o, given_key k = Some key ∧ existing_publication (db w) org key = Some o
        ∧ o_idempotency_request_hash o = ck_request_hash k ∧ r = published o)
     ∨ ∃ o, live_listing (db w) (transaction_time w) item_id o ∧ r = published o).

Definition item_outcome (w : World) (item_id : uuid) (k : CreateKey) (u : User) (org : uuid)
    (out : outcome World PublishResponse) : Prop :=
  match out with
  | Ok r w' => already_listed w item_id k org r w' ∨ listed_stock w item_id k u org r w'
  | Raise _ w' => uncommitted w w'
  end.

Section publishing.
Context (item_id : uuid) (k : CreateKey) (u : User) (org : uuid) (w : World).
Context (Hsync : synced w) (Hok : market_ok (db w)) (Hex : items_exist (db w)) (Hlinked : trades_linked (db w)).
Context (Hset : settings_valid (settings w)) (Hprompt : prompt (clock w)).

Lemma static_time a b : static a b → transaction_time b = transaction_time a.
Proof. intros (_ & _ & E & _). unfold transaction_time. by rewrite E. Qed.
Lemma observed_static w1 t : static w w1 → observed w1 t → observed w t.
Proof. intros (_ & _ & Hk & _) [i ->]. exists i. by rewrite Hk. Qed.

(** The swept session. *)
Section swept.
Context (stored : InventoryItem) (product : Product) (dp : DeliveryPoint) (t : datetime).
Context (Hparty : qualified_supplier (db w) (u_id u) org).
Context (Hstored : inventory (db w) !! item_id = Some stored) (Howner : i_supplier_id stored = Some org).
Context (Hproduct : names_product (db w) stored product) (Hplace : names_place (db w) stored dp).
Let due := due_orders (db w) (publish_slice product dp) t MAX_EXPIRY_ROWS_PER_TRANSACTION.
Context (Ht : observed w t) (w1 : World) (Hled : same_ledger (expired_in (db w) due) (db w1)).
Context (Hok1 : market_ok (db w1)) (Hst : static w w1).

Lemma due_rows : NoDup (o_id <$> due) ∧ ∀ o, o ∈ due → orders (db w) !! o_id o = Some o.
Proof.
  split; [apply due_orders_NoDup, Hok|]. intros o Ho. by eapply due_orders_spec; [apply Hok|].
Qed.

Lemma swept_books : items_exist (db w1) ∧ trades_linked (db w1).
Proof.
  destruct due_rows as [Hnd Hrows]. destruct (expired_in_books (db w) due Hnd Hrows) as (Hk & Htr & Hi).
  destruct Hled as (Eo & Et & Ei). rewrite <-Eo in Hk. rewrite <-Et in Htr. rewrite <-Ei in Hi. split.
  - by apply (kept_items (db w)).
  - by apply (kept_trades_linked (db w)).
Qed.

Lemma places_static w2 : static w1 w2 → names_product (db w) stored product → products (db w2) = products (db w)
  ∧ delivery_points (db w2) = delivery_points (db w) ∧ organizations (db w2) = organizations (db w)
  ∧ settings w2 = settings w ∧ clock w2 = clock w ∧ committed w2 = committed w.
Proof. intros Hs _. pose proof (transitivity Hst Hs) as H. unfold static in H. destruct_and! H. by split_and!. Qed.

(** Everything after the insert. *)
Lemma listed_outcome item n w2 before :
  unlisted (db w1) item_id → inventory (db w1) !! item_id = Some item → i_id item = item_id → 0 < i_current_stock_mt item →
  lot_reached (of_cents (i_current_stock_mt item)) product →
  offers w (db w1) item product dp k u org n → db w2 = backed_in (db w1) n → database_checks (db w2) →
  static w1 w2 →
  item_outcome w item_id k u org (finish_publication n product dp (i_id item) u before w2).
Proof.
  intros Hnone Hitem Hid Hq Hlot Hoffer Hdb2 Hc2 Hst2.
  destruct swept_books as [Hex1 Hl1]. destruct (places_static w2 Hst2 Hproduct) as (Ep & Ed & Eg & Es & Ek & Ec).
  destruct (offer_row w (db w1) item product dp k u org n Hoffer) as (Hnew & Hopen & Hi & Hrem & Hqty & Hwin & Hask & Hpid & Hdid).
  assert (same_market (backed_in (db w1) n) (db w2)) as Hsame by (by rewrite Hdb2).
  assert (market_ok (db w2)) as Hok2.
  { apply (market_ok_backed (db w1) (db w2) n); try done; [by rewrite Hopen|lia|by rewrite Hwin]. }
  assert (items_exist (db w2)) as Hex2.
  { apply (backed_items (db w1) (db w2) n); try done. intros i Hii. rewrite Hi, Hid in Hii. injection Hii as <-. by eexists. }
  assert (orders (db w2) !! o_id n = Some n) as Hrow by (rewrite Hdb2; apply lookup_insert_eq).
  assert (tradable_terms (db w2) n) as Hterms.
  { unfold tradable_terms, order_delivery_point. rewrite Ep, Ed. by eapply (offer_tradable w (db w1)). }
  pose proof (finish_publication_outcome n product dp (i_id item) u before w2 Hok2 Hex2 ltac:(by rewrite Es) Hrow Hopen Hterms)
    as Hfin.
  destruct (finish_publication _ _ _ _ _ _ w2) as [r w3|e w3].
  - destruct Hfin as (Hr & Hok3 & Hcom & ts & now & Hnow & Hm).
    { intros now [i ->]. eapply offer_unexpired; [done..|]. exists i. by rewrite Ek. }
    right. rewrite Es in Hm. exists stored, product, dp, t, (db w1), item, n, (db w2), ts, now. split_and!; try done.
    + destruct Hc2 as (Hall & _). by apply (Hall (o_id n) n).
    + destruct Hnow as [i ->]. exists i. by rewrite Ek.
  - cbn. unfold uncommitted in *. rewrite Hfin; [done|].
    intros now [i ->]. eapply offer_unexpired; [done..|]. exists i. by rewrite Ek.
Qed.

Lemma publish_swept_outcome orgs w2 :
  reads w1 w2 → (∀ g, orgs !! org = Some g → organizations (db w) !! org = Some g) →
  item_outcome w item_id k u org (publish_swept item_id product dp k u org orgs w2).
Proof.
  intros H12 Horgs. unfold publish_swept.
  assert (committed w1 = committed w) as Hc1 by apply Hst. assert (committed w = db w) as Hcw by exact Hsync.
  assert (∀ e w', uncommitted w1 w' → item_outcome w item_id k u org (Raise e w')) as Hfail
    by (intros e w' H; unfold item_outcome, uncommitted in *; congruence).
  assert (∀ a b : World, reads w1 a → reads a b → uncommitted w1 b) as Hrr
    by (intros a b Ha Hb; destruct (transitivity Ha Hb) as (_ & ? & _); done).
  apply (frame_bind reads); [keeps|intros e w3 H3; by eapply Hfail, Hrr|]. intros item w3 Hitem H3.
  assert (reads w1 w3) as Hr3 by (by trans w2). apply own_item_ok in Hitem as [Hitem _].
  assert (db w2 = db w1) as E2 by apply H12. rewrite E2 in Hitem.
  pose proof (proj1 (proj2 (proj2 (proj1 (proj2 Hok1)))) _ _ Hitem) as Hid. cbn in Hid.
  apply (frame_bind uncommitted); [keeps|intros e w4 H4; apply Hfail; destruct Hr3 as (_ & Hc3 & _); unfold uncommitted in *; congruence|].
  intros p' w4 Hp' _. assert (db w3 = db w1) as E3 by apply Hr3.
  assert (products (db w1) = products (db w)) as Eprod by apply Hst.
  apply recheck_ok in Hp' as [H4 ->]; [|rewrite E3; apply Hok1|rewrite E3, Eprod; apply Hproduct].
  assert (reads w1 w4) as Hr4 by (by trans w3). assert (db w4 = db w1) as E4 by apply Hr4.
  apply (frame_bind reads); [keeps|intros e w5 H5; by eapply Hfail, Hrr|]. intros live w5 Hlive H5.
  assert (reads w1 w5) as Hr5 by (by trans w4). rewrite Hid in Hlive.
  destruct live as [o|].
  { left. split; [destruct Hr5 as (_ & -> & _); exact Hc1|]. right.
    apply existing_listing_ok in Hlive; [|rewrite E4; apply keyed_orders, Hok1].
    exists o. split; [|done]. rewrite E4 in Hlive.
    rewrite (static_time w w4) in Hlive by (etrans; [exact Hst|by apply reads_static]). eapply swept_live; [apply due_rows|exact Hled|exact Hlive]. }
  apply (frame_bind reads); [keeps|intros e w6 H6; by eapply Hfail, Hrr|]. intros backlog w6 Hback H6.
  assert (reads w1 w6) as Hr6 by (by trans w5).
  apply (frame_bind reads); [keeps|intros e w7 H7; by eapply Hfail, Hrr|]. intros [] w7 [Hnb _]%refuse_ok H7.
  assert (unlisted (db w1) item_id) as Hnone.
  { rewrite <-E4. rewrite Hid in Hback. eapply existing_listing_none; [exact Hlive|exact Hback|exact Hnb|by apply H5|].
    by apply static_time, reads_static. }
  assert (reads w1 w7) as Hr7 by (by trans w6).
  apply (frame_bind reads); [keeps|intros e w8 H8; by eapply Hfail, Hrr|]. intros q w8 Hq H8.
  assert (reads w1 w8) as Hr8 by (by trans w7). apply publishable_ok in Hq as (-> & Hq & Hlot).
  destruct (orgs !! org) as [g|] eqn:Hg; [|apply Hfail; apply Hr8].
  apply (frame_bind reads); [keeps|intros e w9 H9; by eapply Hfail, Hrr|]. intros n w9 Hn H9.
  assert (reads w1 w9) as Hr9 by (by trans w8). assert (db w8 = db w1) as E8 by apply Hr8.
  apply build_listing_ok in Hn.
  2: { rewrite E8. assert (organizations (db w1) = organizations (db w)) as -> by apply Hst. by apply Horgs. }
  rewrite E8 in Hn. assert (offers w (db w1) item product dp k u org n) as Hoffer.
  { destruct Hn as (g' & ordinal & price & e & Hg' & Hp & He & Hx). exists g', ordinal, price, e.
    split_and!; [done|done| |apply Hx|apply Hx]. unfold listing_expires in *. case_bool_decide; [|done]. destruct He as (t' & Ht' & ->). exists t'. split; [|done].
    eapply observed_static; [|exact Ht']. etrans; [exact Hst|by apply reads_static]. }
  apply (frame_bind reads); [keeps|intros e w10 H10; by eapply Hfail, Hrr|]. intros before w10 _ H10.
  assert (reads w1 w10) as Hr10 by (by trans w9). assert (db w10 = db w1) as E10 by apply Hr10.
  destruct (offer_row w (db w1) item product dp k u org n Hoffer) as (_ & _ & Hi & Hrem & _).
  pose proof (list_stock_outcome n item k org w10 ltac:(rewrite E10; apply Hok1) ltac:(by rewrite E10, Hid) Hi Hrem) as Hlist.
  unfold mbind at 1, M_bind at 1.
  destruct (list_stock n (i_id item) (i_current_stock_mt item) k org w10) as [[r|] w11|e w11].
  - destruct Hlist as ((key & o & Hk & Ho & Hh & Hr) & Hu). left. destruct Hr10 as (_ & Hc10 & _). unfold uncommitted in Hu.
    split; [congruence|]. left. exists key, o. rewrite <-Hcw. split_and!; try done. by rewrite <-Hc1, <-Hc10.
  - destruct Hlist as (Hdb11 & Hch11 & Hc11 & Hs11 & Hk11). rewrite E10 in Hdb11.
    eapply listed_outcome; try done. destruct Hr10 as (_ & Hc10 & Hs10 & Hk10).
    unfold static. rewrite Hc11, Hs11, Hk11, Hdb11. by split_and!.
  - apply Hfail. destruct Hr10 as (_ & Hc10 & _). unfold uncommitted in *. congruence.
Qed.
End swept.

Lemma publish_item_outcome w0 :
  reads w w0 → item_outcome w item_id k u org (publish_item item_id k u org w0).
Proof.
  intros Hr0. unfold publish_item.
  assert (∀ e w', reads w w' → item_outcome w item_id k u org (Raise e w')) as Hfail by (intros e w' H; apply H).
  apply (frame_bind reads); [keeps|intros e w1 H1; apply Hfail; by trans w0|]. intros [] w1 _ H1.
  assert (reads w w1) as Hr1 by (by trans w0).
  apply (frame_bind reads); [keeps|intros e w2 H2; apply Hfail; by trans w1|]. intros [] w2 Hq H2.
  assert (reads w w2) as Hr2 by (by trans w1). apply requalify_ok in Hq.
  apply (frame_bind reads); [keeps|intros e w3 H3; apply Hfail; by trans w2|]. intros stored w3 Hstored H3.
  assert (reads w w3) as Hr3 by (by trans w2). apply own_item_ok in Hstored as [Hstored Howner].
  assert (db w1 = db w) as E1 by apply Hr1. assert (db w2 = db w) as E2 by apply Hr2. assert (db w3 = db w) as E3 by apply Hr3.
  rewrite E1 in Hq. rewrite E2 in Hstored.
  pose proof (proj1 (proj2 (proj2 (proj1 (proj2 Hok)))) _ _ Hstored) as Hid. cbn in Hid.
  apply (frame_bind reads); [keeps|intros e w4 H4; apply Hfail; by trans w3|]. intros live w4 Hlive H4.
  assert (reads w w4) as Hr4 by (by trans w3). rewrite Hid in Hlive. destruct live as [o|].
  { left. split; [apply Hr4|]. right. apply existing_listing_ok in Hlive; [|rewrite E3; apply keyed_orders, Hok].
    exists o. by rewrite E3, (static_time w w3 (reads_static _ _ Hr3)) in Hlive. }
  apply (frame_bind reads); [keeps|intros e w5 H5; apply Hfail; by trans w4|]. intros [] w5 _ H5.
  assert (reads w w5) as Hr5 by (by trans w4). assert (db w5 = db w) as E5 by apply Hr5.
  apply (frame_bind reads); [keeps|intros e w6 H6; apply Hfail; by trans w5|]. intros [product dp] w6 Hmp H6.
  assert (reads w w6) as Hr6 by (by trans w5). assert (db w6 = db w) as E6 by apply Hr6.
  apply market_place_ok in Hmp as [Hproduct Hplace]; [|rewrite E5; apply Hok]. rewrite E5 in Hproduct, Hplace. cbn [fst snd].
  pose proof (sweep_slice_outcome product dp u org w6 ltac:(by rewrite E6)) as Hsweep. unfold mbind at 1, M_bind at 1.
  destruct (sweep_slice product dp u org w6) as [orgs w7|e w7].
  - destruct Hsweep as ((t & Ht & Hled) & Hok7 & Hst & Horgs). rewrite E6 in Hled, Horgs.
    apply (publish_swept_outcome stored product dp t Hq Hstored Howner Hproduct Hplace (reads_observed w w6 t Hr6 Ht) w7 Hled Hok7);
      [etrans; [by apply reads_static|done]|done|done].
  - cbn. unfold uncommitted in *. destruct Hr6 as (_ & <- & _). exact Hsweep.
Qed.
End publishing.

(** ** The route *)

Definition publish_outcome (w : World) (item_id : uuid) (raw_key : option string) (u : User)
    (out : outcome World PublishResponse) : Prop :=
  match out with
  | Ok r w' => ∃ org k, u_organization_id u = Some org ∧ publish_key raw_key item_id = Val k
      ∧ (already_listed w item_id k org r w' ∨ listed_stock w item_id k u org r w')
  | Raise _ w' => uncommitted w w'
  end.

Lemma replay_publication_ok k org w r w' :
  replay_publication k org w = Ok (Some r) w' →
  ∃ key o, given_key k = Some key ∧ existing_publication (db w) org key = Some o
    ∧ o_idempotency_request_hash o = ck_request_hash k ∧ r = published o.
Proof.
  unfold replay_publication. intros ([] & w1 & Hl & H)%bind_ok. unfold answered_publication in H.
  destruct (given_key k) as [key|] eqn:Hk; [|discriminate]. erewrite bind_run in H by reflexivity.
  apply (keeps_ok reads) in Hl as (E & _); [|keeps]. rewrite E in H.
  destruct (existing_publication (db w) org key) as [o|] eqn:Ho; [|discriminate].
  apply bind_ok in H as ([] & w2 & [Hh _]%refuse_ok & [= <- _]). apply bool_decide_eq_false, dec_stable in Hh. by exists key, o.
Qed.

Lemma reads_require_eligible u : Keeps reads (require_execution_eligible_user u).
Proof. unfold require_execution_eligible_user. keeps. Qed.
#[export] Hint Resolve reads_require_eligible : keeps.

Lemma publish_route_outcome item_id raw_key u w :
  synced w → market_ok (db w) → items_exist (db w) → trades_linked (db w) → settings_valid (settings w) →
  prompt (clock w) → publish_outcome w item_id raw_key u (publish_inventory_item item_id raw_key u w).
Proof.
  intros Hs Hok Hex Hl Hset Hp. unfold publish_inventory_item.
  assert (∀ e w', reads w w' → publish_outcome w item_id raw_key u (Raise e w')) as Hfail by (intros e w' H; apply H).
  apply (frame_bind reads); [keeps|intros e w1; apply Hfail|]. intros [] w1 _ H1.
  destruct (u_organization_id u) as [org|] eqn:Horg; [|by apply Hfail].
  destruct (publish_key raw_key item_id) as [k|e] eqn:Hk; [|by apply Hfail].
  erewrite bind_run by reflexivity.
  apply (frame_bind reads); [keeps|intros e w2 H2; apply Hfail; by trans w1|]. intros [r|] w2 Hrep H2.
  - exists org, k. split_and!; try done. left. split; [by destruct (transitivity H1 H2) as (_ & ? & _)|]. left.
    apply replay_publication_ok in Hrep. by rewrite (proj1 H1) in Hrep.
  - pose proof (publish_item_outcome item_id k u org w Hs Hok Hex Hl Hset Hp w2 (transitivity H1 H2)) as H.
    destruct (publish_item item_id k u org w2) as [r w3|e w3]; [|exact H]. exists org, k. by split_and!.
Qed.

(** C4: Publishing implements the listing of stock.  A supplier's request is
    answered with the listing that its key, or a listing of the row that had not
    expired when the transaction began, already stands for, and then commits nothing;
    or it expires the due asks of the slice, so that nothing active is listed against
    the row any more, and offers all the free stock of the row - what the sweep released
    included - as one new ask with the row's price and metadata, for the active
    canonical product and place the row names, in at least the catalog's lot, in the
    name of a supplier still qualified under lock; exactly that stock is reserved
    behind it, the ask is matched exactly as planned, and the committed tables
    satisfy the market invariant.  Any other request fails and commits nothing. *)
Theorem publish_implements_listing item_id raw_key u w :
  synced w → market_ok (db w) → items_exist (db w) → trades_linked (db w) → settings_valid (settings w) →
  prompt (clock w) → publish_outcome w item_id raw_key u (publish_inventory_item item_id raw_key u w).
Proof. exact (publish_route_outcome item_id raw_key u w). Qed.

Lemma shelf_ok : market_ok (db demo_shelf) ∧ items_exist (db demo_shelf) ∧ trades_linked (db demo_shelf)
  ∧ settings_valid (settings demo_shelf) ∧ prompt (clock demo_shelf).
Proof. split_and!; [apply (bool_decide_unpack _); vm_compute; exact I..|]. intros i j. cbn. unfold hours. lia. Qed.

(** The row's 1000 t and the 300 t of its expired ask are offered together. *)
Lemma publish_implements_listing_witness :
  ∃ r w' k, publish_inventory_item 70 (Some "k1") Demo.supplier demo_shelf = Ok r w'
    ∧ listed_stock demo_shelf 70 k Demo.supplier 2 r w'
    ∧ o_quantity_mt <$> orders (committed w') !! pr_listing_id r = Some 130000.
Proof.
  destruct shelf_ok as (H1 & H2 & H3 & H4 & H5).
  pose proof (publish_implements_listing 70 (Some "k1") Demo.supplier demo_shelf eq_refl H1 H2 H3 H4 H5) as H.
  assert (match publish_inventory_item 70 (Some "k1") Demo.supplier demo_shelf with
          | Ok r w' => bool_decide (o_quantity_mt <$> orders (committed w') !! pr_listing_id r = Some 130000)
                       && bool_decide (size (orders (committed w')) ≠ size (orders (committed demo_shelf)))
          | Raise _ _ => false end = true) as Hrun by (vm_compute; reflexivity).
  destruct (publish_inventory_item _ _ _ _) as [r w'|]; [|discriminate Hrun].
  rewrite andb_true_iff, !bool_decide_eq_true in Hrun. destruct Hrun as [Hq Hsize].
  destruct H as (org & k & [= <-] & _ & [[Hc _]|Hl]); [by rewrite Hc in Hsize|].
  exists r, w', k. split_and!; [reflexivity|exact Hl|exact Hq].
Defined.

(** With an empty Idempotency-Key header nothing is ever listed: the row would hold
    the empty key without an operation, which its CHECK refuses. *)
Lemma publish_empty_key_lists_nothing item_id u w r w' :
  synced w → market_ok (db w) → items_exist (db w) → trades_linked (db w) → settings_valid (settings w) →
  prompt (clock w) → publish_inventory_item item_id (Some "") u w = Ok r w' → committed w' = committed w.
Proof.
  intros Hs Hok Hex Hl Hset Hp Hrun. pose proof (publish_route_outcome item_id (Some "") u w Hs Hok Hex Hl Hset Hp) as H.
  rewrite Hrun in H. destruct H as (org & k & _ & [= <-] & [[Hc _]|H]); [exact Hc|]. exfalso.
  destruct H as (stored & product & dp & t & d1 & item & n & d2 & ts & now & H). destruct_and! H.
  match goal with H : offers _ _ _ _ _ _ _ _ n |- _ => destruct H as (g & ordinal & price & e & _ & _ & _ & _ & ->) end.
  match goal with H : order_checks _ |- _ => destruct H as ((_ & Hidem) & _) end. cbn in Hidem.
  unfold idempotency_complete in Hidem. naive_solver.
Qed.

(** ** Recording, editing, deleting *)

Inductive inventory_request :=
  | AddItem (p : InventoryCreate)
  | EditItem (id : uuid) (updates : InventoryItemUpdate)
  | RemoveItem (id : uuid).

Definition run_inventory_request (a : inventory_request) (u : User) : M World unit :=
  match a with
  | AddItem p => add_inventory p u ;; mret tt
  | EditItem id updates => update_inventory id updates u ;; mret tt
  | RemoveItem id => delete_inventory id u
  end.

(** A row of the supplier that backs no active order and no running trade. *)
Definition idle_item (d : Database) (id org : uuid) (item : InventoryItem) : Prop :=
  inventory d !! id = Some item ∧ i_supplier_id item = Some org ∧ i_reserved_stock_mt item <= 0
  ∧ ∀ o, o ∈ orders_of_item d id → is_active_status (o_status o) = false
      ∧ ∀ k t, trades d !! k = Some t → trade_links_order t o = true → trade_is_nonterminal t = false.

(** The inventory after a request that is served. *)
Definition edited_inventory (d : Database) (a : inventory_request) (u : User) (org : uuid)
    (inv : gmap uuid InventoryItem) : Prop :=
  match a with
  | AddItem p => let item := new_item d p org (u_id u) in inv = <[ i_id item := item ]> (inventory d)
  | EditItem id updates => ∃ item, idle_item d id org item ∧ inv = <[ id := updated_item updates item ]> (inventory d)
  | RemoveItem id => ∃ item, idle_item d id org item ∧ orders_of_item d id = [] ∧ inv = delete id (inventory d)
  end.

Definition edit_outcome {A} (w : World) (a : inventory_request) (u : User) (o : outcome World A) : Prop :=
  match o with
  | Ok _ w' => ∃ org, u_organization_id u = Some org ∧ u_role u = Some SUPPLIER
      ∧ edited_inventory (db w) a u org (inventory (db w'))
      ∧ orders (db w') = orders (db w) ∧ trades (db w') = trades (db w)
      ∧ market_ok (db w') ∧ items_exist (db w') ∧ committed w' = db w'
  | Raise _ w' => uncommitted w w'
  end.

Lemma reads_assert_mutable item b : Keeps reads (assert_inventory_mutable item b).
Proof. unfold assert_inventory_mutable. keeps. Qed.
Lemma reads_managing m u : Keeps reads (managing_supplier m u).
Proof. unfold managing_supplier. keeps. Qed.
Lemma only_events_announce_item e i org p : Keeps only_events (announce_item e i org p).
Proof. unfold announce_item. keeps. Qed.
#[export] Hint Resolve reads_assert_mutable reads_managing only_events_announce_item : keeps.

Lemma managing_ok m u w org w' :
  managing_supplier m u w = Ok org w' → u_organization_id u = Some org ∧ u_role u = Some SUPPLIER.
Proof.
  unfold managing_supplier. intros ([] & w1 & _ & H)%bind_ok. apply bind_ok in H as ([] & w2 & [Hr ->]%refuse_ok & H).
  apply bool_decide_eq_false, dec_stable in Hr. destruct (u_organization_id u) as [x|]; [|discriminate].
  apply bind_ok in H as (gs & w3 & _ & [= <- _]). done.
Qed.

Lemma assert_mutable_ok item b w x w' :
  assert_inventory_mutable item b w = Ok x w' →
  i_reserved_stock_mt item <= 0
  ∧ (∀ o, o ∈ orders_of_item (db w) (i_id item) → is_active_status (o_status o) = false
      ∧ ∀ k t, trades (db w) !! k = Some t → trade_links_order t o = true → trade_is_nonterminal t = false)
  ∧ (b = true → orders_of_item (db w) (i_id item) = []).
Proof.
  unfold assert_inventory_mutable. intros ([] & w1 & [Hr ->]%refuse_ok & H)%bind_ok. apply bool_decide_eq_false in Hr.
  apply bind_ok in H as (d & w1 & [= <- <-] & H). apply bind_ok in H as ([] & w1 & [Ha ->]%refuse_ok & H).
  apply bind_ok in H as ([] & w1 & [Ht ->]%refuse_ok & H). split_and!; [lia| |].
  - intros o Ho. split; [by apply (existsb_false_elem _ _ _ Ha)|]. intros k t Hk Hlink.
    pose proof (existsb_false_elem _ _ _ Ht Ho) as Hno. cbn in Hno.
    assert (t ∈ snd <$> map_to_list (trades (db w))) as Hin.
    { apply list_elem_of_fmap. exists (k, t). split; [done|]. by apply elem_of_map_to_list. }
    pose proof (existsb_false_elem _ _ _ Hno Hin) as Hf. cbn in Hf. rewrite Hlink in Hf. exact Hf.
  - intros ->. apply refuse_ok in H as [H _]. by apply bool_decide_eq_false, dec_stable in H.
Qed.

(** ** One row of the inventory is written *)

Section edited.
Context (d : Database) (m : gmap uuid InventoryItem) (Hok : market_ok d) (Hex : items_exist d).
Context (Hchecks : database_checks (d <| inventory := m |>)).

Lemma market_ok_inventory :
  map_Forall (λ i x, i_id x = i ∧ i_reserved_stock_mt x = held_stock d i
                     ∧ i_current_stock_mt x + i_reserved_stock_mt x <= cents 100000) m →
  market_ok (d <| inventory := m |>).
Proof.
  intros Hm. destruct Hok as (_ & (K1 & K2 & _ & K) & Hr & Hs & Hw & Hf).
  refine (conj Hchecks (conj (conj K1 (conj K2 (conj _ K))) (conj _ (conj _ (conj Hw Hf))))); intros i x Hx;
    by destruct (Hm i x Hx) as (? & ? & ?).
Qed.

(** The rows that were there are still in order. *)
Lemma kept_rows :
  map_Forall (λ i x, i_id x = i ∧ i_reserved_stock_mt x = held_stock d i
                     ∧ i_current_stock_mt x + i_reserved_stock_mt x <= cents 100000) (inventory d).
Proof.
  destruct Hok as (_ & (_ & _ & K & _) & Hr & Hs & _). intros i x Hx. split_and!; [by apply K|by apply Hr|by apply (Hs i)].
Qed.

(** Nothing is held of a row that is not there. *)
Lemma absent_unheld i : inventory d !! i = None → held_stock d i = 0.
Proof.
  intros Hi. assert (∀ k o, orders d !! k = Some o → o_inventory_item_id o ≠ Some i) as Hno.
  { intros k o Ho E. specialize (Hex k o Ho). cbn in Hex. rewrite E, Hi in Hex. by apply is_Some_None in Hex. }
  unfold held_stock. rewrite !sum_map_zero; [done| |].
  - intros k t Ht. unfold trade_holds. rewrite (bool_decide_eq_false_2 (trade_item _ _ = _)); [by rewrite andb_false_r|].
    unfold trade_item. destruct (trade_order_id t) as [id|]; [|done]. cbn. destruct (orders d !! id) as [o|] eqn:Ho; [|done].
    cbn. by apply (Hno id).
  - intros k o Ho. by apply order_holds_other, (Hno k).
Qed.
End edited.

Lemma edit_commit {A} ev i org pub (rest : M World A) w :
  market_ok (db w) → (∀ w1, inventory (db w1) = inventory (db w) → ∃ x, rest w1 = Ok x w1) →
  match (announce_item ev i org pub ;; commit ;; rest) w with
  | Ok _ w' => same_ledger (db w) (db w') ∧ market_ok (db w') ∧ committed w' = db w'
  | Raise _ w' => uncommitted w w'
  end.
Proof.
  intros Hok Hrest.
  match goal with |- match ?m w with _ => _ end => set (run := m w); pattern run; unfold run; clear run end.
  apply (frame_bind only_events); [keeps|by intros e w1 [? _]|]. intros [] w1 _ H1.
  pose proof (market_ok_only_events _ _ H1 Hok) as Hok1. erewrite bind_run by (apply commit_run, Hok1).
  pose proof (only_events_same_ledger _ _ H1) as Hs.
  destruct (Hrest (w1 <| committed := db w1 |>)) as [x ->]; [by destruct Hs as (_ & _ & <-)|]. by split_and!.
Qed.

Lemma refresh_run i item w : inventory (db w) !! i = Some item → refresh_item i w = Ok item w.
Proof. intros Hi. unfold refresh_item. erewrite bind_run by reflexivity. by rewrite Hi. Qed.

Lemma internal_error_outcome {A} (m : M World A) w0 w :
  uncommitted w0 w → match m w with Raise _ w' => uncommitted w0 w' | _ => True end →
  match internal_error_on_failure m w with
  | Ok a w' => m w = Ok a w'
  | Raise _ w' => uncommitted w0 w'
  end.
Proof.
  intros Hu Hm. unfold internal_error_on_failure. destruct (m w) as [a w'|[] w']; done.
Qed.

(** From the written row to the served request. *)
Lemma edit_served {A} w w1 a u org m ev i pub (rest : M World A) :
  market_ok (db w) → items_exist (db w) → u_organization_id u = Some org → u_role u = Some SUPPLIER →
  committed w1 = committed w → db w1 = (db w) <| inventory := m |> → edited_inventory (db w) a u org m →
  market_ok (db w1) → items_exist (db w1) → (∀ w2, inventory (db w2) = m → ∃ x, rest w2 = Ok x w2) →
  edit_outcome w a u ((announce_item ev i org pub ;; commit ;; rest) w1).
Proof.
  intros Hok Hex Horg Hrole Hc Hdb Hedit Hok1 Hex1 Hrest.
  pose proof (edit_commit ev i org pub rest w1 Hok1 ltac:(intros w2; rewrite Hdb; apply Hrest)) as H.
  destruct ((announce_item ev i org pub ;; commit ;; rest) w1) as [x w2|e w2].
  - destruct H as ((Eo & Et & Ei) & Hok2 & Hcom). exists org. rewrite Hdb in Eo, Et, Ei. cbn in Eo, Et, Ei.
    split_and!; try done; [by rewrite Ei|]. unfold items_exist in *. rewrite Hdb in Hex1. by rewrite Eo, Ei.
  - cbn. unfold uncommitted in *. congruence.
Qed.

Section editing.
Context (u : User) (w : World) (Hok : market_ok (db w)) (Hex : items_exist (db w)).

Lemma add_inventory_outcome p : edit_outcome w (AddItem p) u (add_inventory p u w).
Proof.
  unfold add_inventory. apply (frame_bind reads); [keeps|by intros e w1 (_ & ? & _)|]. intros org w1 Horg H1.
  apply managing_ok in Horg as [Horg Hrole]. assert (db w1 = db w) as E1 by apply H1. destruct H1 as (_ & Hc1 & _).
  set (body := (d ← get_db; _) : M World InventoryItem).
  assert (edit_outcome w (AddItem p) u (body w1)) as Hbody.
  { unfold body. erewrite bind_run by reflexivity. rewrite E1. cbv zeta. set (item := new_item (db w) p org (u_id u)).
    erewrite bind_run by reflexivity. set (w2 := w1 <| db := _ |>). set (m := <[ i_id item := item ]> (inventory (db w))).
    assert (db w2 = (db w) <| inventory := m |>) as E2 by (unfold w2; cbn; by rewrite E1).
    assert (inventory (db w) !! i_id item = None) as Hnew by apply fresh_id_none.
    apply (frame_bind reads); [keeps|intros e w3 (_ & H3 & _); unfold edit_outcome, uncommitted; by rewrite H3|].
    intros [] w3 [-> Hch]%flush_ok _. rewrite E2 in Hch.
    erewrite bind_run by reflexivity.
    assert (market_ok (db w2)) as Hok2.
    { rewrite E2. apply market_ok_inventory; [done..|]. apply map_Forall_insert_2; [|by apply kept_rows].
      rewrite (absent_unheld (db w) Hex _ Hnew). split_and!; [done|done|]. cbn. rewrite Z.add_0_r.
      destruct Hch as (_ & _ & Hi & _). specialize (Hi (i_id item) item). cbn in Hi. unfold m in Hi.
      rewrite lookup_insert_eq in Hi. by destruct (Hi eq_refl) as ((_ & ?) & _). }
    apply (edit_served w w2 _ u org m); try done.
    - rewrite E2. intros k o Ho. specialize (Hex k o Ho). cbn in Hex |- *. destruct (o_inventory_item_id o) as [i|]; [|done].
      unfold m. destruct (decide (i = i_id item)) as [->|]; [rewrite lookup_insert_eq; by eexists|by rewrite lookup_insert_ne].
    - intros w3 E3. exists item. apply refresh_run. rewrite E3. apply lookup_insert_eq. }
  pose proof (internal_error_outcome body w w1 Hc1) as H.
  destruct (body w1) as [x w2|e w2]; [specialize (H I)|specialize (H Hbody)];
    destruct (internal_error_on_failure body w1); [by injection H as -> ->|exact H|discriminate|exact H].
Qed.

(** The guards of the two other routes. *)
Lemma own_idle org b i (w1 w2 w3 : World) item x :
  reads w w1 → own_item i org w1 = Ok item w2 → assert_inventory_mutable item b w2 = Ok x w3 →
  i_id item = i ∧ idle_item (db w) i org item ∧ (b = true → orders_of_item (db w) i = []).
Proof.
  intros H1 Hown Hm. pose proof (reads_ok _ _ _ _ (reads_own_item _ _) Hown) as (E2 & _).
  apply own_item_ok in Hown as [Hi Ho]. assert (db w1 = db w) as E1 by apply H1. rewrite E1 in *.
  pose proof (proj1 (proj2 (proj2 (proj1 (proj2 Hok)))) _ _ Hi) as Hid. cbn in Hid.
  apply assert_mutable_ok in Hm as (Hr & Hf & He). rewrite Hid, E2 in *. by split_and!.
Qed.

Lemma update_inventory_outcome id updates : edit_outcome w (EditItem id updates) u (update_inventory id updates u w).
Proof.
  unfold update_inventory. apply (frame_bind reads); [keeps|by intros e w1 (_ & ? & _)|]. intros org w1 Horg H1.
  apply managing_ok in Horg as [Horg Hrole].
  assert (∀ e w', reads w w' → edit_outcome w (EditItem id updates) u (Raise e w' : outcome World InventoryItem)) as Hfail
    by (intros e w' H; apply H).
  apply (frame_bind reads); [keeps|intros e w2 H2; apply Hfail; by trans w1|]. intros item w2 Hown H2.
  apply (frame_bind reads); [keeps|intros e w3 H3; apply Hfail; trans w1; [done|by trans w2]|]. intros [] w3 Hmut H3.
  destruct (own_idle org false id w1 w2 w3 item () H1 Hown Hmut) as (Hid & Hidle & _). clear Hown Hmut.
  apply (frame_bind reads); [keeps|intros e w4 H4; apply Hfail; trans w1; [done|trans w2; [done|by trans w3]]|].
  intros pub w4 _ H4. assert (reads w w4) as Hr4 by (trans w1; [done|trans w2; [done|by trans w3]]). clear H1 H2 H3 H4 w1 w2 w3.
  assert (db w4 = db w) as E4 by apply Hr4. destruct Hr4 as (_ & Hc4 & _).
  erewrite bind_run by reflexivity. set (w5 := w4 <| db := _ |>). set (m := <[ id := updated_item updates item ]> (inventory (db w))).
  assert (db w5 = (db w) <| inventory := m |>) as E5 by (unfold w5, m; cbn; by rewrite E4, Hid).
  assert (∀ e w6, reads w5 w6 → edit_outcome w (EditItem id updates) u (Raise e w6 : outcome World InventoryItem)) as Hfail'
    by (intros e w6 (_ & H6 & _); unfold edit_outcome, uncommitted; by rewrite H6).
  apply (frame_bind reads); [keeps|exact Hfail'|]. intros [] w6 [_ ->]%refuse_ok _.
  apply (frame_bind reads); [keeps|exact Hfail'|]. intros [] w6 [-> Hch]%flush_ok _. rewrite E5 in Hch.
  erewrite bind_run by reflexivity. destruct Hidle as (Hi & Ho & Hres & Hfree).
  destruct (kept_rows (db w) Hok id item Hi) as (_ & Hheld & _).
  assert (market_ok (db w5)) as Hok5.
  { rewrite E5. apply market_ok_inventory; [done..|]. apply map_Forall_insert_2; [|by apply kept_rows].
    split_and!; [done|done|]. destruct Hch as (_ & _ & Hn & _). specialize (Hn id (updated_item updates item)). cbn in Hn.
    unfold m in Hn. rewrite lookup_insert_eq in Hn. destruct (Hn eq_refl) as ((_ & ?) & _).
    change (i_reserved_stock_mt (updated_item updates item)) with (i_reserved_stock_mt item). lia. }
  apply (edit_served w w5 _ u org m); try done.
  - by exists item.
  - rewrite E5. intros k o Hko. specialize (Hex k o Hko). cbn in Hex |- *. destruct (o_inventory_item_id o) as [i|]; [|done].
    unfold m. destruct (decide (i = id)) as [->|]; [rewrite lookup_insert_eq; by eexists|by rewrite lookup_insert_ne].
  - intros w6 E6. eexists. apply refresh_run. rewrite E6, Hid. apply lookup_insert_eq.
Qed.

Lemma delete_inventory_outcome id : edit_outcome w (RemoveItem id) u (delete_inventory id u w).
Proof.
  unfold delete_inventory. apply (frame_bind reads); [keeps|by intros e w1 (_ & ? & _)|]. intros org w1 Horg H1.
  apply managing_ok in Horg as [Horg Hrole].
  assert (∀ e w', reads w w' → edit_outcome w (RemoveItem id) u (Raise e w' : outcome World unit)) as Hfail
    by (intros e w' H; apply H).
  apply (frame_bind reads); [keeps|intros e w2 H2; apply Hfail; by trans w1|]. intros item w2 Hown H2.
  apply (frame_bind reads); [keeps|intros e w3 H3; apply Hfail; trans w1; [done|by trans w2]|]. intros [] w3 Hmut H3.
  destruct (own_idle org true id w1 w2 w3 item () H1 Hown Hmut) as (Hid & Hidle & Hnone). specialize (Hnone eq_refl). clear Hown Hmut.
  apply (frame_bind reads); [keeps|intros e w4 H4; apply Hfail; trans w1; [done|trans w2; [done|by trans w3]]|].
  intros pub w4 _ H4. assert (reads w w4) as Hr4 by (trans w1; [done|trans w2; [done|by trans w3]]). clear H1 H2 H3 H4 w1 w2 w3.
  assert (db w4 = db w) as E4 by apply Hr4. destruct Hr4 as (_ & Hc4 & _).
  erewrite bind_run by reflexivity. set (w5 := w4 <| db := _ |>). set (m := delete id (inventory (db w))).
  assert (db w5 = (db w) <| inventory := m |>) as E5 by (unfold w5, m; cbn; by rewrite E4, Hid).
  assert (database_checks ((db w) <| inventory := m |>)) as Hch.
  { destruct Hok as ((C1 & C2 & C3 & C) & _). split_and!; try apply C; try done.
    intros i x Hx. unfold m in Hx. cbn in Hx. apply lookup_delete_Some in Hx as [_ Hx]. by apply (C3 i). }
  assert (market_ok (db w5)) as Hok5.
  { rewrite E5. apply market_ok_inventory; [done..|]. intros i x [_ Hx]%lookup_delete_Some. by apply kept_rows. }
  assert (items_exist (db w5)) as Hex5.
  { rewrite E5. intros k o Hko. specialize (Hex k o Hko). cbn in Hex |- *. destruct (o_inventory_item_id o) as [i|] eqn:Hi; [|done].
    unfold m. rewrite lookup_delete_ne; [done|]. intros <-. apply (not_elem_of_nil o). rewrite <-Hnone.
    apply list_elem_of_filter. split; [done|]. apply list_elem_of_fmap. exists (k, o). split; [done|]. by apply elem_of_map_to_list. }
  pose proof (edit_served w w5 (RemoveItem id) u org m "inventory_deleted" (i_id item) pub (mret ()) Hok Hex Horg Hrole Hc4 E5) as H.
  assert (∀ o : outcome World unit, o = (announce_item "inventory_deleted" (i_id item) org pub ;; commit) w5 →
            edit_outcome w (RemoveItem id) u o) as Hgo; [|by apply Hgo].
  intros o ->. assert ((announce_item "inventory_deleted" (i_id item) org pub ;; commit) w5
    = (announce_item "inventory_deleted" (i_id item) org pub ;; commit ;; mret ()) w5) as ->.
  { unfold mbind, M_bind. destruct (announce_item _ _ _ _ w5) as [[] w6|]; [|done]. by destruct (commit w6) as [[] ?|]. }
  apply H; try done; [by exists item|]. by eexists.
Qed.
End editing.

Lemma inventory_request_outcome a u w :
  market_ok (db w) → items_exist (db w) → edit_outcome w a u (run_inventory_request a u w).
Proof.
  intros Hok Hex.
  assert (∀ A (m : M World A), edit_outcome w a u (m w) → edit_outcome w a u ((m ;; mret tt) w)) as Hret.
  { intros A m H. unfold mbind, M_bind. by destruct (m w). }
  destruct a as [p|id updates|id]; cbn [run_inventory_request].
  - apply Hret. by apply add_inventory_outcome.
  - apply Hret. by apply update_inventory_outcome.
  - by apply delete_inventory_outcome.
Qed.

(** C22: Editing inventory never touches stock that is spoken for.  A served request
    comes from a supplier and writes one row of its organization: a new one, free and
    unreserved, under an unused id; or a row that reserves nothing and backs no active
    order and no running trade - and, to be deleted, no order at all.  Orders and
    trades stay as they are, the reservations still balance, every order still finds
    its row, and the change is committed.  A refused request commits nothing. *)
Theorem inventory_edits_spare_commitments a u w :
  market_ok (db w) → items_exist (db w) → edit_outcome w a u (run_inventory_request a u w).
Proof. apply inventory_request_outcome. Qed.

Definition demo_idle : World :=
  Demo.world_of (Demo.market <| inventory := {[ 70%N := Demo.an_item 70 2 50000 0 ]} |>).
Definition reprice : InventoryItemUpdate :=
  MkInventoryItemUpdate None (Some (Some 60000)) None (Some (Some 61000)) None None None None None None None None None None.

Lemma inventory_edits_spare_commitments_witness :
  ∃ w', run_inventory_request (EditItem 70 reprice) Demo.supplier demo_idle = Ok tt w'
    ∧ market_ok (committed w')
    ∧ ∃ item, inventory (committed w') !! 70%N = Some item ∧ i_current_stock_mt item = 60000.
Proof.
  pose proof (inventory_edits_spare_commitments (EditItem 70 reprice) Demo.supplier demo_idle
    ltac:(apply (bool_decide_unpack _); vm_compute; exact I) ltac:(apply (bool_decide_unpack _); vm_compute; exact I)) as H.
  assert (match run_inventory_request (EditItem 70 reprice) Demo.supplier demo_idle with
          | Ok _ _ => True | Raise _ _ => False end) as Hrun by (vm_compute; exact I).
  destruct (run_inventory_request _ _ _) as [[] w'|e w']; [|destruct Hrun].
  destruct H as (org & _ & _ & (item & (Hi & _) & Hinv) & _ & _ & Hok & _ & Hcom). exists w'. rewrite Hcom, Hinv.
  split_and!; [done|done|]. eexists. split; [apply lookup_insert_eq|reflexivity].
Defined.

(** Stock behind a live listing is not for editing. *)
Example listed_stock_is_not_edited :
  raised (update_inventory 70 reprice Demo.supplier (Demo.world_of (Demo.market <| orders := Demo.book [Demo.ask] |>)))
  = Some (HTTPException 409 (Msg "Inventory has an active reservation")).
Proof. vm_compute. reflexivity. Qed.
