(* ===== verification/TradingSystem.v ===== *)
(** * The trading system

    The placing and cancellation of orders, the five trade routes, the four
    inventory routes and the rejection of an organization as one system: requests
    arrive one after the other, each in its own session over the committed database,
    and only what it commits remains.  A request is served by a sequence of ledger
    steps: a publication sweeps its slice and then lists, the others take one step or
    none.  The theorems are about every sequence of requests: the market invariant,
    the stock that is neither lost nor created, and the trades whose terms never
    change and whose status only advances.
    Amendments are left out: one that expires in its own match breaks the invariant
    ([OrderAmendmentSafety]). *)

From S2P Require Import Prelude Sha256 Catalog Calendar AvailabilityWindows Decimal Json Schema OrderTerms Constraints Delivery Database Scenario Queries Policy Eligibility Events Commands TradeViews Watchlist Benchmarks Inventory Ledger TradeLedger Admission RequestParty Trades Orders TradeSteps TradesSafety OrdersSafety TradeHits Lifecycle Matching MatchingSpec MatchingSafety PostOnly OrderEntry AutoMatch OrderCreation OrderCreationSafety ListingSteps InventoryRoutes InventoryRoutesSafety Invalidation InvalidationSafety OrganizationRejection.
Local Open Scope Z_scope.

Inductive request :=
  | Create (p : TradeCreate)
  | Confirm (id : uuid)
  | Decline (id : uuid)
  | Deliver (id : uuid) (p : TradeDeliverPayload)
  | Pay (id : uuid)
  | Cancel (id : uuid) (p : OrderCancel) (context : option string)
  | Place (p : OrderCreate) (context : option string)
  | Publish (item_id : uuid)
  | Stock (a : inventory_request)
  | Reject (organization_id : uuid) (body : AdminDecisionBody).

(** A request of a user, with its key header and the time it is served at. *)
Record Arrival := MkArrival {
  ar_actor : uuid;
  ar_key : option string;
  ar_request : request;
  ar_clock : nat → datetime;
  ar_begin : datetime;
  ar_sequence : Z;
}.

Definition session (cfg : Settings) (a : Arrival) (d : Database) : World :=
  MkWorld d d (MkClocks (ar_clock a) (ar_begin a)) 0 cfg [] (ar_sequence a).

(** What the route leaves in its session. *)
Definition run_request (a : Arrival) (u : User) (w : World) : World :=
  match ar_request a with
  | Create p => final (create_trade p (ar_key a) u w)
  | Confirm id => final (confirm_trade id (ar_key a) u w)
  | Decline id => final (decline_trade id (ar_key a) u w)
  | Deliver id p => final (deliver_trade id p (ar_key a) u w)
  | Pay id => final (pay_trade id (ar_key a) u w)
  | Cancel id p context => final (cancel_order id p context (ar_key a) u w)
  | Place p context => final (create_order p context (ar_key a) u w)
  | Publish item_id => final (publish_inventory_item item_id (ar_key a) u w)
  | Stock e => final (run_inventory_request e u w)
  | Reject organization_id body => final (reject_organization organization_id body u w)
  end.

#[export] Instance deliver_payload_valid_dec p : Decision (deliver_payload_valid p).
Proof. unfold deliver_payload_valid. apply _. Defined.
#[export] Instance trade_create_valid_dec p : Decision (trade_create_valid p).
Proof. unfold trade_create_valid. apply _. Defined.

(** The request schemas. *)
Definition request_valid (r : request) : bool :=
  match r with
  | Create p => bool_decide (trade_create_valid p)
  | Deliver _ p => bool_decide (deliver_payload_valid p)
  | Place p _ => bool_decide (order_create_valid p)
  | _ => true
  end.

(** Serving one request: the database that others see afterwards. *)
Definition serve (cfg : Settings) (d : Database) (a : Arrival) : Database :=
  match users d !! ar_actor a with
  | Some u => if request_valid (ar_request a) then committed (run_request a u (session cfg a d)) else d
  | None => d
  end.
Definition serve_all (cfg : Settings) : Database → list Arrival → Database := foldl (serve cfg).

(** ** A request is served in steps *)

Inductive ledger_step (cfg : Settings) (r : request) (d d' : Database) : Prop :=
  | ls_none : same_ledger d d' → ledger_step cfg r d d'
  | ls_hit seen u p k m :
      hit_step d cfg seen u p k m → balanced d m → same_ledger (moved d m) d' → ledger_step cfg r d d'
  | ls_lifecycle seen u t m :
      trades d !! t_id t = Some t → lifecycle_step d seen u t m → balanced d m →
      same_ledger (moved d m) d' → ledger_step cfg r d d'
  | ls_cancel o :
      orders d !! o_id o = Some o → is_active_status (o_status o) = true →
      same_ledger (withdrawn_in d o (cancelled_order o)) d' → ledger_step cfg r d d'
  | ls_place n auto anonymous now ts d1 :
      orders d !! o_id n = None → o_inventory_item_id n = None → listed_in d n d1 →
      matched_in auto anonymous n now d1 d' ts → ledger_step cfg r d d'
  | ls_sweep due :
      NoDup (o_id <$> due) → (∀ o, o ∈ due → orders d !! o_id o = Some o) →
      same_ledger (expired_in d due) d' → ledger_step cfg r d d'
  | ls_publish n i auto now ts d1 :
      orders d !! o_id n = None → o_inventory_item_id n = Some i → is_Some (inventory d !! i) → o_side n = ASK →
      same_market (backed_in d n) d1 → matched_in auto true n now d1 d' ts → ledger_step cfg r d d'
  | ls_edit e u org :
      r = Stock e → edited_inventory d e u org (inventory d') → orders d' = orders d → trades d' = trades d →
      items_exist d' → ledger_step cfg r d d'
  | ls_revoke org now : same_ledger (revoked_in d org now) d' → ledger_step cfg r d d'.

Definition checked_step (cfg : Settings) (r : request) (d d' : Database) : Prop := ledger_step cfg r d d' ∧ market_ok d'.
Definition served_ok (cfg : Settings) (r : request) : relation Database := rtc (checked_step cfg r).

Lemma served_nothing cfg r d : served_ok cfg r d d.
Proof. apply rtc_refl. Qed.
Lemma served_step cfg r d d' : market_ok d' → ledger_step cfg r d d' → served_ok cfg r d d'.
Proof. intros Hok Hs. by apply rtc_once. Qed.

Section served.
Context (cfg : Settings) (a : Arrival) (u : User) (d : Database).
Context (Hok : market_ok d) (Hex : items_exist d) (Hlinked : trades_linked d) (Hbacked : asks_backed d).
Context (Hset : settings_valid cfg).
Context (Hu : users d !! u_id u = Some u) (Hprompt : prompt (ar_clock a)).
Context (r : request).

Lemma lifecycle_served refused operation target id o :
  (∀ w w', refused w w' → uncommitted w w') →
  lifecycle_outcome refused operation target (session cfg a d) id u o →
  served_ok cfg r d (committed (final o)).
Proof.
  intros Href. destruct o as [[x|status body] w'|e w']; cbn.
  - intros (t & m & Ht & Hstep & _ & _ & Hled & Hok' & -> & _).
    destruct (loaded_trade d id t Hok Ht) as [_ Htt]. apply served_step; [done|].
    apply (ls_lifecycle _ _ _ _ (observed (session cfg a d)) u t m); [done..| |done].
    apply (lifecycle_balanced d t Hok Htt (observed (session cfg a d)) u); [done|].
    by apply (moved_checked d m (db w') (proj1 Hok')).
  - intros (_ & _ & -> & _). by apply served_nothing.
  - intros ->%Href. by apply served_nothing.
Qed.

Lemma hit_served p raw o : hit_outcome p raw u (session cfg a d) o → served_ok cfg r d (committed (final o)).
Proof.
  destruct o as [x w'|e w']; cbn; [|intros ->; by apply served_nothing].
  intros (k & _ & [(t & _ & _ & _ & ->)|(m & Hstep & _ & Hled & Hok' & ->)]); [by apply served_nothing|].
  apply served_step; [done|]. apply (ls_hit _ _ _ _ (observed (session cfg a d)) u p k m); [done| |done].
  by apply (hit_balanced d cfg (observed (session cfg a d)) u p k m (db w') Hok Hstep (proj1 Hok')).
Qed.

Lemma cancel_served id p o : cancel_outcome (session cfg a d) id p u o → served_ok cfg r d (committed (final o)).
Proof.
  destruct o as [status w'|e w']; cbn.
  - intros [[(_ & -> & _) _]|(o & _ & Ho & Hmay & Hled & Hok' & -> & _)]; [by apply served_nothing|].
    apply served_step; [done|]. pose proof (proj1 (proj1 (proj2 Hok)) id o Ho) as Hid. cbn in Hid.
    apply (ls_cancel _ _ _ _ o); [by rewrite Hid|apply Hmay|done].
  - intros [[Hd _] Hok']. apply served_step; [done|]. apply ls_none. by rewrite Hd.
Qed.

Lemma place_served p context raw o :
  create_outcome (session cfg a d) p context raw u o → served_ok cfg r d (committed (final o)).
Proof.
  destruct o as [x w'|e w']; cbn; [|intros [[Hd _] Hok']; apply served_step; [done|]; apply ls_none; by rewrite Hd].
  intros (party & org & k & _ & _ & _ & _ & [(_ & _ & ->)|H]); [by apply served_nothing|].
  destruct H as (ordinal & g & product & b & _ & _ & _ & _ & (d1 & ts & now & Hl & _ & Hm) & Hok' & -> & _).
  apply served_step; [done|]. eapply ls_place; [..|exact Hm]; [apply fresh_id_none|done|exact Hl].
Qed.

Lemma publish_served id raw o :
  publish_outcome (session cfg a d) id raw u o → served_ok cfg r d (committed (final o)).
Proof.
  destruct o as [x w'|e w']; cbn; [|intros ->; by apply served_nothing].
  intros (org & k & _ & _ & [[-> _]|H]); [by apply served_nothing|].
  destruct H as (stored & product & dp & t & d1 & item & n & d2 & ts & now & H). cbn [db session] in H.
  destruct H as (_ & _ & _ & _ & _ & _ & Hled & _ & Hitem & _ & _ & Hoffer & _ & Hsame & _ & Hm & _ & Hok1 & Hok' & ->).
  destruct (offer_row _ d1 item product dp k u org n Hoffer) as (Hnew & _ & Hi & _ & _ & _ & Hask & _).
  pose proof (proj1 (proj2 (proj2 (proj1 (proj2 Hok1)))) _ _ Hitem) as Hid. cbn in Hid. rewrite Hid in Hi.
  eapply rtc_l; [split; [|exact Hok1]|apply served_step; [exact Hok'|]].
  - eapply ls_sweep; [apply due_orders_NoDup, Hok| |exact Hled]. intros o Ho.
    by eapply due_orders_spec; [apply Hok|].
  - by eapply (ls_publish _ _ _ _ n id); [..|exact Hm].
Qed.

Lemma edit_is_served e o : r = Stock e → edit_outcome (A := unit) (session cfg a d) e u o → served_ok cfg r d (committed (final o)).
Proof.
  intros Hr. destruct o as [x w'|e' w']; cbn; [|intros ->; by apply served_nothing].
  intros (org & _ & _ & Hed & Ho & Ht & Hok' & Hex' & ->). apply served_step; [done|]. by eapply ls_edit.
Qed.

Lemma rejection_served id o : rejection_result (session cfg a d) id o → served_ok cfg r d (committed (final o)).
Proof.
  destruct o as [[id' status] w'|e w']; cbn; [|intros ->; by apply served_nothing].
  intros (_ & (row & _ & _ & _ & ((now & _ & Hs) & Hok' & _) & _) & ->). apply served_step; [done|].
  apply (ls_revoke _ _ _ _ id now). eapply same_ledger_trans; [|exact Hs]. by apply revoked_in_ledger.
Qed.

Lemma request_served :
  r = ar_request a → request_valid r = true → served_ok cfg r d (committed (run_request a u (session cfg a d))).
Proof.
  assert (∀ w w', reads w w' → uncommitted w w') as Hreads by (by intros w w' (_ & ? & _)).
  unfold run_request. intros <- Hv.
  destruct r as [p|id|id|id p|id|id p context|p context|id|e|id body] eqn:Hr; rewrite <-Hr at 1.
  - eapply hit_served. by apply create_trade_outcome.
  - eapply lifecycle_served; [exact Hreads|]. by apply confirm_trade_outcome.
  - eapply lifecycle_served; [|by apply decline_trade_outcome]. done.
  - eapply lifecycle_served; [exact Hreads|]. apply deliver_trade_outcome; try done. by apply bool_decide_eq_true in Hv.
  - eapply lifecycle_served; [exact Hreads|]. by apply pay_trade_outcome.
  - eapply cancel_served. by apply cancel_order_outcome.
  - eapply place_served. apply create_order_outcome; try done. by apply bool_decide_eq_true in Hv.
  - eapply publish_served. by apply publish_route_outcome.
  - eapply edit_is_served; [exact Hr|]. by apply inventory_request_outcome.
  - eapply rejection_served. by apply reject_organization_outcome.
Qed.
End served.

(** What the routes rely on and keep: the market invariant, the foreign keys of
    the order and trade tables, and that only asks are backed. *)
Definition books_ok (d : Database) : Prop := items_exist d ∧ trades_linked d ∧ asks_backed d.
Definition sound (d : Database) : Prop := market_ok d ∧ books_ok d.
#[export] Instance sound_dec d : Decision (sound d).
Proof. unfold sound, books_ok. apply _. Defined.

Lemma serve_step cfg d a :
  settings_valid cfg → prompt (ar_clock a) → sound d → served_ok cfg (ar_request a) d (serve cfg d a).
Proof.
  intros Hset Hprompt (Hok & Hex & Hl & Hb). unfold serve. destruct (users d !! ar_actor a) as [u|] eqn:Hu; [|by apply served_nothing].
  destruct (request_valid _) eqn:Hv; [|by apply served_nothing]. apply request_served; try done.
  destruct Hok as (_ & (_ & _ & _ & _ & Hk & _) & _). pose proof (Hk _ _ Hu) as Hid. cbn in Hid. by rewrite Hid.
Qed.

(** ** Stock is neither lost nor created *)

Section moved.
Context (d : Database) (m : Move) (Hbal : balanced d m).

Lemma moved_inventory_row i :
  inventory (moved d m) !! i
  = (if bool_decide (mv_item m = Some i) then move_stock (mv_current m) (mv_reserved m) else id)
    <$> inventory d !! i.
Proof.
  unfold moved, moved_inventory. cbn. destruct (mv_item m) as [j|].
  - destruct (decide (i = j)) as [->|].
    + by rewrite lookup_alter_eq, bool_decide_eq_true_2.
    + rewrite lookup_alter_ne, bool_decide_eq_false_2 by congruence. by destruct (inventory d !! i).
  - by destruct (inventory d !! i).
Qed.

Lemma moved_kept : orders_kept (orders d) (moved_orders m (orders d)).
Proof.
  unfold moved_orders. destruct (mv_order m) as [o'|] eqn:Ho'; [|done].
  destruct (bal_order d m Hbal o' Ho') as (o & Ho & Hid & _). apply (kept_put _ o); [|done].
  by rewrite <-(proj1 Hid).
Qed.

Definition takes_before (i : uuid) : Z :=
  match trades d !! t_id (mv_trade m) with Some t => trade_takes (orders d) i t | None => 0 end.

Lemma moved_taken i :
  taken_stock (moved d m) i = taken_stock d i + trade_takes (orders d) i (mv_trade m) - takes_before i.
Proof.
  unfold taken_stock, takes_before, moved. cbn.
  rewrite (sum_map_ext _ (trade_takes (orders d) i))
    by (intros; apply kept_takes, moved_kept).
  destruct (trades d !! t_id (mv_trade m)) as [t|] eqn:Ht.
  - rewrite (sum_map_update _ (trades d) _ t) by done. lia.
  - rewrite sum_map_insert by done. lia.
Qed.

(** What leaves the row is what the trade takes. *)
Definition conserving : Prop := ∀ i,
  (if bool_decide (mv_item m = Some i) then mv_current m + mv_reserved m else 0)
  + trade_takes (orders d) i (mv_trade m) - takes_before i = 0.

Lemma conserving_accounts i : conserving → accounted_stock (moved d m) i = accounted_stock d i.
Proof.
  intros H. specialize (H i). unfold accounted_stock. rewrite moved_inventory_row, moved_taken.
  destruct (inventory d !! i) as [item|]; [|done]. cbn. f_equal.
  case_bool_decide; cbn; lia.
Qed.
End moved.

Lemma hit_conserves d cfg seen u p k m : hit_step d cfg seen u p k m → conserving d m.
Proof.
  intros [o org owner now fee_time created_at plan fee]. intros i. unfold takes_before. cbn. by rewrite fresh_id_none.
Qed.

Lemma lifecycle_conserves d seen u t m :
  trades d !! t_id t = Some t → lifecycle_step d seen u t m → conserving d m.
Proof.
  intros Ht Hstep i. unfold takes_before.
  assert (t_id (mv_trade m) = t_id t) as ->.
  { destruct Hstep as [| ? _ _ []| |]; done. }
  rewrite Ht. unfold trade_takes.
  destruct Hstep as [now Hs|m Hs _ []|s p now Hs|now Hs]; rewrite Hs; cbn [mv_trade mv_item mv_current mv_reserved].
  1: change (trade_item (orders d) (confirmed_trade t now)) with (trade_item (orders d) t); rewrite trade_item_linked.
  6: change (trade_item (orders d) (delivered_trade t p total commission now)) with (trade_item (orders d) t).
  7: change (trade_item (orders d) (paid_trade t now)) with (trade_item (orders d) t).
  all: cbn; case_bool_decide; lia.
Qed.

(** Withdrawing an order moves its remainder from reserved to free. *)
Lemma released_inventory_row d o i :
  ∃ q, released_inventory d o !! i = release_stock q <$> inventory d !! i.
Proof.
  assert (∀ x : option InventoryItem, x = release_stock 0 <$> x) as Hid.
  { intros [[]|]; [|done]. unfold release_stock. cbn. by rewrite Z.sub_0_r, Z.add_0_r. }
  unfold released_inventory. destruct (o_inventory_item_id o) as [j|]; [|exists 0; apply Hid].
  destruct (0 <? _); [|exists 0; apply Hid]. destruct (decide (i = j)) as [->|].
  - eexists. apply lookup_alter_eq.
  - exists 0. rewrite lookup_alter_ne by done. apply Hid.
Qed.

Lemma withdrawn_kept d o o' :
  orders d !! o_id o = Some o → same_identity o o' → orders_kept (orders d) (orders (withdrawn_in d o o')).
Proof. apply kept_put. Qed.

Lemma withdrawn_accounts d o o' i :
  orders d !! o_id o = Some o → same_identity o o' →
  accounted_stock (withdrawn_in d o o') i = accounted_stock d i.
Proof.
  intros Ho Hid. unfold accounted_stock. cbn.
  destruct (released_inventory_row d o i) as [q ->]. destruct (inventory d !! i) as [item|]; [|done].
  cbn. f_equal. assert (taken_stock (withdrawn_in d o o') i = taken_stock d i) as ->; [|lia].
  apply sum_map_ext. intros k t _. apply kept_takes. by apply withdrawn_kept.
Qed.

Lemma placed_traded d n auto anonymous now d1 d' ts :
  market_ok d → asks_backed d → orders d !! o_id n = None → o_inventory_item_id n = None → listed_in d n d1 →
  matched_in auto anonymous n now d1 d' ts → traded d1 d' ts.
Proof.
  intros Hok Hb Hn Hi Hlist. apply matched_traded; [|by eapply listed_row|by eapply listed_asks_backed].
  eapply listed_keyed; [done|]. by apply keyed_orders, Hok.
Qed.

Lemma same_ledger_accounts d d' i : same_ledger d d' → accounted_stock d' i = accounted_stock d i.
Proof. intros (Eo & Et & Ei). unfold accounted_stock, taken_stock. by rewrite Eo, Et, Ei. Qed.

(** What every withdrawal preserves, a sweep does. *)
Lemma sweep_steps (R : relation Database) `{!PreOrder R} :
  (∀ d o, orders d !! o_id o = Some o → R d (withdrawn_in d o (expired_order o))) →
  ∀ due d, NoDup (o_id <$> due) → (∀ o, o ∈ due → orders d !! o_id o = Some o) → R d (expired_in d due).
Proof.
  intros HR due. induction due as [|o due IH]; intros d Hnd Hrows; [done|]. apply NoDup_cons in Hnd as [Hnin Hnd].
  transitivity (withdrawn_in d o (expired_order o)); [by apply HR, Hrows; left|]. apply IH; [done|].
  intros x Hx. rewrite withdrawn_orders_other; [apply Hrows; by right|].
  rewrite (proj1 (expired_order_identity o)). intros E. apply Hnin. cbn. rewrite E. by apply list_elem_of_fmap_2.
Qed.

Lemma published_traded d n i auto now d1 d' ts :
  market_ok d → asks_backed d → orders d !! o_id n = None → o_side n = ASK → o_inventory_item_id n = Some i →
  same_market (backed_in d n) d1 → matched_in auto true n now d1 d' ts → traded d1 d' ts.
Proof.
  intros Hok Hb Hn Hask Hi Hsame. assert (orders d1 = <[ o_id n := n ]> (orders d)) as E by apply Hsame.
  apply matched_traded; [|rewrite E; apply lookup_insert_eq|by eapply backed_asks].
  unfold orders_keyed. rewrite E. apply map_Forall_insert_2; [done|]. by apply keyed_orders, Hok.
Qed.

(** The account of a row, if there is one. *)
Definition same_accounts (i : uuid) : relation Database := λ d d',
  is_Some (inventory d !! i) → accounted_stock d' i = accounted_stock d i.
Lemma accounted_row d i : is_Some (accounted_stock d i) ↔ is_Some (inventory d !! i).
Proof. unfold accounted_stock. apply fmap_is_Some. Qed.
#[export] Instance same_accounts_preorder i : PreOrder (same_accounts i).
Proof.
  split; [done|]. unfold same_accounts. intros a b c Hab Hbc Ha. specialize (Hab Ha). rewrite Hbc; [done|].
  by rewrite <-accounted_row, Hab, accounted_row.
Qed.

(** A request that records another quantity for row [i], or deletes it. *)
Definition edits_item (i : uuid) (r : request) : bool :=
  match r with Stock (EditItem j _) | Stock (RemoveItem j) => bool_decide (j = i) | _ => false end.

Lemma edited_accounts d e u org d' i :
  edits_item i (Stock e) = false → edited_inventory d e u org (inventory d') →
  orders d' = orders d → trades d' = trades d → same_accounts i d d'.
Proof.
  intros Hno Hed Eo Et [item Hi].
  assert (inventory d' !! i = inventory d !! i) as E.
  { destruct e as [p|j up|j]; cbn in Hno, Hed.
    - rewrite Hed, lookup_insert_ne; [done|]. intros E. cbn in E. rewrite <-E, fresh_id_none in Hi. done.
    - destruct Hed as (x & _ & ->). apply bool_decide_eq_false in Hno. by rewrite lookup_insert_ne.
    - destruct Hed as (x & _ & _ & ->). apply bool_decide_eq_false in Hno. by rewrite lookup_delete_ne. }
  unfold accounted_stock, taken_stock. by rewrite E, Eo, Et.
Qed.

Lemma step_accounts cfg r d d' i :
  edits_item i r = false → sound d → ledger_step cfg r d d' → same_accounts i d d'.
Proof.
  intros Hno (Hok & _ & Hl & Hb) [Hs|seen u p k m Hh Hbal Hs|seen u t m Ht Hlc Hbal Hs|o Ho _ Hs|n auto anonymous now ts d1 Hn Hi Hlist Hm
    |due Hnd Hrows Hs|n j auto now ts d1 Hn Hj _ Hask Hsame Hm|e u org -> Hed Eo Et _|org now Hs];
    [intros _|intros _|intros _|intros _|intros _| |intros _| |intros _].
  - by apply same_ledger_accounts.
  - rewrite (same_ledger_accounts _ _ i Hs). apply conserving_accounts; [done|by eapply hit_conserves].
  - rewrite (same_ledger_accounts _ _ i Hs). apply conserving_accounts; [done|by eapply lifecycle_conserves].
  - rewrite (same_ledger_accounts _ _ i Hs). apply withdrawn_accounts; [done|apply (closed_order_row CANCELLED)].
  - rewrite <-(listed_accounts d d1 n Hn Hlist i Hl). apply (traded_accounts d1 d' ts).
    by eapply placed_traded.
  - intros Hi. rewrite (same_ledger_accounts _ _ i Hs). revert Hi. apply (sweep_steps (same_accounts i)); [|done..].
    intros x o Ho _. apply withdrawn_accounts; [done|apply expired_order_identity].
  - rewrite <-(backed_accounts d d1 n Hl Hn Hsame i). apply (traded_accounts d1 d' ts).
    by eapply published_traded.
  - by eapply edited_accounts.
  - rewrite (same_ledger_accounts _ _ i Hs). apply revoked_accounts.
Qed.

(** ** What the routes keep besides the invariant *)

Lemma same_ledger_books d d' : same_ledger d d' → books_ok d → books_ok d'.
Proof.
  intros (Eo & Et & Ei). unfold books_ok, items_exist, trades_linked, asks_backed, linked_to. by rewrite Eo, Et, Ei.
Qed.

(** The trade of a step points to rows of the book. *)
Definition trade_linked (d : Database) (t : Trade) : Prop :=
  linked_to d BID (t_bid_order_id t) ∧ linked_to d ASK (t_ask_order_id t).

Lemma same_ledger_items d d' : same_ledger d d' → items_exist d → items_exist d'.
Proof. intros (Eo & _ & Ei). unfold items_exist. by rewrite Eo, Ei. Qed.
Lemma moved_items d m : balanced d m → items_exist d → items_exist (moved d m).
Proof.
  intros Hbal. apply (kept_items d); [by apply moved_kept|]. intros i H. rewrite moved_inventory_row.
  by apply fmap_is_Some.
Qed.

Lemma moved_books d m : balanced d m → trade_linked d (mv_trade m) → books_ok d → books_ok (moved d m).
Proof.
  intros Hbal Ht (Hex & Hl & Hb). pose proof (moved_kept d m Hbal) as Hkept. split_and!.
  - by apply moved_items.
  - apply map_Forall_insert_2.
    + destruct Ht. split; by apply (kept_linked d).
    + intros k t Hk. destruct (Hl k t Hk). split; by apply (kept_linked d).
  - by apply (kept_asks_backed d).
Qed.

Lemma withdrawn_books d o o' :
  orders d !! o_id o = Some o → same_identity o o' → books_ok d → books_ok (withdrawn_in d o o').
Proof.
  intros Ho Hid (Hex & Hl & Hb). pose proof (withdrawn_kept d o o' Ho Hid) as Hkept. split_and!.
  - apply (kept_items d); [done| |done]. intros i H. cbn. destruct (released_inventory_row d o i) as [q ->].
    by apply fmap_is_Some.
  - by apply (kept_trades_linked d).
  - by apply (kept_asks_backed d).
Qed.

Lemma traded_books d d' ts : traded d d' ts → books_ok d → books_ok d'.
Proof.
  intros H (Hex & Hl & Hb). pose proof (td_orders _ _ _ H) as Hkept. split_and!.
  - apply (kept_items d); [done| |done]. apply (traded_inventory _ _ _ H).
  - by apply (traded_linked _ _ _ H).
  - by apply (kept_asks_backed d).
Qed.

Lemma hit_linked d cfg seen u p k m : market_ok d → hit_step d cfg seen u p k m → trade_linked d (mv_trade m).
Proof.
  intros (_ & (Hk & _) & _) [o org owner now fee_time created_at plan fee Ho].
  pose proof (Hk _ _ Ho) as Hid. cbn in Hid. rewrite <-Hid in Ho.
  unfold trade_linked, linked_to. cbn. case_bool_decide as Hs; rewrite Ho; [done|]. by destruct (o_side o).
Qed.

Lemma lifecycle_linked d seen u t m : lifecycle_step d seen u t m → trade_linked d t → trade_linked d (mv_trade m).
Proof. by intros [| ? _ _ []| |]. Qed.

Definition keeps_books : relation Database := λ d d', books_ok d → books_ok d'.
#[export] Instance keeps_books_preorder : PreOrder keeps_books.
Proof. split; [by intros d Hd|]. intros a b c Hab Hbc Ha. by apply Hbc, Hab. Qed.

Lemma step_books cfg r d d' : market_ok d → ledger_step cfg r d d' → books_ok d → books_ok d'.
Proof.
  intros Hok [Hs|seen u p k m Hh Hbal Hs|seen u t m Ht Hlc Hbal Hs|o Ho _ Hs|n auto anonymous now ts d1 Hn Hi Hlist Hm
    |due Hnd Hrows Hs|n j auto now ts d1 Hn Hj Hitem Hask Hsame Hm|e u org _ _ Eo Et Hex'|org now Hs] Hbooks.
  - by eapply same_ledger_books.
  - eapply same_ledger_books; [exact Hs|]. apply moved_books; [done|by eapply hit_linked|done].
  - eapply same_ledger_books; [exact Hs|]. apply moved_books; [done| |done].
    eapply lifecycle_linked; [exact Hlc|]. destruct Hbooks as (_ & Hl & _). by apply (Hl (t_id t)).
  - eapply same_ledger_books; [exact Hs|]. by apply withdrawn_books; [|apply (closed_order_row CANCELLED)|].
  - destruct Hbooks as (Hex & Hl & Hb). assert (books_ok d1) as Hbooks1.
    { split_and!; [by eapply listed_items|by eapply listed_linked|by eapply listed_asks_backed]. }
    eapply traded_books; [by eapply placed_traded|exact Hbooks1].
  - eapply same_ledger_books; [exact Hs|]. revert Hbooks.
    apply (sweep_steps keeps_books); [|done..].
    intros x o Ho Hx. apply withdrawn_books; [done|apply expired_order_identity|done].
  - destruct Hbooks as (Hex & Hl & Hb). assert (books_ok d1) as Hbooks1.
    { split_and!; [|by eapply backed_linked|by eapply backed_asks].
      eapply backed_items; [exact Hsame|done|]. intros i Hi. assert (j = i) as <- by congruence. done. }
    eapply traded_books; [by eapply published_traded|exact Hbooks1].
  - destruct Hbooks as (_ & Hl & Hb). split; [done|]. unfold trades_linked, asks_backed, linked_to in *. by rewrite Eo, Et.
  - eapply same_ledger_books; [exact Hs|]. destruct Hbooks as (Hex & Hl & Hb).
    pose proof (revoked_kept d org now) as Hkept. split_and!.
    + by apply (kept_items d); [|apply revoked_items|].
    + by apply revoked_linked.
    + by apply (kept_asks_backed d).
Qed.

(** ** Trades only advance *)

Inductive status_next : TradeStatus → TradeStatus → Prop :=
  | next_confirmed : status_next PENDING_CONFIRMATION CONFIRMED
  | next_declined : status_next PENDING_CONFIRMATION DECLINED
  | next_cancelled : status_next PENDING_CONFIRMATION TRADE_CANCELLED
  | next_delivered : status_next CONFIRMED DELIVERED
  | next_paid : status_next DELIVERED PAID.

(** The terms two parties agreed on: everything but the progress of the trade. *)
Definition agreed_terms (t : Trade) : Trade :=
  t <| t_status := PENDING_CONFIRMATION |> <| t_confirmed_at := None |> <| t_delivered_at := None |>
    <| t_paid_at := None |> <| t_final_quantity_mt := None |> <| t_final_price_per_mt := None |>
    <| t_final_total_usd := None |> <| t_commission_amount_usd := None |>.

Definition advanced (t t' : Trade) : Prop :=
  agreed_terms t' = agreed_terms t ∧ rtc status_next (t_status t) (t_status t').
#[export] Instance advanced_preorder : PreOrder advanced.
Proof.
  split; [done|]. intros a b c [H1 H2] [H3 H4]. split; [congruence|]. by etrans.
Qed.

Lemma lifecycle_advances d seen u t m : lifecycle_step d seen u t m → advanced t (mv_trade m).
Proof.
  intros [now Hs|m' Hs _ Hr|s p now Hs|now Hs]; cbn [mv_trade].
  - split; [done|]. apply rtc_once. cbn. rewrite Hs. constructor.
  - assert (mv_trade m' = declined_trade t) as -> by (by destruct Hr).
    split; [done|]. apply rtc_once. cbn. rewrite Hs. constructor.
  - split; [done|]. apply rtc_once. cbn. rewrite Hs. constructor.
  - split; [done|]. apply rtc_once. cbn. rewrite Hs. constructor.
Qed.

Lemma revoked_advances org t : advanced t (revoked_trade org t).
Proof.
  unfold revoked_trade. destruct (pending_trade_of org t) eqn:Hp; [|done].
  apply andb_true_iff in Hp as [Hs%bool_decide_eq_true _]. split; [done|]. apply rtc_once. cbn. rewrite Hs. constructor.
Qed.

Definition trades_advanced (d d' : Database) : Prop :=
  ∀ id t, trades d !! id = Some t → ∃ t', trades d' !! id = Some t' ∧ advanced t t'.
#[export] Instance trades_advanced_preorder : PreOrder trades_advanced.
Proof.
  split; [intros d id t Ht; by exists t|]. intros a b c Hab Hbc id t Ht.
  destruct (Hab id t Ht) as (t1 & H1 & A1). destruct (Hbc id t1 H1) as (t2 & H2 & A2).
  exists t2. split; [done|]. by etrans.
Qed.

Lemma moved_advances d m :
  (∀ t, trades d !! t_id (mv_trade m) = Some t → advanced t (mv_trade m)) → trades_advanced d (moved d m).
Proof.
  intros H id t Ht. unfold moved. cbn. destruct (decide (id = t_id (mv_trade m))) as [->|].
  - rewrite lookup_insert_eq. exists (mv_trade m). split; [done|by apply H].
  - rewrite lookup_insert_ne by done. by exists t.
Qed.

Lemma step_advances cfg r d d' : sound d → ledger_step cfg r d d' → trades_advanced d d'.
Proof.
  assert (∀ e e', trades e' = trades e → trades_advanced e e') as Hsame by (intros e e' E id t Ht; exists t; by rewrite E).
  assert (∀ d1 e ts, traded d1 e ts → trades d1 = trades d → trades_advanced d e) as Htraded.
  { intros d1 e ts Htr E. transitivity d1; [by apply Hsame|]. intros id t Ht. exists t. split; [|done].
    eapply inserted_keeps; [apply Htr|exact Ht]. }
  intros (Hok & _ & Hl & Hb) [(_ & Et & _)|seen u p k m Hh _ (_ & Et & _)|seen u t m Ht Hlc _ (_ & Et & _)|o _ _ (_ & Et & _)
    |n auto anonymous now ts d1 Hn Hi Hlist Hm|due Hnd Hrows (_ & Et & _)|n j auto now ts d1 Hn Hj _ Hask Hs Hm|e u org _ _ _ Et _|org now (_ & Et & _)].
  - by apply Hsame.
  - etrans; [|by apply Hsame]. apply moved_advances. destruct Hh. cbn. intros t Ht. by rewrite fresh_id_none in Ht.
  - etrans; [|by apply Hsame]. apply moved_advances.
    assert (t_id (mv_trade m) = t_id t) as -> by (by destruct Hlc as [| ? _ _ []| |]).
    intros t0 Ht0. assert (t0 = t) as -> by congruence. by eapply lifecycle_advances.
  - by apply Hsame.
  - eapply Htraded; [by eapply placed_traded|apply Hlist].
  - apply Hsame. rewrite Et. by apply (expired_in_books d due).
  - eapply Htraded; [by eapply published_traded|apply Hs].
  - by apply Hsame.
  - etrans; [|by apply Hsame]. intros id t Ht. exists (revoked_trade org t). cbn. rewrite lookup_fmap, Ht.
    split; [done|apply revoked_advances].
Qed.

(** ** Every sequence of requests *)

(** Requests that each take less than a day. *)
Definition arrivals_ok (l : list Arrival) : Prop := Forall (λ a, prompt (ar_clock a)) l.

(** What every step preserves, every sequence of requests does. *)
Lemma serve_all_steps cfg (P : request → Prop) (R : relation Database) `{!PreOrder R} :
  settings_valid cfg → (∀ r d d', P r → sound d → ledger_step cfg r d d' → R d d') →
  ∀ l d, arrivals_ok l → Forall (λ a, P (ar_request a)) l → sound d → sound (serve_all cfg d l) ∧ R d (serve_all cfg d l).
Proof.
  intros Hset HR l. unfold arrivals_ok. induction l as [|a l IH]; intros d Hl HP Hd; [by split|].
  apply Forall_cons in Hl as [Ha Hl]. apply Forall_cons in HP as [HPa HP].
  assert (sound (serve cfg d a) ∧ R d (serve cfg d a)) as [Hs HRa].
  { generalize (serve_step cfg d a Hset Ha Hd). generalize (serve cfg d a). intros d' Hsteps.
    induction Hsteps as [|x y z [Hstep Hok] _ IHs]; [by split|].
    assert (sound y) as Hy by (split; [done|]; apply (step_books cfg (ar_request a) x); [apply Hd|done|apply Hd]).
    destruct (IHs Hy) as [Hz HRz]. split; [done|]. etrans; [by eapply HR|exact HRz]. }
  destruct (IH _ Hl HP Hs) as [Hs' Hr]. split; [exact Hs'|]. by etrans.
Qed.

Lemma all_requests (l : list Arrival) : Forall (λ _ : Arrival, True) l.
Proof. by apply Forall_true. Qed.

(** C5: The market invariant holds at all times.  After any sequence of requests
    that place orders, hit them, move trades along, cancel orders, record, edit,
    delete and publish inventory, or reject an organization - any users, keys, payloads and times, served or
    refused, matched or resting, expiring others or not - every row satisfies its
    database constraints, every reservation is exactly what the open orders and
    pending trades hold of it, released stock still fits its column, and no order is
    overfilled; trades still point to orders of the book and orders to inventory that
    exists, and only asks are backed by stock. *)
Theorem trading_keeps_market_ok cfg d l :
  settings_valid cfg → arrivals_ok l → sound d → sound (serve_all cfg d l).
Proof.
  intros Hset Hl Hd. apply (serve_all_steps cfg (λ _, True) trades_advanced Hset); [|done|apply all_requests|done].
  intros r e e' _. apply step_advances.
Qed.

(** C6: Stock is neither lost nor created.  For every inventory row whose record no
    request edits, the free stock, the stock reserved for orders and pending trades,
    and the stock that confirmed, delivered and paid trades have taken add up to the
    same total after any sequence of requests that publish it, place orders - and
    match them, trade by trade -, hit them, expire them, move trades along, cancel
    orders or reject organizations. *)
Theorem trading_conserves_stock cfg d l i :
  settings_valid cfg → arrivals_ok l → sound d → is_Some (inventory d !! i) →
  Forall (λ a, edits_item i (ar_request a) = false) l →
  accounted_stock (serve_all cfg d l) i = accounted_stock d i.
Proof.
  intros Hset Hl Hd Hi Hno. revert Hi. apply (serve_all_steps cfg (λ r, edits_item i r = false) (same_accounts i) Hset); [|done..].
  intros r e e'. apply step_accounts.
Qed.

(** C9: A trade, once struck, keeps its terms and only advances.  After any
    sequence of requests every trade is still there, with the same parties,
    order, product, quantity, price, fee and initiator, and its status has moved
    only along pending - confirmed - delivered - paid, pending - declined, or pending
    - cancelled when a party is rejected. *)
Theorem trades_only_advance cfg d l :
  settings_valid cfg → arrivals_ok l → sound d → trades_advanced d (serve_all cfg d l).
Proof.
  intros Hset Hl Hd. apply (serve_all_steps cfg (λ _, True) trades_advanced Hset); [|done|apply all_requests|done].
  intros r e e' _. apply step_advances.
Qed.

(** The refinery confirms, the shipping line places a bid that is matched with the
    two asks, the owner of the second cancels what is left of it, the refinery
    records another row, and publishes what is free of the first, the shipping line
    delivers, the refinery is paid. *)
Definition demo_start : Database :=
  (db Demo.hit) <| ports := ports (db demo_shelf) |>
    <| inventory := {[ 70%N := demo_stock <| i_reserved_stock_mt := 30000 |> ]} |>.
Definition demo_record : InventoryCreate :=
  MkInventoryCreate "nl-rtm" (Some "B100") 25000 0 None None false false None None false None None None None false None.
Definition demo_arrival (actor : uuid) (r : request) : Arrival :=
  MkArrival actor (Some "k1") r (λ _, Demo.noon) Demo.noon 100.
Definition demo_life : list Arrival :=
  [demo_arrival 12 (Confirm 81); demo_arrival 11 (Place demo_bid None);
   demo_arrival 13 (Cancel 22 (MkOrderCancel DELETE None None) None);
   demo_arrival 12 (Stock (AddItem demo_record));
   MkArrival 12 (Some "k1") (Publish 70) (λ _, Demo.noon) Demo.noon 200;
   demo_arrival 11 (Deliver 81 demo_delivery); demo_arrival 12 (Pay 81)].
Definition demo_end : Database := serve_all default_settings demo_start demo_life.

Example demo_end_paid :
  t_status <$> trades demo_end !! 81%N = Some PAID ∧ o_status <$> orders demo_end !! 22%N = Some CANCELLED
  ∧ o_status <$> orders demo_end !! 23%N = Some FILLED ∧ size (trades demo_end) = 3%nat.
Proof. vm_compute. done. Qed.
Example demo_end_published :
  (o_quantity_mt <$> orders demo_end !! 24%N, ledger_of <$> inventory demo_end !! 70%N, size (inventory demo_end))
  = (Some 100000, Some (MkLedger 0 100000), 2%nat).
Proof. vm_compute. done. Qed.

Lemma default_settings_valid : settings_valid default_settings.
Proof. apply (bool_decide_unpack _). vm_compute. exact I. Qed.
Lemma demo_start_sound : sound demo_start.
Proof. apply (bool_decide_unpack _). vm_compute. exact I. Qed.
Lemma demo_prompt : arrivals_ok demo_life.
Proof. unfold arrivals_ok, demo_life. repeat constructor; intros ? ?; cbn; unfold hours; lia. Qed.

Lemma trading_keeps_market_ok_witness : sound demo_end.
Proof. exact (trading_keeps_market_ok _ _ demo_life default_settings_valid demo_prompt demo_start_sound). Defined.

Lemma trading_conserves_stock_witness : accounted_stock demo_end 70 = accounted_stock demo_start 70.
Proof.
  refine (trading_conserves_stock _ _ demo_life 70 default_settings_valid demo_prompt demo_start_sound _ _).
  - by eexists.
  - repeat constructor.
Defined.

Lemma trades_only_advance_witness :
  ∃ t', trades demo_end !! 81%N = Some t' ∧ advanced Demo.pending t'.
Proof. exact (trades_only_advance _ _ demo_life default_settings_valid demo_prompt demo_start_sound 81%N Demo.pending eq_refl). Defined.
