(* ===== verification/TradeLiveness.v ===== *)
(** * A trade can be completed

    The guards of the trade routes do not lock anybody out: a pending trade
    between two admitted principals, on a self-service order of its slice, can
    be confirmed by the counterparty, delivered by either party and paid by the
    seller, whatever else is in the market. *)

From S2P Require Import Prelude Sha256 Catalog Calendar AvailabilityWindows Decimal Json Schema OrderTerms Constraints Delivery Database Scenario Policy Eligibility Events Commands TradeViews Watchlist Benchmarks Inventory Ledger TradeLedger Admission RequestParty Trades TradeSteps TradesSafety TradeHits TradingSystem.
Local Open Scope Z_scope.

(** The recorded principal of a side, who is still admitted. *)
Record principal (d : Database) (t : Trade) (s : OrderSide) (u : User) : Prop := {
  pr_row : users d !! u_id u = Some u;
  pr_recorded : side_user t s = Some (u_id u);
  pr_org : u_organization_id u = Some (side_org t s);
  pr_role : u_role u = Some (side_role s);
  pr_eligible : execution_party_is_eligible d (Some u) (organizations d !! side_org t s) = true;
}.

Record executable_trade (d : Database) (t : Trade) (buyer seller : User) : Prop := {
  ex_row : trades d !! t_id t = Some t;
  ex_buyer : principal d t BID buyer;
  ex_seller : principal d t ASK seller;
  ex_live : live_parties t;
  ex_self_service : ∀ o, bid_order_of d t = Some o ∨ ask_order_of d t = Some o →
    o_creation_method o ≠ MARKET_SUPPORT;
  ex_order : ∃ o, linked_order d t = Some o ∧ _trade_market_slice d t = Some (order_slice o);
}.

(** ** The guards let a principal through *)

(** Two framed steps that return. *)
Lemma succeeds_reads {A B} (m : M World A) (k : A → M World B) w d :
  db w = d → Keeps reads m → Succeeds m w → (∀ a w1, m w = Ok a w1 → db w1 = d → Succeeds (k a) w1) →
  Succeeds (m ≫= k) w.
Proof.
  intros Hd Hk Hm H. apply succeeds_bind; [done|]. intros a w1 Hrun. apply (H a); [done|].
  apply (keeps_ok reads) in Hrun as (-> & _); done.
Qed.

Lemma refuse_run {S} b e (w : S) : b = false → refuse b e w = Ok tt w.
Proof. by intros ->. Qed.
Lemma existsb_none {A} (f : A → bool) l : (∀ x, x ∈ l → f x = false) → existsb f l = false.
Proof.
  intros H. induction l as [|x l IH]; [done|]. cbn. rewrite H by (by left). apply IH. intros y Hy. apply H. by right.
Qed.
Section guards.
Context (d : Database) (t : Trade) (s : OrderSide) (u : User) (Hp : principal d t s u).

Lemma principal_org : ∃ g, organizations d !! side_org t s = Some g ∧ g_verification_status g = "APPROVED".
Proof.
  destruct Hp as [_ _ Horg _ He].
  apply execution_party_is_eligible_spec in He as (u' & o & g & [= <-] & Ho & _ & _ & _ & _ & _ & _ & Hg & _ & Hv).
  assert (o = side_org t s) as -> by congruence. exists g. by destruct Hg as [?|[_ ?]].
Qed.

Lemma require_succeeds w : db w = d → Succeeds (require_execution_eligible_user u) w.
Proof.
  intros Hd. destruct Hp as [_ _ Horg Hrole He]. unfold require_execution_eligible_user.
  rewrite Hrole, Horg, bool_decide_eq_false_2 by (by destruct s).
  apply succeeds_bind; [by apply succeeds_refuse|]. intros [] w1 [_ ->]%refuse_ok.
  apply succeeds_bind; [apply succeeds_gets|]. intros d' w2 [= <- <-]. cbv zeta. rewrite Hd.
  apply succeeds_refuse. cbn [mbind option_bind]. by rewrite He.
Qed.

(** The actor's own ownership, and both parties' approved organizations. *)
Lemma lock_and_load_succeeds orgs w :
  db w = d → side_org t s ∈ orgs →
  (∀ org, org ∈ orgs → ∃ g, organizations d !! org = Some g ∧ g_verification_status g = "APPROVED") →
  Succeeds (lock_and_load_market_organizations orgs [MkMarketActorOwnership (u_id u) (side_org t s)] true []) w.
Proof.
  intros Hd Hin Hall. destruct Hp as [Hrow _ Horg _ He].
  unfold lock_and_load_market_organizations.
  rewrite bool_decide_eq_false_2.
  2: { intros Hnil. apply (proj2 (sorted_set_elem _ _)) in Hin. rewrite Hnil in Hin. by apply elem_of_nil in Hin. }
  assert (ownership_by_user [MkMarketActorOwnership (u_id u) (side_org t s)] = {[ u_id u := side_org t s ]}) as Hown by done.
  cbv zeta. rewrite Hown.
  destruct (lock_actors_run (u_id u) (side_org t s) u w) as (w1 & Hrun & Hd1 & _); [by rewrite Hd|done|]. rewrite Hd in Hd1. unfold Succeeds. erewrite bind_run by exact Hrun.
  unfold lock_organizations. erewrite bind_run.
  2: { erewrite bind_run by reflexivity. erewrite bind_run by reflexivity. reflexivity. }
  change (db (w1 <| locks := _ |>)) with (db w1). rewrite Hd1.
  set (rows := filter _ (organizations d)). set (w2 := w1 <| locks := _ |>).
  assert (∀ org g, rows !! org = Some g → g_verification_status g = "APPROVED") as Hrows.
  { intros org g [Hg Hin']%map_lookup_filter_Some. cbn in Hin'. apply (proj1 (sorted_set_elem _ _)) in Hin'.
    destruct (Hall org Hin') as (g' & Hg' & Hv). congruence. }
  assert (∀ org, org ∈ orgs → rows !! org = organizations d !! org) as Hlook.
  { intros org Hin'. apply locked_lookup. by apply sorted_set_elem. }
  destruct (principal_org) as (g & Hg & _).
  assert (Succeeds (check_actors_eligible {[ u_id u := side_org t s ]} {[ u_id u := u ]} rows) w2) as (x & w3 & Hck).
  { unfold check_actors_eligible. rewrite map_to_list_singleton.
    apply succeeds_bind; [apply succeeds_gets|]. intros d' w' [= <- <-]. cbn [iterM].
    rewrite lookup_singleton_eq, Hlook, Hg by done. change (db w2) with (db w1). rewrite Hd1, <-Hg, He.
    apply succeeds_bind; [by apply succeeds_refuse|]. intros. apply succeeds_ret. }
  eexists _, _. erewrite bind_run; [erewrite bind_run; [erewrite bind_run by exact Hck; reflexivity|]|].
  - apply refuse_run. apply existsb_none. intros [org g'] Hin'. apply elem_of_map_to_list in Hin'.
    rewrite (Hrows org g' Hin'). by rewrite andb_false_r.
  - apply refuse_run. apply bool_decide_eq_false. intros Hne. apply Hne.
    apply elem_of_equiv_empty_L. intros org [Hin' Hout]%elem_of_difference.
    apply elem_of_list_to_set, (proj1 (sorted_set_elem _ _)) in Hin'. apply Hout, elem_of_dom.
    rewrite Hlook by done. destruct (Hall org Hin') as (g' & -> & _). done.
Qed.
End guards.

Section executable.
Context (d : Database) (t : Trade) (buyer seller : User).
Context (Hok : market_ok d) (Hex : executable_trade d t buyer seller).

Lemma party_principal s : ∃ u, principal d t s u.
Proof. destruct Hex as [_ Hb Hs _ _ _], s; eauto. Qed.

Lemma party_orgs org :
  org ∈ [t_buyer_id t; t_seller_id t] → ∃ g, organizations d !! org = Some g ∧ g_verification_status g = "APPROVED".
Proof.
  intros Hin. assert (∃ s, org = side_org t s) as [s ->].
  { apply elem_of_cons in Hin as [->|Hin]; [by exists BID|]. apply list_elem_of_singleton in Hin as ->. by exists ASK. }
  destruct (party_principal s) as [u Hu]. by eapply principal_org.
Qed.

Lemma lock_parties_succeeds s u w : principal d t s u → db w = d → Succeeds (lock_trade_parties t u) w.
Proof.
  intros Hu Hd. unfold lock_trade_parties. cbv zeta. rewrite (pr_org _ _ _ _ Hu).
  assert (side_org t s ∈ [t_buyer_id t; t_seller_id t]) as Hin by (destruct s; [by left|by right; left]).
  change (option_list (Some (side_org t s))) with [side_org t s].
  rewrite filter_cons_False by (intros Hn; by apply Hn). rewrite filter_nil, app_nil_r.
  apply succeeds_bind; [|intros; apply succeeds_ret].
  apply (lock_and_load_succeeds d t s u Hu); [done|done|]. apply party_orgs.
Qed.

Lemma lock_rows_succeeds w : db w = d → Succeeds (_lock_trade_market_rows (t_id t)) w.
Proof.
  intros Hd. destruct Hex as [Hrow _ _ _ _ (o & Hl & Hslice)].
  destruct (linked_order_lookup d t Hok o Hl) as [Hoid Ho].
  assert (JSON_SCHEMA_PATTERN (o_availability_window o) = true) as Hwin.
  { destruct Hok as (_ & _ & _ & _ & Hw & _). by apply (Hw (o_id o)). }
  assert (∀ w, db w = d → ∀ b, ∃ w', _load_trade (t_id t) b w = Ok t w' ∧ db w' = d) as Hload.
  { intros w1 Hd1 b. destruct b; eexists; (split; [unfold _load_trade, mbind, M_bind; cbn; by rewrite Hd1, Hrow|done]). }
  unfold _lock_trade_market_rows, Succeeds. destruct (Hload w Hd false) as (w1 & Hrun1 & Hd1).
  erewrite bind_run by exact Hrun1. erewrite bind_run by reflexivity. rewrite Hd1, Hslice. unfold order_slice. cbv zeta.
  erewrite bind_run.
  2: { unfold acquire_market_slice_lock. rewrite (normalize_of_canonical _ Hwin). by erewrite bind_run by reflexivity. }
  set (w2 := w1 <| locks := _ |>). destruct (Hload w2 Hd1 true) as (w3 & Hrun3 & Hd3).
  erewrite bind_run by exact Hrun3. erewrite bind_run by reflexivity. rewrite Hd3, Hslice.
  unfold rollback_raise at 1. rewrite bool_decide_eq_false_2 by (intros Hn; by apply Hn). rewrite Hoid.
  do 2 (erewrite bind_run by reflexivity). change (db (w3 <| locks := _ |>)) with (db w3). rewrite Hd3, Ho.
  unfold rollback_raise. rewrite bool_decide_eq_false_2 by (intros Hn; by apply Hn). by eexists _, _.
Qed.

(** No order of the trade is assisted: the ordinary principal path applies. *)
Lemma linked_self_service o : linked_order d t = Some o → o_creation_method o ≠ MARKET_SUPPORT.
Proof.
  intros Hl. apply (ex_self_service _ _ _ _ Hex). unfold linked_order, trade_order_id, bid_order_of, ask_order_of in *.
  destruct (t_ask_order_id t) as [a|]; [by right|]. by left.
Qed.

Lemma authorize_self u expected w : ∃ w1, _authorize_assisted_trade_actor t (linked_order d t) u expected w = Ok false w1 ∧ db w1 = db w.
Proof.
  unfold _authorize_assisted_trade_actor. destruct (linked_order d t) as [o|] eqn:Hl; [|by exists w].
  unfold _assisted_trade_side. rewrite bool_decide_eq_true_2 by (by apply linked_self_service).
  exists w. by erewrite bind_run by reflexivity.
Qed.

Lemma side_admitted s u o :
  principal d t s u → o = bid_order_of d t ∨ o = ask_order_of d t →
  side_eligible d o (users d !! u_id u) (organizations d !! side_org t s) = true.
Proof.
  intros [Hrow _ _ _ He] Ho. rewrite Hrow. unfold side_eligible. destruct o as [o|]; [|done].
  unfold order_owner_is_execution_eligible. rewrite bool_decide_eq_true_2; [done|].
  apply (ex_self_service _ _ _ _ Hex). destruct Ho as [-> | ->]; auto.
Qed.

Lemma revalidate_succeeds w : db w = d → Succeeds (_revalidate_trade_parties t) w.
Proof.
  intros Hd. destruct Hex as [_ Hb Hs _ _ _]. unfold _revalidate_trade_parties, lock_users, lock_organizations.
  pose proof (pr_recorded _ _ _ _ Hb) as Hrb. pose proof (pr_recorded _ _ _ _ Hs) as Hrs. cbn in Hrb, Hrs.
  rewrite Hrb, Hrs. unfold Succeeds.
  erewrite bind_run by (erewrite bind_run by reflexivity; by erewrite bind_run by reflexivity).
  erewrite bind_run by (erewrite bind_run by reflexivity; by erewrite bind_run by reflexivity).
  erewrite bind_run by reflexivity. cbn [db set_field]. cbv zeta.
  match goal with |- context [db ?x] => change (db x) with (db w) end. rewrite Hd.
  rewrite !locked_lookup by first [by left|by right; left].
  pose proof (side_admitted BID buyer (bid_order_of d t) Hb (or_introl eq_refl)) as Heb.
  pose proof (side_admitted ASK seller (ask_order_of d t) Hs (or_intror eq_refl)) as Hes. cbn in Heb, Hes.
  rewrite Heb, Hes. by eexists _, _.
Qed.
Lemma principal_passes s u : principal d t s u → is_principal u (side_org t s) (side_user t s) = true.
Proof. intros Hu. apply is_principal_spec. split; [exact (pr_org _ _ _ _ Hu)|exact (pr_recorded _ _ _ _ Hu)]. Qed.

Lemma admit_confirmation_succeeds u w :
  db w = d → t_status t = PENDING_CONFIRMATION → principal d t (counterparty_side t) u →
  Succeeds (admit_confirmation t (linked_order d t) u) w.
Proof.
  intros Hd Hs Hu. pose proof (principal_passes _ u Hu) as Hp. unfold admit_confirmation.
  destruct (ex_live _ _ _ _ Hex) as [Hlb Hls].
  apply succeeds_bind; [apply succeeds_refuse; by rewrite bool_decide_eq_false_2 by (intros Hn; by apply Hn)|].
  intros [] w1 [_ ->]%refuse_ok.
  apply succeeds_bind; [apply succeeds_refuse; by rewrite Hlb, Hls|]. intros [] w2 [_ ->]%refuse_ok.
  destruct (authorize_self u (Some (counterparty_side t)) w) as (w3 & Hrun & Hd3).
  unfold Succeeds. erewrite bind_run by exact Hrun. apply succeeds_bind.
  - unfold counterparty_side in Hp. destruct (t_initiated_by t); apply succeeds_refuse; cbn in Hp; by rewrite Hp.
  - intros [] w4 H4. apply revalidate_succeeds.
    destruct (t_initiated_by t); apply refuse_ok in H4 as [_ ->]; congruence.
Qed.

Lemma admit_delivery_succeeds s p u w :
  db w = d → t_status t = CONFIRMED → principal d t s u →
  deliver_payload_valid p → to_cents (td_final_quantity_mt p) <= t_quantity_mt t →
  10 * Z.abs (to_cents (td_final_price_per_mt p) - t_price_per_mt_usd t) <= t_price_per_mt_usd t →
  Succeeds (admit_delivery t (linked_order d t) p u) w.
Proof.
  intros Hd Hs Hu [_ Hpp] Hq Hprice. pose proof (principal_passes _ u Hu) as Hp. unfold admit_delivery.
  apply succeeds_bind; [apply succeeds_refuse; by rewrite bool_decide_eq_false_2 by (intros Hn; by apply Hn)|].
  intros [] w1 [_ ->]%refuse_ok.
  destruct (authorize_self u None w) as (w2 & Hrun & Hd2). unfold Succeeds. erewrite bind_run by exact Hrun.
  apply succeeds_bind; [apply succeeds_refuse; destruct s; cbn in Hp; by rewrite Hp, ?orb_true_r|].
  intros [] w3 [_ ->]%refuse_ok.
  apply succeeds_bind; [apply revalidate_succeeds; congruence|]. intros [] w4 _.
  apply succeeds_bind; [apply succeeds_refuse; by apply Z.ltb_ge|]. intros [] w5 _.
  pose proof (step_trade_checks d t Hok (ex_row _ _ _ _ Hex)) as (_ & (_ & Hr & _) & _).
  destruct (price_band_run (td_final_price_per_mt p) (t_price_per_mt_usd t) Hpp) as (pct & Hpct & Hb);
    [unfold required_numeric in Hr; lia|].
  apply succeeds_bind; [by eapply succeeds_lift|]. intros pct' w6 [Hpct' ->]%lift_ok.
  apply succeeds_refuse. assert (pct' = pct) as -> by congruence. rewrite Hb. apply bool_decide_eq_false. lia.
Qed.

Lemma admit_payment_succeeds u w :
  db w = d → t_status t = DELIVERED → principal d t ASK u →
  Succeeds (admit_payment t (linked_order d t) u) w.
Proof.
  intros Hd Hs Hu. pose proof (principal_passes _ u Hu) as Hp. cbn in Hp. unfold admit_payment.
  apply succeeds_bind; [apply succeeds_refuse; by rewrite bool_decide_eq_false_2 by (intros Hn; by apply Hn)|].
  intros [] w1 [_ ->]%refuse_ok.
  destruct (authorize_self u (Some ASK) w) as (w2 & Hrun & Hd2). unfold Succeeds. erewrite bind_run by exact Hrun.
  apply succeeds_bind; [apply succeeds_refuse; by rewrite Hp, andb_false_r|]. intros [] w3 [_ ->]%refuse_ok.
  apply succeeds_bind.
  { apply succeeds_refuse. rewrite (pr_role _ _ _ _ Hu). rewrite bool_decide_eq_false_2; [done|]. intros Hn. by apply Hn. }
  intros [] w4 [_ ->]%refuse_ok. apply revalidate_succeeds. congruence.
Qed.

(** Past the guards, only the effects remain. *)
Lemma admitted_completes operation target s u guard effects payload w :
  db w = d → principal d t s u → Keeps reads (guard t (linked_order d t)) →
  (∀ w', db w' = d → Succeeds (guard t (linked_order d t)) w') →
  (∀ w1 w2, db w1 = d → guard t (linked_order d t) w1 = Ok tt w2 → reads w w2 →
     lifecycle_outcome (λ _ _, False) operation target w (t_id t) u (effects None t (linked_order d t) w2)) →
  synced w →
  lifecycle_outcome (λ _ _, False) operation target w (t_id t) u
    (run_command None u operation (t_id t) payload (λ command,
       require_execution_eligible_user u ;;
       rows ← _lock_trade_market_rows (t_id t);
       let '(trade, order) := rows in
       lock_trade_parties trade u ;;
       guard trade order ;;
       effects command trade order) w).
Proof.
  intros Hd Hu Hkeep Hguard Heff Hsync. unfold run_command. erewrite bind_run by reflexivity. cbn [mbind option_bind].
  destruct (require_succeeds d t s u Hu w Hd) as ([] & w1 & H1). erewrite bind_run by exact H1.
  apply (keeps_ok reads) in H1 as Hr1; [|keeps]. assert (db w1 = d) as Hd1 by (rewrite <-Hd; apply Hr1).
  destruct (lock_rows_succeeds w1 Hd1) as ([t' o] & w2 & H2). erewrite bind_run by exact H2.
  apply (keeps_ok reads_synced) in H2 as Hr2; [|keeps]. apply (reads_trans_synced w w1 w2 Hsync Hr1) in Hr2.
  apply lock_rows_ok in H2 as (Ht & Ho & _). rewrite Hd1, (ex_row _ _ _ _ Hex) in Ht. injection Ht as <-.
  rewrite Hd1 in Ho. subst o. assert (db w2 = d) as Hd2 by (rewrite <-Hd; apply Hr2).
  destruct (lock_parties_succeeds s u w2 Hu Hd2) as ([] & w3 & H3). erewrite bind_run by exact H3.
  apply (keeps_ok reads) in H3 as Hr3; [|keeps]. assert (reads w w3) as Hrw3 by (by trans w2).
  assert (db w3 = d) as Hd3 by (rewrite <-Hd; apply Hrw3).
  destruct (Hguard w3 Hd3) as ([] & w4 & H4). erewrite bind_run by exact H4.
  apply (keeps_ok reads) in H4 as Hr4; [|done]. apply (Heff w3 w4); [done..|by trans w3].
Qed.
End executable.

(** ** Each step completes *)

(** The effects of a route end in a fresh response. *)
Definition ReturnsFresh (m : M World reply) : Prop := ∀ w r w', m w = Ok r w' → ∃ x, r = Fresh x.
Lemma fresh_bind {A} (m : M World A) k : (∀ a, ReturnsFresh (k a)) → ReturnsFresh (m ≫= k).
Proof. intros H w r w' (a & w1 & _ & Hrun)%bind_ok. by eapply H. Qed.
Lemma fresh_ret x : ReturnsFresh (mret (Fresh x)).
Proof. intros w r w' [= <- <-]. by exists x. Qed.
Lemma finish_fresh command t u : ReturnsFresh (finish_command command t u).
Proof. unfold finish_command. repeat (apply fresh_bind; intros). apply fresh_ret. Qed.
Ltac returns_fresh :=
  repeat first
    [ apply finish_fresh
    | apply fresh_bind; intros; try match goal with |- context [let '(_, _) := ?x in _] => destruct x end ].

Lemma run_command_fresh u operation id payload body :
  (∀ command, ReturnsFresh (body command)) → ReturnsFresh (run_command None u operation id payload body).
Proof. intros H w r w' (c & w1 & [= <- <-] & Hrun)%bind_ok. exact (H None w r w' Hrun). Qed.

Lemma completes_fresh operation target w id u o :
  (∀ r w', o = Ok r w' → ∃ x, r = Fresh x) →
  lifecycle_outcome (λ _ _, False) operation target w id u o → ∃ r w', o = Ok (Fresh r) w'.
Proof.
  intros Hf Ho. destruct o as [r w'|e w']; [|done]. destruct (Hf r w' eq_refl) as [x ->]. by exists x, w'.
Qed.

(** Only the progress of the trade has changed, so it is as executable as it was. *)
Lemma executable_next d d' t t' buyer seller :
  executable_trade d t buyer seller → agreed_terms t' = agreed_terms t → trades d' !! t_id t = Some t' →
  orders d' = orders d → same_people d d' → executable_trade d' t' buyer seller.
Proof.
  intros [Hrow Hb Hs Hl Hss Ho] Hterms Ht' Eo [Eu Eg].
  assert (∀ s u, principal d t s u → principal d' t' s u) as Hp.
  { intros s u [P1 P2 P3 P4 P5]. destruct t, t'. injection Hterms as; subst.
    split; rewrite ?Eu, ?Eg; try done. unfold execution_party_is_eligible in *. by rewrite Eg. }
  split; [|by apply Hp|by apply Hp|..]; destruct t, t'; injection Hterms as; subst; try done.
  - intros o. unfold bid_order_of, ask_order_of. rewrite Eo. apply Hss.
  - unfold linked_order, _trade_market_slice, ask_order_of, bid_order_of in *. by rewrite Eo.
Qed.

Section steps.
Context (cfg : Settings) (buyer seller : User).

Definition party (s : OrderSide) : User := match s with ASK => seller | BID => buyer end.

(** The party of side [s] makes the request, without a key. *)
Definition requested (a : Arrival) (s : OrderSide) (r : request) : Prop :=
  ar_actor a = u_id (party s) ∧ ar_key a = None ∧ ar_request a = r.

(** What the lifecycle routes rely on. *)
Definition settled_books (d : Database) : Prop := market_ok d ∧ items_exist d.

(** [t] has advanced to [t'], and can go on. *)
Record progressed (d : Database) (t : Trade) (u : User) (d' : Database) (t' : Trade) : Prop := {
  pg_row : trades d' !! t_id t' = Some t';
  pg_id : t_id t' = t_id t;
  pg_sound : settled_books d';
  pg_executable : executable_trade d' t' buyer seller;
  pg_step : ∃ seen m, lifecycle_step d seen u t m ∧ mv_trade m = t';
}.

Section step.
Context (d : Database) (t : Trade) (a : Arrival) (s : OrderSide).
Context (Hsound : settled_books d) (Hex : executable_trade d t buyer seller).

Lemma party_is_principal : principal d t s (party s).
Proof. destruct s; apply Hex. Qed.

Lemma step_completes operation (target : Trade → Prop) o :
  (∀ x, target x → t_status x ≠ DECLINED) →
  lifecycle_outcome (λ _ _, False) operation target (session cfg a d) (t_id t) (party s) o →
  (∀ r w', o = Ok r w' → ∃ x, r = Fresh x) →
  ∃ t', progressed d t (party s) (committed (final o)) t' ∧ target t'.
Proof.
  intros Hnd Ho Hf. destruct Hsound as [Hok Hitems].
  destruct (completes_fresh _ _ _ _ _ _ Hf Ho) as (r & w' & ->). cbn in *.
  destruct Ho as (t0 & m & Ht & Hl & Htarget & _ & Hled & Hok' & Hcom & Hpeople).
  rewrite Hcom in *.
  rewrite (ex_row _ _ _ _ Hex) in Ht. injection Ht as <-. pose proof (ex_row _ _ _ _ Hex) as Ht.
  assert (settled_books (db w')) as Hbooks.
  { split; [done|]. apply (same_ledger_items (moved d m)); [done|]. apply moved_items; [|done].
    apply (lifecycle_balanced d t Hok Ht (observed (session cfg a d)) (party s)); [done|]. by apply (moved_checked d m (db w') (proj1 Hok')). }
  destruct Hled as (Eo & Et & _).
  assert (t_id (mv_trade m) = t_id t) as Hid by (by destruct Hl as [| ? _ _ []| |]).
  assert (trades (db w') !! t_id (mv_trade m) = Some (mv_trade m)) as Hrow.
  { rewrite Et. cbn. by rewrite lookup_insert_eq. }
  exists (mv_trade m). split; [|done]. split; [done|done|done| |by eexists _, m].
  apply (executable_next d _ t); [done|by apply (lifecycle_advances d (observed (session cfg a d)) (party s) t m)|by rewrite <-Hid| |done].
  rewrite Eo. destruct Hl as [|m _ _ Hr| |]; try done. destruct (Hnd _ Htarget). by destruct Hr.
Qed.

(** Serving the request is running its route. *)
Lemma serve_run r :
  requested a s r → request_valid r = true → serve cfg d a = committed (run_request a (party s) (session cfg a d)).
Proof.
  intros (Hactor & _ & Hr) Hv. unfold serve.
  by rewrite Hactor, (pr_row _ _ _ _ party_is_principal), Hr, Hv.
Qed.

Lemma confirm_completes :
  requested a s (Confirm (t_id t)) → t_status t = PENDING_CONFIRMATION → s = counterparty_side t →
  ∃ t', progressed d t (party s) (serve cfg d a) t' ∧ t_status t' = CONFIRMED.
Proof.
  intros Ha Hs Hside. rewrite (serve_run _ Ha eq_refl). destruct Ha as (_ & Hkey & Hr), Hsound as [Hok Hitems].
  unfold run_request. rewrite Hr, Hkey.
  apply (step_completes TRADE_CONFIRM_OPERATION (in_status CONFIRMED)); [by intros x ->| |].
  - apply (admitted_completes d t buyer seller Hok Hex _ _ s (party s) (λ t o, admit_confirmation t o (party s)) (confirm_effects (party s)));
      [done|apply party_is_principal|keeps| | |done].
    + intros w' Hd. apply (admit_confirmation_succeeds d t buyer seller Hex); [done|done|]. rewrite <-Hside. apply party_is_principal.
    + intros w1 w2 Hd1 Hadm Hr2. eapply confirm_effects_outcome; try done; [apply party_is_principal|apply Hex].
  - apply run_command_fresh. intros command. returns_fresh.
Qed.

Lemma deliver_completes p :
  requested a s (Deliver (t_id t) p) → t_status t = CONFIRMED → deliver_payload_valid p →
  to_cents (td_final_quantity_mt p) <= t_quantity_mt t →
  10 * Z.abs (to_cents (td_final_price_per_mt p) - t_price_per_mt_usd t) <= t_price_per_mt_usd t →
  ∃ t', progressed d t (party s) (serve cfg d a) t' ∧ delivered_as p t'.
Proof.
  intros Ha Hs Hp Hq Hprice. rewrite (serve_run _ Ha) by (by apply bool_decide_eq_true).
  destruct Ha as (_ & Hkey & Hr), Hsound as [Hok Hitems]. unfold run_request. rewrite Hr, Hkey.
  apply (step_completes TRADE_DELIVER_OPERATION (delivered_as p)); [by intros x [-> _]| |].
  - apply (admitted_completes d t buyer seller Hok Hex _ _ s (party s) (λ t o, admit_delivery t o p (party s))
      (deliver_effects p (party s))); [done|apply party_is_principal|keeps| | |done].
    + intros w' Hd. apply (admit_delivery_succeeds d t buyer seller Hok Hex s); try done. apply party_is_principal.
    + intros w1 w2 Hd1 Hadm Hr2. eapply deliver_effects_outcome; try done; [apply party_is_principal|apply Hex].
  - apply run_command_fresh. intros command. returns_fresh.
Qed.

Lemma pay_completes :
  requested a s (Pay (t_id t)) → s = ASK → t_status t = DELIVERED →
  ∃ t', progressed d t (party s) (serve cfg d a) t' ∧ t_status t' = PAID.
Proof.
  intros Ha Hside Hs. rewrite (serve_run _ Ha eq_refl). destruct Ha as (_ & Hkey & Hr), Hsound as [Hok Hitems].
  unfold run_request. rewrite Hr, Hkey. pose proof party_is_principal as Hp.
  apply (step_completes TRADE_PAY_OPERATION (in_status PAID)); [by intros x ->| |].
  - apply (admitted_completes d t buyer seller Hok Hex _ _ s (party s) (λ t o, admit_payment t o (party s)) (pay_effects (party s)));
      [done|done|keeps| | |done].
    + intros w' Hd. apply (admit_payment_succeeds d t buyer seller Hex); [done|done|]. by rewrite <-Hside.
    + intros w1 w2 Hd1 Hadm Hr2. eapply pay_effects_outcome; try done; [apply Hp|apply Hex].
  - apply run_command_fresh. intros command. returns_fresh.
Qed.
End step.
End steps.

(** C7: A pending trade can be completed.  In any market that satisfies the
    invariant, a pending trade between two admitted principals, on a self-service
    order of its slice, is never stuck: the counterparty's confirmation, a
    delivery by either party within the traded quantity and the price band, and
    the seller's payment are each served, one after the other, and leave the
    trade paid, with the delivered quantity and price and every agreed term
    unchanged. *)
Theorem trade_can_be_completed cfg d t buyer seller s p confirm deliver pay :
  market_ok d → items_exist d → executable_trade d t buyer seller → t_status t = PENDING_CONFIRMATION →
  deliver_payload_valid p → to_cents (td_final_quantity_mt p) <= t_quantity_mt t →
  10 * Z.abs (to_cents (td_final_price_per_mt p) - t_price_per_mt_usd t) <= t_price_per_mt_usd t →
  requested buyer seller confirm (counterparty_side t) (Confirm (t_id t)) →
  requested buyer seller deliver s (Deliver (t_id t) p) →
  requested buyer seller pay ASK (Pay (t_id t)) →
  ∃ t', trades (serve_all cfg d [confirm; deliver; pay]) !! t_id t = Some t' ∧ t_status t' = PAID
    ∧ t_final_quantity_mt t' = Some (to_cents (td_final_quantity_mt p))
    ∧ t_final_price_per_mt t' = Some (to_cents (td_final_price_per_mt p))
    ∧ agreed_terms t' = agreed_terms t.
Proof.
  intros Hok Hitems Hex Hs Hp Hq Hprice Hc Hd Hpay.
  destruct (confirm_completes cfg buyer seller d t confirm _ (conj Hok Hitems) Hex Hc Hs eq_refl) as (t1 & P1 & H1).
  destruct P1 as [_ Hid1 Hs1 Hex1 (seen1 & m1 & Hl1 & <-)]. pose proof (lifecycle_advances _ _ _ _ _ Hl1) as [E1 _].
  set (t1 := mv_trade m1) in *. rewrite <-Hid1 in Hd, Hpay |- *.
  assert (t_quantity_mt t1 = t_quantity_mt t) as Hq1 by exact (f_equal t_quantity_mt E1).
  assert (t_price_per_mt_usd t1 = t_price_per_mt_usd t) as Hp1 by exact (f_equal t_price_per_mt_usd E1).
  rewrite <-Hq1 in Hq. rewrite <-Hp1 in Hprice.
  destruct (deliver_completes cfg buyer seller _ t1 deliver s Hs1 Hex1 p Hd H1 Hp Hq Hprice) as (t2 & P2 & H2 & Hfq & Hfp).
  destruct P2 as [_ Hid2 Hs2 Hex2 (seen2 & m2 & Hl2 & <-)]. pose proof (lifecycle_advances _ _ _ _ _ Hl2) as [E2 _].
  set (t2 := mv_trade m2) in *. rewrite <-Hid2 in Hpay |- *.
  destruct (pay_completes cfg buyer seller _ t2 pay ASK Hs2 Hex2 Hpay eq_refl H2) as (t3 & [Hrow Hid3 _ _ (seen3 & m3 & Hl3 & <-)] & H3).
  pose proof (lifecycle_advances _ _ _ _ _ Hl3) as [E3 _].
  exists (mv_trade m3). rewrite Hid3 in Hrow. split_and!; [exact Hrow|exact H3|..|congruence];
    destruct Hl3 as [|? Hs' ? ?| |]; try discriminate H3; try done; congruence.
Qed.

(** The hit of the demo market can be completed. *)
Lemma demo_executable : executable_trade (db Demo.hit) Demo.pending Demo.buyer Demo.supplier.
Proof.
  split; [reflexivity|split; vm_compute; reflexivity|split; vm_compute; reflexivity|by split| |].
  - intros o [H|H]; vm_compute in H; [discriminate|]. injection H as <-. done.
  - eexists. split; vm_compute; reflexivity.
Qed.

Definition unkeyed (actor : uuid) (r : request) : Arrival :=
  MkArrival actor None r (ar_clock (demo_arrival actor r)) Demo.noon 100.

Lemma trade_can_be_completed_witness :
  ∃ t', trades (serve_all default_settings (db Demo.hit)
          [unkeyed 12 (Confirm 81); unkeyed 11 (Deliver 81 demo_delivery); unkeyed 12 (Pay 81)]) !! 81%N = Some t'
    ∧ t_status t' = PAID ∧ t_final_quantity_mt t' = Some 10000 ∧ t_final_price_per_mt t' = Some 60100
    ∧ agreed_terms t' = agreed_terms Demo.pending.
Proof.
  apply (trade_can_be_completed default_settings (db Demo.hit) Demo.pending Demo.buyer Demo.supplier BID demo_delivery
    (unkeyed 12 (Confirm 81)) (unkeyed 11 (Deliver 81 demo_delivery)) (unkeyed 12 (Pay 81))
    hit_ok hit_items demo_executable eq_refl); try done; split_and!; reflexivity.
Defined.
